(* ===== verification/_CoqProject ===== *)
-Q . S2P
Prelude.v
Mmu.v
Memory.v
Kalloc.v
PageTable.v
Vm.v
Paging.v
VmInv.v
Replacement.v
Demand.v
Cow.v
Uvm.v
Kvm.v
CowFork.v
Demo.v
VmProps.v
Strings.v
Pipe.v
Bytes.v
Bio.v
Log.v
Txn.v
Crash.v
Fs.v
FsBlock.v
FsFile.v
FsRw.v
FsDemo.v
FsPath.v
File.v
Syscall.v
Sysfile.v
FsSwap.v
FsVm.v
Proc.v
ProcInv.v
Seg.v
Trap.v
Console.v
Grep.v
Locks.v
Sleeplock.v
Umalloc.v
Sh.v
KBytes.v
Exec.v
ExecArgs.v
ShRun.v
Ide.v
Mkfs.v
MkfsImg.v
MkfsOk.v
MkfsMain.v
Boot.v
Sched.v
Kbd.v
Tools.v
Entry.v
Bootmain.v
Mp.v
Devices.v
Main.v
Smp.v
Umode.v
Usertests.v
Utils.v
Uart.v
Callers.v
Initcode.v
