(* ===== verification/Prelude.v ===== *)
(** * xv6 with demand paging: a verification development

    The program is xv6, a small Unix for x86 multiprocessors, extended with
    demand paging to a swap file per process (five replacement policies),
    copy-on-write [fork] and counters of pages.  This library models it file by
    file as functions and step relations and proves what each part promises and
    that the parts fit together.  All files use stdpp; nothing is assumed beyond
    the libraries.

    ** How code becomes definitions

    A C function that may panic, fault, sleep or loop is a computation
    [M S A = S -> outcome S A] over the state of its component (below):
    [Ok], [Panic], [Fault] (a bad address), [Blocked] (it sleeps in this state),
    [NoFuel].  [panic] is a value, so that a theorem that a function returns
    also says that no check in it fails.  A [uint] is a [Z] with its
    wrap-around written out ([u32]); an [int] is read with [s32].  Arrays are
    lists, and pointers to structures are places in them; memory proper is frames
    of words ([Memory]) or bytes.  [zoom] runs a computation of one component on
    the state of a larger one.  What is done under one spin lock is one step;
    [Locks] shows why that is sound.  Code of concurrent processes or processors
    is a step relation, and its properties are invariants of every reachable
    state, whatever the interleaving.

    ** The parts

    This file, [Prelude], holds the computations, the tactics and the lemmas on
    lists and machine integers that the others share.

    Memory.
    - [Mmu]: macros of [mmu.h], [memlayout.h], [param.h].  [Memory]: frames.
    - [Kalloc]: [kalloc.c], the free list in memory with its reference counts.
    - [PageTable]: [walkpgdir], [mappages] and the rest of the first half of
      [vm.c], with the hardware's walk [translate].
    - [Vm]: the second half of [vm.c]: [swap], [handle_pf], [handle_cow],
      [allocuvm], [deallocuvm], [freevm], [copyuvm], [copyonwriteuvm], the
      replacement policies.  The swap file is the class [SwapFile].
    - [Paging], [VmInv]: invariants.  [view] is the page a process sees at an
      address, wherever it is kept.  [Replacement], [Demand], [Cow], [Uvm], [Kvm],
      [CowFork]: the operations, verified.  [Demo]: concrete address spaces.
      [VmProps]: the theorems.  [FsSwap], [FsVm]: the file system's swap files
      implement [SwapFile].
    - [Main]: [main]'s memory set-up, from the end of the kernel's image.

    Files.
    - [Bio]: [bio.c] over [memide.c].  [Ide]: [ide.c] over the ports of a
      controller (class [Controller] with its laws), equal to [memide.c].
    - [Log], [Txn], [Crash]: [log.c], the sequence of block writes, and recovery
      after a crash at any point of it.
    - [Bytes], [Fs], [FsBlock], [FsFile], [FsRw], [FsPath], [FsDemo]: [fs.c].
    - [File], [Syscall], [Sysfile]: [file.c], [syscall.c], [sysfile.c].
    - [Mkfs], [MkfsImg], [MkfsOk], [MkfsMain]: [mkfs.c].  [Boot]: the kernel on the
      image [mkfs] makes.

    Processes and processors.
    - [Proc], [ProcInv]: [proc.c], over the class [Services] of what it asks of
      the other components.  [Sched]: [scheduler], [sched], [sleep], [wakeup] on
      any number of CPUs.  [Trap]: [trap.c], [sysproc.c].
    - [Locks], [Sleeplock], [Callers]: [spinlock.c], [sleeplock.c], [mycpu].
    - [Seg]: segments, gates, task state.  [Entry]: [trapasm.S], [vectors.pl],
      [swtch.S] on a machine with registers and descriptor checks.
    - [Bootmain], [Mp], [Devices], [Smp]: [bootmain.c], [mp.c], [lapic.c],
      [ioapic.c], [entry.S], [entryother.S], [startothers].
    - [Exec], [ExecArgs], [Initcode]: [exec.c], [initcode.S].
    - [Pipe], [Console], [Kbd], [Uart]: [pipe.c], [console.c], [kbd.c], [uart.c].

    Programs.
    - [Strings], [KBytes]: [string.c], [ulib.c].  [Console] also has [printf.c].
    - [Umalloc]: [umalloc.c].  [Sh], [ShRun]: [sh.c].  [Grep], [Tools]: [grep.c],
      [wc.c], [cat.c], [echo.c].
    - [Umode], [Usertests], [Utils]: programs on the kernel's model:
      [usertests.c], [init.c], [ls.c], [mkdir.c], [rm.c], [ln.c].

    ** What the theorems show

    - Paging is transparent: [swap], [handle_pf], [handle_cow] and
      [copyonwriteuvm] change no page a process sees, of itself or of another
      process, and keep the invariant; growing and shrinking do what they say.
      The file system's swap file keeps the promises paging relies on.
    - Storage: a transaction is there whole or not at all after a crash; the
      buffer cache and the disk driver are a disk; what is written to a file is
      read back; the kernel finds in the image what [mkfs] put there; the
      repository's own file-system tests pass on the model, from the image to
      the last [close], and leave no reference behind.
    - Processes: the table's invariant, no process on two CPUs, no wake-up lost,
      mutual exclusion of both kinds of locks, the interrupt state a thread has.
    - The machine: a trap saves and restores the registers and user code can enter
      the kernel nowhere else; [swtch] resumes a thread where it stopped; the boot
      loader loads the kernel; [main] accounts for every page; no two processors
      share a stack, and all of them start.
    - Devices: keyboard and console are a line editor over the keys that are down;
      a pipe is a queue; the clock is read consistently.
    - Programs: the shell parses what it prints and gives commands the files their
      redirections and pipes name; [malloc]'s blocks stay apart; [match] is the
      language of the pattern; [cat] stops where it says; arguments arrive.

    ** Fuel and bounds

    Loops that the source bounds recurse on that bound.  Others take fuel, and the
    theorems state that it is enough: the length of a string or a path, the
    number of pages in a range, one round more than there are resident pages for the
    second-chance search, the [latency] of a device, the measure of a concurrent
    run.  Where no fuel is enough, a theorem says so (the search of [NFUA_next] when
    every age is the largest number).  A theorem
    that something returns is stated as [... = Ok ...].

    ** Not modelled

    Tests of several processes at once, of memory and of pipes in [usertests.c], its
    longest single-process tests, and [ass3Tests.c], [forktest.c], [stressfs.c]:
    their subjects are the components above.  [kill.c] and [zombie.c]: a loop over
    one call.  [picirq.c]: two port writes.  [panic] beyond the fact that the
    kernel stops, [print_queue], [procdump]'s text on the screen.  The switch from
    real mode in [bootasm.S], the port and control-register instructions of
    [x86.h], the linker scripts and the Perl scripts that build and print.
    Weak memory ordering: accesses of processors interleave.  Code that the
    sources only call (the BIOS, the disk, the interrupt controllers) is given by
    the answers its documentation allows. *)

From Stdlib Require Export ZArith Lia.
From stdpp Require Export base gmap list strings numbers.
Export list_basics.list list_relations.list list_misc.list.

#[export] Set Default Goal Selector "!".
Open Scope Z_scope.

(** ** Machine integers *)

Definition two32 : Z := 4294967296.

(** Unsigned 32-bit wrap-around: what the C type [uint] keeps of a value. *)
Definition u32 (z : Z) : Z := z mod two32.

(** The C type [int] as seen from a 32-bit pattern. *)
Definition s32 (z : Z) : Z :=
  let w := u32 z in if w <? 2147483648 then w else w - two32.

Definition is_u32 (z : Z) : Prop := 0 <= z < two32.
Definition is_s32 (z : Z) : Prop := - 2147483648 <= z < 2147483648.

(** [~x] on 32 bits. *)
Definition not32 (z : Z) : Z := Z.lxor z (two32 - 1).

Declare Scope kern_scope.
Delimit Scope kern_scope with kern.

(** [x & bit] used as a condition. *)
Definition has (x bit : Z) : bool := negb (Z.land x bit =? 0).
Notation "x '.&' b" := (has x b) (at level 35, no associativity) : kern_scope.

(** ** Computations

    A kernel routine maps a state to an outcome: it returns a value, calls
    [panic], takes a page fault the kernel does not handle, goes to sleep
    (with the state it leaves behind), or has not returned within the fuel
    given to one of its loops. *)
Inductive outcome (S A : Type) : Type :=
  | Ok (a : A) (s : S)
  | Panic (msg : string)
  | Fault (va : Z)
  | Blocked (s : S)
  | NoFuel.
Arguments Ok {S A} a s.
Arguments Panic {S A} msg.
Arguments Fault {S A} va.
Arguments Blocked {S A} s.
Arguments NoFuel {S A}.

Definition M (S A : Type) : Type := S -> outcome S A.

Definition bindM {S A B} (m : M S A) (k : A -> M S B) : M S B := fun s =>
  match m s with
  | Ok a s' => k a s'
  | Panic msg => Panic msg
  | Fault va => Fault va
  | Blocked s' => Blocked s'
  | NoFuel => NoFuel
  end.

#[global] Instance M_ret {S} : MRet (M S) := fun A a s => Ok a s.
#[global] Instance M_bind {S} : MBind (M S) := fun A B k m => bindM m k.

Definition get {S} : M S S := fun s => Ok s s.
Definition gets {S A} (f : S -> A) : M S A := fun s => Ok (f s) s.
Definition put {S} (s : S) : M S () := fun _ => Ok () s.
Definition modify {S} (f : S -> S) : M S () := fun s => Ok () (f s).
Definition panic {S A} (msg : string) : M S A := fun _ => Panic msg.
Definition fault {S A} (va : Z) : M S A := fun _ => Fault va.
Definition blocked {S A} : M S A := fun s => Blocked s.
Definition nofuel {S A} : M S A := fun _ => NoFuel.
Definition when {S} (b : bool) (m : M S ()) : M S () := if b then m else mret ().

(** [for (x in l) body]. *)
Fixpoint forM {S A} (l : list A) (body : A -> M S ()) : M S () :=
  match l with
  | [] => mret ()
  | x :: l' => body x;; forM l' body
  end.

(** Run a computation on a part of the state. *)
Definition zoom {S T A} (proj : S -> T) (upd : T -> S -> S) (m : M T A) : M S A :=
  fun s => match m (proj s) with
           | Ok a t => Ok a (upd t s)
           | Panic msg => Panic msg
           | Fault va => Fault va
           | Blocked t => Blocked (upd t s)
           | NoFuel => NoFuel
           end.

(** Total correctness: from [s] the computation returns, and [Q] holds. *)
Definition runs {S A} (m : M S A) (s : S) (Q : A -> S -> Prop) : Prop :=
  exists a s', m s = Ok a s' /\ Q a s'.

Definition returns {S A} (m : M S A) (s : S) : bool := match m s with Ok _ _ => true | _ => false end.

Section runs.
Context {S : Type}.
Implicit Types s : S.

Lemma runs_ret {A} (a : A) s Q : Q a s -> runs (mret a) s Q.
Proof. intros. by exists a, s. Qed.

Lemma runs_bind {A B} (m : M S A) (k : A -> M S B) s Q :
  runs m s (fun a s' => runs (k a) s' Q) -> runs (m ≫= k) s Q.
Proof.
  intros (a & s' & Hm & b & s'' & Hk & HQ). exists b, s''. split; [|done].
  unfold mbind, M_bind, bindM. by rewrite Hm.
Qed.

Lemma runs_mono {A} (m : M S A) s (Q Q' : A -> S -> Prop) :
  runs m s Q -> (forall a s', Q a s' -> Q' a s') -> runs m s Q'.
Proof. intros (a & s' & Hm & HQ) H. exists a, s'. auto. Qed.

Lemma runs_get s Q : Q s s -> runs (@get S) s Q.
Proof. intros. by exists s, s. Qed.

Lemma runs_gets {A} (f : S -> A) s Q : Q (f s) s -> runs (gets f) s Q.
Proof. intros. by exists (f s), s. Qed.

Lemma runs_put s0 s Q : Q () s0 -> runs (put s0) s Q.
Proof. intros. by exists (), s0. Qed.

Lemma runs_modify (f : S -> S) s Q : Q () (f s) -> runs (modify f) s Q.
Proof. intros. by exists (), (f s). Qed.

Lemma runs_when (b : bool) (m : M S ()) s Q :
  (b = true -> runs m s Q) -> (b = false -> Q () s) -> runs (when b m) s Q.
Proof. destruct b; simpl; intros; [auto | apply runs_ret; auto]. Qed.

(** Loop rule: an invariant indexed by the part of the list done so far. *)
Lemma runs_forM {A} (l : list A) (body : A -> M S ()) (I : list A -> S -> Prop) s Q :
  I [] s ->
  (forall done x rest s', l = done ++ x :: rest -> I done s' ->
     runs (body x) s' (fun _ s'' => I (done ++ [x]) s'')) ->
  (forall s', I l s' -> Q () s') ->
  runs (forM l body) s Q.
Proof.
  intros H0 Hstep HQ.
  assert (forall rest done s', l = done ++ rest -> I done s' ->
            runs (forM rest body) s' (fun _ s'' => I l s'')) as Hgen.
  { induction rest as [|x rest IH]; intros done s' Hl HI; simpl.
    - rewrite app_nil_r in Hl. subst. by apply runs_ret.
    - apply runs_bind. eapply runs_mono; [by eapply Hstep|].
      intros ? s'' HI'. eapply IH; [|exact HI']. by rewrite <- app_assoc. }
  eapply runs_mono; [by apply (Hgen l [])|]. intros []. auto.
Qed.

Lemma runs_zoom {T A} (proj : S -> T) upd (m : M T A) s Q :
  runs m (proj s) (fun a t => Q a (upd t s)) -> runs (zoom proj upd m) s Q.
Proof. intros (a & t & Hm & HQ). exists a, (upd t s). unfold zoom. by rewrite Hm. Qed.
End runs.

Create HintDb kern.
#[export] Hint Resolve runs_ret runs_get runs_gets runs_put runs_modify : kern.

(** Step through the head of a monadic program. *)
Ltac run1 :=
  match goal with
  | |- runs (_ ≫= _) _ _ => apply runs_bind
  | |- runs (mret _) _ _ => apply runs_ret
  | |- runs get _ _ => apply runs_get
  | |- runs (gets _) _ _ => apply runs_gets
  | |- runs (put _) _ _ => apply runs_put
  | |- runs (modify _) _ _ => apply runs_modify
  | |- runs (when _ _) _ _ => apply runs_when; intros ?
  end.
Ltac run := repeat (run1; cbn beta).

(** Turn [m s = Ok a s'] for a bind into the results of its parts. *)
Lemma bind_Ok {S A B} (m : M S A) (k : A -> M S B) s b s'' :
  (m ≫= k) s = Ok b s'' -> exists a s', m s = Ok a s' /\ k a s' = Ok b s''.
Proof. unfold mbind, M_bind, bindM. destruct (m s) eqn:E; intros H; try done. eauto. Qed.

Lemma Ok_bind {S A B} (m : M S A) (k : A -> M S B) s a s' :
  m s = Ok a s' -> (m ≫= k) s = k a s'.
Proof. intros E. unfold mbind, M_bind, bindM. by rewrite E. Qed.

Lemma runs_Ok {S A} (m : M S A) s a s' Q :
  m s = Ok a s' -> runs m s Q -> Q a s'.
Proof. intros E (a' & s'' & E' & HQ). rewrite E in E'. injection E'. by intros -> ->. Qed.

Ltac inv_bind :=
  repeat match goal with
  | H : (_ ≫= _) _ = Ok _ _ |- _ =>
      let a := fresh "a" in let s := fresh "s" in let E := fresh "E" in
      apply bind_Ok in H as (a & s & E & H)
  end.

(** Machine arithmetic is never unfolded by simplification. *)
#[global] Arguments two32 : simpl never.
#[global] Arguments u32 : simpl never.
#[global] Arguments s32 : simpl never.
#[global] Arguments not32 : simpl never.
#[global] Arguments has : simpl never.
#[global] Arguments Z.land : simpl never.
#[global] Arguments Z.lor : simpl never.
#[global] Arguments Z.shiftl : simpl never.
#[global] Arguments Z.shiftr : simpl never.
#[global] Arguments Z.pow : simpl never.

(** ** Boolean tests to propositions *)

Ltac bool_prop :=
  repeat match goal with
  | H : _ && _ = true |- _ => apply andb_true_iff in H as [? ?]
  | H : _ && _ = false |- _ => apply andb_false_iff in H
  | H : _ || _ = false |- _ => apply orb_false_iff in H as [? ?]
  | H : _ || _ = true |- _ => apply orb_true_iff in H
  | H : negb _ = true |- _ => apply negb_true_iff in H
  | H : negb _ = false |- _ => apply negb_false_iff in H
  | H : (_ =? _) = true |- _ => apply Z.eqb_eq in H
  | H : (_ =? _) = false |- _ => apply Z.eqb_neq in H
  | H : (_ <? _) = true |- _ => apply Z.ltb_lt in H
  | H : (_ <? _) = false |- _ => apply Z.ltb_ge in H
  | H : (_ <=? _) = true |- _ => apply Z.leb_le in H
  | H : (_ <=? _) = false |- _ => apply Z.leb_gt in H
  end.

Ltac case_bool :=
  match goal with
  | |- context [if ?b then _ else _] => let E := fresh "Hb" in destruct b eqn:E
  | H : context [if ?b then _ else _] |- _ => let E := fresh "Hb" in destruct b eqn:E
  end; bool_prop.

(** Decide every comparison of the goal. *)
Ltac case_cmp :=
  repeat match goal with
  | |- context [?a <=? ?b] => destruct (Z.leb_spec a b)
  | |- context [?a <? ?b] => destruct (Z.ltb_spec a b)
  | |- context [?a =? ?b] => destruct (Z.eqb_spec a b)
  end; cbn [andb orb negb].

(** Arithmetic with [u32]/[mod]/[/] unfolded. *)
Ltac ulia := unfold u32, s32, is_u32, is_s32, two32 in *; Z.div_mod_to_equations; lia.

(** ** Integer lemmas *)

Lemma u32_small z : is_u32 z -> u32 z = z.
Proof. intros. apply Z.mod_small. done. Qed.

Lemma u32_range z : is_u32 (u32 z).
Proof. unfold is_u32, u32, two32. apply Z.mod_pos_bound. lia. Qed.

Lemma u32_idem z : u32 (u32 z) = u32 z.
Proof. apply u32_small, u32_range. Qed.

Lemma u32_add_l a b : u32 (u32 a + b) = u32 (a + b).
Proof. unfold u32. apply Zplus_mod_idemp_l. Qed.

Lemma u32_sub_l a b : u32 (u32 a - b) = u32 (a - b).
Proof. unfold u32. apply Zminus_mod_idemp_l. Qed.

Lemma s32_small z : is_s32 z -> s32 z = z.
Proof. unfold s32. intros. case_bool; ulia. Qed.

Lemma s32_range z : is_s32 (s32 z).
Proof. unfold s32. case_bool; ulia. Qed.

Lemma u32_s32 z : u32 (s32 z) = u32 z.
Proof. unfold s32. case_bool; ulia. Qed.

#[export] Hint Resolve u32_range s32_range : kern.

(** ** Bit lemmas *)

Lemma has_pow2 x k : 0 <= k -> has x (2 ^ k) = Z.testbit x k.
Proof.
  intros Hk. unfold has. rewrite <- (Z.shiftl_1_l k).
  destruct (Z.testbit x k) eqn:E.
  - apply negb_true_iff, Z.eqb_neq. intros H0.
    assert (Z.testbit (Z.land x (Z.shiftl 1 k)) k = false) as H
      by (rewrite H0; apply Z.testbit_0_l).
    rewrite Z.land_spec, E, Z.shiftl_spec, Z.sub_diag in H by lia. done.
  - apply negb_false_iff, Z.eqb_eq. apply Z.bits_inj'. intros n Hn.
    rewrite Z.land_spec, Z.testbit_0_l, Z.shiftl_1_l, Z.pow2_bits_eqb by lia.
    destruct (Z.eqb_spec k n); [subst; by rewrite E | apply andb_false_r].
Qed.

Lemma testbit_small x n k : 0 <= x < 2 ^ n -> n <= k -> Z.testbit x k = false.
Proof.
  intros [H0 Hx] Hk. destruct (Z.leb_spec 0 n); [|rewrite Z.pow_neg_r in Hx by lia; lia].
  rewrite <- (Z.mod_small x (2 ^ n)) by lia. apply Z.mod_pow2_bits_high. lia.
Qed.

Lemma testbit_aligned x n k : x mod 2 ^ n = 0 -> 0 <= k < n -> Z.testbit x k = false.
Proof.
  intros Hx Hk. rewrite (Z.div_mod x (2 ^ n)), Hx, Z.add_0_r, Z.mul_comm by lia.
  rewrite <- Z.shiftl_mul_pow2 by lia. apply Z.shiftl_spec_low. lia.
Qed.

Lemma land_not32 x m : is_u32 x -> Z.land x (not32 m) = Z.ldiff x m.
Proof.
  intros Hx. apply Z.bits_inj'. intros n Hn.
  unfold not32. change (two32 - 1) with (Z.ones 32).
  rewrite Z.land_spec, Z.ldiff_spec, Z.lxor_spec.
  destruct (Z.ltb_spec n 32).
  - rewrite Z.ones_spec_low by lia. by rewrite xorb_true_r.
  - assert (Z.testbit x n = false) as -> by (apply (testbit_small x 32); [done|lia]). done.
Qed.

Lemma ldiff_ones_sub x n : 0 <= n -> Z.ldiff x (Z.ones n) = x - x mod 2 ^ n.
Proof.
  intros. rewrite Z.ldiff_ones_r, Z.shiftr_div_pow2, Z.shiftl_mul_pow2 by lia.
  pose proof (Z.div_mod x (2 ^ n) ltac:(lia)). lia.
Qed.

Lemma lor_disjoint_add a b n : 0 <= n -> a mod 2 ^ n = 0 -> 0 <= b < 2 ^ n -> Z.lor a b = a + b.
Proof.
  intros Hn Ha Hb. symmetry. rewrite <- Z.lxor_lor.
  - apply Z.add_nocarry_lxor. apply Z.bits_inj'. intros k Hk.
    rewrite Z.land_spec, Z.testbit_0_l. destruct (Z.ltb_spec k n).
    + by rewrite (testbit_aligned a n k) by lia.
    + by rewrite (testbit_small b n k), andb_false_r by lia.
  - apply Z.bits_inj'. intros k Hk.
    rewrite Z.land_spec, Z.testbit_0_l. destruct (Z.ltb_spec k n).
    + by rewrite (testbit_aligned a n k) by lia.
    + by rewrite (testbit_small b n k), andb_false_r by lia.
Qed.

Lemma lor_bound a b n : 0 <= n -> 0 <= a < 2 ^ n -> 0 <= b < 2 ^ n -> 0 <= Z.lor a b < 2 ^ n.
Proof.
  intros Hn [Ha Ha'] [Hb Hb']. split; [by apply Z.lor_nonneg|].
  destruct (Z.eq_dec a 0) as [->|]; [by rewrite Z.lor_0_l|].
  destruct (Z.eq_dec b 0) as [->|]; [by rewrite Z.lor_0_r|].
  assert (0 < Z.lor a b).
  { assert (0 <= Z.lor a b) by (by apply Z.lor_nonneg).
    assert (Z.lor a b <> 0) by (intros [? ?]%Z.lor_eq_0_iff; done). lia. }
  apply Z.log2_lt_pow2; [done|].
  rewrite Z.log2_lor by done. apply Z.max_lub_lt; by apply Z.log2_lt_pow2; lia.
Qed.

Lemma lxor_bound a b n : 0 <= n -> 0 <= a < 2 ^ n -> 0 <= b < 2 ^ n -> 0 <= Z.lxor a b < 2 ^ n.
Proof.
  intros Hn [Ha Ha'] [Hb Hb']. assert (0 <= Z.lxor a b) as H0 by (by apply Z.lxor_nonneg). split; [done|].
  destruct (Z.eq_dec (Z.lxor a b) 0) as [->|]; [lia|]. apply Z.log2_lt_pow2; [lia|]. eapply Z.le_lt_trans; [by apply Z.log2_lxor|].
  assert (forall c, 0 <= c < 2 ^ n -> 0 < 2 ^ n -> c = 0 \/ Z.log2 c < n) as H by (intros c Hc _; destruct (Z.eq_dec c 0); [by left|right; apply Z.log2_lt_pow2; lia]).
  pose proof (Z.log2_nonneg a). pose proof (Z.log2_nonneg b). change (Z.log2 0) with 0 in *.
  destruct (H a) as [->|Hla], (H b) as [->|Hlb]; try lia; [done|change (Z.log2 0) with 0; lia..].
Qed.

Lemma land_bound a b n : 0 <= n -> 0 <= a < 2 ^ n -> 0 <= Z.land a b < 2 ^ n.
Proof.
  intros Hn Ha. assert (a = Z.land a (Z.ones n)) as ->.
  { rewrite Z.land_ones by lia. symmetry. by apply Z.mod_small. }
  rewrite <- Z.land_assoc, (Z.land_comm (Z.ones n)), Z.land_assoc, Z.land_ones by lia.
  apply Z.mod_pos_bound. lia.
Qed.

Lemma lor_u32 a b : is_u32 a -> is_u32 b -> is_u32 (Z.lor a b).
Proof. apply (lor_bound a b 32). lia. Qed.

Lemma land_u32 a b : is_u32 a -> is_u32 (Z.land a b).
Proof. apply (land_bound a b 32). lia. Qed.

(** ** List lemmas *)

(** The index of the first element satisfying [p]: the loops
    [for (i = 0; i < n; i++) if (p (a[i])) return i]. *)
Fixpoint find_index {A} (p : A -> bool) (l : list A) : option nat :=
  match l with
  | [] => None
  | x :: l' => if p x then Some 0%nat else S <$> find_index p l'
  end.

Lemma find_index_Some {A} (p : A -> bool) l i :
  find_index p l = Some i <->
  (exists x, l !! i = Some x /\ p x = true) /\
  (forall j y, (j < i)%nat -> l !! j = Some y -> p y = false).
Proof.
  revert i. induction l as [|x l IH]; intros i; simpl.
  - split; [done|]. intros [(y & Hy & _) _]. done.
  - destruct (p x) eqn:Hp.
    + split.
      * intros [= <-]. split; [eauto|]. intros j y Hj. lia.
      * intros [_ Hmin]. destruct i as [|i]; [done|].
        specialize (Hmin 0%nat x ltac:(lia) eq_refl). congruence.
    + destruct i as [|i].
      * split; [by destruct (find_index p l)|].
        intros [(y & [= <-] & Hy) _]. congruence.
      * rewrite fmap_Some. split.
        -- intros (i' & Hi & [= <-]). apply IH in Hi as [Hex Hmin]. split; [done|].
           intros [|j] y Hj Hy; simpl in Hy; [congruence|]. apply (Hmin j); [lia|done].
        -- intros [Hex Hmin]. exists i. split; [|done]. apply IH. split; [done|].
           intros j y Hj Hy. apply (Hmin (S j)); [lia|done].
Qed.

Lemma find_index_None {A} (p : A -> bool) l :
  find_index p l = None <-> forall i x, l !! i = Some x -> p x = false.
Proof.
  induction l as [|x l IH]; simpl; [split; [intros _ i y Hi; done|done]|].
  destruct (p x) eqn:Hp.
  - split; [done|]. intros H. specialize (H 0%nat x eq_refl). congruence.
  - rewrite fmap_None, IH. split.
    + intros H [|i] y Hy; simpl in Hy; [congruence|]. eauto.
    + intros H i y Hy. by apply (H (S i)).
Qed.

Lemma find_index_lt {A} (p : A -> bool) l i : find_index p l = Some i -> (i < length l)%nat.
Proof. intros [(x & Hx & _) _]%find_index_Some. by eapply lookup_lt_Some. Qed.

Lemma filter_keep {A} (P : A -> Prop) `{!forall x, Decision (P x)} l : Forall P l -> filter P l = l.
Proof. induction 1 as [|x l Hx _ IH]; [done|]. by rewrite filter_cons_True, IH. Qed.

Lemma forallb_lookup {A} (p : A -> bool) l i x : forallb p l = true -> l !! i = Some x -> p x = true.
Proof.
  rewrite forallb_forall. intros Hb Hi. apply Hb. apply list_elem_of_In. by eapply list_elem_of_lookup_2.
Qed.

Lemma forallb_Forall_true {A} (p : A -> bool) l : forallb p l = true -> Forall (fun x => p x = true) l.
Proof. rewrite forallb_forall, Forall_forall. intros Hb x Hx. apply Hb. by apply list_elem_of_In. Qed.

(** An index result the way C returns it: -1 for none. *)
Definition c_index (o : option nat) : Z := match o with Some i => Z.of_nat i | None => -1 end.
