(* ===== verification/Mmu.v ===== *)
(** * The x86 memory management unit

    The constants and macros of [mmu.h], [memlayout.h] and [param.h] that the
    kernel computes with: page rounding, the two page-table indices of a
    linear address, the flag bits of a page-table entry, and the fixed map
    between physical and kernel virtual addresses. *)

From S2P Require Import Prelude.

(** ** param.h *)
Definition NPROC : Z := 64.
Definition KSTACKSIZE : Z := 4096.
Definition NCPU : Z := 8.
Definition NOFILE : Z := 16.
Definition NFILE : Z := 100.
Definition NINODE : Z := 50.
Definition NDEV : Z := 10.
Definition ROOTDEV : Z := 1.
Definition MAXARG : Z := 32.
Definition MAXOPBLOCKS : Z := 10.
Definition LOGSIZE : Z := MAXOPBLOCKS * 3.
Definition NBUF : Z := MAXOPBLOCKS * 3.
Definition FSSIZE : Z := 1000.

(** ** memlayout.h *)
Definition EXTMEM : Z := 0x100000.
Definition PHYSTOP : Z := 0xE000000.
Definition DEVSPACE : Z := 0xFE000000.
Definition KERNBASE : Z := 0x80000000.
Definition KERNLINK : Z := KERNBASE + EXTMEM.

Definition V2P (a : Z) : Z := u32 (a - KERNBASE).
Definition P2V (a : Z) : Z := u32 (a + KERNBASE).

(** ** mmu.h *)
Definition NPDENTRIES : Z := 1024.
Definition NPTENTRIES : Z := 1024.
Definition PGSIZE : Z := 4096.
Definition PGSHIFT : Z := 12.
Definition PTXSHIFT : Z := 12.
Definition PDXSHIFT : Z := 22.

Definition PDX (va : Z) : Z := Z.land (Z.shiftr (u32 va) PDXSHIFT) 0x3FF.
Definition PTX (va : Z) : Z := Z.land (Z.shiftr (u32 va) PTXSHIFT) 0x3FF.
Definition PGADDR (d t o : Z) : Z :=
  u32 (Z.lor (Z.lor (Z.shiftl d PDXSHIFT) (Z.shiftl t PTXSHIFT)) o).

Definition PGROUNDUP (sz : Z) : Z := Z.land (u32 (sz + PGSIZE - 1)) (not32 (PGSIZE - 1)).
Definition PGROUNDDOWN (a : Z) : Z := Z.land (u32 a) (not32 (PGSIZE - 1)).

Definition PTE_P : Z := 0x001.
Definition PTE_W : Z := 0x002.
Definition PTE_U : Z := 0x004.
Definition PTE_A : Z := 0x020.
Definition PTE_PS : Z := 0x080.
Definition PTE_PG : Z := 0x200.
Definition PTE_COW : Z := 0x400.

Definition PTE_ADDR (pte : Z) : Z := Z.land (u32 pte) (not32 0xFFF).
Definition PTE_FLAGS (pte : Z) : Z := Z.land (u32 pte) 0xFFF.

Definition MAX_PSYC_PAGES : Z := 16.
Definition MAX_TOTAL_PAGES : Z := 32.

#[global] Arguments V2P : simpl never.
#[global] Arguments P2V : simpl never.
#[global] Arguments PDX : simpl never.
#[global] Arguments PTX : simpl never.
#[global] Arguments PGROUNDUP : simpl never.
#[global] Arguments PGROUNDDOWN : simpl never.
#[global] Arguments PTE_ADDR : simpl never.
#[global] Arguments PTE_FLAGS : simpl never.

(** ** Arithmetic readings of the macros *)

Definition aligned (a : Z) : Prop := a mod PGSIZE = 0.

Lemma PGROUNDDOWN_spec a : is_u32 a -> PGROUNDDOWN a = a - a mod PGSIZE.
Proof.
  intros Ha. unfold PGROUNDDOWN. rewrite u32_small, land_not32 by done.
  change (PGSIZE - 1) with (Z.ones 12). rewrite ldiff_ones_sub by lia. done.
Qed.

Lemma PGROUNDUP_spec a : 0 <= a <= two32 - PGSIZE ->
  PGROUNDUP a = (a + PGSIZE - 1) - (a + PGSIZE - 1) mod PGSIZE.
Proof.
  unfold PGSIZE, two32. intros Ha. unfold PGROUNDUP, PGSIZE.
  rewrite u32_small by ulia. rewrite land_not32 by ulia.
  change (4096 - 1) with (Z.ones 12). by rewrite ldiff_ones_sub by lia.
Qed.

Lemma PTE_ADDR_spec pte : is_u32 pte -> PTE_ADDR pte = pte - pte mod PGSIZE.
Proof. apply PGROUNDDOWN_spec. Qed.

Lemma PTE_FLAGS_spec pte : PTE_FLAGS pte = u32 pte mod PGSIZE.
Proof. unfold PTE_FLAGS. change 0xFFF with (Z.ones 12). by rewrite Z.land_ones by lia. Qed.

Lemma PDX_spec va : is_u32 va -> PDX va = va / 2 ^ 22.
Proof.
  intros Ha. unfold PDX, PDXSHIFT. rewrite u32_small by done.
  change 0x3FF with (Z.ones 10). rewrite Z.land_ones, Z.shiftr_div_pow2 by lia.
  apply Z.mod_small. ulia.
Qed.

Lemma PTX_spec va : is_u32 va -> PTX va = va / PGSIZE mod 1024.
Proof.
  intros Ha. unfold PTX, PTXSHIFT. rewrite u32_small by done.
  change 0x3FF with (Z.ones 10). by rewrite Z.land_ones, Z.shiftr_div_pow2 by lia.
Qed.

Lemma PDX_range va : 0 <= PDX va < NPDENTRIES.
Proof.
  unfold PDX. change 0x3FF with (Z.ones 10). rewrite Z.land_ones by lia.
  by apply Z.mod_pos_bound.
Qed.

Lemma PTX_range va : 0 <= PTX va < NPTENTRIES.
Proof.
  unfold PTX. change 0x3FF with (Z.ones 10). rewrite Z.land_ones by lia.
  by apply Z.mod_pos_bound.
Qed.

Lemma PTE_ADDR_range pte : is_u32 (PTE_ADDR pte).
Proof. apply land_u32, u32_range. Qed.

Lemma PTE_ADDR_u32 pte : PTE_ADDR pte = u32 pte - u32 pte mod PGSIZE.
Proof.
  rewrite <- PTE_ADDR_spec by apply u32_range. unfold PTE_ADDR. by rewrite u32_idem.
Qed.

Lemma PTE_ADDR_aligned pte : aligned (PTE_ADDR pte).
Proof. rewrite PTE_ADDR_u32. unfold aligned, PGSIZE. pose proof (u32_range pte). ulia. Qed.

Lemma PGROUNDDOWN_aligned a : aligned (PGROUNDDOWN a).
Proof. apply PTE_ADDR_aligned. Qed.

Lemma PGROUNDDOWN_range a : is_u32 (PGROUNDDOWN a).
Proof. apply PTE_ADDR_range. Qed.

Lemma PGROUNDDOWN_id a : is_u32 a -> aligned a -> PGROUNDDOWN a = a.
Proof. intros Ha Hal. rewrite PGROUNDDOWN_spec by done. unfold aligned in Hal. lia. Qed.

(** An entry built from a page-aligned frame address and low flag bits gives
    both back. *)
Lemma pte_make pa fl : is_u32 pa -> aligned pa -> 0 <= fl < PGSIZE ->
  PTE_ADDR (Z.lor pa fl) = pa /\ PTE_FLAGS (Z.lor pa fl) = fl /\ is_u32 (Z.lor pa fl).
Proof.
  unfold aligned, PGSIZE. intros Hpa Hal Hfl.
  assert (Z.lor pa fl = pa + fl) as E by (apply (lor_disjoint_add pa fl 12); done).
  assert (is_u32 (pa + fl)) by ulia.
  rewrite E, PTE_ADDR_u32, PTE_FLAGS_spec, u32_small by done. unfold PGSIZE. ulia.
Qed.

Lemma PTE_ADDR_lor pa fl : is_u32 pa -> aligned pa -> 0 <= fl < PGSIZE ->
  PTE_ADDR (Z.lor pa fl) = pa.
Proof. intros. by apply pte_make. Qed.

(** Kernel virtual and physical addresses are in bijection below 2^32. *)
Lemma V2P_P2V a : is_u32 a -> V2P (P2V a) = a.
Proof. unfold V2P, P2V, KERNBASE. ulia. Qed.

Lemma P2V_V2P a : is_u32 a -> P2V (V2P a) = a.
Proof. unfold V2P, P2V, KERNBASE. ulia. Qed.

Lemma V2P_aligned a : aligned a -> aligned (V2P a).
Proof. unfold V2P, KERNBASE, aligned, PGSIZE. ulia. Qed.

Lemma P2V_aligned a : aligned a -> aligned (P2V a).
Proof. unfold P2V, KERNBASE, aligned, PGSIZE. ulia. Qed.

(** Two addresses have the same pair of indices exactly when they are on the
    same page. *)
Lemma same_page_iff a b : is_u32 a -> is_u32 b ->
  (PDX a = PDX b /\ PTX a = PTX b) <-> PGROUNDDOWN a = PGROUNDDOWN b.
Proof.
  intros Ha Hb. rewrite !PDX_spec, !PTX_spec, !PGROUNDDOWN_spec by done.
  unfold PGSIZE in *. split; [intros []|intros]; ulia.
Qed.

(** The three parts of a linear address determine it. *)
Lemma PGADDR_parts va : is_u32 va -> PGADDR (PDX va) (PTX va) (va mod PGSIZE) = va.
Proof.
  intros Hva. unfold PGADDR, PDXSHIFT, PTXSHIFT.
  rewrite PDX_spec, PTX_spec, !Z.shiftl_mul_pow2 by (done || lia). unfold PGSIZE.
  rewrite (lor_disjoint_add (va / _ * _) _ 22), (lor_disjoint_add _ _ 12);
    change (2 ^ 22) with 4194304; change (2 ^ 12) with 4096; ulia.
Qed.

#[export] Hint Resolve PDX_range PTX_range PTE_ADDR_range PTE_ADDR_aligned
  PGROUNDDOWN_aligned PGROUNDDOWN_range V2P_aligned P2V_aligned : kern.

(** Reading single flag bits of an entry. *)
Lemma has_lor x y b : has (Z.lor x y) b = has x b || has y b.
Proof.
  unfold has. rewrite Z.land_lor_distr_l, <- negb_andb. f_equal.
  apply eq_true_iff_eq. rewrite andb_true_iff, !Z.eqb_eq. apply Z.lor_eq_0_iff.
Qed.

Lemma has_aligned pa b : aligned pa -> 0 <= b < PGSIZE -> has pa b = false.
Proof.
  unfold aligned, PGSIZE. intros Hal Hb. apply negb_false_iff, Z.eqb_eq.
  apply Z.bits_inj'. intros k Hk. rewrite Z.land_spec, Z.testbit_0_l.
  destruct (Z.ltb_spec k 12).
  - by rewrite (testbit_aligned pa 12 k) by (done || lia).
  - rewrite (testbit_small b 12 k) by lia. apply andb_false_r.
Qed.

(** [*pte &= ~flags]. *)
Definition clear_bits (pte flags : Z) : Z := Z.land pte (not32 flags).

Lemma has_clear pte fl b : is_u32 pte -> has (clear_bits pte fl) b = has (Z.ldiff pte fl) b.
Proof. intros. unfold clear_bits. by rewrite land_not32. Qed.

Lemma has_clear_disjoint pte fl b : is_u32 pte -> Z.land fl b = 0 ->
  has (clear_bits pte fl) b = has pte b.
Proof.
  intros Hp H0. rewrite has_clear by done. unfold has. do 2 f_equal.
  apply Z.bits_inj'. intros k Hk. rewrite !Z.land_spec, Z.ldiff_spec.
  assert (Z.testbit (Z.land fl b) k = false) as E by (rewrite H0; apply Z.testbit_0_l).
  rewrite Z.land_spec in E. destruct (Z.testbit pte k), (Z.testbit fl k), (Z.testbit b k); done.
Qed.

Lemma has_clear_same pte fl b : is_u32 pte -> Z.land fl b = b -> has (clear_bits pte fl) b = false.
Proof.
  intros Hp H0. rewrite has_clear by done. apply negb_false_iff, Z.eqb_eq.
  apply Z.bits_inj'. intros k Hk. rewrite !Z.land_spec, Z.ldiff_spec, Z.testbit_0_l.
  rewrite <- H0, Z.land_spec. destruct (Z.testbit pte k), (Z.testbit fl k), (Z.testbit b k); done.
Qed.

Lemma clear_bits_range pte fl : is_u32 pte -> is_u32 (clear_bits pte fl).
Proof. apply land_u32. Qed.
#[export] Hint Resolve clear_bits_range lor_u32 : kern.

Lemma has_land x m b : Z.land m b = b -> has (Z.land x m) b = has x b.
Proof. intros E. unfold has. by rewrite <- Z.land_assoc, E. Qed.

Lemma PTE_ADDR_small v : 0 <= v < PGSIZE -> PTE_ADDR v = 0.
Proof. intros Hv. rewrite PTE_ADDR_spec; unfold PGSIZE in *; ulia. Qed.

Lemma PTE_ADDR_clear v fl : is_u32 v -> 0 <= fl < PGSIZE -> PTE_ADDR (clear_bits v fl) = PTE_ADDR v.
Proof.
  intros Hv Hfl. unfold PTE_ADDR. rewrite !u32_small by (auto with kern).
  unfold clear_bits. rewrite <- Z.land_assoc. f_equal.
  apply Z.bits_inj'. intros k Hk. rewrite Z.land_spec. unfold not32. rewrite !Z.lxor_spec.
  change (two32 - 1) with (Z.ones 32). change 0xFFF with (Z.ones 12).
  destruct (Z.ltb_spec k 12).
  - rewrite (Z.ones_spec_low 12), (Z.ones_spec_low 32) by lia. by rewrite andb_false_r.
  - rewrite (testbit_small fl 12 k), (Z.ones_spec_high 12) by (done || lia). simpl.
    by destruct (Z.testbit (Z.ones 32) k).
Qed.

Lemma PTE_ADDR_set v fl : is_u32 v -> 0 <= fl < PGSIZE -> PTE_ADDR (Z.lor v fl) = PTE_ADDR v.
Proof.
  intros Hv Hfl.
  assert (is_u32 (Z.lor v fl)) by (apply lor_u32; [done|unfold PGSIZE in Hfl; ulia]).
  unfold PTE_ADDR. rewrite !u32_small by done.
  rewrite Z.land_lor_distr_l. assert (Z.land fl (not32 0xFFF) = 0) as ->; [|by rewrite Z.lor_0_r].
  apply (PTE_ADDR_small fl) in Hfl as E. unfold PTE_ADDR in E.
  rewrite u32_small in E by (unfold PGSIZE in Hfl; ulia). done.
Qed.

Lemma PTE_ADDR_0 v : is_u32 v -> PTE_ADDR v = 0 -> 0 <= v < PGSIZE.
Proof. intros Hv. rewrite PTE_ADDR_spec by done. unfold PGSIZE. ulia. Qed.
