(* ===== verification/Memory.v ===== *)
(** * Physical memory

    Memory is a finite map from frame numbers to 4096-byte frames, each frame
    an array of 1024 little-endian 32-bit words.  Frames that were never
    written read as zero.  The kernel reaches a frame through its kernel
    virtual address ([P2V]); loads and stores here take such addresses and
    translate them with [V2P], the linear map [setupkvm] installs. *)

From S2P Require Import Prelude Mmu.

(** A frame: a fill word and the words written over it, by word index. *)
Record frame := Frame { fr_fill : Z; fr_words : gmap Z Z }.

Definition frame_get (f : frame) (i : Z) : Z := default (fr_fill f) (fr_words f !! i).
Definition frame_set (f : frame) (i v : Z) : frame := Frame (fr_fill f) (<[i := v]> (fr_words f)).
(** [memset(p, c, PGSIZE)]: every word is the byte [c] four times. *)
Definition frame_fill (c : Z) : frame :=
  let b := c mod 256 in
  Frame (Z.lor (Z.lor (Z.shiftl b 24) (Z.shiftl b 16)) (Z.lor (Z.shiftl b 8) b)) ∅.

Abbreviation memory := (gmap Z frame).

Definition mem_frame (m : memory) (fn : Z) : frame := default (Frame 0 ∅) (m !! fn).

(** Frame number of a kernel virtual address. *)
Definition kframe (a : Z) : Z := V2P a / PGSIZE.

Definition kload (m : memory) (a : Z) : Z :=
  frame_get (mem_frame m (kframe a)) (V2P a mod PGSIZE / 4).
Definition kstore (m : memory) (a v : Z) : memory :=
  <[kframe a := frame_set (mem_frame m (kframe a)) (V2P a mod PGSIZE / 4) v]> m.
(** [memset(a, c, PGSIZE)] for a page-aligned [a]. *)
Definition kmemset (m : memory) (a c : Z) : memory := <[kframe a := frame_fill c]> m.
(** [memmove(dst, src, PGSIZE)] for page-aligned [dst] and [src]. *)
Definition kcopy (m : memory) (dst src : Z) : memory :=
  <[kframe dst := mem_frame m (kframe src)]> m.

#[global] Arguments kframe : simpl never.
#[global] Arguments kload : simpl never.
#[global] Arguments kstore : simpl never.
#[global] Arguments kmemset : simpl never.
#[global] Arguments kcopy : simpl never.

(** Bytes, little-endian inside their word. *)
Definition kload8 (m : memory) (a : Z) : Z :=
  Z.land (Z.shiftr (kload m (Z.land a (not32 3))) (8 * (a mod 4))) 255.
Definition kstore8 (m : memory) (a v : Z) : memory :=
  let w := Z.land a (not32 3) in
  let sh := 8 * (a mod 4) in
  kstore m w (Z.lor (Z.land (kload m w) (not32 (Z.shiftl 255 sh))) (Z.shiftl (Z.land v 255) sh)).

(** ** Lemmas *)

Lemma frame_get_set f i j v :
  frame_get (frame_set f i v) j = if decide (i = j) then v else frame_get f j.
Proof. unfold frame_get, frame_set; simpl. rewrite lookup_insert. by case_decide. Qed.

Lemma frame_get_fill0 i : frame_get (frame_fill 0) i = 0.
Proof. unfold frame_get, frame_fill; simpl. by rewrite lookup_empty. Qed.

Lemma mem_frame_insert m fn fn' f :
  mem_frame (<[fn := f]> m) fn' = if decide (fn = fn') then f else mem_frame m fn'.
Proof. unfold mem_frame. rewrite lookup_insert. by case_decide. Qed.

Lemma mem_frame_kstore m a v fn :
  mem_frame (kstore m a v) fn =
    if decide (kframe a = fn)
    then frame_set (mem_frame m fn) (V2P a mod PGSIZE / 4) v else mem_frame m fn.
Proof. unfold kstore. rewrite mem_frame_insert. case_decide; by subst. Qed.

Lemma mem_frame_kmemset m a c fn :
  mem_frame (kmemset m a c) fn = if decide (kframe a = fn) then frame_fill c else mem_frame m fn.
Proof. apply mem_frame_insert. Qed.

Lemma mem_frame_kcopy m d s fn :
  mem_frame (kcopy m d s) fn = if decide (kframe d = fn) then mem_frame m (kframe s) else mem_frame m fn.
Proof. apply mem_frame_insert. Qed.

(** Loads only depend on the frame they read. *)
Lemma kload_frame m m' a : mem_frame m' (kframe a) = mem_frame m (kframe a) -> kload m' a = kload m a.
Proof. unfold kload. by intros ->. Qed.

Lemma kload_kstore_eq m a v : kload (kstore m a v) a = v.
Proof.
  unfold kload. rewrite mem_frame_kstore, decide_True by done.
  rewrite frame_get_set. by rewrite decide_True.
Qed.

Lemma kload_kstore_frame m a b v : kframe a <> kframe b -> kload (kstore m a v) b = kload m b.
Proof. intros. apply kload_frame. rewrite mem_frame_kstore. by rewrite decide_False. Qed.

Lemma kload_kstore_word m a b v :
  V2P a mod PGSIZE / 4 <> V2P b mod PGSIZE / 4 -> kload (kstore m a v) b = kload m b.
Proof.
  intros Hne. unfold kload at 1. rewrite mem_frame_kstore. case_decide as E; [|done].
  rewrite frame_get_set. by rewrite decide_False.
Qed.

Lemma kload_kmemset0 m a b : kframe a = kframe b -> kload (kmemset m a 0) b = 0.
Proof.
  intros E. unfold kload. rewrite mem_frame_kmemset, decide_True by done. apply frame_get_fill0.
Qed.

Lemma kload_kmemset_frame m a c b : kframe a <> kframe b -> kload (kmemset m a c) b = kload m b.
Proof. intros. apply kload_frame. rewrite mem_frame_kmemset. by rewrite decide_False. Qed.

(** Words are 32 bits wide. *)
Definition frame_words (f : frame) : Prop := forall i, is_u32 (frame_get f i).
Definition mem_words (m : memory) : Prop := forall fn, frame_words (mem_frame m fn).

Lemma kload_range m a : mem_words m -> is_u32 (kload m a).
Proof. intros H. apply H. Qed.

Lemma frame_fill_words c : frame_words (frame_fill c).
Proof.
  intros i. unfold frame_get, frame_fill; cbn -[Z.lor Z.shiftl Z.modulo]. rewrite lookup_empty. simpl.
  pose proof (Z.mod_pos_bound c 256 ltac:(lia)).
  rewrite !Z.shiftl_mul_pow2 by lia. repeat apply lor_u32; ulia.
Qed.

Lemma mem_words_insert m fn f : mem_words m -> frame_words f -> mem_words (<[fn := f]> m).
Proof. intros Hm Hf fn'. rewrite mem_frame_insert. by case_decide. Qed.

Lemma mem_words_kstore m a v : mem_words m -> is_u32 v -> mem_words (kstore m a v).
Proof.
  intros Hm Hv. apply mem_words_insert; [done|]. intros i. rewrite frame_get_set.
  case_decide; [done|]. apply Hm.
Qed.

Lemma mem_words_kmemset m a c : mem_words m -> mem_words (kmemset m a c).
Proof. intros. apply mem_words_insert; [done|]. apply frame_fill_words. Qed.

Lemma mem_words_kcopy m d s : mem_words m -> mem_words (kcopy m d s).
Proof. intros. by apply mem_words_insert. Qed.

Lemma mem_words_empty : mem_words ∅.
Proof. intros fn i. unfold mem_frame, frame_get. rewrite lookup_empty; simpl. rewrite lookup_empty. done. Qed.

#[export] Hint Resolve kload_range mem_words_kstore mem_words_kmemset mem_words_kcopy : kern.

(** Frame numbers of aligned kernel addresses determine the address. *)
Lemma kframe_inj a b : is_u32 a -> is_u32 b -> aligned a -> aligned b ->
  kframe a = kframe b -> a = b.
Proof. unfold kframe, aligned, PGSIZE, V2P, KERNBASE. ulia. Qed.

Lemma kframe_offset a o : is_u32 a -> aligned a -> 0 <= o < PGSIZE ->
  kframe (u32 (a + o)) = kframe a /\ V2P (u32 (a + o)) mod PGSIZE = o.
Proof. unfold kframe, aligned, PGSIZE, V2P, KERNBASE. ulia. Qed.
