(* ===== verification/Kalloc.v ===== *)
(** * The physical page allocator ([kalloc.c])

    [kmem] keeps a linked list of free pages threaded through the pages
    themselves, one reference count per frame (copy-on-write shares frames),
    and a count of free pages.  Every operation is a function on the machine
    state, memory included: [kfree] really fills the page with 1s and writes
    the link into its first word.

    [kmem_inv s l] says that the list in memory is [l]; [kalloc] and [kfree]
    refine pop and push on it. *)

From S2P Require Import Prelude Mmu Memory.

Record kmem := Kmem {
  km_use_lock : bool;
  km_freelist : Z;                     (* kernel address of a struct run, 0 for none *)
  km_references_count : gmap Z Z;      (* uint[PHYSTOP >> PGSHIFT], zero-initialised *)
  km_free_pages : Z;
}.

Record mach := Mach { m_mem : memory; m_kmem : kmem }.

Definition set_mem (m : memory) (s : mach) : mach := Mach m (m_kmem s).
Definition set_kmem (k : kmem) (s : mach) : mach := Mach (m_mem s) k.
Definition set_freelist (p : Z) (k : kmem) : kmem :=
  Kmem (km_use_lock k) p (km_references_count k) (km_free_pages k).
Definition set_refs (r : gmap Z Z) (k : kmem) : kmem :=
  Kmem (km_use_lock k) (km_freelist k) r (km_free_pages k).
Definition set_free_pages (n : Z) (k : kmem) : kmem :=
  Kmem (km_use_lock k) (km_freelist k) (km_references_count k) n.

Definition refs_get (s : mach) (i : Z) : Z := default 0 (km_references_count (m_kmem s) !! i).
Definition refs_set (i v : Z) (s : mach) : mach :=
  set_kmem (set_refs (<[i := v]> (km_references_count (m_kmem s))) (m_kmem s)) s.

(** [references_count] has [PHYSTOP >> PGSHIFT] elements; an index beyond is
    an access outside the array. *)
Definition ref_index (v : Z) : M mach Z :=
  let i := Z.shiftr v PGSHIFT in
  if i <? Z.shiftr PHYSTOP PGSHIFT then mret i else fault v.

Section kalloc.
  (** [extern char end[]]: the first address after the kernel image. *)
  Context (end_ : Z).

Definition set_counter (v i : Z) : M mach () :=
  idx ← ref_index v;
  modify (refs_set idx (u32 i)).

Definition get_ref_counter (v : Z) : M mach Z :=
  idx ← ref_index v;
  c ← gets (fun s => refs_get s idx);
  mret (s32 c).

Definition inc_counter (v : Z) : M mach () :=
  idx ← ref_index v;
  c ← gets (fun s => refs_get s idx);
  modify (refs_set idx (u32 (c + 1))).

Definition dec_counter (v : Z) : M mach () :=
  idx ← ref_index v;
  c ← gets (fun s => refs_get s idx);
  modify (refs_set idx (u32 (c - 1))).

Definition total_pages : Z :=
  let total_addresses := s32 (PHYSTOP - V2P end_) in
  Z.quot (s32 (Z.land (u32 total_addresses) (not32 (PGSIZE - 1)))) PGSIZE.

Definition free_pages : M mach Z :=
  n ← gets (fun s => km_free_pages (m_kmem s));
  mret (s32 n).

Definition used_pages : M mach Z :=
  n ← free_pages;
  mret (s32 (total_pages - n)).

Definition kfree (v : Z) : M mach () :=
  if negb (v mod PGSIZE =? 0) || (v <? end_) || (PHYSTOP <=? V2P v) then panic "kfree" else
  let idx := Z.shiftr (V2P v) PGSHIFT in
  c ← gets (fun s => refs_get s idx);
  when (0 <? c) (modify (refs_set idx (u32 (c - 1))));;
  modify (fun s => set_kmem (set_free_pages (u32 (km_free_pages (m_kmem s) + 1)) (m_kmem s)) s);;
  c' ← gets (fun s => refs_get s idx);
  if negb (c' =? 0) then mret () else
  (* Fill with junk to catch dangling refs. *)
  modify (fun s => set_mem (kmemset (m_mem s) v 1) s);;
  (* r->next = kmem.freelist; kmem.freelist = r *)
  modify (fun s => set_mem (kstore (m_mem s) v (km_freelist (m_kmem s))) s);;
  modify (fun s => set_kmem (set_freelist v (m_kmem s)) s).

Definition kalloc : M mach Z :=
  r ← gets (fun s => km_freelist (m_kmem s));
  when (negb (r =? 0)) (
    modify (fun s => set_kmem (set_freelist (kload (m_mem s) r) (m_kmem s)) s);;
    idx ← ref_index (V2P r);
    modify (refs_set idx 1);;
    modify (fun s => set_kmem (set_free_pages (u32 (km_free_pages (m_kmem s) - 1)) (m_kmem s)) s));;
  mret r.

(** [for(; p + PGSIZE <= vend; p += PGSIZE)], at most [fuel] times. *)
Fixpoint freerange_loop (fuel : nat) (p vend : Z) : M mach () :=
  if u32 (p + PGSIZE) <=? vend then
    match fuel with
    | O => nofuel
    | S fuel' =>
        modify (refs_set (Z.shiftr (V2P p) PGSHIFT) 0);;
        kfree p;;
        freerange_loop fuel' (u32 (p + PGSIZE)) vend
    end
  else mret ().

(** Enough iterations for the pages between [p] and [vend]. *)
Definition freerange_fuel (p vend : Z) : nat := Z.to_nat ((vend - p) / PGSIZE).

Definition freerange (vstart vend : Z) : M mach () :=
  let p := PGROUNDUP vstart in
  freerange_loop (freerange_fuel p vend) p vend.

Definition kinit1 (vstart vend : Z) : M mach () :=
  modify (fun s => set_kmem (Kmem false (km_freelist (m_kmem s))
                               (km_references_count (m_kmem s)) 0) s);;
  freerange vstart vend.

Definition kinit2 (vstart vend : Z) : M mach () :=
  freerange vstart vend;;
  modify (fun s => set_kmem (Kmem true (km_freelist (m_kmem s)) (km_references_count (m_kmem s))
                               (km_free_pages (m_kmem s))) s).

(** ** Invariant *)

(** Addresses [kfree] accepts. *)
Definition valid_page (v : Z) : Prop :=
  is_u32 v /\ aligned v /\ end_ <= v /\ V2P v < PHYSTOP.

(** The list of free pages as the links in memory spell it out. *)
Fixpoint chain (m : memory) (p : Z) (l : list Z) : Prop :=
  match l with
  | [] => p = 0
  | x :: l' => p = x /\ chain m (kload m x) l'
  end.

Definition page_refs (s : mach) (v : Z) : Z := refs_get s (kframe v).

Record kmem_inv (s : mach) (l : list Z) : Prop := {
  ki_chain : chain (m_mem s) (km_freelist (m_kmem s)) l;
  ki_nodup : NoDup l;
  ki_valid : Forall valid_page l;
  ki_refs : Forall (fun v => page_refs s v = 0) l;
}.

(** The kernel image lies in the kernel half of the address space. *)
Hypothesis end_high : KERNBASE <= end_.

Lemma shiftr_kframe v : Z.shiftr (V2P v) PGSHIFT = kframe v.
Proof. unfold kframe, PGSHIFT. by rewrite Z.shiftr_div_pow2 by lia. Qed.

Lemma valid_page_index v : valid_page v ->
  (kframe v <? Z.shiftr PHYSTOP PGSHIFT) = true.
Proof.
  intros (Hu & Hal & _ & Hp). apply Z.ltb_lt. unfold kframe.
  change (Z.shiftr PHYSTOP PGSHIFT) with (PHYSTOP / PGSIZE).
  unfold PHYSTOP, PGSIZE in *. pose proof (u32_range (v - KERNBASE)) as Hr.
  unfold V2P in *. unfold is_u32 in Hr. Z.div_mod_to_equations. lia.
Qed.

Lemma valid_page_nonzero v : valid_page v -> v <> 0.
Proof. unfold valid_page, KERNBASE in *. lia. Qed.

Lemma valid_page_inj v w : valid_page v -> valid_page w -> kframe v = kframe w -> v = w.
Proof. intros (?&?&?&?) (?&?&?&?). by apply kframe_inj. Qed.

Lemma ref_index_valid v s : valid_page v -> ref_index (V2P v) s = Ok (kframe v) s.
Proof. intros Hv. unfold ref_index. rewrite shiftr_kframe, valid_page_index; done. Qed.

Lemma page_refs_set s i v c :
  page_refs (refs_set i c s) v = if decide (i = kframe v) then c else page_refs s v.
Proof. unfold page_refs, refs_get, refs_set; simpl. rewrite lookup_insert. by case_decide. Qed.

(** The links of a list only depend on the frames of its pages. *)
Lemma chain_frame m m' p l :
  (forall x, x ∈ l -> mem_frame m' (kframe x) = mem_frame m (kframe x)) ->
  chain m p l -> chain m' p l.
Proof.
  revert p. induction l as [|x l IH]; intros p Hf; simpl; [done|].
  intros [-> Hc]. split; [done|]. rewrite (kload_frame m m' x) by (apply Hf, elem_of_cons; by left).
  apply IH; [|done]. intros y Hy. apply Hf, elem_of_cons. by right.
Qed.

Lemma chain_fun m p l l' : Forall valid_page l -> Forall valid_page l' ->
  chain m p l -> chain m p l' -> l = l'.
Proof.
  revert p l'. induction l as [|x l IH]; intros p [|y l'] Hl Hl' Hc Hc'; simpl in *; try done.
  - destruct Hc' as [-> _]. subst. apply list.Forall_cons in Hl' as [Hv _].
    by apply valid_page_nonzero in Hv.
  - destruct Hc as [-> _]. subst. apply list.Forall_cons in Hl as [Hv _].
    by apply valid_page_nonzero in Hv.
  - destruct Hc as [-> Hc], Hc' as [<- Hc'].
    apply list.Forall_cons in Hl as [_ Hl]; apply list.Forall_cons in Hl' as [_ Hl']. f_equal. eauto.
Qed.

(** ** kalloc *)

Lemma kalloc_nil s : kmem_inv s [] -> kalloc s = Ok 0 s.
Proof.
  intros [Hc _ _ _]. simpl in Hc. unfold kalloc.
  erewrite Ok_bind by reflexivity. rewrite Hc. done.
Qed.

(** The state after a page is taken off the list. *)
Definition kalloc_post (s : mach) (x : Z) : mach :=
  Mach (m_mem s)
    (Kmem (km_use_lock (m_kmem s)) (kload (m_mem s) x)
       (<[kframe x := 1]> (km_references_count (m_kmem s)))
       (u32 (km_free_pages (m_kmem s) - 1))).

Lemma kalloc_cons s x l : kmem_inv s (x :: l) ->
  kalloc s = Ok x (kalloc_post s x) /\ kmem_inv (kalloc_post s x) l.
Proof.
  intros [[Hfl Hc] Hnd Hv Hr]; simpl in *.
  apply list.Forall_cons in Hv as [Hx Hv]. apply list.Forall_cons in Hr as [_ Hr].
  apply list.NoDup_cons in Hnd as [Hnin Hnd].
  split.
  - unfold kalloc. erewrite Ok_bind by reflexivity. rewrite Hfl.
    rewrite (proj2 (Z.eqb_neq x 0)) by (by apply valid_page_nonzero).
    simpl. unfold mbind, M_bind, bindM, modify at 1; simpl.
    by rewrite ref_index_valid by done.
  - split; simpl; [done..|].
    rewrite Forall_forall in Hr, Hv |- *. intros v Hin.
    change (page_refs (refs_set (kframe x) 1 s) v = 0). rewrite page_refs_set.
    rewrite decide_False; [by apply Hr|]. intros E. apply Hnin.
    by rewrite (valid_page_inj x v Hx (Hv v Hin) E).
Qed.

(** ** kfree *)

Lemma kfree_invalid v s :
  ~ aligned v \/ v < end_ \/ PHYSTOP <= V2P v -> kfree v s = Panic "kfree".
Proof.
  intros H. unfold kfree.
  assert (negb (v mod PGSIZE =? 0) || (v <? end_) || (PHYSTOP <=? V2P v) = true) as ->; [|done].
  rewrite !orb_true_iff, negb_true_iff, Z.eqb_neq, Z.ltb_lt, Z.leb_le. unfold aligned in H. tauto.
Qed.

Lemma valid_page_test v : valid_page v ->
  negb (v mod PGSIZE =? 0) || (v <? end_) || (PHYSTOP <=? V2P v) = false.
Proof.
  intros (_ & Hal & He & Hp). unfold aligned in Hal. rewrite Hal.
  apply orb_false_iff. split; [apply orb_false_iff; split; [done|]|].
  - apply Z.ltb_ge. lia.
  - apply Z.leb_gt. lia.
Qed.

(** The page is still shared: only the counters move. *)
Definition kfree_shared_post (s : mach) (v : Z) : mach :=
  Mach (m_mem s)
    (Kmem (km_use_lock (m_kmem s)) (km_freelist (m_kmem s))
       (<[kframe v := page_refs s v - 1]> (km_references_count (m_kmem s)))
       (u32 (km_free_pages (m_kmem s) + 1))).

Lemma kfree_shared s v : valid_page v -> 1 < page_refs s v < two32 ->
  kfree v s = Ok () (kfree_shared_post s v).
Proof.
  intros Hv Hc. unfold kfree. rewrite valid_page_test by done.
  unfold mbind, M_bind, bindM, gets, modify, when; simpl. rewrite shiftr_kframe.
  fold (page_refs s v). rewrite (proj2 (Z.ltb_lt 0 (page_refs s v))) by lia. simpl.
  rewrite (u32_small (page_refs s v - 1)) by ulia.
  unfold refs_get; simpl. rewrite lookup_insert_eq. simpl.
  rewrite (proj2 (Z.eqb_neq (page_refs s v - 1) 0)) by lia. done.
Qed.

(** The last reference: the page is filled with 1s and pushed. *)
Definition kfree_last_post (s : mach) (v : Z) : mach :=
  Mach (kstore (kmemset (m_mem s) v 1) v (km_freelist (m_kmem s)))
    (Kmem (km_use_lock (m_kmem s)) v
       (if 0 <? page_refs s v then <[kframe v := 0]> (km_references_count (m_kmem s))
        else km_references_count (m_kmem s))
       (u32 (km_free_pages (m_kmem s) + 1))).

Lemma kfree_last s v : valid_page v -> 0 <= page_refs s v <= 1 ->
  kfree v s = Ok () (kfree_last_post s v).
Proof.
  intros Hv Hc. unfold kfree. rewrite valid_page_test by done.
  unfold mbind, M_bind, bindM, gets, modify, when, kfree_last_post; simpl. rewrite shiftr_kframe.
  fold (page_refs s v). destruct (Z.ltb_spec 0 (page_refs s v)).
  - assert (page_refs s v = 1) as -> by lia. simpl.
    unfold refs_get; simpl. by rewrite lookup_insert_eq.
  - assert (page_refs s v = 0) as E by lia. simpl.
    unfold refs_get; simpl. fold (refs_get s (kframe v)). unfold page_refs in E. by rewrite E.
Qed.

Lemma kfree_last_frame s v fn : fn <> kframe v ->
  mem_frame (m_mem (kfree_last_post s v)) fn = mem_frame (m_mem s) fn.
Proof.
  intros. simpl. rewrite mem_frame_kstore, decide_False by done.
  rewrite mem_frame_kmemset. by rewrite decide_False.
Qed.

Lemma kfree_last_refs s v w : 0 <= page_refs s v <= 1 ->
  page_refs (kfree_last_post s v) w = if decide (kframe v = kframe w) then 0 else page_refs s w.
Proof.
  intros Hc. unfold kfree_last_post, page_refs, refs_get in *; simpl.
  destruct (Z.ltb_spec 0 (default 0 (km_references_count (m_kmem s) !! kframe v))).
  - rewrite lookup_insert. by case_decide.
  - case_decide as E; [rewrite <- E; lia|done].
Qed.

Lemma kfree_last_inv s v l : kmem_inv s l -> valid_page v -> v ∉ l -> 0 <= page_refs s v <= 1 ->
  kmem_inv (kfree_last_post s v) (v :: l).
Proof.
  intros [Hc Hnd Hv Hr] Hvp Hnin Hcount. rewrite Forall_forall in Hv, Hr.
  assert (forall x, x ∈ l -> kframe x <> kframe v) as Hne.
  { intros x Hx E. apply Hnin. by rewrite <- (valid_page_inj x v (Hv x Hx) Hvp E). }
  split.
  - split; [done|]. simpl. rewrite kload_kstore_eq.
    eapply chain_frame; [|exact Hc]. intros x Hx.
    apply (kfree_last_frame s v), Hne, Hx.
  - by apply list.NoDup_cons.
  - apply list.Forall_cons. split; [done|]. by apply Forall_forall.
  - apply Forall_forall. intros x Hx. rewrite kfree_last_refs by done.
    apply elem_of_cons in Hx as [->|Hx]; [by rewrite decide_True|].
    rewrite decide_False; [by apply Hr|]. intros E. by apply (Hne x Hx).
Qed.

Lemma kfree_shared_inv s v l : kmem_inv s l -> valid_page v -> 1 < page_refs s v ->
  kmem_inv (kfree_shared_post s v) l.
Proof.
  intros [Hc Hnd Hv Hr] Hvp Hcount. split; simpl; [done..|].
  rewrite Forall_forall in Hv, Hr |- *. intros x Hx.
  change (page_refs (refs_set (kframe v) (page_refs s v - 1) s) x = 0).
  rewrite page_refs_set. case_decide as E; [|by apply Hr].
  specialize (Hr x Hx). unfold page_refs in Hr, Hcount. rewrite E in Hcount. lia.
Qed.

(** Whichever way it goes, freeing a page in use changes no frame and no count
    but its own. *)
Lemma kfree_owned s l v : kmem_inv s l -> mem_words (m_mem s) -> valid_page v -> v ∉ l ->
  1 <= page_refs s v < 2147483648 ->
  exists s' l', kfree v s = Ok () s' /\ kmem_inv s' l' /\ mem_words (m_mem s') /\
    ((l' = l /\ 1 < page_refs s v) \/ (l' = v :: l /\ page_refs s v = 1)) /\
    (forall fn, fn <> kframe v -> mem_frame (m_mem s') fn = mem_frame (m_mem s) fn) /\
    (forall w, kframe w <> kframe v -> page_refs s' w = page_refs s w).
Proof.
  intros Hk Hw Hv Hnin Hc. destruct (decide (page_refs s v = 1)) as [E|E].
  - exists (kfree_last_post s v), (v :: l). split_and!.
    + by apply kfree_last; [|lia].
    + apply kfree_last_inv; (done || lia).
    + simpl. apply mem_words_kstore; [by apply mem_words_kmemset|].
      destruct Hk as [Hch _ Hvl _]. destruct l as [|x l]; simpl in Hch.
      * by rewrite Hch.
      * destruct Hch as [-> _]. by apply list.Forall_cons in Hvl as [(? & _) _].
    + by right.
    + apply kfree_last_frame.
    + intros w Hne. rewrite kfree_last_refs by lia. by rewrite decide_False.
  - exists (kfree_shared_post s v), l. split_and!; try done.
    + apply kfree_shared; [done|]. unfold two32. lia.
    + apply kfree_shared_inv; (done || lia).
    + left. split; [done|lia].
    + intros w Hne. change (page_refs (refs_set (kframe v) (page_refs s v - 1) s) w = page_refs s w).
      rewrite page_refs_set. by rewrite decide_False.
Qed.

Lemma counter_run s v : valid_page v -> 1 <= page_refs s v < 2147483647 ->
  inc_counter (V2P v) s = Ok () (refs_set (kframe v) (page_refs s v + 1) s) /\
  dec_counter (V2P v) s = Ok () (refs_set (kframe v) (page_refs s v - 1) s) /\
  get_ref_counter (V2P v) s = Ok (page_refs s v) s.
Proof.
  intros Hvp Hc. unfold inc_counter, dec_counter, get_ref_counter.
  rewrite !(Ok_bind _ _ _ _ _ (ref_index_valid v s Hvp)).
  unfold mbind, M_bind, bindM, gets, modify. fold (page_refs s v).
  rewrite !u32_small, s32_small by ulia. done.
Qed.

(** ** Building the free list *)

(** The pages [freerange] frees, in the order it meets them. *)
Fixpoint range_pages (n : nat) (p : Z) : list Z :=
  match n with O => [] | S n' => p :: range_pages n' (p + PGSIZE) end.

Lemma elem_of_range_pages n p x : aligned p ->
  x ∈ range_pages n p <-> aligned x /\ p <= x < p + Z.of_nat n * PGSIZE.
Proof.
  revert p. induction n as [|n IH]; intros p Hal; simpl.
  - split; [by intros ?%elem_of_nil|lia].
  - rewrite elem_of_cons, IH by (unfold aligned, PGSIZE in *; ulia).
    unfold aligned, PGSIZE in *. split.
    + intros [->|?]; ulia.
    + intros [Hx ?]. destruct (decide (x = p)); [by left|right]. ulia.
Qed.

Lemma refs_set_inv s l v : kmem_inv s l -> kmem_inv (refs_set (kframe v) 0 s) l.
Proof.
  intros [Hc Hnd Hv Hr]. split; simpl; [done..|].
  rewrite Forall_forall in Hr |- *. intros x Hx. rewrite page_refs_set.
  case_decide; [done|by apply Hr].
Qed.

Lemma freelist_u32 s l : kmem_inv s l -> is_u32 (km_freelist (m_kmem s)).
Proof. intros [Hch _ Hvl _]. destruct l as [|x l]; [by rewrite Hch|]. destruct Hch as [-> _]. by apply list.Forall_cons in Hvl as [(? & _) _]. Qed.

(** Freeing a page whose counter was just reset pushes it. *)
Lemma freerange_step s l v : kmem_inv s l -> valid_page v -> v ∉ l ->
  exists s', kfree v (refs_set (kframe v) 0 s) = Ok () s' /\ kmem_inv s' (v :: l) /\
    km_free_pages (m_kmem s') = u32 (km_free_pages (m_kmem s) + 1) /\
    (mem_words (m_mem s) -> mem_words (m_mem s')) /\
    (forall fn, fn <> kframe v -> mem_frame (m_mem s') fn = mem_frame (m_mem s) fn).
Proof.
  intros Hinv Hv Hnin. set (s0 := refs_set (kframe v) 0 s).
  assert (page_refs s0 v = 0) as H0 by (unfold s0; rewrite page_refs_set; by rewrite decide_True).
  exists (kfree_last_post s0 v). split_and!.
  - apply kfree_last; [done|lia].
  - apply kfree_last_inv; [by apply refs_set_inv|done|done|lia].
  - done.
  - intros Hw. apply mem_words_kstore; [by apply mem_words_kmemset|]. apply (freelist_u32 s l Hinv).
  - intros fn Hfn. exact (kfree_last_frame s0 v fn Hfn).
Qed.

Lemma freerange_loop_spec fuel p vend s l n :
  kmem_inv s l -> aligned p -> end_ <= p <= P2V PHYSTOP -> 0 <= vend <= P2V PHYSTOP ->
  n = Z.to_nat ((vend - p) / PGSIZE) -> (n <= fuel)%nat ->
  (forall x, x ∈ range_pages n p -> x ∉ l) ->
  exists s', freerange_loop fuel p vend s = Ok () s' /\
    kmem_inv s' (rev (range_pages n p) ++ l) /\
    u32 (km_free_pages (m_kmem s')) = u32 (km_free_pages (m_kmem s) + Z.of_nat n) /\
    (mem_words (m_mem s) -> mem_words (m_mem s')) /\
    (forall fn, fn ∉ kframe <$> range_pages n p -> mem_frame (m_mem s') fn = mem_frame (m_mem s) fn).
Proof.
  change (P2V PHYSTOP) with 2382364672. unfold KERNBASE in end_high.
  revert fuel p s l. induction n as [|n IH]; intros fuel p s l Hinv Hal Hp Hvend Hn Hfuel Hdis.
  - exists s. assert ((u32 (p + PGSIZE) <=? vend) = false) as E.
    { apply Z.leb_gt. unfold PGSIZE in *. rewrite u32_small by ulia. ulia. }
    rewrite Z.add_0_r. destruct fuel; simpl; rewrite E; done.
  - destruct fuel as [|fuel]; [lia|].
    assert (p + PGSIZE <= vend) as Hle by (unfold PGSIZE in *; ulia).
    assert (is_u32 (p + PGSIZE)) as Hu by (unfold PGSIZE in *; ulia).
    assert (valid_page p) as Hv.
    { unfold valid_page, aligned, V2P, KERNBASE, PHYSTOP, PGSIZE in *. ulia. }
    destruct (freerange_step s l p Hinv Hv) as (s1 & Hk & Hinv1 & Hf1 & Hw1 & Hm1).
    { apply Hdis. simpl. by apply elem_of_cons; left. }
    destruct (IH fuel (p + PGSIZE) s1 (p :: l)) as (s' & Hloop & Hinv' & Hf' & Hw' & Hm'); try done.
    + unfold aligned, PGSIZE in *. ulia.
    + unfold PGSIZE in *. lia.
    + unfold PGSIZE in *. ulia.
    + lia.
    + intros x Hx. apply not_elem_of_cons. split.
      * intros ->. apply elem_of_range_pages in Hx; unfold aligned, PGSIZE in *; ulia.
      * apply Hdis. simpl. by apply elem_of_cons; right.
    + exists s'. split_and!.
      * simpl. rewrite (u32_small (p + PGSIZE)) by done.
        rewrite (proj2 (Z.leb_le (p + PGSIZE) vend)) by done.
        unfold mbind, M_bind, bindM, modify. rewrite shiftr_kframe, Hk. done.
      * simpl. by rewrite <- app_assoc.
      * rewrite Hf', Hf1, u32_add_l. f_equal. lia.
      * auto.
      * intros fn Hfn. cbn [range_pages] in Hfn. rewrite fmap_cons in Hfn. apply not_elem_of_cons in Hfn as [Hfn Hfs]. by rewrite Hm', Hm1.
Qed.

(** ** Abstract allocator

    What the rest of the kernel relies on: a list of free pages and, for each
    page in use, how many references it has.  [None] marks a call the clients
    must not make (freeing a page that is not in use, dropping the last
    reference without freeing). *)
Record aalloc := AAlloc { a_free : list Z; a_used : gmap Z Z }.

Inductive kop := OpAlloc | OpFree (v : Z) | OpInc (v : Z) | OpDec (v : Z) | OpGet (v : Z).

Definition astep (o : kop) (a : aalloc) : option (Z * aalloc) :=
  match o with
  | OpAlloc =>
      match a_free a with
      | [] => Some (0, a)
      | x :: l => Some (x, AAlloc l (<[x := 1]> (a_used a)))
      end
  | OpFree v =>
      c ← a_used a !! v;
      if c =? 1 then Some (0, AAlloc (v :: a_free a) (delete v (a_used a)))
      else Some (0, AAlloc (a_free a) (<[v := c - 1]> (a_used a)))
  | OpInc v =>
      c ← a_used a !! v;
      if c + 1 <? 2147483648 then Some (0, AAlloc (a_free a) (<[v := c + 1]> (a_used a))) else None
  | OpDec v =>
      c ← a_used a !! v;
      if c =? 1 then None else Some (0, AAlloc (a_free a) (<[v := c - 1]> (a_used a)))
  | OpGet v => c ← a_used a !! v; Some (c, a)
  end.

(** The operations of [kalloc.c] on the machine. *)
Definition cstep (o : kop) : M mach Z :=
  match o with
  | OpAlloc => kalloc
  | OpFree v => kfree v;; mret 0
  | OpInc v => inc_counter (V2P v);; mret 0
  | OpDec v => dec_counter (V2P v);; mret 0
  | OpGet v => get_ref_counter (V2P v)
  end.

Record arel (s : mach) (a : aalloc) : Prop := {
  ar_inv : kmem_inv s (a_free a);
  ar_used : forall v c, a_used a !! v = Some c ->
    valid_page v /\ (v ∉ a_free a) /\ page_refs s v = c /\ 1 <= c < 2147483648;
}.

Lemma arel_refs_set s a v c : arel s a -> is_Some (a_used a !! v) -> 1 <= c < 2147483648 ->
  arel (refs_set (kframe v) c s) (AAlloc (a_free a) (<[v := c]> (a_used a))).
Proof.
  intros [[Hc Hnd Hv Hr] Hu] [c0 Hc0] Hrange. destruct (Hu v c0 Hc0) as (Hvp & Hnin & _ & _).
  split; [split|]; simpl; try done.
  - rewrite Forall_forall in Hv, Hr |- *. intros x Hx. rewrite page_refs_set.
    rewrite decide_False; [by apply Hr|]. intros E. apply Hnin.
    by rewrite (valid_page_inj v x Hvp (Hv x Hx) E).
  - intros w cw. rewrite lookup_insert. case_decide as E.
    + subst w. intros [= <-]. rewrite page_refs_set, decide_True by done. done.
    + intros Hw. destruct (Hu w cw Hw) as (Hwp & ? & ? & ?). split_and!; try (done || lia).
      rewrite page_refs_set, decide_False; [done|].
      intros E'. apply E. by apply valid_page_inj.
Qed.

Lemma arel_alloc s x l u : arel s (AAlloc (x :: l) u) ->
  arel (kalloc_post s x) (AAlloc l (<[x := 1]> u)).
Proof.
  intros [Hinv Hu]. destruct (kalloc_cons s x l Hinv) as [_ Hinv'].
  destruct Hinv as [_ Hnd Hv _]. simpl in *.
  apply NoDup_cons in Hnd as [Hnin Hnd]. apply Forall_cons in Hv as [Hx Hv].
  split; simpl; [done|]. intros w cw. rewrite lookup_insert. case_decide as E.
  - subst w. intros [= <-]. split_and!; try (done || lia).
    change (page_refs (refs_set (kframe x) 1 s) x = 1).
    rewrite page_refs_set. by rewrite decide_True.
  - intros Hw. destruct (Hu w cw Hw) as (Hwp & Hnw & Hrw & ?).
    apply not_elem_of_cons in Hnw as [_ Hnw]. split_and!; try (done || lia).
    change (page_refs (refs_set (kframe x) 1 s) w = cw).
    rewrite page_refs_set, decide_False; [done|]. intros E'. apply E. by apply valid_page_inj.
Qed.

Lemma arel_free_last s l u v : arel s (AAlloc l u) -> u !! v = Some 1 ->
  arel (kfree_last_post s v) (AAlloc (v :: l) (delete v u)).
Proof.
  intros [Hinv Hu] Hv. simpl in *. destruct (Hu v 1 Hv) as (Hvp & Hnin & Hr & _).
  split; simpl; [apply kfree_last_inv; try done; lia|].
  intros w cw. rewrite lookup_delete. case_decide as E; [done|].
  intros Hw. destruct (Hu w cw Hw) as (Hwp & Hnw & Hrw & ?). split_and!; try (done || lia).
  - apply not_elem_of_cons. split; [congruence|done].
  - rewrite kfree_last_refs by lia. rewrite decide_False; [done|].
    intros E'. apply E. by apply valid_page_inj.
Qed.

Lemma counter_ops s a v c : arel s a -> a_used a !! v = Some c ->
  inc_counter (V2P v) s = Ok () (refs_set (kframe v) (c + 1) s) /\
  dec_counter (V2P v) s = Ok () (refs_set (kframe v) (c - 1) s) /\
  get_ref_counter (V2P v) s = Ok c s.
Proof.
  intros [_ Hu] Hv. destruct (Hu v c Hv) as (Hvp & _ & Hr & Hc).
  unfold inc_counter, dec_counter, get_ref_counter.
  rewrite !(Ok_bind _ _ _ _ _ (ref_index_valid v s Hvp)).
  unfold mbind, M_bind, bindM, gets, modify. fold (page_refs s v). rewrite Hr.
  rewrite !u32_small, s32_small by ulia. done.
Qed.

(** One step of the implementation simulates one step of the specification. *)
Lemma alloc_simulation o s a r a' : arel s a -> astep o a = Some (r, a') ->
  exists s', cstep o s = Ok r s' /\ arel s' a'.
Proof.
  intros Hrel Hstep. destruct a as [l u]. destruct o as [|v|v|v|v]; simpl in Hstep.
  - destruct l as [|x l]; simplify_eq.
    + exists s. split; [apply kalloc_nil, Hrel|done].
    + exists (kalloc_post s r). split; [|by apply arel_alloc].
      by destruct (kalloc_cons s r l (ar_inv _ _ Hrel)).
  - destruct (u !! v) as [c|] eqn:Hc; [|done]. simpl in Hstep.
    destruct (ar_used _ _ Hrel v c Hc) as (Hvp & Hnin & Hr & Hrng).
    destruct (Z.eqb_spec c 1) as [->|Hne]; injection Hstep as <- <-.
    + exists (kfree_last_post s v). split; [|by apply arel_free_last].
      simpl. erewrite Ok_bind; [done|]. apply kfree_last; [done|lia].
    + exists (kfree_shared_post s v). split.
      * simpl. erewrite Ok_bind; [done|]. apply kfree_shared; [done|ulia].
      * destruct (arel_refs_set s (AAlloc l u) v (c - 1) Hrel) as [Hi Hu]; [by eexists|lia|].
        split; [apply kfree_shared_inv; [apply Hrel|done|lia]|].
        intros w cw Hw. destruct (Hu w cw Hw) as (? & ? & <- & ?). split_and!; try (done || lia).
        unfold kfree_shared_post, page_refs, refs_get, refs_set; simpl. by rewrite <- Hr.
  - destruct (u !! v) as [c|] eqn:Hc; [|done]. simpl in Hstep.
    case_bool; [|done]; simplify_eq. destruct (ar_used _ _ Hrel v c Hc) as (_ & _ & _ & Hrng).
    destruct (counter_ops s _ v c Hrel Hc) as (Hi & _ & _).
    eexists. split; [simpl; by erewrite Ok_bind|].
    apply (arel_refs_set s (AAlloc l u)); [done|by eexists|lia].
  - destruct (u !! v) as [c|] eqn:Hc; [|done]. simpl in Hstep.
    case_bool; [done|]; simplify_eq. destruct (ar_used _ _ Hrel v c Hc) as (_ & _ & _ & Hrng).
    destruct (counter_ops s _ v c Hrel Hc) as (_ & Hd & _).
    eexists. split; [simpl; by erewrite Ok_bind|].
    apply (arel_refs_set s (AAlloc l u)); [done|by eexists|lia].
  - destruct (u !! v) as [c|] eqn:Hc; [|done]. simplify_eq/=.
    destruct (counter_ops s _ v r Hrel Hc) as (_ & _ & Hg). eauto.
Qed.

(** ** Sequences of allocator calls *)

Fixpoint aruns (ops : list kop) (a : aalloc) : option (list Z * aalloc) :=
  match ops with
  | [] => Some ([], a)
  | o :: ops' =>
      '(r, a1) ← astep o a;
      '(rs, a2) ← aruns ops' a1;
      Some (r :: rs, a2)
  end.

Fixpoint cruns (ops : list kop) : M mach (list Z) :=
  match ops with
  | [] => mret []
  | o :: ops' => r ← cstep o; rs ← cruns ops'; mret (r :: rs)
  end.

Lemma aruns_cons o ops a rs a' : aruns (o :: ops) a = Some (rs, a') ->
  exists r a1 rs', astep o a = Some (r, a1) /\ aruns ops a1 = Some (rs', a') /\ rs = r :: rs'.
Proof.
  simpl. destruct (astep o a) as [[r a1]|]; simpl; [|done].
  destruct (aruns ops a1) as [[rs' a2]|] eqn:E; simpl; [|done]. intros [= <- <-]. eauto 6.
Qed.

Lemma cruns_cons o ops r rs s s1 s2 : cstep o s = Ok r s1 -> cruns ops s1 = Ok rs s2 ->
  cruns (o :: ops) s = Ok (r :: rs) s2.
Proof. intros H1 H2. simpl. by rewrite (Ok_bind _ _ _ _ _ H1), (Ok_bind _ _ _ _ _ H2). Qed.

Lemma alloc_trace_simulation ops s a rs a' : arel s a -> aruns ops a = Some (rs, a') ->
  exists s', cruns ops s = Ok rs s' /\ arel s' a'.
Proof.
  revert s a rs. induction ops as [|o ops IH]; intros s a rs Hrel Hr.
  - injection Hr as <- <-. by exists s.
  - apply aruns_cons in Hr as (r & a1 & rs' & Hs & Hr & ->).
    destruct (alloc_simulation o s a r a1 Hrel Hs) as (s1 & Hc & Hrel1).
    destruct (IH s1 a1 rs' Hrel1 Hr) as (s2 & Hc2 & Hrel2).
    exists s2. split; [by eapply cruns_cons|done].
Qed.

(** [kfree] calls of a run that only drop a reference to a shared page. *)
Definition shared_free (o : kop) (a : aalloc) : Z :=
  match o with
  | OpFree v => match a_used a !! v with Some c => if c =? 1 then 0 else 1 | None => 0 end
  | _ => 0
  end.

Fixpoint shared_frees (ops : list kop) (a : aalloc) : Z :=
  match ops with
  | [] => 0
  | o :: ops' =>
      shared_free o a +
      match astep o a with Some (_, a1) => shared_frees ops' a1 | None => 0 end
  end.

(** How far the counter is from the number of pages on the list. *)
Definition drift (s : mach) (a : aalloc) : Z :=
  km_free_pages (m_kmem s) - Z.of_nat (length (a_free a)).

Lemma alloc_step_drift o s a r a' s' : arel s a -> astep o a = Some (r, a') ->
  cstep o s = Ok r s' -> u32 (drift s' a') = u32 (drift s a + shared_free o a).
Proof.
  intros Hrel Hstep Hc. destruct a as [l u]. unfold drift.
  destruct o as [|v|v|v|v]; simpl in *.
  - destruct l as [|x l]; injection Hstep as <- <-.
    + rewrite (kalloc_nil s) in Hc by apply Hrel. injection Hc as <-. simpl. f_equal. lia.
    + destruct (kalloc_cons s x l (ar_inv _ _ Hrel)) as [E _]. rewrite E in Hc.
      injection Hc as <-. simpl. rewrite u32_sub_l. f_equal. lia.
  - destruct (u !! v) as [c|] eqn:Hu; [|done]. simpl in Hstep.
    destruct (ar_used _ _ Hrel v c Hu) as (Hvp & Hnin & Hr & Hrng).
    destruct (Z.eqb_spec c 1) as [->|Hne]; injection Hstep as <- <-.
    + rewrite (Ok_bind _ _ _ _ _ (kfree_last s v Hvp ltac:(lia))) in Hc. injection Hc as <-.
      simpl. rewrite u32_sub_l. f_equal. lia.
    + rewrite (Ok_bind _ _ _ _ _ (kfree_shared s v Hvp ltac:(ulia))) in Hc. injection Hc as <-.
      simpl. rewrite u32_sub_l. f_equal. lia.
  - destruct (u !! v) as [c|] eqn:Hu; [|done]. simpl in Hstep. case_bool; [|done].
    injection Hstep as <- <-. destruct (counter_ops s _ v c Hrel Hu) as (Hi & _ & _).
    rewrite (Ok_bind _ _ _ _ _ Hi) in Hc. injection Hc as <-. simpl. f_equal. lia.
  - destruct (u !! v) as [c|] eqn:Hu; [|done]. simpl in Hstep. case_bool; [done|].
    injection Hstep as <- <-. destruct (counter_ops s _ v c Hrel Hu) as (_ & Hd & _).
    rewrite (Ok_bind _ _ _ _ _ Hd) in Hc. injection Hc as <-. simpl. f_equal. lia.
  - destruct (u !! v) as [c|] eqn:Hu; [|done]. injection Hstep as <- <-.
    destruct (counter_ops s _ v c Hrel Hu) as (_ & _ & Hg). rewrite Hg in Hc.
    injection Hc as <-. simpl. f_equal. lia.
Qed.

Lemma alloc_trace_drift ops s a rs a' : arel s a -> aruns ops a = Some (rs, a') ->
  exists s', cruns ops s = Ok rs s' /\ u32 (drift s' a') = u32 (drift s a + shared_frees ops a).
Proof.
  revert s a rs. induction ops as [|o ops IH]; intros s a rs Hrel Hr.
  - injection Hr as <- <-. exists s. split; [done|]. simpl. f_equal. lia.
  - apply aruns_cons in Hr as (r & a1 & rs' & Hs & Hr & ->).
    destruct (alloc_simulation o s a r a1 Hrel Hs) as (s1 & Hc & Hrel1).
    destruct (IH s1 a1 rs' Hrel1 Hr) as (s2 & Hc2 & Hd). exists s2.
    split; [by eapply cruns_cons|]. rewrite Hd. simpl. rewrite Hs.
    pose proof (alloc_step_drift o s a r a1 s1 Hrel Hs Hc) as Hd1.
    unfold u32 in *. rewrite <- Zplus_mod_idemp_l, Hd1, Zplus_mod_idemp_l. f_equal. lia.
Qed.

End kalloc.

(** ** Properties *)

(** C27: Refinement: from a state whose free list and reference counts are
    those of the abstract allocator, every sequence of [kalloc], [kfree],
    [inc_counter], [dec_counter] and [get_ref_counter] calls the abstract
    allocator allows runs on the machine without a panic, returns the same
    pages and counts, and ends in a related state.  In particular [kalloc]
    never hands out a page that is in use, and a page returns to the list
    exactly when its last reference is freed. *)
Theorem kalloc_refines (end_ : Z) (s : mach) (a a' : aalloc) (ops : list kop) (rs : list Z) :
  KERNBASE <= end_ -> arel end_ s a -> aruns ops a = Some (rs, a') ->
  exists s', cruns end_ ops s = Ok rs s' /\ arel end_ s' a'.
Proof. intros He. by apply alloc_trace_simulation. Qed.

(** A machine with two free pages. *)
Definition demo_end : Z := KERNBASE + 0x120000.
Definition demo_page1 : Z := KERNBASE + 0x200000.
Definition demo_page2 : Z := KERNBASE + 0x201000.
Definition demo_mach : mach :=
  Mach (kstore ∅ demo_page1 demo_page2) (Kmem true demo_page1 ∅ 2).
Definition demo_aalloc : aalloc := AAlloc [demo_page1; demo_page2] ∅.
Definition demo_ops : list kop :=
  [OpAlloc; OpInc demo_page1; OpFree demo_page1; OpGet demo_page1; OpFree demo_page1; OpAlloc].

Lemma demo_arel : arel demo_end demo_mach demo_aalloc.
Proof.
  split.
  - split; simpl.
    + by vm_compute.
    + apply NoDup_cons. split; [|apply NoDup_singleton]. rewrite list_elem_of_singleton. done.
    + repeat constructor; by vm_compute.
    + repeat constructor; by vm_compute.
  - intros v c. simpl. by rewrite lookup_empty.
Qed.

Lemma kalloc_refines_witness :
  exists s', cruns demo_end demo_ops demo_mach = Ok [demo_page1; 0; 0; 1; 0; demo_page1] s' /\
    arel demo_end s' (AAlloc [demo_page2] {[demo_page1 := 1]}).
Proof.
  apply (kalloc_refines demo_end demo_mach demo_aalloc _ demo_ops).
  - by vm_compute.
  - exact demo_arel.
  - by vm_compute.
Defined.

(** Building the list at boot: [freerange] over an address range of the
    kernel heap frees every page that lies wholly inside the range, in
    address order, on top of the pages already free, and counts them. *)
Theorem freerange_correct (end_ vstart vend : Z) (s : mach) (l : list Z) :
  KERNBASE <= end_ -> kmem_inv end_ s l ->
  end_ <= vstart -> vstart <= P2V PHYSTOP -> 0 <= vend <= P2V PHYSTOP ->
  let p := PGROUNDUP vstart in
  let n := Z.to_nat ((vend - p) / PGSIZE) in
  (forall x, x ∈ range_pages n p -> x ∉ l) ->
  exists s', freerange end_ vstart vend s = Ok () s' /\
    kmem_inv end_ s' (rev (range_pages n p) ++ l) /\
    u32 (km_free_pages (m_kmem s')) = u32 (km_free_pages (m_kmem s) + Z.of_nat n).
Proof.
  intros He Hinv Hv1 Hv2 Hvend p n Hdis.
  assert (p = vstart + PGSIZE - 1 - (vstart + PGSIZE - 1) mod PGSIZE) as Hp.
  { apply PGROUNDUP_spec. change (P2V PHYSTOP) with 2382364672 in *.
    unfold KERNBASE, PGSIZE in *. ulia. }
  change (P2V PHYSTOP) with 2382364672 in *.
  destruct (freerange_loop_spec end_ He (freerange_fuel p vend) p vend s l n) as (s' & H1 & H2 & H3 & _); try done.
  - rewrite Hp. unfold aligned, PGSIZE. ulia.
  - change (P2V PHYSTOP) with 2382364672. rewrite Hp. unfold PGSIZE. ulia.
  - by exists s'.
Qed.

Lemma freerange_correct_witness :
  exists s', freerange demo_end (demo_page2 + 1) (demo_page2 + 0x3000) demo_mach = Ok () s' /\
    kmem_inv demo_end s' [demo_page2 + 0x2000; demo_page2 + 0x1000; demo_page1; demo_page2] /\
    u32 (km_free_pages (m_kmem s')) = 4.
Proof.
  destruct (freerange_correct demo_end (demo_page2 + 1) (demo_page2 + 0x3000) demo_mach
              [demo_page1; demo_page2]) as (s' & H1 & H2 & H3).
  - by vm_compute.
  - apply demo_arel.
  - by vm_compute.
  - by vm_compute.
  - by vm_compute.
  - intros x Hx Hin. apply elem_of_range_pages in Hx as [_ Hx]; [|by vm_compute].
    change (PGROUNDUP (demo_page2 + 1)) with (demo_page2 + 0x1000) in Hx.
    unfold demo_page1, demo_page2, KERNBASE in *. set_unfold. lia.
  - exists s'. split_and!; [exact H1|exact H2|exact H3].
Defined.

(** The free-page counter: over any run of allocator calls the
    difference between [kmem.free_pages] and the length of the free list
    grows by one for each [kfree] of a page that stays in use, because
    [kfree] increments the counter before it tests the reference count.  So
    [free_pages()] over-reports by the number of shared pages freed. *)
Theorem free_pages_drift (end_ : Z) (s : mach) (a a' : aalloc) (ops : list kop) (rs : list Z) :
  KERNBASE <= end_ -> arel end_ s a -> aruns ops a = Some (rs, a') ->
  exists s', cruns end_ ops s = Ok rs s' /\
    u32 (drift s' a') = u32 (drift s a + shared_frees ops a).
Proof. intros He. by apply alloc_trace_drift. Qed.

Lemma free_pages_drift_witness :
  exists s', cruns demo_end demo_ops demo_mach = Ok [demo_page1; 0; 0; 1; 0; demo_page1] s' /\
    u32 (drift s' (AAlloc [demo_page2] {[demo_page1 := 1]})) = 1.
Proof.
  apply (free_pages_drift demo_end demo_mach demo_aalloc _ demo_ops).
  - by vm_compute.
  - exact demo_arel.
  - by vm_compute.
Defined.
