(* ===== verification/PageTable.v ===== *)
(** * Two-level page tables ([vm.c], first half)

    A page directory is a frame of 1024 entries; a present entry points to a
    frame of 1024 page-table entries.  Both live in physical memory and are
    read and written word by word, as [walkpgdir] and its callers do.

    [pd_ok s l pgdir] is the invariant of one address space next to the
    allocator's: the directory and its tables are distinct frames, none of
    them free.  The lemmas give each operation's effect on [pte_at], the
    entry an address maps to, and say which frames it may change. *)

From S2P Require Import Prelude Mmu Memory Kalloc.

Section pagetable.
  Context (end_ : Z).

(** [*(uint* )a] and its assignment. *)
Definition load (a : Z) : M mach Z := gets (fun s => kload (m_mem s) a).
Definition store (a v : Z) : M mach () := modify (fun s => set_mem (kstore (m_mem s) a v) s).
Definition memset_page (a c : Z) : M mach () := modify (fun s => set_mem (kmemset (m_mem s) a c) s).
Definition copy_page (dst src : Z) : M mach () := modify (fun s => set_mem (kcopy (m_mem s) dst src) s).

(** Address of entry [i] of the table at [t]. *)
Definition entry (t i : Z) : Z := u32 (t + 4 * i).

#[global] Arguments entry : simpl never.

(** [walkpgdir(pgdir, va, alloc)]: the address of the entry, 0 for none. *)
Definition walkpgdir (pgdir va : Z) (alloc : bool) : M mach Z :=
  let pde := entry pgdir (PDX va) in
  d ← load pde;
  if has d PTE_P then
    mret (entry (P2V (PTE_ADDR d)) (PTX va))
  else if negb alloc then mret 0
  else
    pgtab ← kalloc;
    if pgtab =? 0 then mret 0 else
    (* Make sure all those PTE_P bits are zero. *)
    memset_page pgtab 0;;
    store pde (Z.lor (Z.lor (Z.lor (V2P pgtab) PTE_P) PTE_W) PTE_U);;
    mret (entry pgtab (PTX va)).

(** The loop of [mappages]; [fuel] bounds the pages still to come. *)
Fixpoint mappages_loop (fuel : nat) (pgdir a last pa perm : Z) : M mach Z :=
  pte ← walkpgdir pgdir a true;
  if pte =? 0 then mret (-1) else
  v ← load pte;
  if has v PTE_P then panic "remap" else
  store pte (Z.lor (Z.lor pa perm) PTE_P);;
  if a =? last then mret 0
  else match fuel with
       | O => nofuel
       | S fuel' => mappages_loop fuel' pgdir (u32 (a + PGSIZE)) last (u32 (pa + PGSIZE)) perm
       end.

Definition mappages (pgdir va size pa perm : Z) : M mach Z :=
  let a := PGROUNDDOWN va in
  let last := PGROUNDDOWN (u32 (va + size - 1)) in
  mappages_loop (Z.to_nat (u32 (last - a) / PGSIZE)) pgdir a last pa perm.

(** [find_pa]: the frame address behind [va], -1 if there is no table. *)
Definition find_pa (pgdir va : Z) : M mach Z :=
  pte ← walkpgdir pgdir va false;
  if pte =? 0 then mret (-1) else
  v ← load pte;
  mret (PTE_ADDR v).

Definition set_page_flags_in_mem (pgdir va pa : Z) : M mach () :=
  pte ← walkpgdir pgdir va false;
  if pte =? 0 then panic "failed setting PTE flags when handling trap" else
  v ← load pte;
  store pte (Z.lor v (Z.lor (Z.lor PTE_P PTE_W) PTE_U));;
  v ← load pte;
  store pte (clear_bits v PTE_PG);;
  v ← load pte;
  store pte (Z.lor v pa).

Definition set_page_flags_in_disk (pgdir va : Z) : M mach () :=
  pte ← walkpgdir pgdir va false;
  if pte =? 0 then panic "failed setting PTE flags after writing to file" else
  v ← load pte;
  store pte (Z.lor v PTE_PG);;
  v ← load pte;
  store pte (clear_bits v PTE_P);;
  v ← load pte;
  store pte (Z.land v (PTE_FLAGS v)).

Definition clearpteu (pgdir uva : Z) : M mach () :=
  pte ← walkpgdir pgdir uva false;
  if pte =? 0 then panic "clearpteu" else
  v ← load pte;
  store pte (clear_bits v PTE_U).

(** [uva2ka] dereferences the entry without testing it for null; a missing
    table is a fault at address 0. *)
Definition uva2ka (pgdir uva : Z) : M mach Z :=
  pte ← walkpgdir pgdir uva false;
  if pte =? 0 then fault 0 else
  v ← load pte;
  if negb (has v PTE_P) then mret 0 else
  if negb (has v PTE_U) then mret 0 else
  mret (P2V (PTE_ADDR v)).

(** The hardware's own walk, for a present page. *)
Definition translate (m : memory) (pgdir va : Z) : option Z :=
  let d := kload m (entry pgdir (PDX va)) in
  if has d PTE_P then
    let v := kload m (entry (P2V (PTE_ADDR d)) (PTX va)) in
    if has v PTE_P then Some (P2V (PTE_ADDR v)) else None
  else None.

(** ** Reading an address space *)

Definition pde_at (m : memory) (pgdir va : Z) : Z := kload m (entry pgdir (PDX va)).

(** The table frame of [va], if its directory entry is present. *)
Definition table_at (m : memory) (pgdir va : Z) : option Z :=
  let d := pde_at m pgdir va in
  if has d PTE_P then Some (P2V (PTE_ADDR d)) else None.

(** The entry of [va]: [None] when no table covers it. *)
Definition pte_at (m : memory) (pgdir va : Z) : option Z :=
  t ← table_at m pgdir va; Some (kload m (entry t (PTX va))).

(** Frames that hold the directory and its tables. *)
Definition pd_frame (m : memory) (pgdir fn : Z) : Prop :=
  fn = kframe pgdir \/ exists va t, is_u32 va /\ table_at m pgdir va = Some t /\ fn = kframe t.

Record pd_wf (m : memory) (pgdir : Z) : Prop := {
  pw_valid : valid_page end_ pgdir;
  pw_tables : forall va t, is_u32 va -> table_at m pgdir va = Some t -> valid_page end_ t;
  pw_self : forall va t, is_u32 va -> table_at m pgdir va = Some t -> kframe t <> kframe pgdir;
  pw_inj : forall va vb t, is_u32 va -> is_u32 vb ->
    table_at m pgdir va = Some t -> table_at m pgdir vb = Some t -> PDX va = PDX vb;
}.

(** One address space together with the free list. *)
Record pd_ok (s : mach) (l : list Z) (pgdir : Z) : Prop := {
  po_kmem : kmem_inv end_ s l;
  po_words : mem_words (m_mem s);
  po_wf : pd_wf (m_mem s) pgdir;
  po_free : forall x, x ∈ l -> ~ pd_frame (m_mem s) pgdir (kframe x);
}.

(** Memory may have changed only in frames that satisfy [X]. *)
Definition only_changes (X : Z -> Prop) (m m' : memory) : Prop :=
  forall fn, ~ X fn -> mem_frame m' fn = mem_frame m fn.

Hypothesis end_high : KERNBASE <= end_.

(** ** Entry addresses *)

Lemma pd_u32 m pgdir : pd_wf m pgdir -> is_u32 pgdir.
Proof. by intros [(? & _) _ _ _]. Qed.

Lemma pd_aligned m pgdir : pd_wf m pgdir -> aligned pgdir.
Proof. by intros [(_ & ? & _) _ _ _]. Qed.
Hint Resolve pd_u32 pd_aligned : core.

Lemma entry_spec t i : is_u32 t -> aligned t -> 0 <= i < 1024 ->
  kframe (entry t i) = kframe t /\ V2P (entry t i) mod PGSIZE / 4 = i.
Proof.
  intros Ht Hal Hi. unfold entry.
  destruct (kframe_offset t (4 * i) Ht Hal) as [E1 E2]; [unfold PGSIZE; lia|].
  rewrite E1, E2. split; [done|]. rewrite Z.mul_comm. by apply Z.div_mul.
Qed.

Lemma entry_nonzero t i : is_u32 t -> aligned t -> KERNBASE <= t -> 0 <= i < 1024 -> entry t i <> 0.
Proof. unfold entry, aligned, KERNBASE, PGSIZE. intros. ulia. Qed.

Lemma table_at_shape m pgdir va t : table_at m pgdir va = Some t -> is_u32 t /\ aligned t.
Proof.
  unfold table_at. case_bool; [|done]. intros [= <-]. split; [apply u32_range|].
  apply P2V_aligned, PTE_ADDR_aligned.
Qed.

Lemma table_at_PDX m pgdir va vb : PDX va = PDX vb -> table_at m pgdir va = table_at m pgdir vb.
Proof. unfold table_at, pde_at. by intros ->. Qed.

Lemma pte_at_page m pgdir va vb : is_u32 va -> is_u32 vb -> PGROUNDDOWN va = PGROUNDDOWN vb ->
  pte_at m pgdir va = pte_at m pgdir vb.
Proof.
  intros Hva Hvb [H1 H2]%same_page_iff; [|done..]. unfold pte_at.
  by rewrite (table_at_PDX m pgdir va vb), H2.
Qed.

(** ** Frame conditions *)

Lemma pde_at_frame m m' pgdir va : is_u32 pgdir -> aligned pgdir ->
  mem_frame m' (kframe pgdir) = mem_frame m (kframe pgdir) ->
  pde_at m' pgdir va = pde_at m pgdir va.
Proof.
  intros Hu Hal E. unfold pde_at. apply kload_frame.
  by destruct (entry_spec pgdir (PDX va) Hu Hal (PDX_range va)) as [-> _].
Qed.

Lemma table_at_frame m m' pgdir va : is_u32 pgdir -> aligned pgdir ->
  mem_frame m' (kframe pgdir) = mem_frame m (kframe pgdir) ->
  table_at m' pgdir va = table_at m pgdir va.
Proof. intros. unfold table_at. by rewrite (pde_at_frame m m'). Qed.

Lemma pd_frame_agree m m' pgdir : is_u32 pgdir -> aligned pgdir ->
  mem_frame m' (kframe pgdir) = mem_frame m (kframe pgdir) ->
  forall fn, pd_frame m' pgdir fn <-> pd_frame m pgdir fn.
Proof.
  intros Hu Hal E fn. unfold pd_frame. setoid_rewrite (table_at_frame m m' pgdir); done.
Qed.

(** An address space depends only on its own frames. *)
Lemma pte_at_frames m m' pgdir va : pd_wf m pgdir -> is_u32 va ->
  (forall fn, pd_frame m pgdir fn -> mem_frame m' fn = mem_frame m fn) ->
  pte_at m' pgdir va = pte_at m pgdir va.
Proof.
  intros Hwf Hva Hf. unfold pte_at.
  rewrite (table_at_frame m m' pgdir va) by (eauto || (apply Hf; by left)).
  destruct (table_at m pgdir va) as [t|] eqn:Ht; [|done]. simpl. f_equal.
  destruct (table_at_shape _ _ _ _ Ht) as [Htu Hta]. apply kload_frame.
  destruct (entry_spec t (PTX va) Htu Hta (PTX_range va)) as [-> _].
  apply Hf. right. eauto.
Qed.

Lemma pd_wf_agree m m' pgdir : pd_wf m pgdir ->
  mem_frame m' (kframe pgdir) = mem_frame m (kframe pgdir) -> pd_wf m' pgdir.
Proof.
  intros Hwf E.
  assert (forall va, table_at m' pgdir va = table_at m pgdir va) as Ht
    by (intros; apply table_at_frame; eauto).
  destruct Hwf as [Hv Htb Hs Hi]. split; [done|..]; setoid_rewrite Ht; done.
Qed.

(** ** Storing an entry *)

Lemma store_pte_wf m pgdir va t v : pd_wf m pgdir -> is_u32 va -> table_at m pgdir va = Some t ->
  let m' := kstore m (entry t (PTX va)) v in
  mem_frame m' (kframe pgdir) = mem_frame m (kframe pgdir) /\
  pd_wf m' pgdir /\ (forall fn, pd_frame m' pgdir fn <-> pd_frame m pgdir fn) /\
  only_changes (fun fn => fn = kframe t) m m'.
Proof.
  intros Hwf Hva Ht m'. destruct (table_at_shape _ _ _ _ Ht) as [Htu Hta].
  destruct (entry_spec t (PTX va) Htu Hta (PTX_range va)) as [Ef _].
  assert (only_changes (fun fn => fn = kframe t) m m') as Hoc.
  { intros fn Hne. unfold m'. rewrite mem_frame_kstore, Ef. rewrite decide_False; congruence. }
  assert (mem_frame m' (kframe pgdir) = mem_frame m (kframe pgdir)) as E.
  { apply Hoc. intros E. by eapply (pw_self _ _ Hwf va t). }
  split_and!; [done|by eapply pd_wf_agree|apply pd_frame_agree; eauto|done].
Qed.

Lemma store_pte_at m pgdir va vb t v : pd_wf m pgdir -> is_u32 va -> is_u32 vb ->
  table_at m pgdir va = Some t ->
  pte_at (kstore m (entry t (PTX va)) v) pgdir vb =
    if decide (PGROUNDDOWN va = PGROUNDDOWN vb) then Some v else pte_at m pgdir vb.
Proof.
  intros Hwf Hva Hvb Ht. destruct (table_at_shape _ _ _ _ Ht) as [Htu Hta].
  destruct (entry_spec t (PTX va) Htu Hta (PTX_range va)) as [Ef Ew].
  destruct (store_pte_wf m pgdir va t v Hwf Hva Ht) as (E & _ & _ & _).
  unfold pte_at. rewrite (table_at_frame m _ pgdir) by eauto.
  case_decide as Hd.
  - apply same_page_iff in Hd as [Hd1 Hd2]; [|done..].
    rewrite <- (table_at_PDX m pgdir va vb Hd1), Ht, <- Hd2. simpl. by rewrite kload_kstore_eq.
  - destruct (table_at m pgdir vb) as [t'|] eqn:Ht'; [|done]. simpl. f_equal.
    destruct (table_at_shape _ _ _ _ Ht') as [Htu' Hta'].
    destruct (entry_spec t' (PTX vb) Htu' Hta' (PTX_range vb)) as [Ef' Ew'].
    destruct (decide (kframe t = kframe t')) as [Et|Et].
    + apply kload_kstore_word. rewrite Ew, Ew'. intros HX. apply Hd.
      apply same_page_iff; [done..|]. split; [|done].
      assert (t = t') as <- by (eapply valid_page_inj; eauto using pw_tables).
      by eapply (pw_inj _ _ Hwf va vb).
    + apply kload_kstore_frame. by rewrite Ef, Ef'.
Qed.
(** ** walkpgdir *)

Lemma walk_present pgdir va t alloc s : table_at (m_mem s) pgdir va = Some t ->
  walkpgdir pgdir va alloc s = Ok (entry t (PTX va)) s.
Proof.
  unfold table_at, pde_at. intros H. unfold walkpgdir, load. erewrite Ok_bind by reflexivity.
  case_bool; [|done]. by injection H as <-.
Qed.

Lemma walk_absent pgdir va s : table_at (m_mem s) pgdir va = None ->
  walkpgdir pgdir va false s = Ok 0 s.
Proof.
  unfold table_at, pde_at. intros H. unfold walkpgdir, load. erewrite Ok_bind by reflexivity.
  by case_bool.
Qed.

(** The entry address a lookup gives, 0 for none. *)
Definition walk_result (m : memory) (pgdir va : Z) : Z :=
  match table_at m pgdir va with Some t => entry t (PTX va) | None => 0 end.

Lemma walk_noalloc pgdir va s :
  walkpgdir pgdir va false s = Ok (walk_result (m_mem s) pgdir va) s.
Proof.
  unfold walk_result. destruct (table_at _ _ _) eqn:E; [by apply walk_present|by apply walk_absent].
Qed.

Lemma walk_entry_nonzero m pgdir va t : pd_wf m pgdir -> is_u32 va ->
  table_at m pgdir va = Some t -> (entry t (PTX va) =? 0) = false.
Proof.
  intros Hwf Hva Ht. apply Z.eqb_neq.
  destruct (pw_tables _ _ Hwf va t Hva Ht) as (? & ? & ? & _).
  apply entry_nonzero; [done|done|lia|apply PTX_range].
Qed.

(** What an operation that may take page-table pages off the free list
    leaves behind: the pages it used, the frames it may have touched, and
    the counts of all other pages. *)
Record pd_step (s s' : mach) (l l' : list Z) (pgdir : Z) : Prop := {
  ps_ok : pd_ok s' l' pgdir;
  ps_used : exists used, l = used ++ l' /\
    only_changes (fun fn => pd_frame (m_mem s) pgdir fn \/ fn ∈ kframe <$> used) (m_mem s) (m_mem s') /\
    (forall fn, pd_frame (m_mem s') pgdir fn -> pd_frame (m_mem s) pgdir fn \/ fn ∈ kframe <$> used) /\
    (forall v, valid_page end_ v -> v ∉ used -> page_refs s' v = page_refs s v);
}.

Lemma pd_step_refl s l pgdir : pd_ok s l pgdir -> pd_step s s l l pgdir.
Proof.
  intros Hok. split; [done|]. exists []. split_and!; try done. intros fn Hfn. by left.
Qed.

Lemma pd_step_trans s1 s2 s3 l1 l2 l3 pgdir :
  pd_step s1 s2 l1 l2 pgdir -> pd_step s2 s3 l2 l3 pgdir -> pd_step s1 s3 l1 l3 pgdir.
Proof.
  intros [_ (u1 & -> & Ho1 & Hf1 & Hr1)] [Hok3 (u2 & -> & Ho2 & Hf2 & Hr2)].
  split; [done|]. exists (u1 ++ u2). rewrite fmap_app. split_and!.
  - by rewrite app_assoc.
  - intros fn Hfn. rewrite Ho2; [apply Ho1|]; rewrite elem_of_app in Hfn; [tauto|].
    intros [H|H]; [apply Hf1 in H|]; tauto.
  - intros fn Hfn. rewrite elem_of_app. apply Hf2 in Hfn as [Hfn|Hfn]; [|tauto].
    apply Hf1 in Hfn. tauto.
  - intros v Hv Hnin. rewrite elem_of_app in Hnin. rewrite Hr2, Hr1; tauto.
Qed.

(** Writing an entry through an existing table. *)
Lemma store_pte_step s l pgdir va t v : pd_ok s l pgdir -> is_u32 va -> is_u32 v ->
  table_at (m_mem s) pgdir va = Some t ->
  let s' := set_mem (kstore (m_mem s) (entry t (PTX va)) v) s in
  pd_step s s' l l pgdir.
Proof.
  intros [Hk Hw Hwf Hfr] Hva Hv Ht s'.
  destruct (store_pte_wf (m_mem s) pgdir va t v Hwf Hva Ht) as (_ & Hwf' & Hfr' & Hoc).
  split; [split|]; simpl.
  - destruct Hk as [Hc Hnd Hvp Hr]. split; simpl; [|done..].
    eapply chain_frame; [|exact Hc]. intros x Hx. apply Hoc. intros E.
    apply (Hfr x Hx). right. eauto.
  - by apply mem_words_kstore.
  - done.
  - intros x Hx Hpd. apply (Hfr x Hx). by apply Hfr'.
  - exists []. split_and!; [done| |intros fn Hfn; left; by apply Hfr'|done].
    intros fn Hne. apply Hoc. intros ->. apply Hne. left. right. eauto.
Qed.

(** The directory entry [walkpgdir] writes for a fresh table. *)
Definition new_pde (x : Z) : Z := Z.lor (Z.lor (Z.lor (V2P x) PTE_P) PTE_W) PTE_U.
#[global] Arguments new_pde : simpl never.

Lemma new_pde_spec x : is_u32 x -> aligned x ->
  has (new_pde x) PTE_P = true /\ P2V (PTE_ADDR (new_pde x)) = x /\ is_u32 (new_pde x).
Proof.
  intros Hx Hal. unfold new_pde. rewrite <- !Z.lor_assoc.
  change (Z.lor PTE_P (Z.lor PTE_W PTE_U)) with 7.
  destruct (pte_make (V2P x) 7) as (H1 & H2 & H3);
    [apply u32_range|by apply V2P_aligned|unfold PGSIZE; lia|].
  split_and!; [|by rewrite H1, P2V_V2P|done].
  rewrite has_lor. apply orb_true_iff. by right.
Qed.

(** The machine after [walkpgdir] put the page [x] in as a table. *)
Definition walk_new (s : mach) (pgdir va x : Z) : mach :=
  set_mem (kstore (kmemset (m_mem s) x 0) (entry pgdir (PDX va)) (new_pde x)) (kalloc_post s x).

Lemma walk_alloc_run s l pgdir va x : pd_ok s (x :: l) pgdir ->
  table_at (m_mem s) pgdir va = None ->
  walkpgdir pgdir va true s = Ok (entry x (PTX va)) (walk_new s pgdir va x).
Proof.
  intros Hok Ht. unfold table_at, pde_at in Ht. unfold walkpgdir, load.
  erewrite Ok_bind by reflexivity. case_bool; [done|]. simpl.
  destruct (kalloc_cons end_ end_high s x l (po_kmem _ _ _ Hok)) as [Hk _].
  rewrite (Ok_bind _ _ _ _ _ Hk).
  assert (x <> 0) as Hx0%Z.eqb_neq.
  { eapply valid_page_nonzero; [exact end_high|].
    by apply (Forall_cons_1 _ _ _ (ki_valid _ _ _ (po_kmem _ _ _ Hok))). }
  by rewrite Hx0.
Qed.

Lemma table_at_new s l pgdir va vb x : pd_ok s (x :: l) pgdir -> is_u32 va -> is_u32 vb ->
  table_at (m_mem (walk_new s pgdir va x)) pgdir vb =
    if decide (PDX va = PDX vb) then Some x else table_at (m_mem s) pgdir vb.
Proof.
  intros Hok Hva Hvb.
  assert (valid_page end_ x) as (Hxu & Hxa & _).
  { by apply (Forall_cons_1 _ _ _ (ki_valid _ _ _ (po_kmem _ _ _ Hok))). }
  assert (kframe x <> kframe pgdir) as Hne.
  { intros E. apply (po_free _ _ _ Hok x); [by apply elem_of_cons; left|by left]. }
  pose proof (po_wf _ _ _ Hok) as Hwf. pose proof (pd_u32 _ _ Hwf). pose proof (pd_aligned _ _ Hwf).
  destruct (entry_spec pgdir (PDX va)) as [Ef Ew]; [done..|apply PDX_range|].
  destruct (entry_spec pgdir (PDX vb)) as [Ef' Ew']; [done..|apply PDX_range|].
  destruct (new_pde_spec x Hxu Hxa) as (Hp & Ha & _).
  unfold table_at, pde_at, walk_new. cbn [m_mem set_mem]. case_decide as Hd.
  - rewrite <- Hd, kload_kstore_eq, Hp. by rewrite Ha.
  - rewrite kload_kstore_word by congruence. rewrite kload_kmemset_frame by congruence. done.
Qed.

Lemma walk_new_frames s pgdir va x fn : is_u32 pgdir -> aligned pgdir ->
  fn <> kframe pgdir -> fn <> kframe x ->
  mem_frame (m_mem (walk_new s pgdir va x)) fn = mem_frame (m_mem s) fn.
Proof.
  intros Hu Ha H1 H2. unfold walk_new. cbn [m_mem set_mem].
  destruct (entry_spec pgdir (PDX va) Hu Ha (PDX_range va)) as [Ef _].
  rewrite mem_frame_kstore, Ef, decide_False by congruence.
  rewrite mem_frame_kmemset, decide_False by congruence. done.
Qed.

Lemma pd_frame_new s l pgdir va x fn : pd_ok s (x :: l) pgdir -> is_u32 va ->
  pd_frame (m_mem (walk_new s pgdir va x)) pgdir fn -> pd_frame (m_mem s) pgdir fn \/ fn = kframe x.
Proof.
  intros Hok Hva [->|(vb & t & Hvb & Ht & ->)]; [by left; left|].
  rewrite (table_at_new s l) in Ht by done. case_decide; [|left; right; eauto].
  injection Ht as <-. by right.
Qed.

Lemma walk_new_ok s l pgdir va x : pd_ok s (x :: l) pgdir -> is_u32 va ->
  table_at (m_mem s) pgdir va = None -> pd_ok (walk_new s pgdir va x) l pgdir.
Proof.
  intros Hok Hva Hnone. pose proof Hok as [Hk Hw Hwf Hfr].
  destruct (kalloc_cons end_ end_high s x l Hk) as [_ Hk'].
  pose proof Hk as [_ Hnd Hvp _]. apply NoDup_cons in Hnd as [Hnin _].
  apply Forall_cons in Hvp as [Hx Hvp]. rewrite Forall_forall in Hvp.
  destruct (new_pde_spec x) as (_ & _ & Hnp); [apply Hx..|].
  assert (kframe x <> kframe pgdir) as Hxp.
  { intros E. apply (Hfr x); [by apply elem_of_cons; left|by left]. }
  assert (forall y, y ∈ l -> kframe y <> kframe x) as Hne.
  { intros y Hy E. apply Hnin. by rewrite (valid_page_inj end_ x y Hx (Hvp y Hy) (eq_sym E)). }
  assert (forall y, y ∈ l -> ~ pd_frame (m_mem s) pgdir (kframe y)) as Hfr'.
  { intros y Hy. apply Hfr, elem_of_cons. by right. }
  split.
  - destruct Hk' as [Hc Hnd' Hv' Hr']. split; [|done..]. simpl in *.
    eapply chain_frame; [|exact Hc]. intros y Hy.
    apply (walk_new_frames s pgdir va x); eauto. intros E. apply (Hfr' y Hy). by left.
  - simpl. apply mem_words_kstore; [by apply mem_words_kmemset|done].
  - split.
    + apply Hwf.
    + intros vb t Hvb. rewrite (table_at_new s l) by done. case_decide; [by intros [= <-]|].
      by apply (pw_tables _ _ Hwf).
    + intros vb t Hvb. rewrite (table_at_new s l) by done. case_decide; [by intros [= <-]|].
      by apply (pw_self _ _ Hwf).
    + assert (forall vb, is_u32 vb -> table_at (m_mem s) pgdir vb <> Some x) as Hnx.
      { intros vb Hvb Ht. apply (Hfr x); [by apply elem_of_cons; left|]. right. eauto. }
      intros vb vc t Hvb Hvc. rewrite !(table_at_new s l) by done.
      repeat case_decide; try congruence.
      * intros [= <-] H'. by destruct (Hnx vc).
      * intros H' [= <-]. by destruct (Hnx vb).
      * by apply (pw_inj _ _ Hwf).
  - intros y Hy Hpd. apply (pd_frame_new s l) in Hpd as [Hpd|E]; try done.
    + by apply (Hfr' y Hy).
    + by apply (Hne y Hy).
Qed.

(** Entries after the walk: a fresh table reads as zero. *)
Lemma pte_at_new s l pgdir va vb x : pd_ok s (x :: l) pgdir -> is_u32 va -> is_u32 vb ->
  table_at (m_mem s) pgdir va = None ->
  pte_at (m_mem (walk_new s pgdir va x)) pgdir vb =
    if decide (PDX va = PDX vb) then Some 0 else pte_at (m_mem s) pgdir vb.
Proof.
  intros Hok Hva Hvb Hnone. unfold pte_at. rewrite (table_at_new s l) by done.
  assert (valid_page end_ x) as (Hxu & Hxa & _).
  { by apply (Forall_cons_1 _ _ _ (ki_valid _ _ _ (po_kmem _ _ _ Hok))). }
  pose proof (po_wf _ _ _ Hok) as Hwf.
  assert (kframe x <> kframe pgdir) as Hxp.
  { intros E. apply (po_free _ _ _ Hok x); [by apply elem_of_cons; left|by left]. }
  case_decide as Hd; simpl.
  - f_equal. destruct (entry_spec x (PTX vb) Hxu Hxa (PTX_range vb)) as [Ef _].
    destruct (entry_spec pgdir (PDX va)) as [Ef' _]; [eauto..|apply PDX_range|].
    rewrite kload_kstore_frame by congruence. by apply kload_kmemset0.
  - destruct (table_at (m_mem s) pgdir vb) as [t|] eqn:Ht; [|done]. simpl. f_equal.
    destruct (table_at_shape _ _ _ _ Ht) as [Htu Hta]. apply kload_frame.
    destruct (entry_spec t (PTX vb) Htu Hta (PTX_range vb)) as [-> _].
    apply walk_new_frames; eauto.
    + by apply (pw_self _ _ Hwf vb).
    + intros E. apply (po_free _ _ _ Hok x); [by apply elem_of_cons; left|]. right. eauto.
Qed.

Lemma walk_new_step s l pgdir va x : pd_ok s (x :: l) pgdir -> is_u32 va ->
  table_at (m_mem s) pgdir va = None -> pd_step s (walk_new s pgdir va x) (x :: l) l pgdir.
Proof.
  intros Hok Hva Hnone. split; [by apply walk_new_ok|]. exists [x]. split_and!.
  - done.
  - intros fn Hfn. simpl in Hfn. apply walk_new_frames; eauto using po_wf.
    + intros ->. apply Hfn. left. by left.
    + intros ->. apply Hfn. right. by apply elem_of_cons; left.
  - intros fn Hpd. apply (pd_frame_new s l) in Hpd as [?| ->]; try done; [by left|].
    right. simpl. by apply elem_of_cons; left.
  - intros v Hv Hnin. change (page_refs (refs_set (kframe x) 1 s) v = page_refs s v).
    rewrite page_refs_set, decide_False; [done|]. intros E. apply Hnin, elem_of_cons. left.
    eapply valid_page_inj; [done| |done].
    by apply (Forall_cons_1 _ _ _ (ki_valid _ _ _ (po_kmem _ _ _ Hok))).
Qed.

(** Table pages a walk to [va] has to allocate. *)
Definition needs (m : memory) (pgdir va : Z) : nat :=
  match table_at m pgdir va with Some _ => 0 | None => 1 end.

(** [walkpgdir] with allocation: it returns 0 only when it needs a page and
    there is none; otherwise the entry of [va] exists afterwards, entries
    that existed keep their values, and new ones are zero. *)
Lemma walk_alloc s l pgdir va : pd_ok s l pgdir -> is_u32 va ->
  (l = [] /\ table_at (m_mem s) pgdir va = None /\ walkpgdir pgdir va true s = Ok 0 s) \/
  exists s' l' t,
    walkpgdir pgdir va true s = Ok (entry t (PTX va)) s' /\ pd_step s s' l l' pgdir /\
    table_at (m_mem s') pgdir va = Some t /\ length l = (needs (m_mem s) pgdir va + length l')%nat /\
    forall vb, is_u32 vb ->
      pte_at (m_mem s') pgdir vb =
        match pte_at (m_mem s) pgdir vb with
        | Some v => Some v
        | None => if decide (PDX va = PDX vb) then Some 0 else None
        end.
Proof.
  intros Hok Hva. unfold needs. destruct (table_at (m_mem s) pgdir va) as [t|] eqn:Ht.
  - right. exists s, l, t. split_and!; [by apply walk_present|by apply pd_step_refl|done|lia|].
    intros vb Hvb. destruct (pte_at _ _ vb) as [v|] eqn:Hp; [done|].
    case_decide as Hd; [|done]. unfold pte_at in Hp.
    by rewrite <- (table_at_PDX _ _ va vb Hd), Ht in Hp.
  - destruct l as [|x l].
    + left. split_and!; [done..|]. unfold walkpgdir, load. erewrite Ok_bind by reflexivity.
      unfold table_at, pde_at in Ht. case_bool; [done|]. simpl.
      by rewrite (Ok_bind _ _ _ _ _ (kalloc_nil end_ s (po_kmem _ _ _ Hok))).
    + right. exists (walk_new s pgdir va x), l, x. split_and!.
      * by eapply walk_alloc_run.
      * by apply walk_new_step.
      * rewrite (table_at_new s l) by done. by rewrite decide_True.
      * done.
      * intros vb Hvb. rewrite (pte_at_new s l) by done. case_decide as Hd.
        -- unfold pte_at. by rewrite <- (table_at_PDX _ _ va vb Hd), Ht.
        -- by destruct (pte_at _ _ vb).
Qed.

(** ** mappages *)

(** The entry [mappages] writes. *)
Definition mapped_pte (pa perm : Z) : Z := Z.lor (Z.lor pa perm) PTE_P.
#[global] Arguments mapped_pte : simpl never.

Lemma mapped_pte_range pa perm : is_u32 pa -> 0 <= perm < PGSIZE -> is_u32 (mapped_pte pa perm).
Proof. intros. apply lor_u32; [apply lor_u32|]; unfold PGSIZE, PTE_P in *; ulia. Qed.

(** An untouched entry, up to the appearance of an empty table. *)
Definition pte_ext (o o' : option Z) : Prop := o' = o \/ (o = None /\ o' = Some 0).

Lemma pte_ext_refl o : pte_ext o o.
Proof. by left. Qed.

Lemma pte_ext_trans o1 o2 o3 : pte_ext o1 o2 -> pte_ext o2 o3 -> pte_ext o1 o3.
Proof. unfold pte_ext. intuition congruence. Qed.

Lemma pte_ext_Some v o : pte_ext (Some v) o -> o = Some v.
Proof. unfold pte_ext. intuition congruence. Qed.

(** Tables appear only for directory entries [lo] to [hi]. *)
Definition new_tables (m m' : memory) (pgdir lo hi : Z) : Prop :=
  forall vb, is_u32 vb -> pte_at m pgdir vb = None -> ~ (lo <= PDX vb <= hi) -> pte_at m' pgdir vb = None.

Lemma new_tables_trans m1 m2 m3 pgdir lo hi lo' hi' : lo <= lo' -> hi' <= hi -> lo <= hi ->
  new_tables m1 m2 pgdir lo lo -> new_tables m2 m3 pgdir lo' hi' -> new_tables m1 m3 pgdir lo hi.
Proof. intros H1 H2 H3 N1 N2 vb Hvb Hn Hout. apply N2; [done|apply N1; [done..|lia]|lia]. Qed.

(** Mapping one page. *)
Lemma map_one s l pgdir a pa perm : pd_ok s l pgdir -> is_u32 a -> is_u32 pa -> 0 <= perm < PGSIZE ->
  (forall v, pte_at (m_mem s) pgdir a = Some v -> has v PTE_P = false) ->
  exists s' l', pd_step s s' l l' pgdir /\ new_tables (m_mem s) (m_mem s') pgdir (PDX a) (PDX a) /\
    ((l = [] /\ l' = [] /\ needs (m_mem s) pgdir a = 1%nat /\
      (forall vb, is_u32 vb -> pte_ext (pte_at (m_mem s) pgdir vb) (pte_at (m_mem s') pgdir vb)) /\
      forall fuel last, mappages_loop fuel pgdir a last pa perm s = Ok (-1) s') \/
     (length l = (needs (m_mem s) pgdir a + length l')%nat /\
      (forall vb, is_u32 vb ->
         if decide (PGROUNDDOWN a = PGROUNDDOWN vb)
         then pte_at (m_mem s') pgdir vb = Some (mapped_pte pa perm)
         else pte_ext (pte_at (m_mem s) pgdir vb) (pte_at (m_mem s') pgdir vb)) /\
      forall fuel last, mappages_loop fuel pgdir a last pa perm s =
        (if a =? last then mret 0 else
         match fuel with
         | O => nofuel
         | S fuel' => mappages_loop fuel' pgdir (u32 (a + PGSIZE)) last (u32 (pa + PGSIZE)) perm
         end) s')).
Proof.
  intros Hok Ha Hpa Hperm Hnp.
  destruct (walk_alloc s l pgdir a Hok Ha) as [(-> & Ht & Hw)|(s1 & l1 & t & Hw & Hst & Ht & Hlen & Hp)].
  - exists s, []. split; [by apply pd_step_refl|]. split; [by intros vb|]. left. split_and!; [done|done|by unfold needs; rewrite Ht|by intros; left|].
    intros fuel last. destruct fuel; simpl; by rewrite (Ok_bind _ _ _ _ _ Hw).
  - pose proof (ps_ok _ _ _ _ _ Hst) as Hok1. pose proof (po_wf _ _ _ Hok1) as Hwf1.
    pose proof (mapped_pte_range pa perm Hpa Hperm) as Hm.
    pose proof (store_pte_step s1 l1 pgdir a t _ Hok1 Ha Hm Ht) as Hst2. simpl in Hst2.
    set (s2 := set_mem _ s1) in Hst2. exists s2, l1. split; [by eapply pd_step_trans|]. split.
    { intros vb Hvb Hn Hout. unfold s2. cbn [m_mem set_mem]. rewrite store_pte_at by done.
      rewrite decide_False; [|intros [E _]%same_page_iff; [lia|done..]]. rewrite Hp, Hn by done.
      rewrite decide_False; [done|lia]. }
    right. split; [done|]. split.
    + intros vb Hvb. unfold s2. cbn [m_mem set_mem]. rewrite store_pte_at by done.
      case_decide; [done|]. rewrite Hp by done. unfold pte_ext.
      destruct (pte_at (m_mem s) pgdir vb); [by left|]. case_decide; [by right|by left].
    + assert (pte_at (m_mem s1) pgdir a = Some (kload (m_mem s1) (entry t (PTX a)))) as Hv
        by (unfold pte_at; by rewrite Ht).
      assert (has (kload (m_mem s1) (entry t (PTX a))) PTE_P = false) as Hv0.
      { rewrite Hp in Hv by done. destruct (pte_at (m_mem s) pgdir a) as [v|] eqn:E.
        - injection Hv as <-. by apply Hnp.
        - rewrite decide_True in Hv by done. by injection Hv as <-. }
      intros fuel last.
      destruct fuel; simpl; rewrite (Ok_bind _ _ _ _ _ Hw);
        rewrite (walk_entry_nonzero _ _ _ _ Hwf1 Ha Ht); unfold load;
        (erewrite Ok_bind by reflexivity); rewrite Hv0; done.
Qed.

(** The pages [a], [a + PGSIZE], ..., [a + n * PGSIZE]. *)
Definition in_pages (a : Z) (n : nat) (va : Z) : Prop :=
  a <= PGROUNDDOWN va <= a + Z.of_nat n * PGSIZE.

#[global] Instance in_pages_dec a n va : Decision (in_pages a n va).
Proof. unfold in_pages. apply _. Defined.

Lemma in_pages_0 a va : aligned a -> is_u32 a -> is_u32 va ->
  in_pages a 0 va <-> PGROUNDDOWN a = PGROUNDDOWN va.
Proof.
  intros Hal Ha Hva. unfold in_pages. rewrite !PGROUNDDOWN_spec by done.
  unfold aligned, PGSIZE in *. ulia.
Qed.

Lemma in_pages_S a n va : aligned a -> is_u32 a -> is_u32 va ->
  in_pages a (S n) va <-> PGROUNDDOWN a = PGROUNDDOWN va \/ in_pages (a + PGSIZE) n va.
Proof.
  intros Hal Ha Hva. unfold in_pages. rewrite !PGROUNDDOWN_spec by done.
  unfold aligned, PGSIZE in *. ulia.
Qed.

(** The outcome of mapping the pages of a range: on success every page of it
    has its entry and the rest is untouched; it fails only when the free list
    is shorter than the tables the range needs, and nothing outside the range
    has changed. *)
Definition mappages_post (s : mach) (l : list Z) (pgdir a : Z) (n : nat) (pa perm r : Z)
    (s' : mach) (l' : list Z) : Prop :=
  pd_step s s' l l' pgdir /\
  new_tables (m_mem s) (m_mem s') pgdir (PDX a) (PDX (a + Z.of_nat n * PGSIZE)) /\
  (forall vb, is_u32 vb -> ~ in_pages a n vb ->
     pte_ext (pte_at (m_mem s) pgdir vb) (pte_at (m_mem s') pgdir vb)) /\
  let need := (Z.to_nat (PDX (a + Z.of_nat n * PGSIZE) - PDX a) + needs (m_mem s) pgdir a)%nat in
  ((r = -1 /\ (length l < need)%nat) \/
   (r = 0 /\ (length l <= need + length l')%nat /\ forall vb, is_u32 vb -> in_pages a n vb ->
      pte_at (m_mem s') pgdir vb = Some (mapped_pte (u32 (pa + (PGROUNDDOWN vb - a))) perm))).

(** Going on to the next page needs a new table only at a table boundary. *)
Lemma needs_step m pgdir a v : is_u32 a -> is_u32 (a + PGSIZE) -> pte_at m pgdir a = Some v ->
  (PDX (a + PGSIZE) = PDX a /\ needs m pgdir (a + PGSIZE) = 0%nat) \/
  (PDX (a + PGSIZE) = PDX a + 1 /\ (needs m pgdir (a + PGSIZE) <= 1)%nat).
Proof.
  intros Ha Ha' Hv. assert (PDX (a + PGSIZE) = PDX a \/ PDX (a + PGSIZE) = PDX a + 1) as [E|E].
  { rewrite !PDX_spec by done. change (2 ^ 22) with 4194304. unfold PGSIZE. ulia. }
  - left. split; [done|]. unfold needs. rewrite (table_at_PDX _ _ _ a E).
    unfold pte_at in Hv. by destruct (table_at m pgdir a).
  - right. split; [done|]. unfold needs. destruct (table_at _ _ _); lia.
Qed.

Lemma PDX_mono a b : is_u32 a -> is_u32 b -> a <= b -> PDX a <= PDX b.
Proof. intros Ha Hb Hle. rewrite !PDX_spec by done. apply Z.div_le_mono; lia. Qed.

(** The last page of the range. *)
Lemma mappages_loop_last s l pgdir a pa perm :
  pd_ok s l pgdir -> aligned a -> 0 <= a -> is_u32 (a + Z.of_nat 0 * PGSIZE) -> is_u32 pa ->
  0 <= perm < PGSIZE ->
  (forall vb v, is_u32 vb -> in_pages a 0 vb -> pte_at (m_mem s) pgdir vb = Some v -> has v PTE_P = false) ->
  exists r s' l', mappages_loop 0 pgdir a (a + Z.of_nat 0 * PGSIZE) pa perm s = Ok r s' /\
    mappages_post s l pgdir a 0 pa perm r s' l'.
Proof.
  intros Hok Hal Ha Hlast Hpa Hperm Hnp.
  assert (is_u32 a) as Hau by (unfold PGSIZE in *; ulia).
  destruct (map_one s l pgdir a pa perm) as (s' & l' & Hst & Hnt & [(-> & -> & Hnd & He & Hr)|(Hlen & He & Hr)]); try done.
  { intros v. apply Hnp; [done|]. by apply in_pages_0. }
  - exists (-1), s', []. split; [apply Hr|]. split; [done|].
    split; [change (Z.of_nat 0 * PGSIZE) with 0; by rewrite Z.add_0_r|]. split; [auto|].
    cbv zeta. left. rewrite Hnd. split; [done|]. cbn [length]. lia.
  - exists 0, s', l'. split.
    { rewrite Hr. rewrite (proj2 (Z.eqb_eq _ _)) by (simpl; lia). done. }
    split; [done|]. split; [change (Z.of_nat 0 * PGSIZE) with 0; by rewrite Z.add_0_r|]. split; cbv zeta.
    + intros vb Hvb. rewrite in_pages_0 by done. intros Hd. specialize (He vb Hvb).
      by rewrite decide_False in He.
    + right. split; [done|]. split; [lia|]. intros vb Hvb. rewrite in_pages_0 by done. intros Hd.
      specialize (He vb Hvb). rewrite decide_True in He by done. rewrite He. do 2 f_equal.
      rewrite <- Hd, PGROUNDDOWN_spec by done. unfold aligned in Hal. rewrite Hal.
      rewrite u32_small; unfold is_u32, two32 in *; lia.
Qed.

Lemma mappages_loop_spec n s l pgdir a pa perm :
  pd_ok s l pgdir -> aligned a -> 0 <= a -> is_u32 (a + Z.of_nat n * PGSIZE) -> is_u32 pa ->
  0 <= perm < PGSIZE ->
  (forall vb v, is_u32 vb -> in_pages a n vb -> pte_at (m_mem s) pgdir vb = Some v -> has v PTE_P = false) ->
  exists r s' l', mappages_loop n pgdir a (a + Z.of_nat n * PGSIZE) pa perm s = Ok r s' /\
    mappages_post s l pgdir a n pa perm r s' l'.
Proof.
  revert s l a pa. induction n as [|n IH]; intros s l a pa Hok Hal Ha Hlast Hpa Hperm Hnp.
  - by apply mappages_loop_last.
  - assert (is_u32 a) as Hau by (unfold PGSIZE in *; ulia).
    assert (aligned (a + PGSIZE)) as Hal' by (unfold aligned, PGSIZE in *; ulia).
    assert (is_u32 (a + PGSIZE)) as Hau' by (unfold PGSIZE in *; ulia).
    assert (PDX a <= PDX (a + PGSIZE) <= PDX (a + Z.of_nat (S n) * PGSIZE)) as Hmono
      by (split; (apply PDX_mono; [done..|unfold PGSIZE; lia])).
    destruct (map_one s l pgdir a pa perm) as (s1 & l1 & Hst & Hnt & [(-> & -> & Hnd & He & Hr)|(Hlen & He & Hr)]); try done.
    { intros v. apply Hnp; [done|]. rewrite in_pages_S by done. by left. }
    + exists (-1), s1, []. split; [apply Hr|]. split; [done|].
      split; [intros vb Hvb Hn Hout; apply Hnt; [done..|lia]|]. split; [auto|].
      cbv zeta. left. rewrite Hnd. split; [done|]. cbn [length]. lia.
    + destruct (IH s1 l1 (a + PGSIZE) (u32 (pa + PGSIZE))) as (r & s' & l' & Hl & Hst' & Hnt' & Ho & Hi).
      { apply (ps_ok _ _ _ _ _ Hst). }
      { done. } { lia. }
      { replace (a + PGSIZE + _) with (a + Z.of_nat (S n) * PGSIZE) by (unfold PGSIZE; lia). done. }
      { apply u32_range. } { done. }
      { intros vb v Hvb Hin Hv. specialize (He vb Hvb). rewrite decide_False in He.
        - destruct He as [He|[_ He]].
          + apply (Hnp vb v Hvb); [rewrite in_pages_S by done; by right|congruence].
          + rewrite He in Hv. by injection Hv as <-.
        - rewrite PGROUNDDOWN_id by done. unfold in_pages, PGSIZE in Hin. lia. }
      exists r, s', l'. split.
      { rewrite Hr, (proj2 (Z.eqb_neq _ _)) by (unfold PGSIZE; lia).
        rewrite (u32_small (a + PGSIZE)) by done. rewrite <- Hl. f_equal. unfold PGSIZE. lia. }
      replace (a + PGSIZE + Z.of_nat n * PGSIZE) with (a + Z.of_nat (S n) * PGSIZE) in Hi, Hnt'
        by (unfold PGSIZE; lia).
      split; [by eapply pd_step_trans|].
      split; [by apply (new_tables_trans _ (m_mem s1) _ pgdir (PDX a) (PDX (a + Z.of_nat (S n) * PGSIZE))
                (PDX (a + PGSIZE)) (PDX (a + Z.of_nat (S n) * PGSIZE))); (done || lia)|].
      split; cbv zeta.
      * intros vb Hvb. rewrite in_pages_S by done. intros Hd. specialize (He vb Hvb).
        rewrite decide_False in He by tauto. eapply pte_ext_trans; [exact He|]. apply Ho; tauto.
      * assert (pte_at (m_mem s1) pgdir a = Some (mapped_pte pa perm)) as Hat.
        { specialize (He a Hau). by rewrite decide_True in He. }
        pose proof (needs_step _ _ _ _ Hau Hau' Hat) as Hns.
        destruct Hi as [[-> Hc]|(-> & Hc & Hi)]; [left; split; [done|lia]|right].
        split; [done|]. split; [lia|]. intros vb Hvb Hin.
        destruct (decide (in_pages (a + PGSIZE) n vb)) as [Hin'|Hin'].
        -- rewrite Hi by done. do 2 f_equal. rewrite u32_add_l. f_equal. lia.
        -- rewrite in_pages_S in Hin by done. destruct Hin as [Hd|]; [|done].
           specialize (He vb Hvb). rewrite decide_True in He by done.
           specialize (Ho vb Hvb Hin'). rewrite He in Ho. rewrite (pte_ext_Some _ _ Ho).
           do 2 f_equal. rewrite <- Hd, PGROUNDDOWN_id, Z.sub_diag, Z.add_0_r by done.
           by rewrite u32_small.
Qed.

(** One page: on failure nothing is mapped. *)
Lemma mappages_page s l pgdir va pa perm :
  pd_ok s l pgdir -> is_u32 va -> aligned va -> is_u32 pa -> 0 <= perm < PGSIZE ->
  (forall v, pte_at (m_mem s) pgdir va = Some v -> has v PTE_P = false) ->
  exists r s' l', mappages pgdir va PGSIZE pa perm s = Ok r s' /\ pd_step s s' l l' pgdir /\
    ((r = -1 /\ l = [] /\ l' = [] /\ needs (m_mem s) pgdir va = 1%nat /\ forall vb, is_u32 vb -> pte_ext (pte_at (m_mem s) pgdir vb) (pte_at (m_mem s') pgdir vb)) \/
     (r = 0 /\ length l = (needs (m_mem s) pgdir va + length l')%nat /\ forall vb, is_u32 vb ->
        if decide (va = PGROUNDDOWN vb) then pte_at (m_mem s') pgdir vb = Some (mapped_pte pa perm)
        else pte_ext (pte_at (m_mem s) pgdir vb) (pte_at (m_mem s') pgdir vb))).
Proof.
  intros Hok Hva Hal Hpa Hperm Hnp. unfold mappages. rewrite (PGROUNDDOWN_id va) by done.
  assert (PGROUNDDOWN (u32 (va + PGSIZE - 1)) = va) as ->.
  { rewrite PGROUNDDOWN_spec by apply u32_range. unfold aligned, PGSIZE in *. ulia. }
  rewrite Z.sub_diag. change (Z.to_nat (u32 0 / PGSIZE)) with 0%nat.
  destruct (map_one s l pgdir va pa perm) as (s' & l' & Hst & _ & Hc); try done.
  rewrite (PGROUNDDOWN_id va) in Hc by done.
  destruct Hc as [(-> & -> & Hnd & He & Hr)|(Hlen & He & Hr)]; rewrite Hr.
  - exists (-1), s', []. split_and!; try done. by left.
  - rewrite Z.eqb_refl. exists 0, s', l'. split_and!; try done. by right.
Qed.

(** The general case: any nonempty byte range that does not wrap. *)
Lemma mappages_range s l pgdir va size pa perm :
  pd_ok s l pgdir -> is_u32 va -> 0 < size -> va + size <= two32 -> is_u32 pa -> 0 <= perm < PGSIZE ->
  let a := PGROUNDDOWN va in
  let n := Z.to_nat ((PGROUNDDOWN (va + size - 1) - a) / PGSIZE) in
  (forall vb v, is_u32 vb -> in_pages a n vb -> pte_at (m_mem s) pgdir vb = Some v -> has v PTE_P = false) ->
  exists r s' l', mappages pgdir va size pa perm s = Ok r s' /\
    mappages_post s l pgdir a n pa perm r s' l'.
Proof.
  intros Hok Hva Hsz Hend Hpa Hperm a n Hnp. unfold mappages.
  rewrite (u32_small (va + size - 1)) by (unfold is_u32, two32 in *; lia). fold a.
  assert (is_u32 (va + size - 1)) as Hl by (unfold is_u32, two32 in *; lia).
  assert (PGROUNDDOWN (va + size - 1) = a + Z.of_nat n * PGSIZE) as Elast.
  { unfold n, a. rewrite !PGROUNDDOWN_spec by done. unfold PGSIZE. ulia. }
  rewrite Elast, Z.add_simpl_l, u32_small, Z.div_mul, Nat2Z.id.
  - apply mappages_loop_spec; try done.
    + apply PGROUNDDOWN_aligned.
    + apply PGROUNDDOWN_range.
    + rewrite <- Elast. apply PGROUNDDOWN_range.
  - done.
  - assert (0 <= a) by apply PGROUNDDOWN_range.
    pose proof (PGROUNDDOWN_range (va + size - 1)) as Hr. rewrite Elast in Hr.
    unfold is_u32, two32, PGSIZE in *. lia.
Qed.

(** ** Editing one entry *)

(** The machine after the entry of [va] was set to [v]. *)
Definition pte_set (s : mach) (pgdir va v : Z) : mach :=
  match table_at (m_mem s) pgdir va with
  | Some t => set_mem (kstore (m_mem s) (entry t (PTX va)) v) s
  | None => s
  end.

Lemma pte_at_table m pgdir va v : pte_at m pgdir va = Some v ->
  exists t, table_at m pgdir va = Some t /\ kload m (entry t (PTX va)) = v.
Proof. unfold pte_at. destruct (table_at m pgdir va) as [t|]; [|done]. intros [= <-]. eauto. Qed.

Lemma pte_set_kmem s pgdir va v : m_kmem (pte_set s pgdir va v) = m_kmem s.
Proof. unfold pte_set. by destruct (table_at _ _ _). Qed.

Lemma pte_set_refs s pgdir va v x : page_refs (pte_set s pgdir va v) x = page_refs s x.
Proof. unfold page_refs, refs_get. by rewrite pte_set_kmem. Qed.

Lemma pte_set_step s l pgdir va v : pd_ok s l pgdir -> is_u32 va -> is_u32 v ->
  pd_step s (pte_set s pgdir va v) l l pgdir.
Proof.
  intros Hok Hva Hv. unfold pte_set. destruct (table_at _ _ _) eqn:Ht.
  - by apply store_pte_step.
  - by apply pd_step_refl.
Qed.

Lemma pte_set_ok s l pgdir va v : pd_ok s l pgdir -> is_u32 va -> is_u32 v ->
  pd_ok (pte_set s pgdir va v) l pgdir.
Proof. intros. by eapply ps_ok, pte_set_step. Qed.

Lemma pte_set_frame s pgdir va v fn : pd_wf (m_mem s) pgdir -> is_u32 va ->
  ~ pd_frame (m_mem s) pgdir fn ->
  mem_frame (m_mem (pte_set s pgdir va v)) fn = mem_frame (m_mem s) fn.
Proof.
  intros Hwf Hva Hfn. unfold pte_set. destruct (table_at _ _ _) as [t|] eqn:Ht; [|done].
  destruct (store_pte_wf (m_mem s) pgdir va t v Hwf Hva Ht) as (_ & _ & _ & Hoc).
  apply Hoc. intros ->. apply Hfn. right. eauto.
Qed.

Lemma pte_set_pd_frame s pgdir va v fn : pd_wf (m_mem s) pgdir -> is_u32 va ->
  pd_frame (m_mem (pte_set s pgdir va v)) pgdir fn <-> pd_frame (m_mem s) pgdir fn.
Proof.
  intros Hwf Hva. unfold pte_set. destruct (table_at _ _ _) as [t|] eqn:Ht; [|done].
  by destruct (store_pte_wf (m_mem s) pgdir va t v Hwf Hva Ht) as (_ & _ & Hp & _).
Qed.

Lemma pte_set_at s pgdir va vb v v0 : pd_wf (m_mem s) pgdir -> is_u32 va -> is_u32 vb ->
  pte_at (m_mem s) pgdir va = Some v0 ->
  pte_at (m_mem (pte_set s pgdir va v)) pgdir vb =
    if decide (PGROUNDDOWN va = PGROUNDDOWN vb) then Some v else pte_at (m_mem s) pgdir vb.
Proof.
  intros Hwf Hva Hvb (t & Ht & _)%pte_at_table. unfold pte_set. rewrite Ht.
  by apply store_pte_at.
Qed.

Lemma pte_set_at_same s pgdir va v v0 : pd_wf (m_mem s) pgdir -> is_u32 va ->
  pte_at (m_mem s) pgdir va = Some v0 -> pte_at (m_mem (pte_set s pgdir va v)) pgdir va = Some v.
Proof. intros. rewrite (pte_set_at _ _ _ _ _ v0) by done. by rewrite decide_True. Qed.

Lemma kstore_kstore m a v w : kstore (kstore m a v) a w = kstore m a w.
Proof.
  unfold kstore at 1 3. rewrite mem_frame_kstore, decide_True by done. unfold kstore.
  rewrite insert_insert, decide_True by done. f_equal. unfold frame_set; simpl. f_equal.
  by rewrite insert_insert, decide_True.
Qed.

Lemma set_mem_set_mem m m' s : set_mem m (set_mem m' s) = set_mem m s.
Proof. done. Qed.

(** What the operations that read and write one existing entry run to. *)
Lemma walk_load s pgdir va v {B} (k : Z -> M mach B) : pd_wf (m_mem s) pgdir -> is_u32 va ->
  pte_at (m_mem s) pgdir va = Some v ->
  exists t, table_at (m_mem s) pgdir va = Some t /\ (entry t (PTX va) =? 0) = false /\
    kload (m_mem s) (entry t (PTX va)) = v /\
    (walkpgdir pgdir va false ≫= k) s = k (entry t (PTX va)) s.
Proof.
  intros Hwf Hva (t & Ht & Hl)%pte_at_table. exists t. split_and!; try done.
  - by eapply walk_entry_nonzero.
  - apply Ok_bind. by apply walk_present.
Qed.

Definition disk_pte (v : Z) : Z :=
  let v := clear_bits (Z.lor v PTE_PG) PTE_P in Z.land v (PTE_FLAGS v).
Definition mem_pte (v pa : Z) : Z :=
  Z.lor (clear_bits (Z.lor v (Z.lor (Z.lor PTE_P PTE_W) PTE_U)) PTE_PG) pa.

Lemma disk_pte_eq v : disk_pte v = Z.land (clear_bits (Z.lor v PTE_PG) PTE_P) (u32 0xFFF) \/ ~ is_u32 v.
Proof.
  destruct (decide (0 <= v < two32)) as [Hv|]; [left|by right]. unfold disk_pte, PTE_FLAGS.
  rewrite (u32_small (clear_bits _ _)) by (apply clear_bits_range, lor_u32; done).
  by rewrite Z.land_assoc, Z.land_diag.
Qed.

Lemma disk_pte_spec v : is_u32 v ->
  0 <= disk_pte v < PGSIZE /\ has (disk_pte v) PTE_PG = true /\ has (disk_pte v) PTE_P = false.
Proof.
  intros Hv. destruct (disk_pte_eq v) as [E|]; [|done]. rewrite E.
  assert (is_u32 (Z.lor v PTE_PG)) by (by apply lor_u32). split; [|split].
  - change (u32 0xFFF) with (Z.ones 12). rewrite Z.land_ones by lia.
    apply Z.mod_pos_bound. done.
  - rewrite has_land, has_clear_disjoint, has_lor by done. apply orb_true_r.
  - rewrite has_land by done. by apply has_clear_same.
Qed.

Lemma mem_pte_spec v pa : 0 <= v < PGSIZE -> is_u32 pa -> aligned pa ->
  is_u32 (mem_pte v pa) /\ PTE_ADDR (mem_pte v pa) = pa /\ has (mem_pte v pa) PTE_P = true /\
  has (mem_pte v pa) PTE_W = true /\ has (mem_pte v pa) PTE_U = true /\
  has (mem_pte v pa) PTE_PG = false.
Proof.
  intros Hv Hpa Hal. unfold mem_pte. change (Z.lor (Z.lor PTE_P PTE_W) PTE_U) with 7.
  assert (0 <= Z.lor v 7 < PGSIZE) as H7 by (apply (lor_bound v 7 12); unfold PGSIZE in *; lia).
  assert (is_u32 (Z.lor v 7)) as Hu by (unfold PGSIZE in H7; ulia).
  assert (0 <= clear_bits (Z.lor v 7) PTE_PG < PGSIZE) as Hc by (apply (land_bound _ _ 12); [lia|done]).
  rewrite (Z.lor_comm _ pa). destruct (pte_make pa _ Hpa Hal Hc) as (E1 & _ & E3).
  split_and!; try done; rewrite has_lor, has_aligned by (done || (unfold PGSIZE, PTE_P, PTE_W, PTE_U, PTE_PG; lia)); simpl.
  - rewrite has_clear_disjoint, has_lor by done. apply orb_true_r.
  - rewrite has_clear_disjoint, has_lor by done. apply orb_true_r.
  - rewrite has_clear_disjoint, has_lor by done. apply orb_true_r.
  - by apply has_clear_same.
Qed.

Lemma mapped_pte_spec pa perm : is_u32 pa -> aligned pa -> 0 <= perm < PGSIZE ->
  PTE_ADDR (mapped_pte pa perm) = pa /\ has (mapped_pte pa perm) PTE_P = true /\
  forall b, 0 <= b < PGSIZE -> has (mapped_pte pa perm) b = has perm b || has PTE_P b.
Proof.
  intros Hpa Hal Hperm. unfold mapped_pte. rewrite <- Z.lor_assoc.
  assert (0 <= Z.lor perm PTE_P < PGSIZE) by (by apply (lor_bound perm PTE_P 12)).
  split_and!; [by apply pte_make| |].
  - rewrite !has_lor. by rewrite orb_true_r, orb_true_r.
  - intros b Hb. rewrite !has_lor. by rewrite has_aligned.
Qed.

Lemma translate_pte m pgdir va : translate m pgdir va =
  v ← pte_at m pgdir va; if has v PTE_P then Some (P2V (PTE_ADDR v)) else None.
Proof. unfold translate, pte_at, table_at, pde_at. by destruct (has _ PTE_P). Qed.

Ltac pte_run t Ht Hnz Hl :=
  match goal with
  | |- (walkpgdir ?p ?va false ≫= ?k) ?s = _ =>
      let E := fresh in
      destruct (walk_load s p va _ k ltac:(eassumption) ltac:(eassumption) ltac:(eassumption))
        as (t & Ht & Hnz & Hl & E);
      rewrite E; clear E; rewrite Hnz; unfold load, store, pte_set;
      rewrite ?Ht; repeat (erewrite Ok_bind by reflexivity); cbn [m_mem set_mem];
      repeat rewrite kload_kstore_eq; rewrite ?Hl
  end.

Lemma find_pa_run s pgdir va v : pd_wf (m_mem s) pgdir -> is_u32 va ->
  pte_at (m_mem s) pgdir va = Some v -> find_pa pgdir va s = Ok (PTE_ADDR v) s.
Proof. intros Hwf Hva Hv. unfold find_pa. pte_run t Ht Hnz Hl. done. Qed.

Lemma set_page_flags_in_disk_run s pgdir va v : pd_wf (m_mem s) pgdir -> is_u32 va ->
  pte_at (m_mem s) pgdir va = Some v ->
  set_page_flags_in_disk pgdir va s = Ok () (pte_set s pgdir va (disk_pte v)).
Proof.
  intros Hwf Hva Hv. unfold set_page_flags_in_disk. pte_run t Ht Hnz Hl.
  unfold modify. f_equal. rewrite !set_mem_set_mem. f_equal. cbn [m_mem set_mem].
  by rewrite !kstore_kstore.
Qed.

Lemma set_page_flags_in_mem_run s pgdir va v pa : pd_wf (m_mem s) pgdir -> is_u32 va ->
  pte_at (m_mem s) pgdir va = Some v ->
  set_page_flags_in_mem pgdir va pa s = Ok () (pte_set s pgdir va (mem_pte v pa)).
Proof.
  intros Hwf Hva Hv. unfold set_page_flags_in_mem. pte_run t Ht Hnz Hl.
  unfold modify. f_equal. rewrite !set_mem_set_mem. f_equal. cbn [m_mem set_mem].
  by rewrite !kstore_kstore.
Qed.

Lemma clearpteu_run s pgdir va v : pd_wf (m_mem s) pgdir -> is_u32 va ->
  pte_at (m_mem s) pgdir va = Some v ->
  clearpteu pgdir va s = Ok () (pte_set s pgdir va (clear_bits v PTE_U)).
Proof. intros Hwf Hva Hv. unfold clearpteu. pte_run t Ht Hnz Hl. done. Qed.

Lemma uva2ka_run s pgdir va v : pd_wf (m_mem s) pgdir -> is_u32 va ->
  pte_at (m_mem s) pgdir va = Some v ->
  uva2ka pgdir va s = Ok (if has v PTE_P && has v PTE_U then P2V (PTE_ADDR v) else 0) s.
Proof.
  intros Hwf Hva Hv. unfold uva2ka. pte_run t Ht Hnz Hl.
  by destruct (has v PTE_P), (has v PTE_U).
Qed.

(** ** An empty directory *)

Lemma table_at_empty m pgdir va : is_u32 pgdir -> aligned pgdir ->
  mem_frame m (kframe pgdir) = frame_fill 0 -> table_at m pgdir va = None.
Proof.
  intros Hu Hal E. unfold table_at, pde_at, kload.
  destruct (entry_spec pgdir (PDX va) Hu Hal (PDX_range va)) as [-> _].
  by rewrite E, frame_get_fill0.
Qed.

Lemma pd_ok_empty s l pgdir : kmem_inv end_ s l -> mem_words (m_mem s) -> valid_page end_ pgdir ->
  pgdir ∉ l -> mem_frame (m_mem s) (kframe pgdir) = frame_fill 0 -> pd_ok s l pgdir.
Proof.
  intros Hk Hw Hv Hnin E. assert (forall va, table_at (m_mem s) pgdir va = None) as Ht.
  { intros va. by apply table_at_empty; [apply Hv..|]. }
  split; [done|done|split; [done|intros ? ?; by rewrite Ht..|intros ? ? ?; by rewrite Ht]|].
  - intros x Hx [Hf|(va & t & _ & Ht' & _)]; [|by rewrite Ht in Ht'].
    apply Hnin. rewrite <- (valid_page_inj end_ x pgdir); try done.
    by apply (proj1 (Forall_forall _ _) (ki_valid _ _ _ Hk)).
Qed.

End pagetable.

(** ** Properties *)


(** A machine with one empty directory and two free pages. *)
Definition demo_pgdir : Z := KERNBASE + 0x300000.

Lemma demo_pd_ok : pd_ok demo_end demo_mach [demo_page1; demo_page2] demo_pgdir.
Proof.
  apply pd_ok_empty.
  - apply (ar_inv _ _ _ demo_arel).
  - apply mem_words_kstore; [apply mem_words_empty|]. by vm_compute.
  - by vm_compute.
  - apply (bool_decide_unpack _). by vm_compute.
  - by vm_compute.
Qed.

