(* ===== verification/Vm.v ===== *)
(** * Demand paging and copy-on-write ([vm.c], second half)

    The state is the machine (memory and allocator), the paging part of the
    current process's [struct proc], its swap file, and the two control
    registers the fault handlers use.  [myproc()] is that process.

    The swap file is seen through the class [SwapFile]: what a page-sized
    [writeToSwapFile] and [readFromSwapFile] promise each other.  The
    replacement policy, a compile-time macro in the source, is a parameter. *)

From S2P Require Import Prelude Mmu Memory Kalloc PageTable.

Definition MAX_UINT : Z := 0xFFFFFFFF.
Definition NFUA_MSB : Z := 0x80000000.
Definition BITS_IN_UINT : Z := 32.

Inductive policy := NFUA | LAPA | SCFIFO | AQ | RROBIN | NONE.
#[global] Instance policy_eq_dec : EqDecision policy.
Proof. solve_decision. Defined.

Definition check_policy (pol : policy) : bool := negb (bool_decide (pol = NONE)).

(** [struct page]; [is_used] is only ever 0 or 1. *)
Record page := Page {
  pg_pgdir : Z;
  pg_va : Z;
  pg_offset : Z;
  pg_is_used : bool;
  pg_time_loaded : Z;
  pg_age : Z;
}.

Definition set_used (b : bool) (pg : page) : page :=
  Page (pg_pgdir pg) (pg_va pg) (pg_offset pg) b (pg_time_loaded pg) (pg_age pg).
Definition set_time (t : Z) (pg : page) : page :=
  Page (pg_pgdir pg) (pg_va pg) (pg_offset pg) (pg_is_used pg) t (pg_age pg).
Definition set_age (a : Z) (pg : page) : page :=
  Page (pg_pgdir pg) (pg_va pg) (pg_offset pg) (pg_is_used pg) (pg_time_loaded pg) a.
(** [page.pgdir = ..., page.va = ..., page.is_used = 1]. *)
Definition set_page (pgdir va : Z) (pg : page) : page :=
  Page pgdir va (pg_offset pg) true (pg_time_loaded pg) (pg_age pg).

(** The fields of [struct proc] that paging uses. *)
Record pproc := PProc {
  pp_pid : Z;
  pp_pgdir : Z;
  pp_file_pages : list page;
  pp_memory_pages : list page;
  pp_page_faults : Z;
  pp_paged_out : Z;
  pp_timestamp : Z;
  pp_r_robin : Z;
}.

Definition set_file_pages (l : list page) (p : pproc) : pproc :=
  PProc (pp_pid p) (pp_pgdir p) l (pp_memory_pages p) (pp_page_faults p) (pp_paged_out p)
    (pp_timestamp p) (pp_r_robin p).
Definition set_memory_pages (l : list page) (p : pproc) : pproc :=
  PProc (pp_pid p) (pp_pgdir p) (pp_file_pages p) l (pp_page_faults p) (pp_paged_out p)
    (pp_timestamp p) (pp_r_robin p).
Definition inc_page_faults (p : pproc) : pproc :=
  PProc (pp_pid p) (pp_pgdir p) (pp_file_pages p) (pp_memory_pages p) (u32 (pp_page_faults p + 1))
    (pp_paged_out p) (pp_timestamp p) (pp_r_robin p).
Definition inc_paged_out (p : pproc) : pproc :=
  PProc (pp_pid p) (pp_pgdir p) (pp_file_pages p) (pp_memory_pages p) (pp_page_faults p)
    (u32 (pp_paged_out p + 1)) (pp_timestamp p) (pp_r_robin p).
Definition inc_timestamp (p : pproc) : pproc :=
  PProc (pp_pid p) (pp_pgdir p) (pp_file_pages p) (pp_memory_pages p) (pp_page_faults p)
    (pp_paged_out p) (u32 (pp_timestamp p + 1)) (pp_r_robin p).
Definition inc_r_robin (p : pproc) : pproc :=
  PProc (pp_pid p) (pp_pgdir p) (pp_file_pages p) (pp_memory_pages p) (pp_page_faults p)
    (pp_paged_out p) (pp_timestamp p) (u32 (pp_r_robin p + 1)).

(** ** The swap file's interface

    [sw_ok f off]: a page written at [off] is accepted.  [sw_get f off]: the
    page a full-page read at [off] returns.  A file accepts a page at its
    start and right after a page it holds, up to the 16 slots. *)
Class SwapFile (F : Type) := {
  sw_ok : F -> Z -> bool;
  sw_put : F -> Z -> frame -> F;
  sw_get : F -> Z -> option frame;
}.

Class SwapLaws (F : Type) `{SwapFile F} := {
  sw_get_put : forall f off pg, sw_ok f off = true -> sw_get (sw_put f off pg) off = Some pg;
  sw_get_other : forall f off off' pg, sw_ok f off = true -> aligned off -> aligned off' ->
    off <> off' -> sw_get (sw_put f off pg) off' = sw_get f off';
  sw_get_ok : forall f off pg, sw_get f off = Some pg -> sw_ok f off = true;
  sw_ok_first : forall f, sw_ok f 0 = true;
  sw_ok_next : forall f off pg, sw_get f off = Some pg -> 0 <= off < (MAX_PSYC_PAGES - 1) * PGSIZE ->
    sw_ok f (off + PGSIZE) = true;
}.

(** ** State *)

Record vm (F : Type) := Vm {
  v_mach : mach;
  v_p : pproc;
  v_swap : F;
  v_cr2 : Z;
  v_cr3 : Z;
}.
Arguments Vm {F} v_mach v_p v_swap v_cr2 v_cr3.
Arguments v_mach {F} v.
Arguments v_p {F} v.
Arguments v_swap {F} v.
Arguments v_cr2 {F} v.
Arguments v_cr3 {F} v.

Definition set_mach {F} (m : mach) (st : vm F) : vm F :=
  Vm m (v_p st) (v_swap st) (v_cr2 st) (v_cr3 st).
Definition set_p {F} (p : pproc) (st : vm F) : vm F :=
  Vm (v_mach st) p (v_swap st) (v_cr2 st) (v_cr3 st).
Definition set_swap {F} (f : F) (st : vm F) : vm F :=
  Vm (v_mach st) (v_p st) f (v_cr2 st) (v_cr3 st).
Definition set_cr3 {F} (a : Z) (st : vm F) : vm F :=
  Vm (v_mach st) (v_p st) (v_swap st) (v_cr2 st) a.

(** ** Choosing a page: the pure loops *)

(** [for (i = 0; i < MAX_PSYC_PAGES; i++) if (used && key < min) { next_i = i; min = key }],
    the loop of [NFUA_next] (key: age) and of [SCFIFO_next] (key: time loaded). *)
Fixpoint min_loop (key : page -> Z) (i : Z) (l : list page) (next_i min : Z) : Z :=
  match l with
  | [] => next_i
  | pg :: l' =>
      if pg_is_used pg && (key pg <? min) then min_loop key (i + 1) l' i (key pg)
      else min_loop key (i + 1) l' next_i min
  end.

Definition NFUA_next (l : list page) : Z := min_loop pg_age 0 l (-1) MAX_UINT.

(** The inner loop of [LAPA_next]: how many of the bits [j], [j+1], ... are on. *)
Fixpoint count_ones (fuel : nat) (j age : Z) : Z :=
  match fuel with
  | O => 0
  | S fuel' => (if has age (u32 (Z.shiftl 1 j)) then 1 else 0) + count_ones fuel' (j + 1) age
  end.
Definition ones (age : Z) : Z := count_ones (Z.to_nat BITS_IN_UINT) 0 age.

Fixpoint LAPA_loop (i : Z) (l : list page) (next_i min_ones min_age : Z) : Z :=
  match l with
  | [] => next_i
  | pg :: l' =>
      if pg_is_used pg then
        let curr_ones := ones (pg_age pg) in
        if curr_ones <? min_ones then LAPA_loop (i + 1) l' i curr_ones (pg_age pg)
        else if (curr_ones =? min_ones) && (pg_age pg <? min_age)
        then LAPA_loop (i + 1) l' i curr_ones (pg_age pg)
        else LAPA_loop (i + 1) l' next_i min_ones min_age
      else LAPA_loop (i + 1) l' next_i min_ones min_age
  end.
Definition LAPA_next (l : list page) : Z := LAPA_loop 0 l (-1) (BITS_IN_UINT + 10) MAX_UINT.

Definition next_free_i_in_mem (p : pproc) : Z :=
  c_index (find_index (fun pg => negb (pg_is_used pg)) (pp_memory_pages p)).
Definition next_free_i_in_file (p : pproc) : Z :=
  c_index (find_index (fun pg => negb (pg_is_used pg)) (pp_file_pages p)).
Definition get_i_of_va_in_mem (p : pproc) (va : Z) : Z :=
  c_index (find_index (fun pg => pg_va pg =? va) (pp_memory_pages p)).
Definition get_i_of_va_in_file (p : pproc) (va : Z) : Z :=
  c_index (find_index (fun pg => pg_va pg =? va) (pp_file_pages p)).

(** [AQ_next]'s rotation: the last entry moves to the front. *)
Definition rotate (l : list page) : list page :=
  match last l with Some pg => pg :: removelast l | None => [] end.

(** [deallocuvm]'s inner loop: the first used entry for this page is released. *)
Fixpoint release_slot (pgdir a : Z) (l : list page) : list page :=
  match l with
  | [] => []
  | pg :: l' =>
      if pg_is_used pg && (pg_pgdir pg =? pgdir) && (pg_va pg =? a)
      then set_used false pg :: l'
      else pg :: release_slot pgdir a l'
  end.

Section vm.
Context {F : Type} `{SwapFile F}.
Context (end_ data : Z) (pol : policy).
Implicit Types st : vm F.

Definition onmach {A} (m : M mach A) : M (vm F) A := zoom v_mach set_mach m.
Definition myproc : M (vm F) pproc := gets v_p.
Definition setproc (f : pproc -> pproc) : M (vm F) () := modify (fun st => set_p (f (v_p st)) st).
Definition lcr3 (pa : Z) : M (vm F) () := modify (set_cr3 pa).
Definition rcr2 : M (vm F) Z := gets v_cr2.

(** [p->memory_pages[i]] and [p->file_pages[i]]; an index outside the array
    is an access outside the object. *)
Definition mem_page (i : Z) : M (vm F) page :=
  p ← myproc;
  match (if 0 <=? i then pp_memory_pages p !! Z.to_nat i else None) with
  | Some pg => mret pg
  | None => fault i
  end.
Definition upd_mem_page (i : Z) (f : page -> page) : M (vm F) () :=
  pg ← mem_page i;
  setproc (fun p => set_memory_pages (<[Z.to_nat i := f pg]> (pp_memory_pages p)) p).
Definition file_page (i : Z) : M (vm F) page :=
  p ← myproc;
  match (if 0 <=? i then pp_file_pages p !! Z.to_nat i else None) with
  | Some pg => mret pg
  | None => fault i
  end.
Definition upd_file_page (i : Z) (f : page -> page) : M (vm F) () :=
  pg ← file_page i;
  setproc (fun p => set_file_pages (<[Z.to_nat i := f pg]> (pp_file_pages p)) p).

(** ** Access through the current page table

    The hardware marks the entry of a page it goes through as accessed. *)
Definition touch (pgdir va : Z) (s : mach) : mach :=
  match pte_at (m_mem s) pgdir va with
  | Some v => pte_set s pgdir va (Z.lor v PTE_A)
  | None => s
  end.

Definition user_read_page (va : Z) : M (vm F) frame :=
  st ← get;
  let pgdir := P2V (v_cr3 st) in
  match translate (m_mem (v_mach st)) pgdir va with
  | Some ka =>
      onmach (modify (touch pgdir va));;
      mret (mem_frame (m_mem (v_mach st)) (kframe ka))
  | None => fault va
  end.

(** A kernel store to a user page needs [PTE_W]: [entry.S] sets CR0_WP. *)
Definition user_write_page (va : Z) (f : frame) : M (vm F) () :=
  st ← get;
  let pgdir := P2V (v_cr3 st) in
  match pte_at (m_mem (v_mach st)) pgdir va with
  | Some v =>
      if has v PTE_P && has v PTE_W then
        onmach (modify (touch pgdir va));;
        onmach (modify (fun s => set_mem (<[PTE_ADDR v / PGSIZE := f]> (m_mem s)) s))
      else fault va
  | None => fault va
  end.

(** [writeToSwapFile(p, (char* )va, off, PGSIZE)]: the file refuses the offset
    before the buffer is read. *)
Definition writeToSwapFile (va off : Z) : M (vm F) Z :=
  f ← gets v_swap;
  if sw_ok f off then
    pg ← user_read_page va;
    modify (fun st => set_swap (sw_put (v_swap st) off pg) st);;
    mret PGSIZE
  else mret (-1).

(** [readFromSwapFile(p, buffer, off, PGSIZE)] into the static [buffer]. *)
Definition readFromSwapFile (off : Z) : M (vm F) (option frame) := gets (fun st => sw_get (v_swap st) off).

(** ** Replacement policies *)

(** One round of [AQ_update_queue]'s loop, at index [i]. *)
Definition AQ_step (i : Z) : M (vm F) () :=
  page_i ← mem_page i;
  page_next_i ← mem_page (i - 1);
  when (pg_is_used page_i && pg_is_used page_next_i) (
    p ← myproc;
    pte_i ← onmach (walkpgdir (pp_pgdir p) (pg_va page_i) false);
    if pte_i =? 0 then panic "AQ_update_queue: walkpgdir page_i failed" else
    pte_next_i ← onmach (walkpgdir (pp_pgdir p) (pg_va page_next_i) false);
    if pte_next_i =? 0 then panic "AQ_update_queue: walkpgdir page_prev_i failed" else
    v_i ← onmach (load pte_i);
    v_next ← onmach (load pte_next_i);
    when (negb (has v_i PTE_A) && has v_next PTE_A) (
      upd_mem_page (i - 1) (fun _ => page_i);;
      upd_mem_page i (fun _ => page_next_i))).

(** Indices 15, 14, ..., 1. *)
Definition AQ_update_queue : M (vm F) () :=
  forM [15; 14; 13; 12; 11; 10; 9; 8; 7; 6; 5; 4; 3; 2; 1] AQ_step.

Definition slots : list Z := [0; 1; 2; 3; 4; 5; 6; 7; 8; 9; 10; 11; 12; 13; 14; 15].

Definition NFUA_update_step (i : Z) : M (vm F) () :=
  pg ← mem_page i;
  when (pg_is_used pg) (
    upd_mem_page i (fun pg => set_age (Z.shiftr (pg_age pg) 1) pg);;
    p ← myproc;
    pte ← onmach (walkpgdir (pp_pgdir p) (pg_va pg) false);
    if pte =? 0 then panic "NFUA: walkpgdir failed" else
    v ← onmach (load pte);
    when (has v PTE_A) (
      upd_mem_page i (fun pg => set_age (Z.lor (pg_age pg) NFUA_MSB) pg);;
      onmach (store pte (clear_bits v PTE_A)))).

Definition NFUA_update_age : M (vm F) () := forM slots NFUA_update_step.

Definition SCFIFO_next : M (vm F) Z :=
  p ← myproc;
  let next_i := min_loop pg_time_loaded 0 (pp_memory_pages p) (-1) MAX_UINT in
  if next_i =? -1 then panic "SCFIFO: next i == -1" else
  pg ← mem_page next_i;
  pte ← onmach (walkpgdir (pg_pgdir pg) (pg_va pg) false);
  if pte =? 0 then panic "SCFIFO: walkpgdir failed" else
  v ← onmach (load pte);
  if has v PTE_A then
    (* will get 2nd chance *)
    onmach (store pte (clear_bits v PTE_A));;
    upd_mem_page next_i (set_time (pp_timestamp p));;
    setproc inc_timestamp;;
    mret (-1)
  else mret next_i.

Definition AQ_next : M (vm F) Z :=
  setproc (fun p => set_memory_pages (rotate (pp_memory_pages p)) p);;
  mret 0.

Definition RROBIN_next : M (vm F) Z :=
  setproc inc_r_robin;;
  p ← myproc;
  mret (pp_r_robin p mod MAX_PSYC_PAGES).

(** [do { next_i = step(p); } while (next_i == -1)]. *)
Fixpoint do_while_none (fuel : nat) (step : M (vm F) Z) : M (vm F) Z :=
  match fuel with
  | O => nofuel
  | S fuel' => i ← step; if i =? -1 then do_while_none fuel' step else mret i
  end.

Definition next_i_in_mem_to_remove (fuel : nat) : M (vm F) Z :=
  match pol with
  | NFUA => do_while_none fuel (p ← myproc; mret (NFUA_next (pp_memory_pages p)))
  | LAPA => do_while_none fuel (p ← myproc; mret (LAPA_next (pp_memory_pages p)))
  | SCFIFO => do_while_none fuel SCFIFO_next
  | AQ => do_while_none fuel AQ_next
  | RROBIN => do_while_none fuel RROBIN_next
  | NONE => panic "next i == -1"
  end.

(** Rounds allowed for a choice: every resident page may get one second chance. *)
Definition victim_fuel : nat := 17.

(** ** Paging out *)

Definition swap : M (vm F) Z :=
  setproc inc_page_faults;;
  i_in_mem_to_remove ← next_i_in_mem_to_remove victim_fuel;
  p ← myproc;
  let next_free_i_file := next_free_i_in_file p in
  pg ← mem_page i_in_mem_to_remove;
  r ← writeToSwapFile (pg_va pg) (u32 (next_free_i_file * PGSIZE));
  if r =? -1 then mret (-1) else
  setproc inc_paged_out;;
  (* swap from memory to file *)
  upd_file_page next_free_i_file (set_page (pg_pgdir pg) (pg_va pg));;
  pa ← onmach (find_pa (pg_pgdir pg) (pg_va pg));
  onmach (kfree end_ (P2V pa));;
  upd_mem_page i_in_mem_to_remove (set_used false);;
  onmach (set_page_flags_in_disk (pg_pgdir pg) (pg_va pg));;
  p ← myproc;
  lcr3 (V2P (pp_pgdir p));;
  mret i_in_mem_to_remove.

(** ** deallocuvm and freevm *)

Fixpoint deallocuvm_loop (fuel : nat) (pgdir a oldsz : Z) : M (vm F) () :=
  if a <? oldsz then
    match fuel with
    | O => nofuel
    | S fuel' =>
        pte ← onmach (walkpgdir pgdir a false);
        if pte =? 0 then
          deallocuvm_loop fuel' pgdir (u32 (a + (NPDENTRIES - 1) * PGSIZE + PGSIZE)) oldsz
        else
          v ← onmach (load pte);
          when (has v PTE_P) (
            let pa := PTE_ADDR v in
            if pa =? 0 then panic "kfree" else
            onmach (kfree end_ (P2V pa));;
            v ← onmach (load pte);
            onmach (store pte (clear_bits v PTE_P));;
            v ← onmach (load pte);
            onmach (store pte (clear_bits v (PTE_FLAGS v)));;
            when (check_policy pol)
              (setproc (fun p => set_memory_pages (release_slot pgdir a (pp_memory_pages p)) p));;
            onmach (store pte 0));;
          deallocuvm_loop fuel' pgdir (u32 (a + PGSIZE)) oldsz
    end
  else mret ().

(** The pages left between [a] and [oldsz] bound the rounds. *)
Definition dealloc_fuel (a oldsz : Z) : nat := Z.to_nat ((oldsz - a + PGSIZE - 1) / PGSIZE).

Definition deallocuvm (pgdir oldsz newsz : Z) : M (vm F) Z :=
  if oldsz <=? newsz then mret oldsz else
  let a := PGROUNDUP newsz in
  deallocuvm_loop (dealloc_fuel a oldsz) pgdir a oldsz;;
  mret newsz.

Fixpoint freevm_loop (fuel : nat) (pgdir i : Z) : M (vm F) () :=
  match fuel with
  | O => mret ()
  | S fuel' =>
      d ← onmach (load (entry pgdir i));
      when (has d PTE_P) (
        onmach (kfree end_ (P2V (PTE_ADDR d)));;
        d ← onmach (load (entry pgdir i));
        onmach (store (entry pgdir i) (clear_bits d PTE_P));;
        d ← onmach (load (entry pgdir i));
        onmach (store (entry pgdir i) (clear_bits d (PTE_FLAGS d))));;
      freevm_loop fuel' pgdir (i + 1)
  end.

Definition freevm (pgdir : Z) : M (vm F) () :=
  if pgdir =? 0 then panic "freevm: no pgdir" else
  _ ← deallocuvm pgdir KERNBASE 0;
  freevm_loop (Z.to_nat NPDENTRIES) pgdir 0;;
  onmach (kfree end_ pgdir).

(** ** setupkvm *)

Record kmap_entry := KMap { km_virt : Z; km_phys_start : Z; km_phys_end : Z; km_perm : Z }.

Definition kmap : list kmap_entry :=
  [ KMap KERNBASE 0 EXTMEM PTE_W;
    KMap KERNLINK (V2P KERNLINK) (V2P data) 0;
    KMap data (V2P data) PHYSTOP PTE_W;
    KMap DEVSPACE DEVSPACE 0 PTE_W ].

Fixpoint setupkvm_loop (ks : list kmap_entry) (pgdir : Z) : M (vm F) Z :=
  match ks with
  | [] => mret pgdir
  | k :: ks' =>
      r ← onmach (mappages pgdir (km_virt k) (u32 (km_phys_end k - km_phys_start k))
                    (km_phys_start k) (km_perm k));
      if r <? 0 then freevm pgdir;; mret 0 else setupkvm_loop ks' pgdir
  end.

Definition setupkvm : M (vm F) Z :=
  pgdir ← onmach kalloc;
  if pgdir =? 0 then mret 0 else
  onmach (memset_page pgdir 0);;
  if DEVSPACE <? P2V PHYSTOP then panic "PHYSTOP too high" else
  setupkvm_loop kmap pgdir.

(** ** allocuvm *)

(** [p->memory_pages[i]] is made the entry of a new page. *)
Definition fill_slot (i pgdir a : Z) : M (vm F) () :=
  upd_mem_page i (set_page pgdir a);;
  p ← myproc;
  upd_mem_page i (set_time (pp_timestamp p));;
  setproc inc_timestamp;;
  upd_mem_page i (set_age 0);;
  when (bool_decide (pol = LAPA)) (upd_mem_page i (set_age 0xFFFFFFFF)).

(** The bookkeeping of one new page. *)
Definition register_page (pgdir a : Z) : M (vm F) () :=
  p ← myproc;
  when (check_policy pol && (2 <? pp_pid p)) (
    let free := next_free_i_in_mem p in
    free ← (if bool_decide (pol = AQ) && negb (free =? -1)
            then _ ← AQ_next; mret 0 else mret free);
    i ← (if free =? -1 then swap else mret free);
    fill_slot i pgdir a).

Fixpoint allocuvm_loop (fuel : nat) (pgdir a oldsz newsz : Z) : M (vm F) Z :=
  if a <? newsz then
    match fuel with
    | O => nofuel
    | S fuel' =>
        mem ← onmach kalloc;
        if mem =? 0 then
          _ ← deallocuvm pgdir newsz oldsz; mret 0
        else
          onmach (memset_page mem 0);;
          r ← onmach (mappages pgdir a PGSIZE (V2P mem) (Z.lor PTE_W PTE_U));
          if r <? 0 then
            _ ← deallocuvm pgdir newsz oldsz;
            onmach (kfree end_ mem);;
            mret 0
          else
            register_page pgdir a;;
            allocuvm_loop fuel' pgdir (u32 (a + PGSIZE)) oldsz newsz
    end
  else mret newsz.

Definition allocuvm (pgdir oldsz newsz : Z) : M (vm F) Z :=
  p ← myproc;
  if KERNBASE <=? newsz then mret 0 else
  if newsz <? oldsz then mret oldsz else
  if check_policy pol && (2 <? pp_pid p) &&
     (MAX_TOTAL_PAGES <? u32 (PGROUNDUP newsz - PGROUNDUP oldsz) / PGSIZE)
  then mret 0 else
  let a := PGROUNDUP oldsz in
  allocuvm_loop (dealloc_fuel a newsz) pgdir a oldsz newsz.

(** [memmove(a, bs, n)] into kernel memory, byte by byte upwards. *)
Fixpoint kwrite_bytes (m : memory) (a : Z) (bs : list Z) : memory :=
  match bs with
  | [] => m
  | b :: bs' => kwrite_bytes (kstore8 m a b) (u32 (a + 1)) bs'
  end.

Definition inituvm (pgdir : Z) (init : list Z) : M (vm F) () :=
  if PGSIZE <=? Z.of_nat (length init) then panic "inituvm: more than a page" else
  mem ← onmach kalloc;
  onmach (memset_page mem 0);;
  _ ← onmach (mappages pgdir 0 PGSIZE (V2P mem) (Z.lor PTE_W PTE_U));
  onmach (modify (fun s => set_mem (kwrite_bytes (m_mem s) mem init) s)).

(** ** Copies of an address space *)

Fixpoint copyuvm_loop (fuel : nat) (pgdir d i sz : Z) : M (vm F) Z :=
  if i <? sz then
    match fuel with
    | O => nofuel
    | S fuel' =>
        pte ← onmach (walkpgdir pgdir i false);
        if pte =? 0 then panic "copyuvm: pte should exist" else
        v ← onmach (load pte);
        if negb (has v PTE_P) then panic "copyuvm: page not present" else
        mem ← onmach kalloc;
        if mem =? 0 then freevm d;; mret 0 else
        onmach (copy_page mem (P2V (PTE_ADDR v)));;
        r ← onmach (mappages d i PGSIZE (V2P mem) (PTE_FLAGS v));
        if r <? 0 then
          onmach (kfree end_ mem);; freevm d;; mret 0
        else copyuvm_loop fuel' pgdir d (u32 (i + PGSIZE)) sz
    end
  else mret d.

Definition copyuvm (pgdir sz : Z) : M (vm F) Z :=
  d ← setupkvm;
  if d =? 0 then mret 0 else copyuvm_loop (dealloc_fuel 0 sz) pgdir d 0 sz.

Fixpoint copyonwriteuvm_loop (fuel : nat) (pgdir d i sz : Z) : M (vm F) Z :=
  if i <? sz then
    match fuel with
    | O => nofuel
    | S fuel' =>
        pte ← onmach (walkpgdir pgdir i false);
        if pte =? 0 then panic "copyonwriteuvm: pte should exist" else
        v ← onmach (load pte);
        if has v PTE_PG then
          onmach (set_page_flags_in_disk d i);;
          p ← myproc;
          lcr3 (V2P (pp_pgdir p));;
          copyonwriteuvm_loop fuel' pgdir d (u32 (i + PGSIZE)) sz
        else if negb (has v PTE_P) then panic "copyonwriteuvm: page not present" else
        onmach (store pte (Z.lor v PTE_COW));;
        v ← onmach (load pte);
        onmach (store pte (clear_bits v PTE_W));;
        v ← onmach (load pte);
        onmach (inc_counter (PTE_ADDR v));;
        r ← onmach (mappages d i PGSIZE (PTE_ADDR v) (PTE_FLAGS v));
        if r <? 0 then panic "copyonwriteuvm: should not happen"
        else copyonwriteuvm_loop fuel' pgdir d (u32 (i + PGSIZE)) sz
    end
  else
    p ← myproc;
    lcr3 (V2P (pp_pgdir p));;
    mret d.

Definition copyonwriteuvm (pgdir sz : Z) : M (vm F) Z :=
  d ← setupkvm;
  if d =? 0 then mret 0 else copyonwriteuvm_loop (dealloc_fuel 0 sz) pgdir d 0 sz.

Fixpoint copyout_loop (fuel : nat) (pgdir va : Z) (buf : list Z) (len : Z) : M (vm F) Z :=
  if 0 <? len then
    match fuel with
    | O => nofuel
    | S fuel' =>
        let va0 := PGROUNDDOWN va in
        pa0 ← onmach (uva2ka pgdir va0);
        if pa0 =? 0 then mret (-1) else
        let n := Z.min (PGSIZE - (va - va0)) len in
        onmach (modify (fun s =>
          set_mem (kwrite_bytes (m_mem s) (u32 (pa0 + (va - va0))) (take (Z.to_nat n) buf)) s));;
        copyout_loop fuel' pgdir (u32 (va0 + PGSIZE)) (drop (Z.to_nat n) buf) (len - n)
    end
  else mret 0.

(** [copyout(pgdir, va, p, len)], [buf] the bytes at [p]. *)
Definition copyout (pgdir va : Z) (buf : list Z) : M (vm F) Z :=
  let len := Z.of_nat (length buf) in
  copyout_loop (Z.to_nat (len / PGSIZE + 2)) pgdir va buf len.

(** ** The fault handlers *)

(** [handle_pf]: the page's metadata moves from slot [j] of the file to slot
    [k] of memory. *)
Definition pf_install (k j : Z) : M (vm F) () :=
  fpg ← file_page j;
  upd_mem_page k (fun _ => fpg);;
  upd_file_page j (fun pg => set_age 0 (set_used false pg));;
  when (bool_decide (pol = LAPA)) (upd_mem_page k (set_age 0xFFFFFFFF));;
  p ← myproc;
  upd_mem_page k (set_time (pp_timestamp p));;
  setproc inc_timestamp.

(** [handle_pf], [is_need_swap]: the page that made room takes slot [j]. *)
Definition pf_evict (old_page : page) (j : Z) : M (vm F) () :=
  old_pa ← onmach (find_pa (pg_pgdir old_page) (pg_va old_page));
  r ← writeToSwapFile (pg_va old_page) (u32 (j * PGSIZE));
  if r =? -1 then panic "handle PF: writeToSwapFile failed" else
  setproc inc_paged_out;;
  upd_file_page j (set_page (pg_pgdir old_page) (pg_va old_page));;
  onmach (set_page_flags_in_disk (pg_pgdir old_page) (pg_va old_page));;
  p ← myproc;
  lcr3 (V2P (pp_pgdir p));;
  onmach (kfree end_ (P2V old_pa)).

Definition handle_pf : M (vm F) Z :=
  p ← myproc;
  va ← rcr2;
  let va_rounded := PGROUNDDOWN va in
  pte ← onmach (walkpgdir (pp_pgdir p) va_rounded false);
  if pte =? 0 then panic "handle_pf: walkdir failed" else
  v ← onmach (load pte);
  if has v PTE_P || negb (has v PTE_PG) then mret 0 else
  setproc inc_page_faults;;
  pa ← onmach kalloc;
  let free := next_free_i_in_mem p in
  let is_need_swap := free =? -1 in
  new_page_i_in_mem ← (if is_need_swap then next_i_in_mem_to_remove victim_fuel else mret free);
  old_page ← mem_page new_page_i_in_mem;
  onmach (set_page_flags_in_mem (pp_pgdir p) va_rounded (V2P pa));;
  lcr3 (V2P (pp_pgdir p));;
  p ← myproc;
  let i_of_rounded_va := get_i_of_va_in_file p va_rounded in
  if i_of_rounded_va =? -1 then panic "handle PF: cannot find rounded VA" else
  buffer ← readFromSwapFile (u32 (i_of_rounded_va * PGSIZE));
  match buffer with
  | None => panic "handle PF: readFromSwapFile failed"
  | Some buffer =>
      pf_install new_page_i_in_mem i_of_rounded_va;;
      when is_need_swap (pf_evict old_page i_of_rounded_va);;
      user_write_page va_rounded buffer;;
      mret 1
  end.

Definition handle_cow : M (vm F) Z :=
  p ← myproc;
  va ← rcr2;
  pte ← onmach (walkpgdir (pp_pgdir p) va false);
  if pte =? 0 then panic "handle_cow: walkdir failed" else
  v ← onmach (load pte);
  if has v PTE_W || negb (has v PTE_COW) then mret 0 else
  let pa := PTE_ADDR v in
  c ← onmach (get_ref_counter pa);
  (if 1 <? c then
     mem ← onmach kalloc;
     if mem =? 0 then panic "COW: kalloc failed" else
     onmach (copy_page mem (P2V pa));;
     onmach (dec_counter pa);;
     v ← onmach (load pte);
     onmach (store pte (clear_bits v PTE_COW));;
     onmach (store pte (Z.lor (Z.lor (Z.lor (V2P mem) PTE_P) PTE_U) PTE_W))
   else
     onmach (store pte (clear_bits v PTE_COW));;
     v ← onmach (load pte);
     onmach (store pte (Z.lor v PTE_W)));;
  lcr3 (V2P (pp_pgdir p));;
  mret 1.

End vm.
