(* ===== verification/Paging.v ===== *)
(** * Address spaces under paging

    [as_inv s l pgdir ex]: the pages present in the user part of [pgdir], but
    for those in [ex], have frames of their own: allocated, not free, not part
    of the page table, mapped at one address only.  The lemmas follow the
    steps the fault handlers and [swap] take: allocate, edit an entry, free,
    write a page. *)

From S2P Require Import Prelude Mmu Memory Kalloc PageTable.

(** A user page address. *)
Definition upage (va : Z) : Prop := aligned va /\ 0 <= va < KERNBASE.

Lemma upage_u32 va : upage va -> is_u32 va.
Proof. unfold upage, KERNBASE. intros. ulia. Qed.
#[export] Hint Resolve upage_u32 : kern core.

Lemma upage_round va : upage va -> PGROUNDDOWN va = va.
Proof. intros H. apply PGROUNDDOWN_id; [auto|apply H]. Qed.

Section paging.
Context (end_ : Z).

Definition owned (s : mach) (l : list Z) (pgdir x : Z) : Prop :=
  valid_page end_ x /\ (x ∉ l) /\ ~ pd_frame (m_mem s) pgdir (kframe x) /\
  1 <= page_refs s x < 2147483647.

(** The page [va] is present with frame [x] (a kernel address). *)
Definition mapped (m : memory) (pgdir va x : Z) : Prop :=
  exists v, pte_at m pgdir va = Some v /\ has v PTE_P = true /\ P2V (PTE_ADDR v) = x.

Record as_inv (s : mach) (l : list Z) (pgdir : Z) (ex : Z -> Prop) : Prop := {
  as_pd : pd_ok end_ s l pgdir;
  as_frames : forall va x, upage va -> ~ ex va -> mapped (m_mem s) pgdir va x -> owned s l pgdir x;
  as_inj : forall va vb x, upage va -> upage vb -> ~ ex va -> ~ ex vb ->
    mapped (m_mem s) pgdir va x -> mapped (m_mem s) pgdir vb x -> va = vb;
}.

Definition nobody (va : Z) : Prop := False.

Lemma as_wf s l pgdir ex : as_inv s l pgdir ex -> pd_wf end_ (m_mem s) pgdir.
Proof. intros Has. apply (po_wf _ _ _ _ (as_pd _ _ _ _ Has)). Qed.

Lemma as_word s l pgdir ex va v : as_inv s l pgdir ex -> pte_at (m_mem s) pgdir va = Some v -> is_u32 v.
Proof.
  intros Has (t & _ & <-)%pte_at_table. apply kload_range.
  apply (po_words _ _ _ _ (as_pd _ _ _ _ Has)).
Qed.

Lemma as_weaken s l pgdir ex ex' : as_inv s l pgdir ex -> (forall va, ex va -> ex' va) ->
  as_inv s l pgdir ex'.
Proof.
  intros [Hpd Hf Hi] Hex. split; [done|..].
  - intros va x Hva Hne. apply Hf; auto.
  - intros va vb x Hva Hvb Hna Hnb. apply Hi; auto.
Qed.

Lemma mapped_fun m pgdir va x y : mapped m pgdir va x -> mapped m pgdir va y -> x = y.
Proof. intros (v & Hv & _ & <-) (w & Hw & _ & <-). congruence. Qed.

Lemma mapped_range m pgdir va x : mapped m pgdir va x -> is_u32 x.
Proof. intros (v & _ & _ & <-). apply u32_range. Qed.

Hypothesis end_high : KERNBASE <= end_.

(** ** Editing an entry *)

Lemma mapped_pte_set s l pgdir ex va vb v v' x : as_inv s l pgdir ex -> upage va -> upage vb ->
  pte_at (m_mem s) pgdir va = Some v ->
  mapped (m_mem (pte_set s pgdir va v')) pgdir vb x <->
    if decide (va = vb) then has v' PTE_P = true /\ P2V (PTE_ADDR v') = x
    else mapped (m_mem s) pgdir vb x.
Proof.
  intros Has Hva Hvb Hv. unfold mapped.
  rewrite (pte_set_at end_ s pgdir va vb v' v) by eauto using as_wf.
  rewrite !upage_round by done. case_decide; [|done]. split.
  - intros (w & [= <-] & ? & ?). done.
  - intros []. eauto.
Qed.

Lemma owned_pte_set s l pgdir va v' x : pd_wf end_ (m_mem s) pgdir -> is_u32 va ->
  owned (pte_set s pgdir va v') l pgdir x <-> owned s l pgdir x.
Proof.
  intros Hwf Hva. unfold owned. rewrite pte_set_refs.
  by rewrite (pte_set_pd_frame end_) by done.
Qed.

Lemma as_pte_set s l pgdir ex va v v' : as_inv s l pgdir ex -> upage va ->
  pte_at (m_mem s) pgdir va = Some v -> is_u32 v' ->
  (has v' PTE_P = true -> owned s l pgdir (P2V (PTE_ADDR v')) /\
     forall vb, upage vb -> ~ ex vb -> mapped (m_mem s) pgdir vb (P2V (PTE_ADDR v')) -> vb = va) ->
  as_inv (pte_set s pgdir va v') l pgdir (fun u => ex u /\ u <> va).
Proof.
  intros Has Hva Hv Hv' Hnew. pose proof (as_wf _ _ _ _ Has) as Hwf. split.
  - apply pte_set_ok; eauto using as_pd.
  - intros vb x Hvb Hne. rewrite (mapped_pte_set s l pgdir ex va vb v) by done.
    rewrite owned_pte_set by eauto. case_decide as Hd.
    + intros [Hp <-]. by apply Hnew.
    + apply (as_frames _ _ _ _ Has); [done|]. intros E. apply Hne. auto.
  - intros vb vc x Hvb Hvc Hnb Hnc.
    rewrite !(mapped_pte_set s l pgdir ex va) by done.
    case_decide as Hb; case_decide as Hc; try congruence.
    + intros [Hp <-] Hm. destruct (Hnew Hp) as [_ Hu]. rewrite <- Hb. symmetry.
      apply Hu; [done| |done]. intros E. by apply Hnc.
    + intros Hm [Hp <-]. destruct (Hnew Hp) as [_ Hu]. rewrite <- Hc.
      apply Hu; [done| |done]. intros E. by apply Hnb.
    + apply (as_inj _ _ _ _ Has); [done..| |].
      * intros E. by apply Hnb.
      * intros E. by apply Hnc.
Qed.

(** An edit that keeps the frame. *)
Lemma as_pte_flags s l pgdir ex va v v' : as_inv s l pgdir ex -> upage va -> ~ ex va ->
  pte_at (m_mem s) pgdir va = Some v -> is_u32 v' ->
  has v' PTE_P = has v PTE_P -> PTE_ADDR v' = PTE_ADDR v ->
  as_inv (pte_set s pgdir va v') l pgdir ex.
Proof.
  intros Has Hva Hne Hv Hv' Hp Ha. eapply as_weaken.
  - apply (as_pte_set s l pgdir ex va v v'); try done. rewrite Hp, Ha. intros Hpv.
    assert (mapped (m_mem s) pgdir va (P2V (PTE_ADDR v))) as Hm by (exists v; eauto). split.
    + by apply (as_frames _ _ _ _ Has va).
    + intros vb Hvb Hnb Hmb. by apply (as_inj _ _ _ _ Has vb va (P2V (PTE_ADDR v))).
  - by intros u [? _].
Qed.

(** ** Steps that leave the page table alone *)

(** The table's frames and the free list are the same, or the list lost or
    gained pages the address space does not use. *)
Lemma pd_ok_agree s s' l l' pgdir : pd_ok end_ s l pgdir ->
  kmem_inv end_ s' l' -> mem_words (m_mem s') ->
  (forall fn, pd_frame (m_mem s) pgdir fn -> mem_frame (m_mem s') fn = mem_frame (m_mem s) fn) ->
  (forall y, y ∈ l' -> ~ pd_frame (m_mem s) pgdir (kframe y)) ->
  pd_ok end_ s' l' pgdir /\
  (forall fn, pd_frame (m_mem s') pgdir fn <-> pd_frame (m_mem s) pgdir fn) /\
  (forall va, is_u32 va -> pte_at (m_mem s') pgdir va = pte_at (m_mem s) pgdir va).
Proof.
  intros [_ _ Hwf Hfr] Hk Hw Hf Hl.
  assert (mem_frame (m_mem s') (kframe pgdir) = mem_frame (m_mem s) (kframe pgdir)) as E
    by (apply Hf; by left).
  assert (forall fn, pd_frame (m_mem s') pgdir fn <-> pd_frame (m_mem s) pgdir fn) as Hpf.
  { apply pd_frame_agree; [by eapply pd_u32|by eapply pd_aligned|done]. }
  split; [|split].
  - split; [done|done|by eapply pd_wf_agree|]. intros y Hy. rewrite Hpf. by apply Hl.
  - done.
  - intros va Hva. by eapply pte_at_frames.
Qed.

Lemma mapped_agree m m' pgdir va x :
  pte_at m' pgdir va = pte_at m pgdir va -> mapped m' pgdir va x <-> mapped m pgdir va x.
Proof. unfold mapped. by intros ->. Qed.

Lemma as_agree s s' l l' pgdir ex : as_inv s l pgdir ex ->
  kmem_inv end_ s' l' -> mem_words (m_mem s') ->
  (forall fn, pd_frame (m_mem s) pgdir fn -> mem_frame (m_mem s') fn = mem_frame (m_mem s) fn) ->
  (forall y, y ∈ l' -> ~ pd_frame (m_mem s) pgdir (kframe y)) ->
  (forall va x, upage va -> ~ ex va -> mapped (m_mem s) pgdir va x -> owned s l pgdir x ->
     (x ∉ l') /\ 1 <= page_refs s' x < 2147483647) ->
  as_inv s' l' pgdir ex.
Proof.
  intros Has Hk Hw Hf Hl Ho.
  destruct (pd_ok_agree s s' l l' pgdir (as_pd _ _ _ _ Has) Hk Hw Hf Hl) as (Hpd & Hpf & Hp).
  split; [done|..].
  - intros va x Hva Hne. rewrite (mapped_agree (m_mem s) (m_mem s')) by auto. intros Hm.
    pose proof (as_frames _ _ _ _ Has va x Hva Hne Hm) as (Hv & Hnin & Hnp & Hr).
    destruct (Ho va x Hva Hne Hm) as [??]; [done|]. split; [done|]. split; [done|].
    split; [by rewrite Hpf|done].
  - intros va vb x Hva Hvb Hna Hnb. rewrite !(mapped_agree (m_mem s) (m_mem s')) by auto.
    by apply (as_inj _ _ _ _ Has).
Qed.

(** Freeing the frame of pages that are no longer counted on. *)
Lemma as_kfree s l pgdir ex x : as_inv s l pgdir ex -> owned s l pgdir x ->
  (forall va, upage va -> ~ ex va -> ~ mapped (m_mem s) pgdir va x) ->
  exists s' l', kfree end_ x s = Ok () s' /\ as_inv s' l' pgdir ex /\
    (l' = l \/ l' = x :: l) /\
    (forall fn, fn <> kframe x -> mem_frame (m_mem s') fn = mem_frame (m_mem s) fn) /\
    (forall w, kframe w <> kframe x -> page_refs s' w = page_refs s w) /\
    (forall va, is_u32 va -> pte_at (m_mem s') pgdir va = pte_at (m_mem s) pgdir va).
Proof.
  intros Has (Hv & Hnin & Hnp & Hr) Hno. pose proof (as_pd _ _ _ _ Has) as Hpd.
  destruct (kfree_owned end_ s l x) as (s' & l' & Hrun & Hk & Hw & Hl & Hf & Hrefs);
    [apply Hpd..|done|done|lia|].
  assert (forall fn, pd_frame (m_mem s) pgdir fn -> mem_frame (m_mem s') fn = mem_frame (m_mem s) fn) as Hf'.
  { intros fn Hfn. apply Hf. by intros ->. }
  assert (forall y, y ∈ l' -> ~ pd_frame (m_mem s) pgdir (kframe y)) as Hl'.
  { intros y Hy. destruct Hl as [[-> _]|[-> _]]; [by apply (po_free _ _ _ _ Hpd)|].
    apply elem_of_cons in Hy as [->|Hy]; [done|by apply (po_free _ _ _ _ Hpd)]. }
  exists s', l'. split_and!; try done; [|destruct Hl as [[-> _]|[-> _]]; auto|].
  - apply (as_agree s s' l l'); try done. intros va y Hva Hne Hm (Hvy & Hny & _ & Hry).
    assert (y <> x) as Hyx by (intros ->; by eapply (Hno va)).
    split.
    + destruct Hl as [[-> _]|[-> _]]; [done|]. by apply not_elem_of_cons.
    + rewrite Hrefs; [done|]. intros E. apply Hyx. by eapply (valid_page_inj end_).
  - by apply (pd_ok_agree s s' l l').
Qed.

(** Taking a page: it is owned, and mapped nowhere. *)
Lemma as_kalloc s l pgdir ex x : as_inv s (x :: l) pgdir ex ->
  kalloc s = Ok x (kalloc_post s x) /\ as_inv (kalloc_post s x) l pgdir ex /\
  owned (kalloc_post s x) l pgdir x /\
  (forall va, upage va -> ~ ex va -> ~ mapped (m_mem s) pgdir va x).
Proof.
  intros Has. pose proof (as_pd _ _ _ _ Has) as Hpd. pose proof (po_kmem _ _ _ _ Hpd) as Hk.
  destruct (kalloc_cons end_ end_high s x l Hk) as [Hrun Hk'].
  pose proof (ki_nodup _ _ _ Hk) as [Hnin _]%NoDup_cons.
  pose proof (ki_valid _ _ _ Hk) as [Hv Hvl]%Forall_cons.
  assert (forall va y, upage va -> ~ ex va -> mapped (m_mem s) pgdir va y -> y <> x) as Hne.
  { intros va y Hva Hex Hm ->. destruct (as_frames _ _ _ _ Has va x Hva Hex Hm) as (_ & Hn & _).
    apply Hn, elem_of_cons. by left. }
  split; [done|]. split_and!.
  - apply (as_agree s _ (x :: l) l); try done.
    + apply Hpd.
    + intros y Hy. apply (po_free _ _ _ _ Hpd), elem_of_cons. by right.
    + intros va y Hva Hex Hm (Hvy & Hny & _ & Hry). split; [by apply not_elem_of_cons in Hny as [_ ?]|].
      change (1 <= page_refs (refs_set (kframe x) 1 s) y < 2147483647).
      rewrite page_refs_set. case_decide as E; [|done].
      destruct (Hne va y Hva Hex Hm). symmetry. by eapply (valid_page_inj end_).
  - split; [done|]. split; [done|]. split.
    + apply (po_free _ _ _ _ Hpd), elem_of_cons. by left.
    + change (1 <= page_refs (refs_set (kframe x) 1 s) x < 2147483647).
      rewrite page_refs_set, decide_True; [lia|done].
  - intros va Hva Hex Hm. by apply (Hne va x Hva Hex Hm).
Qed.

(** Overwriting an owned frame. *)
Definition write_frame (s : mach) (fn : Z) (f : frame) : mach :=
  set_mem (<[fn := f]> (m_mem s)) s.

Lemma as_write_frame s l pgdir ex x f : as_inv s l pgdir ex -> owned s l pgdir x -> frame_words f ->
  as_inv (write_frame s (kframe x) f) l pgdir ex /\
  (forall y, owned s l pgdir y -> owned (write_frame s (kframe x) f) l pgdir y) /\
  (forall va, is_u32 va -> pte_at (m_mem (write_frame s (kframe x) f)) pgdir va = pte_at (m_mem s) pgdir va).
Proof.
  intros Has (Hv & Hnin & Hnp & Hr) Hw. pose proof (as_pd _ _ _ _ Has) as Hpd.
  assert (forall fn, fn <> kframe x ->
    mem_frame (m_mem (write_frame s (kframe x) f)) fn = mem_frame (m_mem s) fn) as Hf.
  { intros fn Hne. simpl. rewrite mem_frame_insert. by rewrite decide_False. }
  assert (kmem_inv end_ (write_frame s (kframe x) f) l) as Hk.
  { destruct (po_kmem _ _ _ _ Hpd) as [Hc Hnd Hvl Hrf]. split; [|done..].
    eapply chain_frame; [|exact Hc]. intros y Hy. apply Hf. intros E. apply Hnin.
    rewrite Forall_forall in Hvl. by rewrite <- (valid_page_inj end_ y x (Hvl y Hy) Hv E). }
  assert (mem_words (m_mem (write_frame s (kframe x) f))) as Hmw.
  { apply mem_words_insert; [apply Hpd|done]. }
  assert (forall fn, pd_frame (m_mem s) pgdir fn ->
    mem_frame (m_mem (write_frame s (kframe x) f)) fn = mem_frame (m_mem s) fn) as Hf'.
  { intros fn Hfn. apply Hf. by intros ->. }
  destruct (pd_ok_agree s (write_frame s (kframe x) f) l l pgdir) as (_ & Hpf & Hp); try done.
  { apply Hpd. }
  split; [|split; [|done]].
  - apply (as_agree s _ l l); try done; [apply Hpd|]. by intros va y _ _ _ (_ & ? & _ & ?).
  - intros y (? & ? & Hn & ?). split; [done|]. split; [done|]. split; [by rewrite Hpf|done].
Qed.
End paging.
