(* ===== verification/VmInv.v ===== *)
(** * The invariant of demand paging

    [vm_inv st l]: the current process's page table, page metadata and swap
    file fit together.  [view st va] is the page the process finds at [va],
    wherever it is kept: in its frame if it is present, in its slot of the
    swap file if it was paged out.  Paging is correct when it never changes
    [view]. *)

From S2P Require Import Prelude Mmu Memory Kalloc PageTable Vm Paging.

Section vminv.
Context {F : Type} `{SwapFile F}.
Context (end_ : Z).
Implicit Types st : vm F.

(** ** Running the pieces of the state *)

Lemma onmach_Ok {A} (m : M mach A) st a s' :
  m (v_mach st) = Ok a s' -> onmach m st = Ok a (set_mach s' st).
Proof. intros E. unfold onmach, zoom. by rewrite E. Qed.

Lemma onmach_same {A} (m : M mach A) st a :
  m (v_mach st) = Ok a (v_mach st) -> onmach m st = Ok a st.
Proof. intros E. rewrite (onmach_Ok _ _ _ _ E). by destruct st. Qed.

Lemma mem_page_Ok st i pg : pp_memory_pages (v_p st) !! i = Some pg ->
  mem_page (Z.of_nat i) st = Ok pg st.
Proof.
  intros Hi. unfold mem_page, myproc. erewrite Ok_bind by reflexivity.
  rewrite (proj2 (Z.leb_le _ _)), Nat2Z.id, Hi by lia. done.
Qed.

Lemma file_page_Ok st i pg : pp_file_pages (v_p st) !! i = Some pg ->
  file_page (Z.of_nat i) st = Ok pg st.
Proof.
  intros Hi. unfold file_page, myproc. erewrite Ok_bind by reflexivity.
  rewrite (proj2 (Z.leb_le _ _)), Nat2Z.id, Hi by lia. done.
Qed.

Lemma upd_mem_page_Ok st i pg f : pp_memory_pages (v_p st) !! i = Some pg ->
  upd_mem_page (Z.of_nat i) f st =
    Ok () (set_p (set_memory_pages (<[i := f pg]> (pp_memory_pages (v_p st))) (v_p st)) st).
Proof.
  intros Hi. unfold upd_mem_page. rewrite (Ok_bind _ _ _ _ _ (mem_page_Ok st i pg Hi)).
  unfold setproc, modify. by rewrite Nat2Z.id.
Qed.

Lemma upd_file_page_Ok st i pg f : pp_file_pages (v_p st) !! i = Some pg ->
  upd_file_page (Z.of_nat i) f st =
    Ok () (set_p (set_file_pages (<[i := f pg]> (pp_file_pages (v_p st))) (v_p st)) st).
Proof.
  intros Hi. unfold upd_file_page. rewrite (Ok_bind _ _ _ _ _ (file_page_Ok st i pg Hi)).
  unfold setproc, modify. by rewrite Nat2Z.id.
Qed.

Hypothesis end_high : KERNBASE <= end_.

(** Reading and writing an entry of the page table. *)
Lemma walk_Ok st pgdir va v : pd_wf end_ (m_mem (v_mach st)) pgdir -> is_u32 va ->
  pte_at (m_mem (v_mach st)) pgdir va = Some v ->
  exists a, onmach (walkpgdir pgdir va false) st = Ok a st /\ (a =? 0) = false /\
    onmach (load a) st = Ok v st /\
    forall w, onmach (store a w) st = Ok () (set_mach (pte_set (v_mach st) pgdir va w) st).
Proof.
  intros Hwf Hva Hv. pose proof Hv as (t & Ht & Hl)%pte_at_table. exists (entry t (PTX va)).
  split_and!.
  - apply onmach_same. by apply walk_present.
  - by eapply (walk_entry_nonzero end_).
  - apply onmach_same. unfold load, gets. by rewrite Hl.
  - intros w. apply onmach_Ok. unfold store, modify, pte_set. by rewrite Ht.
Qed.

Definition paged (m : memory) (pgdir va : Z) : Prop :=
  exists v, pte_at m pgdir va = Some v /\ has v PTE_P = false /\ has v PTE_PG = true.

Record slots_inv (p : pproc) (f : F) (m : memory) : Prop := {
  sl_mem_len : length (pp_memory_pages p) = 16%nat;
  sl_file_len : length (pp_file_pages p) = 16%nat;
  sl_mem : forall i pg, pp_memory_pages p !! i = Some pg -> pg_is_used pg = true ->
    pg_pgdir pg = pp_pgdir p /\ upage (pg_va pg) /\ exists x, mapped m (pp_pgdir p) (pg_va pg) x;
  sl_mem_inj : forall i j pg pg', pp_memory_pages p !! i = Some pg -> pg_is_used pg = true ->
    pp_memory_pages p !! j = Some pg' -> pg_is_used pg' = true -> pg_va pg = pg_va pg' -> i = j;
  sl_file : forall i pg, pp_file_pages p !! i = Some pg -> pg_is_used pg = true ->
    pg_pgdir pg = pp_pgdir p /\ upage (pg_va pg) /\ paged m (pp_pgdir p) (pg_va pg) /\
    exists fr, sw_get f (Z.of_nat i * PGSIZE) = Some fr /\ frame_words fr;
  sl_file_inj : forall i j pg pg', pp_file_pages p !! i = Some pg -> pg_is_used pg = true ->
    pp_file_pages p !! j = Some pg' -> pg_is_used pg' = true -> pg_va pg = pg_va pg' -> i = j;
  sl_paged : forall va v, upage va -> pte_at m (pp_pgdir p) va = Some v ->
    has v PTE_P = false -> has v PTE_PG = true ->
    0 <= v < PGSIZE /\
    exists i pg, pp_file_pages p !! i = Some pg /\ pg_is_used pg = true /\ pg_va pg = va;
}.

(** [va] is not in a resident slot. *)
Definition untracked (p : pproc) (va : Z) : Prop :=
  forall i pg, pp_memory_pages p !! i = Some pg -> pg_is_used pg = true -> pg_va pg <> va.

Record vm_inv st (l : list Z) : Prop := {
  vi_as : as_inv end_ (v_mach st) l (pp_pgdir (v_p st)) nobody;
  vi_slots : slots_inv (v_p st) (v_swap st) (m_mem (v_mach st));
  vi_cr3 : v_cr3 st = V2P (pp_pgdir (v_p st));
}.

(** The swap slot that holds [va]. *)
Definition slot_of (files : list page) (va : Z) : option nat :=
  find_index (fun pg => pg_is_used pg && (pg_va pg =? va)) files.

Definition view_at (m : memory) (p : pproc) (f : F) (va : Z) : option frame :=
  v ← pte_at m (pp_pgdir p) va;
  if has v PTE_P then Some (mem_frame m (kframe (P2V (PTE_ADDR v))))
  else if has v PTE_PG then
    i ← slot_of (pp_file_pages p) va; sw_get f (Z.of_nat i * PGSIZE)
  else None.

Definition view st (va : Z) : option frame :=
  view_at (m_mem (v_mach st)) (v_p st) (v_swap st) va.

Lemma slot_of_Some p f m va i pg : slots_inv p f m -> pp_file_pages p !! i = Some pg ->
  pg_is_used pg = true -> pg_va pg = va -> slot_of (pp_file_pages p) va = Some i.
Proof.
  intros Hs Hi Hu Hva. apply find_index_Some. split.
  - exists pg. split; [done|]. by rewrite Hu, Hva, Z.eqb_refl.
  - intros j pg' Hj Hpg'. destruct (pg_is_used pg') eqn:Hu'; [|done]. simpl.
    apply Z.eqb_neq. intros E.
    assert (i = j) by (eapply (sl_file_inj _ _ _ Hs); eauto; congruence). lia.
Qed.

(** ** Entries that differ in the accessed bit only *)

Definition same_page (v v' : Z) : Prop :=
  has v' PTE_P = has v PTE_P /\ has v' PTE_W = has v PTE_W /\ has v' PTE_PG = has v PTE_PG /\
  PTE_ADDR v' = PTE_ADDR v.

Lemma same_page_refl v : same_page v v.
Proof. done. Qed.

Lemma same_page_trans v1 v2 v3 : same_page v1 v2 -> same_page v2 v3 -> same_page v1 v3.
Proof. unfold same_page. intuition congruence. Qed.

Lemma same_page_set v : is_u32 v -> same_page v (Z.lor v PTE_A).
Proof.
  intros Hv. unfold same_page. rewrite !has_lor.
  change (has PTE_A PTE_P) with false. change (has PTE_A PTE_W) with false.
  change (has PTE_A PTE_PG) with false. rewrite !orb_false_r.
  split_and!; try done. by apply PTE_ADDR_set.
Qed.

Lemma same_page_clear v : is_u32 v -> same_page v (clear_bits v PTE_A).
Proof.
  intros Hv. unfold same_page. rewrite !has_clear_disjoint by done.
  split_and!; try done. by apply PTE_ADDR_clear.
Qed.

(** ** Quiet steps

    A step that changes no page the process can see: accessed bits, the order
    of the resident pages, ages and times may change. *)
Record quiet st st' : Prop := {
  qu_swap : v_swap st' = v_swap st;
  qu_cr2 : v_cr2 st' = v_cr2 st;
  qu_cr3 : v_cr3 st' = v_cr3 st;
  qu_pid : pp_pid (v_p st') = pp_pid (v_p st);
  qu_pgdir : pp_pgdir (v_p st') = pp_pgdir (v_p st);
  qu_file : pp_file_pages (v_p st') = pp_file_pages (v_p st);
  qu_frames : forall fn, ~ pd_frame (m_mem (v_mach st)) (pp_pgdir (v_p st)) fn ->
    mem_frame (m_mem (v_mach st')) fn = mem_frame (m_mem (v_mach st)) fn;
  qu_pd : forall fn, pd_frame (m_mem (v_mach st')) (pp_pgdir (v_p st)) fn <->
                     pd_frame (m_mem (v_mach st)) (pp_pgdir (v_p st)) fn;
  qu_pte : forall va, upage va ->
    option_Forall2 same_page
      (pte_at (m_mem (v_mach st)) (pp_pgdir (v_p st)) va)
      (pte_at (m_mem (v_mach st')) (pp_pgdir (v_p st)) va);
  qu_kmem : m_kmem (v_mach st') = m_kmem (v_mach st);
}.

Lemma quiet_refl st : quiet st st.
Proof.
  split; try done. intros va _. destruct (pte_at _ _ _); constructor. apply same_page_refl.
Qed.

Lemma quiet_trans st1 st2 st3 : quiet st1 st2 -> quiet st2 st3 -> quiet st1 st3.
Proof.
  intros [] []. split; try congruence.
  - intros fn Hfn. rewrite qu_pgdir0 in *. rewrite qu_frames1; [by apply qu_frames0|].
    by rewrite qu_pd0.
  - intros fn. rewrite qu_pgdir0 in *. by rewrite qu_pd1.
  - intros va Hva. rewrite qu_pgdir0 in *. specialize (qu_pte0 va Hva). specialize (qu_pte1 va Hva).
    destruct qu_pte0; inversion qu_pte1; constructor. by eapply same_page_trans.
Qed.

Lemma quiet_mapped st st' va x : quiet st st' -> upage va ->
  mapped (m_mem (v_mach st')) (pp_pgdir (v_p st)) va x <->
  mapped (m_mem (v_mach st)) (pp_pgdir (v_p st)) va x.
Proof.
  intros Hq Hva. pose proof (qu_pte _ _ Hq va Hva) as Hp. unfold mapped.
  destruct Hp as [v v' (Hp & _ & _ & Ha)|]; [|done].
  split; intros (w & [= <-] & ? & ?); eexists; (split; [done|]); split; congruence.
Qed.

Lemma quiet_paged st st' va : quiet st st' -> upage va ->
  paged (m_mem (v_mach st')) (pp_pgdir (v_p st)) va <->
  paged (m_mem (v_mach st)) (pp_pgdir (v_p st)) va.
Proof.
  intros Hq Hva. pose proof (qu_pte _ _ Hq va Hva) as Hp. unfold paged.
  destruct Hp as [v v' (Hp & _ & Hg & _)|]; [|done].
  split; intros (w & [= <-] & ? & ?); eexists; (split; [done|]); split; congruence.
Qed.

Lemma quiet_view st st' l va : quiet st st' -> vm_inv st l -> upage va -> view st' va = view st va.
Proof.
  intros Hq Hi Hva. unfold view, view_at.
  rewrite (qu_swap _ _ Hq), (qu_pgdir _ _ Hq), (qu_file _ _ Hq).
  pose proof (qu_pte _ _ Hq va Hva) as Hp.
  destruct (pte_at (m_mem (v_mach st)) _ va) as [v|] eqn:Ev;
    inversion Hp as [? v' (Hpp & _ & Hg & Ha) E1 E2|]; simpl; [|done].
  rewrite Hpp, Hg, Ha. case_bool; [|done]. f_equal. apply (qu_frames _ _ Hq).
  destruct (as_frames _ _ _ _ _ (vi_as _ _ Hi) va (P2V (PTE_ADDR v)))
    as (_ & _ & Hn & _); [done|by intros []|by exists v|done].
Qed.

(** The resident pages of [mem'] are those of [mem], possibly moved. *)
Record same_resident (mem mem' : list page) : Prop := {
  sr_len : length mem' = length mem;
  sr_move : exists pi : nat -> nat,
    (forall i j, (i < length mem)%nat -> (j < length mem)%nat -> pi i = pi j -> i = j) /\
    (forall i pg', mem' !! i = Some pg' -> exists pg, mem !! pi i = Some pg /\
       pg_pgdir pg' = pg_pgdir pg /\ pg_va pg' = pg_va pg /\ pg_is_used pg' = pg_is_used pg);
}.

Lemma quiet_slots st st' : quiet st st' -> mem_words (m_mem (v_mach st')) ->
  same_resident (pp_memory_pages (v_p st)) (pp_memory_pages (v_p st')) ->
  slots_inv (v_p st) (v_swap st) (m_mem (v_mach st)) ->
  slots_inv (v_p st') (v_swap st') (m_mem (v_mach st')).
Proof.
  intros Hq Hw [Hlen (pi & Hinj & Hpi)] [L1 L2 Hm Hmi Hf Hfi Hpg].
  split; rewrite ?(qu_pgdir _ _ Hq), ?(qu_swap _ _ Hq), ?(qu_file _ _ Hq); try done.
  - lia.
  - intros i pg' Hi Hu. destruct (Hpi i pg' Hi) as (pg & Hpg' & -> & -> & Eu).
    destruct (Hm _ pg Hpg') as (? & ? & x & Hx); [congruence|]. split_and!; try done.
    exists x. by apply quiet_mapped.
  - intros i j pg pg' Hi Hu Hj Hu' E.
    destruct (Hpi i pg Hi) as (pg1 & Hpg1 & _ & Ev1 & Eu1).
    destruct (Hpi j pg' Hj) as (pg2 & Hpg2 & _ & Ev2 & Eu2).
    apply lookup_lt_Some in Hi, Hj. apply Hinj; [lia..|].
    apply (Hmi (pi i) (pi j) pg1 pg2); congruence.
  - intros i pg Hi Hu. destruct (Hf i pg Hi Hu) as (? & ? & ? & ?). split_and!; try done.
    by apply quiet_paged.
  - intros va v Hva Hv Hp Hg. pose proof (qu_pte _ _ Hq va Hva) as Hrel. rewrite Hv in Hrel.
    inversion Hrel as [w v' (E1 & _ & E3 & E4) Ew|]; subst. symmetry in Ew.
    destruct (Hpg va w Hva Ew) as [Hsm Hex]; [congruence..|]. split; [|done].
    apply PTE_ADDR_0.
    + apply pte_at_table in Hv as (t & _ & <-). by apply kload_range.
    + rewrite E4. by apply PTE_ADDR_small.
Qed.

Lemma quiet_inv st st' l : vm_inv st l -> quiet st st' ->
  as_inv end_ (v_mach st') l (pp_pgdir (v_p st)) nobody ->
  same_resident (pp_memory_pages (v_p st)) (pp_memory_pages (v_p st')) -> vm_inv st' l.
Proof.
  intros [Has Hs Hc] Hq Has' Hr. split.
  - by rewrite (qu_pgdir _ _ Hq).
  - eapply quiet_slots; [done| |done|done]. apply (po_words _ _ _ _ (as_pd _ _ _ _ _ Has')).
  - by rewrite (qu_cr3 _ _ Hq), (qu_pgdir _ _ Hq).
Qed.

Lemma untracked_moved (p p' : pproc) va : same_resident (pp_memory_pages p) (pp_memory_pages p') ->
  untracked p va -> untracked p' va.
Proof.
  intros [_ (pi & _ & Hpi)] Hun i pg Hi Hu. destruct (Hpi i pg Hi) as (pg' & Hpg' & _ & Ev & Eu).
  rewrite Ev. apply (Hun (pi i) pg' Hpg'). congruence.
Qed.

Lemma same_resident_refl mem : same_resident mem mem.
Proof. split; [done|]. exists (fun i => i). split; [done|]. intros i pg ?. by exists pg. Qed.

Lemma same_resident_trans m1 m2 m3 :
  same_resident m1 m2 -> same_resident m2 m3 -> same_resident m1 m3.
Proof.
  intros [L1 (p1 & I1 & H1)] [L2 (p2 & I2 & H2)]. split; [lia|]. exists (fun i => p1 (p2 i)).
  assert (forall i, (i < length m1)%nat -> (p2 i < length m1)%nat) as Hlt.
  { intros i Hi. destruct (lookup_lt_is_Some_2 m3 i) as [pg Hpg]; [lia|].
    destruct (H2 i pg Hpg) as (pg' & Hpg' & _). apply lookup_lt_Some in Hpg'. lia. }
  split.
  - intros i j Hi Hj E. apply I2; [lia..|]. apply I1; auto.
  - intros i pg Hpg. destruct (H2 i pg Hpg) as (pg2 & Hpg2 & -> & -> & ->).
    destruct (H1 _ pg2 Hpg2) as (pg1 & Hpg1 & -> & -> & ->). by exists pg1.
Qed.

(** Changing times and ages in place. *)
Lemma same_resident_insert mem i pg pg' : mem !! i = Some pg ->
  pg_pgdir pg' = pg_pgdir pg -> pg_va pg' = pg_va pg -> pg_is_used pg' = pg_is_used pg ->
  same_resident mem (<[i := pg']> mem).
Proof.
  intros Hi E1 E2 E3. split; [by rewrite length_insert|]. exists (fun i => i). split; [done|].
  intros j pg''. destruct (decide (i = j)) as [<-|Hne].
  - rewrite list_lookup_insert_eq by (by eapply lookup_lt_Some). intros [= <-]. by exists pg.
  - rewrite list_lookup_insert_ne by done. intros Hj. by exists pg''.
Qed.

Lemma same_resident_rotate mem : same_resident mem (rotate mem).
Proof.
  unfold rotate. destruct (last mem) as [x|] eqn:E.
  - assert (exists mem0, mem = mem0 ++ [x]) as [mem0 ->] by (by apply last_Some).
    rewrite removelast_last. split; [rewrite length_app; simpl; lia|].
    exists (fun i => match i with O => length mem0 | S i' => i' end). rewrite length_app; simpl. split.
    + intros [|i] [|j] Hi Hj; lia.
    + intros [|i] pg; simpl.
      * intros [= <-]. exists x. by rewrite list_lookup_middle.
      * intros Hi. exists pg. by rewrite lookup_app_l by (by eapply lookup_lt_Some).
  - apply last_None in E as ->. apply same_resident_refl.
Qed.

(** An edit of a user entry that keeps what [same_page] keeps. *)
Lemma quiet_pte_set st l va v v' : vm_inv st l -> upage va ->
  pte_at (m_mem (v_mach st)) (pp_pgdir (v_p st)) va = Some v -> is_u32 v' -> same_page v v' ->
  let st' := set_mach (pte_set (v_mach st) (pp_pgdir (v_p st)) va v') st in
  quiet st st' /\ vm_inv st' l.
Proof.
  intros Hi Hva Hv Hv' Hsame st'. pose proof (vi_as _ _ Hi) as Has.
  pose proof (as_wf _ _ _ _ _ Has) as Hwf.
  assert (quiet st st') as Hq.
  { split; try done; cbn [v_mach set_mach st'].
    - intros fn Hfn. apply (pte_set_frame end_); eauto.
    - intros fn. apply (pte_set_pd_frame end_); eauto.
    - intros vb Hvb. rewrite (pte_set_at end_ _ _ va vb v' v) by eauto.
      rewrite !upage_round by done. case_decide as Hd.
      + subst. rewrite Hv. by constructor.
      + destruct (pte_at _ _ vb); constructor. apply same_page_refl.
    - apply pte_set_kmem. }
  split; [done|]. apply (quiet_inv st); [done|done| |apply same_resident_refl].
  destruct Hsame as (? & _ & _ & ?). eapply as_pte_flags; eauto; try by intros [].
Qed.

(** Metadata-only steps. *)
Lemma quiet_set_p st l p' : vm_inv st l -> pp_pid p' = pp_pid (v_p st) -> pp_pgdir p' = pp_pgdir (v_p st) ->
  pp_file_pages p' = pp_file_pages (v_p st) ->
  same_resident (pp_memory_pages (v_p st)) (pp_memory_pages p') ->
  quiet st (set_p p' st) /\ vm_inv (set_p p' st) l.
Proof.
  intros Hi E0 E1 E2 Hr. assert (quiet st (set_p p' st)) as Hq.
  { pose proof (quiet_refl st) as []. by split. }
  split; [done|]. apply (quiet_inv st); try done. apply Hi.
Qed.

(** A resident page is present. *)
Lemma resident_pte st l i pg : vm_inv st l -> pp_memory_pages (v_p st) !! i = Some pg ->
  pg_is_used pg = true ->
  pg_pgdir pg = pp_pgdir (v_p st) /\ upage (pg_va pg) /\
  exists v, pte_at (m_mem (v_mach st)) (pp_pgdir (v_p st)) (pg_va pg) = Some v /\ is_u32 v /\
    has v PTE_P = true /\ owned end_ (v_mach st) l (pp_pgdir (v_p st)) (P2V (PTE_ADDR v)).
Proof.
  intros Hi Hpg Hu. destruct (sl_mem _ _ _ (vi_slots _ _ Hi) i pg Hpg Hu) as (E & Hup & x & Hm).
  split; [done|]. split; [done|]. pose proof Hm as (v & Hv & Hp & Hx). exists v.
  pose proof (vi_as _ _ Hi) as Has. split; [done|].
  split; [by eapply as_word|]. split; [done|]. subst x. apply (as_frames _ _ _ _ _ Has (pg_va pg)); [done|by intros []|done].
Qed.

(** One resident entry and one file entry replaced. *)
Lemma slots_insert (p p' : pproc) (f f' : F) (m m' : memory) (k j : nat) (e e' : page) :
  slots_inv p f m -> (k < 16)%nat -> (j < 16)%nat -> pp_pgdir p' = pp_pgdir p ->
  pp_memory_pages p' = <[k := e]> (pp_memory_pages p) ->
  pp_file_pages p' = <[j := e']> (pp_file_pages p) ->
  (forall i pg, i <> k -> pp_memory_pages p !! i = Some pg -> pg_is_used pg = true ->
     pte_at m' (pp_pgdir p) (pg_va pg) = pte_at m (pp_pgdir p) (pg_va pg) /\
     (pg_is_used e = true -> pg_va pg <> pg_va e)) ->
  (pg_is_used e = true -> pg_pgdir e = pp_pgdir p /\ upage (pg_va e) /\
     exists x, mapped m' (pp_pgdir p) (pg_va e) x) ->
  (forall i pg, i <> j -> pp_file_pages p !! i = Some pg -> pg_is_used pg = true ->
     pte_at m' (pp_pgdir p) (pg_va pg) = pte_at m (pp_pgdir p) (pg_va pg) /\
     sw_get f' (Z.of_nat i * PGSIZE) = sw_get f (Z.of_nat i * PGSIZE) /\
     (pg_is_used e' = true -> pg_va pg <> pg_va e')) ->
  (pg_is_used e' = true -> pg_pgdir e' = pp_pgdir p /\ upage (pg_va e') /\
     paged m' (pp_pgdir p) (pg_va e') /\
     exists fr, sw_get f' (Z.of_nat j * PGSIZE) = Some fr /\ frame_words fr) ->
  (forall va v, upage va -> pte_at m' (pp_pgdir p) va = Some v ->
     has v PTE_P = false -> has v PTE_PG = true ->
     0 <= v < PGSIZE /\
     ((pg_is_used e' = true /\ pg_va e' = va) \/
      exists i pg, i <> j /\ pp_file_pages p !! i = Some pg /\ pg_is_used pg = true /\ pg_va pg = va)) ->
  slots_inv p' f' m'.
Proof.
  intros [L1 L2 Hm Hmi Hf Hfi Hpg] Hk Hj Epd Em Ef H1 H2 H3 H4 H5.
  assert (forall i pg, pp_memory_pages p' !! i = Some pg ->
    (i = k /\ pg = e) \/ (i <> k /\ pp_memory_pages p !! i = Some pg)) as Cm.
  { intros i pg. rewrite Em. destruct (decide (k = i)) as [<-|].
    - rewrite list_lookup_insert_eq by lia. intros [= <-]. by left.
    - rewrite list_lookup_insert_ne by done. right. auto. }
  assert (forall i pg, pp_file_pages p' !! i = Some pg ->
    (i = j /\ pg = e') \/ (i <> j /\ pp_file_pages p !! i = Some pg)) as Cf.
  { intros i pg. rewrite Ef. destruct (decide (j = i)) as [<-|].
    - rewrite list_lookup_insert_eq by lia. intros [= <-]. by left.
    - rewrite list_lookup_insert_ne by done. right. auto. }
  split; rewrite ?Epd.
  - by rewrite Em, length_insert.
  - by rewrite Ef, length_insert.
  - intros i pg [[-> ->]|[Hne Hi]]%Cm Hu; [by apply H2|].
    destruct (Hm i pg Hi Hu) as (? & ? & x & Hx). split_and!; try done. exists x.
    destruct (H1 i pg Hne Hi Hu) as [E _]. by apply (mapped_agree m m').
  - intros i i' pg pg' [[-> ->]|[Hne Hi]]%Cm Hu [[-> ->]|[Hne' Hi']]%Cm Hu' E; [done|..].
    + by destruct (H1 i' pg' Hne' Hi' Hu') as [_ []].
    + by destruct (H1 i pg Hne Hi Hu) as [_ []].
    + by eapply Hmi.
  - intros i pg [[-> ->]|[Hne Hi]]%Cf Hu; [by apply H4|].
    destruct (Hf i pg Hi Hu) as (? & ? & Hp & ?). destruct (H3 i pg Hne Hi Hu) as (E & -> & _).
    split_and!; try done. unfold paged. by rewrite E.
  - intros i i' pg pg' [[-> ->]|[Hne Hi]]%Cf Hu [[-> ->]|[Hne' Hi']]%Cf Hu' E; [done|..].
    + by destruct (H3 i' pg' Hne' Hi' Hu') as (_ & _ & []).
    + by destruct (H3 i pg Hne Hi Hu) as (_ & _ & []).
    + by eapply Hfi.
  - intros va v Hva Hv Hp Hg. destruct (H5 va v Hva Hv Hp Hg) as [Hsm Hc]. split; [done|].
    destruct Hc as [[Hu <-]|(i & pg & Hne & Hi & Hu & E)].
    + exists j, e'. rewrite Ef, list_lookup_insert_eq by lia. done.
    + exists i, pg. rewrite Ef, list_lookup_insert_ne by done. done.
Qed.

(** One present page got another frame or other flags. *)
Lemma slots_remap (p : pproc) (f : F) (m m' : memory) u x x' : slots_inv p f m -> upage u ->
  mapped m (pp_pgdir p) u x -> mapped m' (pp_pgdir p) u x' ->
  (forall vb, upage vb -> vb <> u -> pte_at m' (pp_pgdir p) vb = pte_at m (pp_pgdir p) vb) ->
  slots_inv p f m'.
Proof.
  intros [L1 L2 Hm Hmi Hf Hfi Hpg] Hu Hx Hx' Hrest. split; try done.
  - intros i pg Hi Hused. destruct (Hm i pg Hi Hused) as (? & Hup & y & Hy).
    split; [done|]. split; [done|].
    destruct (decide (pg_va pg = u)) as [->|Hne]; [by exists x'|]. exists y.
    by apply (mapped_agree m m'); [apply Hrest|].
  - intros i pg Hi Hused. destruct (Hf i pg Hi Hused) as (? & Hup & Hpd & ?).
    split; [done|]. split; [done|]. split; [|done].
    unfold paged. rewrite Hrest; [done|done|]. intros E. rewrite E in Hpd.
    destruct Hx as (v & Hv & Hp & _), Hpd as (v' & Hv' & Hp' & _). congruence.
  - intros va v Hva Hv Hp Hg. destruct (decide (va = u)) as [->|Hne].
    + destruct Hx' as (w & Hw & Hp' & _). congruence.
    + rewrite Hrest in Hv by done. by apply Hpg.
Qed.

(** One resident entry replaced, the file left alone. *)
Lemma slots_insert_mem (p p' : pproc) (f : F) (m m' : memory) (k : nat) (e : page) :
  slots_inv p f m -> (k < 16)%nat -> pp_pgdir p' = pp_pgdir p ->
  pp_memory_pages p' = <[k := e]> (pp_memory_pages p) -> pp_file_pages p' = pp_file_pages p ->
  (forall i pg, i <> k -> pp_memory_pages p !! i = Some pg -> pg_is_used pg = true ->
     (exists x, mapped m' (pp_pgdir p) (pg_va pg) x) /\ (pg_is_used e = true -> pg_va pg <> pg_va e)) ->
  (pg_is_used e = true -> pg_pgdir e = pp_pgdir p /\ upage (pg_va e) /\
     exists x, mapped m' (pp_pgdir p) (pg_va e) x) ->
  (forall va v, upage va -> has v PTE_P = false -> has v PTE_PG = true ->
     pte_at m' (pp_pgdir p) va = Some v <-> pte_at m (pp_pgdir p) va = Some v) ->
  slots_inv p' f m'.
Proof.
  intros [L1 L2 Hm Hmi Hf Hfi Hpg] Hk Epd Em Ef H1 H2 H3.
  assert (forall i pg, pp_memory_pages p' !! i = Some pg ->
    (i = k /\ pg = e) \/ (i <> k /\ pp_memory_pages p !! i = Some pg)) as Cm.
  { intros i pg. rewrite Em. destruct (decide (k = i)) as [<-|].
    - rewrite list_lookup_insert_eq by lia. intros [= <-]. by left.
    - rewrite list_lookup_insert_ne by done. right. auto. }
  split; rewrite ?Epd, ?Ef; try done.
  - by rewrite Em, length_insert.
  - intros i pg [[-> ->]|[Hne Hi]]%Cm Hu; [by apply H2|].
    destruct (Hm i pg Hi Hu) as (? & ? & _). split; [done|]. split; [done|]. by apply (H1 i).
  - intros i i' pg pg' [[-> ->]|[Hne Hi]]%Cm Hu [[-> ->]|[Hne' Hi']]%Cm Hu' E; [done|..].
    + by destruct (H1 i' pg' Hne' Hi' Hu') as [_ []].
    + by destruct (H1 i pg Hne Hi Hu) as [_ []].
    + by eapply Hmi.
  - intros i pg Hi Hu. destruct (Hf i pg Hi Hu) as (? & ? & (v & Hv & Hp & Hg) & ?).
    split; [done|]. split; [done|]. split; [|done]. exists v. split; [by apply H3|done].
  - intros va v Hva Hv Hp Hg. apply Hpg; try done. by apply H3.
Qed.
End vminv.
