(* ===== verification/Replacement.v ===== *)
(** * Page replacement

    What each policy of [next_i_in_mem_to_remove] chooses.  NFUA and LAPA are
    minimum searches; SCFIFO, a loop that moves accessed pages to the back of
    the queue, is shown equal to the second-chance rule; NFUA can search for
    ever. *)

From S2P Require Import Prelude Mmu Memory Kalloc PageTable Vm Paging VmInv.

(** [k] is the first of the entries satisfying [P] with the least key. *)
Definition least (key : page -> Z) (P : page -> bool) (l : list page) (k : nat) : Prop :=
  exists pg, l !! k = Some pg /\ P pg = true /\
    forall j pg', l !! j = Some pg' -> P pg' = true ->
      key pg <= key pg' /\ ((j < k)%nat -> key pg < key pg').

Lemma min_loop_spec key l i next_i min :
  (min_loop key i l next_i min = next_i /\
   forall j pg, l !! j = Some pg -> pg_is_used pg = true -> min <= key pg) \/
  (exists k, min_loop key i l next_i min = i + Z.of_nat k /\ least key pg_is_used l k /\
     exists pg, l !! k = Some pg /\ key pg < min).
Proof.
  revert i next_i min. induction l as [|pg l IH]; intros i next_i min; simpl.
  { left. split; [done|]. by intros j pg Hj. }
  destruct (pg_is_used pg) eqn:Hu; [destruct (Z.ltb_spec (key pg) min) as [Hlt|Hge]|]; simpl.
  - right. destruct (IH (i + 1) i (key pg)) as [[-> Hall]|(k & -> & (pk & Hk & Huk & Hmin) & pk' & Hk' & Hlt')].
    + exists 0%nat. split; [lia|]. split; [|by exists pg]. exists pg. split_and!; try done.
      intros [|j] pg' Hj Hu'; simpl in Hj; [simplify_eq; split; lia|].
      specialize (Hall j pg' Hj Hu'). split; lia.
    + rewrite Hk in Hk'. injection Hk' as <-. exists (S k). split; [lia|]. split.
      * exists pk. split_and!; try done. intros [|j] pg' Hj Hu'; simpl in Hj; [simplify_eq; split; lia|].
        destruct (Hmin j pg' Hj Hu'). split; [done|]. intros. lia.
      * exists pk. split; [done|lia].
  - destruct (IH (i + 1) next_i min) as [[-> Hall]|(k & -> & (pk & Hk & Huk & Hmin) & pk' & Hk' & Hlt')].
    + left. split; [done|]. intros [|j] pg' Hj Hu'; simpl in Hj; [by simplify_eq|eauto].
    + rewrite Hk in Hk'. injection Hk' as <-. right. exists (S k). split; [lia|]. split.
      * exists pk. split_and!; try done. intros [|j] pg' Hj Hu'; simpl in Hj; [simplify_eq; split; lia|].
        destruct (Hmin j pg' Hj Hu'). split; [done|]. intros. lia.
      * by exists pk.
  - destruct (IH (i + 1) next_i min) as [[-> Hall]|(k & -> & (pk & Hk & Huk & Hmin) & Hlt')].
    + left. split; [done|]. intros [|j] pg' Hj Hu'; simpl in Hj; [congruence|eauto].
    + right. exists (S k). split; [lia|]. split; [|done].
      exists pk. split_and!; try done. intros [|j] pg' Hj Hu'; simpl in Hj; [congruence|].
      destruct (Hmin j pg' Hj Hu'). split; [done|]. intros. lia.
Qed.

(** ** LAPA: fewest ones, then least age *)

(** Number of one bits among the low 32. *)
Definition popcount (age : Z) : Z :=
  Z.of_nat (length (filter (fun j => Z.testbit age (Z.of_nat j)) (seq 0 32))).

Lemma count_ones_spec n j age :
  Z.of_nat (j + n) <= 32 ->
  count_ones n (Z.of_nat j) age =
    Z.of_nat (length (filter (fun k => Z.testbit age (Z.of_nat k)) (seq j n))).
Proof.
  revert j. induction n as [|n IH]; intros j Hj; simpl; [done|].
  replace (Z.of_nat j + 1) with (Z.of_nat (S j)) by lia. rewrite IH by lia.
  assert (u32 (Z.shiftl 1 (Z.of_nat j)) = 2 ^ Z.of_nat j) as ->.
  { rewrite Z.shiftl_1_l. apply u32_small. split; [lia|]. unfold two32.
    change 4294967296 with (2 ^ 32). apply Z.pow_lt_mono_r; lia. }
  rewrite has_pow2 by lia. rewrite filter_cons.
  destruct (Z.testbit age (Z.of_nat j)); simpl; lia.
Qed.

Lemma ones_popcount age : ones age = popcount age.
Proof. unfold ones. apply (count_ones_spec 32 0). lia. Qed.

Lemma popcount_range age : 0 <= popcount age <= 32.
Proof.
  unfold popcount. pose proof (length_filter (fun j => Z.testbit age (Z.of_nat j)) (seq 0 32)) as H.
  rewrite length_seq in H. lia.
Qed.

(** The order LAPA searches by. *)
Definition lapa_key (pg : page) : Z := popcount (pg_age pg) * two32 + pg_age pg.

(** The two-level comparison of [LAPA_next] is one minimum search. *)
Lemma LAPA_min_loop l i next_i mo ma :
  (forall j pg, l !! j = Some pg -> is_u32 (pg_age pg)) -> is_u32 ma ->
  LAPA_loop i l next_i mo ma = min_loop lapa_key i l next_i (mo * two32 + ma).
Proof.
  revert i next_i mo ma. induction l as [|pg l IH]; intros i next_i mo ma Hr Hma; simpl; [done|].
  assert (is_u32 (pg_age pg)) as Hpg by (by apply (Hr 0%nat)).
  assert (forall j pg', l !! j = Some pg' -> is_u32 (pg_age pg')) as Hr' by (intros j; apply (Hr (S j))).
  destruct (pg_is_used pg); simpl; [|by apply IH]. rewrite ones_popcount.
  change (lapa_key pg) with (popcount (pg_age pg) * two32 + pg_age pg).
  assert (two32 = 4294967296) as E2 by done. unfold is_u32 in Hpg, Hma.
  destruct (Z.ltb_spec (popcount (pg_age pg)) mo).
  { rewrite (proj2 (Z.ltb_lt _ _)) by nia. by apply IH. }
  destruct (Z.eqb_spec (popcount (pg_age pg)) mo) as [E|Hne]; simpl.
  - destruct (Z.ltb_spec (pg_age pg) ma).
    + rewrite (proj2 (Z.ltb_lt _ _)) by nia. by apply IH.
    + rewrite (proj2 (Z.ltb_ge _ _)) by nia. by apply IH.
  - rewrite (proj2 (Z.ltb_ge _ _)) by nia. by apply IH.
Qed.

Lemma NFUA_next_cases l : (forall j pg, l !! j = Some pg -> is_u32 (pg_age pg)) ->
  (NFUA_next l = -1 /\ forall j pg, l !! j = Some pg -> pg_is_used pg = true -> pg_age pg = MAX_UINT) \/
  (exists k, NFUA_next l = Z.of_nat k /\ least pg_age pg_is_used l k).
Proof.
  intros Hr. destruct (min_loop_spec pg_age l 0 (-1) MAX_UINT) as [[E Hall]|(k & E & Hl & _)].
  - left. split; [done|]. intros j pg Hj Hu. specialize (Hall j pg Hj Hu).
    specialize (Hr j pg Hj). unfold is_u32, two32, MAX_UINT in *. lia.
  - right. exists k. done.
Qed.

Lemma LAPA_next_cases l : (forall j pg, l !! j = Some pg -> is_u32 (pg_age pg)) ->
  (LAPA_next l = -1 /\ forall j pg, l !! j = Some pg -> pg_is_used pg = false) \/
  (exists k, LAPA_next l = Z.of_nat k /\ least lapa_key pg_is_used l k).
Proof.
  intros Hr. unfold LAPA_next. rewrite LAPA_min_loop by done.
  destruct (min_loop_spec lapa_key l 0 (-1) ((BITS_IN_UINT + 10) * two32 + MAX_UINT))
    as [[E Hall]|(k & E & Hl & _)].
  - left. split; [done|]. intros j pg Hj. destruct (pg_is_used pg) eqn:Hu; [|done].
    specialize (Hall j pg Hj Hu). specialize (Hr j pg Hj). unfold lapa_key in Hall.
    pose proof (popcount_range (pg_age pg)). unfold is_u32, two32, MAX_UINT, BITS_IN_UINT in *. lia.
  - right. exists k. done.
Qed.

(** ** SCFIFO: the second-chance rule *)

Definition unused_lately (acc : page -> bool) (pg : page) : bool := pg_is_used pg && negb (acc pg).

(** The oldest resident page not accessed since it was last looked at, and
    the oldest of all when every one was accessed. *)
Definition second_chance (acc : page -> bool) (l : list page) (k : nat) : Prop :=
  least pg_time_loaded (unused_lately acc) l k \/
  ((forall j pg, l !! j = Some pg -> pg_is_used pg = true -> acc pg = true) /\
   least pg_time_loaded pg_is_used l k).

Definition accessed (m : memory) (pgdir : Z) (pg : page) : bool :=
  match pte_at m pgdir (pg_va pg) with Some v => has v PTE_A | None => false end.

(** Giving the oldest page its second chance does not change who is chosen. *)
Lemma second_chance_step acc acc' l o pg t k :
  least pg_time_loaded pg_is_used l o -> l !! o = Some pg -> acc pg = true ->
  (forall j pg', l !! j = Some pg' -> pg_is_used pg' = true -> pg_time_loaded pg' < t) ->
  (forall j pg', l !! j = Some pg' -> pg_is_used pg' = true -> j <> o -> acc' pg' = acc pg') ->
  acc' (set_time t pg) = false ->
  second_chance acc' (<[o := set_time t pg]> l) k -> second_chance acc l k.
Proof.
  intros (pg0 & Ho & Hu & Hmin) Ho' Hacc Ht Hsame Hnew.
  rewrite Ho in Ho'. injection Ho' as ->.
  assert ((o < length l)%nat) as Hlt by (by eapply lookup_lt_Some).
  assert (forall j pg', <[o := set_time t pg]> l !! j = Some pg' ->
    (j = o /\ pg' = set_time t pg) \/ (j <> o /\ l !! j = Some pg')) as Hins.
  { intros j pg'. destruct (decide (o = j)) as [<-|Hne].
    - rewrite list_lookup_insert_eq by done. intros [= <-]. by left.
    - rewrite list_lookup_insert_ne by done. right. auto. }
  assert (<[o := set_time t pg]> l !! o = Some (set_time t pg)) as Hat
    by (by rewrite list_lookup_insert_eq).
  assert (unused_lately acc' (set_time t pg) = true) as Hnew'.
  { unfold unused_lately. rewrite Hnew. simpl. by rewrite Hu. }
  assert (forall j pg', j <> o -> l !! j = Some pg' -> unused_lately acc pg' = true ->
     <[o := set_time t pg]> l !! j = Some pg' /\ unused_lately acc' pg' = true /\
     pg_time_loaded pg' < t) as Hold.
  { intros j pg' Hne Hj Hul. rewrite list_lookup_insert_ne by done.
    apply andb_true_iff in Hul as [Hu' Ha]. split_and!; [done| |by eapply Ht].
    unfold unused_lately. rewrite Hu'. by rewrite (Hsame j). }
  intros [(pk & Hk & Hck & Hkmin)|[Hall _]].
  2: { exfalso. specialize (Hall o _ Hat Hu). congruence. }
  destruct (Hins k pk Hk) as [[-> ->]|[Hne Hk']].
  - (* the oldest itself: every page was accessed *)
    right. split; [|by exists pg].
    intros j pg' Hj Hu'. destruct (acc pg') eqn:Ha; [done|exfalso].
    assert (j <> o) as Hjo by congruence.
    destruct (Hold j pg' Hjo Hj) as (Hj' & Hc' & Hlt'); [by unfold unused_lately; rewrite Hu', Ha|].
    destruct (Hkmin j pg' Hj' Hc') as [Hle _]. simpl in Hle. lia.
  - left. exists pk. split; [done|].
    assert (acc pk = false) as Hak.
    { apply andb_true_iff in Hck as [Hu' Ha]. apply negb_true_iff in Ha.
      by rewrite <- (Hsame k pk Hk' Hu' Hne). }
    apply andb_true_iff in Hck as [Hu' _]. split; [by unfold unused_lately; rewrite Hu', Hak|].
    intros j pg' Hj Hc. assert (j <> o) as Hjo.
    { intros ->. rewrite Ho in Hj. injection Hj as <-. unfold unused_lately in Hc.
      rewrite Hacc, andb_false_r in Hc. done. }
    destruct (Hold j pg' Hjo Hj Hc) as (Hj' & Hc' & _). by apply Hkmin.
Qed.

Lemma filter_insert_lt {A} (P P' : A -> bool) (l : list A) o x y :
  l !! o = Some x -> P x = true -> P' y = false ->
  (forall j z, l !! j = Some z -> j <> o -> P' z = true -> P z = true) ->
  (length (filter P' (<[o := y]> l)) < length (filter P l))%nat.
Proof.
  revert o. induction l as [|a l IH]; intros o Ho Hx Hy Hle; [done|].
  assert (forall l', (forall j z, l' !! j = Some z -> P' z = true -> P z = true) ->
     (length (filter P' l') <= length (filter P l'))%nat) as Hmono.
  { clear. induction l' as [|b l' IH]; intros Hle; [done|]. rewrite !filter_cons.
    assert (length (filter P' l') <= length (filter P l'))%nat by (apply IH; intros j; apply (Hle (S j))).
    specialize (Hle 0%nat b eq_refl). destruct (P' b), (P b); simpl; lia. }
  destruct o as [|o]; simpl in Ho |- *; rewrite !filter_cons.
  - injection Ho as ->. rewrite Hx, Hy. simpl.
    assert (length (filter P' l) <= length (filter P l))%nat; [|lia].
    apply Hmono. intros j z Hj. apply (Hle (S j)); [done|lia].
  - assert (length (filter P' (<[o := y]> l)) < length (filter P l))%nat as Hlt.
    { eapply IH; eauto. intros j z Hj Hne. apply (Hle (S j)); [done|lia]. }
    specialize (Hle 0%nat a eq_refl ltac:(lia)). destruct (P' a), (P a); simpl; lia.
Qed.

Section replacement.
Context {F : Type} `{SwapFile F}.
Context (end_ : Z) (end_high : KERNBASE <= end_).
Implicit Types st : vm F.

(** Load times lie in the past, and the clock is [n] ticks from its end. *)
Definition fresh_times (p : pproc) (n : nat) : Prop :=
  (forall i pg, pp_memory_pages p !! i = Some pg -> pg_is_used pg = true ->
     pg_time_loaded pg < pp_timestamp p) /\
  0 <= pp_timestamp p /\ pp_timestamp p + Z.of_nat n < MAX_UINT.

Definition acc_of st : page -> bool := accessed (m_mem (v_mach st)) (pp_pgdir (v_p st)).

Definition acc_count st : nat :=
  length (filter (fun pg => pg_is_used pg && acc_of st pg) (pp_memory_pages (v_p st))).

Definition resident st : Prop :=
  exists i pg, pp_memory_pages (v_p st) !! i = Some pg /\ pg_is_used pg = true.

(** The state after the page in slot [o] got its second chance. *)
Definition second_chance_post st (o : nat) (pg : page) (v : Z) : vm F :=
  let st1 := set_mach (pte_set (v_mach st) (pp_pgdir (v_p st)) (pg_va pg) (clear_bits v PTE_A)) st in
  set_p (inc_timestamp (set_memory_pages
           (<[o := set_time (pp_timestamp (v_p st)) pg]> (pp_memory_pages (v_p st))) (v_p st))) st1.

Lemma SCFIFO_next_run st l n : vm_inv end_ st l -> resident st -> fresh_times (v_p st) n ->
  exists o pg v, least pg_time_loaded pg_is_used (pp_memory_pages (v_p st)) o /\
    pp_memory_pages (v_p st) !! o = Some pg /\
    pte_at (m_mem (v_mach st)) (pp_pgdir (v_p st)) (pg_va pg) = Some v /\
    SCFIFO_next st = if has v PTE_A then Ok (-1) (second_chance_post st o pg v)
                     else Ok (Z.of_nat o) st.
Proof.
  intros Hi (i & pgi & Hpi & Hui) (Ht & Ht0 & Hmax).
  destruct (min_loop_spec pg_time_loaded (pp_memory_pages (v_p st)) 0 (-1) MAX_UINT)
    as [[E Hall]|(o & E & Hl & _)].
  { specialize (Hall i pgi Hpi Hui). specialize (Ht i pgi Hpi Hui). lia. }
  pose proof Hl as (pg & Ho & Hu & _).
  destruct (resident_pte end_ st l o pg Hi Ho Hu) as (Epd & Hup & v & Hv & Hvu & _ & _).
  exists o, pg, v. split_and!; try done.
  destruct (walk_Ok end_ end_high st (pp_pgdir (v_p st)) (pg_va pg) v) as (a & Hw & Ha0 & Hld & Hst);
    [eapply as_wf, Hi|auto|done|].
  unfold SCFIFO_next, myproc. erewrite Ok_bind by reflexivity. rewrite E, Z.add_0_l.
  rewrite (proj2 (Z.eqb_neq _ _)) by lia.
  rewrite (Ok_bind _ _ _ _ _ (mem_page_Ok st o pg Ho)), Epd.
  rewrite (Ok_bind _ _ _ _ _ Hw), Ha0, (Ok_bind _ _ _ _ _ Hld).
  destruct (has v PTE_A); [|done].
  rewrite (Ok_bind _ _ _ _ _ (Hst _)).
  erewrite (Ok_bind (upd_mem_page _ _)) by (apply upd_mem_page_Ok; exact Ho).
  done.
Qed.

Lemma second_chance_post_inv st l n o pg v : vm_inv end_ st l -> fresh_times (v_p st) (S n) ->
  pp_memory_pages (v_p st) !! o = Some pg -> pg_is_used pg = true ->
  pte_at (m_mem (v_mach st)) (pp_pgdir (v_p st)) (pg_va pg) = Some v ->
  let st' := second_chance_post st o pg v in
  quiet st st' /\ vm_inv end_ st' l /\ fresh_times (v_p st') n /\
  (forall pg', upage (pg_va pg') ->
     acc_of st' pg' = if decide (pg_va pg = pg_va pg') then false else acc_of st pg').
Proof.
  intros Hi (Ht & Ht0 & Hmax) Ho Hu Hv st'.
  destruct (resident_pte end_ st l o pg Hi Ho Hu) as (_ & Hup & v' & Hv' & Hvu & _ & _).
  rewrite Hv in Hv'. injection Hv' as <-.
  destruct (quiet_pte_set end_ st l (pg_va pg) v (clear_bits v PTE_A)) as [Hq1 Hi1];
    [done..|auto with kern|by apply same_page_clear|].
  set (st1 := set_mach _ st) in Hq1, Hi1.
  destruct (quiet_set_p end_ st1 l (v_p st')) as [Hq2 Hi2]; [done..| |].
  { by eapply same_resident_insert. }
  split; [by eapply quiet_trans|]. split; [done|]. split.
  - assert (u32 (pp_timestamp (v_p st) + 1) = pp_timestamp (v_p st) + 1) as E.
    { apply u32_small. unfold is_u32, two32, MAX_UINT in *. lia. }
    split; [|simpl; rewrite E; lia]. cbn [v_p st' second_chance_post set_p pp_memory_pages pp_timestamp
      inc_timestamp set_memory_pages]. rewrite E. intros i pgi. destruct (decide (o = i)) as [<-|Hne].
    + rewrite list_lookup_insert_eq by (by eapply lookup_lt_Some). intros [= <-] _. simpl. lia.
    + rewrite list_lookup_insert_ne by done. intros Hpi Hui. specialize (Ht i pgi Hpi Hui). lia.
  - intros pg' Hup'. unfold acc_of, accessed. cbn [v_mach v_p st' second_chance_post set_p set_mach pp_pgdir
      inc_timestamp set_memory_pages].
    rewrite (pte_set_at end_ _ _ _ _ _ v); [|eapply as_wf, Hi|auto|auto|done].
    rewrite !upage_round by done. case_decide; [|done]. by apply has_clear_same.
Qed.

Lemma SCFIFO_loop n st l : vm_inv end_ st l -> resident st -> (acc_count st <= n)%nat ->
  fresh_times (v_p st) n ->
  exists k st' pg, do_while_none (S n) SCFIFO_next st = Ok (Z.of_nat k) st' /\
    quiet st st' /\ vm_inv end_ st' l /\
    pp_memory_pages (v_p st') !! k = Some pg /\ pg_is_used pg = true /\ acc_of st' pg = false /\
    same_resident (pp_memory_pages (v_p st)) (pp_memory_pages (v_p st')) /\
    pg_is_used <$> pp_memory_pages (v_p st') = pg_is_used <$> pp_memory_pages (v_p st) /\
    second_chance (acc_of st) (pp_memory_pages (v_p st)) k.
Proof.
  assert (forall st o pg v, vm_inv end_ st l ->
    least pg_time_loaded pg_is_used (pp_memory_pages (v_p st)) o ->
    pp_memory_pages (v_p st) !! o = Some pg ->
    pte_at (m_mem (v_mach st)) (pp_pgdir (v_p st)) (pg_va pg) = Some v ->
    pg_is_used pg = true /\ acc_of st pg = has v PTE_A /\
    (has v PTE_A = false -> second_chance (acc_of st) (pp_memory_pages (v_p st)) o)) as Hfacts.
  { clear. intros st o pg v Hi Hl Ho Hv. pose proof Hl as (pg' & Ho' & Hu & Hmin).
    rewrite Ho in Ho'. injection Ho' as <-.
    assert (acc_of st pg = has v PTE_A) as Hacc by (unfold acc_of, accessed; by rewrite Hv).
    split_and!; [done|done|]. intros HA. left. exists pg. split; [done|].
    split; [unfold unused_lately; by rewrite Hu, Hacc, HA|].
    intros j pg' Hj [Hu' _]%andb_true_iff. by apply Hmin. }
  revert st. induction n as [|n IH]; intros st Hi Hres Hcnt Hft;
    destruct (SCFIFO_next_run st l _ Hi Hres Hft) as (o & pg & v & Hl & Ho & Hv & Hrun);
    destruct (Hfacts st o pg v Hi Hl Ho Hv) as (Hu & Hacc & Hsc);
    cbn [do_while_none]; unfold mbind at 1, M_bind, bindM; rewrite Hrun;
    destruct (has v PTE_A) eqn:HA.
  - exfalso. unfold acc_count in Hcnt.
    assert (pg ∈ filter (fun pg => pg_is_used pg && acc_of st pg) (pp_memory_pages (v_p st))) as Hin.
    { apply list_elem_of_filter. rewrite Hu, Hacc. split; [done|]. by eapply list_elem_of_lookup_2. }
    destruct (filter _ _); [by apply elem_of_nil in Hin|simpl in Hcnt; lia].
  - exists o, st, pg. rewrite (proj2 (Z.eqb_neq _ _)) by lia.
    split_and!; try done; [apply quiet_refl|apply same_resident_refl|by apply Hsc].
  - destruct (second_chance_post_inv st l n o pg v Hi Hft Ho Hu Hv) as (Hq & Hi' & Hft' & Hacc').
    set (st' := second_chance_post st o pg v) in *.
    assert (forall j pg', pp_memory_pages (v_p st) !! j = Some pg' -> pg_is_used pg' = true -> j <> o ->
              acc_of st' pg' = acc_of st pg') as Hother.
    { intros j pg' Hj Hu' Hne. destruct (resident_pte end_ st l j pg' Hi Hj Hu') as (_ & Hup' & _).
      rewrite Hacc' by done. rewrite decide_False; [done|]. intros E. apply Hne.
      by apply (sl_mem_inj _ _ _ (vi_slots _ _ _ Hi) j o pg' pg). }
    assert (acc_of st' (set_time (pp_timestamp (v_p st)) pg) = false) as Hnew.
    { rewrite Hacc'; [by rewrite decide_True|].
      by destruct (resident_pte end_ st l o pg Hi Ho Hu) as (_ & ? & _). }
    destruct (IH st') as (k & st2 & pk & Hr2 & Hq2 & Hi2 & Hk2 & Hu2 & Ha2 & Hres2 & Hus2 & Hsc2).
    + done.
    + exists o, (set_time (pp_timestamp (v_p st)) pg). split; [|done]. simpl.
      by rewrite list_lookup_insert_eq by (by eapply lookup_lt_Some).
    + assert (acc_count st' < acc_count st)%nat; [|lia].
      apply (filter_insert_lt _ _ _ o pg); [done|by rewrite Hu, Hacc|by rewrite Hnew, andb_false_r|].
      intros j z Hj Hne [Hz Hza]%andb_true_iff. rewrite Hz. simpl. by rewrite <- (Hother j).
    + done.
    + exists k, st2, pk. split_and!; try done.
      * by eapply quiet_trans.
      * apply (same_resident_trans _ (pp_memory_pages (v_p st'))); [by eapply same_resident_insert|done].
      * rewrite Hus2. simpl. rewrite list_fmap_insert. simpl. apply list_insert_id.
        by rewrite list_lookup_fmap, Ho.
      * destruct Hft as [Ht _]. eapply (second_chance_step _ (acc_of st')); eauto.
  - exists o, st, pg. rewrite (proj2 (Z.eqb_neq _ _)) by lia.
    split_and!; try done; [apply quiet_refl|apply same_resident_refl|by apply Hsc].
Qed.

(** ** Choosing a victim when memory is full *)

Definition full st : Prop := Forall (fun pg => pg_is_used pg = true) (pp_memory_pages (v_p st)).

(** What each policy needs to come to a decision. *)
Definition policy_ready (pol : policy) (p : pproc) : Prop :=
  match pol with
  | NFUA => (forall i pg, pp_memory_pages p !! i = Some pg -> is_u32 (pg_age pg)) /\
            exists i pg, pp_memory_pages p !! i = Some pg /\ pg_age pg <> MAX_UINT
  | LAPA => forall i pg, pp_memory_pages p !! i = Some pg -> is_u32 (pg_age pg)
  | SCFIFO => fresh_times p 16
  | AQ | RROBIN => True
  | NONE => False
  end.

Definition victim_ok st st' (l : list Z) (k : nat) : Prop :=
  quiet st st' /\ vm_inv end_ st' l /\ full st' /\ (k < 16)%nat /\
  same_resident (pp_memory_pages (v_p st)) (pp_memory_pages (v_p st')).

Lemma victim_here st l k : vm_inv end_ st l -> full st -> (k < 16)%nat -> victim_ok st st l k.
Proof. intros. split_and!; try done; [apply quiet_refl|apply same_resident_refl]. Qed.

Lemma least_lt key P l k : least key P l k -> (k < length l)%nat.
Proof. intros (pg & Hk & _). by eapply lookup_lt_Some. Qed.

Lemma do_while_once n step st k st' : step st = Ok (Z.of_nat k) st' ->
  do_while_none (S n) step st = Ok (Z.of_nat k) (st' : vm F).
Proof.
  intros E. cbn [do_while_none]. rewrite (Ok_bind _ _ _ _ _ E).
  by rewrite (proj2 (Z.eqb_neq _ _)) by lia.
Qed.

Lemma full_first st l : vm_inv end_ st l -> full st ->
  exists pg, pp_memory_pages (v_p st) !! 0%nat = Some pg /\ pg_is_used pg = true.
Proof.
  intros Hi Hf. pose proof (sl_mem_len _ _ _ (vi_slots _ _ _ Hi)) as Hlen.
  unfold full in Hf. destruct (pp_memory_pages (v_p st)) as [|pg mem]; [done|].
  apply Forall_cons in Hf as [? _]. by exists pg.
Qed.

Lemma choose_victim pol st l : vm_inv end_ st l -> full st -> policy_ready pol (v_p st) ->
  exists k st', next_i_in_mem_to_remove pol victim_fuel st = Ok (Z.of_nat k) st' /\ victim_ok st st' l k.
Proof.
  intros Hi Hf Hr. pose proof (sl_mem_len _ _ _ (vi_slots _ _ _ Hi)) as Hlen.
  destruct (full_first st l Hi Hf) as (pg0 & H0 & Hu0).
  destruct pol; simpl in Hr; [| | | | |done]; unfold next_i_in_mem_to_remove, victim_fuel.
  - destruct Hr as [Hages (i & pg & Hpi & Hne)].
    destruct (NFUA_next_cases (pp_memory_pages (v_p st)) Hages) as [[_ Hall]|(k & E & Hl)].
    { destruct Hne. apply (Hall i pg Hpi). by eapply (Forall_lookup_1 _ _ _ _ Hf). }
    exists k, st. split; [apply do_while_once; unfold myproc, mret, M_ret; simpl; by rewrite <- E|].
    apply victim_here; try done. apply least_lt in Hl. lia.
  - destruct (LAPA_next_cases (pp_memory_pages (v_p st)) Hr) as [[_ Hall]|(k & E & Hl)].
    { specialize (Hall _ _ H0). congruence. }
    exists k, st. split; [apply do_while_once; unfold myproc, mret, M_ret; simpl; by rewrite <- E|].
    apply victim_here; try done. apply least_lt in Hl. lia.
  - destruct (SCFIFO_loop 16 st l) as (k & st' & pg & E & Hq & Hi' & Hk & _ & _ & Hres & Hus & _); try done.
    { by exists 0%nat, pg0. }
    { unfold acc_count. etrans; [apply length_filter|]. lia. }
    pose proof (sl_mem_len _ _ _ (vi_slots _ _ _ Hi')) as Hlen'.
    exists k, st'. split; [done|]. split_and!; try done.
    + unfold full in *. rewrite <- (Forall_fmap pg_is_used (fun b => b = true)) in Hf |- *.
      by rewrite Hus.
    + apply lookup_lt_Some in Hk. lia.
  - exists 0%nat. eexists. split; [apply do_while_once; reflexivity|].
    destruct (quiet_set_p end_ st l (set_memory_pages (rotate (pp_memory_pages (v_p st))) (v_p st)))
      as [Hq Hi']; [done..|apply same_resident_rotate|].
    split_and!; try done; [|lia|apply same_resident_rotate]. unfold full in *. simpl. unfold rotate.
    destruct (last _) as [x|] eqn:El; [|constructor]. apply last_Some in El as [mem0 E].
    rewrite E in Hf |- *. apply Forall_app in Hf as [Hf1 Hf2]. rewrite removelast_last.
    apply Forall_cons in Hf2 as [Hx _]. by apply Forall_cons.
  - set (r := pp_r_robin (inc_r_robin (v_p st)) mod MAX_PSYC_PAGES).
    assert (0 <= r < 16) as Hr' by (by apply Z.mod_pos_bound).
    exists (Z.to_nat r). eexists. split.
    { apply do_while_once. rewrite Z2Nat.id by lia. reflexivity. }
    destruct (quiet_set_p end_ st l (inc_r_robin (v_p st))) as [Hq Hi'];
      [done..|apply same_resident_refl|].
    split_and!; try done; [lia|apply same_resident_refl].
Qed.
End replacement.
