(* ===== verification/Demand.v ===== *)
(** * Paging is transparent

    [swap] and [handle_pf] move pages between frames and the swap file; the
    page a process finds at an address ([view]) never changes. *)

From S2P Require Import Prelude Mmu Memory Kalloc PageTable Vm Paging VmInv Replacement.

Section demand.
Context {F : Type} `{SwapLaws F}.
Context (end_ : Z) (end_high : KERNBASE <= end_).
Implicit Types st : vm F.

(** ** The machine side of paging out *)

(** [va] left its frame [x], which was given up. *)
Record paged_out (s s' : mach) (l l' : list Z) (pgdir va v x : Z) : Prop := {
  po_as : as_inv end_ s' l' pgdir nobody;
  po_pte : forall vb, upage vb -> pte_at (m_mem s') pgdir vb =
    if decide (va = vb) then Some (disk_pte v) else pte_at (m_mem s) pgdir vb;
  po_frame : forall fn, fn <> kframe x -> ~ pd_frame (m_mem s) pgdir fn ->
    mem_frame (m_mem s') fn = mem_frame (m_mem s) fn;
  po_list : l' = l \/ l' = x :: l;
}.

Definition only (va : Z) (u : Z) : Prop := u = va.

Lemma disk_as s l pgdir va v ex : as_inv end_ s l pgdir ex -> upage va ->
  pte_at (m_mem s) pgdir va = Some v -> (forall u, ex u -> u = va) ->
  as_inv end_ (pte_set s pgdir va (disk_pte v)) l pgdir nobody.
Proof.
  intros Has Hva Hv Hex. pose proof (as_word _ _ _ _ _ _ _ Has Hv) as Hvu.
  destruct (disk_pte_spec v Hvu) as (Hr & _ & Hp).
  eapply as_weaken; [eapply (as_pte_set end_ s l pgdir ex va v (disk_pte v)); try done|].
  - unfold PGSIZE in Hr. ulia.
  - intros E. congruence.
  - intros u [Hu Hne]. by apply Hne, Hex.
Qed.

(** [kfree] first, then the entry: the order of [swap]. *)
Lemma page_out_free_first s l pgdir va v : as_inv end_ s l pgdir nobody -> upage va ->
  pte_at (m_mem s) pgdir va = Some v -> has v PTE_P = true ->
  exists s1 s' l', kfree end_ (P2V (PTE_ADDR v)) s = Ok () s1 /\
    set_page_flags_in_disk pgdir va s1 = Ok () s' /\
    paged_out s s' l l' pgdir va v (P2V (PTE_ADDR v)).
Proof.
  intros Has Hva Hv Hp. set (x := P2V (PTE_ADDR v)).
  assert (mapped (m_mem s) pgdir va x) as Hm by (by exists v).
  assert (owned end_ s l pgdir x) as Ho by (apply (as_frames _ _ _ _ _ Has va); [done|by intros []|done]).
  assert (as_inv end_ s l pgdir (only va)) as Has1 by (eapply as_weaken; [done|by intros ? []]).
  destruct (as_kfree end_ s l pgdir (only va) x Has1 Ho)
    as (s1 & l' & Hk & Has2 & Hl & Hf & _ & Hpte).
  { intros vb Hvb Hne Hmb. apply Hne. apply (as_inj _ _ _ _ _ Has vb va x); try done; by intros []. }
  assert (pte_at (m_mem s1) pgdir va = Some v) as Hv1 by (rewrite Hpte by auto; done).
  exists s1, (pte_set s1 pgdir va (disk_pte v)), l'. split; [done|].
  split; [apply (set_page_flags_in_disk_run end_ end_high); try done; [by eapply as_wf|auto]|]. split.
  - eapply disk_as; [done..|]. by intros u.
  - intros vb Hvb. rewrite (pte_set_at end_ _ _ _ _ _ v); [|by eapply as_wf|auto|auto|done].
    rewrite !upage_round by done. case_decide; [done|]. apply Hpte. auto.
  - intros fn Hne Hnp. rewrite (pte_set_frame end_); [by apply Hf|by eapply as_wf|auto|].
    intros Hpd. apply Hnp. revert Hpd. apply (pd_frame_agree (m_mem s) (m_mem s1)).
    + eapply pd_u32, as_wf, Has.
    + eapply pd_aligned, as_wf, Has.
    + apply Hf. intros E. destruct Ho as (_ & _ & Hn & _). apply Hn. by left.
  - done.
Qed.

(** The entry first: the order of [handle_pf]. *)
Lemma page_out_disk_first s l pgdir va v : as_inv end_ s l pgdir nobody -> upage va ->
  pte_at (m_mem s) pgdir va = Some v -> has v PTE_P = true ->
  exists s1 s' l', set_page_flags_in_disk pgdir va s = Ok () s1 /\
    kfree end_ (P2V (PTE_ADDR v)) s1 = Ok () s' /\
    paged_out s s' l l' pgdir va v (P2V (PTE_ADDR v)).
Proof.
  intros Has Hva Hv Hp. set (x := P2V (PTE_ADDR v)). pose proof (as_wf _ _ _ _ _ Has) as Hwf.
  assert (mapped (m_mem s) pgdir va x) as Hm by (by exists v).
  assert (owned end_ s l pgdir x) as Ho by (apply (as_frames _ _ _ _ _ Has va); [done|by intros []|done]).
  set (s1 := pte_set s pgdir va (disk_pte v)).
  assert (as_inv end_ s1 l pgdir nobody) as Has1 by (eapply disk_as; [done..|by intros ? []]).
  pose proof (as_word _ _ _ _ _ _ _ Has Hv) as Hvu. destruct (disk_pte_spec v Hvu) as (_ & _ & Hdp).
  destruct (as_kfree end_ s1 l pgdir nobody x Has1) as (s' & l' & Hk & Has2 & Hl & Hf & _ & Hpte).
  { unfold s1. apply owned_pte_set; auto. }
  { intros vb Hvb _. unfold s1. rewrite (mapped_pte_set end_ s l pgdir nobody va vb v) by done.
    case_decide as Hd; [intros [E _]; congruence|]. intros Hmb. apply Hd.
    apply (as_inj _ _ _ _ _ Has va vb x); try done; by intros []. }
  exists s1, s', l'.
  split; [apply (set_page_flags_in_disk_run end_ end_high); auto|]. split; [done|]. split; [done|..].
  - intros vb Hvb. rewrite Hpte by auto. unfold s1.
    rewrite (pte_set_at end_ _ _ _ _ _ v) by auto. by rewrite !upage_round.
  - intros fn Hne Hnp. rewrite Hf by done. apply (pte_set_frame end_); auto.
  - done.
Qed.

(** ** Reading and writing through the current page table *)

Definition with_pte st (va v : Z) : vm F :=
  set_mach (pte_set (v_mach st) (pp_pgdir (v_p st)) va v) st.

Lemma cr3_pgdir st l : vm_inv end_ st l -> P2V (v_cr3 st) = pp_pgdir (v_p st).
Proof.
  intros Hi. rewrite (vi_cr3 _ _ _ Hi). apply P2V_V2P. eapply pd_u32, as_wf, Hi.
Qed.

Lemma user_read_page_run st va v : P2V (v_cr3 st) = pp_pgdir (v_p st) ->
  pte_at (m_mem (v_mach st)) (pp_pgdir (v_p st)) va = Some v -> has v PTE_P = true ->
  user_read_page va st = Ok (mem_frame (m_mem (v_mach st)) (kframe (P2V (PTE_ADDR v))))
                            (with_pte st va (Z.lor v PTE_A)).
Proof.
  intros E Hv Hp. unfold user_read_page. erewrite Ok_bind by reflexivity. rewrite E.
  rewrite translate_pte, Hv. simpl. rewrite Hp. unfold touch. simpl.
  unfold mbind, M_bind, bindM, onmach, zoom, modify. simpl. by rewrite Hv.
Qed.

Lemma writeToSwapFile_run st va v off : P2V (v_cr3 st) = pp_pgdir (v_p st) ->
  pte_at (m_mem (v_mach st)) (pp_pgdir (v_p st)) va = Some v -> has v PTE_P = true ->
  sw_ok (v_swap st) off = true ->
  let fr := mem_frame (m_mem (v_mach st)) (kframe (P2V (PTE_ADDR v))) in
  writeToSwapFile va off st =
    Ok PGSIZE (set_swap (sw_put (v_swap st) off fr) (with_pte st va (Z.lor v PTE_A))).
Proof.
  intros E Hv Hp Hok fr. unfold writeToSwapFile. erewrite Ok_bind by reflexivity. rewrite Hok.
  by rewrite (Ok_bind _ _ _ _ _ (user_read_page_run st va v E Hv Hp)).
Qed.

(** ** Views *)

Lemma view_unchanged (p p' : pproc) (f f' : F) (m m' : memory) j e' vb :
  slots_inv p f m -> slots_inv p' f' m' -> pp_pgdir p' = pp_pgdir p ->
  pp_file_pages p' = <[j := e']> (pp_file_pages p) -> upage vb ->
  pte_at m' (pp_pgdir p) vb = pte_at m (pp_pgdir p) vb ->
  (forall x, mapped m (pp_pgdir p) vb x -> mem_frame m' (kframe x) = mem_frame m (kframe x)) ->
  (forall pg, pp_file_pages p !! j = Some pg -> pg_is_used pg = true -> pg_va pg <> vb) ->
  (forall i pg, i <> j -> pp_file_pages p !! i = Some pg -> pg_is_used pg = true ->
     sw_get f' (Z.of_nat i * PGSIZE) = sw_get f (Z.of_nat i * PGSIZE)) ->
  view_at m' p' f' vb = view_at m p f vb.
Proof.
  intros Hs Hs' Epd Ef Hvb Epte Hfr Hj Hsw. unfold view_at. rewrite Epd, Epte.
  destruct (pte_at m (pp_pgdir p) vb) as [v|] eqn:Hv; [|done]. simpl.
  destruct (has v PTE_P) eqn:Hp.
  - f_equal. apply Hfr. by exists v.
  - destruct (has v PTE_PG) eqn:Hg; [|done].
    destruct (sl_paged _ _ _ Hs vb v Hvb Hv Hp Hg) as (_ & i & pg & Hi & Hu & Eva).
    assert (i <> j) as Hne by (intros ->; by eapply Hj).
    rewrite (slot_of_Some p f m vb i pg) by done.
    assert (pp_file_pages p' !! i = Some pg) as Hi' by (by rewrite Ef, list_lookup_insert_ne).
    rewrite (slot_of_Some p' f' m' vb i pg) by done. simpl. by eapply Hsw.
Qed.

Lemma view_present st va v : pte_at (m_mem (v_mach st)) (pp_pgdir (v_p st)) va = Some v ->
  has v PTE_P = true -> view st va = Some (mem_frame (m_mem (v_mach st)) (kframe (P2V (PTE_ADDR v)))).
Proof. intros Hv Hp. unfold view, view_at. rewrite Hv. simpl. by rewrite Hp. Qed.

Lemma view_paged st va v j pg : slots_inv (v_p st) (v_swap st) (m_mem (v_mach st)) ->
  pte_at (m_mem (v_mach st)) (pp_pgdir (v_p st)) va = Some v ->
  has v PTE_P = false -> has v PTE_PG = true ->
  pp_file_pages (v_p st) !! j = Some pg -> pg_is_used pg = true -> pg_va pg = va ->
  view st va = sw_get (v_swap st) (Z.of_nat j * PGSIZE).
Proof.
  intros Hs Hv Hp Hg Hj Hu Hva. unfold view, view_at. rewrite Hv. simpl. rewrite Hp, Hg.
  by rewrite (slot_of_Some _ _ _ va j pg Hs Hj Hu Hva).
Qed.

Lemma slot_offset (j : nat) : (j < 16)%nat ->
  u32 (Z.of_nat j * PGSIZE) = Z.of_nat j * PGSIZE /\ aligned (Z.of_nat j * PGSIZE).
Proof.
  intros Hj. split.
  - apply u32_small. unfold is_u32, two32, PGSIZE. lia.
  - unfold aligned. by apply Z_mod_mult.
Qed.

Lemma sw_get_slot (f : F) (i j : nat) pg : sw_ok f (Z.of_nat j * PGSIZE) = true ->
  (i < 16)%nat -> (j < 16)%nat -> i <> j ->
  sw_get (sw_put f (Z.of_nat j * PGSIZE) pg) (Z.of_nat i * PGSIZE) = sw_get f (Z.of_nat i * PGSIZE).
Proof.
  intros Hok Hi Hj Hne. apply sw_get_other; [done|by apply slot_offset..|]. unfold PGSIZE. lia.
Qed.

(** A page in memory and a page in the file are different pages. *)
Lemma mapped_not_paged (m : memory) pgdir va x vb : mapped m pgdir va x -> paged m pgdir vb -> va <> vb.
Proof. intros (v & Hv & Hp & _) (w & Hw & Hp' & _) ->. congruence. Qed.

(** Frames of two present pages differ. *)
Lemma mapped_frames_differ s l pgdir va vb x y : as_inv end_ s l pgdir nobody -> upage va -> upage vb ->
  mapped (m_mem s) pgdir va x -> mapped (m_mem s) pgdir vb y -> va <> vb -> kframe y <> kframe x.
Proof.
  intros Has Hva Hvb Hx Hy Hne E. apply Hne.
  destruct (as_frames _ _ _ _ _ Has va x) as (Hvx & _); [done|by intros []|done|].
  destruct (as_frames _ _ _ _ _ Has vb y) as (Hvy & _); [done|by intros []|done|].
  assert (x = y) as <- by (eapply (valid_page_inj end_); eauto).
  apply (as_inj _ _ _ _ _ Has va vb x); try done; by intros [].
Qed.

(** ** Paging out: the state *)

(** The page in slot [k] of memory goes to the free slot [j] of the file. *)
Lemma page_out_inv st l s' l' k j pg pgf v p' :
  vm_inv end_ st l -> (k < 16)%nat -> (j < 16)%nat ->
  pp_memory_pages (v_p st) !! k = Some pg -> pg_is_used pg = true ->
  pp_file_pages (v_p st) !! j = Some pgf -> pg_is_used pgf = false ->
  sw_ok (v_swap st) (Z.of_nat j * PGSIZE) = true ->
  pte_at (m_mem (v_mach st)) (pp_pgdir (v_p st)) (pg_va pg) = Some v -> has v PTE_P = true ->
  paged_out (v_mach st) s' l l' (pp_pgdir (v_p st)) (pg_va pg) v (P2V (PTE_ADDR v)) ->
  pp_pgdir p' = pp_pgdir (v_p st) ->
  pp_memory_pages p' = <[k := set_used false pg]> (pp_memory_pages (v_p st)) ->
  pp_file_pages p' = <[j := set_page (pp_pgdir (v_p st)) (pg_va pg) pgf]> (pp_file_pages (v_p st)) ->
  let fr := mem_frame (m_mem (v_mach st)) (kframe (P2V (PTE_ADDR v))) in
  let st' := Vm s' p' (sw_put (v_swap st) (Z.of_nat j * PGSIZE) fr) (v_cr2 st) (v_cr3 st) in
  vm_inv end_ st' l' /\ forall va, upage va -> view st' va = view st va.
Proof.
  intros Hi Hk Hj Hpg Hu Hpgf Huf Hok Hv Hp [Has' Hpte Hfr _] Epd Em Ef fr st'.
  pose proof (vi_as _ _ _ Hi) as Has. pose proof (vi_slots _ _ _ Hi) as Hs.
  destruct (resident_pte end_ st l k pg Hi Hpg Hu) as (Eg & Hup & v0 & Hv0 & Hvu & _ & Hown).
  rewrite Hv in Hv0. injection Hv0 as <-. destruct (disk_pte_spec v Hvu) as (Hd1 & Hd2 & Hd3).
  assert (mapped (m_mem (v_mach st)) (pp_pgdir (v_p st)) (pg_va pg) (P2V (PTE_ADDR v))) as Hm by (by exists v).
  assert (slots_inv p' (v_swap st') (m_mem s')) as Hs'.
  { apply (slots_insert (v_p st) p' (v_swap st) _ (m_mem (v_mach st)) _ k j
             (set_used false pg) (set_page (pp_pgdir (v_p st)) (pg_va pg) pgf)); try done.
    - intros i pgi Hne Hpi Hui. split; [|done].
      destruct (resident_pte end_ st l i pgi Hi Hpi Hui) as (_ & Hupi & _).
      rewrite Hpte, decide_False; [done| |done].
      intros E. apply Hne. by apply (sl_mem_inj _ _ _ Hs i k pgi pg).
    - intros i pgi Hne Hpi Hui. destruct (sl_file _ _ _ Hs i pgi Hpi Hui) as (_ & Hupi & Hpd & _).
      assert (pg_va pg <> pg_va pgi) as Hva by (by eapply mapped_not_paged).
      split_and!; [rewrite Hpte by done; by rewrite decide_False| |by intros _ ?].
      apply sw_get_slot; try done. apply lookup_lt_Some in Hpi. by rewrite (sl_file_len _ _ _ Hs) in Hpi.
    - intros _. split; [done|]. split; [done|]. split.
      + exists (disk_pte v). rewrite Hpte by done. by rewrite decide_True.
      + exists fr. split; [by apply sw_get_put|]. apply (po_words _ _ _ _ (as_pd _ _ _ _ _ Has)).
    - intros vb w Hvb Hw Hp' Hg. rewrite Hpte in Hw by done. case_decide as Hd.
      + injection Hw as <-. split; [done|]. by left.
      + destruct (sl_paged _ _ _ Hs vb w Hvb Hw Hp' Hg) as (Hsm & i & pgi & Hpi & Hui & E).
        split; [done|]. right. exists i, pgi. split_and!; try done. intros ->. congruence. }
  split.
  - split; cbn [v_mach v_p v_cr3 st']; [by rewrite Epd|done|]. rewrite Epd. apply Hi.
  - intros vb Hvb. destruct (decide (pg_va pg = vb)) as [<-|Hne].
    + rewrite (view_present st _ v) by done.
      rewrite (view_paged st' (pg_va pg) (disk_pte v) j (set_page (pp_pgdir (v_p st)) (pg_va pg) pgf));
        cbn [v_mach v_p v_swap st']; try done.
      * by apply sw_get_put.
      * rewrite Epd, Hpte by done. by rewrite decide_True.
      * rewrite Ef, list_lookup_insert_eq; [done|]. by rewrite (sl_file_len _ _ _ Hs).
    + apply (view_unchanged (v_p st) p' _ _ _ _ j (set_page (pp_pgdir (v_p st)) (pg_va pg) pgf)); try done.
      * rewrite Hpte by done. by rewrite decide_False.
      * intros y Hy. apply Hfr.
        -- by eapply (mapped_frames_differ _ _ _ (pg_va pg) vb).
        -- by destruct (as_frames _ _ _ _ _ Has vb y) as (_ & _ & ? & _); [done|intros []|done|].
      * intros pgf' E. rewrite Hpgf in E. injection E as <-. congruence.
      * intros i pgi Hij Hpi Hui. apply sw_get_slot; try done.
        apply lookup_lt_Some in Hpi. by rewrite (sl_file_len _ _ _ Hs) in Hpi.
Qed.

Lemma policy_ready_faults pol p : policy_ready pol p -> policy_ready pol (inc_page_faults p).
Proof. by destruct pol. Qed.

(** Counting a fault is quiet. *)
Lemma inc_page_faults_inv st l : vm_inv end_ st l ->
  let st' := set_p (inc_page_faults (v_p st)) st in
  quiet st st' /\ vm_inv end_ st' l.
Proof. intros Hi. apply quiet_set_p; try done. apply same_resident_refl. Qed.

Lemma victim_page st l k : vm_inv end_ st l -> full st -> (k < 16)%nat ->
  exists pg, pp_memory_pages (v_p st) !! k = Some pg /\ pg_is_used pg = true.
Proof.
  intros Hi Hf Hk. rewrite <- (sl_mem_len _ _ _ (vi_slots _ _ _ Hi)) in Hk.
  apply lookup_lt_is_Some in Hk as [pg Hpg]. exists pg. split; [done|].
  by apply (Forall_lookup_1 _ _ _ _ Hf Hpg).
Qed.

Lemma next_free_file_Some p (j : nat) : next_free_i_in_file p = Z.of_nat j ->
  exists pgf, pp_file_pages p !! j = Some pgf /\ pg_is_used pgf = false.
Proof.
  unfold next_free_i_in_file. destruct (find_index _ _) as [i|] eqn:E; simpl; [|lia].
  intros Ei. assert (i = j) as -> by lia. apply find_index_Some in E as [(pgf & Hpgf & Hu) _].
  exists pgf. split; [done|]. by apply negb_true_iff.
Qed.

(** The first free slot of the file can be written: it is at the start or
    right after a slot in use. *)
Lemma next_free_file_ok st l (j : nat) : vm_inv end_ st l ->
  next_free_i_in_file (v_p st) = Z.of_nat j -> (j < 16)%nat /\ sw_ok (v_swap st) (Z.of_nat j * PGSIZE) = true.
Proof.
  intros Hi Hj. destruct (next_free_file_Some _ _ Hj) as (pgf & Hpgf & _).
  pose proof (vi_slots _ _ _ Hi) as Hs. apply lookup_lt_Some in Hpgf. rewrite (sl_file_len _ _ _ Hs) in Hpgf.
  split; [done|]. unfold next_free_i_in_file in Hj.
  destruct (find_index _ _) as [i|] eqn:E; simpl in Hj; [|lia]. assert (i = j) as -> by lia.
  apply find_index_Some in E as [_ Hbefore]. destruct j as [|j]; [apply sw_ok_first|].
  destruct (lookup_lt_is_Some_2 (pp_file_pages (v_p st)) j) as [pg Hpg]; [rewrite (sl_file_len _ _ _ Hs); lia|].
  assert (pg_is_used pg = true) as Hu by (apply negb_false_iff; apply (Hbefore j); [lia|done]).
  destruct (sl_file _ _ _ Hs j pg Hpg Hu) as (_ & _ & _ & fr & Hfr & _).
  replace (Z.of_nat (S j) * PGSIZE) with (Z.of_nat j * PGSIZE + PGSIZE) by lia.
  eapply sw_ok_next; [exact Hfr|]. unfold MAX_PSYC_PAGES, PGSIZE. lia.
Qed.

(** [swap] once the victim is known, step by step. *)
Lemma swap_steps pol st st1 (k j : nat) pg pgf v s3 s4 :
  next_i_in_mem_to_remove pol victim_fuel (set_p (inc_page_faults (v_p st)) st) = Ok (Z.of_nat k) st1 ->
  P2V (v_cr3 st1) = pp_pgdir (v_p st1) -> v_cr3 st1 = V2P (pp_pgdir (v_p st1)) ->
  pp_memory_pages (v_p st1) !! k = Some pg -> pg_pgdir pg = pp_pgdir (v_p st1) ->
  next_free_i_in_file (v_p st1) = Z.of_nat j -> (j < 16)%nat -> pp_file_pages (v_p st1) !! j = Some pgf ->
  sw_ok (v_swap st1) (Z.of_nat j * PGSIZE) = true ->
  pte_at (m_mem (v_mach st1)) (pp_pgdir (v_p st1)) (pg_va pg) = Some v -> has v PTE_P = true ->
  let s2 := v_mach (with_pte st1 (pg_va pg) (Z.lor v PTE_A)) in
  find_pa (pp_pgdir (v_p st1)) (pg_va pg) s2 = Ok (PTE_ADDR v) s2 ->
  kfree end_ (P2V (PTE_ADDR v)) s2 = Ok () s3 ->
  set_page_flags_in_disk (pp_pgdir (v_p st1)) (pg_va pg) s3 = Ok () s4 ->
  swap end_ pol st = Ok (Z.of_nat k)
    (Vm s4 (set_memory_pages (<[k := set_used false pg]> (pp_memory_pages (v_p st1)))
              (set_file_pages (<[j := set_page (pp_pgdir (v_p st1)) (pg_va pg) pgf]>
                                 (pp_file_pages (v_p st1))) (inc_paged_out (v_p st1))))
        (sw_put (v_swap st1) (Z.of_nat j * PGSIZE)
           (mem_frame (m_mem (v_mach st1)) (kframe (P2V (PTE_ADDR v)))))
        (v_cr2 st1) (v_cr3 st1)).
Proof.
  intros Hrun Hcr Hcr3 Hpg Eg Hj Hjl Hpgf Hok Hv Hp s2 Hfp Hkf Hsd.
  destruct (slot_offset j Hjl) as [Eoff _].
  unfold swap. erewrite Ok_bind by reflexivity.
  erewrite (Ok_bind (next_i_in_mem_to_remove _ _)) by exact Hrun.
  unfold myproc at 1. erewrite Ok_bind by reflexivity. rewrite Hj, Eoff.
  erewrite (Ok_bind (mem_page _)) by (by apply mem_page_Ok). rewrite Eg.
  erewrite (Ok_bind (writeToSwapFile _ _)) by (by apply writeToSwapFile_run).
  change (PGSIZE =? -1) with false. cbv iota. erewrite Ok_bind by reflexivity.
  erewrite (Ok_bind (upd_file_page _ _)) by (apply upd_file_page_Ok; exact Hpgf).
  erewrite (Ok_bind (onmach (find_pa _ _))) by (apply onmach_Ok; exact Hfp).
  erewrite (Ok_bind (onmach (kfree _ _))) by (apply onmach_Ok; exact Hkf).
  erewrite (Ok_bind (upd_mem_page _ _)) by (apply upd_mem_page_Ok; exact Hpg).
  erewrite (Ok_bind (onmach (set_page_flags_in_disk _ _))) by (apply onmach_Ok; exact Hsd).
  cbn. by rewrite Hcr3.
Qed.

(** [swap] takes a resident page to the free slot [j] of the file. *)
Lemma swap_run pol st l j : vm_inv end_ st l -> full st -> policy_ready pol (v_p st) ->
  next_free_i_in_file (v_p st) = Z.of_nat j ->
  exists k st' l' pg, swap end_ pol st = Ok (Z.of_nat k) st' /\ vm_inv end_ st' l' /\
    (forall va, upage va -> view st' va = view st va) /\
    pp_memory_pages (v_p st') !! k = Some pg /\ pg_is_used pg = false /\
    pp_pgdir (v_p st') = pp_pgdir (v_p st) /\ pp_pid (v_p st') = pp_pid (v_p st) /\
    forall va, upage va -> untracked (v_p st) va -> untracked (v_p st') va /\
      forall x, mapped (m_mem (v_mach st)) (pp_pgdir (v_p st)) va x ->
        mapped (m_mem (v_mach st')) (pp_pgdir (v_p st)) va x.
Proof.
  intros Hi Hf Hr Hj. destruct (inc_page_faults_inv st l Hi) as [Hq0 Hi0].
  set (st0 := set_p (inc_page_faults (v_p st)) st) in *.
  destruct (choose_victim end_ end_high pol st0 l Hi0 Hf (policy_ready_faults _ _ Hr))
    as (k & st1 & Hrun & Hq1 & Hi1 & Hf1 & Hk & Hres1).
  destruct (victim_page st1 l k Hi1 Hf1 Hk) as (pg & Hpg & Hu).
  destruct (resident_pte end_ st1 l k pg Hi1 Hpg Hu) as (Eg & Hup & v & Hv & Hvu & Hp & Hown).
  assert (next_free_i_in_file (v_p st1) = Z.of_nat j) as Hj1
    by (unfold next_free_i_in_file; by rewrite (qu_file _ _ Hq1)).
  destruct (next_free_file_Some _ _ Hj1) as (pgf & Hpgf & Huf).
  destruct (next_free_file_ok st1 l j Hi1 Hj1) as [Hjl Hok1].
  (* the write through the page table marks the page accessed *)
  destruct (quiet_pte_set end_ st1 l (pg_va pg) v (Z.lor v PTE_A)) as [Hq2 Hi2];
    [done..|by apply lor_u32|by apply same_page_set|].
  set (st2 := with_pte st1 (pg_va pg) (Z.lor v PTE_A)).
  change (vm_inv end_ st2 l) in Hi2. change (quiet st1 st2) in Hq2.
  assert (pte_at (m_mem (v_mach st2)) (pp_pgdir (v_p st1)) (pg_va pg) = Some (Z.lor v PTE_A)) as Hv2.
  { apply (pte_set_at_same end_ _ _ _ _ v); [eapply as_wf, Hi1|auto|done]. }
  assert (PTE_ADDR (Z.lor v PTE_A) = PTE_ADDR v) as Ea by (by apply PTE_ADDR_set).
  assert (has (Z.lor v PTE_A) PTE_P = true) as Hp2 by (rewrite has_lor; by rewrite Hp).
  destruct (page_out_free_first (v_mach st2) l (pp_pgdir (v_p st1)) (pg_va pg) (Z.lor v PTE_A))
    as (s3 & s4 & l' & Hkf & Hsd & Hpo); [apply Hi2|done..|].
  set (p' := set_memory_pages (<[k := set_used false pg]> (pp_memory_pages (v_p st1)))
              (set_file_pages (<[j := set_page (pp_pgdir (v_p st1)) (pg_va pg) pgf]>
                                 (pp_file_pages (v_p st1))) (inc_paged_out (v_p st1)))).
  destruct (page_out_inv st2 l s4 l' k j pg pgf (Z.lor v PTE_A) p') as [Hi' Hview]; try done.
  rewrite Ea in Hi', Hview, Hkf. rewrite (qu_frames _ _ Hq2) in Hi', Hview by apply Hown.
  eexists k, _, l', (set_used false pg). split.
  { eapply (swap_steps pol st st1 k j pg pgf v s3 s4); try done.
    - by eapply cr3_pgdir.
    - apply Hi1.
    - rewrite <- Ea. apply (find_pa_run end_ end_high); [eapply as_wf, Hi2|auto|done]. }
  split; [exact Hi'|]. split; [|split; [|split; [done|split; [apply (qu_pgdir _ _ Hq1)|split; [apply (qu_pid _ _ Hq1)|]]]]].
  - intros va Hva. etrans; [exact (Hview va Hva)|]. rewrite (quiet_view end_ _ _ l va Hq2 Hi1 Hva).
    by rewrite (quiet_view end_ _ _ l va Hq1 Hi0 Hva), (quiet_view end_ _ _ l va Hq0 Hi Hva).
  - simpl. apply list_lookup_insert_eq. by eapply lookup_lt_Some.
  - intros va Hva Hun. assert (untracked (v_p st1) va) as Hun1 by (by eapply untracked_moved).
    assert (pg_va pg <> va) as Hne by (by eapply Hun1). split.
    + intros i pgi. simpl. destruct (decide (k = i)) as [<-|Hki].
      * rewrite list_lookup_insert_eq by (by eapply lookup_lt_Some). by intros [= <-].
      * rewrite list_lookup_insert_ne by done. apply Hun1.
    + intros y Hy. change (pp_pgdir (v_p st)) with (pp_pgdir (v_p st0)) in Hy |- *.
      rewrite <- (qu_pgdir _ _ Hq1). cbn [v_mach].
      apply (mapped_agree (m_mem (v_mach st2)));
        [rewrite (po_pte _ _ _ _ _ _ _ _ Hpo) by done; by rewrite decide_False|].
      apply (quiet_mapped st1 st2); [done..|]. rewrite (qu_pgdir _ _ Hq1).
      by apply (quiet_mapped st0 st1).
Qed.

(** ** Paging in: the state *)

(** The page [u] in slot [j] of the file came to slot [k] of memory, in frame
    [x]; when [out], the page [old] that was in slot [k] took its slot in the
    file. *)
Section page_in.
Context (st : vm F) (l l' : list Z) (s' : mach) (k j : nat) (pgj old e e' : page) (p' : pproc) (f' : F).
Context (u w x : Z) (fr0 : frame) (out : bool).
Hypothesis Hi : vm_inv end_ st l.
Hypothesis Hk : (k < 16)%nat.
Hypothesis Hj : (j < 16)%nat.
Hypothesis Hu : upage u.
Hypothesis Hold : pp_memory_pages (v_p st) !! k = Some old.
Hypothesis Hpgj : pp_file_pages (v_p st) !! j = Some pgj.
Hypothesis Huj : pg_is_used pgj = true.
Hypothesis Evj : pg_va pgj = u.
Hypothesis Hfr0 : sw_get (v_swap st) (Z.of_nat j * PGSIZE) = Some fr0.
Hypothesis Has' : as_inv end_ s' l' (pp_pgdir (v_p st)) nobody.
Hypothesis Hw : pte_at (m_mem s') (pp_pgdir (v_p st)) u = Some w.
Hypothesis Hwp : has w PTE_P = true.
Hypothesis Hx : P2V (PTE_ADDR w) = x.
Hypothesis Hxf : mem_frame (m_mem s') (kframe x) = fr0.
Hypothesis Hrest : forall vb, upage vb -> vb <> u -> (out = true -> vb <> pg_va old) ->
  pte_at (m_mem s') (pp_pgdir (v_p st)) vb = pte_at (m_mem (v_mach st)) (pp_pgdir (v_p st)) vb /\
  forall y, mapped (m_mem (v_mach st)) (pp_pgdir (v_p st)) vb y ->
    mem_frame (m_mem s') (kframe y) = mem_frame (m_mem (v_mach st)) (kframe y).
Hypothesis Epd : pp_pgdir p' = pp_pgdir (v_p st).
Hypothesis Em : pp_memory_pages p' = <[k := e]> (pp_memory_pages (v_p st)).
Hypothesis Ef : pp_file_pages p' = <[j := e']> (pp_file_pages (v_p st)).
Hypothesis Eg : pg_pgdir e = pp_pgdir (v_p st).
Hypothesis Ee : pg_va e = u.
Hypothesis Hue : pg_is_used e = true.
Hypothesis Huo : pg_is_used old = out.
Hypothesis Hue' : pg_is_used e' = out.
Hypothesis Hout :
  if out then
    exists v d, pte_at (m_mem (v_mach st)) (pp_pgdir (v_p st)) (pg_va old) = Some v /\
      has v PTE_P = true /\ pg_va e' = pg_va old /\ pg_pgdir e' = pp_pgdir (v_p st) /\
      pte_at (m_mem s') (pp_pgdir (v_p st)) (pg_va old) = Some d /\
      has d PTE_P = false /\ has d PTE_PG = true /\ 0 <= d < PGSIZE /\
      f' = sw_put (v_swap st) (Z.of_nat j * PGSIZE)
             (mem_frame (m_mem (v_mach st)) (kframe (P2V (PTE_ADDR v))))
  else f' = v_swap st.

(** [Hout], when a page went out. *)
Lemma page_in_out : out = true ->
  exists v d, pte_at (m_mem (v_mach st)) (pp_pgdir (v_p st)) (pg_va old) = Some v /\
    has v PTE_P = true /\ pg_va e' = pg_va old /\ pg_pgdir e' = pp_pgdir (v_p st) /\
    pte_at (m_mem s') (pp_pgdir (v_p st)) (pg_va old) = Some d /\
    has d PTE_P = false /\ has d PTE_PG = true /\ 0 <= d < PGSIZE /\
    f' = sw_put (v_swap st) (Z.of_nat j * PGSIZE)
           (mem_frame (m_mem (v_mach st)) (kframe (P2V (PTE_ADDR v)))).
Proof. intros E. rewrite E in Hout. exact Hout. Qed.

Lemma page_in_slot : paged (m_mem (v_mach st)) (pp_pgdir (v_p st)) u /\ sw_ok (v_swap st) (Z.of_nat j * PGSIZE) = true.
Proof.
  destruct (sl_file _ _ _ (vi_slots _ _ _ Hi) j pgj Hpgj Huj) as (_ & _ & Hpgd & fr & Hfr & Hfw).
  split; [by rewrite <- Evj|by eapply sw_get_ok].
Qed.

(** The other resident pages are neither of the two. *)
Lemma page_in_mem i pgi : i <> k -> pp_memory_pages (v_p st) !! i = Some pgi -> pg_is_used pgi = true ->
  upage (pg_va pgi) /\ pg_va pgi <> u /\ (out = true -> pg_va pgi <> pg_va old).
Proof.
  intros Hne Hpi Hui. pose proof (vi_slots _ _ _ Hi) as Hs. destruct page_in_slot as [Hpgd _].
  destruct (sl_mem _ _ _ Hs i pgi Hpi Hui) as (_ & Hupi & y & Hy).
  split; [done|]. split; [by eapply mapped_not_paged|]. intros Ho E. apply Hne.
  apply (sl_mem_inj _ _ _ Hs i k pgi old); congruence.
Qed.

(** The other slots of the file hold neither, and keep what they hold. *)
Lemma page_in_file i pgi : i <> j -> pp_file_pages (v_p st) !! i = Some pgi -> pg_is_used pgi = true ->
  upage (pg_va pgi) /\ pg_va pgi <> u /\ (out = true -> pg_va pgi <> pg_va old) /\
  sw_get f' (Z.of_nat i * PGSIZE) = sw_get (v_swap st) (Z.of_nat i * PGSIZE).
Proof.
  intros Hne Hpi Hui. pose proof (vi_slots _ _ _ Hi) as Hs. destruct page_in_slot as [_ Hok].
  destruct (sl_file _ _ _ Hs i pgi Hpi Hui) as (_ & Hupi & Hpdi & _).
  split; [done|]. split; [|split].
  - intros E. apply Hne. apply (sl_file_inj _ _ _ Hs i j pgi pgj); congruence.
  - intros (v & d & Hv & Hp & _)%page_in_out E.
    apply (mapped_not_paged (m_mem (v_mach st)) (pp_pgdir (v_p st)) (pg_va old) (P2V (PTE_ADDR v)) (pg_va pgi));
      [by exists v|done|done].
  - assert (i < 16)%nat as Hil by (apply lookup_lt_Some in Hpi; by rewrite (sl_file_len _ _ _ Hs) in Hpi).
    destruct (Bool.bool_dec out true) as [E|E%Bool.not_true_is_false].
    + destruct (page_in_out E) as (v & d & _ & _ & _ & _ & _ & _ & _ & _ & ->). by apply sw_get_slot.
    + rewrite E in Hout. by rewrite Hout.
Qed.

Lemma page_in_slots : slots_inv p' f' (m_mem s').
Proof.
  pose proof (vi_as _ _ _ Hi) as Has. pose proof (vi_slots _ _ _ Hi) as Hs. destruct page_in_slot as [_ Hok].
  apply (slots_insert (v_p st) p' (v_swap st) f' (m_mem (v_mach st)) (m_mem s') k j e e'); try done.
  - intros i pgi Hne Hpi Hui. destruct (page_in_mem i pgi Hne Hpi Hui) as (Hup & Hnu & Hno).
    split; [by apply Hrest|]. intros _. congruence.
  - intros _. split; [done|]. rewrite Ee. split; [done|]. exists x. by exists w.
  - intros i pgi Hne Hpi Hui. destruct (page_in_file i pgi Hne Hpi Hui) as (Hup & Hnu & Hno & Hsw).
    split; [by apply Hrest|]. split; [done|]. rewrite Hue'. intros E.
    destruct (page_in_out E) as (v & d & _ & _ & -> & _). by apply Hno.
  - rewrite Hue'. intros E. destruct (page_in_out E) as (v & d & Hv & Hp & -> & -> & Hd & Hdp & Hdg & _ & ->).
    destruct (sl_mem _ _ _ Hs k old Hold) as (_ & Hup & _); [congruence|].
    split; [done|]. split; [done|]. split; [by exists d|]. eexists. split; [by apply sw_get_put|].
    apply (po_words _ _ _ _ (as_pd _ _ _ _ _ Has)).
  - intros vb v Hvb Hv Hp Hg. destruct (decide (vb = u)) as [->|Hnu]; [congruence|].
    destruct (decide (out = true /\ vb = pg_va old)) as [[Eo ->]|Hno].
    + destruct (page_in_out Eo) as (v0 & d & _ & _ & E & _ & Hd & _ & _ & Hds & _).
      rewrite Hd in Hv. injection Hv as <-. split; [done|]. left. split; congruence.
    + destruct (Hrest vb Hvb Hnu) as [E _]; [tauto|]. rewrite E in Hv.
      destruct (sl_paged _ _ _ Hs vb v Hvb Hv Hp Hg) as (Hsm & i & pgi & Hpi & Hui & Evi).
      split; [done|]. right. exists i, pgi. split_and!; try done. intros ->. congruence.
Qed.

Lemma page_in_view vb : upage vb -> view (Vm s' p' f' (v_cr2 st) (v_cr3 st)) vb = view st vb.
Proof.
  set (st' := Vm s' p' f' (v_cr2 st) (v_cr3 st)). pose proof (vi_slots _ _ _ Hi) as Hs.
  destruct page_in_slot as [Hpgd Hok]. pose proof page_in_slots as Hs'.
  intros Hvb. destruct (decide (vb = u)) as [->|Hnu].
  { destruct Hpgd as (v & Hv & Hp & Hg). rewrite (view_paged st u v j pgj) by done.
    rewrite Hfr0. rewrite (view_present st' u w); cbn [v_mach v_p st']; [|by rewrite Epd|done].
    f_equal. by rewrite Hx. }
  destruct (decide (out = true /\ vb = pg_va old)) as [[Eo ->]|Hno].
  - destruct (page_in_out Eo) as (v & d & Hv & Hp & Ev & _ & Hd & Hdp & Hdg & _ & Esw).
    rewrite (view_present st _ v) by done.
    rewrite (view_paged st' (pg_va old) d j e'); cbn [v_mach v_p v_swap st']; try done.
    + rewrite Esw. by apply sw_get_put.
    + by rewrite Epd.
    + rewrite Ef. apply list_lookup_insert_eq. by rewrite (sl_file_len _ _ _ Hs).
    + congruence.
  - destruct (Hrest vb Hvb Hnu) as [E Hy]; [tauto|].
    apply (view_unchanged (v_p st) p' _ _ _ _ j e'); try done.
    + intros pg' Hpg' _. rewrite Hpgj in Hpg'. injection Hpg' as <-. congruence.
    + intros i pgi Hne Hpi Hui. by apply (page_in_file i pgi).
Qed.

Lemma page_in_inv : let st' := Vm s' p' f' (v_cr2 st) (v_cr3 st) in
  vm_inv end_ st' l' /\ forall va, upage va -> view st' va = view st va.
Proof.
  split; [|exact page_in_view]. split; cbn [v_mach v_p v_cr3]; [by rewrite Epd|exact page_in_slots|].
  rewrite Epd. apply Hi.
Qed.
End page_in.

(** ** The machine side of paging in *)

Lemma kframe_P2V a : is_u32 a -> kframe (P2V a) = a / PGSIZE.
Proof. intros Ha. unfold kframe. by rewrite V2P_P2V. Qed.

(** The paged-out page [u] is given the frame [x]. *)
Lemma map_in s l pgdir u v x : as_inv end_ s l pgdir nobody -> upage u ->
  pte_at (m_mem s) pgdir u = Some v -> 0 <= v < PGSIZE -> owned end_ s l pgdir x ->
  (forall va, upage va -> ~ mapped (m_mem s) pgdir va x) ->
  let w := mem_pte v (V2P x) in
  let s' := pte_set s pgdir u w in
  set_page_flags_in_mem pgdir u (V2P x) s = Ok () s' /\ as_inv end_ s' l pgdir nobody /\
  is_u32 w /\ P2V (PTE_ADDR w) = x /\ has w PTE_P = true /\ has w PTE_W = true.
Proof.
  intros Has Hu Hv Hvr Hx Hno w s'. pose proof Hx as ((Hxu & Hxa & _) & _).
  destruct (mem_pte_spec v (V2P x)) as (Hw & Ea & Hp & HW & _); [done|apply u32_range|by apply V2P_aligned|].
  assert (P2V (PTE_ADDR w) = x) as Ex by (unfold w; rewrite Ea; by apply P2V_V2P).
  split; [apply (set_page_flags_in_mem_run end_ end_high); [by eapply as_wf|auto|done]|].
  split; [|done]. eapply as_weaken; [eapply (as_pte_set end_ s l pgdir nobody u v w); try done|].
  - intros _. rewrite Ex. split; [done|]. intros vb Hvb _ Hm. by destruct (Hno vb Hvb).
  - by intros ? [[] _].
Qed.

(** Filling the page through its own mapping. *)
Lemma write_in st l u w fr : as_inv end_ (v_mach st) l (pp_pgdir (v_p st)) nobody ->
  P2V (v_cr3 st) = pp_pgdir (v_p st) -> upage u ->
  pte_at (m_mem (v_mach st)) (pp_pgdir (v_p st)) u = Some w ->
  has w PTE_P = true -> has w PTE_W = true -> frame_words fr ->
  exists s', user_write_page u fr st = Ok () (set_mach s' st) /\
    as_inv end_ s' l (pp_pgdir (v_p st)) nobody /\
    (exists w', pte_at (m_mem s') (pp_pgdir (v_p st)) u = Some w' /\ has w' PTE_P = true /\
       PTE_ADDR w' = PTE_ADDR w) /\
    (forall vb, upage vb -> vb <> u ->
       pte_at (m_mem s') (pp_pgdir (v_p st)) vb = pte_at (m_mem (v_mach st)) (pp_pgdir (v_p st)) vb) /\
    mem_frame (m_mem s') (kframe (P2V (PTE_ADDR w))) = fr /\
    (forall fn, fn <> kframe (P2V (PTE_ADDR w)) -> ~ pd_frame (m_mem (v_mach st)) (pp_pgdir (v_p st)) fn ->
       mem_frame (m_mem s') fn = mem_frame (m_mem (v_mach st)) fn).
Proof.
  intros Has Hcr Hu Hw Hp HW Hfr. set (pgdir := pp_pgdir (v_p st)) in *. set (s := v_mach st) in *.
  pose proof (as_wf _ _ _ _ _ Has) as Hwf. pose proof (as_word _ _ _ _ _ _ _ Has Hw) as Hwu.
  destruct (same_page_set w Hwu) as (Hp' & _ & _ & Ha').
  assert (is_u32 (Z.lor w PTE_A)) as Hwu' by (by apply lor_u32).
  set (s1 := pte_set s pgdir u (Z.lor w PTE_A)).
  assert (as_inv end_ s1 l pgdir nobody) as Has1 by (eapply as_pte_flags; eauto; by intros []).
  assert (pte_at (m_mem s1) pgdir u = Some (Z.lor w PTE_A)) as Hw1 by (apply (pte_set_at_same end_ _ _ _ _ w); auto).
  set (x := P2V (PTE_ADDR w)).
  assert (owned end_ s1 l pgdir x) as Hx.
  { apply (as_frames _ _ _ _ _ Has1 u); [done|by intros []|]. exists (Z.lor w PTE_A).
    split; [done|]. by rewrite Hp', Ha'. }
  destruct (as_write_frame end_ s1 l pgdir nobody x fr Has1 Hx Hfr) as (Has2 & _ & Hpte2).
  exists (write_frame s1 (kframe x) fr). split.
  { unfold user_write_page. erewrite Ok_bind by reflexivity. rewrite Hcr. fold s pgdir. rewrite Hw, Hp, HW.
    simpl. rewrite <- kframe_P2V by apply PTE_ADDR_range. fold x.
    unfold mbind, M_bind, bindM, onmach, zoom, modify, touch. fold s. cbn. by rewrite Hw. }
  split; [done|]. split_and!.
  - exists (Z.lor w PTE_A). rewrite Hpte2 by auto. by rewrite Hp', Ha'.
  - intros vb Hvb Hne. rewrite Hpte2 by auto. unfold s1. rewrite (pte_set_at end_ _ _ _ _ _ w) by auto.
    rewrite !upage_round by done. by rewrite decide_False.
  - simpl. rewrite mem_frame_insert. by rewrite decide_True.
  - intros fn Hne Hnp. simpl. rewrite mem_frame_insert, decide_False by done.
    apply (pte_set_frame end_); auto.
Qed.

(** A fresh frame for the fault handler. *)
Lemma vm_kalloc st l x : vm_inv end_ st (x :: l) ->
  let st' := set_mach (kalloc_post (v_mach st) x) st in
  onmach kalloc st = Ok x st' /\ vm_inv end_ st' l /\
  (forall va, view st' va = view st va) /\
  owned end_ (v_mach st') l (pp_pgdir (v_p st)) x /\
  (forall va, upage va -> ~ mapped (m_mem (v_mach st')) (pp_pgdir (v_p st)) va x).
Proof.
  intros Hi st'. destruct (as_kalloc end_ end_high _ _ _ _ _ (vi_as _ _ _ Hi)) as (Hr & Has & Ho & Hno).
  split; [by apply onmach_Ok|]. split; [|split; [done|split; [done|]]].
  - destruct Hi as [_ Hs Hc]. by split.
  - intros va Hva. apply Hno; [done|by intros []].
Qed.

Lemma quiet_owned st st' l x : quiet st st' ->
  owned end_ (v_mach st) l (pp_pgdir (v_p st)) x -> owned end_ (v_mach st') l (pp_pgdir (v_p st)) x.
Proof.
  intros Hq (? & ? & Hn & Hr). split; [done|]. split; [done|]. split; [by rewrite (qu_pd _ _ Hq)|].
  unfold page_refs, refs_get in *. by rewrite (qu_kmem _ _ Hq).
Qed.

(** ** handle_pf *)

Definition pf_page (pol : policy) (ts : Z) (pg : page) : page :=
  set_time ts (if bool_decide (pol = LAPA) then set_age 0xFFFFFFFF pg else pg).

Lemma pf_install_run pol st (k j : nat) old pgj :
  pp_memory_pages (v_p st) !! k = Some old -> pp_file_pages (v_p st) !! j = Some pgj ->
  pf_install pol (Z.of_nat k) (Z.of_nat j) st = Ok () (set_p
    (inc_timestamp (set_memory_pages (<[k := pf_page pol (pp_timestamp (v_p st)) pgj]> (pp_memory_pages (v_p st)))
       (set_file_pages (<[j := set_age 0 (set_used false pgj)]> (pp_file_pages (v_p st))) (v_p st)))) st).
Proof.
  intros Hk Hj. assert ((k < length (pp_memory_pages (v_p st)))%nat) as Hlt by (by eapply lookup_lt_Some).
  unfold pf_install, pf_page. erewrite Ok_bind by (by apply file_page_Ok).
  erewrite Ok_bind by (by apply upd_mem_page_Ok).
  erewrite Ok_bind by (apply upd_file_page_Ok; exact Hj).
  destruct (bool_decide (pol = LAPA)); simpl when.
  - erewrite Ok_bind by (apply upd_mem_page_Ok; simpl; by apply list_lookup_insert_eq).
    unfold myproc. erewrite Ok_bind by reflexivity.
    erewrite Ok_bind by (apply upd_mem_page_Ok; simpl; apply list_lookup_insert_eq; by rewrite length_insert).
    unfold setproc, modify. f_equal. unfold set_p. cbn. by rewrite !list_insert_insert_eq.
  - erewrite Ok_bind by reflexivity. unfold myproc. erewrite Ok_bind by reflexivity.
    erewrite Ok_bind by (apply upd_mem_page_Ok; simpl; by apply list_lookup_insert_eq).
    unfold setproc, modify. f_equal. unfold set_p. cbn. by rewrite !list_insert_insert_eq.
Qed.

(** The slot the page comes to: a free one, or the victim's. *)
Lemma pf_slot pol st l : vm_inv end_ st l ->
  next_free_i_in_mem (v_p st) <> -1 \/ policy_ready pol (v_p st) ->
  let need := next_free_i_in_mem (v_p st) =? -1 in
  exists k st' old,
    (if need then next_i_in_mem_to_remove pol victim_fuel else mret (next_free_i_in_mem (v_p st))) st
      = Ok (Z.of_nat k) st' /\
    quiet st st' /\ vm_inv end_ st' l /\ (k < 16)%nat /\
    pp_memory_pages (v_p st') !! k = Some old /\ pg_is_used old = need.
Proof.
  intros Hi Hr need. unfold need, next_free_i_in_mem in *.
  destruct (find_index _ _) as [k|] eqn:E; cbn [c_index] in *.
  - rewrite (proj2 (Z.eqb_neq _ _)) by lia. apply find_index_Some in E as [(old & Hold & Hu) _].
    exists k, st, old. split_and!; try done; [apply quiet_refl| |by apply negb_true_iff].
    apply lookup_lt_Some in Hold. by rewrite (sl_mem_len _ _ _ (vi_slots _ _ _ Hi)) in Hold.
  - change (-1 =? -1) with true. cbv iota.
    assert (full st) as Hf.
    { apply Forall_lookup_2. intros i pg Hpg. apply negb_false_iff.
      by apply (proj1 (find_index_None _ _) E i). }
    destruct Hr as [Hr|Hr]; [done|].
    destruct (choose_victim end_ end_high pol st l Hi Hf Hr) as (k & st' & Hrun & Hq & Hi' & Hf' & Hk & _).
    destruct (victim_page st' l k Hi' Hf' Hk) as (old & Hold & Hu).
    exists k, st', old. done.
Qed.

Lemma pf_evict_run st l old (j : nat) e0 v :
  let pgdir := pp_pgdir (v_p st) in
  as_inv end_ (v_mach st) l pgdir nobody -> v_cr3 st = V2P pgdir -> pg_pgdir old = pgdir ->
  upage (pg_va old) -> pte_at (m_mem (v_mach st)) pgdir (pg_va old) = Some v -> has v PTE_P = true ->
  (j < 16)%nat -> sw_ok (v_swap st) (Z.of_nat j * PGSIZE) = true ->
  pp_file_pages (v_p st) !! j = Some e0 ->
  exists s' l' d,
    pf_evict end_ old (Z.of_nat j) st = Ok () (Vm s'
      (set_file_pages (<[j := set_page pgdir (pg_va old) e0]> (pp_file_pages (v_p st))) (inc_paged_out (v_p st)))
      (sw_put (v_swap st) (Z.of_nat j * PGSIZE)
         (mem_frame (m_mem (v_mach st)) (kframe (P2V (PTE_ADDR v))))) (v_cr2 st) (v_cr3 st)) /\
    as_inv end_ s' l' pgdir nobody /\
    (forall vb, upage vb -> pte_at (m_mem s') pgdir vb =
       if decide (pg_va old = vb) then Some d else pte_at (m_mem (v_mach st)) pgdir vb) /\
    has d PTE_P = false /\ has d PTE_PG = true /\ 0 <= d < PGSIZE /\
    (forall fn, fn <> kframe (P2V (PTE_ADDR v)) -> ~ pd_frame (m_mem (v_mach st)) pgdir fn ->
       mem_frame (m_mem s') fn = mem_frame (m_mem (v_mach st)) fn).
Proof.
  intros pgdir Has Hcr Eg Hup Hv Hp Hj Hok Hj0. pose proof (as_wf _ _ _ _ _ Has) as Hwf.
  pose proof (as_word _ _ _ _ _ _ _ Has Hv) as Hvu.
  destruct (same_page_set v Hvu) as (Hp2 & _ & _ & Ea).
  assert (is_u32 (Z.lor v PTE_A)) as Hvu2 by (by apply lor_u32).
  set (s2 := pte_set (v_mach st) pgdir (pg_va old) (Z.lor v PTE_A)).
  assert (as_inv end_ s2 l pgdir nobody) as Has2 by (eapply as_pte_flags; eauto; by intros []).
  assert (pte_at (m_mem s2) pgdir (pg_va old) = Some (Z.lor v PTE_A)) as Hv2
    by (apply (pte_set_at_same end_ _ _ _ _ v); auto).
  destruct (page_out_disk_first s2 l pgdir (pg_va old) (Z.lor v PTE_A)) as (s3 & s4 & l' & Hsd & Hkf & Hpo);
    [done..|congruence|].
  rewrite Ea in Hkf, Hpo. destruct Hpo as [Has4 Hpte4 Hfr4 _].
  destruct (disk_pte_spec _ Hvu2) as (Hd1 & Hd2 & Hd3).
  exists s4, l', (disk_pte (Z.lor v PTE_A)). split.
  { destruct (slot_offset j Hj) as [Eoff _]. unfold pf_evict. rewrite Eg.
    erewrite (Ok_bind (onmach (find_pa _ _))) by (apply onmach_Ok, (find_pa_run end_ end_high); [done|auto|exact Hv]).
    rewrite Eoff. erewrite (Ok_bind (writeToSwapFile _ _)).
    2: { apply writeToSwapFile_run; [|exact Hv|done|done]. simpl. rewrite Hcr. apply P2V_V2P. by eapply pd_u32. }
    change (PGSIZE =? -1) with false. cbv iota. erewrite Ok_bind by reflexivity.
    erewrite (Ok_bind (upd_file_page _ _)) by (apply upd_file_page_Ok; exact Hj0).
    erewrite (Ok_bind (onmach (set_page_flags_in_disk _ _))) by (apply onmach_Ok; exact Hsd).
    unfold myproc. erewrite Ok_bind by reflexivity. erewrite Ok_bind by reflexivity.
    erewrite (onmach_Ok (kfree _ _)) by (exact Hkf). cbn. by rewrite Hcr. }
  split; [done|]. split; [|split; [done|split; [done|split; [done|]]]].
  - intros vb Hvb. rewrite Hpte4 by done. case_decide as Hd; [done|]. unfold s2.
    rewrite (pte_set_at end_ _ _ _ _ _ v) by auto. rewrite !upage_round by done. by rewrite decide_False.
  - intros fn Hne Hnp. rewrite Hfr4; [|done|by unfold s2; rewrite (pte_set_pd_frame end_) by auto].
    apply (pte_set_frame end_); auto.
Qed.

(** Common start: up to the choice of the slot. *)
Lemma handle_pf_start st l x v :
  let u := PGROUNDDOWN (v_cr2 st) in
  vm_inv end_ st (x :: l) -> upage u ->
  pte_at (m_mem (v_mach st)) (pp_pgdir (v_p st)) u = Some v -> has v PTE_P = false -> has v PTE_PG = true ->
  let st1 := set_mach (kalloc_post (v_mach st) x) (set_p (inc_page_faults (v_p st)) st) in
  vm_inv end_ st1 l /\ (forall va, upage va -> view st1 va = view st va) /\
  owned end_ (v_mach st1) l (pp_pgdir (v_p st)) x /\
  (forall va, upage va -> ~ mapped (m_mem (v_mach st1)) (pp_pgdir (v_p st)) va x) /\
  exists a, onmach (walkpgdir (pp_pgdir (v_p st)) u false) st = Ok a st /\ (a =? 0) = false /\
    onmach (load a) st = Ok v st /\
    onmach kalloc (set_p (inc_page_faults (v_p st)) st) = Ok x st1.
Proof.
  intros u Hi Hu Hv Hp Hg st1. destruct (inc_page_faults_inv st _ Hi) as [Hq0 Hi0].
  destruct (vm_kalloc _ l x Hi0) as (Hrun & Hi1 & Hview & Ho & Hno).
  split; [done|]. split; [intros va Hva; etrans; [apply Hview|by eapply quiet_view]|].
  split; [done|]. split; [done|].
  destruct (walk_Ok end_ end_high st (pp_pgdir (v_p st)) u v) as (a & Hw & Ha0 & Hld & _);
    [eapply as_wf, Hi|auto|done|].
  exists a. done.
Qed.

(** The state once the page's frame and metadata are in place and the contents
    are still to come. *)
Definition pf_placed pol st2 u w (k j : nat) pgj : vm F :=
  set_p (inc_timestamp (set_memory_pages
           (<[k := pf_page pol (pp_timestamp (v_p st2)) pgj]> (pp_memory_pages (v_p st2)))
           (set_file_pages (<[j := set_age 0 (set_used false pgj)]> (pp_file_pages (v_p st2))) (v_p st2))))
    (with_pte st2 u w).

(** The contents arrive: last step, in both cases. *)
Lemma pf_fill st2 l2 st4 l4 u w x fr0 k j pgj old e e' (out : bool) :
  let pgdir := pp_pgdir (v_p st2) in
  vm_inv end_ st2 l2 -> (k < 16)%nat -> (j < 16)%nat -> upage u ->
  pp_memory_pages (v_p st2) !! k = Some old -> pg_is_used old = out ->
  pp_file_pages (v_p st2) !! j = Some pgj -> pg_is_used pgj = true -> pg_va pgj = u ->
  sw_get (v_swap st2) (Z.of_nat j * PGSIZE) = Some fr0 ->
  as_inv end_ (v_mach st4) l4 pgdir nobody -> v_cr3 st4 = v_cr3 st2 -> v_cr2 st4 = v_cr2 st2 ->
  pte_at (m_mem (v_mach st4)) pgdir u = Some w -> has w PTE_P = true -> has w PTE_W = true ->
  P2V (PTE_ADDR w) = x ->
  (forall vb, upage vb -> vb <> u -> (out = true -> vb <> pg_va old) ->
     pte_at (m_mem (v_mach st4)) pgdir vb = pte_at (m_mem (v_mach st2)) pgdir vb /\
     forall y, mapped (m_mem (v_mach st2)) pgdir vb y ->
       mem_frame (m_mem (v_mach st4)) (kframe y) = mem_frame (m_mem (v_mach st2)) (kframe y)) ->
  pp_pgdir (v_p st4) = pgdir ->
  pp_memory_pages (v_p st4) = <[k := e]> (pp_memory_pages (v_p st2)) ->
  pp_file_pages (v_p st4) = <[j := e']> (pp_file_pages (v_p st2)) ->
  pg_pgdir e = pgdir -> pg_va e = u -> pg_is_used e = true -> pg_is_used e' = out ->
  (if out then
     exists v d, pte_at (m_mem (v_mach st2)) pgdir (pg_va old) = Some v /\
       has v PTE_P = true /\ pg_va e' = pg_va old /\ pg_pgdir e' = pgdir /\
       pte_at (m_mem (v_mach st4)) pgdir (pg_va old) = Some d /\
       has d PTE_P = false /\ has d PTE_PG = true /\ 0 <= d < PGSIZE /\
       v_swap st4 = sw_put (v_swap st2) (Z.of_nat j * PGSIZE)
              (mem_frame (m_mem (v_mach st2)) (kframe (P2V (PTE_ADDR v))))
   else v_swap st4 = v_swap st2) ->
  exists st', (user_write_page u fr0;; mret 1) st4 = Ok 1 st' /\ vm_inv end_ st' l4 /\
    (forall va, upage va -> view st' va = view st2 va) /\
    exists w', pte_at (m_mem (v_mach st')) (pp_pgdir (v_p st')) u = Some w' /\ has w' PTE_P = true.
Proof.
  intros pgdir Hi2 Hk Hj Hu Hold Huo Hpgj Huj Evj Hfr0 Has4 Ecr Ecr2 Hw Hp HW Ex Hrest Epd Em Ef
    Eg Ee Hue Hue' Hout.
  destruct (sl_file _ _ _ (vi_slots _ _ _ Hi2) j pgj Hpgj Huj) as (_ & _ & _ & fr & Hfr & Hfw).
  rewrite Hfr0 in Hfr. injection Hfr as <-.
  destruct (write_in st4 l4 u w fr0) as (s5 & Hrun & Has5 & (w' & Hw' & Hp' & Ea') & Hpte5 & Hx5 & Hfr5);
    rewrite ?Epd; try done.
  { rewrite Ecr. by eapply cr3_pgdir. }
  rewrite Epd in Has5, Hw', Hpte5, Hfr5. rewrite Ex in Hx5, Hfr5.
  destruct (page_in_inv st2 l2 l4 s5 k j pgj old e e' (v_p st4) (v_swap st4) u w' x fr0 out)
    as [Hi5 Hv5]; try done.
  - by rewrite Ea'.
  - intros vb Hvb Hnu Hno. destruct (Hrest vb Hvb Hnu Hno) as [E Hy]. split.
    + by rewrite Hpte5.
    + intros y Hm. rewrite <- Hy by done.
      assert (mapped (m_mem (v_mach st4)) pgdir vb y) as Hm4 by (by apply (mapped_agree (m_mem (v_mach st2)))).
      apply Hfr5.
      * apply (mapped_frames_differ (v_mach st4) l4 pgdir u vb x y); auto. by exists w.
      * by destruct (as_frames _ _ _ _ _ Has4 vb y) as (_ & _ & ? & _); [done|intros []|done|].
  - destruct out; [|done]. destruct Hout as (v & d & Hv & Hpv & E1 & E2 & Hd & Hd1 & Hd2 & Hd3 & E3).
    exists v, d. split_and!; try done; try lia. rewrite Hpte5; [done| |].
    + by destruct (sl_mem _ _ _ (vi_slots _ _ _ Hi2) k old Hold Huo) as (_ & ? & _).
    + intros E. rewrite E in Hd. rewrite Hd in Hw. injection Hw as <-. congruence.
  - exists (set_mach s5 st4). split; [by rewrite (Ok_bind _ _ _ _ _ Hrun)|].
    assert (set_mach s5 st4 = Vm s5 (v_p st4) (v_swap st4) (v_cr2 st2) (v_cr3 st2)) as ->.
    { unfold set_mach. by rewrite Ecr, Ecr2. }
    split; [done|]. split; [done|]. exists w'. simpl. by rewrite Epd.
Qed.

(** Mapping the frame touches only the page's own entry. *)
Lemma with_pte_rest st l u v w vb : as_inv end_ (v_mach st) l (pp_pgdir (v_p st)) nobody ->
  upage u -> upage vb -> vb <> u -> pte_at (m_mem (v_mach st)) (pp_pgdir (v_p st)) u = Some v ->
  pte_at (m_mem (v_mach (with_pte st u w))) (pp_pgdir (v_p st)) vb =
    pte_at (m_mem (v_mach st)) (pp_pgdir (v_p st)) vb /\
  forall y, mapped (m_mem (v_mach st)) (pp_pgdir (v_p st)) vb y ->
    ~ pd_frame (m_mem (v_mach (with_pte st u w))) (pp_pgdir (v_p st)) (kframe y) /\
    mem_frame (m_mem (v_mach (with_pte st u w))) (kframe y) = mem_frame (m_mem (v_mach st)) (kframe y).
Proof.
  intros Has Hu Hvb Hne Hv. pose proof (as_wf _ _ _ _ _ Has) as Hwf. cbn [v_mach with_pte set_mach]. split.
  - rewrite (pte_set_at end_ _ _ _ _ _ v) by auto. rewrite !upage_round by done. by rewrite decide_False.
  - intros y Hy. destruct (as_frames _ _ _ _ _ Has vb y) as (_ & _ & Hn & _); [done|by intros []|done|].
    split; [by rewrite (pte_set_pd_frame end_) by auto|]. apply (pte_set_frame end_); auto.
Qed.

Lemma handle_pf_fill pol st2 l u v2 x k j old pgj fr0 :
  let pgdir := pp_pgdir (v_p st2) in
  vm_inv end_ st2 l -> (k < 16)%nat -> (j < 16)%nat -> upage u ->
  pp_memory_pages (v_p st2) !! k = Some old ->
  pp_file_pages (v_p st2) !! j = Some pgj -> pg_is_used pgj = true -> pg_va pgj = u ->
  sw_get (v_swap st2) (Z.of_nat j * PGSIZE) = Some fr0 ->
  pte_at (m_mem (v_mach st2)) pgdir u = Some v2 -> has v2 PTE_P = false -> 0 <= v2 < PGSIZE ->
  owned end_ (v_mach st2) l pgdir x -> (forall va, upage va -> ~ mapped (m_mem (v_mach st2)) pgdir va x) ->
  exists st' l',
    (when (pg_is_used old) (pf_evict end_ old (Z.of_nat j));; user_write_page u fr0;; mret 1)
      (pf_placed pol st2 u (mem_pte v2 (V2P x)) k j pgj) = Ok 1 st' /\ vm_inv end_ st' l' /\
    (forall va, upage va -> view st' va = view st2 va) /\
    exists w, pte_at (m_mem (v_mach st')) (pp_pgdir (v_p st')) u = Some w /\ has w PTE_P = true.
Proof.
  intros pgdir Hi2 Hk Hj Hu Hold Hpgj Huj Evj Hfr0 Hv2 Hp2 Hsm Hx Hno.
  pose proof (vi_as _ _ _ Hi2) as Has2. pose proof (vi_slots _ _ _ Hi2) as Hs2.
  destruct (map_in (v_mach st2) l pgdir u v2 x Has2 Hu Hv2 Hsm Hx Hno) as (_ & Has3 & Hwu & Ex & Hp & HW).
  set (w := mem_pte v2 (V2P x)) in *. set (st3 := pf_placed pol st2 u w k j pgj).
  assert (pte_at (m_mem (v_mach st3)) pgdir u = Some w) as Hw3.
  { apply (pte_set_at_same end_ _ _ _ _ v2); [by eapply as_wf|auto|done]. }
  pose proof (fun vb Hvb Hne => with_pte_rest st2 l u v2 w vb Has2 Hu Hvb Hne Hv2) as Hrest.
  destruct (sl_file _ _ _ Hs2 j pgj Hpgj Huj) as (Egj & _).
  assert (pg_pgdir (pf_page pol (pp_timestamp (v_p st2)) pgj) = pgdir /\
          pg_va (pf_page pol (pp_timestamp (v_p st2)) pgj) = u /\
          pg_is_used (pf_page pol (pp_timestamp (v_p st2)) pgj) = true) as (E1 & E2 & E3).
  { unfold pf_page. by destruct (bool_decide (pol = LAPA)). }
  destruct (pg_is_used old) eqn:Huo; simpl when.
  - destruct (resident_pte end_ st2 l k old Hi2 Hold Huo) as (Ego & Hupo & vo & Hvo & _ & Hpo & _).
    fold pgdir in Hvo. assert (pg_va old <> u) as Hne by congruence.
    destruct (Hrest _ Hupo Hne) as [Eo Hyo].
    assert (mapped (m_mem (v_mach st2)) pgdir (pg_va old) (P2V (PTE_ADDR vo))) as Hmo by (by exists vo).
    destruct (pf_evict_run st3 l old j (set_age 0 (set_used false pgj)) vo)
      as (s4 & l' & d & Hrun & Has4 & Hpte4 & Hd1 & Hd2 & Hd3 & Hfr4); try done.
    { apply Hi2. } { by etrans; [apply Eo|]. } { by eapply sw_get_ok. }
    { simpl. apply list_lookup_insert_eq. by rewrite (sl_file_len _ _ _ Hs2). }
    rewrite (Ok_bind _ _ _ _ _ Hrun). destruct (Hyo _ Hmo) as [_ Efo].
    set (st4 := Vm s4 _ _ _ _) in Hrun |- *.
    destruct (pf_fill st2 l st4 l' u w x fr0 k j pgj old (pf_page pol (pp_timestamp (v_p st2)) pgj)
                (set_page pgdir (pg_va old) (set_age 0 (set_used false pgj))) true)
      as (st' & Hr & Hi' & Hv' & Hw'); try done.
    + cbn. rewrite Hpte4 by done. by rewrite decide_False.
    + intros vb Hvb Hnu Hno'. specialize (Hno' eq_refl). destruct (Hrest vb Hvb Hnu) as [E Hy]. split.
      * cbn. rewrite Hpte4 by done. by rewrite decide_False.
      * intros y Hm. destruct (Hy y Hm) as [Hnp Ey]. etrans; [|exact Ey]. apply Hfr4; [|done].
        by apply (mapped_frames_differ (v_mach st2) l pgdir (pg_va old) vb _ y); auto.
    + cbn. by rewrite list_insert_insert_eq.
    + exists vo, d. cbn. rewrite Hpte4, decide_True by done. split_and!; try done; try lia.
      by rewrite <- Efo.
    + exists st', l'. done.
  - erewrite (Ok_bind (mret ())) by reflexivity.
    destruct (pf_fill st2 l st3 l u w x fr0 k j pgj old (pf_page pol (pp_timestamp (v_p st2)) pgj)
                (set_age 0 (set_used false pgj)) false) as (st' & Hr & Hi' & Hv' & Hw'); try done.
    + intros vb Hvb Hne _. destruct (Hrest vb Hvb Hne) as [E Hy]. split; [done|].
      intros y Hm. by apply Hy.
    + exists st', l. done.
Qed.

Lemma handle_pf_run pol st l x v :
  let u := PGROUNDDOWN (v_cr2 st) in
  vm_inv end_ st (x :: l) -> upage u ->
  pte_at (m_mem (v_mach st)) (pp_pgdir (v_p st)) u = Some v -> has v PTE_P = false -> has v PTE_PG = true ->
  get_i_of_va_in_file (v_p st) u = c_index (slot_of (pp_file_pages (v_p st)) u) ->
  next_free_i_in_mem (v_p st) <> -1 \/ policy_ready pol (v_p st) ->
  exists st' l', handle_pf end_ pol st = Ok 1 st' /\ vm_inv end_ st' l' /\
    (forall va, upage va -> view st' va = view st va) /\
    exists w, pte_at (m_mem (v_mach st')) (pp_pgdir (v_p st')) u = Some w /\ has w PTE_P = true.
Proof.
  intros u Hi Hu Hv Hp Hg Hslot Hr.
  destruct (handle_pf_start st l x v Hi Hu Hv Hp Hg) as (Hi1 & Hview1 & Ho1 & Hno1 & a & Hw & Ha0 & Hld & Hka).
  set (st1 := set_mach _ _) in *.
  destruct (pf_slot pol st1 l Hi1) as (k & st2 & old & Hrun & Hq & Hi2 & Hk & Hold & Huo).
  { destruct Hr; [by left|right; by apply policy_ready_faults]. }
  pose proof (qu_pte _ _ Hq u Hu) as Hrel.
  change (pte_at (m_mem (v_mach st1)) (pp_pgdir (v_p st1)) u) with
    (pte_at (m_mem (v_mach st)) (pp_pgdir (v_p st)) u) in Hrel. rewrite Hv in Hrel.
  inversion Hrel as [v1 v2 (Ep & _ & Eg & _) E1 Ev2|]; subst v1. symmetry in Ev2.
  assert (pp_pgdir (v_p st2) = pp_pgdir (v_p st)) as Epd by apply (qu_pgdir _ _ Hq).
  change (pp_pgdir (v_p st1)) with (pp_pgdir (v_p st)) in Ev2. rewrite <- Epd in Ev2.
  destruct (sl_paged _ _ _ (vi_slots _ _ _ Hi2) u v2 Hu Ev2) as (Hsm & j & pgj & Hpgj & Huj & Evj); [congruence..|].
  destruct (sl_file _ _ _ (vi_slots _ _ _ Hi2) j pgj Hpgj Huj) as (_ & _ & _ & fr0 & Hfr0 & _).
  assert ((j < 16)%nat) as Hj.
  { apply lookup_lt_Some in Hpgj as Hj. by rewrite (sl_file_len _ _ _ (vi_slots _ _ _ Hi2)) in Hj. }
  assert (get_i_of_va_in_file (v_p st2) u = Z.of_nat j) as Hgi.
  { unfold get_i_of_va_in_file in *. rewrite (qu_file _ _ Hq). etrans; [exact Hslot|].
    change (pp_file_pages (v_p st)) with (pp_file_pages (v_p st1)). rewrite <- (qu_file _ _ Hq).
    by rewrite (slot_of_Some _ _ _ u j pgj (vi_slots _ _ _ Hi2)). }
  destruct (handle_pf_fill pol st2 l u v2 x k j old pgj fr0) as (st' & l' & Hfin & Hi' & Hv' & Hw'); try done.
  { congruence. } { rewrite Epd. by apply (quiet_owned st1). }
  { intros va Hva Hm. rewrite Epd in Hm. apply (Hno1 va Hva). by apply (quiet_mapped st1 st2). }
  exists st', l'. split; [|split; [done|split; [|done]]].
  2: { intros va Hva. rewrite Hv' by done. rewrite (quiet_view end_ st1 st2 l) by done. auto. }
  destruct (slot_offset j Hj) as [Eoff _].
  unfold handle_pf, myproc, rcr2. erewrite Ok_bind by reflexivity. erewrite Ok_bind by reflexivity. fold u.
  rewrite (Ok_bind _ _ _ _ _ Hw), Ha0, (Ok_bind _ _ _ _ _ Hld), Hp, Hg. cbn [orb negb].
  erewrite Ok_bind by reflexivity. rewrite (Ok_bind _ _ _ _ _ Hka).
  erewrite Ok_bind by exact Hrun. erewrite Ok_bind by (apply mem_page_Ok; exact Hold).
  erewrite (Ok_bind (onmach (set_page_flags_in_mem _ _ _))).
  2: { apply onmach_Ok. rewrite <- Epd. apply (set_page_flags_in_mem_run end_ end_high);
         [eapply as_wf, Hi2|auto|exact Ev2]. }
  erewrite Ok_bind by reflexivity. erewrite Ok_bind by reflexivity. cbn [v_p set_cr3 set_mach].
  rewrite Hgi, (proj2 (Z.eqb_neq _ _)), Eoff by lia.
  unfold readFromSwapFile. erewrite Ok_bind by reflexivity. cbn [v_swap set_cr3 set_mach]. rewrite Hfr0.
  erewrite (Ok_bind (pf_install _ _ _)) by (apply (pf_install_run pol _ k j old pgj); [exact Hold|exact Hpgj]).
  rewrite <- Hfin, Huo. do 2 f_equal. unfold pf_placed, with_pte, set_p, set_cr3, set_mach. cbn.
  by rewrite (vi_cr3 _ _ _ Hi2), <- Epd.
Qed.

End demand.
