(* ===== verification/Cow.v ===== *)
(** * Copy-on-write faults

    [handle_cow] on a write to a shared page: the page gets a frame of its own,
    or is made writable in place by its last holder.  The page keeps its
    contents, and no frame but the new one and the page table's is written, so
    no other address space sees a change. *)

From S2P Require Import Prelude Mmu Memory Kalloc PageTable Vm Paging VmInv Replacement Demand.

Section cow.
Context {F : Type} `{SwapLaws F}.
Context (end_ : Z) (end_high : KERNBASE <= end_).
Implicit Types st : vm F.

(** One present page remapped to a frame with the same contents. *)
Lemma remap_inv st l s' l' u x x' : vm_inv end_ st l -> upage u ->
  let pgdir := pp_pgdir (v_p st) in
  mapped (m_mem (v_mach st)) pgdir u x -> mapped (m_mem s') pgdir u x' ->
  as_inv end_ s' l' pgdir nobody ->
  (forall vb, upage vb -> vb <> u -> pte_at (m_mem s') pgdir vb = pte_at (m_mem (v_mach st)) pgdir vb) ->
  mem_frame (m_mem s') (kframe x') = mem_frame (m_mem (v_mach st)) (kframe x) ->
  (forall vb y, upage vb -> vb <> u -> mapped (m_mem (v_mach st)) pgdir vb y ->
     mem_frame (m_mem s') (kframe y) = mem_frame (m_mem (v_mach st)) (kframe y)) ->
  vm_inv end_ (set_mach s' st) l' /\
  forall va, upage va -> view (set_mach s' st) va = view st va.
Proof.
  intros Hi Hu pgdir Hx Hx' Has' Hpte Hfx Hfr.
  assert (slots_inv (v_p st) (v_swap st) (m_mem s')) as Hs' by (by eapply (slots_remap _ _ _ _ u x x' (vi_slots _ _ _ Hi))).
  split; [split; [done|done|apply Hi]|]. intros vb Hvb. destruct (decide (vb = u)) as [->|Hne].
  - destruct Hx as (v & Hv & Hp & <-), Hx' as (w & Hw & Hp' & <-).
    rewrite (view_present st u v), (view_present (set_mach s' st) u w) by done. by f_equal.
  - unfold view, view_at. cbn [v_mach v_p v_swap set_mach]. fold pgdir. rewrite Hpte by done.
    destruct (pte_at _ _ vb) as [v|] eqn:Hv; [|done]. simpl. destruct (has v PTE_P) eqn:Hp; [|done].
    f_equal. apply (Hfr vb); try done. by exists v.
Qed.

(** The counter of an owned frame goes down, and stays positive. *)
Lemma as_dec s l pgdir ex x : as_inv end_ s l pgdir ex -> owned end_ s l pgdir x -> 1 < page_refs s x ->
  let s' := refs_set (kframe x) (page_refs s x - 1) s in
  dec_counter (V2P x) s = Ok () s' /\ as_inv end_ s' l pgdir ex /\
  forall y, owned end_ s l pgdir y -> owned end_ s' l pgdir y.
Proof.
  intros Has Ho Hgt s'. pose proof Ho as (Hv & Hnin & Hnp & Hr).
  destruct (counter_run end_ s x Hv) as (_ & Hd & _); [lia|]. split; [done|].
  assert (forall y, valid_page end_ y -> 1 <= page_refs s y < 2147483647 ->
    1 <= page_refs s' y < 2147483647) as Hrefs.
  { intros y Hvy Hry. unfold s'. rewrite page_refs_set.
    case_decide as E; [|done]. rewrite (valid_page_inj end_ x y Hv Hvy E) in Hgt |- *. lia. }
  split; [|intros y (? & ? & ? & ?); split; [done|split; [done|split; [done|by apply Hrefs]]]].
  apply (as_agree end_ s s' l l pgdir ex); try done; try apply (as_pd _ _ _ _ _ Has).
  - destruct (po_kmem _ _ _ _ (as_pd _ _ _ _ _ Has)) as [Hc Hnd Hvl Hrf]. split; try done.
    rewrite Forall_forall in Hrf, Hvl |- *. intros y Hy. unfold s'. rewrite page_refs_set.
    rewrite decide_False; [by apply Hrf|]. intros E. apply Hnin.
    by rewrite (valid_page_inj end_ x y Hv (Hvl y Hy) E).
  - intros va y _ _ _ (Hvy & Hny & _ & Hry). split; [done|]. by apply Hrefs.
Qed.

Definition cow_pte (x : Z) : Z := Z.lor (Z.lor (Z.lor (V2P x) PTE_P) PTE_U) PTE_W.

Lemma cow_pte_spec x : is_u32 x -> aligned x ->
  is_u32 (cow_pte x) /\ P2V (PTE_ADDR (cow_pte x)) = x /\ has (cow_pte x) PTE_P = true /\
  has (cow_pte x) PTE_W = true /\ has (cow_pte x) PTE_COW = false.
Proof.
  intros Hx Hal. unfold cow_pte. rewrite <- !Z.lor_assoc.
  change (Z.lor PTE_P (Z.lor PTE_U PTE_W)) with 7.
  destruct (pte_make (V2P x) 7) as (E1 & E2 & E3);
    [apply u32_range|by apply V2P_aligned|unfold PGSIZE; lia|].
  split; [done|]. split; [by rewrite E1, P2V_V2P|].
  assert (forall b, 0 <= b < PGSIZE -> has (Z.lor (V2P x) 7) b = has 7 b) as Hb.
  { intros b Hb. rewrite has_lor, has_aligned; [done|by apply V2P_aligned|done]. }
  by rewrite !Hb by done.
Qed.

(** The entry a write fault on [va] finds. *)
Lemma cow_walk st l u va v : vm_inv end_ st l -> is_u32 va -> PGROUNDDOWN va = u -> upage u ->
  pte_at (m_mem (v_mach st)) (pp_pgdir (v_p st)) u = Some v ->
  exists t, table_at (m_mem (v_mach st)) (pp_pgdir (v_p st)) u = Some t /\
    let a := entry t (PTX u) in
    onmach (walkpgdir (pp_pgdir (v_p st)) va false) st = Ok a st /\ (a =? 0) = false /\
    onmach (load a) st = Ok v st.
Proof.
  intros Hi Hva Eu Hu Hv. pose proof Hv as (t & Ht & Hl)%pte_at_table. exists t. split; [done|]. simpl.
  assert (PDX va = PDX u /\ PTX va = PTX u) as [E1 E2].
  { apply same_page_iff; [done|auto|]. by rewrite (upage_round u). }
  assert (onmach (walkpgdir (pp_pgdir (v_p st)) va false) st = Ok (entry t (PTX u)) st) as Hw.
  { rewrite <- E2. apply onmach_same, walk_present. by rewrite (table_at_PDX _ _ va u E1). }
  split; [done|]. split.
  - eapply (walk_entry_nonzero end_ end_high); [eapply as_wf, Hi|auto|done].
  - apply onmach_same. unfold load, gets. by rewrite Hl.
Qed.

(** The only holder of the frame: the page becomes writable in place. *)
Lemma handle_cow_last st l u v : vm_inv end_ st l -> is_u32 (v_cr2 st) -> PGROUNDDOWN (v_cr2 st) = u -> upage u ->
  let pgdir := pp_pgdir (v_p st) in
  pte_at (m_mem (v_mach st)) pgdir u = Some v -> has v PTE_P = true ->
  has v PTE_W = false -> has v PTE_COW = true -> page_refs (v_mach st) (P2V (PTE_ADDR v)) = 1 ->
  let w := Z.lor (clear_bits v PTE_COW) PTE_W in
  let st' := set_mach (pte_set (v_mach st) pgdir u w) st in
  handle_cow st = Ok 1 st' /\ vm_inv end_ st' l /\ forall va, upage va -> view st' va = view st va.
Proof.
  intros Hi Hva Eu Hu pgdir Hv Hp HW HC Hr w st'.
  pose proof (vi_as _ _ _ Hi) as Has. pose proof (as_word _ _ _ _ _ _ _ Has Hv) as Hvu.
  pose proof (as_wf _ _ _ _ _ Has) as Hwf.
  destruct (cow_walk st l u (v_cr2 st) v Hi Hva Eu Hu Hv) as (t & Ht & Hw & Ha0 & Hld).
  assert (is_u32 (clear_bits v PTE_COW)) as Hcu by (by apply clear_bits_range).
  assert (is_u32 w) as Hwu by (by apply lor_u32).
  assert (PTE_ADDR w = PTE_ADDR v) as Ea by (unfold w; rewrite PTE_ADDR_set, PTE_ADDR_clear; done).
  assert (has w PTE_P = true) as Hpw by (unfold w; rewrite has_lor, has_clear_disjoint by done; by rewrite Hp).
  assert (mapped (m_mem (v_mach st)) pgdir u (P2V (PTE_ADDR v))) as Hm by (by exists v).
  assert (as_inv end_ (pte_set (v_mach st) pgdir u w) l pgdir nobody) as Has'.
  { eapply as_pte_flags; eauto; congruence. }
  assert (owned end_ (v_mach st) l pgdir (P2V (PTE_ADDR v))) as Ho.
  { apply (as_frames _ _ _ _ _ Has u); [done|by intros []|done]. }
  destruct (remap_inv st l (pte_set (v_mach st) pgdir u w) l u (P2V (PTE_ADDR v)) (P2V (PTE_ADDR v)))
    as [Hi' Hv']; try done.
  - apply (mapped_pte_set end_ (v_mach st) l pgdir nobody u u v); try done. rewrite decide_True by done.
    by rewrite Ea.
  - intros vb Hvb Hne. rewrite (pte_set_at end_ _ _ _ _ _ v) by auto. rewrite !upage_round by done.
    by rewrite decide_False.
  - apply (pte_set_frame end_); [done|auto|apply Ho].
  - intros vb y Hvb Hne Hy. apply (pte_set_frame end_); [done|auto|].
    by destruct (as_frames _ _ _ _ _ Has vb y) as (_ & _ & ? & _); [done|intros []|done|].
  - split; [|done]. destruct (counter_run end_ (v_mach st) (P2V (PTE_ADDR v))) as (_ & _ & Hgc); [apply Ho|lia|].
    rewrite V2P_P2V, Hr in Hgc by apply PTE_ADDR_range.
    unfold handle_cow, myproc, rcr2. erewrite Ok_bind by reflexivity. erewrite Ok_bind by reflexivity.
    rewrite (Ok_bind _ _ _ _ _ Hw), Ha0, (Ok_bind _ _ _ _ _ Hld), HW, HC. cbn [orb negb].
    rewrite (Ok_bind _ _ _ _ _ (onmach_same _ _ _ Hgc)). change (1 <? 1) with false. cbv iota.
    fold pgdir in Ht. unfold st', pte_set. rewrite Ht.
    unfold mbind, M_bind, bindM, onmach, zoom, store, load, modify, gets, lcr3. cbn.
    rewrite kload_kstore_eq, kstore_kstore. unfold mret, M_ret. f_equal. unfold set_cr3, set_mach; cbn.
    by rewrite (vi_cr3 _ _ _ Hi).
Qed.

(** The machine after a shared page was copied to the fresh frame [x]. *)
Definition cow_copied (s : mach) (pgdir u x xo : Z) : mach :=
  let s1 := kalloc_post s x in
  let s2 := set_mem (kcopy (m_mem s1) x xo) s1 in
  pte_set (refs_set (kframe xo) (page_refs s xo - 1) s2) pgdir u (cow_pte x).

Lemma cow_copied_spec s l pgdir u v x : as_inv end_ s (x :: l) pgdir nobody -> upage u ->
  pte_at (m_mem s) pgdir u = Some v -> has v PTE_P = true ->
  let xo := P2V (PTE_ADDR v) in 1 < page_refs s xo ->
  let s1 := kalloc_post s x in
  let s2 := set_mem (kcopy (m_mem s1) x xo) s1 in
  let s' := cow_copied s pgdir u x xo in
  kalloc s = Ok x s1 /\ x <> 0 /\
  dec_counter (V2P xo) s2 = Ok () (refs_set (kframe xo) (page_refs s xo - 1) s2) /\
  as_inv end_ s' l pgdir nobody /\
  table_at (m_mem s2) pgdir u = table_at (m_mem s) pgdir u /\
  (forall vb, upage vb -> pte_at (m_mem s') pgdir vb =
     if decide (u = vb) then Some (cow_pte x) else pte_at (m_mem s) pgdir vb) /\
  mem_frame (m_mem s') (kframe x) = mem_frame (m_mem s) (kframe xo) /\
  (forall fn, fn <> kframe x -> ~ pd_frame (m_mem s) pgdir fn -> mem_frame (m_mem s') fn = mem_frame (m_mem s) fn) /\
  page_refs s' x = 1 /\ page_refs s' xo = page_refs s xo - 1.
Proof.
  intros Has Hu Hv Hp xo Hc s1 s2 s'. pose proof (as_wf _ _ _ _ _ Has) as Hwf.
  assert (mapped (m_mem s) pgdir u xo) as Hm by (by exists v).
  destruct (as_kalloc end_ end_high s l pgdir nobody x Has) as (Hka & Has1 & Hx1 & Hno1).
  assert (owned end_ s (x :: l) pgdir xo) as Hxo0 by (apply (as_frames _ _ _ _ _ Has u); [done|by intros []|done]).
  assert (owned end_ s1 l pgdir xo) as Hxo1 by (apply (as_frames _ _ _ _ _ Has1 u); [done|by intros []|done]).
  assert (kframe xo <> kframe x) as Hne.
  { intros E. apply (Hno1 u Hu); [by intros []|].
    by rewrite <- (valid_page_inj end_ xo x (proj1 Hxo1) (proj1 Hx1) E). }
  destruct (as_write_frame end_ s1 l pgdir nobody x (mem_frame (m_mem s1) (kframe xo)) Has1 Hx1)
    as (Has2 & Ho2 & Hpte2); [apply (po_words _ _ _ _ (as_pd _ _ _ _ _ Has1))|].
  change (write_frame s1 (kframe x) (mem_frame (m_mem s1) (kframe xo))) with s2 in Has2, Ho2, Hpte2.
  assert (page_refs s2 xo = page_refs s xo) as Er.
  { change (page_refs (refs_set (kframe x) 1 s) xo = page_refs s xo). rewrite page_refs_set.
    by rewrite decide_False. }
  destruct (as_dec s2 l pgdir nobody xo Has2 (Ho2 _ Hxo1)) as (Hd & Has3 & Ho3); [lia|].
  rewrite Er in Hd, Has3, Ho3. set (s3 := refs_set (kframe xo) (page_refs s xo - 1) s2) in *.
  assert (pte_at (m_mem s3) pgdir u = Some v) as Hv3 by (etrans; [apply Hpte2; auto|done]).
  destruct (cow_pte_spec x) as (Hcu & Hca & Hcp & _); [apply Hx1..|].
  assert (forall fn, fn <> kframe x -> mem_frame (m_mem s3) fn = mem_frame (m_mem s) fn) as Hf3.
  { intros fn Hfn. simpl. rewrite mem_frame_kcopy. by rewrite decide_False. }
  assert (forall fn, pd_frame (m_mem s3) pgdir fn <-> pd_frame (m_mem s) pgdir fn) as Hpd3.
  { apply pd_frame_agree; [by eapply pd_u32|by eapply pd_aligned|]. apply Hf3.
    intros E. apply (proj1 (proj2 (proj2 Hx1))). left. by symmetry. }
  split; [done|]. split; [eapply (valid_page_nonzero end_ end_high), Hx1|]. split; [done|]. split.
  { eapply as_weaken; [eapply (as_pte_set end_ s3 l pgdir nobody u v (cow_pte x)); try done|].
    - intros _. rewrite Hca. split; [by apply Ho3, Ho2|]. intros vb Hvb _ Hmb.
      destruct (Hno1 vb Hvb); [by intros []|]. apply (mapped_agree (m_mem s) (m_mem s3)); [|done].
      symmetry. etrans; [|symmetry; apply Hpte2; auto]. done.
    - by intros ? [[] _]. }
  split; [apply table_at_frame; [by eapply pd_u32|by eapply pd_aligned|]; apply (Hf3 (kframe pgdir));
          intros E; apply (proj1 (proj2 (proj2 Hx1))); left; by symmetry|].
  split; [|split; [|split; [|split]]].
  - intros vb Hvb. unfold s', cow_copied. fold s1 s2 s3.
    rewrite (pte_set_at end_ s3 pgdir u vb _ v); [|by eapply as_wf|auto|auto|done].
    rewrite !upage_round by done. case_decide; [done|]. by apply (Hpte2 vb); auto.
  - unfold s', cow_copied. fold s1 s2 s3. rewrite (pte_set_frame end_ s3); [|by eapply as_wf|auto|].
    + simpl. rewrite mem_frame_kcopy. by rewrite decide_True.
    + rewrite Hpd3. apply Hx1.
  - intros fn Hfn Hnp. unfold s', cow_copied. fold s1 s2 s3.
    rewrite (pte_set_frame end_ s3); [by apply Hf3|by eapply as_wf|auto|by rewrite Hpd3].
  - unfold s', cow_copied. fold s1 s2 s3. rewrite pte_set_refs. unfold s3. rewrite page_refs_set, decide_False by done.
    change (page_refs (refs_set (kframe x) 1 s) x = 1). rewrite page_refs_set. by rewrite decide_True.
  - unfold s', cow_copied. fold s1 s2 s3. rewrite pte_set_refs. unfold s3. rewrite page_refs_set. by rewrite decide_True.
Qed.

(** The frame is shared: the page is copied. *)
Lemma handle_cow_copy st l u v x : vm_inv end_ st (x :: l) -> is_u32 (v_cr2 st) ->
  PGROUNDDOWN (v_cr2 st) = u -> upage u ->
  let pgdir := pp_pgdir (v_p st) in
  pte_at (m_mem (v_mach st)) pgdir u = Some v -> has v PTE_P = true ->
  has v PTE_W = false -> has v PTE_COW = true -> 1 < page_refs (v_mach st) (P2V (PTE_ADDR v)) ->
  let st' := set_mach (cow_copied (v_mach st) pgdir u x (P2V (PTE_ADDR v))) st in
  handle_cow st = Ok 1 st' /\ vm_inv end_ st' l /\ forall va, upage va -> view st' va = view st va.
Proof.
  intros Hi Hva Eu Hu pgdir Hv Hp HW HC Hr st'. pose proof (vi_as _ _ _ Hi) as Has.
  set (xo := P2V (PTE_ADDR v)) in *.
  assert (mapped (m_mem (v_mach st)) pgdir u xo) as Hm by (by exists v).
  assert (owned end_ (v_mach st) (x :: l) pgdir xo) as Ho by (apply (as_frames _ _ _ _ _ Has u); [done|by intros []|done]).
  destruct (cow_walk st (x :: l) u (v_cr2 st) v Hi Hva Eu Hu Hv) as (t & Ht & Hw & Ha0 & Hld).
  destruct (cow_copied_spec (v_mach st) l pgdir u v x Has Hu Hv Hp Hr)
    as (Hka & Hx0 & Hd & Has' & Htb & Hpte & Hfx & Hfr & _).
  destruct (cow_pte_spec x) as (_ & Hca & Hcp & _).
  { by apply (Forall_cons_1 _ _ _ (ki_valid _ _ _ (po_kmem _ _ _ _ (as_pd _ _ _ _ _ Has)))). }
  { by apply (Forall_cons_1 _ _ _ (ki_valid _ _ _ (po_kmem _ _ _ _ (as_pd _ _ _ _ _ Has)))). }
  destruct (remap_inv st (x :: l) (cow_copied (v_mach st) pgdir u x xo) l u xo x) as [Hi' Hv']; try done.
  - exists (cow_pte x). rewrite Hpte by done. by rewrite decide_True.
  - intros vb Hvb Hne. rewrite Hpte by done. by rewrite decide_False.
  - intros vb y Hvb Hne Hy.
    destruct (as_frames _ _ _ _ _ Has vb y) as (Hvy & Hny & Hnp & _); [done|by intros []|done|].
    apply Hfr; [|done]. intros E. apply Hny, elem_of_cons. left. eapply (valid_page_inj end_); [done| |done].
    by apply (Forall_cons_1 _ _ _ (ki_valid _ _ _ (po_kmem _ _ _ _ (as_pd _ _ _ _ _ Has)))).
  - split; [|done]. destruct (counter_run end_ (v_mach st) xo) as (_ & _ & Hgc); [apply Ho|apply Ho|].
    assert (V2P xo = PTE_ADDR v) as Exo by apply V2P_P2V, PTE_ADDR_range.
    fold xo in Hd, Htb. rewrite Exo in Hgc, Hd.
    unfold handle_cow, myproc, rcr2. erewrite Ok_bind by reflexivity. erewrite Ok_bind by reflexivity.
    rewrite (Ok_bind _ _ _ _ _ Hw), Ha0, (Ok_bind _ _ _ _ _ Hld), HW, HC. cbn [orb negb].
    rewrite (Ok_bind _ _ _ _ _ (onmach_same _ _ _ Hgc)), (proj2 (Z.ltb_lt _ _)) by done. cbv iota. fold xo.
    apply Z.eqb_neq in Hx0.
    unfold mbind, M_bind, bindM, onmach, zoom. rewrite Hka, Hx0. cbn -[dec_counter kalloc_post].
    unfold copy_page, modify. cbn -[dec_counter kalloc_post]. rewrite Hd.
    unfold store, load, modify, gets, lcr3. cbn -[kalloc_post]. rewrite kstore_kstore.
    unfold mret, M_ret. f_equal. unfold st', cow_copied, pte_set, set_cr3, set_mach.
    cbn [m_mem refs_set set_kmem set_mem] in Htb |- *. rewrite Htb. fold pgdir in Ht. rewrite Ht. cbn -[kalloc_post].
    by rewrite (vi_cr3 _ _ _ Hi).
Qed.
End cow.
