(* ===== verification/Uvm.v ===== *)
(** * Growing and shrinking an address space

    [allocuvm] and [deallocuvm] on the current process: what they do to the
    pages it sees, and what they leave behind. *)

From S2P Require Import Prelude Mmu Memory Kalloc PageTable Vm Paging VmInv Replacement Demand.

Section uvm.
Context {F : Type} `{SwapLaws F}.
Context (end_ : Z) (end_high : KERNBASE <= end_).
Implicit Types st : vm F.

(** ** Mapping a fresh frame *)

(** Steps that build page-table pages out of free ones: frames the address
    space owns are not among those. *)
Lemma pd_step_owned s s' l l' pgdir x : kmem_inv end_ s l -> pd_step end_ s s' l l' pgdir ->
  owned end_ s l pgdir x ->
  owned end_ s' l' pgdir x /\ mem_frame (m_mem s') (kframe x) = mem_frame (m_mem s) (kframe x).
Proof.
  intros Hk [Hok (used & -> & Hoc & Hpf & Hr)] (Hv & Hnin & Hnp & Href).
  rewrite elem_of_app in Hnin.
  assert (~ (kframe x ∈ kframe <$> used)) as Hnu.
  { intros (y & E & Hy)%list_elem_of_fmap. apply Hnin. left.
    pose proof (ki_valid _ _ _ Hk) as [Hvu _]%Forall_app. rewrite Forall_forall in Hvu.
    by rewrite (valid_page_inj end_ x y Hv (Hvu y Hy) E). }
  split; [|apply Hoc; tauto]. split; [done|]. split; [tauto|]. split.
  - intros Hpd. destruct (Hpf _ Hpd); tauto.
  - rewrite Hr; [done|done|tauto].
Qed.

(** Entries an operation did not mean to touch. *)
Lemma pte_ext_mapped (m m' : memory) pgdir vb x :
  pte_ext (pte_at m pgdir vb) (pte_at m' pgdir vb) -> mapped m' pgdir vb x <-> mapped m pgdir vb x.
Proof.
  unfold mapped. intros [->|[-> ->]]; [done|]. split; [|by intros (? & ? & _)].
  intros (w & [= <-] & ? & _). done.
Qed.

Lemma pte_ext_paged (m m' : memory) pgdir vb v : has v PTE_PG = true ->
  pte_ext (pte_at m pgdir vb) (pte_at m' pgdir vb) ->
  pte_at m' pgdir vb = Some v <-> pte_at m pgdir vb = Some v.
Proof.
  intros Hg [->|[-> ->]]; [done|]. split; [|done]. intros [= <-]. done.
Qed.

Definition user_pte (x : Z) : Z := mapped_pte (V2P x) (Z.lor PTE_W PTE_U).

Lemma user_pte_spec x : is_u32 x -> aligned x ->
  P2V (PTE_ADDR (user_pte x)) = x /\ has (user_pte x) PTE_P = true /\
  has (user_pte x) PTE_W = true /\ has (user_pte x) PTE_PG = false.
Proof.
  intros Hx Hal. destruct (mapped_pte_spec (V2P x) (Z.lor PTE_W PTE_U)) as (E & Hp & Hb);
    [apply u32_range|by apply V2P_aligned|done|].
  unfold user_pte. rewrite E, P2V_V2P by done. by rewrite !Hb.
Qed.

(** What mapping the frame [x] at [va] leaves. *)
Record mapped_in (s s' : mach) (l l' : list Z) (pgdir va x : Z) : Prop := {
  mi_as : as_inv end_ s' l' pgdir nobody;
  mi_owned : forall y, owned end_ s l pgdir y -> owned end_ s' l' pgdir y;
  mi_frames : forall y, owned end_ s l pgdir y -> mem_frame (m_mem s') (kframe y) = mem_frame (m_mem s) (kframe y);
  mi_list : exists used, l = used ++ l';
  mi_ext : forall vb, upage vb -> vb <> va -> pte_ext (pte_at (m_mem s) pgdir vb) (pte_at (m_mem s') pgdir vb);
}.

Lemma as_mappages s l pgdir va x : as_inv end_ s l pgdir nobody -> upage va ->
  (forall v, pte_at (m_mem s) pgdir va = Some v -> has v PTE_P = false) ->
  owned end_ s l pgdir x -> (forall vb, upage vb -> ~ mapped (m_mem s) pgdir vb x) ->
  exists r s' l', mappages pgdir va PGSIZE (V2P x) (Z.lor PTE_W PTE_U) s = Ok r s' /\
    mapped_in s s' l l' pgdir va x /\
    ((r = -1 /\ l = [] /\ l' = [] /\ pte_ext (pte_at (m_mem s) pgdir va) (pte_at (m_mem s') pgdir va)) \/
     (r = 0 /\ (length l <= S (length l'))%nat /\ pte_at (m_mem s') pgdir va = Some (user_pte x))).
Proof.
  intros Has Hva Hnp Hx Hno. pose proof (as_pd _ _ _ _ _ Has) as Hpd.
  pose proof Hx as ((Hxu & Hxa & _) & _). destruct (user_pte_spec x Hxu Hxa) as (Ex & Hp & _).
  destruct (mappages_page end_ end_high s l pgdir va (V2P x) (Z.lor PTE_W PTE_U))
    as (r & s' & l' & Hrun & Hst & Hc); [done|auto|apply Hva|apply u32_range|done|done|].
  assert (forall y, owned end_ s l pgdir y -> owned end_ s' l' pgdir y /\
    mem_frame (m_mem s') (kframe y) = mem_frame (m_mem s) (kframe y)) as Hown.
  { intros y. apply pd_step_owned; [apply Hpd|done]. }
  assert (forall vb, upage vb -> vb <> va -> pte_ext (pte_at (m_mem s) pgdir vb) (pte_at (m_mem s') pgdir vb)) as Hext.
  { intros vb Hvb Hne. destruct Hc as [(_ & _ & _ & _ & He)|(_ & _ & He)]; [by apply He; auto|].
    specialize (He vb ltac:(auto)). rewrite decide_False in He; [done|]. by rewrite upage_round. }
  assert ((r = -1 /\ l = [] /\ l' = [] /\ pte_ext (pte_at (m_mem s) pgdir va) (pte_at (m_mem s') pgdir va)) \/
     (r = 0 /\ (length l <= S (length l'))%nat /\ pte_at (m_mem s') pgdir va = Some (user_pte x))) as Hat.
  { destruct Hc as [(-> & -> & -> & _ & He)|(-> & Hlen & He)]; [left|right].
    - split_and!; try done. apply He. auto.
    - split; [done|]. split; [unfold needs in Hlen; destruct (table_at _ _ _); simpl in Hlen; lia|]. specialize (He va ltac:(auto)). rewrite decide_True in He; [done|]. by rewrite upage_round. }
  exists r, s', l'. split; [done|]. split; [|done].
  assert (forall vb y, upage vb -> mapped (m_mem s') pgdir vb y ->
    (vb = va /\ y = x) \/ mapped (m_mem s) pgdir vb y) as Hmap.
  { intros vb y Hvb Hm. destruct (decide (vb = va)) as [->|Hne].
    - destruct Hat as [(_ & _ & _ & He)|(_ & _ & E)]; [right; by apply (pte_ext_mapped _ (m_mem s'))|].
      left. split; [done|]. destruct Hm as (w & Hw & _ & <-). congruence.
    - right. by apply (pte_ext_mapped _ (m_mem s')); [apply Hext|]. }
  split; [split|..].
  - apply (ps_ok _ _ _ _ _ _ Hst).
  - intros vb y Hvb _ Hm. apply Hown. destruct (Hmap vb y Hvb Hm) as [[-> ->]|Hm']; [done|].
    apply (as_frames _ _ _ _ _ Has vb); [done|by intros []|done].
  - intros vb vc y Hvb Hvc _ _ Hb Hcc.
    destruct (Hmap vb y Hvb Hb) as [[-> Eb]|Hb'], (Hmap vc y Hvc Hcc) as [[-> Ec]|Hc']; [done|..].
    + rewrite Eb in Hc'. by destruct (Hno vc Hvc).
    + rewrite Ec in Hb'. by destruct (Hno vb Hvb).
    + apply (as_inj _ _ _ _ _ Has vb vc y); try done; by intros [].
  - intros y Hy. by apply Hown.
  - intros y Hy. by apply Hown.
  - destruct (ps_used _ _ _ _ _ _ Hst) as (used & -> & _). by exists used.
  - done.
Qed.

(** ** One new page *)

(** An address with nothing behind it. *)
Definition vacant st (va : Z) : Prop :=
  forall v, pte_at (m_mem (v_mach st)) (pp_pgdir (v_p st)) va = Some v ->
    has v PTE_P = false /\ has v PTE_PG = false.

Lemma vacant_untracked st l va : vm_inv end_ st l -> vacant st va -> untracked (v_p st) va.
Proof.
  intros Hi Hvac i pg Hpg Hu <-.
  destruct (sl_mem _ _ _ (vi_slots _ _ _ Hi) i pg Hpg Hu) as (_ & _ & x & v & Hv & Hp & _).
  destruct (Hvac v Hv). congruence.
Qed.

(** Clearing a fresh frame. *)
Lemma vm_memset st l x : vm_inv end_ st l -> owned end_ (v_mach st) l (pp_pgdir (v_p st)) x ->
  (forall va, upage va -> ~ mapped (m_mem (v_mach st)) (pp_pgdir (v_p st)) va x) ->
  let st' := set_mach (write_frame (v_mach st) (kframe x) (frame_fill 0)) st in
  onmach (memset_page x 0) st = Ok () st' /\ vm_inv end_ st' l /\
  (forall va, upage va -> view st' va = view st va) /\
  owned end_ (v_mach st') l (pp_pgdir (v_p st)) x /\
  (forall va, is_u32 va -> pte_at (m_mem (v_mach st')) (pp_pgdir (v_p st)) va =
                           pte_at (m_mem (v_mach st)) (pp_pgdir (v_p st)) va).
Proof.
  intros Hi Hx Hno st'. pose proof (vi_as _ _ _ Hi) as Has.
  destruct (as_write_frame end_ (v_mach st) l _ nobody x (frame_fill 0) Has Hx) as (Has' & Ho & Hpte);
    [apply frame_fill_words|].
  split; [done|]. split.
  { split; [done| |apply Hi].
    pose proof (vi_slots _ _ _ Hi) as Hs. destruct Hs as [L1 L2 Hm Hmi Hf Hfi Hpg]. split; try done.
    - intros i pg Hpi Hu. destruct (Hm i pg Hpi Hu) as (? & ? & y & Hy). split; [done|]. split; [done|].
      exists y. apply (mapped_agree (m_mem (v_mach st))); [apply Hpte; auto|done].
    - intros i pg Hpi Hu. destruct (Hf i pg Hpi Hu) as (? & ? & Hp & ?). split; [done|]. split; [done|].
      split; [|done]. unfold paged. cbn [v_mach set_mach]. by rewrite Hpte by auto.
    - intros va v Hva. cbn [v_mach set_mach v_p]. rewrite Hpte by auto. by apply Hpg. }
  split; [|split; [by apply Ho|done]].
  intros va Hva. unfold view, view_at. cbn [v_mach v_p v_swap set_mach st']. rewrite Hpte by auto.
  destruct (pte_at _ _ va) as [v|] eqn:Hv; [|done]. simpl. destruct (has v PTE_P) eqn:Hp; [|done].
  f_equal. rewrite mem_frame_insert, decide_False; [done|]. intros E.
  assert (mapped (m_mem (v_mach st)) (pp_pgdir (v_p st)) va (P2V (PTE_ADDR v))) as Hm by (by exists v).
  apply (Hno va Hva). rewrite (valid_page_inj end_ x (P2V (PTE_ADDR v)) (proj1 Hx)); [done| |done].
  by destruct (as_frames _ _ _ _ _ Has va (P2V (PTE_ADDR v))) as (? & _); [done|intros []|done|].
Qed.

(** Mapping it. *)
Lemma vm_mappages st l a x : vm_inv end_ st l -> upage a -> vacant st a ->
  owned end_ (v_mach st) l (pp_pgdir (v_p st)) x -> l <> [] ->
  (forall va, upage va -> ~ mapped (m_mem (v_mach st)) (pp_pgdir (v_p st)) va x) ->
  exists s' l',
    let st' := set_mach s' st in
    onmach (mappages (pp_pgdir (v_p st)) a PGSIZE (V2P x) (Z.lor PTE_W PTE_U)) st = Ok 0 st' /\
    vm_inv end_ st' l' /\ (length l <= S (length l'))%nat /\
    mapped (m_mem s') (pp_pgdir (v_p st)) a x /\
    view st' a = Some (mem_frame (m_mem (v_mach st)) (kframe x)) /\
    forall va, upage va -> va <> a -> view st' va = view st va /\ (vacant st va -> vacant st' va).
Proof.
  intros Hi Ha Hvac Hx Hl Hno. pose proof (vi_as _ _ _ Hi) as Has. pose proof (vi_slots _ _ _ Hi) as Hs.
  destruct (as_mappages (v_mach st) l _ a x Has Ha) as (r & s' & l' & Hrun & Hmi & Hc); try done.
  { intros v Hv. by apply Hvac. }
  destruct Hc as [(_ & -> & _)|(-> & Hlen & Hat)]; [done|]. destruct Hmi as [Has' Ho Hfr _ Hext].
  destruct (user_pte_spec x) as (Ex & Hp & _); [apply Hx..|].
  assert (mapped (m_mem s') (pp_pgdir (v_p st)) a x) as Hm by (by exists (user_pte x)).
  exists s', l'. cbv zeta. split; [by apply onmach_Ok|].
  assert (forall va v, upage va -> has v PTE_P = false -> has v PTE_PG = true ->
    pte_at (m_mem s') (pp_pgdir (v_p st)) va = Some v <->
    pte_at (m_mem (v_mach st)) (pp_pgdir (v_p st)) va = Some v) as Hpg.
  { intros va v Hva Hnp Hg. destruct (decide (va = a)) as [->|Hne].
    - rewrite Hat. split; [intros [= <-]; congruence|]. intros Hv. destruct (Hvac v Hv). congruence.
    - by apply pte_ext_paged; [|apply Hext]. }
  assert (slots_inv (v_p st) (v_swap st) (m_mem s')) as Hs'.
  { destruct (lookup_lt_is_Some_2 (pp_memory_pages (v_p st)) 0) as [e He]; [rewrite (sl_mem_len _ _ _ Hs); lia|].
    assert (forall i pg, pp_memory_pages (v_p st) !! i = Some pg -> pg_is_used pg = true ->
              exists y, mapped (m_mem s') (pp_pgdir (v_p st)) (pg_va pg) y) as Hstill.
    { intros i pg Hpi Hu. destruct (sl_mem _ _ _ Hs i pg Hpi Hu) as (_ & Hup & y & Hy). exists y.
      apply (pte_ext_mapped (m_mem (v_mach st))); [|done]. apply Hext; [done|].
      by apply (vacant_untracked st l a Hi Hvac i pg). }
    apply (slots_insert_mem (v_p st) (v_p st) _ (m_mem (v_mach st)) _ 0 e); try done; try lia.
    - by rewrite list_insert_id.
    - intros i pg Hne Hpi Hu. split; [by eapply Hstill|]. intros He' E. apply Hne.
      by apply (sl_mem_inj _ _ _ Hs i 0 pg e).
    - intros He'. destruct (sl_mem _ _ _ Hs 0%nat e He He') as (? & ? & _). split; [done|]. split; [done|].
      by apply (Hstill 0%nat). }
  split; [split; [done|done|apply Hi]|]. split; [done|]. split; [done|]. split.
  { rewrite (view_present (set_mach s' st) a (user_pte x)) by done. rewrite Ex. f_equal. by apply Hfr. }
  intros va Hva Hne. specialize (Hext va Hva Hne). split.
  - unfold view, view_at. cbn [v_mach v_p v_swap set_mach].
    destruct (pte_at (m_mem (v_mach st)) _ va) as [v|] eqn:Hv.
    + rewrite (pte_ext_Some _ _ Hext). simpl. destruct (has v PTE_P) eqn:Hpv; [|done]. f_equal.
      apply Hfr. apply (as_frames _ _ _ _ _ Has va); [done|by intros []|by exists v].
    + destruct Hext as [->|[_ ->]]; done.
  - intros Hvv v Hv. cbn [v_mach set_mach v_p] in Hv. destruct Hext as [E|[_ E]]; rewrite E in Hv.
    + by apply Hvv.
    + by injection Hv as <-.
Qed.

(** ** Its bookkeeping *)

Definition new_page (pol : policy) (pgdir a ts : Z) (pg : page) : page :=
  let pg := set_age 0 (set_time ts (set_page pgdir a pg)) in
  if bool_decide (pol = LAPA) then set_age 0xFFFFFFFF pg else pg.

Lemma fill_slot_run pol st (k : nat) old pgdir a : pp_memory_pages (v_p st) !! k = Some old ->
  fill_slot pol (Z.of_nat k) pgdir a st = Ok () (set_p
    (inc_timestamp (set_memory_pages (<[k := new_page pol pgdir a (pp_timestamp (v_p st)) old]>
       (pp_memory_pages (v_p st))) (v_p st))) st).
Proof.
  intros Hk. assert ((k < length (pp_memory_pages (v_p st)))%nat) as Hlt by (by eapply lookup_lt_Some).
  unfold fill_slot, new_page. erewrite Ok_bind by (by apply upd_mem_page_Ok).
  unfold myproc. erewrite Ok_bind by reflexivity.
  erewrite Ok_bind by (apply upd_mem_page_Ok; simpl; by apply list_lookup_insert_eq).
  erewrite Ok_bind by reflexivity.
  erewrite Ok_bind by (apply upd_mem_page_Ok; simpl; apply list_lookup_insert_eq; by rewrite length_insert).
  destruct (bool_decide (pol = LAPA)); simpl when.
  - erewrite upd_mem_page_Ok by (simpl; apply list_lookup_insert_eq; by rewrite !length_insert).
    f_equal. unfold set_p; cbn. by rewrite !list_insert_insert_eq.
  - unfold mret, M_ret. f_equal. unfold set_p; cbn. by rewrite !list_insert_insert_eq.
Qed.

Lemma register_slot pol st l (k : nat) old a x : vm_inv end_ st l -> upage a ->
  pp_memory_pages (v_p st) !! k = Some old -> mapped (m_mem (v_mach st)) (pp_pgdir (v_p st)) a x ->
  untracked (v_p st) a ->
  let st' := set_p (inc_timestamp (set_memory_pages
    (<[k := new_page pol (pp_pgdir (v_p st)) a (pp_timestamp (v_p st)) old]> (pp_memory_pages (v_p st))) (v_p st))) st in
  vm_inv end_ st' l /\ forall va, view st' va = view st va.
Proof.
  intros Hi Ha Hk Hm Hun st'. split; [|done]. pose proof (vi_slots _ _ _ Hi) as Hs.
  split; [apply Hi| |apply Hi].
  assert (pg_va (new_page pol (pp_pgdir (v_p st)) a (pp_timestamp (v_p st)) old) = a /\
          pg_pgdir (new_page pol (pp_pgdir (v_p st)) a (pp_timestamp (v_p st)) old) = pp_pgdir (v_p st)) as [E1 E2].
  { unfold new_page. by destruct (bool_decide (pol = LAPA)). }
  eapply (slots_insert_mem (v_p st) (v_p st') _ (m_mem (v_mach st)) _ k); try done.
  - apply lookup_lt_Some in Hk. by rewrite (sl_mem_len _ _ _ Hs) in Hk.
  - intros i pg Hne Hpi Hu. destruct (sl_mem _ _ _ Hs i pg Hpi Hu) as (_ & _ & Hmi). split; [done|].
    intros _. rewrite E1. by eapply Hun.
  - intros _. rewrite E1, E2. split; [done|]. split; [done|]. by exists x.
Qed.

(** The resident slots have room: one is free (and the queue of AQ has it at
    its end), or a page can be paged out. *)
Definition can_register (pol : policy) (p : pproc) : Prop :=
  check_policy pol && (2 <? pp_pid p) = false \/
  (pol <> AQ /\ next_free_i_in_mem p <> -1) \/
  (next_free_i_in_mem p = -1 /\ next_free_i_in_file p <> -1 /\ policy_ready pol p).

Lemma c_index_nat {A} (p : A -> bool) l : c_index (find_index p l) <> -1 ->
  exists k x, c_index (find_index p l) = Z.of_nat k /\ l !! k = Some x /\ p x = true.
Proof.
  destruct (find_index p l) as [k|] eqn:E; [|done]. intros _.
  apply find_index_Some in E as [(x & Hx & Hpx) _]. by exists k, x.
Qed.

Lemma register_page_run pol st l a x : vm_inv end_ st l -> upage a ->
  mapped (m_mem (v_mach st)) (pp_pgdir (v_p st)) a x -> untracked (v_p st) a ->
  can_register pol (v_p st) ->
  exists st' l', register_page end_ pol (pp_pgdir (v_p st)) a st = Ok () st' /\ vm_inv end_ st' l' /\
    (forall va, upage va -> view st' va = view st va).
Proof.
  intros Hi Ha Hm Hun Hroom. unfold register_page, myproc. erewrite Ok_bind by reflexivity.
  destruct (check_policy pol && (2 <? pp_pid (v_p st))) eqn:Hpol; simpl when; [|by exists st, l].
  destruct Hroom as [?|[[HAQ Hfree]|(Hfull & Hfile & Hr)]]; [congruence|..].
  - rewrite bool_decide_eq_false_2 by done. cbn [andb]. erewrite Ok_bind by reflexivity.
    rewrite (proj2 (Z.eqb_neq _ _)) by done. erewrite Ok_bind by reflexivity.
    destruct (c_index_nat _ _ Hfree) as (k & old & Ek & Hk & _).
    unfold next_free_i_in_mem. rewrite Ek, (fill_slot_run pol st k old) by done.
    destruct (register_slot pol st l k old a x) as [Hi' Hv']; try done.
    eexists _, l. split; [done|]. split; [exact Hi'|]. by intros va _.
  - rewrite Hfull. change (negb (-1 =? -1)) with false. rewrite andb_false_r.
    erewrite Ok_bind by reflexivity. change (-1 =? -1) with true. cbv iota.
    assert (full st) as Hf.
    { apply Forall_lookup_2. intros i pg Hpg. apply negb_false_iff.
      unfold next_free_i_in_mem in Hfull. destruct (find_index _ _) eqn:E; simpl in Hfull; [lia|].
      by apply (proj1 (find_index_None _ _) E i). }
    destruct (c_index_nat _ _ Hfile) as (j & pgf & Ej & _).
    destruct (swap_run end_ end_high pol st l j Hi Hf Hr Ej)
      as (k & st1 & l1 & old & Hrun & Hi1 & Hv1 & Hk & _ & Epd & _ & Hsame).
    destruct (Hsame a Ha Hun) as [Hun1 Hm1].
    rewrite (Ok_bind _ _ _ _ _ Hrun), (fill_slot_run pol st1 k old) by done.
    destruct (register_slot pol st1 l1 k old a x) as [Hi' Hv']; rewrite ?Epd; try done; [by apply Hm1|].
    rewrite Epd in Hi', Hv'. eexists _, l1. split; [done|]. split; [exact Hi'|].
    intros va Hva. etrans; [apply Hv'|by apply Hv1].
Qed.

(** ** allocuvm *)

Definition free_count (p : pproc) : nat :=
  length (filter (fun pg => negb (pg_is_used pg)) (pp_memory_pages p)).

Lemma filter_insert_one {A} (P : A -> bool) (l : list A) k x y :
  l !! k = Some x -> P x = true -> P y = false ->
  length (filter P l) = S (length (filter P (<[k := y]> l))).
Proof.
  revert k. induction l as [|a l IH]; intros [|k] Hk Hx Hy; try done; simpl in Hk |- *; rewrite !filter_cons.
  - injection Hk as ->. by rewrite Hx, Hy.
  - destruct (P a); simpl; by rewrite (IH k).
Qed.

Lemma free_count_Some p : (0 < free_count p)%nat -> next_free_i_in_mem p <> -1.
Proof.
  unfold free_count, next_free_i_in_mem. intros Hlt. destruct (find_index _ _) eqn:E; simpl; [lia|].
  destruct (filter _ _) as [|pg l0] eqn:El; [simpl in Hlt; lia|].
  assert (pg ∈ filter (fun pg => negb (pg_is_used pg)) (pp_memory_pages p)) as Hin
    by (rewrite El; apply elem_of_cons; by left).
  apply list_elem_of_filter in Hin as [Hp (i & Hi)%list_elem_of_lookup_1].
  rewrite (proj1 (find_index_None _ _) E i pg Hi) in Hp. done.
Qed.

(** [n] pages can be taken without paging out. *)
Definition room (pol : policy) (p : pproc) (n : nat) : Prop :=
  check_policy pol && (2 <? pp_pid p) = false \/ (pol <> AQ /\ (n <= free_count p)%nat).

Lemma register_room pol st l a x n : vm_inv end_ st l -> upage a ->
  mapped (m_mem (v_mach st)) (pp_pgdir (v_p st)) a x -> untracked (v_p st) a ->
  room pol (v_p st) (S n) ->
  exists p', let st' := set_p p' st in
    register_page end_ pol (pp_pgdir (v_p st)) a st = Ok () st' /\ vm_inv end_ st' l /\
    (forall va, view st' va = view st va) /\ pp_pgdir p' = pp_pgdir (v_p st) /\ room pol p' n.
Proof.
  intros Hi Ha Hm Hun Hroom. unfold register_page, myproc. erewrite Ok_bind by reflexivity.
  destruct (check_policy pol && (2 <? pp_pid (v_p st))) eqn:Hpol; simpl when.
  2: { exists (v_p st). destruct st. cbn. split_and!; try done. by left. }
  destruct Hroom as [?|[HAQ Hn]]; [congruence|].
  assert (next_free_i_in_mem (v_p st) <> -1) as Hfree by (apply free_count_Some; lia).
  rewrite bool_decide_eq_false_2 by done. cbn [andb]. erewrite Ok_bind by reflexivity.
  rewrite (proj2 (Z.eqb_neq _ _)) by done. erewrite Ok_bind by reflexivity.
  destruct (c_index_nat _ _ Hfree) as (k & old & Ek & Hk & Hu).
  unfold next_free_i_in_mem. rewrite Ek, (fill_slot_run pol st k old) by done.
  destruct (register_slot pol st l k old a x) as [Hi' Hv']; try done.
  eexists. cbv zeta. split; [done|]. split; [exact Hi'|]. split; [exact Hv'|]. split; [done|].
  right. split; [done|]. unfold free_count in *. simpl.
  rewrite (filter_insert_one _ _ k old (new_page pol (pp_pgdir (v_p st)) a (pp_timestamp (v_p st)) old) Hk Hu) in Hn;
    [lia|]. unfold new_page. by destruct (bool_decide (pol = LAPA)).
Qed.

(** One round of the loop. *)
Lemma alloc_round pol st l a n : vm_inv end_ st l -> upage a -> vacant st a ->
  (2 <= length l)%nat -> room pol (v_p st) (S n) ->
  exists s' p' l', let st' := Vm s' p' (v_swap st) (v_cr2 st) (v_cr3 st) in
    vm_inv end_ st' l' /\ (length l <= 2 + length l')%nat /\ room pol p' n /\
    pp_pgdir p' = pp_pgdir (v_p st) /\
    view st' a = Some (frame_fill 0) /\
    (forall va, upage va -> va <> a -> view st' va = view st va /\ (vacant st va -> vacant st' va)) /\
    forall fuel oldsz newsz, a < newsz ->
      allocuvm_loop end_ pol (S fuel) (pp_pgdir (v_p st)) a oldsz newsz st =
      allocuvm_loop end_ pol fuel (pp_pgdir (v_p st)) (u32 (a + PGSIZE)) oldsz newsz st'.
Proof.
  intros Hi Ha Hvac Hlen Hroom. destruct l as [|x l]; [simpl in Hlen; lia|].
  destruct (vm_kalloc end_ end_high st l x Hi) as (Hka & Hi1 & Hv1 & Ho1 & Hno1).
  set (st1 := set_mach _ st) in *.
  destruct (vm_memset st1 l x Hi1 Ho1 Hno1) as (Hms & Hi2 & Hv2 & Ho2 & Hpte2).
  set (st2 := set_mach _ st1) in *.
  assert (vacant st2 a) as Hvac2 by (intros v Hv; apply Hvac; rewrite <- Hv; symmetry; apply Hpte2; auto).
  destruct (vm_mappages st2 l a x Hi2 Ha Hvac2 Ho2) as (s3 & l3 & Hmp & Hi3 & Hl3 & Hm3 & Hva3 & Hrest3).
  { intros ->. simpl in Hlen. lia. }
  { intros va Hva Hm. apply (Hno1 va Hva). apply (mapped_agree (m_mem (v_mach st1)) (m_mem (v_mach st2))); [|done].
    apply Hpte2. auto. }
  set (st3 := set_mach s3 st2) in *.
  destruct (register_room pol st3 l3 a x n) as (p4 & Hreg & Hi4 & Hv4 & Epd & Hroom4); try done.
  { by apply (vacant_untracked st2 l). }
  exists s3, p4, l3. cbv zeta. split; [exact Hi4|]. split; [simpl in *; lia|]. split; [done|]. split; [done|]. split.
  { etrans; [apply Hv4|]. etrans; [apply Hva3|]. f_equal. simpl. rewrite mem_frame_insert. by rewrite decide_True. }
  split.
  - intros va Hva Hne. destruct (Hrest3 va Hva Hne) as [E3 Hvc3]. split.
    + etrans; [apply Hv4|]. rewrite E3, Hv2 by done. apply Hv1.
    + intros Hvv. assert (vacant st2 va) as Hvv2.
      { intros v Hv. apply Hvv. rewrite <- Hv. symmetry. apply Hpte2. auto. }
      intros v Hv. apply (Hvc3 Hvv2). cbn in Hv. by rewrite Epd in Hv.
  - intros fuel oldsz newsz Hlt. cbn [allocuvm_loop].
    rewrite (proj2 (Z.ltb_lt _ _)) by done. rewrite (Ok_bind _ _ _ _ _ Hka).
    rewrite (proj2 (Z.eqb_neq _ _)) by (eapply (valid_page_nonzero end_ end_high); by destruct Ho1 as (? & _)).
    rewrite (Ok_bind _ _ _ _ _ Hms), (Ok_bind _ _ _ _ _ Hmp). change (0 <? 0) with false. cbv iota.
    by rewrite (Ok_bind _ _ _ _ _ Hreg).
Qed.

Lemma allocuvm_loop_run pol n : forall st l a oldsz newsz, vm_inv end_ st l -> aligned a -> 0 <= a ->
  newsz < KERNBASE -> newsz <= a + Z.of_nat n * PGSIZE -> a + Z.of_nat n * PGSIZE < newsz + PGSIZE ->
  (forall va, upage va -> a <= va < newsz -> vacant st va) ->
  (2 * n <= length l)%nat -> room pol (v_p st) n ->
  exists st' l', allocuvm_loop end_ pol n (pp_pgdir (v_p st)) a oldsz newsz st = Ok newsz st' /\
    vm_inv end_ st' l' /\
    forall va, upage va -> view st' va = if decide (a <= va < newsz) then Some (frame_fill 0) else view st va.
Proof.
  induction n as [|n IH]; intros st l a oldsz newsz Hi Hal Ha Hmax Hle Hge Hvac Hlen Hroom.
  - exists st, l. simpl. rewrite (proj2 (Z.ltb_ge _ _)) by lia. split; [done|]. split; [done|].
    intros va Hva. by rewrite decide_False by lia.
  - assert (a < newsz) as Hlt by (unfold PGSIZE in *; lia).
    assert (upage a) as Hua by (split; [done|lia]).
    destruct (alloc_round pol st l a n) as (s' & p' & l' & Hi' & Hl' & Hroom' & Epd & Hva & Hrest & Hrun); try done.
    { apply Hvac; [done|lia]. } { lia. }
    rewrite Hrun by done. set (st1 := Vm s' p' _ _ _) in *.
    assert (u32 (a + PGSIZE) = a + PGSIZE) as Eu by (apply u32_small; unfold KERNBASE, PGSIZE in *; ulia).
    rewrite Eu, <- Epd.
    destruct (IH st1 l' (a + PGSIZE) oldsz newsz) as (st2 & l2 & Hr2 & Hi2 & Hv2); try done.
    + unfold aligned, PGSIZE in *. ulia.
    + unfold PGSIZE. lia.
    + lia.
    + lia.
    + intros va Hu Hin. apply Hrest; [done|unfold PGSIZE in Hin; lia|].
      apply Hvac; [done|unfold PGSIZE in Hin; lia].
    + lia.
    + exists st2, l2. split; [done|]. split; [done|]. intros va Hu. rewrite Hv2 by done.
      destruct (decide (va = a)) as [->|Hne].
      { rewrite decide_False by (unfold PGSIZE; lia). by rewrite decide_True by lia. }
      destruct (decide (a <= va < newsz)) as [Hin|Hout].
      * rewrite decide_True; [done|]. destruct Hu as [Hau _]. unfold aligned, PGSIZE in *. ulia.
      * rewrite decide_False by (unfold PGSIZE; lia). by apply Hrest.
Qed.

Lemma allocuvm_run pol st l oldsz newsz : vm_inv end_ st l -> 0 <= oldsz <= newsz -> newsz < KERNBASE ->
  (newsz - PGROUNDUP oldsz) / PGSIZE < MAX_TOTAL_PAGES ->
  let n := dealloc_fuel (PGROUNDUP oldsz) newsz in
  (forall va, upage va -> PGROUNDUP oldsz <= va < newsz -> vacant st va) ->
  (2 * n <= length l)%nat -> room pol (v_p st) n ->
  exists st' l', allocuvm end_ pol (pp_pgdir (v_p st)) oldsz newsz st = Ok newsz st' /\
    vm_inv end_ st' l' /\
    forall va, upage va -> view st' va =
      if decide (PGROUNDUP oldsz <= va < newsz) then Some (frame_fill 0) else view st va.
Proof.
  intros Hi Ho Hmax Hpages n Hvac Hlen Hroom.
  assert (PGROUNDUP oldsz = oldsz + (PGSIZE - 1) - (oldsz + PGSIZE - 1) mod PGSIZE) as Er.
  { rewrite PGROUNDUP_spec; [lia|]. unfold KERNBASE, two32, PGSIZE in *. lia. }
  assert (PGROUNDUP newsz = newsz + (PGSIZE - 1) - (newsz + PGSIZE - 1) mod PGSIZE) as En.
  { rewrite PGROUNDUP_spec; [lia|]. unfold KERNBASE, two32, PGSIZE in *. lia. }
  unfold allocuvm, myproc. erewrite Ok_bind by reflexivity.
  rewrite (proj2 (Z.leb_gt _ _)), (proj2 (Z.ltb_ge _ _)) by lia.
  rewrite (proj2 (Z.ltb_ge MAX_TOTAL_PAGES _)), andb_false_r.
  2: { rewrite Er, En. rewrite Er in Hpages. unfold MAX_TOTAL_PAGES, PGSIZE, KERNBASE in *. ulia. }
  apply (allocuvm_loop_run pol n st l); try done.
  - rewrite Er. unfold aligned, PGSIZE. ulia.
  - rewrite Er. unfold PGSIZE. ulia.
  - unfold n, dealloc_fuel. rewrite Er. unfold PGSIZE in *. ulia.
  - unfold n, dealloc_fuel. rewrite Er. unfold PGSIZE in *. ulia.
Qed.

(** ** deallocuvm *)

Hypothesis end_above : KERNBASE < end_.

Lemma release_slot_cases pgdir a mem :
  (release_slot pgdir a mem = mem /\
   forall i pg, mem !! i = Some pg -> pg_is_used pg = true -> pg_pgdir pg = pgdir -> pg_va pg <> a) \/
  (exists k pg, mem !! k = Some pg /\ pg_is_used pg = true /\ pg_pgdir pg = pgdir /\ pg_va pg = a /\
     release_slot pgdir a mem = <[k := set_used false pg]> mem).
Proof.
  induction mem as [|pg mem IH]; simpl; [left; split; [done|by intros i pg Hi]|].
  destruct (pg_is_used pg && (pg_pgdir pg =? pgdir) && (pg_va pg =? a)) eqn:E.
  - bool_prop. right. exists 0%nat, pg. done.
  - destruct IH as [[-> Hn]|(k & pg' & Hk & Hu & Hp & Hv & ->)].
    + left. split; [done|]. intros [|i] pg' Hi Hu Hp Hv; simpl in Hi; [|by eapply Hn].
      injection Hi as <-. rewrite Hu, Hp, Hv, !Z.eqb_refl in E. done.
    + right. exists (S k), pg'. done.
Qed.

(** The page [a] leaves the address space. *)
Definition released (pol : policy) st s' a : vm F :=
  Vm s' (if check_policy pol
         then set_memory_pages (release_slot (pp_pgdir (v_p st)) a (pp_memory_pages (v_p st))) (v_p st)
         else v_p st) (v_swap st) (v_cr2 st) (v_cr3 st).

Lemma release_inv pol st l s' l' a x : vm_inv end_ st l -> upage a ->
  mapped (m_mem (v_mach st)) (pp_pgdir (v_p st)) a x -> (pol = NONE -> untracked (v_p st) a) ->
  as_inv end_ s' l' (pp_pgdir (v_p st)) nobody ->
  (forall vb, upage vb -> pte_at (m_mem s') (pp_pgdir (v_p st)) vb =
     if decide (a = vb) then Some 0 else pte_at (m_mem (v_mach st)) (pp_pgdir (v_p st)) vb) ->
  (forall vb y, upage vb -> vb <> a -> mapped (m_mem (v_mach st)) (pp_pgdir (v_p st)) vb y ->
     mem_frame (m_mem s') (kframe y) = mem_frame (m_mem (v_mach st)) (kframe y)) ->
  vm_inv end_ (released pol st s' a) l' /\
  forall vb, upage vb -> vb <> a -> view (released pol st s' a) vb = view st vb.
Proof.
  intros Hi Ha Hm Hnone Has' Hpte Hfr. pose proof (vi_slots _ _ _ Hi) as Hs.
  set (p' := v_p (released pol st s' a)).
  assert (pp_pgdir p' = pp_pgdir (v_p st) /\ pp_file_pages p' = pp_file_pages (v_p st)) as [Epd Ef].
  { unfold p', released. cbn. by destruct (check_policy pol). }
  assert (slots_inv p' (v_swap st) (m_mem s')) as Hs'.
  { assert (exists k e, (k < 16)%nat /\ pp_memory_pages p' = <[k := e]> (pp_memory_pages (v_p st)) /\
       (forall i pg, i <> k -> pp_memory_pages (v_p st) !! i = Some pg -> pg_is_used pg = true -> pg_va pg <> a) /\
       (pg_is_used e = true -> pp_memory_pages (v_p st) !! k = Some e /\ pg_va e <> a))
      as (k & e & Hk & Em & Hother & He).
    { destruct (lookup_lt_is_Some_2 (pp_memory_pages (v_p st)) 0) as [e0 He0];
        [rewrite (sl_mem_len _ _ _ Hs); lia|].
      assert (untracked (v_p st) a -> pp_memory_pages p' = pp_memory_pages (v_p st) ->
        exists k e, (k < 16)%nat /\ pp_memory_pages p' = <[k := e]> (pp_memory_pages (v_p st)) /\
          (forall i pg, i <> k -> pp_memory_pages (v_p st) !! i = Some pg -> pg_is_used pg = true -> pg_va pg <> a) /\
          (pg_is_used e = true -> pp_memory_pages (v_p st) !! k = Some e /\ pg_va e <> a)) as Hsame.
      { intros Hun E. exists 0%nat, e0. rewrite list_insert_id by done. split; [lia|]. split; [done|].
        split; [intros i pg _; apply Hun|]. intros Hu. split; [done|by apply (Hun 0%nat)]. }
      unfold p', released in *. cbn [v_p] in *. destruct (check_policy pol) eqn:Hcp.
      - destruct (release_slot_cases (pp_pgdir (v_p st)) a (pp_memory_pages (v_p st)))
          as [[E Hn]|(k & pg & Hk & Hu & _ & Hv & E)].
        + apply Hsame; [|done]. intros i pg Hpi Hu. apply (Hn i); try done.
          by destruct (sl_mem _ _ _ Hs i pg Hpi Hu) as (? & _).
        + exists k, (set_used false pg). split; [apply lookup_lt_Some in Hk; by rewrite (sl_mem_len _ _ _ Hs) in Hk|].
          split; [done|]. split; [|done]. intros i pg' Hne Hpi Hu' E'. apply Hne.
          apply (sl_mem_inj _ _ _ Hs i k pg' pg); congruence.
      - apply Hsame; [|done]. apply Hnone. unfold check_policy in Hcp.
        by apply negb_false_iff, bool_decide_eq_true in Hcp. }
    apply (slots_insert_mem (v_p st) p' (v_swap st) (m_mem (v_mach st)) (m_mem s') k e); try done.
    - intros i pg Hne Hpi Hu. destruct (sl_mem _ _ _ Hs i pg Hpi Hu) as (_ & Hup & y & Hy). split.
      + exists y. apply (mapped_agree (m_mem (v_mach st))); [|done]. rewrite Hpte by done.
        rewrite decide_False; [done|]. intros E. by apply (Hother i pg Hne Hpi Hu).
      + intros Hue E. destruct (He Hue) as [Hke _]. apply Hne. by apply (sl_mem_inj _ _ _ Hs i k pg e).
    - intros Hue. destruct (He Hue) as [Hke Hva].
      destruct (sl_mem _ _ _ Hs k e Hke Hue) as (? & Hup & y & Hy). split; [done|]. split; [done|].
      exists y. apply (mapped_agree (m_mem (v_mach st))); [|done]. rewrite Hpte by done.
      by rewrite decide_False.
    - intros va v Hva Hp Hg. rewrite Hpte by done. case_decide as Hd; [|done]. subst va. split.
      + intros [= <-]. done.
      + intros Hv. destruct Hm as (w & Hw & Hpw & _). congruence. }
  split.
  { split; [|exact Hs'|].
    - change (as_inv end_ s' l' (pp_pgdir p') nobody). by rewrite Epd.
    - change (v_cr3 st = V2P (pp_pgdir p')). rewrite Epd. apply Hi. }
  intros vb Hvb Hne. change (view_at (m_mem s') p' (v_swap st) vb = view st vb).
  unfold view, view_at. rewrite Epd, Ef.
  rewrite Hpte, decide_False by done. destruct (pte_at _ _ vb) as [v|] eqn:Hv; [|done]. simpl.
  destruct (has v PTE_P) eqn:Hp; [|done]. f_equal. apply (Hfr vb); try done. by exists v.
Qed.

Lemma set_p_set_mach st s p : set_p p (set_mach s st) = Vm s p (v_swap st) (v_cr2 st) (v_cr3 st).
Proof. done. Qed.

(** The statements of a round that releases a page. *)
Lemma dealloc_round_run pol st a v t s1 : let pgdir := pp_pgdir (v_p st) in
  pd_wf end_ (m_mem (v_mach st)) pgdir -> upage a ->
  table_at (m_mem (v_mach st)) pgdir a = Some t -> table_at (m_mem s1) pgdir a = Some t ->
  kload (m_mem (v_mach st)) (entry t (PTX a)) = v -> has v PTE_P = true -> PTE_ADDR v <> 0 ->
  kfree end_ (P2V (PTE_ADDR v)) (v_mach st) = Ok () s1 ->
  forall fuel oldsz, a < oldsz ->
    deallocuvm_loop end_ pol (S fuel) pgdir a oldsz st =
    deallocuvm_loop end_ pol fuel pgdir (u32 (a + PGSIZE)) oldsz (released pol st (pte_set s1 pgdir a 0) a).
Proof.
  intros pgdir Hwf Ha Ht Ht1 Hl Hp Hnz Hk fuel oldsz Hlt. set (s := v_mach st) in *.
  cbn [deallocuvm_loop]. rewrite (proj2 (Z.ltb_lt _ _)) by done.
  erewrite (Ok_bind (onmach (walkpgdir _ _ _))) by (apply onmach_same, walk_present; exact Ht).
  rewrite (walk_entry_nonzero end_ end_high _ _ _ _ Hwf (upage_u32 a Ha) Ht).
  assert (onmach (load (entry t (PTX a))) st = Ok v st) as Hld by (apply onmach_same; unfold load, gets; fold s; by rewrite Hl).
  rewrite (Ok_bind _ _ _ _ _ Hld), Hp. simpl when. rewrite (proj2 (Z.eqb_neq _ _)) by done.
  unfold mbind, M_bind, bindM, onmach, zoom. fold s. rewrite Hk.
  unfold load, store, gets, modify, when, setproc, myproc. cbn [m_mem set_mem v_mach set_mach].
  destruct (check_policy pol) eqn:Hcp; cbn -[kstore kload];
    rewrite !kstore_kstore; f_equal; unfold released, pte_set; rewrite Ht1, Hcp; done.
Qed.

(** One round on a present page. *)
Lemma dealloc_round pol st l a v : vm_inv end_ st l -> upage a ->
  pte_at (m_mem (v_mach st)) (pp_pgdir (v_p st)) a = Some v -> has v PTE_P = true ->
  (pol = NONE -> untracked (v_p st) a) ->
  exists st' l', vm_inv end_ st' l' /\ pp_pgdir (v_p st') = pp_pgdir (v_p st) /\
    (forall va, untracked (v_p st) va -> untracked (v_p st') va) /\
    (forall vb, upage vb -> pte_at (m_mem (v_mach st')) (pp_pgdir (v_p st)) vb =
       if decide (a = vb) then Some 0 else pte_at (m_mem (v_mach st)) (pp_pgdir (v_p st)) vb) /\
    (forall vb, is_u32 vb -> table_at (m_mem (v_mach st')) (pp_pgdir (v_p st)) vb =
                             table_at (m_mem (v_mach st)) (pp_pgdir (v_p st)) vb) /\
    (forall vb, upage vb -> vb <> a -> view st' vb = view st vb) /\
    forall fuel oldsz, a < oldsz ->
      deallocuvm_loop end_ pol (S fuel) (pp_pgdir (v_p st)) a oldsz st =
      deallocuvm_loop end_ pol fuel (pp_pgdir (v_p st)) (u32 (a + PGSIZE)) oldsz st'.
Proof.
  intros Hi Ha Hv Hp Hnone. set (pgdir := pp_pgdir (v_p st)) in *. set (s := v_mach st) in *.
  pose proof (vi_as _ _ _ Hi) as Has. fold pgdir s in Has. pose proof (as_wf _ _ _ _ _ Has) as Hwf.
  set (x := P2V (PTE_ADDR v)).
  assert (mapped (m_mem s) pgdir a x) as Hm by (by exists v).
  assert (owned end_ s l pgdir x) as Ho by (apply (as_frames _ _ _ _ _ Has a); [done|by intros []|done]).
  assert (PTE_ADDR v <> 0) as Hnz.
  { intros E. destruct Ho as ((_ & _ & Hge & _) & _). unfold x in Hge. rewrite E in Hge.
    change (P2V 0) with KERNBASE in Hge. lia. }
  destruct (as_kfree end_ s l pgdir (only a) x) as (s1 & l' & Hk & Has1 & _ & Hf & _ & Hpte); [|done|..].
  { eapply as_weaken; [done|by intros ? []]. }
  { intros vb Hvb Hne Hmb. apply Hne. apply (as_inj _ _ _ _ _ Has vb a x); try done; by intros []. }
  pose proof Hv as (t & Ht & Hl)%pte_at_table.
  assert (mem_frame (m_mem s1) (kframe pgdir) = mem_frame (m_mem s) (kframe pgdir)) as Epgd.
  { apply Hf. intros E. destruct Ho as (_ & _ & Hn & _). apply Hn. by left. }
  assert (forall vb, table_at (m_mem s1) pgdir vb = table_at (m_mem s) pgdir vb) as Htab1
    by (intros; apply table_at_frame; [by eapply pd_u32|by eapply pd_aligned|done]).
  assert (pte_at (m_mem s1) pgdir a = Some v) as Hv1 by (rewrite Hpte by auto; done).
  set (s' := pte_set s1 pgdir a 0). pose proof (as_wf _ _ _ _ _ Has1) as Hwf1.
  assert (as_inv end_ s' l' pgdir nobody) as Has'.
  { eapply as_weaken; [eapply (as_pte_set end_ s1 l' pgdir (only a) a v 0); try done|]. by intros u [-> []]. }
  assert (forall vb, upage vb -> pte_at (m_mem s') pgdir vb =
    if decide (a = vb) then Some 0 else pte_at (m_mem s) pgdir vb) as Hpte'.
  { intros vb Hvb. unfold s'. rewrite (pte_set_at end_ _ _ _ _ _ v) by auto. rewrite !upage_round by done.
    case_decide; [done|]. apply Hpte. auto. }
  assert (forall fn, pd_frame (m_mem s1) pgdir fn <-> pd_frame (m_mem s) pgdir fn) as Hpd1.
  { apply pd_frame_agree; [by eapply pd_u32|by eapply pd_aligned|done]. }
  destruct (release_inv pol st l s' l' a x) as [Hi' Hv']; try done.
  { intros vb y Hvb Hne Hy. unfold s'.
    destruct (as_frames _ _ _ _ _ Has vb y) as (_ & _ & Hn & _); [done|by intros []|done|].
    rewrite (pte_set_frame end_ s1); [|done|auto|by rewrite Hpd1]. apply Hf.
    apply (mapped_frames_differ end_ s l pgdir a vb x y); auto. }
  exists (released pol st s' a), l'. split; [done|]. split.
  { unfold released. cbn. by destruct (check_policy pol). }
  split; [|split; [done|split; [|split; [done|]]]].
  - intros va Hun. unfold released. cbn. destruct (check_policy pol); [|done].
    destruct (release_slot_cases pgdir a (pp_memory_pages (v_p st))) as [[E _]|(k & pg & Hpk & _ & _ & _ & E)];
      intros i pg'; cbn; fold pgdir; rewrite E; [apply Hun|].
    destruct (decide (k = i)) as [<-|Hne].
    + rewrite list_lookup_insert_eq by (by eapply lookup_lt_Some). by intros [= <-].
    + rewrite list_lookup_insert_ne by done. apply Hun.
  - intros vb Hvb. cbn [v_mach released]. rewrite <- Htab1. unfold s'. unfold pte_set. rewrite Htab1, Ht.
    destruct (store_pte_wf end_ (m_mem s1) pgdir a t 0 Hwf1) as (E & _); [auto|by rewrite Htab1|].
    apply table_at_frame; [by eapply pd_u32|by eapply pd_aligned|done].
  - apply (dealloc_round_run pol st a v t s1); try done. by rewrite Htab1.
Qed.

(** Tables have no gaps from [a] on: a missing one is followed by none. *)
Definition no_gaps (m : memory) (pgdir a oldsz : Z) : Prop :=
  forall va vb, upage va -> upage vb -> a <= va <= vb -> vb < oldsz ->
    table_at m pgdir va = None -> table_at m pgdir vb = None.

Definition present (m : memory) (pgdir va : Z) : bool :=
  match pte_at m pgdir va with Some v => has v PTE_P | None => false end.

(** The state after the present pages of [[a, oldsz)] were released. *)
Definition shrunk st st' (a oldsz : Z) : Prop :=
  forall va, upage va ->
    let pgdir := pp_pgdir (v_p st) in
    if (a <=? va) && (va <? oldsz) && present (m_mem (v_mach st)) pgdir va
    then pte_at (m_mem (v_mach st')) pgdir va = Some 0
    else pte_at (m_mem (v_mach st')) pgdir va = pte_at (m_mem (v_mach st)) pgdir va /\
         view st' va = view st va.

Lemma upage_next a va : aligned a -> upage va -> a <= va -> va <> a -> a + PGSIZE <= va.
Proof. intros Ha [Hva _]. unfold aligned, PGSIZE in *. ulia. Qed.

(** A round that leaves the page [a] as it is. *)
Lemma shrunk_skip st st' a b oldsz : a <= b ->
  (forall va, upage va -> a <= va < b -> va < oldsz -> present (m_mem (v_mach st)) (pp_pgdir (v_p st)) va = false) ->
  shrunk st st' b oldsz -> shrunk st st' a oldsz.
Proof.
  intros Hab Hskip Hs va Hva. specialize (Hs va Hva). cbv zeta in *.
  destruct (Z.leb_spec b va); destruct (Z.leb_spec a va); try lia; cbn [andb] in *; try done.
  destruct (Z.ltb_spec va oldsz); cbn [andb]; [|done]. by rewrite (Hskip va Hva) by lia.
Qed.

Lemma shrunk_done st a oldsz : oldsz <= a -> shrunk st st a oldsz.
Proof. intros Hn va Hva. cbv zeta. destruct (Z.leb_spec a va), (Z.ltb_spec va oldsz); try done. lia. Qed.

(** A round that releases the page [a]. *)
Lemma shrunk_release st st1 st2 a oldsz v : aligned a -> a < oldsz ->
  pte_at (m_mem (v_mach st)) (pp_pgdir (v_p st)) a = Some v -> has v PTE_P = true ->
  pp_pgdir (v_p st1) = pp_pgdir (v_p st) ->
  (forall vb, upage vb -> pte_at (m_mem (v_mach st1)) (pp_pgdir (v_p st)) vb =
    if decide (a = vb) then Some 0 else pte_at (m_mem (v_mach st)) (pp_pgdir (v_p st)) vb) ->
  (forall vb, upage vb -> vb <> a -> view st1 vb = view st vb) ->
  shrunk st1 st2 (a + PGSIZE) oldsz -> shrunk st st2 a oldsz.
Proof.
  intros Hal Hlt Hv Hp Epd Hpte Hview Hs2 va Hva. specialize (Hs2 va Hva). cbv zeta in *. rewrite Epd in Hs2.
  unfold present in *. rewrite Hpte in Hs2 by done.
  destruct (decide (a = va)) as [<-|Hne].
  - rewrite (proj2 (Z.leb_gt _ _)) in Hs2 by (unfold PGSIZE; lia). cbn [andb] in Hs2.
    rewrite Z.leb_refl, (proj2 (Z.ltb_lt _ _)), Hv, Hp by done. apply Hs2.
  - destruct (Z.leb_spec a va).
    + pose proof (upage_next a va Hal Hva). rewrite (proj2 (Z.leb_le (a + PGSIZE) va)) in Hs2 by auto.
      cbn [andb] in *. case_match; [done|]. destruct Hs2 as [E1 E2]. split; [done|]. rewrite E2. auto.
    + rewrite (proj2 (Z.leb_gt _ _)) in Hs2 by (unfold PGSIZE; lia). cbn [andb] in *.
      destruct Hs2 as [E1 E2]. split; [done|]. rewrite E2. auto.
Qed.

Lemma deallocuvm_loop_run pol n : forall st l a oldsz, vm_inv end_ st l -> aligned a -> 0 <= a ->
  oldsz <= KERNBASE -> oldsz <= a + Z.of_nat n * PGSIZE ->
  no_gaps (m_mem (v_mach st)) (pp_pgdir (v_p st)) a oldsz ->
  (pol = NONE -> forall va, untracked (v_p st) va) ->
  exists st' l', deallocuvm_loop end_ pol n (pp_pgdir (v_p st)) a oldsz st = Ok () st' /\
    vm_inv end_ st' l' /\ pp_pgdir (v_p st') = pp_pgdir (v_p st) /\ shrunk st st' a oldsz.
Proof.
  induction n as [|n IH]; intros st l a oldsz Hi Hal Ha Hmax Hn Hgap Hnone.
  { exists st, l. simpl. rewrite (proj2 (Z.ltb_ge _ _)) by lia. split_and!; try done. apply shrunk_done. simpl in Hn. lia. }
  destruct (Z.ltb_spec a oldsz) as [Hlt|Hge].
  2: { exists st, l. simpl. rewrite (proj2 (Z.ltb_ge _ _)) by lia. split_and!; try done. by apply shrunk_done. }
  assert (upage a) as Hua by (split; [done|lia]).
  assert (forall k, 0 <= k <= 1024 -> u32 (a + k * PGSIZE) = a + k * PGSIZE) as Eu.
  { intros k Hk. apply u32_small. unfold KERNBASE, PGSIZE in *. ulia. }
  assert (forall b, a <= b -> no_gaps (m_mem (v_mach st)) (pp_pgdir (v_p st)) b oldsz) as Hgap'.
  { intros b Hb va vb Hva Hvb Hle. apply Hgap; try done. lia. }
  destruct (pte_at (m_mem (v_mach st)) (pp_pgdir (v_p st)) a) as [v|] eqn:Hv.
  - destruct (has v PTE_P) eqn:Hp.
    + destruct (dealloc_round pol st l a v Hi Hua Hv Hp) as (st1 & l1 & Hi1 & Epd & Hun & Hpte & Htab & Hview & Hrun);
        [by intros E; apply Hnone|].
      rewrite Hrun by done. replace (a + PGSIZE) with (a + 1 * PGSIZE) by lia. rewrite Eu by lia.
      replace (a + 1 * PGSIZE) with (a + PGSIZE) by lia. rewrite <- Epd.
      destruct (IH st1 l1 (a + PGSIZE) oldsz) as (st2 & l2 & Hr2 & Hi2 & Epd2 & Hs2); try done.
      { unfold aligned, PGSIZE in *. ulia. } { unfold PGSIZE. lia. } { lia. }
      { rewrite Epd. intros va vb Hva Hvb Hle Hlt'. rewrite !Htab by auto. apply Hgap; try done.
        unfold PGSIZE in Hle. lia. }
      { intros E va. apply Hun. by apply Hnone. }
      exists st2, l2. split; [done|]. split; [done|]. split; [congruence|].
      by eapply (shrunk_release st st1 st2).
    + destruct (walk_Ok end_ end_high st (pp_pgdir (v_p st)) a v) as (e & Hw & He0 & Hld & _);
        [eapply as_wf, Hi|auto|done|].
      cbn [deallocuvm_loop]. rewrite (proj2 (Z.ltb_lt _ _)) by done.
      rewrite (Ok_bind _ _ _ _ _ Hw), He0, (Ok_bind _ _ _ _ _ Hld), Hp. simpl when.
      erewrite Ok_bind by reflexivity. replace (a + PGSIZE) with (a + 1 * PGSIZE) by lia. rewrite Eu by lia.
      destruct (IH st l (a + 1 * PGSIZE) oldsz) as (st2 & l2 & Hr2 & Hi2 & Epd2 & Hs2); try done.
      { unfold aligned, PGSIZE in *. ulia. } { unfold PGSIZE. lia. } { lia. }
      { apply Hgap'. unfold PGSIZE. lia. }
      exists st2, l2. split_and!; try done. eapply shrunk_skip; [|  |exact Hs2]; [unfold PGSIZE; lia|].
      intros va Hva Hin _. destruct (decide (va = a)) as [->|Hne].
      * unfold present. by rewrite Hv.
      * pose proof (upage_next a va Hal Hva). lia.
  - assert (table_at (m_mem (v_mach st)) (pp_pgdir (v_p st)) a = None) as Ht.
    { unfold pte_at in Hv. by destruct (table_at _ _ _). }
    cbn [deallocuvm_loop]. rewrite (proj2 (Z.ltb_lt _ _)) by done.
    erewrite (Ok_bind (onmach (walkpgdir _ _ _))) by (apply onmach_same, walk_absent; exact Ht).
    change (0 =? 0) with true. cbv iota.
    replace (a + (NPDENTRIES - 1) * PGSIZE + PGSIZE) with (a + 1024 * PGSIZE) by (unfold NPDENTRIES; lia).
    rewrite Eu by lia.
    destruct (IH st l (a + 1024 * PGSIZE) oldsz) as (st2 & l2 & Hr2 & Hi2 & Epd2 & Hs2); try done.
    { unfold aligned, PGSIZE in *. ulia. } { unfold PGSIZE. lia. } { unfold PGSIZE in *. lia. }
    { apply Hgap'. unfold PGSIZE. lia. }
    exists st2, l2. split_and!; try done. eapply shrunk_skip; [| |exact Hs2]; [unfold PGSIZE; lia|].
    intros va Hva Hin Hlt'. unfold present, pte_at.
    by rewrite (Hgap a va Hua Hva) by (done || lia).
Qed.

Lemma deallocuvm_run pol st l oldsz newsz : vm_inv end_ st l -> 0 <= newsz < oldsz -> oldsz <= KERNBASE ->
  no_gaps (m_mem (v_mach st)) (pp_pgdir (v_p st)) (PGROUNDUP newsz) oldsz ->
  (pol = NONE -> forall va, untracked (v_p st) va) ->
  exists st' l', deallocuvm end_ pol (pp_pgdir (v_p st)) oldsz newsz st = Ok newsz st' /\
    vm_inv end_ st' l' /\ shrunk st st' (PGROUNDUP newsz) oldsz.
Proof.
  intros Hi Hn Hmax Hgap Hnone.
  assert (PGROUNDUP newsz = newsz + (PGSIZE - 1) - (newsz + PGSIZE - 1) mod PGSIZE) as Er.
  { rewrite PGROUNDUP_spec; [lia|]. unfold KERNBASE, two32, PGSIZE in *. lia. }
  unfold deallocuvm. rewrite (proj2 (Z.leb_gt _ _)) by lia.
  destruct (deallocuvm_loop_run pol (dealloc_fuel (PGROUNDUP newsz) oldsz) st l (PGROUNDUP newsz) oldsz)
    as (st' & l' & Hr & Hi' & _ & Hs); try done.
  - rewrite Er. unfold aligned, PGSIZE. ulia.
  - rewrite Er. unfold PGSIZE. ulia.
  - unfold dealloc_fuel. rewrite Er. unfold PGSIZE in *. ulia.
  - exists st', l'. by rewrite (Ok_bind _ _ _ _ _ Hr).
Qed.
End uvm.
