(* ===== verification/Kvm.v ===== *)
(** * The kernel's half of an address space

    [setupkvm] builds a page directory that maps the four ranges of [kmap]
    and nothing else: below [KERNBASE] it is empty, from [KERNBASE] to
    [KERNBASE + PHYSTOP] it is the linear map that [P2V] and [V2P] assume. *)

From S2P Require Import Prelude Mmu Memory Kalloc PageTable Vm Paging VmInv Uvm.

Definition km_size (k : kmap_entry) : Z := u32 (km_phys_end k - km_phys_start k).

(** [vb] lies in the range of [k]. *)
Definition covers (k : kmap_entry) (vb : Z) : Prop := km_virt k <= vb < km_virt k + km_size k.

Record kmap_ok (k : kmap_entry) : Prop := {
  ko_virt : 0 <= km_virt k;
  ko_virt_al : aligned (km_virt k);
  ko_size : 0 < km_size k;
  ko_size_al : aligned (km_size k);
  ko_end : km_virt k + km_size k <= two32;
  ko_phys : 0 <= km_phys_start k;
  ko_phys_al : aligned (km_phys_start k);
  ko_phys_end : km_phys_start k + km_size k <= two32;
  ko_perm : 0 <= km_perm k < PGSIZE;
}.

(** Table pages the range may need. *)
Definition km_tables (k : kmap_entry) : nat :=
  Z.to_nat (PDX (km_virt k + km_size k - 1) - PDX (km_virt k)) + 1.

#[global] Arguments km_tables : simpl never.

Fixpoint apart_ranges (ks : list kmap_entry) : Prop :=
  match ks with
  | [] => True
  | k :: ks' => (forall k', k' ∈ ks' -> forall vb, covers k vb -> ~ covers k' vb) /\ apart_ranges ks'
  end.

Section kvm.
Context {F : Type} `{SwapFile F}.
Context (end_ data : Z) (end_high : KERNBASE <= end_) (pol : policy).
Implicit Types st : vm F.

Lemma covers_pages k vb : kmap_ok k -> is_u32 vb ->
  let n := Z.to_nat ((PGROUNDDOWN (km_virt k + km_size k - 1) - PGROUNDDOWN (km_virt k)) / PGSIZE) in
  in_pages (PGROUNDDOWN (km_virt k)) n vb <-> covers k vb.
Proof.
  intros [] Hvb n. unfold in_pages, covers, n.
  assert (is_u32 (km_virt k)) by (unfold is_u32; lia).
  assert (is_u32 (km_virt k + km_size k - 1)) by (unfold is_u32; lia).
  rewrite !PGROUNDDOWN_spec by done. unfold aligned, PGSIZE in *. ulia.
Qed.

(** The entry a covered address gets. *)
Definition kmap_pte (k : kmap_entry) (vb : Z) : Z :=
  mapped_pte (km_phys_start k + (PGROUNDDOWN vb - km_virt k)) (km_perm k).

Lemma kmap_pte_spec k vb : kmap_ok k -> is_u32 vb -> covers k vb ->
  PTE_ADDR (kmap_pte k vb) = km_phys_start k + (PGROUNDDOWN vb - km_virt k) /\
  has (kmap_pte k vb) PTE_P = true /\
  forall b, 0 <= b < PGSIZE -> has (kmap_pte k vb) b = has (km_perm k) b || has PTE_P b.
Proof.
  intros [] Hvb Hc. unfold covers in Hc. apply mapped_pte_spec; [| |done].
  - unfold is_u32. rewrite PGROUNDDOWN_spec by done. unfold aligned, PGSIZE in *. ulia.
  - pose proof (PGROUNDDOWN_aligned vb). unfold aligned, PGSIZE in *. ulia.
Qed.

(** One entry of [kmap]. *)
Lemma kmap_one s l pgdir k : pd_ok end_ s l pgdir -> kmap_ok k -> (km_tables k <= length l)%nat ->
  (forall vb v, is_u32 vb -> covers k vb -> pte_at (m_mem s) pgdir vb = Some v -> has v PTE_P = false) ->
  exists s' l', mappages pgdir (km_virt k) (km_size k) (km_phys_start k) (km_perm k) s = Ok 0 s' /\
    pd_step end_ s s' l l' pgdir /\ (length l <= km_tables k + length l')%nat /\
    (forall vb, is_u32 vb -> pte_at (m_mem s) pgdir vb = None -> PDX vb < PDX (km_virt k) ->
       pte_at (m_mem s') pgdir vb = None) /\
    (forall vb, is_u32 vb -> ~ covers k vb -> pte_ext (pte_at (m_mem s) pgdir vb) (pte_at (m_mem s') pgdir vb)) /\
    (forall vb, is_u32 vb -> covers k vb -> pte_at (m_mem s') pgdir vb = Some (kmap_pte k vb)).
Proof.
  intros Hok Hk Hlen Hnp. pose proof Hk as [].
  assert (is_u32 (km_virt k)) as Hvu by (unfold is_u32; lia).
  assert (PGROUNDDOWN (km_virt k) = km_virt k) as Ev by (by apply PGROUNDDOWN_id).
  destruct (mappages_range end_ end_high s l pgdir (km_virt k) (km_size k) (km_phys_start k) (km_perm k))
    as (r & s' & l' & Hrun & Hst & Hnt & Ho & Hi); try done.
  { unfold is_u32. lia. }
  { intros vb v Hvb Hin. apply Hnp; [done|]. by apply covers_pages. }
  assert ((Z.to_nat (PDX (PGROUNDDOWN (km_virt k) + Z.of_nat
            (Z.to_nat ((PGROUNDDOWN (km_virt k + km_size k - 1) - PGROUNDDOWN (km_virt k)) / PGSIZE)) * PGSIZE) -
            PDX (PGROUNDDOWN (km_virt k))) + needs (m_mem s) pgdir (PGROUNDDOWN (km_virt k)) <= km_tables k)%nat) as Hneed.
  { unfold km_tables. rewrite Ev.
    assert (needs (m_mem s) pgdir (km_virt k) <= 1)%nat by (unfold needs; destruct (table_at _ _ _); lia).
    assert (is_u32 (km_virt k + km_size k - 1)) as Hl by (unfold is_u32; lia).
    rewrite (PGROUNDDOWN_spec (km_virt k + km_size k - 1)) by done.
    replace (km_virt k + _) with (PGROUNDDOWN (km_virt k + km_size k - 1)).
    2: { rewrite PGROUNDDOWN_spec by done. unfold aligned, PGSIZE in *. ulia. }
    assert (PDX (PGROUNDDOWN (km_virt k + km_size k - 1)) <= PDX (km_virt k + km_size k - 1)); [|lia].
    apply PDX_mono; [apply PGROUNDDOWN_range|done|]. rewrite PGROUNDDOWN_spec by done. unfold PGSIZE. ulia. }
  cbv zeta in Hi. destruct Hi as [[_ Hc]|(-> & Hc & Hi)]; [lia|].
  exists s', l'. split; [done|]. split; [done|]. split; [lia|].
  split; [intros vb Hvb Hn Hlt; apply Hnt; [done|done|rewrite Ev; lia]|]. split.
  - intros vb Hvb Hn. apply Ho; [done|]. by rewrite (covers_pages k vb).
  - intros vb Hvb Hc'. rewrite Hi by (done || by apply covers_pages). rewrite Ev. unfold kmap_pte.
    rewrite u32_small; [done|]. unfold covers in Hc'. rewrite PGROUNDDOWN_spec by done.
    unfold aligned, PGSIZE, is_u32 in *. ulia.
Qed.

(** All of them. *)
Lemma setupkvm_loop_run ks : forall st l pgdir, pd_ok end_ (v_mach st) l pgdir ->
  Forall kmap_ok ks -> apart_ranges ks -> (list_sum (km_tables <$> ks) <= length l)%nat ->
  (forall k vb v, k ∈ ks -> is_u32 vb -> covers k vb -> pte_at (m_mem (v_mach st)) pgdir vb = Some v -> has v PTE_P = false) ->
  exists s' l', setupkvm_loop end_ pol ks pgdir st = Ok pgdir (set_mach s' st) /\
    pd_step end_ (v_mach st) s' l l' pgdir /\ (length l <= list_sum (km_tables <$> ks) + length l')%nat /\
    (forall vb, is_u32 vb -> pte_at (m_mem (v_mach st)) pgdir vb = None ->
       (forall k, k ∈ ks -> PDX vb < PDX (km_virt k)) -> pte_at (m_mem s') pgdir vb = None) /\
    (forall vb, is_u32 vb -> (forall k, k ∈ ks -> ~ covers k vb) ->
       pte_ext (pte_at (m_mem (v_mach st)) pgdir vb) (pte_at (m_mem s') pgdir vb)) /\
    (forall k vb, k ∈ ks -> is_u32 vb -> covers k vb -> pte_at (m_mem s') pgdir vb = Some (kmap_pte k vb)).
Proof.
  induction ks as [|k ks IH]; intros st l pgdir Hok Hall Hap Hlen Hnp.
  - exists (v_mach st), l. split; [by destruct st|]. split; [by apply pd_step_refl|]. split; [cbn; lia|]. split; [done|].
    split; [intros; apply pte_ext_refl|]. by intros k vb Hk%elem_of_nil.
  - apply Forall_cons in Hall as [Hk Hall]. destruct Hap as [Hd Hap].
    change (list_sum (km_tables <$> k :: ks)) with (km_tables k + list_sum (km_tables <$> ks))%nat in *.
    destruct (kmap_one (v_mach st) l pgdir k) as (s1 & l1 & Hrun & Hst & Hl1 & Hnt & Ho & Hi); try done.
    { lia. } { intros vb v. apply Hnp, elem_of_cons. by left. }
    destruct (IH (set_mach s1 st) l1 pgdir) as (s2 & l2 & Hr2 & Hst2 & Hl2 & Hnt2 & Ho2 & Hi2); try done.
    { apply Hst. } { lia. }
    { intros k' vb v Hk' Hvb Hc Hv. cbn [v_mach set_mach] in Hv.
      destruct (Ho vb Hvb) as [E|[_ E]]; [by intros Hc'; eapply Hd| |].
      - rewrite E in Hv. apply (Hnp k' vb v); try done. apply elem_of_cons. by right.
      - rewrite E in Hv. by injection Hv as <-. }
    exists s2, l2. split; [|split; [|split; [|split; [|split]]]].
    + cbn [setupkvm_loop]. erewrite (Ok_bind (onmach _)) by (apply onmach_Ok; exact Hrun). exact Hr2.
    + by eapply pd_step_trans.
    + lia.
    + intros vb Hvb Hn Hlt. apply Hnt2; [done| |].
      * apply Hnt; [done..|]. apply Hlt, elem_of_cons. by left.
      * intros k' Hk'. apply Hlt, elem_of_cons. by right.
    + intros vb Hvb Hn. eapply pte_ext_trans.
      * apply Ho; [done|]. apply Hn, elem_of_cons. by left.
      * apply Ho2; [done|]. intros k' Hk'. apply Hn, elem_of_cons. by right.
    + intros k' vb Hk' Hvb Hc. apply elem_of_cons in Hk' as [->|Hk'].
      * specialize (Ho2 vb Hvb). cbn [v_mach set_mach] in Ho2. rewrite (Hi vb Hvb Hc) in Ho2. apply pte_ext_Some. apply Ho2.
        intros k' Hk'. by apply Hd.
      * by apply Hi2.
Qed.

(** ** The kernel's own table *)

(** [data] is in the kernel's image: page-aligned, above [KERNLINK], below
    the top of physical memory. *)
Hypothesis data_ok : aligned data /\ KERNLINK < data < P2V PHYSTOP.

Lemma data_u32 : is_u32 data.
Proof. destruct data_ok as [_ [H1 H2]]. unfold KERNLINK, KERNBASE, EXTMEM in H1. pose proof (u32_range (PHYSTOP + KERNBASE)). unfold P2V in H2. ulia. Qed.

Lemma V2P_data : V2P data = data - KERNBASE.
Proof.
  destruct data_ok as [_ [H1 H2]]. pose proof data_u32. unfold V2P, KERNLINK, KERNBASE, EXTMEM in *. ulia.
Qed.

(** The sizes of the four entries. *)
Lemma size_io : km_size (KMap KERNBASE 0 EXTMEM PTE_W) = EXTMEM.
Proof. by vm_compute. Qed.

Lemma size_text : km_size (KMap KERNLINK (V2P KERNLINK) (V2P data) 0) = data - KERNLINK.
Proof.
  destruct data_ok as [_ [H1 H2]]. pose proof data_u32. unfold km_size. simpl. rewrite V2P_data.
  change (V2P KERNLINK) with EXTMEM. unfold KERNLINK, KERNBASE, EXTMEM in *. ulia.
Qed.

Lemma size_data : km_size (KMap data (V2P data) PHYSTOP PTE_W) = P2V PHYSTOP - data.
Proof.
  destruct data_ok as [_ [H1 H2]]. pose proof data_u32. unfold km_size. simpl. rewrite V2P_data.
  change (P2V PHYSTOP) with (PHYSTOP + KERNBASE) in *. unfold KERNLINK, KERNBASE, EXTMEM, PHYSTOP in *. ulia.
Qed.

Lemma size_dev : km_size (KMap DEVSPACE DEVSPACE 0 PTE_W) = two32 - DEVSPACE.
Proof. by vm_compute. Qed.

Lemma kmap_all_ok : Forall kmap_ok (kmap data).
Proof.
  destruct data_ok as [Hal [H1 H2]]. pose proof data_u32.
  assert (P2V PHYSTOP = 0x8E000000) as EP by done. rewrite EP in H2.
  assert (V2P KERNLINK = EXTMEM) as EK by done.
  unfold kmap. repeat (apply Forall_cons; split); [..|by apply Forall_nil]; split; rewrite ?size_io, ?size_text, ?size_data, ?size_dev;
    cbn [km_virt km_phys_start km_perm]; rewrite ?V2P_data, ?EP, ?EK; try done;
    unfold aligned, KERNLINK, KERNBASE, EXTMEM, two32, PGSIZE, DEVSPACE in *; try lia; ulia.
Qed.

Lemma kmap_apart : apart_ranges (kmap data).
Proof.
  destruct data_ok as [Hal [H1 H2]]. assert (P2V PHYSTOP = 0x8E000000) as EP by done. rewrite EP in H2.
  repeat split; try (intros k' Hk' vb Hc Hc'; unfold kmap in Hk';
    repeat (apply elem_of_cons in Hk' as [->|Hk']); try (by apply elem_of_nil in Hk');
    unfold covers in *; rewrite ?size_io, ?size_text, ?size_data, ?size_dev, ?EP in *;
    cbn [km_virt] in *; unfold KERNLINK, KERNBASE, EXTMEM, DEVSPACE, two32 in *; lia).
Qed.

(** At most 66 page-table pages. *)
Lemma kmap_tables_le : (list_sum (km_tables <$> kmap data) <= 66)%nat.
Proof.
  destruct data_ok as [Hal [H1 H2]]. pose proof data_u32 as Hd.
  assert (P2V PHYSTOP = 0x8E000000) as EP by done. rewrite EP in H2.
  unfold kmap, km_tables. cbn [list_fmap fmap list_sum foldr].
  rewrite size_io, size_text, size_data, size_dev. cbn [km_virt]. rewrite EP.
  replace (KERNLINK + (data - KERNLINK) - 1) with (data - 1) by lia.
  replace (data + (0x8E000000 - data) - 1) with 0x8DFFFFFF by lia.
  change (PDX (KERNBASE + EXTMEM - 1)) with 512. change (PDX KERNBASE) with 512.
  change (PDX KERNLINK) with 512. change (PDX 0x8DFFFFFF) with 567.
  change (PDX (DEVSPACE + (two32 - DEVSPACE) - 1)) with 1023. change (PDX DEVSPACE) with 1016.
  unfold KERNLINK, KERNBASE, EXTMEM in H1. assert (is_u32 (data - 1)) by ulia.
  assert (512 <= PDX data <= 567 /\ 512 <= PDX (data - 1) <= PDX data) as [? ?].
  { rewrite !PDX_spec by done. change (2 ^ 22) with 4194304. ulia. }
  lia.
Qed.

Lemma kmap_high k vb : k ∈ kmap data -> covers k vb -> KERNBASE <= vb.
Proof.
  destruct data_ok as [_ [H1 _]]. unfold kmap, covers. intros Hk [Hc _].
  repeat (apply elem_of_cons in Hk as [->|Hk]); try (by apply elem_of_nil in Hk); cbn [km_virt] in Hc;
    unfold KERNLINK, KERNBASE, EXTMEM, DEVSPACE in *; lia.
Qed.
(** No entry is for the user. *)
Lemma kmap_kernel_only k : k ∈ kmap data -> has (km_perm k) PTE_U = false.
Proof.
  unfold kmap. rewrite !elem_of_cons, elem_of_nil. by intros [->|[->|[->|[->|[]]]]].
Qed.

(** What [setupkvm] takes from the free list and what it builds. *)
Lemma setupkvm_run st l : kmem_inv end_ (v_mach st) l -> mem_words (m_mem (v_mach st)) ->
  (67 <= length l)%nat ->
  exists pgdir s' l' used, setupkvm end_ data pol st = Ok pgdir (set_mach s' st) /\
    pd_ok end_ s' l' pgdir /\ l = used ++ l' /\ (length l <= 67 + length l')%nat /\
    only_changes (fun fn => fn ∈ kframe <$> used) (m_mem (v_mach st)) (m_mem s') /\
    (forall fn, pd_frame (m_mem s') pgdir fn -> fn ∈ kframe <$> used) /\
    (forall v, valid_page end_ v -> v ∉ used -> page_refs s' v = page_refs (v_mach st) v) /\
    (forall k vb, k ∈ kmap data -> is_u32 vb -> covers k vb -> pte_at (m_mem s') pgdir vb = Some (kmap_pte k vb)) /\
    (forall vb v, is_u32 vb -> (forall k, k ∈ kmap data -> ~ covers k vb) ->
       pte_at (m_mem s') pgdir vb = Some v -> v = 0) /\
    (forall vb, 0 <= vb < KERNBASE -> pte_at (m_mem s') pgdir vb = None).
Proof.
  intros Hk Hw Hlen. destruct l as [|x l]; [simpl in Hlen; lia|].
  destruct (kalloc_cons end_ end_high (v_mach st) x l Hk) as [Hka Hk1].
  pose proof (ki_nodup _ _ _ Hk) as [Hnin _]%NoDup_cons.
  pose proof (ki_valid _ _ _ Hk) as [Hx Hvl]%Forall_cons. rewrite Forall_forall in Hvl.
  set (s1 := kalloc_post (v_mach st) x) in *. set (s2 := set_mem (kmemset (m_mem s1) x 0) s1).
  assert (forall y, y ∈ l -> kframe y <> kframe x) as Hne.
  { intros y Hy E. apply Hnin. by rewrite <- (valid_page_inj end_ y x (Hvl y Hy) Hx E). }
  assert (kmem_inv end_ s2 l) as Hk2.
  { destruct Hk1 as [Hc Hnd Hv Hr]. split; try done. eapply chain_frame; [|exact Hc].
    intros y Hy. simpl. rewrite mem_frame_kmemset, decide_False; [done|]. intros E. by apply (Hne y Hy). }
  assert (mem_frame (m_mem s2) (kframe x) = frame_fill 0) as E0.
  { simpl. rewrite mem_frame_kmemset. by rewrite decide_True. }
  assert (pd_ok end_ s2 l x) as Hpd2.
  { apply pd_ok_empty; try done. simpl. by apply mem_words_kmemset. }
  assert (forall vb, pte_at (m_mem s2) x vb = None) as Hnone.
  { intros vb. unfold pte_at. rewrite (table_at_empty (m_mem s2)); [done|apply Hx|apply Hx|done]. }
  pose proof kmap_tables_le as Hle. simpl in Hlen.
  destruct (setupkvm_loop_run (kmap data) (set_mach s2 st) l x) as (s3 & l3 & Hrun & Hst & Hl3 & Hnt & Ho & Hi); try done.
  { apply kmap_all_ok. } { apply kmap_apart. } { lia. }
  { intros k vb v _ _ _. cbn [v_mach set_mach]. by rewrite Hnone. }
  destruct Hst as [Hok3 (used & -> & Hoc & Hpf & Hrefs)]. cbn [v_mach set_mach] in *.
  assert (forall fn, pd_frame (m_mem s2) x fn -> fn = kframe x) as Hself.
  { intros fn [->|(va & t & _ & Ht & _)]; [done|]. specialize (Hnone va). unfold pte_at in Hnone. by rewrite Ht in Hnone. }
  exists x, s3, l3, (x :: used). split.
  { unfold setupkvm. erewrite (Ok_bind (onmach kalloc)) by (apply onmach_Ok; exact Hka).
    rewrite (proj2 (Z.eqb_neq _ _)) by (by eapply (valid_page_nonzero end_ end_high)).
    erewrite Ok_bind by reflexivity. exact Hrun. }
  split; [done|]. split; [done|]. split; [cbn [length]; lia|].
  split; [|split; [|split; [|split; [|split]]]].
  - intros fn Hfn. rewrite fmap_cons, elem_of_cons in Hfn. rewrite Hoc.
    + simpl. rewrite mem_frame_kmemset, decide_False; [done|]. intros E. apply Hfn. by left.
    + intros [Hp|Hu]; apply Hfn; [left; by apply Hself|by right].
  - intros fn Hfn. rewrite fmap_cons, elem_of_cons. apply Hpf in Hfn as [Hp|Hu]; [left; by apply Hself|by right].
  - intros v Hv Hnu. apply not_elem_of_cons in Hnu as [Hvx Hnu]. rewrite Hrefs by done.
    change (page_refs (refs_set (kframe x) 1 (v_mach st)) v = page_refs (v_mach st) v).
    rewrite page_refs_set, decide_False; [done|]. intros E. apply Hvx. symmetry. by apply (valid_page_inj end_).
  - exact Hi.
  - intros vb v Hvb Hn Hv. destruct (Ho vb Hvb Hn) as [E|[_ E]]; rewrite E in Hv; [by rewrite Hnone in Hv|congruence].
  - intros vb Hvb. assert (is_u32 vb) as Hu by (unfold KERNBASE in Hvb; ulia).
    apply Hnt; [done|apply Hnone|]. intros k Hkk.
    assert (512 <= PDX (km_virt k)) as Hge.
    { pose proof kmap_all_ok as Hall. rewrite Forall_forall in Hall. destruct (Hall k Hkk) as [? _ ? _ ? _ _ _ _].
      change 512 with (PDX KERNBASE). apply PDX_mono; [done|unfold is_u32; lia|].
      apply (kmap_high k (km_virt k) Hkk). unfold covers. lia. }
    assert (PDX vb < 512); [|lia]. rewrite PDX_spec by done. change (2 ^ 22) with 4194304. unfold KERNBASE in Hvb. ulia.
Qed.

End kvm.
