(* ===== verification/CowFork.v ===== *)
(** * Sharing an address space copy-on-write

    [copyonwriteuvm] gives the child the parent's frames: afterwards both page
    tables have the same entry for every page, read-only and marked
    [PTE_COW], no frame has changed and each has one more reference.  The
    loop works on two page tables in one memory, so the invariant says that
    their frames are apart. *)

From S2P Require Import Prelude Mmu Memory Kalloc PageTable Vm Paging VmInv Replacement Demand Uvm Kvm.

(** What [copyonwriteuvm] makes of a present entry. *)
Definition cow_of (v : Z) : Z := clear_bits (Z.lor v PTE_COW) PTE_W.

Lemma cow_of_spec v : is_u32 v ->
  is_u32 (cow_of v) /\ PTE_ADDR (cow_of v) = PTE_ADDR v /\ has (cow_of v) PTE_P = has v PTE_P /\
  has (cow_of v) PTE_W = false /\ has (cow_of v) PTE_COW = true /\ has (cow_of v) PTE_PG = has v PTE_PG.
Proof.
  intros Hv. unfold cow_of. assert (is_u32 (Z.lor v PTE_COW)) as Hc by (by apply lor_u32).
  rewrite PTE_ADDR_clear, PTE_ADDR_set by done.
  split; [by apply clear_bits_range|]. split; [done|]. split; [|split; [by apply has_clear_same|split]];
    rewrite has_clear_disjoint, has_lor by done.
  - change (has PTE_COW PTE_P) with false. apply orb_false_r.
  - apply orb_true_r.
  - change (has PTE_COW PTE_PG) with false. apply orb_false_r.
Qed.

(** Mapping an entry's own address with its own flags gives the entry back. *)
Lemma mapped_pte_self w : is_u32 w -> has w PTE_P = true -> mapped_pte (PTE_ADDR w) (PTE_FLAGS w) = w.
Proof.
  intros Hw Hp. unfold mapped_pte, PTE_ADDR, PTE_FLAGS. rewrite u32_small by done.
  apply Z.bits_inj'. intros k Hk. rewrite !Z.lor_spec, !Z.land_spec. unfold not32. rewrite Z.lxor_spec.
  change (two32 - 1) with (Z.ones 32). change 0xFFF with (Z.ones 12). unfold PTE_P in *.
  change 0x1 with (2 ^ 0) in *. rewrite has_pow2 in Hp by lia.
  destruct (Z.testbit w k) eqn:E; cbn [andb orb].
  - destruct (Z.ltb_spec k 12).
    + by rewrite (Z.ones_spec_low 12), orb_true_r by lia.
    + rewrite (Z.ones_spec_high 12) by lia. destruct (Z.ltb_spec k 32).
      * by rewrite (Z.ones_spec_low 32) by lia.
      * rewrite (testbit_small w 32 k) in E by (done || lia). done.
  - rewrite Z.pow2_bits_eqb by lia. apply Z.eqb_neq. intros <-. congruence.
Qed.

Section cowfork.
Context {F : Type} `{SwapLaws F}.
Context (end_ : Z) (end_high : KERNBASE <= end_).
Implicit Types st : vm F.

(** Two page tables side by side: [pgdir] with its user pages, and [d]. *)
Record pair_inv (s : mach) (l : list Z) (pgdir d : Z) : Prop := {
  pi_as : as_inv end_ s l pgdir nobody;
  pi_pd : pd_ok end_ s l d;
  pi_apart : forall fn, pd_frame (m_mem s) pgdir fn -> ~ pd_frame (m_mem s) d fn;
  pi_user : forall va x, upage va -> mapped (m_mem s) pgdir va x -> ~ pd_frame (m_mem s) d (kframe x);
}.

(** What a step kept of the parent's pages. *)
Record kept (s s' : mach) (pgdir : Z) : Prop := {
  kp_frames : forall va x, upage va -> mapped (m_mem s) pgdir va x ->
    mem_frame (m_mem s') (kframe x) = mem_frame (m_mem s) (kframe x);
  kp_mapped : forall va x, upage va -> mapped (m_mem s') pgdir va x <-> mapped (m_mem s) pgdir va x;
}.

Lemma kept_trans s1 s2 s3 pgdir : kept s1 s2 pgdir -> kept s2 s3 pgdir -> kept s1 s3 pgdir.
Proof.
  intros [F1 M1] [F2 M2]. split.
  - intros va x Hva Hx. rewrite (F2 va x Hva); [by apply (F1 va)|]. by apply M1.
  - intros va x Hva. by rewrite M2, M1.
Qed.

Lemma pair_owned s l pgdir d va x : pair_inv s l pgdir d -> upage va -> mapped (m_mem s) pgdir va x ->
  owned end_ s l pgdir x.
Proof. intros Hp Hva Hx. apply (as_frames _ _ _ _ _ (pi_as _ _ _ _ Hp) va); [done|by intros []|done]. Qed.

(** The parent's entry becomes read-only. *)
Lemma pair_cow_pte s l pgdir d i v : pair_inv s l pgdir d -> upage i ->
  pte_at (m_mem s) pgdir i = Some v -> has v PTE_P = true ->
  let s' := pte_set s pgdir i (cow_of v) in
  pair_inv s' l pgdir d /\ kept s s' pgdir /\
  (forall vb, upage vb -> pte_at (m_mem s') pgdir vb =
     if decide (i = vb) then Some (cow_of v) else pte_at (m_mem s) pgdir vb) /\
  (forall vb, is_u32 vb -> pte_at (m_mem s') d vb = pte_at (m_mem s) d vb).
Proof.
  intros Hp Hi Hv HP s'. pose proof (pi_as _ _ _ _ Hp) as Has. pose proof (as_wf _ _ _ _ _ Has) as Hwf.
  pose proof (as_word _ _ _ _ _ _ _ Has Hv) as Hvu.
  destruct (cow_of_spec v Hvu) as (Hcu & Ea & EP & _ & _ & _).
  assert (as_inv end_ s' l pgdir nobody) as Has'.
  { eapply as_pte_flags; eauto; by intros []. }
  assert (forall fn, ~ pd_frame (m_mem s) pgdir fn -> mem_frame (m_mem s') fn = mem_frame (m_mem s) fn) as Hf.
  { intros fn Hfn. apply (pte_set_frame end_); auto. }
  destruct (pd_ok_agree end_ s s' l l d (pi_pd _ _ _ _ Hp)) as (Hpd' & Hpf & Hpte).
  { apply (as_pd _ _ _ _ _ Has'). } { apply (as_pd _ _ _ _ _ Has'). }
  { intros fn Hfn. apply Hf. intros Hb. by eapply (pi_apart _ _ _ _ Hp). }
  { apply (pi_pd _ _ _ _ Hp). }
  assert (forall vb x, upage vb -> mapped (m_mem s') pgdir vb x <-> mapped (m_mem s) pgdir vb x) as Hm.
  { intros vb x Hvb. unfold s'. rewrite (mapped_pte_set end_ s l pgdir nobody i vb v) by done.
    case_decide as E; [|done]. subst vb. rewrite EP, Ea. split.
    - intros [? <-]. by exists v.
    - intros (w & Hw & ? & <-). rewrite Hv in Hw. by injection Hw as <-. }
  split; [split|split; [split|split]]; try done.
  - intros fn. rewrite Hpf. unfold s'. rewrite (pte_set_pd_frame end_) by auto. apply Hp.
  - intros va x Hva Hx. rewrite Hpf. apply (pi_user _ _ _ _ Hp va); [done|by apply Hm].
  - intros va x Hva Hx. apply Hf. apply (pair_owned _ _ _ _ va x Hp Hva Hx).
  - intros vb Hvb. unfold s'. rewrite (pte_set_at end_ _ _ _ _ _ v) by auto. by rewrite !upage_round.
Qed.

(** The frame gets one more holder. *)
Lemma pair_inc s l pgdir d i x : pair_inv s l pgdir d -> upage i -> mapped (m_mem s) pgdir i x ->
  page_refs s x + 1 < 2147483647 ->
  let s' := refs_set (kframe x) (page_refs s x + 1) s in
  inc_counter (V2P x) s = Ok () s' /\ pair_inv s' l pgdir d.
Proof.
  intros Hp Hi Hx Hc s'. pose proof (pi_as _ _ _ _ Hp) as Has.
  destruct (pair_owned _ _ _ _ i x Hp Hi Hx) as (Hv & Hnin & Hnp & Hr).
  destruct (counter_run end_ s x Hv Hr) as (Hinc & _ & _). split; [done|].
  assert (kmem_inv end_ s' l) as Hk.
  { destruct (po_kmem _ _ _ _ (as_pd _ _ _ _ _ Has)) as [Hch Hnd Hvl Hrf]. split; try done.
    rewrite Forall_forall in Hrf, Hvl |- *. intros y Hy. unfold s'. rewrite page_refs_set.
    rewrite decide_False; [by apply Hrf|]. intros E. apply Hnin.
    by rewrite (valid_page_inj end_ x y Hv (Hvl y Hy) E). }
  destruct (pi_pd _ _ _ _ Hp) as [_ Hw Hwf Hfr].
  split; [|by split|apply Hp|apply Hp].
  apply (as_agree end_ s s' l l pgdir nobody); try done; try apply (as_pd _ _ _ _ _ Has).
  intros va y _ _ _ (Hvy & Hny & _ & Hry). split; [done|]. unfold s'. rewrite page_refs_set.
  case_decide as E; [|done]. rewrite (valid_page_inj end_ x y Hv Hvy E) in Hc |- *. lia.
Qed.

(** The child's entry. *)
Lemma pair_mappages s l pgdir d i pa perm : pair_inv s l pgdir d -> upage i -> is_u32 pa ->
  0 <= perm < PGSIZE -> l <> [] ->
  (forall v, pte_at (m_mem s) d i = Some v -> has v PTE_P = false) ->
  exists s' l', mappages d i PGSIZE pa perm s = Ok 0 s' /\ pair_inv s' l' pgdir d /\ kept s s' pgdir /\
    (length l <= S (length l'))%nat /\
    (forall vb, is_u32 vb -> pte_at (m_mem s') pgdir vb = pte_at (m_mem s) pgdir vb) /\
    (forall va x, upage va -> mapped (m_mem s) pgdir va x -> page_refs s' x = page_refs s x) /\
    (forall vb, upage vb -> if decide (i = vb) then pte_at (m_mem s') d vb = Some (mapped_pte pa perm)
       else pte_ext (pte_at (m_mem s) d vb) (pte_at (m_mem s') d vb)).
Proof.
  intros Hp Hi Hpa Hperm Hl Hnp. pose proof (pi_as _ _ _ _ Hp) as Has. pose proof (as_wf _ _ _ _ _ Has) as Hwf.
  destruct (mappages_page end_ end_high s l d i pa perm) as (r & s' & l' & Hrun & Hst & Hc);
    [apply Hp|auto|apply Hi|done|done|done|].
  destruct Hc as [(_ & ? & _)|(-> & Hlen & He)]; [done|].
  assert (length l <= S (length l'))%nat as Hlen'
    by (unfold needs in Hlen; destruct (table_at _ _ _); simpl in Hlen; lia).
  exists s', l'. split; [done|].
  pose proof (ps_used _ _ _ _ _ _ Hst) as (used & El & Hoc & Hpf & Hrefs).
  pose proof (ki_valid _ _ _ (po_kmem _ _ _ _ (pi_pd _ _ _ _ Hp))) as Hvl. rewrite Forall_forall in Hvl.
  assert (forall x, x ∈ used -> x ∈ l) as Hin by (intros x Hx; rewrite El; apply elem_of_app; by left).
  (* the parent's frames are neither the child's nor free *)
  assert (forall fn, pd_frame (m_mem s) pgdir fn -> mem_frame (m_mem s') fn = mem_frame (m_mem s) fn) as Hfp.
  { intros fn Hfn. apply Hoc. intros [Hd|(x & -> & Hx)%list_elem_of_fmap].
    - by apply (pi_apart _ _ _ _ Hp fn).
    - by apply (po_free _ _ _ _ (as_pd _ _ _ _ _ Has) x (Hin x Hx)). }
  assert (forall va x, upage va -> mapped (m_mem s) pgdir va x ->
    (x ∉ used) /\ (x ∉ l') /\ ~ (kframe x ∈ kframe <$> used)) as Hnu.
  { intros va x Hva Hx. destruct (pair_owned _ _ _ _ va x Hp Hva Hx) as (Hvx & Hnin & _ & _).
    rewrite El, elem_of_app in Hnin. split; [tauto|]. split; [tauto|].
    intros (y & E & Hy)%list_elem_of_fmap. apply Hnin. left.
    by rewrite (valid_page_inj end_ x y Hvx (Hvl y (Hin y Hy)) E). }
  assert (pd_ok end_ s' l' d) as Hpd' by apply Hst.
  destruct (pd_ok_agree end_ s s' l l' pgdir (as_pd _ _ _ _ _ Has)) as (_ & Hpfp & Hptep).
  { apply Hpd'. } { apply Hpd'. } { done. }
  { intros y Hy. apply (po_free _ _ _ _ (as_pd _ _ _ _ _ Has)). rewrite El. apply elem_of_app. by right. }
  assert (forall va x, upage va -> mapped (m_mem s) pgdir va x -> page_refs s' x = page_refs s x) as Hr.
  { intros va x Hva Hx. apply Hrefs; [|by apply (Hnu va x)]. apply (pair_owned _ _ _ _ va x Hp Hva Hx). }
  assert (forall va x, upage va -> mapped (m_mem s') pgdir va x <-> mapped (m_mem s) pgdir va x) as Hm.
  { intros va x Hva. apply mapped_agree. auto. }
  split; [split|split; [split|split; [done|split; [done|split; [done|]]]]]; try done.
  - apply (as_agree end_ s s' l l' pgdir nobody); try done; try apply Hpd'.
    + intros y Hy. apply (po_free _ _ _ _ (as_pd _ _ _ _ _ Has)). rewrite El. apply elem_of_app. by right.
    + intros va x Hva _ Hx (_ & _ & _ & Href). split; [by apply (Hnu va x)|]. by rewrite (Hr va x).
  - intros fn Hfn Hd. rewrite Hpfp in Hfn. apply Hpf in Hd as [Hd|(x & -> & Hx)%list_elem_of_fmap].
    + by apply (pi_apart _ _ _ _ Hp fn).
    + by apply (po_free _ _ _ _ (as_pd _ _ _ _ _ Has) x (Hin x Hx)).
  - intros va x Hva Hx%Hm Hd; [|done]. apply Hpf in Hd as [Hd|Hd].
    + by apply (pi_user _ _ _ _ Hp va x).
    + by apply (Hnu va x).
  - intros va x Hva Hx. apply Hoc. intros [Hd|Hd].
    + by apply (pi_user _ _ _ _ Hp va x).
    + by apply (Hnu va x).
  - intros vb Hvb. specialize (He vb (upage_u32 vb Hvb)). by rewrite (upage_round vb Hvb) in He.
Qed.

(** ** The loop *)

(** What sharing the pages of [[i, sz)] leaves. *)
Record shared (s s' : mach) (pgdir d i sz : Z) : Prop := {
  sh_kept : kept s s' pgdir;
  sh_both : forall va v, upage va -> i <= va < sz -> pte_at (m_mem s) pgdir va = Some v ->
    pte_at (m_mem s') pgdir va = Some (cow_of v) /\ pte_at (m_mem s') d va = Some (cow_of v);
  sh_rest : forall va, upage va -> ~ (i <= va < sz) ->
    pte_at (m_mem s') pgdir va = pte_at (m_mem s) pgdir va /\
    pte_ext (pte_at (m_mem s) d va) (pte_at (m_mem s') d va);
  sh_refs : forall va x, upage va -> mapped (m_mem s) pgdir va x ->
    page_refs s' x = page_refs s x + (if decide (i <= va < sz) then 1 else 0);
}.

(** The statements of a round: the entry is changed, the frame counted, and the
    child's entry made. *)
Lemma share_round_run st l d i v s2 s3 :
  let pgdir := pp_pgdir (v_p st) in
  as_inv end_ (v_mach st) l pgdir nobody -> upage i ->
  pte_at (m_mem (v_mach st)) pgdir i = Some v -> has v PTE_P = true -> has v PTE_PG = false ->
  PTE_ADDR (cow_of v) = PTE_ADDR v ->
  inc_counter (PTE_ADDR v) (pte_set (v_mach st) pgdir i (cow_of v)) = Ok () s2 ->
  mappages d i PGSIZE (PTE_ADDR v) (PTE_FLAGS (cow_of v)) s2 = Ok 0 s3 ->
  forall fuel sz, i < sz ->
    copyonwriteuvm_loop (S fuel) pgdir d i sz st =
    copyonwriteuvm_loop fuel pgdir d (u32 (i + PGSIZE)) sz (set_mach s3 st).
Proof.
  intros pgdir Has Hi Hv HP HG Ea Hinc Hmp fuel sz Hlt. set (s := v_mach st) in *.
  cbn [copyonwriteuvm_loop]. rewrite (proj2 (Z.ltb_lt _ _)) by done.
  destruct (walk_Ok end_ end_high st pgdir i v) as (a & Hw & Ha0 & Hld & Hsto);
    [eapply as_wf, Has|auto|done|].
  rewrite (Ok_bind _ _ _ _ _ Hw), Ha0, (Ok_bind _ _ _ _ _ Hld), HG, HP. cbn [negb].
  pose proof Hv as (t & Ht & Htl)%pte_at_table.
  assert (a = entry t (PTX i)) as ->.
  { erewrite onmach_same in Hw by (apply walk_present; exact Ht). by injection Hw. }
  assert (pte_set s pgdir i (cow_of v) = set_mem (kstore (m_mem s) (entry t (PTX i)) (cow_of v)) s) as E1.
  { unfold pte_set. by rewrite Ht. }
  unfold mbind, M_bind, bindM, onmach, zoom, store, load, modify, gets. cbn -[inc_counter mappages].
  rewrite !kload_kstore_eq, kstore_kstore. fold s. fold (cow_of v). rewrite Ea.
  change (set_mem (kstore (m_mem s) (entry t (PTX i)) (cow_of v)) (set_mem
    (kstore (m_mem s) (entry t (PTX i)) (Z.lor v PTE_COW)) s)) with
    (set_mem (kstore (m_mem s) (entry t (PTX i)) (cow_of v)) s).
  rewrite <- E1. cbn [v_mach set_mach]. rewrite Hinc. cbn [v_mach set_mach]. rewrite Hmp. done.
Qed.

(** One page. *)
Lemma share_round st l d i :
  let pgdir := pp_pgdir (v_p st) in
  forall v, pair_inv (v_mach st) l pgdir d -> upage i -> l <> [] ->
  pte_at (m_mem (v_mach st)) pgdir i = Some v -> has v PTE_P = true -> has v PTE_PG = false ->
  page_refs (v_mach st) (P2V (PTE_ADDR v)) + 1 < 2147483647 ->
  (forall w, pte_at (m_mem (v_mach st)) d i = Some w -> has w PTE_P = false) ->
  exists s' l', pair_inv s' l' pgdir d /\ shared (v_mach st) s' pgdir d i (i + PGSIZE) /\
    (length l <= S (length l'))%nat /\
    forall fuel sz, i < sz ->
      copyonwriteuvm_loop (S fuel) pgdir d i sz st =
      copyonwriteuvm_loop fuel pgdir d (u32 (i + PGSIZE)) sz (set_mach s' st).
Proof.
  intros pgdir v Hp Hi Hl Hv HP HG Href Hnp. set (s := v_mach st) in *.
  pose proof (as_word _ _ _ _ _ _ _ (pi_as _ _ _ _ Hp) Hv) as Hvu.
  destruct (cow_of_spec v Hvu) as (Hcu & Ea & EP & _ & _ & _).
  set (x := P2V (PTE_ADDR v)) in *. assert (mapped (m_mem s) pgdir i x) as Hx by (by exists v).
  destruct (pair_cow_pte s l pgdir d i v Hp Hi Hv HP) as (Hp1 & Hk1 & Hpte1 & Hd1).
  set (s1 := pte_set s pgdir i (cow_of v)) in *.
  assert (mapped (m_mem s1) pgdir i x) as Hx1 by (by apply (kp_mapped _ _ _ Hk1)).
  assert (page_refs s1 x = page_refs s x) as Er1 by apply pte_set_refs.
  destruct (pair_inc s1 l pgdir d i x Hp1 Hi Hx1) as [Hinc Hp2]; [by rewrite Er1|].
  rewrite Er1 in Hinc, Hp2. set (s2 := refs_set (kframe x) (page_refs s x + 1) s1) in *.
  destruct (pair_mappages s2 l pgdir d i (PTE_ADDR (cow_of v)) (PTE_FLAGS (cow_of v)))
    as (s3 & l' & Hmp & Hp3 & Hk3 & Hlen & Hpte3 & Hr3 & Hd3); try done.
  { apply PTE_ADDR_range. } { rewrite PTE_FLAGS_spec. by apply Z.mod_pos_bound. }
  { intros w Hw. apply Hnp. rewrite <- Hw. symmetry. apply Hd1. auto. }
  rewrite mapped_pte_self in Hd3 by congruence.
  assert (kept s s2 pgdir) as Hk2 by (destruct Hk1; by split).
  exists s3, l'. split; [done|]. split; [split|split; [done|]].
  - by eapply kept_trans.
  - intros va w Hva Hin Hw. destruct (decide (va = i)) as [->|Hne].
    + rewrite Hv in Hw. injection Hw as <-. specialize (Hd3 i Hi). rewrite decide_True in Hd3 by done.
      split; [|done]. rewrite Hpte3 by auto. change (m_mem s2) with (m_mem s1). rewrite Hpte1 by done.
      by rewrite decide_True.
    + pose proof (upage_next i va (proj1 Hi) Hva). lia.
  - intros va Hva Hout. assert (i <> va) as Hne by (intros <-; unfold PGSIZE in Hout; lia). split.
    + rewrite Hpte3 by auto. change (m_mem s2) with (m_mem s1). rewrite Hpte1 by done. by rewrite decide_False.
    + specialize (Hd3 va Hva). rewrite decide_False in Hd3 by done.
      change (m_mem s2) with (m_mem s1) in Hd3. by rewrite Hd1 in Hd3 by auto.
  - intros va y Hva Hy. rewrite (Hr3 va y); [|done|by apply (kp_mapped _ _ _ Hk2)].
    unfold s2. rewrite page_refs_set. unfold s1 at 1. rewrite pte_set_refs.
    pose proof (pair_owned _ _ _ _ i x Hp Hi Hx) as (Hvx & _).
    pose proof (pair_owned _ _ _ _ va y Hp Hva Hy) as (Hvy & _).
    destruct (decide (i = va)) as [<-|Hne].
    + rewrite (mapped_fun _ _ _ _ _ Hy Hx), decide_True by done. by rewrite decide_True by (unfold PGSIZE; lia).
    + rewrite decide_False.
      2: { intros E. apply Hne. rewrite <- (valid_page_inj end_ x y Hvx Hvy E) in Hy.
           apply (as_inj _ _ _ _ _ (pi_as _ _ _ _ Hp) i va x); try done; by intros []. }
      rewrite decide_False; [lia|]. pose proof (upage_next i va (proj1 Hi) Hva). lia.
  - unfold x in Hinc. rewrite V2P_P2V in Hinc by apply PTE_ADDR_range. rewrite Ea in Hmp.
    apply (share_round_run st l d i v s2 s3); try done. apply Hp.
Qed.

Lemma shared_trans s1 s2 s3 pgdir d i sz : upage i ->
  shared s1 s2 pgdir d i (i + PGSIZE) -> shared s2 s3 pgdir d (i + PGSIZE) sz -> i < sz ->
  shared s1 s3 pgdir d i sz.
Proof.
  intros Hi [K1 B1 R1 C1] [K2 B2 R2 C2] Hlt.
  assert (forall va, upage va -> i <= va -> va = i \/ i + PGSIZE <= va) as Hstep.
  { intros va Hva Hle. destruct (decide (va = i)) as [->|]; [by left|right].
    apply upage_next; try done. apply Hi. }
  assert (PGSIZE = 4096) as EP by done. split.
  - by eapply kept_trans.
  - intros va v Hva Hin Hv. destruct (Hstep va Hva ltac:(lia)) as [->|Hge].
    + destruct (B1 i v Hi) as [E1 E2]; [lia|done|]. destruct (R2 i Hi) as [E3 E4]; [lia|].
      rewrite E2 in E4. rewrite E3, E1. split; [done|]. by apply pte_ext_Some.
    + destruct (R1 va Hva) as [E1 _]; [lia|]. apply B2; try done; [lia|]. by rewrite E1.
  - intros va Hva Hout. destruct (R1 va Hva) as [E1 X1].
    { intros Hin. destruct (Hstep va Hva ltac:(lia)); lia. }
    destruct (R2 va Hva) as [E2 X2]; [lia|].
    rewrite E2, E1. split; [done|]. by eapply pte_ext_trans.
  - intros va x Hva Hx. rewrite (C2 va x Hva) by (by apply (kp_mapped _ _ _ K1)).
    rewrite (C1 va x Hva Hx). destruct (decide (i <= va < sz)) as [Hin|Hout].
    + destruct (Hstep va Hva ltac:(lia)) as [->|Hge].
      * rewrite (decide_True (P := i <= i < i + PGSIZE)), decide_False by lia. lia.
      * rewrite (decide_False (P := i <= va < i + PGSIZE)), decide_True by lia. lia.
    + assert (~ (i <= va < i + PGSIZE)) by (intros Hin; destruct (Hstep va Hva ltac:(lia)); lia).
      rewrite (decide_False (P := i <= va < i + PGSIZE)), decide_False by lia. lia.
Qed.

(** A page that can be shared: present, with room in its counter, and nothing
    in the child yet. *)
Definition sharable (s : mach) (pgdir d va : Z) : Prop :=
  (exists v, pte_at (m_mem s) pgdir va = Some v /\ has v PTE_P = true /\ has v PTE_PG = false /\
     page_refs s (P2V (PTE_ADDR v)) + 1 < 2147483647) /\
  (forall w, pte_at (m_mem s) d va = Some w -> has w PTE_P = false).

Lemma share_loop n : forall st l d i sz,
  let pgdir := pp_pgdir (v_p st) in
  pair_inv (v_mach st) l pgdir d -> aligned i -> 0 <= i -> sz < KERNBASE ->
  sz <= i + Z.of_nat n * PGSIZE -> i + Z.of_nat n * PGSIZE < sz + PGSIZE -> (n <= length l)%nat ->
  (forall va, upage va -> i <= va < sz -> sharable (v_mach st) pgdir d va) ->
  exists s' l', copyonwriteuvm_loop n pgdir d i sz st = Ok d (set_cr3 (V2P pgdir) (set_mach s' st)) /\
    pair_inv s' l' pgdir d /\ shared (v_mach st) s' pgdir d i sz /\ (length l <= n + length l')%nat.
Proof.
  induction n as [|n IH]; intros st l d i sz pgdir Hp Hal Hi Hmax Hle Hge Hlen Hsh.
  - exists (v_mach st), l. simpl. rewrite (proj2 (Z.ltb_ge _ _)) by lia. split; [by destruct st|].
    split; [done|]. split; [|lia]. split; try done; [intros va v Hva Hin; lia|intros va Hva _; split; [done|apply pte_ext_refl]|].
    intros va x Hva Hx. rewrite decide_False by lia. lia.
  - assert (i < sz) as Hlt by (unfold PGSIZE in *; lia). assert (upage i) as Hui by (split; [done|lia]).
    destruct (Hsh i Hui ltac:(lia)) as [(v & Hv & HP & HG & Hr) Hnp].
    destruct (share_round st l d i v Hp Hui) as (s1 & l1 & Hp1 & Hs1 & Hl1 & Hrun); try done.
    { intros ->. simpl in Hlen. lia. }
    fold pgdir in Hrun. rewrite Hrun by done.
    rewrite (u32_small (i + PGSIZE)) by (unfold KERNBASE, PGSIZE in *; ulia).
    destruct (IH (set_mach s1 st) l1 d (i + PGSIZE) sz) as (s2 & l2 & Hr2 & Hp2 & Hs2 & Hl2); try done.
    + unfold aligned, PGSIZE in *. ulia.
    + unfold PGSIZE. lia.
    + lia.
    + lia.
    + lia.
    + intros va Hva Hin. change (sharable s1 pgdir d va). assert (PGSIZE = 4096) as EP by done.
      destruct (Hsh va Hva ltac:(lia)) as [(w & Hw & HPw & HGw & Hrw) Hnw].
      destruct (sh_rest _ _ _ _ _ _ Hs1 va Hva) as [E1 X1]; [lia|]. split.
      * exists w. fold pgdir in E1. rewrite E1. split_and!; try done.
        rewrite (sh_refs _ _ _ _ _ _ Hs1 va) by (done || by exists w). rewrite decide_False by lia. lia.
      * intros w' Hw'. destruct X1 as [E|[_ E]]; rewrite E in Hw'; [by apply Hnw|by injection Hw' as <-].
    + exists s2, l2. split; [done|]. split; [done|]. split; [by eapply shared_trans|lia].
Qed.

(** ** copyonwriteuvm *)

Context (data : Z) (pol : policy).
Hypothesis data_ok : aligned data /\ KERNLINK < data < P2V PHYSTOP.

(** Building the child's table out of free pages leaves the parent alone. *)
Lemma setupkvm_pair st l : as_inv end_ (v_mach st) l (pp_pgdir (v_p st)) nobody -> (67 <= length l)%nat ->
  exists d s' l', setupkvm end_ data pol st = Ok d (set_mach s' st) /\ d <> 0 /\
    pair_inv s' l' (pp_pgdir (v_p st)) d /\ (length l <= 67 + length l')%nat /\
    kept (v_mach st) s' (pp_pgdir (v_p st)) /\
    (forall vb, is_u32 vb -> pte_at (m_mem s') (pp_pgdir (v_p st)) vb = pte_at (m_mem (v_mach st)) (pp_pgdir (v_p st)) vb) /\
    (forall va x, upage va -> mapped (m_mem (v_mach st)) (pp_pgdir (v_p st)) va x ->
       page_refs s' x = page_refs (v_mach st) x) /\
    (forall va, upage va -> pte_at (m_mem s') d va = None).
Proof.
  intros Has Hlen. set (pgdir := pp_pgdir (v_p st)) in *. set (s := v_mach st) in *.
  pose proof (as_pd _ _ _ _ _ Has) as Hpd.
  destruct (setupkvm_run end_ data end_high pol data_ok st l) as
    (d & s' & l' & used & Hrun & Hok & El & Hl & Hoc & Hpf & Hrefs & _ & _ & Hempty);
    [apply Hpd|apply Hpd|done|].
  pose proof (ki_valid _ _ _ (po_kmem _ _ _ _ Hpd)) as Hvl. rewrite Forall_forall in Hvl.
  assert (forall x, x ∈ used -> x ∈ l) as Hin by (intros x Hx; rewrite El; apply elem_of_app; by left).
  assert (forall fn, pd_frame (m_mem s) pgdir fn -> ~ (fn ∈ kframe <$> used)) as Hap.
  { intros fn Hfn (x & -> & Hx)%list_elem_of_fmap. by apply (po_free _ _ _ _ Hpd x (Hin x Hx)). }
  assert (forall va x, upage va -> mapped (m_mem s) pgdir va x ->
    (x ∉ used) /\ (x ∉ l') /\ ~ (kframe x ∈ kframe <$> used)) as Hnu.
  { intros va x Hva Hx.
    destruct (as_frames _ _ _ _ _ Has va x) as (Hvx & Hnin & _ & _); [done|by intros []|done|].
    rewrite El, elem_of_app in Hnin. split; [tauto|]. split; [tauto|].
    intros (y & E & Hy)%list_elem_of_fmap. apply Hnin. left.
    by rewrite (valid_page_inj end_ x y Hvx (Hvl y (Hin y Hy)) E). }
  assert (forall fn, pd_frame (m_mem s) pgdir fn -> mem_frame (m_mem s') fn = mem_frame (m_mem s) fn) as Hfp
    by (intros fn Hfn; apply Hoc; auto).
  assert (forall y, y ∈ l' -> ~ pd_frame (m_mem s) pgdir (kframe y)) as Hl'.
  { intros y Hy. apply (po_free _ _ _ _ Hpd). rewrite El. apply elem_of_app. by right. }
  destruct (pd_ok_agree end_ s s' l l' pgdir Hpd) as (_ & Hpfp & Hptep); try done; try apply Hok.
  assert (forall va x, upage va -> mapped (m_mem s) pgdir va x -> page_refs s' x = page_refs s x) as Hr.
  { intros va x Hva Hx. apply Hrefs; [|by apply (Hnu va x)].
    by destruct (as_frames _ _ _ _ _ Has va x) as (? & _); [done|intros []|done|]. }
  assert (forall va x, upage va -> mapped (m_mem s') pgdir va x <-> mapped (m_mem s) pgdir va x) as Hm.
  { intros va x Hva. apply mapped_agree. auto. }
  exists d, s', l'. split; [done|]. split.
  { eapply (valid_page_nonzero end_ end_high), pw_valid, po_wf, Hok. }
  split; [split|split; [done|split; [split|split; [done|split; [done|]]]]]; try done.
  - apply (as_agree end_ s s' l l' pgdir nobody); try done; try apply Hok.
    intros va x Hva _ Hx (_ & _ & _ & Href). split; [by apply (Hnu va x)|]. by rewrite (Hr va x).
  - intros fn Hfn%Hpfp Hd. by apply (Hap fn), Hpf.
  - intros va x Hva Hx%Hm Hd; [|done]. by apply (Hnu va x Hva Hx), Hpf.
  - intros va x Hva Hx. apply Hoc. by apply (Hnu va x).
  - intros va [_ Hva]. by apply Hempty.
Qed.

Lemma copyonwriteuvm_run st l sz : let pgdir := pp_pgdir (v_p st) in
  as_inv end_ (v_mach st) l pgdir nobody -> 0 <= sz < KERNBASE ->
  (67 + dealloc_fuel 0 sz <= length l)%nat ->
  (forall va, upage va -> va < sz -> exists v, pte_at (m_mem (v_mach st)) pgdir va = Some v /\
     has v PTE_P = true /\ has v PTE_PG = false /\
     page_refs (v_mach st) (P2V (PTE_ADDR v)) + 1 < 2147483647) ->
  exists d s' l', copyonwriteuvm end_ data pol pgdir sz st = Ok d (set_cr3 (V2P pgdir) (set_mach s' st)) /\
    d <> 0 /\ pair_inv s' l' pgdir d /\ kept (v_mach st) s' pgdir /\
    (forall va v, upage va -> va < sz -> pte_at (m_mem (v_mach st)) pgdir va = Some v ->
       pte_at (m_mem s') pgdir va = Some (cow_of v) /\ pte_at (m_mem s') d va = Some (cow_of v)) /\
    (forall va, upage va -> sz <= va ->
       pte_at (m_mem s') pgdir va = pte_at (m_mem (v_mach st)) pgdir va /\
       forall w, pte_at (m_mem s') d va = Some w -> w = 0) /\
    (forall va x, upage va -> mapped (m_mem (v_mach st)) pgdir va x ->
       page_refs s' x = page_refs (v_mach st) x + (if decide (va < sz) then 1 else 0)) /\
    (length l <= 67 + dealloc_fuel 0 sz + length l')%nat.
Proof.
  intros pgdir Has Hsz Hlen Hpages.
  destruct (setupkvm_pair st l Has) as (d & s1 & l1 & Hrun & Hd0 & Hp1 & Hl1 & Hk1 & Hpte1 & Hr1 & He1); [lia|].
  destruct (share_loop (dealloc_fuel 0 sz) (set_mach s1 st) l1 d 0 sz) as (s2 & l2 & Hr2 & Hp2 & Hs2 & Hl2); try done.
  { lia. }
  { unfold dealloc_fuel, PGSIZE. ulia. }
  { unfold dealloc_fuel, PGSIZE. ulia. }
  { lia. }
  { intros va Hva Hin. change (sharable s1 pgdir d va). destruct (Hpages va Hva ltac:(lia)) as (v & Hv & HP & HG & Hr).
    split.
    - exists v. fold pgdir in Hpte1. rewrite Hpte1 by auto. split_and!; try done.
      by rewrite (Hr1 va) by (done || by exists v).
    - intros w Hw. by rewrite He1 in Hw. }
  change (shared s1 s2 pgdir d 0 sz) in Hs2. destruct Hs2 as [K2 B2 R2 C2].
  exists d, s2, l2. split.
  { unfold copyonwriteuvm. rewrite (Ok_bind _ _ _ _ _ Hrun), (proj2 (Z.eqb_neq _ _)) by done. exact Hr2. }
  split; [done|]. split; [done|]. split; [by eapply kept_trans|]. split; [|split; [|split; [|lia]]].
  - intros va v Hva Hlt Hv. apply B2; [done|destruct Hva; lia|]. by rewrite Hpte1 by auto.
  - intros va Hva Hge. destruct (R2 va Hva) as [E X]; [lia|]. rewrite E, Hpte1 by auto. split; [done|].
    intros w Hw. destruct X as [E'|[_ E']]; rewrite E' in Hw; [by rewrite He1 in Hw|congruence].
  - intros va x Hva Hx. rewrite (C2 va x Hva) by (by apply (kp_mapped _ _ _ Hk1)). rewrite (Hr1 va x Hva Hx).
    destruct Hva. destruct (decide (va < sz)); [by rewrite decide_True by lia|by rewrite decide_False by lia].
Qed.

(** The parent sees no change. *)
Lemma cow_parent st l s' l' d sz : let pgdir := pp_pgdir (v_p st) in
  vm_inv end_ st l -> pair_inv s' l' pgdir d -> kept (v_mach st) s' pgdir ->
  (forall va, upage va -> va < sz -> exists v, pte_at (m_mem (v_mach st)) pgdir va = Some v /\ has v PTE_P = true) ->
  (forall va v, upage va -> va < sz -> pte_at (m_mem (v_mach st)) pgdir va = Some v ->
     pte_at (m_mem s') pgdir va = Some (cow_of v)) ->
  (forall va, upage va -> sz <= va -> pte_at (m_mem s') pgdir va = pte_at (m_mem (v_mach st)) pgdir va) ->
  let st' := set_cr3 (V2P pgdir) (set_mach s' st) in
  vm_inv end_ st' l' /\ forall va, upage va -> view st' va = view st va.
Proof.
  intros pgdir Hi Hp [Kf Km] Hpres Hlow Hhigh st'. pose proof (vi_as _ _ _ Hi) as Has.
  assert (forall va v, upage va -> has v PTE_P = false ->
    pte_at (m_mem s') pgdir va = Some v <-> pte_at (m_mem (v_mach st)) pgdir va = Some v) as Hnp.
  { intros va v Hva HP. destruct (decide (va < sz)) as [Hlt|]; [|by rewrite Hhigh by (done || lia)].
    destruct (Hpres va Hva Hlt) as (w & Hw & HPw). rewrite (Hlow va w Hva Hlt Hw), Hw.
    destruct (cow_of_spec w (as_word _ _ _ _ _ _ _ Has Hw)) as (_ & _ & EP & _). split; congruence. }
  destruct (vi_slots _ _ _ Hi) as [L1 L2 Hm Hmi Hf Hfi Hpg]. split.
  - split; [apply Hp| |done]. split; try done.
    + intros i pg Hpi Hu. destruct (Hm i pg Hpi Hu) as (? & Hup & x & Hx). split; [done|]. split; [done|].
      exists x. by apply Km.
    + intros i pg Hpi Hu. destruct (Hf i pg Hpi Hu) as (? & Hup & (v & Hv & HP & HG) & ?).
      split; [done|]. split; [done|]. split; [|done]. exists v. split; [by apply Hnp|done].
    + intros va v Hva Hv HP HG. apply Hpg; [done| |done|done]. by apply Hnp.
  - intros va Hva. unfold view, view_at. cbn [v_p v_swap v_mach st' set_cr3 set_mach]. fold pgdir.
    assert (forall v, pte_at (m_mem (v_mach st)) pgdir va = Some v -> has v PTE_P = true ->
      mem_frame (m_mem s') (kframe (P2V (PTE_ADDR v))) = mem_frame (m_mem (v_mach st)) (kframe (P2V (PTE_ADDR v)))) as Hfr.
    { intros v Hv HP. apply (Kf va); [done|]. by exists v. }
    destruct (decide (va < sz)) as [Hlt|].
    + destruct (Hpres va Hva Hlt) as (w & Hw & HPw). rewrite (Hlow va w Hva Hlt Hw), Hw. simpl.
      destruct (cow_of_spec w (as_word _ _ _ _ _ _ _ Has Hw)) as (_ & -> & -> & _). by rewrite HPw, Hfr.
    + rewrite Hhigh by (done || lia). destruct (pte_at _ _ va) as [v|]; simpl; [|done].
      destruct (has v PTE_P) eqn:HP; [|done]. by rewrite Hfr.
Qed.

(** If the first page is paged out, the child has no table for it yet and the
    kernel stops. *)
Lemma copyonwriteuvm_panics st l sz v : let pgdir := pp_pgdir (v_p st) in
  as_inv end_ (v_mach st) l pgdir nobody -> 0 < sz -> (67 <= length l)%nat ->
  pte_at (m_mem (v_mach st)) pgdir 0 = Some v -> has v PTE_PG = true ->
  copyonwriteuvm end_ data pol pgdir sz st = Panic "failed setting PTE flags after writing to file".
Proof.
  intros pgdir Has Hsz Hlen Hv HG.
  destruct (setupkvm_pair st l Has Hlen) as (d & s1 & l1 & Hrun & Hd0 & Hp1 & _ & _ & Hpte1 & _ & He1).
  unfold copyonwriteuvm. rewrite (Ok_bind _ _ _ _ _ Hrun), (proj2 (Z.eqb_neq _ _)) by done.
  assert (dealloc_fuel 0 sz = S (Nat.pred (dealloc_fuel 0 sz))) as ->.
  { unfold dealloc_fuel, PGSIZE. assert (0 < (sz - 0 + 4096 - 1) / 4096) by ulia. lia. }
  cbn [copyonwriteuvm_loop]. rewrite (proj2 (Z.ltb_lt _ _)) by done.
  assert (upage 0) as Hu0 by done.
  destruct (walk_Ok end_ end_high (set_mach s1 st) pgdir 0 v) as (a & Hw & Ha0 & Hld & _).
  { eapply as_wf, Hp1. } { done. } { cbn [v_mach set_mach]. by rewrite Hpte1. }
  rewrite (Ok_bind _ _ _ _ _ Hw), Ha0, (Ok_bind _ _ _ _ _ Hld), HG.
  specialize (He1 0 Hu0). unfold pte_at in He1.
  destruct (table_at (m_mem s1) d 0) as [t|] eqn:Ht; [done|].
  unfold mbind, M_bind, bindM, onmach, zoom, set_page_flags_in_disk. cbn [v_mach set_mach].
  unfold mbind, M_bind, bindM. by rewrite (walk_absent d 0 s1 Ht).
Qed.
End cowfork.
