(* ===== verification/Demo.v ===== *)
(** * Concrete address spaces

    A page file that satisfies the swap file's laws, and states built with the
    kernel's own operations, on which the theorems of the paging components
    are instantiated. *)

From S2P Require Import Prelude Mmu Memory Kalloc PageTable Vm Paging VmInv Replacement Demand Uvm Kvm CowFork.

(** ** A file of whole pages

    An existing page can be overwritten and a page can be appended while the
    file stays within the [MAXFILE] blocks of an inode. *)

Definition max_file_bytes : Z := (12 + 128) * 512.

Abbreviation pagefile := (list frame).

Definition page_no (off : Z) : nat := Z.to_nat (off / PGSIZE).

#[global] Instance pagefile_swap : SwapFile pagefile := {
  sw_ok f off := (0 <=? off) && (off mod PGSIZE =? 0) &&
    ((page_no off <? length f)%nat || ((page_no off =? length f)%nat && (off + PGSIZE <=? max_file_bytes)));
  sw_put f off pg := if (page_no off <? length f)%nat then <[page_no off := pg]> f else f ++ [pg];
  sw_get f off := if (0 <=? off) && (off mod PGSIZE =? 0) then f !! page_no off else None;
}.

Lemma page_no_inj off off' : 0 <= off -> 0 <= off' -> aligned off -> aligned off' ->
  page_no off = page_no off' -> off = off'.
Proof. unfold page_no, aligned, PGSIZE. intros. assert (off / 4096 = off' / 4096) by ulia. ulia. Qed.

Lemma pagefile_ok (f : pagefile) off : sw_ok f off = true ->
  0 <= off /\ off mod PGSIZE = 0 /\ (page_no off < length f \/ page_no off = length f)%nat.
Proof.
  cbn [sw_ok pagefile_swap]. intros [[?%Z.leb_le ?%Z.eqb_eq]%andb_true_iff Hc]%andb_true_iff.
  split; [done|]. split; [done|]. apply orb_true_iff in Hc as [?%Nat.ltb_lt|[?%Nat.eqb_eq _]%andb_true_iff]; auto.
Qed.

#[global] Instance pagefile_laws : SwapLaws pagefile.
Proof.
  split.
  - intros f off pg (? & ? & Hl)%pagefile_ok. cbn [sw_put sw_get pagefile_swap]. rewrite (proj2 (Z.leb_le _ _)), (proj2 (Z.eqb_eq _ _)) by done. simpl.
    destruct (Nat.ltb_spec (page_no off) (length f)).
    + by rewrite list_lookup_insert_eq.
    + assert (page_no off = length f) as -> by lia. by rewrite list_lookup_middle.
  - intros f off off' pg (? & ? & Hl)%pagefile_ok Ha Ha' Hne. cbn [sw_put sw_get pagefile_swap]. destruct (Z.leb_spec 0 off') as [H0'|]; [|done].
    simpl. destruct (off' mod PGSIZE =? 0); [|done].
    assert (page_no off <> page_no off') by (intros E; apply Hne; by apply page_no_inj).
    destruct (Nat.ltb_spec (page_no off) (length f)).
    + by rewrite list_lookup_insert_ne.
    + destruct (decide (page_no off' < length f)%nat); [by rewrite lookup_app_l|].
      rewrite (lookup_ge_None_2 f) by lia. apply lookup_ge_None_2. rewrite length_app. simpl. lia.
  - intros f off pg. cbn [sw_ok sw_get pagefile_swap]. intros Hg. destruct ((0 <=? off) && (off mod PGSIZE =? 0)); [|done]. simpl.
    apply lookup_lt_Some in Hg. by rewrite (proj2 (Nat.ltb_lt _ _)).
  - intros [|fr f]; done.
  - intros f off pg. cbn [sw_ok sw_get pagefile_swap]. intros Hg Hoff. destruct ((0 <=? off) && (off mod PGSIZE =? 0)) eqn:E; [|done]. bool_prop.
    apply lookup_lt_Some in Hg. rewrite (proj2 (Z.leb_le _ _)) by (unfold PGSIZE; lia).
    rewrite (proj2 (Z.eqb_eq _ _)) by (unfold PGSIZE in *; ulia). simpl. apply orb_true_iff.
    assert (page_no (off + PGSIZE) = S (page_no off)) as -> by (unfold page_no, PGSIZE in *; ulia).
    destruct (decide (S (page_no off) = length f)) as [->|].
    + right. rewrite Nat.eqb_refl. simpl. apply Z.leb_le. unfold MAX_PSYC_PAGES, max_file_bytes, PGSIZE in *. lia.
    + left. apply Nat.ltb_lt. lia.
Qed.

(** ** A machine with free pages and an empty directory *)

Fixpoint link_pages (m : memory) (l : list Z) : memory :=
  match l with
  | x :: ((y :: _) as l') => kstore (link_pages m l') x y
  | _ => m
  end.

Lemma link_pages_words m l : mem_words m -> Forall is_u32 l -> mem_words (link_pages m l).
Proof.
  intros Hm Hl. induction Hl as [|x l Hx Hl IH]; [done|]. simpl. destruct Hl as [|y l Hy Hl]; [done|].
  by apply mem_words_kstore.
Qed.

Definition pool : list Z := range_pages 128 (KERNBASE + 0x400000).
Definition pool_mach : mach := Mach (link_pages ∅ pool) (Kmem true (KERNBASE + 0x400000) ∅ 128).

Lemma pool_range x : x ∈ pool -> aligned x /\ KERNBASE + 0x400000 <= x < KERNBASE + 0x480000.
Proof. intros Hx. by apply elem_of_range_pages in Hx. Qed.

Lemma pool_inv : kmem_inv demo_end pool_mach pool.
Proof.
  split.
  - by vm_compute.
  - apply (bool_decide_unpack _). by vm_compute.
  - apply Forall_forall. intros x [Ha Hx]%pool_range. unfold KERNBASE in Hx.
    assert (is_u32 x) by ulia. split; [done|]. split; [done|].
    unfold demo_end, V2P, PHYSTOP, KERNBASE. split; [lia|]. ulia.
  - apply Forall_forall. intros x _. unfold page_refs, refs_get. cbn. by rewrite lookup_empty.
Qed.

Lemma pool_words : mem_words (link_pages ∅ pool).
Proof.
  apply link_pages_words; [apply mem_words_empty|]. apply Forall_forall. intros x [_ Hx]%pool_range.
  unfold KERNBASE in Hx. ulia.
Qed.

Lemma pool_pd_ok : pd_ok demo_end pool_mach pool demo_pgdir.
Proof.
  apply pd_ok_empty.
  - apply pool_inv.
  - apply pool_words.
  - by vm_compute.
  - apply (bool_decide_unpack _). by vm_compute.
  - by vm_compute.
Qed.

Definition no_page : page := Page 0 0 0 false 0 0.
Definition demo_proc : pproc := PProc 3 demo_pgdir (replicate 16 no_page) (replicate 16 no_page) 0 0 0 0.
Definition demo0 : vm pagefile := Vm pool_mach demo_proc [] 0 (V2P demo_pgdir).

Lemma pool_empty va : pte_at (m_mem pool_mach) demo_pgdir va = None.
Proof. unfold pte_at. rewrite table_at_empty; [done|by vm_compute|done|by vm_compute]. Qed.

Lemma no_pages (n i : nat) pg : replicate n no_page !! i = Some pg -> pg_is_used pg = false.
Proof. by intros [-> _]%lookup_replicate. Qed.

Lemma demo0_inv : vm_inv demo_end demo0 pool.
Proof.
  assert (forall va x, ~ mapped (m_mem pool_mach) demo_pgdir va x) as Hm.
  { intros va x (v & Hv & _). by rewrite pool_empty in Hv. }
  split; [split| |done].
  - apply pool_pd_ok.
  - intros va x _ _ Hx. by apply Hm in Hx.
  - intros va vb x _ _ _ _ Hx. by apply Hm in Hx.
  - split; cbn [v_p v_swap v_mach demo0 demo_proc pp_memory_pages pp_file_pages pp_pgdir].
    + done.
    + done.
    + intros i pg Hi Hu. apply no_pages in Hi. congruence.
    + intros i j pg pg' Hi Hu. apply no_pages in Hi. congruence.
    + intros i pg Hi Hu. apply no_pages in Hi. congruence.
    + intros i j pg pg' Hi Hu. apply no_pages in Hi. congruence.
    + intros va v _ Hv. by rewrite pool_empty in Hv.
Qed.

(** ** Sixteen resident pages *)

Definition outcome_state {S A} (o : outcome S A) (d : S) : S := match o with Ok _ s => s | _ => d end.

Definition demo_full : vm pagefile :=
  outcome_state (allocuvm demo_end SCFIFO demo_pgdir 0 0x10000 demo0) demo0.

Lemma demo_end_high : KERNBASE <= demo_end.
Proof. by vm_compute. Qed.

Lemma demo_full_inv : exists l, vm_inv demo_end demo_full l.
Proof.
  destruct (allocuvm_run demo_end demo_end_high SCFIFO demo0 pool 0 0x10000) as (st & l & Hrun & Hi & _).
  - apply demo0_inv.
  - done.
  - done.
  - by vm_compute.
  - intros va _ _ v Hv. cbn [v_mach v_p demo0 pp_pgdir demo_proc] in Hv. by rewrite pool_empty in Hv.
  - apply Nat.leb_le. by vm_compute.
  - right. split; [done|]. apply Nat.leb_le. by vm_compute.
  - exists l. unfold demo_full. change demo_pgdir with (pp_pgdir (v_p demo0)). by rewrite Hrun.
Qed.

(** The first [n] pages of the free list, read from memory. *)
Fixpoint read_chain (n : nat) (m : memory) (p : Z) : list Z :=
  match n with
  | O => []
  | S n' => if p =? 0 then [] else p :: read_chain n' m (kload m p)
  end.

Lemma read_chain_length n m p l : chain m p l -> (length (read_chain n m p) <= length l)%nat.
Proof.
  revert p l. induction n as [|n IH]; intros p l Hc; simpl; [lia|].
  destruct (Z.eqb_spec p 0); [simpl; lia|]. destruct l as [|x l]; simpl in Hc; [done|].
  destruct Hc as [-> Hc]. specialize (IH _ _ Hc). simpl. lia.
Qed.

Lemma free_at_least n (st : vm pagefile) l : vm_inv demo_end st l ->
  (n <=? length (read_chain n (m_mem (v_mach st)) (km_freelist (m_kmem (v_mach st)))))%nat = true ->
  (n <= length l)%nat.
Proof.
  intros Hi Hn%Nat.leb_le. etrans; [exact Hn|]. apply read_chain_length.
  apply (ki_chain _ _ _ (po_kmem _ _ _ _ (as_pd _ _ _ _ _ (vi_as _ _ _ Hi)))).
Qed.

Lemma free_head (st : vm pagefile) l : vm_inv demo_end st l ->
  (1 <=? length (read_chain 1 (m_mem (v_mach st)) (km_freelist (m_kmem (v_mach st)))))%nat = true ->
  exists x l', l = x :: l'.
Proof. intros Hi Hn. apply (free_at_least 1 st l Hi) in Hn. destruct l; [simpl in Hn; lia|eauto]. Qed.

#[global] Opaque demo_full.

Lemma demo_full_full : full demo_full.
Proof.
  apply forallb_Forall_true. by vm_compute.
Qed.

Lemma demo_full_ready : policy_ready SCFIFO (v_p demo_full).
Proof.
  split; [|by vm_compute]. intros i pg Hi _.
  assert (forallb (fun pg => pg_time_loaded pg <? 16) (pp_memory_pages (v_p demo_full)) = true) as Hb
    by (by vm_compute).
  assert (pp_timestamp (v_p demo_full) = 16) as -> by (by vm_compute).
  apply Z.ltb_lt. exact (forallb_lookup _ _ _ _ Hb Hi).
Qed.

(** ** One page in the swap file *)

Definition set_cr2 {F} (va : Z) (st : vm F) : vm F :=
  Vm (v_mach st) (v_p st) (v_swap st) va (v_cr3 st).

(** The first page was paged out, and the process touches it. *)
Definition demo_swapped : vm pagefile :=
  set_cr2 0x123 (outcome_state (swap demo_end SCFIFO demo_full) demo_full).

Lemma set_cr2_inv {F} `{SwapFile F} end_ (st : vm F) l va : vm_inv end_ st l -> vm_inv end_ (set_cr2 va st) l.
Proof. by intros []. Qed.

Lemma demo_swapped_inv : exists x l, vm_inv demo_end demo_swapped (x :: l).
Proof.
  destruct demo_full_inv as [l Hl].
  destruct (swap_run demo_end demo_end_high SCFIFO demo_full l 0) as (k & st & l' & pg & Hrun & Hi & _).
  - done.
  - apply demo_full_full.
  - apply demo_full_ready.
  - by vm_compute.
  - assert (vm_inv demo_end demo_swapped l') as Hi'.
    { unfold demo_swapped. rewrite Hrun. by apply set_cr2_inv. }
    destruct (free_head demo_swapped l') as (x & l1 & ->); [done|by vm_compute|]. eauto.
Qed.

#[global] Opaque demo_swapped.

(** ** A page shared with a child *)

Definition demo_data : Z := KERNBASE + 0x108000.

Lemma demo_data_ok : aligned demo_data /\ KERNLINK < demo_data < P2V PHYSTOP.
Proof. split; [done|]. split; by vm_compute. Qed.

(** The first [n] pages are present and their counters are not at the limit. *)
Definition pages_present (st : vm pagefile) (n : Z) : bool :=
  forallb (fun i => match pte_at (m_mem (v_mach st)) (pp_pgdir (v_p st)) (i * PGSIZE) with
    | Some v => has v PTE_P && negb (has v PTE_PG) &&
                (page_refs (v_mach st) (P2V (PTE_ADDR v)) + 1 <? 2147483647)
    | None => false end) (seqZ 0 n).

Lemma pages_present_spec st n va : pages_present st n = true -> upage va -> va < n * PGSIZE ->
  exists v, pte_at (m_mem (v_mach st)) (pp_pgdir (v_p st)) va = Some v /\
    has v PTE_P = true /\ has v PTE_PG = false /\
    page_refs (v_mach st) (P2V (PTE_ADDR v)) + 1 < 2147483647.
Proof.
  intros Hb [Ha Hr] Hlt. unfold pages_present in Hb.
  assert (va = va / PGSIZE * PGSIZE) as E by (unfold aligned, PGSIZE in *; ulia).
  rewrite forallb_forall in Hb. specialize (Hb (va / PGSIZE)).
  rewrite <- list_elem_of_In, elem_of_seqZ, <- E in Hb. specialize (Hb ltac:(unfold PGSIZE in *; ulia)).
  destruct (pte_at _ _ va) as [v|]; [|done]. exists v. by bool_prop.
Qed.

Lemma demo_full_pages va : upage va -> va < 0x10000 ->
  exists v, pte_at (m_mem (v_mach demo_full)) (pp_pgdir (v_p demo_full)) va = Some v /\
    has v PTE_P = true /\ has v PTE_PG = false /\
    page_refs (v_mach demo_full) (P2V (PTE_ADDR v)) + 1 < 2147483647.
Proof. apply (pages_present_spec demo_full 16). by vm_compute. Qed.

Lemma upage_1000 : upage 0x1000.
Proof. split; [done|]. unfold KERNBASE. lia. Qed.

(** The entry of the second page of [demo_full]. *)
Definition demo_pte : Z := default 0 (pte_at (m_mem (v_mach demo_full)) (pp_pgdir (v_p demo_full)) 0x1000).

Lemma demo_pte_at : pte_at (m_mem (v_mach demo_full)) (pp_pgdir (v_p demo_full)) 0x1000 = Some demo_pte.
Proof. by vm_compute. Qed.

Lemma demo_mapped : mapped (m_mem (v_mach demo_full)) (pp_pgdir (v_p demo_full)) 0x1000 (P2V (PTE_ADDR demo_pte)).
Proof. exists demo_pte. split; [exact demo_pte_at|]. split; by vm_compute. Qed.

Lemma demo_pte_cow : cow_of demo_pte = Z.lor (Z.lor (PTE_ADDR demo_pte) PTE_COW) (Z.lor PTE_P PTE_U) /\
  is_u32 demo_pte /\ has demo_pte PTE_P = true /\ PTE_ADDR (cow_of demo_pte) = PTE_ADDR demo_pte /\
  page_refs (v_mach demo_full) (P2V (PTE_ADDR demo_pte)) = 1.
Proof. split_and!; by vm_compute. Qed.

#[global] Opaque demo_pte.

(** The parent after [fork]'s copy, about to write to its second page. *)
Definition demo_cow : vm pagefile :=
  set_cr2 0x1008 (outcome_state
    (copyonwriteuvm demo_end demo_data SCFIFO (pp_pgdir (v_p demo_full)) 0x10000 demo_full) demo_full).

Lemma demo_cow_inv : exists x l, vm_inv demo_end demo_cow (x :: l) /\
  pte_at (m_mem (v_mach demo_cow)) (pp_pgdir (v_p demo_cow)) 0x1000 = Some (cow_of demo_pte) /\
  page_refs (v_mach demo_cow) (P2V (PTE_ADDR (cow_of demo_pte))) = 2 /\ v_cr2 demo_cow = 0x1008.
Proof.
  destruct demo_full_inv as [l Hl].
  assert (84 <= length l)%nat as Hlen by (apply (free_at_least _ _ _ Hl); by vm_compute).
  destruct (copyonwriteuvm_run demo_end demo_end_high demo_data SCFIFO demo_data_ok demo_full l 0x10000)
    as (d & s' & l' & Hrun & _ & Hp & Hk & Hlow & Hhigh & Hr & Hl').
  - apply Hl.
  - done.
  - change (dealloc_fuel 0 0x10000) with 16%nat. lia.
  - exact demo_full_pages.
  - destruct (cow_parent demo_end demo_full l s' l' d 0x10000 Hl Hp Hk) as [Hi _].
    + intros va Hva Hlt. destruct (demo_full_pages va Hva Hlt) as (v & Hv & HP & _).
      exact (ex_intro _ v (conj Hv HP)).
    + intros va v Hva Hlt Hv. exact (proj1 (Hlow va v Hva Hlt Hv)).
    + intros va Hva Hge. exact (proj1 (Hhigh va Hva Hge)).
    + unfold demo_cow. rewrite Hrun. cbn [outcome_state].
      destruct l' as [|x l']; [change (dealloc_fuel 0 0x10000) with 16%nat in Hl'; simpl in Hl'; lia|].
      exists x, l'. split; [by apply set_cr2_inv|].
      split; [exact (proj1 (Hlow _ _ upage_1000 eq_refl demo_pte_at))|]. split; [|reflexivity].
      destruct demo_pte_cow as (_ & _ & _ & -> & E1).
      etrans; [exact (Hr _ _ upage_1000 demo_mapped)|]. by rewrite E1.
Qed.

#[global] Opaque demo_cow.

(** Marking one page read-only and [PTE_COW]. *)
Lemma cow_mark_inv end_ (st : vm pagefile) l va v : KERNBASE <= end_ -> vm_inv end_ st l -> upage va ->
  pte_at (m_mem (v_mach st)) (pp_pgdir (v_p st)) va = Some v -> has v PTE_P = true ->
  vm_inv end_ (set_mach (pte_set (v_mach st) (pp_pgdir (v_p st)) va (cow_of v)) st) l.
Proof.
  intros He Hl Hva Hv HP.
  pose proof (vi_as _ _ _ Hl) as Has. pose proof (as_wf _ _ _ _ _ Has) as Hwf.
  destruct (cow_of_spec v (as_word _ _ _ _ _ _ _ Has Hv)) as (Hcu & Ea & EP & _).
  assert (mapped (m_mem (v_mach st)) (pp_pgdir (v_p st)) va (P2V (PTE_ADDR v))) as Hm by (by exists v).
  split; [|cbn [v_p v_swap v_mach set_mach]|apply Hl].
  - eapply as_pte_flags; eauto.
  - apply (slots_remap (v_p st) (v_swap st) (m_mem (v_mach st)) _ va (P2V (PTE_ADDR v)) (P2V (PTE_ADDR v)));
      [apply Hl|done|done| |].
    + apply (mapped_pte_set end_ _ l _ nobody va va v); try done. rewrite decide_True by done. by rewrite EP, Ea.
    + intros vb Hvb Hne. rewrite (pte_set_at end_ _ _ _ _ _ v) by auto.
      rewrite !upage_round by done. by rewrite decide_False by congruence.
Qed.

(** The same page once nobody else holds its frame. *)
Definition demo_last : vm pagefile :=
  set_cr2 0x1008 (set_mach
    (pte_set (v_mach demo_full) (pp_pgdir (v_p demo_full)) 0x1000 (cow_of demo_pte)) demo_full).

Lemma demo_last_inv : exists l, vm_inv demo_end demo_last l /\
  pte_at (m_mem (v_mach demo_last)) (pp_pgdir (v_p demo_last)) 0x1000 = Some (cow_of demo_pte) /\
  page_refs (v_mach demo_last) (P2V (PTE_ADDR (cow_of demo_pte))) = 1.
Proof.
  destruct demo_full_inv as [l Hl]. exists l. split; [|split; by vm_compute].
  apply set_cr2_inv, cow_mark_inv; [exact demo_end_high|exact Hl|exact upage_1000|exact demo_pte_at|apply demo_pte_cow].
Qed.

#[global] Opaque demo_last.
