(* ===== verification/VmProps.v ===== *)
(** * Correctness of demand paging and copy-on-write

    The theorems about [vm.c], each with an instance on the concrete address
    spaces of [Demo]. *)

From S2P Require Import Prelude Mmu Memory Kalloc PageTable Vm Paging VmInv Replacement Demand Cow Uvm Kvm CowFork Demo.

Section props.
Context {F : Type} `{SwapLaws F}.
Context (end_ : Z).
Implicit Types st : vm F.

(** C1: Paging out is invisible.  With all 16 resident slots in use and a free
    slot in the swap file, [swap] under every replacement policy returns the
    index of a resident slot it has emptied, keeps the invariant of the
    process, and every page of the process has the contents it had before,
    wherever it now lies. *)
Theorem swap_transparent (pol : policy) st (l : list Z) (j : nat) :
  KERNBASE <= end_ -> vm_inv end_ st l -> full st -> policy_ready pol (v_p st) ->
  next_free_i_in_file (v_p st) = Z.of_nat j ->
  exists k st' l' pg, swap end_ pol st = Ok (Z.of_nat k) st' /\ vm_inv end_ st' l' /\
    (forall va, upage va -> view st' va = view st va) /\
    pp_memory_pages (v_p st') !! k = Some pg /\ pg_is_used pg = false.
Proof.
  intros He Hi Hf Hr Hj.
  destruct (swap_run end_ He pol st l j Hi Hf Hr Hj) as (k & st' & l' & pg & ? & ? & ? & ? & ? & _).
  by exists k, st', l', pg.
Qed.


(** C6: A write to a page whose frame is shared gets a frame of its own.
    [handle_cow] returns 1; the page is mapped writable to a free frame that
    holds a copy and has one reference, the old frame has one reference less,
    every page keeps its contents, and no frame but the new one and the
    page table's own is written, so no other address space changes. *)
Theorem handle_cow_isolates st (x : Z) (l : list Z) (v : Z) :
  let pgdir := pp_pgdir (v_p st) in
  let u := PGROUNDDOWN (v_cr2 st) in
  let xo := P2V (PTE_ADDR v) in
  KERNBASE <= end_ -> vm_inv end_ st (x :: l) -> is_u32 (v_cr2 st) -> upage u ->
  pte_at (m_mem (v_mach st)) pgdir u = Some v -> has v PTE_P = true ->
  has v PTE_W = false -> has v PTE_COW = true -> 1 < page_refs (v_mach st) xo ->
  exists s', let st' := set_mach s' st in
    handle_cow st = Ok 1 st' /\ vm_inv end_ st' l /\ (forall va, upage va -> view st' va = view st va) /\
    (exists w, pte_at (m_mem s') pgdir u = Some w /\ P2V (PTE_ADDR w) = x /\ has w PTE_W = true) /\
    page_refs s' x = 1 /\ page_refs s' xo = page_refs (v_mach st) xo - 1 /\
    forall fn, fn <> kframe x -> ~ pd_frame (m_mem (v_mach st)) pgdir fn ->
      mem_frame (m_mem s') fn = mem_frame (m_mem (v_mach st)) fn.
Proof.
  intros pgdir u xo He Hi Hcr Hu Hv HP HW HC Hr.
  exists (cow_copied (v_mach st) pgdir u x xo). intros st'.
  destruct (handle_cow_copy end_ He st l u v x) as (H1 & H2 & H3); try done.
  destruct (cow_copied_spec end_ He (v_mach st) l pgdir u v x) as (_ & _ & _ & _ & _ & Hp & _ & Hfr & Hr1 & Hr2);
    try done; [apply Hi|].
  pose proof (ki_valid _ _ _ (po_kmem _ _ _ _ (as_pd _ _ _ _ _ (vi_as _ _ _ Hi)))) as Hval.
  apply Forall_cons in Hval as [(Hxu & Hxa & _) _].
  destruct (cow_pte_spec x Hxu Hxa) as (_ & E1 & _ & E2 & _).
  split; [done|]. split; [done|]. split; [done|]. split; [|done].
  exists (cow_pte x). rewrite Hp, decide_True by done. done.
Qed.

(** The last holder of a shared frame writes in place.  [handle_cow] with
    one reference left allocates nothing, makes the entry writable, clears
    [PTE_COW], and every page keeps its contents. *)
Theorem handle_cow_reclaims st (l : list Z) (v : Z) :
  let pgdir := pp_pgdir (v_p st) in
  let u := PGROUNDDOWN (v_cr2 st) in
  KERNBASE <= end_ -> vm_inv end_ st l -> is_u32 (v_cr2 st) -> upage u ->
  pte_at (m_mem (v_mach st)) pgdir u = Some v -> has v PTE_P = true ->
  has v PTE_W = false -> has v PTE_COW = true -> page_refs (v_mach st) (P2V (PTE_ADDR v)) = 1 ->
  exists s' w, let st' := set_mach s' st in
    handle_cow st = Ok 1 st' /\ vm_inv end_ st' l /\ (forall va, upage va -> view st' va = view st va) /\
    pte_at (m_mem s') pgdir u = Some w /\ PTE_ADDR w = PTE_ADDR v /\
    has w PTE_W = true /\ has w PTE_COW = false.
Proof.
  intros pgdir u He Hi Hcr Hu Hv HP HW HC Hr.
  set (w := Z.lor (clear_bits v PTE_COW) PTE_W). exists (pte_set (v_mach st) pgdir u w), w. intros st'.
  destruct (handle_cow_last end_ He st l u v) as (H1 & H2 & H3); try done.
  pose proof (vi_as _ _ _ Hi) as Has. pose proof (as_word _ _ _ _ _ _ _ Has Hv) as Hvu.
  assert (is_u32 (clear_bits v PTE_COW)) as Hcu by (by apply clear_bits_range).
  split; [done|]. split; [done|]. split; [done|]. split; [|split; [|split]].
  - rewrite (pte_set_at end_ _ _ u u w v); [by rewrite decide_True|eapply as_wf, Has|auto|auto|done].
  - unfold w. by rewrite PTE_ADDR_set, PTE_ADDR_clear by done.
  - unfold w. rewrite has_lor. apply orb_true_r.
  - unfold w. rewrite has_lor, has_clear_same by done. done.
Qed.

(** C33: [SCFIFO] is the second-chance rule.  With load times in the past and the
    clock short of its end, the victim search stops within 17 rounds and
    picks the oldest resident page that was not accessed since the search
    last passed it, or the oldest of all if every one was accessed; the page
    picked is not marked accessed, and no page changes. *)
Theorem SCFIFO_second_chance st (l : list Z) :
  KERNBASE <= end_ -> vm_inv end_ st l -> resident st -> fresh_times (v_p st) 16 ->
  exists k st' pg, next_i_in_mem_to_remove SCFIFO victim_fuel st = Ok (Z.of_nat k) st' /\
    vm_inv end_ st' l /\ second_chance (acc_of st) (pp_memory_pages (v_p st)) k /\
    pp_memory_pages (v_p st') !! k = Some pg /\ pg_is_used pg = true /\ acc_of st' pg = false /\
    forall va, upage va -> view st' va = view st va.
Proof.
  intros He Hi Hr Ht.
  destruct (SCFIFO_loop end_ He 16 st l) as (k & st' & pg & E & Hq & Hi' & Hk & Hu & Ha & _ & _ & Hsc); try done.
  { unfold acc_count. etrans; [apply length_filter|]. by rewrite (sl_mem_len _ _ _ (vi_slots _ _ _ Hi)). }
  exists k, st', pg. repeat (split; [done|]). intros va Hva. by eapply quiet_view.
Qed.


(** Shrinking the address space.  [deallocuvm] to [newsz], with no gap in
    the page tables of the range, returns [newsz] and removes every present
    page from [newsz] up.  Pages of the range that are paged out keep their
    entry and their contents, so they come back when the process grows again. *)
Theorem deallocuvm_shrinks (pol : policy) st (l : list Z) (oldsz newsz : Z) :
  KERNBASE < end_ -> vm_inv end_ st l -> 0 <= newsz < oldsz -> oldsz <= KERNBASE ->
  no_gaps (m_mem (v_mach st)) (pp_pgdir (v_p st)) (PGROUNDUP newsz) oldsz ->
  (pol = NONE -> forall va, untracked (v_p st) va) ->
  exists st' l', deallocuvm end_ pol (pp_pgdir (v_p st)) oldsz newsz st = Ok newsz st' /\
    vm_inv end_ st' l' /\ shrunk st st' (PGROUNDUP newsz) oldsz.
Proof. intros He. apply deallocuvm_run; [lia|done]. Qed.

(** C26: [fork]'s copy of the address space shares every frame.  When all pages
    below [sz] are present, [copyonwriteuvm] returns a page directory in which
    each of them has the parent's entry; that entry is now read-only and
    marked [PTE_COW] in both, each frame has one more reference, and no page
    of the parent changed. *)
Theorem copyonwriteuvm_shares (data : Z) (pol : policy) st (l : list Z) (sz : Z) :
  let pgdir := pp_pgdir (v_p st) in
  KERNBASE <= end_ -> (aligned data /\ KERNLINK < data < P2V PHYSTOP) ->
  vm_inv end_ st l -> 0 <= sz < KERNBASE -> (67 + dealloc_fuel 0 sz <= length l)%nat ->
  (forall va, upage va -> va < sz -> exists v, pte_at (m_mem (v_mach st)) pgdir va = Some v /\
     has v PTE_P = true /\ has v PTE_PG = false /\
     page_refs (v_mach st) (P2V (PTE_ADDR v)) + 1 < 2147483647) ->
  exists d s' l', let st' := set_cr3 (V2P pgdir) (set_mach s' st) in
    copyonwriteuvm end_ data pol pgdir sz st = Ok d st' /\ d <> 0 /\
    vm_inv end_ st' l' /\ (forall va, upage va -> view st' va = view st va) /\ pair_inv end_ s' l' pgdir d /\
    (forall va v, upage va -> va < sz -> pte_at (m_mem (v_mach st)) pgdir va = Some v ->
       pte_at (m_mem s') pgdir va = Some (cow_of v) /\ pte_at (m_mem s') d va = Some (cow_of v)) /\
    (forall va, upage va -> sz <= va -> forall w, pte_at (m_mem s') d va = Some w -> w = 0) /\
    (forall va x, upage va -> mapped (m_mem (v_mach st)) pgdir va x ->
       page_refs s' x = page_refs (v_mach st) x + (if decide (va < sz) then 1 else 0)).
Proof.
  intros pgdir He Hd Hi Hsz Hl Hp.
  destruct (copyonwriteuvm_run end_ He data pol Hd st l sz (vi_as _ _ _ Hi) Hsz Hl Hp)
    as (d & s' & l' & Hrun & Hd0 & Hpi & Hk & Hlow & Hhigh & Hr & _).
  destruct (cow_parent end_ st l s' l' d sz Hi Hpi Hk) as [Hi' Hv].
  { intros va Hva Hlt. destruct (Hp va Hva Hlt) as (v & ? & ? & _). by exists v. }
  { intros va v Hva Hlt Hv. by apply (Hlow va v). }
  { intros va Hva Hge. by apply Hhigh. }
  exists d, s', l'. repeat (split; [done|]). split; [|done]. intros va Hva Hge. by apply Hhigh.
Qed.

(** [fork] of a process whose first page is paged out stops the kernel:
    the child has no page table for the page, and [set_page_flags_in_disk]
    panics. *)
Theorem copyonwriteuvm_paged_out (data : Z) (pol : policy) st (l : list Z) (sz v : Z) :
  let pgdir := pp_pgdir (v_p st) in
  KERNBASE <= end_ -> (aligned data /\ KERNLINK < data < P2V PHYSTOP) ->
  as_inv end_ (v_mach st) l pgdir nobody -> 0 < sz -> (67 <= length l)%nat ->
  pte_at (m_mem (v_mach st)) pgdir 0 = Some v -> has v PTE_PG = true ->
  copyonwriteuvm end_ data pol pgdir sz st = Panic "failed setting PTE flags after writing to file".
Proof. intros pgdir He Hd. by apply copyonwriteuvm_panics. Qed.

(** [setupkvm] builds the kernel's half of every address space.  From 67
    free pages it returns a directory in which each address of the four
    ranges of [kmap] translates to its physical address with the range's
    permission, in which nothing is mapped below [KERNBASE], and whose pages
    come from the free list. *)
Theorem setupkvm_maps (data : Z) (pol : policy) st (l : list Z) :
  KERNBASE <= end_ -> (aligned data /\ KERNLINK < data < P2V PHYSTOP) ->
  kmem_inv end_ (v_mach st) l -> mem_words (m_mem (v_mach st)) -> (67 <= length l)%nat ->
  exists pgdir s' l', setupkvm end_ data pol st = Ok pgdir (set_mach s' st) /\
    pd_ok end_ s' l' pgdir /\ (length l <= 67 + length l')%nat /\
    (forall k vb, k ∈ kmap data -> is_u32 vb -> covers k vb ->
       translate (m_mem s') pgdir vb = Some (P2V (km_phys_start k + (PGROUNDDOWN vb - km_virt k))) /\
       exists w, pte_at (m_mem s') pgdir vb = Some w /\ has w PTE_W = has (km_perm k) PTE_W /\ has w PTE_U = false) /\
    (forall vb, 0 <= vb < KERNBASE -> translate (m_mem s') pgdir vb = None).
Proof.
  intros He Hd Hk Hw Hl.
  destruct (setupkvm_run end_ data He pol Hd st l Hk Hw Hl)
    as (pgdir & s' & l' & used & Hrun & Hpd & _ & Hl' & _ & _ & _ & Hmap & _ & Hlow).
  exists pgdir, s', l'. split; [done|]. split; [done|]. split; [done|]. split.
  - intros k vb Hkk Hvb Hc. rewrite translate_pte, (Hmap k vb Hkk Hvb Hc). simpl.
    pose proof (kmap_all_ok data Hd) as Hok. rewrite Forall_forall in Hok.
    destruct (kmap_pte_spec k vb (Hok k Hkk) Hvb Hc) as (-> & -> & Hb). split; [done|].
    exists (kmap_pte k vb). rewrite !Hb by done. split; [done|]. change (has PTE_P PTE_W) with false.
    change (has PTE_P PTE_U) with false. rewrite !orb_false_r. split; [done|]. by apply (kmap_kernel_only data).
  - intros vb Hvb. by rewrite translate_pte, Hlow.
Qed.
End props.

(** [LAPA_next] picks the resident page whose age has the fewest one bits,
    among those the one with the smallest age, and the first such page;
    it returns -1 only when no slot is in use. *)
Theorem LAPA_next_fewest_ones (l : list page) :
  (forall j pg, l !! j = Some pg -> is_u32 (pg_age pg)) ->
  (LAPA_next l = -1 /\ forall j pg, l !! j = Some pg -> pg_is_used pg = false) \/
  exists (k : nat) pg, LAPA_next l = Z.of_nat k /\ l !! k = Some pg /\ pg_is_used pg = true /\
    forall j pg', l !! j = Some pg' -> pg_is_used pg' = true ->
      popcount (pg_age pg) < popcount (pg_age pg') \/
      popcount (pg_age pg) = popcount (pg_age pg') /\
      (pg_age pg < pg_age pg' \/ pg_age pg = pg_age pg' /\ (k <= j)%nat).
Proof.
  intros Ha. destruct (LAPA_next_cases l Ha) as [?|(k & E & pg & Hk & Hu & Hl)]; [by left|]. right.
  exists k, pg. split; [done|]. split; [done|]. split; [done|]. intros j pg' Hj Hu'.
  pose proof (Ha _ _ Hk). pose proof (Ha _ _ Hj).
  destruct (Hl j pg' Hj Hu') as [Hle Hlt]. unfold lapa_key in *.
  destruct (decide (k <= j)%nat); [|specialize (Hlt ltac:(lia))]; unfold is_u32, two32 in *; lia.
Qed.

(** [NFUA] can search for ever: once every resident page has the age
    [MAX_UINT], [NFUA_next] finds no page below its initial minimum, and the
    loop of [next_i_in_mem_to_remove] repeats without end. *)
Theorem NFUA_never_returns {F} `{SwapFile F} (st : vm F) (fuel : nat) :
  (forall j pg, pp_memory_pages (v_p st) !! j = Some pg -> pg_is_used pg = true -> pg_age pg = MAX_UINT) ->
  next_i_in_mem_to_remove NFUA fuel st = NoFuel.
Proof.
  intros Hall. assert (NFUA_next (pp_memory_pages (v_p st)) = -1) as E.
  { destruct (min_loop_spec pg_age (pp_memory_pages (v_p st)) 0 (-1) MAX_UINT)
      as [[E _]|(k & _ & (pg & Hk & Hu & _) & pg' & Hk' & Hlt)]; [done|].
    rewrite Hk in Hk'. injection Hk' as <-. rewrite (Hall _ _ Hk Hu) in Hlt. lia. }
  cbn [next_i_in_mem_to_remove]. induction fuel as [|fuel IH]; [done|]. cbn [do_while_none].
  unfold myproc, gets, mbind, M_bind, bindM, mret, M_ret in *. rewrite E. exact IH.
Qed.

(** ** Instances *)

Lemma swap_transparent_witness :
  exists k st' l' pg, swap demo_end SCFIFO demo_full = Ok (Z.of_nat k) st' /\ vm_inv demo_end st' l' /\
    (forall va, upage va -> view st' va = view demo_full va) /\
    pp_memory_pages (v_p st') !! k = Some pg /\ pg_is_used pg = false.
Proof.
  destruct demo_full_inv as [l Hl].
  apply (swap_transparent demo_end SCFIFO demo_full l 0).
  - exact demo_end_high.
  - exact Hl.
  - exact demo_full_full.
  - exact demo_full_ready.
  - by vm_compute.
Defined.

Lemma upage_0 : upage 0.
Proof. split; done. Qed.


Lemma u32_1008 : is_u32 0x1008.
Proof. done. Qed.

Lemma handle_cow_isolates_witness :
  exists x l s', let st' := set_mach s' demo_cow in
    handle_cow demo_cow = Ok 1 st' /\ vm_inv demo_end st' l /\ page_refs s' x = 1 /\
    (forall va, upage va -> view st' va = view demo_cow va).
Proof.
  destruct demo_cow_inv as (x & l & Hl & Hv & Hr & Hc2).
  assert (PGROUNDDOWN (v_cr2 demo_cow) = 0x1000) as E by (rewrite Hc2; reflexivity).
  destruct demo_pte_cow as (Ec & Hu & HP & _).
  destruct (cow_of_spec demo_pte Hu) as (_ & _ & EP & EW & EC & _).
  pose proof (handle_cow_isolates demo_end demo_cow x l (cow_of demo_pte)) as Ht.
  cbv zeta in Ht. rewrite E, Hr in Ht. destruct Ht as (s' & H1 & H2 & H3 & _ & H4 & _).
  - exact demo_end_high.
  - exact Hl.
  - rewrite Hc2. exact u32_1008.
  - exact upage_1000.
  - exact Hv.
  - exact (eq_trans EP HP).
  - exact EW.
  - exact EC.
  - reflexivity.
  - exists x, l, s'. intros st'. split; [exact H1|]. split; [exact H2|]. split; [exact H4|exact H3].
Defined.

Lemma handle_cow_reclaims_witness :
  exists l s', let st' := set_mach s' demo_last in
    handle_cow demo_last = Ok 1 st' /\ vm_inv demo_end st' l /\
    (forall va, upage va -> view st' va = view demo_last va).
Proof.
  destruct demo_last_inv as (l & Hl & Hv & Hr).
  assert (v_cr2 demo_last = 0x1008) as Hc2 by (by vm_compute).
  assert (PGROUNDDOWN (v_cr2 demo_last) = 0x1000) as E by (rewrite Hc2; reflexivity).
  destruct demo_pte_cow as (Ec & Hu & HP & _).
  destruct (cow_of_spec demo_pte Hu) as (_ & _ & EP & EW & EC & _).
  pose proof (handle_cow_reclaims demo_end demo_last l (cow_of demo_pte)) as Ht.
  cbv zeta in Ht. rewrite E in Ht. destruct Ht as (s' & w & H1 & H2 & H3 & _).
  - exact demo_end_high.
  - exact Hl.
  - rewrite Hc2. exact u32_1008.
  - exact upage_1000.
  - exact Hv.
  - exact (eq_trans EP HP).
  - exact EW.
  - exact EC.
  - exact Hr.
  - exists l, s'. intros st'. split; [exact H1|]. split; [exact H2|exact H3].
Defined.

Lemma SCFIFO_second_chance_witness :
  exists k st' pg, next_i_in_mem_to_remove SCFIFO victim_fuel demo_full = Ok (Z.of_nat k) st' /\
    second_chance (acc_of demo_full) (pp_memory_pages (v_p demo_full)) k /\
    pp_memory_pages (v_p st') !! k = Some pg /\ acc_of st' pg = false.
Proof.
  destruct demo_full_inv as [l Hl].
  destruct (SCFIFO_second_chance demo_end demo_full l) as (k & st' & pg & H1 & _ & H2 & H3 & _ & H4 & _).
  - exact demo_end_high.
  - exact Hl.
  - exists 0%nat, (default no_page (pp_memory_pages (v_p demo_full) !! 0%nat)). split; by vm_compute.
  - exact demo_full_ready.
  - exists k, st', pg. split; [exact H1|]. split; [exact H2|]. split; [exact H3|exact H4].
Defined.


(** The first 4 MB of [demo_full] have their table. *)
Lemma demo_full_table va : upage va -> va < 0x400000 ->
  table_at (m_mem (v_mach demo_full)) (pp_pgdir (v_p demo_full)) va <> None.
Proof.
  intros [_ Hr] Hlt. rewrite (table_at_PDX _ _ _ 0).
  - by vm_compute.
  - rewrite PDX_spec by (unfold KERNBASE in Hr; ulia). rewrite PDX_spec by done.
    change (2 ^ 22) with 0x400000. rewrite !Z.div_small by lia. done.
Qed.

Lemma deallocuvm_shrinks_witness :
  exists st' l', deallocuvm demo_end SCFIFO (pp_pgdir (v_p demo_full)) 0x10000 0x8000 demo_full = Ok 0x8000 st' /\
    vm_inv demo_end st' l' /\ shrunk demo_full st' 0x8000 0x10000.
Proof.
  destruct demo_full_inv as [l Hl].
  apply (deallocuvm_shrinks demo_end SCFIFO demo_full l 0x10000 0x8000).
  - by vm_compute.
  - exact Hl.
  - split; by vm_compute.
  - by vm_compute.
  - intros va vb Hva Hvb Hle Hlt Hn. exfalso. apply (demo_full_table va Hva); [lia|exact Hn].
  - intros E. exfalso. congruence.
Defined.

Lemma copyonwriteuvm_shares_witness :
  exists d s' l', let st' := set_cr3 (V2P (pp_pgdir (v_p demo_full))) (set_mach s' demo_full) in
    copyonwriteuvm demo_end demo_data SCFIFO (pp_pgdir (v_p demo_full)) 0x10000 demo_full = Ok d st' /\
    vm_inv demo_end st' l' /\ pte_at (m_mem s') d 0x1000 = Some (cow_of demo_pte).
Proof.
  destruct demo_full_inv as [l Hl].
  destruct (copyonwriteuvm_shares demo_end demo_data SCFIFO demo_full l 0x10000)
    as (d & s' & l' & H1 & _ & H2 & _ & _ & H3 & _).
  - exact demo_end_high.
  - exact demo_data_ok.
  - exact Hl.
  - split; by vm_compute.
  - apply (free_at_least _ _ _ Hl). by vm_compute.
  - exact demo_full_pages.
  - exists d, s', l'. intros st'. split; [exact H1|]. split; [exact H2|].
    exact (proj2 (H3 0x1000 demo_pte upage_1000 eq_refl demo_pte_at)).
Defined.

Lemma copyonwriteuvm_paged_out_witness :
  copyonwriteuvm demo_end demo_data SCFIFO (pp_pgdir (v_p demo_swapped)) 0x10000 demo_swapped
    = Panic "failed setting PTE flags after writing to file".
Proof.
  destruct demo_swapped_inv as (x & l & Hl).
  apply (copyonwriteuvm_paged_out demo_end demo_data SCFIFO demo_swapped (x :: l) 0x10000 0x226).
  - exact demo_end_high.
  - exact demo_data_ok.
  - apply Hl.
  - by vm_compute.
  - apply (free_at_least _ _ _ Hl). by vm_compute.
  - by vm_compute.
  - by vm_compute.
Defined.

Lemma io_u32 : is_u32 (KERNBASE + 0x5123).
Proof. done. Qed.

Lemma io_covers : covers (KMap KERNBASE 0 EXTMEM PTE_W) (KERNBASE + 0x5123).
Proof. split; by vm_compute. Qed.

Lemma setupkvm_maps_witness :
  exists pgdir s' l', setupkvm demo_end demo_data SCFIFO demo0 = Ok pgdir (set_mach s' demo0) /\
    pd_ok demo_end s' l' pgdir /\ translate (m_mem s') pgdir (KERNBASE + 0x5123) = Some (KERNBASE + 0x5000).
Proof.
  destruct (setupkvm_maps demo_end demo_data SCFIFO demo0 pool) as (pgdir & s' & l' & H1 & H2 & _ & H3 & _).
  - exact demo_end_high.
  - exact demo_data_ok.
  - apply pool_inv.
  - apply pool_words.
  - apply Nat.leb_le. by vm_compute.
  - exists pgdir, s', l'. split; [exact H1|]. split; [exact H2|].
    destruct (H3 _ _ (list_elem_of_here _ _) io_u32 io_covers) as [E _]. exact E.
Defined.

Definition demo_ages : list page :=
  [Page 0 0 0 true 0 0x80000000; Page 0 0x1000 0 true 0 0x40000000; Page 0 0x2000 0 false 0 0; Page 0 0x3000 0 true 0 3].

Lemma demo_ages_u32 j pg : demo_ages !! j = Some pg -> is_u32 (pg_age pg).
Proof.
  intros Hj. assert (forallb (fun pg => (0 <=? pg_age pg) && (pg_age pg <? two32)) demo_ages = true) as Hb by (by vm_compute).
  pose proof (forallb_lookup _ _ _ _ Hb Hj). simpl in *. bool_prop. by split.
Qed.

Lemma LAPA_next_fewest_ones_witness : LAPA_next demo_ages = 1 /\
  exists k pg, LAPA_next demo_ages = Z.of_nat k /\ demo_ages !! k = Some pg /\ pg_is_used pg = true.
Proof.
  split; [by vm_compute|].
  destruct (LAPA_next_fewest_ones demo_ages demo_ages_u32) as [[E _]|(k & pg & H1 & H2 & H3 & _)].
  - exfalso. by vm_compute in E.
  - exists k, pg. split; [exact H1|]. split; [exact H2|exact H3].
Defined.

(** All resident pages were accessed 32 times in a row. *)
Definition demo_old : vm pagefile :=
  set_p (set_memory_pages (replicate 16 (Page demo_pgdir 0 0 true 0 MAX_UINT)) demo_proc) demo0.

Lemma NFUA_never_returns_witness : next_i_in_mem_to_remove NFUA 1000 demo_old = NoFuel.
Proof.
  apply (NFUA_never_returns demo_old 1000).
  intros j pg Hj _. apply lookup_replicate in Hj as [-> _]. reflexivity.
Defined.

(** ** A stale entry of the file table *)

(** A user store of the word [w] at [va]. *)
Definition user_store (va w : Z) : M (vm pagefile) () :=
  st ← get;
  match translate (m_mem (v_mach st)) (pp_pgdir (v_p st)) va with
  | Some ka => onmach (modify (fun s => set_mem (kstore (m_mem s) (ka + va mod PGSIZE) w) s))
  | None => fault va
  end.

(** A page fault at [va]. *)
Definition fault_at (pol : policy) (va : Z) : M (vm pagefile) () :=
  modify (set_cr2 va);; _ ← handle_pf demo_end pol; mret ().

(** Under RROBIN: grow to 18 pages, shrink to 16, come back to page 1 and write
    to it, grow by a page, then walk through the pages 2, ..., 15, 0, each of
    which is paged out at the time. *)
Definition stale_run : M (vm pagefile) () :=
  let grow o n := (_ ← allocuvm demo_end RROBIN demo_pgdir o n; mret ()) in
  grow 0 0x10000;; grow 0x10000 0x12000;;
  (_ ← deallocuvm demo_end RROBIN demo_pgdir 0x12000 0x10000; mret ());;
  fault_at RROBIN 0x1000;; user_store 0x1000 42;; grow 0x10000 0x11000;;
  forM [2; 3; 4; 5; 6; 7; 8; 9; 10; 11; 12; 13; 14; 15; 0] (fun i => fault_at RROBIN (i * PGSIZE)).

(** The first word of the page at [va]. *)
Definition first_word (st : vm pagefile) (va : Z) : option Z := (fun f => frame_get f 0) <$> view st va.

Lemma stale_words :
  match stale_run demo0 with
  | Ok _ st => match fault_at RROBIN 0x1000 st with
               | Ok _ st' => (first_word st 0x1000, first_word st' 0x1000)
               | _ => (None, None)
               end
  | _ => (None, None)
  end = (Some 42, Some 0).
Proof. vm_compute. reflexivity. Qed.

(** [get_i_of_va_in_file] does not look at [is_used], so a slot the page
    has left can be found before the one it is in.  In the run above page 1
    is paged out with the word 42 in it; the next fault on it reads the slot
    it was in before, and the process finds 0. *)
Theorem stale_slot_loses_write :
  exists st st', stale_run demo0 = Ok () st /\ first_word st 0x1000 = Some 42 /\
    fault_at RROBIN 0x1000 st = Ok () st' /\ first_word st' 0x1000 = Some 0.
Proof.
  pose proof stale_words as Hw. destruct (stale_run demo0) as [[] st| | | |]; try discriminate Hw.
  destruct (fault_at RROBIN 0x1000 st) as [[] st'| | | |] eqn:E; try discriminate Hw.
  exists st, st'. injection Hw as H1 H2. split; [reflexivity|]. split; [exact H1|]. split; [exact E|exact H2].
Qed.
