(* ===== verification/Strings.v ===== *)
(** * Memory and string routines ([string.c], [ulib.c])

    Memory is a function from addresses to bytes.  Loops that count down a
    length recurse on it; loops that look for a NUL take fuel, and theorems
    show that the length of the string is enough. *)

From S2P Require Import Prelude.

Definition bytes : Type := Z -> Z.
Definition poke (m : bytes) (a b : Z) : bytes := fun x => if x =? a then b mod 256 else m x.

Lemma poke_eq m a b x : poke m a b x = if x =? a then b mod 256 else m x.
Proof. done. Qed.

(** [rep stosb] and [rep stosl] of [x86.h]. *)
Fixpoint stosb (n : nat) (a c : Z) (m : bytes) : bytes :=
  match n with O => m | S n' => stosb n' (a + 1) c (poke m a c) end.
Definition store_word (m : bytes) (a w : Z) : bytes :=
  poke (poke (poke (poke m a w) (a + 1) (Z.shiftr w 8)) (a + 2) (Z.shiftr w 16)) (a + 3) (Z.shiftr w 24).
Fixpoint stosl (n : nat) (a w : Z) (m : bytes) : bytes :=
  match n with O => m | S n' => stosl n' (a + 4) w (store_word m a w) end.

(** Kernel [memset]: whole words when address and length allow. *)
Definition memset (dst c n : Z) (m : bytes) : bytes :=
  if (dst mod 4 =? 0) && (n mod 4 =? 0) then
    let c := Z.land c 0xFF in
    stosl (Z.to_nat (n / 4)) dst
      (Z.lor (Z.lor (Z.lor (u32 (Z.shiftl c 24)) (Z.shiftl c 16)) (Z.shiftl c 8)) c) m
  else stosb (Z.to_nat n) dst c m.

(** User [memset]. *)
Definition u_memset (dst c n : Z) (m : bytes) : bytes := stosb (Z.to_nat n) dst c m.

Fixpoint memcmp_loop (n : nat) (s1 s2 : Z) (m : bytes) : Z :=
  match n with
  | O => 0
  | S n' => if m s1 =? m s2 then memcmp_loop n' (s1 + 1) (s2 + 1) m else m s1 - m s2
  end.
Definition memcmp (v1 v2 n : Z) (m : bytes) : Z := memcmp_loop (Z.to_nat n) v1 v2 m.

(** [while(n-- > 0) *d++ = *s++] and [while(n-- > 0) *--d = *--s]. *)
Fixpoint copy_up (n : nat) (d s : Z) (m : bytes) : bytes :=
  match n with O => m | S n' => copy_up n' (d + 1) (s + 1) (poke m d (m s)) end.
Fixpoint copy_down (n : nat) (d s : Z) (m : bytes) : bytes :=
  match n with O => m | S n' => copy_down n' (d - 1) (s - 1) (poke m (d - 1) (m (s - 1))) end.

(** Kernel [memmove]; the end of the source wraps as a 32-bit pointer does. *)
Definition memmove (dst src n : Z) (m : bytes) : bytes :=
  if (src <? dst) && (dst <? u32 (src + n)) then copy_down (Z.to_nat n) (dst + n) (src + n) m
  else copy_up (Z.to_nat n) dst src m.
Definition memcpy (dst src n : Z) (m : bytes) : bytes := memmove dst src n m.

(** User [memmove]. *)
Definition u_memmove (dst src n : Z) (m : bytes) : bytes := copy_up (Z.to_nat n) dst src m.

Fixpoint strncmp_loop (n : nat) (p q : Z) (m : bytes) : Z :=
  match n with
  | O => 0
  | S n' => if negb (m p =? 0) && (m p =? m q) then strncmp_loop n' (p + 1) (q + 1) m else m p - m q
  end.
Definition strncmp (p q n : Z) (m : bytes) : Z := strncmp_loop (Z.to_nat n) p q m.

(** The second loop of [strncpy]. *)
Fixpoint zero_pad (n : nat) (s : Z) (m : bytes) : bytes :=
  match n with O => m | S n' => zero_pad n' (s + 1) (poke m s 0) end.
Fixpoint strncpy_loop (n : nat) (s t : Z) (m : bytes) : bytes :=
  match n with
  | O => m
  | S n' => let c := m t in
            let m := poke m s c in
            if c =? 0 then zero_pad n' (s + 1) m else strncpy_loop n' (s + 1) (t + 1) m
  end.
Definition strncpy (s t n : Z) (m : bytes) : bytes := strncpy_loop (Z.to_nat n) s t m.

(** [n] is the count left after [--n]. *)
Fixpoint safestrcpy_loop (n : nat) (s t : Z) (m : bytes) : bytes :=
  match n with
  | O => poke m s 0
  | S n' => let c := m t in
            let m := poke m s c in
            if c =? 0 then poke m (s + 1) 0 else safestrcpy_loop n' (s + 1) (t + 1) m
  end.
Definition safestrcpy (s t n : Z) (m : bytes) : bytes :=
  if n <=? 0 then m else safestrcpy_loop (Z.to_nat (n - 1)) s t m.

Fixpoint strlen (fuel : nat) (s : Z) (m : bytes) : option Z :=
  match fuel with
  | O => None
  | S fuel' => if m s =? 0 then Some 0 else (fun n => n + 1) <$> strlen fuel' (s + 1) m
  end.

Fixpoint strcpy (fuel : nat) (s t : Z) (m : bytes) : option bytes :=
  match fuel with
  | O => None
  | S fuel' => let c := m t in
               let m := poke m s c in
               if c =? 0 then Some m else strcpy fuel' (s + 1) (t + 1) m
  end.

Fixpoint strcmp (fuel : nat) (p q : Z) (m : bytes) : option Z :=
  match fuel with
  | O => None
  | S fuel' => if negb (m p =? 0) && (m p =? m q) then strcmp fuel' (p + 1) (q + 1) m
               else Some (m p - m q)
  end.

(** 0 for a character that is not there. *)
Fixpoint strchr (fuel : nat) (s c : Z) (m : bytes) : option Z :=
  match fuel with
  | O => None
  | S fuel' => if m s =? 0 then Some 0 else if m s =? c then Some s else strchr fuel' (s + 1) c m
  end.

(** [gets]: [input] are the bytes the calls of [read] deliver; what is left of
    them is returned. *)
Fixpoint gets_loop (fuel : nat) (buf i : Z) (input : list Z) (m : bytes) : Z * list Z * bytes :=
  match fuel, input with
  | S fuel', c :: input' =>
      let m := poke m (buf + i) c in
      if (c =? 10) || (c =? 13) then (i + 1, input', m) else gets_loop fuel' buf (i + 1) input' m
  | _, _ => (i, input, m)
  end.
Definition gets (buf max : Z) (input : list Z) (m : bytes) : list Z * bytes :=
  let '(i, rest, m) := gets_loop (Z.to_nat (max - 1)) buf 0 input m in
  (rest, poke m (buf + i) 0).

Fixpoint atoi_loop (fuel : nat) (s n : Z) (m : bytes) : option Z :=
  match fuel with
  | O => None
  | S fuel' => if (48 <=? m s) && (m s <=? 57) then atoi_loop fuel' (s + 1) (s32 (n * 10 + m s - 48)) m
               else Some n
  end.
Definition atoi (fuel : nat) (s : Z) (m : bytes) : option Z := atoi_loop fuel s 0 m.

(** ** Filling *)

Definition is_bytes (m : bytes) : Prop := forall a, 0 <= m a < 256.

Lemma stosb_at n a c m x : stosb n a c m x = if (a <=? x) && (x <? a + Z.of_nat n) then c mod 256 else m x.
Proof.
  revert a m. induction n as [|n IH]; intros a m; cbn [stosb].
  - case_cmp; done || lia.
  - rewrite IH, poke_eq. case_cmp; done || lia.
Qed.

Lemma word_byte c k : 0 <= c < 256 -> k = 0 \/ k = 8 \/ k = 16 \/ k = 24 ->
  Z.shiftr (Z.lor (Z.lor (Z.lor (u32 (Z.shiftl c 24)) (Z.shiftl c 16)) (Z.shiftl c 8)) c) k mod 256 = c.
Proof.
  intros Hc Hk. assert (u32 (Z.shiftl c 24) = c * 2 ^ 24) as ->.
  { rewrite Z.shiftl_mul_pow2 by lia. apply u32_small. unfold is_u32, two32. change (2 ^ 24) with 16777216. lia. }
  rewrite !Z.shiftl_mul_pow2 by lia. change (2 ^ 24) with 16777216. change (2 ^ 16) with 65536. change (2 ^ 8) with 256.
  rewrite (lor_disjoint_add (c * 16777216) (c * 65536) 24) by
    (change (2 ^ 24) with 16777216; try lia; try apply Z.mod_mul; lia).
  rewrite (lor_disjoint_add (c * 16777216 + c * 65536) (c * 256) 16) by
    (change (2 ^ 16) with 65536; try lia; Z.div_mod_to_equations; lia).
  rewrite (lor_disjoint_add _ c 8) by (change (2 ^ 8) with 256; try lia; Z.div_mod_to_equations; lia).
  destruct Hk as [->|[->|[->| ->]]]; rewrite ?Z.shiftr_0_r, ?Z.shiftr_div_pow2 by lia;
    change (2 ^ 24) with 16777216; change (2 ^ 16) with 65536; change (2 ^ 8) with 256;
    Z.div_mod_to_equations; lia.
Qed.

Lemma store_word_at m a c x : 0 <= c < 256 ->
  store_word m a (Z.lor (Z.lor (Z.lor (u32 (Z.shiftl c 24)) (Z.shiftl c 16)) (Z.shiftl c 8)) c) x =
    if (a <=? x) && (x <? a + 4) then c else m x.
Proof.
  intros Hc. unfold store_word. rewrite !poke_eq.
  pose proof (word_byte c 0 Hc ltac:(auto)) as E0. rewrite Z.shiftr_0_r in E0.
  rewrite E0, !word_byte by auto.
  case_cmp; done || lia.
Qed.

Lemma stosl_at n a c m x : 0 <= c < 256 ->
  stosl n a (Z.lor (Z.lor (Z.lor (u32 (Z.shiftl c 24)) (Z.shiftl c 16)) (Z.shiftl c 8)) c) m x =
    if (a <=? x) && (x <? a + 4 * Z.of_nat n) then c else m x.
Proof.
  intros Hc. revert a m. induction n as [|n IH]; intros a m; cbn [stosl].
  - case_cmp; done || lia.
  - rewrite IH, store_word_at by done. case_cmp; done || lia.
Qed.

(** [memset] fills.  The kernel's version, which stores whole words when
    address and length are multiples of four, does the same as one byte
    store after another: the [n] bytes from [dst] become [c] and no other
    byte changes. *)
Theorem memset_fills (dst c n : Z) (m : bytes) (x : Z) : 0 <= n ->
  memset dst c n m x = (if (dst <=? x) && (x <? dst + n) then c mod 256 else m x) /\
  u_memset dst c n m x = memset dst c n m x.
Proof.
  intros Hn. assert (memset dst c n m x = if (dst <=? x) && (x <? dst + n) then c mod 256 else m x) as E.
  { unfold memset. destruct ((dst mod 4 =? 0) && (n mod 4 =? 0)) eqn:Hb.
    - apply andb_true_iff in Hb as [_ Hn4%Z.eqb_eq]. change 0xFF with (Z.ones 8). rewrite Z.land_ones by lia.
      change (2 ^ 8) with 256. rewrite stosl_at by (apply Z.mod_pos_bound; lia).
      replace (4 * Z.of_nat (Z.to_nat (n / 4))) with n by (Z.div_mod_to_equations; lia). done.
    - rewrite stosb_at. by rewrite Z2Nat.id. }
  split; [done|]. rewrite E. unfold u_memset. rewrite stosb_at. by rewrite Z2Nat.id.
Qed.

Lemma memset_fills_witness :
  memset 0x1000 65 8 (fun _ => 7) 0x1003 = 65 /\ memset 0x1001 65 3 (fun _ => 7) 0x1005 = 7.
Proof.
  split.
  - apply (memset_fills 0x1000 65 8 (fun _ => 7) 0x1003). lia.
  - apply (memset_fills 0x1001 65 3 (fun _ => 7) 0x1005). lia.
Defined.

(** ** Moving *)

Lemma poke_same m a x y : is_bytes m -> poke m a (m y) x = if x =? a then m y else m x.
Proof. intros Hm. rewrite poke_eq. case_cmp; [|done]. by rewrite Z.mod_small. Qed.

Lemma poke_bytes m a b : is_bytes m -> is_bytes (poke m a b).
Proof. intros Hm x. rewrite poke_eq. case_cmp; [|done]. apply Z.mod_pos_bound. lia. Qed.

Lemma copy_up_at n d s m x : is_bytes m -> d <= s \/ s + Z.of_nat n <= d ->
  copy_up n d s m x = if (d <=? x) && (x <? d + Z.of_nat n) then m (s + (x - d)) else m x.
Proof.
  revert d s m. induction n as [|n IH]; intros d s m Hm Hd; cbn [copy_up].
  - case_cmp; done || lia.
  - rewrite IH by (try apply poke_bytes; done || lia). rewrite !poke_same by done.
    replace (s + 1 + (x - (d + 1))) with (s + (x - d)) by lia.
    case_cmp; try done; try lia; f_equal; lia.
Qed.

Lemma copy_up_below n d s m x : x < d -> copy_up n d s m x = m x.
Proof.
  revert d s m. induction n as [|n IH]; intros d s m Hd; [done|]. cbn [copy_up]. rewrite IH by lia.
  rewrite poke_eq. case_cmp; done || lia.
Qed.

(** Copying up by one byte carries the first byte along. *)
Lemma copy_up_smear n s m c x : is_bytes m -> m s = c -> s < x < s + 1 + Z.of_nat n ->
  copy_up n (s + 1) s m x = c.
Proof.
  revert s m. induction n as [|n IH]; intros s m Hm Es Hr; [lia|]. cbn [copy_up].
  destruct (Z.eq_dec x (s + 1)) as [->|].
  - rewrite copy_up_below by lia. rewrite poke_same by done. by rewrite Z.eqb_refl.
  - apply IH; [by apply poke_bytes| |lia]. rewrite poke_same by done. by rewrite Z.eqb_refl.
Qed.

Lemma copy_down_at n d s m x : is_bytes m -> s <= d ->
  copy_down n d s m x = if (d - Z.of_nat n <=? x) && (x <? d) then m (s - (d - x)) else m x.
Proof.
  revert d s m. induction n as [|n IH]; intros d s m Hm Hd; cbn [copy_down].
  - case_cmp; done || lia.
  - rewrite IH by (try apply poke_bytes; done || lia). rewrite !poke_same by done.
    replace (s - 1 - (d - 1 - x)) with (s - (d - x)) by lia.
    case_cmp; try done; try lia; f_equal; lia.
Qed.

(** [memmove] is a simultaneous copy: the [n] bytes at [dst] become what the
    [n] bytes at [src] were, also when the two areas overlap, and no other
    byte changes. *)
Theorem memmove_copies (dst src n : Z) (m : bytes) (x : Z) :
  is_bytes m -> 0 <= n -> 0 <= src -> src + n < two32 ->
  memmove dst src n m x = if (dst <=? x) && (x <? dst + n) then m (src + (x - dst)) else m x.
Proof.
  intros Hm Hn Hs Hsn. unfold memmove. rewrite u32_small by (split; lia).
  destruct ((src <? dst) && (dst <? src + n)) eqn:Hb.
  - apply andb_true_iff in Hb as [H1%Z.ltb_lt H2%Z.ltb_lt]. rewrite copy_down_at by (done || lia).
    rewrite Z2Nat.id by done. replace (src + n - (dst + n - x)) with (src + (x - dst)) by lia.
    by replace (dst + n - n) with dst by lia.
  - rewrite copy_up_at; [by rewrite Z2Nat.id|done|]. rewrite Z2Nat.id by done.
    apply andb_false_iff in Hb as [H1%Z.ltb_ge|H2%Z.ltb_ge]; lia.
Qed.

(** Bytes that tell their own address. *)
Definition ramp : bytes := fun a => a mod 256.

Lemma ramp_bytes : is_bytes ramp.
Proof. intros a. apply Z.mod_pos_bound. lia. Qed.

Lemma memmove_copies_witness : memmove 0x1002 0x1000 10 ramp 0x1005 = 3.
Proof.
  rewrite (memmove_copies 0x1002 0x1000 10 ramp 0x1005).
  - reflexivity.
  - exact ramp_bytes.
  - lia.
  - lia.
  - unfold two32. lia.
Defined.

(** The user library's [memmove] copies upwards only: it is a simultaneous
    copy when the destination does not start inside the source, and repeats
    the first byte when the destination is one byte above. *)
Theorem u_memmove_upwards (dst src n : Z) (m : bytes) (x : Z) : is_bytes m -> 0 <= n ->
  (dst <= src \/ src + n <= dst ->
   u_memmove dst src n m x = if (dst <=? x) && (x <? dst + n) then m (src + (x - dst)) else m x) /\
  (dst = src + 1 -> dst <= x < dst + n -> u_memmove dst src n m x = m src).
Proof.
  intros Hm Hn. unfold u_memmove. split.
  - intros Hd. rewrite copy_up_at; rewrite ?Z2Nat.id by done; done.
  - intros -> Hx. apply (copy_up_smear _ src); [done|done|]. rewrite Z2Nat.id by done. lia.
Qed.

Lemma u_memmove_upwards_witness :
  u_memmove 0x1001 0x1000 10 ramp 0x1005 = 0 /\ u_memmove 0x2000 0x1001 10 ramp 0x2005 = 6.
Proof.
  split.
  - apply (u_memmove_upwards 0x1001 0x1000 10 ramp 0x1005 ramp_bytes ltac:(lia)); lia.
  - destruct (u_memmove_upwards 0x2000 0x1001 10 ramp 0x2005 ramp_bytes ltac:(lia)) as [H _].
    rewrite H; [reflexivity|lia].
Defined.

(** ** C strings *)

(** The bytes of the string at [p], at most [n] of them, without the NUL. *)
Fixpoint ctake (n : nat) (p : Z) (m : bytes) : list Z :=
  match n with
  | O => []
  | S n' => if m p =? 0 then [] else m p :: ctake n' (p + 1) m
  end.

Lemma strncmp_zero n p q m : strncmp_loop n p q m = 0 <-> ctake n p m = ctake n q m.
Proof.
  revert p q. induction n as [|n IH]; intros p q; cbn [strncmp_loop ctake]; [done|].
  destruct (Z.eqb_spec (m p) 0) as [Hp|Hp], (Z.eqb_spec (m p) (m q)) as [E|E]; cbn [negb andb].
  - rewrite Hp in E. rewrite <- E. simpl. split; [done|]. intros _. lia.
  - destruct (Z.eqb_spec (m q) 0); [lia|]. split; [lia|done].
  - rewrite IH. rewrite <- E. rewrite (proj2 (Z.eqb_neq _ _)) by done. split; [by intros ->|by intros [= ->]].
  - split; [lia|]. destruct (Z.eqb_spec (m q) 0); [done|]. intros [= ? _]. lia.
Qed.

(** [strncmp] decides equality of the first [n] characters: it returns 0
    exactly when the two strings, cut at their NUL and at [n] characters, are
    the same.  [namecmp], the comparison of directory entries, is this with
    [n] = 14. *)
Lemma strncmp_equal (p q n : Z) (m : bytes) :
  strncmp p q n m = 0 <-> ctake (Z.to_nat n) p m = ctake (Z.to_nat n) q m.
Proof. apply strncmp_zero. Qed.

Lemma ctake_poke n p m a b : a < p \/ p + Z.of_nat n <= a -> ctake n p (poke m a b) = ctake n p m.
Proof.
  revert p. induction n as [|n IH]; intros p Ha; cbn [ctake]; [done|]. rewrite poke_eq.
  rewrite (proj2 (Z.eqb_neq p a)) by lia. by rewrite IH by lia.
Qed.

Lemma zero_pad_at n s m x : zero_pad n s m x = if (s <=? x) && (x <? s + Z.of_nat n) then 0 else m x.
Proof.
  revert s m. induction n as [|n IH]; intros s m; cbn [zero_pad].
  - case_cmp; done || lia.
  - rewrite IH, poke_eq. case_cmp; done || lia.
Qed.

(** Apart: neither area of [n] bytes reaches into the other. *)
Definition apart (s t : Z) (n : nat) : Prop := s + Z.of_nat n <= t \/ t + Z.of_nat n <= s.

Lemma strncpy_at n s t m x : is_bytes m -> apart s t n ->
  strncpy_loop n s t m x =
    if (s <=? x) && (x <? s + Z.of_nat n) then nth (Z.to_nat (x - s)) (ctake n t m) 0 else m x.
Proof.
  revert s t m. induction n as [|n IH]; intros s t m Hm Ha; cbn [strncpy_loop ctake].
  - case_cmp; done || lia.
  - unfold apart in *. destruct (Z.eqb_spec (m t) 0) as [E|E].
    + rewrite zero_pad_at, E, poke_eq. destruct (Z.to_nat (x - s)); simpl; case_cmp; done || lia.
    + rewrite IH by (try apply poke_bytes; done || lia). rewrite ctake_poke, poke_same by (done || lia).
      destruct (Z.eq_dec x s) as [->|Hne].
      * rewrite Z.sub_diag, Z.eqb_refl. simpl. case_cmp; done || lia.
      * destruct (Z.ltb_spec s x) as [Hlt|].
        -- replace (Z.to_nat (x - s)) with (S (Z.to_nat (x - (s + 1)))) by lia. simpl. case_cmp; done || lia.
        -- case_cmp; done || lia.
Qed.

(** [strncpy] copies a name into a fixed field: the [n] bytes at [s] become
    the characters of [t] up to its NUL, padded with zeroes, and no other
    byte changes; a string of [n] or more characters fills the field without
    a NUL. *)
Lemma strncpy_pads (s t n : Z) (m : bytes) (x : Z) : is_bytes m -> 0 <= n ->
  apart s t (Z.to_nat n) ->
  strncpy s t n m x =
    if (s <=? x) && (x <? s + n) then nth (Z.to_nat (x - s)) (ctake (Z.to_nat n) t m) 0 else m x.
Proof. intros Hm Hn Ha. unfold strncpy. rewrite strncpy_at by done. by rewrite Z2Nat.id. Qed.

Lemma safestrcpy_spec n s t m : is_bytes m -> apart s t (S n) ->
  ctake (S n) s (safestrcpy_loop n s t m) = ctake n t m /\
  forall x, x < s \/ s + Z.of_nat (S n) <= x -> safestrcpy_loop n s t m x = m x.
Proof.
  revert s t m. induction n as [|n IH]; intros s t m Hm Ha.
  - cbn [safestrcpy_loop ctake]. rewrite poke_eq, Z.eqb_refl. split; [done|].
    intros x Hx. rewrite poke_eq. case_cmp; done || lia.
  - unfold apart in *. cbn [safestrcpy_loop]. destruct (Z.eqb_spec (m t) 0) as [E|E].
    + split.
      * cbn [ctake]. rewrite !poke_eq, E, Z.eqb_refl. rewrite (proj2 (Z.eqb_neq s (s + 1))) by lia. done.
      * intros x Hx. rewrite !poke_eq. case_cmp; done || lia.
    + destruct (IH (s + 1) (t + 1) (poke m s (m t))) as [H1 H2]; [by apply poke_bytes|lia|]. split.
      * cbn [ctake] in *. rewrite (proj2 (Z.eqb_neq _ _) E). rewrite (H2 s) by lia.
        rewrite poke_same, Z.eqb_refl, (proj2 (Z.eqb_neq _ _) E) by done. f_equal.
        rewrite H1. by rewrite ctake_poke by lia.
      * intros x Hx. rewrite H2, poke_same by (done || lia). case_cmp; done || lia.
Qed.

(** [safestrcpy] always leaves a C string: for [n] > 0 the string found at
    [s] afterwards is [t] cut to [n] - 1 characters, its NUL is inside the [n]
    bytes, and nothing outside those bytes changes. *)
Theorem safestrcpy_terminates (s t n : Z) (m : bytes) : is_bytes m -> 0 < n -> apart s t (Z.to_nat n) ->
  ctake (Z.to_nat n) s (safestrcpy s t n m) = ctake (Z.to_nat (n - 1)) t m /\
  forall x, x < s \/ s + n <= x -> safestrcpy s t n m x = m x.
Proof.
  intros Hm Hn Ha. unfold safestrcpy. rewrite (proj2 (Z.leb_gt _ _)) by done.
  replace (Z.to_nat n) with (S (Z.to_nat (n - 1))) in * by lia.
  destruct (safestrcpy_spec (Z.to_nat (n - 1)) s t m Hm Ha) as [H1 H2]. split; [done|].
  intros x Hx. apply H2. lia.
Qed.

Lemma safestrcpy_terminates_witness : ctake 4 0x1000 (safestrcpy 0x1000 0x2001 4 ramp) = [1; 2; 3].
Proof.
  destruct (safestrcpy_terminates 0x1000 0x2001 4 ramp) as [H _].
  - exact ramp_bytes.
  - lia.
  - left. simpl. lia.
  - exact H.
Defined.

(** A string of [k] characters at [p]. *)
Definition cstring (k : nat) (p : Z) (m : bytes) : Prop :=
  length (ctake k p m) = k /\ m (p + Z.of_nat k) = 0.

Lemma ctake_length_S k p m : length (ctake (S k) p m) = S k -> m p <> 0 /\ length (ctake k (p + 1) m) = k.
Proof. cbn [ctake]. destruct (Z.eqb_spec (m p) 0); simpl; [done|]. intros [= ?]. done. Qed.

(** [strlen] returns the number of characters before the NUL. *)
Lemma strlen_counts k p m fuel : cstring k p m -> (k < fuel)%nat -> strlen fuel p m = Some (Z.of_nat k).
Proof.
  revert p fuel. induction k as [|k IH]; intros p [|fuel] [Hl Hz] Hf; [lia| |lia|]; cbn [strlen].
  - rewrite Z.add_0_r in Hz. by rewrite Hz.
  - apply ctake_length_S in Hl as [Hp Hl]. rewrite (proj2 (Z.eqb_neq _ _) Hp).
    rewrite (IH (p + 1) fuel); [simpl; f_equal; lia| |lia]. split; [done|].
    rewrite <- Hz. f_equal. lia.
Qed.
