(* ===== verification/Pipe.v ===== *)
(** * Pipes ([pipe.c])

    A pipe is a ring of [PIPESIZE] bytes with two counters that only grow and
    wrap at 2^32.  [pipewrite] and [piperead] run under the pipe's lock up to
    the point where they return or sleep; a sleeping call that is woken runs
    the same test again, so each is a function from the pipe and what is left
    to transfer to a result.  Processes using the pipe are the steps of a
    transition system. *)

From S2P Require Import Prelude.

Definition PIPESIZE : Z := 512.

Record pipe := Pipe {
  p_data : list Z;
  p_nread : Z;
  p_nwrite : Z;
  p_readopen : bool;
  p_writeopen : bool;
}.

Definition set_ends (r w : bool) (p : pipe) : pipe := Pipe (p_data p) (p_nread p) (p_nwrite p) r w.

(** What [pipealloc] puts into the fresh page, whose bytes are [junk]. *)
Definition new_pipe (junk : list Z) : pipe := Pipe junk 0 0 true true.

(** [p->data[p->nwrite++ % PIPESIZE] = c]. *)
Definition put_byte (c : Z) (p : pipe) : pipe :=
  Pipe (<[Z.to_nat (p_nwrite p mod PIPESIZE) := c]> (p_data p)) (p_nread p) (u32 (p_nwrite p + 1))
    (p_readopen p) (p_writeopen p).

Definition pipe_full (p : pipe) : bool := p_nwrite p =? u32 (p_nread p + PIPESIZE).
Definition pipe_empty (p : pipe) : bool := p_nread p =? p_nwrite p.

(** How a call leaves the lock: it returned, failed with -1, or sleeps with
    bytes [rest] still to write. *)
Inductive write_result := WDone (p : pipe) | WFail (p : pipe) | WSleep (p : pipe) (rest : list Z).

Fixpoint pipewrite (killed : bool) (p : pipe) (addr : list Z) : write_result :=
  match addr with
  | [] => WDone p
  | c :: rest =>
      if pipe_full p then
        if negb (p_readopen p) || killed then WFail p else WSleep p addr
      else pipewrite killed (put_byte c p) rest
  end.

Definition wpipe (r : write_result) : pipe :=
  match r with WDone p | WFail p | WSleep p _ => p end.

(** The copying loop of [piperead]. *)
Fixpoint read_loop (n : nat) (p : pipe) : list Z * pipe :=
  match n with
  | O => ([], p)
  | S n' =>
      if pipe_empty p then ([], p) else
      let c := nth (Z.to_nat (p_nread p mod PIPESIZE)) (p_data p) 0 in
      let '(bs, p') := read_loop n' (Pipe (p_data p) (u32 (p_nread p + 1)) (p_nwrite p)
                                       (p_readopen p) (p_writeopen p)) in
      (c :: bs, p')
  end.

Inductive read_result := RDone (bs : list Z) (p : pipe) | RFail (p : pipe) | RSleep (p : pipe).

Definition piperead (killed : bool) (p : pipe) (n : nat) : read_result :=
  if pipe_empty p && p_writeopen p then (if killed then RFail p else RSleep p)
  else let '(bs, p') := read_loop n p in RDone bs p'.

(** [pipeclose]: the pipe, and whether its page is freed. *)
Definition pipeclose (p : pipe) (writable : bool) : pipe * bool :=
  let p := if writable then set_ends (p_readopen p) false p else set_ends false (p_writeopen p) p in
  (p, negb (p_readopen p) && negb (p_writeopen p)).

(** ** The ring's contents *)

Definition fill (p : pipe) : nat := Z.to_nat (u32 (p_nwrite p - p_nread p)).

Definition contents (p : pipe) : list Z :=
  (fun k => nth (Z.to_nat ((p_nread p + Z.of_nat k) mod PIPESIZE)) (p_data p) 0) <$> seq 0 (fill p).

Record pipe_ok (p : pipe) : Prop := {
  ok_data : length (p_data p) = 512%nat;
  ok_nread : is_u32 (p_nread p);
  ok_nwrite : is_u32 (p_nwrite p);
  ok_fill : (fill p <= 512)%nat;
}.

Lemma contents_length p : length (contents p) = fill p.
Proof. unfold contents. by rewrite length_fmap, length_seq. Qed.

Lemma pipe_full_fill p : pipe_ok p -> pipe_full p = true <-> fill p = 512%nat.
Proof.
  intros [_ Hr Hw Hf]. unfold pipe_full, fill, PIPESIZE in *. rewrite Z.eqb_eq. ulia.
Qed.

Lemma pipe_empty_fill p : pipe_ok p -> pipe_empty p = true <-> fill p = 0%nat.
Proof. intros [_ Hr Hw Hf]. unfold pipe_empty, fill, PIPESIZE in *. rewrite Z.eqb_eq. ulia. Qed.

Lemma ring_mod a k : (u32 a + k) mod PIPESIZE = (a + k) mod PIPESIZE.
Proof. unfold u32, two32, PIPESIZE. Z.div_mod_to_equations. lia. Qed.

Lemma put_byte_ok p c : pipe_ok p -> pipe_full p = false ->
  pipe_ok (put_byte c p) /\ contents (put_byte c p) = contents p ++ [c].
Proof.
  intros Hok Hnf. assert (fill p < 512)%nat as Hlt.
  { assert (fill p <> 512%nat); [|pose proof (ok_fill _ Hok); lia].
    intros E. apply pipe_full_fill in E; [|done]. congruence. }
  destruct Hok as [Hd Hr Hw Hf].
  assert (fill (put_byte c p) = S (fill p)) as Ef.
  { unfold fill, put_byte in *. cbn [p_nwrite p_nread]. ulia. }
  split.
  - split; cbn [put_byte p_data p_nread p_nwrite]; [by rewrite length_insert|done|apply u32_range|].
    fold (put_byte c p). lia.
  - unfold contents. rewrite Ef, seq_S, fmap_app. cbn [put_byte p_data p_nread p_nwrite]. f_equal.
    + apply list_fmap_ext. intros i k Hk. apply lookup_seq in Hk as [-> Hk].
      rewrite !nth_lookup, list_lookup_insert_ne; [done|].
      unfold fill, PIPESIZE in *. intros E. ulia.
    + simpl. f_equal. rewrite nth_lookup.
      assert (Z.to_nat ((p_nread p + Z.of_nat (fill p)) mod PIPESIZE) = Z.to_nat (p_nwrite p mod PIPESIZE)) as ->.
      { unfold fill, PIPESIZE. ulia. }
      rewrite list_lookup_insert_eq; [done|]. rewrite Hd. unfold PIPESIZE. ulia.
Qed.

Lemma read_loop_ok n p : pipe_ok p ->
  let '(bs, p') := read_loop n p in
  pipe_ok p' /\ bs = take n (contents p) /\ contents p' = drop n (contents p) /\
  p_readopen p' = p_readopen p /\ p_writeopen p' = p_writeopen p.
Proof.
  revert p. induction n as [|n IH]; intros p Hok; cbn [read_loop]; [done|].
  destruct (pipe_empty p) eqn:E.
  - apply pipe_empty_fill in E; [|done]. assert (contents p = []) as ->; [|done].
    unfold contents. by rewrite E.
  - assert (fill p <> 0%nat) as Hne by (intros E'; apply pipe_empty_fill in E'; [congruence|done]).
    set (p1 := Pipe (p_data p) (u32 (p_nread p + 1)) (p_nwrite p) (p_readopen p) (p_writeopen p)).
    destruct Hok as [Hd Hr Hw Hf]. assert (fill p = S (fill p1)) as Ef.
    { unfold fill, p1 in *. cbn [p_nwrite p_nread]. ulia. }
    assert (pipe_ok p1) as Hok1 by (split; cbn [p1 p_data p_nread p_nwrite]; try done; [apply u32_range|lia]).
    assert (contents p = nth (Z.to_nat (p_nread p mod PIPESIZE)) (p_data p) 0 :: contents p1) as ->.
    { unfold contents. rewrite Ef. cbn [seq fmap list_fmap]. rewrite Z.add_0_r. f_equal.
      rewrite <- fmap_S_seq, <- list_fmap_compose. apply list_fmap_ext. intros i k Hk.
      cbn [p1 p_data p_nread compose]. rewrite ring_mod. do 3 f_equal. lia. }
    specialize (IH p1 Hok1). destruct (read_loop n p1) as [bs p'].
    destruct IH as (? & -> & -> & ? & ?). done.
Qed.

(** A writer that got the lock puts a prefix of its bytes behind what is there. *)
Lemma pipewrite_ok killed addr p : pipe_ok p ->
  let r := pipewrite killed p addr in
  pipe_ok (wpipe r) /\ p_readopen (wpipe r) = p_readopen p /\ p_writeopen (wpipe r) = p_writeopen p /\
  exists bs, contents (wpipe r) = contents p ++ bs /\
    match r with
    | WDone _ => bs = addr
    | WFail p' => (negb (p_readopen p) || killed = true) /\ pipe_full p' = true /\ exists rest, addr = bs ++ rest
    | WSleep p' rest => p_readopen p = true /\ killed = false /\ pipe_full p' = true /\ rest <> [] /\ addr = bs ++ rest
    end.
Proof.
  revert p. induction addr as [|c addr IH]; intros p Hok; cbn [pipewrite].
  { cbn [wpipe]. split_and!; try done. exists []. by rewrite app_nil_r. }
  destruct (pipe_full p) eqn:Ef.
  - destruct (negb (p_readopen p) || killed) eqn:Ek; cbn [wpipe]; split_and!; try done; exists []; rewrite app_nil_r.
    + split_and!; try done. by exists (c :: addr).
    + bool_prop. by split_and!.
  - destruct (put_byte_ok p c Hok Ef) as [Hok1 Hc]. specialize (IH _ Hok1). cbn zeta in IH.
    destruct IH as (? & ? & ? & bs & Hcs & Hr). cbn [put_byte p_readopen p_writeopen] in *. split_and!; try done.
    exists (c :: bs). rewrite Hcs, Hc, <- app_assoc. split; [done|].
    destruct (pipewrite killed (put_byte c p) addr) as [p'|p'|p' rest]; [by subst|..].
    + destruct Hr as (? & ? & rest & ->). split_and!; try done. by exists rest.
    + destruct Hr as (? & ? & ? & ? & ->). by split_and!.
Qed.

(** ** Processes on a pipe *)

(** A process outside the pipe's code, or inside [pipewrite] with [rest] to go
    or [piperead] wanting [n] bytes, asleep or about to test its condition
    again. *)
Inductive thread :=
  | Idle
  | Writing (rest : list Z) (asleep : bool)
  | Reading (n : nat) (asleep : bool).

Definition wake_r (t : thread) : thread := match t with Reading n _ => Reading n false | _ => t end.
Definition wake_w (t : thread) : thread := match t with Writing r _ => Writing r false | _ => t end.

Record psys := PSys {
  s_pipe : pipe;
  s_threads : gmap nat thread;
  s_killed : gset nat;
  s_written : list Z;   (* every byte put so far *)
  s_read : list Z;      (* every byte taken so far *)
}.

(** Process [i] runs [pipewrite] until it returns or sleeps. *)
Definition run_write (i : nat) (addr : list Z) (s : psys) : psys :=
  let p := s_pipe s in
  let r := pipewrite (bool_decide (i ∈ s_killed s)) p addr in
  let ts := s_threads s in
  let ts' := match r with
             | WDone _ => wake_r <$> <[i := Idle]> ts
             | WFail _ => <[i := Idle]> ts
             | WSleep _ rest => <[i := Writing rest true]> (wake_r <$> ts)
             end in
  PSys (wpipe r) ts' (s_killed s) (s_written s ++ drop (fill p) (contents (wpipe r))) (s_read s).

Definition run_read (i n : nat) (s : psys) : psys :=
  let ts := s_threads s in
  match piperead (bool_decide (i ∈ s_killed s)) (s_pipe s) n with
  | RDone bs p' => PSys p' (wake_w <$> <[i := Idle]> ts) (s_killed s) (s_written s) (s_read s ++ bs)
  | RFail p' => PSys p' (<[i := Idle]> ts) (s_killed s) (s_written s) (s_read s)
  | RSleep p' => PSys p' (<[i := Reading n true]> ts) (s_killed s) (s_written s) (s_read s)
  end.

Definition run_close (writable : bool) (s : psys) : psys :=
  PSys (fst (pipeclose (s_pipe s) writable)) ((if writable then wake_r else wake_w) <$> s_threads s)
    (s_killed s) (s_written s) (s_read s).

Inductive plabel := LRun | LKill.

(** A process starts or resumes a call, an end with no call in progress is
    closed, or a process is killed, which wakes it. *)
Inductive pstep : psys -> plabel -> psys -> Prop :=
  | St_write i addr s : s_threads s !! i = Some Idle -> p_writeopen (s_pipe s) = true ->
      pstep s LRun (run_write i addr s)
  | St_write_resume i rest s : s_threads s !! i = Some (Writing rest false) -> pstep s LRun (run_write i rest s)
  | St_read i n s : s_threads s !! i = Some Idle -> p_readopen (s_pipe s) = true -> pstep s LRun (run_read i n s)
  | St_read_resume i n s : s_threads s !! i = Some (Reading n false) -> pstep s LRun (run_read i n s)
  | St_close_w s : (forall i rest b, s_threads s !! i <> Some (Writing rest b)) -> pstep s LRun (run_close true s)
  | St_close_r s : (forall i n b, s_threads s !! i <> Some (Reading n b)) -> pstep s LRun (run_close false s)
  | St_kill i t s : s_threads s !! i = Some t ->
      pstep s LKill (PSys (s_pipe s) (<[i := wake_r (wake_w t)]> (s_threads s)) ({[i]} ∪ s_killed s)
                       (s_written s) (s_read s)).

Inductive psteps : psys -> list plabel -> psys -> Prop :=
  | psteps_nil s : psteps s [] s
  | psteps_snoc s1 ls s2 l s3 : psteps s1 ls s2 -> pstep s2 l s3 -> psteps s1 (ls ++ [l]) s3.

Definition pipe_start (junk : list Z) (ts : gmap nat thread) : psys := PSys (new_pipe junk) ts ∅ [] [].

Lemma new_pipe_ok junk : length junk = 512%nat -> pipe_ok (new_pipe junk).
Proof. intros Hj. split; [done|done|done|]. change (fill (new_pipe junk)) with 0%nat. lia. Qed.

Definition fifo (s : psys) : Prop :=
  pipe_ok (s_pipe s) /\ s_written s = s_read s ++ contents (s_pipe s).

Lemma fifo_write i addr s : fifo s -> fifo (run_write i addr s).
Proof.
  intros [Hok Hf]. unfold run_write.
  destruct (pipewrite_ok (bool_decide (i ∈ s_killed s)) addr (s_pipe s) Hok) as (Hok' & _ & _ & bs & Hc & _).
  split; cbn [s_pipe s_written s_read]; [done|].
  by rewrite Hc, drop_app_length', Hf, app_assoc by (symmetry; apply contents_length).
Qed.

Lemma fifo_read i n s : fifo s -> fifo (run_read i n s).
Proof.
  intros [Hok Hf]. unfold run_read, piperead.
  destruct (pipe_empty (s_pipe s) && p_writeopen (s_pipe s)).
  { by destruct (bool_decide (i ∈ s_killed s)). }
  pose proof (read_loop_ok n (s_pipe s) Hok) as Hr. destruct (read_loop n (s_pipe s)) as [bs p'].
  destruct Hr as (Hok' & -> & Hd & _). split; cbn [s_pipe s_written s_read]; [done|].
  by rewrite Hd, <- app_assoc, take_drop.
Qed.

Lemma fifo_step s l s' : pstep s l s' -> fifo s -> fifo s'.
Proof.
  intros Hst Hf. destruct Hst; try by apply fifo_write. all: try by apply fifo_read.
  all: destruct Hf as [[] ?]; split; [split|]; done.
Qed.


(** ** Wakeups *)

(** Who sleeps has a reason to, and a closed end has no call on it. *)
Record alert (s : psys) : Prop := {
  al_write : forall i rest, s_threads s !! i = Some (Writing rest true) ->
    pipe_full (s_pipe s) = true /\ p_readopen (s_pipe s) = true;
  al_read : forall i n, s_threads s !! i = Some (Reading n true) ->
    pipe_empty (s_pipe s) = true /\ p_writeopen (s_pipe s) = true;
  al_wopen : forall i rest b, s_threads s !! i = Some (Writing rest b) -> p_writeopen (s_pipe s) = true;
  al_ropen : forall i n b, s_threads s !! i = Some (Reading n b) -> p_readopen (s_pipe s) = true;
}.

Lemma wake_r_Some ts j t : (wake_r <$> ts : gmap nat thread) !! j = Some t ->
  exists t', ts !! j = Some t' /\ t = wake_r t'.
Proof. rewrite lookup_fmap_Some. intros (t' & <- & ?). by exists t'. Qed.

Lemma wake_w_Some ts j t : (wake_w <$> ts : gmap nat thread) !! j = Some t ->
  exists t', ts !! j = Some t' /\ t = wake_w t'.
Proof. rewrite lookup_fmap_Some. intros (t' & <- & ?). by exists t'. Qed.

Ltac threads :=
  repeat match goal with
  | H : (wake_r <$> _) !! _ = Some _ |- _ => apply wake_r_Some in H as ([] & H & ?); simplify_eq/=
  | H : (wake_w <$> _) !! _ = Some _ |- _ => apply wake_w_Some in H as ([] & H & ?); simplify_eq/=
  | H : <[_ := _]> _ !! _ = Some _ |- _ => apply lookup_insert_Some in H as [[? ?]|[? H]]; simplify_eq/=
  end.

Lemma pipewrite_full k p addr : pipe_full p = true ->
  pipewrite k p addr = match addr with
    | [] => WDone p
    | _ => if negb (p_readopen p) || k then WFail p else WSleep p addr
    end.
Proof. intros E. destruct addr; cbn [pipewrite]; [done|]. by rewrite E. Qed.

Lemma alert_write i addr s : alert s -> pipe_ok (s_pipe s) -> i ∉ s_killed s ->
  p_writeopen (s_pipe s) = true -> (forall rest, s_threads s !! i <> Some (Writing rest true)) ->
  alert (run_write i addr s).
Proof.
  intros [Aw Ar Ow Or] Hok Hk Hwo Hna. unfold run_write. rewrite bool_decide_false by done.
  destruct (pipewrite_ok false addr (s_pipe s) Hok) as (_ & Er & Ew & bs & _ & Hr).
  (* a sleeping writer: the pipe was full, so nothing was written *)
  assert (forall j rest, s_threads s !! j = Some (Writing rest true) ->
    wpipe (pipewrite false (s_pipe s) addr) = s_pipe s) as Hsame.
  { intros j rest Hj. rewrite (pipewrite_full false _ addr) by (by eapply Aw). destruct addr; [done|].
    by destruct (negb _ || false). }
  destruct (pipewrite false (s_pipe s) addr) as [p'|p'|p' rest'] eqn:E; cbn [wpipe] in *;
    split; cbn [s_threads s_pipe]; rewrite ?Er, ?Ew; intros; threads; try done; eauto.
  all: try (rewrite (Hsame _ _ ltac:(eassumption)); by eapply Aw).
  - (* WFail: the read end is closed, there are no readers *)
    destruct Hr as (Hc & _). rewrite orb_false_r, negb_true_iff in Hc.
    match goal with H : s_threads s !! _ = Some (Reading _ _) |- _ => apply Or in H end. congruence.
  - split; apply Hr.
Qed.

Lemma alert_read i n s : alert s -> pipe_ok (s_pipe s) -> i ∉ s_killed s ->
  p_readopen (s_pipe s) = true -> alert (run_read i n s).
Proof.
  intros [Aw Ar Ow Or] Hok Hk Hro. unfold run_read, piperead. rewrite bool_decide_false by done.
  destruct (pipe_empty (s_pipe s) && p_writeopen (s_pipe s)) eqn:E.
  - bool_prop. split; cbn [s_threads s_pipe]; intros; threads; try done; eauto.
  - pose proof (read_loop_ok n (s_pipe s) Hok) as Hr. destruct (read_loop n (s_pipe s)) as [bs p'].
    destruct Hr as (_ & _ & _ & Er & Ew).
    split; cbn [s_threads s_pipe]; rewrite ?Er, ?Ew; intros; threads; try done; eauto.
    exfalso. match goal with H : s_threads s !! _ = Some (Reading _ true) |- _ => apply Ar in H as [H1 H2] end.
    by rewrite H1, H2 in E.
Qed.

Lemma alert_step s s' : pstep s LRun s' -> s_killed s = ∅ -> pipe_ok (s_pipe s) -> alert s ->
  alert s' /\ s_killed s' = ∅.
Proof.
  intros Hst Hk Hok Ha.
  assert (forall i, i ∉ s_killed s) as Hnk by (intros i; rewrite Hk; set_solver).
  inversion Hst; subst; (split; [|first [done | unfold run_read; by destruct (piperead _ _ _)]]).
  - apply alert_write; auto. congruence.
  - apply alert_write; auto; [by eapply (al_wopen _ Ha)|congruence].
  - apply alert_read; auto.
  - apply alert_read; auto. by eapply (al_ropen _ Ha).
  - destruct Ha as [Aw Ar Ow Or]. split; cbn [run_close s_threads s_pipe pipeclose fst set_ends p_readopen p_writeopen];
      intros; threads; try done; eauto.
    all: match goal with Hn : forall _ _ _, _ <> _ |- _ => exfalso; eapply Hn; eassumption end.
  - destruct Ha as [Aw Ar Ow Or]. split; cbn [run_close s_threads s_pipe pipeclose fst set_ends p_readopen p_writeopen];
      intros; threads; try done; eauto.
    all: match goal with Hn : forall _ _ _, _ <> _ |- _ => exfalso; eapply Hn; eassumption end.
Qed.

(** No wakeup is lost while no process is killed: in every reachable state a
    writer sleeps only while the ring is full and the read end is open, and a
    reader sleeps only while the ring is empty and the write end is open. *)
Theorem pipe_no_lost_wakeup (junk : list Z) (ts : gmap nat thread) (ls : list plabel) (s : psys) :
  length junk = 512%nat -> (forall i t, ts !! i = Some t -> t = Idle) ->
  psteps (pipe_start junk ts) ls s -> LKill ∉ ls ->
  (forall i rest, s_threads s !! i = Some (Writing rest true) ->
     length (contents (s_pipe s)) = 512%nat /\ p_readopen (s_pipe s) = true) /\
  (forall i n, s_threads s !! i = Some (Reading n true) ->
     contents (s_pipe s) = [] /\ p_writeopen (s_pipe s) = true).
Proof.
  intros Hj Hidle Hs Hnk.
  assert (fifo s /\ alert s /\ s_killed s = ∅) as ([Hok _] & Ha & _).
  { remember (pipe_start junk ts) as s0 eqn:E. induction Hs as [s|s1 ls s2 l s3 _ IH Hst]; subst.
    - split; [split; [by apply new_pipe_ok|done]|]. split; [|done].
      split; cbn [pipe_start s_threads]; intros; by (match goal with H : _ !! _ = Some _ |- _ => apply Hidle in H end).
    - rewrite not_elem_of_app in Hnk. destruct Hnk as [Hn1 Hn2]. destruct IH as (Hf & Ha & Hk); [done|done|].
      destruct l; [|by destruct Hn2; apply list_elem_of_singleton].
      split; [by eapply fifo_step|]. eapply alert_step; eauto. apply Hf. }
  split.
  - intros i rest Hi. destruct (al_write _ Ha i rest Hi) as [Hf ?]. split; [|done].
    rewrite contents_length. by apply pipe_full_fill.
  - intros i n Hi. destruct (al_read _ Ha i n Hi) as [Hf ?]. split; [|done].
    apply nil_length_inv. rewrite contents_length. by apply pipe_empty_fill.
Qed.

Definition two_idle : gmap nat thread := {[1%nat := Idle; 2%nat := Idle]}.
Definition ring0 : list Z := replicate 512 0.

(** Process 1 reads from the empty pipe and sleeps; process 2 writes. *)
Definition sleepy : psys := run_read 1 4 (pipe_start ring0 two_idle).
Definition greeted : psys := run_write 2 [104; 105] sleepy.

Lemma greeted_steps : psteps (pipe_start ring0 two_idle) [LRun; LRun] greeted.
Proof.
  apply (psteps_snoc _ [LRun] sleepy LRun).
  - apply (psteps_snoc _ [] (pipe_start ring0 two_idle) LRun); [constructor|].
    apply St_read; by vm_compute.
  - apply St_write; by vm_compute.
Qed.


Lemma pipe_no_lost_wakeup_witness :
  s_threads sleepy !! 1%nat = Some (Reading 4 true) /\ contents (s_pipe sleepy) = [].
Proof.
  split; [by vm_compute|].
  destruct (pipe_no_lost_wakeup ring0 two_idle [LRun] sleepy) as [_ H].
  - reflexivity.
  - intros i t Hi. unfold two_idle in Hi. apply lookup_insert_Some in Hi as [[_ <-]|[_ Hi]]; [reflexivity|].
    apply lookup_singleton_Some in Hi as [_ <-]. reflexivity.
  - apply (psteps_snoc _ [] (pipe_start ring0 two_idle) LRun); [constructor|]. apply St_read; by vm_compute.
  - intros Hin. apply list_elem_of_singleton in Hin. discriminate Hin.
  - apply (H 1%nat 4%nat). by vm_compute.
Defined.

(** The same reader, and a killed writer with more bytes than the ring holds. *)
Definition stranded : psys :=
  run_write 2 (replicate 600 7)
    (PSys (s_pipe sleepy) (s_threads sleepy) {[2%nat]} (s_written sleepy) (s_read sleepy)).

(** A killed writer can strand a reader: [pipewrite] that finds the ring full
    and itself killed returns -1 without the wakeup of the readers, so a
    reader can be left asleep on a full ring. *)
Theorem pipe_killed_writer :
  exists ls, psteps (pipe_start ring0 two_idle) ls stranded /\
    s_threads stranded !! 1%nat = Some (Reading 4 true) /\ length (contents (s_pipe stranded)) = 512%nat.
Proof.
  exists [LRun; LKill; LRun]. split; [|split; by vm_compute].
  apply (psteps_snoc _ [LRun; LKill] (PSys (s_pipe sleepy) (s_threads sleepy) {[2%nat]}
           (s_written sleepy) (s_read sleepy)) LRun); [|apply St_write; by vm_compute].
  apply (psteps_snoc _ [LRun] sleepy LKill).
  - apply (psteps_snoc _ [] (pipe_start ring0 two_idle) LRun); [constructor|]. apply St_read; by vm_compute.
  - assert (PSys (s_pipe sleepy) (s_threads sleepy) {[2%nat]} (s_written sleepy) (s_read sleepy) =
      PSys (s_pipe sleepy) (<[2%nat := wake_r (wake_w Idle)]> (s_threads sleepy)) ({[2%nat]} ∪ s_killed sleepy)
        (s_written sleepy) (s_read sleepy)) as -> by (by vm_compute).
    apply St_kill. by vm_compute.
Qed.
