(* ===== verification/Bytes.v ===== *)
(** * Byte arrays

    Disk blocks and structures laid over them: little-endian fields read from
    and written to lists of bytes. *)

From S2P Require Import Prelude.

Definition get8 (d : list Z) (o : Z) : Z := nth (Z.to_nat o) d 0.
Definition put8 (d : list Z) (o v : Z) : list Z := <[Z.to_nat o := v mod 256]> d.

Definition get16 (d : list Z) (o : Z) : Z := get8 d o + 256 * get8 d (o + 1).
Definition put16 (d : list Z) (o v : Z) : list Z := put8 (put8 d o v) (o + 1) (v / 256).

Definition get32 (d : list Z) (o : Z) : Z := get16 d o + 65536 * get16 d (o + 2).
Definition put32 (d : list Z) (o v : Z) : list Z := put16 (put16 d o v) (o + 2) (v / 65536).

(** The C type [short]. *)
Definition s16 (z : Z) : Z := let w := z mod 65536 in if w <? 32768 then w else w - 65536.

(** Consecutive words. *)
Fixpoint put_words (d : list Z) (o : Z) (ws : list Z) : list Z :=
  match ws with [] => d | w :: ws' => put_words (put32 d o w) (o + 4) ws' end.
Definition get_words (d : list Z) (o n : Z) : list Z := (fun i => get32 d (o + 4 * i)) <$> seqZ 0 n.

(** [memmove(d + o, src, length src)]. *)
Definition splice (d : list Z) (o : Z) (src : list Z) : list Z :=
  take (Z.to_nat o) d ++ src ++ drop (Z.to_nat o + length src) d.
(** The [n] bytes at [d + o]. *)
Definition slice (d : list Z) (o n : Z) : list Z := take (Z.to_nat n) (drop (Z.to_nat o) d).

Definition bytes_ok (d : list Z) : Prop := Forall (fun b => 0 <= b < 256) d.

Lemma put8_length d o v : length (put8 d o v) = length d.
Proof. apply length_insert. Qed.
Lemma put16_length d o v : length (put16 d o v) = length d.
Proof. unfold put16. by rewrite !put8_length. Qed.
Lemma put32_length d o v : length (put32 d o v) = length d.
Proof. unfold put32. by rewrite !put16_length. Qed.

Lemma get8_put8 d o o' v : 0 <= o < Z.of_nat (length d) -> 0 <= o' ->
  get8 (put8 d o v) o' = if o =? o' then v mod 256 else get8 d o'.
Proof.
  intros Ho Ho'. unfold get8, put8. rewrite !nth_lookup. destruct (Z.eqb_spec o o') as [<-|Hne].
  - by rewrite list_lookup_insert_eq by lia.
  - by rewrite list_lookup_insert_ne by lia.
Qed.

Lemma get8_nil o : get8 [] o = 0.
Proof. unfold get8. by destruct (Z.to_nat o). Qed.

Lemma get8_range d o : bytes_ok d -> 0 <= get8 d o < 256.
Proof.
  intros Hd. unfold get8. rewrite nth_lookup. destruct (d !! Z.to_nat o) as [b|] eqn:E; simpl; [|lia].
  by apply (Forall_lookup_1 _ _ _ _ Hd) in E.
Qed.

Lemma get16_range d o : bytes_ok d -> 0 <= get16 d o < 65536.
Proof. intros Hd. pose proof (get8_range d o Hd). pose proof (get8_range d (o + 1) Hd). unfold get16. lia. Qed.

Lemma get32_range d o : bytes_ok d -> is_u32 (get32 d o).
Proof.
  intros Hd. pose proof (get16_range d o Hd). pose proof (get16_range d (o + 2) Hd). unfold get32, is_u32, two32. lia.
Qed.

Lemma get16_put16 d o v : 0 <= o -> o + 2 <= Z.of_nat (length d) -> get16 (put16 d o v) o = v mod 65536.
Proof.
  intros Ho Hl. unfold get16, put16. rewrite !get8_put8 by (rewrite ?put8_length; lia).
  rewrite !Z.eqb_refl. case_cmp; try lia; Z.div_mod_to_equations; lia.
Qed.

Lemma get16_put16_ne d o o' v : 0 <= o -> o + 2 <= Z.of_nat (length d) -> 0 <= o' -> o' + 2 <= o \/ o + 2 <= o' ->
  get16 (put16 d o v) o' = get16 d o'.
Proof.
  intros Ho Hl Ho' Hd. unfold get16, put16. rewrite !get8_put8 by (rewrite ?put8_length; lia).
  case_cmp; lia.
Qed.

Lemma get32_put32 d o v : 0 <= o -> o + 4 <= Z.of_nat (length d) -> get32 (put32 d o v) o = u32 v.
Proof.
  intros Ho Hl. unfold get32, put32. rewrite (get16_put16 _ (o + 2)) by (rewrite ?put16_length; lia).
  rewrite get16_put16_ne, get16_put16 by (rewrite ?put16_length; lia). ulia.
Qed.

Lemma get32_put32_ne d o o' v : 0 <= o -> o + 4 <= Z.of_nat (length d) -> 0 <= o' -> o' + 4 <= o \/ o + 4 <= o' ->
  get32 (put32 d o v) o' = get32 d o'.
Proof.
  intros Ho Hl Ho' Hd. unfold get32, put32.
  by rewrite !get16_put16_ne by (rewrite ?put16_length; lia).
Qed.

Lemma put8_bytes d o v : bytes_ok d -> bytes_ok (put8 d o v).
Proof. intros Hd. apply Forall_insert; [done|]. apply Z.mod_pos_bound. lia. Qed.
Lemma put32_bytes d o v : bytes_ok d -> bytes_ok (put32 d o v).
Proof. intros Hd. unfold put32, put16. by repeat apply put8_bytes. Qed.

Lemma splice_length d o src : 0 <= o -> o + Z.of_nat (length src) <= Z.of_nat (length d) ->
  length (splice d o src) = length d.
Proof. intros Ho Hl. unfold splice. rewrite !length_app, length_take, length_drop. lia. Qed.

Lemma slice_splice d o src : 0 <= o -> o + Z.of_nat (length src) <= Z.of_nat (length d) ->
  slice (splice d o src) o (Z.of_nat (length src)) = src.
Proof.
  intros Ho Hl. unfold slice, splice. rewrite Nat2Z.id.
  rewrite drop_app_length' by (rewrite length_take; lia). by rewrite take_app_length.
Qed.

Lemma put16_bytes d o v : bytes_ok d -> bytes_ok (put16 d o v).
Proof. intros Hd. unfold put16. by repeat apply put8_bytes. Qed.

Lemma put_words_length ws : forall d o, length (put_words d o ws) = length d.
Proof. induction ws as [|w ws IH]; intros d o; [done|]. cbn [put_words]. by rewrite IH, put32_length. Qed.

Lemma put_words_bytes ws : forall d o, bytes_ok d -> bytes_ok (put_words d o ws).
Proof. induction ws as [|w ws IH]; intros d o Hd; [done|]. cbn [put_words]. by apply IH, put32_bytes. Qed.

Lemma get32_put_words_before ws : forall d o o', 0 <= o -> o + 4 * Z.of_nat (length ws) <= Z.of_nat (length d) -> 0 <= o' -> o' + 4 <= o ->
  get32 (put_words d o ws) o' = get32 d o'.
Proof.
  induction ws as [|w ws IH]; intros d o o' Ho Hl Ho' Hb; [done|]. cbn [put_words length] in *.
  rewrite IH by (rewrite ?put32_length; lia). by rewrite get32_put32_ne by lia.
Qed.

Lemma get32_put_words ws : forall d o k, 0 <= o -> o + 4 * Z.of_nat (length ws) <= Z.of_nat (length d) -> 0 <= k < Z.of_nat (length ws) ->
  get32 (put_words d o ws) (o + 4 * k) = u32 (nth (Z.to_nat k) ws 0).
Proof.
  induction ws as [|w ws IH]; intros d o k Ho Hl Hk; cbn [length] in *; [lia|]. cbn [put_words]. destruct (Z.eq_dec k 0) as [->|Hk0].
  - rewrite Z.mul_0_r, Z.add_0_r, get32_put_words_before by (rewrite ?put32_length; lia). by rewrite get32_put32 by lia.
  - replace (o + 4 * k) with (o + 4 + 4 * (k - 1)) by lia. rewrite IH by (rewrite ?put32_length; lia).
    by replace (Z.to_nat k) with (S (Z.to_nat (k - 1))) by lia.
Qed.

Lemma get_put_words d o ws : 0 <= o -> o + 4 * Z.of_nat (length ws) <= Z.of_nat (length d) -> Forall is_u32 ws ->
  get_words (put_words d o ws) o (Z.of_nat (length ws)) = ws.
Proof.
  intros Ho Hl Hw. apply list_eq. intros k. unfold get_words. rewrite list_lookup_fmap.
  destruct (ws !! k) as [w|] eqn:E.
  - pose proof (lookup_lt_Some _ _ _ E). rewrite lookup_seqZ_lt by lia. cbn [fmap option_fmap option_map]. rewrite Z.add_0_l, get32_put_words by lia.
    rewrite Nat2Z.id, nth_lookup, E. cbn. f_equal. apply u32_small. by apply (Forall_lookup_1 _ _ _ _ Hw E).
  - apply lookup_ge_None in E. by rewrite lookup_seqZ_ge by lia.
Qed.

Lemma get16_put32_ne d o o' v : 0 <= o -> o + 4 <= Z.of_nat (length d) -> 0 <= o' -> o' + 2 <= o \/ o + 4 <= o' ->
  get16 (put32 d o v) o' = get16 d o'.
Proof. intros Ho Hl Ho' Hd. unfold put32. by rewrite !get16_put16_ne by (rewrite ?put16_length; lia). Qed.

(** Fields before the words are as they were. *)
Lemma get16_put_words ws : forall d o o', 0 <= o -> o + 4 * Z.of_nat (length ws) <= Z.of_nat (length d) -> 0 <= o' -> o' + 2 <= o ->
  get16 (put_words d o ws) o' = get16 d o'.
Proof.
  induction ws as [|w ws IH]; intros d o o' Ho Hl Ho' Hb; [done|]. cbn [put_words length] in *.
  rewrite IH by (rewrite ?put32_length; lia). by rewrite get16_put32_ne by lia.
Qed.
