(* ===== verification/Bio.v ===== *)
(** * The buffer cache ([bio.c]) over a memory disk ([memide.c])

    The cache is the array of buffers and the list that links them, most
    recently used first.  The sleep lock of a buffer is its [b_locked] flag;
    a process that finds it set sleeps.  The disk records, besides its blocks,
    the sequence of block writes, which is what survives a crash. *)

From S2P Require Import Prelude Bytes.

Definition BSIZE : Z := 512.
Definition NBUF : nat := 30.
Definition ROOTDEV : Z := 1.

Abbreviation block := (list Z).

Record buf := Buf {
  b_valid : bool;      (* B_VALID: the data has been read from disk *)
  b_dirty : bool;      (* B_DIRTY: the data must be written to disk *)
  b_dev : Z;
  b_blockno : Z;
  b_locked : bool;
  b_refcnt : Z;
  b_data : block;
}.

Record bio := Bio {
  c_bufs : list buf;
  c_lru : list nat;              (* head.next, ..., head.prev *)
  c_disk : gmap Z block;
  c_disksize : Z;
  c_writes : list (Z * block);
}.

Definition zero_block : block := replicate (Z.to_nat BSIZE) 0.
Definition disk_block (d : gmap Z block) (n : Z) : block := default zero_block (d !! n).

Definition set_bufs (l : list buf) (s : bio) : bio := Bio l (c_lru s) (c_disk s) (c_disksize s) (c_writes s).
Definition set_lru (l : list nat) (s : bio) : bio := Bio (c_bufs s) l (c_disk s) (c_disksize s) (c_writes s).
Definition disk_write (n : Z) (d : block) (s : bio) : bio :=
  Bio (c_bufs s) (c_lru s) (<[n := d]> (c_disk s)) (c_disksize s) (c_writes s ++ [(n, d)]).

Definition set_data (d : block) (b : buf) : buf :=
  Buf (b_valid b) (b_dirty b) (b_dev b) (b_blockno b) (b_locked b) (b_refcnt b) d.
Definition set_flags (valid dirty : bool) (b : buf) : buf :=
  Buf valid dirty (b_dev b) (b_blockno b) (b_locked b) (b_refcnt b) (b_data b).
Definition set_lock (l : bool) (b : buf) : buf :=
  Buf (b_valid b) (b_dirty b) (b_dev b) (b_blockno b) l (b_refcnt b) (b_data b).
Definition set_ref (n : Z) (b : buf) : buf :=
  Buf (b_valid b) (b_dirty b) (b_dev b) (b_blockno b) (b_locked b) n (b_data b).

(** A buffer by its place in the array. *)
Definition buf_at (i : nat) : M bio buf := fun s =>
  match c_bufs s !! i with Some b => Ok b s | None => Fault (Z.of_nat i) end.
Definition upd_buf (i : nat) (f : buf -> buf) : M bio () :=
  b ← buf_at i; modify (fun s => set_bufs (<[i := f b]> (c_bufs s)) s).

(** [binit]: every buffer empty, each linked in at the front. *)
Definition empty_buf : buf := Buf false false 0 0 false 0 zero_block.
Definition binit (disk : gmap Z block) (size : Z) : bio :=
  Bio (replicate NBUF empty_buf) (rev (seq 0 NBUF)) disk size [].

(** [iderw]: transfer one block between buffer and disk. *)
Definition iderw (i : nat) : M bio () :=
  b ← buf_at i;
  if negb (b_locked b) then panic "iderw: buf not locked" else
  if b_valid b && negb (b_dirty b) then panic "iderw: nothing to do" else
  if negb (b_dev b =? 1) then panic "iderw: request not for disk 1" else
  s ← get;
  if c_disksize s <=? b_blockno b then panic "iderw: block out of range" else
  if b_dirty b then
    upd_buf i (set_flags true false);; modify (disk_write (b_blockno b) (b_data b))
  else
    upd_buf i (fun b => set_flags true (b_dirty b) (set_data (disk_block (c_disk s) (b_blockno b)) b)).

Definition acquiresleep (i : nat) : M bio () :=
  b ← buf_at i; if b_locked b then blocked else upd_buf i (set_lock true).
Definition releasesleep (i : nat) : M bio () := upd_buf i (set_lock false).

(** The first buffer of [order] satisfying [p]. *)
Definition find_buf (p : buf -> bool) (bufs : list buf) (order : list nat) : option nat :=
  i ← find_index (fun i => match bufs !! i with Some b => p b | None => false end) order; order !! i.

Definition holds_block (dev blockno : Z) (b : buf) : bool := (b_dev b =? dev) && (b_blockno b =? blockno).
Definition recyclable (b : buf) : bool := (b_refcnt b =? 0) && negb (b_dirty b).

Definition bget (dev blockno : Z) : M bio nat :=
  s ← get;
  match find_buf (holds_block dev blockno) (c_bufs s) (c_lru s) with
  | Some i => upd_buf i (fun b => set_ref (b_refcnt b + 1) b);; acquiresleep i;; mret i
  | None =>
      match find_buf recyclable (c_bufs s) (reverse (c_lru s)) with
      | Some i =>
          upd_buf i (fun b => Buf false false dev blockno (b_locked b) 1 (b_data b));;
          acquiresleep i;; mret i
      | None => panic "bget: no buffers"
      end
  end.

Definition bread (dev blockno : Z) : M bio nat :=
  i ← bget dev blockno;
  b ← buf_at i;
  when (negb (b_valid b)) (iderw i);;
  mret i.

Definition bwrite (i : nat) : M bio () :=
  b ← buf_at i;
  if negb (b_locked b) then panic "bwrite" else
  upd_buf i (set_flags (b_valid b) true);;
  iderw i.

Definition brelse (i : nat) : M bio () :=
  b ← buf_at i;
  if negb (b_locked b) then panic "brelse" else
  releasesleep i;;
  upd_buf i (fun b => set_ref (b_refcnt b - 1) b);;
  b ← buf_at i;
  when (b_refcnt b =? 0)
    (modify (fun s => set_lru (i :: filter (fun j => j <> i) (c_lru s)) s)).

(** [bp->data] read and written by the holder. *)
Definition bdata (i : nat) : M bio block := b ← buf_at i; mret (b_data b).
Definition bmodify (i : nat) (f : block -> block) : M bio () := upd_buf i (fun b => set_data (f (b_data b)) b).

(** ** The cache's invariant

    [held] are the buffers between [bread] and [brelse]; every other one is
    unlocked and unreferenced.  No two buffers hold the same block, and a
    valid buffer that is neither held nor dirty agrees with the disk. *)
Record binv (s : bio) (held : list nat) : Prop := {
  bi_len : length (c_bufs s) = NBUF;
  bi_lru : c_lru s ≡ₚ seq 0 NBUF;
  bi_held : forall i b, c_bufs s !! i = Some b -> i ∈ held ->
    b_locked b = true /\ b_refcnt b = 1 /\ b_valid b = true;
  bi_idle : forall i b, c_bufs s !! i = Some b -> i ∉ held -> b_locked b = false /\ b_refcnt b = 0;
  bi_uniq : forall i j b b', c_bufs s !! i = Some b -> c_bufs s !! j = Some b' ->
    b_dev b = 1 -> b_dev b' = 1 -> b_blockno b = b_blockno b' -> i = j;
  bi_clean : forall i b, c_bufs s !! i = Some b -> i ∉ held -> b_valid b = true -> b_dirty b = false ->
    b_data b = disk_block (c_disk s) (b_blockno b);
  bi_valid : forall i b, c_bufs s !! i = Some b -> b_valid b = true ->
    b_dev b = 1 /\ 0 <= b_blockno b < c_disksize s;
  bi_dirty : forall i b, c_bufs s !! i = Some b -> b_dirty b = true -> b_valid b = true;
}.

(** What a read of block [n] returns: the cached copy, or the disk's. *)
Definition bview (s : bio) (n : Z) : block :=
  match find_index (fun b => b_valid b && holds_block 1 n b) (c_bufs s) with
  | Some i => match c_bufs s !! i with Some b => b_data b | None => [] end
  | None => disk_block (c_disk s) n
  end.

Definition ndirty (s : bio) : nat := length (filter (fun b => b_dirty b = true) (c_bufs s)).

Lemma holds_spec dev n b : holds_block dev n b = true <-> b_dev b = dev /\ b_blockno b = n.
Proof. unfold holds_block. rewrite andb_true_iff, !Z.eqb_eq. done. Qed.

Lemma find_buf_Some p bufs order i : find_buf p bufs order = Some i ->
  exists b, bufs !! i = Some b /\ p b = true /\ i ∈ order.
Proof.
  unfold find_buf. intros (k & Hk & Hi)%bind_Some. apply find_index_Some in Hk as [(j & Hj & Hp) _].
  rewrite Hi in Hj. injection Hj as <-. destruct (bufs !! i) as [b|]; [|done]. exists b.
  split; [done|]. split; [done|]. by eapply list_elem_of_lookup_2.
Qed.

Lemma find_buf_None p bufs order i b : find_buf p bufs order = None -> i ∈ order -> bufs !! i = Some b -> p b = false.
Proof.
  unfold find_buf. intros Hn Hi Hb. apply list_elem_of_lookup in Hi as [k Hk].
  destruct (find_index _ order) as [k'|] eqn:E.
  - simpl in Hn. apply find_index_lt in E. apply lookup_lt_is_Some_2 in E as [? E]. congruence.
  - rewrite find_index_None in E. specialize (E k i Hk). simpl in E. by rewrite Hb in E.
Qed.

Section inv.
Implicit Types s : bio.

Lemma bview_cached s held i b : binv s held -> c_bufs s !! i = Some b -> b_valid b = true ->
  bview s (b_blockno b) = b_data b.
Proof.
  intros Hi Hb Hv. unfold bview. destruct (bi_valid _ _ Hi i b Hb Hv) as [Hd _].
  destruct (find_index _ _) as [k|] eqn:E.
  - apply find_index_Some in E as [(b' & Hb' & Hp) _]. apply andb_true_iff in Hp as [Hv' [Hd' Hn']%holds_spec].
    rewrite Hb'. assert (i = k) as <- by (eapply (bi_uniq _ _ Hi); eauto). congruence.
  - rewrite find_index_None in E. specialize (E i b Hb). simpl in E. rewrite Hv in E. simpl in E.
    assert (holds_block 1 (b_blockno b) b = true) by (by apply holds_spec). congruence.
Qed.

Lemma bview_uncached s n : (forall i b, c_bufs s !! i = Some b -> b_valid b = true -> b_dev b = 1 -> b_blockno b <> n) ->
  bview s n = disk_block (c_disk s) n.
Proof.
  intros Hn. unfold bview. destruct (find_index _ _) as [k|] eqn:E; [|done].
  apply find_index_Some in E as [(b' & Hb' & Hp) _]. apply andb_true_iff in Hp as [Hv' [Hd' Hn']%holds_spec].
  by destruct (Hn k b').
Qed.

(** Either way of looking at a block. *)
Lemma bview_cases s held n : binv s held ->
  (exists i b, c_bufs s !! i = Some b /\ b_valid b = true /\ b_dev b = 1 /\ b_blockno b = n /\ bview s n = b_data b) \/
  ((forall i b, c_bufs s !! i = Some b -> b_valid b = true -> b_dev b = 1 -> b_blockno b <> n) /\
   bview s n = disk_block (c_disk s) n).
Proof.
  intros Hi. unfold bview. destruct (find_index _ _) as [k|] eqn:E.
  - left. apply find_index_Some in E as [(b & Hb & Hp) _]. apply andb_true_iff in Hp as [Hv [Hd Hn]%holds_spec].
    exists k, b. by rewrite Hb.
  - right. split; [|done]. rewrite find_index_None in E. intros i b Hb Hv Hd Hn. specialize (E i b Hb).
    simpl in E. rewrite Hv in E. simpl in E. assert (holds_block 1 n b = true) by (by apply holds_spec). congruence.
Qed.

(** A buffer other than block [n]'s was changed, or nothing a reader of [n] sees. *)
Lemma bview_agree s s' held held' n : binv s held -> binv s' held' ->
  (forall i b, c_bufs s !! i = Some b -> b_valid b = true -> b_blockno b = n ->
     (exists b', c_bufs s' !! i = Some b' /\ b_valid b' = true /\ b_blockno b' = n /\ b_data b' = b_data b) \/
     (forall j b', c_bufs s' !! j = Some b' -> b_valid b' = true -> b_blockno b' <> n) /\
      disk_block (c_disk s') n = b_data b) ->
  ((forall i b, c_bufs s !! i = Some b -> b_valid b = true -> b_blockno b <> n) ->
     (forall i b', c_bufs s' !! i = Some b' -> b_valid b' = true -> b_blockno b' = n ->
        b_data b' = disk_block (c_disk s) n) /\
     disk_block (c_disk s') n = disk_block (c_disk s) n) ->
  bview s' n = bview s n.
Proof.
  intros Hi Hi' H1 H2. destruct (bview_cases s held n Hi) as [(i & b & Hb & Hv & Hd & Hn & ->)|[Hno ->]].
  - destruct (H1 i b Hb Hv Hn) as [(b' & Hb' & Hv' & <- & <-)|[Hno <-]].
    + by eapply bview_cached.
    + apply bview_uncached. eauto.
  - destruct H2 as [H2 E].
    { intros i b Hb Hv. apply (Hno i b Hb Hv). by eapply (bi_valid _ _ Hi). }
    destruct (bview_cases s' held' n Hi') as [(i & b' & Hb' & Hv' & _ & Hn' & ->)|[_ ->]]; [|done].
    by apply (H2 i b').
Qed.

Lemma buf_at_Ok s i b : c_bufs s !! i = Some b -> buf_at i s = Ok b s.
Proof. intros E. unfold buf_at. by rewrite E. Qed.

Lemma upd_buf_Ok s i f b : c_bufs s !! i = Some b -> upd_buf i f s = Ok () (set_bufs (<[i := f b]> (c_bufs s)) s).
Proof. intros E. unfold upd_buf. by rewrite (Ok_bind _ _ _ _ _ (buf_at_Ok s i b E)). Qed.

Lemma set_bufs_at s i b : is_Some (c_bufs s !! i) -> c_bufs (set_bufs (<[i := b]> (c_bufs s)) s) !! i = Some b.
Proof. intros [? E]. cbn [c_bufs set_bufs]. apply list_lookup_insert_eq. by eapply lookup_lt_Some. Qed.

Lemma set_bufs_twice s i b b' :
  set_bufs (<[i := b']> (c_bufs (set_bufs (<[i := b]> (c_bufs s)) s))) (set_bufs (<[i := b]> (c_bufs s)) s)
  = set_bufs (<[i := b']> (c_bufs s)) s.
Proof. unfold set_bufs. cbn [c_bufs c_lru c_disk c_disksize c_writes]. by rewrite list_insert_insert_eq. Qed.

Lemma acquiresleep_Ok s i b : c_bufs s !! i = Some b -> b_locked b = false ->
  acquiresleep i s = Ok () (set_bufs (<[i := set_lock true b]> (c_bufs s)) s).
Proof.
  intros Hb Hl. unfold acquiresleep. rewrite (Ok_bind _ _ _ _ _ (buf_at_Ok s i b Hb)), Hl. by apply upd_buf_Ok.
Qed.

(** Take the lock of a buffer just rewritten. *)
Lemma upd_lock s i f b : c_bufs s !! i = Some b -> b_locked (f b) = false ->
  (upd_buf i f;; acquiresleep i;; mret i) s = Ok i (set_bufs (<[i := set_lock true (f b)]> (c_bufs s)) s).
Proof.
  intros Hb Hl. rewrite (Ok_bind _ _ _ _ _ (upd_buf_Ok s i f b Hb)).
  pose proof (set_bufs_at s i (f b) ltac:(eauto)) as Hb1.
  rewrite (Ok_bind _ _ _ _ _ (acquiresleep_Ok _ _ _ Hb1 Hl)). unfold mret, M_ret. by rewrite set_bufs_twice.
Qed.

(** One buffer replaced. *)
Lemma binv_insert s held held' i b b' : binv s held -> c_bufs s !! i = Some b ->
  (forall j, j <> i -> j ∈ held' <-> j ∈ held) ->
  (i ∈ held' -> b_locked b' = true /\ b_refcnt b' = 1 /\ b_valid b' = true) ->
  (i ∉ held' -> b_locked b' = false /\ b_refcnt b' = 0 /\
     (b_valid b' = true -> b_dirty b' = false -> b_data b' = disk_block (c_disk s) (b_blockno b'))) ->
  (b_dev b' = 1 -> forall j bj, j <> i -> c_bufs s !! j = Some bj -> b_dev bj = 1 -> b_blockno bj <> b_blockno b') ->
  (b_valid b' = true -> b_dev b' = 1 /\ 0 <= b_blockno b' < c_disksize s) ->
  (b_dirty b' = true -> b_valid b' = true) ->
  binv (set_bufs (<[i := b']> (c_bufs s)) s) held'.
Proof.
  intros [Hlen Hlru Hh Hid Hu Hc Hv Hd] Hb Hheld A1 A2 A3 A4 A5.
  assert (forall j bj, <[i := b']> (c_bufs s) !! j = Some bj ->
    (j = i /\ bj = b') \/ (j <> i /\ c_bufs s !! j = Some bj)) as Cases.
  { intros j bj [(<- & -> & _)|[? ?]]%list_lookup_insert_Some; [by left|right; auto]. }
  split; cbn [set_bufs c_bufs c_lru c_disk c_disksize].
  - by rewrite length_insert.
  - done.
  - intros j bj [[-> ->]|[Hne Hj]]%Cases Hin; [auto|]. apply Hheld in Hin; eauto.
  - intros j bj [[-> ->]|[Hne Hj]]%Cases Hin.
    + destruct (A2 Hin) as (? & ? & _). done.
    + eapply Hid; [done|]. by rewrite <- Hheld.
  - intros j k bj bk [[-> ->]|[Hne Hj]]%Cases [[-> ->]|[Hne' Hk]]%Cases D1 D2 E; try done.
    + by destruct (A3 D1 k bk Hne' Hk D2).
    + by destruct (A3 D2 j bj Hne Hj D1).
    + eauto.
  - intros j bj [[-> ->]|[Hne Hj]]%Cases Hin V D.
    + destruct (A2 Hin) as (_ & _ & HA). by apply HA.
    + eapply Hc; eauto. by rewrite <- Hheld.
  - intros j bj [[-> ->]|[Hne Hj]]%Cases V; eauto.
  - intros j bj [[-> ->]|[Hne Hj]]%Cases D; eauto.
Qed.

Lemma held_or_dirty (l : list buf) (held : list nat) : NoDup held ->
  (forall i b, l !! i = Some b -> i ∈ held \/ b_dirty b = true) ->
  (length l <= length held + length (filter (fun b => b_dirty b = true) l))%nat.
Proof.
  revert held. induction l as [|b l IH] using rev_ind; intros held Hnd Hall; [simpl; lia|].
  rewrite filter_app, !length_app. cbn [length]. rewrite filter_cons, filter_nil.
  assert (forall i b', l !! i = Some b' -> (l ++ [b]) !! i = Some b') as Hl.
  { intros i b' Hi. rewrite lookup_app_l; [done|]. by eapply lookup_lt_Some. }
  destruct (decide (b_dirty b = true)) as [Hd|Hd]; cbn [length].
  - specialize (IH held Hnd (fun i b' Hi => Hall i b' (Hl i b' Hi))). lia.
  - destruct (Hall (length l) b) as [Hin|]; [by rewrite list_lookup_middle| |done].
    apply elem_of_Permutation in Hin as [held' Hp]. rewrite Hp in Hnd. apply NoDup_cons in Hnd as [Hnin Hnd].
    specialize (IH held' Hnd). rewrite (Permutation_length Hp). cbn [length].
    cut (length l <= length held' + length (filter (fun b => b_dirty b = true) l))%nat; [lia|].
    apply IH. intros i b' Hi. destruct (Hall i b' (Hl i b' Hi)) as [Hi'|]; [|by right].
    rewrite Hp in Hi'. apply elem_of_cons in Hi' as [->|]; [|by left].
    apply lookup_lt_Some in Hi. lia.
Qed.

(** There is a buffer to recycle while fewer than [NBUF] are held or dirty. *)
Lemma recyclable_exists s held : binv s held -> NoDup held -> (length held + ndirty s < NBUF)%nat ->
  exists i b, c_bufs s !! i = Some b /\ recyclable b = true.
Proof.
  intros Hi Hnd Hlt.
  destruct (decide (Exists (fun b => recyclable b = true) (c_bufs s))) as [He|Hn].
  - apply Exists_exists in He as (b & (i & Hb)%list_elem_of_lookup & Hr). by exists i, b.
  - exfalso. pose proof (held_or_dirty (c_bufs s) held Hnd) as Hc. rewrite (bi_len _ _ Hi) in Hc.
    fold (ndirty s) in Hc. cut (NBUF <= length held + ndirty s)%nat; [lia|]. apply Hc. intros i b Hb.
    destruct (decide (i ∈ held)) as [|Hni]; [by left|]. right.
    destruct (bi_idle _ _ Hi i b Hb Hni) as [_ Hr]. destruct (b_dirty b) eqn:Ed; [done|]. exfalso. apply Hn.
    apply Exists_exists. exists b. split; [by eapply list_elem_of_lookup_2|]. unfold recyclable. by rewrite Hr, Ed.
Qed.

Lemma lru_all s held i : binv s held -> is_Some (c_bufs s !! i) -> i ∈ c_lru s.
Proof.
  intros Hi [b Hb]. rewrite (bi_lru _ _ Hi). apply elem_of_seq. apply lookup_lt_Some in Hb.
  rewrite (bi_len _ _ Hi) in Hb. lia.
Qed.

(** Block [n] is in a dirty buffer, so it stays in the cache. *)
Definition pinned (s : bio) (n : Z) : Prop :=
  exists i b, c_bufs s !! i = Some b /\ b_dirty b = true /\ b_blockno b = n.

(** [bget] finds the block's buffer, or recycles one that is neither held nor dirty. *)
Lemma bget_run s held n : binv s held -> NoDup held ->
  (forall i b, i ∈ held -> c_bufs s !! i = Some b -> b_blockno b <> n) ->
  pinned s n \/ (length held + ndirty s < NBUF)%nat ->
  exists i b b', bget 1 n s = Ok i (set_bufs (<[i := b']> (c_bufs s)) s) /\ c_bufs s !! i = Some b /\ (i ∉ held) /\
    b_locked b' = true /\ b_refcnt b' = 1 /\ b_dev b' = 1 /\ b_blockno b' = n /\
    ((b_dev b = 1 /\ b_blockno b = n /\ b_valid b' = b_valid b /\ b_dirty b' = b_dirty b /\ b_data b' = b_data b) \/
     (b_dirty b = false /\ b_valid b' = false /\ b_dirty b' = false /\
      forall j bj, c_bufs s !! j = Some bj -> b_dev bj = 1 -> b_blockno bj <> n)).
Proof.
  intros Hi Hnd Hheld Hfree. unfold bget. erewrite Ok_bind by reflexivity.
  assert (forall i b, c_bufs s !! i = Some b -> i ∉ held -> b_locked b = false /\ b_refcnt b = 0) as Hidle by apply Hi.
  destruct (find_buf (holds_block 1 n) (c_bufs s) (c_lru s)) as [i|] eqn:E.
  - apply find_buf_Some in E as (b & Hb & [Hd Hn]%holds_spec & _).
    assert (i ∉ held) as Hni by (intros Hin; by apply (Hheld i b)).
    destruct (Hidle i b Hb Hni) as [Hl Hr].
    exists i, b, (set_lock true (set_ref 1 b)). split_and!; try done; [|by left].
    rewrite (upd_lock s i _ b Hb) by done. by rewrite Hr.
  - assert (forall j bj, c_bufs s !! j = Some bj -> b_dev bj = 1 -> b_blockno bj <> n) as Hno.
    { intros j bj Hj Hd Hn. apply (find_buf_None _ _ _ j bj) in E; [|by eapply lru_all|done].
      assert (holds_block 1 n bj = true) by (by apply holds_spec). congruence. }
    destruct (find_buf recyclable (c_bufs s) (reverse (c_lru s))) as [i|] eqn:E'.
    + apply find_buf_Some in E' as (b & Hb & Hr & _). unfold recyclable in Hr. bool_prop.
      assert (i ∉ held) as Hni. { intros Hin. destruct (bi_held _ _ Hi i b Hb Hin) as (_ & ? & _). lia. }
      destruct (Hidle i b Hb Hni) as [Hl _].
      exists i, b, (Buf false false 1 n true 1 (b_data b)). split_and!; try done; [|by right].
      rewrite (upd_lock s i _ b Hb) by done. by rewrite Hl.
    + exfalso. destruct Hfree as [(i & b & Hb & D & N)|Hfree].
      { apply (bi_dirty _ _ Hi i b Hb) in D. by destruct (Hno i b Hb); [eapply (bi_valid _ _ Hi)|]. }
      destruct (recyclable_exists s held Hi Hnd Hfree) as (i & b & Hb & Hr).
      apply (find_buf_None _ _ _ i b) in E'; [congruence| |done].
      rewrite elem_of_reverse. by eapply lru_all.
Qed.

Lemma iderw_read s i b : c_bufs s !! i = Some b -> b_locked b = true -> b_valid b = false -> b_dirty b = false ->
  b_dev b = 1 -> b_blockno b < c_disksize s ->
  iderw i s = Ok () (set_bufs (<[i := set_flags true false (set_data (disk_block (c_disk s) (b_blockno b)) b)]> (c_bufs s)) s).
Proof.
  intros Hb Hl Hv Hd Hdev Hn. unfold iderw. rewrite (Ok_bind _ _ _ _ _ (buf_at_Ok s i b Hb)), Hl, Hv, Hd, Hdev. simpl.
  erewrite Ok_bind by reflexivity. rewrite (proj2 (Z.leb_gt _ _)) by done.
  rewrite (upd_buf_Ok s i _ b Hb). cbn [set_data b_dirty]. by rewrite Hd.
Qed.

Lemma iderw_write s i b : c_bufs s !! i = Some b -> b_locked b = true -> b_dirty b = true ->
  b_dev b = 1 -> b_blockno b < c_disksize s ->
  iderw i s = Ok () (disk_write (b_blockno b) (b_data b) (set_bufs (<[i := set_flags true false b]> (c_bufs s)) s)).
Proof.
  intros Hb Hl Hd Hdev Hn. unfold iderw. rewrite (Ok_bind _ _ _ _ _ (buf_at_Ok s i b Hb)), Hl, Hd, Hdev, andb_false_r.
  simpl. erewrite Ok_bind by reflexivity. rewrite (proj2 (Z.leb_gt _ _)) by done.
  by rewrite (Ok_bind _ _ _ _ _ (upd_buf_Ok s i _ b Hb)).
Qed.

Lemma ndirty_insert s i b b' : c_bufs s !! i = Some b -> b_dirty b' = b_dirty b ->
  ndirty (set_bufs (<[i := b']> (c_bufs s)) s) = ndirty s.
Proof.
  intros Hb Hd. unfold ndirty. cbn [set_bufs c_bufs]. revert i Hb. induction (c_bufs s) as [|x l IH]; [done|].
  intros [|i] Hb; simpl in Hb.
  - injection Hb as ->. cbn [insert list_insert]. rewrite !filter_cons, Hd. by destruct (decide _).
  - cbn [insert list_insert]. rewrite !filter_cons. destruct (decide _); cbn [length]; [f_equal|]; by apply IH.
Qed.

Lemma pinned_insert s i b b' m : c_bufs s !! i = Some b -> b_dirty b' = b_dirty b ->
  (b_dirty b = true -> b_blockno b' = b_blockno b) ->
  pinned (set_bufs (<[i := b']> (c_bufs s)) s) m <-> pinned s m.
Proof.
  intros Hb Hd Hn. unfold pinned. cbn [set_bufs c_bufs]. split.
  - intros (j & bj & [(<- & -> & _)|[_ Hj]]%list_lookup_insert_Some & D & E); [|by exists j, bj].
    exists i, b. rewrite <- Hn by congruence. split_and!; congruence.
  - intros (j & bj & Hj & D & E). destruct (decide (i = j)) as [<-|].
    + exists i, b'. rewrite list_lookup_insert_eq by (by eapply lookup_lt_Some).
      assert (bj = b) as -> by congruence. split_and!; [done|congruence|]. by rewrite Hn.
    + exists j, bj. by rewrite list_lookup_insert_ne.
Qed.

(** A buffer given to block [n] hides no other block. *)
Lemma bview_replaced s held held' i b b' n m : let s' := set_bufs (<[i := b']> (c_bufs s)) s in
  binv s held -> binv s' held' -> c_bufs s !! i = Some b -> i ∉ held -> b_blockno b' = n ->
  (b_dirty b = true -> b_blockno b = n) -> m <> n -> bview s' m = bview s m.
Proof.
  intros s' Hi Hi' Hb Hni Hn' Hdn Hm. apply (bview_agree s s' held held' m); try done.
  - intros j bj Hj Hvj Nj. destruct (decide (j = i)) as [->|Hne].
    + right. assert (bj = b) as -> by congruence. cbn [c_disk s' set_bufs]. split.
      * intros k bk [(<- & -> & _)|[Hki Hk]]%list_lookup_insert_Some Hvk; [congruence|].
        intros Nk. apply Hki. symmetry. eapply (bi_uniq _ _ Hi k i bk b); eauto;
          [by eapply (bi_valid _ _ Hi)..|congruence].
      * rewrite <- Nj. symmetry. apply (bi_clean _ _ Hi i b); try done.
        destruct (b_dirty b) eqn:D; [|done]. rewrite Hdn in Nj by done. congruence.
    + left. exists bj. cbn [c_bufs s' set_bufs]. by rewrite list_lookup_insert_ne by done.
  - intros Hno. cbn [c_disk s' set_bufs c_bufs]. split; [|done].
    intros j bj [(<- & -> & _)|[_ Hj]]%list_lookup_insert_Some Hvj Nj; [congruence|].
    by destruct (Hno j bj Hj Hvj).
Qed.

(** What [bread] returns: a locked buffer with the block's contents; nobody
    sees any other change. *)
Lemma bread_run s held n : binv s held -> NoDup held -> 0 <= n < c_disksize s ->
  (forall i b, i ∈ held -> c_bufs s !! i = Some b -> b_blockno b <> n) ->
  pinned s n \/ (length held + ndirty s < NBUF)%nat ->
  exists i b b', let s' := set_bufs (<[i := b']> (c_bufs s)) s in
    bread 1 n s = Ok i s' /\ c_bufs s !! i = Some b /\ (i ∉ held) /\ binv s' (i :: held) /\
    b_blockno b' = n /\ b_data b' = bview s n /\ (b_dirty b' = true <-> pinned s n) /\
    ndirty s' = ndirty s /\ (forall m, pinned s' m <-> pinned s m) /\ forall m, bview s' m = bview s m.
Proof.
  intros Hi Hnd Hn Hheld Hfree.
  destruct (bget_run s held n Hi Hnd Hheld Hfree) as (i & b & b1 & Hget & Hb & Hni & Hl1 & Hr1 & Hd1 & Hn1 & Hc).
  set (s1 := set_bufs (<[i := b1]> (c_bufs s)) s).
  pose proof (set_bufs_at s i b1 ltac:(eauto)) as Hb1. fold s1 in Hb1.
  (* the buffer bread returns *)
  set (b' := if b_valid b1 then b1 else set_flags true false (set_data (disk_block (c_disk s) n) b1)).
  assert (b_valid b1 = false -> b_dirty b1 = false) as Hvd.
  { intros Hv. destruct Hc as [(_ & _ & Ev & Ed & _)|(_ & _ & ? & _)]; [|done]. rewrite Ed.
    destruct (b_dirty b) eqn:D; [|done]. apply (bi_dirty _ _ Hi i b Hb) in D. congruence. }
  assert (bread 1 n s = Ok i (set_bufs (<[i := b']> (c_bufs s)) s)) as Hrun.
  { unfold bread. rewrite (Ok_bind _ _ _ _ _ Hget). fold s1. rewrite (Ok_bind _ _ _ _ _ (buf_at_Ok s1 i b1 Hb1)).
    unfold b'. destruct (b_valid b1) eqn:Hv; cbn [negb when]; [done|].
    erewrite Ok_bind; [|apply (iderw_read s1 i b1); auto; rewrite Hn1; apply Hn].
    unfold mret, M_ret, s1. by rewrite set_bufs_twice, Hn1. }
  assert (b_valid b' = true /\ b_locked b' = true /\ b_refcnt b' = 1 /\ b_dev b' = 1 /\ b_blockno b' = n /\
          b_dirty b' = b_dirty b1) as (Hv' & Hl' & Hr' & Hd' & Hn' & Hdi').
  { unfold b'. destruct (b_valid b1) eqn:Hv; [done|]. cbn. by rewrite Hvd. }
  assert (b_dirty b1 = b_dirty b) as Hdi by (destruct Hc as [(_ & _ & _ & ? & _)|(? & _ & ? & _)]; congruence).
  assert (b_dirty b = true -> b_blockno b = n) as Hdn.
  { intros D. destruct Hc as [(_ & ? & _)|(? & _)]; [done|congruence]. }
  set (s' := set_bufs (<[i := b']> (c_bufs s)) s) in *.
  assert (forall j bj, j <> i -> c_bufs s !! j = Some bj -> b_dev bj = 1 -> b_blockno bj <> n) as Hother.
  { intros j bj Hne Hj Hdj E. destruct Hc as [(D & N & _)|(_ & _ & _ & Hno)]; [|by eapply Hno].
    apply Hne. eapply (bi_uniq _ _ Hi); eauto. congruence. }
  assert (binv s' (i :: held)) as Hi'.
  { apply (binv_insert s held (i :: held) i b b'); try done.
    - intros j Hne. rewrite elem_of_cons. intuition.
    - rewrite not_elem_of_cons. by intros [].
    - intros _ j bj Hne Hj Hdj. rewrite Hn'. by eapply Hother.
    - by rewrite Hn'. }
  assert (c_bufs s' !! i = Some b') as Hb' by (apply set_bufs_at; eauto).
  assert (bview s n = b_data b') as Hview.
  { unfold b'. destruct (b_valid b1) eqn:Hv.
    - destruct Hc as [(_ & <- & Ev & _ & ->)|(_ & ? & _)]; [|congruence]. eapply bview_cached; [done|done|congruence].
    - cbn. apply bview_uncached. intros j bj Hj Hvj Hdj. destruct (decide (j = i)) as [->|]; [|by eapply Hother].
      destruct Hc as [(_ & _ & Ev & _)|(_ & _ & _ & Hno)]; [congruence|by eapply Hno]. }
  exists i, b, b'. split; [done|]. split; [done|]. split; [done|]. split; [done|]. split; [done|]. split; [done|].
  split; [|split; [|split]].
  - rewrite Hdi', Hdi. split.
    + intros D. exists i, b. auto.
    + intros (j & bj & Hj & D & N). destruct (decide (j = i)) as [->|Hne]; [congruence|].
      by destruct (Hother j bj Hne Hj); [eapply (bi_valid _ _ Hi); eauto; by eapply (bi_dirty _ _ Hi)|].
  - apply (ndirty_insert s i b); congruence.
  - intros m. apply (pinned_insert s i b); [done|congruence|]. intros D. rewrite Hn'. symmetry. auto.
  - intros m. destruct (decide (m = n)) as [->|Hm].
    + rewrite Hview, <- Hn'. by eapply bview_cached.
    + by apply (bview_replaced s held (i :: held) i b b' n).
Qed.

(** A held buffer rewritten by its holder: data and dirty flag. *)
Lemma held_insert s held i b b' : binv s held -> i ∈ held -> c_bufs s !! i = Some b ->
  b_valid b' = true -> b_locked b' = true -> b_refcnt b' = 1 -> b_dev b' = b_dev b -> b_blockno b' = b_blockno b ->
  let s' := set_bufs (<[i := b']> (c_bufs s)) s in
  binv s' held /\ forall m, bview s' m = if decide (m = b_blockno b) then b_data b' else bview s m.
Proof.
  intros Hi Hin Hb Hv' Hl' Hr' Hd' Hn' s'. destruct (bi_held _ _ Hi i b Hb Hin) as (_ & _ & Hv).
  destruct (bi_valid _ _ Hi i b Hb Hv) as [Hdev Hrng].
  assert (binv s' held) as Hi'.
  { apply (binv_insert s held held i b b'); try done.
    - intros D j bj Hne Hj Dj E. apply Hne. eapply (bi_uniq _ _ Hi); eauto; congruence.
    - intros _. rewrite Hd', Hn'. done. }
  split; [done|]. intros m. assert (c_bufs s' !! i = Some b') as Hb' by (apply set_bufs_at; eauto).
  case_decide as Hm.
  - subst m. rewrite <- Hn'. by eapply bview_cached.
  - apply (bview_agree s s' held held m); try done; cbn [c_bufs c_disk set_bufs s'].
    + intros j bj Hj Hvj Nj. left. exists bj. rewrite list_lookup_insert_ne; [done|]. intros <-. congruence.
    + intros Hno. split; [|done]. intros j bj [(<- & -> & _)|[_ Hj]]%list_lookup_insert_Some Hvj Nj; [congruence|].
      by destruct (Hno j bj Hj Hvj).
Qed.

Lemma bdata_run s i b : c_bufs s !! i = Some b -> bdata i s = Ok (b_data b) s.
Proof. intros Hb. unfold bdata. by rewrite (Ok_bind _ _ _ _ _ (buf_at_Ok s i b Hb)). Qed.

Lemma bmodify_run s held i b f : binv s held -> i ∈ held -> c_bufs s !! i = Some b ->
  let s' := set_bufs (<[i := set_data (f (b_data b)) b]> (c_bufs s)) s in
  bmodify i f s = Ok () s' /\ binv s' held /\ ndirty s' = ndirty s /\ (forall m, pinned s' m <-> pinned s m) /\
  forall m, bview s' m = if decide (m = b_blockno b) then f (b_data b) else bview s m.
Proof.
  intros Hi Hin Hb s'. destruct (bi_held _ _ Hi i b Hb Hin) as (Hl & Hr & Hv).
  destruct (held_insert s held i b (set_data (f (b_data b)) b)) as [Hi' Hview]; try done.
  split; [exact (upd_buf_Ok s i (fun b => set_data (f (b_data b)) b) b Hb)|].
  split; [done|]. split; [by apply (ndirty_insert s i b)|].
  split; [|done]. intros m. by apply (pinned_insert s i b).
Qed.

Lemma filter_dirty_le (l : list buf) i b b' : l !! i = Some b -> b_dirty b' = false ->
  (length (filter (fun b => b_dirty b = true) (<[i := b']> l)) <= length (filter (fun b => b_dirty b = true) l))%nat.
Proof.
  revert i. induction l as [|x l IH]; [done|]. intros [|i] Hb Hd; simpl in Hb; cbn [insert list_insert]; rewrite !filter_cons.
  - injection Hb as ->. rewrite decide_False by congruence. destruct (decide _); cbn [length]; lia.
  - specialize (IH i Hb Hd). destruct (decide _); cbn [length]; [apply le_n_S|]; exact IH.
Qed.

(** [bwrite] takes the buffer's contents to the disk. *)
Lemma bwrite_run s held i b : binv s held -> i ∈ held -> c_bufs s !! i = Some b ->
  exists s', bwrite i s = Ok () s' /\ binv s' held /\ c_bufs s' = <[i := set_flags true false b]> (c_bufs s) /\
    c_disk s' = <[b_blockno b := b_data b]> (c_disk s) /\ c_writes s' = c_writes s ++ [(b_blockno b, b_data b)] /\
    c_disksize s' = c_disksize s /\ (ndirty s' <= ndirty s)%nat /\
    (forall m, pinned s' m <-> pinned s m /\ m <> b_blockno b) /\ forall m, bview s' m = bview s m.
Proof.
  intros Hi Hin Hb. destruct (bi_held _ _ Hi i b Hb Hin) as (Hl & Hr & Hv).
  destruct (bi_valid _ _ Hi i b Hb Hv) as [Hdev Hrng].
  set (b' := set_flags true false b). set (s1 := set_bufs (<[i := b']> (c_bufs s)) s).
  set (s' := disk_write (b_blockno b) (b_data b) s1).
  destruct (held_insert s held i b b') as [Hi1 Hview]; try done. fold s1 in Hi1, Hview.
  assert (forall j bj, j <> i -> c_bufs s !! j = Some bj -> b_dev bj = 1 -> b_blockno bj <> b_blockno b) as Hother.
  { intros j bj Hne Hj Dj E. apply Hne. eapply (bi_uniq _ _ Hi); eauto. }
  assert (binv s' held) as Hi'.
  { destruct Hi1 as [A1 A2 A3 A4 A5 A6 A7 A8]. split; try done.
    intros j bj Hj Hnj Vj Dj. cbn [s' disk_write c_disk]. unfold disk_block.
    assert (j <> i) by congruence. assert (c_bufs s !! j = Some bj) as Hj'.
    { cbn [s' disk_write c_bufs s1 set_bufs] in Hj. by rewrite list_lookup_insert_ne in Hj. }
    rewrite lookup_insert_ne; [by apply (bi_clean _ _ Hi j bj)|]. intros E.
    destruct (bi_valid _ _ Hi j bj Hj' Vj) as [Dj' _]. by destruct (Hother j bj). }
  exists s'. split.
  { unfold bwrite. rewrite (Ok_bind _ _ _ _ _ (buf_at_Ok s i b Hb)), Hl. cbn [negb].
    rewrite (Ok_bind _ _ _ _ _ (upd_buf_Ok s i _ b Hb)).
    rewrite (iderw_write _ i (set_flags (b_valid b) true b)); try done.
    - cbn [set_flags b_blockno b_data]. by rewrite set_bufs_twice.
    - by apply set_bufs_at.
    - apply Hrng. }
  split; [done|]. split; [done|]. split; [done|]. split; [done|]. split; [done|].
  split; [by apply (filter_dirty_le _ i b b')|]. split.
  - intros m. unfold pinned. cbn [s' disk_write c_bufs s1 set_bufs]. split.
    + intros (j & bj & [(<- & <- & _)|[Hne Hj]]%list_lookup_insert_Some & D & E); [discriminate D|].
      split; [by exists j, bj|]. rewrite <- E. apply (Hother j bj); [done|done|].
      eapply (bi_valid _ _ Hi); eauto. by eapply (bi_dirty _ _ Hi).
    + intros [(j & bj & Hj & D & E) Hm]. exists j, bj. rewrite list_lookup_insert_ne; [done|]. intros <-. congruence.
  - intros m. transitivity (bview s1 m).
    + destruct (decide (m = b_blockno b)) as [->|Hm].
      * assert (c_bufs s1 !! i = Some b') as Hb1 by (apply set_bufs_at; eauto).
        transitivity (b_data b'); [|symmetry].
        -- by apply (bview_cached s' held i b').
        -- by apply (bview_cached s1 held i b').
      * unfold bview. cbn [s' disk_write c_bufs c_disk]. unfold disk_block. by rewrite lookup_insert_ne by done.
    + rewrite Hview. case_decide as Hm; [|done]. subst m. symmetry. by apply (bview_cached s held i b).
Qed.

(** [brelse] of a buffer that is dirty or agrees with the disk. *)
Lemma brelse_run s held held' i b : binv s held -> i ∈ held -> (forall j, j ∈ held' <-> j ∈ held /\ j <> i) ->
  c_bufs s !! i = Some b -> (b_dirty b = true \/ b_data b = disk_block (c_disk s) (b_blockno b)) ->
  exists s', brelse i s = Ok () s' /\ binv s' held' /\
    c_bufs s' = <[i := set_ref 0 (set_lock false b)]> (c_bufs s) /\ c_disk s' = c_disk s /\ c_writes s' = c_writes s /\
    c_disksize s' = c_disksize s /\ ndirty s' = ndirty s /\ (forall m, pinned s' m <-> pinned s m) /\
    forall m, bview s' m = bview s m.
Proof.
  intros Hi Hin Hheld Hb Hdata. destruct (bi_held _ _ Hi i b Hb Hin) as (Hl & Hr & Hv).
  destruct (bi_valid _ _ Hi i b Hb Hv) as [Hdev Hrng].
  set (b' := set_ref 0 (set_lock false b)). set (s1 := set_bufs (<[i := b']> (c_bufs s)) s).
  set (s' := set_lru (i :: filter (fun j => j <> i) (c_lru s1)) s1).
  assert (binv s1 held') as Hi1.
  { apply (binv_insert s held held' i b b'); try done.
    - intros j Hne. rewrite Hheld. intuition.
    - intros Hc. apply Hheld in Hc as [_ []]; done.
    - intros _. cbn. split; [done|]. split; [done|]. intros _ D. destruct Hdata; congruence.
    - intros _ j bj Hne Hj Dj E. apply Hne. eapply (bi_uniq _ _ Hi); eauto. }
  assert (c_lru s' ≡ₚ seq 0 NBUF) as Hlru.
  { cbn [s' set_lru c_lru s1 set_bufs]. rewrite <- (bi_lru _ _ Hi).
    assert (i ∈ c_lru s) as Hil by (eapply lru_all; eauto).
    pose proof (bi_lru _ _ Hi) as Hp. apply elem_of_Permutation in Hil as [k Hk]. rewrite Hk.
    assert (NoDup (i :: k)) as Hnd by (rewrite <- Hk, Hp; apply NoDup_seq).
    apply NoDup_cons in Hnd as [Hnk _]. rewrite (filter_cons_False (fun j => j <> i)) by tauto.
    rewrite filter_keep; [done|]. apply Forall_forall. intros j Hj ->. done. }
  exists s'. split.
  { unfold brelse, releasesleep. rewrite (Ok_bind _ _ _ _ _ (buf_at_Ok s i b Hb)), Hl. cbn [negb].
    rewrite (Ok_bind _ _ _ _ _ (upd_buf_Ok s i _ b Hb)).
    pose proof (set_bufs_at s i (set_lock false b) ltac:(eauto)) as Hb1.
    rewrite (Ok_bind _ _ _ _ _ (upd_buf_Ok _ i _ _ Hb1)), set_bufs_twice. cbn [set_lock b_refcnt].
    rewrite Hr. change (1 - 1) with 0. fold b' s1.
    pose proof (set_bufs_at s i b' ltac:(eauto)) as Hb2. fold s1 in Hb2.
    rewrite (Ok_bind _ _ _ _ _ (buf_at_Ok _ _ _ Hb2)). done. }
  split; [by destruct Hi1; split|]. split; [done|]. split; [done|]. split; [done|]. split; [done|].
  split; [by apply (ndirty_insert s i b)|]. split; [intros m; by apply (pinned_insert s i b)|].
  intros m. change (bview s' m) with (bview s1 m). apply (bview_agree s s1 held held' m); try done.
  - intros j bj Hj Hvj Nj. left. cbn [s1 set_bufs c_bufs]. destruct (decide (i = j)) as [<-|Hne].
    + exists b'. assert (bj = b) as -> by congruence.
      rewrite list_lookup_insert_eq by (by eapply lookup_lt_Some). done.
    + exists bj. by rewrite list_lookup_insert_ne.
  - intros Hno. cbn [s1 set_bufs c_bufs c_disk]. split; [|done].
    intros j bj [(<- & <- & _)|[_ Hj]]%list_lookup_insert_Some Hvj Nj; [by destruct (Hno i b)|].
    by destruct (Hno j bj Hj Hvj).
Qed.

Lemma bview_unpinned s held n : binv s held -> ~ pinned s n ->
  (forall i b, i ∈ held -> c_bufs s !! i = Some b -> b_blockno b <> n) -> bview s n = disk_block (c_disk s) n.
Proof.
  intros Hi Hnp Hh. destruct (bview_cases s held n Hi) as [(i & b & Hb & Hv & Hd & Hn & ->)|[_ ->]]; [|done].
  rewrite <- Hn. apply (bi_clean _ _ Hi i b); [done| |done|].
  - intros Hin. by apply (Hh i b).
  - destruct (b_dirty b) eqn:D; [|done]. destruct Hnp. by exists i, b.
Qed.

End inv.

(** ** Whole accesses *)

(** The disk after a sequence of block writes. *)
Definition apply_writes (W : list (Z * block)) (d : gmap Z block) : gmap Z block :=
  foldl (fun d w => <[w.1 := w.2]> d) d W.

Lemma apply_writes_app W1 W2 d : apply_writes (W1 ++ W2) d = apply_writes W2 (apply_writes W1 d).
Proof. apply foldl_app. Qed.

(** From one state with no buffer held to another, with [W] written. *)
Record bstep (s s' : bio) (W : list (Z * block)) : Prop := {
  bs_inv : binv s' [];
  bs_writes : c_writes s' = c_writes s ++ W;
  bs_disk : c_disk s' = apply_writes W (c_disk s);
  bs_size : c_disksize s' = c_disksize s;
  bs_nd : (ndirty s' <= ndirty s)%nat;
}.

Lemma bstep_trans s1 s2 s3 W1 W2 : bstep s1 s2 W1 -> bstep s2 s3 W2 -> bstep s1 s3 (W1 ++ W2).
Proof.
  intros [? A2 A3 A4 A5] [? B2 B3 B4 B5]. split; [done|..].
  - by rewrite B2, A2, app_assoc.
  - by rewrite B3, A3, apply_writes_app.
  - congruence.
  - lia.
Qed.

(** [bp = bread(n); ... bp->data ...; brelse(bp)]. *)
Definition read_block (n : Z) : M bio block :=
  i ← bread 1 n; d ← bdata i; brelse i;; mret d.

(** [bp = bread(n); bp->data = f(bp->data); bwrite(bp); brelse(bp)]. *)
Definition write_block (n : Z) (f : block -> block) : M bio () :=
  i ← bread 1 n; bmodify i f;; bwrite i;; brelse i.

Lemma bread_first s n : binv s [] -> 0 <= n < c_disksize s -> pinned s n \/ (ndirty s < NBUF)%nat ->
  exists i b b', let s' := set_bufs (<[i := b']> (c_bufs s)) s in
    bread 1 n s = Ok i s' /\ c_bufs s !! i = Some b /\ binv s' [i] /\ c_bufs s' !! i = Some b' /\
    b_blockno b' = n /\ b_data b' = bview s n /\ (b_dirty b' = true <-> pinned s n) /\
    ndirty s' = ndirty s /\ (forall m, pinned s' m <-> pinned s m) /\ forall m, bview s' m = bview s m.
Proof.
  intros Hi Hn Hf. destruct (bread_run s [] n Hi) as (i & b & b' & H1 & Hb & _ & H2 & H3 & H4 & H5 & H6 & H7 & H8);
    [constructor|done|by intros ? ? ?%elem_of_nil|done|].
  exists i, b, b'. repeat (split; [done|]). split; [by apply set_bufs_at|]. done.
Qed.

Lemma read_block_run s n : binv s [] -> 0 <= n < c_disksize s -> pinned s n \/ (ndirty s < NBUF)%nat ->
  exists s', read_block n s = Ok (bview s n) s' /\ bstep s s' [] /\
    (forall m, pinned s' m <-> pinned s m) /\ forall m, bview s' m = bview s m.
Proof.
  intros Hi Hn Hf.
  destruct (bread_first s n Hi Hn Hf) as (i & b & b' & Hr & Hb & Hi1 & Hb1 & Hn1 & Hd1 & Hp1 & Hnd & Hpi & Hv1).
  set (s1 := set_bufs _ s) in *.
  destruct (brelse_run s1 [i] [] i b' Hi1) as (s2 & Hrel & Hi2 & _ & Ed & Ew & Es & End_ & Hp2 & Hv2).
  - by apply list_elem_of_singleton.
  - intros j. rewrite elem_of_nil, list_elem_of_singleton. tauto.
  - done.
  - destruct (b_dirty b') eqn:D; [by left|]. right. rewrite Hd1, Hn1.
    apply (bview_unpinned s [] n Hi); [rewrite <- Hp1; congruence|by intros ? ? ?%elem_of_nil].
  - exists s2. split.
    { unfold read_block. rewrite (Ok_bind _ _ _ _ _ Hr), (Ok_bind _ _ _ _ _ (bdata_run s1 i b' Hb1)).
      by rewrite (Ok_bind _ _ _ _ _ Hrel), Hd1. }
    split; [split; [done|by rewrite Ew, app_nil_r|done|done|lia]|].
    split; intros m; [by rewrite Hp2, Hpi|by rewrite Hv2, Hv1].
Qed.

Lemma write_block_run s n f : binv s [] -> 0 <= n < c_disksize s -> pinned s n \/ (ndirty s < NBUF)%nat ->
  let d := f (bview s n) in
  exists s', write_block n f s = Ok () s' /\ bstep s s' [(n, d)] /\
    (forall m, pinned s' m <-> pinned s m /\ m <> n) /\
    forall m, bview s' m = if decide (m = n) then d else bview s m.
Proof.
  intros Hi Hn Hf d.
  destruct (bread_first s n Hi Hn Hf) as (i & b & b' & Hr & Hb & Hi1 & Hb1 & Hn1 & Hd1 & _ & Hnd & Hpi & Hv1).
  set (s1 := set_bufs _ s) in *. assert (i ∈ [i]) as Hin by (by apply list_elem_of_singleton).
  destruct (bmodify_run s1 [i] i b' f Hi1 Hin Hb1) as (Hm & Hi2 & Hnd2 & Hp2 & Hv2).
  set (s2 := set_bufs _ s1) in *. assert (c_bufs s2 !! i = Some (set_data (f (b_data b')) b')) as Hb2 by (apply set_bufs_at; eauto).
  destruct (bwrite_run s2 [i] i _ Hi2 Hin Hb2) as (s3 & Hw & Hi3 & Eb3 & Ed3 & Ew3 & Es3 & Hnd3 & Hp3 & Hv3).
  cbn [set_data b_blockno b_data] in *. rewrite Hn1, Hd1 in *. fold d in Ed3, Ew3, Hv2.
  destruct (brelse_run s3 [i] [] i (set_flags true false (set_data (f (bview s n)) b')) Hi3 Hin)
    as (s4 & Hrel & Hi4 & _ & Ed4 & Ew4 & Es4 & Hnd4 & Hp4 & Hv4).
  - intros j. rewrite elem_of_nil, list_elem_of_singleton. tauto.
  - rewrite Eb3. apply list_lookup_insert_eq. by eapply lookup_lt_Some.
  - right. cbn. rewrite Ed3, Hn1. unfold disk_block. by rewrite lookup_insert_eq.
  - exists s4. split.
    { unfold write_block. by rewrite (Ok_bind _ _ _ _ _ Hr), (Ok_bind _ _ _ _ _ Hm), (Ok_bind _ _ _ _ _ Hw). }
    split; [split|split].
    + done.
    + by rewrite Ew4, Ew3.
    + by rewrite Ed4, Ed3.
    + by rewrite Es4, Es3.
    + lia.
    + intros m. by rewrite Hp4, Hp3, Hp2, Hpi.
    + intros m. rewrite Hv4, Hv3, Hv2. case_decide; [done|apply Hv1].
Qed.

(** ** The cache as a plain store *)

Inductive bop := OpRead (n : Z) | OpWrite (n : Z) (d : block).

Definition cache_run (o : bop) : M bio (option block) :=
  match o with
  | OpRead n => d ← read_block n; mret (Some d)
  | OpWrite n d => write_block n (fun _ => d);; mret None
  end.
Fixpoint cache_runs (ops : list bop) : M bio (list (option block)) :=
  match ops with
  | [] => mret []
  | o :: ops => r ← cache_run o; rs ← cache_runs ops; mret (r :: rs)
  end.

(** A disk without a cache. *)
Definition disk_run (o : bop) (d : gmap Z block) : option block * gmap Z block :=
  match o with
  | OpRead n => (Some (disk_block d n), d)
  | OpWrite n b => (None, <[n := b]> d)
  end.
Fixpoint disk_runs (ops : list bop) (d : gmap Z block) : list (option block) * gmap Z block :=
  match ops with
  | [] => ([], d)
  | o :: ops => let '(r, d) := disk_run o d in let '(rs, d) := disk_runs ops d in (r :: rs, d)
  end.

Definition bop_ok (size : Z) (o : bop) : Prop :=
  match o with OpRead n | OpWrite n _ => 0 <= n < size end.

Lemma cache_runs_disk ops : forall s, binv s [] -> ndirty s = 0%nat ->
  Forall (bop_ok (c_disksize s)) ops -> let '(rs, d') := disk_runs ops (c_disk s) in
  exists s', cache_runs ops s = Ok rs s' /\ c_disk s' = d' /\ binv s' [].
Proof.
  induction ops as [|o ops IH]; intros s Hi Hnd Hops; cbn [disk_runs cache_runs]; [by exists s|].
  apply Forall_cons in Hops as [Ho Hops].
  assert (forall m, ~ pinned s m) as Hnp.
  { intros m (i & b & Hb & D & _). unfold ndirty in Hnd. apply nil_length_inv in Hnd.
    assert (b ∈ filter (fun b => b_dirty b = true) (c_bufs s)) as Hin; [|by rewrite Hnd in Hin; apply elem_of_nil in Hin].
    apply list_elem_of_filter. split; [done|]. by eapply list_elem_of_lookup_2. }
  assert (exists r s1, cache_run o s = Ok r s1 /\ disk_run o (c_disk s) = (r, c_disk s1) /\ binv s1 [] /\ ndirty s1 = 0%nat /\
    c_disksize s1 = c_disksize s) as (r & s1 & Hc & Ha & Hi1 & Hnd1 & Hsz).
  { destruct o as [n|n d]; cbn [cache_run disk_run].
    - destruct (read_block_run s n Hi Ho) as (s1 & Hr & [? ? Ed Es Hl] & _ & _); [right; rewrite Hnd; apply Nat.leb_le; done|].
      exists (Some (bview s n)), s1. rewrite (Ok_bind _ _ _ _ _ Hr). split; [done|]. simpl in Ed. rewrite Ed.
      rewrite (bview_unpinned s [] n Hi); [|apply Hnp|by intros ? ? ?%elem_of_nil]. split_and!; try done. lia.
    - destruct (write_block_run s n (fun _ => d) Hi Ho) as (s1 & Hr & [? ? Ed Es Hl] & _ & _); [right; rewrite Hnd; apply Nat.leb_le; done|].
      exists None, s1. rewrite (Ok_bind _ _ _ _ _ Hr). split; [done|]. simpl in Ed. rewrite Ed. split_and!; try done. lia. }
  rewrite Ha. specialize (IH s1 Hi1 Hnd1). rewrite Hsz in IH. specialize (IH Hops).
  destruct (disk_runs ops (c_disk s1)) as [rs d'] eqn:E. destruct IH as (s2 & Hr2 & Hd2 & Hi2).
  exists s2. by rewrite (Ok_bind _ _ _ _ _ Hc), (Ok_bind _ _ _ _ _ Hr2).
Qed.

Lemma binit_inv disk size : binv (binit disk size) [].
Proof.
  assert (forall i b, c_bufs (binit disk size) !! i = Some b -> b = empty_buf) as He.
  { intros i b Hb. by apply lookup_replicate in Hb as [-> _]. }
  split.
  - done.
  - cbn [binit c_lru]. by rewrite <- Permutation_rev.
  - by intros i b _ ?%elem_of_nil.
  - by intros i b ->%He _.
  - by intros i j b b' ->%He.
  - by intros i b ->%He.
  - by intros i b ->%He.
  - by intros i b ->%He.
Qed.

(** The buffer cache is invisible: from [binit], any sequence of whole-block
    reads and writes through [bread], [bwrite] and [brelse] returns what the
    same sequence returns on the bare disk, and leaves the same disk.  In
    particular no access runs out of buffers, whatever the order in which the
    30 buffers are recycled. *)
Theorem bcache_refines (disk : gmap Z block) (size : Z) (ops : list bop) :
  Forall (bop_ok size) ops ->
  exists s', cache_runs ops (binit disk size) = Ok (disk_runs ops disk).1 s' /\ c_disk s' = (disk_runs ops disk).2.
Proof.
  intros Hops. pose proof (cache_runs_disk ops (binit disk size) (binit_inv disk size) eq_refl Hops) as H.
  cbn [binit c_disk] in H. destruct (disk_runs ops disk) as [rs d']. destruct H as (s' & ? & ? & _). by exists s'.
Qed.

Lemma bcache_refines_witness :
  exists s', cache_runs [OpWrite 5 [1; 2]; OpRead 5; OpRead 6] (binit ∅ 1000)
    = Ok [None; Some [1; 2]; Some zero_block] s' /\ c_disk s' = <[5 := [1; 2]]> ∅.
Proof.
  destruct (bcache_refines ∅ 1000 [OpWrite 5 [1; 2]; OpRead 5; OpRead 6]) as (s' & H1 & H2).
  - repeat constructor; simpl; lia.
  - exists s'. rewrite H1, H2. split; [vm_compute; reflexivity|reflexivity].
Defined.
