(* ===== verification/Log.v ===== *)
(** * The write-ahead log ([log.c])

    A transaction's blocks are pinned in the cache; [commit] copies them to the
    log, writes the header, copies them home and clears the header.  A crash
    keeps the disk as the block writes so far left it; [recover_from_log] runs
    at the next boot. *)

From S2P Require Import Prelude Bytes Bio.

Definition MAXOPBLOCKS : Z := 10.
Definition LOGSIZE : Z := 30.

(** [struct log]; the device is always [ROOTDEV]. *)
Record log := Log {
  lg_start : Z;
  lg_size : Z;
  lg_outstanding : Z;
  lg_committing : bool;
  lg_n : Z;              (* lh.n *)
  lg_block : list Z;     (* lh.block *)
}.

Record lfs := LFS { l_bio : bio; l_log : log }.

Definition set_bio (b : bio) (s : lfs) : lfs := LFS b (l_log s).
Definition set_log (l : log) (s : lfs) : lfs := LFS (l_bio s) l.
Definition onbio {A} (m : M bio A) : M lfs A := zoom l_bio set_bio m.

Definition set_head (n : Z) (bs : list Z) (l : log) : log :=
  Log (lg_start l) (lg_size l) (lg_outstanding l) (lg_committing l) n bs.
Definition set_ops (o : Z) (c : bool) (l : log) : log :=
  Log (lg_start l) (lg_size l) o c (lg_n l) (lg_block l).

(** [struct superblock] at the start of block 1. *)
Record superblock := SB {
  sb_size : Z; sb_nblocks : Z; sb_ninodes : Z; sb_nlog : Z; sb_logstart : Z; sb_inodestart : Z; sb_bmapstart : Z;
}.
Definition decode_sb (d : block) : superblock :=
  SB (get32 d 0) (get32 d 4) (get32 d 8) (get32 d 12) (get32 d 16) (get32 d 20) (get32 d 24).

Definition readsb : M bio superblock :=
  bp ← bread ROOTDEV 1; d ← bdata bp; brelse bp;; mret (decode_sb d).

(** Copy block [src] over block [dst], in the order of [write_log] ... *)
Definition log_copy (dst src : Z) : M bio () :=
  to ← bread ROOTDEV dst;
  from ← bread ROOTDEV src;
  d ← bdata from;
  bmodify to (fun _ => d);;
  bwrite to;;
  brelse from;;
  brelse to.
(** ... and in that of [install_trans]. *)
Definition home_copy (dst src : Z) : M bio () :=
  lbuf ← bread ROOTDEV src;
  dbuf ← bread ROOTDEV dst;
  d ← bdata lbuf;
  bmodify dbuf (fun _ => d);;
  bwrite dbuf;;
  brelse lbuf;;
  brelse dbuf.

(** [log.lh.block[tail]], an array of [LOGSIZE]. *)
Definition lh_block (tail : Z) : M lfs Z :=
  s ← get;
  match lg_block (l_log s) !! Z.to_nat tail with Some b => mret b | None => fault tail end.

Definition install_trans : M lfs () :=
  s ← get;
  forM (seqZ 0 (lg_n (l_log s))) (fun tail =>
    b ← lh_block tail;
    onbio (home_copy b (lg_start (l_log s) + tail + 1))).

Definition write_log : M lfs () :=
  s ← get;
  forM (seqZ 0 (lg_n (l_log s))) (fun tail =>
    b ← lh_block tail;
    onbio (log_copy (lg_start (l_log s) + tail + 1) b)).

(** [struct logheader] on disk: [n], then the block numbers. *)
Definition decode_head (d : block) : Z * list Z :=
  let n := s32 (get32 d 0) in
  (n, (fun i => s32 (get32 d (4 + 4 * i))) <$> seqZ 0 n).
Fixpoint put_blocks (d : block) (i : Z) (bs : list Z) : block :=
  match bs with [] => d | b :: bs' => put_blocks (put32 d (4 + 4 * i) b) (i + 1) bs' end.
Definition encode_head (n : Z) (bs : list Z) (d : block) : block :=
  put_blocks (put32 d 0 n) 0 (take (Z.to_nat n) bs).

(** More entries than [LOGSIZE] would be written past [log.lh.block]. *)
Definition read_head : M lfs () :=
  s ← get;
  bp ← onbio (bread ROOTDEV (lg_start (l_log s)));
  d ← onbio (bdata bp);
  let '(n, bs) := decode_head d in
  if LOGSIZE <? n then fault n else
  modify (fun s => set_log (set_head n (bs ++ drop (length bs) (lg_block (l_log s))) (l_log s)) s);;
  onbio (brelse bp).

Definition write_head : M lfs () :=
  s ← get;
  bp ← onbio (bread ROOTDEV (lg_start (l_log s)));
  onbio (bmodify bp (encode_head (lg_n (l_log s)) (lg_block (l_log s))));;
  onbio (bwrite bp);;
  onbio (brelse bp).

Definition clear_n : M lfs () := modify (fun s => set_log (set_head 0 (lg_block (l_log s)) (l_log s)) s).

Definition recover_from_log : M lfs () :=
  read_head;;
  install_trans;;
  clear_n;;
  write_head.

Definition initlog : M lfs () :=
  sb ← onbio readsb;
  modify (fun s => set_log (Log (sb_logstart sb) (sb_nlog sb) (lg_outstanding (l_log s)) (lg_committing (l_log s))
                              (lg_n (l_log s)) (lg_block (l_log s))) s);;
  recover_from_log.

(** [begin_op]: sleeps while a commit runs or the log might not have room. *)
Definition begin_op : M lfs () :=
  s ← get;
  let l := l_log s in
  if lg_committing l then blocked else
  if LOGSIZE <? lg_n l + (lg_outstanding l + 1) * MAXOPBLOCKS then blocked else
  put (set_log (set_ops (lg_outstanding l + 1) false l) s).

Definition commit : M lfs () :=
  s ← get;
  when (0 <? lg_n (l_log s)) (
    write_log;;
    write_head;;
    install_trans;;
    clear_n;;
    write_head).

Definition end_op : M lfs () :=
  s ← get;
  let l := l_log s in
  let o := lg_outstanding l - 1 in
  if lg_committing l then panic "log.committing" else
  if o =? 0 then
    put (set_log (set_ops o true l) s);;
    commit;;
    modify (fun s => set_log (set_ops (lg_outstanding (l_log s)) false (l_log s)) s)
  else put (set_log (set_ops o false l) s).

(** [log_write(b)] for the buffer in slot [i]. *)
Definition log_write (i : nat) : M lfs () :=
  s ← get;
  let l := l_log s in
  if (LOGSIZE <=? lg_n l) || (lg_size l - 1 <=? lg_n l) then panic "too big a transaction" else
  if lg_outstanding l <? 1 then panic "log_write outside of trans" else
  b ← onbio (buf_at i);
  let k := find_index (fun n => n =? b_blockno b) (take (Z.to_nat (lg_n l)) (lg_block l)) in
  let k := default (Z.to_nat (lg_n l)) k in
  put (set_log (set_head (if (Z.of_nat k =? lg_n l) then lg_n l + 1 else lg_n l)
                  (<[k := b_blockno b]> (lg_block l)) l) s);;
  onbio (upd_buf i (set_flags (b_valid b) true)).

(** ** Headers *)

Lemma put_blocks_spec bs : forall d i, 0 <= i -> 4 + 4 * (i + Z.of_nat (length bs)) <= Z.of_nat (length d) ->
  length (put_blocks d i bs) = length d /\
  (forall o, 0 <= o -> o + 4 <= 4 + 4 * i -> get32 (put_blocks d i bs) o = get32 d o) /\
  (forall k b, bs !! k = Some b -> get32 (put_blocks d i bs) (4 + 4 * (i + Z.of_nat k)) = u32 b).
Proof.
  induction bs as [|b bs IH]; intros d i Hi Hl; cbn [put_blocks]; [done|]. cbn [length] in Hl.
  destruct (IH (put32 d (4 + 4 * i) b) (i + 1)) as (L & B & A); [lia|rewrite put32_length; lia|].
  rewrite put32_length in L. split; [done|]. split.
  - intros o Ho Ho'. rewrite B by lia. apply get32_put32_ne; lia.
  - intros [|k] b' Hk; simpl in Hk.
    + injection Hk as <-. rewrite Z.add_0_r, B by lia. apply get32_put32; lia.
    + rewrite <- (A k b' Hk). f_equal. lia.
Qed.

Lemma s32_u32 z : is_s32 z -> s32 (u32 z) = z.
Proof. intros Hz. unfold s32. rewrite u32_idem. fold (s32 z). by apply s32_small. Qed.

Lemma decode_encode n bs d : length d = 512%nat -> 0 <= n <= LOGSIZE -> (Z.to_nat n <= length bs)%nat -> Forall is_s32 bs ->
  length (encode_head n bs d) = 512%nat /\ decode_head (encode_head n bs d) = (n, take (Z.to_nat n) bs).
Proof.
  intros Hd Hn Hbs Hs. unfold LOGSIZE in Hn.
  destruct (put_blocks_spec (take (Z.to_nat n) bs) (put32 d 0 n) 0) as (L & B & A);
    [done|rewrite put32_length, length_take, Hd; lia|].
  rewrite put32_length in L. split; [unfold encode_head; by rewrite L|].
  unfold decode_head, encode_head. rewrite B by lia. rewrite get32_put32 by lia. rewrite s32_u32 by (unfold is_s32; lia).
  f_equal. apply list_eq. intros k. rewrite list_lookup_fmap.
  destruct (decide (k < Z.to_nat n)%nat) as [Hk|Hk].
  - rewrite lookup_seqZ_lt by lia. cbn [fmap option_fmap option_map].
    destruct (lookup_lt_is_Some_2 (take (Z.to_nat n) bs) k) as [b Hb]; [rewrite length_take; lia|].
    rewrite Hb. f_equal. rewrite (A k b Hb). apply s32_u32. rewrite Forall_forall in Hs. apply Hs.
    rewrite lookup_take_Some in Hb. destruct Hb as [Hb _]. by eapply list_elem_of_lookup_2.
  - rewrite lookup_seqZ_ge by lia. rewrite lookup_ge_None_2; [done|]. rewrite length_take. lia.
Qed.

(** ** Copying a block *)

Definition copy_held (dst src : nat) : M bio () :=
  d ← bdata src; bmodify dst (fun _ => d);; bwrite dst;; brelse src;; brelse dst.

Lemma copy_held_run s held kd ks bd bsrc : binv s held -> (forall j, j ∈ held <-> j = kd \/ j = ks) -> kd <> ks ->
  c_bufs s !! kd = Some bd -> c_bufs s !! ks = Some bsrc ->
  b_dirty bsrc = true \/ b_data bsrc = disk_block (c_disk s) (b_blockno bsrc) ->
  exists s', copy_held kd ks s = Ok () s' /\ bstep s s' [(b_blockno bd, b_data bsrc)] /\
    (forall m, pinned s' m <-> pinned s m /\ m <> b_blockno bd) /\
    forall m, bview s' m = if decide (m = b_blockno bd) then b_data bsrc else bview s m.
Proof.
  intros Hi Hheld Hne Hbd Hbs Hsrc. assert (kd ∈ held) as Hid by (apply Hheld; auto). assert (ks ∈ held) as His by (apply Hheld; auto).
  assert (b_blockno bsrc <> b_blockno bd) as Hnn.
  { intros E. apply Hne. destruct (bi_held _ _ Hi kd bd Hbd Hid) as (_ & _ & V1), (bi_held _ _ Hi ks bsrc Hbs His) as (_ & _ & V2).
    eapply (bi_uniq _ _ Hi); eauto; by eapply (bi_valid _ _ Hi). }
  set (f := fun _ : block => b_data bsrc).
  destruct (bmodify_run s held kd bd f Hi Hid Hbd) as (Hm & Hi1 & Nd1 & Hp1 & Hv1).
  set (s1 := set_bufs _ s) in *. unfold f in Hv1.
  assert (c_bufs s1 !! kd = Some (set_data (b_data bsrc) bd)) as Hb1 by (apply set_bufs_at; eauto).
  destruct (bwrite_run s1 held kd _ Hi1 Hid Hb1) as (s2 & Hw & Hi2 & Eb2 & Ed2 & Ew2 & Es2 & Nd2 & Hp2 & Hv2).
  cbn [set_data b_blockno b_data] in *.
  destruct (brelse_run s2 held [kd] ks bsrc Hi2 His) as (s3 & Hr3 & Hi3 & Eb3 & Ed3 & Ew3 & Es3 & Nd3 & Hp3 & Hv3).
  { intros j. rewrite list_elem_of_singleton, Hheld. split; [intros ->; auto|]. intros [[->| ->] ?]; done. }
  { rewrite Eb2. cbn [s1 set_bufs c_bufs]. by rewrite !list_lookup_insert_ne. }
  { destruct Hsrc as [|Hsrc]; [by left|]. right. rewrite Hsrc, Ed2. unfold disk_block. by rewrite lookup_insert_ne. }
  destruct (brelse_run s3 [kd] [] kd (set_flags true false (set_data (b_data bsrc) bd)) Hi3)
    as (s4 & Hr4 & Hi4 & _ & Ed4 & Ew4 & Es4 & Nd4 & Hp4 & Hv4).
  { by apply list_elem_of_singleton. }
  { intros j. rewrite elem_of_nil, list_elem_of_singleton. tauto. }
  { rewrite Eb3, Eb2, list_lookup_insert_ne by done. apply list_lookup_insert_eq. cbn [s1 set_bufs c_bufs].
    rewrite length_insert. by eapply lookup_lt_Some. }
  { right. cbn. rewrite Ed3, Ed2. unfold disk_block. by rewrite lookup_insert_eq. }
  exists s4. split.
  { unfold copy_held. rewrite (Ok_bind _ _ _ _ _ (bdata_run s ks bsrc Hbs)), (Ok_bind _ _ _ _ _ Hm).
    by rewrite (Ok_bind _ _ _ _ _ Hw), (Ok_bind _ _ _ _ _ Hr3). }
  split; [split|split].
  - done.
  - by rewrite Ew4, Ew3, Ew2.
  - by rewrite Ed4, Ed3, Ed2.
  - by rewrite Es4, Es3, Es2.
  - lia.
  - intros m. by rewrite Hp4, Hp3, Hp2, Hp1.
  - intros m. by rewrite Hv4, Hv3, Hv2, Hv1.
Qed.

(** Two blocks read in a row. *)
Lemma bread_two s n1 n2 : binv s [] -> 0 <= n1 < c_disksize s -> 0 <= n2 < c_disksize s -> n1 <> n2 ->
  (ndirty s < NBUF)%nat -> pinned s n2 \/ (1 + ndirty s < NBUF)%nat ->
  exists i1 i2 b1 b2 s', i1 <> i2 /\ binv s' [i2; i1] /\ c_bufs s' !! i1 = Some b1 /\ c_bufs s' !! i2 = Some b2 /\
    b_blockno b1 = n1 /\ b_blockno b2 = n2 /\ b_data b1 = bview s n1 /\ b_data b2 = bview s n2 /\
    (b_dirty b1 = true \/ b_data b1 = disk_block (c_disk s') n1) /\
    (b_dirty b2 = true \/ b_data b2 = disk_block (c_disk s') n2) /\
    c_disk s' = c_disk s /\ c_writes s' = c_writes s /\ c_disksize s' = c_disksize s /\ ndirty s' = ndirty s /\
    (forall m, pinned s' m <-> pinned s m) /\ (forall m, bview s' m = bview s m) /\
    forall A (k : nat -> nat -> M bio A), (x ← bread 1 n1; y ← bread 1 n2; k x y) s = k i1 i2 s'.
Proof.
  intros Hi Hn1 Hn2 Hne Hf1 Hf2.
  destruct (bread_first s n1 Hi Hn1 (or_intror Hf1)) as (i1 & b0 & b1 & Hr1 & Hb0 & Hi1 & Hb1 & N1 & D1 & P1 & Nd1 & Hp1 & Hv1).
  set (s1 := set_bufs _ s) in *.
  destruct (bread_run s1 [i1] n2 Hi1) as (i2 & b0' & b2 & Hr2 & Hb0' & Hni & Hi2 & N2 & D2 & P2 & Nd2 & Hp2 & Hv2).
  { apply NoDup_singleton. } { done. }
  { intros i b ->%list_elem_of_singleton Hb. congruence. }
  { rewrite Hp1, Nd1. simpl. tauto. }
  assert (i1 <> i2) as Hii by (intros ->; apply Hni; by apply list_elem_of_singleton).
  assert (forall n b, (b_dirty b = true <-> pinned s n) -> b_data b = bview s n ->
    b_dirty b = true \/ b_data b = disk_block (c_disk s) n) as Hcl.
  { intros n b Hp Hd. destruct (b_dirty b) eqn:D; [by left|]. right. rewrite Hd. apply (bview_unpinned s [] n Hi).
    - rewrite <- Hp. congruence.
    - by intros ? ? ?%elem_of_nil. }
  eexists i1, i2, b1, b2, _. split; [done|]. split; [exact Hi2|].
  split; [cbn [set_bufs c_bufs]; rewrite list_lookup_insert_ne by done; exact Hb1|].
  split; [by apply set_bufs_at|]. repeat (split; [first [done|by rewrite D2, Hv1]|]).
  split; [by apply Hcl|]. split; [apply Hcl; [by rewrite P2, Hp1|by rewrite D2, Hv1]|].
  repeat (split; [done|]). split; [lia|]. split; [intros m; by rewrite Hp2, Hp1|].
  split; [intros m; by rewrite Hv2, Hv1|]. intros A k.
  by rewrite (Ok_bind _ _ _ _ _ Hr1), (Ok_bind _ _ _ _ _ Hr2).
Qed.

Lemma log_copy_run s dst src : binv s [] -> 0 <= dst < c_disksize s -> 0 <= src < c_disksize s -> dst <> src ->
  (ndirty s < NBUF)%nat -> pinned s src \/ (1 + ndirty s < NBUF)%nat ->
  exists s', log_copy dst src s = Ok () s' /\ bstep s s' [(dst, bview s src)] /\
    (forall m, pinned s' m <-> pinned s m /\ m <> dst) /\
    forall m, bview s' m = if decide (m = dst) then bview s src else bview s m.
Proof.
  intros Hi Hd Hs Hne Hf1 Hf2.
  destruct (bread_two s dst src Hi Hd Hs Hne Hf1 Hf2) as (i1 & i2 & b1 & b2 & s1 & Hii & Hi1 & Hb1 & Hb2 & N1 & N2 & D1 & D2 & C1 & C2 & Ed & Ew & Es & End_ & Hp & Hv & Hrun).
  destruct (copy_held_run s1 [i2; i1] i1 i2 b1 b2 Hi1) as (s2 & Hc & [? W' D' S' ?] & Hp2 & Hv2); try done.
  { intros j. rewrite elem_of_cons, list_elem_of_singleton. tauto. }
  { by rewrite N2. }
  exists s2. unfold log_copy. change ROOTDEV with 1. rewrite Hrun. split; [exact Hc|]. rewrite N1, D2 in *.
  split; [split; [done|by rewrite W', Ew|by rewrite D', Ed|by rewrite S'|lia]|].
  split; intros m; [by rewrite Hp2, Hp|]. rewrite Hv2. by case_decide.
Qed.

Lemma home_copy_run s dst src : binv s [] -> 0 <= dst < c_disksize s -> 0 <= src < c_disksize s -> dst <> src ->
  (ndirty s < NBUF)%nat -> pinned s dst \/ (1 + ndirty s < NBUF)%nat ->
  exists s', home_copy dst src s = Ok () s' /\ bstep s s' [(dst, bview s src)] /\
    (forall m, pinned s' m <-> pinned s m /\ m <> dst) /\
    forall m, bview s' m = if decide (m = dst) then bview s src else bview s m.
Proof.
  intros Hi Hd Hs Hne Hf1 Hf2.
  destruct (bread_two s src dst Hi Hs Hd (not_eq_sym Hne) Hf1 Hf2) as (i1 & i2 & b1 & b2 & s1 & Hii & Hi1 & Hb1 & Hb2 & N1 & N2 & D1 & D2 & C1 & C2 & Ed & Ew & Es & End_ & Hp & Hv & Hrun).
  destruct (copy_held_run s1 [i2; i1] i2 i1 b2 b1 Hi1) as (s2 & Hc & [? W' D' S' ?] & Hp2 & Hv2); try done.
  { intros j. rewrite elem_of_cons, list_elem_of_singleton. tauto. }
  { by rewrite N1. }
  exists s2. unfold home_copy. change ROOTDEV with 1. rewrite Hrun. split; [exact Hc|]. rewrite N2, D1 in *.
  split; [split; [done|by rewrite W', Ew|by rewrite D', Ed|by rewrite S'|lia]|].
  split; intros m; [by rewrite Hp2, Hp|]. rewrite Hv2. by case_decide.
Qed.

(** ** The loops of commit *)

(** A store seen as a function, after a sequence of block writes. *)
Definition after (W : list (Z * block)) (v : Z -> block) (m : Z) : block :=
  foldl (fun d w => if decide (m = w.1) then w.2 else d) (v m) W.

Lemma after_app W1 W2 v m : after (W1 ++ W2) v m = after W2 (after W1 v) m.
Proof. unfold after. by rewrite foldl_app. Qed.

Lemma after_ext W v v' m : v m = v' m -> after W v m = after W v' m.
Proof. unfold after. by intros ->. Qed.

Lemma after_disk W d m : disk_block (apply_writes W d) m = after W (disk_block d) m.
Proof.
  revert d. induction W as [|[n b] W IH]; intros d; [done|]. change (apply_writes ((n, b) :: W) d) with (apply_writes W (<[n := b]> d)).
  rewrite IH. unfold after. cbn [foldl fst snd]. f_equal. unfold disk_block. rewrite lookup_insert.
  case_decide as E1; case_decide as E2; congruence || done.
Qed.

Lemma after_notin W v m : m ∉ W.*1 -> after W v m = v m.
Proof.
  revert v. induction W as [|[n b] W IH]; intros v Hm; [done|]. rewrite fmap_cons, not_elem_of_cons in Hm.
  destruct Hm as [Hne Hm]. change ((n, b) :: W) with ([(n, b)] ++ W). rewrite after_app, IH by done.
  unfold after. simpl. by rewrite decide_False.
Qed.

Lemma after_zip ns ds v k n d : NoDup ns -> ns !! k = Some n -> ds !! k = Some d -> after (zip ns ds) v n = d.
Proof.
  revert ds v k. induction ns as [|n0 ns IH]; intros [|d0 ds] v [|k] Hnd Hn Hd; simplify_eq/=; apply NoDup_cons in Hnd as [Hni Hnd].
  - change ((n, d) :: zip ns ds) with ([(n, d)] ++ zip ns ds). rewrite after_app, after_notin.
    + unfold after. simpl. by rewrite decide_True.
    + intros Hin. apply Hni. apply list_elem_of_fmap in Hin as ([n' d'] & -> & Hin). by apply elem_of_zip_l in Hin.
  - change ((n0, d0) :: zip ns ds) with ([(n0, d0)] ++ zip ns ds). rewrite after_app. by apply (IH ds _ k).
Qed.

Lemma onbio_Ok {A} (m : M bio A) st a b : m (l_bio st) = Ok a b -> onbio m st = Ok a (set_bio b st).
Proof. intros E. unfold onbio, zoom. by rewrite E. Qed.

Lemma lh_block_Ok st tail b : 0 <= tail -> lg_block (l_log st) !! Z.to_nat tail = Some b -> lh_block tail st = Ok b st.
Proof. intros Ht E. unfold lh_block. erewrite Ok_bind by reflexivity. by rewrite E. Qed.

(** The blocks of the log's area, from its header on. *)
Definition in_log (l : log) (m : Z) : Prop := lg_start l <= m < lg_start l + lg_size l.

Section loops.
Context (l : log).

Lemma write_log_loop bs : forall st i, l_log st = l -> binv (l_bio st) [] -> 0 <= i ->
  (forall k b, bs !! k = Some b -> lg_block l !! (Z.to_nat i + k)%nat = Some b) ->
  (forall b, b ∈ bs -> 0 <= b < c_disksize (l_bio st) /\ ~ in_log l b /\ pinned (l_bio st) b) ->
  0 <= lg_start l -> lg_start l + lg_size l <= c_disksize (l_bio st) ->
  i + Z.of_nat (length bs) < lg_size l -> (forall m, in_log l m -> ~ pinned (l_bio st) m) ->
  (ndirty (l_bio st) < NBUF)%nat ->
  let W := zip (seqZ (lg_start l + i + 1) (Z.of_nat (length bs))) (bview (l_bio st) <$> bs) in
  exists s', forM (seqZ i (Z.of_nat (length bs))) (fun tail => b ← lh_block tail; onbio (log_copy (lg_start l + tail + 1) b)) st
      = Ok () (set_bio s' st) /\ bstep (l_bio st) s' W /\
    (forall m, pinned s' m <-> pinned (l_bio st) m) /\ forall m, bview s' m = after W (bview (l_bio st)) m.
Proof.
  induction bs as [|b bs IH]; intros st i Hl Hi Hi0 Hlk Hbs Hs0 Hs1 Hlen Hnp Hnd; cbn zeta.
  { exists (l_bio st). simpl. split; [by destruct st|]. split; [|done].
    split; [done|by rewrite app_nil_r|done|done|lia]. }
  cbn [length] in *. rewrite !(seqZ_cons _ (Z.of_nat (S (length bs)))) by lia.
  replace (Z.pred (Z.of_nat (S (length bs)))) with (Z.of_nat (length bs)) by lia.
  cbn [forM]. set (a := lg_start l + i + 1).
  destruct (Hbs b) as (Hb1 & Hb2 & Hb3); [apply list_elem_of_here|].
  assert (in_log l a) as Ha by (unfold in_log, a; lia).
  destruct (log_copy_run (l_bio st) a b Hi) as (s1 & Hr & Hst & Hp1 & Hv1);
    [unfold a; lia|done|intros ->; done|done|by left|].
  assert ((b ← lh_block i; onbio (log_copy (lg_start l + i + 1) b)) st = Ok () (set_bio s1 st)) as Hhead.
  { rewrite (Ok_bind _ _ st b st); [by apply onbio_Ok|]. apply lh_block_Ok; [done|]. rewrite Hl.
    rewrite <- (Nat.add_0_r (Z.to_nat i)). by apply Hlk. }
  rewrite (Ok_bind _ _ _ _ _ Hhead).
  assert (forall m, pinned s1 m <-> pinned (l_bio st) m) as Hp1'.
  { intros m. rewrite Hp1. split; [by intros []|]. intros Hm. split; [done|]. intros ->. by apply (Hnp a). }
  destruct (IH (set_bio s1 st) (Z.succ i)) as (s2 & Hr2 & Hst2 & Hp2 & Hv2); cbn [l_bio l_log set_bio]; try done.
  - apply Hst.
  - lia.
  - intros k b' Hk. rewrite <- (Hlk (S k) b' Hk). f_equal. lia.
  - intros b' Hb'. rewrite (bs_size _ _ _ Hst). rewrite Hp1'. apply Hbs. apply elem_of_cons. by right.
  - by rewrite (bs_size _ _ _ Hst).
  - lia.
  - intros m Hm. rewrite Hp1'. by apply Hnp.
  - pose proof (bs_nd _ _ _ Hst). lia.
  - cbn [l_bio set_bio] in *.
    assert (bview s1 <$> bs = bview (l_bio st) <$> bs) as Ev.
    { apply list_fmap_ext. intros k b' Hk. rewrite Hv1, decide_False; [done|]. intros ->.
      apply (Hbs a); [|done]. apply elem_of_cons. right. by eapply list_elem_of_lookup_2. }
    rewrite Ev in Hst2, Hv2.
    replace (lg_start l + Z.succ i + 1) with (Z.succ a) in * by (unfold a; lia).
    exists s2. split; [exact Hr2|]. rewrite fmap_cons. cbn [zip zip_with].
    change ((a, bview (l_bio st) b) :: ?W) with ([(a, bview (l_bio st) b)] ++ W).
    split; [by eapply bstep_trans|]. split; [intros m; by rewrite Hp2|].
    intros m. rewrite Hv2, after_app. apply after_ext. rewrite Hv1. unfold after. simpl. by case_decide.
Qed.

Lemma install_loop bs : forall ds st i, l_log st = l -> binv (l_bio st) [] -> 0 <= i ->
  (forall k b, bs !! k = Some b -> lg_block l !! (Z.to_nat i + k)%nat = Some b) -> length ds = length bs ->
  (forall k d, ds !! k = Some d -> bview (l_bio st) (lg_start l + i + Z.of_nat k + 1) = d) ->
  (forall b, b ∈ bs -> 0 <= b < c_disksize (l_bio st) /\ ~ in_log l b) ->
  0 <= lg_start l -> lg_start l + lg_size l <= c_disksize (l_bio st) -> i + Z.of_nat (length bs) < lg_size l ->
  (ndirty (l_bio st) < NBUF)%nat -> (1 + ndirty (l_bio st) < NBUF)%nat \/ (NoDup bs /\ forall b, b ∈ bs -> pinned (l_bio st) b) ->
  let W := zip bs ds in
  exists s', forM (seqZ i (Z.of_nat (length bs))) (fun tail => b ← lh_block tail; onbio (home_copy b (lg_start l + tail + 1))) st
      = Ok () (set_bio s' st) /\ bstep (l_bio st) s' W /\
    (forall m, pinned s' m <-> pinned (l_bio st) m /\ m ∉ bs) /\ forall m, bview s' m = after W (bview (l_bio st)) m.
Proof.
  induction bs as [|b bs IH]; intros [|d ds] st i Hl Hi Hi0 Hlk Hds Hd Hbs Hs0 Hs1 Hlen Hnd Hpin; try done; cbn zeta.
  { exists (l_bio st). simpl. split; [by destruct st|]. split; [split; [done|by rewrite app_nil_r|done|done|lia]|].
    split; [|done]. intros m. rewrite elem_of_nil. tauto. }
  cbn [length] in *. rewrite !(seqZ_cons _ (Z.of_nat (S (length bs)))) by lia.
  replace (Z.pred (Z.of_nat (S (length bs)))) with (Z.of_nat (length bs)) by lia.
  cbn [forM]. set (a := lg_start l + i + 1).
  destruct (Hbs b) as (Hb1 & Hb2); [apply list_elem_of_here|].
  assert (in_log l a) as Ha by (unfold in_log, a; lia).
  assert (bview (l_bio st) a = d) as Ed.
  { rewrite <- (Hd 0%nat d eq_refl). f_equal. unfold a. lia. }
  destruct (home_copy_run (l_bio st) b a Hi) as (s1 & Hr & Hst & Hp1 & Hv1);
    [done|unfold a; lia|intros ->; done|done|..].
  { destruct Hpin as [?|[_ Hpin]]; [by right|left]. apply Hpin, list_elem_of_here. }
  rewrite Ed in Hst, Hv1.
  assert ((b ← lh_block i; onbio (home_copy b (lg_start l + i + 1))) st = Ok () (set_bio s1 st)) as Hhead.
  { rewrite (Ok_bind _ _ st b st); [by apply onbio_Ok|]. apply lh_block_Ok; [done|]. rewrite Hl.
    rewrite <- (Nat.add_0_r (Z.to_nat i)). by apply Hlk. }
  rewrite (Ok_bind _ _ _ _ _ Hhead). pose proof (bs_nd _ _ _ Hst) as Hnd1.
  destruct (IH ds (set_bio s1 st) (Z.succ i)) as (s2 & Hr2 & Hst2 & Hp2 & Hv2); cbn [l_bio l_log set_bio]; try done.
  - apply Hst.
  - lia.
  - intros k b' Hk. rewrite <- (Hlk (S k) b' Hk). f_equal. lia.
  - lia.
  - intros k d' Hk. rewrite Hv1, decide_False.
    + rewrite <- (Hd (S k) d' Hk). f_equal. lia.
    + intros <-. apply Hb2. apply lookup_lt_Some in Hk. unfold in_log. lia.
  - intros b' Hb'. rewrite (bs_size _ _ _ Hst). apply Hbs. apply elem_of_cons. by right.
  - by rewrite (bs_size _ _ _ Hst).
  - lia.
  - lia.
  - destruct Hpin as [?|[Hdup Hpin]]; [left; lia|right]. apply NoDup_cons in Hdup as [Hnb Hdup]. split; [done|].
    intros b' Hb'. rewrite Hp1. split; [|congruence]. apply Hpin, elem_of_cons. by right.
  - cbn [l_bio set_bio] in *. exists s2. split; [exact Hr2|]. cbn [zip zip_with].
    change ((b, d) :: zip bs ds) with ([(b, d)] ++ zip bs ds). split; [by eapply bstep_trans|]. split.
    + intros m. rewrite Hp2, Hp1, not_elem_of_cons. tauto.
    + intros m. rewrite Hv2, after_app. apply after_ext. rewrite Hv1. unfold after. simpl. by case_decide.
Qed.
End loops.
