(* ===== verification/Txn.v ===== *)
(** * Transactions as their callers see them

    The invariant of cache and log between calls, and what [bread], an update
    under [log_write] and [brelse] do to the blocks' contents: the rules by
    which the file system's operations are verified. *)

From S2P Require Import Prelude Bytes Bio Log.

(** The blocks of the running transaction. *)
Definition txn_blocks (l : log) : list Z := take (Z.to_nat (lg_n l)) (lg_block l).

(** Between the steps of the file system's operations, with the buffers
    [held] in use: the dirty buffers are the transaction's blocks. *)
Record linv (st : lfs) (held : list nat) : Prop := {
  li_inv : binv (l_bio st) held;
  li_held : NoDup held;
  li_agree : forall i b, i ∈ held -> c_bufs (l_bio st) !! i = Some b ->
    b_dirty b = true \/ b_data b = disk_block (c_disk (l_bio st)) (b_blockno b);
  li_n : 0 <= lg_n (l_log st) < lg_size (l_log st);
  li_size : lg_size (l_log st) <= LOGSIZE;
  li_len : length (lg_block (l_log st)) = 30%nat;
  li_area : 0 <= lg_start (l_log st) /\ lg_start (l_log st) + lg_size (l_log st) <= c_disksize (l_bio st);
  li_width : c_disksize (l_bio st) < 2147483648;
  li_dup : NoDup (txn_blocks (l_log st));
  li_home : forall b, b ∈ txn_blocks (l_log st) -> 0 <= b < c_disksize (l_bio st) /\ ~ in_log (l_log st) b;
  li_pin : forall m, pinned (l_bio st) m <-> m ∈ txn_blocks (l_log st);
  li_bufs : Z.of_nat (ndirty (l_bio st)) <= lg_n (l_log st);
}.

(** What block [m] holds for every process. *)
Definition view (st : lfs) (m : Z) : block := bview (l_bio st) m.

(** Steps that reach no disk, with the updates [W] to the contents. *)
Record lstep (st st' : lfs) (W : list (Z * block)) : Prop := {
  ls_view : forall m, view st' m = after W (view st) m;
  ls_disk : c_disk (l_bio st') = c_disk (l_bio st);
  ls_writes : c_writes (l_bio st') = c_writes (l_bio st);
  ls_dsize : c_disksize (l_bio st') = c_disksize (l_bio st);
  ls_log : exists bs, l_log st' = set_head (lg_n (l_log st')) bs (l_log st);
  ls_n : lg_n (l_log st) <= lg_n (l_log st') <= lg_n (l_log st) + Z.of_nat (length W);
  ls_blocks : forall m, m ∈ txn_blocks (l_log st') <-> m ∈ txn_blocks (l_log st) \/ m ∈ W.*1;
}.

(** Buffer [i] is the one of block [n]. *)
Definition holds (st : lfs) (i : nat) (n : Z) : Prop :=
  exists b, c_bufs (l_bio st) !! i = Some b /\ b_blockno b = n.

Lemma txn_length st held : linv st held -> Z.of_nat (length (txn_blocks (l_log st))) = lg_n (l_log st).
Proof.
  intros Ht. unfold txn_blocks. rewrite length_take, (li_len _ _ Ht). pose proof (li_n _ _ Ht).
  pose proof (li_size _ _ Ht). unfold LOGSIZE in *. lia.
Qed.

Lemma lstep_refl st : lstep st st [].
Proof.
  split; try done; [|simpl; lia|intros m; rewrite elem_of_nil; tauto].
  exists (lg_block (l_log st)). by destruct (l_log st).
Qed.

Lemma lstep_trans st1 st2 st3 W1 W2 : lstep st1 st2 W1 -> lstep st2 st3 W2 -> lstep st1 st3 (W1 ++ W2).
Proof.
  intros [A1 A2 A3 A4 [a A5] A6 A7] [B1 B2 B3 B4 [b B5] B6 B7]. split; try congruence.
  - intros m. rewrite B1, after_app. by apply after_ext.
  - exists b. rewrite B5 at 1. rewrite A5. done.
  - rewrite length_app. lia.
  - intros m. rewrite B7, A7, fmap_app, elem_of_app. tauto.
Qed.

(** Only the cache changes, not what it shows. *)
Lemma lstep_bio st s : (forall m, bview s m = bview (l_bio st) m) -> c_disk s = c_disk (l_bio st) ->
  c_writes s = c_writes (l_bio st) -> c_disksize s = c_disksize (l_bio st) -> lstep st (set_bio s st) [].
Proof.
  intros Hv Hd Hw Hs. split; try done; [|simpl; lia|intros m; rewrite elem_of_nil; simpl; tauto].
  exists (lg_block (l_log st)). simpl. by destruct (l_log st).
Qed.

Section rules.
Implicit Types st : lfs.

Lemma bread_l st held n : linv st held -> 0 <= n < c_disksize (l_bio st) -> (forall i, i ∈ held -> ~ holds st i n) ->
  Z.of_nat (length held) + lg_n (l_log st) < Z.of_nat NBUF ->
  exists i st', onbio (bread ROOTDEV n) st = Ok i st' /\ (i ∉ held) /\ linv st' (i :: held) /\ lstep st st' [] /\
    l_log st' = l_log st /\ holds st' i n /\ forall j m, j ∈ held -> holds st j m -> holds st' j m.
Proof.
  intros Hi Hn Hh Hroom. pose proof (li_bufs _ _ Hi) as Hb.
  destruct (bread_run (l_bio st) held n (li_inv _ _ Hi) (li_held _ _ Hi) Hn) as (i & b & b' & Hr & Hbi & Hni & Hi' & Nb & Db & Pb & Nd & Hp & Hv).
  { intros i b Hin Hbi E. apply (Hh i Hin). by exists b. }
  { right. lia. }
  exists i, (set_bio (set_bufs (<[i := b']> (c_bufs (l_bio st))) (l_bio st)) st).
  split; [by apply onbio_Ok|]. split; [done|]. split.
  { split; cbn [set_bio l_bio l_log set_bufs c_disk c_disksize c_bufs] in *; try apply Hi; try done.
    - constructor; [done|apply Hi].
    - intros j bj Hj [(<- & <- & _)|[Hne Hbj]]%list_lookup_insert_Some.
      + destruct (b_dirty b') eqn:D; [by left|right]. rewrite Db, Nb. apply (bview_unpinned _ held n (li_inv _ _ Hi)).
        * rewrite <- Pb. congruence.
        * intros j bj Hin Hbj E. apply (Hh j Hin). by exists bj.
      + apply elem_of_cons in Hj as [->|Hj]; [done|]. by apply (li_agree _ _ Hi j).
    - intros m. rewrite Hp. apply (li_pin _ _ Hi).
    - rewrite Nd. done. }
  split; [by apply lstep_bio|]. split; [done|]. split.
  - exists b'. split; [|done]. by apply set_bufs_at.
  - intros j m Hj (bj & Hbj & E). exists bj. split; [|done]. cbn. rewrite list_lookup_insert_ne; [done|]. congruence.
Qed.

Lemma bdata_l st held i n : linv st held -> i ∈ held -> holds st i n -> onbio (bdata i) st = Ok (view st n) st.
Proof.
  intros Hi Hin (b & Hb & <-). rewrite (onbio_Ok _ _ _ _ (bdata_run _ _ _ Hb)).
  destruct (bi_held _ _ (li_inv _ _ Hi) i b Hb Hin) as (_ & _ & V). unfold view.
  rewrite (bview_cached _ held i b (li_inv _ _ Hi) Hb V). by destruct st.
Qed.

Lemma brelse_l st held i n : linv st (i :: held) -> holds st i n -> exists st', onbio (brelse i) st = Ok () st' /\ linv st' held /\
  lstep st st' [] /\ l_log st' = l_log st /\ forall j m, j ∈ held -> holds st j m -> holds st' j m.
Proof.
  intros Hi (b & Hb & _). pose proof (li_held _ _ Hi) as [Hni Hnd]%NoDup_cons.
  assert (i ∈ i :: held) as Hin by apply list_elem_of_here.
  destruct (brelse_run (l_bio st) (i :: held) held i b (li_inv _ _ Hi) Hin) as (s' & Hr & Hi' & Eb & Ed & Ew & Es & End_ & Hp & Hv); [|done|..].
  { intros j. rewrite elem_of_cons. split; [intros Hj; split; [by right|congruence]|]. by intros [[->|?] ?]. }
  { by apply (li_agree _ _ Hi i). }
  exists (set_bio s' st). split; [by apply onbio_Ok|]. split.
  { split; cbn [set_bio l_bio l_log] in *; rewrite ?Ed, ?Es, ?End_; try apply Hi; try done.
    - intros j bj Hj Hbj. rewrite Eb, list_lookup_insert_ne in Hbj by congruence. apply (li_agree _ _ Hi j); [by right|done].
    - intros m. rewrite Hp. apply (li_pin _ _ Hi). }
  split; [by apply lstep_bio|]. split; [done|]. intros j m Hj (bj & Hbj & E). exists bj. split; [|done].
  cbn [set_bio l_bio]. rewrite Eb, list_lookup_insert_ne; [done|congruence].
Qed.

(** The buffer marked dirty, after [log_write] found or made its entry. *)
Lemma ndirty_mark s i b b' : c_bufs s !! i = Some b ->
  (ndirty (set_bufs (<[i := b']> (c_bufs s)) s) <= S (ndirty s))%nat.
Proof.
  intros Hb. unfold ndirty. cbn [set_bufs c_bufs]. revert i Hb. induction (c_bufs s) as [|x l IH]; [done|].
  intros [|i] Hb; simpl in Hb; cbn [insert list_insert]; rewrite !filter_cons.
  - injection Hb as ->. destruct (decide _), (decide _); cbn [length]; lia.
  - specialize (IH i Hb). destruct (decide _); cbn [length]; [apply le_n_S|]; exact IH.
Qed.

Lemma pinned_mark s i b b' m : c_bufs s !! i = Some b -> b_dirty b' = true -> b_blockno b' = b_blockno b ->
  pinned (set_bufs (<[i := b']> (c_bufs s)) s) m <-> pinned s m \/ m = b_blockno b.
Proof.
  intros Hb Hd Hn. unfold pinned. cbn [set_bufs c_bufs]. split.
  - intros (j & bj & [(<- & -> & _)|[_ Hj]]%list_lookup_insert_Some & D & E); [right; congruence|left; by exists j, bj].
  - intros [(j & bj & Hj & D & E)| ->].
    + destruct (decide (i = j)) as [<-|]; [|exists j, bj; by rewrite list_lookup_insert_ne].
      exists i, b'. rewrite list_lookup_insert_eq by (by eapply lookup_lt_Some). split_and!; congruence.
    + exists i, b'. rewrite list_lookup_insert_eq by (by eapply lookup_lt_Some). done.
Qed.

(** The table of blocks after [log_write] of block [n]. *)
Definition enter (l : log) (n : Z) : log :=
  let k := default (Z.to_nat (lg_n l)) (find_index (fun m => m =? n) (txn_blocks l)) in
  set_head (if Z.of_nat k =? lg_n l then lg_n l + 1 else lg_n l) (<[k := n]> (lg_block l)) l.

Lemma enter_spec l n : 0 <= lg_n l < 30 -> length (lg_block l) = 30%nat -> NoDup (txn_blocks l) ->
  NoDup (txn_blocks (enter l n)) /\ (forall m, m ∈ txn_blocks (enter l n) <-> m ∈ txn_blocks l \/ m = n) /\
  length (lg_block (enter l n)) = 30%nat /\ lg_n (enter l n) = (if decide (n ∈ txn_blocks l) then lg_n l else lg_n l + 1).
Proof.
  intros Hn Hl Hd. unfold enter. destruct (find_index _ _) as [k|] eqn:E; cbn [default from_option id].
  - pose proof (find_index_lt _ _ _ E) as Hk. apply find_index_Some in E as [(x & Hx & Ex%Z.eqb_eq) _]. subst x.
    unfold txn_blocks in Hk. rewrite length_take in Hk. destruct (Z.eqb_spec (Z.of_nat k) (lg_n l)) as [|_]; [lia|].
    assert (<[k := n]> (lg_block l) = lg_block l) as ->.
    { apply list_insert_id. by apply lookup_take_Some in Hx as [Hx _]. }
    assert (n ∈ txn_blocks l) as Hin by (by eapply list_elem_of_lookup_2). rewrite decide_True by done.
    cbn [set_head lg_n lg_block]. unfold txn_blocks in *. cbn [set_head lg_n lg_block]. split; [done|]. split; [|done].
    intros m. split; [by left|]. by intros [| ->].
  - assert (n ∉ txn_blocks l) as Hni.
    { intros [k Hk]%list_elem_of_lookup. rewrite find_index_None in E. specialize (E k n Hk). rewrite Z.eqb_refl in E. done. }
    rewrite decide_False by done. destruct (Z.eqb_spec (Z.of_nat (Z.to_nat (lg_n l))) (lg_n l)) as [_|]; [|lia].
    cbn [set_head lg_n lg_block].
    assert (txn_blocks (set_head (lg_n l + 1) (<[Z.to_nat (lg_n l) := n]> (lg_block l)) l) = txn_blocks l ++ [n]) as ->.
    { unfold txn_blocks. cbn [set_head lg_n lg_block]. replace (Z.to_nat (lg_n l + 1)) with (S (Z.to_nat (lg_n l))) by lia.
      rewrite (take_S_r _ _ n) by (apply list_lookup_insert_eq; lia). by rewrite take_insert_ge by lia. }
    split; [apply NoDup_app; split; [done|]; split; [|apply NoDup_singleton]|].
    { intros m Hm ->%list_elem_of_singleton. done. }
    split; [|by rewrite length_insert]. intros m. rewrite elem_of_app, list_elem_of_singleton. done.
Qed.

Lemma log_write_Ok st i b : c_bufs (l_bio st) !! i = Some b -> lg_n (l_log st) < LOGSIZE ->
  lg_n (l_log st) < lg_size (l_log st) - 1 -> 1 <= lg_outstanding (l_log st) ->
  log_write i st = Ok () (LFS (set_bufs (<[i := set_flags (b_valid b) true b]> (c_bufs (l_bio st))) (l_bio st)) (enter (l_log st) (b_blockno b))).
Proof.
  intros Hb H1 H2 H3. unfold log_write. erewrite Ok_bind by reflexivity.
  destruct (Z.leb_spec LOGSIZE (lg_n (l_log st))); [lia|]. destruct (Z.leb_spec (lg_size (l_log st) - 1) (lg_n (l_log st))); [lia|].
  destruct (Z.ltb_spec (lg_outstanding (l_log st)) 1); [lia|]. cbn [orb].
  rewrite (Ok_bind _ _ _ _ _ (onbio_Ok _ _ _ _ (buf_at_Ok _ _ _ Hb))). erewrite Ok_bind by reflexivity.
  exact (onbio_Ok _ (set_log _ st) _ _ (upd_buf_Ok _ _ _ _ Hb)).
Qed.

(** [bp->data = f(bp->data); log_write(bp)]. *)
Lemma update_l st held i n f : linv st held -> i ∈ held -> holds st i n -> ~ in_log (l_log st) n ->
  lg_n (l_log st) < lg_size (l_log st) - 1 -> 1 <= lg_outstanding (l_log st) ->
  exists st', (onbio (bmodify i f);; log_write i) st = Ok () st' /\ linv st' held /\ lstep st st' [(n, f (view st n))] /\
    forall j m, holds st j m -> holds st' j m.
Proof.
  intros Hi Hin (b & Hb & Nb) Hnl Hroom Hout. pose proof (li_n _ _ Hi) as Hn. pose proof (li_size _ _ Hi) as Hsz. unfold LOGSIZE in Hsz.
  destruct (bi_held _ _ (li_inv _ _ Hi) i b Hb Hin) as (Lb & Rb & Vb).
  destruct (bi_valid _ _ (li_inv _ _ Hi) i b Hb Vb) as [_ Hrng].
  destruct (bmodify_run (l_bio st) held i b f (li_inv _ _ Hi) Hin Hb) as (Hm & Hi1 & Nd1 & Hp1 & Hv1).
  set (b1 := set_data (f (b_data b)) b) in *. set (s1 := set_bufs _ (l_bio st)) in *.
  assert (c_bufs s1 !! i = Some b1) as Hb1 by (apply set_bufs_at; eauto).
  set (b2 := set_flags true true b1).
  destruct (held_insert s1 held i b1 b2 Hi1 Hin Hb1) as [Hi2 Hv2]; try done. set (s2 := set_bufs (<[i := b2]> (c_bufs s1)) s1) in *.
  destruct (enter_spec (l_log st) n) as (Ed & Ein & El & En); [lia|apply Hi|apply Hi|].
  assert (b_data b = view st n) as Eview.
  { rewrite <- Nb. symmetry. by apply (bview_cached _ held i b (li_inv _ _ Hi)). }
  assert (forall m, pinned s2 m <-> pinned (l_bio st) m \/ m = n) as Hp2.
  { intros m. unfold s2. rewrite (pinned_mark s1 i b1 b2 m Hb1) by done. rewrite Hp1. cbn. by rewrite Nb. }
  exists (LFS s2 (enter (l_log st) n)). split; [|split; [|split]].
  - rewrite (Ok_bind _ _ _ _ _ (onbio_Ok _ _ _ _ Hm)). rewrite (log_write_Ok _ i b1); cbn [set_bio l_bio l_log]; try (unfold LOGSIZE; lia); [|done].
    unfold s2, b2. cbn. by rewrite Vb, Nb.
  - split; cbn [l_bio l_log]; cbn [s2 s1 set_bufs c_disksize c_disk]; try done; try apply Hi.
    + intros j bj Hj [(<- & <- & _)|[Hne Hbj]]%list_lookup_insert_Some; [by left|].
      cbn in Hbj. rewrite list_lookup_insert_ne in Hbj by done. by apply (li_agree _ _ Hi j).
    + rewrite En. change (lg_size (enter (l_log st) n)) with (lg_size (l_log st)). case_decide; lia.
    + intros m [Hm'| ->]%Ein; [by apply (li_home _ _ Hi)|]. split; [by rewrite <- Nb|exact Hnl].
    + intros m. rewrite Hp2, Ein, (li_pin _ _ Hi). done.
    + pose proof (li_bufs _ _ Hi) as Hbb. rewrite En. case_decide as Hn'.
      * assert (ndirty s2 = ndirty (l_bio st)) as ->; [|done]. rewrite <- Nd1. apply (ndirty_insert s1 i b1); [done|].
        apply (li_pin _ _ Hi) in Hn' as (j & bj & Hbj & Dj & Ej). assert (j = i) as ->.
        { eapply (bi_uniq _ _ (li_inv _ _ Hi)); eauto; [| |congruence].
          - eapply (bi_valid _ _ (li_inv _ _ Hi)); eauto. by eapply (bi_dirty _ _ (li_inv _ _ Hi)).
          - eapply (bi_valid _ _ (li_inv _ _ Hi)); eauto. }
        assert (bj = b) as -> by congruence. cbn. congruence.
      * pose proof (ndirty_mark s1 i b1 b2 Hb1) as Hle. fold s2 in Hle. lia.
  - split; cbn [l_bio l_log s2 s1 set_bufs c_disk c_writes c_disksize]; try done.
    + intros m. unfold view. cbn [l_bio]. rewrite Hv2. cbn [b1 b2 set_data set_flags b_blockno b_data]. rewrite Hv1, Nb, Eview.
      unfold after. simpl. by repeat case_decide.
    + eexists. unfold enter. cbn [set_head lg_n]. reflexivity.
    + rewrite En. cbn [length]. case_decide; lia.
    + intros m. rewrite Ein. simpl. by rewrite list_elem_of_singleton.
  - intros j m (bj & Hbj & E). cbn [l_bio]. destruct (decide (i = j)) as [<-|Hne].
    + exists b2. split; [by apply set_bufs_at; eauto|]. cbn. congruence.
    + exists bj. split; [|done]. cbn. by rewrite !list_lookup_insert_ne.
Qed.
End rules.
