(* ===== verification/Crash.v ===== *)
(** * Transactions survive crashes

    The block writes of [commit] in order, the effect of recovery as a
    function of the disk, and the two together: whatever prefix of the writes
    reached the disk, recovery gives the old contents or the new. *)

From S2P Require Import Prelude Bytes Bio Log Txn.

(** ** Stores *)

Lemma after_in W v v' m : m ∈ W.*1 -> after W v m = after W v' m.
Proof.
  revert v v'. induction W as [|[n b] W IH]; intros v v' Hm; [by apply elem_of_nil in Hm|].
  change ((n, b) :: W) with ([(n, b)] ++ W). rewrite !after_app.
  destruct (decide (m ∈ W.*1)) as [Hin|Hni]; [by apply IH|].
  rewrite fmap_cons, elem_of_cons in Hm. destruct Hm as [->|Hm]; [|done].
  apply after_ext. unfold after. simpl. by rewrite !decide_True.
Qed.

Lemma fst_take {A B} k (W : list (A * B)) : (take k W).*1 = take k (W.*1).
Proof. apply fmap_take. Qed.

(** Writing a prefix first makes no difference. *)
Lemma after_redo W k v m : after W (after (take k W) v) m = after W v m.
Proof.
  destruct (decide (m ∈ W.*1)) as [Hin|Hni]; [by apply after_in|]. apply after_ext, after_notin.
  rewrite fst_take. intros Hm. by apply elem_of_take in Hm as (? & Hm%list_elem_of_lookup_2 & _).
Qed.

Lemma zip_fst (ns : list Z) (ds : list block) m : m ∈ (zip ns ds).*1 -> m ∈ ns.
Proof. intros ([n d] & -> & Hin)%list_elem_of_fmap. by apply elem_of_zip_l in Hin. Qed.

Lemma after_zip_notin (ns : list Z) ds v m : m ∉ ns -> after (zip ns ds) v m = v m.
Proof. intros Hm. apply after_notin. intros Hin. by eapply Hm, zip_fst. Qed.

(** Writing [f] at each of [ns]. *)
Lemma after_zip_map (ns : list Z) (f v : Z -> block) m : after (zip ns (f <$> ns)) v m = if decide (m ∈ ns) then f m else v m.
Proof.
  case_decide as Hm; [|by apply after_zip_notin].
  induction ns as [|n ns IH] in v, Hm |- *; [by apply elem_of_nil in Hm|].
  rewrite fmap_cons. cbn [zip zip_with]. change ((n, f n) :: ?W) with ([(n, f n)] ++ W). rewrite after_app.
  destruct (decide (m ∈ ns)) as [Hin|Hni]; [by apply IH|]. apply elem_of_cons in Hm as [->|]; [|done].
  rewrite after_zip_notin by done. unfold after. simpl. by rewrite decide_True.
Qed.

(** ** What recovery makes of a disk *)

Section area.
Context (start size : Z).

Definition logged (v : Z -> block) : list Z * list block :=
  let '(n, bs) := decode_head (v start) in (bs, (fun k => v (start + 1 + k)) <$> seqZ 0 n).

(** The disk's contents as recovery will leave them. *)
Definition pending (v : Z -> block) (m : Z) : block :=
  let '(bs, ds) := logged v in after (zip bs ds) v m.

Definition outside (m : Z) : Prop := ~ (start <= m < start + size).

Record head_ok (disksize : Z) (v : Z -> block) : Prop := {
  ho_len : length (v start) = 512%nat;
  ho_n : 0 <= fst (decode_head (v start)) <= LOGSIZE;
  ho_size : fst (decode_head (v start)) < size;
  ho_home : forall b, b ∈ snd (decode_head (v start)) -> 0 <= b < disksize /\ outside b;
}.

Definition recovery_writes (v : Z -> block) : list (Z * block) :=
  let '(bs, ds) := logged v in zip bs ds ++ [(start, put32 (v start) 0 0)].

Lemma logged_ext v v' : (forall m, start <= m < start + size -> v m = v' m) -> 0 < size ->
  fst (decode_head (v start)) < size -> logged v = logged v'.
Proof.
  intros Hv Hs Hn. unfold logged. rewrite <- (Hv start) by lia. destruct (decode_head (v start)) as [n bs]. simpl in Hn.
  f_equal. apply list_fmap_ext. intros i k [-> Hk]%lookup_seqZ. apply Hv. lia.
Qed.

Lemma head_ext disksize v v' : head_ok disksize v -> v start = v' start -> head_ok disksize v'.
Proof. intros [] E. split; by rewrite <- ?E. Qed.

Lemma decode_cleared d : length d = 512%nat -> decode_head (put32 d 0 0) = (0, []).
Proof.
  intros Hd. unfold decode_head. rewrite get32_put32 by (rewrite ?Hd; lia). done.
Qed.

Lemma pending_clear v m : fst (decode_head (v start)) = 0 -> pending v m = v m.
Proof.
  unfold pending, logged. destruct (decode_head (v start)) as [n bs]. simpl. intros ->. by destruct bs.
Qed.

(** After any prefix of recovery's writes, recovery is still to yield the
    same. *)
Lemma recovery_prefix disksize v j : 0 < size -> head_ok disksize v ->
  let v' := after (take j (recovery_writes v)) v in
  head_ok disksize v' /\ (forall b, b ∈ snd (decode_head (v' start)) -> b ∈ snd (decode_head (v start))) /\
  forall m, outside m -> pending v' m = pending v m.
Proof.
  intros Hs Hok. unfold recovery_writes. destruct (logged v) as [bs ds] eqn:El.
  assert (bs = snd (decode_head (v start))) as Ebs.
  { revert El. unfold logged. destruct (decode_head (v start)). by intros [= <- _]. }
  assert (forall m, start <= m < start + size -> m ∉ bs) as Hni.
  { intros m Hm Hin. rewrite Ebs in Hin. by apply (ho_home _ _ Hok) in Hin as [_ []]. }
  set (Z1 := zip bs ds). cbn zeta. destruct (decide (j <= length Z1)%nat) as [Hj|Hj].
  - rewrite take_app_le by done.
    assert (forall m, start <= m < start + size -> v m = after (take j Z1) v m) as Hin.
    { intros m Hm. symmetry. apply after_notin. rewrite fst_take. intros (? & Hx & _)%elem_of_take.
      apply (Hni m Hm). by eapply zip_fst, list_elem_of_lookup_2. }
    split; [eapply head_ext; [done|apply Hin; lia]|]. rewrite <- (Hin start) by lia. split; [done|]. intros m Hm. unfold pending.
    rewrite <- (logged_ext v) by (done || apply Hok). rewrite El. apply after_redo.
  - rewrite take_ge by (rewrite length_app; cbn [length]; lia).
    set (v' := after (Z1 ++ _) v). assert (v' start = put32 (v start) 0 0) as Ev.
    { unfold v'. rewrite after_app. unfold after. simpl. by rewrite decide_True. }
    assert (decode_head (v' start) = (0, [])) as Eh by (rewrite Ev; apply decode_cleared, Hok).
    split.
    + split; rewrite ?Eh; simpl; [rewrite Ev, put32_length; apply Hok|done|done|by intros ? ?%elem_of_nil].
    + rewrite Eh. split; [by intros ? ?%elem_of_nil|]. intros m Hm. rewrite pending_clear by (by rewrite Eh). unfold v', pending. rewrite El, after_app, after_notin; [done|].
      simpl. rewrite list_elem_of_singleton. intros ->. apply Hm. lia.
Qed.
End area.

(** ** Running the log's code *)

Lemma write_head_block st :
  write_head st = onbio (write_block (lg_start (l_log st)) (encode_head (lg_n (l_log st)) (lg_block (l_log st)))) st.
Proof.
  destruct st as [b l]. unfold write_head, write_block, onbio, zoom, get, mbind, M_bind, bindM.
  cbn [l_bio l_log set_bio]. change ROOTDEV with 1. destruct (bread 1 _ b) as [i b1| | | |]; try done.
  cbn [l_bio l_log set_bio]. destruct (bmodify i _ b1) as [[] b2| | | |]; try done.
  cbn [l_bio l_log set_bio]. destruct (bwrite i b2) as [[] b3| | | |]; done.
Qed.

Lemma write_head_run st : let s := l_bio st in let l := l_log st in
  binv s [] -> 0 <= lg_start l < c_disksize s -> (ndirty s < NBUF)%nat ->
  let d := encode_head (lg_n l) (lg_block l) (bview s (lg_start l)) in
  exists s', write_head st = Ok () (set_bio s' st) /\ bstep s s' [(lg_start l, d)] /\
    (forall m, pinned s' m <-> pinned s m /\ m <> lg_start l) /\
    forall m, bview s' m = if decide (m = lg_start l) then d else bview s m.
Proof.
  intros s l Hi Hs Hnd d. rewrite write_head_block.
  destruct (write_block_run s (lg_start l) (encode_head (lg_n l) (lg_block l)) Hi Hs (or_intror Hnd)) as (s' & Hr & Hst & Hp & Hv).
  exists s'. split; [|done]. by apply onbio_Ok.
Qed.

(** The in-memory header after [read_head]. *)
Definition load_head (l : log) (d : block) : log :=
  let '(n, bs) := decode_head d in set_head n (bs ++ drop (length bs) (lg_block l)) l.

Lemma read_head_run st : let s := l_bio st in let l := l_log st in
  binv s [] -> 0 <= lg_start l < c_disksize s -> (ndirty s < NBUF)%nat ->
  fst (decode_head (bview s (lg_start l))) <= LOGSIZE ->
  exists s', read_head st = Ok () (LFS s' (load_head l (bview s (lg_start l)))) /\ bstep s s' [] /\
    forall m, bview s' m = bview s m.
Proof.
  intros s l Hi Hs Hnd Hn.
  destruct (read_block_run s (lg_start l) Hi Hs (or_intror Hnd)) as (s' & Hr & Hst & _ & Hv).
  exists s'. split; [|done]. revert Hr. subst s l. destruct st as [s l]. cbn [l_bio l_log] in *.
  unfold read_head, read_block, load_head, onbio, zoom, get, modify, mbind, M_bind, bindM.
  cbn [l_bio l_log set_bio]. change ROOTDEV with 1. destruct (bread 1 (lg_start l) s) as [i s1| | | |]; try done.
  cbn [l_bio l_log set_bio]. destruct (bdata i s1) as [d s2| | | |]; try done. destruct (brelse i s2) as [[] s3| | | |] eqn:Er; try done.
  intros [= -> ->]. destruct (decode_head _) as [n bs]. simpl in Hn. destruct (Z.ltb_spec LOGSIZE n); [lia|].
  cbn [l_bio l_log set_bio set_log]. by rewrite Er.
Qed.

Lemma readsb_run s : binv s [] -> 1 < c_disksize s -> (ndirty s < NBUF)%nat ->
  exists s', readsb s = Ok (decode_sb (bview s 1)) s' /\ bstep s s' [] /\ forall m, bview s' m = bview s m.
Proof.
  intros Hi Hs Hnd. destruct (read_block_run s 1 Hi) as (s' & Hr & Hst & _ & Hv); [lia|by right|].
  exists s'. split; [|done]. revert Hr. unfold read_block, readsb, mbind, M_bind, bindM. change ROOTDEV with 1.
  destruct (bread 1 1 s) as [i s1| | | |]; try done. destruct (bdata i s1) as [d s2| | | |]; try done.
  destruct (brelse i s2) as [[] s3| | | |]; try done. by intros [= -> ->].
Qed.

(** A machine that has just booted on [disk]: an empty cache, a zeroed [log]. *)
Definition boot (disk : gmap Z block) (disksize : Z) : lfs :=
  LFS (binit disk disksize) (Log 0 0 0 false 0 (replicate 30 0)).

Lemma binit_ndirty disk disksize : ndirty (binit disk disksize) = 0%nat.
Proof. reflexivity. Qed.

Lemma bview_clean s m : binv s [] -> ndirty s = 0%nat -> bview s m = disk_block (c_disk s) m.
Proof.
  intros Hi Hnd. apply (bview_unpinned s [] m Hi); [|by intros ? ? ?%elem_of_nil].
  intros (i & b & Hb & Hd & _). unfold ndirty in Hnd. apply length_zero_iff_nil in Hnd.
  assert (b ∈ filter (fun b => b_dirty b = true) (c_bufs s)) as Hin.
  { apply list_elem_of_filter. split; [apply Hd|by eapply list_elem_of_lookup_2]. }
  rewrite Hnd in Hin. by apply elem_of_nil in Hin.
Qed.

Lemma load_head_blocks l d k b : snd (decode_head d) !! k = Some b -> lg_block (load_head l d) !! k = Some b.
Proof.
  unfold load_head. destruct (decode_head d) as [n bs]. simpl. intros Hk. by apply lookup_app_l_Some.
Qed.

Lemma decode_head_length d : 0 <= fst (decode_head d) -> Z.of_nat (length (snd (decode_head d))) = fst (decode_head d).
Proof. unfold decode_head. simpl. intros Hn. rewrite length_fmap, length_seqZ. lia. Qed.

Lemma bstep_seq s1 s2 s3 W1 W2 W : bstep s1 s2 W1 -> bstep s2 s3 W2 -> W = W1 ++ W2 -> bstep s1 s3 W.
Proof. intros H1 H2 ->. by eapply bstep_trans. Qed.

Lemma logged_eq start v : logged start v =
  (snd (decode_head (v start)), (fun k => v (start + 1 + k)) <$> seqZ 0 (fst (decode_head (v start)))).
Proof. unfold logged. by destruct (decode_head (v start)). Qed.

Lemma install_run st ds : let s := l_bio st in let l := l_log st in let bs := take (Z.to_nat (lg_n l)) (lg_block l) in
  binv s [] -> 0 <= lg_n l < lg_size l -> length bs = Z.to_nat (lg_n l) -> length ds = length bs ->
  (forall k d, ds !! k = Some d -> bview s (lg_start l + Z.of_nat k + 1) = d) ->
  (forall b, b ∈ bs -> 0 <= b < c_disksize s /\ ~ in_log l b) ->
  0 <= lg_start l -> lg_start l + lg_size l <= c_disksize s ->
  (ndirty s < NBUF)%nat -> (1 + ndirty s < NBUF)%nat \/ (NoDup bs /\ forall b, b ∈ bs -> pinned s b) ->
  exists s', install_trans st = Ok () (set_bio s' st) /\ bstep s s' (zip bs ds) /\
    (forall m, pinned s' m <-> pinned s m /\ m ∉ bs) /\ forall m, bview s' m = after (zip bs ds) (bview s) m.
Proof.
  intros s l bs Hi Hn Hlen Hds Hd Hbs Hs0 Hs1 Hnd Hpin.
  destruct (install_loop l bs ds st 0) as (s' & Hr & Hrest); try done.
  - intros k b Hk. apply lookup_take_Some in Hk as [Hk _]. exact Hk.
  - intros k d Hk. rewrite <- (Hd k d Hk). f_equal. lia.
  - lia.
  - exists s'. split; [|exact Hrest]. unfold install_trans. erewrite Ok_bind by reflexivity. fold l.
    replace (lg_n l) with (Z.of_nat (length bs)) by lia. exact Hr.
Qed.

Lemma recover_run st : let s := l_bio st in let l := l_log st in let v := bview s in
  binv s [] -> ndirty s = 0%nat -> 0 <= lg_start l -> 0 < lg_size l -> lg_start l + lg_size l <= c_disksize s ->
  head_ok (lg_start l) (lg_size l) (c_disksize s) v ->
  exists st', recover_from_log st = Ok () st' /\ bstep s (l_bio st') (recovery_writes (lg_start l) v) /\
    exists bs, l_log st' = set_head 0 bs l /\ (length (lg_block l) = 30%nat -> length bs = 30%nat).
Proof.
  intros s l v Hi Hnd Hs0 Hs1 Hs2 Hok. assert (0 < NBUF)%nat as HB by (unfold NBUF; lia).
  destruct (read_head_run st) as (s1 & Hr1 & Hst1 & Hv1); fold s l; [done|lia|lia|apply Hok|]. fold s l in Hr1, Hst1, Hv1. fold v in Hr1.
  set (n := fst (decode_head (v (lg_start l)))) in *. set (bs := snd (decode_head (v (lg_start l)))) in *.
  set (l1 := load_head l (v (lg_start l))) in *.
  pose proof (decode_head_length _ (proj1 (ho_n _ _ _ _ Hok))) as Elen. fold n bs in Elen.
  assert (lg_start l1 = lg_start l /\ lg_size l1 = lg_size l /\ lg_n l1 = n) as (Es1 & Ez1 & En1).
  { unfold l1, load_head, n. by destruct (decode_head (v (lg_start l))). }
  assert (take (Z.to_nat (lg_n l1)) (lg_block l1) = bs) as Ebs.
  { rewrite En1. unfold l1, load_head, bs, n in *. destruct (decode_head (v (lg_start l))) as [n0 bs0]. cbn [fst snd lg_block set_head] in *.
    apply take_app_length'. lia. }
  set (ds := (fun k => v (lg_start l + 1 + k)) <$> seqZ 0 n).
  pose proof (bs_nd _ _ _ Hst1) as Hnd1. pose proof (bs_size _ _ _ Hst1) as Hz1.
  assert (length ds = length bs) as Eds by (unfold ds; rewrite length_fmap, length_seqZ; lia).
  pose proof (ho_n _ _ _ _ Hok) as Hn. pose proof (ho_size _ _ _ _ Hok) as Hn'. fold n in Hn, Hn'.
  destruct (install_run (LFS s1 l1) ds) as (s2 & Hr2 & Hst2 & _ & Hv2); cbn [l_bio l_log]; rewrite ?Ebs, ?Es1, ?Ez1, ?En1, ?Hz1; try done.
  { apply Hst1. } { lia. } { lia. }
  { intros k d Hk. unfold ds in Hk. apply list_lookup_fmap_Some in Hk as (x & -> & Hx). apply lookup_seqZ in Hx as [-> _].
    rewrite Hv1. unfold v. f_equal. lia. }
  { intros b Hb. unfold in_log. rewrite Es1, Ez1. by apply (ho_home _ _ _ _ Hok). }
  { lia. } { left. unfold NBUF in *. lia. }
  cbn [l_bio l_log set_bio] in *. rewrite Ebs in *. set (l2 := set_head 0 (lg_block l1) l1).
  pose proof (bs_nd _ _ _ Hst2) as Hnd2. pose proof (bs_size _ _ _ Hst2) as Hz2.
  destruct (write_head_run (LFS s2 l2)) as (s3 & Hr3 & Hst3 & _); cbn [l_bio l_log l2 set_head lg_start];
    [apply Hst2|lia|lia|]. cbn [l_bio l_log l2 set_head lg_start lg_n lg_block] in *. rewrite Es1 in *.
  exists (LFS s3 l2). split.
  { unfold recover_from_log. rewrite (Ok_bind _ _ _ _ _ Hr1), (Ok_bind _ _ _ _ _ Hr2).
    unfold clear_n. by erewrite Ok_bind by reflexivity. }
  split; [cbn [l_bio]|].
  2: { assert (l1 = set_head n (bs ++ drop (length bs) (lg_block l)) l) as El1 by (unfold l1, load_head, n, bs; by destruct (decode_head (v (lg_start l)))).
    exists (lg_block l1). cbn [l_log l2]. rewrite El1. split; [done|]. intros Hl. cbn [set_head lg_block]. rewrite length_app, length_drop, Hl.
    unfold LOGSIZE in Hn. lia. }
  eapply bstep_seq; [|exact Hst3|].
  { eapply bstep_seq; [exact Hst1|exact Hst2|done]. }
  cbn [app]. unfold recovery_writes. rewrite logged_eq. fold n bs ds. do 4 f_equal.
  unfold encode_head. cbn [take put_blocks Z.to_nat]. f_equal. rewrite Hv2, after_zip_notin, Hv1; [done|].
  intros Hb. apply (ho_home _ _ _ _ Hok) in Hb as [_ Hb]. unfold outside in Hb. lia.
Qed.

Lemma pending_ext start v v' m : (forall x, v x = v' x) -> pending start v m = pending start v' m.
Proof.
  intros Hv. unfold pending. rewrite !logged_eq, <- (Hv start).
  assert (forall ks, (fun k => v (start + 1 + k)) <$> ks = (fun k => v' (start + 1 + k)) <$> ks) as ->; [|by apply after_ext].
  intros ks. apply list_fmap_ext. intros i k _. apply Hv.
Qed.

Lemma recovery_writes_ext start v v' : (forall m, v m = v' m) -> recovery_writes start v = recovery_writes start v'.
Proof.
  intros Hv. unfold recovery_writes. rewrite !logged_eq, <- (Hv start). do 2 f_equal.
  apply list_fmap_ext. intros i k _. apply Hv.
Qed.

(** The geometry the superblock gives. *)
Definition log_at (start size disksize : Z) (v : Z -> block) : Prop :=
  sb_logstart (decode_sb (v 1)) = start /\ sb_nlog (decode_sb (v 1)) = size /\
  1 < start /\ 0 < size /\ start + size <= disksize.

Lemma initlog_at s start size : binv s [] -> ndirty s = 0%nat -> log_at start size (c_disksize s) (bview s) ->
  head_ok start size (c_disksize s) (bview s) ->
  exists st' bs, initlog (LFS s (Log 0 0 0 false 0 (replicate 30 0))) = Ok () st' /\ bstep s (l_bio st') (recovery_writes start (bview s)) /\
    l_log st' = Log start size 0 false 0 bs /\ length bs = 30%nat.
Proof.
  intros Hi Hnd (Es & Ez & H1 & H2 & H3) Hok. destruct (readsb_run s Hi) as (s1 & Hr1 & Hst1 & Hv1); [lia|rewrite Hnd; by apply Nat.ltb_lt|].
  set (l1 := Log start size 0 false 0 (replicate 30 0)). pose proof (bs_size _ _ _ Hst1) as Hz1. pose proof (bs_nd _ _ _ Hst1) as Hnd1.
  destruct (recover_run (LFS s1 l1)) as (st' & Hr2 & Hst2 & bs & Hl2 & Hlen2); cbn [l_bio l_log l1 lg_start lg_size]; rewrite ?Hz1; try done.
  - apply Hst1.
  - lia.
  - lia.
  - eapply head_ext; [exact Hok|]. by rewrite Hv1.
  - cbn [l_bio l_log l1 lg_start] in *. exists st', bs. split; [|split; [|split; [done|by apply Hlen2]]].
    + unfold initlog. rewrite (Ok_bind _ _ _ _ _ (onbio_Ok _ (LFS s _) _ _ Hr1)). erewrite Ok_bind by reflexivity. rewrite Es, Ez. exact Hr2.
    + rewrite (recovery_writes_ext _ (bview s) (bview s1)) by (intros m; by rewrite Hv1). by eapply bstep_seq; [exact Hst1|exact Hst2|].
Qed.

Lemma initlog_run disk disksize start size :
  log_at start size disksize (disk_block disk) -> head_ok start size disksize (disk_block disk) ->
  exists st', initlog (boot disk disksize) = Ok () st' /\
    c_writes (l_bio st') = recovery_writes start (disk_block disk) /\
    c_disk (l_bio st') = apply_writes (recovery_writes start (disk_block disk)) disk.
Proof.
  intros Hat Hok. set (s := binit disk disksize). assert (binv s []) as Hi by apply binit_inv.
  assert (forall m, bview s m = disk_block disk m) as Hv by (intros m; by apply bview_clean).
  destruct (initlog_at s start size) as (st' & bs & E & Hst & _); [done|done| | |].
  - unfold log_at. rewrite Hv. exact Hat.
  - eapply head_ext; [exact Hok|]. by rewrite Hv.
  - exists st'. split; [exact E|]. rewrite (bs_writes _ _ _ Hst), (bs_disk _ _ _ Hst). rewrite (recovery_writes_ext _ (bview s) (disk_block disk)) by done. done.
Qed.

(** ** Commit *)

(** A transaction ready to commit: its blocks are dirty in the cache, distinct
    and outside the log; nothing of the log is. *)
Record txn_ok (st : lfs) : Prop := {
  tx_inv : binv (l_bio st) [];
  tx_n : 0 < lg_n (l_log st) <= LOGSIZE;
  tx_room : lg_n (l_log st) < lg_size (l_log st);
  tx_len : length (lg_block (l_log st)) = 30%nat;
  tx_area : 0 <= lg_start (l_log st) /\ lg_start (l_log st) + lg_size (l_log st) <= c_disksize (l_bio st);
  tx_width : c_disksize (l_bio st) < 2147483648;
  tx_dup : NoDup (txn_blocks (l_log st));
  tx_home : forall b, b ∈ txn_blocks (l_log st) ->
    0 <= b < c_disksize (l_bio st) /\ ~ in_log (l_log st) b /\ pinned (l_bio st) b;
  tx_clean : forall m, in_log (l_log st) m -> ~ pinned (l_bio st) m;
  tx_bufs : (ndirty (l_bio st) < NBUF)%nat;
}.

Lemma linv_txn st : linv st [] -> 0 < lg_n (l_log st) -> txn_ok st.
Proof.
  intros Hi Hn. pose proof (li_n _ _ Hi). pose proof (li_size _ _ Hi). pose proof (li_bufs _ _ Hi).
  split; try apply Hi; try lia.
  - intros b Hb. destruct (li_home _ _ Hi b Hb). split; [done|]. split; [done|]. by apply (li_pin _ _ Hi).
  - intros m Hm Hp%(li_pin _ _ Hi). by apply (li_home _ _ Hi) in Hp as [_ ?].
  - unfold LOGSIZE, NBUF in *. lia.
Qed.

Lemma txn_ok_length st : txn_ok st -> Z.of_nat (length (txn_blocks (l_log st))) = lg_n (l_log st).
Proof.
  intros Ht. unfold txn_blocks. rewrite length_take, (tx_len _ Ht). pose proof (tx_n _ Ht). unfold LOGSIZE in *. lia.
Qed.

(** The block writes of [commit], in order. *)
Definition log_writes (l : log) (v : Z -> block) : list (Z * block) :=
  zip (seqZ (lg_start l + 1) (lg_n l)) (v <$> txn_blocks l).
Definition home_writes (l : log) (v : Z -> block) : list (Z * block) := zip (txn_blocks l) (v <$> txn_blocks l).
Definition commit_head (l : log) (v : Z -> block) : block := encode_head (lg_n l) (lg_block l) (v (lg_start l)).
Definition commit_writes (l : log) (v : Z -> block) : list (Z * block) :=
  log_writes l v ++ [(lg_start l, commit_head l v)] ++ home_writes l v ++ [(lg_start l, put32 (commit_head l v) 0 0)].

Lemma write_log_run st : txn_ok st -> let s := l_bio st in let l := l_log st in
  exists s', write_log st = Ok () (set_bio s' st) /\ bstep s s' (log_writes l (bview s)) /\
    (forall m, pinned s' m <-> pinned s m) /\ forall m, bview s' m = after (log_writes l (bview s)) (bview s) m.
Proof.
  intros [Hi Hn Hr Hl [Ha Ha'] Hw Hd Hh Hc Hb] s l. fold s l in Hi, Hn, Hr, Hl, Ha, Ha', Hw, Hd, Hh, Hc, Hb.
  assert (Z.of_nat (length (txn_blocks l)) = lg_n l) as En.
  { unfold txn_blocks. rewrite length_take. unfold LOGSIZE in *. lia. }
  destruct (write_log_loop l (txn_blocks l) st 0) as (s' & Hr' & Hrest); try done.
  - intros k b Hk. unfold txn_blocks in Hk. apply lookup_take_Some in Hk as [Hk _]. exact Hk.
  - lia.
  - rewrite En in *. replace (lg_start l + 0 + 1) with (lg_start l + 1) in Hrest by lia. exists s'. split; [|exact Hrest].
    unfold write_log. erewrite Ok_bind by reflexivity. exact Hr'.
Qed.

Lemma log_writes_in l v m : m ∈ (log_writes l v).*1 -> lg_start l < m <= lg_start l + lg_n l.
Proof. intros Hm%zip_fst. apply elem_of_seqZ in Hm. lia. Qed.

Lemma log_writes_at l v v0 k d : (v <$> txn_blocks l) !! k = Some d -> Z.of_nat (length (txn_blocks l)) = lg_n l ->
  after (log_writes l v) v0 (lg_start l + Z.of_nat k + 1) = d.
Proof.
  intros Hk Hn. unfold log_writes. eapply after_zip; [apply NoDup_seqZ| |exact Hk].
  apply lookup_lt_Some in Hk. rewrite length_fmap in Hk. apply lookup_seqZ. lia.
Qed.

Lemma commit_run st : txn_ok st -> let s := l_bio st in let l := l_log st in
  exists st', commit st = Ok () st' /\ l_log st' = set_head 0 (lg_block l) l /\
    bstep s (l_bio st') (commit_writes l (bview s)) /\
    (forall m, pinned (l_bio st') m <-> pinned s m /\ m ∉ txn_blocks l) /\
    forall m, ~ in_log l m -> bview (l_bio st') m = bview s m.
Proof.
  intros Ht s l. pose proof (txn_ok_length st Ht) as Elen. fold l in Elen.
  destruct (write_log_run st Ht) as (s1 & Hr1 & Hst1 & Hp1 & Hv1). fold s l in Hr1, Hst1, Hp1, Hv1.
  destruct Ht as [Hi Hn Hroom Hl [Ha Ha'] Hw Hd Hh Hc Hb]. fold s l in Hi, Hn, Hroom, Hl, Ha, Ha', Hw, Hd, Hh, Hc, Hb.
  pose proof (bs_size _ _ _ Hst1) as Hz1. pose proof (bs_nd _ _ _ Hst1) as Hnd1.
  assert (in_log l (lg_start l)) as Hin by (unfold in_log; lia).
  assert (bview s1 (lg_start l) = bview s (lg_start l)) as Evs.
  { rewrite Hv1. apply after_notin. intros Hm%log_writes_in. lia. }
  destruct (write_head_run (set_bio s1 st)) as (s2 & Hr2 & Hst2 & Hp2 & Hv2); cbn [set_bio l_bio l_log]; fold l; [apply Hst1|lia|lia|].
  cbn [set_bio l_bio l_log] in *. fold l in Hr2, Hst2, Hp2, Hv2. rewrite Evs in *. fold (commit_head l (bview s)) in *.
  pose proof (bs_size _ _ _ Hst2) as Hz2. pose proof (bs_nd _ _ _ Hst2) as Hnd2.
  assert (forall m, pinned s2 m <-> pinned s m) as Hp2'.
  { intros m. rewrite Hp2, Hp1. split; [tauto|]. intros Hm. split; [done|]. intros ->. by apply (Hc (lg_start l)). }
  destruct (install_run (LFS s2 l) (bview s <$> txn_blocks l)) as (s3 & Hr3 & Hst3 & Hp3 & Hv3); cbn [l_bio l_log]; fold (txn_blocks l); try done.
  { apply Hst2. } { lia. } { lia. } { by rewrite length_fmap. }
  { intros k d Hk. pose proof (lookup_lt_Some _ _ _ Hk). rewrite Hv2, decide_False by lia. rewrite Hv1. by apply log_writes_at. }
  { intros b Hbb. rewrite Hz2, Hz1. by destruct (Hh b Hbb) as (? & ? & _). }
  { lia. } { lia. } { right. split; [done|]. intros b Hbb. apply Hp2'. by destruct (Hh b Hbb) as (_ & _ & ?). }
  cbn [set_bio l_bio l_log] in *. fold (txn_blocks l) in Hst3, Hp3, Hv3.
  assert (bview s3 (lg_start l) = commit_head l (bview s)) as Ev3.
  { rewrite Hv3, after_zip_notin, Hv2, decide_True; [done..|]. intros (_ & Hno & _)%Hh. done. }
  pose proof (bs_size _ _ _ Hst3) as Hz3. pose proof (bs_nd _ _ _ Hst3) as Hnd3. set (l2 := set_head 0 (lg_block l) l).
  destruct (write_head_run (LFS s3 l2)) as (s4 & Hr4 & Hst4 & Hp4 & Hv4); cbn [l_bio l_log l2 set_head lg_start]; [apply Hst3|lia|lia|].
  cbn [l_bio l_log l2 set_head lg_start lg_n lg_block] in *. rewrite Ev3 in *.
  exists (LFS s4 l2). split.
  { unfold commit. erewrite Ok_bind by reflexivity. fold l. destruct (Z.ltb_spec 0 (lg_n l)); [|lia]. cbn [when].
    rewrite (Ok_bind _ _ _ _ _ Hr1), (Ok_bind _ _ _ _ _ Hr2). rewrite (Ok_bind _ _ _ _ _ Hr3).
    unfold clear_n. erewrite Ok_bind by reflexivity. exact Hr4. }
  split; [done|]. cbn [l_bio]. split; [|split].
  - eapply bstep_seq; [exact Hst1| |done]. eapply bstep_seq; [exact Hst2| |done]. eapply bstep_seq; [exact Hst3|exact Hst4|done].
  - intros m. rewrite Hp4, Hp3, Hp2'. split; [tauto|]. intros [Hm ?]. repeat (split; [done|]). intros ->. by apply (Hc (lg_start l)).
  - intros m Hm. rewrite Hv4, decide_False by (intros ->; done). rewrite Hv3. unfold txn_blocks at 1. rewrite after_zip_map.
    case_decide; [done|]. rewrite Hv2, decide_False by (intros ->; done). rewrite Hv1. apply after_notin.
    intros Hx%log_writes_in. apply Hm. unfold in_log. lia.
Qed.

(** ** Crashes during commit *)

Lemma commit_head_ok st : txn_ok st -> let l := l_log st in let v := bview (l_bio st) in length (v (lg_start l)) = 512%nat ->
  length (commit_head l v) = 512%nat /\ decode_head (commit_head l v) = (lg_n l, txn_blocks l).
Proof.
  intros Ht l v Hl. unfold commit_head.
  assert (take (Z.to_nat (lg_n l)) (txn_blocks l) = txn_blocks l) as E by (unfold txn_blocks; rewrite take_take; f_equal; lia).
  pose proof (txn_ok_length st Ht) as En. fold l in En.
  destruct (decode_encode (lg_n l) (txn_blocks l) (v (lg_start l)) Hl) as [E1 E2].
  - pose proof (tx_n _ Ht). fold l in H. lia.
  - lia.
  - rewrite Forall_forall. intros b Hb. pose proof (tx_home _ Ht b Hb) as (? & _). pose proof (tx_width _ Ht). unfold is_s32. lia.
  - unfold encode_head in *. rewrite E in E1, E2. fold (txn_blocks l). done.
Qed.

Lemma take_app_cases {A} k (l1 l2 : list A) :
  (k <= length l1)%nat /\ take k (l1 ++ l2) = take k l1 \/
  (length l1 < k)%nat /\ take k (l1 ++ l2) = l1 ++ take (k - length l1) l2.
Proof.
  destruct (decide (k <= length l1)%nat); [left|right]; split; try lia; rewrite take_app.
  - by replace (k - length l1)%nat with 0%nat by lia; rewrite take_0, app_nil_r.
  - by rewrite (take_ge l1) by lia.
Qed.

Section crash.
Context (st : lfs) (Ht : txn_ok st).
Let l := l_log st.
Let D := c_disksize (l_bio st).
Let old := disk_block (c_disk (l_bio st)).
Let new := bview (l_bio st).
Context (Hlen : length (old (lg_start l)) = 512%nat) (Hclear : fst (decode_head (old (lg_start l))) = 0).

Lemma start_same : new (lg_start l) = old (lg_start l).
Proof.
  pose proof (tx_n _ Ht). pose proof (tx_room _ Ht). apply (bview_unpinned _ _ _ (tx_inv _ Ht)).
  - apply (tx_clean _ Ht). fold l. unfold in_log. fold l in H, H0. lia.
  - by intros ? ? ?%elem_of_nil.
Qed.

Lemma crash_before k : (k <= length (log_writes l new))%nat ->
  let v := after (take k (log_writes l new)) old in
  head_ok (lg_start l) (lg_size l) D v /\ (forall b, b ∈ snd (decode_head (v (lg_start l))) -> b ∈ txn_blocks l) /\
  forall m, outside (lg_start l) (lg_size l) m -> pending (lg_start l) v m = old m.
Proof.
  intros Hk v. pose proof (tx_n _ Ht). pose proof (tx_room _ Ht). fold l in H, H0.
  assert (forall m, ~ (lg_start l < m <= lg_start l + lg_n l) -> v m = old m) as Hv.
  { intros m Hm. apply after_notin. rewrite fst_take. intros (? & Hx & _)%elem_of_take. apply Hm.
    apply (log_writes_in l new). by eapply list_elem_of_lookup_2. }
  assert (v (lg_start l) = old (lg_start l)) as Es by (apply Hv; lia).
  assert (snd (decode_head (v (lg_start l))) = []) as Eb.
  { rewrite Es. revert Hclear. unfold decode_head. simpl. by intros ->. }
  split; [|split].
  - split; rewrite ?Eb, ?Es; [done|unfold LOGSIZE; lia|lia|]. by intros b Hb%elem_of_nil.
  - rewrite Eb. by intros b Hb%elem_of_nil.
  - intros m Hm. rewrite pending_clear by (by rewrite Es). apply Hv. unfold outside in Hm. lia.
Qed.

(** The header is on disk: the rest of the writes changes nothing. *)
Lemma crash_after k : let v := after (log_writes l new ++ [(lg_start l, commit_head l new)] ++
    take k (home_writes l new ++ [(lg_start l, put32 (commit_head l new) 0 0)])) old in
  head_ok (lg_start l) (lg_size l) D v /\ (forall b, b ∈ snd (decode_head (v (lg_start l))) -> b ∈ txn_blocks l) /\
  forall m, outside (lg_start l) (lg_size l) m -> pending (lg_start l) v m = if decide (m ∈ txn_blocks l) then new m else old m.
Proof.
  cbn zeta. set (w := after (log_writes l new ++ [(lg_start l, commit_head l new)]) old).
  pose proof (tx_n _ Ht) as Hn. pose proof (tx_room _ Ht) as Hroom. fold l in Hn, Hroom.
  pose proof (txn_ok_length st Ht) as En. fold l in En.
  destruct (commit_head_ok st Ht) as [Hl Hdec]; [fold l new; by rewrite start_same|]. fold l new in Hl, Hdec.
  assert (w (lg_start l) = commit_head l new) as Ew.
  { unfold w. rewrite after_app. unfold after. simpl. by rewrite decide_True. }
  assert (head_ok (lg_start l) (lg_size l) D w) as Hok.
  { split; rewrite ?Ew, ?Hdec; cbn [fst snd]; [done|lia|done|]. intros b Hb. destruct (tx_home _ Ht b Hb) as (? & ? & _). done. }
  assert (logged (lg_start l) w = (txn_blocks l, new <$> txn_blocks l)) as El.
  { rewrite logged_eq, Ew, Hdec. cbn [fst snd]. f_equal. apply list_eq. intros i. rewrite list_lookup_fmap.
    destruct (decide (Z.of_nat i < lg_n l)) as [Hi|Hi].
    - rewrite lookup_seqZ_lt by lia. cbn [fmap option_fmap option_map]. destruct (lookup_lt_is_Some_2 (new <$> txn_blocks l) i) as [d Hd].
      { rewrite length_fmap. lia. }
      rewrite Hd. f_equal. unfold w. rewrite after_app, after_notin.
      + rewrite <- (log_writes_at l new old i d Hd En). f_equal. lia.
      + simpl. rewrite list_elem_of_singleton. lia.
    - rewrite lookup_seqZ_ge by lia. rewrite lookup_ge_None_2; [done|]. rewrite length_fmap. lia. }
  assert (recovery_writes (lg_start l) w = home_writes l new ++ [(lg_start l, put32 (commit_head l new) 0 0)]) as Er.
  { unfold recovery_writes. by rewrite El, Ew. }
  destruct (recovery_prefix (lg_start l) (lg_size l) D w k ltac:(lia) Hok) as (Hok' & Hsub & Hpend). rewrite Er in Hok', Hsub, Hpend.
  assert (forall m, after (take k (home_writes l new ++ [(lg_start l, put32 (commit_head l new) 0 0)])) w m =
    after (log_writes l new ++ [(lg_start l, commit_head l new)] ++ take k (home_writes l new ++ [(lg_start l, put32 (commit_head l new) 0 0)])) old m) as E.
  { intros m. rewrite app_assoc. by rewrite (after_app (_ ++ _)). }
  split; [eapply head_ext; [exact Hok'|apply E]|]. split.
  { intros b Hb. rewrite <- E in Hb. apply Hsub in Hb. by rewrite Ew, Hdec in Hb. }
  intros m Hm.
  transitivity (pending (lg_start l) w m); [rewrite <- (Hpend m Hm); by apply pending_ext|].
  unfold pending. rewrite El, after_zip_map. case_decide; [done|]. unfold w. rewrite after_notin; [done|].
  rewrite fmap_app, elem_of_app. unfold outside in Hm. intros [Hx%log_writes_in|Hx]; [lia|].
  simpl in Hx. apply list_elem_of_singleton in Hx. lia.
Qed.
End crash.

(** ** Atomic transactions *)

(** Booting on [disk] succeeds with the file system's blocks (those outside
    the log) satisfying [P], also when the machine stops again after any of
    the writes of that boot. *)
Definition recovers (disk : gmap Z block) (disksize : Z) (P : (Z -> block) -> Prop) : Prop :=
  exists r, initlog (boot disk disksize) = Ok () r /\ P (disk_block (c_disk (l_bio r))) /\
    forall j, exists r', initlog (boot (apply_writes (take j (c_writes (l_bio r))) disk) disksize) = Ok () r' /\
      P (disk_block (c_disk (l_bio r'))).

Definition agrees (start size : Z) (f v : Z -> block) : Prop := forall m, outside start size m -> v m = f m.

Lemma recovery_result start size disksize v m : head_ok start size disksize v -> 0 < size -> outside start size m ->
  after (recovery_writes start v) v m = pending start v m.
Proof.
  intros Hok Hs Hm. unfold recovery_writes, pending. destruct (logged start v) as [bs ds].
  rewrite after_app, after_notin; [done|]. simpl. rewrite list_elem_of_singleton. unfold outside in Hm. lia.
Qed.

Lemma recovery_outside start size disksize v m : head_ok start size disksize v -> 0 < size ->
  m ∈ (recovery_writes start v).*1 -> m ∈ snd (decode_head (v start)) \/ m = start.
Proof.
  intros Hok Hs. unfold recovery_writes. rewrite logged_eq, fmap_app, elem_of_app. intros [Hm%zip_fst|Hm]; [by left|right].
  simpl in Hm. by apply list_elem_of_singleton in Hm.
Qed.

(** The superblock is not touched by what the header lists. *)
Definition spares_super (v : Z -> block) (start : Z) : Prop := 1 ∉ snd (decode_head (v start)).

Lemma recovers_pending disk disksize start size f : log_at start size disksize (disk_block disk) ->
  head_ok start size disksize (disk_block disk) -> spares_super (disk_block disk) start ->
  agrees start size f (pending start (disk_block disk)) -> recovers disk disksize (agrees start size f).
Proof.
  intros Hat Hok Hsp Hf. pose proof Hat as (E1 & E2 & H1 & H2 & H3).
  destruct (initlog_run disk disksize start size Hat Hok) as (r & Hr & Hw & Hd). exists r. split; [done|]. split.
  { intros m Hm. rewrite Hd, after_disk, (recovery_result start size disksize) by done. by apply Hf. }
  intros j. rewrite Hw. set (disk' := apply_writes _ disk).
  destruct (recovery_prefix start size disksize (disk_block disk) j H2 Hok) as (Hok' & _ & Hp).
  assert (forall m, disk_block disk' m = after (take j (recovery_writes start (disk_block disk))) (disk_block disk) m) as Ev
    by (intros m; apply after_disk).
  assert (head_ok start size disksize (disk_block disk')) as Hok2 by (eapply head_ext; [exact Hok'|symmetry; apply Ev]).
  assert (log_at start size disksize (disk_block disk')) as Hat2.
  { unfold log_at. rewrite Ev, after_notin; [done|]. rewrite fst_take. intros (? & Hx & _)%elem_of_take.
    apply list_elem_of_lookup_2, (recovery_outside start size disksize) in Hx as [Hx|Hx]; [done|lia|done|done]. }
  destruct (initlog_run disk' disksize start size Hat2 Hok2) as (r' & Hr' & _ & Hd'). exists r'. split; [done|].
  intros m Hm. rewrite Hd', after_disk, (recovery_result start size disksize) by done.
  rewrite <- (Hf m Hm), <- (Hp m Hm). by apply pending_ext.
Qed.

(** One update of a file-system call: [bread], modify, [log_write], [brelse]. *)
Definition log_update (n : Z) (f : block -> block) : M lfs () :=
  i ← onbio (bread ROOTDEV n);
  onbio (bmodify i f);;
  log_write i;;
  onbio (brelse i).

(** A file-system call that updates blocks one after another. *)
Definition transaction (us : list (Z * (block -> block))) : M lfs () :=
  begin_op;; forM us (fun u => log_update u.1 u.2);; end_op.

Definition updated (us : list (Z * (block -> block))) (v : Z -> block) (m : Z) : block :=
  foldl (fun d u => if decide (m = u.1) then u.2 d else d) (v m) us.

Lemma log_update_run st n f : linv st [] -> 0 <= n < c_disksize (l_bio st) -> ~ in_log (l_log st) n ->
  lg_n (l_log st) < lg_size (l_log st) - 1 -> 1 <= lg_outstanding (l_log st) ->
  exists st', log_update n f st = Ok () st' /\ linv st' [] /\ lstep st st' [(n, f (view st n))].
Proof.
  intros Hi Hn Hnl Hroom Hout. pose proof (li_size _ _ Hi) as Hsz. unfold LOGSIZE in Hsz.
  destruct (bread_l st [] n Hi Hn) as (i & st1 & Hr & _ & Hi1 & Hst1 & El & Hh & _); [by intros ? ?%elem_of_nil|cbn [length]; unfold NBUF; lia|].
  destruct (update_l st1 [i] i n f Hi1) as (st2 & Hu & Hi2 & Hst2 & Hhold); rewrite ?El; try done; [by apply list_elem_of_singleton|].
  destruct (brelse_l st2 [] i n Hi2 (Hhold i n Hh)) as (st3 & Hb & Hi3 & Hst3 & _).
  exists st3. split; [|split; [done|]].
  - unfold log_update. rewrite (Ok_bind _ _ _ _ _ Hr). unfold mbind, M_bind, bindM in Hu |- *.
    destruct (onbio (bmodify i f) st1) as [[] s| | | |]; try done. by rewrite Hu.
  - pose proof (lstep_trans _ _ _ _ _ Hst1 (lstep_trans _ _ _ _ _ Hst2 Hst3)) as Hst.
    cbn [app] in Hst. rewrite (ls_view _ _ _ Hst1) in Hst. exact Hst.
Qed.

Lemma updates_run us : forall st, linv st [] -> 1 <= lg_outstanding (l_log st) ->
  (forall u, u ∈ us -> 0 <= u.1 < c_disksize (l_bio st) /\ ~ in_log (l_log st) u.1) ->
  lg_n (l_log st) + Z.of_nat (length us) < lg_size (l_log st) ->
  exists st' W, forM us (fun u => log_update u.1 u.2) st = Ok () st' /\ linv st' [] /\ lstep st st' W /\ W.*1 = us.*1 /\
    forall m, view st' m = updated us (view st) m.
Proof.
  induction us as [|[n f] us IH]; intros st Hi Hout Hus Hroom; cbn [forM].
  { exists st, []. split; [done|]. split; [done|]. by split; [apply lstep_refl|]. }
  cbn [length fst snd] in *. destruct (Hus (n, f)) as [Hn Hnl]; [apply list_elem_of_here|].
  destruct (log_update_run st n f Hi) as (st1 & Hr1 & Hi1 & Hst1); [done|done|lia|done|].
  pose proof (ls_log _ _ _ Hst1) as [bs El]. pose proof (ls_n _ _ _ Hst1) as Hn1. cbn [length] in Hn1.
  destruct (IH st1) as (st2 & W & Hr2 & Hi2 & Hst2 & EW & Hv2); try done.
  - rewrite El. done.
  - intros u Hu. rewrite (ls_dsize _ _ _ Hst1). unfold in_log. rewrite El. cbn [set_head lg_start lg_size]. apply Hus. by right.
  - rewrite El at 2. cbn [set_head lg_size]. lia.
  - exists st2, ([(n, f (view st n))] ++ W). rewrite (Ok_bind _ _ _ _ _ Hr1). split; [done|]. split; [done|].
    split; [by eapply lstep_trans|]. split; [by rewrite fmap_app, EW|]. intros m. rewrite Hv2. unfold updated. cbn [foldl fst snd].
    rewrite (ls_view _ _ _ Hst1). unfold after. cbn [foldl fst snd]. case_decide; [by subst|done].
Qed.

(** The log's header block on disk lists no blocks. *)
Definition log_empty (start : Z) (v : Z -> block) : Prop :=
  length (v start) = 512%nat /\ fst (decode_head (v start)) = 0.

Lemma crash_commit st k : let l := l_log st in let D := c_disksize (l_bio st) in
  let old := disk_block (c_disk (l_bio st)) in let W := commit_writes l (view st) in
  linv st [] -> 0 < lg_n l -> log_at (lg_start l) (lg_size l) D old -> log_empty (lg_start l) old -> 1 ∉ txn_blocks l ->
  recovers (apply_writes (take k W) (c_disk (l_bio st))) D
    (agrees (lg_start l) (lg_size l) (if (k <=? length (txn_blocks l))%nat then old else view st)).
Proof.
  intros l D old W Hi Hn Hat [Hlen Hclear] Hsp. pose proof (linv_txn st Hi Hn) as Ht.
  pose proof (txn_length st [] Hi) as En. fold l in En. pose proof (li_n _ _ Hi) as Hroom. fold l in Hroom.
  assert (length (log_writes l (view st)) = length (txn_blocks l)) as Elw.
  { unfold log_writes. rewrite length_zip_with, length_seqZ, length_fmap. lia. }
  set (disk := apply_writes _ _). set (v := after (take k W) old).
  assert (forall m, disk_block disk m = v m) as Ev by (intros m; apply after_disk).
  assert (forall m, outside (lg_start l) (lg_size l) m -> (if decide (m ∈ txn_blocks l) then view st m else old m) = view st m) as Hnew.
  { intros m Hm. case_decide as Hin; [done|]. symmetry. apply (bview_unpinned _ [] _ (li_inv _ _ Hi)); [by rewrite (li_pin _ _ Hi)|].
    by intros ? ? ?%elem_of_nil. }
  assert (v 1 = old 1) as E1.
  { apply after_notin. rewrite fst_take. intros (? & Hx & _)%elem_of_take. apply list_elem_of_lookup_2 in Hx.
    destruct Hat as (_ & _ & H1 & _). revert Hx. unfold W, commit_writes. rewrite !fmap_app, !elem_of_app. simpl. rewrite !list_elem_of_singleton.
    intros [Hx%log_writes_in|[?|[Hx%zip_fst|?]]]; [fold l in Hx; lia|lia|done|lia]. }
  assert (head_ok (lg_start l) (lg_size l) D v /\ (forall b, b ∈ snd (decode_head (v (lg_start l))) -> b ∈ txn_blocks l) /\
    agrees (lg_start l) (lg_size l) (if (k <=? length (txn_blocks l))%nat then old else view st) (pending (lg_start l) v)) as (Hok & Hsub & Hag).
  { subst v. unfold W, commit_writes.
    destruct (take_app_cases k (log_writes l (view st)) ([(lg_start l, commit_head l (view st))] ++ home_writes l (view st) ++
      [(lg_start l, put32 (commit_head l (view st)) 0 0)])) as [[Hk E]|[Hk E]]; rewrite E; rewrite Elw in Hk.
    - rewrite (proj2 (Nat.leb_le _ _) Hk). apply (crash_before st Ht Hlen Hclear). rewrite <- Elw in Hk. exact Hk.
    - rewrite (proj2 (Nat.leb_gt _ _) Hk), Elw. destruct (k - length (txn_blocks l))%nat as [|k'] eqn:Ek; [lia|].
      destruct (crash_after st Ht Hlen k') as (A1 & A2 & A3). split; [exact A1|]. split; [exact A2|].
      intros m Hm. rewrite <- (Hnew m Hm). exact (A3 m Hm). }
  apply (recovers_pending _ _ (lg_start l) (lg_size l)).
  - unfold log_at in *. by rewrite Ev, E1.
  - eapply head_ext; [exact Hok|]. by rewrite Ev.
  - unfold spares_super. rewrite Ev. intros Hin. by apply Hsp, Hsub.
  - intros m Hm. rewrite <- (Hag m Hm). by apply pending_ext.
Qed.

Lemma linv_ops st held o c : linv st held -> linv (LFS (l_bio st) (set_ops o c (l_log st))) held.
Proof. intros Hi. split; apply Hi. Qed.

(** An idle log: no transaction, and nothing in it on disk. *)
Record log_idle (st : lfs) : Prop := {
  id_inv : linv st [];
  id_n : lg_n (l_log st) = 0;
  id_ops : lg_outstanding (l_log st) = 0;
  id_commit : lg_committing (l_log st) = false;
  id_at : log_at (lg_start (l_log st)) (lg_size (l_log st)) (c_disksize (l_bio st)) (disk_block (c_disk (l_bio st)));
  id_empty : log_empty (lg_start (l_log st)) (disk_block (c_disk (l_bio st)));
}.

Lemma idle_view st : linv st [] -> lg_n (l_log st) = 0 -> forall m, view st m = disk_block (c_disk (l_bio st)) m.
Proof.
  intros Hi Hn m. apply (bview_unpinned _ [] _ (li_inv _ _ Hi)); [|by intros ? ? ?%elem_of_nil].
  rewrite (li_pin _ _ Hi). unfold txn_blocks. rewrite Hn. apply not_elem_of_nil.
Qed.

(** [end_op] by the last process inside: the commit. *)
Lemma end_op_run st : linv st [] -> lg_outstanding (l_log st) = 1 -> lg_committing (l_log st) = false ->
  let l := l_log st in let W := if 0 <? lg_n l then commit_writes l (view st) else [] in
  exists st', end_op st = Ok () st' /\ c_writes (l_bio st') = c_writes (l_bio st) ++ W /\
    c_disk (l_bio st') = apply_writes W (c_disk (l_bio st)) /\ forall m, ~ in_log l m -> view st' m = view st m.
Proof.
  intros Hi Ho Hc l W. set (st1 := LFS (l_bio st) (set_ops 0 true l)).
  assert (end_op st = (commit;; modify (fun s => set_log (set_ops (lg_outstanding (l_log s)) false (l_log s)) s)) st1) as ->.
  { unfold end_op. erewrite Ok_bind by reflexivity. by rewrite Hc, Ho. }
  unfold W. destruct (Z.ltb_spec 0 (lg_n l)) as [Hn|Hn].
  - destruct (commit_run st1) as (st2 & Hr & El & Hst & _ & Hv); [by apply linv_txn; [apply linv_ops|]|].
    eexists. split; [rewrite (Ok_bind _ _ _ _ _ Hr); reflexivity|]. cbn [set_log l_bio].
    split; [exact (bs_writes _ _ _ Hst)|]. split; [exact (bs_disk _ _ _ Hst)|]. exact Hv.
  - eexists. split; [|split; [|split]].
    + erewrite Ok_bind; [reflexivity|]. unfold commit. erewrite Ok_bind by reflexivity. cbn [st1 l_log set_ops lg_n].
      destruct (Z.ltb_spec 0 (lg_n l)); [lia|reflexivity].
    + by rewrite app_nil_r.
    + done.
    + done.
Qed.

Lemma recovers_ext disk D start size f v : (forall m, f m = v m) ->
  recovers disk D (agrees start size f) -> recovers disk D (agrees start size v).
Proof.
  intros Hf (r & Hr & HP & Hj). exists r. split; [done|]. split; [intros m Hm; by rewrite <- Hf, HP|].
  intros j. destruct (Hj j) as (r' & ? & HP'). exists r'. split; [done|]. intros m Hm. by rewrite <- Hf, HP'.
Qed.

Lemma recovers_idle st : log_idle st ->
  recovers (c_disk (l_bio st)) (c_disksize (l_bio st))
    (agrees (lg_start (l_log st)) (lg_size (l_log st)) (disk_block (c_disk (l_bio st)))).
Proof.
  intros [Hi Hn Ho Hc Hat [He1 He2]]. pose proof (li_n _ _ Hi).
  assert (snd (decode_head (disk_block (c_disk (l_bio st)) (lg_start (l_log st)))) = []) as Eb.
  { revert He2. unfold decode_head. cbn [fst snd]. by intros ->. }
  eapply recovers_pending; [exact Hat| | |].
  - split; rewrite ?Eb, ?He2; [done|unfold LOGSIZE; lia|lia|by intros ? ?%elem_of_nil].
  - unfold spares_super. rewrite Eb. apply not_elem_of_nil.
  - intros m Hm. by apply pending_clear.
Qed.

(** C3: A file-system call is atomic.  From an idle log, [begin_op], at most ten
    block updates through [log_write] and [end_op] return with every update
    visible; and whatever prefix of the call's disk writes happened when the
    machine stopped, the next boot's recovery returns and leaves the blocks
    outside the log exactly as before the call (up to the write of the log's
    header, the commit point) or exactly as after it (from then on), also if
    the machine stops again during recovery. *)
Theorem transaction_atomic (st : lfs) (us : list (Z * (block -> block))) :
  let l := l_log st in let D := c_disksize (l_bio st) in
  log_idle st -> (length us <= Z.to_nat MAXOPBLOCKS)%nat -> MAXOPBLOCKS < lg_size l ->
  (forall u, u ∈ us -> 1 < u.1 < D /\ ~ in_log l u.1) ->
  exists st' W K, transaction us st = Ok () st' /\ c_writes (l_bio st') = c_writes (l_bio st) ++ W /\
    agrees (lg_start l) (lg_size l) (updated us (view st)) (view st') /\
    forall k, recovers (apply_writes (take k W) (c_disk (l_bio st))) D
                (agrees (lg_start l) (lg_size l) (if (k <=? K)%nat then view st else updated us (view st))).
Proof.
  intros l D Hid Hlen Hsize Hus. unfold MAXOPBLOCKS in *. destruct Hid as [Hi Hn Ho Hc Hat Hemp].
  set (st1 := LFS (l_bio st) (set_ops 1 false l)).
  destruct (updates_run us st1) as (st2 & U & Hr2 & Hi2 & Hst2 & EU & Hv2); [by apply linv_ops|done|..].
  { intros u Hu. destruct (Hus u Hu). cbn. unfold in_log in *. cbn. fold D. split; [lia|done]. }
  { cbn. fold l in Hn. rewrite Hn. lia. }
  destruct (ls_log _ _ _ Hst2) as [bs El]. set (l2 := l_log st2) in *.
  assert (lg_start l2 = lg_start l /\ lg_size l2 = lg_size l /\ lg_outstanding l2 = 1 /\ lg_committing l2 = false) as (Es & Ez & Eo & Ec)
    by (by rewrite El).
  destruct (end_op_run st2 Hi2 Eo Ec) as (st3 & Hr3 & Hw3 & Hd3 & Hv3). fold l2 in Hw3, Hd3, Hv3.
  exists st3, (if 0 <? lg_n l2 then commit_writes l2 (view st2) else []), (length (txn_blocks l2)).
  split; [|split; [|split]].
  - unfold transaction. rewrite (Ok_bind _ _ st () st1); [by rewrite (Ok_bind _ _ _ _ _ Hr2)|].
    unfold begin_op. erewrite Ok_bind by reflexivity. by rewrite Hc, Ho, Hn.
  - by rewrite Hw3, (ls_writes _ _ _ Hst2).
  - intros m Hm. rewrite Hv3; [apply Hv2|]. unfold in_log. by rewrite Es, Ez.
  - intros k. pose proof (ls_disk _ _ _ Hst2) as Ed. pose proof (ls_dsize _ _ _ Hst2) as ED. cbn [l_bio st1] in Ed, ED.
    apply (recovers_ext _ _ _ _ (if (k <=? length (txn_blocks l2))%nat then disk_block (c_disk (l_bio st)) else view st2)).
    { intros m. destruct (k <=? _)%nat; [symmetry; by apply idle_view|]. rewrite Hv2. done. }
    destruct (Z.ltb_spec 0 (lg_n l2)) as [Hn2|Hn2].
    + rewrite <- Ed, <- Es, <- Ez. unfold D. rewrite <- ED. apply crash_commit; try done; fold l2; rewrite ?Ed, ?ED, ?Es, ?Ez; try done.
      unfold l2. rewrite (ls_blocks _ _ _ Hst2). unfold txn_blocks. cbn [st1 l_log set_ops lg_n lg_block]. fold l in Hn. rewrite Hn, EU.
      intros [?%elem_of_nil|([n f] & E & Hu)%list_elem_of_fmap]; [done|]. apply Hus in Hu as [? _]. simpl in *. lia.
    + rewrite take_nil. apply (recovers_ext _ _ _ _ (disk_block (c_disk (l_bio st)))); [|by apply recovers_idle].
      intros m. destruct (k <=? _)%nat; [done|]. rewrite <- Ed. symmetry. apply idle_view; [done|].
      pose proof (li_n _ _ Hi2) as Hge. fold l2 in Hge. fold l2. lia.
Qed.

(** A disk of 100 blocks as [mkfs] lays it out: the log in blocks 2 to 31. *)
Definition small_disk : gmap Z block := {[1 := put32 (put32 zero_block 12 30) 16 2]}.
Definition fresh_fs : lfs := LFS (binit small_disk 100) (Log 2 30 0 false 0 (replicate 30 0)).

Lemma binit_linv disk D start size : 0 < size <= LOGSIZE -> 0 <= start -> start + size <= D -> D < 2147483648 ->
  linv (LFS (binit disk D) (Log start size 0 false 0 (replicate 30 0))) [].
Proof.
  intros Hs H0 H1 H2. split; cbn [l_log l_bio lg_n lg_size lg_start lg_block binit c_disksize]; try lia.
  - apply binit_inv.
  - constructor.
  - by intros ? ? ?%elem_of_nil.
  - by rewrite length_replicate.
  - constructor.
  - by intros b ?%elem_of_nil.
  - intros m. split; [|by intros ?%elem_of_nil]. intros (i & b & Hb & Hd & _).
    cbn [binit c_bufs] in Hb. apply lookup_replicate in Hb as [-> _]. done.
  - by rewrite binit_ndirty.
Qed.

Lemma fresh_idle : log_idle fresh_fs.
Proof.
  split; [apply binit_linv; unfold LOGSIZE; lia|reflexivity..| |].
  - vm_compute. split_and!; congruence.
  - vm_compute. split; reflexivity.
Qed.

Definition two_updates : list (Z * (block -> block)) := [(40, fun d => put32 d 0 7); (50, fun d => put32 d 8 9)].

Lemma transaction_atomic_witness : exists st' W K, transaction two_updates fresh_fs = Ok () st' /\ c_writes (l_bio st') = [] ++ W /\
  agrees 2 30 (updated two_updates (view fresh_fs)) (view st') /\
  forall k, recovers (apply_writes (take k W) small_disk) 100
              (agrees 2 30 (if (k <=? K)%nat then view fresh_fs else updated two_updates (view fresh_fs))).
Proof.
  apply (transaction_atomic fresh_fs two_updates fresh_idle).
  - apply Nat.leb_le. reflexivity.
  - reflexivity.
  - intros u Hu. unfold two_updates in Hu. rewrite !elem_of_cons, elem_of_nil in Hu.
    destruct Hu as [->|[->|[]]]; cbn; unfold in_log; cbn; lia.
Defined.

(** The reservation of [begin_op] admits more than [log_write] accepts.  On a
    log of [LOGSIZE] blocks three system calls are let in at once, each
    entitled to [MAXOPBLOCKS] blocks; the thirtieth distinct block they write
    between them makes [log_write] panic, because one of the log's blocks is
    the header. *)
Theorem reservation_overruns :
  returns (begin_op;; begin_op;; begin_op;; forM (seqZ 40 29) (fun n => log_update n id)) fresh_fs = true /\
  (begin_op;; begin_op;; begin_op;; forM (seqZ 40 30) (fun n => log_update n id)) fresh_fs = Panic "too big a transaction".
Proof. split; vm_compute; reflexivity. Qed.
