(* ===== verification/Fs.v ===== *)
(** * The file system ([fs.c])

    Block allocation, inodes, file contents, directories and path names, over
    the log and the buffer cache.  An inode is known by its place in the inode
    cache; its sleep lock is the [i_locked] flag. *)

From S2P Require Import Prelude Bytes Bio Log.

Definition NINODE : nat := 50.
Definition NDEV : Z := 10.
Definition ROOTINO : Z := 1.
Definition T_DIR : Z := 1.
Definition T_FILE : Z := 2.
Definition T_DEV : Z := 3.
Definition NDIRECT : Z := 12.
Definition NINDIRECT : Z := BSIZE / 4.
Definition MAXFILE : Z := NDIRECT + NINDIRECT.
Definition IPB : Z := BSIZE / 64.
Definition BPB : Z := BSIZE * 8.
Definition DIRSIZ : nat := 14.
Definition DIRENT : Z := 16.     (* sizeof(struct dirent) *)

Record inode := Inode {
  i_dev : Z; i_inum : Z; i_ref : Z; i_locked : bool; i_valid : bool;
  i_type : Z; i_major : Z; i_minor : Z; i_nlink : Z; i_size : Z; i_addrs : list Z;
}.

Record fs := FS { f_lfs : lfs; f_sb : superblock; f_icache : list inode }.

Definition set_lfs (l : lfs) (s : fs) : fs := FS l (f_sb s) (f_icache s).
Definition set_sb (b : superblock) (s : fs) : fs := FS (f_lfs s) b (f_icache s).
Definition set_icache (l : list inode) (s : fs) : fs := FS (f_lfs s) (f_sb s) l.
Definition onlfs {A} (m : M lfs A) : M fs A := zoom f_lfs set_lfs m.
Definition ondisk {A} (m : M bio A) : M fs A := onlfs (onbio m).

Definition inode_at (i : nat) : M fs inode := fun s =>
  match f_icache s !! i with Some ip => Ok ip s | None => Fault (Z.of_nat i) end.
Definition upd_inode (i : nat) (f : inode -> inode) : M fs () :=
  ip ← inode_at i; modify (fun s => set_icache (<[i := f ip]> (f_icache s)) s).

Definition set_iref (n : Z) (ip : inode) : inode :=
  Inode (i_dev ip) (i_inum ip) n (i_locked ip) (i_valid ip) (i_type ip) (i_major ip) (i_minor ip) (i_nlink ip) (i_size ip) (i_addrs ip).
Definition set_ilock (b : bool) (ip : inode) : inode :=
  Inode (i_dev ip) (i_inum ip) (i_ref ip) b (i_valid ip) (i_type ip) (i_major ip) (i_minor ip) (i_nlink ip) (i_size ip) (i_addrs ip).
Definition set_ivalid (b : bool) (ip : inode) : inode :=
  Inode (i_dev ip) (i_inum ip) (i_ref ip) (i_locked ip) b (i_type ip) (i_major ip) (i_minor ip) (i_nlink ip) (i_size ip) (i_addrs ip).
Definition set_itype (t : Z) (ip : inode) : inode :=
  Inode (i_dev ip) (i_inum ip) (i_ref ip) (i_locked ip) (i_valid ip) t (i_major ip) (i_minor ip) (i_nlink ip) (i_size ip) (i_addrs ip).
Definition set_inode_ids (major minor nlink : Z) (ip : inode) : inode :=
  Inode (i_dev ip) (i_inum ip) (i_ref ip) (i_locked ip) (i_valid ip) (i_type ip) major minor nlink (i_size ip) (i_addrs ip).
Definition set_nlink (n : Z) (ip : inode) : inode := set_inode_ids (i_major ip) (i_minor ip) n ip.
Definition set_isize (n : Z) (ip : inode) : inode :=
  Inode (i_dev ip) (i_inum ip) (i_ref ip) (i_locked ip) (i_valid ip) (i_type ip) (i_major ip) (i_minor ip) (i_nlink ip) n (i_addrs ip).
Definition set_addr (k : Z) (a : Z) (ip : inode) : inode :=
  Inode (i_dev ip) (i_inum ip) (i_ref ip) (i_locked ip) (i_valid ip) (i_type ip) (i_major ip) (i_minor ip) (i_nlink ip) (i_size ip)
    (<[Z.to_nat k := a]> (i_addrs ip)).

(** ** Blocks *)

Definition IBLOCK (i : Z) (sb : superblock) : Z := i / IPB + sb_inodestart sb.
Definition BBLOCK (b : Z) (sb : superblock) : Z := b / BPB + sb_bmapstart sb.

Definition bzero (dev bno : Z) : M fs () :=
  bp ← ondisk (bread dev bno);
  ondisk (bmodify bp (fun _ => zero_block));;
  onlfs (log_write bp);;
  ondisk (brelse bp).

(** Bit [bi] of a bitmap block, and the block with it set or cleared. *)
Definition bit_mask (bi : Z) : Z := Z.shiftl 1 (bi mod 8).
Definition bit_set (d : block) (bi : Z) : bool := negb (Z.land (get8 d (bi / 8)) (bit_mask bi) =? 0).
Definition mark (d : block) (bi : Z) : block := put8 d (bi / 8) (Z.lor (get8 d (bi / 8)) (bit_mask bi)).
Definition unmark (d : block) (bi : Z) : block := put8 d (bi / 8) (Z.land (get8 d (bi / 8)) (not32 (bit_mask bi))).

(** The inner loop of [balloc]: the first clear bit of the block for [b]. *)
Definition free_bit (d : block) (b size : Z) : option nat :=
  find_index (fun bi => negb (bit_set d bi)) (seqZ 0 (BPB `min` (size - b))).

Fixpoint balloc_loop (fuel : nat) (dev b : Z) : M fs Z :=
  s ← get;
  if negb (b <? sb_size (f_sb s)) then panic "balloc: out of blocks" else
  match fuel with
  | O => nofuel
  | S fuel' =>
      bp ← ondisk (bread dev (BBLOCK b (f_sb s)));
      d ← ondisk (bdata bp);
      match free_bit d b (sb_size (f_sb s)) with
      | Some bi =>
          ondisk (bmodify bp (fun d => mark d (Z.of_nat bi)));;
          onlfs (log_write bp);;
          ondisk (brelse bp);;
          bzero dev (b + Z.of_nat bi);;
          mret (b + Z.of_nat bi)
      | None => ondisk (brelse bp);; balloc_loop fuel' dev (b + BPB)
      end
  end.
Definition balloc (dev : Z) : M fs Z :=
  s ← get; balloc_loop (S (Z.to_nat (sb_size (f_sb s) / BPB))) dev 0.

Definition bfree (dev b : Z) : M fs () :=
  s ← get;
  bp ← ondisk (bread dev (BBLOCK b (f_sb s)));
  d ← ondisk (bdata bp);
  let bi := b mod BPB in
  if negb (bit_set d bi) then panic "freeing free block" else
  ondisk (bmodify bp (fun d => unmark d bi));;
  onlfs (log_write bp);;
  ondisk (brelse bp).

(** ** Inodes *)

(** [struct dinode] at offset [o] of a block. *)
Definition load_dinode (d : block) (o : Z) (ip : inode) : inode :=
  Inode (i_dev ip) (i_inum ip) (i_ref ip) (i_locked ip) (i_valid ip)
    (s16 (get16 d o)) (s16 (get16 d (o + 2))) (s16 (get16 d (o + 4))) (s16 (get16 d (o + 6)))
    (get32 d (o + 8)) (get_words d (o + 12) (NDIRECT + 1)).
Definition store_dinode (ip : inode) (o : Z) (d : block) : block :=
  put_words (put32 (put16 (put16 (put16 (put16 d o (i_type ip)) (o + 2) (i_major ip)) (o + 4) (i_minor ip)) (o + 6) (i_nlink ip))
               (o + 8) (i_size ip)) (o + 12) (i_addrs ip).
Definition dinode_off (inum : Z) : Z := 64 * (inum mod IPB).

Definition iinit : M fs () :=
  sb ← ondisk readsb; modify (set_sb sb).

Definition iget (dev inum : Z) : M fs nat :=
  s ← get;
  match find_index (fun ip => (0 <? i_ref ip) && (i_dev ip =? dev) && (i_inum ip =? inum)) (f_icache s) with
  | Some i => upd_inode i (fun ip => set_iref (i_ref ip + 1) ip);; mret i
  | None =>
      match find_index (fun ip => i_ref ip =? 0) (f_icache s) with
      | None => panic "iget: no inodes"
      | Some i =>
          upd_inode i (fun ip => Inode dev inum 1 (i_locked ip) false (i_type ip) (i_major ip) (i_minor ip) (i_nlink ip)
                                   (i_size ip) (i_addrs ip));;
          mret i
      end
  end.

Fixpoint ialloc_loop (inums : list Z) (dev type : Z) : M fs nat :=
  match inums with
  | [] => panic "ialloc: no inodes"
  | inum :: rest =>
      s ← get;
      bp ← ondisk (bread dev (IBLOCK inum (f_sb s)));
      d ← ondisk (bdata bp);
      if get16 d (dinode_off inum) =? 0 then
        ondisk (bmodify bp (fun d => put16 (splice d (dinode_off inum) (replicate 64 0)) (dinode_off inum) type));;
        onlfs (log_write bp);;
        ondisk (brelse bp);;
        iget dev inum
      else ondisk (brelse bp);; ialloc_loop rest dev type
  end.
Definition ialloc (dev type : Z) : M fs nat :=
  s ← get; ialloc_loop (seqZ 1 (sb_ninodes (f_sb s) - 1)) dev type.

Definition iupdate (i : nat) : M fs () :=
  ip ← inode_at i;
  s ← get;
  bp ← ondisk (bread (i_dev ip) (IBLOCK (i_inum ip) (f_sb s)));
  ondisk (bmodify bp (store_dinode ip (dinode_off (i_inum ip))));;
  onlfs (log_write bp);;
  ondisk (brelse bp).

Definition idup (i : nat) : M fs nat := upd_inode i (fun ip => set_iref (i_ref ip + 1) ip);; mret i.

Definition ilock (i : nat) : M fs () :=
  ip ← inode_at i;
  if i_ref ip <? 1 then panic "ilock" else
  if i_locked ip then blocked else
  upd_inode i (set_ilock true);;
  when (negb (i_valid ip)) (
    s ← get;
    bp ← ondisk (bread (i_dev ip) (IBLOCK (i_inum ip) (f_sb s)));
    d ← ondisk (bdata bp);
    upd_inode i (load_dinode d (dinode_off (i_inum ip)));;
    ondisk (brelse bp);;
    upd_inode i (set_ivalid true);;
    ip ← inode_at i;
    when (i_type ip =? 0) (panic "ilock: no type")).

Definition iunlock (i : nat) : M fs () :=
  ip ← inode_at i;
  if negb (i_locked ip) || (i_ref ip <? 1) then panic "iunlock" else
  upd_inode i (set_ilock false).

(** ** Contents *)

Definition addr_at (ip : inode) (k : Z) : Z := nth (Z.to_nat k) (i_addrs ip) 0.

Definition bmap (i : nat) (bn : Z) : M fs Z :=
  ip ← inode_at i;
  if bn <? NDIRECT then
    if addr_at ip bn =? 0 then
      a ← balloc (i_dev ip); upd_inode i (set_addr bn a);; mret a
    else mret (addr_at ip bn)
  else
  let bn := bn - NDIRECT in
  if bn <? NINDIRECT then
    a ← (if addr_at ip NDIRECT =? 0 then
           a ← balloc (i_dev ip); upd_inode i (set_addr NDIRECT a);; mret a
         else mret (addr_at ip NDIRECT));
    bp ← ondisk (bread (i_dev ip) a);
    d ← ondisk (bdata bp);
    addr ← (if get32 d (4 * bn) =? 0 then
              addr ← balloc (i_dev ip);
              ondisk (bmodify bp (fun d => put32 d (4 * bn) addr));;
              onlfs (log_write bp);;
              mret addr
            else mret (get32 d (4 * bn)));
    ondisk (brelse bp);;
    mret addr
  else panic "bmap: out of range".

Definition itrunc (i : nat) : M fs () :=
  forM (seqZ 0 NDIRECT) (fun k =>
    ip ← inode_at i;
    when (negb (addr_at ip k =? 0)) (bfree (i_dev ip) (addr_at ip k);; upd_inode i (set_addr k 0)));;
  ip ← inode_at i;
  when (negb (addr_at ip NDIRECT =? 0)) (
    bp ← ondisk (bread (i_dev ip) (addr_at ip NDIRECT));
    d ← ondisk (bdata bp);
    forM (seqZ 0 NINDIRECT) (fun j =>
      when (negb (get32 d (4 * j) =? 0)) (bfree (i_dev ip) (get32 d (4 * j))));;
    ondisk (brelse bp);;
    bfree (i_dev ip) (addr_at ip NDIRECT);;
    upd_inode i (set_addr NDIRECT 0));;
  upd_inode i (set_isize 0);;
  iupdate i.

Definition iput (i : nat) : M fs () :=
  ip ← inode_at i;
  if i_locked ip then blocked else
  upd_inode i (set_ilock true);;
  when (i_valid ip && (i_nlink ip =? 0) && (i_ref ip =? 1)) (
    itrunc i;;
    upd_inode i (set_itype 0);;
    iupdate i;;
    upd_inode i (set_ivalid false));;
  upd_inode i (set_ilock false);;
  upd_inode i (fun ip => set_iref (i_ref ip - 1) ip).

Definition iunlockput (i : nat) : M fs () := iunlock i;; iput i.

Record stat := Stat { st_dev : Z; st_ino : Z; st_type : Z; st_nlink : Z; st_size : Z }.
Definition stati (i : nat) : M fs stat :=
  ip ← inode_at i; mret (Stat (i_dev ip) (i_inum ip) (i_type ip) (i_nlink ip) (i_size ip)).

(** Device files: the entries of [devsw], by major number.  A read gives the
    value [read] returns and the bytes it stores. *)
Record device := Device {
  d_read : option (nat -> Z -> M fs (Z * list Z));
  d_write : option (nat -> list Z -> Z -> M fs Z);
}.

Section contents.
Context (devsw : Z -> device).

Definition valid_major (ip : inode) : bool := negb ((i_major ip <? 0) || (NDEV <=? i_major ip)).

(** The loop of [readi]: the bytes stored to [dst], from [off] on. *)
Fixpoint readi_loop (fuel : nat) (i : nat) (off left : Z) : M fs (list Z) :=
  if left <=? 0 then mret [] else
  match fuel with
  | O => nofuel
  | S fuel' =>
      ip ← inode_at i;
      a ← bmap i (off / BSIZE);
      bp ← ondisk (bread (i_dev ip) a);
      let m := left `min` (BSIZE - off mod BSIZE) in
      d ← ondisk (bdata bp);
      ondisk (brelse bp);;
      rest ← readi_loop fuel' i (off + m) (left - m);
      mret (slice d (off mod BSIZE) m ++ rest)
  end.

Definition readi (i : nat) (off n : Z) : M fs (Z * list Z) :=
  ip ← inode_at i;
  if i_type ip =? T_DEV then
    match d_read (devsw (i_major ip)) with
    | Some read => if valid_major ip then read i n else mret (-1, [])
    | None => mret (-1, [])
    end
  else if (i_size ip <? off) || (u32 (off + n) <? off) then mret (-1, []) else
  let n := if i_size ip <? off + n then i_size ip - off else n in
  bs ← readi_loop (Z.to_nat n) i off n;
  mret (n, bs).

(** The loop of [writei]; it gives the offset it ends at. *)
Fixpoint writei_loop (fuel : nat) (i : nat) (src : list Z) (off left : Z) : M fs Z :=
  if left <=? 0 then mret off else
  match fuel with
  | O => nofuel
  | S fuel' =>
      ip ← inode_at i;
      a ← bmap i (off / BSIZE);
      bp ← ondisk (bread (i_dev ip) a);
      let m := left `min` (BSIZE - off mod BSIZE) in
      ondisk (bmodify bp (fun d => splice d (off mod BSIZE) (slice src 0 m)));;
      onlfs (log_write bp);;
      ondisk (brelse bp);;
      writei_loop fuel' i (drop (Z.to_nat m) src) (off + m) (left - m)
  end.

Definition writei (i : nat) (src : list Z) (off n : Z) : M fs Z :=
  ip ← inode_at i;
  if i_type ip =? T_DEV then
    match d_write (devsw (i_major ip)) with
    | Some write => if valid_major ip then write i src n else mret (-1)
    | None => mret (-1)
    end
  else if (i_size ip <? off) || (u32 (off + n) <? off) then mret (-1) else
  if MAXFILE * BSIZE <? off + n then mret (-1) else
  off' ← writei_loop (Z.to_nat n) i src off n;
  ip ← inode_at i;
  when ((0 <? n) && (i_size ip <? off')) (upd_inode i (set_isize off');; iupdate i);;
  mret n.

(** ** Directories *)

(** [strncmp] on characters given as lists, a NUL standing after the last. *)
Fixpoint strncmp_chars (n : nat) (p q : list Z) : Z :=
  match n with
  | O => 0
  | S n' =>
      let c := hd 0 p in let d := hd 0 q in
      if negb (c =? 0) && (c =? d) then strncmp_chars n' (tl p) (tl q) else c - d
  end.
Definition namecmp (s t : list Z) : Z := strncmp_chars DIRSIZ s t.

(** [strncpy] into a field of [n] characters. *)
Fixpoint strncpy_chars (n : nat) (t : list Z) : list Z :=
  match n with
  | O => []
  | S n' => let c := hd 0 t in c :: (if c =? 0 then replicate n' 0 else strncpy_chars n' (tl t))
  end.

(** [struct dirent]. *)
Definition de_inum (de : list Z) : Z := get16 de 0.
Definition de_name (de : list Z) : list Z := slice de 2 (Z.of_nat DIRSIZ).
Definition make_dirent (name : list Z) (inum : Z) : list Z := put16 (replicate 2 0) 0 inum ++ strncpy_chars DIRSIZ name.

(** The entry found, with its offset. *)
Fixpoint dirlookup_loop (fuel : nat) (dp : nat) (name : list Z) (off : Z) : M fs (option (Z * Z)) :=
  d ← inode_at dp;
  if negb (off <? i_size d) then mret None else
  match fuel with
  | O => nofuel
  | S fuel' =>
      r ← readi dp off DIRENT;
      if negb (fst r =? DIRENT) then panic "dirlookup read" else
      let de := snd r in
      if negb (de_inum de =? 0) && (namecmp name (de_name de) =? 0) then mret (Some (de_inum de, off))
      else dirlookup_loop fuel' dp name (off + DIRENT)
  end.

Definition dirlookup (dp : nat) (name : list Z) : M fs (option (nat * Z)) :=
  d ← inode_at dp;
  if negb (i_type d =? T_DIR) then panic "dirlookup not DIR" else
  r ← dirlookup_loop (S (Z.to_nat (i_size d / DIRENT))) dp name 0;
  match r with
  | None => mret None
  | Some (inum, off) => ip ← iget (i_dev d) inum; mret (Some (ip, off))
  end.

(** The offset of the first empty entry, or the end. *)
Fixpoint empty_dirent (fuel : nat) (dp : nat) (off : Z) : M fs Z :=
  d ← inode_at dp;
  if negb (off <? i_size d) then mret off else
  match fuel with
  | O => nofuel
  | S fuel' =>
      r ← readi dp off DIRENT;
      if negb (fst r =? DIRENT) then panic "dirlink read" else
      if de_inum (snd r) =? 0 then mret off else empty_dirent fuel' dp (off + DIRENT)
  end.

Definition dirlink (dp : nat) (name : list Z) (inum : Z) : M fs Z :=
  r ← dirlookup dp name;
  match r with
  | Some (ip, _) => iput ip;; mret (-1)
  | None =>
      d ← inode_at dp;
      off ← empty_dirent (S (Z.to_nat (i_size d / DIRENT))) dp 0;
      w ← writei dp (make_dirent name inum) off DIRENT;
      if negb (w =? DIRENT) then panic "dirlink" else mret 0
  end.

(** ** Paths *)

Definition SLASH : Z := 47.
Definition skip_slashes (path : list Z) : list Z :=
  match find_index (fun c => negb (c =? SLASH)) path with Some k => drop k path | None => [] end.

(** The next element and the path after it; the element is the string left in
    [name]. *)
Definition skipelem (path : list Z) : option (list Z * list Z) :=
  let path := skip_slashes path in
  match path with
  | [] => None
  | _ =>
      let len := match find_index (fun c => c =? SLASH) path with Some k => k | None => length path end in
      Some (take (len `min` DIRSIZ) path, skip_slashes (drop len path))
  end.

(** The inode with a path's last element, when one is found. *)
Fixpoint namex_loop (fuel : nat) (ip : nat) (path : list Z) (parent : bool) (name : list Z) : M fs (option (nat * list Z)) :=
  match skipelem path with
  | None => if parent then iput ip;; mret None else mret (Some (ip, name))
  | Some (elem, rest) =>
      match fuel with
      | O => nofuel
      | S fuel' =>
          ilock ip;;
          d ← inode_at ip;
          if negb (i_type d =? T_DIR) then iunlockput ip;; mret None else
          if parent && (match rest with [] => true | _ => false end) then iunlock ip;; mret (Some (ip, elem)) else
          r ← dirlookup ip elem;
          match r with
          | None => iunlockput ip;; mret None
          | Some (next, _) => iunlockput ip;; namex_loop fuel' next rest parent elem
          end
      end
  end.

Definition namex (cwd : nat) (path : list Z) (parent : bool) : M fs (option (nat * list Z)) :=
  ip ← (if hd 0 path =? SLASH then iget ROOTDEV ROOTINO else idup cwd);
  namex_loop (length path) ip path parent [].

Definition namei (cwd : nat) (path : list Z) : M fs (option nat) :=
  r ← namex cwd path false; mret (fst <$> r).
Definition nameiparent (cwd : nat) (path : list Z) : M fs (option (nat * list Z)) := namex cwd path true.
End contents.

(** ** Numbers in file names *)

Fixpoint digits_rev (fuel : nat) (i : Z) : list Z :=
  match fuel with
  | O => []
  | S fuel' => (48 + i mod 10) :: (if i / 10 =? 0 then [] else digits_rev fuel' (i / 10))
  end.

(** [itoa]: the characters it writes, without the terminating NUL.  A number of
    31 bits has at most ten digits; [-2147483648] stays negative under
    [i *= -1] and is not such a number. *)
Definition itoa (i : Z) : list Z :=
  if i <? 0 then 45 :: rev (digits_rev 10 (- i)) else rev (digits_rev 10 i).

(** The path of a process's swap file. *)
Definition swap_path (pid : Z) : list Z := [47; 46; 115; 119; 97; 112] ++ itoa pid.
