(* ===== verification/FsBlock.v ===== *)
(** * Block allocation, verified

    The file system's invariant between its steps, the rules for block access
    lifted to it, and what [balloc] and [bfree] do to the bitmap. *)

From S2P Require Import Prelude Bytes Bio Log Txn Fs.

Local Open Scope kern_scope.

(** The contents of the blocks as the file system sees them. *)
Definition fview (s : fs) : Z -> block := view (f_lfs s).

(** The layout the superblock describes: log, inodes, bitmap, then data from
    block [meta] on. *)
Record geometry (sb : superblock) (meta : Z) (l : log) (disksize : Z) : Prop := {
  ge_log : 1 < lg_start l /\ lg_start l + lg_size l <= sb_inodestart sb;
  ge_inodes : forall inum, 0 <= inum < sb_ninodes sb -> IBLOCK inum sb < sb_bmapstart sb;
  ge_start : sb_inodestart sb <= sb_bmapstart sb < meta;
  ge_bitmap : forall b, 0 <= b < sb_size sb -> BBLOCK b sb < meta;
  ge_size : meta <= sb_size sb <= disksize;
}.

Record fbase (s : fs) (meta : Z) (held : list nat) : Prop := {
  fb_log : linv (f_lfs s) held;
  fb_geo : geometry (f_sb s) meta (l_log (f_lfs s)) (c_disksize (l_bio (f_lfs s)));
}.

(** A step of the file system with the block updates [W] and the inode cache
    as it was. *)
Record fstep (s s' : fs) (W : list (Z * block)) : Prop := {
  fs_lstep : lstep (f_lfs s) (f_lfs s') W;
  fs_sb : f_sb s' = f_sb s;
  fs_icache : f_icache s' = f_icache s;
}.

Definition fholds (s : fs) (i : nat) (n : Z) : Prop := holds (f_lfs s) i n.
Definition log_room (s : fs) : Z := lg_size (l_log (f_lfs s)) - 1 - lg_n (l_log (f_lfs s)).

Lemma fstep_refl s : fstep s s [].
Proof. split; [apply lstep_refl|done|done]. Qed.

Lemma fstep_trans s1 s2 s3 W1 W2 : fstep s1 s2 W1 -> fstep s2 s3 W2 -> fstep s1 s3 (W1 ++ W2).
Proof. intros [A1 A2 A3] [B1 B2 B3]. split; [by eapply lstep_trans|congruence|congruence]. Qed.

Lemma fstep_view s s' W m : fstep s s' W -> fview s' m = after W (fview s) m.
Proof. intros H. apply (ls_view _ _ _ (fs_lstep _ _ _ H)). Qed.

Lemma fstep_room s s' W : fstep s s' W -> log_room s' >= log_room s - Z.of_nat (length W).
Proof.
  intros H. pose proof (fs_lstep _ _ _ H) as L. destruct (ls_log _ _ _ L) as [bs E]. pose proof (ls_n _ _ _ L).
  unfold log_room. rewrite E at 1. cbn [set_head lg_size]. lia.
Qed.

(** Inside an operation, with room for [k] more blocks in its transaction. *)
Definition can_log (s : fs) (k : Z) : Prop := 1 <= lg_outstanding (l_log (f_lfs s)) /\ k <= log_room s.

Lemma can_log_step s s' W k : fstep s s' W -> can_log s k -> can_log s' (k - Z.of_nat (length W)).
Proof.
  intros Hs [Ho Hk]. pose proof (fstep_room _ _ _ Hs). destruct (ls_log _ _ _ (fs_lstep _ _ _ Hs)) as [bs E].
  split; [by rewrite E|lia].
Qed.

Lemma can_log_le s k k' : can_log s k -> k' <= k -> can_log s k'.
Proof. intros [H1 H2] H. split; [done|lia]. Qed.

Lemma onlfs_Ok {A} (m : M lfs A) s a l : m (f_lfs s) = Ok a l -> onlfs m s = Ok a (set_lfs l s).
Proof. intros E. unfold onlfs, zoom. by rewrite E. Qed.

(** The invariant carries over a step. *)
Lemma fbase_step s l' W meta held held' : fbase s meta held -> lstep (f_lfs s) l' W -> linv l' held' -> fbase (set_lfs l' s) meta held'.
Proof.
  intros [Hl Hg] Hs Hl'. destruct (ls_log _ _ _ Hs) as [bs E]. split; cbn [set_lfs f_lfs f_sb].
  - done.
  - rewrite (ls_dsize _ _ _ Hs). destruct Hg as [G1 G2 G3 G4 G5]. split; try done. by rewrite E.
Qed.

Lemma fstep_set s l' W : lstep (f_lfs s) l' W -> fstep s (set_lfs l' s) W.
Proof. done. Qed.

Section rules.
Context (meta : Z).

(** A buffer in use stays the buffer of its block. *)
Lemma fholds_back s s' held held' j n : fbase s meta held -> fbase s' meta held' -> (forall m, fholds s j m -> fholds s' j m) ->
  fholds s' j n -> fholds s j n.
Proof.
  intros Hf Hf' Hk (b' & Hb' & <-). destruct (lookup_lt_is_Some_2 (c_bufs (l_bio (f_lfs s))) j) as [b Hb].
  { rewrite (bi_len _ _ (li_inv _ _ (fb_log _ _ _ Hf))), <- (bi_len _ _ (li_inv _ _ (fb_log _ _ _ Hf'))). by eapply lookup_lt_Some. }
  destruct (Hk (b_blockno b)) as (b'' & Hb'' & E); [by exists b|]. simplify_eq. by exists b.
Qed.

Lemma bread_f s held n : fbase s meta held -> 0 <= n < c_disksize (l_bio (f_lfs s)) -> (forall i, i ∈ held -> ~ fholds s i n) ->
  Z.of_nat (length held) <= log_room s ->
  exists i s', ondisk (bread 1 n) s = Ok i s' /\ fbase s' meta (i :: held) /\ fstep s s' [] /\ fholds s' i n /\
    forall j m, j ∈ held -> fholds s j m -> fholds s' j m.
Proof.
  intros Hb Hn Hh Hr. pose proof (li_size _ _ (fb_log _ _ _ Hb)) as Hsz. unfold log_room, LOGSIZE in *.
  destruct (bread_l (f_lfs s) held n (fb_log _ _ _ Hb) Hn Hh) as (i & l' & E & Hni & Hl' & Hst & El & Hi & Hkeep); [unfold NBUF; lia|].
  exists i, (set_lfs l' s). split; [by apply onlfs_Ok|]. split; [by eapply fbase_step|]. split; [by apply fstep_set|]. done.
Qed.

Lemma bdata_f s held i n : fbase s meta held -> i ∈ held -> fholds s i n -> ondisk (bdata i) s = Ok (fview s n) s.
Proof.
  intros Hb Hin Hh. unfold ondisk. rewrite (onlfs_Ok _ _ _ _ (bdata_l _ _ _ _ (fb_log _ _ _ Hb) Hin Hh)). by destruct s.
Qed.

Lemma brelse_f s held i n : fbase s meta (i :: held) -> fholds s i n ->
  exists s', ondisk (brelse i) s = Ok () s' /\ fbase s' meta held /\ fstep s s' [] /\ forall j m, j ∈ held -> fholds s j m -> fholds s' j m.
Proof.
  intros Hb Hh. destruct (brelse_l _ _ _ _ (fb_log _ _ _ Hb) Hh) as (l' & E & Hl' & Hst & El & Hkeep).
  exists (set_lfs l' s). split; [by apply onlfs_Ok|]. split; [by eapply fbase_step|]. done.
Qed.

Lemma update_f s held i n f : fbase s meta held -> i ∈ held -> fholds s i n -> ~ in_log (l_log (f_lfs s)) n -> can_log s 1 ->
  exists s', (forall A (k : M fs A), (ondisk (bmodify i f);; onlfs (log_write i);; k) s = k s') /\
    fbase s' meta held /\ fstep s s' [(n, f (fview s n))] /\ forall j m, fholds s j m -> fholds s' j m.
Proof.
  intros Hb Hin Hh Hnl [Ho Hr]. unfold log_room in Hr.
  destruct (update_l (f_lfs s) held i n f (fb_log _ _ _ Hb) Hin Hh Hnl) as (l' & E & Hl' & Hst & Hkeep); [lia|done|].
  exists (set_lfs l' s). split; [|split; [by eapply fbase_step|done]]. intros A k. revert E. unfold ondisk, onlfs, zoom, mbind, M_bind, bindM.
  destruct (onbio (bmodify i f) (f_lfs s)) as [[] l1| | | |]; try done. cbn [set_lfs f_lfs]. intros E. by rewrite E.
Qed.

(** [bp = bread(n); bp->data = f(bp->data); log_write(bp); brelse(bp)]. *)
Lemma rewrite_block s held n f : fbase s meta held -> 0 <= n < c_disksize (l_bio (f_lfs s)) -> (forall i, i ∈ held -> ~ fholds s i n) ->
  ~ in_log (l_log (f_lfs s)) n -> can_log s (1 + Z.of_nat (length held)) ->
  exists s', (bp ← ondisk (bread 1 n); ondisk (bmodify bp f);; onlfs (log_write bp);; ondisk (brelse bp)) s = Ok () s' /\
    fbase s' meta held /\ fstep s s' [(n, f (fview s n))] /\ forall j m, j ∈ held -> fholds s j m -> fholds s' j m.
Proof.
  intros Hb Hn Hh Hnl Hr. destruct (bread_f s held n Hb Hn Hh ltac:(destruct Hr; lia)) as (i & s1 & E1 & Hb1 & Hs1 & Hi1 & Hk1).
  destruct (ls_log _ _ _ (fs_lstep _ _ _ Hs1)) as [bs El]. pose proof (can_log_step _ _ _ _ Hs1 Hr) as Hr1. cbn [length] in Hr1.
  destruct (update_f s1 (i :: held) i n f Hb1) as (s2 & E2 & Hb2 & Hs2 & Hk2); [apply list_elem_of_here|done| |apply (can_log_le _ _ _ Hr1); lia|].
  { unfold in_log in *. by rewrite El. }
  destruct (brelse_f s2 held i n Hb2 (Hk2 _ _ Hi1)) as (s3 & E3 & Hb3 & Hs3 & Hk3).
  exists s3. split; [|split; [done|split]].
  - by rewrite (Ok_bind _ _ _ _ _ E1), E2.
  - pose proof (fstep_trans _ _ _ _ _ Hs1 (fstep_trans _ _ _ _ _ Hs2 Hs3)) as Hs. cbn [app] in Hs.
    by rewrite (fstep_view _ _ _ n Hs1) in Hs.
  - intros j m Hj Hjm. apply Hk3; [done|]. by apply Hk2, Hk1.
Qed.
End rules.

(** ** Bitmap blocks *)

Definition bit_ok (bi : Z) : Prop := 0 <= bi < BPB.

Lemma bit_mask_pow bi : bit_mask bi = 2 ^ (bi mod 8).
Proof. unfold bit_mask. pose proof (Z.mod_pos_bound bi 8). by rewrite Z.shiftl_mul_pow2, Z.mul_1_l by lia. Qed.

Lemma bit_set_testbit d bi : bit_set d bi = Z.testbit (get8 d (bi / 8)) (bi mod 8).
Proof. unfold bit_set. rewrite bit_mask_pow. apply has_pow2. pose proof (Z.mod_pos_bound bi 8). lia. Qed.

(** Changing a byte's bits at [bi / 8] to those of [f]. *)
Lemma bit_set_put d bi bj v : length d = 512%nat -> bit_ok bi -> bit_ok bj ->
  bit_set (put8 d (bi / 8) v) bj = if bi / 8 =? bj / 8 then Z.testbit v (bj mod 8) else bit_set d bj.
Proof.
  unfold bit_ok, BPB, BSIZE. intros Hd Hi Hj. rewrite !bit_set_testbit, get8_put8 by (Z.div_mod_to_equations; lia).
  case_cmp; [|done]. change 256 with (2 ^ 8). apply Z.mod_pow2_bits_low. pose proof (Z.mod_pos_bound bj 8). lia.
Qed.

Lemma same_bit bi bj : bi / 8 = bj / 8 -> (bi mod 8 =? bj mod 8) = (bi =? bj).
Proof. intros E. case_cmp; try done; Z.div_mod_to_equations; lia. Qed.

Lemma bit_set_mark d bi bj : length d = 512%nat -> bit_ok bi -> bit_ok bj ->
  bit_set (mark d bi) bj = (bi =? bj) || bit_set d bj.
Proof.
  intros Hd Hi Hj. unfold mark. rewrite bit_set_put by done. destruct (Z.eqb_spec (bi / 8) (bj / 8)) as [E|E].
  - rewrite Z.lor_spec, bit_mask_pow, Z.pow2_bits_eqb, same_bit, bit_set_testbit, E by (try done; pose proof (Z.mod_pos_bound bi 8); lia).
    apply orb_comm.
  - destruct (Z.eqb_spec bi bj); [congruence|done].
Qed.

Lemma bit_set_unmark d bi bj : length d = 512%nat -> bytes_ok d -> bit_ok bi -> bit_ok bj ->
  bit_set (unmark d bi) bj = negb (bi =? bj) && bit_set d bj.
Proof.
  intros Hd Hb Hi Hj. unfold unmark. pose proof (get8_range d (bi / 8) Hb). rewrite bit_set_put by done. destruct (Z.eqb_spec (bi / 8) (bj / 8)) as [E|E].
  - rewrite land_not32 by (unfold is_u32, two32; lia).
    rewrite Z.ldiff_spec, bit_mask_pow, Z.pow2_bits_eqb, same_bit, bit_set_testbit, E by (try done; pose proof (Z.mod_pos_bound bi 8); lia).
    apply andb_comm.
  - destruct (Z.eqb_spec bi bj); [congruence|done].
Qed.

Lemma free_bit_Some d b size bi : free_bit d b size = Some bi ->
  Z.of_nat bi < BPB `min` (size - b) /\ bit_set d (Z.of_nat bi) = false /\ forall j, 0 <= j < Z.of_nat bi -> bit_set d j = true.
Proof.
  unfold free_bit. intros [(x & Hx & Hp) Hmin]%find_index_Some. apply lookup_seqZ in Hx as [-> Hlt]. rewrite Z.add_0_l in Hp. split; [lia|].
  split; [by apply negb_true_iff in Hp|]. intros j Hj. destruct (bit_set d j) eqn:E; [done|].
  assert (Hj' : seqZ 0 (BPB `min` (size - b)) !! Z.to_nat j = Some j) by (apply lookup_seqZ; lia).
  pose proof (Hmin (Z.to_nat j) j ltac:(lia) Hj') as F. cbn in F. by rewrite E in F.
Qed.

Lemma free_bit_None d b size : free_bit d b size = None -> forall j, 0 <= j < BPB `min` (size - b) -> bit_set d j = true.
Proof.
  unfold free_bit. rewrite find_index_None. intros H j Hj.
  assert (Hj' : seqZ 0 (BPB `min` (size - b)) !! Z.to_nat j = Some j) by (apply lookup_seqZ; lia).
  apply H in Hj'. by apply negb_false_iff in Hj'.
Qed.

(** ** Allocation *)

(** Block [b] is marked in the bitmap. *)
Definition used (sb : superblock) (v : Z -> block) (b : Z) : bool := bit_set (v (BBLOCK b sb)) (b mod BPB).

(** Every block is a block of bytes, and the blocks before the data are in use. *)
Record blocks_ok (sb : superblock) (meta : Z) (v : Z -> block) : Prop := {
  bo_len : forall m, length (v m) = 512%nat;
  bo_bytes : forall m, bytes_ok (v m);
  bo_meta : forall b, 0 <= b < meta -> used sb v b = true;
}.

Lemma bit_ok_mod b : bit_ok (b mod BPB).
Proof. apply Z.mod_pos_bound. done. Qed.

Lemma same_place sb b b' : BBLOCK b sb = BBLOCK b' sb -> (b mod BPB =? b' mod BPB) = (b =? b').
Proof. unfold BBLOCK, BPB, BSIZE. intros E. case_cmp; try done; Z.div_mod_to_equations; lia. Qed.

(** The updates of [balloc] and [bfree]. *)
Definition alloc_updates (sb : superblock) (v : Z -> block) (b : Z) : list (Z * block) :=
  [(BBLOCK b sb, mark (v (BBLOCK b sb)) (b mod BPB)); (b, zero_block)].
Definition free_updates (sb : superblock) (v : Z -> block) (b : Z) : list (Z * block) :=
  [(BBLOCK b sb, unmark (v (BBLOCK b sb)) (b mod BPB))].

Lemma zero_block_ok : length zero_block = 512%nat /\ bytes_ok zero_block.
Proof. split; [done|]. apply Forall_replicate. lia. Qed.

(** Views are compared block by block. *)
Notation "v ≐ w" := (pointwise_relation Z eq v w) (at level 70) : kern_scope.

#[export] Instance used_proper sb : Proper (pointwise_relation Z eq ==> eq ==> eq) (used sb).
Proof. intros v w E b b' <-. unfold used. by rewrite (E _). Qed.

#[export] Instance blocks_ok_proper sb meta : Proper (pointwise_relation Z eq ==> iff) (blocks_ok sb meta).
Proof.
  intros v w E. split; intros [H1 H2 H3]; split; intros m; rewrite ?(E m) || rewrite <- ?(E m); try done; intros Hm; [rewrite <- E|rewrite E]; by apply H3.
Qed.

#[export] Instance alloc_updates_proper sb : Proper (pointwise_relation Z eq ==> eq ==> eq) (alloc_updates sb).
Proof. intros v w E b b' <-. unfold alloc_updates. by rewrite (E _). Qed.

#[export] Instance free_updates_proper sb : Proper (pointwise_relation Z eq ==> eq ==> eq) (free_updates sb).
Proof. intros v w E b b' <-. unfold free_updates. by rewrite (E _). Qed.

#[export] Instance after_proper W : Proper (pointwise_relation Z eq ==> pointwise_relation Z eq) (after W).
Proof. intros v w E m. by apply after_ext. Qed.

Lemma fstep_views s s' W : fstep s s' W -> fview s' ≐ after W (fview s).
Proof. intros H m. by apply fstep_view. Qed.

Lemma after_alloc sb v b m : after (alloc_updates sb v b) v m =
  if decide (m = b) then zero_block else if decide (m = BBLOCK b sb) then mark (v (BBLOCK b sb)) (b mod BPB) else v m.
Proof. done. Qed.

Lemma after_free sb v b m : after (free_updates sb v b) v m = if decide (m = BBLOCK b sb) then unmark (v (BBLOCK b sb)) (b mod BPB) else v m.
Proof. done. Qed.

Lemma used_alloc sb meta v b b' : blocks_ok sb meta v -> meta <= b -> BBLOCK b' sb < meta ->
  used sb (after (alloc_updates sb v b) v) b' = (b =? b') || used sb v b'.
Proof.
  intros Hv Hb Hb'. unfold used. rewrite after_alloc, decide_False by lia. case_decide as E.
  - rewrite bit_set_mark by (apply Hv || apply bit_ok_mod). by rewrite (same_place sb), E.
  - destruct (Z.eqb_spec b b') as [<-|]; done.
Qed.

Lemma used_free sb meta v b b' : blocks_ok sb meta v ->
  used sb (after (free_updates sb v b) v) b' = negb (b =? b') && used sb v b'.
Proof.
  intros Hv. unfold used. rewrite after_free. case_decide as E.
  - rewrite bit_set_unmark by (apply Hv || apply bit_ok_mod). by rewrite (same_place sb), E.
  - destruct (Z.eqb_spec b b') as [<-|]; done.
Qed.

Lemma blocks_ok_alloc sb meta v b : blocks_ok sb meta v -> meta <= b -> (forall b', 0 <= b' < meta -> BBLOCK b' sb < meta) ->
  blocks_ok sb meta (after (alloc_updates sb v b) v).
Proof.
  intros Hv Hb Hlow. split.
  - intros m. rewrite after_alloc. repeat case_decide; [done| |apply Hv]. unfold mark. rewrite put8_length. apply Hv.
  - intros m. rewrite after_alloc. repeat case_decide; [apply zero_block_ok|apply put8_bytes|]; apply Hv.
  - intros b' Hb'. rewrite (used_alloc sb meta) by auto. by rewrite (bo_meta _ _ _ Hv), orb_true_r.
Qed.

Lemma blocks_ok_free sb meta v b : blocks_ok sb meta v -> meta <= b -> blocks_ok sb meta (after (free_updates sb v b) v).
Proof.
  intros Hv Hb. split.
  - intros m. rewrite after_free. case_decide; [|apply Hv]. unfold unmark. rewrite put8_length. apply Hv.
  - intros m. rewrite after_free. case_decide; [apply put8_bytes|]; apply Hv.
  - intros b' Hb'. rewrite (used_free sb meta) by done. rewrite (bo_meta _ _ _ Hv) by done.
    destruct (Z.eqb_spec b b'); [lia|done].
Qed.

(** ** [balloc] and [bfree] *)

Section alloc.
Context (meta : Z).

(** The buffers in use are of data blocks, which are marked. *)
Definition held_data (s : fs) (held : list nat) : Prop :=
  forall i n, i ∈ held -> fholds s i n -> meta <= n /\ used (f_sb s) (fview s) n = true.

Definition first_free (sb : superblock) (v : Z -> block) (b : Z) : Prop :=
  0 <= b < sb_size sb /\ used sb v b = false /\ forall b', 0 <= b' < b -> used sb v b' = true.

#[local] Instance first_free_proper sb : Proper (pointwise_relation Z eq ==> eq ==> iff) (first_free sb).
Proof. intros v w E b b' <-. unfold first_free. by setoid_rewrite E. Qed.

Lemma bitmap_block s held b : fbase s meta held -> 0 <= b < sb_size (f_sb s) ->
  0 <= BBLOCK b (f_sb s) < c_disksize (l_bio (f_lfs s)) /\ ~ in_log (l_log (f_lfs s)) (BBLOCK b (f_sb s)) /\ BBLOCK b (f_sb s) < meta.
Proof.
  intros [Hl [G1 G2 G3 G4 G5]] Hb. specialize (G4 b Hb). pose proof (li_n _ _ Hl). pose proof (Z.div_pos b BPB ltac:(lia) ltac:(done)).
  unfold BBLOCK, in_log in *. split; [|split; [|done]]; lia.
Qed.

Lemma data_block s held b : fbase s meta held -> meta <= b < sb_size (f_sb s) ->
  0 <= b < c_disksize (l_bio (f_lfs s)) /\ ~ in_log (l_log (f_lfs s)) b.
Proof.
  intros Hf Hb. pose proof (li_n _ _ (fb_log _ _ _ Hf)). destruct (ge_size _ _ _ _ (fb_geo _ _ _ Hf)).
  destruct (ge_log _ _ _ _ (fb_geo _ _ _ Hf)). pose proof (ge_start _ _ _ _ (fb_geo _ _ _ Hf)).
  unfold in_log. lia.
Qed.

Lemma bzero_run s held b : fbase s meta held -> meta <= b < sb_size (f_sb s) -> (forall i, i ∈ held -> ~ fholds s i b) ->
  can_log s (1 + Z.of_nat (length held)) ->
  exists s', bzero 1 b s = Ok () s' /\ fbase s' meta held /\ fstep s s' [(b, zero_block)] /\ forall j m, j ∈ held -> fholds s j m -> fholds s' j m.
Proof.
  intros Hf Hb Hh Hr. destruct (data_block _ _ _ Hf Hb) as [Hd Hnl].
  exact (rewrite_block meta s held b (fun _ => zero_block) Hf Hd Hh Hnl Hr).
Qed.

Lemma used_step s s' b : fstep s s' [] -> used (f_sb s) (fview s') b = used (f_sb s) (fview s) b.
Proof. intros Hs. by rewrite (fstep_views _ _ _ Hs). Qed.

Lemma sb_step s s' W : fstep s s' W -> f_sb s' = f_sb s /\ c_disksize (l_bio (f_lfs s')) = c_disksize (l_bio (f_lfs s)).
Proof. intros Hs. split; [apply Hs|apply (ls_dsize _ _ _ (fs_lstep _ _ _ Hs))]. Qed.

Lemma in_log_step s s' W n : fstep s s' W -> in_log (l_log (f_lfs s')) n <-> in_log (l_log (f_lfs s)) n.
Proof. intros Hs. destruct (ls_log _ _ _ (fs_lstep _ _ _ Hs)) as [bs E]. unfold in_log. by rewrite E. Qed.

(** The bits of the block at which [balloc] looks, and the blocks they stand for. *)
Lemma used_bit sb v b bi : b mod BPB = 0 -> 0 <= bi < BPB -> used sb v (b + bi) = bit_set (v (BBLOCK b sb)) bi.
Proof.
  change BPB with 4096 in *. intros Hb Hbi. unfold used, BBLOCK. change BPB with 4096.
  replace ((b + bi) / 4096) with (b / 4096) by (Z.div_mod_to_equations; lia).
  by replace ((b + bi) mod 4096) with bi by (Z.div_mod_to_equations; lia).
Qed.

(** One block of the bitmap is read, and a clear bit in it is taken. *)
Lemma balloc_take s held b bi i n : fbase s meta (i :: held) -> blocks_ok (f_sb s) meta (fview s) -> held_data s held ->
  n = BBLOCK (b + bi) (f_sb s) -> fholds s i n -> first_free (f_sb s) (fview s) (b + bi) -> bi = (b + bi) mod BPB ->
  can_log s (2 + Z.of_nat (length held)) ->
  exists s', (ondisk (bmodify i (fun d => mark d bi));; onlfs (log_write i);; ondisk (brelse i);; bzero 1 (b + bi);; mret (b + bi)) s = Ok (b + bi) s' /\
    fbase s' meta held /\ fstep s s' (alloc_updates (f_sb s) (fview s) (b + bi)) /\ forall j m, j ∈ held -> fholds s j m -> fholds s' j m.
Proof.
  intros Hf Hv Hhd -> Hi (Hr & Hfree & _) Ebi Hroom. destruct (bitmap_block _ _ _ Hf Hr) as (Hn & Hnl & Hm).
  assert (Hbm : meta <= b + bi).
  { destruct (Z.le_gt_cases meta (b + bi)); [done|]. rewrite (bo_meta _ _ _ Hv) in Hfree by lia. done. }
  destruct (update_f meta s (i :: held) i (BBLOCK (b + bi) (f_sb s)) (fun d => mark d bi) Hf) as (s1 & E1 & Hb1 & Hs1 & Hk1); [apply list_elem_of_here|done|done|apply (can_log_le _ _ _ Hroom); lia|].
  destruct (brelse_f meta s1 held i (BBLOCK (b + bi) (f_sb s)) Hb1 (Hk1 _ _ Hi)) as (s2 & E2 & Hb2 & Hs2 & Hk2).
  pose proof (fstep_trans _ _ _ _ _ Hs1 Hs2) as Hs12. pose proof (can_log_step _ _ _ _ Hs12 Hroom) as R. cbn [app length] in R.
  destruct (sb_step _ _ _ Hs12) as [Esb _].
  destruct (bzero_run s2 held (b + bi) Hb2) as (s3 & E3 & Hb3 & Hs3 & Hk3); [rewrite Esb; lia| |apply (can_log_le _ _ _ R); lia|].
  { intros j Hj Hh. destruct (Hhd j (b + bi) Hj) as [_ Hu]; [|by rewrite Hu in Hfree]. apply (fholds_back meta s s2 _ _ _ _ Hf Hb2); auto. }
  exists s3. rewrite E1, (Ok_bind _ _ _ _ _ E2), (Ok_bind _ _ _ _ _ E3). split; [done|]. split; [done|]. split.
  - unfold alloc_updates. rewrite <- Ebi. apply (fstep_trans _ _ _ [_] [_] Hs12 Hs3).
  - intros j m Hj Hjm. by apply Hk3, Hk2, Hk1.
Qed.

(** A block of the bitmap is read: no buffer in use is of it. *)
Lemma bread_bitmap s held b : fbase s meta held -> held_data s held -> 0 <= b < sb_size (f_sb s) -> Z.of_nat (length held) <= log_room s ->
  exists i s', (forall A (k : nat -> block -> M fs A), (bp ← ondisk (bread 1 (BBLOCK b (f_sb s))); d ← ondisk (bdata bp); k bp d) s = k i (fview s (BBLOCK b (f_sb s))) s') /\
    fbase s' meta (i :: held) /\ fstep s s' [] /\ fholds s' i (BBLOCK b (f_sb s)) /\ (forall j m, j ∈ held -> fholds s j m -> fholds s' j m).
Proof.
  intros Hf Hhd Hb Hr. destruct (bitmap_block _ _ _ Hf Hb) as (Hn & Hnl & Hm).
  destruct (bread_f meta s held (BBLOCK b (f_sb s)) Hf Hn) as (i & s1 & E1 & Hb1 & Hs1 & Hi1 & Hk1); [|done|].
  { intros j Hj Hh. destruct (Hhd j _ Hj Hh). lia. }
  exists i, s1. split; [|done]. intros A k. rewrite (Ok_bind _ _ _ _ _ E1).
  rewrite (Ok_bind _ _ _ _ _ (bdata_f meta _ _ _ _ Hb1 (list_elem_of_here _ _) Hi1)). by rewrite (fstep_view _ _ _ _ Hs1).
Qed.

Lemma held_data_step s s' held held' : fbase s meta held -> fbase s' meta held' -> fstep s s' [] ->
  (forall j m, j ∈ held -> fholds s j m -> fholds s' j m) -> held_data s held -> held_data s' held.
Proof.
  intros Hf Hf' Hs Hk Hhd j n Hj Hh. rewrite (proj1 (sb_step _ _ _ Hs)), (used_step _ _ _ Hs). apply (Hhd j); [done|].
  apply (fholds_back meta s s' held held'); auto.
Qed.

Lemma balloc_loop_run fuel : forall s held b, fbase s meta held -> blocks_ok (f_sb s) meta (fview s) -> held_data s held ->
  0 <= b -> b mod BPB = 0 -> (forall b', 0 <= b' < b -> b' < sb_size (f_sb s) -> used (f_sb s) (fview s) b' = true) ->
  (exists b0, 0 <= b0 < sb_size (f_sb s) /\ used (f_sb s) (fview s) b0 = false) ->
  sb_size (f_sb s) - b <= Z.of_nat fuel * BPB -> can_log s (2 + Z.of_nat (length held)) ->
  exists c s', balloc_loop fuel 1 b s = Ok c s' /\ first_free (f_sb s) (fview s) c /\ fbase s' meta held /\
    fstep s s' (alloc_updates (f_sb s) (fview s) c) /\ forall j m, j ∈ held -> fholds s j m -> fholds s' j m.
Proof.
  induction fuel as [|fuel IH]; intros s held b Hf Hv Hhd Hb0 Hb Hlow (b0 & Hb0r & Hb0f) Hfuel Hroom.
  all: assert (b <= b0) by (destruct (Z.le_gt_cases b b0); [done|]; rewrite Hlow in Hb0f by lia; done).
  { change BPB with 4096 in *. lia. }
  cbn [balloc_loop]. change (get ≫= ?k) with (fun s => k s s). cbn beta.
  replace (negb (b <? sb_size (f_sb s))) with false by (case_cmp; [done|lia]).
  destruct (bread_bitmap s held b Hf Hhd ltac:(lia) ltac:(destruct Hroom; lia)) as (i & s1 & E1 & Hf1 & Hs1 & Hi1 & Hk1). rewrite E1. clear E1.
  destruct (sb_step _ _ _ Hs1) as [Esb _]. pose proof (can_log_step _ _ _ _ Hs1 Hroom) as R1. cbn [length] in R1.
  pose proof (held_data_step _ _ _ _ Hf Hf1 Hs1 Hk1 Hhd) as Hhd1.
  destruct (free_bit _ b _) as [bi|] eqn:Efb.
  - apply free_bit_Some in Efb as (Hlt & Hbi & Hbefore). pose proof (used_bit (f_sb s) (fview s) b) as Hbits.
    assert (Hff : first_free (f_sb s) (fview s) (b + Z.of_nat bi)).
    { split; [lia|]. split; [rewrite Hbits by lia; done|]. intros b' Hb'. destruct (Z.lt_ge_cases b' b); [apply Hlow; lia|].
      replace b' with (b + (b' - b)) by lia. rewrite Hbits by lia. apply Hbefore. lia. }
    pose proof (fstep_views _ _ _ Hs1) as Ev. change (after [] (fview s)) with (fview s) in Ev. change BPB with 4096 in *.
    destruct (balloc_take s1 held b (Z.of_nat bi) i (BBLOCK b (f_sb s)) Hf1) as (s2 & E2 & Hf2 & Hs2 & Hk2); rewrite ?Esb, ?Ev; try done.
    { unfold BBLOCK. change BPB with 4096. f_equal. Z.div_mod_to_equations; lia. }
    { change BPB with 4096. Z.div_mod_to_equations; lia. }
    { apply (can_log_le _ _ _ R1); lia. }
    exists (b + Z.of_nat bi), s2. split; [done|]. split; [done|]. split; [done|]. split; [|by eauto].
    rewrite Esb, Ev in Hs2. by apply (fstep_trans _ _ _ [] _ Hs1 Hs2).
  - pose proof (free_bit_None _ _ _ Efb) as Hall. destruct (brelse_f meta s1 held i _ Hf1 Hi1) as (s2 & E2 & Hf2 & Hs2 & Hk2).
    rewrite (Ok_bind _ _ _ _ _ E2). pose proof (fstep_trans _ _ _ [] [] Hs1 Hs2) as Hs02. pose proof (fstep_views _ _ _ Hs02) as Ev.
    change (after ([] ++ []) (fview s)) with (fview s) in Ev. destruct (sb_step _ _ _ Hs02) as [Esb2 _].
    pose proof (can_log_step _ _ _ _ Hs02 Hroom) as R2. cbn [length app] in R2. pose proof (fun bi => used_bit (f_sb s) (fview s) b bi Hb) as Hbits.
    pose proof (held_data_step _ _ _ _ Hf Hf2 Hs02 ltac:(eauto) Hhd) as Hhd2. change BPB with 4096 in *.
    destruct (IH s2 held (b + 4096) Hf2) as (c & s3 & E3 & Hff & Hf3 & Hs3 & Hk3); rewrite ?Esb2, ?Ev; try done; try lia.
    { Z.div_mod_to_equations; lia. }
    { intros b' Hb' Hsz. rewrite Ev. destruct (Z.lt_ge_cases b' b); [apply Hlow; lia|].
      replace b' with (b + (b' - b)) by lia. rewrite Hbits by lia. apply Hall. change BPB with 4096. lia. }
    { exists b0. rewrite Ev. done. }
    { apply (can_log_le _ _ _ R2); lia. }
    exists c, s3. rewrite Esb2, Ev in Hff, Hs3. split; [done|]. split; [done|]. split; [done|]. split; [|by eauto].
    by apply (fstep_trans _ _ _ [] _ Hs02 Hs3).
Qed.

Lemma balloc_run s held : fbase s meta held -> blocks_ok (f_sb s) meta (fview s) -> held_data s held ->
  (exists b0, 0 <= b0 < sb_size (f_sb s) /\ used (f_sb s) (fview s) b0 = false) -> can_log s (2 + Z.of_nat (length held)) ->
  exists c s', balloc 1 s = Ok c s' /\ first_free (f_sb s) (fview s) c /\ fbase s' meta held /\
    fstep s s' (alloc_updates (f_sb s) (fview s) c) /\ forall j m, j ∈ held -> fholds s j m -> fholds s' j m.
Proof.
  intros Hf Hv Hhd Hex Hr. apply (balloc_loop_run _ s held 0); try done; [intros; lia|]. change BPB with 4096.
  destruct Hex as (b0 & Hb0 & _). Z.div_mod_to_equations; lia.
Qed.

Lemma bfree_run s held b : fbase s meta held -> held_data s held -> 0 <= b < sb_size (f_sb s) -> used (f_sb s) (fview s) b = true ->
  can_log s (1 + Z.of_nat (length held)) ->
  exists s', bfree 1 b s = Ok () s' /\ fbase s' meta held /\ fstep s s' (free_updates (f_sb s) (fview s) b) /\
    forall j m, j ∈ held -> fholds s j m -> fholds s' j m.
Proof.
  intros Hf Hhd Hb Hu Hr. destruct (bread_bitmap s held b Hf Hhd Hb ltac:(destruct Hr; lia)) as (i & s1 & E1 & Hf1 & Hs1 & Hi1 & Hk1).
  destruct (bitmap_block _ _ _ Hf Hb) as (_ & Hnl & _). pose proof (can_log_step _ _ _ _ Hs1 Hr) as R1. cbn [length] in R1.
  destruct (update_f meta s1 (i :: held) i _ (fun d => unmark d (b mod BPB)) Hf1 (list_elem_of_here _ _) Hi1) as (s2 & E2 & Hf2 & Hs2 & Hk2).
  { by rewrite (in_log_step _ _ _ _ Hs1). }
  { apply (can_log_le _ _ _ R1); lia. }
  destruct (brelse_f meta s2 held i _ Hf2 (Hk2 _ _ Hi1)) as (s3 & E3 & Hf3 & Hs3 & Hk3). exists s3. split; [|split; [done|split]].
  - unfold bfree. change (get ≫= ?k) with (fun s => k s s). cbn beta. rewrite E1. unfold used in Hu. rewrite Hu. cbn [negb]. by rewrite E2.
  - rewrite (fstep_view _ _ _ _ Hs1) in Hs2. apply (fstep_trans _ _ _ [] _ Hs1 (fstep_trans _ _ _ [_] [] Hs2 Hs3)).
  - intros j m Hj Hjm. by apply Hk3, Hk2, Hk1.
Qed.

(** A bitmap with nothing free stops [balloc]; freeing a free block stops
    [bfree]. *)
Lemma bfree_panics s held b : fbase s meta held -> held_data s held -> 0 <= b < sb_size (f_sb s) -> used (f_sb s) (fview s) b = false ->
  Z.of_nat (length held) <= log_room s -> bfree 1 b s = Panic "freeing free block".
Proof.
  intros Hf Hhd Hb Hu Hr. destruct (bread_bitmap s held b Hf Hhd Hb ltac:(lia)) as (i & s1 & E1 & _).
  unfold bfree. change (get ≫= ?k) with (fun s => k s s). cbn beta. rewrite E1. unfold used in Hu. by rewrite Hu.
Qed.
End alloc.

(** ** Counting the free blocks *)

Definition nfree (sb : superblock) (v : Z -> block) : nat := length (filter (fun b => used sb v b = false) (seqZ 0 (sb_size sb))).

#[export] Instance nfree_proper sb : Proper (pointwise_relation Z eq ==> eq) (nfree sb).
Proof. intros v w E. unfold nfree. f_equal. apply list_filter_iff. intros b. by rewrite E. Qed.

Lemma nfree_pos sb v : (0 < nfree sb v)%nat -> exists b, 0 <= b < sb_size sb /\ used sb v b = false.
Proof.
  unfold nfree. destruct (filter _ _) as [|b l] eqn:E; cbn [length]; [lia|]. intros _. exists b.
  assert (Hb : b ∈ filter (fun b => used sb v b = false) (seqZ 0 (sb_size sb))) by (rewrite E; apply list_elem_of_here).
  apply list_elem_of_filter in Hb as [Hu Hb]. apply elem_of_seqZ in Hb. split; [lia|done].
Qed.

Lemma nfree_take sb v v' c : 0 <= c < sb_size sb -> used sb v c = false ->
  (forall b, 0 <= b < sb_size sb -> used sb v' b = (c =? b) || used sb v b) -> nfree sb v = S (nfree sb v').
Proof.
  intros Hc Hu Hv. unfold nfree. change (S (length ?l)) with (length (c :: l)). apply Permutation_length, NoDup_Permutation.
  - apply NoDup_filter, NoDup_seqZ.
  - apply NoDup_cons. split; [|apply NoDup_filter, NoDup_seqZ]. rewrite list_elem_of_filter, Hv, Z.eqb_refl by done. by intros [? _].
  - intros b. rewrite elem_of_cons, !list_elem_of_filter, !elem_of_seqZ. destruct (Z.eqb_spec c b) as [<-|Hne].
    + split; [by left|]. intros _. split; [done|lia].
    + split.
      * intros [Hb Hr]. right. split; [|done]. rewrite Hv by lia. apply Z.eqb_neq in Hne. by rewrite Hne.
      * intros [->|[Hb Hr]]; [done|]. rewrite Hv in Hb by lia. apply orb_false_iff in Hb as [_ Hb]. done.
Qed.

Lemma nfree_ext sb v v' : (forall b, 0 <= b < sb_size sb -> used sb v' b = used sb v b) -> nfree sb v' = nfree sb v.
Proof.
  intros E. unfold nfree. apply Permutation_length, NoDup_Permutation; try apply NoDup_filter, NoDup_seqZ.
  intros b. rewrite !list_elem_of_filter, !elem_of_seqZ. split; intros [Hu Hb]; (split; [|done]); [rewrite <- E|rewrite E]; done || lia.
Qed.
