(* ===== verification/FsFile.v ===== *)
(** * File contents, verified

    What an inode's block addresses mean, and that [bmap], [readi] and [writei]
    read and write a file's bytes and nothing else. *)

From S2P Require Import Prelude Bytes Bio Log Txn Fs FsBlock.

Local Open Scope kern_scope.

(** ** A file as the bytes it holds *)

(** The block that holds block [bn] of the file, 0 if none. *)
Definition baddr (v : Z -> block) (ip : inode) (bn : Z) : Z :=
  if bn <? NDIRECT then addr_at ip bn
  else if addr_at ip NDIRECT =? 0 then 0 else get32 (v (addr_at ip NDIRECT)) (4 * (bn - NDIRECT)).

Definition fbyte (v : Z -> block) (ip : inode) (off : Z) : Z :=
  let a := baddr v ip (off / BSIZE) in if a =? 0 then 0 else get8 (v a) (off mod BSIZE).

Definition bn_ok (bn : Z) : Prop := 0 <= bn < MAXFILE.
Definition off_ok (off : Z) : Prop := 0 <= off < MAXFILE * BSIZE.

(** The blocks of the file. *)
Definition owns (v : Z -> block) (ip : inode) (m : Z) : Prop :=
  m <> 0 /\ (m = addr_at ip NDIRECT \/ exists bn, bn_ok bn /\ m = baddr v ip bn).

Record file_ok (sb : superblock) (meta : Z) (v : Z -> block) (ip : inode) : Prop := {
  fo_dev : i_dev ip = 1;
  fo_len : length (i_addrs ip) = 13%nat;
  fo_own : forall m, owns v ip m -> meta <= m < sb_size sb /\ used sb v m = true;
  fo_inj : forall bn bn', bn_ok bn -> bn_ok bn' -> baddr v ip bn <> 0 -> baddr v ip bn = baddr v ip bn' -> bn = bn';
  fo_ind : forall bn, bn_ok bn -> addr_at ip NDIRECT <> 0 -> baddr v ip bn <> addr_at ip NDIRECT;
}.

Definition set_addrs (l : list Z) (ip : inode) : inode :=
  Inode (i_dev ip) (i_inum ip) (i_ref ip) (i_locked ip) (i_valid ip) (i_type ip) (i_major ip) (i_minor ip) (i_nlink ip) (i_size ip) l.

(** A change to a file that takes at most [k] free blocks and leaves the
    blocks in use by others as they are. *)
Record frame (sb : superblock) (meta : Z) (k : nat) (v : Z -> block) (ip : inode) (v' : Z -> block) (ip' : inode) : Prop := {
  fr_ok : file_ok sb meta v' ip';
  fr_blocks : blocks_ok sb meta v';
  fr_same : ip' = set_addrs (i_addrs ip') ip;
  fr_addr : forall bn, bn_ok bn -> baddr v ip bn <> 0 -> baddr v' ip' bn <> 0;
  fr_used : forall m, meta <= m < sb_size sb -> used sb v m = true -> used sb v' m = true;
  fr_owns : forall m, owns v' ip' m -> owns v ip m \/ used sb v m = false;
  fr_keep : forall m, m < sb_bmapstart sb \/ (meta <= m < sb_size sb /\ used sb v m = true /\ ~ owns v ip m) -> v' m = v m;
  fr_free : (nfree sb v <= nfree sb v' + k)%nat;
}.

(** Blocks are added to the file, full of zeros. *)
Definition fills (v : Z -> block) (ip : inode) (v' : Z -> block) (ip' : inode) : Prop :=
  forall bn, bn_ok bn ->
    (baddr v' ip' bn = baddr v ip bn /\ (baddr v ip bn <> 0 -> v' (baddr v ip bn) = v (baddr v ip bn))) \/
    (baddr v ip bn = 0 /\ baddr v' ip' bn <> 0 /\ v' (baddr v' ip' bn) = zero_block).

Ltac fsizes := unfold bn_ok, off_ok in *; change MAXFILE with 140 in *; change NDIRECT with 12 in *; change BSIZE with 512 in *.

#[export] Instance baddr_proper : Proper (pointwise_relation Z eq ==> eq ==> eq ==> eq) baddr.
Proof. intros v w E ip ? <- bn ? <-. unfold baddr. by rewrite (E _). Qed.

#[export] Instance fbyte_proper : Proper (pointwise_relation Z eq ==> eq ==> eq ==> eq) fbyte.
Proof. intros v w E ip ? <- o ? <-. unfold fbyte. rewrite (baddr_proper v w E ip ip eq_refl _ _ eq_refl). by rewrite (E _). Qed.

#[export] Instance owns_proper : Proper (pointwise_relation Z eq ==> eq ==> eq ==> iff) owns.
Proof. intros v w E ip ? <- m ? <-. unfold owns. by setoid_rewrite E. Qed.

#[export] Instance file_ok_proper sb meta : Proper (pointwise_relation Z eq ==> eq ==> iff) (file_ok sb meta).
Proof.
  assert (H : forall v w ip, v ≐ w -> file_ok sb meta v ip -> file_ok sb meta w ip).
  { intros v w ip E [H1 H2 H3 H4 H5]. split; [done|done|by setoid_rewrite <- E|by setoid_rewrite <- E|by setoid_rewrite <- E]. }
  intros v w E ip ? <-. split; by apply H.
Qed.

#[export] Instance frame_proper sb meta k :
  Proper (pointwise_relation Z eq ==> eq ==> pointwise_relation Z eq ==> eq ==> iff) (frame sb meta k).
Proof.
  assert (H : forall v w ip v' w' ip', v ≐ w -> v' ≐ w' -> frame sb meta k v ip v' ip' -> frame sb meta k w ip w' ip').
  { intros v w ip v' w' ip' E E' [H1 H2 H3 H4 H5 H6 H7 H8].
    split; [by rewrite <- E'|by rewrite <- E'|done|..|by rewrite <- E, <- E']; setoid_rewrite <- E; by setoid_rewrite <- E'. }
  intros v w E ip ? <- v' w' E' ip' ? <-. split; by apply H.
Qed.

#[export] Instance fills_proper : Proper (pointwise_relation Z eq ==> eq ==> pointwise_relation Z eq ==> eq ==> iff) fills.
Proof.
  assert (H : forall v w ip v' w' ip', v ≐ w -> v' ≐ w' -> fills v ip v' ip' -> fills w ip w' ip').
  { intros v w ip v' w' ip' E E' Hf bn Hbn. specialize (Hf bn Hbn).
    rewrite (baddr_proper v w E ip ip eq_refl bn bn eq_refl), (baddr_proper v' w' E' ip' ip' eq_refl bn bn eq_refl), (E _), !(E' _) in Hf. done. }
  intros v w E ip ? <- v' w' E' ip' ? <-. split; by apply H.
Qed.

Lemma get8_zero o : get8 zero_block o = 0.
Proof. unfold get8, zero_block. rewrite nth_lookup. destruct (replicate _ _ !! _) eqn:E; [|done]. by apply lookup_replicate in E as [-> _]. Qed.

Lemma get32_zero o : get32 zero_block o = 0.
Proof. unfold get32, get16. by rewrite !get8_zero. Qed.

Lemma off_bn off : off_ok off -> bn_ok (off / BSIZE).
Proof. intros. fsizes. Z.div_mod_to_equations; lia. Qed.

Lemma fills_bytes v ip v' ip' off : fills v ip v' ip' -> off_ok off -> fbyte v' ip' off = fbyte v ip off.
Proof.
  intros Hf Ho. unfold fbyte. destruct (Hf _ (off_bn _ Ho)) as [(E & Ev)|(E & En & Ez)].
  - rewrite E. case_cmp; [done|]. by rewrite Ev.
  - rewrite E, Z.eqb_refl. case_cmp; [done|]. by rewrite Ez, get8_zero.
Qed.

Lemma fills_refl v ip : fills v ip v ip.
Proof. intros bn _. by left. Qed.

Lemma fills_trans v1 ip1 v2 ip2 v3 ip3 : fills v1 ip1 v2 ip2 -> fills v2 ip2 v3 ip3 -> fills v1 ip1 v3 ip3.
Proof.
  intros H12 H23 bn Hbn. destruct (H12 bn Hbn) as [(E1 & V1)|(E1 & N1 & Z1)], (H23 bn Hbn) as [(E2 & V2)|(E2 & N2 & Z2)].
  - left. split; [congruence|]. intros Hn. rewrite <- E1, V2, E1 by congruence. by apply V1.
  - right. split; [congruence|done].
  - right. rewrite E2. split; [done|]. split; [done|]. by rewrite V2.
  - congruence.
Qed.

Lemma frame_refl sb meta v ip : file_ok sb meta v ip -> blocks_ok sb meta v -> frame sb meta 0 v ip v ip.
Proof. intros. split; try done; first [by destruct ip|by left|lia]. Qed.

Lemma frame_trans sb meta k1 k2 v1 ip1 v2 ip2 v3 ip3 :
  frame sb meta k1 v1 ip1 v2 ip2 -> frame sb meta k2 v2 ip2 v3 ip3 -> frame sb meta (k1 + k2) v1 ip1 v3 ip3.
Proof.
  intros A B. split; [apply B|apply B|..].
  - rewrite (fr_same _ _ _ _ _ _ _ B) at 1. rewrite (fr_same _ _ _ _ _ _ _ A). done.
  - intros bn Hbn Hn. apply B; [done|]. by apply A.
  - intros m Hm Hu. apply (fr_used _ _ _ _ _ _ _ B); [done|]. by apply (fr_used _ _ _ _ _ _ _ A).
  - intros m Ho. destruct (fr_owns _ _ _ _ _ _ _ B m Ho) as [Hm|Hm]; [by apply (fr_owns _ _ _ _ _ _ _ A)|]. right. destruct (used sb v1 m) eqn:E; [|done].
    rewrite (fr_used _ _ _ _ _ _ _ A) in Hm; [done| |done]. by apply (fo_own _ _ _ _ (fr_ok _ _ _ _ _ _ _ B)).
  - intros m Hm. rewrite (fr_keep _ _ _ _ _ _ _ B), (fr_keep _ _ _ _ _ _ _ A); [done|done|]. destruct Hm as [Hm|(Hm & Hu & Hno)]; [by left|].
    right. split; [done|]. split; [by apply (fr_used _ _ _ _ _ _ _ A)|]. intros [?|?]%(fr_owns _ _ _ _ _ _ _ A); congruence.
  - pose proof (fr_free _ _ _ _ _ _ _ A). pose proof (fr_free _ _ _ _ _ _ _ B). lia.
Qed.

(** ** Installing a new block *)

Section install.
Context (sb : superblock) (meta : Z) (v : Z -> block) (ip : inode) (c : Z) (v' : Z -> block) (ip' : inode).
Context (Hok : file_ok sb meta v ip) (Hc : 0 < meta /\ meta <= c < sb_size sb) (Hfree : used sb v c = false).
Context (Hb' : blocks_ok sb meta v') (Hzero : v' c = zero_block).
Context (Hused : forall b, 0 <= b < sb_size sb -> used sb v' b = (c =? b) || used sb v b).
Context (Hkeep : forall m, m < sb_bmapstart sb \/ meta <= m -> m <> c -> (m = addr_at ip NDIRECT -> m = 0) -> v' m = v m).
Context (Hsame : ip' = set_addrs (i_addrs ip') ip) (Hlen : length (i_addrs ip') = 13%nat) (Hlow : sb_bmapstart sb <= meta).
Context (Haddr : forall bn, bn_ok bn -> baddr v' ip' bn = baddr v ip bn \/ (baddr v ip bn = 0 /\ baddr v' ip' bn = c)).
Context (Hind : addr_at ip' NDIRECT = addr_at ip NDIRECT \/ (addr_at ip NDIRECT = 0 /\ addr_at ip' NDIRECT = c)).
Context (Honce : forall bn bn', bn_ok bn -> bn_ok bn' -> baddr v' ip' bn = c -> baddr v' ip' bn' = c -> bn = bn').
Context (Hapart : forall bn, bn_ok bn -> baddr v' ip' bn = c -> addr_at ip' NDIRECT <> c).

Lemma install_fresh : ~ owns v ip c.
Proof. intros Ho. apply (fo_own _ _ _ _ Hok) in Ho as [_ Hu]. congruence. Qed.

Lemma install_owns m : owns v' ip' m -> owns v ip m \/ m = c.
Proof.
  intros [Hm [->|(bn & Hbn & ->)]].
  - destruct Hind as [E|[_ E]]; [|by right]. rewrite E in *. left. split; [done|by left].
  - destruct (Haddr bn Hbn) as [E|[_ E]]; [|by right]. rewrite E in *. left. split; [done|]. right. by exists bn.
Qed.

Lemma install_old bn : bn_ok bn -> baddr v' ip' bn <> c -> baddr v' ip' bn = baddr v ip bn.
Proof. intros Hbn Hn. by destruct (Haddr bn Hbn) as [E|[_ E]]. Qed.

Lemma install_ok : file_ok sb meta v' ip'.
Proof.
  split.
  - rewrite Hsame. apply Hok.
  - done.
  - intros m [Ho| ->]%install_owns.
    + destruct (fo_own _ _ _ _ Hok m Ho) as [Hr Hu]. split; [done|]. by rewrite Hused, Hu, orb_true_r by lia.
    + split; [lia|]. by rewrite Hused, Z.eqb_refl by lia.
  - intros bn bn' Hbn Hbn' Hn E. destruct (Z.eq_dec (baddr v' ip' bn) c) as [Ec|Ec]; [apply Honce; congruence|].
    pose proof (install_old bn Hbn Ec). pose proof (install_old bn' Hbn' ltac:(congruence)). apply (fo_inj _ _ _ _ Hok); congruence.
  - intros bn Hbn Hn E. destruct (Z.eq_dec (baddr v' ip' bn) c) as [Ec|Ec]; [apply (Hapart bn); congruence|].
    pose proof (install_old bn Hbn Ec). destruct Hind as [Ei|[_ Ei]]; [|congruence]. apply (fo_ind _ _ _ _ Hok bn Hbn); congruence.
Qed.

Lemma install_frame : frame sb meta 1 v ip v' ip'.
Proof.
  split; try done; [apply install_ok|..].
  - intros bn Hbn Hn. destruct (Haddr bn Hbn) as [E|[E _]]; [by rewrite E|done].
  - intros m Hm Hu. by rewrite Hused, Hu, orb_true_r by lia.
  - intros m [Hm| ->]%install_owns; auto.
  - intros m Hm. apply Hkeep; [destruct Hm as [?|(? & _)]; [by left|right; lia]|..].
    + intros ->. destruct Hm as [?|(_ & ? & _)]; [lia|congruence].
    + intros E. destruct (Z.eq_dec m 0) as [|E0]; [done|]. assert (Ho : owns v ip m) by (split; [done|by left]).
      destruct Hm as [Hm|(_ & _ & Hno)]; [|done]. destruct (fo_own _ _ _ _ Hok m Ho). lia.
  - rewrite (nfree_take sb v v' c); try done; lia.
Qed.

Lemma install_fills : fills v ip v' ip'.
Proof.
  intros bn Hbn. destruct (Haddr bn Hbn) as [E|[E0 E]]; [left|right; rewrite E; split; [done|split; [lia|done]]].
  split; [done|]. intros Hn. assert (Ho : owns v ip (baddr v ip bn)) by (split; [done|]; right; by exists bn).
  destruct (fo_own _ _ _ _ Hok _ Ho). apply Hkeep; [right; lia| |].
  - intros Ec. apply install_fresh. by rewrite <- Ec.
  - intros E'. destruct (Z.eq_dec (addr_at ip NDIRECT) 0); [congruence|]. by destruct (fo_ind _ _ _ _ Hok bn Hbn).
Qed.
End install.

Lemma addr_set ip k a k' : length (i_addrs ip) = 13%nat -> 0 <= k < 13 -> 0 <= k' < 13 ->
  addr_at (set_addr k a ip) k' = if k =? k' then a else addr_at ip k'.
Proof.
  intros Hl Hk Hk'. unfold addr_at, set_addr. cbn [i_addrs]. rewrite !nth_lookup. case_cmp.
  - subst. by rewrite list_lookup_insert_eq by lia.
  - by rewrite list_lookup_insert_ne by lia.
Qed.

Lemma set_addr_same k a ip : set_addr k a ip = set_addrs (i_addrs (set_addr k a ip)) ip.
Proof. done. Qed.

Lemma baddr_ext v v' ip bn : (addr_at ip NDIRECT <> 0 -> v' (addr_at ip NDIRECT) = v (addr_at ip NDIRECT)) -> baddr v' ip bn = baddr v ip bn.
Proof. intros E. unfold baddr. case_bool; [done|]. destruct (Z.eqb_spec (addr_at ip NDIRECT) 0); [done|]. by rewrite E. Qed.

(** The superblock's layout, as far as allocation depends on it. *)
Record layout (sb : superblock) (meta : Z) : Prop := {
  ly_pos : 0 <= sb_bmapstart sb < meta;
  ly_bitmap : forall b, 0 <= b < sb_size sb -> sb_bmapstart sb <= BBLOCK b sb < meta;
  ly_meta : meta <= sb_size sb;
}.

Lemma geometry_layout s meta held : fbase s meta held -> layout (f_sb s) meta.
Proof.
  intros Hf. pose proof (fb_geo _ _ _ Hf) as [G1 G2 G3 G4 G5]. pose proof (li_n _ _ (fb_log _ _ _ Hf)). split; [lia| |lia].
  intros b Hb. specialize (G4 b Hb). pose proof (Z.div_pos b BPB ltac:(lia) ltac:(done)). unfold BBLOCK in *. lia.
Qed.

(** A data block is written. *)
Lemma data_update sb meta v v' a d : layout sb meta -> blocks_ok sb meta v -> meta <= a -> length d = 512%nat -> bytes_ok d ->
  (forall m, v' m = after [(a, d)] v m) ->
  blocks_ok sb meta v' /\ (forall b, 0 <= b < sb_size sb -> used sb v' b = used sb v b) /\ v' a = d /\ forall m, m <> a -> v' m = v m.
Proof.
  intros Hly Hb Ha Hl Hd Hv'. assert (Hat : v' a = d) by (rewrite Hv'; unfold after; cbn; by rewrite decide_True).
  assert (Hne : forall m, m <> a -> v' m = v m) by (intros m Hm; rewrite Hv'; unfold after; cbn; by rewrite decide_False).
  assert (Hu : forall b, 0 <= b < sb_size sb -> used sb v' b = used sb v b).
  { intros b Hbr. unfold used. pose proof (ly_bitmap _ _ Hly b Hbr). by rewrite Hne by lia. }
  split; [|done]. split.
  - intros m. destruct (Z.eq_dec m a) as [->|]; [by rewrite Hat|rewrite Hne by done; apply Hb].
  - intros m. destruct (Z.eq_dec m a) as [->|]; [by rewrite Hat|rewrite Hne by done; apply Hb].
  - intros b Hbr. pose proof (ly_meta _ _ Hly). rewrite Hu by lia. by apply Hb.
Qed.

Section fresh.
Context (sb : superblock) (meta : Z) (v : Z -> block) (ip : inode) (c : Z) (v1 : Z -> block).
Context (Hly : layout sb meta) (Hb : blocks_ok sb meta v) (Hok : file_ok sb meta v ip) (Hff : first_free sb v c).
Context (Hv1 : v1 ≐ after (alloc_updates sb v c) v).

Lemma fresh_range : 0 < meta /\ meta <= c < sb_size sb.
Proof.
  destruct Hff as (Hr & Hu & _). pose proof (ly_pos _ _ Hly). split; [lia|]. split; [|lia].
  destruct (Z.le_gt_cases meta c); [done|]. rewrite (bo_meta _ _ _ Hb) in Hu by lia. done.
Qed.

Lemma fresh_used b : 0 <= b < sb_size sb -> used sb v1 b = (c =? b) || used sb v b.
Proof. intros Hr. rewrite Hv1. apply (used_alloc sb meta); [done|apply fresh_range|by apply Hly]. Qed.

Lemma fresh_keep m : m < sb_bmapstart sb \/ meta <= m -> m <> c -> v1 m = v m.
Proof.
  intros Hm Hc. rewrite (Hv1 m), after_alloc, decide_False, decide_False; [done| |done].
  destruct (ly_bitmap _ _ Hly c); [destruct fresh_range; pose proof (ly_pos _ _ Hly); lia|lia].
Qed.

Lemma fresh_zero : v1 c = zero_block.
Proof. by rewrite (Hv1 c), after_alloc, decide_True. Qed.

Lemma fresh_blocks : blocks_ok sb meta v1.
Proof.
  rewrite Hv1. apply blocks_ok_alloc; [done|apply fresh_range|]. intros b Hr. apply Hly. pose proof (ly_meta _ _ Hly). lia.
Qed.

Lemma fresh_own m : owns v ip m -> m <> c /\ v1 m = v m.
Proof.
  intros Ho. assert (m <> c) as Hne by (intros ->; apply (fo_own _ _ _ _ Hok) in Ho as [_ Hu]; destruct Hff as (_ & Hf & _); congruence).
  split; [done|]. apply fresh_keep; [|done]. apply (fo_own _ _ _ _ Hok) in Ho. lia.
Qed.

Lemma fresh_ind : addr_at ip NDIRECT <> 0 -> addr_at ip NDIRECT <> c /\ v1 (addr_at ip NDIRECT) = v (addr_at ip NDIRECT).
Proof. intros Hn. apply fresh_own. split; [done|by left]. Qed.

Lemma fresh_addr bn : bn_ok bn -> baddr v ip bn <> c.
Proof.
  intros Hbn E. pose proof fresh_range. destruct (fresh_own c) as [? _]; [|done]. split; [lia|]. right. by exists bn.
Qed.

(** The new block gets one place in the file. *)
Lemma fresh_install v' ip' : blocks_ok sb meta v' -> (forall m, v' m = v1 m \/ (m = addr_at ip NDIRECT /\ m <> 0)) ->
  ip' = set_addrs (i_addrs ip') ip -> length (i_addrs ip') = 13%nat ->
  (forall bn, bn_ok bn -> baddr v' ip' bn = baddr v ip bn \/ (baddr v ip bn = 0 /\ baddr v' ip' bn = c)) ->
  addr_at ip' NDIRECT = addr_at ip NDIRECT \/ (addr_at ip NDIRECT = 0 /\ addr_at ip' NDIRECT = c) ->
  (forall bn bn', bn_ok bn -> bn_ok bn' -> baddr v' ip' bn = c -> baddr v' ip' bn' = c -> bn = bn') ->
  (forall bn, bn_ok bn -> baddr v' ip' bn = c -> addr_at ip' NDIRECT <> c) ->
  frame sb meta 1 v ip v' ip' /\ fills v ip v' ip'.
Proof.
  intros Hb' Hv' Hsame Hlen Haddr Hind Honce Hapart. pose proof fresh_range as Hr. pose proof (ly_pos _ _ Hly).
  assert (Hown : forall m, m = addr_at ip NDIRECT -> m <> 0 -> meta <= m /\ m <> c).
  { intros m -> Hm. assert (Ho : owns v ip (addr_at ip NDIRECT)) by (split; [done|by left]). pose proof (fo_own _ _ _ _ Hok _ Ho).
    apply fresh_own in Ho. lia. }
  assert (Hfree : used sb v c = false) by apply Hff.
  assert (Hzero : v' c = zero_block).
  { destruct (Hv' c) as [->|[E Hm]]; [apply fresh_zero|]. apply Hown in E as [_ ?]; done. }
  assert (Hused : forall b, 0 <= b < sb_size sb -> used sb v' b = (c =? b) || used sb v b).
  { intros b Hbr. rewrite <- fresh_used by done. unfold used. destruct (Hv' (BBLOCK b sb)) as [->|[E Hm]]; [done|].
    apply Hown in E as [? _]; [|done]. pose proof (ly_bitmap _ _ Hly b Hbr). lia. }
  assert (Hkeep : forall m, m < sb_bmapstart sb \/ meta <= m -> m <> c -> (m = addr_at ip NDIRECT -> m = 0) -> v' m = v m).
  { intros m Hm Hc Hi. rewrite <- fresh_keep by done. destruct (Hv' m) as [|[E Hn]]; [done|]. tauto. }
  split; [eapply install_frame|eapply install_fills]; try done; lia.
Qed.

(** [ip->addrs[bn] = addr = balloc(ip->dev)]. *)
Lemma install_direct bn : 0 <= bn < NDIRECT -> addr_at ip bn = 0 ->
  let ip' := set_addr bn c ip in (frame sb meta 1 v ip v1 ip' /\ fills v ip v1 ip') /\
    addr_at ip' NDIRECT = addr_at ip NDIRECT /\ forall b, bn_ok b -> baddr v1 ip' b = if bn =? b then c else baddr v ip b.
Proof.
  intros Hbn E0 ip'. pose proof (fo_len _ _ _ _ Hok) as Hlen. pose proof fresh_range as Hrange. unfold NDIRECT in Hbn.
  assert (Hind : addr_at ip' NDIRECT = addr_at ip NDIRECT).
  { unfold ip'. rewrite addr_set by (unfold NDIRECT; lia). unfold NDIRECT. case_cmp; [lia|done]. }
  assert (Hbase : forall b, bn_ok b -> baddr v1 ip' b = if bn =? b then c else baddr v ip b).
  { intros b Hb0. rewrite <- (baddr_ext v v1 ip b) by (intros Hn; apply fresh_ind, Hn). unfold baddr. rewrite Hind. unfold NDIRECT, bn_ok in *.
    unfold ip'. destruct (Z.ltb_spec b 12); [by rewrite addr_set by lia|]. destruct (Z.eqb_spec bn b); [lia|done]. }
  assert (bn_ok bn) by (fsizes; lia).
  assert (Hcn : forall b, bn_ok b -> baddr v1 ip' b = c -> b = bn).
  { intros b Hb0. rewrite Hbase by done. case_cmp; [done|]. intros E. by apply fresh_addr in E. }
  split; [apply fresh_install|by split].
  - apply fresh_blocks.
  - by left.
  - done.
  - unfold ip'. cbn [set_addr i_addrs]. by rewrite length_insert.
  - intros b Hb0. rewrite Hbase by done. case_cmp; [right|by left]. subst. unfold baddr, NDIRECT. destruct (Z.ltb_spec b 12); [done|lia].
  - by left.
  - intros b b' H1 H2 H3 H4. apply Hcn in H3, H4; congruence.
  - intros b _ _. rewrite Hind. destruct (Z.eq_dec (addr_at ip NDIRECT) 0); [lia|by apply fresh_ind].
Qed.

(** [ip->addrs[NDIRECT] = addr = balloc(ip->dev)]. *)
Lemma install_indirect : addr_at ip NDIRECT = 0 ->
  let ip' := set_addr NDIRECT c ip in (frame sb meta 1 v ip v1 ip' /\ fills v ip v1 ip') /\ addr_at ip' NDIRECT = c /\
    forall bn, bn_ok bn -> baddr v1 ip' bn = baddr v ip bn.
Proof.
  intros E0 ip'. pose proof (fo_len _ _ _ _ Hok) as Hlen. pose proof fresh_range as Hrange.
  assert (Hind : addr_at ip' NDIRECT = c) by (unfold ip'; rewrite addr_set by (unfold NDIRECT; lia); by rewrite Z.eqb_refl).
  assert (Hbase : forall b, bn_ok b -> baddr v1 ip' b = baddr v ip b).
  { intros b Hb0. unfold baddr. rewrite Hind, E0, fresh_zero, get32_zero. unfold NDIRECT, bn_ok in *. unfold ip'.
    destruct (Z.ltb_spec b 12); [|by case_bool]. rewrite addr_set by (unfold NDIRECT; lia). unfold NDIRECT. case_cmp; [lia|done]. }
  split; [apply fresh_install|done].
  - apply fresh_blocks.
  - by left.
  - done.
  - unfold ip'. cbn [set_addr i_addrs]. by rewrite length_insert.
  - intros b Hb0. left. by apply Hbase.
  - by right.
  - intros b b' H1 H2 H3 H4. rewrite Hbase in H3 by done. by apply fresh_addr in H3.
  - intros b H1 H2. rewrite Hbase in H2 by done. by apply fresh_addr in H2.
Qed.

(** [a[bn] = addr = balloc(ip->dev)] in the indirect block. *)
Lemma install_entry bn v2 : NDIRECT <= bn < MAXFILE -> addr_at ip NDIRECT <> 0 -> baddr v ip bn = 0 -> c < two32 ->
  (forall m, v2 m = after [(addr_at ip NDIRECT, put32 (v1 (addr_at ip NDIRECT)) (4 * (bn - NDIRECT)) c)] v1 m) ->
  (frame sb meta 1 v ip v2 ip /\ fills v ip v2 ip) /\ forall b, bn_ok b -> baddr v2 ip b = if bn =? b then c else baddr v ip b.
Proof.
  intros Hbn Hn E0 Hw Hv2. pose proof fresh_range as Hrange. destruct (fresh_ind Hn) as [Hne Hsame].
  assert (Hat : v2 (addr_at ip NDIRECT) = put32 (v (addr_at ip NDIRECT)) (4 * (bn - NDIRECT)) c).
  { rewrite Hv2. unfold after. cbn [foldl fst snd]. by rewrite decide_True, Hsame. }
  assert (Hother : forall m, m <> addr_at ip NDIRECT -> v2 m = v1 m).
  { intros m Hm. rewrite Hv2. unfold after. cbn [foldl fst snd]. by rewrite decide_False. }
  assert (Hbase : forall b, bn_ok b -> baddr v2 ip b = if bn =? b then c else baddr v ip b).
  { intros b Hb0. unfold baddr. rewrite Hat. pose proof (bo_len _ _ _ Hb (addr_at ip NDIRECT)) as Hl.
    fsizes. destruct (Z.ltb_spec b 12); [by destruct (Z.eqb_spec bn b); [lia|]|].
    destruct (Z.eqb_spec (addr_at ip 12) 0); [done|]. destruct (Z.eqb_spec bn b) as [<-|].
    - rewrite get32_put32 by lia. apply u32_small. unfold is_u32. lia.
    - by rewrite get32_put32_ne by lia. }
  assert (Hcn : forall b, bn_ok b -> baddr v2 ip b = c -> b = bn).
  { intros b Hb0. rewrite Hbase by done. case_cmp; [done|]. intros E. by apply fresh_addr in E. }
  assert (bn_ok bn) by (fsizes; lia).
  split; [apply fresh_install|exact Hbase]; try done.
  - eapply (data_update sb meta v1 v2 (addr_at ip NDIRECT)); try done; [apply fresh_blocks|..].
    + destruct (fo_own _ _ _ _ Hok (addr_at ip NDIRECT)); [split; [done|by left]|lia].
    + rewrite put32_length. apply fresh_blocks.
    + apply put32_bytes, fresh_blocks.
  - intros m. destruct (Z.eq_dec m (addr_at ip NDIRECT)) as [->|Hm]; [by right|left; by apply Hother].
  - by destruct ip.
  - apply Hok.
  - intros b Hb0. rewrite Hbase by done. case_cmp; [right; by subst|by left].
  - by left.
  - intros b b' H1 H2 H3 H4. apply Hcn in H3, H4; congruence.
Qed.
End fresh.

(** ** [bmap] *)

(** A step of an operation on inode [i], which becomes [ip']. *)
Record istep (i : nat) (ip' : inode) (s s' : fs) (W : list (Z * block)) : Prop := {
  is_lstep : lstep (f_lfs s) (f_lfs s') W;
  is_sb : f_sb s' = f_sb s;
  is_cache : f_icache s' = <[i := ip']> (f_icache s);
}.

Lemma istep_fstep i ip s s' W : f_icache s !! i = Some ip -> fstep s s' W -> istep i ip s s' W.
Proof. intros Hi [H1 H2 H3]. split; try done. by rewrite list_insert_id. Qed.

Lemma istep_trans i ip1 ip2 s s1 s2 W1 W2 : istep i ip1 s s1 W1 -> istep i ip2 s1 s2 W2 -> istep i ip2 s s2 (W1 ++ W2).
Proof.
  intros [A1 A2 A3] [B1 B2 B3]. split; [by eapply lstep_trans|congruence|]. by rewrite B3, A3, list_insert_insert_eq.
Qed.

Lemma istep_at i ip ip' s s' W : f_icache s !! i = Some ip -> istep i ip' s s' W -> f_icache s' !! i = Some ip'.
Proof. intros Hi H. rewrite (is_cache _ _ _ _ _ H). apply list_lookup_insert_eq. by eapply lookup_lt_Some. Qed.

Lemma istep_views i ip' s s' W : istep i ip' s s' W -> fview s' ≐ after W (fview s).
Proof. intros H m. apply (ls_view _ _ _ (is_lstep _ _ _ _ _ H)). Qed.

Lemma istep_can_log i ip' s s' W k : istep i ip' s s' W -> can_log s k -> can_log s' (k - Z.of_nat (length W)).
Proof. intros [H1 H2 _] Hk. apply (can_log_step (set_icache [] s) (set_icache [] s') W k); [by split|done]. Qed.

Lemma inode_at_Ok s i ip : f_icache s !! i = Some ip -> inode_at i s = Ok ip s.
Proof. intros Hi. unfold inode_at. by rewrite Hi. Qed.

Lemma upd_inode_run s i ip f meta held : f_icache s !! i = Some ip -> fbase s meta held ->
  exists s', upd_inode i f s = Ok () s' /\ fbase s' meta held /\ istep i (f ip) s s' [] /\ fview s' = fview s /\ f_lfs s' = f_lfs s.
Proof.
  intros Hi [H1 H2]. exists (set_icache (<[i := f ip]> (f_icache s)) s). unfold upd_inode. rewrite (Ok_bind _ _ _ _ _ (inode_at_Ok _ _ _ Hi)).
  split; [done|]. split; [by split|]. split; [split; [apply lstep_refl|done|done]|done].
Qed.

Section bmap.
Context (meta : Z).

Lemma room_nonneg s held : fbase s meta held -> 0 <= log_room s.
Proof. intros Hf. pose proof (li_n _ _ (fb_log _ _ _ Hf)). unfold log_room. lia. Qed.

Lemma block_width s held b : fbase s meta held -> meta <= b < sb_size (f_sb s) -> b < two32.
Proof.
  intros Hf Hb. pose proof (li_width _ _ (fb_log _ _ _ Hf)). destruct (ge_size _ _ _ _ (fb_geo _ _ _ Hf)). unfold two32. lia.
Qed.

(** [addr = balloc(ip->dev); ip->addrs[k] = addr]. *)
Lemma alloc_addr s i ip k : fbase s meta [] -> f_icache s !! i = Some ip -> i_dev ip = 1 -> blocks_ok (f_sb s) meta (fview s) ->
  (0 < nfree (f_sb s) (fview s))%nat -> can_log s 2 ->
  exists c s', (a ← balloc (i_dev ip); upd_inode i (set_addr k a);; mret a) s = Ok c s' /\ first_free (f_sb s) (fview s) c /\
    fbase s' meta [] /\ istep i (set_addr k c ip) s s' (alloc_updates (f_sb s) (fview s) c).
Proof.
  intros Hf Hi Hdev Hb Hfree Hr. destruct (balloc_run meta s [] Hf Hb) as (c & s1 & E1 & Hff & Hf1 & Hs1 & _).
  { intros j n Hj. by apply elem_of_nil in Hj. }
  { by apply nfree_pos. }
  { by apply (can_log_le _ _ _ Hr). }
  destruct (upd_inode_run s1 i ip (set_addr k c) meta [] (eq_trans (f_equal (fun l => l !! i) (fs_icache _ _ _ Hs1)) Hi) Hf1)
    as (s2 & E2 & Hf2 & Hs2 & _).
  exists c, s2. rewrite Hdev, (Ok_bind _ _ _ _ _ E1), (Ok_bind _ _ _ _ _ E2). split; [done|]. split; [done|]. split; [done|].
  apply (istep_trans i ip _ s s1 s2 _ [] (istep_fstep _ _ _ _ _ Hi Hs1) Hs2).
Qed.

(** What [bmap] gives: the block, and a file with at most five updates. *)
Definition bmapped (i : nat) (ip : inode) (bn : Z) (s : fs) (a : Z) (s' : fs) (ip' : inode) (W : list (Z * block)) : Prop :=
  fbase s' meta [] /\ istep i ip' s s' W /\ (frame (f_sb s) meta 2 (fview s) ip (fview s') ip' /\ fills (fview s) ip (fview s') ip') /\
  baddr (fview s') ip' bn = a /\ a <> 0 /\ Z.of_nat (length W) <= 5 /\ (baddr (fview s) ip bn <> 0 -> W = [] /\ ip' = ip).

Lemma frame_weaken sb k k' v ip v' ip' : (k <= k')%nat -> frame sb meta k v ip v' ip' -> frame sb meta k' v ip v' ip'.
Proof. intros Hk []. split; try done. lia. Qed.

Lemma bmap_direct s i ip bn : fbase s meta [] -> f_icache s !! i = Some ip -> file_ok (f_sb s) meta (fview s) ip ->
  blocks_ok (f_sb s) meta (fview s) -> 0 <= bn < NDIRECT ->
  (baddr (fview s) ip bn = 0 -> can_log s 5 /\ (2 <= nfree (f_sb s) (fview s))%nat) ->
  exists a s' ip' W, bmap i bn s = Ok a s' /\ bmapped i ip bn s a s' ip' W.
Proof.
  intros Hf Hi Hok Hb Hbn Hneed. unfold bmap. rewrite (Ok_bind _ _ _ _ _ (inode_at_Ok _ _ _ Hi)).
  assert (Ebn : (bn <? NDIRECT) = true) by (case_cmp; [done|lia]). rewrite Ebn.
  assert (Eb : baddr (fview s) ip bn = addr_at ip bn) by (unfold baddr; by rewrite Ebn).
  destruct (Z.eqb_spec (addr_at ip bn) 0) as [E0|E0].
  - destruct Hneed as [Hr Hfree]; [congruence|].
    destruct (alloc_addr s i ip bn Hf Hi (fo_dev _ _ _ _ Hok) Hb) as (c & s' & E & Hff & Hf' & Hs'); [lia|by apply (can_log_le _ _ _ Hr)|].
    destruct (install_direct (f_sb s) meta (fview s) ip c (fview s') (geometry_layout _ _ _ Hf) Hb Hok Hff (istep_views _ _ _ _ _ Hs') bn Hbn E0)
      as ([H1 H2] & _ & H3). specialize (H3 bn ltac:(fsizes; lia)). rewrite Z.eqb_refl in H3.
    exists c, s', (set_addr bn c ip), (alloc_updates (f_sb s) (fview s) c). split; [done|]. split; [done|]. split; [done|].
    split; [split; [by apply (frame_weaken _ 1); [lia|]|done]|]. split; [done|].
    destruct (fresh_range (f_sb s) meta (fview s) c (geometry_layout _ _ _ Hf) Hb Hff). split; [lia|]. split; [done|congruence].
  - exists (addr_at ip bn), s, ip, []. split; [done|]. split; [done|]. split; [apply istep_fstep; [done|apply fstep_refl]|].
    split; [split; [apply (frame_weaken _ 0); [lia|by apply frame_refl]|apply fills_refl]|]. done.
Qed.

Lemma fholds_fun s i n n' : fholds s i n -> fholds s i n' -> n = n'.
Proof. intros (b & Hb & <-) (b' & Hb' & <-). congruence. Qed.

(** [a[bn] = addr = balloc(ip->dev); log_write(bp)], with the indirect block
    in buffer [j]. *)
Lemma alloc_entry s ip j bn : fbase s meta [j] -> fholds s j (addr_at ip NDIRECT) -> addr_at ip NDIRECT <> 0 ->
  file_ok (f_sb s) meta (fview s) ip -> blocks_ok (f_sb s) meta (fview s) -> NDIRECT <= bn < MAXFILE -> baddr (fview s) ip bn = 0 ->
  (0 < nfree (f_sb s) (fview s))%nat -> can_log s 3 ->
  exists c s' W, (addr ← balloc (i_dev ip); ondisk (bmodify j (fun d => put32 d (4 * (bn - NDIRECT)) addr));; onlfs (log_write j);; mret addr) s = Ok c s' /\
    fbase s' meta [j] /\ fstep s s' W /\ length W = 3%nat /\ fholds s' j (addr_at ip NDIRECT) /\
    (frame (f_sb s) meta 1 (fview s) ip (fview s') ip /\ fills (fview s) ip (fview s') ip) /\ baddr (fview s') ip bn = c /\ c <> 0.
Proof.
  intros Hf Hj Hn Hok Hb Hbn E0 Hfree Hr. pose proof (geometry_layout _ _ _ Hf) as Hly.
  destruct (fo_own _ _ _ _ Hok (addr_at ip NDIRECT)) as [Hra Hua]; [split; [done|by left]|].
  destruct (balloc_run meta s [j] Hf Hb) as (c & s1 & E1 & Hff & Hf1 & Hs1 & Hk1).
  { intros j' n Hj' Hh. apply list_elem_of_singleton in Hj' as ->. rewrite <- (fholds_fun _ _ _ _ Hj Hh). split; [lia|done]. }
  { by apply nfree_pos. }
  { apply (can_log_le _ _ _ Hr). cbn. lia. }
  destruct (fresh_range (f_sb s) meta (fview s) c Hly Hb Hff) as [Hpos Hrc].
  pose proof (Hk1 j _ (list_elem_of_here _ _) Hj) as Hj1. pose proof (can_log_step _ _ _ _ Hs1 Hr) as Hr1. cbn [length alloc_updates] in Hr1.
  destruct (update_f meta s1 [j] j (addr_at ip NDIRECT) (fun d => put32 d (4 * (bn - NDIRECT)) c) Hf1 (list_elem_of_here _ _) Hj1) as (s2 & E2 & Hf2 & Hs2 & Hk2).
  { rewrite (in_log_step _ _ _ _ Hs1). by apply (data_block meta s [j]). }
  { by apply (can_log_le _ _ _ Hr1). }
  exists c, s2, (alloc_updates (f_sb s) (fview s) c ++ [(addr_at ip NDIRECT, put32 (fview s1 (addr_at ip NDIRECT)) (4 * (bn - NDIRECT)) c)]).
  split; [rewrite (fo_dev _ _ _ _ Hok), (Ok_bind _ _ _ _ _ E1); apply E2|]. split; [done|]. split; [by eapply fstep_trans|].
  split; [done|]. split; [by apply Hk2|].
  destruct (install_entry (f_sb s) meta (fview s) ip c (fview s1) Hly Hb Hok Hff (fstep_views _ _ _ Hs1) bn (fview s2)) as [H1 H2]; try done.
  { by apply (block_width s [j]). }
  { intros m. apply (fstep_view _ _ _ _ Hs2). }
  specialize (H2 bn ltac:(fsizes; lia)). rewrite Z.eqb_refl in H2. split; [done|]. split; [done|lia].
Qed.

(** The part of [bmap] that works on the indirect block. *)
Lemma bmap_entry s i ip bn : fbase s meta [] -> f_icache s !! i = Some ip -> addr_at ip NDIRECT <> 0 ->
  file_ok (f_sb s) meta (fview s) ip -> blocks_ok (f_sb s) meta (fview s) -> NDIRECT <= bn < MAXFILE ->
  (baddr (fview s) ip bn = 0 -> can_log s 3 /\ (0 < nfree (f_sb s) (fview s))%nat) ->
  exists a s' W, (bp ← ondisk (bread (i_dev ip) (addr_at ip NDIRECT));
    d ← ondisk (bdata bp);
    addr ← (if get32 d (4 * (bn - NDIRECT)) =? 0 then
              addr ← balloc (i_dev ip);
              ondisk (bmodify bp (fun d => put32 d (4 * (bn - NDIRECT)) addr));; onlfs (log_write bp);; mret addr
            else mret (get32 d (4 * (bn - NDIRECT))));
    ondisk (brelse bp);; mret addr) s = Ok a s' /\ fbase s' meta [] /\ fstep s s' W /\
    (frame (f_sb s) meta 1 (fview s) ip (fview s') ip /\ fills (fview s) ip (fview s') ip) /\ baddr (fview s') ip bn = a /\ a <> 0 /\
    Z.of_nat (length W) <= 3 /\ (baddr (fview s) ip bn <> 0 -> W = []).
Proof.
  intros Hf Hi Hn Hok Hb Hbn Hneed. destruct (fo_own _ _ _ _ Hok (addr_at ip NDIRECT)) as [Hra Hua]; [split; [done|by left]|].
  destruct (data_block meta s [] _ Hf Hra) as [Hda Hnl].
  destruct (bread_f meta s [] (addr_at ip NDIRECT) Hf Hda) as (j & s1 & E1 & Hf1 & Hs1 & Hj1 & _).
  { intros j Hj. by apply elem_of_nil in Hj. }
  { apply (room_nonneg _ _ Hf). }
  pose proof (fstep_view _ _ _ (addr_at ip NDIRECT) Hs1) as Ea. change (after [] (fview s)) with (fview s) in Ea.
  destruct (sb_step _ _ _ Hs1) as [Esb _]. pose proof (fstep_views _ _ _ Hs1) as Ev. change (after [] (fview s)) with (fview s) in Ev.
  rewrite (fo_dev _ _ _ _ Hok), (Ok_bind _ _ _ _ _ E1), (Ok_bind _ _ _ _ _ (bdata_f meta _ _ _ _ Hf1 (list_elem_of_here _ _) Hj1)), Ea.
  assert (Eb : baddr (fview s) ip bn = get32 (fview s (addr_at ip NDIRECT)) (4 * (bn - NDIRECT))).
  { unfold baddr. destruct (Z.ltb_spec bn NDIRECT); [lia|]. by destruct (Z.eqb_spec (addr_at ip NDIRECT) 0). }
  rewrite <- Eb. destruct (Z.eqb_spec (baddr (fview s) ip bn) 0) as [E0|E0].
  - destruct (Hneed E0) as [Hr Hfree]. pose proof (can_log_step _ _ _ _ Hs1 Hr) as Hr1.
    destruct (alloc_entry s1 ip j bn) as (c & s2 & W & E2 & Hf2 & Hs2 & HW & Hj2 & HF & Hc & Hc0); rewrite ?Esb, ?Ev; try done.
    destruct (brelse_f meta s2 [] j _ Hf2 Hj2) as (s3 & E3 & Hf3 & Hs3 & _). pose proof (fstep_views _ _ _ Hs3) as Ev3. change (after [] (fview s2)) with (fview s2) in Ev3.
    exists c, s3, W. rewrite <- (fo_dev _ _ _ _ Hok), (Ok_bind _ _ _ _ _ E2), (Ok_bind _ _ _ _ _ E3). rewrite Ev3, <- Ev, <- Esb.
    split; [done|]. split; [done|]. split; [apply (fstep_trans _ _ _ [] _ Hs1); rewrite <- (app_nil_r W); by eapply fstep_trans|].
    split; [done|]. split; [done|]. split; [done|]. split; [lia|]. by rewrite Ev.
  - destruct (brelse_f meta s1 [] j _ Hf1 Hj1) as (s2 & E2 & Hf2 & Hs2 & _). pose proof (fstep_trans _ _ _ _ _ Hs1 Hs2) as Hs.
    pose proof (fstep_views _ _ _ Hs) as Ev2. change (after ([] ++ []) (fview s)) with (fview s) in Ev2.
    exists (baddr (fview s) ip bn), s2, [].
    split; [change ((ondisk (brelse j);; mret (baddr (fview s) ip bn)) s1 = Ok (baddr (fview s) ip bn) s2); by rewrite (Ok_bind _ _ _ _ _ E2)|]. split; [done|]. split; [done|]. rewrite Ev2.
    split; [split; [apply (frame_weaken _ 0); [lia|by apply frame_refl]|apply fills_refl]|]. done.
Qed.

Lemma bmap_indirect s i ip bn : fbase s meta [] -> f_icache s !! i = Some ip -> file_ok (f_sb s) meta (fview s) ip ->
  blocks_ok (f_sb s) meta (fview s) -> NDIRECT <= bn < MAXFILE ->
  (baddr (fview s) ip bn = 0 -> can_log s 5 /\ (2 <= nfree (f_sb s) (fview s))%nat) ->
  exists a s' ip' W, bmap i bn s = Ok a s' /\ bmapped i ip bn s a s' ip' W.
Proof.
  intros Hf Hi Hok Hb Hbn Hneed. unfold bmap. rewrite (Ok_bind _ _ _ _ _ (inode_at_Ok _ _ _ Hi)).
  assert (Ebn : (bn <? NDIRECT) = false) by (case_cmp; [lia|done]). rewrite Ebn.
  assert (Ebi : (bn - NDIRECT <? NINDIRECT) = true) by (apply Z.ltb_lt; change NINDIRECT with 128; fsizes; lia). rewrite Ebi.
  destruct (Z.eqb_spec (addr_at ip NDIRECT) 0) as [E0|E0].
  - assert (Eb : baddr (fview s) ip bn = 0) by (unfold baddr; by rewrite Ebn, E0). destruct (Hneed Eb) as [Hr Hfree].
    destruct (alloc_addr s i ip NDIRECT Hf Hi (fo_dev _ _ _ _ Hok) Hb) as (c & s1 & E1 & Hff & Hf1 & Hs1); [lia|by apply (can_log_le _ _ _ Hr)|].
    destruct (install_indirect (f_sb s) meta (fview s) ip c (fview s1) (geometry_layout _ _ _ Hf) Hb Hok Hff (istep_views _ _ _ _ _ Hs1) E0)
      as [[H1 H2] [H3 H4]].
    pose proof (istep_can_log _ _ _ _ _ _ Hs1 Hr) as Hr1. cbn [length alloc_updates] in Hr1. pose proof (fr_free _ _ _ _ _ _ _ H1).
    destruct (fresh_range (f_sb s) meta (fview s) c (geometry_layout _ _ _ Hf) Hb Hff).
    destruct (bmap_entry s1 i (set_addr NDIRECT c ip) bn Hf1 (istep_at _ _ _ _ _ _ Hi Hs1)) as (a & s2 & W & E2 & Hf2 & Hs2 & [F1 F2] & Ha & Ha0 & HW & _);
      rewrite ?(is_sb _ _ _ _ _ Hs1), ?H3 in *; [lia|apply H1|apply H1|done|intros _; split; [by apply (can_log_le _ _ _ Hr1)|lia]|].
    exists a, s2, (set_addr NDIRECT c ip), (alloc_updates (f_sb s) (fview s) c ++ W). rewrite (Ok_bind _ _ _ _ _ E1). split; [done|].
    split; [done|]. split; [apply (istep_trans _ _ _ _ _ _ _ _ Hs1), istep_fstep, Hs2; by eapply istep_at|].
    split; [split; [by apply (frame_trans _ _ 1 1 _ _ _ _ _ _ H1 F1)|by eapply fills_trans]|]. split; [done|]. split; [done|].
    split; [rewrite length_app; cbn [length alloc_updates]; lia|]. by rewrite Eb.
  - destruct (bmap_entry s i ip bn Hf Hi E0 Hok Hb Hbn) as (a & s2 & W & E2 & Hf2 & Hs2 & [F1 F2] & Ha & Ha0 & HW & HWn).
    { intros Eb. destruct (Hneed Eb) as [Hr Hfree]. split; [by apply (can_log_le _ _ _ Hr)|lia]. }
    exists a, s2, ip, W. split; [done|]. split; [done|]. split; [by apply istep_fstep|].
    split; [split; [by apply (frame_weaken _ 1); [lia|]|done]|]. split; [done|]. split; [done|]. split; [lia|]. by intros ?%HWn.
Qed.

Lemma bmap_run s i ip bn : fbase s meta [] -> f_icache s !! i = Some ip -> file_ok (f_sb s) meta (fview s) ip ->
  blocks_ok (f_sb s) meta (fview s) -> bn_ok bn ->
  (baddr (fview s) ip bn = 0 -> can_log s 5 /\ (2 <= nfree (f_sb s) (fview s))%nat) ->
  exists a s' ip' W, bmap i bn s = Ok a s' /\ bmapped i ip bn s a s' ip' W.
Proof.
  intros Hf Hi Hok Hb [H1 H2] Hneed. destruct (Z.lt_ge_cases bn NDIRECT); [by apply bmap_direct|by apply bmap_indirect].
Qed.
End bmap.

(** ** [writei] *)

Lemma get8_splice d o src k : 0 <= o -> o + Z.of_nat (length src) <= Z.of_nat (length d) -> 0 <= k ->
  get8 (splice d o src) k = if (o <=? k) && (k <? o + Z.of_nat (length src)) then get8 src (k - o) else get8 d k.
Proof.
  intros Ho Hl Hk. unfold get8, splice. rewrite !nth_lookup. f_equal. destruct (Z.leb_spec o k); cbn [andb].
  - rewrite lookup_app_r, length_take by (rewrite length_take; lia). replace (Z.to_nat k - Z.to_nat o `min` length d)%nat with (Z.to_nat (k - o)) by lia.
    destruct (Z.ltb_spec k (o + Z.of_nat (length src))); [by rewrite lookup_app_l by lia|].
    rewrite lookup_app_r, lookup_drop by lia. by replace (Z.to_nat o + length src + (Z.to_nat (k - o) - length src))%nat with (Z.to_nat k) by lia.
  - rewrite lookup_app_l by (rewrite length_take; lia). by rewrite lookup_take_lt by lia.
Qed.

Lemma splice_bytes d o src : bytes_ok d -> bytes_ok src -> bytes_ok (splice d o src).
Proof. intros Hd Hs. unfold splice. apply Forall_app_2; [by apply Forall_take|]. apply Forall_app_2; [done|by apply Forall_drop]. Qed.

Lemma get8_drop d n k : 0 <= n -> 0 <= k -> get8 (drop (Z.to_nat n) d) k = get8 d (n + k).
Proof. intros Hn Hk. unfold get8. rewrite !nth_lookup, lookup_drop. by replace (Z.to_nat n + Z.to_nat k)%nat with (Z.to_nat (n + k)) by lia. Qed.

Lemma get8_take d n k : 0 <= k < n -> get8 (take (Z.to_nat n) d) k = get8 d k.
Proof. intros Hk. unfold get8. rewrite !nth_lookup, lookup_take_lt by lia. done. Qed.

(** Block [bn] of the file gets the contents [d]. *)
Lemma file_write sb meta v v' ip bn d : layout sb meta -> file_ok sb meta v ip -> blocks_ok sb meta v -> bn_ok bn ->
  baddr v ip bn <> 0 -> length d = 512%nat -> bytes_ok d -> (forall m, v' m = after [(baddr v ip bn, d)] v m) ->
  frame sb meta 0 v ip v' ip /\ forall off, off_ok off -> fbyte v' ip off = if off / BSIZE =? bn then get8 d (off mod BSIZE) else fbyte v ip off.
Proof.
  intros Hly Hok Hb Hbn Hn Hl Hd Hv'. assert (Ho : owns v ip (baddr v ip bn)) by (split; [done|right; by exists bn]).
  destruct (fo_own _ _ _ _ Hok _ Ho) as [Hr Hu]. destruct (data_update sb meta v v' (baddr v ip bn) d Hly Hb ltac:(lia) Hl Hd Hv') as (Hb' & Hu' & Hat & Hne).
  assert (Ha : forall b, baddr v' ip b = baddr v ip b).
  { intros b. apply baddr_ext. intros Hi. apply Hne. intros E. by apply (fo_ind _ _ _ _ Hok bn Hbn Hi). }
  assert (How : forall m, owns v' ip m <-> owns v ip m) by (intros m; unfold owns; by setoid_rewrite Ha).
  pose proof (ly_pos _ _ Hly). split.
  - split; [|done|by destruct ip|..].
    + destruct Hok as [K1 K2 K3 K4 K5]. split; [done|done| |by setoid_rewrite Ha|by setoid_rewrite Ha].
      intros m Hm%How. destruct (K3 m Hm). by rewrite Hu' by lia.
    + intros b _. by rewrite Ha.
    + intros m Hm. by rewrite Hu' by lia.
    + intros m Hm%How. by left.
    + intros m Hm. apply Hne. intros ->. destruct Hm as [?|(_ & _ & ?)]; [lia|done].
    + rewrite (nfree_ext sb v v') by done. lia.
  - intros off Hoff. unfold fbyte. rewrite Ha. destruct (Z.eqb_spec (off / BSIZE) bn) as [->|Hne'].
    + destruct (Z.eqb_spec (baddr v ip bn) 0); [done|]. by rewrite Hat.
    + destruct (Z.eqb_spec (baddr v ip (off / BSIZE)) 0) as [|Hnz]; [done|]. rewrite Hne; [done|]. intros E. apply Hne'.
      by apply (fo_inj _ _ _ _ Hok); [apply off_bn| | |].
Qed.

(** The blocks that [left] bytes at [off] lie in. *)
Definition nblk (off left : Z) : Z := if left <=? 0 then 0 else (off + left - 1) / BSIZE - off / BSIZE + 1.

Lemma nblk_step off n m : 0 <= off -> 0 < n -> m = n `min` (BSIZE - off mod BSIZE) ->
  nblk off n = 1 + nblk (off + m) (n - m).
Proof.
  intros Ho Hn ->. unfold nblk. change BSIZE with 512. destruct (Z.leb_spec n 0); [lia|]. case_bool; Z.div_mod_to_equations; lia.
Qed.

Lemma nblk_nonneg off n : 0 <= off -> 0 <= nblk off n.
Proof. intros Ho. unfold nblk. change BSIZE with 512. case_bool; Z.div_mod_to_equations; lia. Qed.

Section contents.
Context (meta : Z).

(** What an operation needs of the state it starts from. *)
Record file_state (s : fs) (i : nat) (ip : inode) : Prop := {
  ft_base : fbase s meta [];
  ft_inode : f_icache s !! i = Some ip;
  ft_ok : file_ok (f_sb s) meta (fview s) ip;
  ft_blocks : blocks_ok (f_sb s) meta (fview s);
}.

Lemma frame_state s i ip s' ip' W k : file_state s i ip -> fbase s' meta [] -> istep i ip' s s' W ->
  frame (f_sb s) meta k (fview s) ip (fview s') ip' -> file_state s' i ip'.
Proof.
  intros [H1 H2 H3 H4] Hf Hs HF. split; [done|by eapply istep_at| |]; rewrite (is_sb _ _ _ _ _ Hs); apply HF.
Qed.

(** One round of the loop of [writei]: the bytes [src] go to [off], inside
    one block. *)
Definition write_round (i : nat) (dev off : Z) (src : list Z) : M fs () :=
  a ← bmap i (off / BSIZE);
  bp ← ondisk (bread dev a);
  ondisk (bmodify bp (fun d => splice d (off mod BSIZE) src));;
  onlfs (log_write bp);;
  ondisk (brelse bp).

(** The bytes [src] from [off] on, over [g]. *)
Definition overlay (g : Z -> Z) (off : Z) (src : list Z) (o : Z) : Z :=
  if (off <=? o) && (o <? off + Z.of_nat (length src)) then get8 src (o - off) else g o.

Lemma overlay_app g off src1 src2 o : overlay (overlay g off src1) (off + Z.of_nat (length src1)) src2 o = overlay g off (src1 ++ src2) o.
Proof.
  unfold overlay. rewrite length_app. unfold get8. rewrite !nth_lookup.
  destruct (Z.leb_spec off o), (Z.leb_spec (off + Z.of_nat (length src1)) o); cbn [andb]; try lia; try done.
  - destruct (Z.ltb_spec o (off + Z.of_nat (length src1) + Z.of_nat (length src2))), (Z.ltb_spec o (off + Z.of_nat (length src1)));
      case_cmp; try lia; try done. rewrite lookup_app_r by lia. by replace (Z.to_nat (o - (off + Z.of_nat (length src1)))) with (Z.to_nat (o - off) - length src1)%nat by lia.
  - case_cmp; try lia. by rewrite lookup_app_l by lia.
Qed.

Lemma overlay_nil g off o : overlay g off [] o = g o.
Proof. unfold overlay. cbn [length]. destruct (Z.leb_spec off o), (Z.ltb_spec o (off + Z.of_nat 0)); done || lia. Qed.

Lemma overlay_ext g g' off src o : g o = g' o -> overlay g off src o = overlay g' off src o.
Proof. unfold overlay. by intros ->. Qed.

Definition written (v : Z -> block) (ip : inode) (v' : Z -> block) (ip' : inode) (off : Z) (src : list Z) : Prop :=
  (forall o, off_ok o -> fbyte v' ip' o = overlay (fbyte v ip) off src o) /\
  (forall o, off <= o < off + Z.of_nat (length src) -> baddr v' ip' (o / BSIZE) <> 0).

Lemma splice_place off o d src : 0 <= off -> 0 <= o -> off mod BSIZE + Z.of_nat (length src) <= Z.of_nat (length d) -> length d = 512%nat -> o / BSIZE = off / BSIZE ->
  get8 (splice d (off mod BSIZE) src) (o mod BSIZE) =
  if (off <=? o) && (o <? off + Z.of_nat (length src)) then get8 src (o - off) else get8 d (o mod BSIZE).
Proof.
  intros Hoff Ho Hm Hd E.
  pose proof (Z.mod_pos_bound off BSIZE ltac:(done)). pose proof (Z.mod_pos_bound o BSIZE ltac:(done)).
  rewrite get8_splice by lia. change BSIZE with 512 in *. replace (o mod 512 - off mod 512) with (o - off) by (Z.div_mod_to_equations; lia).
  replace (off mod 512 <=? o mod 512) with (off <=? o) by (case_cmp; done || (Z.div_mod_to_equations; lia)).
  by replace (o mod 512 <? off mod 512 + Z.of_nat (length src)) with (o <? off + Z.of_nat (length src)) by (case_cmp; done || (Z.div_mod_to_equations; lia)).
Qed.

(** The block of the file that holds [off] is there, and the bytes [src] are
    put into it. *)
Lemma round_written sb v ip v1 ip1 v2 k off src : layout sb meta -> frame sb meta k v ip v1 ip1 -> fills v ip v1 ip1 -> off_ok off -> bytes_ok src ->
  off mod BSIZE + Z.of_nat (length src) <= BSIZE -> let a := baddr v1 ip1 (off / BSIZE) in a <> 0 ->
  (forall m, v2 m = after [(a, splice (v1 a) (off mod BSIZE) src)] v1 m) ->
  frame sb meta k v ip v2 ip1 /\ (forall bn, baddr v2 ip1 bn = baddr v1 ip1 bn) /\ written v ip v2 ip1 off src.
Proof.
  intros Hly F1 F2 Ho Hsrc Hm a Ha0 Hv2. pose proof (off_bn _ Ho) as Hbn. pose proof (fr_ok _ _ _ _ _ _ _ F1) as Hok1. pose proof (fr_blocks _ _ _ _ _ _ _ F1) as Hb1.
  pose proof (bo_len _ _ _ Hb1 a) as Hla. assert (Hmod : 0 <= off mod BSIZE) by (apply Z.mod_pos_bound; done). change BSIZE with 512 in Hm at 2.
  destruct (file_write sb meta v1 v2 ip1 (off / BSIZE) (splice (v1 a) (off mod BSIZE) src) Hly Hok1 Hb1 Hbn Ha0) as [F3 F4];
    [rewrite splice_length; [done|done|lia]|apply splice_bytes; [apply Hb1|done]|done|].
  split; [rewrite <- (Nat.add_0_r k); by apply (frame_trans _ _ k 0 _ _ _ _ _ _ F1 F3)|].
  assert (Hba : forall bn, baddr v2 ip1 bn = baddr v1 ip1 bn).
  { intros bn. apply baddr_ext. intros Hi. rewrite Hv2. unfold after. cbn [foldl fst snd]. rewrite decide_False; [done|]. intros E.
    by apply (fo_ind _ _ _ _ Hok1 (off / BSIZE) Hbn Hi). }
  split; [done|]. split.
  - intros o Hoo. rewrite F4 by done. rewrite <- (overlay_ext (fbyte v1 ip1)) by (by apply fills_bytes).
    destruct (Z.eqb_spec (o / BSIZE) (off / BSIZE)) as [E|E].
    + unfold overlay. rewrite splice_place by (done || lia || apply Ho || apply Hoo). destruct (_ && _); [done|]. unfold fbyte. rewrite E. fold a. by destruct (Z.eqb_spec a 0).
    + unfold overlay. destruct (Z.leb_spec off o), (Z.ltb_spec o (off + Z.of_nat (length src))); cbn [andb]; try done.
      exfalso. apply E. fsizes. Z.div_mod_to_equations; lia.
  - intros o Hoo. replace (o / BSIZE) with (off / BSIZE) by (fsizes; Z.div_mod_to_equations; lia). by rewrite Hba.
Qed.

Lemma write_round_run s i ip off src : file_state s i ip -> off_ok off -> bytes_ok src ->
  off mod BSIZE + Z.of_nat (length src) <= BSIZE -> can_log s 6 -> (2 <= nfree (f_sb s) (fview s))%nat ->
  exists s' ip' W, write_round i 1 off src s = Ok () s' /\ fbase s' meta [] /\ istep i ip' s s' W /\ Z.of_nat (length W) <= 6 /\
    frame (f_sb s) meta 2 (fview s) ip (fview s') ip' /\ written (fview s) ip (fview s') ip' off src.
Proof.
  intros Hst Ho Hsrc Hm Hr Hfree. destruct Hst as [Hf Hi Hok Hb]. pose proof (off_bn _ Ho) as Hbn.
  destruct (bmap_run meta s i ip (off / BSIZE) Hf Hi Hok Hb Hbn) as (a & s1 & ip1 & W1 & E1 & Hf1 & Hs1 & [F1 F2] & Ha & Ha0 & HW & _).
  { intros _. split; [by apply (can_log_le _ _ _ Hr)|done]. }
  pose proof (is_sb _ _ _ _ _ Hs1) as Esb. assert (Hoa : owns (fview s1) ip1 a) by (split; [done|right; by exists (off / BSIZE)]).
  destruct (fo_own _ _ _ _ (fr_ok _ _ _ _ _ _ _ F1) a Hoa) as [Hra _].
  destruct (data_block meta s1 [] a Hf1) as [Hda Hnl]; [by rewrite Esb|]. pose proof (istep_can_log _ _ _ _ _ _ Hs1 Hr) as Hr1.
  destruct (rewrite_block meta s1 [] a (fun d => splice d (off mod BSIZE) src) Hf1 Hda) as (s2 & E2 & Hf2 & Hs2 & _);
    [intros j Hj; by apply elem_of_nil in Hj|done|apply (can_log_le _ _ _ Hr1); cbn; lia|].
  destruct (round_written (f_sb s) (fview s) ip (fview s1) ip1 (fview s2) 2 off src) as (F3 & _ & Hwr); try done; [by eapply geometry_layout|by rewrite Ha| |].
  { intros m. rewrite Ha. apply (fstep_view _ _ _ _ Hs2). }
  exists s2, ip1, (W1 ++ [(a, splice (fview s1 a) (off mod BSIZE) src)]). split; [unfold write_round; by rewrite (Ok_bind _ _ _ _ _ E1)|].
  split; [done|]. split; [apply (istep_trans _ _ _ _ _ _ _ _ Hs1), istep_fstep, Hs2; by eapply istep_at|].
  split; [rewrite length_app; cbn [length]; lia|]. done.
Qed.

Lemma writei_loop_round fuel s i ip src off n : f_icache s !! i = Some ip -> 0 < n -> let m := n `min` (BSIZE - off mod BSIZE) in
  writei_loop (S fuel) i src off n s =
  (write_round i (i_dev ip) off (slice src 0 m);; writei_loop fuel i (drop (Z.to_nat m) src) (off + m) (n - m)) s.
Proof.
  intros Hi Hn m. cbn [writei_loop]. destruct (Z.leb_spec n 0); [lia|]. rewrite (Ok_bind _ _ _ _ _ (inode_at_Ok _ _ _ Hi)).
  unfold write_round, mbind, M_bind, bindM. destruct (bmap _ _ _) as [a s1| | | |]; try done.
  destruct (ondisk _ s1) as [bp s2| | | |]; try done. fold m. destruct (ondisk _ s2) as [[] s3| | | |]; try done.
  by destruct (onlfs _ s3) as [[] s4| | | |].
Qed.

Lemma written_seq v ip v1 ip1 v2 ip2 off src1 src2 : (forall bn, bn_ok bn -> baddr v1 ip1 bn <> 0 -> baddr v2 ip2 bn <> 0) ->
  0 <= off -> off + Z.of_nat (length (src1 ++ src2)) <= MAXFILE * BSIZE ->
  written v ip v1 ip1 off src1 -> written v1 ip1 v2 ip2 (off + Z.of_nat (length src1)) src2 -> written v ip v2 ip2 off (src1 ++ src2).
Proof.
  rewrite length_app. intros Ha Ho Hmax [H1 H1'] [H2 H2']. split.
  - intros o Hoo. rewrite H2, <- overlay_app by done. by apply overlay_ext, H1.
  - intros o Hoo. rewrite length_app in Hoo. destruct (Z.lt_ge_cases o (off + Z.of_nat (length src1))); [|apply H2'; lia].
    apply Ha; [|apply H1'; lia]. apply off_bn. unfold off_ok. lia.
Qed.

Lemma written_nil v ip off : written v ip v ip off [].
Proof.
  split; cbn [length]; [|lia]. intros o _. by rewrite overlay_nil.
Qed.

Lemma writei_loop_run fuel : forall s i ip src off n, file_state s i ip -> bytes_ok src -> 0 <= off ->
  n = Z.of_nat (length src) -> off + n <= MAXFILE * BSIZE -> n <= Z.of_nat fuel ->
  can_log s (6 * nblk off n) -> 2 * nblk off n <= Z.of_nat (nfree (f_sb s) (fview s)) ->
  exists s' ip' W, writei_loop fuel i src off n s = Ok (off + n) s' /\ fbase s' meta [] /\ istep i ip' s s' W /\
    Z.of_nat (length W) <= 6 * nblk off n /\ frame (f_sb s) meta (Z.to_nat (2 * nblk off n)) (fview s) ip (fview s') ip' /\
    written (fview s) ip (fview s') ip' off src.
Proof.
  assert (Hnil : forall fuel s i ip src off n, file_state s i ip -> n = Z.of_nat (length src) -> n = 0 ->
    writei_loop fuel i src off n s = Ok (off + n) s /\ fbase s meta [] /\ istep i ip s s [] /\ Z.of_nat 0 <= 6 * nblk off n /\
    frame (f_sb s) meta (Z.to_nat (2 * nblk off n)) (fview s) ip (fview s) ip /\ written (fview s) ip (fview s) ip off src).
  { intros f s i ip src off n Hst -> E. destruct src; [|cbn in E; lia]. cbn [length]. change (Z.of_nat 0) with 0. rewrite Z.add_0_r.
    split; [by destruct f|]. split; [apply Hst|]. split; [apply istep_fstep; [apply Hst|apply fstep_refl]|]. split; [done|].
    split; [apply frame_refl; apply Hst|apply written_nil]. }
  induction fuel as [|fuel IH]; intros s i ip src off n Hst Hsrc Ho En Hmax Hfuel Hr Hfree.
  { exists s, ip, []. apply Hnil; [done|done|lia]. }
  destruct (Z.eq_dec n 0) as [E0|E0]; [exists s, ip, []; by apply Hnil|]. clear Hnil.
  rewrite (writei_loop_round _ _ _ ip) by (apply Hst || lia). set (m := n `min` (BSIZE - off mod BSIZE)).
  pose proof (nblk_step off n m Ho ltac:(lia) eq_refl) as Hblk. pose proof (Z.mod_pos_bound off BSIZE ltac:(done)).
  assert (Hm : 0 < m <= n) by (subst m; lia). pose proof (nblk_nonneg (off + m) (n - m) ltac:(lia)).
  assert (Hl1 : Z.of_nat (length (slice src 0 m)) = m) by (unfold slice; rewrite length_take, length_drop; lia).
  assert (Hl2 : n - m = Z.of_nat (length (drop (Z.to_nat m) src))) by (rewrite length_drop; lia).
  destruct (write_round_run s i ip off (slice src 0 m) Hst) as (s1 & ip1 & W1 & E1 & Hf1 & Hs1 & HW1 & F1 & G1).
  { unfold off_ok. lia. }
  { by apply Forall_take, Forall_drop. }
  { rewrite Hl1. subst m. lia. }
  { apply (can_log_le _ _ _ Hr). lia. }
  { lia. }
  pose proof (frame_state _ _ _ _ _ _ _ Hst Hf1 Hs1 F1) as Hst1. pose proof (is_sb _ _ _ _ _ Hs1) as Esb. pose proof (fr_free _ _ _ _ _ _ _ F1).
  destruct (IH s1 i ip1 (drop (Z.to_nat m) src) (off + m) (n - m) Hst1) as (s2 & ip2 & W2 & E2 & Hf2 & Hs2 & HW2 & F2 & G2); try done; try lia.
  { by apply Forall_drop. }
  { apply (can_log_le _ _ _ (istep_can_log _ _ _ _ _ _ Hs1 Hr)). lia. }
  { rewrite Esb. lia. }
  exists s2, ip2, (W1 ++ W2). rewrite (fo_dev _ _ _ _ (ft_ok _ _ _ Hst)), (Ok_bind _ _ _ _ _ E1). split; [rewrite E2; f_equal; lia|].
  split; [done|]. split; [by eapply istep_trans|]. split; [rewrite length_app; lia|]. rewrite Esb in F2.
  pose proof (frame_trans _ _ _ _ _ _ _ _ _ _ F1 F2) as F12. split; [eapply frame_weaken; [|exact F12]; lia|].
  rewrite <- (take_drop (Z.to_nat m) src). change (take (Z.to_nat m) src) with (slice src 0 m). 
  apply (written_seq _ _ (fview s1) ip1); [apply F2|done|rewrite length_app; lia|done|by rewrite Hl1].
Qed.

(** [ip->size = off; iupdate(ip)]. *)
Lemma inode_block s held ip : fbase s meta held -> 0 <= i_inum ip < sb_ninodes (f_sb s) ->
  let b := IBLOCK (i_inum ip) (f_sb s) in
  0 <= b < c_disksize (l_bio (f_lfs s)) /\ ~ in_log (l_log (f_lfs s)) b /\ b < sb_bmapstart (f_sb s).
Proof.
  intros Hf Hi b. pose proof (fb_geo _ _ _ Hf) as [G1 G2 G3 G4 G5]. specialize (G2 _ Hi). pose proof (li_n _ _ (fb_log _ _ _ Hf)).
  pose proof (Z.div_pos (i_inum ip) IPB ltac:(lia) ltac:(done)). unfold b, IBLOCK, in_log in *. lia.
Qed.

Lemma iupdate_run s held i ip : fbase s meta held -> f_icache s !! i = Some ip -> i_dev ip = 1 -> 0 <= i_inum ip < sb_ninodes (f_sb s) ->
  (forall j n, j ∈ held -> fholds s j n -> meta <= n) -> can_log s (1 + Z.of_nat (length held)) ->
  exists s', iupdate i s = Ok () s' /\ fbase s' meta held /\
    fstep s s' [(IBLOCK (i_inum ip) (f_sb s), store_dinode ip (dinode_off (i_inum ip)) (fview s (IBLOCK (i_inum ip) (f_sb s))))].
Proof.
  intros Hf Hi Hd Hn Hh Hr. destruct (inode_block s held ip Hf Hn) as (Hb & Hnl & Hlow). pose proof (ge_start _ _ _ _ (fb_geo _ _ _ Hf)).
  destruct (rewrite_block meta s held _ (store_dinode ip (dinode_off (i_inum ip))) Hf Hb) as (s' & E & Hf' & Hs' & _); [|done|done|].
  { intros j Hj Hh'. specialize (Hh j _ Hj Hh'). lia. }
  exists s'. split; [|done]. unfold iupdate. rewrite (Ok_bind _ _ _ _ _ (inode_at_Ok _ _ _ Hi)). change (get ≫= ?k) with (fun s => k s s). cbn beta.
  by rewrite Hd.
Qed.
End contents.
