(* ===== verification/FsRw.v ===== *)
(** * Reading and writing files

    [writei] stores the bytes it is given and [readi] gets them back; inodes
    survive on disk. *)

From S2P Require Import Prelude Bytes Bio Log Txn Fs FsBlock FsFile.

Local Open Scope kern_scope.

(** ** Inodes on disk *)

Lemma store_dinode_length ip o d : length (store_dinode ip o d) = length d.
Proof. unfold store_dinode. by rewrite put_words_length, put32_length, !put16_length. Qed.

Lemma store_dinode_bytes ip o d : bytes_ok d -> bytes_ok (store_dinode ip o d).
Proof. intros Hd. unfold store_dinode. by apply put_words_bytes, put32_bytes, put16_bytes, put16_bytes, put16_bytes, put16_bytes. Qed.

Definition is_s16 (z : Z) : Prop := -32768 <= z < 32768.

Lemma s16_mod z : is_s16 z -> s16 (z mod 65536) = z.
Proof. unfold s16, is_s16. intros. case_bool; Z.div_mod_to_equations; lia. Qed.

(** The fields have the widths of [struct dinode]'s. *)
Record dinode_ok (ip : inode) : Prop := {
  di_type : is_s16 (i_type ip); di_major : is_s16 (i_major ip); di_minor : is_s16 (i_minor ip); di_nlink : is_s16 (i_nlink ip);
  di_size : is_u32 (i_size ip); di_addrs : Forall is_u32 (i_addrs ip); di_len : length (i_addrs ip) = 13%nat;
}.

(** [ip] with the fields that are not on disk taken from [ip0]. *)
Definition disk_fields (ip ip0 : inode) : inode :=
  Inode (i_dev ip0) (i_inum ip0) (i_ref ip0) (i_locked ip0) (i_valid ip0)
    (i_type ip) (i_major ip) (i_minor ip) (i_nlink ip) (i_size ip) (i_addrs ip).

Lemma load_store_dinode ip ip0 o d : dinode_ok ip -> 0 <= o -> o + 64 <= Z.of_nat (length d) ->
  load_dinode (store_dinode ip o d) o ip0 = disk_fields ip ip0.
Proof.
  intros [H1 H2 H3 H4 H5 H6 H7] Ho Hl. unfold load_dinode, store_dinode, disk_fields.
  rewrite !(get16_put_words (i_addrs ip)) by (rewrite ?put32_length, ?put16_length; lia).
  rewrite !get16_put32_ne by (rewrite ?put16_length; lia).
  f_equal.
  - repeat rewrite get16_put16_ne by (rewrite ?put16_length; lia). rewrite get16_put16 by lia. by apply s16_mod.
  - repeat rewrite get16_put16_ne by (rewrite ?put16_length; lia). rewrite get16_put16 by (rewrite ?put16_length; lia). by apply s16_mod.
  - repeat rewrite get16_put16_ne by (rewrite ?put16_length; lia). rewrite get16_put16 by (rewrite ?put16_length; lia). by apply s16_mod.
  - rewrite get16_put16 by (rewrite ?put16_length; lia). by apply s16_mod.
  - rewrite get32_put_words_before by (rewrite ?put32_length, ?put16_length; lia). rewrite get32_put32 by (rewrite ?put16_length; lia). by apply u32_small.
  - change (NDIRECT + 1) with 13. change 13 with (Z.of_nat 13). rewrite <- H7. apply get_put_words; [lia| |done].
    rewrite put32_length, !put16_length. lia.
Qed.

(** A file is as it was when no block from the bitmap on changed. *)
Lemma view_agree sb meta v v' ip : layout sb meta -> file_ok sb meta v ip -> (forall m, sb_bmapstart sb <= m -> v' m = v m) ->
  file_ok sb meta v' ip /\ (forall bn, baddr v' ip bn = baddr v ip bn) /\ (forall o, off_ok o -> fbyte v' ip o = fbyte v ip o) /\
  forall x, 0 <= x < sb_size sb -> used sb v' x = used sb v x.
Proof.
  intros Hly Hok Hv. pose proof (ly_pos _ _ Hly).
  assert (Hu : forall x, 0 <= x < sb_size sb -> used sb v' x = used sb v x).
  { intros x Hx. unfold used. pose proof (ly_bitmap _ _ Hly x Hx). by rewrite Hv by lia. }
  assert (Hown : forall m, owns v ip m -> v' m = v m) by (intros m Ho; apply Hv; apply (fo_own _ _ _ _ Hok) in Ho; lia).
  assert (Ha : forall bn, baddr v' ip bn = baddr v ip bn) by (intros bn; apply baddr_ext; intros Hn; apply Hown; split; [done|by left]).
  split; [|split; [done|split; [|done]]].
  - destruct Hok as [K1 K2 K3 K4 K5]. split; [done|done| |by setoid_rewrite Ha|by setoid_rewrite Ha].
    intros m Hm. unfold owns in Hm. setoid_rewrite Ha in Hm. destruct (K3 m Hm). by rewrite Hu by lia.
  - intros o Ho. unfold fbyte. rewrite Ha. destruct (Z.eqb_spec (baddr v ip (o / BSIZE)) 0); [done|].
    rewrite Hown; [done|]. split; [done|]. right. exists (o / BSIZE). split; [by apply off_bn|done].
Qed.

(** A block of inodes is written: no file's contents change. *)
Lemma inode_update sb meta v v' ip b d : layout sb meta -> file_ok sb meta v ip -> blocks_ok sb meta v -> b < sb_bmapstart sb ->
  length d = 512%nat -> bytes_ok d -> (forall m, v' m = after [(b, d)] v m) ->
  blocks_ok sb meta v' /\ file_ok sb meta v' ip /\ (forall bn, baddr v' ip bn = baddr v ip bn) /\
  (forall o, off_ok o -> fbyte v' ip o = fbyte v ip o) /\ (forall x, 0 <= x < sb_size sb -> used sb v' x = used sb v x) /\
  forall m, m <> b -> v' m = v m.
Proof.
  intros Hly Hok Hb Hlow Hl Hd Hv'. assert (Hne : forall m, m <> b -> v' m = v m) by (intros m Hm; rewrite Hv'; unfold after; cbn; by rewrite decide_False).
  assert (Hat : v' b = d) by (rewrite Hv'; unfold after; cbn; by rewrite decide_True).
  destruct (view_agree sb meta v v' ip Hly Hok) as (K1 & K2 & K3 & K4); [intros m Hm; apply Hne; lia|].
  split; [split|done].
  - intros m. destruct (Z.eq_dec m b) as [->|]; [by rewrite Hat|rewrite Hne by done; apply Hb].
  - intros m. destruct (Z.eq_dec m b) as [->|]; [by rewrite Hat|rewrite Hne by done; apply Hb].
  - intros x Hx. pose proof (ly_meta _ _ Hly). rewrite K4 by lia. by apply Hb.
Qed.

Section rw.
Context (devsw : Z -> device) (meta : Z).

(** [ip->size = n; iupdate(ip)]. *)
Lemma resize_run s i ip n : file_state meta s i ip -> 0 <= i_inum ip < sb_ninodes (f_sb s) -> can_log s 1 ->
  exists s' W, (upd_inode i (set_isize n);; iupdate i) s = Ok () s' /\ file_state meta s' i (set_isize n ip) /\
    istep i (set_isize n ip) s s' W /\ length W = 1%nat /\
    (forall bn, baddr (fview s') (set_isize n ip) bn = baddr (fview s) ip bn) /\
    (forall o, off_ok o -> fbyte (fview s') (set_isize n ip) o = fbyte (fview s) ip o) /\
    (forall x, 0 <= x < sb_size (f_sb s) -> used (f_sb s) (fview s') x = used (f_sb s) (fview s) x) /\
    forall m, m <> IBLOCK (i_inum ip) (f_sb s) -> fview s' m = fview s m.
Proof.
  intros [Hf Hi Hok Hb] Hn Hr. destruct (upd_inode_run s i ip (set_isize n) meta [] Hi Hf) as (s1 & E1 & Hf1 & Hs1 & Ev1 & El1).
  pose proof (is_sb _ _ _ _ _ Hs1) as Esb. pose proof (istep_at _ _ _ _ _ _ Hi Hs1) as Hi1.
  destruct (iupdate_run meta s1 [] i (set_isize n ip) Hf1 Hi1) as (s2 & E2 & Hf2 & Hs2); [apply Hok|rewrite Esb; exact Hn| |exact (istep_can_log _ _ _ _ _ _ Hs1 Hr)|].
  { intros j m Hj. by apply elem_of_nil in Hj. }
  destruct (inode_block meta s [] ip Hf Hn) as (_ & _ & Hlow). rewrite Esb, Ev1 in Hs2.
  destruct (inode_update (f_sb s) meta (fview s) (fview s2) ip (IBLOCK (i_inum ip) (f_sb s))
    (store_dinode (set_isize n ip) (dinode_off (i_inum ip)) (fview s (IBLOCK (i_inum ip) (f_sb s))))) as (K1 & K2 & K3 & K4 & K5 & K6); try done.
  { by eapply geometry_layout. }
  { rewrite store_dinode_length. apply Hb. }
  { apply store_dinode_bytes, Hb. }
  { intros m. rewrite (fstep_view _ _ _ m Hs2), Ev1. done. }
  pose proof (istep_trans _ _ _ _ _ _ _ _ Hs1 (istep_fstep _ _ _ _ _ Hi1 Hs2)) as Hs.
  exists s2. eexists. split; [by rewrite (Ok_bind _ _ _ _ _ E1)|]. split; [|split; [exact Hs|done]].
  split; [done|exact (istep_at _ _ _ _ _ _ Hi Hs)| |]; rewrite (is_sb _ _ _ _ _ Hs); [|done]. destruct K2. by split.
Qed.

(** Every byte of the file is in a block. *)
Definition dense (v : Z -> block) (ip : inode) : Prop := forall o, 0 <= o < i_size ip -> baddr v ip (o / BSIZE) <> 0.

(** What writing [src] at [off] makes of a file and of the others. *)
Record wrote (s : fs) (i : nat) (ip : inode) (off : Z) (src : list Z) (s' : fs) (ip' : inode) : Prop := {
  wr_state : file_state meta s' i ip';
  wr_size : i_size ip' = i_size ip `max` (off + Z.of_nat (length src));
  wr_same : ip' = set_isize (i_size ip') (set_addrs (i_addrs ip') ip);
  wr_bytes : forall o, off_ok o -> fbyte (fview s') ip' o = overlay (fbyte (fview s) ip) off src o;
  wr_dense : dense (fview s) ip -> dense (fview s') ip';
  wr_others : forall m, (m < sb_bmapstart (f_sb s) /\ m <> IBLOCK (i_inum ip) (f_sb s)) \/
    (meta <= m < sb_size (f_sb s) /\ used (f_sb s) (fview s) m = true /\ ~ owns (fview s) ip m) -> fview s' m = fview s m;
  wr_used : forall m, meta <= m < sb_size (f_sb s) -> used (f_sb s) (fview s) m = true -> used (f_sb s) (fview s') m = true;
  wr_free : Z.of_nat (nfree (f_sb s) (fview s)) <= Z.of_nat (nfree (f_sb s) (fview s')) + 2 * nblk off (Z.of_nat (length src));
}.

(** The loop's work, with the size brought up to date. *)
Lemma wrote_intro s i ip off src s1 ip1 s' ip' : let n := Z.of_nat (length src) in
  frame (f_sb s) meta (Z.to_nat (2 * nblk off n)) (fview s) ip (fview s1) ip1 -> written (fview s) ip (fview s1) ip1 off src ->
  0 <= off <= i_size ip -> i_size ip <= MAXFILE * BSIZE -> off + n <= MAXFILE * BSIZE ->
  file_state meta s' i ip' -> ip' = set_isize (i_size ip `max` (off + n)) ip1 ->
  (forall bn, baddr (fview s') ip' bn = baddr (fview s1) ip1 bn) ->
  (forall o, off_ok o -> fbyte (fview s') ip' o = fbyte (fview s1) ip1 o) ->
  (forall x, 0 <= x < sb_size (f_sb s) -> used (f_sb s) (fview s') x = used (f_sb s) (fview s1) x) ->
  (forall m, m <> IBLOCK (i_inum ip) (f_sb s) -> fview s' m = fview s1 m) -> IBLOCK (i_inum ip) (f_sb s) < meta ->
  wrote s i ip off src s' ip'.
Proof.
  intros n F [G1 G2] Hoff Hsz Hmax Hst Hip Ha Hbytes Hu Hkeep Hlow. pose proof (nblk_nonneg off n ltac:(lia)). subst n. split.
  - done.
  - by rewrite Hip.
  - rewrite Hip, (fr_same _ _ _ _ _ _ _ F). done.
  - intros o Ho. by rewrite Hbytes, G1.
  - intros Hd o Ho. rewrite Hip in Ho. cbn [set_isize i_size] in Ho. rewrite Ha. destruct (Z.lt_ge_cases o (i_size ip)) as [Hlt|Hge]; [|apply G2; lia].
    apply (fr_addr _ _ _ _ _ _ _ F); [|apply Hd; lia]. apply off_bn. unfold off_ok. lia.
  - intros m Hm. rewrite Hkeep by (destruct Hm as [[_ ?]|(? & _)]; [done|lia]). apply (fr_keep _ _ _ _ _ _ _ F). destruct Hm as [[? _]|?]; [by left|by right].
  - intros m Hm Hum. pose proof (ly_pos _ _ (geometry_layout _ _ _ (ft_base _ _ _ _ Hst))). rewrite Hu by lia. by apply (fr_used _ _ _ _ _ _ _ F).
  - pose proof (fr_free _ _ _ _ _ _ _ F) as Hfr. rewrite (nfree_ext _ _ _ Hu). lia.
Qed.

Lemma writei_run s i ip off src : file_state meta s i ip -> i_type ip <> T_DEV -> 0 <= i_inum ip < sb_ninodes (f_sb s) -> bytes_ok src ->
  let n := Z.of_nat (length src) in 0 <= off <= i_size ip -> i_size ip <= MAXFILE * BSIZE -> off + n <= MAXFILE * BSIZE ->
  can_log s (6 * nblk off n + 1) -> 2 * nblk off n <= Z.of_nat (nfree (f_sb s) (fview s)) ->
  exists s' ip' W, writei devsw i src off n s = Ok n s' /\ istep i ip' s s' W /\ Z.of_nat (length W) <= 6 * nblk off n + 1 /\
    wrote s i ip off src s' ip'.
Proof.
  intros Hst Ht Hin Hsrc n Hoff Hsz Hmax Hr Hfree. unfold writei. rewrite (Ok_bind _ _ _ _ _ (inode_at_Ok _ _ _ (ft_inode _ _ _ _ Hst))).
  destruct (Z.eqb_spec (i_type ip) T_DEV); [done|].
  assert (Hu : u32 (off + n) = off + n) by (apply u32_small; unfold is_u32, two32; fsizes; lia). rewrite Hu.
  assert (E1 : (i_size ip <? off) || (off + n <? off) = false) by (apply orb_false_iff; split; apply Z.ltb_ge; lia). rewrite E1.
  assert (E2 : (MAXFILE * BSIZE <? off + n) = false) by (apply Z.ltb_ge; lia). rewrite E2.
  destruct (writei_loop_run meta (Z.to_nat n) s i ip src off n Hst Hsrc) as (s1 & ip1 & W1 & E3 & Hf1 & Hs1 & HW1 & F1 & G1); try lia.
  { apply (can_log_le _ _ _ Hr). lia. }
  rewrite (Ok_bind _ _ _ _ _ E3). pose proof (frame_state _ _ _ _ _ _ _ _ Hst Hf1 Hs1 F1) as Hst1.
  rewrite (Ok_bind _ _ _ _ _ (inode_at_Ok _ _ _ (ft_inode _ _ _ _ Hst1))). pose proof (is_sb _ _ _ _ _ Hs1) as Esb.
  pose proof (fr_same _ _ _ _ _ _ _ F1) as Hsame. assert (Esz : i_size ip1 = i_size ip) by (by rewrite Hsame).
  assert (Einum : i_inum ip1 = i_inum ip) by (by rewrite Hsame). pose proof (nblk_nonneg off n ltac:(lia)).
  destruct (inode_block meta s [] ip (ft_base _ _ _ _ Hst) Hin) as (_ & _ & Hlow). destruct (ge_start _ _ _ _ (fb_geo _ _ _ (ft_base _ _ _ _ Hst))).
  destruct ((0 <? n) && (i_size ip1 <? off + n)) eqn:Ec; cbn [when].
  - apply andb_true_iff in Ec as [_ Hgrow%Z.ltb_lt].
    destruct (resize_run s1 i ip1 (off + n) Hst1) as (s2 & W2 & E4 & Hst2 & Hs2 & HW2 & K1 & K2 & K3 & K4).
    { by rewrite Einum, Esb. }
    { apply (can_log_le _ _ _ (istep_can_log _ _ _ _ _ _ Hs1 Hr)). lia. }
    exists s2, (set_isize (off + n) ip1), (W1 ++ W2). rewrite (Ok_bind _ _ _ _ _ E4). split; [done|]. split; [by eapply istep_trans|].
    split; [rewrite length_app; lia|]. rewrite Einum, Esb in *. eapply (wrote_intro s i ip off src s1 ip1); try done; try lia. f_equal. lia.
  - assert (Hno : i_size ip `max` (off + n) = i_size ip) by (apply andb_false_iff in Ec as [?%Z.ltb_ge|?%Z.ltb_ge]; lia).
    exists s1, ip1, W1. split; [done|]. split; [done|]. split; [lia|]. eapply (wrote_intro s i ip off src s1 ip1); try done; try lia.
    fold n. rewrite Hno, <- Esz. by destruct ip1.
Qed.

(** [writei] takes no more than [n] bytes from where it is pointed. *)
Lemma writei_loop_take fuel : forall s i src off n, writei_loop fuel i (take (Z.to_nat n) src) off n s = writei_loop fuel i src off n s.
Proof.
  induction fuel as [|fuel IH]; intros s i src off n; cbn [writei_loop]; destruct (Z.leb_spec n 0) as [Hn|Hn]; try done.
  set (m := n `min` (BSIZE - off mod BSIZE)). pose proof (Z.mod_pos_bound off BSIZE ltac:(done)).
  assert (E : slice (take (Z.to_nat n) src) 0 m = slice src 0 m) by (unfold slice; change (Z.to_nat 0) with 0%nat; rewrite !drop_0, take_take; f_equal; lia).
  rewrite E. unfold mbind, M_bind, bindM. destruct (inode_at i s) as [ip s0| | | |]; try done. destruct (bmap _ _ _) as [a s1| | | |]; try done.
  destruct (ondisk _ s1) as [bp s2| | | |]; try done. destruct (ondisk _ s2) as [[] s3| | | |]; try done.
  destruct (onlfs _ s3) as [[] s4| | | |]; try done. destruct (ondisk _ s4) as [[] s5| | | |]; try done.
  rewrite <- (IH s5 i (drop (Z.to_nat m) src)). f_equal. rewrite skipn_firstn_comm. f_equal. subst m. lia.
Qed.

Lemma writei_take s i ip src off n : f_icache s !! i = Some ip -> i_type ip <> T_DEV ->
  writei devsw i (take (Z.to_nat n) src) off n s = writei devsw i src off n s.
Proof.
  intros Hi Ht. unfold writei. rewrite !(Ok_bind _ _ _ _ _ (inode_at_Ok _ _ _ Hi)). destruct (Z.eqb_spec (i_type ip) T_DEV); [done|].
  destruct (_ || _); [done|]. destruct (_ <? _); [done|]. unfold mbind at 1 3. unfold M_bind, bindM. by rewrite writei_loop_take.
Qed.

(** ** [readi] *)

Definition fbytes (v : Z -> block) (ip : inode) (off n : Z) : list Z := fbyte v ip <$> seqZ off n.

Lemma fbytes_ext v w ip off n : v ≐ w -> fbytes v ip off n = fbytes w ip off n.
Proof. intros E. apply list_fmap_ext. intros k x _. by rewrite E. Qed.

Lemma slice_get d o n : 0 <= o -> 0 <= n -> o + n <= Z.of_nat (length d) -> slice d o n = get8 d <$> seqZ o n.
Proof.
  intros Ho Hn Hl. apply list_eq. intros k. unfold slice, get8. rewrite list_lookup_fmap. destruct (Z.lt_ge_cases (Z.of_nat k) n).
  - rewrite lookup_take_lt, lookup_drop, lookup_seqZ_lt by lia. cbn [fmap option_fmap option_map].
    replace (Z.to_nat (o + Z.of_nat k)) with (Z.to_nat o + k)%nat by lia.
    destruct (lookup_lt_is_Some_2 d (Z.to_nat o + k)%nat) as [x Hx]; [lia|]. by rewrite nth_lookup, Hx.
  - by rewrite lookup_take_ge, lookup_seqZ_ge by lia.
Qed.

Lemma fbytes_block v ip off m : 0 <= off -> 0 <= m -> off mod BSIZE + m <= BSIZE -> length (v (baddr v ip (off / BSIZE))) = 512%nat ->
  baddr v ip (off / BSIZE) <> 0 -> slice (v (baddr v ip (off / BSIZE))) (off mod BSIZE) m = fbytes v ip off m.
Proof.
  intros Ho Hm Hle Hl Hn. pose proof (Z.mod_pos_bound off BSIZE ltac:(done)). rewrite slice_get by (try rewrite Hl; change BSIZE with 512 in *; lia).
  apply list_eq. intros k. unfold fbytes. rewrite !list_lookup_fmap. destruct (Z.lt_ge_cases (Z.of_nat k) m); [|by rewrite !lookup_seqZ_ge by lia].
  rewrite !lookup_seqZ_lt by lia. cbn [fmap option_fmap option_map]. f_equal. unfold fbyte.
  assert (E : (off + Z.of_nat k) / BSIZE = off / BSIZE) by (change BSIZE with 512 in *; Z.div_mod_to_equations; lia).
  assert (E' : (off + Z.of_nat k) mod BSIZE = off mod BSIZE + Z.of_nat k) by (change BSIZE with 512 in *; Z.div_mod_to_equations; lia).
  rewrite E, E'. by destruct (Z.eqb_spec (baddr v ip (off / BSIZE)) 0).
Qed.

Lemma fbytes_app v ip off m n : 0 <= m -> 0 <= n -> fbytes v ip off m ++ fbytes v ip (off + m) n = fbytes v ip off (m + n).
Proof. intros Hm Hn. unfold fbytes. by rewrite <- fmap_app, <- seqZ_app. Qed.

Lemma istep_same i ip s s' W : f_icache s !! i = Some ip -> istep i ip s s' W -> fstep s s' W.
Proof. intros Hi [H1 H2 H3]. split; [done|done|]. by rewrite H3, list_insert_id. Qed.

Lemma file_state_step s i ip s' : file_state meta s i ip -> fbase s' meta [] -> fstep s s' [] -> file_state meta s' i ip.
Proof.
  intros [H1 H2 H3 H4] Hf Hs. pose proof (fstep_views _ _ _ Hs) as Ev. change (after [] (fview s)) with (fview s) in Ev.
  split; [done|by rewrite (fs_icache _ _ _ Hs)| |]; by rewrite (fs_sb _ _ _ Hs), Ev.
Qed.

Lemma readi_loop_run fuel : forall s i ip off n, file_state meta s i ip -> 0 <= off -> off + n <= MAXFILE * BSIZE -> 0 <= n <= Z.of_nat fuel ->
  (forall o, off <= o < off + n -> baddr (fview s) ip (o / BSIZE) <> 0) ->
  exists s', readi_loop fuel i off n s = Ok (fbytes (fview s) ip off n) s' /\ fbase s' meta [] /\ fstep s s' [].
Proof.
  induction fuel as [|fuel IH]; intros s i ip off n Hst Ho Hmax Hn Hd; cbn [readi_loop]; destruct (Z.leb_spec n 0) as [Hz|Hz]; try lia.
  1-2: replace n with 0 by lia; exists s; split; [done|split; [apply Hst|apply fstep_refl]].
  destruct Hst as [Hf Hi Hok Hb]. rewrite (Ok_bind _ _ _ _ _ (inode_at_Ok _ _ _ Hi)).
  assert (Hnz : baddr (fview s) ip (off / BSIZE) <> 0) by (apply Hd; lia). assert (Hbn : bn_ok (off / BSIZE)) by (apply off_bn; unfold off_ok; lia).
  destruct (bmap_run meta s i ip (off / BSIZE) Hf Hi Hok Hb Hbn) as (a & s1 & ip1 & W1 & E1 & Hf1 & Hs1 & _ & Ha & Ha0 & _ & Hno); [done|].
  destruct (Hno Hnz) as [-> ->]. apply (istep_same _ _ _ _ _ Hi) in Hs1. rewrite (Ok_bind _ _ _ _ _ E1), (fo_dev _ _ _ _ Hok).
  pose proof (file_state_step _ _ _ _ (Build_file_state meta s i ip Hf Hi Hok Hb) Hf1 Hs1) as Hst1.
  assert (Hown : owns (fview s1) ip a) by (split; [done|right; by exists (off / BSIZE)]).
  destruct (fo_own _ _ _ _ (ft_ok _ _ _ _ Hst1) a Hown) as [Hra _]. destruct (data_block meta s1 [] a Hf1 Hra) as [Hda _].
  destruct (bread_f meta s1 [] a Hf1 Hda) as (j & s2 & E2 & Hf2 & Hs2 & Hj & _); [intros j Hj; by apply elem_of_nil in Hj|by apply (room_nonneg meta _ [])|].
  rewrite (Ok_bind _ _ _ _ _ E2), (Ok_bind _ _ _ _ _ (bdata_f meta _ _ _ _ Hf2 (list_elem_of_here _ _) Hj)).
  destruct (brelse_f meta s2 [] j _ Hf2 Hj) as (s3 & E3 & Hf3 & Hs3 & _). rewrite (Ok_bind _ _ _ _ _ E3).
  pose proof (fstep_trans _ _ _ _ _ Hs1 (fstep_trans _ _ _ _ _ Hs2 Hs3)) as Hs03. cbn [app] in Hs03.
  pose proof (file_state_step _ _ _ _ (Build_file_state meta s i ip Hf Hi Hok Hb) Hf3 Hs03) as Hst3.
  pose proof (fstep_views _ _ _ Hs03) as Ev3. change (after [] (fview s)) with (fview s) in Ev3.
  set (m := n `min` (BSIZE - off mod BSIZE)). pose proof (Z.mod_pos_bound off BSIZE ltac:(done)).
  destruct (IH s3 i ip (off + m) (n - m) Hst3) as (s4 & E4 & Hf4 & Hs4); try (subst m; lia).
  { intros o Hoo. rewrite Ev3. apply Hd. subst m. lia. }
  exists s4. rewrite (Ok_bind _ _ _ _ _ E4). split; [|split; [done|by apply (fstep_trans _ _ _ [] [] Hs03)]]. unfold mret, M_ret. f_equal.
  assert (Ea : fview s2 a = fview s a) by apply (fstep_view _ _ _ a (fstep_trans _ _ _ _ _ Hs1 Hs2)). rewrite Ea.
  replace a with (baddr (fview s) ip (off / BSIZE)) by (rewrite <- Ha; by rewrite (fstep_views _ _ _ Hs1)).
  rewrite fbytes_block; [|done|subst m; lia|subst m; lia|apply Hb|done].
  rewrite (fbytes_ext _ _ _ _ _ Ev3), fbytes_app by (subst m; lia). f_equal. lia.
Qed.

Lemma readi_within s i ip off n : file_state meta s i ip -> i_type ip <> T_DEV -> 0 <= off <= i_size ip -> i_size ip <= MAXFILE * BSIZE ->
  0 <= n < 2147483648 -> let n' := n `min` (i_size ip - off) in
  (forall o, off <= o < off + n' -> baddr (fview s) ip (o / BSIZE) <> 0) ->
  exists s', readi devsw i off n s = Ok (n', fbytes (fview s) ip off n') s' /\ fbase s' meta [] /\ fstep s s' [].
Proof.
  intros Hst Ht Hoff Hsz Hn n' Hd. unfold readi. rewrite (Ok_bind _ _ _ _ _ (inode_at_Ok _ _ _ (ft_inode _ _ _ _ Hst))).
  destruct (Z.eqb_spec (i_type ip) T_DEV); [done|].
  assert (Hu : u32 (off + n) = off + n) by (apply u32_small; unfold is_u32, two32; fsizes; lia). rewrite Hu.
  assert (E1 : (i_size ip <? off) || (off + n <? off) = false) by (apply orb_false_iff; split; apply Z.ltb_ge; lia). rewrite E1.
  replace (if i_size ip <? off + n then i_size ip - off else n) with n' by (subst n'; case_bool; lia).
  destruct (readi_loop_run (Z.to_nat n') s i ip off n' Hst) as (s' & E & Hf & Hs); [lia|subst n'; lia|subst n'; lia|done|].
  exists s'. by rewrite (Ok_bind _ _ _ _ _ E).
Qed.

Lemma readi_run s i ip off n : file_state meta s i ip -> i_type ip <> T_DEV -> 0 <= off <= i_size ip -> i_size ip <= MAXFILE * BSIZE ->
  0 <= n < 2147483648 -> dense (fview s) ip ->
  let n' := n `min` (i_size ip - off) in
  exists s', readi devsw i off n s = Ok (n', fbytes (fview s) ip off n') s' /\ fbase s' meta [] /\ fstep s s' [].
Proof. intros Hst Ht Hoff Hsz Hn Hd n'. apply readi_within; [done..|]. intros o Ho. apply Hd. lia. Qed.

(** A file none of whose blocks changed. *)
Lemma untouched sb v v' ip : file_ok sb meta v ip -> (forall m, owns v ip m -> v' m = v m) ->
  (forall m, owns v ip m -> used sb v' m = true) ->
  file_ok sb meta v' ip /\ (forall bn, baddr v' ip bn = baddr v ip bn) /\ forall o, off_ok o -> fbyte v' ip o = fbyte v ip o.
Proof.
  intros Hok Hv Hu.
  assert (Ha : forall bn, baddr v' ip bn = baddr v ip bn) by (intros bn; apply baddr_ext; intros Hn; apply Hv; split; [done|by left]).
  split; [|split; [done|]].
  - destruct Hok as [K1 K2 K3 K4 K5]. split; [done|done| |by setoid_rewrite Ha|by setoid_rewrite Ha].
    intros m Hm. unfold owns in Hm. setoid_rewrite Ha in Hm. destruct (K3 m Hm). split; [done|by apply Hu].
  - intros o Ho. unfold fbyte. rewrite Ha. destruct (Z.eqb_spec (baddr v ip (o / BSIZE)) 0); [done|].
    rewrite Hv; [done|]. split; [done|]. right. exists (o / BSIZE). split; [by apply off_bn|done].
Qed.

Lemma fbytes_overlay v ip g off src : (forall o, off_ok o -> fbyte v ip o = overlay g off src o) -> 0 <= off ->
  off + Z.of_nat (length src) <= MAXFILE * BSIZE -> fbytes v ip off (Z.of_nat (length src)) = src.
Proof.
  intros Hv Ho Hmax. apply list_eq. intros k. unfold fbytes. rewrite list_lookup_fmap. destruct (src !! k) as [x|] eqn:Hx.
  - pose proof (lookup_lt_Some _ _ _ Hx). rewrite lookup_seqZ_lt by lia. cbn [fmap option_fmap option_map]. f_equal. rewrite Hv by (unfold off_ok; lia).
    unfold overlay. destruct (Z.leb_spec off (off + Z.of_nat k)); [|lia]. destruct (Z.ltb_spec (off + Z.of_nat k) (off + Z.of_nat (length src))); [|lia].
    unfold get8. replace (Z.to_nat (off + Z.of_nat k - off)) with k by lia. by rewrite nth_lookup, Hx.
  - apply lookup_ge_None in Hx. by rewrite lookup_seqZ_ge by lia.
Qed.
End rw.
