(* ===== verification/FsDemo.v ===== *)
(** * A small disk

    A file system with an empty file, on which the theorems about files are
    applied. *)

From S2P Require Import Prelude Bytes Bio Log Txn Crash Fs FsBlock FsFile FsRw.

Local Open Scope kern_scope.

(** Boot block, superblock, the log in 2 to 31, inodes in 32 and 33, the
    bitmap in 34, and data from 35 to 199. *)
Definition demo_bitmap : block := replicate 4 255 ++ [7] ++ replicate 507 0.
Definition demo_disk : gmap Z block := {[34 := demo_bitmap]}.
Definition demo_sb : superblock := SB 200 165 16 30 2 32 34.
Definition demo_inode (inum : Z) : inode := Inode 1 inum 1 false true T_FILE 0 0 1 0 (replicate 13 0).
Definition demo_fs (ops : Z) : fs :=
  FS (LFS (binit demo_disk 200) (Log 2 30 ops false 0 (replicate 30 0))) demo_sb [demo_inode 1; demo_inode 2].

Lemma demo_linv ops : linv (f_lfs (demo_fs ops)) [].
Proof.
  apply (linv_ops (LFS (binit demo_disk 200) (Log 2 30 0 false 0 (replicate 30 0))) [] ops false).
  apply (binit_linv demo_disk 200 2 30); unfold LOGSIZE; lia.
Qed.

Lemma demo_view ops : fview (demo_fs ops) ≐ disk_block demo_disk.
Proof. intros m. apply (idle_view _ (demo_linv ops)). done. Qed.

Lemma demo_base ops : fbase (demo_fs ops) 35 [].
Proof.
  split; [apply demo_linv|]. split; cbn [demo_fs f_sb f_lfs l_log l_bio demo_sb sb_inodestart sb_bmapstart sb_ninodes sb_size lg_start lg_size]; try lia.
  - intros inum Hi. change (inum / 8 + 32 < 34). Z.div_mod_to_equations; lia.
  - intros b Hb. change (b / 4096 + 34 < 35). Z.div_mod_to_equations; lia.
  - change (35 <= 200 <= 200). lia.
Qed.

Lemma demo_blocks ops : blocks_ok (f_sb (demo_fs ops)) 35 (fview (demo_fs ops)).
Proof.
  rewrite demo_view. cbn [demo_fs f_sb].
  assert (H : forall m, disk_block demo_disk m = demo_bitmap \/ disk_block demo_disk m = zero_block).
  { intros m. unfold disk_block, demo_disk. destruct (decide (34 = m)) as [<-|Hm]; [left; by rewrite lookup_singleton_eq|right; by rewrite lookup_singleton_ne]. }
  split.
  - intros m. by destruct (H m) as [-> | ->].
  - intros m. destruct (H m) as [-> | ->]; [|apply zero_block_ok]. apply Forall_app_2; [by apply Forall_replicate; lia|].
    constructor; [lia|]. apply Forall_replicate. lia.
  - assert (Hall : forallb (used demo_sb (disk_block demo_disk)) (seqZ 0 35) = true) by (vm_compute; reflexivity).
    intros b Hb. rewrite forallb_forall in Hall. apply Hall, list_elem_of_In, elem_of_seqZ. lia.
Qed.

Lemma demo_empty inum : (forall k, addr_at (demo_inode inum) k = 0) /\ forall v bn, baddr v (demo_inode inum) bn = 0.
Proof.
  assert (Ha : forall k, addr_at (demo_inode inum) k = 0) by (intros k; unfold addr_at; cbn [demo_inode i_addrs]; rewrite nth_lookup; destruct (replicate 13 0 !! Z.to_nat k) eqn:E; [by apply lookup_replicate in E as [-> _]|done]).
  split; [done|]. intros v bn. unfold baddr. rewrite !Ha. by case_bool.
Qed.

Lemma demo_file_ok sb meta v inum : file_ok sb meta v (demo_inode inum).
Proof.
  destruct (demo_empty inum) as [Ha Hb]. split; [done|done|..].
  - intros m [Hm [E|(bn & _ & E)]]; rewrite ?Ha, ?Hb in E; done.
  - intros bn bn' _ _ Hn. by rewrite Hb in Hn.
  - intros bn _ Hn. by rewrite Ha in Hn.
Qed.

Lemma demo_file ops : file_state 35 (demo_fs ops) 0 (demo_inode 1).
Proof. split; [apply demo_base|done|apply demo_file_ok|apply demo_blocks]. Qed.

Lemma demo_free ops : (nfree (f_sb (demo_fs ops)) (fview (demo_fs ops)) = 165)%nat.
Proof. rewrite demo_view. vm_compute. reflexivity. Qed.

(** ** Files keep what is written to them *)

(** C18: What [writei] stores, [readi] returns.  From inside a transaction with
    room for it, with enough free blocks, writing [src] at an offset up to the
    size of a file returns the number of bytes; reading them again returns
    [src], whether the blocks were there, were allocated, or are reached through
    the indirect block.  A file that shares no block with it still reads as
    before. *)
Theorem writei_readi (devsw : Z -> device) (meta : Z) (s : fs) (i : nat) (ip : inode) (off : Z) (src : list Z) :
  let n := Z.of_nat (length src) in
  file_state meta s i ip -> i_type ip <> T_DEV -> 0 <= i_inum ip < sb_ninodes (f_sb s) -> bytes_ok src -> dense (fview s) ip ->
  0 <= off <= i_size ip -> i_size ip <= MAXFILE * BSIZE -> off + n <= MAXFILE * BSIZE ->
  can_log s (6 * nblk off n + 1) -> 2 * nblk off n <= Z.of_nat (nfree (f_sb s) (fview s)) ->
  exists s', writei devsw i src off n s = Ok n s' /\
    (exists s'', readi devsw i off n s' = Ok (n, src) s'') /\
    forall j ipj o k, j <> i -> f_icache s !! j = Some ipj -> file_ok (f_sb s) meta (fview s) ipj -> i_type ipj <> T_DEV ->
      (forall m, owns (fview s) ipj m -> ~ owns (fview s) ip m) -> dense (fview s) ipj -> 0 <= o -> 0 <= k -> o + k <= i_size ipj <= MAXFILE * BSIZE ->
      exists s'', readi devsw j o k s' = Ok (k, fbytes (fview s) ipj o k) s''.
Proof.
  intros n Hst Ht Hin Hsrc Hd Hoff Hsz Hmax Hr Hfree.
  destruct (writei_run devsw meta s i ip off src Hst Ht Hin Hsrc Hoff Hsz Hmax Hr Hfree) as (s1 & ip1 & W & E1 & Hs1 & _ & [R1 R2 R3 R4 R5 R6 R7 R8]).
  exists s1. split; [done|]. fold n in R2. split.
  - destruct (readi_run devsw meta s1 i ip1 off n R1) as (s2 & E2 & _); [by rewrite R3|lia|lia|fsizes; lia|by apply R5|].
    exists s2. rewrite E2, Z.min_l by lia. do 2 f_equal. unfold n. by apply (fbytes_overlay _ _ (fbyte (fview s) ip)); [|lia|].
  - intros j ipj o k Hj Hij Hokj Htj Hdis Hdj Ho Hk Hend.
    assert (Hown : forall m, owns (fview s) ipj m -> meta <= m < sb_size (f_sb s) /\ used (f_sb s) (fview s) m = true) by apply Hokj.
    destruct (untouched meta (f_sb s) (fview s) (fview s1) ipj Hokj) as (K1 & K2 & K3).
    { intros m Hm. apply R6. right. destruct (Hown m Hm). by split; [|split; [|apply Hdis]]. }
    { intros m Hm. destruct (Hown m Hm). by apply R7. }
    destruct (readi_run devsw meta s1 j ipj o k) as (s2 & E2 & _); [|done|lia|lia|fsizes; lia|intros x Hx; rewrite K2; by apply Hdj|].
    { split; [apply R1| |by rewrite (is_sb _ _ _ _ _ Hs1)|apply R1]. by rewrite (is_cache _ _ _ _ _ Hs1), list_lookup_insert_ne. }
    exists s2. rewrite E2, Z.min_l by lia. do 2 f_equal. apply list_fmap_ext. intros x y Hy. apply K3. apply lookup_seqZ in Hy. unfold off_ok. lia.
Qed.

Definition no_device (major : Z) : device := Device None None.

Lemma demo_can_log : can_log (demo_fs 1) 29.
Proof. split; [done|]. unfold log_room. cbn. lia. Qed.

Lemma writei_readi_witness : exists s', writei no_device 0 [104; 105] 0 2 (demo_fs 1) = Ok 2 s' /\
  exists s'', readi no_device 0 0 2 s' = Ok (2, [104; 105]) s''.
Proof.
  destruct (writei_readi no_device 35 (demo_fs 1) 0 (demo_inode 1) 0 [104; 105]) as (s' & E & R & _).
  - apply demo_file.
  - done.
  - cbn. lia.
  - by repeat constructor.
  - intros o Ho. cbn in Ho. lia.
  - cbn. lia.
  - done.
  - done.
  - apply (can_log_le _ _ _ demo_can_log). done.
  - rewrite demo_free. done.
  - exists s'. split; [exact E|exact R].
Defined.
