(* ===== verification/FsPath.v ===== *)
(** * Path names, verified

    [skipelem] takes a path apart at its slashes, looking a path up always
    comes to an end, and every process has a swap file of its own. *)

From S2P Require Import Prelude Bytes Bio Log Fs.

(** ** The elements of a path *)

Fixpoint split_slash (path : list Z) : list (list Z) :=
  match path with
  | [] => [[]]
  | c :: path' =>
      if c =? SLASH then [] :: split_slash path'
      else match split_slash path' with e :: es => (c :: e) :: es | [] => [[c]] end
  end.
Definition elements (path : list Z) : list (list Z) := filter (fun e => e <> []) (split_slash path).

(** The elements [skipelem] gives, one after the other. *)
Fixpoint walk (fuel : nat) (path : list Z) : option (list (list Z)) :=
  match skipelem path with
  | None => Some []
  | Some (e, rest) => match fuel with O => None | S fuel' => cons e <$> walk fuel' rest end
  end.

Lemma split_slash_nonempty path : exists e es, split_slash path = e :: es.
Proof. induction path as [|c path (e & es & E)]; cbn [split_slash]; [eauto|]. destruct (c =? SLASH); [eauto|]. rewrite E. eauto. Qed.

Lemma elements_slash path : elements (SLASH :: path) = elements path.
Proof. unfold elements. cbn [split_slash]. by rewrite Z.eqb_refl. Qed.

Lemma elements_app e rest : Forall (fun c => c <> SLASH) e -> e <> [] -> (rest = [] \/ hd 0 rest = SLASH) ->
  elements (e ++ rest) = e :: elements rest.
Proof.
  intros He Hne Hrest. assert (Hs : split_slash (e ++ rest) = match split_slash rest with x :: xs => (e ++ x) :: xs | [] => [e] end).
  { clear Hne. induction He as [|c e Hc _ IH]; cbn [app split_slash].
    - by destruct (split_slash_nonempty rest) as (x & xs & ->).
    - apply Z.eqb_neq in Hc. rewrite Hc, IH. by destruct (split_slash rest). }
  unfold elements. rewrite Hs. destruct Hrest as [-> |Hhd].
  - cbn [split_slash]. rewrite app_nil_r, !filter_cons. by rewrite decide_True, decide_False by (done || auto).
  - destruct rest as [|c rest]; [done|]. cbn [hd] in Hhd. subst c. cbn [split_slash]. rewrite Z.eqb_refl, app_nil_r.
    rewrite !filter_cons. by rewrite decide_True, decide_False by (done || auto).
Qed.

Lemma skip_slashes_cons c path : skip_slashes (c :: path) = if c =? SLASH then skip_slashes path else c :: path.
Proof.
  unfold skip_slashes. cbn [find_index]. destruct (c =? SLASH); [|done]. cbn [negb]. by destruct (find_index _ path).
Qed.

Lemma skip_slashes_elements path : elements (skip_slashes path) = elements path.
Proof.
  induction path as [|c path IH]; [done|]. rewrite skip_slashes_cons. destruct (Z.eqb_spec c SLASH) as [-> |]; [|done].
  by rewrite elements_slash.
Qed.

Lemma skip_slashes_length path : (length (skip_slashes path) <= length path)%nat.
Proof. unfold skip_slashes. destruct (find_index _ path); [|cbn; lia]. rewrite length_drop. lia. Qed.

Lemma skip_slashes_head path : skip_slashes path = [] \/ exists c rest, skip_slashes path = c :: rest /\ c <> SLASH.
Proof.
  induction path as [|c path IH]; [by left|]. rewrite skip_slashes_cons. destruct (Z.eqb_spec c SLASH); [done|]. right. eauto.
Qed.

(** One element is taken off the front. *)
Lemma skipelem_spec path :
  match skipelem path with
  | None => elements path = []
  | Some (e, rest) => exists e', e = take DIRSIZ e' /\ elements path = e' :: elements rest /\ (length rest < length path)%nat
  end.
Proof.
  unfold skipelem. pose proof (skip_slashes_length path) as Hlen. rewrite <- (skip_slashes_elements path).
  destruct (skip_slashes_head path) as [-> |(c & p & E & Hc)]; [done|]. rewrite E in *. set (q := c :: p) in *.
  set (len := match find_index (fun c => c =? SLASH) q with Some k => k | None => length q end).
  assert (Hl : (0 < len <= length q)%nat /\ Forall (fun c => c <> SLASH) (take len q) /\ (drop len q = [] \/ hd 0 (drop len q) = SLASH)).
  { unfold len. destruct (find_index _ q) as [k|] eqn:Ek.
    - pose proof (find_index_lt _ _ _ Ek). apply find_index_Some in Ek as [(x & Hx & Hs) Hmin]. split; [|split].
      + split; [|lia]. destruct k; [|lia]. cbn in Hx. injection Hx as <-. apply Z.eqb_eq in Hs. done.
      + apply Forall_lookup. intros j y Hy. pose proof (lookup_lt_Some _ _ _ Hy) as Hlt. rewrite length_take in Hlt. rewrite lookup_take_lt in Hy by lia.
        apply Z.eqb_neq. apply (Hmin j y); [lia|done].
      + right. apply drop_S in Hx. rewrite Hx. cbn. by apply Z.eqb_eq.
    - rewrite find_index_None in Ek. split; [cbn; lia|]. split; [|left; apply drop_all]. rewrite firstn_all. apply Forall_lookup.
      intros j y Hy. apply Z.eqb_neq. by apply (Ek j). }
  destruct Hl as (Hl & Hf & Hr). exists (take len q). split; [by rewrite take_take, Nat.min_comm|]. split.
  - rewrite skip_slashes_elements. rewrite <- (take_drop len q) at 1. apply elements_app; [done| |done]. intros E0%(f_equal length).
    rewrite length_take in E0. cbn in E0, Hl. lia.
  - pose proof (skip_slashes_length (drop len q)) as H. rewrite length_drop in H. lia.
Qed.

Lemma walk_elements fuel : forall path, (length path <= fuel)%nat -> walk fuel path = Some (take DIRSIZ <$> elements path).
Proof.
  induction fuel as [|fuel IH]; intros path Hl; cbn [walk]; pose proof (skipelem_spec path) as H;
    destruct (skipelem path) as [[e rest]|]; try (by rewrite H); destruct H as (e' & -> & -> & Hlt); [lia|].
  by rewrite IH by lia.
Qed.

(** Iterating [skipelem], as [namex] does, takes a path apart into the
    non-empty elements between its slashes, in order and cut to [DIRSIZ]
    characters, however many slashes stand before, between and after them, and
    is done after at most as many rounds as the path has characters. *)
Theorem skipelem_splits (path : list Z) : walk (length path) path = Some (take DIRSIZ <$> elements path).
Proof. by apply walk_elements. Qed.

(** ** Looking up a path ends *)

(** [m] does not run out of fuel. *)
Definition total {S A} (m : M S A) : Prop := forall s, m s <> NoFuel.

(** [m] leaves the superblock and the inodes' types and sizes alone. *)
Definition same_kinds (s s' : fs) : Prop :=
  f_sb s' = f_sb s /\ forall i ip', f_icache s' !! i = Some ip' -> exists ip, f_icache s !! i = Some ip /\ i_type ip' = i_type ip /\ i_size ip' = i_size ip.
Definition keeps {A} (m : M fs A) : Prop := forall s a s', m s = Ok a s' -> same_kinds s s'.

Lemma same_kinds_refl s : same_kinds s s.
Proof. split; [done|]. eauto. Qed.

Lemma same_kinds_trans s1 s2 s3 : same_kinds s1 s2 -> same_kinds s2 s3 -> same_kinds s1 s3.
Proof.
  intros [A1 A2] [B1 B2]. split; [congruence|]. intros i ip3 H3. destruct (B2 _ _ H3) as (ip2 & H2 & ? & ?).
  destruct (A2 _ _ H2) as (ip1 & H1 & ? & ?). exists ip1. split; [done|]. split; congruence.
Qed.

Lemma total_bind {S A B} (m : M S A) (k : A -> M S B) : total m -> (forall a, total (k a)) -> total (m ≫= k).
Proof.
  intros Hm Hk s. unfold mbind, M_bind, bindM. specialize (Hm s). destruct (m s) as [a s'| | | |]; try done. apply Hk.
Qed.
Lemma total_ret {S A} (a : A) : total (mret a : M S A). Proof. done. Qed.
Lemma total_get {S} : total (@get S). Proof. done. Qed.
Lemma total_put {S} (s : S) : total (put s). Proof. done. Qed.
Lemma total_modify {S} (f : S -> S) : total (modify f). Proof. done. Qed.
Lemma total_panic {S A} msg : total (panic msg : M S A). Proof. done. Qed.
Lemma total_blocked {S A} : total (blocked : M S A). Proof. done. Qed.
Lemma total_zoom {S T A} (proj : S -> T) upd (m : M T A) : total m -> total (zoom proj upd m).
Proof. intros Hm s. unfold zoom. specialize (Hm (proj s)). by destruct (m (proj s)). Qed.
Lemma total_when {S} b (m : M S ()) : total m -> total (when b m).
Proof. destruct b; [done|]. intros _. apply total_ret. Qed.
Lemma total_if {S A} (b : bool) (m m' : M S A) : total m -> total m' -> total (if b then m else m').
Proof. by destruct b. Qed.
Lemma total_forM {S A} (l : list A) (body : A -> M S ()) : (forall x, total (body x)) -> total (forM l body).
Proof. intros Hb. induction l as [|x l IH]; [done|]. apply total_bind; [apply Hb|intros []; apply IH]. Qed.
Lemma total_buf_at i : total (buf_at i).
Proof. intros s. unfold buf_at. by destruct (c_bufs s !! i). Qed.
Lemma total_inode_at i : total (inode_at i).
Proof. intros s. unfold inode_at. by destruct (f_icache s !! i). Qed.

Create HintDb total.
#[export] Hint Resolve total_bind total_ret total_get total_put total_modify total_panic total_blocked total_zoom total_when total_if total_forM
  total_buf_at total_inode_at : total.

(** Takes a definition apart at its binds and branches. *)
Ltac total :=
  repeat match goal with
  | |- total (_ ≫= _) => apply total_bind; [|intros ?]
  | |- total (match ?x with _ => _ end) => destruct x
  | |- _ => solve [auto 2 with total nocore]
  | |- total (zoom _ _ _) => apply total_zoom
  | |- total (when _ _) => apply total_when
  | |- total (forM _ _) => apply total_forM; intros ?
  end.

Lemma total_bread dev n : total (bread dev n).
Proof. unfold bread, bget, iderw, acquiresleep, upd_buf. total. Qed.
Lemma total_brelse i : total (brelse i).
Proof. unfold brelse, releasesleep, upd_buf. total. Qed.
Lemma total_bdata i : total (bdata i).
Proof. unfold bdata. total. Qed.
Lemma total_bmodify i f : total (bmodify i f).
Proof. unfold bmodify, upd_buf. total. Qed.
Lemma total_log_write i : total (log_write i).
Proof. unfold log_write, onbio, upd_buf. total. Qed.
Lemma total_ondisk {A} (m : M bio A) : total m -> total (ondisk m).
Proof. intros Hm. by apply total_zoom, total_zoom. Qed.
Lemma total_onlfs {A} (m : M lfs A) : total m -> total (onlfs m).
Proof. apply total_zoom. Qed.
Lemma total_upd_inode i f : total (upd_inode i f).
Proof. unfold upd_inode. total. Qed.
#[export] Hint Resolve total_bread total_brelse total_bdata total_bmodify total_log_write total_ondisk total_onlfs total_upd_inode : total.

Lemma keeps_bind {A B} (m : M fs A) (k : A -> M fs B) : keeps m -> (forall a, keeps (k a)) -> keeps (m ≫= k).
Proof. intros Hm Hk s b s'' (a & s' & E & E')%bind_Ok. eapply same_kinds_trans; [by eapply Hm|by eapply Hk]. Qed.
Lemma keeps_ret {A} (a : A) : keeps (mret a). Proof. intros s b s' [= <- <-]. apply same_kinds_refl. Qed.
Lemma keeps_get : keeps get. Proof. intros s b s' [= <- <-]. apply same_kinds_refl. Qed.
Lemma keeps_panic {A} msg : keeps (panic msg : M fs A). Proof. done. Qed.
Lemma keeps_nofuel {A} : keeps (nofuel : M fs A). Proof. done. Qed.
Lemma keeps_onlfs {A} (m : M lfs A) : keeps (onlfs m).
Proof. intros s a s'. unfold onlfs, zoom. destruct (m _); try done. intros [= <- <-]. split; [done|]. cbn. eauto. Qed.
Lemma keeps_ondisk {A} (m : M bio A) : keeps (ondisk m). Proof. apply keeps_onlfs. Qed.
Lemma keeps_inode_at i : keeps (inode_at i).
Proof. intros s a s'. unfold inode_at. destruct (f_icache s !! i); [|done]. intros [= <- <-]. apply same_kinds_refl. Qed.
Lemma keeps_set_addr i k a : keeps (upd_inode i (set_addr k a)).
Proof.
  intros s [] s'. unfold upd_inode, inode_at, mbind, M_bind, bindM. destruct (f_icache s !! i) as [ip|] eqn:Hi; [|done].
  intros [= <-]. split; [done|]. intros j ip'. cbn [set_icache f_icache]. destruct (decide (i = j)) as [<-|Hne].
  - rewrite list_lookup_insert_eq by (by eapply lookup_lt_Some). intros [= <-]. by exists ip.
  - rewrite list_lookup_insert_ne by done. eauto.
Qed.
#[export] Hint Resolve keeps_ret keeps_get keeps_panic keeps_nofuel keeps_onlfs keeps_ondisk keeps_inode_at keeps_set_addr : total.

Ltac keeps :=
  repeat match goal with
  | |- keeps (_ ≫= _) => apply keeps_bind; [|intros ?]
  | |- keeps (match ?x with _ => _ end) => destruct x
  | |- _ => solve [auto 2 with total nocore]
  end.

Lemma keeps_balloc_loop fuel dev : forall b, keeps (balloc_loop fuel dev b).
Proof. induction fuel as [|fuel IH]; intros b; cbn [balloc_loop]; unfold bzero; keeps. Qed.
Lemma keeps_balloc dev : keeps (balloc dev).
Proof. unfold balloc. apply keeps_bind; [apply keeps_get|intros s; apply keeps_balloc_loop]. Qed.
#[export] Hint Resolve keeps_balloc : total.
Lemma keeps_bmap i bn : keeps (bmap i bn).
Proof. unfold bmap. keeps. Qed.
Lemma keeps_readi_loop fuel i : forall off n, keeps (readi_loop fuel i off n).
Proof.
  induction fuel as [|fuel IH]; intros off n; cbn [readi_loop]; [keeps|]. destruct (n <=? 0); [keeps|].
  apply keeps_bind; [keeps|intros ip]. apply keeps_bind; [apply keeps_bmap|intros a]. keeps.
Qed.

(** A step that keeps the superblock, then the rest. *)
Lemma bind_total_at {A B} (m : M fs A) (k : A -> M fs B) s : total m -> keeps m ->
  (forall a s', m s = Ok a s' -> same_kinds s s' -> k a s' <> NoFuel) -> (m ≫= k) s <> NoFuel.
Proof.
  intros Hm Hkm Hk. unfold mbind, M_bind, bindM. specialize (Hm s). destruct (m s) as [a s'| | | |] eqn:E; try done.
  apply (Hk a s'); [done|by eapply Hkm].
Qed.

Lemma total_bzero dev b : total (bzero dev b).
Proof. unfold bzero. total. Qed.

Lemma balloc_loop_total fuel dev : forall b s, sb_size (f_sb s) - b <= Z.of_nat fuel * BPB -> balloc_loop fuel dev b s <> NoFuel.
Proof.
  induction fuel as [|fuel IH]; intros b s Hf; cbn [balloc_loop]; change (get ≫= ?k) with (fun s => k s s); cbn beta.
  - destruct (Z.ltb_spec b (sb_size (f_sb s))); [lia|done].
  - destruct (negb _); [done|]. apply bind_total_at; [total|keeps|]. intros bp s1 _ [Hsb1 _].
    apply bind_total_at; [total|keeps|]. intros d s2 _ [Hsb2 _]. destruct (free_bit _ _ _).
    + cut (total (ondisk (bmodify bp (fun d => mark d (Z.of_nat n)));; onlfs (log_write bp);; ondisk (brelse bp);;
        bzero dev (b + Z.of_nat n);; mret (b + Z.of_nat n))); [intros H; apply H|]. total. apply total_bzero.
    + apply bind_total_at; [total|keeps|]. intros [] s3 _ [Hsb3 _]. apply IH. rewrite Hsb3, Hsb2, Hsb1. change BPB with 4096 in *. lia.
Qed.

Lemma total_balloc dev : total (balloc dev).
Proof.
  intros s. unfold balloc. change (get ≫= ?k) with (fun s => k s s). cbn beta. apply balloc_loop_total. change BPB with 4096. Z.div_mod_to_equations; lia.
Qed.
#[export] Hint Resolve total_balloc : total.

Lemma total_bmap i bn : total (bmap i bn).
Proof. unfold bmap. total. Qed.

Lemma readi_loop_total fuel i : forall off n s, n <= Z.of_nat fuel -> readi_loop fuel i off n s <> NoFuel.
Proof.
  induction fuel as [|fuel IH]; intros off n s Hn; cbn [readi_loop]; destruct (Z.leb_spec n 0); try done; [lia|].
  apply bind_total_at; [total|keeps|]. intros ip s1 _ _. apply bind_total_at; [apply total_bmap|apply keeps_bmap|]. intros a s2 _ _.
  apply bind_total_at; [total|keeps|]. intros bp s3 _ _. apply bind_total_at; [total|keeps|]. intros d s4 _ _.
  apply bind_total_at; [total|keeps|]. intros [] s5 _ _. unfold mbind at 1, M_bind, bindM.
  pose proof (Z.mod_pos_bound off BSIZE ltac:(done)).
  destruct (readi_loop fuel i _ _ s5) eqn:E; try done. exfalso. revert E. apply IH. lia.
Qed.

Section lookup.
Context (devsw : Z -> device).

(** Reading a file that is no device. *)
Lemma readi_total s i ip off n : f_icache s !! i = Some ip -> i_type ip <> T_DEV -> readi devsw i off n s <> NoFuel.
Proof.
  intros Hi Ht. unfold readi, inode_at. unfold mbind at 1, M_bind, bindM. rewrite Hi. apply Z.eqb_neq in Ht. rewrite Ht.
  destruct (_ || _); [done|]. set (m := if i_size ip <? off + n then _ else _). unfold mbind, M_bind, bindM.
  destruct (readi_loop _ i off m s) eqn:E; try done. exfalso. revert E. apply readi_loop_total. lia.
Qed.

Lemma readi_keeps s i ip off n r s' : f_icache s !! i = Some ip -> i_type ip <> T_DEV -> readi devsw i off n s = Ok r s' -> same_kinds s s'.
Proof.
  intros Hi Ht. unfold readi, inode_at. unfold mbind at 1, M_bind, bindM. rewrite Hi. apply Z.eqb_neq in Ht. rewrite Ht.
  destruct (_ || _); [intros [= _ <-]; apply same_kinds_refl|]. intros (bs & s1 & E & [= _ <-])%bind_Ok. by eapply keeps_readi_loop.
Qed.

Lemma dirlookup_loop_total fuel dp name : forall off s ip, f_icache s !! dp = Some ip -> i_type ip <> T_DEV ->
  i_size ip - off <= Z.of_nat fuel * DIRENT -> dirlookup_loop devsw fuel dp name off s <> NoFuel.
Proof.
  induction fuel as [|fuel IH]; intros off s ip Hi Ht Hf; cbn [dirlookup_loop];
    unfold inode_at at 1; unfold mbind at 1, M_bind, bindM; rewrite Hi; destruct (Z.ltb_spec off (i_size ip)); try done; [unfold DIRENT in *; lia|].
  cbn [negb]. unfold mbind, M_bind, bindM. pose proof (readi_total s dp ip off DIRENT Hi Ht) as Hr.
  destruct (readi devsw dp off DIRENT s) as [r s1| | | |] eqn:E; try done. pose proof (readi_keeps _ _ _ _ _ _ _ Hi Ht E) as [_ Hk].
  destruct (negb _); [done|]. destruct (_ && _); [done|]. destruct (f_icache s1 !! dp) as [ip1|] eqn:Hi1.
  - destruct (Hk _ _ Hi1) as (ip0 & Hi0 & Et & Es). rewrite Hi in Hi0. injection Hi0 as <-. apply (IH _ s1 ip1); [done|by rewrite Et|].
    rewrite Es. unfold DIRENT in *. lia.
  - destruct fuel; cbn [dirlookup_loop]; unfold inode_at at 1; unfold mbind at 1, M_bind, bindM; by rewrite Hi1.
Qed.

Lemma total_iget dev inum : total (iget dev inum).
Proof. unfold iget. total. Qed.

Lemma total_dirlookup dp name : total (dirlookup devsw dp name).
Proof.
  intros s. unfold dirlookup, inode_at. unfold mbind at 1, M_bind, bindM. destruct (f_icache s !! dp) as [d|] eqn:Hd; [|done].
  destruct (Z.eqb_spec (i_type d) T_DIR) as [Ht|]; cbn [negb]; [|done]. unfold mbind at 1, M_bind, bindM.
  pose proof (dirlookup_loop_total (S (Z.to_nat (i_size d / DIRENT))) dp name 0 s d Hd) as Hl.
  destruct (dirlookup_loop _ _ _ _ _ s) as [[[inum off]|] s1| | | |] eqn:E; try done.
  - cut (total (ip ← iget (i_dev d) inum; mret (Some (ip, off)))); [intros H; apply H|]. apply total_bind; [apply total_iget|done].
  - exfalso. apply Hl; [by rewrite Ht| |done]. unfold DIRENT. Z.div_mod_to_equations; lia.
Qed.

Lemma total_ilock i : total (ilock i).
Proof. unfold ilock. total. Qed.
Lemma total_iunlock i : total (iunlock i).
Proof. unfold iunlock. total. Qed.
Lemma total_iput i : total (iput i).
Proof. unfold iput, itrunc, iupdate, bfree. total. Qed.

Lemma namex_loop_total fuel : forall ip path parent name, (length path <= fuel)%nat -> total (namex_loop devsw fuel ip path parent name).
Proof.
  assert (Hup : forall i, total (iunlockput i)) by (intros i; unfold iunlockput; apply total_bind; [apply total_iunlock|intros _; apply total_iput]).
  induction fuel as [|fuel IH]; intros ip path parent name Hl; cbn [namex_loop]; pose proof (skipelem_spec path) as H;
    destruct (skipelem path) as [[e rest]|]; try destruct H as (_ & _ & _ & Hlt); try lia.
  1,3: destruct parent; [apply total_bind; [apply total_iput|done]|done].
  apply total_bind; [apply total_ilock|intros _]. apply total_bind; [apply total_inode_at|intros d]. destruct (negb _); [apply total_bind; [apply Hup|done]|].
  destruct (_ && _); [apply total_bind; [apply total_iunlock|done]|]. apply total_bind; [apply total_dirlookup|]. intros [[next o]|].
  - apply total_bind; [apply Hup|intros _]. apply IH. lia.
  - apply total_bind; [apply Hup|done].
Qed.

(** Looking up a path comes to an end from every state of the file system,
    also a corrupt one: [namex] never loops, whatever the path, the directories'
    sizes and contents, the free map and the superblock hold. *)
Theorem namex_terminates (cwd : nat) (path : list Z) (parent : bool) (s : fs) : namex devsw cwd path parent s <> NoFuel.
Proof.
  cut (total (namex devsw cwd path parent)); [intros H; apply H|]. unfold namex. apply total_bind.
  - apply total_if; [apply total_iget|]. unfold idup. total.
  - intros ip. by apply namex_loop_total.
Qed.
End lookup.

(** ** Swap file names *)

(** The number a string of digits stands for. *)
Definition numeral (l : list Z) : Z := foldl (fun a c => 10 * a + (c - 48)) 0 l.

Lemma numeral_snoc l c : numeral (l ++ [c]) = 10 * numeral l + (c - 48).
Proof. unfold numeral. by rewrite foldl_app. Qed.

Lemma digits_rev_cons fuel i : digits_rev (S fuel) i = (48 + i mod 10) :: (if i / 10 =? 0 then [] else digits_rev fuel (i / 10)).
Proof. done. Qed.

Lemma digits_rev_numeral fuel : forall i, 0 <= i < 10 ^ Z.of_nat fuel -> numeral (rev (digits_rev fuel i)) = i.
Proof.
  induction fuel as [|fuel IH]; intros i Hi; [cbn in *; lia|]. rewrite digits_rev_cons. rewrite Nat2Z.inj_succ, Z.pow_succ_r in Hi by lia.
  cbn [rev]. rewrite numeral_snoc. destruct (Z.eqb_spec (i / 10) 0) as [E|E].
  - cbn. Z.div_mod_to_equations; lia.
  - rewrite IH by (Z.div_mod_to_equations; lia). Z.div_mod_to_equations; lia.
Qed.

Lemma digits_rev_length fuel : forall i d, 0 <= i < 10 ^ Z.of_nat fuel -> 1 <= d -> (Z.of_nat (length (digits_rev fuel i)) <= d <-> i < 10 ^ d).
Proof.
  induction fuel as [|fuel IH]; intros i d Hi Hd.
  - cbn in Hi. assert (i = 0) as -> by lia. cbn. pose proof (Z.pow_pos_nonneg 10 d). lia.
  - rewrite digits_rev_cons. rewrite Nat2Z.inj_succ, Z.pow_succ_r in Hi by lia. destruct (Z.eqb_spec (i / 10) 0) as [E|E].
    + cbn [length]. split; [|lia]. intros _. apply Z.lt_le_trans with (10 ^ 1); [Z.div_mod_to_equations; lia|apply Z.pow_le_mono_r; lia].
    + cbn [length]. destruct (Z.eq_dec d 1) as [->|Hd1].
      * split; [|Z.div_mod_to_equations; lia]. destruct fuel as [|fuel]; [cbn in Hi; Z.div_mod_to_equations; lia|]. rewrite digits_rev_cons. cbn [length]. lia.
      * replace d with (Z.succ (d - 1)) by lia. rewrite Z.pow_succ_r, Nat2Z.inj_succ by lia.
        specialize (IH (i / 10) (d - 1) ltac:(Z.div_mod_to_equations; lia) ltac:(lia)). Z.div_mod_to_equations; lia.
Qed.

(** Swap files belong to their processes.  The path that [createSwapFile] and
    [removeSwapFile] build ends in the process's number, so no two processes
    share one; it fits the 14 bytes of [path] exactly for the numbers below ten
    million, and runs over them beyond. *)
Theorem swap_path_fits (pid : Z) : 0 <= pid < 2147483648 ->
  numeral (drop 6 (swap_path pid)) = pid /\ (Z.of_nat (length (swap_path pid)) + 1 <= 14 <-> pid < 10000000).
Proof.
  intros Hp. unfold swap_path, itoa. destruct (Z.ltb_spec pid 0); [lia|]. rewrite drop_app_length' by done.
  assert (Hr : 0 <= pid < 10 ^ Z.of_nat 10) by (change (10 ^ Z.of_nat 10) with 10000000000; lia). split; [by apply digits_rev_numeral|].
  rewrite length_app, length_rev. pose proof (digits_rev_length 10 pid 7 Hr ltac:(lia)) as H7. change (10 ^ 7) with 10000000 in H7. rewrite <- H7.
  change (length [47; 46; 115; 119; 97; 112]) with 6%nat. lia.
Qed.

Lemma swap_path_fits_witness : numeral (drop 6 (swap_path 10000000)) = 10000000 /\ ~ Z.of_nat (length (swap_path 10000000)) + 1 <= 14.
Proof. destruct (swap_path_fits 10000000) as [H1 [H2 _]]; [lia|]. split; [exact H1|]. intros H. apply H2 in H. lia. Defined.
