(* ===== verification/File.v ===== *)
(** * Open files ([file.c], [pipealloc] of [pipe.c])

    The table of open files over the file system and the pipes.  A pipe lives
    in a page of its own, taken from and given back to the free pages. *)

From S2P Require Import Prelude Bytes Bio Log Fs Pipe.

Definition NFILE : nat := 100.

Inductive file_type := FD_NONE | FD_PIPE | FD_INODE.
#[global] Instance file_type_eq : EqDecision file_type.
Proof. solve_decision. Defined.

Record file := File {
  fi_type : file_type; fi_ref : Z; fi_readable : bool; fi_writable : bool;
  fi_pipe : Z; fi_ip : nat; fi_off : Z;
}.
Definition empty_file : file := File FD_NONE 0 false false 0 0 0.

Record kfs := KFS {
  k_fs : fs;
  k_files : list file;
  k_pipes : gmap Z pipe;     (* by the address of their page *)
  k_pages : list Z;          (* the page allocator's free pages *)
}.

Definition set_fs (x : fs) (s : kfs) : kfs := KFS x (k_files s) (k_pipes s) (k_pages s).
Definition set_files (l : list file) (s : kfs) : kfs := KFS (k_fs s) l (k_pipes s) (k_pages s).
Definition set_pipes (p : gmap Z pipe) (s : kfs) : kfs := KFS (k_fs s) (k_files s) p (k_pages s).
Definition set_pages (l : list Z) (s : kfs) : kfs := KFS (k_fs s) (k_files s) (k_pipes s) l.
Definition onfs {A} (m : M fs A) : M kfs A := zoom k_fs set_fs m.

Definition file_at (f : nat) : M kfs file := fun s =>
  match k_files s !! f with Some x => Ok x s | None => Fault (Z.of_nat f) end.
Definition upd_file (f : nat) (g : file -> file) : M kfs () :=
  x ← file_at f; modify (fun s => set_files (<[f := g x]> (k_files s)) s).
Definition pipe_at (p : Z) : M kfs pipe := fun s =>
  match k_pipes s !! p with Some x => Ok x s | None => Fault p end.
Definition put_pipe (p : Z) (x : pipe) : M kfs () := modify (fun s => set_pipes (<[p := x]> (k_pipes s)) s).

Definition set_fref (n : Z) (x : file) : file :=
  File (fi_type x) n (fi_readable x) (fi_writable x) (fi_pipe x) (fi_ip x) (fi_off x).
Definition set_ftype (t : file_type) (x : file) : file :=
  File t (fi_ref x) (fi_readable x) (fi_writable x) (fi_pipe x) (fi_ip x) (fi_off x).
Definition set_off (o : Z) (x : file) : file :=
  File (fi_type x) (fi_ref x) (fi_readable x) (fi_writable x) (fi_pipe x) (fi_ip x) o.
Definition as_pipe (p : Z) (r w : bool) (x : file) : file := File FD_PIPE (fi_ref x) r w p (fi_ip x) (fi_off x).
Definition as_inode (i : nat) (r w : bool) (x : file) : file := File FD_INODE (fi_ref x) r w (fi_pipe x) i 0.

Definition filealloc : M kfs (option nat) :=
  s ← get;
  match find_index (fun x => fi_ref x =? 0) (k_files s) with
  | Some f => upd_file f (set_fref 1);; mret (Some f)
  | None => mret None
  end.

Definition filedup (f : nat) : M kfs nat :=
  x ← file_at f;
  if fi_ref x <? 1 then panic "filedup" else
  upd_file f (set_fref (fi_ref x + 1));; mret f.

(** [pipeclose], which gives the page back when both ends are closed. *)
Definition close_pipe (p : Z) (writable : bool) : M kfs () :=
  x ← pipe_at p;
  let '(x', gone) := pipeclose x writable in
  if gone then modify (fun s => set_pages (p :: k_pages s) (set_pipes (delete p (k_pipes s)) s))
  else put_pipe p x'.

Definition fileclose (f : nat) : M kfs () :=
  x ← file_at f;
  if fi_ref x <? 1 then panic "fileclose" else
  let r := fi_ref x - 1 in
  if 0 <? r then upd_file f (set_fref r) else
  upd_file f (fun x => set_ftype FD_NONE (set_fref 0 x));;
  match fi_type x with
  | FD_PIPE => close_pipe (fi_pipe x) (fi_writable x)
  | FD_INODE => onfs (onlfs begin_op);; onfs (iput (fi_ip x));; onfs (onlfs end_op)
  | FD_NONE => mret ()
  end.

Definition filestat (f : nat) : M kfs (option stat) :=
  x ← file_at f;
  match fi_type x with
  | FD_INODE =>
      onfs (ilock (fi_ip x));;
      st ← onfs (stati (fi_ip x));
      onfs (iunlock (fi_ip x));;
      mret (Some st)
  | _ => mret None
  end.

(** [pipealloc]: the two files, or nothing.  A free page is filled with ones
    by [kfree]. *)
Definition pipealloc : M kfs (option (nat * nat)) :=
  f0 ← filealloc;
  match f0 with
  | None => mret None
  | Some f0 =>
      f1 ← filealloc;
      match f1 with
      | None => fileclose f0;; mret None
      | Some f1 =>
          s ← get;
          match k_pages s with
          | [] => fileclose f0;; fileclose f1;; mret None
          | p :: rest =>
              put (set_pages rest (set_pipes (<[p := new_pipe (replicate (Z.to_nat PIPESIZE) 1)]> (k_pipes s)) s));;
              upd_file f0 (as_pipe p true false);;
              upd_file f1 (as_pipe p false true);;
              mret (Some (f0, f1))
          end
      end
  end.

Section io.
Context (devsw : Z -> device) (killed : bool).

(** Bytes read into the caller's buffer, with the value returned. *)
Definition fileread (f : nat) (n : Z) : M kfs (Z * list Z) :=
  x ← file_at f;
  if negb (fi_readable x) then mret (-1, []) else
  match fi_type x with
  | FD_PIPE =>
      p ← pipe_at (fi_pipe x);
      match piperead killed p (Z.to_nat n) with
      | RDone bs p' => put_pipe (fi_pipe x) p';; mret (Z.of_nat (length bs), bs)
      | RFail p' => mret (-1, [])
      | RSleep p' => blocked
      end
  | FD_INODE =>
      onfs (ilock (fi_ip x));;
      r ← onfs (readi devsw (fi_ip x) (fi_off x) (u32 n));
      when (0 <? s32 (fst r)) (upd_file f (fun x => set_off (u32 (fi_off x + fst r)) x));;
      onfs (iunlock (fi_ip x));;
      mret (s32 (fst r), snd r)
  | FD_NONE => panic "fileread"
  end.

Definition max_write : Z := ((MAXOPBLOCKS - 1 - 1 - 2) / 2) * 512.

(** The chunks of [filewrite], each a transaction; it gives [i]. *)
Fixpoint filewrite_loop (fuel : nat) (f : nat) (ip : nat) (addr : list Z) (i n : Z) : M kfs Z :=
  if n <=? i then mret i else
  match fuel with
  | O => nofuel
  | S fuel' =>
      let n1 := (n - i) `min` max_write in
      onfs (onlfs begin_op);;
      onfs (ilock ip);;
      x ← file_at f;
      r ← onfs (writei devsw ip addr (fi_off x) n1);
      when (0 <? r) (upd_file f (fun x => set_off (u32 (fi_off x + r)) x));;
      onfs (iunlock ip);;
      onfs (onlfs end_op);;
      if r <? 0 then mret i else
      if negb (r =? n1) then panic "short filewrite" else
      filewrite_loop fuel' f ip (drop (Z.to_nat r) addr) (i + r) n
  end.

Definition filewrite (f : nat) (addr : list Z) (n : Z) : M kfs Z :=
  x ← file_at f;
  if negb (fi_writable x) then mret (-1) else
  match fi_type x with
  | FD_PIPE =>
      p ← pipe_at (fi_pipe x);
      match pipewrite killed p (take (Z.to_nat n) addr) with
      | WDone p' => put_pipe (fi_pipe x) p';; mret n
      | WFail p' => put_pipe (fi_pipe x) p';; mret (-1)
      | WSleep p' _ => put_pipe (fi_pipe x) p';; blocked
      end
  | FD_INODE =>
      i ← filewrite_loop (S (Z.to_nat (n / max_write))) f (fi_ip x) addr 0 n;
      mret (if i =? n then n else -1)
  | FD_NONE => panic "filewrite"
  end.
End io.
