(* ===== verification/Syscall.v ===== *)
(** * System-call arguments and dispatch ([syscall.c])

    A process in a system call: the size of its address space, its saved stack
    pointer and system-call number, and its memory. *)

From S2P Require Import Prelude.

Record user := User {
  u_sz : Z;
  u_esp : Z;
  u_eax : Z;
  u_mem : Z -> Z;      (* the byte at a user address *)
}.

(** The word at [a]. *)
Definition word_at (m : Z -> Z) (a : Z) : Z := m a + 256 * m (a + 1) + 65536 * m (a + 2) + 16777216 * m (a + 3).

Definition fetchint (u : user) (addr : Z) : option Z :=
  if (u_sz u <=? addr) || (u_sz u <? u32 (addr + 4)) then None else Some (s32 (word_at (u_mem u) addr)).

(** The characters before the NUL, looked for below [ep]. *)
Fixpoint scan_string (n : nat) (m : Z -> Z) (s : Z) : option (list Z) :=
  match n with
  | O => None
  | S n' => if m s =? 0 then Some [] else (fun l => m s :: l) <$> scan_string n' m (s + 1)
  end.
Definition fetchstr (u : user) (addr : Z) : option (list Z) :=
  if u_sz u <=? addr then None else scan_string (Z.to_nat (u_sz u - addr)) (u_mem u) addr.

Definition argint (u : user) (n : Z) : option Z := fetchint u (u32 (u_esp u + 4 + 4 * n)).

Definition argptr (u : user) (n size : Z) : option Z :=
  i ← argint u n;
  if (size <? 0) || (u_sz u <=? u32 i) || (u_sz u <? u32 (u32 i + size)) then None else Some (u32 i).

Definition argstr (u : user) (n : Z) : option (list Z) := addr ← argint u n; fetchstr u (u32 addr).

(** The entries of the table [syscalls], by number. *)
Inductive sysno :=
  | SYS_fork | SYS_exit | SYS_wait | SYS_pipe | SYS_read | SYS_kill | SYS_exec | SYS_fstat | SYS_chdir | SYS_dup
  | SYS_getpid | SYS_sbrk | SYS_sleep | SYS_uptime | SYS_open | SYS_write | SYS_mknod | SYS_unlink | SYS_link
  | SYS_mkdir | SYS_close | SYS_getNumberOfFreePages | SYS_page_faults | SYS_total_page_faults | SYS_get_paged_out
  | SYS_get_total_pages | SYS_get_used_pages.
#[global] Instance sysno_eq : EqDecision sysno.
Proof. solve_decision. Defined.

Definition syscalls : list (option sysno) :=
  [None; Some SYS_fork; Some SYS_exit; Some SYS_wait; Some SYS_pipe; Some SYS_read; Some SYS_kill; Some SYS_exec;
   Some SYS_fstat; Some SYS_chdir; Some SYS_dup; Some SYS_getpid; Some SYS_sbrk; Some SYS_sleep; Some SYS_uptime;
   Some SYS_open; Some SYS_write; Some SYS_mknod; Some SYS_unlink; Some SYS_link; Some SYS_mkdir; Some SYS_close;
   Some SYS_getNumberOfFreePages; Some SYS_page_faults; Some SYS_total_page_faults; Some SYS_get_paged_out;
   Some SYS_get_total_pages; Some SYS_get_used_pages].

(** [syscall]: the handler's value, or -1, is what the process gets. *)
Definition syscall {S} (handler : sysno -> M S Z) (u : user) : M S Z :=
  let num := s32 (u_eax u) in
  if (0 <? num) && (num <? Z.of_nat (length syscalls)) then
    match syscalls !! Z.to_nat num with
    | Some (Some f) => handler f
    | _ => mret (-1)
    end
  else mret (-1).

(** A process that obeys the kernel's limits. *)
Definition user_ok (u : user) : Prop := 0 <= u_sz u <= 2147483648 /\ forall a, 0 <= u_mem u a < 256.

Lemma fetchint_range u addr z : 0 <= addr -> fetchint u addr = Some z -> is_s32 z /\ 0 <= addr < u_sz u.
Proof.
  intros Ha. unfold fetchint. case_bool; [done|]. bool_prop. intros [= <-]. split; [apply s32_range|lia].
Qed.

Lemma scan_string_spec n : forall m s l, scan_string n m s = Some l ->
  (length l < n)%nat /\ m (s + Z.of_nat (length l)) = 0 /\ (forall k c, l !! k = Some c -> m (s + Z.of_nat k) = c /\ c <> 0).
Proof.
  induction n as [|n IH]; intros m s l; simpl; [done|]. destruct (Z.eqb_spec (m s) 0) as [E|Hne].
  - intros [= <-]. split; [simpl; lia|]. split; [by rewrite Z.add_0_r|done].
  - intros (l' & Hl & ->)%fmap_Some. apply IH in Hl as (H1 & H2 & H3). split; [simpl; lia|]. split.
    + cbn [length]. by replace (s + Z.of_nat (S (length l'))) with (s + 1 + Z.of_nat (length l')) by lia.
    + intros [|k] c Hk; simpl in Hk.
      * injection Hk as <-. by rewrite Z.add_0_r.
      * replace (s + Z.of_nat (S k)) with (s + 1 + Z.of_nat k) by lia. by apply H3.
Qed.

(** C38: System-call arguments stay inside the caller's address space.  A buffer
    that [argptr] accepts lies in [[0, sz)] as a whole, whatever 32-bit
    pointer and length the process passed; a string that [argstr] accepts
    starts there and has its terminating NUL there. *)
Theorem arguments_in_bounds (u : user) (n size : Z) : user_ok u -> 0 <= n -> is_s32 size ->
  (forall p, argptr u n size = Some p -> 0 <= p /\ 0 <= size /\ p < u_sz u /\ p + size <= u_sz u) /\
  (forall l, argstr u n = Some l -> exists p, 0 <= p /\ p + Z.of_nat (length l) < u_sz u /\
     u_mem u (p + Z.of_nat (length l)) = 0 /\ forall k c, l !! k = Some c -> u_mem u (p + Z.of_nat k) = c /\ c <> 0).
Proof.
  intros [Hsz Hm] Hn Hs. split.
  - intros p (i & Hi & Hp)%bind_Some. revert Hp. case_bool; [done|]. intros [= <-]. bool_prop.
    pose proof (u32_range i) as Hr. rewrite (u32_small (u32 i + size)) in * by (unfold is_u32, is_s32, two32 in *; lia).
    unfold is_u32 in Hr. lia.
  - intros l (i & Hi & Hp)%bind_Some. revert Hp. unfold fetchstr. case_bool; [done|]. intros Hl.
    apply scan_string_spec in Hl as (H1 & H2 & H3). pose proof (u32_range i) as Hr. unfold is_u32 in Hr.
    exists (u32 i). split_and!; try done; lia.
Qed.

(** A process of one page whose first argument is the address 32. *)
Definition caller : user := User 4096 0 5 (fun a => if a =? 4 then 32 else if (32 <=? a) && (a <? 35) then 97 else 0).

Lemma arguments_in_bounds_witness : (0 <= 32 /\ 0 <= 100 /\ 32 < 4096 /\ 32 + 100 <= 4096) /\ argstr caller 0 = Some [97; 97; 97].
Proof.
  assert (user_ok caller) as Hok.
  { split; [simpl; lia|]. intros a. simpl. repeat case_match; lia. }
  split; [|reflexivity].
  apply (proj1 (arguments_in_bounds caller 0 100 Hok ltac:(lia) ltac:(unfold is_s32; lia)) 32). reflexivity.
Defined.
