(* ===== verification/Sysfile.v ===== *)
(** * File-system calls ([sysfile.c], swap files of [fs.c])

    The calls of one process, with its descriptors and current directory, over
    the open files and the file system.  User buffers are the bytes given to
    or returned by a call. *)

From S2P Require Import Prelude Bytes Bio Log Fs Pipe File Syscall.

Definition NOFILE : nat := 16.
Definition O_RDONLY : Z := 0.
Definition O_WRONLY : Z := 1.
Definition O_RDWR : Z := 2.
Definition O_CREATE : Z := 512.

(** The kernel as the current process sees it. *)
Record sfs := SFS { p_k : kfs; p_ofile : list (option nat); p_cwd : nat }.
Definition set_k (k : kfs) (s : sfs) : sfs := SFS k (p_ofile s) (p_cwd s).
Definition set_ofile (fd : nat) (f : option nat) (s : sfs) : sfs := SFS (p_k s) (<[fd := f]> (p_ofile s)) (p_cwd s).
Definition set_cwd (i : nat) (s : sfs) : sfs := SFS (p_k s) (p_ofile s) i.
Definition onk {A} (m : M kfs A) : M sfs A := zoom p_k set_k m.
Definition oni {A} (m : M fs A) : M sfs A := onk (onfs m).
Definition onop (m : M lfs ()) : M sfs () := oni (onlfs m).

(** [argfd]: the descriptor and its file. *)
Definition argfd (u : user) (n : Z) : M sfs (option (nat * nat)) :=
  s ← get;
  mret (fd ← argint u n;
        if (fd <? 0) || (Z.of_nat NOFILE <=? fd) then None else
        f ← p_ofile s !! Z.to_nat fd; f ← f; Some (Z.to_nat fd, f)).

Definition fdalloc (f : nat) : M sfs (option nat) :=
  s ← get;
  match find_index (fun o : option nat => match o with None => true | _ => false end) (p_ofile s) with
  | Some fd => put (set_ofile fd (Some f) s);; mret (Some fd)
  | None => mret None
  end.

Definition sys_dup (u : user) : M sfs Z :=
  a ← argfd u 0;
  match a with
  | None => mret (-1)
  | Some (_, f) =>
      fd ← fdalloc f;
      match fd with
      | None => mret (-1)
      | Some fd => onk (filedup f);; mret (Z.of_nat fd)
      end
  end.

Section calls.
Context (devsw : Z -> device) (killed : bool).

(** [sys_read]: the value and the bytes stored in the user's buffer. *)
Definition sys_read (u : user) : M sfs (Z * list Z) :=
  a ← argfd u 0;
  match a, argint u 2 with
  | Some (_, f), Some n => match argptr u 1 n with Some _ => onk (fileread devsw killed f n) | None => mret (-1, []) end
  | _, _ => mret (-1, [])
  end.

Definition sys_write (u : user) : M sfs Z :=
  a ← argfd u 0;
  match a, argint u 2 with
  | Some (_, f), Some n =>
      match argptr u 1 n with
      | Some p => onk (filewrite devsw killed f ((fun k => u_mem u (p + k)) <$> seqZ 0 n) n)
      | None => mret (-1)
      end
  | _, _ => mret (-1)
  end.

Definition sys_close (u : user) : M sfs Z :=
  a ← argfd u 0;
  match a with
  | None => mret (-1)
  | Some (fd, f) => modify (set_ofile fd None);; onk (fileclose f);; mret 0
  end.

(** [sizeof(struct stat)] is 20. *)
Definition sys_fstat (u : user) : M sfs (Z * option stat) :=
  a ← argfd u 0;
  match a, argptr u 1 20 with
  | Some (_, f), Some _ => st ← onk (filestat f); mret (match st with Some _ => 0 | None => -1 end, st)
  | _, _ => mret (-1, None)
  end.

Definition sys_link (u : user) : M sfs Z :=
  match argstr u 0, argstr u 1 with
  | Some old, Some new =>
      s ← get;
      onop begin_op;;
      ip ← oni (namei devsw (p_cwd s) old);
      match ip with
      | None => onop end_op;; mret (-1)
      | Some ip =>
          oni (ilock ip);;
          x ← oni (inode_at ip);
          if i_type x =? T_DIR then oni (iunlockput ip);; onop end_op;; mret (-1) else
          oni (upd_inode ip (fun x => set_nlink (s16 (i_nlink x + 1)) x));;
          oni (iupdate ip);;
          oni (iunlock ip);;
          let bad :=
            oni (ilock ip);;
            oni (upd_inode ip (fun x => set_nlink (s16 (i_nlink x - 1)) x));;
            oni (iupdate ip);;
            oni (iunlockput ip);;
            onop end_op;;
            mret (-1) in
          r ← oni (nameiparent devsw (p_cwd s) new);
          match r with
          | None => bad
          | Some (dp, name) =>
              oni (ilock dp);;
              d ← oni (inode_at dp);
              x ← oni (inode_at ip);
              if negb (i_dev d =? i_dev x) then oni (iunlockput dp);; bad else
              l ← oni (dirlink devsw dp name (i_inum x));
              if l <? 0 then oni (iunlockput dp);; bad else
              oni (iunlockput dp);;
              oni (iput ip);;
              onop end_op;;
              mret 0
          end
      end
  | _, _ => mret (-1)
  end.

Fixpoint isdirempty_loop (fuel : nat) (dp : nat) (off : Z) : M fs bool :=
  d ← inode_at dp;
  if negb (off <? i_size d) then mret true else
  match fuel with
  | O => nofuel
  | S fuel' =>
      r ← readi devsw dp off DIRENT;
      if negb (fst r =? DIRENT) then panic "isdirempty: readi" else
      if negb (de_inum (snd r) =? 0) then mret false else isdirempty_loop fuel' dp (off + DIRENT)
  end.
Definition isdirempty (dp : nat) : M fs bool :=
  d ← inode_at dp; isdirempty_loop (S (Z.to_nat (i_size d / DIRENT))) dp (2 * DIRENT).

(** The part that [sys_unlink] and [removeSwapFile] share, from
    [nameiparent] on. *)
Definition unlink_path (path : list Z) : M sfs Z :=
  s ← get;
  onop begin_op;;
  r ← oni (nameiparent devsw (p_cwd s) path);
  match r with
  | None => onop end_op;; mret (-1)
  | Some (dp, name) =>
      oni (ilock dp);;
      let bad := oni (iunlockput dp);; onop end_op;; mret (-1) in
      if (namecmp name [46] =? 0) || (namecmp name [46; 46] =? 0) then bad else
      r ← oni (dirlookup devsw dp name);
      match r with
      | None => bad
      | Some (ip, off) =>
          oni (ilock ip);;
          x ← oni (inode_at ip);
          if i_nlink x <? 1 then panic "unlink: nlink < 1" else
          e ← (if i_type x =? T_DIR then oni (isdirempty ip) else mret true);
          if negb e then oni (iunlockput ip);; bad else
          w ← oni (writei devsw dp (replicate 16 0) off DIRENT);
          if negb (w =? DIRENT) then panic "unlink: writei" else
          when (i_type x =? T_DIR) (
            oni (upd_inode dp (fun d => set_nlink (s16 (i_nlink d - 1)) d));;
            oni (iupdate dp));;
          oni (iunlockput dp);;
          oni (upd_inode ip (fun x => set_nlink (s16 (i_nlink x - 1)) x));;
          oni (iupdate ip);;
          oni (iunlockput ip);;
          onop end_op;;
          mret 0
      end
  end.

Definition sys_unlink (u : user) : M sfs Z :=
  match argstr u 0 with None => mret (-1) | Some path => unlink_path path end.

(** [create]: the new or existing inode, locked. *)
Definition create (path : list Z) (type major minor : Z) : M sfs (option nat) :=
  s ← get;
  r ← oni (nameiparent devsw (p_cwd s) path);
  match r with
  | None => mret None
  | Some (dp, name) =>
      oni (ilock dp);;
      r ← oni (dirlookup devsw dp name);
      match r with
      | Some (ip, _) =>
          oni (iunlockput dp);;
          oni (ilock ip);;
          x ← oni (inode_at ip);
          if (type =? T_FILE) && (i_type x =? T_FILE) then mret (Some ip) else
          oni (iunlockput ip);; mret None
      | None =>
          d ← oni (inode_at dp);
          ip ← oni (ialloc (i_dev d) type);
          oni (ilock ip);;
          oni (upd_inode ip (set_inode_ids major minor 1));;
          oni (iupdate ip);;
          x ← oni (inode_at ip);
          when (type =? T_DIR) (
            oni (upd_inode dp (fun d => set_nlink (s16 (i_nlink d + 1)) d));;
            oni (iupdate dp);;
            l ← oni (dirlink devsw ip [46] (i_inum x));
            if l <? 0 then panic "create dots" else
            l ← oni (dirlink devsw ip [46; 46] (i_inum d));
            if l <? 0 then panic "create dots" else mret ());;
          l ← oni (dirlink devsw dp name (i_inum x));
          if l <? 0 then panic "create: dirlink" else
          oni (iunlockput dp);;
          mret (Some ip)
      end
  end.

Definition sys_open (u : user) : M sfs Z :=
  match argstr u 0, argint u 1 with
  | Some path, Some omode =>
      s ← get;
      onop begin_op;;
      ip ← (if has (u32 omode) O_CREATE then create path T_FILE 0 0
            else
              ip ← oni (namei devsw (p_cwd s) path);
              match ip with
              | None => mret None
              | Some ip =>
                  oni (ilock ip);;
                  x ← oni (inode_at ip);
                  if (i_type x =? T_DIR) && negb (omode =? O_RDONLY) then oni (iunlockput ip);; mret None
                  else mret (Some ip)
              end);
      match ip with
      | None => onop end_op;; mret (-1)
      | Some ip =>
          f ← onk filealloc;
          fd ← (match f with Some f => fdalloc f | None => mret None end);
          match f, fd with
          | Some f, Some fd =>
              oni (iunlock ip);;
              onop end_op;;
              onk (upd_file f (as_inode ip (negb (has (u32 omode) O_WRONLY)) (has (u32 omode) O_WRONLY || has (u32 omode) O_RDWR)));;
              mret (Z.of_nat fd)
          | _, _ =>
              (match f with Some f => onk (fileclose f) | None => mret () end);;
              oni (iunlockput ip);;
              onop end_op;;
              mret (-1)
          end
      end
  | _, _ => mret (-1)
  end.

(** [create], then drop the inode: [sys_mkdir] and [sys_mknod]. *)
Definition create_node (path : option (list Z)) (type : Z) (nums : option (Z * Z)) : M sfs Z :=
  onop begin_op;;
  ip ← (match path, nums with
        | Some path, Some (major, minor) => create path type (s16 major) (s16 minor)
        | _, _ => mret None
        end);
  match ip with
  | None => onop end_op;; mret (-1)
  | Some ip => oni (iunlockput ip);; onop end_op;; mret 0
  end.
Definition sys_mkdir (u : user) : M sfs Z := create_node (argstr u 0) T_DIR (Some (0, 0)).
Definition sys_mknod (u : user) : M sfs Z :=
  create_node (argstr u 0) T_DEV (major ← argint u 1; minor ← argint u 2; Some (major, minor)).

Definition sys_chdir (u : user) : M sfs Z :=
  s ← get;
  onop begin_op;;
  ip ← (match argstr u 0 with Some path => oni (namei devsw (p_cwd s) path) | None => mret None end);
  match ip with
  | None => onop end_op;; mret (-1)
  | Some ip =>
      oni (ilock ip);;
      x ← oni (inode_at ip);
      if negb (i_type x =? T_DIR) then oni (iunlockput ip);; onop end_op;; mret (-1) else
      oni (iunlock ip);;
      oni (iput (p_cwd s));;
      onop end_op;;
      modify (set_cwd ip);;
      mret 0
  end.

(** [sys_pipe]: the two descriptors stored for the caller. *)
Definition sys_pipe (u : user) : M sfs (Z * option (nat * nat)) :=
  match argptr u 0 8 with
  | None => mret (-1, None)
  | Some _ =>
      r ← onk pipealloc;
      match r with
      | None => mret (-1, None)
      | Some (rf, wf) =>
          fd0 ← fdalloc rf;
          fd1 ← (match fd0 with Some _ => fdalloc wf | None => mret None end);
          match fd0, fd1 with
          | Some fd0, Some fd1 => mret (0, Some (fd0, fd1))
          | _, _ =>
              (match fd0 with Some fd0 => modify (set_ofile fd0 None) | None => mret () end);;
              onk (fileclose rf);;
              onk (fileclose wf);;
              mret (-1, None)
          end
      end
  end.

(** ** Swap files

    [swapFile] is the process's swap file in the table of files.  A call on a
    process without one would follow a null pointer. *)

Definition createSwapFile (pid : Z) : M sfs nat :=
  onop begin_op;;
  ip ← create (swap_path pid) T_FILE 0 0;
  match ip with
  | None => panic "iunlock"
  | Some ip =>
      oni (iunlock ip);;
      f ← onk filealloc;
      match f with
      | None => panic "no slot for files on /store"
      | Some f => onk (upd_file f (as_inode ip true true));; onop end_op;; mret f
      end
  end.

Definition removeSwapFile (pid : Z) (swapFile : option nat) : M sfs Z :=
  match swapFile with
  | None => mret (-1)
  | Some f => onk (fileclose f);; unlink_path (swap_path pid)
  end.

Definition writeToSwapFile (f : nat) (buffer : list Z) (placeOnFile size : Z) : M kfs Z :=
  upd_file f (set_off placeOnFile);; filewrite devsw killed f buffer size.

Definition readFromSwapFile (f : nat) (placeOnFile size : Z) : M kfs (Z * list Z) :=
  upd_file f (set_off placeOnFile);; fileread devsw killed f size.
End calls.
