(* ===== verification/FsSwap.v ===== *)
(** * The swap file over the file system

    [writeToSwapFile] and [readFromSwapFile] run through [filewrite] and
    [fileread] on an inode, transaction by transaction, keep the promises that
    paging relies on. *)

From S2P Require Import Prelude Bytes Bio Log Txn Crash Fs FsBlock FsFile FsRw File Sysfile.

Local Open Scope kern_scope.

(** ** Between transactions *)

Definition idle (l : log) : Prop := lg_n l = 0 /\ lg_outstanding l = 0 /\ lg_committing l = false.

Definition block_ok (d : block) : Prop := length d = 512%nat /\ bytes_ok d.

Lemma put_blocks_ok bs : forall d i, block_ok d -> block_ok (put_blocks d i bs).
Proof.
  induction bs as [|b bs IH]; intros d i Hd; [done|]. cbn [put_blocks]. apply IH. destruct Hd. split; [by rewrite put32_length|by apply put32_bytes].
Qed.

Lemma commit_head_block l v : block_ok (v (lg_start l)) -> block_ok (commit_head l v).
Proof. intros [Hl Hb]. apply put_blocks_ok. split; [by rewrite put32_length|by apply put32_bytes]. Qed.

Lemma commit_writes_ok l v : (forall m, block_ok (v m)) -> Forall (fun w => block_ok w.2) (commit_writes l v).
Proof.
  intros Hv. unfold commit_writes, log_writes, home_writes. rewrite !Forall_app. pose proof (commit_head_block l v (Hv _)) as Hh.
  assert (Hz : forall ns : list Z, Forall (fun w : Z * block => block_ok w.2) (zip ns (v <$> txn_blocks l))).
  { intros ns. apply Forall_forall. intros [n d] Hin. apply elem_of_zip_r in Hin. apply list_elem_of_fmap in Hin as (m & -> & _). apply Hv. }
  split; [apply Hz|]. split; [by constructor; [|constructor]|]. split; [apply Hz|]. constructor; [|done]. destruct Hh. split; cbn [snd]; [by rewrite put32_length|by apply put32_bytes].
Qed.

Lemma after_ok W v m : Forall (fun w => block_ok w.2) W -> block_ok (v m) -> block_ok (after W v m).
Proof.
  intros HW. unfold after. generalize (v m). induction HW as [|[n d] W Hd _ IH]; intros x Hx; [done|]. cbn [foldl fst snd]. apply IH. by case_decide.
Qed.

Lemma no_dirty s : (forall m, ~ pinned s m) -> ndirty s = 0%nat.
Proof.
  intros Hp. unfold ndirty. destruct (filter _ _) as [|b l] eqn:E; [done|]. exfalso.
  assert (Hb : b ∈ filter (fun b => b_dirty b = true) (c_bufs s)) by (rewrite E; apply list_elem_of_here).
  apply list_elem_of_filter in Hb as [Hd Hb]. apply list_elem_of_lookup in Hb as [i Hi]. apply (Hp (b_blockno b)). by exists i, b.
Qed.

Lemma linv_quiet st : binv (l_bio st) [] -> (forall m, ~ pinned (l_bio st) m) -> lg_n (l_log st) = 0 -> 0 < lg_size (l_log st) <= LOGSIZE ->
  length (lg_block (l_log st)) = 30%nat -> 0 <= lg_start (l_log st) /\ lg_start (l_log st) + lg_size (l_log st) <= c_disksize (l_bio st) ->
  c_disksize (l_bio st) < 2147483648 -> linv st [].
Proof.
  intros Hb Hp Hn Hs Hl Ha Hw. assert (Ht : txn_blocks (l_log st) = []) by (unfold txn_blocks; by rewrite Hn).
  split; rewrite ?Ht; try done; try lia.
  - constructor.
  - intros i b Hi. by apply elem_of_nil in Hi.
  - constructor.
  - intros b Hx. by apply elem_of_nil in Hx.
  - intros m. rewrite elem_of_nil. split; [apply Hp|done].
  - rewrite no_dirty by done. lia.
Qed.

Lemma end_op_idle st : linv st [] -> lg_outstanding (l_log st) = 1 -> lg_committing (l_log st) = false -> (forall m, block_ok (view st m)) ->
  exists st', end_op st = Ok () st' /\ linv st' [] /\ idle (l_log st') /\ lg_start (l_log st') = lg_start (l_log st) /\ lg_size (l_log st') = lg_size (l_log st) /\
    c_disksize (l_bio st') = c_disksize (l_bio st) /\ (forall m, ~ in_log (l_log st) m -> view st' m = view st m) /\ forall m, block_ok (view st' m).
Proof.
  intros Hi Ho Hc Hok. set (l := l_log st). set (st1 := LFS (l_bio st) (set_ops 0 true l)). pose proof (li_n _ _ Hi) as Hln. fold l in Hln.
  assert (Ee : end_op st = (commit;; modify (fun s => set_log (set_ops (lg_outstanding (l_log s)) false (l_log s)) s)) st1).
  { unfold end_op. erewrite Ok_bind by reflexivity. by rewrite Hc, Ho. }
  rewrite Ee. destruct (Z.ltb_spec 0 (lg_n l)) as [Hn|Hn].
  - destruct (commit_run st1) as (st2 & Hr & El & Hst & Hp & Hv); [by apply linv_txn; [apply linv_ops|]|]. rewrite (Ok_bind _ _ _ _ _ Hr).
    eexists. split; [reflexivity|]. cbn [set_log l_bio l_log]. rewrite El. cbn [set_ops set_head lg_outstanding st1 l_log l_bio] in *.
    assert (Hnp : forall m, ~ pinned (l_bio st2) m) by (intros m [Hm Hno]%Hp; by apply Hno, (li_pin _ _ Hi)).
    assert (Hi2 : linv (LFS (l_bio st2) (set_ops 0 false (set_head 0 (lg_block l) (set_ops 0 true l)))) []).
    { apply linv_quiet; cbn [l_bio l_log set_ops set_head lg_n lg_size lg_start lg_block]; try done; rewrite ?(bs_size _ _ _ Hst); try apply Hi.
      - apply Hst.
      - split; [lia|apply Hi]. }
    split; [exact Hi2|]. split; [done|]. split; [done|]. split; [done|]. split; [apply Hst|]. split; [exact Hv|]. intros m.
    destruct (decide (lg_start l <= m < lg_start l + lg_size l)) as [Hin|Hout].
    + pose proof (idle_view _ Hi2 eq_refl m) as Ev. unfold view in *. cbn [l_bio set_log] in *.
      rewrite Ev, (bs_disk _ _ _ Hst), after_disk. apply after_ok; [by apply commit_writes_ok|].
      rewrite <- (bview_unpinned _ [] m (li_inv _ _ Hi)); [apply Hok| |by intros ? ? ?%elem_of_nil].
      intros Hm%(li_pin _ _ Hi). by apply (li_home _ _ Hi) in Hm as [_ ?].
    + unfold view. cbn [l_bio set_log]. rewrite Hv by done. apply Hok.
  - eexists. split.
    + erewrite Ok_bind; [reflexivity|]. unfold commit. erewrite Ok_bind by reflexivity. cbn [st1 l_log set_ops lg_n].
      destruct (Z.ltb_spec 0 (lg_n l)); [lia|reflexivity].
    + split; [by apply (linv_ops st [] 0 false)|]. split; [split; [cbn; lia|done]|]. done.
Qed.

(** ** A file between calls *)

Section swap.
Context (devsw : Z -> device) (killed : bool) (meta : Z).

(** The log is idle, and inode [i] is a file's that nobody has locked. *)
Record at_rest (s : fs) (i : nat) (ip : inode) : Prop := {
  ar_file : file_state meta s i ip;
  ar_idle : idle (l_log (f_lfs s));
  ar_room : 27 <= lg_size (l_log (f_lfs s));
  ar_free : i_locked ip = false /\ 1 <= i_ref ip /\ i_valid ip = true;
  ar_type : i_type ip <> T_DEV;
  ar_inum : 0 <= i_inum ip < sb_ninodes (f_sb s);
  ar_size : 0 <= i_size ip <= MAXFILE * BSIZE;
  ar_dense : dense (fview s) ip;
}.

Lemma begin_op_run st : linv st [] -> idle (l_log st) ->
  begin_op st = Ok () (LFS (l_bio st) (set_ops 1 false (l_log st))).
Proof. intros Hi (H1 & H2 & H3). unfold begin_op. erewrite Ok_bind by reflexivity. by rewrite H3, H1, H2. Qed.

Lemma upd_inode_Ok s i ip f : f_icache s !! i = Some ip -> upd_inode i f s = Ok () (set_icache (<[i := f ip]> (f_icache s)) s).
Proof. intros Hi. unfold upd_inode. by rewrite (Ok_bind _ _ _ _ _ (inode_at_Ok _ _ _ Hi)). Qed.

Lemma ilock_run s i ip : f_icache s !! i = Some ip -> i_locked ip = false -> 1 <= i_ref ip -> i_valid ip = true ->
  ilock i s = Ok () (set_icache (<[i := set_ilock true ip]> (f_icache s)) s).
Proof.
  intros Hi Hl Hr Hv. unfold ilock. rewrite (Ok_bind _ _ _ _ _ (inode_at_Ok _ _ _ Hi)). destruct (Z.ltb_spec (i_ref ip) 1); [lia|].
  rewrite Hl, Hv. by rewrite (Ok_bind _ _ _ _ _ (upd_inode_Ok _ _ _ _ Hi)).
Qed.

Lemma iunlock_run s i ip : f_icache s !! i = Some ip -> i_locked ip = true -> 1 <= i_ref ip ->
  iunlock i s = Ok () (set_icache (<[i := set_ilock false ip]> (f_icache s)) s).
Proof.
  intros Hi Hl Hr. unfold iunlock. rewrite (Ok_bind _ _ _ _ _ (inode_at_Ok _ _ _ Hi)), Hl. cbn [negb orb].
  destruct (Z.ltb_spec (i_ref ip) 1); [lia|]. by apply upd_inode_Ok.
Qed.

(** Inside a call: the lock taken, and a transaction begun for a write. *)
Lemma enter_write s i ip : at_rest s i ip -> exists s', (onlfs begin_op;; ilock i) s = Ok () s' /\
  file_state meta s' i (set_ilock true ip) /\ can_log s' 26 /\ lg_outstanding (l_log (f_lfs s')) = 1 /\ lg_committing (l_log (f_lfs s')) = false /\
  fview s' = fview s /\ f_sb s' = f_sb s /\ f_icache s' = <[i := set_ilock true ip]> (f_icache s) /\ set_ops 0 false (l_log (f_lfs s')) = l_log (f_lfs s).
Proof.
  intros [[Hf Hi Hok Hb] Hidle Hroom (Hl & Hr & Hv) Ht Hn Hsz Hd]. pose proof Hidle as (H1 & H2 & H3).
  eexists. split; [|split; [|split]].
  - rewrite (Ok_bind _ _ _ _ _ (onlfs_Ok _ _ _ _ (begin_op_run _ (fb_log _ _ _ Hf) Hidle))). by apply ilock_run.
  - split; cbn [set_icache set_lfs f_lfs f_sb f_icache]; [|by apply list_lookup_insert_eq, (lookup_lt_Some _ _ _ Hi)| |done].
    + destruct Hf as [Hlog Hgeo]. split; [by apply linv_ops|]. by destruct Hgeo.
    + by destruct Hok.
  - split; cbn [set_icache set_lfs f_lfs l_log set_ops lg_outstanding]; [done|]. unfold log_room. cbn. lia.
  - repeat (split; [done|]). cbn. destruct (l_log (f_lfs s)). cbn in *. by subst.
Qed.

Lemma leave_write s i ip : file_state meta s i ip -> i_locked ip = true -> 1 <= i_ref ip ->
  lg_outstanding (l_log (f_lfs s)) = 1 -> lg_committing (l_log (f_lfs s)) = false ->
  exists s', (iunlock i;; onlfs end_op) s = Ok () s' /\ file_state meta s' i (set_ilock false ip) /\ idle (l_log (f_lfs s')) /\
    lg_size (l_log (f_lfs s')) = lg_size (l_log (f_lfs s)) /\ f_sb s' = f_sb s /\ f_icache s' = <[i := set_ilock false ip]> (f_icache s) /\
    forall m, sb_inodestart (f_sb s) <= m -> fview s' m = fview s m.
Proof.
  intros [Hf Hi Hok Hb] Hl Hr Ho Hc. destruct (end_op_idle (f_lfs s) (fb_log _ _ _ Hf) Ho Hc) as (st' & E & Hlog & Hidle & Es & Ez & Ed & Hv & Hall).
  { intros m. split; [apply (bo_len _ _ _ Hb)|apply (bo_bytes _ _ _ Hb)]. }
  set (s1 := set_icache (<[i := set_ilock false ip]> (f_icache s)) s). exists (set_lfs st' s1).
  pose proof (fb_geo _ _ _ Hf) as [G1 G2 G3 G4 G5]. pose proof (geometry_layout _ _ _ Hf) as Hly.
  assert (Hkeep : forall m, sb_inodestart (f_sb s) <= m -> fview (set_lfs st' s1) m = fview s m).
  { intros m Hm. apply Hv. unfold in_log. lia. }
  destruct (view_agree (f_sb s) meta (fview s) (fview (set_lfs st' s1)) ip Hly Hok) as (K1 & _ & _ & K4).
  { intros m Hm. apply Hkeep. lia. }
  split; [rewrite (Ok_bind _ _ _ _ _ (iunlock_run _ _ _ Hi Hl Hr)); exact (onlfs_Ok _ s1 () st' E)|].
  split; [|done]. split; cbn [set_lfs f_lfs f_sb f_icache s1 set_icache].
  - split; [done|]. cbn. split; rewrite ?Es, ?Ez, ?Ed; done.
  - by apply list_lookup_insert_eq, (lookup_lt_Some _ _ _ Hi).
  - by destruct K1.
  - split; [apply Hall|apply Hall|]. intros b Hbr. destruct G5. change (fview _) with (fview (set_lfs st' s1)). rewrite K4 by lia. by apply Hb.
Qed.

(** One transaction of [filewrite]. *)
Lemma write_txn s i ip off src : at_rest s i ip -> bytes_ok src -> let n := Z.of_nat (length src) in n <= max_write ->
  0 <= off <= i_size ip -> off + n <= MAXFILE * BSIZE -> (8 <= nfree (f_sb s) (fview s))%nat ->
  exists s1 s2 s3 ip', (onlfs begin_op;; ilock i) s = Ok () s1 /\ writei devsw i src off n s1 = Ok n s2 /\ (iunlock i;; onlfs end_op) s2 = Ok () s3 /\
    at_rest s3 i ip' /\ f_sb s3 = f_sb s /\ i_size ip' = i_size ip `max` (off + n) /\
    (forall o, off_ok o -> fbyte (fview s3) ip' o = overlay (fbyte (fview s) ip) off src o) /\
    (nfree (f_sb s) (fview s) <= nfree (f_sb s) (fview s3) + 8)%nat /\ f_icache s1 !! i = Some (set_ilock true ip).
Proof.
  intros Hrest Hsrc n Hn Hoff Hmax Hfree. destruct (enter_write s i ip Hrest) as (s1 & E1 & Hst1 & Hlog1 & Ho1 & Hc1 & Ev1 & Esb1 & Ei1 & El1).
  destruct Hrest as [Hst Hidle Hroom (Hl & Hr & Hv) Ht Hin Hsz Hd]. change max_write with 1536 in Hn.
  assert (Hblk : 0 <= nblk off n <= 4).
  { split; [apply nblk_nonneg; lia|]. unfold nblk. change BSIZE with 512. case_bool; Z.div_mod_to_equations; lia. }
  destruct (writei_run devsw meta s1 i (set_ilock true ip) off src Hst1) as (s2 & ip2 & W & E2 & Hs2 & HW & [R1 R2 R3 R4 R5 R6 R7 R8]);
    [done|rewrite Esb1; exact Hin|done|exact Hoff|exact (proj2 Hsz)|exact Hmax| | |].
  { apply (can_log_le _ _ _ Hlog1). fold n. lia. }
  { rewrite Esb1, Ev1. fold n. lia. }
  pose proof (is_sb _ _ _ _ _ Hs2) as Esb2. destruct (ls_log _ _ _ (is_lstep _ _ _ _ _ Hs2)) as [bs El2].
  destruct (leave_write s2 i ip2 R1) as (s3 & E3 & Hst3 & Hidle3 & Ez3 & Esb3 & Ei3 & Hv3).
  { by rewrite R3. } { by rewrite R3. } { by rewrite El2. } { by rewrite El2. }
  destruct (view_agree (f_sb s2) meta (fview s2) (fview s3) ip2) as (_ & K2 & K3 & K4).
  { eapply geometry_layout, (ft_base _ _ _ _ R1). } { apply R1. }
  { intros m Hm. apply Hv3. pose proof (ge_start _ _ _ _ (fb_geo _ _ _ (ft_base _ _ _ _ R1))). lia. }
  exists s1, s2, s3, (set_ilock false ip2). split; [done|]. split; [done|]. split; [done|].
  rewrite Esb2, Esb1 in *. rewrite Ev1 in *. split; [|split; [by rewrite Esb3|split; [exact R2|split; [|split]]]].
  - apply (f_equal lg_size) in El1. cbn in El1. rewrite El2 in Ez3. cbn in Ez3. cbn [set_ilock i_size] in R2.
    split; cbn [set_ilock i_locked i_ref i_valid i_type i_inum i_size]; try done; try lia.
    + split; [done|]. by rewrite R3.
    + by rewrite R3.
    + rewrite R3, Esb3. done.
    + intros o Ho. change (baddr (fview s3) ip2 (o / BSIZE) <> 0). rewrite K2. by apply R5.
  - intros o Ho. etransitivity; [apply (K3 o Ho)|exact (R4 o Ho)].
  - rewrite <- (nfree_ext _ _ _ K4) in R8. fold n in R8. lia.
  - apply Hst1.
Qed.

(** ** [filewrite] *)

Lemma onfs_Ok {A} (m : M fs A) s a x : m (k_fs s) = Ok a x -> onfs m s = Ok a (set_fs x s).
Proof. intros E. unfold onfs, zoom. by rewrite E. Qed.

Lemma onfs_seq (m1 : M fs ()) {A B} (m2 : M fs A) (k : A -> M kfs B) s a x : (m1;; m2) (k_fs s) = Ok a x ->
  (onfs m1;; y ← onfs m2; k y) s = k a (set_fs x s).
Proof.
  unfold onfs, zoom, mbind, M_bind, bindM. destruct (m1 (k_fs s)) as [[] x1| | | |]; try done. cbn [set_fs k_fs].
  by intros ->.
Qed.

(** File [f] of the table is open for reading and writing on inode [i]. *)
Record open_on (s : kfs) (f : nat) (i : nat) (off : Z) : Prop := {
  op_at : exists x, k_files s !! f = Some x /\ fi_type x = FD_INODE /\ fi_ip x = i /\ fi_off x = off /\ fi_readable x = true /\ fi_writable x = true;
}.

Lemma upd_file_Ok s f x g : k_files s !! f = Some x -> upd_file f g s = Ok () (set_files (<[f := g x]> (k_files s)) s).
Proof. intros Hx. unfold upd_file, file_at, mbind, M_bind, bindM. by rewrite Hx. Qed.

Lemma file_at_Ok s f x : k_files s !! f = Some x -> file_at f s = Ok x s.
Proof. intros Hx. unfold file_at. by rewrite Hx. Qed.

Lemma filewrite_round fuel s f i ip off (src : list Z) k n : open_on s f i off -> at_rest (k_fs s) i ip -> bytes_ok src ->
  Z.of_nat (length src) = n - k -> k < n -> 0 <= off <= i_size ip -> off + (n - k) <= MAXFILE * BSIZE ->
  (8 <= nfree (f_sb (k_fs s)) (fview (k_fs s)))%nat -> let n1 := (n - k) `min` max_write in
  exists s' ip', filewrite_loop devsw (S fuel) f i src k n s = filewrite_loop devsw fuel f i (drop (Z.to_nat n1) src) (k + n1) n s' /\
    open_on s' f i (off + n1) /\ at_rest (k_fs s') i ip' /\ f_sb (k_fs s') = f_sb (k_fs s) /\ i_size ip' = i_size ip `max` (off + n1) /\
    (forall o, off_ok o -> fbyte (fview (k_fs s')) ip' o = overlay (fbyte (fview (k_fs s)) ip) off (take (Z.to_nat n1) src) o) /\
    (nfree (f_sb (k_fs s)) (fview (k_fs s)) <= nfree (f_sb (k_fs s)) (fview (k_fs s')) + 8)%nat.
Proof.
  intros [(x & Hx & Ht & Hip & Ho & Hrd & Hwr)] Hrest Hsrc Hlen Hk Hoff Hmax Hfree n1. assert (Hmw : max_write = 1536) by done.
  assert (Hl1 : Z.of_nat (length (take (Z.to_nat n1) src)) = n1) by (rewrite length_take; subst n1; lia).
  destruct (write_txn (k_fs s) i ip off (take (Z.to_nat n1) src) Hrest) as (s1 & s2 & s3 & ip' & E1 & E2 & E3 & Hrest3 & Esb & Esz & Hb & Hfr & Hi1);
    rewrite ?Hl1 in *; [by apply Forall_take|subst n1; lia|done|subst n1; lia|done|].
  rewrite (writei_take devsw s1 i _ src off n1 Hi1 (ar_type _ _ _ Hrest)) in E2.
  exists (set_fs s3 (set_files (<[f := set_off (off + n1) x]> (k_files s)) s)), ip'. cbn [set_fs set_files k_fs k_files]. split.
  - cbn [filewrite_loop]. destruct (Z.leb_spec n k); [lia|]. fold n1. rewrite (onfs_seq _ _ _ _ _ _ E1).
    rewrite (Ok_bind _ _ _ _ _ (file_at_Ok (set_fs s1 s) f x Hx)). rewrite Ho, (Ok_bind _ _ _ _ _ (onfs_Ok _ (set_fs s1 s) _ _ E2)).
    destruct (Z.ltb_spec 0 n1); [|subst n1; lia]. cbn [when]. rewrite (Ok_bind _ _ _ _ _ (upd_file_Ok (set_fs s2 (set_fs s1 s)) f x _ Hx)).
    rewrite (onfs_seq (iunlock i) (onlfs end_op) _ (set_files _ (set_fs s2 (set_fs s1 s))) () s3 E3). destruct (Z.ltb_spec n1 0); [lia|]. rewrite Z.eqb_refl. cbn [negb]. f_equal. unfold set_fs, set_files. cbn. do 3 f_equal.
    rewrite Ho, u32_small; [done|]. unfold is_u32, two32. fsizes. subst n1. lia.
  - split; [split; exists (set_off (off + n1) x); split; [by apply list_lookup_insert_eq, (lookup_lt_Some _ _ _ Hx)|done]|].
    split; [done|]. split; [done|]. split; [done|]. done.
Qed.

Lemma filewrite_loop_run fuel : forall s f i ip off src k n, open_on s f i off -> at_rest (k_fs s) i ip -> bytes_ok src ->
  Z.of_nat (length src) = n - k -> 0 <= off <= i_size ip -> off + (n - k) <= MAXFILE * BSIZE -> n - k <= Z.of_nat fuel * max_write ->
  (8 * fuel <= nfree (f_sb (k_fs s)) (fview (k_fs s)))%nat ->
  exists s' ip', filewrite_loop devsw fuel f i src k n s = Ok n s' /\ open_on s' f i (off + (n - k)) /\ at_rest (k_fs s') i ip' /\
    f_sb (k_fs s') = f_sb (k_fs s) /\ i_size ip' = i_size ip `max` (off + (n - k)) /\
    (forall o, off_ok o -> fbyte (fview (k_fs s')) ip' o = overlay (fbyte (fview (k_fs s)) ip) off src o) /\
    (nfree (f_sb (k_fs s)) (fview (k_fs s)) <= nfree (f_sb (k_fs s)) (fview (k_fs s')) + 8 * fuel)%nat.
Proof.
  assert (Hmw : max_write = 1536) by done.
  induction fuel as [|fuel IH]; intros s f i ip off src k n Hop Hrest Hsrc Hlen Hoff Hmax Hfuel Hfree; destruct (Z.leb_spec n k) as [Hk|Hk]; try lia.
  1-2: assert (n = k) as -> by lia; assert (src = []) as -> by (apply length_zero_iff_nil; lia); exists s, ip;
    rewrite Z.sub_diag, Z.add_0_r; cbn [filewrite_loop]; rewrite Z.leb_refl;
    (split; [done|split; [done|split; [done|split; [done|split; [lia|split; [intros o _; by rewrite overlay_nil|lia]]]]]]).
  destruct (filewrite_round fuel s f i ip off src k n) as (s1 & ip1 & E1 & Hop1 & Hrest1 & Esb1 & Esz1 & Hb1 & Hfr1); try done; [lia|].
  set (n1 := (n - k) `min` max_write) in *.
  destruct (IH s1 f i ip1 (off + n1) (drop (Z.to_nat n1) src) (k + n1) n Hop1 Hrest1) as (s2 & ip2 & E2 & Hop2 & Hrest2 & Esb2 & Esz2 & Hb2 & Hfr2).
  { by apply Forall_drop. } { rewrite length_drop. subst n1. lia. } { subst n1. lia. } { subst n1. lia. } { subst n1. lia. } { rewrite Esb1. lia. }
  exists s2, ip2. rewrite E1. split; [done|]. split; [replace (off + (n - k)) with (off + n1 + (n - (k + n1))) by lia; done|].
  split; [done|]. split; [congruence|]. split; [subst n1; lia|]. rewrite Esb1 in *. split; [|lia]. intros o Ho. rewrite Hb2 by done.
  rewrite <- (take_drop (Z.to_nat n1) src) at 2. rewrite <- overlay_app, length_take. replace (Z.of_nat _) with n1 by (subst n1; lia).
  by apply overlay_ext, Hb1.
Qed.

(** ** The swap file *)

Lemma seek s f i off0 off : open_on s f i off0 -> exists s', upd_file f (set_off off) s = Ok () s' /\ open_on s' f i off /\ k_fs s' = k_fs s.
Proof.
  intros [(x & Hx & Ht & Hip & Ho & Hrd & Hwr)]. exists (set_files (<[f := set_off off x]> (k_files s)) s). split; [by apply upd_file_Ok|].
  split; [|done]. split. exists (set_off off x). split; [by apply list_lookup_insert_eq, (lookup_lt_Some _ _ _ Hx)|done].
Qed.

Lemma write_page_run s f i ip off0 off page : open_on s f i off0 -> at_rest (k_fs s) i ip -> bytes_ok page -> length page = 4096%nat ->
  0 <= off <= i_size ip -> off + 4096 <= MAXFILE * BSIZE -> (24 <= nfree (f_sb (k_fs s)) (fview (k_fs s)))%nat ->
  exists s' ip', writeToSwapFile devsw killed f page off 4096 s = Ok 4096 s' /\ open_on s' f i (off + 4096) /\ at_rest (k_fs s') i ip' /\
    f_sb (k_fs s') = f_sb (k_fs s) /\ i_size ip' = i_size ip `max` (off + 4096) /\
    (forall o, off_ok o -> fbyte (fview (k_fs s')) ip' o = overlay (fbyte (fview (k_fs s)) ip) off page o) /\
    (nfree (f_sb (k_fs s)) (fview (k_fs s)) <= nfree (f_sb (k_fs s)) (fview (k_fs s')) + 24)%nat.
Proof.
  intros Hop Hrest Hpage Hlen Hoff Hmax Hfree. destruct (seek s f i off0 off Hop) as (s1 & E1 & Hop1 & Ek).
  destruct Hop1 as [(x & Hx & Ht & Hip & Ho & Hrd & Hwr)] eqn:Eop. rewrite <- Ek in Hrest, Hfree.
  destruct (filewrite_loop_run 3 s1 f i ip off page 0 4096 Hop1 Hrest Hpage) as (s2 & ip2 & E2 & Hop2 & Hrest2 & R); try lia; [done|].
  exists s2, ip2. split; [|rewrite <- Ek; done]. unfold writeToSwapFile. rewrite (Ok_bind _ _ _ _ _ E1). unfold filewrite.
  rewrite (Ok_bind _ _ _ _ _ (file_at_Ok _ _ _ Hx)), Hwr, Ht, Hip. cbn [negb]. by rewrite (Ok_bind _ _ _ _ _ E2).
Qed.

Lemma file_state_lock s i ip b : file_state meta s i ip -> file_state meta (set_icache (<[i := set_ilock b ip]> (f_icache s)) s) i (set_ilock b ip).
Proof.
  intros [[Hf1 Hf2] Hi Hok Hb]. split; [by split|by apply list_lookup_insert_eq, (lookup_lt_Some _ _ _ Hi)| |done]. by destruct Hok.
Qed.

Lemma fbytes_lock v ip b off n : fbytes v (set_ilock b ip) off n = fbytes v ip off n.
Proof. apply list_fmap_ext. intros k o _. reflexivity. Qed.

(** A read finds the file at rest, and leaves it so. *)
Lemma read_page_run s f i ip off0 off : open_on s f i off0 -> at_rest (k_fs s) i ip -> 0 <= off -> off + 4096 <= i_size ip ->
  exists s', readFromSwapFile devsw killed f off 4096 s = Ok (4096, fbytes (fview (k_fs s)) ip off 4096) s' /\
    open_on s' f i (off + 4096) /\ at_rest (k_fs s') i ip /\ f_sb (k_fs s') = f_sb (k_fs s) /\ fview (k_fs s') ≐ fview (k_fs s).
Proof.
  intros Hop [Hst Hidle Hroom (Hl & Hr & Hv) Ht Hin Hsz Hd] Hoff Hend. destruct (seek s f i off0 off Hop) as (s1 & E1 & Hop1 & Ek).
  destruct Hop1 as [(x & Hx & Hty & Hip & Ho & Hrd & Hwr)] eqn:Eop. pose proof (ft_inode _ _ _ _ Hst) as Hi.
  set (sl := set_icache (<[i := set_ilock true ip]> (f_icache (k_fs s))) (k_fs s)).
  pose proof (file_state_lock (k_fs s) i ip true Hst) as Hstl. fold sl in Hstl.
  destruct (readi_run devsw meta sl i (set_ilock true ip) off 4096 Hstl) as (s2 & E2 & Hf2 & Hs2); try done; try (cbn [set_ilock i_size]; lia).
  pose proof (file_state_step _ _ _ _ _ Hstl Hf2 Hs2) as Hst2. pose proof (iunlock_run s2 i (set_ilock true ip) (ft_inode _ _ _ _ Hst2) eq_refl Hr) as E3.
  set (s3 := set_icache _ s2) in E3. pose proof (file_state_lock s2 i _ false Hst2) as Hst3. fold s3 in Hst3.
  assert (Eip : set_ilock false (set_ilock true ip) = ip) by (clear -Hl; destruct ip; cbn in Hl |- *; by subst). rewrite Eip in *.
  cbn [set_ilock i_size] in E2. rewrite Z.min_l, fbytes_lock in E2 by lia. change (fview sl) with (fview (k_fs s)) in E2. set (bs := fbytes _ _ _ _) in *.
  exists (set_fs s3 (set_files (<[f := set_off (off + 4096) x]> (k_files s1)) s1)). split; [|split; [|split; [|split]]].
  - unfold readFromSwapFile. rewrite (Ok_bind _ _ _ _ _ E1). unfold fileread. rewrite (Ok_bind _ _ _ _ _ (file_at_Ok _ _ _ Hx)), Hrd, Hty, Hip. cbn [negb].
    rewrite (Ok_bind _ _ _ _ _ (onfs_Ok _ s1 () sl ltac:(rewrite Ek; by apply ilock_run))).
    rewrite Ho, (Ok_bind _ _ _ _ _ (onfs_Ok _ (set_fs sl s1) _ s2 E2)). cbn [fst snd].
    change (0 <? s32 4096) with true. cbn [when]. rewrite (Ok_bind _ _ _ _ _ (upd_file_Ok (set_fs s2 (set_fs sl s1)) f x _ Hx)).
    rewrite (Ok_bind _ _ _ _ _ (onfs_Ok _ (set_files _ (set_fs s2 (set_fs sl s1))) () s3 E3)).
    rewrite Ho, u32_small by (unfold is_u32, two32; fsizes; lia). done.
  - split. exists (set_off (off + 4096) x). split; [by apply list_lookup_insert_eq, (lookup_lt_Some _ _ _ Hx)|done].
  - cbn [set_fs k_fs]. destruct (ls_log _ _ _ (fs_lstep _ _ _ Hs2)) as [hs El]. pose proof (ls_n _ _ _ (fs_lstep _ _ _ Hs2)) as Hn.
    destruct Hidle as (I1 & I2 & I3). cbn [sl set_icache f_lfs length] in El, Hn. split; try done.
    + change (f_lfs s3) with (f_lfs s2). rewrite El. split; [cbn [set_head lg_n]; lia|done].
    + change (f_lfs s3) with (f_lfs s2). by rewrite El.
    + change (f_sb s3) with (f_sb s2). by rewrite (fs_sb _ _ _ Hs2).
    + intros o Hoo. change (fview s3) with (fview s2). rewrite (fstep_views _ _ _ Hs2). by apply Hd.
  - cbn [set_fs k_fs]. apply (fs_sb _ _ _ Hs2).
  - cbn [set_fs k_fs]. intros m. apply (fstep_view _ _ _ m Hs2).
Qed.
End swap.
