(* ===== verification/FsVm.v ===== *)
(** * Paging over the file system

    The swap file that paging relies on ([sw_put], [sw_get]) is the one that
    [writeToSwapFile] and [readFromSwapFile] keep in the file system. *)

From S2P Require Import Prelude Mmu Memory Vm Demo.
From S2P Require Import Bytes Bio Log Txn Crash Fs FsBlock FsFile FsRw FsDemo File Sysfile FsSwap.

Local Open Scope kern_scope.

(** The bytes of a page in memory. *)
Definition word_bytes (w : Z) : list Z := [w mod 256; w / 256 mod 256; w / 65536 mod 256; w / 16777216 mod 256].
Definition page_bytes (pg : Memory.frame) : list Z := flat_map (fun k => word_bytes (frame_get pg k)) (seqZ 0 1024).

(** The file holds the pages [pf], one after the other. *)
Record stores (s : fs) (ip : inode) (pf : pagefile) : Prop := {
  so_size : i_size ip = PGSIZE * Z.of_nat (length pf);
  so_page : forall k pg, pf !! k = Some pg -> fbytes (fview s) ip (PGSIZE * Z.of_nat k) PGSIZE = page_bytes pg;
}.

Lemma page_bytes_length pg : length (page_bytes pg) = 4096%nat.
Proof.
  unfold page_bytes. assert (H : forall l, length (flat_map (fun k => word_bytes (frame_get pg k)) l) = (4 * length l)%nat).
  { induction l as [|k l IH]; [done|]. cbn [flat_map]. rewrite length_app, IH. cbn [word_bytes length]. lia. }
  rewrite H, length_seqZ. lia.
Qed.

Lemma page_bytes_ok pg : bytes_ok (page_bytes pg).
Proof.
  unfold page_bytes. induction (seqZ 0 1024) as [|k l IH]; [constructor|]. cbn [flat_map]. apply Forall_app_2; [|done].
  repeat constructor; apply Z.mod_pos_bound; lia.
Qed.

Lemma fbytes_ext_range v ip v' ip' off n : (forall o, off <= o < off + n -> fbyte v' ip' o = fbyte v ip o) -> fbytes v' ip' off n = fbytes v ip off n.
Proof. intros H. apply list_fmap_ext. intros k o Ho. apply lookup_seqZ in Ho. apply H. lia. Qed.

(** Pages go out and come back. *)
Inductive swop := SPut (off : Z) (pg : Memory.frame) | SGet (off : Z).

(** What the interface says: the bytes of the pages read, unless an operation
    is one it does not allow. *)
Fixpoint page_run (pf : pagefile) (ops : list swop) : option (list (list Z)) :=
  match ops with
  | [] => Some []
  | SPut off pg :: ops' => if sw_ok pf off then page_run (sw_put pf off pg) ops' else None
  | SGet off :: ops' => pg ← sw_get pf off; rs ← page_run pf ops'; Some (page_bytes pg :: rs)
  end.

(** What the kernel does: [handle_pf] and [swap] panic when the value returned
    is not a page's size. *)
Fixpoint file_run (devsw : Z -> device) (killed : bool) (f : nat) (ops : list swop) : M kfs (list (list Z)) :=
  match ops with
  | [] => mret []
  | SPut off pg :: ops' =>
      r ← Sysfile.writeToSwapFile devsw killed f (page_bytes pg) off PGSIZE;
      if r =? PGSIZE then file_run devsw killed f ops' else panic "writeToSwapFile failed"
  | SGet off :: ops' =>
      r ← Sysfile.readFromSwapFile devsw killed f off PGSIZE;
      if fst r =? PGSIZE then rs ← file_run devsw killed f ops'; mret (snd r :: rs) else panic "readFromSwapFile failed"
  end.

Fixpoint puts (ops : list swop) : nat :=
  match ops with [] => 0 | SPut _ _ :: ops' => S (puts ops') | SGet _ :: ops' => puts ops' end.

Section refine.
Context (devsw : Z -> device) (killed : bool) (meta : Z).

Lemma stores_put s ip s' ip' pf off pg : stores s ip pf -> sw_ok pf off = true -> i_size ip' = i_size ip `max` (off + PGSIZE) ->
  i_size ip' <= MAXFILE * BSIZE ->
  (forall o, off_ok o -> fbyte (fview s') ip' o = overlay (fbyte (fview s) ip) off (page_bytes pg) o) -> stores s' ip' (sw_put pf off pg).
Proof.
  intros [Hsz Hpg] (H0 & Hmod & Hno)%pagefile_ok Esz Hmax Hb. pose proof (page_bytes_length pg) as Hl. unfold PGSIZE in *.
  assert (Eoff : off = 4096 * Z.of_nat (page_no off)) by (unfold page_no, PGSIZE; Z.div_mod_to_equations; lia).
  assert (Hsame : forall k, k <> page_no off -> 4096 * Z.of_nat k + 4096 <= i_size ip' ->
    fbytes (fview s') ip' (4096 * Z.of_nat k) 4096 = fbytes (fview s) ip (4096 * Z.of_nat k) 4096).
  { intros k Hk Hend. apply fbytes_ext_range. intros o Ho. rewrite Hb by (unfold off_ok; lia). unfold overlay. rewrite Hl.
    destruct (Z.leb_spec off o), (Z.ltb_spec o (off + Z.of_nat 4096)); cbn [andb]; try done. exfalso. lia. }
  assert (Hnew : fbytes (fview s') ip' (4096 * Z.of_nat (page_no off)) 4096 = page_bytes pg).
  { rewrite <- Eoff. change 4096 with (Z.of_nat 4096). rewrite <- Hl. apply (fbytes_overlay _ _ _ _ _ Hb); lia. }
  cbn [sw_put pagefile_swap]. destruct (Nat.ltb_spec (page_no off) (length pf)).
  - split; unfold PGSIZE; [rewrite length_insert; lia|]. intros k pg' Hk. destruct (decide (k = page_no off)) as [->|Hne].
    + rewrite list_lookup_insert_eq in Hk by done. injection Hk as <-. done.
    + rewrite list_lookup_insert_ne in Hk by done. pose proof (lookup_lt_Some _ _ _ Hk). rewrite Hsame by lia. by apply Hpg.
  - assert (page_no off = length pf) as Ek by lia. split; unfold PGSIZE; [rewrite length_app; cbn; lia|]. intros k pg' Hk.
    destruct (decide (k = page_no off)) as [->|Hne].
    + rewrite Ek, list_lookup_middle in Hk by done. injection Hk as <-. done.
    + apply lookup_app_Some in Hk as [Hk|[Hk1 Hk2]].
      * pose proof (lookup_lt_Some _ _ _ Hk). rewrite Hsame by lia. by apply Hpg.
      * apply lookup_lt_Some in Hk2. cbn in Hk2. lia.
Qed.

Lemma put_run s f i ip pf off0 off pg : open_on s f i off0 -> at_rest meta (k_fs s) i ip -> stores (k_fs s) ip pf -> sw_ok pf off = true ->
  (24 <= nfree (f_sb (k_fs s)) (fview (k_fs s)))%nat ->
  exists s' ip', Sysfile.writeToSwapFile devsw killed f (page_bytes pg) off PGSIZE s = Ok PGSIZE s' /\ open_on s' f i (off + 4096) /\
    at_rest meta (k_fs s') i ip' /\ stores (k_fs s') ip' (sw_put pf off pg) /\ f_sb (k_fs s') = f_sb (k_fs s) /\
    (nfree (f_sb (k_fs s)) (fview (k_fs s)) <= nfree (f_sb (k_fs s')) (fview (k_fs s')) + 24)%nat.
Proof.
  intros Hop Hrest Hst Hok Hfree. pose proof (so_size _ _ _ Hst) as Hsz. pose proof (ar_size _ _ _ _ Hrest) as Hmax.
  destruct (pagefile_ok pf off Hok) as (H0 & Hmod & _). unfold PGSIZE in *.
  assert (Hoff : off <= i_size ip /\ off + 4096 <= MAXFILE * BSIZE).
  { revert Hok. cbn [sw_ok pagefile_swap]. unfold page_no, PGSIZE. change (MAXFILE * BSIZE) with max_file_bytes in *.
    intros [_ Hc]%andb_true_iff. apply orb_true_iff in Hc as [Hlt%Nat.ltb_lt|[Heq%Nat.eqb_eq Hle%Z.leb_le]%andb_true_iff]; Z.div_mod_to_equations; lia. }
  destruct (write_page_run devsw killed meta s f i ip off0 off (page_bytes pg)) as (s1 & ip1 & E & Hop1 & Hrest1 & Esb & Esz & Hb & Hfr); try done; try lia.
  { apply page_bytes_ok. }
  exists s1, ip1. split; [done|]. split; [done|]. split; [done|]. split; [|split; [done|by rewrite Esb]].
  apply (stores_put (k_fs s) ip); try done. by pose proof (ar_size _ _ _ _ Hrest1) as [_ ?].
Qed.

Lemma get_run s f i ip pf off0 off pg : open_on s f i off0 -> at_rest meta (k_fs s) i ip -> stores (k_fs s) ip pf -> sw_get pf off = Some pg ->
  exists s', Sysfile.readFromSwapFile devsw killed f off PGSIZE s = Ok (PGSIZE, page_bytes pg) s' /\ open_on s' f i (off + 4096) /\
    at_rest meta (k_fs s') i ip /\ stores (k_fs s') ip pf /\ f_sb (k_fs s') = f_sb (k_fs s) /\ fview (k_fs s') ≐ fview (k_fs s).
Proof.
  intros Hop Hrest [Hsz Hpg] Hget. revert Hget. cbn [sw_get pagefile_swap]. destruct (Z.leb_spec 0 off); [|done]. cbn [andb].
  destruct (Z.eqb_spec (off mod PGSIZE) 0) as [Hmod|]; [|done]. intros Hk. pose proof (lookup_lt_Some _ _ _ Hk) as Hlt.
  assert (Eoff : off = 4096 * Z.of_nat (page_no off)) by (unfold page_no, PGSIZE in *; Z.div_mod_to_equations; lia).
  destruct (read_page_run devsw killed meta s f i ip off0 off) as (s1 & E & Hop1 & Hrest1 & Esb & Ev); try done; [unfold PGSIZE in *; lia|].
  pose proof (Hpg _ _ Hk) as Hbytes. change PGSIZE with 4096 in *. rewrite <- Eoff in Hbytes. rewrite Hbytes in E.
  exists s1. split; [exact E|]. split; [done|]. split; [done|]. split; [|done].
  split; [done|]. intros k pg' Hk'. rewrite (fbytes_ext _ _ _ _ _ Ev). by apply Hpg.
Qed.

Lemma file_run_pages ops : forall s f i ip pf off0 rs, open_on s f i off0 -> at_rest meta (k_fs s) i ip -> stores (k_fs s) ip pf ->
  page_run pf ops = Some rs -> (24 * puts ops <= nfree (f_sb (k_fs s)) (fview (k_fs s)))%nat -> exists s', file_run devsw killed f ops s = Ok rs s'.
Proof.
  induction ops as [|[off pg|off] ops IH]; intros s f i ip pf off0 rs Hop Hrest Hst Hrun Hfree; cbn [page_run file_run puts] in *.
  - injection Hrun as <-. by exists s.
  - destruct (sw_ok pf off) eqn:Hok; [|done].
    destruct (put_run s f i ip pf off0 off pg Hop Hrest Hst Hok) as (s1 & ip1 & E & Hop1 & Hrest1 & Hst1 & Esb & Hfr); [lia|].
    destruct (IH s1 f i ip1 _ _ rs Hop1 Hrest1 Hst1 Hrun) as (s2 & E2); [lia|]. exists s2. by rewrite (Ok_bind _ _ _ _ _ E).
  - apply bind_Some in Hrun as (pg & Hget & Hrun). apply bind_Some in Hrun as (rs' & Hrun & [= <-]).
    destruct (get_run s f i ip pf off0 off pg Hop Hrest Hst Hget) as (s1 & E & Hop1 & Hrest1 & Hst1 & Esb & Ev).
    destruct (IH s1 f i ip pf _ rs' Hop1 Hrest1 Hst1 Hrun) as (s2 & E2); [by rewrite Esb, Ev|].
    exists s2. rewrite (Ok_bind _ _ _ _ _ E). cbn [fst snd]. by rewrite Z.eqb_refl, (Ok_bind _ _ _ _ _ E2).
Qed.
End refine.

(** C4: The file system implements the swap file that paging is verified over.
    On an open file at rest, any sequence of page writes and reads that the
    interface of paging allows, run with [writeToSwapFile] and
    [readFromSwapFile] through [filewrite], [fileread], [writei], [readi], the
    log and the buffer cache, returns, transfers whole pages, and every read
    gives the bytes of the page last written at its offset. *)
Theorem swap_file_refines (devsw : Z -> device) (killed : bool) (meta : Z) (s : kfs) (f i : nat) (ip : inode) (pf : pagefile) (off0 : Z)
    (ops : list swop) (rs : list (list Z)) :
  open_on s f i off0 -> at_rest meta (k_fs s) i ip -> stores (k_fs s) ip pf ->
  page_run pf ops = Some rs -> (24 * puts ops <= nfree (f_sb (k_fs s)) (fview (k_fs s)))%nat ->
  exists s', file_run devsw killed f ops s = Ok rs s'.
Proof. apply file_run_pages. Qed.

Definition demo_kfs : kfs := KFS (demo_fs 0) [as_inode 0 true true (set_fref 1 empty_file)] ∅ [].
Definition demo_ops : list swop :=
  [SPut 0 (frame_fill 1); SPut 4096 (frame_fill 2); SGet 0; SPut 0 (frame_fill 3); SGet 4096; SGet 0].

Lemma swap_file_refines_witness : exists s', file_run no_device false 0 demo_ops demo_kfs =
  Ok (page_bytes <$> [frame_fill 1; frame_fill 2; frame_fill 3]) s'.
Proof.
  apply (swap_file_refines no_device false 35 demo_kfs 0 0 (demo_inode 1) [] 0).
  - split. by eexists.
  - split; [apply demo_file|done|done|done|done|cbn; lia|done|]. intros o Ho. cbn in Ho. lia.
  - split; [done|]. intros k pg Hk. done.
  - reflexivity.
  - cbn [demo_kfs k_fs]. rewrite demo_free. cbn. lia.
Defined.
