(* ===== verification/Proc.v ===== *)
(** * Processes ([proc.c])

    The process table and every transition a process makes in it.  What
    [proc.c] asks of the allocator, the address spaces, the open files and
    the swap files is the class [Services]; the table's theorems hold for
    every implementation of it.  A pointer to a process is its place in the
    table. *)

From S2P Require Import Prelude Mmu Vm.

Definition NPROC : nat := 64.

Inductive procstate := UNUSED | EMBRYO | SLEEPING | RUNNABLE | RUNNING | ZOMBIE.
#[global] Instance procstate_eq : EqDecision procstate.
Proof. solve_decision. Defined.

(** What a process sleeps on: a process ([wait]) or some other address. *)
Inductive channel := ChProc (i : nat) | ChAddr (a : Z).
#[global] Instance channel_eq : EqDecision channel.
Proof. solve_decision. Defined.

Record proc := Proc {
  pr_sz : Z;
  pr_pgdir : Z;
  pr_kstack : Z;
  pr_state : procstate;
  pr_pid : Z;
  pr_parent : option nat;
  pr_eax : Z;                        (* tf->eax *)
  pr_chan : option channel;
  pr_killed : bool;
  pr_ofile : list (option nat);
  pr_cwd : option nat;
  pr_name : list Z;
  pr_swapFile : option nat;
  pr_file_pages : list page;
  pr_memory_pages : list page;
  pr_page_faults : Z;
  pr_paged_out : Z;
  pr_timestamp : Z;
}.

Record ptable := PTable { pt_proc : list proc; pt_nextpid : Z; pt_initproc : option nat }.

Definition set_state (x : procstate) (p : proc) : proc :=
  Proc (pr_sz p) (pr_pgdir p) (pr_kstack p) x (pr_pid p) (pr_parent p) (pr_eax p) (pr_chan p) (pr_killed p) (pr_ofile p)
    (pr_cwd p) (pr_name p) (pr_swapFile p) (pr_file_pages p) (pr_memory_pages p) (pr_page_faults p) (pr_paged_out p) (pr_timestamp p).
Definition set_pid (x : Z) (p : proc) : proc :=
  Proc (pr_sz p) (pr_pgdir p) (pr_kstack p) (pr_state p) x (pr_parent p) (pr_eax p) (pr_chan p) (pr_killed p) (pr_ofile p)
    (pr_cwd p) (pr_name p) (pr_swapFile p) (pr_file_pages p) (pr_memory_pages p) (pr_page_faults p) (pr_paged_out p) (pr_timestamp p).
Definition set_parent (x : option nat) (p : proc) : proc :=
  Proc (pr_sz p) (pr_pgdir p) (pr_kstack p) (pr_state p) (pr_pid p) x (pr_eax p) (pr_chan p) (pr_killed p) (pr_ofile p)
    (pr_cwd p) (pr_name p) (pr_swapFile p) (pr_file_pages p) (pr_memory_pages p) (pr_page_faults p) (pr_paged_out p) (pr_timestamp p).
Definition set_chan (x : option channel) (p : proc) : proc :=
  Proc (pr_sz p) (pr_pgdir p) (pr_kstack p) (pr_state p) (pr_pid p) (pr_parent p) (pr_eax p) x (pr_killed p) (pr_ofile p)
    (pr_cwd p) (pr_name p) (pr_swapFile p) (pr_file_pages p) (pr_memory_pages p) (pr_page_faults p) (pr_paged_out p) (pr_timestamp p).
Definition set_killed (x : bool) (p : proc) : proc :=
  Proc (pr_sz p) (pr_pgdir p) (pr_kstack p) (pr_state p) (pr_pid p) (pr_parent p) (pr_eax p) (pr_chan p) x (pr_ofile p)
    (pr_cwd p) (pr_name p) (pr_swapFile p) (pr_file_pages p) (pr_memory_pages p) (pr_page_faults p) (pr_paged_out p) (pr_timestamp p).
Definition set_mem (sz pgdir kstack : Z) (p : proc) : proc :=
  Proc sz pgdir kstack (pr_state p) (pr_pid p) (pr_parent p) (pr_eax p) (pr_chan p) (pr_killed p) (pr_ofile p)
    (pr_cwd p) (pr_name p) (pr_swapFile p) (pr_file_pages p) (pr_memory_pages p) (pr_page_faults p) (pr_paged_out p) (pr_timestamp p).
Definition set_eax (x : Z) (p : proc) : proc :=
  Proc (pr_sz p) (pr_pgdir p) (pr_kstack p) (pr_state p) (pr_pid p) (pr_parent p) x (pr_chan p) (pr_killed p) (pr_ofile p)
    (pr_cwd p) (pr_name p) (pr_swapFile p) (pr_file_pages p) (pr_memory_pages p) (pr_page_faults p) (pr_paged_out p) (pr_timestamp p).
Definition set_fds (o : list (option nat)) (c : option nat) (p : proc) : proc :=
  Proc (pr_sz p) (pr_pgdir p) (pr_kstack p) (pr_state p) (pr_pid p) (pr_parent p) (pr_eax p) (pr_chan p) (pr_killed p) o
    c (pr_name p) (pr_swapFile p) (pr_file_pages p) (pr_memory_pages p) (pr_page_faults p) (pr_paged_out p) (pr_timestamp p).
Definition set_name (x : list Z) (p : proc) : proc :=
  Proc (pr_sz p) (pr_pgdir p) (pr_kstack p) (pr_state p) (pr_pid p) (pr_parent p) (pr_eax p) (pr_chan p) (pr_killed p) (pr_ofile p)
    (pr_cwd p) x (pr_swapFile p) (pr_file_pages p) (pr_memory_pages p) (pr_page_faults p) (pr_paged_out p) (pr_timestamp p).
Definition set_swapfile (x : option nat) (p : proc) : proc :=
  Proc (pr_sz p) (pr_pgdir p) (pr_kstack p) (pr_state p) (pr_pid p) (pr_parent p) (pr_eax p) (pr_chan p) (pr_killed p) (pr_ofile p)
    (pr_cwd p) (pr_name p) x (pr_file_pages p) (pr_memory_pages p) (pr_page_faults p) (pr_paged_out p) (pr_timestamp p).
Definition set_slots (f m : list page) (p : proc) : proc :=
  Proc (pr_sz p) (pr_pgdir p) (pr_kstack p) (pr_state p) (pr_pid p) (pr_parent p) (pr_eax p) (pr_chan p) (pr_killed p) (pr_ofile p)
    (pr_cwd p) (pr_name p) (pr_swapFile p) f m (pr_page_faults p) (pr_paged_out p) (pr_timestamp p).
Definition set_counts (faults out stamp : Z) (p : proc) : proc :=
  Proc (pr_sz p) (pr_pgdir p) (pr_kstack p) (pr_state p) (pr_pid p) (pr_parent p) (pr_eax p) (pr_chan p) (pr_killed p) (pr_ofile p)
    (pr_cwd p) (pr_name p) (pr_swapFile p) (pr_file_pages p) (pr_memory_pages p) faults out stamp.

Definition set_procs (l : list proc) (t : ptable) : ptable := PTable l (pt_nextpid t) (pt_initproc t).
Definition upd_proc (i : nat) (f : proc -> proc) (t : ptable) : ptable :=
  match pt_proc t !! i with Some p => set_procs (<[i := f p]> (pt_proc t)) t | None => t end.

(** ** Under [ptable.lock] *)

(** The first part of [allocproc]. *)
Definition alloc_slot (t : ptable) : option (nat * ptable) :=
  i ← find_index (fun p => bool_decide (pr_state p = UNUSED)) (pt_proc t);
  Some (i, PTable (pt_proc (upd_proc i (fun p => set_pid (pt_nextpid t) (set_state EMBRYO p)) t)) (s32 (pt_nextpid t + 1)) (pt_initproc t)).

Definition asleep_on (chan : channel) (p : proc) : bool :=
  bool_decide (pr_state p = SLEEPING) && bool_decide (pr_chan p = Some chan).
Definition wakeup1 (chan : channel) (t : ptable) : ptable :=
  set_procs ((fun p => if asleep_on chan p then set_state RUNNABLE p else p) <$> pt_proc t) t.

Definition child_of (i : nat) (p : proc) : bool := bool_decide (pr_parent p = Some i).

(** One round of the loop of [exit] that hands the children to init. *)
Definition abandon (cur init : nat) (t : ptable) (k : nat) : ptable :=
  match pt_proc t !! k with
  | Some p =>
      if child_of cur p then
        let t := upd_proc k (set_parent (Some init)) t in
        if bool_decide (pr_state p = ZOMBIE) then wakeup1 (ChProc init) t else t
      else t
  | None => t
  end.

(** The end of [exit], up to [sched]. *)
Definition exit_table (cur init : nat) (t : ptable) : ptable :=
  let t := match pt_proc t !! cur with
           | Some p => match pr_parent p with Some q => wakeup1 (ChProc q) t | None => t end
           | None => t
           end in
  let t := foldl (abandon cur init) t (seq 0 (length (pt_proc t))) in
  upd_proc cur (set_state ZOMBIE) t.

(** The scan of [wait]: an exited child, or whether there are children. *)
Definition zombie_child (cur : nat) (t : ptable) : option nat :=
  find_index (fun p => child_of cur p && bool_decide (pr_state p = ZOMBIE)) (pt_proc t).
Definition havekids (cur : nat) (t : ptable) : bool := existsb (child_of cur) (pt_proc t).

Definition clear_slots (l : list page) : list page := set_used false <$> l.
(** What [wait] leaves of the process it reaped. *)
Definition reap (pol : policy) (p : proc) : proc :=
  set_state UNUSED (set_killed false (set_name [] (set_parent None
    (let p := set_pid 0 (set_mem (pr_sz p) (pr_pgdir p) 0 p) in
     if check_policy pol then set_slots (clear_slots (pr_file_pages p)) (clear_slots (pr_memory_pages p)) p else p)))).

(** [sleep] up to [sched]. *)
Definition go_to_sleep (i : nat) (chan : channel) (t : ptable) : ptable :=
  upd_proc i (fun p => set_state SLEEPING (set_chan (Some chan) p)) t.

Definition kill (pid : Z) (t : ptable) : Z * ptable :=
  match find_index (fun p => pr_pid p =? pid) (pt_proc t) with
  | None => (-1, t)
  | Some i =>
      (0, upd_proc i (fun p =>
            let p := set_killed true p in
            if bool_decide (pr_state p = SLEEPING) then set_state RUNNABLE p else p) t)
  end.

(** [yield] up to [sched]. *)
Definition yield (i : nat) (t : ptable) : ptable := upd_proc i (set_state RUNNABLE) t.

(** The scheduler's choice, from place [from] on: the process it will run. *)
Definition schedule (from : nat) (t : ptable) : option (nat * ptable) :=
  k ← find_index (fun p => bool_decide (pr_state p = RUNNABLE)) (drop from (pt_proc t));
  Some ((from + k)%nat, upd_proc (from + k) (set_state RUNNING) t).

(** What the scheduler checks in [sched] of the process that gives up the CPU. *)
Definition sched_ok (holds_ptable : bool) (ncli : Z) (st : procstate) (interrupts : bool) : option string :=
  if negb holds_ptable then Some "sched ptable.lock" else
  if negb (ncli =? 1) then Some "sched locks" else
  if bool_decide (st = RUNNING) then Some "sched running" else
  if interrupts then Some "sched interruptible" else None.

(** A line of [procdump]. *)
Record dump_line := DumpLine {
  dl_pid : Z; dl_state : procstate; dl_alloc : Z; dl_now_out : Z; dl_faults : Z; dl_total_out : Z; dl_name : list Z;
}.
Definition procdump (t : ptable) : list dump_line :=
  (fun p => DumpLine (pr_pid p) (pr_state p) (PGROUNDUP (pr_sz p) / PGSIZE)
              (Z.of_nat (length (filter (fun pg => pg_is_used pg = true) (pr_file_pages p))))
              (pr_page_faults p) (pr_paged_out p) (pr_name p)) <$>
  filter (fun p => pr_state p <> UNUSED) (pt_proc t).

(** ** What processes need of the rest of the kernel *)

Class Services (E : Type) := {
  sv_kalloc : M E Z;
  sv_kfree : Z -> M E ();
  sv_setupkvm : M E Z;
  sv_inituvm : Z -> list Z -> M E ();
  sv_copyuvm : Z -> Z -> M E Z;
  sv_copyonwriteuvm : Z -> Z -> M E Z;
  sv_allocuvm : Z -> Z -> Z -> M E Z;
  sv_deallocuvm : Z -> Z -> Z -> M E Z;
  sv_freevm : Z -> M E ();
  sv_filedup : nat -> M E nat;
  sv_fileclose : nat -> M E ();
  sv_namei : list Z -> M E (option nat);
  sv_idup : nat -> M E nat;
  sv_iput : nat -> M E ();
  sv_begin_op : M E ();
  sv_end_op : M E ();
  sv_createSwapFile : Z -> M E nat;
  sv_removeSwapFile : Z -> option nat -> M E Z;
  sv_readSwap : option nat -> Z -> Z -> M E (Z * list Z);
  sv_writeSwap : option nat -> list Z -> Z -> Z -> M E Z;
}.

(** The table, the rest of the kernel, and the process [myproc()] is. *)
Record pst (E : Type) := PSt { q_t : ptable; q_env : E; q_cur : nat }.
Arguments PSt {E} q_t q_env q_cur.
Arguments q_t {E} p.
Arguments q_env {E} p.
Arguments q_cur {E} p.

Section ops.
Context {E : Type} `{Services E} (pol : policy).

Definition onenv {A} (m : M E A) : M (pst E) A := zoom q_env (fun e s => PSt (q_t s) e (q_cur s)) m.
Definition ontable (f : ptable -> ptable) : M (pst E) () := modify (fun s => PSt (f (q_t s)) (q_env s) (q_cur s)).
Definition proc_at (i : nat) : M (pst E) proc := fun s =>
  match pt_proc (q_t s) !! i with Some p => Ok p s | None => Fault (Z.of_nat i) end.
Definition set_proc (i : nat) (f : proc -> proc) : M (pst E) () := ontable (upd_proc i f).

Definition allocproc : M (pst E) (option nat) :=
  s ← get;
  match alloc_slot (q_t s) with
  | None => mret None
  | Some (i, t) =>
      ontable (fun _ => t);;
      k ← onenv sv_kalloc;
      if k =? 0 then set_proc i (fun p => set_mem (pr_sz p) (pr_pgdir p) 0 p);; set_proc i (set_state UNUSED);; mret None else
      set_proc i (fun p => set_mem (pr_sz p) (pr_pgdir p) k p);;
      set_proc i (fun p => set_swapfile None (set_counts 0 0 0 p));;
      p ← proc_at i;
      when (check_policy pol && (2 <? pr_pid p)) (f ← onenv (sv_createSwapFile (pr_pid p)); set_proc i (set_swapfile (Some f)));;
      when (check_policy pol) (set_proc i (fun p => set_slots (clear_slots (pr_file_pages p)) (clear_slots (pr_memory_pages p)) p));;
      mret (Some i)
  end.

Definition userinit (initcode name root : list Z) : M (pst E) () :=
  i ← allocproc;
  match i with
  | None => fault 0                        (* p->pgdir through a null pointer *)
  | Some i =>
      ontable (fun t => PTable (pt_proc t) (pt_nextpid t) (Some i));;
      d ← onenv sv_setupkvm;
      if d =? 0 then panic "userinit: out of memory?" else
      onenv (sv_inituvm d initcode);;
      set_proc i (fun p => set_name name (set_eax 0 (set_mem PGSIZE d (pr_kstack p) p)));;
      c ← onenv (sv_namei root);
      set_proc i (fun p => set_fds (pr_ofile p) c p);;
      set_proc i (set_state RUNNABLE)
  end.

Definition growproc (n : Z) : M (pst E) Z :=
  s ← get;
  p ← proc_at (q_cur s);
  let sz := pr_sz p in
  r ← (if 0 <? n then onenv (sv_allocuvm (pr_pgdir p) sz (u32 (sz + n)))
       else if n <? 0 then onenv (sv_deallocuvm (pr_pgdir p) sz (u32 (sz + n)))
       else mret sz);
  if negb (n =? 0) && (r =? 0) then mret (-1) else
  set_proc (q_cur s) (fun p => set_mem r (pr_pgdir p) (pr_kstack p) p);;
  mret 0.

Definition set_pgdir (d : Z) (pg : page) : page :=
  Page d (pg_va pg) (pg_offset pg) (pg_is_used pg) (pg_time_loaded pg) (pg_age pg).

(** One slot of the loop of [fork] that copies the swap file. *)
Definition copy_slot (cur np : nat) (i : nat) : M (pst E) () :=
  p ← proc_at cur;
  q ← proc_at np;
  match pr_file_pages p !! i, pr_memory_pages p !! i with
  | Some fp, Some mp =>
      when (pg_is_used fp) (
        r ← onenv (sv_readSwap (pr_swapFile p) (PGSIZE * Z.of_nat i) PGSIZE);
        if negb (fst r =? PGSIZE) then panic "fork: readFromSwapFile != PGSIZE" else
        w ← onenv (sv_writeSwap (pr_swapFile q) (snd r) (PGSIZE * Z.of_nat i) PGSIZE);
        if negb (w =? PGSIZE) then panic "fork: writeToSwapFile != PGSIZE" else mret ());;
      set_proc np (fun q => set_slots (<[i := set_pgdir (pr_pgdir q) fp]> (pr_file_pages q))
                              (<[i := set_pgdir (pr_pgdir q) mp]> (pr_memory_pages q)) q)
  | _, _ => fault (Z.of_nat i)
  end.

(** [for(i = 0; i < NOFILE; i++) if(curproc->ofile[i]) np->ofile[i] = filedup(...)]. *)
Fixpoint dup_files (np : nat) (i : nat) (fds : list (option nat)) : M (pst E) () :=
  match fds with
  | [] => mret ()
  | None :: rest => dup_files np (S i) rest
  | Some f :: rest =>
      g ← onenv (sv_filedup f);
      set_proc np (fun q => set_fds (<[i := Some g]> (pr_ofile q)) (pr_cwd q) q);;
      dup_files np (S i) rest
  end.

Definition fork : M (pst E) Z :=
  s ← get;
  let cur := q_cur s in
  np ← allocproc;
  match np with
  | None => mret (-1)
  | Some np =>
      p ← proc_at cur;
      d ← onenv (if negb (check_policy pol) then sv_copyuvm (pr_pgdir p) (pr_sz p) else sv_copyonwriteuvm (pr_pgdir p) (pr_sz p));
      q ← proc_at np;
      set_proc np (fun q => set_mem (pr_sz q) d (pr_kstack q) q);;
      if d =? 0 then
        onenv (sv_kfree (pr_kstack q));;
        set_proc np (fun q => set_mem (pr_sz q) (pr_pgdir q) 0 q);;
        set_proc np (set_state UNUSED);;
        mret (-1)
      else
      set_proc np (fun q => set_counts 0 0 (pr_timestamp p) (set_eax (pr_eax p) (set_parent (Some cur) (set_mem (pr_sz p) d (pr_kstack q) q))));;
      when (check_policy pol && (2 <? pr_pid p)) (forM (seq 0 (Z.to_nat MAX_PSYC_PAGES)) (copy_slot cur np));;
      set_proc np (set_eax 0);;
      dup_files np 0 (pr_ofile p);;
      match pr_cwd p with
      | None => fault 0
      | Some c =>
          c' ← onenv (sv_idup c);
          set_proc np (fun q => set_name (pr_name p) (set_fds (pr_ofile q) (Some c') q));;
          q ← proc_at np;
          set_proc np (set_state RUNNABLE);;
          mret (pr_pid q)
      end
  end.

Fixpoint close_files (cur : nat) (i : nat) (fds : list (option nat)) : M (pst E) () :=
  match fds with
  | [] => mret ()
  | None :: rest => close_files cur (S i) rest
  | Some f :: rest =>
      onenv (sv_fileclose f);;
      set_proc cur (fun q => set_fds (<[i := None]> (pr_ofile q)) (pr_cwd q) q);;
      close_files cur (S i) rest
  end.

(** [exit], up to the switch to the scheduler from which it does not return. *)
Definition exit : M (pst E) () :=
  s ← get;
  let cur := q_cur s in
  match pt_initproc (q_t s) with
  | None => fault 0
  | Some init =>
      if decide (cur = init) then panic "init exiting" else
      p ← proc_at cur;
      close_files cur 0 (pr_ofile p);;
      r ← (if check_policy pol && (2 <? pr_pid p) then onenv (sv_removeSwapFile (pr_pid p) (pr_swapFile p)) else mret 0);
      if r =? -1 then panic "exit: removeSwapFile failed!" else
      onenv sv_begin_op;;
      (match pr_cwd p with Some c => onenv (sv_iput c) | None => fault 0 end);;
      onenv sv_end_op;;
      set_proc cur (fun q => set_fds (pr_ofile q) None q);;
      ontable (exit_table cur init)
  end.

(** [wait]: reaps a child, fails, or sleeps on the caller's own address and
    runs again when woken. *)
Definition wait : M (pst E) Z :=
  s ← get;
  let cur := q_cur s in
  match zombie_child cur (q_t s) with
  | Some k =>
      p ← proc_at k;
      onenv (sv_kfree (pr_kstack p));;
      onenv (sv_freevm (pr_pgdir p));;
      set_proc k (reap pol);;
      mret (pr_pid p)
  | None =>
      c ← proc_at cur;
      if negb (havekids cur (q_t s)) || pr_killed c then mret (-1) else
      ontable (go_to_sleep cur (ChProc cur));; blocked
  end.
End ops.
