(* ===== verification/ProcInv.v ===== *)
(** * The process table's invariant

    Each transition of [proc.c] under [ptable.lock] is a step; whatever the
    order of steps, process identifiers stay distinct, every process has a
    living parent, and no process sleeps in [wait] beside an exited child. *)

From S2P Require Import Prelude Mmu Vm Proc.

Implicit Types (t : ptable) (p : proc).

Definition live p : Prop := pr_state p = SLEEPING \/ pr_state p = RUNNABLE \/ pr_state p = RUNNING.
Definition in_wait (i : nat) p : Prop := pr_state p = SLEEPING /\ pr_chan p = Some (ChProc i).

Record tinv (t : ptable) : Prop := {
  ti_len : length (pt_proc t) = NPROC;
  ti_init : exists i p, pt_initproc t = Some i /\ pt_proc t !! i = Some p /\ live p /\ pr_parent p = None;
  ti_parent : forall k p, pt_proc t !! k = Some p ->
    match pr_state p, pr_parent p with
    | UNUSED, x => x = None
    | _, Some j => exists q, pt_proc t !! j = Some q /\ live q
    | EMBRYO, None => True
    | _, None => pt_initproc t = Some k
    end;
  ti_self : forall k p, pt_proc t !! k = Some p -> pr_parent p <> Some k;
  ti_pid : forall i j p q, pt_proc t !! i = Some p -> pt_proc t !! j = Some q -> pr_pid p = pr_pid q -> pr_pid p <> 0 -> i = j;
  ti_pids : forall k p, pt_proc t !! k = Some p -> 0 <= pr_pid p < pt_nextpid t /\ (pr_state p <> UNUSED -> pr_pid p <> 0);
  ti_chan : forall k p j, pt_proc t !! k = Some p -> pr_state p = SLEEPING -> pr_chan p = Some (ChProc j) -> j = k;
  ti_wait : forall i p k q, pt_proc t !! i = Some p -> in_wait i p ->
    pt_proc t !! k = Some q -> pr_parent q = Some i -> pr_state q <> ZOMBIE;
}.

(** The steps.  Process identifiers are not allocated beyond the range of
    [int]; the policy decides only what [wait] clears. *)
Inductive tstep (pol : policy) : ptable -> ptable -> Prop :=
  | T_alloc t i t' : pt_nextpid t < 2147483647 -> alloc_slot t = Some (i, t') -> tstep pol t t'
  | T_fail t k p : pt_proc t !! k = Some p -> pr_state p = EMBRYO -> pr_parent p = None ->
      tstep pol t (upd_proc k (set_state UNUSED) t)
  | T_link t cur np c p : pt_proc t !! cur = Some c -> pr_state c = RUNNING -> pt_proc t !! np = Some p ->
      pr_state p = EMBRYO -> pr_parent p = None -> tstep pol t (upd_proc np (set_parent (Some cur)) t)
  | T_start t np p j : pt_proc t !! np = Some p -> pr_state p = EMBRYO -> pr_parent p = Some j ->
      tstep pol t (upd_proc np (set_state RUNNABLE) t)
  | T_run t from i t' : schedule from t = Some (i, t') -> tstep pol t t'
  | T_yield t i p : pt_proc t !! i = Some p -> pr_state p = RUNNING -> tstep pol t (yield i t)
  | T_sleep t i p a : pt_proc t !! i = Some p -> pr_state p = RUNNING -> tstep pol t (go_to_sleep i (ChAddr a) t)
  | T_awake t i p : pt_proc t !! i = Some p -> pr_state p = RUNNING -> tstep pol t (upd_proc i (set_chan None) t)
  | T_wakeup t a : tstep pol t (wakeup1 (ChAddr a) t)
  | T_kill t pid : tstep pol t (snd (kill pid t))
  | T_exit t cur p init : pt_proc t !! cur = Some p -> pr_state p = RUNNING -> pt_initproc t = Some init -> cur <> init ->
      tstep pol t (exit_table cur init t)
  | T_wait t cur p : pt_proc t !! cur = Some p -> pr_state p = RUNNING -> zombie_child cur t = None ->
      tstep pol t (go_to_sleep cur (ChProc cur) t)
  | T_reap t cur p k : pt_proc t !! cur = Some p -> pr_state p = RUNNING -> zombie_child cur t = Some k ->
      tstep pol t (upd_proc k (reap pol) t).

Inductive tsteps (pol : policy) : ptable -> ptable -> Prop :=
  | ts_refl t : tsteps pol t t
  | ts_step t1 t2 t3 : tsteps pol t1 t2 -> tstep pol t2 t3 -> tsteps pol t1 t3.

(** ** Looking at a table after an update *)

Lemma upd_proc_at t i f k p : pt_proc t !! k = Some p ->
  pt_proc (upd_proc i f t) !! k = Some (if decide (k = i) then f p else p).
Proof.
  intros Hk. unfold upd_proc. destruct (pt_proc t !! i) as [pi|] eqn:Hi; cbn [set_procs pt_proc].
  - case_decide as E; [subst; rewrite Hk in Hi; injection Hi as ->|].
    + apply list_lookup_insert_eq. by eapply lookup_lt_Some.
    + by rewrite list_lookup_insert_ne.
  - case_decide; [congruence|done].
Qed.

Lemma upd_proc_inv t i f k p' : pt_proc (upd_proc i f t) !! k = Some p' ->
  exists p, pt_proc t !! k = Some p /\ p' = if decide (k = i) then f p else p.
Proof.
  destruct (pt_proc t !! k) as [p|] eqn:Hk.
  - rewrite (upd_proc_at _ _ _ _ _ Hk). intros [= <-]. eauto.
  - unfold upd_proc. destruct (pt_proc t !! i) as [pi|] eqn:Hi; cbn [set_procs pt_proc]; [|congruence].
    rewrite list_lookup_insert_ne; [congruence|]. congruence.
Qed.

Lemma upd_proc_len t i f : length (pt_proc (upd_proc i f t)) = length (pt_proc t).
Proof. unfold upd_proc. destruct (pt_proc t !! i); [|done]. apply length_insert. Qed.
Lemma upd_proc_next t i f : pt_nextpid (upd_proc i f t) = pt_nextpid t /\ pt_initproc (upd_proc i f t) = pt_initproc t.
Proof. unfold upd_proc. by destruct (pt_proc t !! i). Qed.

Definition woken (chan : channel) p : proc := if asleep_on chan p then set_state RUNNABLE p else p.

Lemma wakeup1_at chan t k : pt_proc (wakeup1 chan t) !! k = woken chan <$> pt_proc t !! k.
Proof. unfold wakeup1. cbn [set_procs pt_proc]. by rewrite list_lookup_fmap. Qed.

Lemma woken_facts chan p : pr_parent (woken chan p) = pr_parent p /\ pr_pid (woken chan p) = pr_pid p /\
  pr_chan (woken chan p) = pr_chan p /\
  (pr_state (woken chan p) = pr_state p /\ ~ (pr_state p = SLEEPING /\ pr_chan p = Some chan) \/
   pr_state p = SLEEPING /\ pr_chan p = Some chan /\ pr_state (woken chan p) = RUNNABLE).
Proof.
  unfold woken, asleep_on. repeat case_bool_decide; cbn [andb]; (split; [done|]; split; [done|]; split; [done|]); [by right|left; split; [done|]; tauto..].
Qed.

(** ** Gentle updates

    Most steps change one process without touching identifiers or parents,
    and only between living states. *)

Definition gentle p p' : Prop :=
  pr_pid p' = pr_pid p /\ pr_parent p' = pr_parent p /\ (pr_state p' = pr_state p \/ live p /\ live p') /\
  (forall j, pr_state p' = SLEEPING -> pr_chan p' = Some (ChProc j) -> pr_state p = SLEEPING /\ pr_chan p = Some (ChProc j)).

Lemma gentle_refl p : gentle p p.
Proof. split; [done|]. split; [done|]. split; [by left|done]. Qed.

Lemma gentle_live p p' : gentle p p' -> live p <-> live p'.
Proof. intros (_ & _ & [E|[? ?]] & _); [unfold live; by rewrite E|tauto]. Qed.

Lemma gentle_dead p p' x : gentle p p' -> x = UNUSED \/ x = EMBRYO \/ x = ZOMBIE -> pr_state p' = x <-> pr_state p = x.
Proof.
  intros (_ & _ & [E|[H1 H2]] & _) Hx; [by rewrite E|]. unfold live in *.
  destruct Hx as [->|[->| ->]]; intuition congruence.
Qed.

Lemma tinv_gentle t t' : tinv t -> length (pt_proc t') = length (pt_proc t) -> pt_nextpid t' = pt_nextpid t ->
  pt_initproc t' = pt_initproc t ->
  (forall k p p', pt_proc t !! k = Some p -> pt_proc t' !! k = Some p' -> gentle p p') -> tinv t'.
Proof.
  intros Hi Hl Hn Hini Hg.
  assert (forall k p', pt_proc t' !! k = Some p' -> exists p, pt_proc t !! k = Some p /\ gentle p p') as Hback.
  { intros k p' Hk. destruct (lookup_lt_is_Some_2 (pt_proc t) k) as [p Hp]; [rewrite <- Hl; by eapply lookup_lt_Some|]. eauto. }
  assert (forall k p, pt_proc t !! k = Some p -> exists p', pt_proc t' !! k = Some p' /\ gentle p p') as Hforw.
  { intros k p Hk. destruct (lookup_lt_is_Some_2 (pt_proc t') k) as [p' Hp]; [rewrite Hl; by eapply lookup_lt_Some|]. eauto. }
  split.
  - rewrite Hl. apply Hi.
  - destruct (ti_init _ Hi) as (i & p & E & Hp & Hlv & Hpar). destruct (Hforw i p Hp) as (p' & Hp' & G).
    exists i, p'. rewrite Hini. split; [done|]. split; [done|]. split; [by apply (gentle_live _ _ G)|]. by rewrite (proj1 (proj2 G)).
  - intros k p' Hk. destruct (Hback k p' Hk) as (p & Hp & G). pose proof (ti_parent _ Hi k p Hp) as Hpar.
    rewrite (proj1 (proj2 G)), Hini.
    assert (forall j, (exists q, pt_proc t !! j = Some q /\ live q) -> exists q, pt_proc t' !! j = Some q /\ live q) as Hlive.
    { intros j (q & Hq & Lq). destruct (Hforw j q Hq) as (q' & Hq' & G'). exists q'. split; [done|]. by apply (gentle_live _ _ G'). }
    destruct G as (_ & _ & [E|[L1 L2]] & _).
    + rewrite E. destruct (pr_state p), (pr_parent p) as [j|]; try done; by apply Hlive.
    + destruct (pr_parent p) as [j|].
      * assert (exists q, pt_proc t' !! j = Some q /\ live q) as Hq.
        { apply Hlive. destruct L1 as [L|[L|L]]; rewrite L in Hpar; done. }
        destruct L2 as [L|[L|L]]; by rewrite L.
      * assert (pt_initproc t = Some k) as Hq by (destruct L1 as [L|[L|L]]; rewrite L in Hpar; done).
        destruct L2 as [L|[L|L]]; by rewrite L.
  - intros k p' Hk. destruct (Hback k p' Hk) as (p & Hp & G). rewrite (proj1 (proj2 G)). by apply (ti_self _ Hi).
  - intros i j p q Hp Hq E Hne. destruct (Hback i p Hp) as (p0 & Hp0 & G), (Hback j q Hq) as (q0 & Hq0 & G').
    apply (ti_pid _ Hi i j p0 q0); try done; rewrite <- ?(proj1 G), <- ?(proj1 G'); done.
  - intros k p' Hk. destruct (Hback k p' Hk) as (p & Hp & G). rewrite Hn, (proj1 G).
    destruct (ti_pids _ Hi k p Hp) as [? Hz]. split; [done|]. intros Hs. apply Hz. contradict Hs. by apply (gentle_dead p p'); auto.
  - intros k p' j Hk Hs Hc. destruct (Hback k p' Hk) as (p & Hp & G). destruct (proj2 (proj2 (proj2 G)) j Hs Hc) as [Hs0 Ec].
    by apply (ti_chan _ Hi k p j).
  - intros i p' k q' Hp [Hs Hc] Hq Hpar. destruct (Hback i p' Hp) as (p & Hp0 & G), (Hback k q' Hq) as (q & Hq0 & G').
    destruct (proj2 (proj2 (proj2 G)) i Hs Hc) as [Hs0 Ec].
    assert (pr_state q <> ZOMBIE) as Hz.
    { apply (ti_wait _ Hi i p k q); try done. by rewrite <- (proj1 (proj2 G')). }
    contradict Hz. by apply (gentle_dead q q'); auto.
Qed.

Lemma tinv_wakeup t chan : tinv t -> tinv (wakeup1 chan t).
Proof.
  intros Hi. apply (tinv_gentle t); [done|apply length_fmap|done|done|]. intros k p p' Hp. rewrite wakeup1_at, Hp.
  intros [= <-]. destruct (woken_facts chan p) as (E1 & E2 & E3 & Hs). split; [done|]. split; [done|]. split.
  - destruct Hs as [[? _]|(H1 & _ & H2)]; [by left|right]. unfold live. rewrite H1, H2. auto.
  - intros j Hs' Hc. destruct Hs as [[E _]|(_ & _ & E)]; [|congruence]. split; congruence.
Qed.

(** ** One process changes *)

(** The clause of the invariant on parents. *)
Definition parent_ok t (k : nat) p : Prop :=
  match pr_state p, pr_parent p with
  | UNUSED, x => x = None
  | _, Some j => exists q, pt_proc t !! j = Some q /\ live q
  | EMBRYO, None => True
  | _, None => pt_initproc t = Some k
  end.

Definition childless t (k : nat) : Prop := forall j q, pt_proc t !! j = Some q -> pr_parent q <> Some k.

Lemma tinv_upd t k f p : tinv t -> pt_proc t !! k = Some p ->
  (live p -> live (f p) \/ childless t k) ->
  (pt_initproc t = Some k -> live (f p) /\ pr_parent (f p) = None) ->
  parent_ok t k (f p) -> pr_parent (f p) <> Some k ->
  (pr_pid (f p) = pr_pid p /\ (pr_state (f p) <> UNUSED -> pr_pid p <> 0) \/ pr_pid (f p) = 0 /\ pr_state (f p) = UNUSED) ->
  (forall j, pr_state (f p) = SLEEPING -> pr_chan (f p) = Some (ChProc j) -> j = k) ->
  (in_wait k (f p) -> forall j q, pt_proc t !! j = Some q -> j <> k -> pr_parent q = Some k -> pr_state q <> ZOMBIE) ->
  (pr_state (f p) = ZOMBIE -> forall i q, pr_parent (f p) = Some i -> pt_proc t !! i = Some q -> ~ in_wait i q) ->
  tinv (upd_proc k f t).
Proof.
  intros Hi Hk Hlive Hinit Hpar Hself Hpid Hchan Hw1 Hw2. destruct (upd_proc_next t k f) as [En Ei].
  assert (forall j, j <> k \/ ~ childless t k -> (exists q, pt_proc t !! j = Some q /\ live q) ->
    exists q, pt_proc (upd_proc k f t) !! j = Some q /\ live q) as Hup.
  { intros j Hj (q & Hq & Lq). rewrite (upd_proc_at _ _ _ _ _ Hq). eexists. split; [done|]. case_decide as E; [|done]. subst j.
    rewrite Hk in Hq. injection Hq as <-. destruct (Hlive Lq) as [|Hc]; [done|]. by destruct Hj. }
  split.
  - rewrite upd_proc_len. apply Hi.
  - destruct (ti_init _ Hi) as (i & pi & E & Hp & Hlv & Hpn). rewrite Ei. exists i. eexists. split; [done|].
    split; [by apply upd_proc_at|]. case_decide as Eq; [|done]. subst i. rewrite Hk in Hp. injection Hp as <-. by apply Hinit.
  - intros j p' (q & Hq & ->)%upd_proc_inv. rewrite Ei. case_decide as Eq.
    + subst j. rewrite Hk in Hq. injection Hq as <-. revert Hpar Hself. unfold parent_ok.
      destruct (pr_state (f p)), (pr_parent (f p)) as [j|]; try done; intros Hpar Hself; apply Hup; try done; left; congruence.
    + pose proof (ti_parent _ Hi j q Hq) as Hq'. destruct (pr_state q), (pr_parent q) as [i|] eqn:Epar; try done; apply Hup; try done;
        destruct (decide (i = k)) as [->|]; try (by left); right; intros Hc; by apply (Hc j q Hq).
  - intros j p' (q & Hq & ->)%upd_proc_inv. case_decide as Eq; [|by apply (ti_self _ Hi)].
    subst j. by rewrite Hk in Hq; injection Hq as <-.
  - intros i j p' q' (p1 & Hp1 & ->)%upd_proc_inv (q1 & Hq1 & ->)%upd_proc_inv.
    case_decide as E1; case_decide as E2; subst; try done; intros E Hne.
    + rewrite Hk in Hp1. injection Hp1 as <-. destruct Hpid as [[Ep _]|[Ep _]]; [|congruence].
      apply (ti_pid _ Hi k j p q1); congruence.
    + rewrite Hk in Hq1. injection Hq1 as <-. destruct Hpid as [[Ep _]|[Ep _]]; [|congruence].
      apply (ti_pid _ Hi i k p1 p); congruence.
    + by apply (ti_pid _ Hi i j p1 q1).
  - intros j p' (q & Hq & ->)%upd_proc_inv. rewrite En. destruct (ti_pids _ Hi j q Hq) as [Hr Hz]. case_decide as Eq; [|done].
    subst j. rewrite Hk in Hq. injection Hq as <-. destruct Hpid as [[-> Hs]|[-> Hs]]; [done|]. split; [lia|congruence].
  - intros j p' i (q & Hq & ->)%upd_proc_inv. case_decide as Eq; [|by apply (ti_chan _ Hi)]. subst j.
    rewrite Hk in Hq. injection Hq as <-. apply Hchan.
  - intros i p' j q' (p1 & Hp1 & ->)%upd_proc_inv Hw (q1 & Hq1 & ->)%upd_proc_inv Hpr.
    destruct (decide (i = k)) as [->|Hik], (decide (j = k)) as [->|Hjk].
    + rewrite Hk in Hq1. by injection Hq1 as <-.
    + rewrite Hk in Hp1. injection Hp1 as <-. by apply (Hw1 Hw j q1).
    + rewrite Hk in Hq1. injection Hq1 as <-. intros Hz. by apply (Hw2 Hz i p1).
    + by apply (ti_wait _ Hi i p1 j q1).
Qed.

(** A process stays as it is but for its state, between living states. *)
Lemma tinv_gentle1 t k f p : tinv t -> pt_proc t !! k = Some p -> gentle p (f p) -> tinv (upd_proc k f t).
Proof.
  intros Hi Hk Hg. destruct (upd_proc_next t k f) as [En Ei].
  apply (tinv_gentle t); [done|apply upd_proc_len|done|done|]. intros j q q' Hq. rewrite (upd_proc_at _ _ _ _ _ Hq).
  intros [= <-]. case_decide as E; [|apply gentle_refl]. subst j. by rewrite Hk in Hq; injection Hq as <-.
Qed.

Lemma init_live t k p : tinv t -> pt_proc t !! k = Some p -> pt_initproc t = Some k -> live p /\ pr_parent p = None.
Proof. intros Hi Hk E. destruct (ti_init _ Hi) as (i & q & E' & Hq & L & Hpn). assert (i = k) as -> by congruence. by rewrite Hk in Hq; injection Hq as <-. Qed.

Lemma alloc_inv t i t' : tinv t -> pt_nextpid t < 2147483647 -> alloc_slot t = Some (i, t') -> tinv t'.
Proof.
  intros Hi Hn (k & Hk & E)%bind_Some. injection E as -> <-. apply find_index_Some in Hk as [(p & Hp & Hs%bool_decide_eq_true) _].
  set (f := fun p => set_pid (pt_nextpid t) (set_state EMBRYO p)).
  destruct (ti_init _ Hi) as (i0 & p0 & E0 & Hp0 & _). pose proof (ti_pids _ Hi i0 p0 Hp0) as [Hpos _].
  assert (s32 (pt_nextpid t + 1) = pt_nextpid t + 1) as -> by (apply s32_small; unfold is_s32; lia).
  pose proof (ti_parent _ Hi i p Hp) as Hpn. rewrite Hs in Hpn.
  assert (~ live p) as Hnl by (unfold live; rewrite Hs; intuition congruence).
  assert (pt_initproc t <> Some i) as Hni by (intros E; by destruct (init_live t i p Hi Hp E)).
  assert (forall j q, pt_proc (upd_proc i f t) !! j = Some q -> exists q0, pt_proc t !! j = Some q0 /\ q = if decide (j = i) then f q0 else q0) as Hback
    by (intros j q; apply upd_proc_inv).
  assert (forall j, (exists q, pt_proc t !! j = Some q /\ live q) -> exists q, pt_proc (upd_proc i f t) !! j = Some q /\ live q) as Hup.
  { intros j (q & Hq & L). exists q. rewrite (upd_proc_at _ _ _ _ _ Hq). rewrite decide_False; [done|]. intros ->. congruence. }
  split; cbn [pt_proc pt_nextpid pt_initproc].
  - rewrite upd_proc_len. apply Hi.
  - destruct (ti_init _ Hi) as (j & q & E & Hq & L & Hqn). exists j, q. split; [done|]. split; [|done].
    rewrite (upd_proc_at _ _ _ _ _ Hq), decide_False; [done|]. congruence.
  - intros j q' (q & Hq & ->)%Hback. case_decide as E.
    + subst j. rewrite Hp in Hq. injection Hq as <-. cbn. by rewrite Hpn.
    + pose proof (ti_parent _ Hi j q Hq) as Hq'. destruct (pr_state q), (pr_parent q); try done; by apply Hup.
  - intros j q' (q & Hq & ->)%Hback. case_decide; cbn; by apply (ti_self _ Hi).
  - intros j1 j2 q1 q2 (p1 & Hp1 & ->)%Hback (p2 & Hp2 & ->)%Hback.
    pose proof (ti_pids _ Hi j1 p1 Hp1) as [R1 _]. pose proof (ti_pids _ Hi j2 p2 Hp2) as [R2 _].
    case_decide; case_decide; subst; cbn; intros E Hne; try done; try lia. by apply (ti_pid _ Hi j1 j2 p1 p2).
  - intros j q' (q & Hq & ->)%Hback. pose proof (ti_pids _ Hi j q Hq) as [R Hz]. case_decide; cbn; [|split; [lia|done]].
    split; [lia|]. intros _. lia.
  - intros j q' c (q & Hq & ->)%Hback. case_decide; [done|]. by apply (ti_chan _ Hi).
  - intros j1 q1 j2 q2 (p1 & Hp1 & ->)%Hback Hw (p2 & Hp2 & ->)%Hback. case_decide; [by destruct Hw|].
    case_decide; [done|]. by apply (ti_wait _ Hi j1 p1 j2 p2).
Qed.

Ltac tinv1 Hi Hk := eapply (tinv_upd _ _ _ _ Hi Hk); cbn.

Lemma fail_inv t k p : tinv t -> pt_proc t !! k = Some p -> pr_state p = EMBRYO -> pr_parent p = None ->
  tinv (upd_proc k (set_state UNUSED) t).
Proof.
  intros Hi Hk Hs Hp. assert (~ live p) as Hnl by (unfold live; rewrite Hs; intuition congruence).
  tinv1 Hi Hk; try done; try congruence.
  - intros E. by destruct (init_live t k p Hi Hk E).
  - by left.
  - by intros [].
Qed.

Lemma link_inv t cur np c p : tinv t -> pt_proc t !! cur = Some c -> pr_state c = RUNNING -> pt_proc t !! np = Some p ->
  pr_state p = EMBRYO -> tinv (upd_proc np (set_parent (Some cur)) t).
Proof.
  intros Hi Hc Hcs Hk Hs. assert (~ live p) as Hnl by (unfold live; rewrite Hs; intuition congruence).
  tinv1 Hi Hk; try done; try congruence.
  - intros E. by destruct (init_live t np p Hi Hk E).
  - unfold parent_ok. cbn. rewrite Hs. exists c. unfold live. auto.
  - left. split; [done|]. intros Hu. by apply (ti_pids _ Hi np p Hk).
  - unfold in_wait. cbn. intros [? _]. congruence.
Qed.

Lemma start_inv t np p j : tinv t -> pt_proc t !! np = Some p -> pr_state p = EMBRYO -> pr_parent p = Some j ->
  tinv (upd_proc np (set_state RUNNABLE) t).
Proof.
  intros Hi Hk Hs Hp. assert (~ live p) as Hnl by (unfold live; rewrite Hs; intuition congruence).
  pose proof (ti_parent _ Hi np p Hk) as Hpp. rewrite Hs, Hp in Hpp. tinv1 Hi Hk; try done.
  - intros E. by destruct (init_live t np p Hi Hk E).
  - unfold parent_ok. cbn. by rewrite Hp.
  - by apply (ti_self _ Hi np p).
  - left. split; [done|]. intros _. apply (ti_pids _ Hi np p Hk). congruence.
  - by intros [].
Qed.

Lemma wait_sleep_inv t cur p : tinv t -> pt_proc t !! cur = Some p -> pr_state p = RUNNING -> zombie_child cur t = None ->
  tinv (go_to_sleep cur (ChProc cur) t).
Proof.
  intros Hi Hk Hs Hz. unfold go_to_sleep. pose proof (ti_parent _ Hi cur p Hk) as Hpp. rewrite Hs in Hpp.
  unfold zombie_child in Hz. rewrite find_index_None in Hz. tinv1 Hi Hk; try done.
  - intros _. left. unfold live. cbn. auto.
  - intros E. split; [unfold live; cbn; auto|]. by apply (init_live t cur p).
  - by apply (ti_self _ Hi cur p).
  - left. split; [done|]. intros _. apply (ti_pids _ Hi cur p Hk). congruence.
  - congruence.
  - intros _ j q Hq _ Hpar Hzq. specialize (Hz j q Hq). unfold child_of in Hz.
    by rewrite !bool_decide_eq_true_2 in Hz.
Qed.

Lemma reap_inv pol t cur p k : tinv t -> pt_proc t !! cur = Some p -> zombie_child cur t = Some k -> tinv (upd_proc k (reap pol) t).
Proof.
  intros Hi Hc (( q & Hq & Hz) & _)%find_index_Some. bool_prop. apply bool_decide_eq_true in H, H0. rename H0 into Hs.
  assert (~ live q) as Hnl by (unfold live; rewrite Hs; intuition congruence).
  assert (pr_state (reap pol q) = UNUSED /\ pr_parent (reap pol q) = None /\ pr_pid (reap pol q) = 0) as (E1 & E2 & E3).
  { unfold reap. by destruct (check_policy pol). }
  eapply (tinv_upd _ _ _ _ Hi Hq); try done.
  - intros E. by destruct (init_live t k q Hi Hq E).
  - by right.
  - unfold in_wait. rewrite E1. by intros [].
Qed.

(** ** Exit *)

Lemma wakeup_upd chan k x t : wakeup1 chan (upd_proc k (set_parent x) t) = upd_proc k (set_parent x) (wakeup1 chan t).
Proof.
  unfold upd_proc. rewrite wakeup1_at. destruct (pt_proc t !! k) as [p|] eqn:Hk; cbn [fmap option_fmap option_map]; [|done].
  unfold wakeup1, set_procs. cbn [pt_proc pt_nextpid pt_initproc]. f_equal. rewrite list_fmap_insert. f_equal.
  unfold woken, asleep_on. cbn. by destruct (_ && _).
Qed.

Record handed (cur init : nat) (t t' : ptable) (n : nat) : Prop := {
  hd_inv : tinv t';
  hd_len : length (pt_proc t') = length (pt_proc t);
  hd_init : pt_initproc t' = pt_initproc t;
  hd_done : forall k p, (k < n)%nat -> pt_proc t' !! k = Some p -> pr_parent p <> Some cur;
  hd_cur : forall p, pt_proc t !! cur = Some p -> pr_state p = RUNNING ->
    exists p', pt_proc t' !! cur = Some p' /\ pr_state p' = RUNNING /\ pr_parent p' = pr_parent p;
  hd_wait : forall i p', pt_proc t' !! i = Some p' -> in_wait i p' -> exists p, pt_proc t !! i = Some p /\ in_wait i p;
}.

Lemma woken_wait i chan p : in_wait i (woken chan p) -> in_wait i p /\ chan <> ChProc i.
Proof.
  destruct (woken_facts chan p) as (_ & _ & Ec & Hs). intros [Hw Hc]. destruct Hs as [[E Hn]|(_ & _ & E)]; [|congruence].
  rewrite E in Hw. rewrite Ec in Hc. split; [done|]. intros ->. by apply Hn.
Qed.

Lemma abandon_handed cur init t t' n : pt_initproc t = Some init -> cur <> init -> handed cur init t t' n ->
  handed cur init t (abandon cur init t' n) (S n).
Proof.
  intros Hini Hne [Hi Hl He Hd Hcur Hw]. unfold abandon. destruct (pt_proc t' !! n) as [p|] eqn:Hn.
  2: { split; try done. intros k p Hk Hp. destruct (decide (k = n)) as [->|]; [congruence|]. apply (Hd k); [lia|done]. }
  unfold child_of. case_bool_decide as Hc.
  2: { split; try done. intros k q Hk Hq. destruct (decide (k = n)) as [->|]; [congruence|]. apply (Hd k); [lia|done]. }
  assert (n <> init) as Hni.
  { intros ->. destruct (init_live t' init p Hi Hn) as [_ E]; congruence. }
  assert (n <> cur) as Hnc by (intros ->; by apply (ti_self _ Hi cur p)).
  set (t1 := if bool_decide (pr_state p = ZOMBIE) then wakeup1 (ChProc init) t' else t').
  assert (handed cur init t t1 n /\ (pr_state p = ZOMBIE -> forall q, pt_proc t1 !! init = Some q -> ~ in_wait init q)) as [H1 Hz].
  { unfold t1. case_bool_decide as Hz; [|split; [by split|done]]. split.
    - split.
      + by apply tinv_wakeup.
      + rewrite <- Hl. apply length_fmap.
      + done.
      + intros k q Hk. rewrite wakeup1_at. intros (q0 & Hq0 & ->)%fmap_Some. rewrite (proj1 (woken_facts _ _)). by apply (Hd k).
      + intros q Hq Hs. destruct (Hcur q Hq Hs) as (q' & Hq' & Hs' & Hp'). exists (woken (ChProc init) q'). rewrite wakeup1_at, Hq'.
        destruct (woken_facts (ChProc init) q') as (-> & _ & _ & [[-> _]|(? & _)]); [done|congruence].
      + intros i q'. rewrite wakeup1_at. intros (q & Hq & ->)%fmap_Some [Hwq _]%woken_wait. by apply (Hw i q).
    - intros _ q. rewrite wakeup1_at. intros (q0 & Hq & ->)%fmap_Some [_ Hwq]%woken_wait. done. }
  cbn zeta. cut (handed cur init t (upd_proc n (set_parent (Some init)) t1) (S n)).
  { unfold t1. case_bool_decide; [by rewrite wakeup_upd|done]. }
  clear Hi Hl He Hd Hcur Hw. destruct H1 as [Hi Hl He Hd Hcur Hw].
  assert (exists p1, pt_proc t1 !! n = Some p1 /\ pr_parent p1 = Some cur /\ (pr_state p1 = ZOMBIE -> pr_state p = ZOMBIE)) as (p1 & Hp1 & Hpar & Hst).
  { unfold t1. case_bool_decide; [|by exists p]. rewrite wakeup1_at, Hn. eexists. split; [done|]. by rewrite (proj1 (woken_facts _ _)). }
  destruct (ti_init _ Hi) as (i & q & Ei & Hq & Lq & Eq). assert (i = init) as -> by congruence.
  split.
  - tinv1 Hi Hp1; try done.
    + intros L. by left.
    + intros E. congruence.
    + pose proof (ti_parent _ Hi n p1 Hp1) as Hpo. unfold parent_ok. cbn. rewrite Hpar in Hpo. destruct (pr_state p1); try done; by exists q.
    + congruence.
    + left. split; [done|]. apply (ti_pids _ Hi n p1 Hp1).
    + intros j. by apply (ti_chan _ Hi n p1).
    + intros [Hs Hc'] j q' Hq' _ Hpq. by apply (ti_wait _ Hi n p1 j q').
    + intros Hzz i q' [= <-] Hq'. by apply Hz; [apply Hst|].
  - by rewrite upd_proc_len.
  - by rewrite (proj2 (upd_proc_next _ _ _)).
  - intros k q' Hk (q0 & Hq0 & ->)%upd_proc_inv. case_decide as E; [cbn; congruence|]. apply (Hd k); [lia|done].
  - intros q0 Hq0 Hs. destruct (Hcur q0 Hq0 Hs) as (q' & Hq' & ?). exists q'. rewrite (upd_proc_at _ _ _ _ _ Hq'), decide_False by done. done.
  - intros i q' (q0 & Hq0 & ->)%upd_proc_inv. case_decide; [|by apply Hw]. subst i. intros Hwi. by apply (Hw n q0).
Qed.

Lemma exit_inv t cur p init : tinv t -> pt_proc t !! cur = Some p -> pr_state p = RUNNING -> pt_initproc t = Some init -> cur <> init ->
  tinv (exit_table cur init t).
Proof.
  intros Hi Hk Hs Hini Hne. unfold exit_table. rewrite Hk.
  pose proof (ti_parent _ Hi cur p Hk) as Hpar. rewrite Hs in Hpar.
  destruct (pr_parent p) as [q|] eqn:Ep; [|simpl in Hpar; congruence].
  set (t1 := wakeup1 (ChProc q) t). assert (tinv t1) as Hi1 by (by apply tinv_wakeup).
  assert (pt_proc t1 !! cur = Some p) as Hk1.
  { unfold t1. rewrite wakeup1_at, Hk. cbn. f_equal. unfold woken, asleep_on. rewrite bool_decide_eq_false_2 by congruence. done. }
  assert (forall n, handed cur init t1 (foldl (abandon cur init) t1 (seq 0 n)) n) as Hall.
  { induction n as [|n IH].
    - split; try done; [intros; lia|by intros q' ? ?; exists q'|]. intros i q' ? ?. by exists q'.
    - rewrite seq_S, foldl_app. cbn [foldl]. by apply abandon_handed. }
  specialize (Hall (length (pt_proc t1))). set (t2 := foldl _ _ _) in *. destruct Hall as [Hi2 Hl He Hd Hcur Hw].
  change (pt_initproc t1) with (pt_initproc t) in He.
  destruct (Hcur p Hk1 Hs) as (p2 & Hp2 & Hs2 & Hpar2). clearbody t2.
  eapply (tinv_upd _ _ _ _ Hi2 Hp2); cbn.
  - intros _. right. intros j qj Hj. apply (Hd j qj); [|done]. rewrite <- Hl. by eapply lookup_lt_Some.
  - intros E. assert (init = cur) as -> by congruence. done.
  - pose proof (ti_parent _ Hi2 cur p2 Hp2) as Hpo. rewrite Hs2 in Hpo. unfold parent_ok. cbn. done.
  - by apply (ti_self _ Hi2 cur).
  - left. split; [done|]. intros _. apply (ti_pids _ Hi2 cur p2 Hp2). congruence.
  - done.
  - by intros [].
  - intros _ i qi Hpi Hqi Hwi. assert (i = q) as -> by congruence. destruct (Hw q qi Hqi Hwi) as (q1 & Hq1 & Hw1).
    unfold t1 in Hq1. rewrite wakeup1_at in Hq1. apply fmap_Some in Hq1 as (q0 & _ & ->). by apply woken_wait in Hw1 as [_ ?].
Qed.

Lemma gentle_live_step p p' : pr_pid p' = pr_pid p -> pr_parent p' = pr_parent p -> live p -> live p' ->
  (forall j, pr_state p' = SLEEPING -> pr_chan p' <> Some (ChProc j)) -> gentle p p'.
Proof. intros. split; [done|]. split; [done|]. split; [by right|]. intros j Hs Hc. by destruct (H3 j Hs). Qed.

Lemma kill_inv pid t : tinv t -> tinv (snd (kill pid t)).
Proof.
  intros Hi. unfold kill. destruct (find_index _ _) as [i|] eqn:E; [|done]. apply find_index_Some in E as [(p & Hp & _) _].
  cbn [snd]. apply (tinv_gentle1 _ _ _ p Hi Hp). cbn. case_bool_decide as Hs.
  - apply gentle_live_step; try done; unfold live; cbn; auto.
  - split; [done|]. split; [done|]. by split; [left|].
Qed.

Lemma tstep_inv pol t t' : tstep pol t t' -> tinv t -> tinv t'.
Proof.
  intros Hst Hi. destruct Hst as [t i t' Hn Ha|t k p Hk Hs Hp|t cur np c p Hc Hcs Hk Hs Hp|t np p j Hk Hs Hp|t from i t' Hr|t i p Hk Hs
    |t i p a Hk Hs|t i p Hk Hs|t a|t pid|t cur p init Hk Hs Hini Hne|t cur p Hk Hs Hz|t cur p k Hk Hs Hz].
  - by eapply alloc_inv.
  - by eapply fail_inv.
  - by eapply link_inv.
  - by eapply start_inv.
  - apply bind_Some in Hr as (k & Hk & E). injection E as <- <-.
    apply find_index_Some in Hk as [(p & Hp & Hs%bool_decide_eq_true) _]. rewrite lookup_drop in Hp.
    eapply tinv_gentle1; [done|exact Hp|]. apply gentle_live_step; try done; unfold live; cbn; auto.
  - eapply tinv_gentle1; [done|exact Hk|]. apply gentle_live_step; try done; unfold live; cbn; auto.
  - eapply tinv_gentle1; [done|exact Hk|]. apply gentle_live_step; try done; unfold live; cbn; auto.
  - eapply tinv_gentle1; [done|exact Hk|]. split; [done|]. split; [done|]. by split; [left|].
  - by apply tinv_wakeup.
  - by apply kill_inv.
  - by eapply exit_inv.
  - by eapply wait_sleep_inv.
  - by eapply reap_inv.
Qed.

Lemma tsteps_inv pol t t' : tsteps pol t t' -> tinv t -> tinv t'.
Proof. induction 1 as [t|t1 t2 t3 _ IH Hst]; [done|]. intros Hi. eapply tstep_inv; [exact Hst|auto]. Qed.

(** The table after [userinit]: init in slot 0. *)
Definition no_proc : proc :=
  Proc 0 0 0 UNUSED 0 None 0 None false (replicate 16 None) None [] None [] [] 0 0 0.
Definition init_proc : proc := set_state RUNNABLE (set_pid 1 no_proc).
Definition boot_table : ptable := PTable (init_proc :: replicate 63 no_proc) 2 (Some 0%nat).

Lemma boot_at k p : pt_proc boot_table !! k = Some p -> k = 0%nat /\ p = init_proc \/ k <> 0%nat /\ p = no_proc.
Proof.
  unfold boot_table. cbn [pt_proc]. destruct k as [|k]; [intros [= <-]; by left|].
  change ((init_proc :: replicate 63 no_proc) !! S k) with (replicate 63 no_proc !! k). intros [-> _]%lookup_replicate. by right.
Qed.

Lemma boot_tinv : tinv boot_table.
Proof.
  split.
  - done.
  - exists 0%nat, init_proc. split; [done|]. split; [done|]. split; [right; by left|done].
  - intros k p [[-> ->]|[_ ->]]%boot_at; done.
  - intros k p [[-> ->]|[_ ->]]%boot_at; done.
  - intros i j p q [[-> ->]|[_ ->]]%boot_at [[-> ->]|[_ ->]]%boot_at; done.
  - intros k p [[-> ->]|[_ ->]]%boot_at; cbn; lia || (split; [lia|done]).
  - intros k p j [[-> ->]|[_ ->]]%boot_at; done.
  - intros i p k q [[-> ->]|[_ ->]]%boot_at [? ?]; done.
Qed.

(** C7: The process table stays sound in every interleaving of process creation,
    scheduling, sleeping, waking, killing, exiting and waiting: process
    identifiers in use are distinct and positive, init is alive, every other
    process has a living parent (an exiting process hands its children on),
    and a process asleep in [wait] has no exited child, so that no exit is
    missed. *)
Theorem process_table_invariant (pol : policy) (t : ptable) : tsteps pol boot_table t -> tinv t.
Proof. intros Hr. by eapply tsteps_inv; [|apply boot_tinv]. Qed.

(** A process that exits will be found.  In every reachable table an exited
    process has a parent that is alive and not asleep in [wait], and a [wait]
    by that parent reaps some exited child of its own. *)
Theorem zombies_are_found (pol : policy) (t : ptable) (z : nat) (p : proc) : tsteps pol boot_table t ->
  pt_proc t !! z = Some p -> pr_state p = ZOMBIE ->
  exists i q k c, pr_parent p = Some i /\ pt_proc t !! i = Some q /\ live q /\ ~ in_wait i q /\
    zombie_child i t = Some k /\ pt_proc t !! k = Some c /\ pr_state c = ZOMBIE /\ pr_parent c = Some i.
Proof.
  intros Hr Hz Hs. pose proof (tsteps_inv _ _ _ Hr boot_tinv) as Hi.
  pose proof (ti_parent _ Hi z p Hz) as Hpar. rewrite Hs in Hpar. destruct (pr_parent p) as [i|] eqn:Ep.
  2: { destruct (init_live t z p Hi Hz Hpar) as [L _]. unfold live in L. rewrite Hs in L. intuition congruence. }
  destruct Hpar as (q & Hq & Lq). destruct (zombie_child i t) as [k|] eqn:Ek.
  - pose proof Ek as ((c & Hc & Hcz) & _)%find_index_Some. unfold child_of in Hcz. bool_prop.
    apply bool_decide_eq_true in H, H0. exists i, q, k, c. split_and!; try done.
    intros Hw. by apply (ti_wait _ Hi i q z p).
  - unfold zombie_child in Ek. rewrite find_index_None in Ek. specialize (Ek z p Hz). unfold child_of in Ek.
    by rewrite !bool_decide_eq_true_2 in Ek.
Qed.

(** [kill] of identifier 0 succeeds and dooms a process that does not exist
    yet.  Identifier 0 marks unused slots; when the first such slot is the one
    [allocproc] takes next, a [kill(0)] returns 0, and the process allocated
    afterwards is born with its [killed] flag set. *)
Theorem kill_zero_dooms_newborn (t : ptable) (i : nat) :
  find_index (fun p => pr_pid p =? 0) (pt_proc t) = Some i ->
  find_index (fun p => bool_decide (pr_state p = UNUSED)) (pt_proc t) = Some i ->
  exists t', kill 0 t = (0, t') /\ exists t'' p, alloc_slot t' = Some (i, t'') /\ pt_proc t'' !! i = Some p /\
    pr_state p = EMBRYO /\ pr_pid p = pt_nextpid t /\ pr_killed p = true.
Proof.
  intros E0 E1. unfold kill. rewrite E0. eexists. split; [done|].
  pose proof E1 as [(p & Hp & Hs%bool_decide_eq_true) Hmin]%find_index_Some.
  set (f := fun p => let p := set_killed true p in if bool_decide (pr_state p = SLEEPING) then set_state RUNNABLE p else p).
  assert (f p = set_killed true p) as Ef by (unfold f; cbn; rewrite Hs; done).
  assert (find_index (fun p => bool_decide (pr_state p = UNUSED)) (pt_proc (upd_proc i f t)) = Some i) as E2.
  { apply find_index_Some. split.
    - exists (f p). rewrite (upd_proc_at _ _ _ _ _ Hp), decide_True by done. split; [done|]. rewrite Ef. by apply bool_decide_eq_true_2.
    - intros j q Hj (q0 & Hq0 & ->)%upd_proc_inv. rewrite decide_False by lia. by apply (Hmin j). }
  unfold alloc_slot. rewrite E2. cbn. eexists _, _. split; [done|]. cbn [pt_proc]. split.
  - apply upd_proc_at. by apply upd_proc_at.
  - rewrite !decide_True by done. rewrite Ef. cbn. by rewrite (proj1 (upd_proc_next _ _ _)).
Qed.

(** A run: init starts a child and waits; the child runs and exits. *)
Definition run1_table : ptable := upd_proc 0 (set_state RUNNING) boot_table.
Definition embryo_table : ptable := match alloc_slot run1_table with Some (_, t) => t | None => run1_table end.
Definition linked_table : ptable := upd_proc 1 (set_parent (Some 0%nat)) embryo_table.
Definition child_table : ptable := upd_proc 1 (set_state RUNNABLE) linked_table.
Definition waiting_table : ptable := go_to_sleep 0 (ChProc 0) child_table.
Definition exited_table : ptable := exit_table 1 0 (upd_proc 1 (set_state RUNNING) waiting_table).

Lemma exited_steps : tsteps NONE boot_table exited_table.
Proof.
  eapply (ts_step _ _ (upd_proc 1 (set_state RUNNING) waiting_table)); [|eapply (T_exit _ _ 1); [reflexivity|reflexivity|reflexivity|done]].
  apply (ts_step _ _ waiting_table); [|apply (T_run _ _ 0 1); reflexivity].
  apply (ts_step _ _ child_table); [|eapply (T_wait _ _ 0); reflexivity].
  apply (ts_step _ _ linked_table); [|eapply (T_start _ _ 1); reflexivity].
  apply (ts_step _ _ embryo_table); [|eapply (T_link _ _ 0 1); reflexivity].
  apply (ts_step _ _ run1_table); [|apply (T_alloc _ _ 1); [by vm_compute|reflexivity]].
  apply (ts_step _ _ boot_table); [|apply (T_run _ _ 0 0); reflexivity].
  apply ts_refl.
Qed.

Lemma process_table_invariant_witness : tinv exited_table.
Proof. apply (process_table_invariant NONE), exited_steps. Defined.

Lemma zombies_are_found_witness : exists i q k c, Some 0%nat = Some i /\ pt_proc exited_table !! i = Some q /\ live q /\ ~ in_wait i q /\
    zombie_child i exited_table = Some k /\ pt_proc exited_table !! k = Some c /\ pr_state c = ZOMBIE /\ pr_parent c = Some i.
Proof.
  destruct (pt_proc exited_table !! 1%nat) as [p|] eqn:E; [|vm_compute in E; discriminate].
  assert (pr_state p = ZOMBIE /\ pr_parent p = Some 0%nat) as [Hs Hp] by (vm_compute in E; injection E as <-; done).
  rewrite <- Hp. by apply (zombies_are_found NONE exited_table 1 p exited_steps).
Defined.

Lemma kill_zero_dooms_newborn_witness : exists t', kill 0 boot_table = (0, t') /\ exists t'' p, alloc_slot t' = Some (1%nat, t'') /\
    pt_proc t'' !! 1%nat = Some p /\ pr_state p = EMBRYO /\ pr_pid p = 2 /\ pr_killed p = true.
Proof. apply (kill_zero_dooms_newborn boot_table 1); reflexivity. Defined.
