(* ===== verification/Seg.v ===== *)
(** * Segments and gates ([mmu.h], [seginit] and [switchuvm] of [vm.c], [tvinit] of [trap.c])

    The descriptors the kernel writes, as the processor reads them: bit-fields
    of C structures packed into 64 bits, and the fields the processor's manual
    finds in those bits. *)

From S2P Require Import Prelude Mmu.

(** ** Bit-fields *)

(** A structure of bit-fields, the first in the lowest bits; a field keeps as
    many bits of a value as it has. *)
Fixpoint pack (fields : list (Z * Z)) : Z :=
  match fields with [] => 0 | (w, v) :: fields => v mod 2 ^ w + 2 ^ w * pack fields end.
(** [w] bits from bit [o] on. *)
Definition bits (d o w : Z) : Z := (d / 2 ^ o) mod 2 ^ w.

(** ** [mmu.h] *)

Definition FL_IF : Z := 0x200.
Definition SEG_KCODE : Z := 1.
Definition SEG_KDATA : Z := 2.
Definition SEG_UCODE : Z := 3.
Definition SEG_UDATA : Z := 4.
Definition SEG_TSS : Z := 5.
Definition NSEGS : Z := 6.
Definition DPL_USER : Z := 3.
Definition STA_X : Z := 0x8.
Definition STA_W : Z := 0x2.
Definition STA_R : Z := 0x2.
Definition STS_T32A : Z := 0x9.
Definition STS_IG32 : Z := 0xE.
Definition STS_TG32 : Z := 0xF.

Record segdesc := SegDesc {
  lim_15_0 : Z; base_15_0 : Z; base_23_16 : Z; sd_type : Z; sd_s : Z; sd_dpl : Z; sd_p : Z;
  lim_19_16 : Z; sd_avl : Z; sd_rsv1 : Z; sd_db : Z; sd_g : Z; base_31_24 : Z }.
Definition seg_bits (d : segdesc) : Z := pack
  [(16, lim_15_0 d); (16, base_15_0 d); (8, base_23_16 d); (4, sd_type d); (1, sd_s d); (2, sd_dpl d); (1, sd_p d);
   (4, lim_19_16 d); (1, sd_avl d); (1, sd_rsv1 d); (1, sd_db d); (1, sd_g d); (8, base_31_24 d)].

Definition SEG (type base lim dpl : Z) : segdesc := SegDesc
  (Z.land (Z.shiftr lim 12) 0xffff) (Z.land base 0xffff) (Z.land (Z.shiftr base 16) 0xff) type 1 dpl 1
  (Z.shiftr lim 28) 0 0 1 1 (Z.shiftr base 24).
Definition SEG16 (type base lim dpl : Z) : segdesc := SegDesc
  (Z.land lim 0xffff) (Z.land base 0xffff) (Z.land (Z.shiftr base 16) 0xff) type 1 dpl 1
  (Z.shiftr lim 16) 0 0 1 0 (Z.shiftr base 24).
Definition set_s (s : Z) (d : segdesc) : segdesc := SegDesc
  (lim_15_0 d) (base_15_0 d) (base_23_16 d) (sd_type d) s (sd_dpl d) (sd_p d)
  (lim_19_16 d) (sd_avl d) (sd_rsv1 d) (sd_db d) (sd_g d) (base_31_24 d).

Record gatedesc := GateDesc {
  off_15_0 : Z; gd_cs : Z; gd_args : Z; gd_rsv1 : Z; gd_type : Z; gd_s : Z; gd_dpl : Z; gd_p : Z; off_31_16 : Z }.
Definition gate_bits (g : gatedesc) : Z := pack
  [(16, off_15_0 g); (16, gd_cs g); (5, gd_args g); (3, gd_rsv1 g); (4, gd_type g); (1, gd_s g); (2, gd_dpl g); (1, gd_p g); (16, off_31_16 g)].

Definition SETGATE (istrap : bool) (sel off d : Z) : gatedesc := GateDesc
  (Z.land off 0xffff) sel 0 0 (if istrap then STS_TG32 else STS_IG32) 0 d 1 (Z.shiftr off 16).

(** [traps.h] *)
Definition T_GPFLT : Z := 13.
Definition T_PGFLT : Z := 14.
Definition T_IRQ0 : Z := 32.
Definition T_SYSCALL : Z := 64.
Definition IRQ_TIMER : Z := 0.
Definition IRQ_KBD : Z := 1.
Definition IRQ_COM1 : Z := 4.
Definition IRQ_IDE : Z := 14.
Definition IRQ_ERROR : Z := 19.
Definition IRQ_SPURIOUS : Z := 31.

(** As much of [struct taskstate] as the kernel sets; the structure has 104
    bytes. *)
Record taskstate := TaskState { ts_esp0 : Z; ts_ss0 : Z; ts_iomb : Z }.
Definition TASKSTATE : Z := 104.

(** ** The kernel's tables *)

Definition seginit (gdt : list segdesc) : list segdesc :=
  <[Z.to_nat SEG_UDATA := SEG STA_W 0 0xffffffff DPL_USER]>
  (<[Z.to_nat SEG_UCODE := SEG (Z.lor STA_X STA_R) 0 0xffffffff DPL_USER]>
  (<[Z.to_nat SEG_KDATA := SEG STA_W 0 0xffffffff 0]>
  (<[Z.to_nat SEG_KCODE := SEG (Z.lor STA_X STA_R) 0 0xffffffff 0]> gdt))).

(** What [switchuvm] does with the task state, whose address is [ts]. *)
Definition switch_gdt (ts : Z) (gdt : list segdesc) : list segdesc :=
  let gdt := <[Z.to_nat SEG_TSS := SEG16 STS_T32A ts (TASKSTATE - 1) 0]> gdt in
  alter (set_s 0) (Z.to_nat SEG_TSS) gdt.
Definition switch_ts (kstack : Z) : taskstate := TaskState (u32 (kstack + KSTACKSIZE)) (Z.shiftl SEG_KDATA 3) 0xFFFF.

(** [vectors] is the array of entry points. *)
Definition tvinit (vectors : Z -> Z) (idt : list gatedesc) : list gatedesc :=
  let idt := foldl (fun idt i => <[i := SETGATE false (Z.shiftl SEG_KCODE 3) (vectors (Z.of_nat i)) 0]> idt) idt (seq 0 256) in
  <[Z.to_nat T_SYSCALL := SETGATE true (Z.shiftl SEG_KCODE 3) (vectors T_SYSCALL) DPL_USER]> idt.

(** ** What the processor reads *)

Definition hw_base (d : Z) : Z := bits d 16 16 + 2 ^ 16 * bits d 32 8 + 2 ^ 24 * bits d 56 8.
Definition hw_limit (d : Z) : Z :=
  let l := bits d 0 16 + 2 ^ 16 * bits d 48 4 in if bits d 55 1 =? 1 then 4096 * l + 4095 else l.
Definition hw_type (d : Z) : Z := bits d 40 4.
Definition hw_app (d : Z) : bool := bits d 44 1 =? 1.
Definition hw_dpl (d : Z) : Z := bits d 45 2.
Definition hw_present (d : Z) : bool := bits d 47 1 =? 1.
Definition hw_selector (g : Z) : Z := bits g 16 16.
Definition hw_offset (g : Z) : Z := bits g 0 16 + 2 ^ 16 * bits g 48 16.

(** ** Reading what was written *)

Lemma bits_0 d w : bits d 0 w = d mod 2 ^ w.
Proof. unfold bits. by rewrite Z.pow_0_r, Z.div_1_r. Qed.

(** Below a field of [v] bits the rest starts anew. *)
Lemma bits_skip w x rest o n : 0 <= w <= o -> 0 <= x < 2 ^ w -> bits (x + 2 ^ w * rest) o n = bits rest (o - w) n.
Proof.
  intros Hw Hx. unfold bits. f_equal. assert (0 < 2 ^ w) by (apply Z.pow_pos_nonneg; lia). assert (0 < 2 ^ (o - w)) by (apply Z.pow_pos_nonneg; lia).
  replace o with (w + (o - w)) at 1 by lia. rewrite Z.pow_add_r by lia. rewrite <- Z.div_div by lia. f_equal.
  rewrite Z.mul_comm, Z.div_add by lia. rewrite Z.div_small by lia. lia.
Qed.

Lemma bits_head w x rest : 0 <= w -> 0 <= x < 2 ^ w -> bits (x + 2 ^ w * rest) 0 w = x.
Proof. intros Hw Hx. rewrite bits_0, Z.mul_comm, Z_mod_plus_full. by apply Z.mod_small. Qed.

(** The field that starts at bit [o], if one does. *)
Fixpoint field (fields : list (Z * Z)) (o : Z) : option (Z * Z) :=
  match fields with
  | [] => None
  | (w, v) :: fields => if o =? 0 then Some (w, v) else if w <=? o then field fields (o - w) else None
  end.

Lemma pack_field fields o w v : Forall (fun f => 0 <= f.1) fields -> field fields o = Some (w, v) -> bits (pack fields) o w = v mod 2 ^ w.
Proof.
  revert o. induction fields as [|[w1 v1] fields IH]; intros o Hw E; [done|]. apply Forall_cons in Hw as [Hw1 Hw]. cbn [fst] in Hw1. cbn [pack field] in *.
  assert (0 <= v1 mod 2 ^ w1 < 2 ^ w1) by (apply Z.mod_pos_bound, Z.pow_pos_nonneg; lia).
  destruct (Z.eqb_spec o 0) as [->|]; [injection E as <- <-; by apply bits_head|]. destruct (Z.leb_spec w1 o); [|done].
  rewrite bits_skip by lia. by apply IH.
Qed.

(** A field of a descriptor, by computation of where it is. *)
Ltac seg_field := unfold seg_bits, gate_bits; match goal with
  | |- context [bits (pack ?l) ?o ?w] => erewrite (pack_field l o w) by (repeat constructor; cbn; lia || reflexivity); cbn [lim_15_0 base_15_0 base_23_16 sd_type sd_s sd_dpl sd_p lim_19_16 sd_avl sd_rsv1 sd_db sd_g base_31_24 off_15_0 gd_cs gd_args gd_rsv1 gd_type gd_s gd_dpl gd_p off_31_16]
  end.

(** Pieces of a word that are put together again. *)
Lemma land_low x k : 0 <= k -> Z.land x (2 ^ k - 1) = x mod 2 ^ k.
Proof. intros Hk. rewrite <- Z.land_ones by done. f_equal. by rewrite Z.ones_equiv, Z.sub_1_r. Qed.

Lemma word_pieces x : is_u32 x ->
  (Z.land x 0xffff) mod 2 ^ 16 + 2 ^ 16 * ((Z.land (Z.shiftr x 16) 0xff) mod 2 ^ 8) + 2 ^ 24 * (Z.shiftr x 24 mod 2 ^ 8) = x /\
  (Z.land x 0xffff) mod 2 ^ 16 + 2 ^ 16 * (Z.shiftr x 16 mod 2 ^ 16) = x.
Proof.
  intros Hx. unfold is_u32, two32 in Hx. change 0xffff with (2 ^ 16 - 1). change 0xff with (2 ^ 8 - 1). rewrite (land_low x 16), (land_low (Z.shiftr x 16) 8), !Z.shiftr_div_pow2 by lia.
  change (2 ^ 16) with 65536. change (2 ^ 24) with 16777216. change (2 ^ 8) with 256. split; Z.div_mod_to_equations; lia.
Qed.

Lemma limit_pieces x : is_u32 x ->
  4096 * ((Z.land (Z.shiftr x 12) 0xffff) mod 2 ^ 16 + 2 ^ 16 * (Z.shiftr x 28 mod 2 ^ 4)) + 4095 = x - x mod 4096 + 4095.
Proof.
  intros Hx. unfold is_u32, two32 in Hx. change 0xffff with (2 ^ 16 - 1). rewrite (land_low (Z.shiftr x 12) 16), !Z.shiftr_div_pow2 by lia.
  change (2 ^ 16) with 65536. change (2 ^ 28) with 268435456. change (2 ^ 12) with 4096. change (2 ^ 4) with 16. Z.div_mod_to_equations; lia.
Qed.

(** What the processor makes of [SEG]: the segment asked for, with a limit of
    whole pages. *)
Lemma SEG_hw type base lim dpl : 0 <= type < 16 -> is_u32 base -> is_u32 lim -> 0 <= dpl < 4 ->
  let d := seg_bits (SEG type base lim dpl) in
  hw_base d = base /\ hw_limit d = lim - lim mod 4096 + 4095 /\ hw_type d = type /\ hw_app d = true /\ hw_dpl d = dpl /\ hw_present d = true.
Proof.
  intros Ht Hb Hl Hd d. unfold d, hw_base, hw_limit, hw_type, hw_app, hw_dpl, hw_present, SEG. repeat seg_field.
  split; [exact (proj1 (word_pieces base Hb))|]. split; [exact (limit_pieces lim Hl)|].
  split; [by apply Z.mod_small|]. split; [done|]. split; [by apply Z.mod_small|done].
Qed.

(** And of [SETGATE]. *)
Lemma SETGATE_hw istrap sel off dpl : 0 <= sel < 2 ^ 16 -> is_u32 off -> 0 <= dpl < 4 ->
  let g := gate_bits (SETGATE istrap sel off dpl) in
  hw_offset g = off /\ hw_selector g = sel /\ hw_type g = (if istrap then STS_TG32 else STS_IG32) /\ hw_app g = false /\ hw_dpl g = dpl /\ hw_present g = true.
Proof.
  intros Hs Ho Hd g. unfold g, hw_offset, hw_selector, hw_type, hw_app, hw_dpl, hw_present, SETGATE. repeat seg_field.
  split; [exact (proj2 (word_pieces off Ho))|]. split; [by apply Z.mod_small|]. split; [by destruct istrap|]. split; [done|]. split; [by apply Z.mod_small|done].
Qed.
