(* ===== verification/Trap.v ===== *)
(** * Traps ([trap.c]) and process system calls ([sysproc.c])

    A trap on one CPU: the process it interrupts, if any, with its address
    space; the calls the kernel makes in response, in order.  [exit] does not
    return. *)

From S2P Require Import Prelude Mmu Memory Kalloc PageTable Vm Proc Syscall Seg Demo.

Inductive action := DoSyscall | DoTick | DoIde | DoKbd | DoUart | DoEoi | DoYield | DoExit.

(** The process on this CPU. *)
Record running (F : Type) := Running { rn_vm : vm F; rn_killed : bool; rn_state : procstate }.
Arguments Running {F} rn_vm rn_killed rn_state.
Arguments rn_vm {F} r.
Arguments rn_killed {F} r.
Arguments rn_state {F} r.

Definition set_rvm {F} (v : vm F) (r : running F) : running F := Running v (rn_killed r) (rn_state r).
Definition set_rkilled {F} (b : bool) (r : running F) : running F := Running (rn_vm r) b (rn_state r).

Section trap.
Context {F : Type} `{SwapFile F} (end_ : Z) (pol : policy).

Definition onvm {A} (m : M (vm F) A) : M (running F) A := zoom rn_vm set_rvm m.

(** [case T_PGFLT]: whether the fault was handled. *)
Definition page_fault : M (running F) bool :=
  if negb (check_policy pol) then mret false else
  onvm (match pol with
        | NFUA | LAPA => NFUA_update_age
        | AQ => AQ_update_queue
        | _ => mret ()
        end);;
  r ← get;
  let pid := pp_pid (v_p (rn_vm r)) in
  h ← (if 2 <? pid then onvm (handle_pf end_ pol) else mret 0);
  if negb (h =? 0) then mret true else
  c ← onvm handle_cow;
  if negb (c =? 0) then mret true else
  if 2 <? pid then panic "trap: segmentation fault" else mret false.

(** The [default] case for a trap in user mode: the process is killed. *)
Definition misbehaved (cs : Z) : M (running F) () :=
  if Z.land cs 3 =? 0 then panic "trap" else modify (set_rkilled true).

(** The [switch], for a CPU that runs a process. *)
Definition trap_switch (cpu0 : bool) (trapno cs : Z) : M (running F) (list action) :=
  if trapno =? T_IRQ0 + IRQ_TIMER then mret ((if cpu0 then [DoTick] else []) ++ [DoEoi]) else
  if trapno =? T_IRQ0 + IRQ_IDE then mret [DoIde; DoEoi] else
  if trapno =? T_IRQ0 + IRQ_IDE + 1 then mret [] else
  if trapno =? T_IRQ0 + IRQ_KBD then mret [DoKbd; DoEoi] else
  if trapno =? T_IRQ0 + IRQ_COM1 then mret [DoUart; DoEoi] else
  if (trapno =? T_IRQ0 + 7) || (trapno =? T_IRQ0 + IRQ_SPURIOUS) then mret [DoEoi] else
  if trapno =? T_PGFLT then
    h ← page_fault;
    if (h : bool) then mret [] else misbehaved cs;; mret []
  else misbehaved cs;; mret [].

(** [trap]; [killed_later] is the value of [killed] after the system call or
    after the process got the CPU back. *)
Definition trap (cpu0 : bool) (trapno cs : Z) (killed_later : bool) : M (running F) (list action) :=
  r ← get;
  if trapno =? T_SYSCALL then
    if rn_killed r then mret [DoExit] else
    mret (DoSyscall :: if killed_later then [DoExit] else [])
  else
  acts ← trap_switch cpu0 trapno cs;
  r ← get;
  let user := Z.land cs 3 =? DPL_USER in
  if rn_killed r && user then mret (acts ++ [DoExit]) else
  if bool_decide (rn_state r = RUNNING) && (trapno =? T_IRQ0 + IRQ_TIMER) then
    mret (acts ++ [DoYield] ++ if (rn_killed r || killed_later) && user then [DoExit] else [])
  else mret (acts ++ if rn_killed r && user then [DoExit] else []).
End trap.

(** ** Process system calls *)

Section sysproc.
Context {E : Type} `{Services E} (pol : policy).

Definition sys_fork : M (pst E) Z := fork pol.
Definition sys_exit : M (pst E) Z := exit pol;; mret 0.
Definition sys_wait : M (pst E) Z := wait pol.

Definition sys_kill (u : user) : M (pst E) Z :=
  match argint u 0 with
  | None => mret (-1)
  | Some pid => s ← get; let '(r, t) := kill pid (q_t s) in ontable (fun _ => t);; mret r
  end.

Definition sys_getpid : M (pst E) Z := s ← get; p ← proc_at (q_cur s); mret (pr_pid p).

Definition sys_sbrk (u : user) : M (pst E) Z :=
  match argint u 0 with
  | None => mret (-1)
  | Some n =>
      s ← get;
      p ← proc_at (q_cur s);
      r ← growproc n;
      mret (if r <? 0 then -1 else s32 (pr_sz p))
  end.

Definition sys_page_faults : M (pst E) Z := s ← get; p ← proc_at (q_cur s); mret (s32 (pr_page_faults p)).
Definition sys_total_page_faults : M (pst E) Z := mret 1.
Definition sys_get_paged_out : M (pst E) Z := mret 2.
End sysproc.

(** The loop of [sys_sleep] at tick [ticks], begun at [ticks0]: it returns, or
    sleeps until the next tick.  The comparison is between unsigned numbers. *)
Inductive sleep_result := SlDone (r : Z) | SlSleep.
Definition sys_sleep_test (n ticks0 ticks : Z) (killed : bool) : sleep_result :=
  if u32 (ticks - ticks0) <? u32 n then (if killed then SlDone (-1) else SlSleep) else SlDone 0.
Definition sys_sleep (u : user) (ticks0 ticks : Z) (killed : bool) : sleep_result :=
  match argint u 0 with None => SlDone (-1) | Some n => sys_sleep_test n ticks0 ticks killed end.
Definition sys_uptime (ticks : Z) : Z := s32 ticks.

(** ** Faults nobody handles *)

Section faults.
Context {F : Type} `{SwapFile F} (end_ : Z).

Lemma onvm_Ok {A} (m : M (vm F) A) r a v : m (rn_vm r) = Ok a v -> onvm m r = Ok a (set_rvm v r).
Proof. intros E. unfold onvm, zoom. by rewrite E. Qed.

Lemma trap_switch_fault pol cpu0 cs : trap_switch end_ pol cpu0 T_PGFLT cs =
  (h ← (page_fault end_ pol : M (running F) bool); if (h : bool) then mret [] else misbehaved cs;; mret []).
Proof. reflexivity. Qed.

(** A stray access by an ordinary process stops the whole kernel.  When
    neither [handle_pf] nor [handle_cow] recognises a page fault of a process
    with an identifier above 2, [trap] panics, although the fault came from
    user mode, where the [default] case kills only the process, as it does
    when paging is compiled out. *)
Theorem stray_access_panics (pol : policy) (r : running F) (v1 v2 : vm F) (cpu0 killed_later : bool) (cs : Z) :
  pol = SCFIFO \/ pol = RROBIN -> 2 < pp_pid (v_p (rn_vm r)) -> Z.land cs 3 = DPL_USER ->
  handle_pf end_ pol (rn_vm r) = Ok 0 v1 -> handle_cow v1 = Ok 0 v2 ->
  trap end_ pol cpu0 T_PGFLT cs killed_later r = Panic "trap: segmentation fault" /\
  trap end_ NONE cpu0 T_PGFLT cs killed_later r = Ok [DoExit] (set_rkilled true r).
Proof.
  intros Hpol Hpid Hcs Hpf Hcow. split.
  - unfold trap. erewrite Ok_bind by reflexivity. cbn [Z.eqb Pos.eqb T_PGFLT T_SYSCALL].
    assert (page_fault end_ pol r = Panic "trap: segmentation fault") as Hp.
    { unfold page_fault. assert (check_policy pol = true) as -> by (by destruct Hpol as [->| ->]).
      cbn [negb]. rewrite (Ok_bind _ _ r () r) by (destruct Hpol as [->| ->], r; reflexivity).
      erewrite Ok_bind by reflexivity. destruct (Z.ltb_spec 2 (pp_pid (v_p (rn_vm r)))); [|lia].
      rewrite (Ok_bind _ _ _ _ _ (onvm_Ok _ r _ _ Hpf)). cbn [Z.eqb negb].
      rewrite (Ok_bind _ _ _ _ _ (onvm_Ok _ (set_rvm v1 r) _ _ Hcow)). reflexivity. }
    rewrite trap_switch_fault. unfold mbind, M_bind, bindM. by rewrite Hp.
  - unfold trap. erewrite Ok_bind by reflexivity. unfold trap_switch, misbehaved. cbn. rewrite Hcs.
    reflexivity.
Qed.
End faults.

(** The process of the demonstration machine reads at 0x50000, above its size. *)
Definition stray : running pagefile := Running (set_cr2 0x50000 demo_full) false RUNNING.

Lemma stray_declined :
  match handle_pf demo_end SCFIFO (rn_vm stray) with
  | Ok h v1 => (h =? 0) && match handle_cow v1 with Ok c _ => c =? 0 | _ => false end
  | _ => false
  end = true.
Proof. vm_compute. reflexivity. Qed.

Lemma stray_pid : (2 <? pp_pid (v_p (rn_vm stray))) = true.
Proof. vm_compute. reflexivity. Qed.

Lemma stray_access_panics_witness :
  trap demo_end SCFIFO true T_PGFLT 27 false stray = Panic "trap: segmentation fault" /\
  trap demo_end NONE true T_PGFLT 27 false stray = Ok [DoExit] (set_rkilled true stray).
Proof.
  pose proof stray_declined as Hd. destruct (handle_pf demo_end SCFIFO (rn_vm stray)) as [h v1| | | |] eqn:E1; try discriminate Hd.
  destruct (handle_cow v1) as [c v2| | | |] eqn:E2; try (rewrite andb_false_r in Hd; discriminate Hd).
  apply andb_true_iff in Hd as [Hh Hc]. apply Z.eqb_eq in Hh, Hc. rewrite Hh in E1. rewrite Hc in E2.
  apply (stray_access_panics demo_end SCFIFO stray v1 v2).
  - left. reflexivity.
  - apply Z.ltb_lt. exact stray_pid.
  - reflexivity.
  - exact E1.
  - exact E2.
Defined.

(** A negative sleep is a very long one.  [sys_sleep] compares the ticks
    passed with its argument as unsigned numbers, so for every negative
    argument a process that is not killed still sleeps after two thousand
    million ticks; for others it returns exactly when that many ticks have
    passed, also across the wrap of the tick counter. *)
Theorem sleep_duration (n ticks0 passed : Z) : is_s32 n -> is_u32 ticks0 -> 0 <= passed < 2147483648 ->
  sys_sleep_test n ticks0 (u32 (ticks0 + passed)) false =
    if (n <? 0) || (passed <? n) then SlSleep else SlDone 0.
Proof.
  intros Hn Ht Hp. unfold sys_sleep_test.
  assert (u32 (u32 (ticks0 + passed) - ticks0) = passed) as -> by ulia.
  destruct (Z.ltb_spec n 0); cbn [orb].
  - assert (passed < u32 n) by ulia. by destruct (Z.ltb_spec passed (u32 n)); [|lia].
  - rewrite (u32_small n) by ulia. by destruct (Z.ltb_spec passed n).
Qed.

Lemma sleep_duration_witness : sys_sleep_test (-1) 4294967290 (u32 (4294967290 + 1000000)) false = SlSleep /\
  sys_sleep_test 10 4294967290 (u32 (4294967290 + 10)) false = SlDone 0.
Proof.
  split; [rewrite (sleep_duration (-1) 4294967290 1000000)|rewrite (sleep_duration 10 4294967290 10)];
    first [reflexivity|unfold is_s32, is_u32, two32; lia].
Defined.
