(* ===== verification/Console.v ===== *)
(** * The console ([console.c]) and formatted output ([printf.c])

    Output: numbers and formats as lists of characters, the screen as its
    cells and cursor.  Input: the line editor's ring of [INPUT_BUF] bytes
    against the two lists it stands for. *)

From S2P Require Import Prelude.

(** ** Numbers *)

Definition digits_lower : list Z := [48; 49; 50; 51; 52; 53; 54; 55; 56; 57; 97; 98; 99; 100; 101; 102].
Definition digits_upper : list Z := [48; 49; 50; 51; 52; 53; 54; 55; 56; 57; 65; 66; 67; 68; 69; 70].

(** [do buf[i++] = digits[x % base]; while((x /= base) != 0)]. *)
Fixpoint put_digits (fuel : nat) (digits : list Z) (x base : Z) : list Z :=
  match fuel with
  | O => []
  | S fuel' =>
      nth (Z.to_nat (x mod base)) digits 0 :: (if x / base =? 0 then [] else put_digits fuel' digits (x / base) base)
  end.

(** What is in [buf] when the digits are done, printed from its end. *)
Definition print_number (digits : list Z) (xx base : Z) (sign : bool) : list Z :=
  let neg := sign && (s32 xx <? 0) in
  let x := if neg then u32 (- s32 xx) else u32 xx in
  reverse (put_digits 32 digits x base ++ if neg then [45] else []).

Definition printint (xx base : Z) (sign : bool) : list Z := print_number digits_lower xx base sign.
Definition u_printint (xx base : Z) (sign : bool) : list Z := print_number digits_upper xx base sign.

(** ** Formats

    The arguments are words; [str] gives the characters a pointer leads to. *)

Definition null_string : list Z := [40; 110; 117; 108; 108; 41].
Definition str_arg (str : Z -> list Z) (a : Z) : list Z := if a =? 0 then null_string else str a.

Fixpoint cprintf (str : Z -> list Z) (fmt : list Z) (args : list Z) : list Z :=
  match fmt with
  | [] => []
  | c :: rest =>
      if negb (c =? 37) then c :: cprintf str rest args else
      match rest with
      | [] => []
      | c :: rest =>
          let a := hd 0 args in
          if c =? 100 then printint a 10 true ++ cprintf str rest (tl args) else
          if (c =? 120) || (c =? 112) then printint a 16 false ++ cprintf str rest (tl args) else
          if c =? 115 then str_arg str a ++ cprintf str rest (tl args) else
          if c =? 37 then 37 :: cprintf str rest args else
          37 :: c :: cprintf str rest args
      end
  end.

(** User [printf] keeps the last character in [state]. *)
Fixpoint printf (str : Z -> list Z) (fmt : list Z) (state : bool) (args : list Z) : list Z :=
  match fmt with
  | [] => []
  | c :: rest =>
      if negb state then
        if c =? 37 then printf str rest true args else c :: printf str rest false args
      else
        let a := hd 0 args in
        if c =? 100 then u_printint a 10 true ++ printf str rest false (tl args) else
        if (c =? 120) || (c =? 112) then u_printint a 16 false ++ printf str rest false (tl args) else
        if c =? 115 then str_arg str a ++ printf str rest false (tl args) else
        if c =? 99 then (a mod 256) :: printf str rest false (tl args) else
        if c =? 37 then c :: printf str rest false args else
        37 :: c :: printf str rest false args
  end.

(** ** The screen *)

Definition BACKSPACE : Z := 256.

Record screen := Screen { sc_crt : Z -> Z; sc_pos : Z }.
Definition poke_cell (crt : Z -> Z) (i v : Z) : Z -> Z := fun j => if j =? i then v else crt j.

(** [cgaputc]; [None] is the panic. *)
Definition cgaputc (c : Z) (s : screen) : option screen :=
  let pos := sc_pos s in
  let '(crt, pos) :=
    if c =? 10 then (sc_crt s, pos + (80 - pos mod 80)) else
    if c =? BACKSPACE then (sc_crt s, if 0 <? pos then pos - 1 else pos) else
    (poke_cell (sc_crt s) pos (Z.lor (Z.land c 255) 1792), pos + 1) in
  if (pos <? 0) || (25 * 80 <? pos) then None else
  let '(crt, pos) :=
    if 24 <=? pos / 80 then
      let crt := fun j => if (0 <=? j) && (j <? 23 * 80) then crt (j + 80) else crt j in
      let pos := pos - 80 in
      (fun j => if (pos <=? j) && (j <? 24 * 80) then 0 else crt j, pos)
    else (crt, pos) in
  Some (Screen (poke_cell crt pos (Z.lor 32 1792)) pos).

(** [consputc]: the bytes sent to the serial line, and the screen. *)
Definition uart_bytes (c : Z) : list Z := if c =? BACKSPACE then [8; 32; 8] else [c].
Definition consputc (c : Z) (s : screen) : option (list Z * screen) :=
  s' ← cgaputc c s; Some (uart_bytes c, s').

(** ** The line editor *)

Definition INPUT_BUF : Z := 128.
Record input := Input { in_buf : list Z; in_r : Z; in_w : Z; in_e : Z }.
Definition in_at (s : input) (k : Z) : Z := nth (Z.to_nat (k mod INPUT_BUF)) (in_buf s) 0.

Definition ctrl_P : Z := 16.
Definition ctrl_U : Z := 21.
Definition ctrl_H : Z := 8.
Definition ctrl_D : Z := 4.

(** The loop of Control-U: how many characters it takes back. *)
Fixpoint kill_line (fuel : nat) (s : input) : input * nat :=
  match fuel with
  | O => (s, 0%nat)
  | S fuel' =>
      if negb (in_e s =? in_w s) && negb (in_at s (u32 (in_e s - 1)) =? 10) then
        let '(s', n) := kill_line fuel' (Input (in_buf s) (in_r s) (in_w s) (u32 (in_e s - 1))) in (s', S n)
      else (s, 0%nat)
  end.

(** One character of [consoleintr]: the ring and the characters echoed. *)
Definition console_key (c : Z) (s : input) : input * list Z :=
  if c =? ctrl_P then (s, []) else
  if c =? ctrl_U then let '(s', n) := kill_line (Z.to_nat INPUT_BUF) s in (s', replicate n BACKSPACE) else
  if (c =? ctrl_H) || (c =? 127) then
    if in_e s =? in_w s then (s, []) else (Input (in_buf s) (in_r s) (in_w s) (u32 (in_e s - 1)), [BACKSPACE])
  else
  if negb (c =? 0) && (u32 (in_e s - in_r s) <? INPUT_BUF) then
    let c := if c =? 13 then 10 else c in
    let e := u32 (in_e s + 1) in
    let w := if (c =? 10) || (c =? ctrl_D) || (e =? u32 (in_r s + INPUT_BUF)) then e else in_w s in
    (Input (<[Z.to_nat (in_e s mod INPUT_BUF) := c mod 256]> (in_buf s)) (in_r s) w e, [c])
  else (s, []).

(** [consoleintr]: the echo, and whether the process list is asked for. *)
Fixpoint consoleintr (cs : list Z) (s : input) : input * list Z * bool :=
  match cs with
  | [] => (s, [], false)
  | c :: cs' =>
      let '(s, out) := console_key c s in
      let '(s, outs, dump) := consoleintr cs' s in
      (s, out ++ outs, (c =? ctrl_P) || dump)
  end.

(** [consoleread] with [n] bytes still wanted, none yet if [start]: it has the
    bytes, or it slept after some of them with [n] to go. *)
Inductive cread := CDone (bs : list Z) (s : input) | CSleep (bs : list Z) (n : nat) (s : input) | CKilled (s : input).
Definition cread_cons (c : Z) (r : cread) : cread :=
  match r with CDone bs s => CDone (c :: bs) s | CSleep bs n s => CSleep (c :: bs) n s | CKilled s => CKilled s end.

Fixpoint consoleread (killed start : bool) (n : nat) (s : input) : cread :=
  match n with
  | O => CDone [] s
  | S n' =>
      if in_r s =? in_w s then (if killed then CKilled s else CSleep [] n s) else
      let c := in_at s (in_r s) in
      let s' := Input (in_buf s) (u32 (in_r s + 1)) (in_w s) (in_e s) in
      if c =? ctrl_D then CDone [] (if start then s' else s) else
      if c =? 10 then CDone [c] s' else
      cread_cons c (consoleread killed false n' s')
  end.

(** [consolewrite]: what reaches the screen. *)
Fixpoint consolewrite (buf : list Z) (s : screen) : option screen :=
  match buf with
  | [] => Some s
  | c :: buf' => r ← consputc (Z.land c 255) s; consolewrite buf' (snd r)
  end.

(** ** Numbers read back *)

(** The value of digits, last one first. *)
Fixpoint value_rev (digits : list Z) (base : Z) (l : list Z) : Z :=
  match l with
  | [] => 0
  | c :: l' => c_index (find_index (fun d => d =? c) digits) + base * value_rev digits base l'
  end.

Definition good_digits (digits : list Z) (base : Z) : Prop := 2 <= base <= Z.of_nat (length digits) /\ NoDup digits.

Lemma digit_index digits base k : good_digits digits base -> 0 <= k < base ->
  find_index (fun d => d =? nth (Z.to_nat k) digits 0) digits = Some (Z.to_nat k).
Proof.
  intros [Hb Hd] Hk. destruct (lookup_lt_is_Some_2 digits (Z.to_nat k)) as [d Hdk]; [lia|].
  rewrite nth_lookup, Hdk. cbn. apply find_index_Some. split; [exists d; split; [done|apply Z.eqb_refl]|].
  intros j y Hj Hy. apply Z.eqb_neq. intros ->. pose proof (NoDup_lookup _ _ _ _ Hd Hdk Hy). lia.
Qed.

Lemma put_digits_value digits base fuel : good_digits digits base -> forall x, 0 <= x < base ^ Z.of_nat fuel -> (0 < fuel)%nat ->
  value_rev digits base (put_digits fuel digits x base) = x /\
  (forall c, last (put_digits fuel digits x base) = Some c -> c = nth 0 digits 0 -> x = 0).
Proof.
  intros Hg. pose proof Hg as [Hb Hd]. induction fuel as [|fuel IH]; intros x Hx Hf; [lia|]. cbn [put_digits value_rev].
  assert (0 <= x mod base < base) as Hm by (apply Z.mod_pos_bound; lia). rewrite (digit_index digits base) by done. cbn [c_index].
  pose proof (Z.div_mod x base ltac:(lia)) as Ex. destruct (Z.eqb_spec (x / base) 0) as [E0|Hne].
  - cbn [value_rev]. split; [lia|]. intros c [= <-] Ec.
    destruct (lookup_lt_is_Some_2 digits (Z.to_nat (x mod base))) as [d Hdk]; [lia|].
    destruct (lookup_lt_is_Some_2 digits 0%nat) as [d0 Hd0]; [lia|]. rewrite !nth_lookup, Hdk, Hd0 in Ec. simpl in Ec. subst d.
    pose proof (NoDup_lookup _ _ _ _ Hd Hdk Hd0). lia.
  - assert (0 <= x / base) by (apply Z.div_pos; lia).
    assert (x / base < base ^ Z.of_nat fuel) as Hlt.
    { apply Z.div_lt_upper_bound; [lia|]. rewrite Nat2Z.inj_succ, Z.pow_succ_r in Hx by lia. lia. }
    destruct fuel as [|fuel]; [simpl in Hlt; lia|]. destruct (IH (x / base)) as [IH1 IH2]; [lia|lia|]. split; [rewrite IH1; lia|].
    intros c Hc Ec. rewrite last_cons in Hc. destruct (last (put_digits (S fuel) digits (x / base) base)) as [c'|] eqn:El.
    + injection Hc as ->. specialize (IH2 c eq_refl Ec). lia.
    + apply last_None in El. done.
Qed.

Lemma put_digits_length digits base n : 2 <= base -> forall fuel x, 0 <= x < base ^ Z.of_nat n -> (0 < n)%nat -> (length (put_digits fuel digits x base) <= n)%nat.
Proof.
  intros Hb. induction n as [|n IH]; intros fuel x Hx Hn; [lia|]. destruct fuel as [|fuel]; cbn [put_digits length]; [lia|].
  destruct (Z.eqb_spec (x / base) 0) as [|Hne]; [cbn [length]; lia|].
  assert (0 <= x / base) by (apply Z.div_pos; lia).
  assert (x / base < base ^ Z.of_nat n) as Hlt.
  { apply Z.div_lt_upper_bound; [lia|]. rewrite Nat2Z.inj_succ, Z.pow_succ_r in Hx by lia. lia. }
  destruct n as [|n]; [simpl in Hlt; lia|]. apply le_n_S, IH; lia.
Qed.

Lemma digits_good (digits : list Z) base : digits = digits_lower \/ digits = digits_upper -> base = 10 \/ base = 16 -> good_digits digits base.
Proof.
  intros Hd Hb. split; [destruct Hd as [-> | ->], Hb as [-> | ->]; simpl; lia|].
  destruct Hd as [-> | ->]; apply (bool_decide_unpack _); vm_compute; exact I.
Qed.

(** Printed numbers read back.  In base 10 and 16, signed or not, what
    [printint] prints is a minus sign exactly for a negative signed number
    (the least one included), followed by digits without a leading zero whose
    value is the number's magnitude; it never needs more than 11 of the 16
    bytes of its buffer. *)
Theorem printint_reads_back (digits : list Z) (xx base : Z) (sign : bool) :
  digits = digits_lower \/ digits = digits_upper -> base = 10 \/ base = 16 -> is_s32 xx ->
  let neg := sign && (xx <? 0) in
  exists body, print_number digits xx base sign = (if neg then [45] else []) ++ body /\
    value_rev digits base (reverse body) = (if sign then Z.abs xx else u32 xx) /\
    (head body = Some 48 -> body = [48]) /\ (length (print_number digits xx base sign) <= 11)%nat.
Proof.
  intros Hd Hb Hx neg. pose proof (digits_good digits base Hd Hb) as Hg. unfold print_number. rewrite s32_small by done. fold neg.
  set (x := if neg then u32 (- xx) else u32 xx).
  assert (x = if sign then Z.abs xx else u32 xx) as Ex.
  { unfold x, neg, is_s32 in *. destruct sign; cbn [andb]; [|done]. destruct (Z.ltb_spec xx 0); ulia. }
  assert (0 <= x < 4294967296) as Hr.
  { unfold x. destruct neg; apply u32_range. }
  assert (4294967296 <= base ^ Z.of_nat 10 /\ 4294967296 <= base ^ Z.of_nat 32 /\ 2 <= base) as (H10 & H32 & Hb2)
    by (destruct Hb as [-> | ->]; vm_compute; split_and!; discriminate).
  destruct (put_digits_value digits base 32 Hg x ltac:(lia) ltac:(lia)) as [Hv Hlast].
  assert (length (put_digits 32 digits x base) <= 10)%nat as Hl.
  { apply put_digits_length; lia. }
  exists (reverse (put_digits 32 digits x base)). rewrite reverse_app. split; [by destruct neg|]. split; [by rewrite reverse_involutive, Hv|]. split.
  - intros Hh. assert (last (put_digits 32 digits x base) = Some 48) as El.
    { by rewrite <- Hh, head_reverse. }
    assert (nth 0 digits 0 = 48) as E48 by (by destruct Hd as [-> | ->]). assert (x = 0) as E0 by (by eapply Hlast).
    rewrite E0. destruct Hb as [-> | ->]; rewrite <- E48; reflexivity.
  - rewrite length_app, !length_reverse. destruct neg; cbn [length]; lia.
Qed.

Lemma printint_reads_back_witness : exists body, printint (-2147483648) 10 true = [45] ++ body /\
  value_rev digits_lower 10 (reverse body) = 2147483648 /\ (head body = Some 48 -> body = [48]) /\
  (length (printint (-2147483648) 10 true) <= 11)%nat.
Proof.
  apply (printint_reads_back digits_lower (-2147483648) 10 true); [by left|by left|unfold is_s32; lia].
Defined.

(** Neither hexadecimal nor [%c] in a format. *)
Fixpoint plain_format (fmt : list Z) : bool :=
  match fmt with
  | [] => true
  | c :: rest =>
      if c =? 37 then
        match rest with
        | [] => true
        | c :: rest => negb ((c =? 120) || (c =? 112) || (c =? 99)) && plain_format rest
        end
      else plain_format rest
  end.

Lemma put_digits_ext d1 d2 base : (forall k, 0 <= k < base -> nth (Z.to_nat k) d1 0 = nth (Z.to_nat k) d2 0) -> 0 < base ->
  forall fuel x, put_digits fuel d1 x base = put_digits fuel d2 x base.
Proof.
  intros Hd Hb. induction fuel as [|fuel IH]; intros x; [done|]. cbn [put_digits]. rewrite Hd by (apply Z.mod_pos_bound; lia).
  by rewrite IH.
Qed.

Lemma printint_decimal xx sign : u_printint xx 10 sign = printint xx 10 sign.
Proof.
  unfold u_printint, printint, print_number. rewrite (put_digits_ext digits_upper digits_lower); [reflexivity| |lia].
  intros k Hk. assert (k = 0 \/ k = 1 \/ k = 2 \/ k = 3 \/ k = 4 \/ k = 5 \/ k = 6 \/ k = 7 \/ k = 8 \/ k = 9) as Hc by lia.
  repeat (destruct Hc as [->|Hc]; [reflexivity|]). by subst.
Qed.

(** User [printf] and kernel [cprintf], one a state machine over the format
    and the other looking one character ahead, print the same for every
    format without [%x], [%p] and [%c], whatever the arguments. *)
Theorem printf_is_cprintf (str : Z -> list Z) (fmt args : list Z) :
  plain_format fmt = true -> printf str fmt false args = cprintf str fmt args.
Proof.
  assert (forall n fmt, (length fmt <= n)%nat -> forall args, plain_format fmt = true -> printf str fmt false args = cprintf str fmt args) as Hgen;
    [|by apply (Hgen (length fmt))].
  clear. induction n as [|n IH]; intros [|c fmt] Hl args Hp; cbn [length] in Hl; try done; [lia|].
  cbn [printf cprintf plain_format negb] in *. destruct (Z.eqb_spec c 37) as [->|Hne]; cbn [negb].
  - destruct fmt as [|c fmt]; [done|]. cbn [printf negb]. cbn [length] in Hl.
    apply andb_true_iff in Hp as [Hc Hp]. apply negb_true_iff, orb_false_iff in Hc as [Hc1 Hc2]. rewrite Hc1, Hc2.
    assert (forall args, printf str fmt false args = cprintf str fmt args) as E by (intros a; apply IH; [lia|done]).
    rewrite printint_decimal, !E. repeat case_match; try done.
    assert (c = 37) as -> by lia. done.
  - f_equal. apply IH; [lia|done].
Qed.

Lemma printf_is_cprintf_witness :
  printf (fun _ => [104; 105]) [97; 37; 100; 37; 115; 37; 37] false [42; 1] = [97; 52; 50; 104; 105; 37].
Proof. rewrite (printf_is_cprintf (fun _ => [104; 105]) [97; 37; 100; 37; 115; 37; 37] [42; 1]); reflexivity. Defined.

(** ** The screen's cursor *)

Definition blank : Z := Z.lor 32 1792.

Lemma cgaputc_spec c s : 0 <= sc_pos s < 24 * 80 -> exists s', cgaputc c s = Some s' /\ 0 <= sc_pos s' < 24 * 80 /\
  (forall j, ~ (0 <= j < 24 * 80) -> sc_crt s' j = sc_crt s j) /\ sc_crt s' (sc_pos s') = blank /\
  (c <> 10 -> c <> BACKSPACE -> 0 < sc_pos s' /\ sc_crt s' (sc_pos s' - 1) = Z.lor (Z.land c 255) 1792).
Proof.
  intros Hp. destruct s as [crt pos]. cbn [sc_pos sc_crt] in *. unfold cgaputc. cbn [sc_pos sc_crt].
  set (p1 := if c =? 10 then pos + (80 - pos mod 80) else if c =? BACKSPACE then (if 0 <? pos then pos - 1 else pos) else pos + 1).
  set (crt1 := if (c =? 10) || (c =? BACKSPACE) then crt else poke_cell crt pos (Z.lor (Z.land c 255) 1792)).
  assert ((if c =? 10 then (crt, pos + (80 - pos mod 80)) else if c =? BACKSPACE then (crt, if 0 <? pos then pos - 1 else pos)
    else (poke_cell crt pos (Z.lor (Z.land c 255) 1792), pos + 1)) = (crt1, p1)) as ->.
  { unfold crt1, p1. by destruct (c =? 10), (c =? BACKSPACE). }
  assert (0 <= p1 <= 24 * 80) as H1.
  { unfold p1. repeat case_bool; Z.div_mod_to_equations; lia. }
  assert (forall j, ~ (0 <= j < 24 * 80) -> crt1 j = crt j) as Hc1.
  { intros j Hj. unfold crt1, poke_cell. destruct (_ || _); [done|]. destruct (Z.eqb_spec j pos); [lia|done]. }
  assert (c <> 10 -> c <> BACKSPACE -> p1 = pos + 1 /\ crt1 pos = Z.lor (Z.land c 255) 1792) as Hc2.
  { intros N1 N2. unfold p1, crt1, poke_cell. destruct (Z.eqb_spec c 10); [done|]. destruct (Z.eqb_spec c BACKSPACE); [done|].
    cbn [orb]. by rewrite Z.eqb_refl. }
  clearbody p1 crt1. assert ((p1 <? 0) || (25 * 80 <? p1) = false) as -> by (apply orb_false_iff; lia).
  assert (24 <= p1 / 80 <-> p1 = 1920) as Hs by (Z.div_mod_to_equations; lia).
  destruct (Z.leb_spec 24 (p1 / 80)) as [Hle|Hlt]; eexists; (split; [done|]); cbn [sc_pos sc_crt].
  - apply Hs in Hle. subst p1. split; [lia|]. unfold poke_cell. split; [|split].
    + intros j Hj. destruct (Z.eqb_spec j (1920 - 80)); [lia|]. case_cmp; try lia; by apply Hc1.
    + by rewrite Z.eqb_refl.
    + intros N1 N2. destruct (Hc2 N1 N2) as [E1 E2]. split; [lia|]. rewrite <- E2. case_cmp; try lia; f_equal; lia.
  - assert (p1 <> 1920) as Hne by lia. split; [lia|]. unfold poke_cell. split; [|split].
    + intros j Hj. destruct (Z.eqb_spec j p1); [lia|]. by apply Hc1.
    + by rewrite Z.eqb_refl.
    + intros N1 N2. destruct (Hc2 N1 N2) as [E1 E2]. split; [lia|]. rewrite <- E2. destruct (Z.eqb_spec (p1 - 1) p1); [lia|]. f_equal. lia.
Qed.

(** The screen never overflows.  From a cursor on the first 24 lines,
    [consolewrite] of any bytes ends without the cursor's panic, with the
    cursor on those lines again, on a blank cell, and without having written
    a cell outside them; a last byte that is not a newline is in the cell
    before the cursor. *)
Theorem consolewrite_on_screen (buf : list Z) (s : screen) : 0 <= sc_pos s < 24 * 80 -> Forall (fun c => 0 <= c < 256) buf ->
  exists s', consolewrite buf s = Some s' /\ 0 <= sc_pos s' < 24 * 80 /\
    (forall j, ~ (0 <= j < 24 * 80) -> sc_crt s' j = sc_crt s j) /\
    (buf <> [] -> sc_crt s' (sc_pos s') = blank) /\
    (forall c, last buf = Some c -> c <> 10 -> 0 < sc_pos s' /\ sc_crt s' (sc_pos s' - 1) = Z.lor c 1792).
Proof.
  intros Hp Hb. revert s Hp. induction Hb as [|c buf Hc Hb IH]; intros s Hp; [by exists s|].
  cbn [consolewrite]. assert (Z.land c 255 = c) as El.
  { change 255 with (Z.ones 8). rewrite Z.land_ones by lia. apply Z.mod_small. done. }
  rewrite El. destruct (cgaputc_spec c s Hp) as (s1 & E1 & Hp1 & Ho1 & Hbl & Hch). unfold consputc. rewrite E1. cbn.
  destruct buf as [|c' buf].
  - exists s1. cbn [consolewrite]. do 4 (split; [done|]). intros x [= <-] Hne.
    destruct Hch as [Hc1 Hc2]; [done|unfold BACKSPACE; lia|]. rewrite El in Hc2. done.
  - destruct (IH s1 Hp1) as (s2 & -> & Hp2 & Ho2 & Hbl2 & Hch2). exists s2. split; [done|]. split; [done|].
    split; [intros j Hj; by rewrite Ho2, Ho1|]. split; [intros _; by apply Hbl2|]. exact Hch2.
Qed.

Lemma consolewrite_on_screen_witness : exists s', consolewrite [104; 105; 10; 33] (Screen (fun _ => 0) 1900) = Some s' /\
  0 <= sc_pos s' < 24 * 80 /\ (forall j, ~ (0 <= j < 24 * 80) -> sc_crt s' j = 0) /\
  ([104; 105; 10; 33] <> [] -> sc_crt s' (sc_pos s') = blank) /\
  (forall c, Some 33 = Some c -> c <> 10 -> 0 < sc_pos s' /\ sc_crt s' (sc_pos s' - 1) = Z.lor c 1792).
Proof.
  apply (consolewrite_on_screen [104; 105; 10; 33] (Screen (fun _ => 0) 1900)); [simpl; lia|].
  repeat constructor; lia.
Defined.

(** ** The line editor, abstractly

    Characters ready to be read, and the line being typed. *)
Record editor := Editor { ed_ready : list Z; ed_line : list Z }.

Definition ed_size (a : editor) : nat := (length (ed_ready a) + length (ed_line a))%nat.

Definition edit_key (c : Z) (a : editor) : editor :=
  if c =? ctrl_P then a else
  if c =? ctrl_U then Editor (ed_ready a) [] else
  if (c =? ctrl_H) || (c =? 127) then Editor (ed_ready a) (removelast (ed_line a)) else
  if negb (c =? 0) && (ed_size a <? 128)%nat then
    let c := if c =? 13 then 10 else c in
    let line := ed_line a ++ [c] in
    if (c =? 10) || (c =? ctrl_D) || (S (ed_size a) =? 128)%nat then Editor (ed_ready a ++ line) []
    else Editor (ed_ready a) line
  else a.

(** A read: the bytes, what is left, and how many are still wanted if the
    reader sleeps. *)
Fixpoint edit_read (start : bool) (n : nat) (ready : list Z) : list Z * list Z * option nat :=
  match n with
  | O => ([], ready, None)
  | S n' =>
      match ready with
      | [] => ([], [], Some n)
      | c :: rest =>
          if c =? ctrl_D then ([], if start then rest else ready, None) else
          if c =? 10 then ([c], rest, None) else
          let '(bs, remains, more) := edit_read false n' rest in (c :: bs, remains, more)
      end
  end.

(** ** The ring stands for an editor *)

Lemma u32_dist a b : is_u32 a -> is_u32 b -> u32 (b - a) = b - a /\ a <= b \/ u32 (b - a) = b - a + two32 /\ b < a.
Proof. ulia. Qed.
Lemma u32_shift x y : is_u32 y -> x = y \/ x = y - two32 \/ x = y + two32 -> u32 x = y.
Proof. ulia. Qed.
Lemma u32_period a : u32 (a + two32) = u32 a.
Proof. ulia. Qed.
Lemma u32_next a : is_u32 a -> u32 (a + 1) = a + 1 /\ a + 1 < two32 \/ u32 (a + 1) = 0 /\ a + 1 = two32.
Proof. ulia. Qed.

Definition seg (s : input) (from : Z) (n : nat) : list Z := (fun k => in_at s (from + Z.of_nat k)) <$> seq 0 n.
Definition nready (s : input) : nat := Z.to_nat (u32 (in_w s - in_r s)).
Definition nline (s : input) : nat := Z.to_nat (u32 (in_e s - in_w s)).

Record ring_ok (s : input) : Prop := {
  rg_len : length (in_buf s) = 128%nat;
  rg_r : is_u32 (in_r s); rg_w : is_u32 (in_w s); rg_e : is_u32 (in_e s);
  rg_size : (nready s + nline s <= 128)%nat;
  rg_full : (nready s + nline s = 128)%nat -> nline s = 0%nat;
  rg_line : Forall (fun c => c <> 10) (seg s (in_w s) (nline s));
}.

Definition stands_for (s : input) (a : editor) : Prop :=
  ring_ok s /\ ed_ready a = seg s (in_r s) (nready s) /\ ed_line a = seg s (in_w s) (nline s).

Lemma in_at_u32 s k : in_at s (u32 k) = in_at s k.
Proof. unfold in_at. do 2 f_equal. unfold u32, two32, INPUT_BUF. Z.div_mod_to_equations. lia. Qed.

Lemma seg_length s from n : length (seg s from n) = n.
Proof. unfold seg. by rewrite length_fmap, length_seq. Qed.

Lemma seg_u32 s from n : seg s (u32 from) n = seg s from n.
Proof.
  unfold seg. apply list_fmap_ext. intros i k _. rewrite <- (in_at_u32 s (u32 from + _)), <- (in_at_u32 s (from + _)). f_equal. ulia.
Qed.

Lemma seg_cons s from n : seg s from (S n) = in_at s from :: seg s (from + 1) n.
Proof.
  unfold seg. cbn [seq fmap list_fmap]. rewrite Z.add_0_r. f_equal. rewrite <- fmap_S_seq, <- list_fmap_compose.
  apply list_fmap_ext. intros i k _. cbn [compose]. f_equal. lia.
Qed.

Lemma seg_snoc s from n : seg s from (S n) = seg s from n ++ [in_at s (from + Z.of_nat n)].
Proof. unfold seg. by rewrite seq_S, fmap_app. Qed.

Lemma seg_app s from n m : seg s from (n + m) = seg s from n ++ seg s (from + Z.of_nat n) m.
Proof.
  revert from. induction n as [|n IH]; intros from; [cbn; by rewrite Z.add_0_r|]. cbn [Nat.add]. rewrite !seg_cons, IH. cbn. do 2 f_equal. f_equal. lia.
Qed.

(** A byte stored behind a segment is not in it. *)
Lemma seg_store buf r w e r' w' e' from n c : length buf = 128%nat -> (n < 128)%nat ->
  seg (Input (<[Z.to_nat ((from + Z.of_nat n) mod INPUT_BUF) := c]> buf) r w e) from n = seg (Input buf r' w' e') from n.
Proof.
  intros Hl Hn. apply list_fmap_ext. intros i k [-> Hi]%lookup_seq. unfold in_at, INPUT_BUF. cbn [in_buf].
  rewrite !nth_lookup, list_lookup_insert_ne; [done|]. Z.div_mod_to_equations. lia.
Qed.

Lemma in_at_store buf r w e at_ c : length buf = 128%nat ->
  in_at (Input (<[Z.to_nat (at_ mod INPUT_BUF) := c]> buf) r w e) at_ = c.
Proof.
  intros Hl. unfold in_at, INPUT_BUF. cbn [in_buf]. rewrite nth_lookup, list_lookup_insert_eq; [done|]. Z.div_mod_to_equations. lia.
Qed.

Lemma seg_same s s' from n : in_buf s = in_buf s' -> seg s from n = seg s' from n.
Proof. intros E. apply list_fmap_ext. intros i k _. unfold in_at. by rewrite E. Qed.

(** Taking back the last character of the line. *)
Definition unput (s : input) : input := Input (in_buf s) (in_r s) (in_w s) (u32 (in_e s - 1)).

Lemma unput_stands s a : stands_for s a -> in_e s <> in_w s ->
  stands_for (unput s) (Editor (ed_ready a) (removelast (ed_line a))) /\ nline s = S (nline (unput s)) /\
  in_at s (u32 (in_e s - 1)) <> 10.
Proof.
  intros ([Hl Hr Hw He Hs Hf Hln] & E1 & E2) Hne.
  pose proof (u32_dist _ _ Hw He) as Dl.
  assert (nline s = S (nline (unput s))) as En.
  { unfold nline, unput. cbn [in_e in_w]. rewrite u32_sub_l.
    rewrite (u32_shift (in_e s - 1 - in_w s) (u32 (in_e s - in_w s) - 1)); unfold is_u32, two32 in *; lia. }
  rewrite En in Hln, E2. rewrite seg_snoc in Hln, E2. apply Forall_app in Hln as [Hln Hlast].
  assert (in_at s (in_w s + Z.of_nat (nline (unput s))) = in_at s (u32 (in_e s - 1))) as Ea.
  { rewrite <- in_at_u32. f_equal. unfold nline in En |- *. destruct Dl as [[D _]|[D _]].
    - f_equal. lia.
    - rewrite <- (u32_period (in_e s - 1)). f_equal. lia. }
  split; [|split; [done|]].
  - split; [split|split]; cbn [ed_ready ed_line unput in_buf in_r in_w in_e]; try done.
    + apply u32_range.
    + change (nready (unput s)) with (nready s). lia.
    + change (nready (unput s)) with (nready s). lia.
    + rewrite E2. by rewrite removelast_last.
  - rewrite <- Ea. by apply Forall_inv in Hlast.
Qed.

Lemma stands_empty s a : stands_for s a -> nline s = 0%nat -> stands_for s (Editor (ed_ready a) []).
Proof. intros (Hok & E1 & E2) E. split; [done|]. split; [done|]. by rewrite E. Qed.

Lemma kill_line_stands fuel : forall s a, stands_for s a -> (nline s <= fuel)%nat ->
  stands_for (fst (kill_line fuel s)) (Editor (ed_ready a) []) /\ snd (kill_line fuel s) = nline s.
Proof.
  induction fuel as [|fuel IH]; intros s a Hs Hf; cbn [kill_line].
  - cbn [fst snd]. split; [apply stands_empty; [done|lia]|lia].
  - destruct (Z.eqb_spec (in_e s) (in_w s)) as [Ee|Hne]; cbn [negb andb].
    + assert (nline s = 0%nat) as E by (unfold nline; rewrite Ee, Z.sub_diag; done). cbn [fst snd].
      split; [by apply stands_empty|lia].
    + destruct (unput_stands s a Hs Hne) as (Hu & En & Hc). destruct (Z.eqb_spec (in_at s (u32 (in_e s - 1))) 10); [done|]. cbn [negb].
      destruct (IH (unput s) _ Hu) as [IH1 IH2]; [lia|]. unfold unput in IH1, IH2. destruct (kill_line fuel _) as [s' n'].
      cbn [fst snd] in *. split; [exact IH1|]. rewrite IH2. fold (unput s). lia.
Qed.

Lemma stands_size s a : stands_for s a -> ed_size a = (nready s + nline s)%nat.
Proof. intros (_ & E1 & E2). unfold ed_size. by rewrite E1, E2, !seg_length. Qed.

Lemma e_minus_r s : ring_ok s -> u32 (in_e s - in_r s) = Z.of_nat (nready s + nline s).
Proof.
  intros [_ Hr Hw He Hs _ _]. unfold nready, nline in *.
  destruct (u32_dist _ _ Hr Hw), (u32_dist _ _ Hw He); apply u32_shift; unfold is_u32, two32 in *; lia.
Qed.

Lemma ring_index a b : b = a \/ b = a + two32 -> a mod INPUT_BUF = b mod INPUT_BUF.
Proof. unfold INPUT_BUF, two32. intros. Z.div_mod_to_equations. lia. Qed.

(** A character added to the line, and the line made ready if [commit]. *)
Lemma put_stands s a c (commit : bool) : stands_for s a -> (ed_size a < 128)%nat -> 0 <= c < 256 -> (c = 10 -> commit = true) ->
  (S (ed_size a) = 128%nat -> commit = true) ->
  let e := u32 (in_e s + 1) in
  stands_for (Input (<[Z.to_nat (in_e s mod INPUT_BUF) := c mod 256]> (in_buf s)) (in_r s) (if commit then e else in_w s) e)
    (if commit then Editor (ed_ready a ++ ed_line a ++ [c]) [] else Editor (ed_ready a) (ed_line a ++ [c])).
Proof.
  intros Hst Hlt Hc H10 Hfull e. pose proof (stands_size s a Hst) as Esz. destruct Hst as (Hok & E1 & E2).
  destruct s as [buf r w e0]. destruct Hok as [Hl Hr Hw He Hs Hf Hln]. cbn [in_buf in_r in_w in_e] in *.
  set (n := nready (Input buf r w e0)) in *. set (m := nline (Input buf r w e0)) in *. rewrite (Z.mod_small c) by lia.
  set (w' := if commit then e else w). set (buf' := <[Z.to_nat (e0 mod INPUT_BUF) := c]> buf). set (s' := Input buf' r w' e).
  pose proof (u32_dist _ _ Hr Hw) as Dr. pose proof (u32_dist _ _ Hw He) as Dw. pose proof (u32_next e0 He) as De. fold e in De.
  assert (Z.of_nat n = u32 (w - r) /\ Z.of_nat m = u32 (e0 - w)) as [Fn Fm].
  { unfold n, m, nready, nline. cbn [in_r in_w in_e]. pose proof (u32_range (w - r)). pose proof (u32_range (e0 - w)). unfold is_u32 in *. lia. }
  assert (r + Z.of_nat (n + m) = e0 \/ r + Z.of_nat (n + m) = e0 + two32) as Er by (unfold is_u32, two32 in *; lia).
  assert (w + Z.of_nat m = e0 \/ w + Z.of_nat m = e0 + two32) as Ew by (unfold is_u32, two32 in *; lia).
  assert (e0 mod INPUT_BUF = (r + Z.of_nat (n + m)) mod INPUT_BUF) as Em1 by (apply ring_index, Er).
  assert (e0 mod INPUT_BUF = (w + Z.of_nat m) mod INPUT_BUF) as Em2 by (apply ring_index, Ew).
  assert (seg s' r (n + m) = ed_ready a ++ ed_line a) as Sr.
  { unfold s', buf'. rewrite Em1, (seg_store _ _ _ _ r w e0) by (done || lia). rewrite seg_app, E1. f_equal. rewrite E2.
    rewrite <- (seg_u32 _ (r + Z.of_nat n)). f_equal. rewrite Fn. apply u32_shift; [done|]. lia. }
  assert (seg s' w m = ed_line a) as Sw.
  { unfold s', buf'. rewrite Em2, (seg_store _ _ _ _ r w e0) by (done || lia). done. }
  assert (in_at s' (r + Z.of_nat (n + m)) = c /\ in_at s' (w + Z.of_nat m) = c) as [Ar Aw].
  { unfold s', buf'. split; [rewrite Em1|rewrite Em2]; by apply in_at_store. }
  assert (length buf' = 128%nat) as Hl' by (unfold buf'; by rewrite length_insert).
  destruct commit; subst w'.
  - assert (nready s' = S (n + m)) as En.
    { unfold nready, s'. cbn [in_r in_w]. rewrite (u32_shift (e - r) (Z.of_nat (S (n + m)))); unfold is_u32, two32 in *; lia. }
    assert (nline s' = 0%nat) as Ez by (unfold nline, s'; cbn [in_w in_e]; by rewrite Z.sub_diag).
    split; [split|split]; cbn [s' in_buf in_r in_w in_e ed_ready ed_line]; try done; try apply u32_range.
    + lia.
    + rewrite Ez. constructor.
    + rewrite En, seg_snoc, Sr, Ar. by rewrite app_assoc.
    + by rewrite Ez.
  - assert (nready s' = n) as En by done.
    assert (nline s' = S m) as Ez.
    { unfold nline, s'. cbn [in_w in_e]. rewrite (u32_shift (e - w) (Z.of_nat (S m))); unfold is_u32, two32 in *; lia. }
    assert (S (n + m) <> 128%nat) as Hne by (intros E; rewrite <- Esz in E; by apply Hfull in E).
    split; [split|split]; cbn [s' in_buf in_r in_w in_e ed_ready ed_line]; try done; try apply u32_range.
    + lia.
    + lia.
    + rewrite Ez, seg_snoc, Sw, Aw. apply Forall_app. split; [by rewrite E2|]. repeat constructor. intros ->. by specialize (H10 eq_refl).
    + rewrite En, E1. assert (seg s' r (n + m) = seg s' r n ++ seg s' (r + Z.of_nat n) m) as Ea by apply seg_app.
      rewrite Sr, E1 in Ea. apply app_inj_1 in Ea as [Ea _]; [done|]. by rewrite !seg_length.
    + by rewrite Ez, seg_snoc, Sw, Aw.
Qed.

Lemma key_stands s a c : stands_for s a -> 0 <= c < 256 -> stands_for (fst (console_key c s)) (edit_key c a).
Proof.
  intros Hst Hc. pose proof Hst as (Hok & E1 & E2). unfold console_key, edit_key. destruct (c =? ctrl_P); [done|].
  destruct (c =? ctrl_U).
  { destruct (kill_line_stands (Z.to_nat INPUT_BUF) s a Hst) as [Hk _]; [pose proof (rg_size _ Hok); change (Z.to_nat INPUT_BUF) with 128%nat; lia|].
    by destruct (kill_line _ s). }
  destruct ((c =? ctrl_H) || (c =? 127)).
  { destruct (Z.eqb_spec (in_e s) (in_w s)) as [Ee|Hne]; cbn [fst]; [|by apply unput_stands].
    assert (nline s = 0%nat) as E by (unfold nline; rewrite Ee, Z.sub_diag; done). rewrite E2, E. by apply stands_empty. }
  rewrite (e_minus_r s Hok), <- (stands_size s a Hst). unfold INPUT_BUF at 1.
  destruct (Z.eqb_spec c 0) as [|Hc0]; cbn [negb andb]; [done|].
  destruct (Nat.ltb_spec (ed_size a) 128), (Z.ltb_spec (Z.of_nat (ed_size a)) 128); try lia; [|done].
  cbn [fst]. set (c' := if c =? 13 then 10 else c).
  assert ((u32 (in_e s + 1) =? u32 (in_r s + INPUT_BUF)) = (S (ed_size a) =? 128)%nat) as ->.
  { pose proof (e_minus_r s Hok) as Ed. rewrite <- (stands_size s a Hst) in Ed. destruct Hok as [_ Hr _ He _ _ _].
    clear - Ed Hr He H. unfold INPUT_BUF. apply eq_true_iff_eq. rewrite Z.eqb_eq, Nat.eqb_eq. ulia. }
  set (commit := (c' =? 10) || (c' =? ctrl_D) || (S (ed_size a) =? 128)%nat).
  assert (c' = 10 -> commit = true) as H10 by (unfold commit; by intros ->).
  assert (S (ed_size a) = 128%nat -> commit = true) as H128 by (unfold commit; intros ->; apply orb_true_r).
  assert (0 <= c' < 256) as Hc' by (unfold c'; destruct (c =? 13); lia).
  pose proof (put_stands s a c' commit Hst ltac:(lia) Hc' H10 H128) as Hp. by destruct commit.
Qed.

Lemma take_stands s a c rest : stands_for s a -> ed_ready a = c :: rest ->
  in_r s <> in_w s /\ in_at s (in_r s) = c /\
  stands_for (Input (in_buf s) (u32 (in_r s + 1)) (in_w s) (in_e s)) (Editor rest (ed_line a)).
Proof.
  intros (Hok & E1 & E2) Er. destruct s as [buf r w e]. destruct Hok as [Hl Hr Hw He Hs Hf Hln]. cbn [in_buf in_r in_w in_e] in *.
  set (s := Input buf r w e) in *. set (s' := Input buf (u32 (r + 1)) w e).
  destruct (nready s) as [|n] eqn:En; [rewrite E1 in Er; discriminate|]. rewrite seg_cons, Er in E1. injection E1 as Ec Erest.
  pose proof (u32_dist _ _ Hr Hw) as Dr. pose proof (u32_next r Hr) as Dn.
  assert (Z.of_nat (S n) = u32 (w - r)) as Fn.
  { rewrite <- En. unfold nready, s. cbn [in_r in_w]. pose proof (u32_range (w - r)). unfold is_u32 in *. lia. }
  assert (nready s' = n) as En'.
  { unfold nready, s'. cbn [in_r in_w]. rewrite (u32_shift (w - u32 (r + 1)) (Z.of_nat n)); unfold is_u32, two32 in *; lia. }
  split; [intros ->; rewrite Z.sub_diag in Fn; discriminate|]. split; [by rewrite Ec|].
  split; [split|split]; cbn [s' in_buf in_r in_w in_e ed_ready ed_line]; try done.
  - apply u32_range.
  - change (nline s') with (nline s). lia.
  - change (nline s') with (nline s). lia.
  - rewrite En', Erest, seg_u32. by apply seg_same.
Qed.

(** A read against the abstract one. *)
Definition same_read (r : cread) (a : editor) (x : list Z * list Z * option nat) : Prop :=
  match r, x with
  | CDone bs s', (bs', remains, None) => bs = bs' /\ stands_for s' (Editor remains (ed_line a))
  | CSleep bs n s', (bs', remains, Some m) => bs = bs' /\ n = m /\ stands_for s' (Editor remains (ed_line a))
  | _, _ => False
  end.

Lemma read_stands n : forall start s a, stands_for s a -> same_read (consoleread false start n s) a (edit_read start n (ed_ready a)).
Proof.
  induction n as [|n IH]; intros start s a Hst; cbn [consoleread edit_read]; [split; [done|by destruct a]|].
  destruct (ed_ready a) as [|c rest] eqn:Er.
  - pose proof Hst as (Hok & E1 & E2). assert (in_r s = in_w s) as ->.
    { rewrite Er in E1. symmetry in E1. apply (f_equal length) in E1. rewrite seg_length in E1. simpl in E1.
      unfold nready in E1. destruct Hok as [_ Hr Hw _ _ _ _]. destruct (u32_dist _ _ Hr Hw); unfold is_u32, two32 in *; lia. }
    rewrite Z.eqb_refl. split; [done|]. split; [done|]. rewrite <- Er. by destruct a.
  - destruct (take_stands s a c rest Hst Er) as (Hne & Hc & Hst'). destruct (Z.eqb_spec (in_r s) (in_w s)); [done|].
    rewrite Hc. destruct (c =? ctrl_D).
    { split; [done|]. destruct start; [done|]. rewrite <- Er. by destruct a. }
    destruct (c =? 10); [done|]. specialize (IH false _ _ Hst'). cbn [ed_ready] in IH.
    destruct (consoleread false false n _) as [bs s'|bs k s'|s'], (edit_read false n rest) as [[bs' remains] [m|]];
      cbn [same_read cread_cons ed_line] in *; try done; destruct IH as (-> & IH); done.
Qed.

(** What happens at the console: characters arrive, a process reads. *)
Inductive cevent := Typed (cs : list Z) | Asked (n : nat).

Definition cevent_ok (o : cevent) : Prop := match o with Typed cs => Forall (fun c => 0 <= c < 256) cs | Asked _ => True end.

(** The bytes each read returns, with those a sleeping reader still wants. *)
Fixpoint console_runs (os : list cevent) (s : input) : list (list Z * option nat) * input :=
  match os with
  | [] => ([], s)
  | Typed cs :: os' => let '(s', _, _) := consoleintr cs s in console_runs os' s'
  | Asked n :: os' =>
      match consoleread false true n s with
      | CDone bs s' => let '(rs, t) := console_runs os' s' in ((bs, None) :: rs, t)
      | CSleep bs k s' => let '(rs, t) := console_runs os' s' in ((bs, Some k) :: rs, t)
      | CKilled s' => ([], s')
      end
  end.
Fixpoint edit_runs (os : list cevent) (a : editor) : list (list Z * option nat) * editor :=
  match os with
  | [] => ([], a)
  | Typed cs :: os' => edit_runs os' (foldl (fun a c => edit_key c a) a cs)
  | Asked n :: os' =>
      let '(bs, remains, more) := edit_read true n (ed_ready a) in
      let '(rs, t) := edit_runs os' (Editor remains (ed_line a)) in ((bs, more) :: rs, t)
  end.

Lemma typed_stands cs : forall s a, stands_for s a -> Forall (fun c => 0 <= c < 256) cs ->
  stands_for (fst (fst (consoleintr cs s))) (foldl (fun a c => edit_key c a) a cs).
Proof.
  induction cs as [|c cs IH]; intros s a Hst Hcs; [done|]. apply Forall_cons in Hcs as [Hc Hcs]. cbn [consoleintr foldl].
  pose proof (key_stands s a c Hst Hc) as Hk. destruct (console_key c s) as [s1 out]. specialize (IH s1 _ Hk Hcs).
  destruct (consoleintr cs s1) as [[s2 outs] dump]. done.
Qed.

(** The console's ring of 128 bytes with its three wrapping indices is a
    line editor.  Whatever is typed (any characters, with erasing, line
    kills, end-of-file marks and full buffers) and however reads are
    interleaved, every read returns the bytes, or sleeps wanting as many
    more, as the editor that keeps the finished input and the current line as
    two lists; and the indices may start anywhere, also just before they wrap. *)
Theorem console_refines (os : list cevent) (s : input) (a : editor) : stands_for s a -> Forall cevent_ok os ->
  fst (console_runs os s) = fst (edit_runs os a) /\ stands_for (snd (console_runs os s)) (snd (edit_runs os a)).
Proof.
  revert s a. induction os as [|[cs|n] os IH]; intros s a Hst Hos; [done|..]; apply Forall_cons in Hos as [Ho Hos]; cbn [console_runs edit_runs].
  - pose proof (typed_stands cs s a Hst Ho) as Ht. destruct (consoleintr cs s) as [[s' out] d]. by apply IH.
  - pose proof (read_stands n true s a Hst) as Hr.
    destruct (consoleread false true n s) as [bs s'|bs k s'|s'], (edit_read true n (ed_ready a)) as [[bs' remains] [m|]]; try done.
    + destruct Hr as [-> Hr]. destruct (IH s' _ Hr Hos) as [H1 H2]. destruct (console_runs os s'), (edit_runs os _). cbn in *. by subst.
    + destruct Hr as (-> & -> & Hr). destruct (IH s' _ Hr Hos) as [H1 H2]. destruct (console_runs os s'), (edit_runs os _). cbn in *. by subst.
Qed.

(** A console whose indices are about to wrap. *)
Definition late_input : input := Input (replicate 128 0) 4294967294 4294967294 4294967294.

Lemma late_stands : stands_for late_input (Editor [] []).
Proof.
  assert (nready late_input = 0%nat /\ nline late_input = 0%nat) as [E1 E2] by (split; reflexivity).
  split; [split; rewrite ?E1, ?E2; try done; cbn; lia || constructor|]. by rewrite E1, E2.
Qed.

Lemma console_refines_witness :
  fst (console_runs [Asked 3; Typed [104; 120; 8; 105; 13]; Asked 10] late_input) = [([], Some 3%nat); ([104; 105; 10], None)].
Proof.
  destruct (console_refines [Asked 3; Typed [104; 120; 8; 105; 13]; Asked 10] late_input (Editor [] []) late_stands) as [E _];
    [repeat constructor; lia|exact E].
Defined.
