(* ===== verification/Grep.v ===== *)
(** * The pattern matcher of [grep.c]

    [match], [matchhere] and [matchstar] on NUL-terminated strings, given as
    lists of characters, against the language a pattern denotes; and the loop
    of [grep] that takes its input apart into lines. *)

From S2P Require Import Prelude.

Definition CARET : Z := 94.
Definition DOLLAR : Z := 36.
Definition DOT : Z := 46.
Definition STAR : Z := 42.
Definition NEWLINE : Z := 10.

(** [matchstar] for the character [c], with [here] the match of what follows
    the star. *)
Fixpoint matchstar (here : list Z -> bool) (c : Z) (text : list Z) : bool :=
  here text ||
  match text with
  | [] => false
  | t :: text' => ((t =? c) || (c =? DOT)) && matchstar here c text'
  end.

Fixpoint matchhere (re text : list Z) {struct re} : bool :=
  match re with
  | [] => true
  | c :: re1 =>
      let literal :=
        if (c =? DOLLAR) && (match re1 with [] => true | _ => false end)
        then match text with [] => true | _ => false end
        else match text with
             | [] => false
             | t :: text' => ((c =? DOT) || (c =? t)) && matchhere re1 text'
             end in
      match re1 with
      | s :: re2 => if s =? STAR then matchstar (matchhere re2) c text else literal
      | [] => literal
      end
  end.

(** The [do] loop of [match]: from every suffix, the empty one included. *)
Fixpoint match_from (re text : list Z) : bool :=
  matchhere re text || match text with [] => false | _ :: text' => match_from re text' end.

Definition match_re (re text : list Z) : bool :=
  match re with
  | c :: re' => if c =? CARET then matchhere re' text else match_from re text
  | [] => match_from re text
  end.

(** ** What a pattern denotes *)

(** One character of the text: any, or a given one. *)
Inductive atom := Any | Char (c : Z).
Inductive item := One (a : atom) | Many (a : atom).

Definition atom_of (c : Z) : atom := if c =? DOT then Any else Char c.

(** The items of a pattern without its leading caret, and whether it is
    anchored at the end. *)
Fixpoint items (re : list Z) : list item * bool :=
  match re with
  | [] => ([], false)
  | c :: re1 =>
      match re1 with
      | [] => if c =? DOLLAR then ([], true) else ([One (atom_of c)], false)
      | s :: re2 =>
          if s =? STAR then let '(l, e) := items re2 in (Many (atom_of c) :: l, e)
          else let '(l, e) := items re1 in (One (atom_of c) :: l, e)
      end
  end.

Inductive atom_in : atom -> Z -> Prop :=
  | in_any t : atom_in Any t
  | in_char c : atom_in (Char c) c.

(** The strings a sequence of items stands for. *)
Inductive lang : list item -> list Z -> Prop :=
  | lang_nil : lang [] []
  | lang_one a t l w : atom_in a t -> lang l w -> lang (One a :: l) (t :: w)
  | lang_done a l w : lang l w -> lang (Many a :: l) w
  | lang_more a t l w : atom_in a t -> lang (Many a :: l) w -> lang (Many a :: l) (t :: w).

(** [re] describes some part of [text], at the ends it is anchored to. *)
Definition describes (re text : list Z) : Prop :=
  let '(re', start) := match re with c :: r => if c =? CARET then (r, true) else (re, false) | [] => ([], false) end in
  exists before word after, text = before ++ word ++ after /\ lang (fst (items re')) word /\
    (start = true -> before = []) /\ (snd (items re') = true -> after = []).

(** ** The matcher is right *)

(** [re] at the start of [text]. *)
Definition prefix_ok (re text : list Z) : Prop :=
  exists word after, text = word ++ after /\ lang (fst (items re)) word /\ (snd (items re) = true -> after = []).

Lemma atom_test c t : ((c =? DOT) || (c =? t)) = true <-> atom_in (atom_of c) t.
Proof.
  unfold atom_of. destruct (Z.eqb_spec c DOT) as [->|Hc]; cbn [orb].
  - split; [constructor|done].
  - rewrite Z.eqb_eq. split; [intros ->; constructor|by inversion 1].
Qed.

Lemma star_test c t : ((t =? c) || (c =? DOT)) = true <-> atom_in (atom_of c) t.
Proof. rewrite <- atom_test, (Z.eqb_sym t), orb_comm. done. Qed.

Lemma matchstar_spec here c l e text :
  (forall t, here t = true <-> exists w a, t = w ++ a /\ lang l w /\ (e = true -> a = [])) ->
  matchstar here c text = true <-> exists w a, text = w ++ a /\ lang (Many (atom_of c) :: l) w /\ (e = true -> a = []).
Proof.
  intros Hh. induction text as [|t text IH]; cbn [matchstar].
  - rewrite orb_false_r, Hh. split; intros (w & a & E & Hl & He); exists w, a; (split; [done|split; [|done]]); [by constructor|].
    destruct w; [|done]. by inversion Hl.
  - rewrite orb_true_iff, andb_true_iff, Hh, star_test, IH. split.
    + intros [(w & a & E & Hl & He)|(Ha & w & a & E & Hl & He)].
      * exists w, a. split; [done|]. split; [by constructor|done].
      * exists (t :: w), a. split; [by rewrite E|]. split; [by constructor|done].
    + intros (w & a & E & Hl & He). inversion Hl as [| |? ? ? Hl'|? t' ? w' Ha Hl']; subst.
      * left. by exists w, a.
      * injection E as -> ->. right. split; [done|]. by exists w', a.
Qed.

Lemma matchone_spec c re1 text : (forall t, matchhere re1 t = true <-> prefix_ok re1 t) ->
  match text with [] => false | t :: text' => ((c =? DOT) || (c =? t)) && matchhere re1 text' end = true <->
  exists w a, text = w ++ a /\ lang (One (atom_of c) :: fst (items re1)) w /\ (snd (items re1) = true -> a = []).
Proof.
  intros Hre. destruct text as [|t text].
  - split; [done|]. intros (w & a & E & Hl & _). destruct w; [inversion Hl|done].
  - rewrite andb_true_iff, atom_test, Hre. split.
    + intros (Ha & w & a & E & Hl & He). exists (t :: w), a. split; [by rewrite E|]. split; [by constructor|done].
    + intros (w & a & E & Hl & He). inversion Hl as [|? t' ? w' Ha Hl'| |]; subst. injection E as -> ->. split; [done|]. by exists w', a.
Qed.

Lemma matchhere_spec n : forall re text, (length re <= n)%nat -> matchhere re text = true <-> prefix_ok re text.
Proof.
  assert (Hnil : forall text, matchhere [] text = true <-> prefix_ok [] text).
  { intros text. split; [|done]. intros _. exists [], text. split; [done|]. split; [constructor|done]. }
  induction n as [|n IH]; intros re text Hn.
  { destruct re; [apply Hnil|cbn in Hn; lia]. }
  destruct re as [|c [|s re2]]; [apply Hnil|..]; unfold prefix_ok.
  - cbn [matchhere items]. destruct (Z.eqb_spec c DOLLAR) as [->|Hc]; cbn [andb fst snd].
    + destruct text as [|t text]; split; try done.
      * intros _. exists [], []. split; [done|]. split; [constructor|done].
      * intros (w & a & E & Hl & He). rewrite He in E by done. inversion Hl; subst. done.
    + change true with (matchhere [] []). apply (matchone_spec c [] text Hnil).
  - cbn in Hn. destruct (Z.eqb_spec s STAR) as [->|Hs].
    + cbn [matchhere items]. rewrite Z.eqb_refl. pose proof (fun t => IH re2 t ltac:(lia)) as H2. unfold prefix_ok in H2.
      destruct (items re2) as [l e]. apply (matchstar_spec _ _ _ _ _ H2).
    + apply Z.eqb_neq in Hs. pose proof (matchone_spec c (s :: re2) text (fun t => IH (s :: re2) t ltac:(cbn; lia))) as H1.
      cbn [items]. rewrite Hs. cbn [items] in H1. destruct (match re2 with [] => _ | _ :: _ => _ end) as [l e]. cbn [fst snd] in *.
      rewrite <- H1. cbn [matchhere]. rewrite Hs, andb_false_r. done.
Qed.

Lemma match_from_spec re text : match_from re text = true <-> exists before text', text = before ++ text' /\ prefix_ok re text'.
Proof.
  induction text as [|t text IH]; cbn [match_from]; rewrite orb_true_iff, (matchhere_spec (length re)) by done.
  - split.
    + intros [H|H]; [|done]. by exists [], [].
    + intros (b & t' & E & H). destruct b; [|done]. left. by rewrite E.
  - rewrite IH. split.
    + intros [H|(b & t' & E & H)]; [by exists [], (t :: text)|]. exists (t :: b), t'. by rewrite E.
    + intros ([|t' b] & text' & E & H); cbn in E; [left; by rewrite E|]. injection E as -> ->. right. by exists b, text'.
Qed.

(** C31: [grep]'s matcher accepts a line exactly when the pattern describes some
    part of it.  A pattern is a sequence of characters, dots and starred ones,
    anchored by a leading caret and a final dollar; a star after nothing, a
    dollar before the end and a caret after the start stand for themselves. *)
Theorem match_describes (re text : list Z) : match_re re text = true <-> describes re text.
Proof.
  assert (Hfree : match_from re text = true <-> exists b w a, text = b ++ w ++ a /\ lang (fst (items re)) w /\
    (false = true -> b = []) /\ (snd (items re) = true -> a = [])).
  { rewrite match_from_spec. split.
    - intros (b & t & E & w & a & E' & Hl & He). exists b, w, a. by rewrite E, E'.
    - intros (b & w & a & E & Hl & _ & He). exists b, (w ++ a). split; [done|]. by exists w, a. }
  unfold match_re, describes. destruct re as [|c re]; [done|]. destruct (c =? CARET); [|done].
  rewrite (matchhere_spec (length re)) by done. split.
  - intros (w & a & E & Hl & He). by exists [], w, a.
  - intros (b & w & a & E & Hl & Hb & He). rewrite Hb in E by done. by exists w, a.
Qed.

(** ** The loop of [grep] *)

(** [strchr(p, '\n')] on a buffer that ends in a NUL. *)
Definition strchr_newline (p : list Z) : option nat :=
  match find_index (fun c => (c =? NEWLINE) || (c =? 0)) p with
  | Some k => match p !! k with Some c => if c =? NEWLINE then Some k else None | None => None end
  | None => None
  end.

(** The inner loop: what is printed, and where [p] ends. *)
Fixpoint scan_lines (fuel : nat) (pattern p : list Z) : list Z * list Z :=
  match fuel with
  | O => ([], p)
  | S fuel' =>
      match strchr_newline p with
      | None => ([], p)
      | Some q =>
          let out := if match_re pattern (take q p) then take (S q) p else [] in
          let '(outs, rest) := scan_lines fuel' pattern (drop (S q) p) in
          (out ++ outs, rest)
      end
  end.

(** One round of the outer loop: [m] bytes are kept from before, [n] more were
    read.  If [p] is still at the start of the buffer everything is dropped. *)
Definition grep_round (pattern kept chunk : list Z) : list Z * list Z :=
  let buf := kept ++ chunk in
  let '(out, p) := scan_lines (length buf) pattern buf in
  (out, if (length p =? length buf)%nat then [] else p).

(** [chunks] are what the calls of [read] return, one after the other. *)
Fixpoint grep (pattern kept : list Z) (chunks : list (list Z)) : list Z :=
  match chunks with
  | [] => []
  | chunk :: chunks' => let '(out, kept') := grep_round pattern kept chunk in out ++ grep pattern kept' chunks'
  end.

(** The complete lines of a text. *)
Fixpoint lines_from (line text : list Z) : list (list Z) :=
  match text with
  | [] => []
  | c :: text' => if c =? NEWLINE then line :: lines_from [] text' else lines_from (line ++ [c]) text'
  end.
Definition matching_lines (pattern text : list Z) : list Z :=
  concat ((fun l => if match_re pattern l then l ++ [NEWLINE] else []) <$> lines_from [] text).

Lemma lines_from_app line a b : NEWLINE ∉ a -> lines_from line (a ++ (NEWLINE :: b)) = (line ++ a) :: lines_from [] b.
Proof.
  revert line. induction a as [|c a IH]; intros line Ha; cbn [app lines_from].
  - by rewrite Z.eqb_refl, app_nil_r.
  - rewrite not_elem_of_cons in Ha. destruct Ha as [Hc Ha]. destruct (Z.eqb_spec c NEWLINE); [congruence|]. by rewrite IH, <- app_assoc.
Qed.

Lemma strchr_newline_spec p : 0 ∉ p ->
  match strchr_newline p with
  | None => NEWLINE ∉ p
  | Some q => p = take q p ++ (NEWLINE :: drop (S q) p) /\ (NEWLINE ∉ take q p) /\ (q < length p)%nat
  end.
Proof.
  intros H0. unfold strchr_newline. destruct (find_index _ p) as [k|] eqn:E.
  - pose proof (find_index_lt _ _ _ E) as Hlt. apply find_index_Some in E as [(c & Hc & Ht) Hmin]. rewrite Hc.
    assert (c = NEWLINE) as ->.
    { apply orb_true_iff in Ht as [?%Z.eqb_eq|E0%Z.eqb_eq]; [done|]. exfalso. apply H0. subst c. by eapply list_elem_of_lookup_2. }
    rewrite Z.eqb_refl. split; [|split; [|done]].
    + rewrite <- (drop_S _ _ _ Hc). by rewrite take_drop.
    + intros (j & Hj)%list_elem_of_lookup. pose proof (lookup_lt_Some _ _ _ Hj) as Hjl. rewrite length_take in Hjl.
      rewrite lookup_take_lt in Hj by lia. pose proof (Hmin j NEWLINE ltac:(lia) Hj). done.
  - rewrite find_index_None in E. intros (j & Hj)%list_elem_of_lookup. by apply E in Hj.
Qed.

(** What is printed are the matching lines, and what is left is what follows
    the last newline. *)
Lemma scan_lines_spec fuel pattern : forall p, (length p <= fuel)%nat -> 0 ∉ p ->
  exists rest, snd (scan_lines fuel pattern p) = rest /\ (NEWLINE ∉ rest) /\ (0 ∉ rest) /\ ((length rest <= length p)%nat /\ (NEWLINE ∈ p -> (length rest < length p)%nat)) /\
    forall more, matching_lines pattern (p ++ more) = fst (scan_lines fuel pattern p) ++ matching_lines pattern (rest ++ more).
Proof.
  induction fuel as [|fuel IH]; intros p Hl H0.
  - destruct p; [|cbn in Hl; lia]. exists []. repeat (split; [done || apply not_elem_of_nil|]). split; [split; [done|by intros ?%elem_of_nil]|done].
  - cbn [scan_lines]. pose proof (strchr_newline_spec p H0) as Hs. destruct (strchr_newline p) as [q|].
    + destruct Hs as (Ep & Hn & Hq). assert (Hd0 : 0 ∉ drop (S q) p) by (intros Hin; apply H0; by eapply subseteq_drop).
      destruct (IH (drop (S q) p)) as (rest & Er & Hr1 & Hr2 & [Hr3 _] & Hr4); [rewrite length_drop; lia|done|].
      destruct (scan_lines fuel pattern (drop (S q) p)) as [outs rest'] eqn:Es. cbn [fst snd] in *. subst rest'.
      exists rest. split; [done|]. split; [done|]. split; [done|]. split.
      * rewrite length_drop in Hr3. split; [lia|]. intros _. lia.
      * intros more. rewrite Ep at 1. rewrite <- app_assoc. cbn [app]. unfold matching_lines at 1. rewrite lines_from_app by done.
        cbn [fmap list_fmap concat app]. fold (matching_lines pattern (drop (S q) p ++ more)). rewrite Hr4, app_assoc. f_equal. f_equal.
        destruct (match_re _ _); [|done]. rewrite Ep at 2. rewrite take_app_ge, length_take by (rewrite length_take; lia).
        by replace (S q - q `min` length p)%nat with 1%nat by lia.
    + exists p. cbn [fst snd app]. split; [done|]. split; [done|]. split; [done|]. split; [|done]. split; [done|]. intros Hin. done.
Qed.

Lemma grep_spec pattern chunks : forall kept, NEWLINE ∉ kept -> 0 ∉ kept ->
  Forall (fun c => NEWLINE ∈ c /\ 0 ∉ c) chunks -> grep pattern kept chunks = matching_lines pattern (kept ++ concat chunks).
Proof.
  induction chunks as [|chunk chunks IH]; intros kept Hk Hk0 Hc; cbn [grep concat].
  - rewrite app_nil_r. unfold matching_lines. enough (E : forall line, lines_from line kept = []) by by rewrite E.
    clear Hk0. induction kept as [|c kept IHk]; intros line; [done|]. rewrite not_elem_of_cons in Hk. destruct Hk as [Hc0 Hk].
    cbn [lines_from]. destruct (Z.eqb_spec c NEWLINE); [congruence|]. by apply IHk.
  - apply Forall_cons in Hc as [[Hnl H0] Hc]. unfold grep_round. set (buf := kept ++ chunk).
    destruct (scan_lines_spec (length buf) pattern buf) as (rest & Er & Hr1 & Hr2 & [_ Hr3] & Hr4); [done|unfold buf; rewrite elem_of_app; tauto|].
    destruct (scan_lines (length buf) pattern buf) as [out p]. cbn [fst snd] in *. subst p.
    assert (Hlt : (length rest < length buf)%nat) by (apply Hr3; unfold buf; rewrite elem_of_app; by right).
    destruct (Nat.eqb_spec (length rest) (length buf)); [lia|]. rewrite IH by done. rewrite app_assoc. fold buf. by rewrite Hr4.
Qed.

(** [grep] prints exactly the lines its pattern describes, in order, however
    the input is cut into pieces, as long as every [read] returns the end of
    some line. *)
Theorem grep_prints (pattern : list Z) (chunks : list (list Z)) : Forall (fun c => NEWLINE ∈ c /\ 0 ∉ c) chunks ->
  grep pattern [] chunks = matching_lines pattern (concat chunks).
Proof. apply grep_spec; apply not_elem_of_nil. Qed.

Lemma grep_prints_witness : grep [98] [] [[97; 98; 10; 99]; [98; 10]] = [97; 98; 10; 99; 98; 10].
Proof.
  rewrite grep_prints; [vm_compute; reflexivity|]. repeat constructor; try (apply (bool_decide_unpack _); vm_compute; exact I).
Defined.

(** A [read] that returns only part of a line loses it: the line [abc] arrives in
    two pieces and is not printed. *)
Theorem grep_short_read : matching_lines [97] [97; 98; 99; 10] = [97; 98; 99; 10] /\ grep [97] [] [[97; 98]; [99; 10]] = [].
Proof. split; vm_compute; reflexivity. Qed.
