(* ===== verification/Locks.v ===== *)
(** * Spin locks ([spinlock.c])

    Spin locks instruction by instruction on any number of CPUs, with the
    nesting of interrupt disabling. *)

From S2P Require Import Prelude.

(** ** Interrupts *)

(** The part of [struct cpu] that [pushcli] uses, with the flag [FL_IF]. *)
Record cpu := Cpu { c_ncli : Z; c_intena : bool; c_if : bool }.

Definition pushcli (c : cpu) : cpu :=
  Cpu (c_ncli c + 1) (if c_ncli c =? 0 then c_if c else c_intena c) false.

(** A panic is its message. *)
Definition popcli (c : cpu) : string + cpu :=
  if c_if c then inl "popcli - interruptible" else
  let ncli := c_ncli c - 1 in
  if ncli <? 0 then inl "popcli" else
  inr (Cpu ncli (c_intena c) (if (ncli =? 0) && c_intena c then true else c_if c)).

(** ** Spin locks *)

(** [lk_cpu] is the number of the CPU that [lk->cpu] points to. *)
Record spinlock := Spinlock { lk_locked : bool; lk_cpu : option nat }.
Definition initlock : spinlock := Spinlock false None.

(** Where a CPU is: outside, before an instruction of [acquire], [release] or
    of the [holding] that either calls, between the two, or in [panic]. *)
Inductive caller := InAcquire | InRelease.
Inductive place :=
  | Outside
  | Hold_locked (k : caller)
  | Hold_cpu (k : caller)
  | Spinning
  | Acq_record
  | Critical
  | Rel_clear
  | Rel_unlock
  | Rel_pop
  | Panicked (msg : string).

Record machine := Machine { mc_lock : spinlock; mc_cpus : list (cpu * place) }.

Definition after_popcli (c : cpu) (next : place) : cpu * place :=
  match popcli c with inr c' => (c', next) | inl msg => (c, Panicked msg) end.

(** What the caller does with the result of [holding]. *)
Definition acquire_checked (r : bool) : place := if r then Panicked "acquire" else Spinning.
Definition release_checked (r : bool) : place := if r then Rel_clear else Panicked "release".
Definition checked (k : caller) : bool -> place :=
  match k with InAcquire => acquire_checked | InRelease => release_checked end.

(** [holding] starts with [pushcli], reads [lock->locked] and, when that is
    set, [lock->cpu], in two loads, and ends with [popcli]. *)
Definition holding_call (c : cpu) (k : caller) : cpu * place := (pushcli c, Hold_locked k).
Definition holding_locked (lk : spinlock) (c : cpu) (k : caller) : cpu * place :=
  if lk_locked lk then (c, Hold_cpu k) else after_popcli c (checked k false).
Definition holding_cpu (i : nat) (lk : spinlock) (c : cpu) (k : caller) : cpu * place :=
  after_popcli c (checked k (bool_decide (lk_cpu lk = Some i))).

Definition acquire_call (c : cpu) : cpu * place := holding_call (pushcli c) InAcquire.
(** One round of the loop on the atomic [xchg]. *)
Definition acquire_xchg (lk : spinlock) (c : cpu) : spinlock * (cpu * place) :=
  (Spinlock true (lk_cpu lk), (c, if lk_locked lk then Spinning else Acq_record)).
Definition acquire_record (i : nat) (lk : spinlock) (c : cpu) : spinlock * (cpu * place) :=
  (Spinlock (lk_locked lk) (Some i), (c, Critical)).

Definition release_call (c : cpu) : cpu * place := holding_call c InRelease.
Definition release_clear (lk : spinlock) (c : cpu) : spinlock * (cpu * place) := (Spinlock (lk_locked lk) None, (c, Rel_unlock)).
Definition release_unlock (lk : spinlock) (c : cpu) : spinlock * (cpu * place) := (Spinlock false (lk_cpu lk), (c, Rel_pop)).

(** The next memory access of CPU [i]. *)
Definition advance (i : nat) (lk : spinlock) (c : cpu) (p : place) : spinlock * (cpu * place) :=
  match p with
  | Hold_locked k => (lk, holding_locked lk c k)
  | Hold_cpu k => (lk, holding_cpu i lk c k)
  | Spinning => acquire_xchg lk c
  | Acq_record => acquire_record i lk c
  | Rel_clear => release_clear lk c
  | Rel_unlock => release_unlock lk c
  | Rel_pop => (lk, after_popcli c Outside)
  | Outside | Critical | Panicked _ => (lk, (c, p))
  end.

(** How many [pushcli] the calls on this lock have nested at a place. *)
Definition nesting (p : place) : Z :=
  match p with Outside | Panicked _ => 0 | Hold_locked _ | Hold_cpu _ => 2 | _ => 1 end.
Definition at_large (p : place) : Prop := p = Outside \/ p = Critical.

(** A CPU begins a call, runs its next instruction, or runs other code, which
    may nest [pushcli], undo what it nested, and enable interrupts when
    nothing is nested. *)
Inductive mstep : machine -> machine -> Prop :=
  | do_acquire lk l i c : l !! i = Some (c, Outside) -> mstep (Machine lk l) (Machine lk (<[i := acquire_call c]> l))
  | do_release lk l i c : l !! i = Some (c, Critical) -> mstep (Machine lk l) (Machine lk (<[i := release_call c]> l))
  | do_run lk l i c p : l !! i = Some (c, p) ->
      mstep (Machine lk l) (Machine (advance i lk c p).1 (<[i := (advance i lk c p).2]> l))
  | do_push lk l i c p : l !! i = Some (c, p) -> at_large p -> mstep (Machine lk l) (Machine lk (<[i := (pushcli c, p)]> l))
  | do_pop lk l i c p : l !! i = Some (c, p) -> at_large p -> nesting p < c_ncli c ->
      mstep (Machine lk l) (Machine lk (<[i := after_popcli c p]> l))
  | do_sti lk l i c : l !! i = Some (c, Outside) -> c_ncli c = 0 ->
      mstep (Machine lk l) (Machine lk (<[i := (Cpu 0 (c_intena c) true, Outside)]> l)).

(** At boot the lock is initialised and every CPU runs with nothing nested. *)
Definition boot (s : machine) : Prop :=
  mc_lock s = initlock /\ (forall i x, mc_cpus s !! i = Some x -> c_ncli x.1 = 0 /\ x.2 = Outside).

(** ** Mutual exclusion *)

(** From the [xchg] that takes the lock to the store that frees it. *)
Definition owner (p : place) : bool :=
  match p with
  | Acq_record | Critical | Hold_locked InRelease | Hold_cpu InRelease | Rel_clear | Rel_unlock => true
  | _ => false
  end.
(** While the lock names the CPU. *)
Definition named (p : place) : bool :=
  match p with Critical | Hold_locked InRelease | Hold_cpu InRelease | Rel_clear => true | _ => false end.

Record cpu_ok (c : cpu) (p : place) : Prop := {
  co_nest : nesting p <= c_ncli c;
  co_off : 0 < c_ncli c -> c_if c = false;
  co_alive : forall msg, p <> Panicked msg;
}.

(** [own] is the CPU that has the lock. *)
Record owned (own : option nat) (s : machine) : Prop := {
  ow_cpu : forall i x, mc_cpus s !! i = Some x ->
    cpu_ok x.1 x.2 /\ owner x.2 = bool_decide (own = Some i) /\ named x.2 = bool_decide (lk_cpu (mc_lock s) = Some i);
  ow_locked : lk_locked (mc_lock s) = bool_decide (is_Some own);
  ow_name : forall i, lk_cpu (mc_lock s) = Some i -> own = Some i;
  ow_exists : forall i, own = Some i -> is_Some (mc_cpus s !! i);
}.

Definition minv (s : machine) : Prop := exists own, owned own s.

Lemma pushcli_ok c p p' :
  cpu_ok c p -> nesting p' <= nesting p + 1 -> (forall msg, p' <> Panicked msg) -> cpu_ok (pushcli c) p'.
Proof. intros [N F _] L A. split; [cbn; lia | done | done]. Qed.

(** A matched [popcli] does not panic. *)
Lemma after_popcli_ok c p p' :
  cpu_ok c p -> nesting p' + 1 <= c_ncli c -> 0 <= nesting p' -> (forall msg, p' <> Panicked msg) ->
  cpu_ok (after_popcli c p').1 (after_popcli c p').2 /\ (after_popcli c p').2 = p'.
Proof.
  intros [N F _] L P A. unfold after_popcli, popcli. rewrite F by lia. destruct (Z.ltb_spec (c_ncli c - 1) 0); [lia|]. cbn.
  split; [|done]. split; cbn; [lia| |done]. intros Hp. case_cmp; cbn; [lia|done].
Qed.

(** The step of one CPU: the lock, its owner and the CPU change together,
    and the other CPUs keep their part of the invariant. *)
Lemma owned_upd own own' lk lk' l i x x' :
  owned own (Machine lk l) -> l !! i = Some x -> cpu_ok x'.1 x'.2 ->
  owner x'.2 = bool_decide (own' = Some i) -> named x'.2 = bool_decide (lk_cpu lk' = Some i) ->
  lk_locked lk' = bool_decide (is_Some own') ->
  (forall j, j <> i -> (own' = Some j <-> own = Some j) /\ (lk_cpu lk' = Some j <-> lk_cpu lk = Some j)) ->
  (forall j, lk_cpu lk' = Some j -> own' = Some j) ->
  owned own' (Machine lk' (<[i := x']> l)).
Proof.
  intros O Hx K Ho Hn Hl Hj Hname. split; cbn in *; [|done|done|].
  - intros j y [[-> [<- _]]|[Ne Hy]]%list_lookup_insert_Some; [done|]. destruct (ow_cpu _ _ O j y Hy) as (K' & O' & N').
    destruct (Hj j ltac:(done)) as [E1 E2]. split; [done|]. split; [rewrite O'|rewrite N']; by apply bool_decide_ext.
  - intros j E. destruct (decide (j = i)) as [->|Ne].
    + rewrite list_lookup_insert_eq; [done|]. by eapply lookup_lt_Some.
    + rewrite list_lookup_insert_ne by done. apply (ow_exists _ _ O). by apply Hj.
Qed.

(** A step that leaves the lock alone. *)
Lemma owned_local own lk l i x x' :
  owned own (Machine lk l) -> l !! i = Some x -> cpu_ok x'.1 x'.2 ->
  owner x'.2 = owner x.2 -> named x'.2 = named x.2 -> owned own (Machine lk (<[i := x']> l)).
Proof.
  intros O Hx K Ho Hn. destruct (ow_cpu _ _ O i x Hx) as (_ & O' & N'). cbn [mc_lock] in N'.
  apply (owned_upd own own lk lk l i x x' O Hx K); [congruence..|apply O|done|apply O].
Qed.

Lemma named_owner p : named p = true -> owner p = true.
Proof. by destruct p as [|[]|[]| | | | | | |]. Qed.

(** [holding] answers right: no in [acquire], yes in [release]. *)
Definition right_answer (k : caller) : bool := match k with InAcquire => false | InRelease => true end.

Lemma holding_locked_inv own lk l i c k : owned own (Machine lk l) -> l !! i = Some (c, Hold_locked k) ->
  lk_locked lk = false -> right_answer k = false.
Proof.
  intros O Hx E. destruct (ow_cpu _ _ O i _ Hx) as (_ & O' & _). pose proof (ow_locked _ _ O) as L. cbn in *.
  destruct k; [done|]. symmetry in O'. apply bool_decide_eq_true in O'. subst. rewrite E in L. symmetry in L. by apply bool_decide_eq_false in L; destruct L.
Qed.

Lemma holding_cpu_inv own lk l i c k : owned own (Machine lk l) -> l !! i = Some (c, Hold_cpu k) ->
  bool_decide (lk_cpu lk = Some i) = right_answer k.
Proof. intros O Hx. destruct (ow_cpu _ _ O i _ Hx) as (_ & _ & N'). cbn in N'. rewrite <- N'. by destruct k. Qed.

Lemma checked_ok k : nesting (checked k (right_answer k)) = 1 /\
  (forall msg, checked k (right_answer k) <> Panicked msg) /\
  owner (checked k (right_answer k)) = owner (Hold_cpu k) /\ named (checked k (right_answer k)) = named (Hold_cpu k).
Proof. by destruct k. Qed.

Lemma holding_step own lk l i c k (p := Hold_cpu k) : owned own (Machine lk l) -> l !! i = Some (c, p) \/ l !! i = Some (c, Hold_locked k) ->
  owned own (Machine lk (<[i := after_popcli c (checked k (right_answer k))]> l)).
Proof.
  intros O Hx. destruct (checked_ok k) as (N & A & Ho & Hn).
  assert (exists p, l !! i = Some (c, p) /\ nesting p = 2 /\ owner p = owner (Hold_cpu k) /\ named p = named (Hold_cpu k)) as (q & Hq & N2 & Eo & En).
  { destruct Hx as [H|H]; eexists; (split; [exact H|]); by destruct k. }
  destruct (ow_cpu _ _ O i _ Hq) as (K & _ & _). cbn in K.
  destruct (after_popcli_ok c q (checked k (right_answer k)) K) as [K' E]; try done; [pose proof (co_nest _ _ K); lia|lia|].
  apply (owned_local own lk l i _ _ O Hq K'); cbn; rewrite E; congruence.
Qed.

Lemma advance_inv own lk l i c p : owned own (Machine lk l) -> l !! i = Some (c, p) ->
  minv (Machine (advance i lk c p).1 (<[i := (advance i lk c p).2]> l)).
Proof.
  intros O Hx. destruct (ow_cpu _ _ O i _ Hx) as (K & Ho & Hn). cbn in K, Ho, Hn. pose proof (ow_locked _ _ O) as L. cbn in L.
  pose proof (co_nest _ _ K) as Nest. pose proof (co_off _ _ K) as Off.
  destruct p as [|k|k| | | | | | |msg]; cbn in Ho, Hn, Nest;
    try (symmetry in Ho; apply bool_decide_eq_true in Ho; subst own; rewrite bool_decide_true in L by eauto).
  - exists own. by rewrite list_insert_id.
  - exists own. cbn. unfold holding_locked. pose proof (holding_locked_inv _ _ _ _ _ _ O Hx) as H.
    destruct (lk_locked lk).
    + apply (owned_local own lk l i _ _ O Hx); by try split.
    + pose proof (holding_step own lk l i c k O ltac:(by right)) as S. by rewrite (H eq_refl) in S.
  - exists own. cbn. unfold holding_cpu. rewrite (holding_cpu_inv _ _ _ _ _ _ O Hx).
    apply (holding_step own lk l i c k O). by left.
  - cbn. destruct (lk_locked lk) eqn:El.
    + exists own. replace (Spinlock true (lk_cpu lk)) with lk by (destruct lk; cbn in *; congruence).
      apply (owned_local own lk l i _ _ O Hx); by try split.
    + exists (Some i). symmetry in L. apply bool_decide_eq_false in L. assert (own = None) as -> by (destruct own; [destruct L; eauto|done]).
      eapply (owned_upd _ _ lk _ l i _ _ O Hx); cbn; try done.
      * by rewrite bool_decide_true.
      * intros j Ne. split; [|done]. split; congruence.
      * intros j E. by apply (ow_name _ _ O) in E.
  - exists (Some i). eapply (owned_upd _ _ lk _ l i _ _ O Hx); cbn; try done.
    + by rewrite bool_decide_true.
    + by rewrite bool_decide_true.
    + intros j Ne. split; [done|]. split; [congruence|]. intros E%(ow_name _ _ O). congruence.
  - exists (Some i). by rewrite list_insert_id.
  - exists (Some i). eapply (owned_upd _ _ lk _ l i _ _ O Hx); cbn; try done.
    + by rewrite bool_decide_true.
    + intros j Ne. split; [done|]. split; [done|]. intros E%(ow_name _ _ O). congruence.
  - exists None. symmetry in Hn. apply bool_decide_eq_false in Hn. eapply (owned_upd _ _ lk _ l i _ _ O Hx); cbn; try done.
    + by rewrite bool_decide_false.
    + intros j Ne. split; [|done]. split; congruence.
    + intros j E. pose proof (ow_name _ _ O j E). congruence.
  - exists own. destruct (after_popcli_ok c Rel_pop Outside K) as [K' E]; try done.
    apply (owned_local own lk l i _ _ O Hx K'); cbn; by rewrite E.
  - by destruct (co_alive _ _ K msg).
Qed.

Lemma mstep_inv s s' : minv s -> mstep s s' -> minv s'.
Proof.
  intros [own O] Hs. destruct Hs as [lk l i c Hx|lk l i c Hx|lk l i c p Hx|lk l i c p Hx Hp|lk l i c p Hx Hp Hn|lk l i c Hx Hn];
    [| |by eapply advance_inv| | |]; exists own; destruct (ow_cpu _ _ O i _ Hx) as (K & _ & _); cbn in K.
  - apply (owned_local own lk l i _ _ O Hx); [|done|done]. apply (pushcli_ok _ Spinning); [|done|done]. by apply (pushcli_ok c Outside).
  - apply (owned_local own lk l i _ _ O Hx); [|done|done]. by apply (pushcli_ok c Critical).
  - apply (owned_local own lk l i _ _ O Hx); [|done|done]. apply (pushcli_ok c p); [done|cbn; lia|]. apply K.
  - destruct (after_popcli_ok c p p K) as [K' E]; [lia|by destruct p|apply K|].
    apply (owned_local own lk l i _ _ O Hx); [done|by rewrite E..].
  - apply (owned_local own lk l i _ _ O Hx); [|done|done]. split; cbn; [lia|lia|done].
Qed.

Lemma boot_inv s : boot s -> minv s.
Proof.
  intros [El Hc]. exists None. destruct s as [lk l]; cbn in *; subst. split; cbn; try done.
  intros i [c p] Hx. destruct (Hc i _ Hx) as [N P]; cbn in *; subst. split; [|by rewrite bool_decide_false]. split; cbn; [lia|lia|done].
Qed.

Lemma reachable_inv s0 s : boot s0 -> rtc mstep s0 s -> minv s.
Proof. intros B R. apply boot_inv in B. induction R; [done|]. eauto using mstep_inv. Qed.

(** C9: Spin locks exclude.  However the memory accesses of any number of CPUs
    interleave, at most one CPU is between taking the lock and freeing it;
    that CPU has interrupts off; a lock that is taken has such a CPU; the
    test of [holding] is true on a CPU exactly while the lock names it; and
    neither [acquire], [release] nor [popcli] panics. *)
Theorem spinlock_mutex (s0 s : machine) : boot s0 -> rtc mstep s0 s ->
  (forall i j x y, mc_cpus s !! i = Some x -> mc_cpus s !! j = Some y -> owner x.2 = true -> owner y.2 = true -> i = j) /\
  (forall i x, mc_cpus s !! i = Some x -> owner x.2 = true -> 0 < c_ncli x.1 /\ c_if x.1 = false) /\
  (lk_locked (mc_lock s) = true <-> exists i x, mc_cpus s !! i = Some x /\ owner x.2 = true) /\
  (forall i x, mc_cpus s !! i = Some x -> lk_locked (mc_lock s) && bool_decide (lk_cpu (mc_lock s) = Some i) = named x.2) /\
  (forall i x msg, mc_cpus s !! i = Some x -> x.2 <> Panicked msg).
Proof.
  intros B R. destruct (reachable_inv _ _ B R) as [own O]. destruct O as [C L N X].
  assert (forall i x, mc_cpus s !! i = Some x -> owner x.2 = true <-> own = Some i) as H.
  { intros i x Hx. destruct (C i x Hx) as (_ & -> & _). apply bool_decide_eq_true. }
  split; [|split; [|split; [|split]]].
  - intros i j x y Hx Hy Ox%(H i x Hx) Oy%(H j y Hy). congruence.
  - intros i [c p] Hx Ho. destruct (C i _ Hx) as ([K F _] & _). cbn in *.
    assert (0 < c_ncli c) by (destruct p as [|[]|[]| | | | | | |]; cbn in *; try done; lia). auto.
  - rewrite L, bool_decide_eq_true. split.
    + intros [i E]. destruct (X i E) as [x Hx]. exists i, x. split; [done|]. by apply (H i x Hx).
    + intros (i & x & Hx & Ho). exists i. by apply (H i x Hx).
  - intros i x Hx. destruct (C i x Hx) as (_ & _ & ->). destruct (decide (lk_cpu (mc_lock s) = Some i)) as [E|E];
      [rewrite (bool_decide_true _ E)|rewrite (bool_decide_false _ E); apply andb_false_r].
    rewrite L, bool_decide_true; [done|]. rewrite (N i E). eauto.
  - intros i x msg Hx. destruct (C i x Hx) as ([_ _ A] & _). done.
Qed.

(** Two CPUs: the first has the lock, the second spins. *)
Definition idle_cpu : cpu := Cpu 0 false true.
Definition two_cpus : machine := Machine initlock [(idle_cpu, Outside); (idle_cpu, Outside)].
Definition contended : machine :=
  Machine (Spinlock true None) [(pushcli idle_cpu, Acq_record); (Cpu 1 true false, Spinning)].

Lemma contended_reached : rtc mstep two_cpus contended.
Proof.
  eapply rtc_l; [by apply (do_acquire _ _ 0 idle_cpu)|]. eapply rtc_l; [by apply (do_run _ _ 0 (Cpu 2 true false) (Hold_locked InAcquire))|].
  eapply rtc_l; [by apply (do_acquire _ _ 1 idle_cpu)|]. eapply rtc_l; [by apply (do_run _ _ 1 (Cpu 2 true false) (Hold_locked InAcquire))|].
  eapply rtc_l; [by apply (do_run _ _ 0 (Cpu 1 true false) Spinning)|]. eapply rtc_l; [by apply (do_run _ _ 1 (Cpu 1 true false) Spinning)|].
  apply rtc_refl.
Qed.

Lemma spinlock_mutex_witness :
  rtc mstep two_cpus contended /\ 0 < c_ncli (pushcli idle_cpu) /\ c_if (pushcli idle_cpu) = false.
Proof.
  assert (boot two_cpus) as B by (split; [done|]; intros [|[|i]] x [= <-]; done).
  split; [exact contended_reached|].
  exact (proj1 (proj2 (spinlock_mutex two_cpus contended B contended_reached)) 0%nat (pushcli idle_cpu, Acq_record) eq_refl eq_refl).
Defined.

(** ** Matched interrupt disabling *)

Inductive cli_op := Push | Pop.
Fixpoint run_cli (l : list cli_op) (c : cpu) : string + cpu :=
  match l with
  | [] => inr c
  | Push :: l => run_cli l (pushcli c)
  | Pop :: l => match popcli c with inr c' => run_cli l c' | inl msg => inl msg end
  end.

(** Every [pushcli] with its [popcli]. *)
Inductive matched : list cli_op -> Prop :=
  | matched_nil : matched []
  | matched_pair l1 l2 : matched l1 -> matched l2 -> matched (Push :: l1 ++ Pop :: l2).

Lemma run_cli_app l1 l2 c : run_cli (l1 ++ l2) c = match run_cli l1 c with inr c' => run_cli l2 c' | inl msg => inl msg end.
Proof. revert c. induction l1 as [|[] l1 IH]; intros c; cbn; [done|apply IH|]. destruct (popcli c); [done|apply IH]. Qed.

(** [pushcli] and [popcli] are matched: from a CPU whose interrupts are off
    whenever something is nested, a well-nested sequence of calls never
    panics and leaves the nesting and the interrupt flag as they were. *)
Theorem cli_matched (l : list cli_op) (c : cpu) : matched l -> 0 <= c_ncli c -> (0 < c_ncli c -> c_if c = false) ->
  exists c', run_cli l c = inr c' /\ c_ncli c' = c_ncli c /\ c_if c' = c_if c /\ (0 < c_ncli c -> c_intena c' = c_intena c).
Proof.
  intros M. revert c. induction M as [|l1 l2 M1 IH1 M2 IH2]; intros c Hn Hf; [by exists c|].
  cbn [run_cli]. rewrite run_cli_app. destruct (IH1 (pushcli c)) as (c1 & -> & N1 & F1 & I1); [cbn; lia|done|].
  cbn in N1, F1, I1. specialize (I1 ltac:(lia)). cbn [run_cli]. unfold popcli. rewrite F1, N1.
  replace (c_ncli c + 1 - 1) with (c_ncli c) by lia. destruct (Z.ltb_spec (c_ncli c) 0); [lia|].
  destruct (IH2 (Cpu (c_ncli c) (c_intena c1) (if (c_ncli c =? 0) && c_intena c1 then true else false))) as (c2 & -> & N2 & F2 & I2);
    cbn in *; [done| |]; rewrite I1 in *; destruct (Z.eqb_spec (c_ncli c) 0) as [E|E]; cbn [andb] in *.
  - lia.
  - done.
  - exists c2. split; [done|]. split; [done|]. split; [|lia]. rewrite F2. by destruct (c_if c).
  - exists c2. split; [done|]. split; [done|]. split; [|auto]. rewrite F2, Hf; [done|lia].
Qed.

Lemma cli_matched_witness : exists c', run_cli [Push; Push; Pop; Pop] (Cpu 0 false true) = inr c' /\ c_ncli c' = 0 /\ c_if c' = true.
Proof.
  destruct (cli_matched [Push; Push; Pop; Pop] (Cpu 0 false true)) as (c' & R & N & F & _).
  - apply (matched_pair [Push; Pop] []); [apply (matched_pair [] []); constructor|constructor].
  - cbn; lia.
  - cbn; lia.
  - exists c'. by rewrite R.
Defined.
