(* ===== verification/Sleeplock.v ===== *)
(** * Sleep locks ([sleeplock.c])

    A sleep lock over the process table, with the sleepers of [proc.c], in
    every interleaving with the other transitions of the table. *)

From S2P Require Import Prelude Mmu Vm Proc ProcInv.

Implicit Types (t : ptable) (p : proc).

(** [lk->lk] makes each operation below one step: it is held from its start to
    its end or, in [sleep], until the process is marked asleep. *)
Record sleeplock := Sleeplock { sl_locked : bool; sl_pid : Z }.
Definition initsleeplock : sleeplock := Sleeplock false 0.

(** One test of the loop of [acquiresleep], by process [i] on the lock at
    address [a]: it goes to sleep, to test again when it runs again, or it
    takes the lock. *)
Definition acquiresleep (a : Z) (i : nat) p (lk : sleeplock) t : sleeplock * ptable :=
  if sl_locked lk then (lk, go_to_sleep i (ChAddr a) t) else (Sleeplock true (pr_pid p), t).

Definition releasesleep (a : Z) t : sleeplock * ptable := (Sleeplock false 0, wakeup1 (ChAddr a) t).

Definition holdingsleep (lk : sleeplock) p : bool := sl_locked lk && (sl_pid lk =? pr_pid p).

(** A running process tries the lock, the process that holds it frees it, or
    the table makes any step but going to sleep on this lock. *)
Inductive sstep (pol : policy) (a : Z) : sleeplock * ptable -> sleeplock * ptable -> Prop :=
  | S_acquire lk t i p : pt_proc t !! i = Some p -> pr_state p = RUNNING -> sstep pol a (lk, t) (acquiresleep a i p lk t)
  | S_release lk t i p : pt_proc t !! i = Some p -> pr_state p = RUNNING -> holdingsleep lk p = true ->
      sstep pol a (lk, t) (releasesleep a t)
  | S_other lk t t' : tstep pol t t' -> (forall i, t' <> go_to_sleep i (ChAddr a) t) -> sstep pol a (lk, t) (lk, t').

(** ** Nobody falls asleep but by going to sleep *)

Definition no_new_sleeper (chan : channel) t t' : Prop :=
  forall k p', pt_proc t' !! k = Some p' -> asleep_on chan p' = true -> exists p, pt_proc t !! k = Some p /\ asleep_on chan p = true.

#[local] Instance no_new_sleeper_preorder chan : PreOrder (no_new_sleeper chan).
Proof.
  split; [intros t k p Hk Hs; eauto|]. intros t1 t2 t3 H12 H23 k p3 Hk Hs.
  destruct (H23 k p3 Hk Hs) as (p2 & Hk2 & Hs2). by apply (H12 k p2).
Qed.

Lemma asleep_on_spec chan p : asleep_on chan p = true <-> pr_state p = SLEEPING /\ pr_chan p = Some chan.
Proof. unfold asleep_on. rewrite andb_true_iff, !bool_decide_eq_true. done. Qed.

Lemma upd_no_sleeper chan t k f : (forall p, pt_proc t !! k = Some p -> asleep_on chan (f p) = true -> asleep_on chan p = true) ->
  no_new_sleeper chan t (upd_proc k f t).
Proof.
  intros Hf j p' (p & Hp & ->)%upd_proc_inv Hs. exists p. split; [done|]. case_decide; [subst|done]. by apply Hf.
Qed.

(** The updates of the table leave the process awake, or leave it as it was. *)
Lemma awake_no_sleeper chan t k f : (forall p, pr_state (f p) <> SLEEPING) -> no_new_sleeper chan t (upd_proc k f t).
Proof. intros Hf. apply upd_no_sleeper. intros p _ [Hs _]%asleep_on_spec. by destruct (Hf p). Qed.

Lemma same_no_sleeper chan t k f : (forall p, pr_state (f p) = pr_state p /\ pr_chan (f p) = pr_chan p) ->
  no_new_sleeper chan t (upd_proc k f t).
Proof. intros Hf. apply upd_no_sleeper. intros p _. rewrite !asleep_on_spec. by destruct (Hf p) as [-> ->]. Qed.

Lemma wakeup_no_sleeper chan c t : no_new_sleeper chan t (wakeup1 c t).
Proof.
  intros k p'. rewrite wakeup1_at. intros (p & Hk & ->)%fmap_Some Hs. exists p. split; [done|]. revert Hs.
  destruct (woken_facts c p) as (_ & _ & Ec & [[Es _]|(_ & _ & Es)]); rewrite !asleep_on_spec, Es, ?Ec; [done|]. by intros [].
Qed.

Lemma exit_no_sleeper chan cur init t : no_new_sleeper chan t (exit_table cur init t).
Proof.
  unfold exit_table. etransitivity; [|by apply awake_no_sleeper]. set (t0 := match pt_proc t !! cur with Some _ => _ | None => _ end).
  transitivity t0.
  { unfold t0. destruct (pt_proc t !! cur) as [p|]; [|done]. destruct (pr_parent p); [apply wakeup_no_sleeper|done]. }
  generalize (seq 0 (length (pt_proc t0))) as l. clearbody t0. intros l. revert t0. induction l as [|k l IH]; intros t0; cbn; [done|].
  etransitivity; [|apply IH]. unfold abandon. destruct (pt_proc t0 !! k) as [p|]; [|done]. destruct (child_of cur p); [|done].
  etransitivity; [by apply (same_no_sleeper chan t0 k (set_parent (Some init)))|]. case_bool_decide; [apply wakeup_no_sleeper|done].
Qed.

Lemma tstep_no_sleeper pol a t t' : tstep pol t t' -> (forall i, t' <> go_to_sleep i (ChAddr a) t) -> no_new_sleeper (ChAddr a) t t'.
Proof.
  intros Hs Hn. destruct Hs as [t i t' _ (k & _ & [= <- <-])%bind_Some| | | |t f i t' (k & _ & [= <- <-])%bind_Some| |t i p b Hp Hs| | |t pid| | |t cur p k].
  - apply (awake_no_sleeper (ChAddr a) t k (fun p => set_pid _ (set_state EMBRYO p))). done.
  - by apply awake_no_sleeper.
  - by apply same_no_sleeper.
  - by apply awake_no_sleeper.
  - by apply awake_no_sleeper.
  - by apply awake_no_sleeper.
  - apply upd_no_sleeper. intros q _ [_ [= ->]]%asleep_on_spec. by destruct (Hn i).
  - apply upd_no_sleeper. intros q _ [_ Hc]%asleep_on_spec. done.
  - apply wakeup_no_sleeper.
  - unfold kill. destruct (find_index _ _); [|done]. apply awake_no_sleeper. intros p. cbn. by case_bool_decide.
  - apply exit_no_sleeper.
  - apply upd_no_sleeper. intros q _ [_ Hc]%asleep_on_spec. done.
  - apply awake_no_sleeper. intros q. unfold reap. by destruct (check_policy pol).
Qed.

(** ** The lock *)

Record sinv (a : Z) (s : sleeplock * ptable) : Prop := {
  si_table : tinv s.2;
  si_pid : sl_locked s.1 = true -> sl_pid s.1 <> 0;
  si_free : sl_locked s.1 = false -> forall k p, pt_proc s.2 !! k = Some p -> asleep_on (ChAddr a) p = false;
}.

Lemma sstep_inv pol a s s' : sstep pol a s s' -> sinv a s -> sinv a s'.
Proof.
  intros Hs [T P F]. destruct Hs as [lk t i p Hi Hr|lk t i p Hi Hr Hh|lk t t' Ht Hn]; cbn in *.
  - unfold acquiresleep. destruct (sl_locked lk) eqn:El; cbn.
    + split; cbn; [|auto|congruence]. eapply (tstep_inv pol); [|done]. by eapply T_sleep.
    + split; cbn; [done| |done]. intros _. apply (ti_pids _ T i p Hi). congruence.
  - unfold releasesleep. split; cbn [fst snd sl_locked sl_pid]; [|done|]; [eapply (tstep_inv pol); [|done]; apply T_wakeup|]. intros _ k p'. rewrite wakeup1_at.
    intros (q & Hk & ->)%fmap_Some. apply not_true_iff_false. rewrite asleep_on_spec.
    destruct (woken_facts (ChAddr a) q) as (_ & _ & Ec & [[Es Ne]|(_ & _ & Es)]); rewrite Es, ?Ec; [done|by intros []].
  - split; cbn; [by eapply tstep_inv|done|]. intros El k p' Hk. apply not_true_iff_false. intros Hs.
    destruct (tstep_no_sleeper pol a t t' Ht Hn k p' Hk Hs) as (p & Hp & Hs'). rewrite (F El k p Hp) in Hs'. done.
Qed.


