(* ===== verification/Umalloc.v ===== *)
(** * The user memory allocator ([umalloc.c])

    The free list of Kernighan and Ritchie in the memory of the process: a
    ring of headers in address order that starts at [base].  [malloc] and
    [free] are translated with their loops, [morecore] over an interface for
    [sbrk]; whatever a program does inside its own blocks, the blocks it holds
    stay apart and both operations end. *)

From stdpp Require Import sorting.
From S2P Require Import Prelude.

Record header := Header { s_ptr : Z; s_size : Z }.
Definition HSIZE : Z := 8.

(** [Header *] arithmetic. *)
Definition hplus (p n : Z) : Z := u32 (p + HSIZE * n).

(** The memory, by the address of a header, and [freep]. *)
Record heap := Heap { h_mem : Z -> header; h_freep : Z }.

Definition set_hdr (a : Z) (x : header) (m : Z -> header) : Z -> header := fun b => if b =? a then x else m b.
Definition set_ptr (a q : Z) (m : Z -> header) : Z -> header := set_hdr a (Header q (s_size (m a))) m.
Definition set_size (a n : Z) (m : Z -> header) : Z -> header := set_hdr a (Header (s_ptr (m a)) n) m.

(** ** free *)

(** The loop that looks for the place of [bp], [None] out of fuel. *)
Fixpoint free_scan (fuel : nat) (m : Z -> header) (bp p : Z) : option Z :=
  match fuel with
  | O => None
  | S fuel =>
      let q := s_ptr (m p) in
      if (p <? bp) && (bp <? q) then Some p else
      if (q <=? p) && ((p <? bp) || (bp <? q)) then Some p else free_scan fuel m bp q
  end.

(** After the loop: join with the next block, then with the one before. *)
Definition free_link (m : Z -> header) (bp p : Z) : Z -> header :=
  let q := s_ptr (m p) in
  let m :=
    if hplus bp (s_size (m bp)) =? q
    then let m := set_size bp (u32 (s_size (m bp) + s_size (m q))) m in set_ptr bp (s_ptr (m q)) m
    else set_ptr bp q m in
  if hplus p (s_size (m p)) =? bp
  then let m := set_size p (u32 (s_size (m p) + s_size (m bp))) m in set_ptr p (s_ptr (m bp)) m
  else set_ptr p bp m.

Definition free (fuel : nat) (h : heap) (ap : Z) : option heap :=
  let bp := u32 (ap - HSIZE) in
  p ← free_scan fuel (h_mem h) bp (h_freep h);
  Some (Heap (free_link (h_mem h) bp p) p).

(** ** malloc *)

(** What the allocator uses of [sbrk]: a growth of the process by [n] bytes
    either fails or returns the old end, and the end stays in user space. *)
Class Sbrk (E : Type) := {
  sbrk : Z -> E -> option Z * E;
  brk : E -> Z;
  brk_range : forall e, 0 <= brk e <= 2147483648;
  sbrk_fails : forall n e e', sbrk n e = (None, e') -> brk e' = brk e;
  sbrk_grows : forall n e a e', 0 <= n < 2147483648 -> sbrk n e = (Some a, e') -> a = brk e /\ brk e' = brk e + n;
}.

Section Malloc.
Context {E : Type} `{Sbrk E} (base : Z).

Definition morecore (fuel : nat) (nu : Z) (h : heap) (e : E) : option (Z * heap * E) :=
  let nu := if nu <? 4096 then 4096 else nu in
  match sbrk (s32 (nu * HSIZE)) e with
  | (None, e) => Some (0, h, e)
  | (Some hp, e) =>
      h ← free fuel (Heap (set_size hp nu (h_mem h)) (h_freep h)) (hplus hp 1);
      Some (h_freep h, h, e)
  end.

(** A block of at least [nunits] is found: the address of the new block. *)
Definition take_block (nunits prevp p : Z) (h : heap) : Z * heap :=
  let m := h_mem h in
  if s_size (m p) =? nunits then (p, Heap (set_ptr prevp (s_ptr (m p)) m) prevp)
  else
    let m := set_size p (u32 (s_size (m p) - nunits)) m in
    let p' := hplus p (s_size (m p)) in
    (p', Heap (set_size p' nunits m) prevp).

Fixpoint malloc_loop (fuel : nat) (nunits prevp p : Z) (h : heap) (e : E) : option (Z * heap * E) :=
  match fuel with
  | O => None
  | S fuel' =>
      if nunits <=? s_size (h_mem h p)
      then let '(p', h') := take_block nunits prevp p h in Some (hplus p' 1, h', e)
      else if p =? h_freep h then
        '(p, h, e) ← morecore fuel nunits h e;
        if p =? 0 then Some (0, h, e) else malloc_loop fuel' nunits p (s_ptr (h_mem h p)) h e
      else malloc_loop fuel' nunits p (s_ptr (h_mem h p)) h e
  end.

Definition nunits_of (nbytes : Z) : Z := u32 (u32 (nbytes + HSIZE - 1) / HSIZE + 1).

Definition malloc (fuel : nat) (nbytes : Z) (h : heap) (e : E) : option (Z * heap * E) :=
  let h := if h_freep h =? 0 then Heap (set_hdr base (Header base 0) (h_mem h)) base else h in
  let prevp := h_freep h in
  malloc_loop fuel (nunits_of nbytes) prevp (s_ptr (h_mem h prevp)) h e.

End Malloc.

(** ** The ring *)

(** [ns] are the headers met from [p] on, up to [q], as address and size. *)
Fixpoint lseg (m : Z -> header) (p : Z) (ns : list (Z * Z)) (q : Z) : Prop :=
  match ns with
  | [] => p = q
  | (a, n) :: ns => p = a /\ s_size (m a) = n /\ lseg m (s_ptr (m a)) ns q
  end.

Lemma lseg_app m p l1 l2 q : lseg m p (l1 ++ l2) q <-> exists r, lseg m p l1 r /\ lseg m r l2 q.
Proof.
  revert p. induction l1 as [|[a n] l1 IH]; intros p; cbn; [split; [eauto|by intros (r & -> & Hr)]|].
  rewrite IH. split; [intros (-> & Hn & r & H1 & H2)|intros (r & (-> & Hn & H1) & H2)]; eauto 10.
Qed.

Lemma lseg_ext m m' p ns q : (forall a, a ∈ ns.*1 -> m' a = m a) -> lseg m p ns q -> lseg m' p ns q.
Proof.
  revert p. induction ns as [|[a n] ns IH]; intros p He; cbn in *; [done|]. intros (-> & Hn & Hs).
  rewrite (He a ltac:(left)). split; [done|]. split; [done|]. apply IH; [|done]. intros b Hb. apply He. by right.
Qed.

(** Block [x] ends before block [y] begins, with a gap. *)
Definition before (x y : Z * Z) : Prop := x.1 + HSIZE * x.2 < y.1.
(** Blocks do not overlap. *)
Definition apart (x y : Z * Z) : Prop := x.1 + HSIZE * x.2 <= y.1 \/ y.1 + HSIZE * y.2 <= x.1.

Section Ring.
Context (base : Z).

(** A header of the ring: [base], or a block between [base] and [top]. *)
Definition node_ok (top : Z) (x : Z * Z) : Prop :=
  x = (base, 0) \/ 0 < x.2 /\ base + HSIZE <= x.1 /\ x.1 + HSIZE * x.2 <= top.

(** The heap: [ns] is the ring from [base] on, [live] the blocks the program
    holds, by the address of their header and with their size. *)
Record heap_inv (h : heap) (ns : list (Z * Z)) (live : gmap Z Z) (top : Z) : Prop := {
  iv_top : 0 < base /\ base + HSIZE <= top <= 2147483648;
  iv_ring : lseg (h_mem h) base ns base;
  iv_freep : h_freep h ∈ ns.*1;
  iv_sorted : StronglySorted before ns;
  iv_nodes : forall x, x ∈ ns -> node_ok top x;
  iv_live : forall a n, live !! a = Some n -> s_size (h_mem h a) = n /\ 0 < n /\ base + HSIZE <= a /\ a + HSIZE * n <= top;
  iv_free : forall a n x, live !! a = Some n -> x ∈ ns -> apart (a, n) x;
  iv_apart : forall a n b k, live !! a = Some n -> live !! b = Some k -> a <> b -> apart (a, n) (b, k);
}.

(** The header after the first one of [R], around the ring. *)
Definition next_of (R : list (Z * Z)) : Z := match R with [] => base | (r, _) :: _ => r end.

Lemma ring_split m ns a : lseg m base ns base -> a ∈ ns.*1 ->
  exists L R, ns = L ++ (a, s_size (m a)) :: R /\ s_ptr (m a) = next_of R /\ lseg m base L a /\ lseg m (s_ptr (m a)) R base.
Proof.
  intros Hl ([b n] & -> & Hin)%list_elem_of_fmap. cbn. apply list_elem_of_split in Hin as (L & R & ->).
  apply lseg_app in Hl as (r & HL & HR). cbn in HR. destruct HR as (-> & <- & HR). exists L, R. split; [done|]. split; [|done].
  destruct R as [|[c k] R]; cbn in *; [done|]. by destruct HR.
Qed.

(** The ring from any of its headers, once around. *)
Lemma ring_rotate m ns a : lseg m base ns base -> a ∈ ns.*1 ->
  exists seg, lseg m (s_ptr (m a)) (seg ++ [(a, s_size (m a))]) (s_ptr (m a)) /\
    (forall x, x ∈ seg ++ [(a, s_size (m a))] <-> x ∈ ns) /\ length ns = S (length seg) /\
    (NoDup ns.*1 -> a ∉ seg.*1).
Proof.
  intros Hl Ha. destruct (ring_split m ns a Hl Ha) as (L & R & -> & Hn & HL & HR). exists (R ++ L). split; [|split; [|split]].
  - rewrite <- app_assoc. apply lseg_app. exists base. split; [done|]. apply lseg_app. exists a. by cbn.
  - intros x. rewrite !elem_of_app, !elem_of_cons, elem_of_nil. tauto.
  - rewrite !length_app. cbn. lia.
  - rewrite !fmap_app. cbn. intros (_ & HaL & (HaR & _)%NoDup_cons)%NoDup_app. rewrite elem_of_app. intros [?|?]; [done|].
    apply (HaL a); [done|]. by left.
Qed.

Lemma sorted_split L x R : StronglySorted before (L ++ x :: R) ->
  (forall y, y ∈ L -> before y x) /\ (forall y, y ∈ R -> before x y) /\ (forall y z, y ∈ L -> z ∈ R -> before y z).
Proof.
  intros (H1 & _ & H2)%StronglySorted_app. apply StronglySorted_cons in H2 as [H2 _]. split; [|split].
  - intros y Hy. apply H1; [done|]. by left.
  - rewrite Forall_forall in H2. done.
  - intros y z Hy Hz. apply H1; [done|]. by right.
Qed.

Lemma node_size top x : node_ok top x -> 0 <= x.2 /\ base <= x.1.
Proof. intros [->|(? & ? & ?)]; unfold HSIZE in *; cbn; lia. Qed.

Lemma nodes_NoDup ns top : StronglySorted before ns -> (forall x, x ∈ ns -> node_ok top x) -> NoDup ns.*1.
Proof.
  induction ns as [|x ns IH]; intros Hs Hn; cbn; [constructor|]. apply StronglySorted_cons in Hs as [Hb Hs]. rewrite Forall_forall in Hb.
  constructor; [|apply IH; [done|]; intros y Hy; apply Hn; by right].
  intros (y & E & Hy)%list_elem_of_fmap. specialize (Hb y Hy). destruct (node_size top x) as [? _]; [apply Hn; by left|].
  unfold before, HSIZE in Hb. lia.
Qed.

(** A block the program holds has no header in the ring, and is above [base]. *)
Lemma live_not_node h ns live top a n : heap_inv h ns live top -> live !! a = Some n -> (a ∉ ns.*1) /\ base < a.
Proof.
  intros I Hl. destruct (iv_live _ _ _ _ I a n Hl) as (_ & Hn & Hb & _). unfold HSIZE in *. split; [|lia].
  intros (x & -> & Hx)%list_elem_of_fmap. pose proof (iv_free _ _ _ _ I _ _ _ Hl Hx) as Ha.
  destruct (iv_nodes _ _ _ _ I x Hx) as [-> | (? & _)]; unfold apart, HSIZE in *; cbn in *; lia.
Qed.

(** *** The place of a block *)

(** The test that ends the loop of [free]. *)
Definition stop (m : Z -> header) (bp p : Z) : bool :=
  let q := s_ptr (m p) in (p <? bp) && (bp <? q) || (q <=? p) && ((p <? bp) || (bp <? q)).

Lemma free_scan_stops m bp ns p q fuel : lseg m p ns q -> (exists x, x ∈ ns.*1 /\ stop m bp x = true) -> (length ns <= fuel)%nat ->
  exists x, free_scan fuel m bp p = Some x /\ x ∈ ns.*1 /\ stop m bp x = true.
Proof.
  revert p fuel. induction ns as [|[a n] ns IH]; intros p fuel Hl (x & Hx & Hs) Hf; [by apply elem_of_nil in Hx|].
  cbn in Hl, Hx, Hf. destruct fuel as [|fuel]; [lia|]. destruct Hl as (-> & _ & Hl). cbn [free_scan].
  destruct (stop m bp a) eqn:Ea.
  - exists a. split; [|split; [by left|done]]. unfold stop in Ea. destruct (_ && _); [done|]. cbn in Ea. by rewrite Ea.
  - assert (exists x, x ∈ ns.*1 /\ stop m bp x = true) as Hex by (apply elem_of_cons in Hx as [->|Hx]; [congruence|eauto]).
    destruct (IH _ fuel Hl Hex) as (y & Hy & Hin & Hys); [lia|]. exists y. split; [|split; [by right|done]].
    unfold stop in Ea. apply orb_false_iff in Ea as [E1 E2]. by rewrite E1, E2.
Qed.

(** The test holds at the last header below the block. *)
Lemma stop_spec m top L p R bp : StronglySorted before (L ++ p :: R) -> (forall x, x ∈ L ++ p :: R -> node_ok top x) ->
  s_ptr (m p.1) = next_of R -> base < bp ->
  stop m bp p.1 = true <-> p.1 < bp /\ match R with [] => True | r :: _ => bp < r.1 end.
Proof.
  intros Hs Hn Hp Hb. unfold stop. rewrite Hp.
  destruct (node_size top p) as [? ?]; [apply Hn, elem_of_app; right; by left|].
  rewrite orb_true_iff, !andb_true_iff, orb_true_iff, !Z.ltb_lt, Z.leb_le.
  destruct R as [|[r k] R]; cbn [next_of fst]; [lia|].
  assert (before p (r, k)) as Hpr by (apply (proj1 (proj2 (sorted_split _ _ _ Hs))); by left). unfold before, HSIZE in Hpr. cbn in Hpr. lia.
Qed.

Lemma place_of top bp x l : StronglySorted before (x :: l) -> x.1 < bp -> bp ∉ l.*1 ->
  (forall y, y ∈ x :: l -> node_ok top y) ->
  exists L p R, x :: l = L ++ p :: R /\ p.1 < bp /\ match R with [] => True | r :: _ => bp < r.1 end.
Proof.
  revert x. induction l as [|y l IH]; intros x Hs Hx Hni Hn; [by exists [], x, []|].
  destruct (decide (y.1 < bp)) as [Hy|Hy].
  - apply StronglySorted_cons in Hs as [_ Hs]. destruct (IH y Hs Hy) as (L & p & R & -> & Hp & HR).
    + contradict Hni. by right.
    + intros z Hz. apply Hn. by right.
    + exists (x :: L), p, R. done.
  - exists [], x, (y :: l). split; [done|]. split; [done|]. cbn in Hni. rewrite not_elem_of_cons in Hni. lia.
Qed.

(** The loop of [free] ends at the place of the block. *)
Lemma free_scan_place h ns live top bp bn fuel : heap_inv h ns live top -> live !! bp = Some bn -> (length ns <= fuel)%nat ->
  exists L p R, free_scan fuel (h_mem h) bp (h_freep h) = Some p /\ ns = L ++ (p, s_size (h_mem h p)) :: R /\
    s_ptr (h_mem h p) = next_of R /\ p < bp /\ match R with [] => True | r :: _ => bp < r.1 end /\
    lseg (h_mem h) base L p /\ lseg (h_mem h) (next_of R) R base.
Proof.
  intros I Hl Hf. destruct (live_not_node _ _ _ _ _ _ I Hl) as [Hni Hb]. destruct I as [_ Hr Hfp Hs Hn _ _ _].
  set (m := h_mem h) in *.
  assert (exists x, x ∈ ns.*1 /\ stop m bp x = true) as (x & Hx & Hst).
  { destruct ns as [|y l]; [by apply elem_of_nil in Hfp|]. destruct (place_of top bp y l Hs) as (L & p & R & E & Hp & HR); try done.
    - destruct y as [a n]. cbn in Hr. by destruct Hr as [<- _].
    - cbn in Hni. by apply not_elem_of_cons in Hni as [_ ?].
    - assert (p.1 ∈ (y :: l).*1) as Hin by (rewrite E, fmap_app; apply elem_of_app; right; by left).
      exists p.1. split; [done|]. pose proof Hr as Hr'. rewrite E in Hr', Hs. apply lseg_app in Hr' as (r & _ & HrR).
      destruct p as [a n]. cbn in HrR. destruct HrR as (-> & _ & HrR).
      eapply (stop_spec m top L (a, n) R bp); try done; [by rewrite <- E|]. cbn. destruct R as [|[c k] R]; cbn in *; [done|]. apply HrR. }
  assert (exists l, lseg m (h_freep h) l (h_freep h) /\ (forall x, x ∈ l <-> x ∈ ns) /\ length l = length ns) as (l & Hll & Hle & Hlln).
  { destruct (ring_split m ns _ Hr Hfp) as (L & R & E & _ & HL & HR). exists (((h_freep h, s_size (m (h_freep h))) :: R) ++ L). rewrite E.
    split; [apply lseg_app; exists base; by cbn|]. split; [|rewrite !length_app; cbn; lia].
    intros z. rewrite !elem_of_app. tauto. }
  destruct (free_scan_stops m bp l _ _ fuel Hll) as (p & Hp & Hpin & Hps); [|lia|].
  { exists x. split; [|done]. apply list_elem_of_fmap in Hx as (y & -> & Hy). apply list_elem_of_fmap. exists y. by rewrite Hle. }
  assert (p ∈ ns.*1) as Hpn by (apply list_elem_of_fmap in Hpin as (y & -> & Hy); apply list_elem_of_fmap; exists y; by rewrite <- Hle).
  destruct (ring_split m ns p Hr Hpn) as (L & R & -> & Hnx & HL & HR). exists L, p, R. rewrite Hnx in HR.
  apply (stop_spec m top L (p, s_size (m p)) R bp) in Hps; try done. cbn in Hps. tauto.
Qed.

(** *** Joining *)

(** The memory after [free]: only the headers of the block and of its place
    have changed. *)
Lemma free_link_mem m bp p n bn q : p <> bp -> q <> bp -> m p = Header q n -> s_size (m bp) = bn ->
  0 <= p -> 0 <= n -> p + 8 * n < two32 -> 0 <= bp -> 0 <= bn -> bp + 8 * bn < two32 ->
  (bp + 8 * bn = q -> 0 <= s_size (m q) /\ q + 8 * s_size (m q) < two32) ->
  let B := if bp + 8 * bn =? q then Header (s_ptr (m q)) (bn + s_size (m q)) else Header q bn in
  let P := if p + 8 * n =? bp then Header (s_ptr B) (n + s_size B) else Header bp n in
  forall b, free_link m bp p b = if b =? p then P else if b =? bp then B else m b.
Proof.
  intros Hpb Hqb Hp Hbn ? ? ? ? ? ? Hq B P. unfold free_link, hplus, HSIZE. rewrite Hp. cbn [s_ptr s_size]. rewrite Hbn.
  set (m1 := if _ =? q then _ else _).
  assert (forall b, m1 b = if b =? bp then B else m b) as Hm1.
  { intros b. unfold m1, B. rewrite (u32_small (bp + 8 * bn)) by ulia. unfold set_ptr, set_size, set_hdr.
    destruct (Z.eqb_spec (bp + 8 * bn) q) as [E|E]; [|by rewrite Hbn]. destruct (Hq E). rewrite Z.eqb_refl. cbn [s_ptr s_size].
    destruct (Z.eqb_spec q bp); [done|]. destruct (b =? bp); [|done]. f_equal. rewrite u32_small by ulia. done. }
  clearbody m1. intros b. rewrite (Hm1 p), (Hm1 bp), Z.eqb_refl. destruct (Z.eqb_spec p bp); [done|]. rewrite Hp. cbn [s_size].
  rewrite (u32_small (p + 8 * n)) by ulia. unfold P, set_ptr, set_size, set_hdr. destruct (Z.eqb_spec (p + 8 * n) bp) as [E|E].
  - rewrite Z.eqb_refl, Hm1. destruct (Z.eqb_spec bp p); [done|]. rewrite Hm1, Z.eqb_refl. cbn [s_ptr s_size]. destruct (b =? p); [|done].
    f_equal. rewrite u32_small; [done|]. unfold B. destruct (Z.eqb_spec (bp + 8 * bn) q) as [Eq|]; cbn; [destruct (Hq Eq)|]; ulia.
  - destruct (b =? p); [|done]. rewrite Hm1. destruct (Z.eqb_spec p bp); [done|]. by rewrite Hp.
Qed.

(** Joining a block with the one after it. *)
Lemma join_after m top (live : gmap Z Z) bp bn R :
  (forall x, x ∈ R -> node_ok top x) -> StronglySorted before R -> lseg m (next_of R) R base -> base < bp -> 0 < bn ->
  (forall x, x ∈ R -> bp + HSIZE * bn <= x.1) -> bp + HSIZE * bn <= top -> base + HSIZE <= bp ->
  (forall a n x, live !! a = Some n -> 0 < n /\ (x ∈ R -> apart (a, n) x) /\ apart (a, n) (bp, bn)) ->
  exists bn' R', (if bp + 8 * bn =? next_of R then Header (s_ptr (m (next_of R))) (bn + s_size (m (next_of R))) else Header (next_of R) bn)
      = Header (next_of R') bn' /\
    R' `suffix_of` R /\ lseg m (next_of R') R' base /\ (forall x, x ∈ R' -> before (bp, bn') x) /\
    bn <= bn' /\ bp + HSIZE * bn' <= top /\ (forall a n, live !! a = Some n -> apart (a, n) (bp, bn')).
Proof.
  intros Hn Hs Hl Hb Hbn Hlt Htop Hlo Hap. unfold HSIZE in *. destruct R as [|[r k] R]; cbn [next_of].
  - destruct (Z.eqb_spec (bp + 8 * bn) base) as [|_]; [lia|]. exists bn, []. repeat (split; [done || lia|]). split; [|split; [lia|split; [lia|]]].
    + intros x []%elem_of_nil.
    + intros a n Ha. by apply (Hap a n (bp, bn) Ha).
  - cbn in Hl. destruct Hl as (_ & Hk & Hl). apply StronglySorted_cons in Hs as [Hf Hs]. rewrite Forall_forall in Hf.
    assert (node_ok top (r, k)) as Hr by (apply Hn; by left). assert (bp + 8 * bn <= r) as Hle by (apply (Hlt (r, k)); by left).
    destruct Hr as [[= -> ->]|(Hk0 & _ & Hkt)]; [lia|]. unfold HSIZE in *; cbn in Hk0, Hkt.
    destruct (Z.eqb_spec (bp + 8 * bn) r) as [Er|Er].
    + exists (bn + k), R. rewrite Hk. assert (s_ptr (m r) = next_of R) as Ep by (destruct R as [|[c j] R]; cbn in *; [done|]; by destruct Hl).
      rewrite <- Ep at 2. rewrite Ep in Hl |- *. split; [done|]. split; [by exists [(r, k)]|]. split; [done|]. split; [|split; [lia|split; [lia|]]].
      * intros x Hx. specialize (Hf x Hx). unfold before, HSIZE in *. cbn in *. lia.
      * intros a n Ha. destruct (Hap a n (r, k) Ha) as (Hn0 & H1 & H2). specialize (H1 ltac:(by left)). unfold apart, HSIZE in *. cbn in *. lia.
    + exists bn, ((r, k) :: R). split; [done|]. split; [done|]. split; [by cbn|]. split; [|split; [lia|split; [lia|]]].
      * intros x [->|Hx]%elem_of_cons; [|specialize (Hf x Hx)]; unfold before, HSIZE in *; cbn in *; lia.
      * intros a n Ha. by apply (Hap a n (bp, bn) Ha).
Qed.

(** Replacing a header and some after it by the headers [M]. *)
Lemma relink m m' L p R M R' top :
  lseg m base L p.1 -> StronglySorted before (L ++ p :: R) -> (forall x, x ∈ L ++ p :: R -> node_ok top x) ->
  R' `suffix_of` R -> lseg m (next_of R') R' base ->
  (forall b, b ∈ L.*1 \/ b ∈ R'.*1 -> m' b = m b) -> lseg m' p.1 M (next_of R') -> StronglySorted before M ->
  (forall x, x ∈ M -> node_ok top x /\ p.1 <= x.1) -> (forall x z, x ∈ M -> z ∈ R' -> before x z) ->
  lseg m' base (L ++ M ++ R') base /\ StronglySorted before (L ++ M ++ R') /\ (forall x, x ∈ L ++ M ++ R' -> node_ok top x).
Proof.
  intros HL Hs Hn Hsub HR Hm HM HsM HnM Hb. destruct (sorted_split _ _ _ Hs) as (H1 & H2 & H3).
  assert (forall x, x ∈ R' -> x ∈ R) as Hin by (destruct Hsub as [k ->]; intros x Hx; apply elem_of_app; by right).
  apply StronglySorted_app in Hs as (_ & HsL & [_ HsR]%StronglySorted_cons). split; [|split].
  - apply lseg_app. exists p.1. split; [by apply (lseg_ext m); [auto|]|]. apply lseg_app. exists (next_of R').
    split; [done|]. apply (lseg_ext m); auto.
  - assert (StronglySorted before R') as HsR' by (destruct Hsub as [k ->]; by apply StronglySorted_app in HsR as (_ & _ & ?)).
    apply StronglySorted_app. split; [|split; [done|by apply StronglySorted_app]].
    intros x y Hx [Hy|Hy]%elem_of_app; [|auto]. specialize (H1 x Hx). destruct (HnM y Hy). unfold before in *. lia.
  - intros x [Hx|[Hx|Hx]%elem_of_app]%elem_of_app; [|by apply HnM|]; apply Hn, elem_of_app; [by left|right; right; auto].
Qed.

(** A block the program holds lies between its place and the next header. *)
Lemma room h L p n R live top bp bn : heap_inv h (L ++ (p, n) :: R) live top -> live !! bp = Some bn -> p < bp ->
  match R with [] => True | r :: _ => bp < r.1 end ->
  p + HSIZE * n <= bp /\ forall x, x ∈ R -> bp + HSIZE * bn <= x.1.
Proof.
  intros I Hl Hp Hrest. destruct (iv_live _ _ _ _ I bp bn Hl) as (_ & Hbn & _). split.
  - pose proof (iv_free _ _ _ _ I bp bn (p, n) Hl ltac:(apply elem_of_app; right; by left)) as Ha. unfold apart, HSIZE in *. cbn in Ha. lia.
  - intros x Hx. assert (bp < x.1) as Hbx.
    { pose proof (iv_sorted _ _ _ _ I) as Hs. destruct R as [|r R]; [by apply elem_of_nil in Hx|]. apply elem_of_cons in Hx as [->|Hx]; [done|].
      apply StronglySorted_app in Hs as (_ & _ & [_ [Hf _]%StronglySorted_cons]%StronglySorted_cons). rewrite Forall_forall in Hf. specialize (Hf x Hx).
      destruct (node_size top r) as [? ?]; [apply (iv_nodes _ _ _ _ I), elem_of_app; right; right; by left|]. unfold before, HSIZE in Hf. lia. }
    pose proof (iv_free _ _ _ _ I bp bn x Hl ltac:(apply elem_of_app; right; by right)) as Ha.
    destruct (node_size top x) as [? ?]; [apply (iv_nodes _ _ _ _ I), elem_of_app; right; by right|]. unfold apart, HSIZE in *. cbn in Ha. lia.
Qed.

(** The headers at the place of a freed block, joined or not. *)
Definition joined (p n bp bn : Z) : list (Z * Z) := if p + HSIZE * n =? bp then [(p, n + bn)] else [(p, n); (bp, bn)].

Lemma joined_spec top p n bp bn : node_ok top (p, n) -> 0 < bn -> base + HSIZE <= bp -> bp + HSIZE * bn <= top -> p + HSIZE * n <= bp ->
  StronglySorted before (joined p n bp bn) /\ (forall x, x ∈ joined p n bp bn -> node_ok top x /\ p <= x.1) /\
  (forall y, before (p, n) y -> before (bp, bn) y -> forall x, x ∈ joined p n bp bn -> before x y) /\
  (forall y, 0 < y.2 -> apart y (p, n) -> apart y (bp, bn) -> forall x, x ∈ joined p n bp bn -> apart y x) /\
  (exists x, x ∈ joined p n bp bn /\ bn <= x.2) /\ p ∈ (joined p n bp bn).*1.
Proof.
  intros Hn Hbn Hlo Hhi Hp. unfold HSIZE in *. pose proof (node_size _ _ Hn) as [Hn0 Hp0]. cbn in Hn0, Hp0. unfold joined, HSIZE.
  destruct (Z.eqb_spec (p + 8 * n) bp) as [E|E].
  - split; [repeat constructor|]. split; [|split; [|split; [|split; [|by left]]]].
    + intros x ->%list_elem_of_singleton. split; [|cbn; lia]. right. unfold HSIZE. destruct Hn as [[= -> ->]|(? & ? & ?)]; unfold HSIZE in *; cbn in *; lia.
    + intros y _ Hy x ->%list_elem_of_singleton. unfold before, HSIZE in *. cbn in *. lia.
    + intros y Hy H1 H2 x ->%list_elem_of_singleton. unfold apart, HSIZE in *. cbn in *. lia.
    + eexists. split; [by left|]. cbn. lia.
  - split; [repeat constructor; unfold before, HSIZE; cbn; lia|]. split; [|split; [|split; [|split; [|by left]]]].
    + intros x [->| ->%list_elem_of_singleton]%elem_of_cons; (split; [|cbn; lia]); [done|]. right. unfold HSIZE. cbn. lia.
    + by intros y ? ? x [->| ->%list_elem_of_singleton]%elem_of_cons.
    + by intros y ? ? ? x [->| ->%list_elem_of_singleton]%elem_of_cons.
    + exists (bp, bn). split; [right; by left|done].
Qed.

Lemma free_run h ns live top bp bn fuel : heap_inv h ns live top -> live !! bp = Some bn -> (length ns <= fuel)%nat ->
  exists h' ns', free fuel h (bp + HSIZE) = Some h' /\ heap_inv h' ns' (delete bp live) top /\
    (length ns' <= S (length ns))%nat /\ exists x, x ∈ ns' /\ bn <= x.2.
Proof.
  intros I Hl Hf. pose proof (live_not_node _ _ _ _ _ _ I Hl) as [Hni Hlo].
  destruct (free_scan_place _ _ _ _ _ _ fuel I Hl Hf) as (L & p & R & Hsc & -> & Hq & Hp & Hrest & HL & HR).
  destruct (room _ _ _ _ _ _ _ _ _ I Hl Hp Hrest) as [Hpb HbR].
  pose proof (nodes_NoDup _ _ (iv_sorted _ _ _ _ I) (iv_nodes _ _ _ _ I)) as Hnd.
  pose proof (fun a k => live_not_node _ _ _ _ a k I) as Hnode.
  destruct I as [(Hb0 & Hbt & Ht) Hr Hfp Hs Hn Hlv Hfr Hap]. destruct h as [m fp]. cbn [h_mem h_freep] in *.
  destruct (Hlv bp bn Hl) as (Hbn & Hbn0 & Hblo & Hbhi).
  set (n := s_size (m p)) in *. assert (node_ok top (p, n)) as Hpn by (apply Hn, elem_of_app; right; by left).
  destruct (node_size _ _ Hpn) as [Hn0 Hp0]. cbn in Hn0, Hp0.
  destruct (join_after m top (delete bp live) bp bn R) as (bn' & R' & HB & Hsub & HR' & HbR' & Hle & Hbt' & Hapn); try done.
  { intros x Hx. apply Hn, elem_of_app. right. by right. }
  { by apply StronglySorted_app in Hs as (_ & _ & [_ ?]%StronglySorted_cons). }
  { intros a k x [Hne Ha]%lookup_delete_Some. split; [by apply (Hlv a k)|]. split; [|by apply Hap].
    intros Hx. apply Hfr; [done|]. apply elem_of_app. right. by right. }
  destruct (joined_spec top p n bp bn' Hpn) as (J1 & J2 & J3 & J4 & J5 & J6); try done; [lia|].
  assert (forall b, free_link m bp p b = if b =? p then (if p + 8 * n =? bp then Header (next_of R') (n + bn') else Header bp n)
      else if b =? bp then Header (next_of R') bn' else m b) as Hm.
  { intros b. rewrite (free_link_mem m bp p n bn (next_of R)), HB; try done; unfold HSIZE in *; try (unfold two32; lia).
    - destruct R as [|[r k] R]; cbn in *; lia.
    - rewrite <- Hq. unfold n. by destruct (m p).
    - intros E. destruct R as [|[r k] R]; cbn in *; [lia|]. destruct HR as (_ & -> & _).
      destruct (Hn (r, k)) as [[= -> ->]|(? & ? & ?)]; [apply elem_of_app; right; right; by left|lia|]. unfold two32, HSIZE in *. cbn in *. lia. }
  rewrite fmap_app in Hnd, Hni. cbn in Hnd, Hni. apply NoDup_app in Hnd as (_ & HndL & [HpR _]%NoDup_cons).
  assert (forall b, b ∈ L.*1 \/ b ∈ R'.*1 -> b <> p /\ b <> bp) as Hother.
  { destruct Hsub as [k ->]. rewrite fmap_app in *. intros b Hb. split; intros ->; destruct Hb as [Hb|Hb].
    - apply (HndL p Hb). by left.
    - apply HpR, elem_of_app. by right.
    - apply Hni, elem_of_app. by left.
    - apply Hni. rewrite elem_of_app, elem_of_cons, elem_of_app. auto. }
  destruct (relink m (free_link m bp p) L (p, n) R (joined p n bp bn') R' top) as (K1 & K2 & K3); try done.
  { intros b [Hbp Hbb]%Hother. rewrite Hm. apply Z.eqb_neq in Hbp, Hbb. by rewrite Hbp, Hbb. }
  { unfold joined, HSIZE. cbn [fst]. destruct (Z.eqb_spec (p + 8 * n) bp) as [E|E]; cbn; rewrite !Hm, ?Z.eqb_refl; destruct (Z.eqb_spec bp p); try lia;
      destruct (Z.eqb_spec (p + 8 * n) bp); try done. }
  { intros x z Hx Hz. apply (J3 z); [|by apply HbR'|done]. destruct (sorted_split _ _ _ Hs) as (_ & H2 & _). apply H2.
    destruct Hsub as [k ->]. apply elem_of_app. by right. }
  exists (Heap (free_link m bp p) p), (L ++ joined p n bp bn' ++ R'). split; [|split; [|split]].
  - unfold free. replace (u32 (bp + HSIZE - HSIZE)) with bp by (unfold HSIZE in *; rewrite u32_small; ulia). cbn [h_mem h_freep]. by rewrite Hsc.
  - split; cbn [h_mem h_freep]; try done.
    + rewrite !fmap_app, !elem_of_app. auto.
    + intros a k [Hne Ha]%lookup_delete_Some. rewrite Hm. destruct (Hnode a k Ha) as [Hna _]. rewrite fmap_app in Hna.
      destruct (Z.eqb_spec a p) as [->|]; [destruct Hna; cbn; apply elem_of_app; right; by left|]. destruct (Z.eqb_spec a bp); [done|]. by apply Hlv.
    + intros a k x Hak. pose proof Hak as [Hne Ha]%lookup_delete_Some.  rewrite !elem_of_app. intros [Hx|[Hx|Hx]].
      * apply Hfr; [done|]. apply elem_of_app. by left.
      * apply (J4 (a, k)); [by apply (Hlv a k)|apply Hfr; [done|apply elem_of_app; right; by left]|by apply Hapn|done].
      * apply Hfr; [done|]. destruct Hsub as [j ->]. rewrite elem_of_app, elem_of_cons, elem_of_app. auto.
    + intros a k b j [_ Ha]%lookup_delete_Some [_ Hb]%lookup_delete_Some. by apply Hap.
  - assert (length (joined p n bp bn') <= 2)%nat by (unfold joined; case_bool; cbn; lia).
    destruct Hsub as [k ->]. rewrite !length_app. cbn [length]. rewrite length_app. lia.
  - destruct J5 as (x & Hx & Hle'). exists x. rewrite !elem_of_app. split; [auto|lia].
Qed.

(** *** Taking a block *)

(** What is left of a block of size [n] at [p] when its last [k] units go. *)
Definition rest_of (p n k : Z) : list (Z * Z) := if n =? k then [] else [(p, n - k)].

(** The memory after [malloc] has found a block: apart from the header before
    it, it has changed at most inside the block. *)
Lemma take_block_mem m fp prevp p n k nunits q : prevp <> p -> m prevp = Header p k -> m p = Header q n ->
  0 < nunits <= n -> 0 <= p -> p + HSIZE * n < two32 ->
  let a := p + HSIZE * (n - nunits) in
  exists m', take_block nunits prevp p (Heap m fp) = (a, Heap m' prevp) /\ s_size (m' a) = nunits /\
    (a <> prevp -> lseg m' prevp ((prevp, k) :: rest_of p n nunits) q) /\ (forall b, b <> prevp -> b <> p -> b <> a -> m' b = m b).
Proof.
  intros Hne Hprev Hp Hnu Hp0 Hpn a. unfold take_block, rest_of. cbn [h_mem]. rewrite Hp. cbn [s_size s_ptr]. unfold HSIZE in *.
  destruct (Z.eqb_spec n nunits) as [E|E].
  - exists (set_ptr prevp q m). replace a with p by lia. split; [done|]. unfold set_ptr, set_hdr. split; [|split].
    + destruct (Z.eqb_spec p prevp); [done|]. by rewrite Hp.
    + intros _. cbn. rewrite Z.eqb_refl, Hprev. done.
    + intros b Hb _ _. by destruct (Z.eqb_spec b prevp).
  - rewrite (u32_small (n - nunits)) by ulia. set (m1 := set_size p (n - nunits) m).
    assert (m1 p = Header q (n - nunits)) as Ep by (unfold m1, set_size, set_hdr; by rewrite Z.eqb_refl, Hp).
    assert (forall b, b <> p -> m1 b = m b) as Eo by (intros b Hb; unfold m1, set_size, set_hdr; by destruct (Z.eqb_spec b p)).
    exists (set_size a nunits m1). rewrite Ep. cbn [s_size].
    unfold hplus, HSIZE. rewrite u32_small by ulia. fold a. split; [done|]. unfold set_size, set_hdr. split; [|split].
    + by rewrite Z.eqb_refl.
    + intros Ha. cbn. destruct (Z.eqb_spec prevp a); [done|]. destruct (Z.eqb_spec p a); [lia|]. rewrite (Eo prevp), Hprev, Ep by done. done.
    + intros b _ Hbp Hba. destruct (Z.eqb_spec b a); [done|]. by apply Eo.
Qed.

Lemma apart_sym x y : apart x y -> apart y x.
Proof. unfold apart. tauto. Qed.

(** The headers around two neighbours of the ring. *)
Lemma around top L q p R : StronglySorted before (L ++ q :: p :: R) -> (forall x, x ∈ L ++ q :: p :: R -> node_ok top x) ->
  (forall x, x ∈ L -> before x p /\ x.1 < q.1) /\ before q p /\ q.1 < p.1 /\ (forall x, x ∈ R -> before p x).
Proof.
  intros Hs Hn. assert (forall x, x ∈ L ++ q :: p :: R -> 0 <= x.2) as H0 by (intros x Hx; by apply (node_size top), Hn).
  destruct (sorted_split _ _ _ Hs) as (H1 & H2 & H3). assert (before q p) as Hqp by (apply H2; by left).
  assert (0 <= q.2) by (apply H0, elem_of_app; right; by left). split; [|split; [done|split]].
  - intros x Hx. specialize (H1 x Hx). assert (0 <= x.2) by (apply H0, elem_of_app; by left). split; [apply H3; [done|by left]|].
    unfold before, HSIZE in H1. lia.
  - unfold before, HSIZE in Hqp. lia.
  - apply StronglySorted_app in Hs as (_ & _ & [_ [Hf _]%StronglySorted_cons]%StronglySorted_cons). by rewrite Forall_forall in Hf.
Qed.

Lemma rest_of_elem p n k x : x ∈ rest_of p n k -> x = (p, n - k) /\ n <> k.
Proof. unfold rest_of. destruct (Z.eqb_spec n k); [by intros ?%elem_of_nil|]. by intros ->%list_elem_of_singleton. Qed.

(** The last units of a free block are apart from what stays free. *)
Lemma taken_apart top L q p n k R x : StronglySorted before (L ++ q :: (p, n) :: R) ->
  (forall x, x ∈ L ++ q :: (p, n) :: R -> node_ok top x) -> 0 < k <= n ->
  x ∈ L ++ (q :: rest_of p n k) ++ R -> apart (p + HSIZE * (n - k), k) x.
Proof.
  intros Hs Hn Hk. destruct (around _ _ _ _ _ Hs Hn) as (HL & Hq & _ & HR). rewrite !elem_of_app, elem_of_cons.
  unfold apart, before, HSIZE in *. cbn in *.
  intros [Hx|[[->|[-> Hne]%rest_of_elem]|Hx]]; [destruct (HL x Hx)| |cbn|specialize (HR x Hx)]; lia.
Qed.

(** The ring without the last units of a block. *)
Lemma take_ring m m' L prevp p n k nunits R top : let a := p + HSIZE * (n - nunits) in
  lseg m base L prevp -> StronglySorted before (L ++ (prevp, k) :: (p, n) :: R) ->
  (forall x, x ∈ L ++ (prevp, k) :: (p, n) :: R -> node_ok top x) -> lseg m (next_of R) R base -> 0 < nunits <= n -> base + HSIZE <= p ->
  lseg m' prevp ((prevp, k) :: rest_of p n nunits) (next_of R) -> (forall b, b <> prevp -> b <> p -> b <> a -> m' b = m b) ->
  lseg m' base (L ++ ((prevp, k) :: rest_of p n nunits) ++ R) base /\
  StronglySorted before (L ++ ((prevp, k) :: rest_of p n nunits) ++ R) /\
  (forall x, x ∈ L ++ ((prevp, k) :: rest_of p n nunits) ++ R -> node_ok top x).
Proof.
  intros a HL Hs Hn HR Hnu Hlo Hseg Ho. destruct (around _ _ _ _ _ Hs Hn) as (H1 & H2 & H3 & H4).
  assert (node_ok top (p, n)) as Hpn by (apply Hn, elem_of_app; right; right; by left). unfold a, before, HSIZE in Hlo, Ho, H1, H2, H4. cbn in H1, H2, H3, H4.
  assert (p + 8 * n <= top) by (destruct Hpn as [[= -> ->]|(_ & _ & Ht)]; [lia|exact Ht]).
  apply (relink m m' L (prevp, k) ((p, n) :: R) ((prevp, k) :: rest_of p n nunits) R top); try done.
  - by exists [(p, n)].
  - intros b [(x & -> & Hx)%list_elem_of_fmap|(x & -> & Hx)%list_elem_of_fmap]; [destruct (H1 x Hx)|specialize (H4 x Hx)]; apply Ho; lia.
  - apply StronglySorted_cons. split; [|unfold rest_of; case_bool; repeat constructor]. apply Forall_forall. by intros x [-> _]%rest_of_elem.
  - intros x [->|[-> Hne]%rest_of_elem]%elem_of_cons; (split; [|cbn; lia]); [apply Hn, elem_of_app; right; by left|].
    right. unfold HSIZE. cbn. lia.
  - intros x z [->|[-> Hne]%rest_of_elem]%elem_of_cons Hz; specialize (H4 z Hz); unfold before, HSIZE; cbn; lia.
Qed.

Lemma take_run h ns live top prevp p nunits : heap_inv h ns live top -> prevp ∈ ns.*1 -> s_ptr (h_mem h prevp) = p -> p ∈ ns.*1 ->
  0 < nunits <= s_size (h_mem h p) ->
  exists a h' ns', take_block nunits prevp p h = (a, h') /\ heap_inv h' ns' (<[a := nunits]> live) top /\ live !! a = None.
Proof.
  intros I Hin Hp Hpin Hnu. pose proof (fun a k => live_not_node _ _ _ _ a k I) as Hnode.
  destruct I as [(Hb0 & Hbt & Ht) Hr _ Hs Hn Hlv Hfr Hap]. destruct h as [m fp]. cbn [h_mem] in *.
  destruct (ring_split m ns p Hr Hpin) as (L1 & R1 & E1 & _). assert ((p, s_size (m p)) ∈ ns) as Hpel by (rewrite E1; apply elem_of_app; right; by left).
  destruct (Hn _ Hpel) as [[= Eb E0]|(_ & Hplo & Hphi)]; [lia|]. cbn [fst snd] in Hplo, Hphi. clear L1 R1 E1.
  destruct (ring_split m ns prevp Hr Hin) as (L & R0 & -> & Hnext & HL & HR). rewrite Hp in Hnext, HR.
  destruct R0 as [|[p0 n0] R]; cbn in Hnext; [unfold HSIZE in *; lia|]. subst p0. cbn in HR. destruct HR as (_ & <- & HR).
  set (n := s_size (m p)) in *. set (k := s_size (m prevp)) in *. set (a := p + HSIZE * (n - nunits)) in *.
  destruct (around _ _ _ _ _ Hs Hn) as (_ & _ & Hlt & _). cbn in Hlt.
  assert (0 <= p /\ p <= a < p + HSIZE * n /\ a + HSIZE * nunits = p + HSIZE * n) as (Hp0 & Ha & Hae) by (unfold a, HSIZE in *; lia).
  destruct (take_block_mem m fp prevp p n k nunits (s_ptr (m p))) as (m' & Et & Esz & Eseg & Eo); try done; [lia|..].
  { rewrite <- Hp. unfold k. by destruct (m prevp). }
  { unfold n. by destruct (m p). }
  { unfold two32. lia. }
  fold a in Et, Esz, Eseg, Eo. specialize (Eseg ltac:(lia)).
  assert (s_ptr (m p) = next_of R) as Enx by (destruct R as [|[c j] R]; cbn in *; [done|]; by destruct HR). rewrite Enx in Eseg, HR.
  destruct (take_ring m m' L prevp p n k nunits R top HL Hs Hn HR Hnu Hplo Eseg Eo) as (K1 & K2 & K3).
  pose proof (taken_apart top L (prevp, k) p n nunits R) as Hapx. fold a in Hapx.
  assert (forall b j, live !! b = Some j -> apart (a, nunits) (b, j)) as Hapl.
  { intros b j Hb. specialize (Hfr b j (p, n) Hb Hpel). destruct (Hlv b j Hb) as (_ & ? & _). unfold apart, HSIZE in *. cbn in *. lia. }
  exists a, (Heap m' prevp), (L ++ ((prevp, k) :: rest_of p n nunits) ++ R). split; [done|]. split.
  2: { destruct (live !! a) as [j|] eqn:Ea; [|done]. specialize (Hapl a j Ea). destruct (Hlv a j Ea) as (_ & ? & _). unfold apart, HSIZE in *. cbn in *. lia. }
  split; cbn [h_mem h_freep]; try done.
  - rewrite !fmap_app, !elem_of_app. right. left. by left.
  - intros b j [[<- <-]|[Hne Hb]]%lookup_insert_Some; [split; [done|]; unfold HSIZE in *; lia|].
    destruct (Hnode b j Hb) as [Hbn _]. rewrite fmap_app in Hbn. cbn in Hbn. rewrite not_elem_of_app, !not_elem_of_cons in Hbn.
    destruct Hbn as (_ & Hb1 & Hb2 & _). rewrite Eo; [by apply Hlv|done..].
  - intros b j x [[<- <-]|[Hne Hb]]%lookup_insert_Some Hx; [by apply Hapx|]. rewrite !elem_of_app, elem_of_cons in Hx.
    destruct Hx as [Hx|[[->|[-> Hne']%rest_of_elem]|Hx]].
    + apply Hfr; [done|]. apply elem_of_app. by left.
    + apply Hfr; [done|]. apply elem_of_app. right. by left.
    + specialize (Hfr b j (p, n) Hb Hpel). unfold apart, HSIZE in *. cbn in *. lia.
    + apply Hfr; [done|]. apply elem_of_app. right. right. by right.
  - intros b j c i [[<- <-]|[Hne Hb]]%lookup_insert_Some [[<- <-]|[Hne' Hc]]%lookup_insert_Some Hbc; [done|by apply Hapl|by apply apart_sym, Hapl|by apply Hap].
Qed.

(** *** The loop of malloc *)

Context {E : Type} `{Sbrk E}.

(** Memory that [sbrk] has added is a block that [free] takes in. *)
Lemma grow_inv h ns live top nu : heap_inv h ns live top -> 0 < nu -> top + HSIZE * nu <= 2147483648 ->
  heap_inv (Heap (set_size top nu (h_mem h)) (h_freep h)) ns (<[top := nu]> live) (top + HSIZE * nu) /\ live !! top = None.
Proof.
  intros [(Hb0 & Hbt & Ht) Hr Hfp Hs Hn Hlv Hfr Hap] Hnu Htop.
  assert (live !! top = None) as Hnone.
  { destruct (live !! top) as [j|] eqn:Ej; [|done]. destruct (Hlv top j Ej) as (_ & ? & _ & ?). unfold HSIZE in *. lia. }
  assert (forall x, x ∈ ns -> x.1 < top /\ x.1 + HSIZE * x.2 <= top) as Hlt
    by (intros x Hx; destruct (Hn x Hx) as [-> | (? & ? & ?)]; unfold HSIZE in *; cbn in *; lia).
  assert (forall a, a <> top -> set_size top nu (h_mem h) a = h_mem h a) as Hm
    by (intros a Ha; unfold set_size, set_hdr; by destruct (Z.eqb_spec a top)).
  split; [|done]. split; cbn [h_mem h_freep]; try done.
  - unfold HSIZE in *. lia.
  - apply (lseg_ext (h_mem h)); [|done]. intros a (x & -> & Hx)%list_elem_of_fmap. apply Hm. destruct (Hlt x Hx). lia.
  - intros x Hx. destruct (Hn x Hx) as [->|(? & ? & ?)]; [by left|right]. unfold HSIZE in *. lia.
  - intros a n [[<- <-]|[Hne Ha]]%lookup_insert_Some.
    + unfold set_size, set_hdr. rewrite Z.eqb_refl. unfold HSIZE in *. cbn. lia.
    + rewrite Hm by done. destruct (Hlv a n Ha) as (? & ? & ? & ?). unfold HSIZE in *. lia.
  - intros a n x [[<- <-]|[Hne Ha]]%lookup_insert_Some Hx; [|by apply Hfr]. right. cbn. by apply Hlt.
  - intros a n b k [[<- <-]|[Hne Ha]]%lookup_insert_Some [[<- <-]|[Hne' Hb]]%lookup_insert_Some Hab; [done| | |by apply Hap].
    + right. by apply (Hlv b k).
    + left. by apply (Hlv a n).
Qed.

Lemma morecore_run h ns live (e : E) nu fuel : heap_inv h ns live (brk e) -> 0 < nu -> HSIZE * nu < 2147483648 -> (length ns <= fuel)%nat ->
  (exists n e', sbrk n e = (None, e') /\ morecore fuel nu h e = Some (0, h, e') /\ brk e' = brk e) \/
  (exists h' ns' e', morecore fuel nu h e = Some (h_freep h', h', e') /\ heap_inv h' ns' live (brk e') /\
     (length ns' <= S (length ns))%nat /\ exists x, x ∈ ns' /\ nu <= x.2).
Proof.
  intros I Hnu Hlt Hf. unfold morecore. set (n := if nu <? 4096 then 4096 else nu).
  assert (nu <= n /\ HSIZE * n < 2147483648) as [Hn Hn'] by (unfold n; case_bool; unfold HSIZE in *; lia).
  rewrite s32_small by (unfold HSIZE, is_s32 in *; lia). destruct (sbrk (n * HSIZE) e) as [[hp|] e'] eqn:Es.
  - right. apply sbrk_grows in Es as [-> Eb]; [|unfold HSIZE in *; lia]. replace (n * HSIZE) with (HSIZE * n) in Eb by lia.
    pose proof (brk_range e') as Hr. destruct (grow_inv _ _ _ _ n I) as [I' Hnone]; [lia|lia|].
    destruct (free_run _ _ _ _ (brk e) n fuel I') as (h' & ns' & Hfr & I2 & Hlen & x & Hx & Hle); [by rewrite lookup_insert_eq|done|].
    rewrite delete_insert_id, <- Eb in I2 by done. exists h', ns', e'. unfold hplus. replace (HSIZE * 1) with HSIZE by lia.
    rewrite u32_small by (pose proof (brk_range e); unfold HSIZE in *; ulia). rewrite Hfr.
    split; [done|]. split; [done|]. split; [done|]. exists x. split; [done|lia].
  - left. exists (n * HSIZE), e'. split; [done|]. split; [done|]. by apply sbrk_fails in Es.
Qed.

(** The loop walks on until a block is large enough, or until it is back at
    [freep]. *)
Lemma malloc_scan h ns live top nunits (e : E) seg q : let m := h_mem h in let f := h_freep h in
  heap_inv h ns live top -> (forall x, x ∈ seg ++ [(f, s_size (m f))] -> x ∈ ns) -> f ∉ seg.*1 ->
  forall p prevp fuel, lseg m p (seg ++ [(f, s_size (m f))]) q -> prevp ∈ ns.*1 -> s_ptr (m prevp) = p -> (length seg < fuel)%nat ->
  (exists prevp' p', prevp' ∈ ns.*1 /\ s_ptr (m prevp') = p' /\ p' ∈ ns.*1 /\ nunits <= s_size (m p') /\
     malloc_loop fuel nunits prevp p h e = let '(a, h') := take_block nunits prevp' p' h in Some (hplus a 1, h', e)) \/
  ((forall x, x ∈ seg ++ [(f, s_size (m f))] -> x.2 < nunits) /\ exists fuel', fuel = (length seg + S fuel')%nat /\
     malloc_loop fuel nunits prevp p h e =
       ('(p, h, e) ← morecore (S fuel') nunits h e;
        if p =? 0 then Some (0, h, e) else malloc_loop fuel' nunits p (s_ptr (h_mem h p)) h e)).
Proof.
  intros m f I. induction seg as [|[a n] seg IH]; intros Hin Hnf p prevp fuel Hl Hprev Hp Hf; cbn in Hl, Hf;
    (destruct fuel as [|fuel]; [lia|]); destruct Hl as (Ea & Hn & Hl); subst p; cbn [malloc_loop]; fold m.
  - destruct (Z.leb_spec nunits (s_size (m f))) as [Hle|Hle].
    + left. exists prevp, f. repeat (split; [done|]). split; [apply list_elem_of_fmap; exists (f, s_size (m f)); split; [done|]; apply Hin; by left|done].
    + right. split; [by intros x ->%list_elem_of_singleton|]. exists fuel. split; [done|]. unfold f. by rewrite Z.eqb_refl.
  - assert ((a, n) ∈ ns) as Han by (apply Hin; by left). assert (a ∈ ns.*1) as Ha by (apply list_elem_of_fmap; by exists (a, n)).
    destruct (Z.leb_spec nunits (s_size (m a))) as [Hle|Hle].
    + left. exists prevp, a. done.
    + cbn in Hnf. rewrite not_elem_of_cons in Hnf. destruct Hnf as [Hfa Hnf]. destruct (Z.eqb_spec a (h_freep h)); [by subst; destruct Hfa|].
      destruct (IH ltac:(intros x Hx; apply Hin; by right) Hnf (s_ptr (m a)) a fuel Hl Ha eq_refl) as [Hd|(Hall & fuel' & -> & Hd)]; [lia|by left|].
      right. split; [|by exists fuel']. intros x [->|Hx]%elem_of_cons; [cbn; lia|auto].
Qed.

(** From any header, the loop finds a block or asks for more memory. *)
Lemma malloc_round h ns live top nunits (e : E) fuel : heap_inv h ns live top -> 0 < nunits -> (length ns <= fuel)%nat ->
  let f := h_freep h in
  (exists a h' ns', malloc_loop fuel nunits f (s_ptr (h_mem h f)) h e = Some (hplus a 1, h', e) /\
     heap_inv h' ns' (<[a := nunits]> live) top /\ live !! a = None) \/
  ((forall x, x ∈ ns -> x.2 < nunits) /\ exists fuel', (fuel = length ns + fuel')%nat /\
     malloc_loop fuel nunits f (s_ptr (h_mem h f)) h e =
       ('(p, h, e) ← morecore (S fuel') nunits h e;
        if p =? 0 then Some (0, h, e) else malloc_loop fuel' nunits p (s_ptr (h_mem h p)) h e)).
Proof.
  intros I Hnu Hf f. subst f. pose proof (iv_freep _ _ _ _ I) as Hfp. pose proof (iv_ring _ _ _ _ I) as Hr.
  destruct (ring_rotate _ _ _ Hr Hfp) as (seg & Hseg & Hel & Hlen & Hnf).
  specialize (Hnf (nodes_NoDup _ _ (iv_sorted _ _ _ _ I) (iv_nodes _ _ _ _ I))).
  destruct (malloc_scan h ns live top nunits e seg _ I (fun x => proj1 (Hel x)) Hnf _ (h_freep h) fuel Hseg Hfp eq_refl) as
    [(prevp & p & H1 & H2 & H3 & H4 & E1)|(Hall & fuel' & -> & E1)]; [lia| |].
  - left. destruct (take_run h ns live top prevp p nunits I H1 H2 H3) as (a & h' & ns' & Et & I' & Hna); [lia|].
    exists a, h', ns'. rewrite E1, Et. done.
  - right. split; [intros x Hx; apply Hall; by apply Hel|]. exists fuel'. split; [lia|done].
Qed.

Lemma freep_positive h ns live top : heap_inv h ns live top -> 0 < h_freep h.
Proof.
  intros I. pose proof (iv_freep _ _ _ _ I) as (x & -> & Hx)%list_elem_of_fmap. destruct (node_size _ _ (iv_nodes _ _ _ _ I x Hx)).
  destruct (iv_top _ _ _ _ I). lia.
Qed.

Lemma malloc_loop_run h ns live (e : E) nunits fuel : heap_inv h ns live (brk e) -> 0 < nunits -> HSIZE * nunits < 2147483648 ->
  (2 * length ns + 2 <= fuel)%nat -> let f := h_freep h in
  (exists n e', sbrk n e = (None, e') /\ malloc_loop fuel nunits f (s_ptr (h_mem h f)) h e = Some (0, h, e') /\ brk e' = brk e) \/
  (exists a h' ns' e', malloc_loop fuel nunits f (s_ptr (h_mem h f)) h e = Some (hplus a 1, h', e') /\
     heap_inv h' ns' (<[a := nunits]> live) (brk e') /\ live !! a = None).
Proof.
  intros I Hnu Hlt Hf f. subst f. destruct (malloc_round h ns live (brk e) nunits e fuel I Hnu) as [(a & h' & ns' & E1 & I' & Hna)|(Hall & fuel' & -> & E1)]; [lia| |].
  - right. by exists a, h', ns', e.
  - rewrite E1.
    destruct (morecore_run h ns live e nunits (S fuel') I Hnu Hlt) as [(n & e' & Hs & -> & Hb)|(h' & ns' & e' & -> & I' & Hlen & x & Hx & Hle)]; [lia| |].
    + left. exists n, e'. done.
    + right. cbn. pose proof (freep_positive _ _ _ _ I'). destruct (Z.eqb_spec (h_freep h') 0); [lia|].
      destruct (malloc_round h' ns' live (brk e') nunits e' fuel' I' Hnu) as [(a & h2 & ns2 & E2 & I2 & Hna)|(Hall' & _)]; [lia| |].
      * by exists a, h2, ns2, e'.
      * specialize (Hall' x Hx). lia.
Qed.

(** ** The program's view *)

(** Before the first [malloc], or with the ring in place. *)
Definition uinv (h : heap) (live : gmap Z Z) (e : E) : Prop :=
  (h_freep h = 0 /\ live = ∅ /\ 0 < base /\ base + HSIZE <= brk e) \/ exists ns, heap_inv h ns live (brk e).

(** What the program may do: allocate, free what it holds, and write anything
    into its blocks. *)
Inductive ustep : heap * gmap Z Z * E -> heap * gmap Z Z * E -> Prop :=
  | U_malloc h live e fuel nbytes ap h' e' : 0 <= nbytes <= 2147483632 -> malloc base fuel nbytes h e = Some (ap, h', e') ->
      ustep (h, live, e) (h', if ap =? 0 then live else <[ap - HSIZE := nunits_of nbytes]> live, e')
  | U_free h live e fuel a n h' : live !! a = Some n -> free fuel h (a + HSIZE) = Some h' -> ustep (h, live, e) (h', delete a live, e)
  | U_store h live e a n x w : live !! a = Some n -> a < x < a + HSIZE * n ->
      ustep (h, live, e) (Heap (set_hdr x w (h_mem h)) (h_freep h), live, e).

Lemma nunits_range nbytes : 0 <= nbytes <= 2147483632 ->
  nbytes + HSIZE <= HSIZE * nunits_of nbytes < 2147483648.
Proof. intros Hn. unfold nunits_of, HSIZE. rewrite (u32_small (nbytes + 8 - 1)) by ulia. rewrite u32_small by ulia. Z.div_mod_to_equations. lia. Qed.

Lemma malloc_run h live e nbytes : uinv h live e -> 0 <= nbytes <= 2147483632 -> exists F, forall fuel, (F <= fuel)%nat ->
  (exists n h' e', sbrk n e = (None, e') /\ malloc base fuel nbytes h e = Some (0, h', e') /\ uinv h' live e') \/
  (exists a h' e', malloc base fuel nbytes h e = Some (a + HSIZE, h', e') /\ uinv h' (<[a := nunits_of nbytes]> live) e' /\
     live !! a = None /\ base + HSIZE <= a).
Proof.
  intros U Hn. pose proof (nunits_range nbytes Hn) as [Hlo Hhi].
  set (h0 := if h_freep h =? 0 then Heap (set_hdr base (Header base 0) (h_mem h)) base else h).
  assert (exists ns, heap_inv h0 ns live (brk e)) as [ns I].
  { unfold h0. destruct U as [(E0 & -> & Hb & Hbt)|[ns I]].
    - rewrite E0, Z.eqb_refl. exists [(base, 0)]. pose proof (brk_range e). split; cbn; try done.
      + unfold HSIZE in *. lia.
      + unfold set_hdr. by rewrite Z.eqb_refl.
      + by left.
      + repeat constructor.
      + intros x ->%list_elem_of_singleton. by left.
    - pose proof (freep_positive _ _ _ _ I). destruct (Z.eqb_spec (h_freep h) 0); [lia|]. eauto. }
  exists (2 * length ns + 2)%nat. intros fuel Hf. unfold malloc. fold h0.
  destruct (malloc_loop_run h0 ns live e (nunits_of nbytes) fuel I) as [(n & e' & Hs & -> & Hb)|(a & h' & ns' & e' & -> & I' & Hna)];
    [unfold HSIZE in *; lia..| |].
  - left. exists n, h0, e'. split; [done|]. split; [done|]. right. exists ns. by rewrite Hb.
  - right. destruct (iv_live _ _ _ _ I' a (nunits_of nbytes)) as (_ & _ & Hal & Hah); [by rewrite lookup_insert_eq|]. exists a, h', e'.
    destruct (iv_top _ _ _ _ I') as (? & ? & ?). unfold hplus. replace (HSIZE * 1) with HSIZE by lia.
    rewrite u32_small by (unfold HSIZE in *; ulia). split; [done|]. split; [right; eauto|done].
Qed.

(** More fuel does not change a result. *)
Lemma free_mono h ap fuel fuel' h' : free fuel h ap = Some h' -> (fuel <= fuel')%nat -> free fuel' h ap = Some h'.
Proof.
  unfold free. intros (p & Hp & E1)%bind_Some Hle. injection E1 as <-. enough (free_scan fuel' (h_mem h) (u32 (ap - HSIZE)) (h_freep h) = Some p) as -> by done.
  revert fuel' Hle Hp. generalize (h_freep h). induction fuel as [|fuel IH]; intros q [|fuel'] Hle Hp; try done; [lia|].
  cbn in *. repeat case_match; try done. apply IH; [lia|done].
Qed.

Lemma malloc_loop_mono fuel fuel' nunits prevp p h (e : E) r :
  malloc_loop fuel nunits prevp p h e = Some r -> (fuel <= fuel')%nat -> malloc_loop fuel' nunits prevp p h e = Some r.
Proof.
  revert fuel' prevp p h e. induction fuel as [|fuel IH]; intros [|fuel'] prevp p h e Hr Hle; try done; [lia|].
  cbn [malloc_loop] in *. destruct (_ <=? _); [done|]. destruct (p =? h_freep h); [|apply IH; [done|lia]].
  apply bind_Some in Hr as ([[q h1] e1] & Hm & Hr). enough (morecore (S fuel') nunits h e = Some (q, h1, e1)) as ->.
  { cbn. destruct (q =? 0); [done|]. apply IH; [done|lia]. }
  revert Hm. unfold morecore. destruct (sbrk _ e) as [[hp|] e2]; [|done]. intros (h2 & Hf & E2)%bind_Some.
  by rewrite (free_mono _ _ _ (S fuel') _ Hf) by lia.
Qed.

Lemma malloc_det h (e : E) nbytes fuel fuel' r r' :
  malloc base fuel nbytes h e = Some r -> malloc base fuel' nbytes h e = Some r' -> r = r'.
Proof.
  unfold malloc. intros Hr Hr'. apply (malloc_loop_mono _ (Nat.max fuel fuel')) in Hr, Hr'; [|lia..]. congruence.
Qed.

Lemma store_inv h ns live top a n x w : heap_inv h ns live top -> live !! a = Some n -> a < x < a + HSIZE * n ->
  heap_inv (Heap (set_hdr x w (h_mem h)) (h_freep h)) ns live top.
Proof.
  intros [Ht Hr Hfp Hs Hn Hlv Hfr Hap] Ha Hx.
  assert (forall b, b <> x -> set_hdr x w (h_mem h) b = h_mem h b) as Hm by (intros b Hb; unfold set_hdr; by destruct (Z.eqb_spec b x)).
  split; cbn [h_mem h_freep]; try done.
  - apply (lseg_ext (h_mem h)); [|done]. intros b (y & -> & Hy)%list_elem_of_fmap. apply Hm. intros <-.
    specialize (Hfr a n y Ha Hy). destruct (Hlv a n Ha) as (_ & _ & Hlo & _).
    destruct (Hn y Hy) as [-> | (? & _)]; unfold apart, HSIZE in *; cbn in *; lia.
  - intros b k Hb. rewrite Hm; [by apply Hlv|]. intros <-. destruct (Hlv b k Hb) as (_ & ? & _).
    specialize (Hap a n b k Ha Hb ltac:(lia)). unfold apart, HSIZE in *. cbn in *. lia.
Qed.

Lemma ustep_inv s s' : ustep s s' -> uinv s.1.1 s.1.2 s.2 -> uinv s'.1.1 s'.1.2 s'.2.
Proof.
  intros Hs U. destruct Hs as [h live e fuel nbytes ap h' e' Hn Hm|h live e fuel a n h' Ha Hf|h live e a n x w Ha Hx]; cbn in *.
  - destruct (malloc_run h live e nbytes U Hn) as [F HF]. destruct (HF F ltac:(lia)) as [(n & h1 & e1 & _ & Hr & U')|(a & h1 & e1 & Hr & U' & Hna & Hlo)];
      pose proof (malloc_det _ _ _ _ _ _ _ Hm Hr) as [= -> -> ->]; [done|].
    assert (0 < base) by (destruct U as [(_ & _ & ? & _)|[ns I]]; [done|apply I]).
    destruct (Z.eqb_spec (a + HSIZE) 0); [unfold HSIZE in *; lia|]. by replace (a + HSIZE - HSIZE) with a by lia.
  - destruct U as [(_ & -> & _)|[ns I]]; [done|]. right. destruct (free_run _ _ _ _ a n (Nat.max fuel (length ns)) I Ha) as (h1 & ns' & Hf' & I' & _); [lia|].
    apply (free_mono _ _ _ (Nat.max fuel (length ns))) in Hf; [|lia]. rewrite Hf in Hf'. injection Hf' as ->. eauto.
  - destruct U as [(_ & -> & _)|[ns I]]; [done|]. right. exists ns. by eapply store_inv.
Qed.

Lemma usteps_inv s s' : rtc ustep s s' -> uinv s.1.1 s.1.2 s.2 -> uinv s'.1.1 s'.1.2 s'.2.
Proof. induction 1; eauto using ustep_inv. Qed.

(** C10: The allocator keeps a program's blocks apart, and its operations end.
    In any sequence of allocations of less than two gigabytes, of frees of
    blocks the program holds, and of arbitrary writes into them: the blocks
    held do not overlap one another; a further [malloc] ends, and returns
    either 0, when [sbrk] fails, or [nbytes] bytes that lie between [base] and the end
    of the process and outside every block held; and [free] of a block ends. *)
Theorem umalloc_correct (h0 h : heap) (live : gmap Z Z) (e0 e : E) :
  h_freep h0 = 0 -> 0 < base -> base + HSIZE <= brk e0 -> rtc ustep (h0, ∅, e0) (h, live, e) ->
  (forall a n b k, live !! a = Some n -> live !! b = Some k -> a <> b -> apart (a, n) (b, k)) /\
  (forall nbytes, 0 <= nbytes <= 2147483632 -> exists F, forall fuel, (F <= fuel)%nat -> exists ap h' e',
     malloc base fuel nbytes h e = Some (ap, h', e') /\
     (ap = 0 /\ (exists n, (sbrk n e).1 = None) \/
      base + HSIZE <= ap /\ ap + nbytes <= brk e' /\
      (forall a n, live !! a = Some n -> ap + nbytes <= a \/ a + HSIZE * n <= ap))) /\
  (forall a n, live !! a = Some n -> exists F, forall fuel, (F <= fuel)%nat -> exists h', free fuel h (a + HSIZE) = Some h').
Proof.
  intros E0 Hb Hbt R. assert (uinv h live e) as U.
  { apply (usteps_inv _ _ R). by left. }
  split; [|split].
  - destruct U as [(_ & -> & _)|[ns I]]; [done|apply I].
  - intros nbytes Hn. destruct (malloc_run h live e nbytes U Hn) as [F HF]. pose proof (nunits_range nbytes Hn) as [Hnu _]. exists F. intros fuel Hf.
    destruct (HF fuel Hf) as [(n & h' & e' & Hs & Hr & _)|(a & h' & e' & Hr & U' & Hna & Hlo)]; eexists _, _, _; (split; [exact Hr|]).
    + left. split; [done|]. exists n. by rewrite Hs.
    + right. destruct U' as [(_ & E1 & _)|[ns I]]; [by apply insert_non_empty in E1|].
      assert (<[a := nunits_of nbytes]> live !! a = Some (nunits_of nbytes)) as Ha by apply lookup_insert_eq.
      destruct (iv_live _ _ _ _ I _ _ Ha) as (_ & _ & _ & Hhi). split; [unfold HSIZE in *; lia|]. split; [unfold HSIZE in *; lia|].
      intros b k Hb'. assert (b <> a) by congruence. pose proof (iv_apart _ _ _ _ I a (nunits_of nbytes) b k Ha) as Hap.
      rewrite lookup_insert_ne in Hap by done. specialize (Hap Hb' ltac:(done)). unfold apart, HSIZE in *. cbn in Hap. lia.
  - intros a n Ha. destruct U as [(_ & -> & _)|[ns I]]; [done|]. exists (length ns). intros fuel Hf.
    destruct (free_run _ _ _ _ a n fuel I Ha Hf) as (h' & _ & Hf' & _). eauto.
Qed.

End Ring.

(** ** An instance *)

(** A process whose end can move up to the kernel's half of the address space. *)
Definition clip (b : Z) : Z := Z.max 0 (Z.min b 2147483648).

#[export] Program Instance plain_sbrk : Sbrk Z := {|
  sbrk n e := if (0 <=? clip e + n) && (clip e + n <=? 2147483648) then (Some (clip e), clip e + n) else (None, e);
  brk := clip
|}.
Next Obligation. intros e. unfold clip. lia. Qed.
Next Obligation. intros n e e'. cbn. case_bool; [done|]. by intros [= ->]. Qed.
Next Obligation. intros n e a e' Hn. cbn. case_bool; [|done]. intros [= <- <-]. split; [done|]. unfold clip in *. lia. Qed.

Definition fresh_heap : heap := Heap (fun _ => Header 0 0) 0.

Lemma umalloc_correct_witness : exists h live e, live !! 36752 = Some 14 /\ rtc (ustep 1024) (fresh_heap, ∅, 4096) (h, live, e) /\
  exists F ap h' e', malloc 1024 F 200 h e = Some (ap, h', e') /\ (ap + 200 <= 36752 \/ 36752 + HSIZE * 14 <= ap).
Proof.
  destruct (malloc 1024 10 100 fresh_heap 4096) as [[[ap h] e]|] eqn:E1; [|by vm_compute in E1].
  assert (ap = 36760 /\ (sbrk 32768 e).1 = Some 36864) as [-> _] by (injection E1 as <- _ <-; vm_compute; done).
  set (live := if 36760 =? 0 then ∅ else <[36760 - HSIZE := nunits_of 100]> (∅ : gmap Z Z)).
  assert (rtc (ustep 1024) (fresh_heap, ∅, 4096) (h, live, e)) as R.
  { eapply rtc_l; [|apply rtc_refl]. apply (U_malloc 1024 fresh_heap ∅ 4096 10 100 36760 h e); [lia|exact E1]. }
  destruct (umalloc_correct 1024 fresh_heap h live 4096 e eq_refl) as (_ & H2 & _); [lia|unfold HSIZE; cbn; unfold clip; lia|exact R|].
  exists h, live, e. split; [reflexivity|]. split; [exact R|].
  destruct (H2 200) as [F HF]; [lia|]. destruct (HF F ltac:(lia)) as (ap & h' & e' & Hm & Hd). exists F, ap, h', e'. split; [exact Hm|].
  destruct Hd as [[-> _]|(_ & _ & Hd)]; [left; lia|]. exact (Hd 36752 14 eq_refl).
Defined.

(** The unit count of [malloc] wraps: a request for nearly all of the address
    space gets a block with room for no byte at all. *)
Theorem malloc_huge_request (nbytes : Z) : 4294967289 <= nbytes <= 4294967295 ->
  nunits_of nbytes = 1 /\ exists ap h' e', malloc 1024 10 nbytes fresh_heap 4096 = Some (ap, h', e') /\ ap <> 0 /\ ap = brk e'.
Proof.
  intros Hn. assert (nunits_of nbytes = 1) as E1.
  { unfold nunits_of, HSIZE. replace (u32 (nbytes + 8 - 1)) with (nbytes + 7 - two32) by ulia. unfold two32.
    rewrite Z.div_small by lia. done. }
  split; [done|]. unfold malloc. rewrite E1. eexists _, _, _. split; [vm_compute; reflexivity|]. by vm_compute.
Qed.
