(* ===== verification/Sh.v ===== *)
(** * The shell's parser ([sh.c])

    The recursive-descent parser of the shell over the characters of a line,
    and [nulterminate], which turns the tokens it found into C strings.  A
    pointer into the line is the text from there to the end, so [es] is the
    empty text and [*es] the terminating NUL. *)

From S2P Require Import Prelude.

Definition is_space (c : Z) : bool := existsb (Z.eqb c) [32; 9; 13; 10; 11].
(** [<|>&;()] *)
Definition LT : Z := 60.
Definition BAR : Z := 124.
Definition GT : Z := 62.
Definition AMP : Z := 38.
Definition SEMI : Z := 59.
Definition LPAR : Z := 40.
Definition RPAR : Z := 41.
Definition is_symbol (c : Z) : bool := existsb (Z.eqb c) [LT; BAR; GT; AMP; SEMI; LPAR; RPAR].
Definition is_word (c : Z) : bool := negb (is_space c) && negb (is_symbol c).

Fixpoint skip_spaces (s : list Z) : list Z :=
  match s with c :: s' => if is_space c then skip_spaces s' else s | [] => [] end.
Fixpoint skip_word (s : list Z) : list Z :=
  match s with c :: s' => if is_word c then skip_word s' else s | [] => [] end.

(** A token: pointers to its first character and past its last one. *)
Definition token : Type := list Z * list Z.

(** What [gettoken] returns besides the token: 0 at the end, [97] (a) for a
    word, 43 (+) for [>>], else the symbol. *)
Definition TWORD : Z := 97.
Definition TAPPEND : Z := 43.
Definition token_at (s : list Z) : Z * list Z :=
  match s with
  | [] => (0, [])
  | c :: s' =>
      if c =? GT then match s' with c' :: s'' => if c' =? GT then (TAPPEND, s'') else (c, s') | [] => (c, s') end
      else if is_symbol c then (c, s')
      else (TWORD, skip_word s)
  end.

Definition gettoken : M (list Z) (Z * token) := fun s =>
  let q := skip_spaces s in
  let '(ret, eq) := token_at q in
  Ok (ret, (q, eq)) (skip_spaces eq).

Definition peek (toks : list Z) : M (list Z) bool := fun s =>
  let s := skip_spaces s in
  Ok (match s with c :: _ => existsb (Z.eqb c) toks | [] => false end) s.

(** ** Commands *)

Definition MAXARGS : nat := 10.
Definition O_RDONLY : Z := 0.
Definition O_WRONLY : Z := 1.
Definition O_CREATE : Z := 512.

(** The five kinds of [struct cmd]; [argv] up to its terminating 0. *)
Inductive cmd (T : Type) :=
  | EXEC (argv : list T)
  | REDIR (c : cmd T) (file : T) (mode fd : Z)
  | PIPE (l r : cmd T)
  | LIST (l r : cmd T)
  | BACK (c : cmd T).
Arguments EXEC {T} _.
Arguments REDIR {T} _ _ _ _.
Arguments PIPE {T} _ _.
Arguments LIST {T} _ _.
Arguments BACK {T} _.

(** [parseexec] keeps a pointer to the [execcmd] that redirections wrap. *)
Fixpoint argc {T} (c : cmd T) : nat :=
  match c with EXEC l => length l | REDIR c _ _ _ => argc c | _ => 0%nat end.
Fixpoint add_arg {T} (t : T) (c : cmd T) : cmd T :=
  match c with EXEC l => EXEC (l ++ [t]) | REDIR c f m d => REDIR (add_arg t c) f m d | _ => c end.

Definition redir_of (tok : Z) (t : token) (c : cmd token) : cmd token :=
  if tok =? LT then REDIR c t O_RDONLY 0
  else if tok =? GT then REDIR c t (Z.lor O_WRONLY O_CREATE) 1
  else if tok =? TAPPEND then REDIR c t (Z.lor O_WRONLY O_CREATE) 1
  else c.

(** ** The parser *)

Fixpoint parseredirs (fuel : nat) (c : cmd token) : M (list Z) (cmd token) :=
  match fuel with
  | O => nofuel
  | S fuel =>
      b ← peek [LT; GT];
      if (b : bool) then
        t ← gettoken;
        f ← gettoken;
        if negb (fst f =? TWORD) then panic "missing file for redirection"
        else parseredirs fuel (redir_of (fst t) (snd f) c)
      else mret c
  end.

(** The loop of [parseexec]. *)
Fixpoint parseargs (fuel : nat) (c : cmd token) : M (list Z) (cmd token) :=
  match fuel with
  | O => nofuel
  | S fuel' =>
      b ← peek [BAR; RPAR; AMP; SEMI];
      if (b : bool) then mret c else
      t ← gettoken;
      if fst t =? 0 then mret c else
      if negb (fst t =? TWORD) then panic "syntax" else
      let c := add_arg (snd t) c in
      if (MAXARGS <=? argc c)%nat then panic "too many args" else
      c ← parseredirs fuel c;
      parseargs fuel' c
  end.

(** The loop of [parseline] on [&]. *)
Fixpoint parsebacks (fuel : nat) (c : cmd token) : M (list Z) (cmd token) :=
  match fuel with
  | O => nofuel
  | S fuel =>
      b ← peek [AMP];
      if (b : bool) then gettoken;; parsebacks fuel (BACK c) else mret c
  end.

Fixpoint parseline (fuel : nat) : M (list Z) (cmd token) :=
  match fuel with
  | O => nofuel
  | S fuel =>
      c ← parsepipe fuel;
      c ← parsebacks fuel c;
      b ← peek [SEMI];
      if (b : bool) then gettoken;; r ← parseline fuel; mret (LIST c r) else mret c
  end
with parsepipe (fuel : nat) : M (list Z) (cmd token) :=
  match fuel with
  | O => nofuel
  | S fuel =>
      c ← parseexec fuel;
      b ← peek [BAR];
      if (b : bool) then gettoken;; r ← parsepipe fuel; mret (PIPE c r) else mret c
  end
with parseexec (fuel : nat) : M (list Z) (cmd token) :=
  match fuel with
  | O => nofuel
  | S fuel =>
      b ← peek [LPAR];
      if (b : bool) then parseblock fuel else
      c ← parseredirs fuel (EXEC []);
      parseargs fuel c
  end
with parseblock (fuel : nat) : M (list Z) (cmd token) :=
  match fuel with
  | O => nofuel
  | S fuel =>
      b ← peek [LPAR];
      if negb b then panic "parseblock" else
      gettoken;;
      c ← parseline fuel;
      b ← peek [RPAR];
      if negb b then panic "syntax - missing )" else
      gettoken;;
      parseredirs fuel c
  end.

(** [parsecmd] up to [nulterminate], from the start of the line. *)
Definition parse (fuel : nat) : M (list Z) (cmd token) :=
  c ← parseline fuel;
  peek [];;
  s ← get;
  match s with [] => mret c | _ => panic "syntax" end.

(** ** nulterminate *)

(** The buffer: the line and its NUL. *)
Definition nul_at (n : nat) (t : token) (buf : list Z) : list Z := <[(n - length (snd t))%nat := 0]> buf.

(** [n] is the length of the line. *)
Fixpoint nulterminate (n : nat) (c : cmd token) (buf : list Z) : list Z :=
  match c with
  | EXEC argv => fold_left (fun buf t => nul_at n t buf) argv buf
  | REDIR c file _ _ => nul_at n file (nulterminate n c buf)
  | PIPE l r | LIST l r => nulterminate n r (nulterminate n l buf)
  | BACK c => nulterminate n c buf
  end.

Definition parsecmd (fuel : nat) (line : list Z) : outcome (list Z) (cmd token * list Z) :=
  (c ← parse fuel; mret (c, nulterminate (length line) c (line ++ [0]))) line.

#[local] Arguments is_space : simpl never.
#[local] Arguments is_symbol : simpl never.
#[local] Arguments is_word : simpl never.

(** ** The parser ends, and its tokens are words of the line *)

(** A computation that ends or panics. *)
Definition safe {A} (m : M (list Z) A) (s : list Z) (Q : A -> list Z -> Prop) : Prop :=
  match m s with Ok a s' => Q a s' | Panic _ => True | _ => False end.

Lemma safe_bind {A B} (m : M (list Z) A) (k : A -> M (list Z) B) s Q :
  safe m s (fun a s' => safe (k a) s' Q) -> safe (m ≫= k) s Q.
Proof. unfold safe, mbind, M_bind, bindM. by destruct (m s). Qed.

Lemma safe_mono {A} (m : M (list Z) A) s (Q Q' : A -> list Z -> Prop) : safe m s Q -> (forall a s', Q a s' -> Q' a s') -> safe m s Q'.
Proof. unfold safe. destruct (m s); auto. Qed.

Section Line.
Context (line : list Z).

(** A token is a word of the line: its characters are word characters, and
    the character after it is not. *)
Definition tok_ok (t : token) : Prop :=
  t.1 `suffix_of` line /\ exists w, t.1 = w ++ t.2 /\ w <> [] /\ Forall (fun c => is_word c = true) w /\
    match t.2 with c :: _ => is_word c = false | [] => True end.

(** Every token is a word, every command has fewer than [MAXARGS] words, and
    redirections are of descriptors 0 and 1. *)
Fixpoint wf (c : cmd token) : Prop :=
  match c with
  | EXEC argv => Forall tok_ok argv /\ (length argv < MAXARGS)%nat
  | REDIR c file _ fd => wf c /\ tok_ok file /\ (fd = 0 \/ fd = 1)
  | PIPE l r | LIST l r => wf l /\ wf r
  | BACK c => wf c
  end.

(** The state moves forward in the line. *)
Definition moved (s s' : list Z) : Prop := s' `suffix_of` line /\ (length s' <= length s)%nat.

Lemma skip_spaces_spec s : exists k, s = k ++ skip_spaces s /\ match skip_spaces s with c :: _ => is_space c = false | [] => True end.
Proof.
  induction s as [|c s (k & IH & IH')]; cbn [skip_spaces]; [by exists []|]. destruct (is_space c) eqn:E; [|exists []; split; [done|exact E]].
  exists (c :: k). split; [cbn; f_equal; exact IH|done].
Qed.

Lemma skip_word_spec s : exists w, s = w ++ skip_word s /\ Forall (fun c => is_word c = true) w /\
  match skip_word s with c :: _ => is_word c = false | [] => True end.
Proof.
  induction s as [|c s (w & IH & Hw & IH')]; cbn [skip_word]; [by exists []|]. destruct (is_word c) eqn:E; [|exists []; split; [done|]; split; [constructor|exact E]].
  exists (c :: w). split; [cbn; f_equal; exact IH|]. split; [by constructor|done].
Qed.

Lemma skip_spaces_idem s : skip_spaces (skip_spaces s) = skip_spaces s.
Proof. induction s as [|c s IH]; cbn [skip_spaces]; [done|]. destruct (is_space c) eqn:E; [done|]. cbn [skip_spaces]. by rewrite E. Qed.

Lemma skip_moved s : s `suffix_of` line -> moved s (skip_spaces s).
Proof.
  intros Hs. destruct (skip_spaces_spec s) as (k & E & _). split; [|rewrite E at 2; rewrite length_app; lia].
  etransitivity; [|done]. by exists k.
Qed.

Lemma token_at_spec q : match q with c :: _ => is_space c = false | [] => True end -> q `suffix_of` line ->
  (token_at q).2 `suffix_of` q /\ (q <> [] -> (length (token_at q).2 < length q)%nat) /\
  ((token_at q).1 = TWORD -> tok_ok (q, (token_at q).2)).
Proof.
  intros Hq Hs. destruct q as [|c q]; [done|]. cbn [token_at].
  assert (forall k : list Z, (c :: q) = k ++ q -> q `suffix_of` c :: q) as Hsuf by (intros k; by exists [c]).
  destruct (Z.eqb_spec c GT) as [->|Hc].
  - destruct q as [|c' q]; [split; [by exists [GT]|split; [cbn; lia|done]]|].
    destruct (c' =? GT); cbn; (split; [|split; [lia|done]]); [by exists [GT; c']|by exists [GT]].
  - destruct (is_symbol c) eqn:Es.
    + split; [by exists [c]|]. split; [cbn; lia|]. cbn. intros ->. done.
    + destruct (skip_word_spec (c :: q)) as (w & Ew & Hw & He).
      assert (w <> []) as Hne.
      { intros ->. cbn [app] in Ew. rewrite <- Ew in He. unfold is_word in He. by rewrite Hq, Es in He. }
      cbn [fst snd]. split; [by exists w|]. split; [|intros _; split; [done|]; by exists w].
      intros _. rewrite Ew at 2. rewrite length_app. destruct w; [done|]. cbn. lia.
Qed.

Lemma gettoken_safe s : s `suffix_of` line -> safe gettoken s (fun r s' => moved s s' /\
  (skip_spaces s <> [] -> (length s' < length s)%nat) /\ (r.1 <> 0 -> (length s' < length s)%nat) /\ (r.1 = TWORD -> tok_ok r.2)).
Proof.
  intros Hs. unfold safe, gettoken. destruct (skip_moved s Hs) as [Hq Hl]. destruct (skip_spaces_spec s) as (_ & _ & Hsp).
  destruct (token_at_spec (skip_spaces s) Hsp Hq) as (H1 & H2 & H3).
  destruct (token_at (skip_spaces s)) as [ret e] eqn:Et. cbn [fst snd] in *.
  assert (e `suffix_of` line) as He by (by etransitivity). destruct (skip_moved e He) as [He1 He2]. pose proof (suffix_length _ _ H1) as Hle.
  split; [split; [done|lia]|]. split; [intros Hne; specialize (H2 Hne); lia|]. split; [|done].
  intros Hr. assert (skip_spaces s <> []) as Hne by (intros E; rewrite E in Et; cbn in Et; congruence). specialize (H2 Hne). lia.
Qed.

Lemma peek_safe toks s : s `suffix_of` line -> safe (peek toks) s (fun b s' => moved s s' /\ (b = true -> skip_spaces s' <> [])).
Proof.
  intros Hs. unfold safe, peek. split; [by apply skip_moved|]. rewrite skip_spaces_idem. by destruct (skip_spaces s).
Qed.

Lemma moved_trans s1 s2 s3 : moved s1 s2 -> moved s2 s3 -> moved s1 s3.
Proof. intros [_ ?] [? ?]. split; [done|lia]. Qed.

Lemma redir_of_wf tok t c : wf c -> tok_ok t -> wf (redir_of tok t c).
Proof. intros Hc Ht. unfold redir_of. repeat case_bool; cbn; auto. Qed.

Lemma add_arg_wf t c : wf c -> tok_ok t -> (argc (add_arg t c) < MAXARGS)%nat -> wf (add_arg t c).
Proof.
  intros Hc Ht. induction c as [l|c IH f m d| | |]; cbn in *; try done.
  - intros Hl. split; [|done]. apply Forall_app. split; [apply Hc|by constructor].
  - intros Hl. split; [apply IH; [apply Hc|done]|apply Hc].
Qed.

(** What each part of the parser leaves. *)
Definition parsed (s : list Z) (c : cmd token) (s' : list Z) : Prop := moved s s' /\ wf c.

Ltac step_peek Hs := apply safe_bind; eapply safe_mono; [by apply (peek_safe _ _ Hs)|].
Ltac step_token Hs := apply safe_bind; eapply safe_mono; [by apply (gettoken_safe _ Hs)|].

Lemma parseredirs_safe fuel c s : s `suffix_of` line -> wf c -> (length s < fuel)%nat -> safe (parseredirs fuel c) s (parsed s).
Proof.
  revert c s. induction fuel as [|fuel IH]; intros c s Hs Hc Hf; [lia|]. cbn [parseredirs].
  step_peek Hs. intros b s1 (M1 & Hne). destruct b; [|done]. specialize (Hne eq_refl).
  step_token (proj1 M1). intros t s2 (M2 & Hd & _). specialize (Hd Hne).
  step_token (proj1 M2). intros f s3 (M3 & _ & _ & Hw). destruct (Z.eqb_spec f.1 TWORD) as [Ef|]; cbn [negb]; [|done].
  destruct M1, M2, M3. eapply safe_mono; [apply IH; [done|apply redir_of_wf; auto|lia]|].
  intros c' s' [M4 Hc']. split; [|done]. destruct M4. split; [done|lia].
Qed.

Lemma parseargs_safe fuel c s : s `suffix_of` line -> wf c -> (length s < fuel)%nat -> safe (parseargs fuel c) s (parsed s).
Proof.
  revert c s. induction fuel as [|fuel IH]; intros c s Hs Hc Hf; [lia|]. cbn [parseargs].
  step_peek Hs. intros b s1 (M1 & _). destruct b; [done|].
  step_token (proj1 M1). intros t s2 (M2 & _ & Hd & Hw). destruct (Z.eqb_spec t.1 0) as [E0|E0]; [split; [by eapply moved_trans|done]|].
  destruct (Z.eqb_spec t.1 TWORD) as [Et|]; cbn [negb]; [|done]. destruct (Nat.leb_spec MAXARGS (argc (add_arg t.2 c))); [done|].
  specialize (Hd E0). destruct M1, M2. apply safe_bind. eapply safe_mono; [apply parseredirs_safe; [done|apply add_arg_wf; auto|lia]|].
  intros c' s3 [[? ?] Hc']. eapply safe_mono; [apply IH; [done|done|lia]|]. intros c'' s' [[? ?] Hc'']. split; [split; [done|lia]|done].
Qed.

Lemma parsebacks_safe fuel c s : s `suffix_of` line -> wf c -> (length s < fuel)%nat -> safe (parsebacks fuel c) s (parsed s).
Proof.
  revert c s. induction fuel as [|fuel IH]; intros c s Hs Hc Hf; [lia|]. cbn [parsebacks].
  step_peek Hs. intros b s1 (M1 & Hne). destruct b; [|done]. specialize (Hne eq_refl).
  step_token (proj1 M1). intros t s2 (M2 & Hd & _). specialize (Hd Hne). destruct M1, M2.
  eapply safe_mono; [apply IH; [done|done|lia]|]. intros c' s' [[? ?] Hc']. split; [split; [done|lia]|done].
Qed.

(** Each nested call has consumed a character or is a level down. *)
Lemma parser_safe fuel s : s `suffix_of` line ->
  ((4 * length s + 4 <= fuel)%nat -> safe (parseline fuel) s (parsed s)) /\
  ((4 * length s + 3 <= fuel)%nat -> safe (parsepipe fuel) s (parsed s)) /\
  ((4 * length s + 2 <= fuel)%nat -> safe (parseexec fuel) s (parsed s)) /\
  ((4 * length s + 1 <= fuel)%nat -> safe (parseblock fuel) s (parsed s)).
Proof.
  revert s. induction fuel as [|fuel IH]; intros s Hs; [repeat split; lia|]. split; [|split; [|split]]; intros Hf.
  - cbn [parseline]. apply safe_bind. eapply safe_mono; [apply (IH s Hs); lia|]. intros c s1 [M1 Hc].
    destruct M1 as [Hs1 ?]. apply safe_bind. eapply safe_mono; [apply (parsebacks_safe _ c s1 Hs1 Hc); lia|]. intros c2 s2 [[Hs2 ?] Hc2].
    step_peek Hs2. intros b s3 ([Hs3 ?] & Hne). destruct b; [|split; [split; [done|lia]|done]]. specialize (Hne eq_refl).
    step_token Hs3. intros t s4 ([Hs4 ?] & Hd & _). specialize (Hd Hne). apply safe_bind.
    eapply safe_mono; [apply (IH s4 Hs4); lia|]. intros r s5 [[? ?] Hr]. split; [split; [done|lia]|done].
  - cbn [parsepipe]. apply safe_bind. eapply safe_mono; [apply (IH s Hs); lia|]. intros c s1 [[Hs1 ?] Hc].
    step_peek Hs1. intros b s3 ([Hs3 ?] & Hne). destruct b; [|split; [split; [done|lia]|done]]. specialize (Hne eq_refl).
    step_token Hs3. intros t s4 ([Hs4 ?] & Hd & _). specialize (Hd Hne). apply safe_bind.
    eapply safe_mono; [apply (IH s4 Hs4); lia|]. intros r s5 [[? ?] Hr]. split; [split; [done|lia]|done].
  - cbn [parseexec]. step_peek Hs. intros b s1 ([Hs1 ?] & _). destruct b.
    + eapply safe_mono; [apply (IH s1 Hs1); lia|]. intros c s2 [[? ?] Hc]. split; [split; [done|lia]|done].
    + apply safe_bind. eapply safe_mono; [apply (parseredirs_safe _ (EXEC []) s1 Hs1); [split; [constructor|cbn; unfold MAXARGS; lia]|lia]|].
      intros c s2 [[Hs2 ?] Hc]. eapply safe_mono; [apply (parseargs_safe _ c s2 Hs2 Hc); lia|].
      intros c' s3 [[? ?] Hc']. split; [split; [done|lia]|done].
  - cbn [parseblock]. step_peek Hs. intros b s1 ([Hs1 ?] & Hne). destruct b; cbn [negb]; [|done]. specialize (Hne eq_refl).
    step_token Hs1. intros t s2 ([Hs2 ?] & Hd & _). specialize (Hd Hne). apply safe_bind.
    eapply safe_mono; [apply (IH s2 Hs2); lia|]. intros c s3 [[Hs3 ?] Hc]. step_peek Hs3. intros b s4 ([Hs4 ?] & _). destruct b; cbn [negb]; [|done].
    step_token Hs4. intros t' s5 ([Hs5 ?] & _). eapply safe_mono; [apply (parseredirs_safe _ c s5 Hs5 Hc); lia|].
    intros c' s6 [[? ?] Hc']. split; [split; [done|lia]|done].
Qed.

Lemma parse_safe fuel : (4 * length line + 4 <= fuel)%nat -> safe (parse fuel) line (fun c s' => wf c /\ s' = []).
Proof.
  intros Hf. unfold parse. apply safe_bind. eapply safe_mono; [apply (parser_safe fuel line); [done|lia]|].
  intros c s [[Hs _] Hc]. step_peek Hs. intros b s1 _. unfold safe, mbind, M_bind, bindM, get. by destruct s1.
Qed.

(** ** NUL termination *)

(** The tokens of a command. *)
Fixpoint tokens (c : cmd token) : list token :=
  match c with
  | EXEC argv => argv
  | REDIR c file _ _ => tokens c ++ [file]
  | PIPE l r | LIST l r => tokens l ++ tokens r
  | BACK c => tokens c
  end.

Lemma wf_tokens c : wf c -> Forall tok_ok (tokens c).
Proof.
  induction c as [l|c IH f m d|l IHl r IHr|l IHl r IHr|c IH]; cbn; [by intros []|..|done]; rewrite Forall_app; [intros (H1 & H2 & _)|intros [H1 H2]..]; auto.
Qed.

Lemma nulterminate_tokens n c buf : nulterminate n c buf = fold_left (fun buf t => nul_at n t buf) (tokens c) buf.
Proof. revert buf. induction c as [l|c IH f m d|l IHl r IHr|l IHl r IHr|c IH]; intros buf; cbn [nulterminate tokens]; rewrite ?fold_left_app, ?IH, ?IHl, ?IHr; done. Qed.

(** The C string at a pointer into the buffer. *)
Fixpoint cstring (buf : list Z) : list Z :=
  match buf with c :: buf' => if c =? 0 then [] else c :: cstring buf' | [] => [] end.
Definition string_at (buf q : list Z) : list Z := cstring (drop (length line - length q) buf).

(** The characters of a token. *)
Definition word (t : token) : list Z := take (length t.1 - length t.2) t.1.

(** The place a token's terminator is written holds no word character. *)
Lemma nul_place t i : tok_ok t -> i = (length line - length t.2)%nat ->
  match line !! i with Some c => is_word c = false | None => True end.
Proof.
  intros ([pre E] & w & Ew & _ & _ & He) ->. rewrite E, Ew, !length_app.
  replace (length pre + (length w + length t.2) - length t.2)%nat with (length (pre ++ w) + 0)%nat by (rewrite length_app; lia).
  rewrite app_assoc, lookup_app_r by lia. replace (length (pre ++ w) + 0 - length (pre ++ w))%nat with 0%nat by lia.
  by destruct t.2.
Qed.

(** Terminating other tokens leaves the characters of words alone. *)
Lemma nul_fold ts buf : Forall tok_ok ts -> length buf = S (length line) ->
  (forall i c, line !! i = Some c -> is_word c = true -> fold_left (fun buf t => nul_at (length line) t buf) ts buf !! i = buf !! i) /\
  (forall t, t ∈ ts \/ buf !! (length line - length t.2)%nat = Some 0 ->
     fold_left (fun buf t => nul_at (length line) t buf) ts buf !! (length line - length t.2)%nat = Some 0).
Proof.
  revert buf. induction ts as [|x ts IH]; intros buf Hts Hl; cbn [fold_left]; [split; [done|]; intros t [[]%elem_of_nil|?]; done|].
  apply Forall_cons in Hts as [Hx Hts]. set (buf' := nul_at (length line) x buf).
  assert (buf' !! (length line - length x.2)%nat = Some 0) as E0 by (unfold buf', nul_at; apply list_lookup_insert_eq; lia).
  destruct (IH buf' Hts) as [H1 H2]; [unfold buf', nul_at; by rewrite length_insert|]. split.
  - intros i c Hi Hc. rewrite (H1 i c Hi Hc). unfold buf', nul_at. apply list_lookup_insert_ne. intros E. pose proof (nul_place x i Hx (eq_sym E)) as Hp.
    rewrite Hi in Hp. congruence.
  - intros t [Ht|Ht]; apply H2; [apply elem_of_cons in Ht as [->|Ht]; [by right|by left]|right].
    unfold buf', nul_at. destruct (decide (length line - length t.2 = length line - length x.2)%nat) as [->|Hne]; [apply list_lookup_insert_eq; lia|].
    rewrite list_lookup_insert_ne; [done|lia].
Qed.

Lemma cstring_word w buf : Forall (fun c => c <> 0) w -> buf !! length w = Some 0 -> take (length w) buf = w -> cstring buf = w.
Proof.
  revert buf. induction w as [|c w IH]; intros [|b buf] Hw H0 Ht; cbn in *; try done; [by injection H0 as ->|].
  injection Ht as -> Ht. apply Forall_cons in Hw as [Hc Hw]. destruct (Z.eqb_spec c 0); [done|]. f_equal. by apply IH.
Qed.

(** The strings of a command that [parsecmd] returns. *)
Lemma nulterminate_words c : wf c -> Forall (fun x => x <> 0) line ->
  forall t, t ∈ tokens c -> string_at (nulterminate (length line) c (line ++ [0])) t.1 = word t.
Proof.
  intros Hc Hz t Ht. rewrite nulterminate_tokens. pose proof (wf_tokens c Hc) as Htok.
  destruct (nul_fold (tokens c) (line ++ [0]) Htok) as [H1 H2]; [rewrite length_app; cbn; lia|].
  rewrite Forall_forall in Htok. destruct (Htok t Ht) as ([pre E] & w & Ew & Hne & Hw & _).
  set (buf := fold_left _ _ _) in *. specialize (H2 t (or_introl Ht)).
  assert (length line = length pre + length w + length t.2)%nat as Hlen by (rewrite E, Ew, !length_app; lia).
  assert (word t = w) as -> by (unfold word; rewrite Ew, length_app, take_app_length' by lia; done).
  unfold string_at. rewrite Ew, length_app. replace (length line - (length w + length t.2))%nat with (length pre) by lia.
  apply cstring_word.
  - rewrite Forall_forall in Hz |- *. intros x Hx. apply Hz. rewrite E, Ew. rewrite !elem_of_app. auto.
  - rewrite lookup_drop. rewrite <- H2. f_equal. lia.
  - apply list_eq. intros i. destruct (decide (i < length w)%nat) as [Hi|Hi].
    + rewrite lookup_take_lt by done. rewrite lookup_drop. destruct (lookup_lt_is_Some_2 w i Hi) as [x Hx].
      assert (line !! (length pre + i)%nat = Some x) as Hlx by (rewrite E, Ew, lookup_app_r by lia;
        replace (length pre + i - length pre)%nat with i by lia; by rewrite lookup_app_l).
      rewrite (H1 _ x Hlx), lookup_app_l, Hlx, Hx; [done|by eapply lookup_lt_Some|]. rewrite Forall_forall in Hw. apply Hw. by eapply list_elem_of_lookup_2.
    + rewrite lookup_take_ge by lia. symmetry. apply lookup_ge_None_2. lia.
Qed.
End Line.

(** The parser always ends and leaves C strings.  On a line without NUL,
    with fuel four times its length, [parsecmd] either reports an error or
    returns a command in which every command word is one of fewer than
    [MAXARGS], every argument and file name is a maximal word of the line,
    and in the buffer that [nulterminate] leaves, the string at the start of
    each of them is that word.  A redirection is of descriptor 0 or 1. *)
Theorem parsecmd_words (line : list Z) (fuel : nat) : (4 * length line + 4 <= fuel)%nat -> Forall (fun c => c <> 0) line ->
  match parsecmd fuel line with
  | Ok (c, buf) rest => wf line c /\ rest = [] /\ forall t, t ∈ tokens c -> string_at line buf t.1 = word t /\ word t <> []
  | Panic _ => True
  | _ => False
  end.
Proof.
  intros Hf Hz. pose proof (parse_safe line fuel Hf) as Hs. unfold safe in Hs. unfold parsecmd, mbind, M_bind, bindM.
  destruct (parse fuel line) as [c rest| | | |] eqn:Ep; [|done..]. destruct Hs as [Hc ->]. cbn. split; [done|]. split; [done|].
  intros t Ht. split; [by apply nulterminate_words|]. pose proof (wf_tokens line c Hc) as Htok. rewrite Forall_forall in Htok.
  destruct (Htok t Ht) as (_ & w & Ew & Hne & _). unfold word. rewrite Ew, length_app, take_app_length' by lia. done.
Qed.

(** ** Printing and parsing *)

Fixpoint cmap {A B} (f : A -> B) (c : cmd A) : cmd B :=
  match c with
  | EXEC l => EXEC (f <$> l)
  | REDIR c t m d => REDIR (cmap f c) (f t) m d
  | PIPE l r => PIPE (cmap f l) (cmap f r)
  | LIST l r => LIST (cmap f l) (cmap f r)
  | BACK c => BACK (cmap f c)
  end.

Definition SP : Z := 32.
Definition pword (w : list Z) : list Z := w ++ [SP].
Definition psym (c : Z) : list Z := [c; SP].
Definition predir (r : list Z * Z * Z) : list Z := psym (if r.1.2 =? O_RDONLY then LT else GT) ++ pword r.1.1.

(** A command as a line: 0 where a line may stand, 1 where a pipeline with
    [&]s may, 2 where a pipeline may, 3 where a single command may. *)
Definition paren (b : bool) (s : list Z) : list Z := if b then psym LPAR ++ s ++ psym RPAR else s.
Fixpoint print (lvl : nat) (c : cmd (list Z)) : list Z :=
  match c with
  | EXEC ws => concat (pword <$> ws)
  | REDIR c f m d => print 3 c ++ predir (f, m, d)
  | PIPE l r => paren (2 <? lvl)%nat (print 3 l ++ psym BAR ++ print 2 r)
  | BACK c => paren (1 <? lvl)%nat (print 1 c ++ psym AMP)
  | LIST l r => paren (0 <? lvl)%nat (print 1 l ++ psym SEMI ++ print 0 r)
  end.

(** Words and redirections that the parser can produce. *)
Definition wordlike (w : list Z) : Prop := w <> [] /\ Forall (fun c => is_word c = true) w.
Definition redir_ok (r : list Z * Z * Z) : Prop :=
  wordlike r.1.1 /\ ((r.1.2, r.2) = (O_RDONLY, 0) \/ (r.1.2, r.2) = (Z.lor O_WRONLY O_CREATE, 1)).
Fixpoint printable (c : cmd (list Z)) : Prop :=
  match c with
  | EXEC ws => Forall wordlike ws /\ (length ws < MAXARGS)%nat
  | REDIR c f m d => printable c /\ redir_ok (f, m, d)
  | PIPE l r | LIST l r => printable l /\ printable r
  | BACK c => printable c
  end.

(** The text goes on with one of these symbols, or ends. *)
Definition ends (cs : list Z) (k : list Z) : Prop := match k with [] => True | c :: _ => c ∈ cs end.

Lemma symbol_facts c : is_symbol c = true -> is_space c = false /\ is_word c = false.
Proof.
  intros H. split; [|unfold is_word; rewrite H; apply andb_false_r]. unfold is_symbol in H. apply existsb_exists in H as (x & Hx & ->%Z.eqb_eq).
  repeat (destruct Hx as [<-|Hx]; [done|]). destruct Hx.
Qed.

Lemma skip_word_app w k : Forall (fun c => is_word c = true) w -> match k with c :: _ => is_word c = false | [] => True end -> skip_word (w ++ k) = k.
Proof.
  intros Hw Hk. induction w as [|c w IH]; cbn; [destruct k; cbn; [done|by rewrite Hk]|]. apply Forall_cons in Hw as [-> Hw]. auto.
Qed.

Lemma word_not c : is_word c = true -> is_space c = false /\ is_symbol c = false.
Proof. unfold is_word. rewrite andb_true_iff, !negb_true_iff. done. Qed.

Lemma gettoken_word w k : wordlike w -> skip_spaces k = k ->
  exists t, gettoken (pword w ++ k) = Ok (TWORD, t) k /\ word t = w.
Proof.
  intros [Hne Hw] Hk. unfold pword. rewrite <- app_assoc. destruct w as [|c w]; [done|].
  assert (skip_word ((c :: w) ++ [SP] ++ k) = SP :: k) as Es by (by apply skip_word_app).
  pose proof Hw as [Hc _]%Forall_cons. apply word_not in Hc as [Hsp Hsy]. exists ((c :: w) ++ [SP] ++ k, SP :: k). split.
  - unfold gettoken. cbn [app skip_spaces]. rewrite Hsp. unfold token_at. destruct (Z.eqb_spec c GT) as [->|]; [done|]. rewrite Hsy.
    change (c :: w ++ SP :: k) with ((c :: w) ++ [SP] ++ k). rewrite Es. cbn. by rewrite Hk.
  - unfold word. cbn [fst snd]. rewrite take_app_length'; [done|]. rewrite !length_app. cbn. lia.
Qed.

Lemma gettoken_sym c k : is_symbol c = true -> skip_spaces k = k -> exists t, gettoken (psym c ++ k) = Ok (c, t) k.
Proof.
  intros Hc Hk. destruct (symbol_facts c Hc) as [Hsp _]. eexists. unfold gettoken, psym. cbn [app skip_spaces]. rewrite Hsp.
  unfold token_at. rewrite Hc. destruct (c =? GT); cbn; by rewrite Hk.
Qed.

Lemma peek_at toks k : skip_spaces k = k -> peek toks k = Ok (match k with c :: _ => existsb (Z.eqb c) toks | [] => false end) k.
Proof. intros Hk. unfold peek. by rewrite Hk. Qed.

Lemma peek_sym toks c k : is_symbol c = true -> peek toks (psym c ++ k) = Ok (existsb (Z.eqb c) toks) (psym c ++ k).
Proof. intros Hc. destruct (symbol_facts c Hc) as [Hsp _]. apply peek_at. cbn [psym app skip_spaces]. by rewrite Hsp. Qed.

Lemma peek_ends cs toks k : Forall (fun c => is_symbol c = true /\ existsb (Z.eqb c) toks = false) cs -> ends cs k -> peek toks k = Ok false k.
Proof.
  intros Hcs Hk. rewrite Forall_forall in Hcs. destruct k as [|c k]; [done|]. destruct (Hcs c Hk) as [Hs Ht].
  rewrite peek_at; [by rewrite Ht|]. cbn. by rewrite (proj1 (symbol_facts c Hs)).
Qed.

Lemma ends_skip cs k : Forall (fun c => is_symbol c = true) cs -> ends cs k -> skip_spaces k = k.
Proof.
  intros Hcs Hk. rewrite Forall_forall in Hcs. destruct k as [|c k]; [done|]. cbn. by rewrite (proj1 (symbol_facts c (Hcs c Hk))).
Qed.

Definition E0 : list Z := [RPAR].
Definition E1 : list Z := [RPAR; SEMI].
Definition E2 : list Z := [RPAR; SEMI; AMP].
Definition E3 : list Z := [RPAR; SEMI; AMP; BAR].

Lemma ends_01 k : ends E0 k -> ends E1 k.
Proof. destruct k; cbn; [done|]. unfold E0, E1. rewrite !elem_of_cons. tauto. Qed.
Lemma ends_12 k : ends E1 k -> ends E2 k.
Proof. destruct k; cbn; [done|]. unfold E1, E2. rewrite !elem_of_cons. tauto. Qed.
Lemma ends_23 k : ends E2 k -> ends E3 k.
Proof. destruct k; cbn; [done|]. unfold E2, E3. rewrite !elem_of_cons. tauto. Qed.

Lemma E3_skip k : ends E3 k -> skip_spaces k = k.
Proof. apply ends_skip. repeat constructor. Qed.

Lemma peek_redir k : ends E3 k -> peek [LT; GT] k = Ok false k.
Proof. apply peek_ends. unfold E3. by repeat (apply Forall_cons; split). Qed.

(** A printed command begins with a word, a symbol, or nothing. *)
Lemma print_skip lvl c k : printable c -> skip_spaces k = k -> skip_spaces (print lvl c ++ k) = print lvl c ++ k.
Proof.
  assert (forall s k, skip_spaces (psym LPAR ++ s ++ k) = psym LPAR ++ s ++ k) as Hpar by done.
  assert (forall b s k, skip_spaces (s ++ psym RPAR ++ k) = s ++ psym RPAR ++ k -> skip_spaces (s ++ k) = s ++ k ->
    skip_spaces (paren b s ++ k) = paren b s ++ k) as Hp.
  { intros b s k' Hr Hs. destruct b; cbn [paren]; [by rewrite <- app_assoc|done]. }
  revert lvl k. induction c as [ws|c IH f m d|l IHl r IHr|l IHl r IHr|c IH]; intros lvl k Hc Hk; cbn [print printable] in *.
  - destruct ws as [|w ws]; [done|]. destruct Hc as [[[Hne Hw] _]%Forall_cons _]. destruct w as [|c w]; [done|].
    apply Forall_cons in Hw as [[Hsp _]%word_not _]. cbn. by rewrite Hsp.
  - rewrite <- app_assoc. apply IH; [apply Hc|]. unfold predir. cbn. by destruct (m =? O_RDONLY).
  - apply Hp; rewrite <- !app_assoc; by apply IHl; [apply Hc|].
  - apply Hp; rewrite <- !app_assoc; by apply IHl; [apply Hc|].
  - apply Hp; rewrite <- !app_assoc; by apply IH.
Qed.

Definition wrap (c : cmd (list Z)) (r : list Z * Z * Z) : cmd (list Z) := REDIR c r.1.1 r.1.2 r.2.
Definition predirs (rs : list (list Z * Z * Z)) : list Z := concat (predir <$> rs).

Lemma predirs_skip rs k : skip_spaces k = k -> skip_spaces (predirs rs ++ k) = predirs rs ++ k.
Proof. intros Hk. destruct rs as [|r rs]; [done|]. cbn. by destruct (r.1.2 =? O_RDONLY). Qed.

Lemma parseredirs_print rs c k fuel : Forall redir_ok rs -> peek [LT; GT] k = Ok false k -> skip_spaces k = k -> (length rs < fuel)%nat ->
  exists c', parseredirs fuel c (predirs rs ++ k) = Ok c' k /\ cmap word c' = foldl wrap (cmap word c) rs.
Proof.
  intros Hrs Hpk Hk. revert c fuel. induction Hrs as [|r rs [Hw Hm] Hrs IH]; intros c fuel Hf; (destruct fuel as [|fuel]; [cbn in Hf; lia|]); cbn [parseredirs].
  - exists c. split; [|done]. by rewrite (Ok_bind _ _ _ _ _ Hpk).
  - assert (forall sym, is_symbol sym = true -> existsb (Z.eqb sym) [LT; GT] = true -> redir_of sym = (fun t c => REDIR c t r.1.2 r.2) ->
      predir r = psym sym ++ pword r.1.1 -> exists c', (b ← peek [LT; GT]; if (b : bool) then t ← gettoken; f ← gettoken;
        if negb (fst f =? TWORD) then panic "missing file for redirection" else parseredirs fuel (redir_of (fst t) (snd f) c) else mret c)
        (predirs (r :: rs) ++ k) = Ok c' k /\ cmap word c' = foldl wrap (cmap word c) (r :: rs)) as Hgen.
    { intros sym Hs Hin Hro Hp. unfold predirs. cbn [fmap list_fmap concat]. rewrite Hp, <- !app_assoc. fold (predirs rs).
      rewrite (Ok_bind _ _ _ _ _ (peek_sym _ _ _ Hs)), Hin.
      destruct (gettoken_sym sym (pword r.1.1 ++ predirs rs ++ k) Hs) as [t Et].
      { destruct Hw as [Hne Hw]. destruct (r.1.1) as [|x w]; [done|]. apply Forall_cons in Hw as [[Hsp _]%word_not _]. cbn. by rewrite Hsp. }
      rewrite (Ok_bind _ _ _ _ _ Et). destruct (gettoken_word _ (predirs rs ++ k) Hw) as (t' & Et' & Ht'); [by apply predirs_skip|].
      rewrite (Ok_bind _ _ _ _ _ Et'). cbn [fst snd]. rewrite Z.eqb_refl. cbn [negb]. rewrite Hro.
      destruct (IH (REDIR c t' r.1.2 r.2) fuel) as (c' & E & Hc'); [cbn in Hf; lia|]. exists c'. split; [done|]. rewrite Hc'. cbn. by rewrite Ht'. }
    destruct r as [[f m] d]. cbn [fst snd] in *. destruct Hm as [[= -> ->]|[= -> ->]]; [apply (Hgen LT)|apply (Hgen GT)]; done.
Qed.

Lemma peek_enders k : ends E3 k -> peek [BAR; RPAR; AMP; SEMI] k = Ok (match k with [] => false | _ => true end) k.
Proof.
  intros Hk. rewrite peek_at by (by apply E3_skip). destruct k as [|c k]; [done|]. cbn in Hk. f_equal.
  unfold E3 in Hk. rewrite !elem_of_cons in Hk. destruct Hk as [->|[->|[->|[->|[]%elem_of_nil]]]]; done.
Qed.

(** The words of a command and the redirections after them. *)
Lemma parseargs_none c k fuel : ends E3 k -> (0 < fuel)%nat -> parseargs fuel c k = Ok c k.
Proof.
  intros Hk Hf. destruct fuel as [|fuel]; [lia|]. cbn [parseargs]. rewrite (Ok_bind _ _ _ _ _ (peek_enders k Hk)). by destruct k.
Qed.

Lemma parseargs_print ws ts rs k fuel : Forall wordlike ws -> ws <> [] -> (length ts + length ws < MAXARGS)%nat -> Forall redir_ok rs -> ends E3 k ->
  (length ws + length rs + 1 < fuel)%nat ->
  exists c', parseargs fuel (EXEC ts) (concat (pword <$> ws) ++ predirs rs ++ k) = Ok c' k /\
    cmap word c' = foldl wrap (EXEC ((word <$> ts) ++ ws)) rs.
Proof.
  intros Hws. revert ts fuel. induction Hws as [|w ws Hw Hws IH]; intros ts fuel Hne Hlen Hrs Hk Hf; [done|].
  destruct fuel as [|fuel]; [lia|]. cbn [fmap list_fmap concat]. rewrite <- app_assoc. cbn [parseargs].
  set (s := concat (pword <$> ws) ++ predirs rs ++ k).
  assert (skip_spaces s = s) as Hs.
  { unfold s. apply (print_skip 0 (EXEC ws)); [split; [done|cbn in Hlen; lia]|]. by apply predirs_skip, E3_skip. }
  assert (peek [BAR; RPAR; AMP; SEMI] (pword w ++ s) = Ok false (pword w ++ s)) as Ep.
  { destruct Hw as [Hn Hw]. destruct w as [|c w]; [done|]. apply Forall_cons in Hw as [[Hsp Hsy]%word_not _].
    rewrite peek_at by (cbn; by rewrite Hsp). f_equal. cbn. revert Hsy. unfold is_symbol. cbn. rewrite !orb_false_iff. intros (? & -> & ? & -> & -> & ? & -> & _). done. }
  rewrite (Ok_bind _ _ _ _ _ Ep). destruct (gettoken_word w s Hw Hs) as (t & Et & Ht). rewrite (Ok_bind _ _ _ _ _ Et). cbn [fst snd].
  change (TWORD =? 0) with false. rewrite Z.eqb_refl. cbn [negb add_arg argc]. rewrite length_app. cbn [length].
  destruct (Nat.leb_spec MAXARGS (length ts + 1)); [cbn in Hlen; lia|]. destruct ws as [|w' ws].
  - assert (peek [LT; GT] k = Ok false k) as Epk by (by apply peek_redir).
    destruct (parseredirs_print rs (EXEC (ts ++ [t])) k (S fuel) Hrs Epk (E3_skip k Hk)) as (c' & E & Hc'); [cbn in Hf; lia|].
    unfold s. cbn [fmap list_fmap concat app]. rewrite (Ok_bind _ _ _ _ _ E). exists c'. split; [apply parseargs_none; [done|lia]|].
    rewrite Hc'. cbn. by rewrite fmap_app, <- Ht.
  - assert (peek [LT; GT] s = Ok false s) as Epk.
    { rewrite peek_at by done. apply Forall_cons in Hws as [[Hn Hw'] _]. unfold s. destruct w' as [|c w']; [done|]. apply Forall_cons in Hw' as [[_ Hsy]%word_not _].
      f_equal. cbn. revert Hsy. unfold is_symbol. cbn. rewrite !orb_false_iff. intros (-> & _ & -> & _). done. }
    rewrite (Ok_bind _ _ _ _ _ (Ok_bind _ _ _ _ _ Epk : parseredirs (S fuel) (EXEC (ts ++ [t])) s = Ok (EXEC (ts ++ [t])) s)).
    destruct (IH (ts ++ [t]) fuel) as (c' & E & Hc'); try done; [rewrite length_app; cbn in *; lia|cbn in *; lia|].
    exists c'. split; [done|]. rewrite Hc', fmap_app, <- app_assoc, <- Ht. done.
Qed.

(** Parsing what is printed, at each level: a single command with further
    redirections, a pipeline, a pipeline with further [&]s, a line. *)
Definition P3 (c : cmd (list Z)) : Prop := forall rs, Forall redir_ok rs -> exists F, forall fuel k, (F <= fuel)%nat -> ends E3 k ->
  exists c', parseexec fuel (print 3 c ++ predirs rs ++ k) = Ok c' k /\ cmap word c' = foldl wrap c rs.
Definition P2 (c : cmd (list Z)) : Prop := exists F, forall fuel k, (F <= fuel)%nat -> ends E2 k ->
  exists c', parsepipe fuel (print 2 c ++ k) = Ok c' k /\ cmap word c' = c.
Definition P1 (c : cmd (list Z)) : Prop := forall n, exists F, forall fuel k, (F <= fuel)%nat -> ends E1 k ->
  exists c', (c ← parsepipe fuel; parsebacks fuel c) (print 1 c ++ concat (replicate n (psym AMP)) ++ k) = Ok c' k /\ cmap word c' = Nat.iter n BACK c.
Definition P0 (c : cmd (list Z)) : Prop := exists F, forall fuel k, (F <= fuel)%nat -> ends E0 k ->
  exists c', parseline fuel (print 0 c ++ k) = Ok c' k /\ cmap word c' = c.

Lemma P2_of_P3 c : P3 c -> print 2 c = print 3 c -> P2 c.
Proof.
  intros H3 Ep. destruct (H3 [] (Forall_nil_2 _)) as [F HF]. exists (S F). intros [|fuel] k Hf Hk; [lia|]. cbn [parsepipe]. rewrite Ep.
  destruct (HF fuel k) as (c' & E & Hc); [lia|by apply ends_23|]. cbn in E. rewrite (Ok_bind _ _ _ _ _ E).
  erewrite Ok_bind by (eapply peek_ends; [|done]; repeat constructor). by exists c'.
Qed.

Lemma parsebacks_print n c k fuel : ends E1 k -> (n < fuel)%nat ->
  exists c', parsebacks fuel c (concat (replicate n (psym AMP)) ++ k) = Ok c' k /\ cmap word c' = Nat.iter n BACK (cmap word c).
Proof.
  intros Hk. revert c fuel. induction n as [|n IH]; intros c fuel Hf; (destruct fuel as [|fuel]; [lia|]); cbn [parsebacks replicate concat].
  - erewrite Ok_bind by (eapply peek_ends; [|done]; repeat constructor). by exists c.
  - rewrite <- app_assoc. erewrite Ok_bind by (by apply peek_sym).
    destruct (gettoken_sym AMP (concat (replicate n (psym AMP)) ++ k)) as [t Et]; [done|destruct n; [|done]; by apply E3_skip, ends_23, ends_12|].
    replace (existsb (Z.eqb AMP) [AMP]) with true by done. erewrite Ok_bind by exact Et. destruct (IH (BACK c) fuel) as (c' & E & Hc); [lia|].
    exists c'. split; [done|]. rewrite Hc. cbn [cmap]. symmetry. apply Nat.iter_succ_r.
Qed.

Lemma P1_of_P2 c : P2 c -> print 1 c = print 2 c -> P1 c.
Proof.
  intros [F HF] Ep n. exists (S (F + n)). intros fuel k Hf Hk. rewrite Ep.
  destruct (HF fuel (concat (replicate n (psym AMP)) ++ k)) as (c' & E & Hc); [lia| |].
  { destruct n; [by apply ends_12|]. cbn. unfold E2. rewrite !elem_of_cons. auto. }
  rewrite (Ok_bind _ _ _ _ _ E). destruct (parsebacks_print n c' k fuel Hk) as (c2 & E2 & Hc2); [lia|]. exists c2. by rewrite Hc2, Hc.
Qed.

(** The start of [parseline]. *)
Lemma parseline_eq fuel s : parseline (S fuel) s =
  ((c ← parsepipe fuel; parsebacks fuel c) ≫= fun c => b ← peek [SEMI];
    if (b : bool) then gettoken;; r ← parseline fuel; mret (LIST c r) else mret c) s.
Proof. cbn [parseline]. unfold mbind, M_bind, bindM. by destruct (parsepipe fuel s). Qed.

Lemma P0_of_P1 c : P1 c -> print 0 c = print 1 c -> P0 c.
Proof.
  intros H1 Ep. destruct (H1 0%nat) as [F HF]. exists (S F). intros [|fuel] k Hf Hk; [lia|]. rewrite parseline_eq, Ep.
  destruct (HF fuel k) as (c' & E & Hc); [lia|by apply ends_01|]. cbn [replicate concat app] in E.
  rewrite (Ok_bind _ _ _ _ _ E). erewrite Ok_bind by (eapply peek_ends; [|done]; repeat constructor). by exists c'.
Qed.

(** A command in parentheses. *)
Lemma P3_of_P0 c : printable c -> P0 c -> print 3 c = psym LPAR ++ print 0 c ++ psym RPAR -> P3 c.
Proof.
  intros Hc [F HF] Ep rs Hrs. exists (S (S (S (F + length rs)))). intros [|[|fuel]] k Hf Hk; [lia..|]. rewrite Ep, <- !app_assoc. cbn [parseexec].
  erewrite Ok_bind by (by apply peek_sym). replace (existsb (Z.eqb LPAR) [LPAR]) with true by done. cbn [parseblock].
  erewrite Ok_bind by (by apply peek_sym). replace (existsb (Z.eqb LPAR) [LPAR]) with true by done. cbn [negb].
  destruct (gettoken_sym LPAR (print 0 c ++ psym RPAR ++ predirs rs ++ k)) as [t Et]; [done|by apply print_skip|].
  erewrite Ok_bind by exact Et. destruct (HF fuel (psym RPAR ++ predirs rs ++ k)) as (c' & E & Hc'); [lia|by left|].
  rewrite (Ok_bind _ _ _ _ _ E). erewrite Ok_bind by (by apply peek_sym). replace (existsb (Z.eqb RPAR) [RPAR]) with true by done. cbn [negb].
  destruct (gettoken_sym RPAR (predirs rs ++ k)) as [t' Et']; [done|by apply predirs_skip, E3_skip|]. erewrite Ok_bind by exact Et'.
  destruct (parseredirs_print rs c' k fuel Hrs) as (c2 & E2 & Hc2); [by apply peek_redir|by apply E3_skip|lia|].
  exists c2. by rewrite E2, Hc2, Hc'.
Qed.

Lemma P3_EXEC ws : printable (EXEC ws) -> P3 (EXEC ws).
Proof.
  intros [Hws Hl] rs Hrs. exists (length ws + length rs + 4)%nat. intros [|fuel] k Hf Hk; [lia|]. cbn [parseexec print].
  set (s := concat (pword <$> ws) ++ predirs rs ++ k).
  assert (skip_spaces s = s) as Hs by (apply (print_skip 0 (EXEC ws)); [done|by apply predirs_skip, E3_skip]).
  assert (peek [LT; GT] k = Ok false k) as Epk by (by apply peek_redir).
  destruct ws as [|w ws].
  - unfold s. cbn [fmap list_fmap concat app] in *.
    assert (peek [LPAR] (predirs rs ++ k) = Ok false (predirs rs ++ k)) as Ep.
    { destruct rs as [|r rs]; [apply (peek_ends E3); [repeat constructor|done]|]. rewrite peek_at by done. cbn. by destruct (r.1.2 =? O_RDONLY). }
    rewrite (Ok_bind _ _ _ _ _ Ep). destruct (parseredirs_print rs (EXEC []) k fuel Hrs Epk (E3_skip k Hk)) as (c' & E & Hc'); [cbn in *; lia|].
    rewrite (Ok_bind _ _ _ _ _ E). exists c'. split; [apply parseargs_none; [done|lia]|done].
  - assert (forall toks, (forall c, is_symbol c = false -> existsb (Z.eqb c) toks = false) -> peek toks s = Ok false s) as Ep.
    { intros toks Ht. rewrite peek_at by done. pose proof Hws as [[Hn Hw] _]%Forall_cons. unfold s. destruct w as [|c w]; [done|].
      apply Forall_cons in Hw as [[_ Hsy]%word_not _]. cbn [fmap list_fmap concat app pword]. by rewrite (Ht c Hsy). }
    rewrite (Ok_bind _ _ _ _ _ (Ep [LPAR] ltac:(intros c Hc; revert Hc; unfold is_symbol; cbn; rewrite !orb_false_iff; tauto))).
    destruct fuel as [|fuel]; [cbn in Hf; lia|].
    assert (parseredirs (S fuel) (EXEC []) s = Ok (EXEC []) s) as Er.
    { cbn [parseredirs]. by rewrite (Ok_bind _ _ _ _ _ (Ep [LT; GT] ltac:(intros c Hc; revert Hc; unfold is_symbol; cbn; rewrite !orb_false_iff; tauto))). }
    rewrite (Ok_bind _ _ _ _ _ Er). apply (parseargs_print (w :: ws) []); try done. lia.
Qed.

Lemma P2_PIPE l r : printable r -> P3 l -> P2 r -> P2 (PIPE l r).
Proof.
  intros Hr H3 [Fr HFr]. destruct (H3 [] (Forall_nil_2 _)) as [F HF]. exists (S (F + Fr)). intros [|fuel] k Hf Hk; [lia|]. cbn [parsepipe print paren Nat.ltb Nat.leb].
  rewrite <- !app_assoc. destruct (HF fuel (psym BAR ++ print 2 r ++ k)) as (l' & E & Hl'); [lia|cbn; unfold E3; rewrite !elem_of_cons; auto|].
  cbn [predirs fmap list_fmap concat app] in E. rewrite (Ok_bind _ _ _ _ _ E). erewrite Ok_bind by (by apply peek_sym).
  replace (existsb (Z.eqb BAR) [BAR]) with true by done.
  destruct (gettoken_sym BAR (print 2 r ++ k)) as [t Et]; [done|by apply print_skip; [|apply E3_skip, ends_23]|]. erewrite Ok_bind by exact Et.
  destruct (HFr fuel k) as (r' & Er & Hr'); [lia|done|]. rewrite (Ok_bind _ _ _ _ _ Er). exists (PIPE l' r'). split; [done|]. cbn in *. by rewrite Hl', Hr'.
Qed.

Lemma P0_LIST l r : printable r -> P1 l -> P0 r -> P0 (LIST l r).
Proof.
  intros Hr H1 [Fr HFr]. destruct (H1 0%nat) as [F HF]. exists (S (F + Fr)). intros [|fuel] k Hf Hk; [lia|]. rewrite parseline_eq. cbn [print paren Nat.ltb Nat.leb].
  rewrite <- !app_assoc. destruct (HF fuel (psym SEMI ++ print 0 r ++ k)) as (l' & E & Hl'); [lia|cbn; unfold E1; rewrite !elem_of_cons; auto|].
  cbn [replicate concat app] in E. rewrite (Ok_bind _ _ _ _ _ E). erewrite Ok_bind by (by apply peek_sym).
  replace (existsb (Z.eqb SEMI) [SEMI]) with true by done.
  destruct (gettoken_sym SEMI (print 0 r ++ k)) as [t Et]; [done|by apply print_skip; [|apply E3_skip, ends_23, ends_12, ends_01]|].
  erewrite Ok_bind by exact Et.
  destruct (HFr fuel k) as (r' & Er & Hr'); [lia|done|]. rewrite (Ok_bind _ _ _ _ _ Er). exists (LIST l' r'). split; [done|]. cbn in *. by rewrite Hl', Hr'.
Qed.

Lemma P1_BACK c : P1 c -> P1 (BACK c).
Proof.
  intros H1 n. destruct (H1 (S n)) as [F HF]. exists F. intros fuel k Hf Hk. destruct (HF fuel k Hf Hk) as (c' & E & Hc). exists c'.
  cbn [print paren Nat.ltb Nat.leb]. cbn [replicate concat] in E. rewrite <- app_assoc in E |- *. split; [done|]. rewrite Hc. apply Nat.iter_succ_r.
Qed.

Lemma print_parses c : printable c -> P3 c /\ P2 c /\ P1 c /\ P0 c.
Proof.
  induction c as [ws|c IH f m d|l IHl r IHr|l IHl r IHr|c IH]; intros Hc.
  - pose proof (P3_EXEC ws Hc) as H3. pose proof (P2_of_P3 _ H3 eq_refl) as H2. pose proof (P1_of_P2 _ H2 eq_refl) as H1.
    auto using P0_of_P1.
  - destruct Hc as [Hc Hr]. destruct (IH Hc) as (H3c & _). assert (P3 (REDIR c f m d)) as H3.
    { intros rs Hrs. destruct (H3c ((f, m, d) :: rs)) as [F HF]; [by constructor|]. exists F. intros fuel k Hf Hk.
      destruct (HF fuel k Hf Hk) as (c' & E & Hc'). exists c'. unfold predirs in *. cbn [print fmap list_fmap concat] in *. rewrite <- app_assoc in E |- *. done. }
    pose proof (P2_of_P3 _ H3 eq_refl) as H2. pose proof (P1_of_P2 _ H2 eq_refl) as H1. auto using P0_of_P1.
  - pose proof Hc as [Hl Hr]. destruct (IHl Hl) as (H3 & _), (IHr Hr) as (_ & H2r & _). pose proof (P2_PIPE l r Hr H3 H2r) as H2.
    pose proof (P1_of_P2 _ H2 eq_refl) as H1. pose proof (P0_of_P1 _ H1 eq_refl) as H0. auto using P3_of_P0.
  - pose proof Hc as [Hl Hr]. destruct (IHl Hl) as (_ & _ & H1l & _), (IHr Hr) as (_ & _ & _ & H0r). pose proof (P0_LIST l r Hr H1l H0r) as H0.
    pose proof (P3_of_P0 _ Hc H0 eq_refl) as H3. pose proof (P2_of_P3 _ H3 eq_refl) as H2. auto using P1_of_P2.
  - destruct (IH Hc) as (_ & _ & H1c & _). pose proof (P1_BACK c H1c) as H1. pose proof (P0_of_P1 _ H1 eq_refl) as H0.
    pose proof (P3_of_P0 _ Hc H0 eq_refl) as H3. auto using P2_of_P3.
Qed.

(** C17: The parser reads back what is printed: a command whose words are words,
    with fewer than [MAXARGS] arguments each and the redirections the shell
    knows, nested in any way by [|], [;], [&] and redirection, printed with
    parentheses where the grammar needs them, is parsed to that command. *)
Theorem parse_print (c : cmd (list Z)) : printable c ->
  exists F, forall fuel, (F <= fuel)%nat -> exists c', parse fuel (print 0 c) = Ok c' [] /\ cmap word c' = c.
Proof.
  intros Hc. destruct (print_parses c Hc) as (_ & _ & _ & F & HF). exists F. intros fuel Hf. destruct (HF fuel [] Hf I) as (c' & E & Hc').
  exists c'. split; [|done]. rewrite app_nil_r in E. unfold parse. by rewrite (Ok_bind _ _ _ _ _ E).
Qed.

(** [(a; b > c) | d &] *)
Definition demo_cmd : cmd (list Z) :=
  BACK (PIPE (LIST (EXEC [[97]]) (REDIR (EXEC [[98]]) [99] (Z.lor O_WRONLY O_CREATE) 1)) (EXEC [[100]])).
Definition demo_line : list Z := print 0 demo_cmd.

Lemma parse_print_witness : exists F c', parse F demo_line = Ok c' [] /\ cmap word c' = demo_cmd.
Proof.
  destruct (parse_print demo_cmd) as [F HF].
  - cbn. unfold redir_ok, wordlike, MAXARGS. cbn. repeat split; try lia; try done; try (by repeat constructor); auto.
  - exists F. exact (HF F ltac:(lia)).
Defined.

Lemma parsecmd_words_witness : exists c buf, parsecmd 100 demo_line = Ok (c, buf) [] /\ Forall (fun t => string_at demo_line buf t.1 = word t) (tokens c).
Proof.
  pose proof (parsecmd_words demo_line 100) as H. destruct (parsecmd 100 demo_line) as [[c buf] rest| | | |] eqn:E; try (by vm_compute in E).
  destruct H as (_ & -> & Ht); [vm_compute; lia|by repeat constructor|]. exists c, buf. split; [reflexivity|].
  apply Forall_forall. intros t Hin. exact (proj1 (Ht t Hin)).
Defined.
