(* ===== verification/KBytes.v ===== *)
(** * Bytes in kernel memory

    The laws of the byte loads and stores of [Memory], and of copies of
    byte strings ([memmove] into a page). *)

From S2P Require Import Prelude Mmu Memory Vm.

(** ** A byte of a word *)

Definition byte_of (w k : Z) : Z := Z.land (Z.shiftr w (8 * k)) 255.
Definition with_byte (w k v : Z) : Z := Z.lor (Z.ldiff w (Z.shiftl 255 (8 * k))) (Z.shiftl (Z.land v 255) (8 * k)).

Lemma testbit_255 i : 0 <= i -> Z.testbit 255 i = (i <? 8).
Proof. intros Hi. change 255 with (Z.ones 8). destruct (Z.ltb_spec i 8); [apply Z.ones_spec_low|apply Z.ones_spec_high]; lia. Qed.

Lemma testbit_255_neg i : i < 0 -> Z.testbit 255 i = false.
Proof. intros Hi. apply Z.testbit_neg_r. lia. Qed.

Lemma byte_of_with_byte w k v j : 0 <= k -> 0 <= j -> byte_of (with_byte w k v) j = if j =? k then Z.land v 255 else byte_of w j.
Proof.
  intros Hk Hj. unfold byte_of, with_byte. apply Z.bits_inj'. intros i Hi.
  rewrite Z.land_spec, Z.shiftr_spec, Z.lor_spec, Z.ldiff_spec, !Z.shiftl_spec, (testbit_255 i) by lia.
  destruct (Z.ltb_spec i 8) as [Hi8|Hi8]; [rewrite andb_true_r|rewrite andb_false_r].
  - destruct (Z.eqb_spec j k) as [->|Hne].
    + replace (i + 8 * k - 8 * k) with i by lia. rewrite testbit_255 by lia. destruct (Z.ltb_spec i 8); [|lia].
      by rewrite andb_false_r.
    + assert (Z.testbit 255 (i + 8 * j - 8 * k) = false) as Hz.
      { destruct (Z.ltb_spec (i + 8 * j - 8 * k) 0); [by apply testbit_255_neg|]. rewrite testbit_255 by lia. apply Z.ltb_ge. lia. }
      rewrite Z.land_spec, Hz, andb_false_r, orb_false_r, andb_true_r, Z.land_spec, Z.shiftr_spec, testbit_255 by lia.
      destruct (Z.ltb_spec i 8); [|lia]. by rewrite andb_true_r.
  - symmetry. destruct (j =? k); rewrite Z.land_spec, testbit_255 by lia; destruct (Z.ltb_spec i 8); try lia; apply andb_false_r.
Qed.

Lemma land_255 v : Z.land v 255 = v mod 256.
Proof. change 255 with (Z.ones 8). by rewrite Z.land_ones. Qed.

Lemma word_addr a : is_u32 a -> Z.land a (not32 3) = a - a mod 4.
Proof.
  intros Ha. rewrite land_not32 by done. change 3 with (Z.ones 2). rewrite Z.ldiff_ones_r, Z.shiftr_div_pow2, Z.shiftl_mul_pow2 by lia.
  change (2 ^ 2) with 4. Z.div_mod_to_equations. lia.
Qed.

(** ** Loads and stores *)

(** The place of a word determines its address. *)
Lemma word_place a b : is_u32 a -> is_u32 b -> a mod 4 = 0 -> b mod 4 = 0 -> kframe a = kframe b ->
  V2P a mod PGSIZE / 4 = V2P b mod PGSIZE / 4 -> a = b.
Proof. unfold kframe, PGSIZE, V2P, KERNBASE. ulia. Qed.

Lemma kload_kstore m a b v : is_u32 a -> is_u32 b -> a mod 4 = 0 -> b mod 4 = 0 -> kload (kstore m a v) b = if b =? a then v else kload m b.
Proof.
  intros Ha Hb Ha4 Hb4. destruct (Z.eqb_spec b a) as [->|Hne]; [apply kload_kstore_eq|].
  destruct (decide (kframe a = kframe b)) as [E|E]; [|by apply kload_kstore_frame].
  apply kload_kstore_word. intros E'. apply Hne. by apply word_place.
Qed.

Lemma kload8_kstore8 m a b v : mem_words m -> is_u32 a -> is_u32 b ->
  kload8 (kstore8 m a v) b = if b =? a then v mod 256 else kload8 m b.
Proof.
  intros Hw Ha Hb. unfold kload8, kstore8. rewrite !word_addr, land_not32 by auto with kern.
  rewrite kload_kstore; try (unfold is_u32, two32 in *; Z.div_mod_to_equations; lia).
  fold (byte_of (kload m (b - b mod 4)) (b mod 4)).
  destruct (Z.eqb_spec (b - b mod 4) (a - a mod 4)) as [E|E].
  - fold (with_byte (kload m (a - a mod 4)) (a mod 4) v). fold (byte_of (with_byte (kload m (a - a mod 4)) (a mod 4) v) (b mod 4)).
    rewrite byte_of_with_byte, land_255, E by (apply Z.mod_pos_bound; lia).
    destruct (Z.eqb_spec (b mod 4) (a mod 4)), (Z.eqb_spec b a); try done; subst; lia.
  - destruct (Z.eqb_spec b a); [by subst|done].
Qed.

Lemma mem_words_kstore8 m a v : mem_words m -> mem_words (kstore8 m a v).
Proof.
  intros Hw. apply mem_words_kstore; [done|]. apply lor_u32.
  - apply clear_bits_range. auto with kern.
  - rewrite land_255, Z.shiftl_mul_pow2 by (pose proof (Z.mod_pos_bound a 4 ltac:(lia)); lia).
    pose proof (Z.mod_pos_bound v 256 ltac:(lia)). pose proof (Z.mod_pos_bound a 4 ltac:(lia)).
    assert (2 ^ (8 * (a mod 4)) <= 2 ^ 24) by (apply Z.pow_le_mono_r; lia). pose proof (Z.pow_pos_nonneg 2 (8 * (a mod 4)) ltac:(lia) ltac:(lia)).
    change (2 ^ 24) with 16777216 in *. unfold is_u32, two32. nia.
Qed.

Lemma kstore8_frame m a v fn : is_u32 a -> fn <> kframe a -> mem_frame (kstore8 m a v) fn = mem_frame m fn.
Proof.
  intros Ha Hne. unfold kstore8. rewrite mem_frame_kstore, word_addr by done. rewrite decide_False; [done|]. intros E. apply Hne. rewrite <- E.
  unfold kframe, V2P, PGSIZE, KERNBASE. ulia.
Qed.

(** ** Strings of bytes *)

(** A copy that stays in a page: the bytes are there, the rest of memory is as
    it was. *)
Lemma kwrite_bytes_spec bs : forall m a, mem_words m -> Forall (fun b => 0 <= b < 256) bs -> 0 <= a -> a + Z.of_nat (length bs) <= two32 - 1 ->
  mem_words (kwrite_bytes m a bs) /\
  (forall x, is_u32 x -> kload8 (kwrite_bytes m a bs) x =
     if (a <=? x) && (x <? a + Z.of_nat (length bs)) then nth (Z.to_nat (x - a)) bs 0 else kload8 m x) /\
  (forall fn, (forall x, a <= x < a + Z.of_nat (length bs) -> kframe x <> fn) -> mem_frame (kwrite_bytes m a bs) fn = mem_frame m fn).
Proof.
  induction bs as [|b bs IH]; intros m a Hw Hb Ha Hl; cbn [kwrite_bytes length].
  - split; [done|]. split; [|done]. intros x Hx. destruct (Z.leb_spec a x), (Z.ltb_spec x (a + Z.of_nat 0)); try done; lia.
  - apply Forall_cons in Hb as [Hb Hbs]. cbn [length] in Hl. rewrite u32_small by ulia.
    assert (is_u32 a) as Hau by ulia. destruct (IH (kstore8 m a b) (a + 1)) as (H1 & H2 & H3); [by apply mem_words_kstore8|done|lia|lia|].
    split; [done|]. split.
    + intros x Hx. rewrite H2, kload8_kstore8 by done. rewrite Z.mod_small by lia.
      destruct (Z.leb_spec (a + 1) x), (Z.ltb_spec x (a + 1 + Z.of_nat (length bs))), (Z.leb_spec a x),
        (Z.ltb_spec x (a + Z.of_nat (S (length bs)))); cbn [andb]; try lia.
      * replace (Z.to_nat (x - a)) with (S (Z.to_nat (x - (a + 1)))) by lia. done.
      * destruct (Z.eqb_spec x a); [lia|done].
      * destruct (Z.eqb_spec x a) as [->|]; [|lia]. by rewrite Z.sub_diag.
      * destruct (Z.eqb_spec x a); [lia|done].
    + intros fn Hfn. rewrite H3 by (intros x Hx; apply Hfn; lia). apply kstore8_frame; [done|]. intros ->. by apply (Hfn a); [lia|].
Qed.
