(* ===== verification/Exec.v ===== *)
(** * Running a program ([exec.c], [loaduvm] and [switchuvm] of [vm.c])

    [exec] over the address-space functions of [vm.c] and the file system:
    the checks on the executable, the loading of its segments, the stack with
    its guard page and the arguments pushed on it, and the switch to the new
    image. *)

From S2P Require Import Prelude Mmu Memory Kalloc PageTable Vm Bytes Bio Log Fs Syscall.

Definition ELF_MAGIC : Z := 0x464C457F.
Definition ELF_PROG_LOAD : Z := 1.

(** [struct elfhdr] and [struct proghdr], as far as they are used. *)
Record elfhdr := ElfHdr { eh_magic : Z; eh_entry : Z; eh_phoff : Z; eh_phnum : Z }.
Definition ELFHDR : Z := 52.       (* sizeof(struct elfhdr) *)
Definition get_elfhdr (d : list Z) : elfhdr := ElfHdr (get32 d 0) (get32 d 24) (get32 d 28) (get16 d 44).
Record proghdr := ProgHdr { ph_type : Z; ph_off : Z; ph_vaddr : Z; ph_filesz : Z; ph_memsz : Z }.
Definition PROGHDR : Z := 32.      (* sizeof(struct proghdr) *)
Definition get_proghdr (d : list Z) : proghdr := ProgHdr (get32 d 0) (get32 d 4) (get32 d 8) (get32 d 16) (get32 d 20).

(** The kernel with the process that calls [exec]: its size, its name and the
    registers it will return with. *)
Record xst (F : Type) := XSt {
  x_vm : vm F; x_fs : fs; x_sz : Z; x_kstack : Z; x_eip : Z; x_esp : Z; x_name : list Z;
}.
Arguments XSt {F} x_vm x_fs x_sz x_kstack x_eip x_esp x_name.
Arguments x_vm {F} x.
Arguments x_fs {F} x.
Arguments x_sz {F} x.
Arguments x_kstack {F} x.
Arguments x_eip {F} x.
Arguments x_esp {F} x.
Arguments x_name {F} x.

Definition set_xvm {F} (v : vm F) (s : xst F) : xst F := XSt v (x_fs s) (x_sz s) (x_kstack s) (x_eip s) (x_esp s) (x_name s).
Definition set_xfs {F} (f : fs) (s : xst F) : xst F := XSt (x_vm s) f (x_sz s) (x_kstack s) (x_eip s) (x_esp s) (x_name s).
Definition set_pp_pgdir (d : Z) (p : pproc) : pproc :=
  PProc (pp_pid p) d (pp_file_pages p) (pp_memory_pages p) (pp_page_faults p) (pp_paged_out p) (pp_timestamp p) (pp_r_robin p).

(** The last element of a path, cut to [sizeof(name) - 1]. *)
Fixpoint last_element (last s : list Z) : list Z :=
  match s with [] => last | c :: s' => last_element (if c =? 47 then s' else last) s' end.
Definition prog_name (path : list Z) : list Z := take 15 (last_element path path).

Section exec.
Context {F : Type} `{SwapFile F}.
Context (end_ data : Z) (pol : policy) (devsw : Z -> device).

Definition onvm {A} (m : M (vm F) A) : M (xst F) A := zoom x_vm set_xvm m.
Definition onxfs {A} (m : M fs A) : M (xst F) A := zoom x_fs set_xfs m.
Definition xmach {A} (m : M mach A) : M (xst F) A := onvm (onmach m).

(** The checks of [switchuvm] and the page directory it loads; the task state it
    sets is in [Seg]. *)
Definition switchuvm : M (xst F) () :=
  s ← get;
  if x_kstack s =? 0 then panic "switchuvm: no kstack" else
  if pp_pgdir (v_p (x_vm s)) =? 0 then panic "switchuvm: no pgdir" else
  onvm (lcr3 (V2P (pp_pgdir (v_p (x_vm s))))).

(** The loop of [loaduvm] from offset [i] on. *)
Fixpoint loaduvm_loop (fuel : nat) (pgdir addr : Z) (ip : nat) (offset sz i : Z) : M (xst F) Z :=
  if i <? sz then
    match fuel with
    | O => nofuel
    | S fuel' =>
        pte ← xmach (walkpgdir pgdir (u32 (addr + i)) false);
        if pte =? 0 then panic "loaduvm: address should exist" else
        v ← xmach (load pte);
        let pa := PTE_ADDR v in
        let n := if sz - i <? PGSIZE then sz - i else PGSIZE in
        r ← onxfs (readi devsw ip (u32 (offset + i)) n);
        xmach (modify (fun s => set_mem (kwrite_bytes (m_mem s) (P2V pa) (snd r)) s));;
        if negb (fst r =? n) then mret (-1) else loaduvm_loop fuel' pgdir addr ip offset sz (i + PGSIZE)
    end
  else mret 0.
Definition loaduvm (pgdir addr : Z) (ip : nat) (offset sz : Z) : M (xst F) Z :=
  if negb (addr mod PGSIZE =? 0) then panic "loaduvm: addr must be page aligned" else
  loaduvm_loop (Z.to_nat (sz / PGSIZE + 1)) pgdir addr ip offset sz 0.

(** [bad:] begins with a call of [panic]. *)
Definition bad {A} : M (xst F) A := panic "EXEC FAILED!\n".

(** The loop over the program headers; it gives the size of the image. *)
Fixpoint load_segments (n : nat) (pgdir : Z) (ip : nat) (off sz : Z) : M (xst F) Z :=
  match n with
  | O => mret sz
  | S n' =>
      r ← onxfs (readi devsw ip off PROGHDR);
      if negb (fst r =? PROGHDR) then bad else
      let ph := get_proghdr (snd r) in
      if negb (ph_type ph =? ELF_PROG_LOAD) then load_segments n' pgdir ip (u32 (off + PROGHDR)) sz else
      if ph_memsz ph <? ph_filesz ph then bad else
      if u32 (ph_vaddr ph + ph_memsz ph) <? ph_vaddr ph then bad else
      sz ← onvm (allocuvm end_ pol pgdir sz (u32 (ph_vaddr ph + ph_memsz ph)));
      if sz =? 0 then bad else
      if negb (ph_vaddr ph mod PGSIZE =? 0) then bad else
      r ← loaduvm pgdir (ph_vaddr ph) ip (ph_off ph) (ph_filesz ph);
      if r <? 0 then bad else
      load_segments n' pgdir ip (u32 (off + PROGHDR)) sz
  end.

(** The loop that pushes the strings: the stack pointer and the pointers to
    them, first to last. *)
Definition push_sp (sp : Z) (arg : list Z) : Z := Z.land (u32 (sp - (Z.of_nat (length arg) + 1))) (not32 3).
Fixpoint push_args (pgdir : Z) (argc : Z) (argv : list (list Z)) (sp : Z) (ptrs : list Z) : M (xst F) (Z * list Z) :=
  match argv with
  | [] => mret (sp, ptrs)
  | arg :: argv' =>
      if MAXARG <=? argc then bad else
      let sp := push_sp sp arg in
      r ← onvm (copyout pgdir sp (arg ++ [0]));
      if r <? 0 then bad else
      push_args pgdir (argc + 1) argv' sp (ptrs ++ [sp])
  end.

Definition word_le (w : Z) : list Z := [w mod 256; w / 256 mod 256; w / 65536 mod 256; w / 16777216 mod 256].
(** [ustack]: a return address, [argc], [argv] and the array it points to. *)
Definition ustack (argc sp : Z) (ptrs : list Z) : list Z := [0xffffffff; argc; u32 (sp - (argc + 1) * 4)] ++ ptrs ++ [0].

(** From the strings to the frame of [main]: the stack pointer. *)
Definition push_frame (pgdir : Z) (argv : list (list Z)) (sp : Z) : M (xst F) Z :=
  r ← push_args pgdir 0 argv sp [];
  let '(sp, ptrs) := (r : Z * list Z) in
  let argc := Z.of_nat (length argv) in
  let sp' := u32 (sp - (3 + argc + 1) * 4) in
  c ← onvm (copyout pgdir sp' (concat (word_le <$> ustack argc sp ptrs)));
  if c <? 0 then bad else mret sp'.

Definition exec (cwd : nat) (path : list Z) (argv : list (list Z)) : M (xst F) Z :=
  onxfs (onlfs begin_op);;
  ip ← onxfs (namei devsw cwd path);
  match ip with
  | None => onxfs (onlfs end_op);; mret (-1)
  | Some ip =>
      onxfs (ilock ip);;
      r ← onxfs (readi devsw ip 0 ELFHDR);
      if negb (fst r =? ELFHDR) then bad else
      let elf := get_elfhdr (snd r) in
      if negb (eh_magic elf =? ELF_MAGIC) then bad else
      pgdir ← onvm (setupkvm end_ data pol);
      if pgdir =? 0 then bad else
      sz ← load_segments (Z.to_nat (eh_phnum elf)) pgdir ip (eh_phoff elf) 0;
      onxfs (iunlockput ip);;
      onxfs (onlfs end_op);;
      let sz := PGROUNDUP sz in
      sz ← onvm (allocuvm end_ pol pgdir sz (u32 (sz + 2 * PGSIZE)));
      if sz =? 0 then bad else
      xmach (clearpteu pgdir (u32 (sz - 2 * PGSIZE)));;
      sp ← push_frame pgdir argv sz;
      s ← get;
      let oldpgdir := pp_pgdir (v_p (x_vm s)) in
      put (XSt (set_p (set_pp_pgdir pgdir (v_p (x_vm s))) (x_vm s)) (x_fs s) sz (x_kstack s) (eh_entry elf) sp (prog_name path));;
      switchuvm;;
      onvm (freevm end_ pol oldpgdir);;
      mret 0
  end.

(** [sys_exec]'s loop over the user's array of pointers; [None] is -1. *)
Fixpoint fetch_argv (n : nat) (u : user) (uargv : Z) : option (list (list Z)) :=
  match n with
  | O => None
  | S n' =>
      uarg ← fetchint u uargv;
      if uarg =? 0 then Some [] else
      arg ← fetchstr u (u32 uarg);
      rest ← fetch_argv n' u (u32 (uargv + 4));
      Some (arg :: rest)
  end.
Definition sys_exec (cwd : nat) (u : user) : M (xst F) Z :=
  match argstr u 0, argint u 1 with
  | Some path, Some uargv =>
      match fetch_argv (Z.to_nat MAXARG) u (u32 uargv) with
      | Some argv => exec cwd path argv
      | None => mret (-1)
      end
  | _, _ => mret (-1)
  end.
End exec.
