(* ===== verification/ExecArgs.v ===== *)
(** * The arguments of a program

    [exec] puts the strings of [argv], the array of pointers to them and the
    frame of [main] on the stack page of the new image; the page below it is a
    guard.  Either everything fits and [main] finds its arguments, or [exec]
    runs into the guard page and panics. *)

From S2P Require Import Prelude Mmu Memory Kalloc PageTable Vm Paging VmInv Demo KBytes Bytes Bio Log Fs FsDemo Syscall Exec.

(** The bytes a process sees through its page table. *)
Definition user_mem (m : memory) (pgdir : Z) (x : Z) : Z :=
  match translate m pgdir x with Some ka => kload8 m (u32 (ka + x mod PGSIZE)) | None => 0 end.

(** ** Where things go *)

Definition push_at (sp : Z) (arg : list Z) : Z := (sp - (Z.of_nat (length arg) + 1)) / 4 * 4.
Definition pushed (sp : Z) (argv : list (list Z)) : Z := foldl push_at sp argv.
(** The stack pointer of [main]. *)
Definition main_sp (sz : Z) (argv : list (list Z)) : Z := pushed sz argv - 4 * (4 + Z.of_nat (length argv)).

Definition string_ok (arg : list Z) : Prop := Forall (fun c => 0 < c < 256) arg /\ Z.of_nat (length arg) < PGSIZE.

Lemma push_sp_at sp arg : 0 <= sp < KERNBASE -> string_ok arg -> PGSIZE <= sp -> push_sp sp arg = push_at sp arg.
Proof.
  intros Hsp [_ Hl] Hlo. unfold push_sp, push_at, PGSIZE, KERNBASE in *. rewrite u32_small by ulia. rewrite word_addr by ulia.
  Z.div_mod_to_equations. lia.
Qed.

Lemma push_at_bounds sp arg : sp - Z.of_nat (length arg) - 4 <= push_at sp arg /\ push_at sp arg + Z.of_nat (length arg) + 1 <= sp /\
  push_at sp arg mod 4 = 0.
Proof. unfold push_at. Z.div_mod_to_equations. lia. Qed.

Lemma pushed_le argv sp : pushed sp argv <= sp.
Proof.
  revert sp. induction argv as [|arg argv IH]; intros sp; cbn; [lia|]. etransitivity; [apply IH|].
  destruct (push_at_bounds sp arg). lia.
Qed.

Lemma pushed_aligned argv sp : sp mod 4 = 0 -> pushed sp argv mod 4 = 0.
Proof. revert sp. induction argv as [|arg argv IH]; intros sp Hsp; cbn; [done|]. apply IH. by destruct (push_at_bounds sp arg) as (_ & _ & ?). Qed.

Section args.
Context {F : Type} `{SwapFile F}.
Context (end_ : Z) (end_high : KERNBASE <= end_).
Implicit Types (m : memory) (s : xst F).

Definition xmem s : memory := m_mem (v_mach (x_vm s)).
Definition with_mem m s : xst F := set_xvm (set_mach (set_mem m (v_mach (x_vm s))) (x_vm s)) s.

Lemma with_mem_mem m s : xmem (with_mem m s) = m.
Proof. done. Qed.
Lemma with_mem_with m m' s : with_mem m (with_mem m' s) = with_mem m s.
Proof. by destruct s as [[[] ? ? ? ?] ? ? ? ? ? ?]. Qed.
Lemma with_mem_id s : with_mem (xmem s) s = s.
Proof. by destruct s as [[[] ? ? ? ?] ? ? ? ? ? ?]. Qed.

(** The stack page at the top of an image of size [sz], at kernel address
    [ka], and the guard page below it. *)
Record stack_ok m (pgdir sz ka : Z) : Prop := {
  sk_wf : pd_wf end_ m pgdir;
  sk_words : mem_words m;
  sk_sz : aligned sz /\ 2 * PGSIZE <= sz < KERNBASE;
  sk_page : exists v, pte_at m pgdir (sz - PGSIZE) = Some v /\ has v PTE_P = true /\ has v PTE_U = true /\ P2V (PTE_ADDR v) = ka;
  sk_ka : aligned ka /\ KERNBASE <= ka /\ ka + PGSIZE <= two32 - 1;
  sk_frame : ~ pd_frame m pgdir (kframe ka);
  sk_guard : exists g, pte_at m pgdir (sz - 2 * PGSIZE) = Some g /\ has g PTE_U = false;
}.

(** Writing in the stack page keeps it in place. *)
Lemma stack_ok_write m m' pgdir sz ka : stack_ok m pgdir sz ka -> mem_words m' -> (forall fn, fn <> kframe ka -> mem_frame m' fn = mem_frame m fn) ->
  stack_ok m' pgdir sz ka.
Proof.
  intros [Hwf Hw Hsz (v & Hv & Hp & Hu & Hka) Hr Hfr (g & Hg & HgU)] Hw' Hm.
  assert (forall fn, pd_frame m pgdir fn -> mem_frame m' fn = mem_frame m fn) as Hagree by (intros fn Hfn; apply Hm; by intros ->).
  assert (forall va, is_u32 va -> pte_at m' pgdir va = pte_at m pgdir va) as Hpte by (intros va Hva; by eapply pte_at_frames).
  assert (mem_frame m' (kframe pgdir) = mem_frame m (kframe pgdir)) as Hdir by (apply Hagree; by left).
  destruct Hsz as [Hal Hrange]. split; try done.
  - by eapply pd_wf_agree.
  - exists v. rewrite Hpte by (unfold PGSIZE, KERNBASE in *; ulia). done.
  - rewrite pd_frame_agree; [done|by eapply pd_u32|by eapply pd_aligned|done].
  - exists g. rewrite Hpte by (unfold PGSIZE, KERNBASE in *; ulia). done.
Qed.

(** What the process sees on its stack page. *)
Lemma user_mem_stack m pgdir sz ka x : stack_ok m pgdir sz ka -> sz - PGSIZE <= x < sz ->
  user_mem m pgdir x = kload8 m (ka + (x - (sz - PGSIZE))).
Proof.
  intros [_ _ [Hal Hsz] (v & Hv & Hp & _ & Hka) (Hka1 & Hka2 & Hka3) _ _] Hx. unfold user_mem. rewrite translate_pte.
  assert (is_u32 x /\ is_u32 (sz - PGSIZE)) as [Hxu Hsu] by (unfold PGSIZE, KERNBASE in *; ulia).
  rewrite (pte_at_page m pgdir x (sz - PGSIZE)); [|done..|].
  - rewrite Hv. cbn. rewrite Hp, Hka. f_equal. unfold aligned, PGSIZE, KERNBASE in *. ulia.
  - rewrite !PGROUNDDOWN_spec by done. unfold aligned, PGSIZE, KERNBASE in *. ulia.
Qed.

(** ** copyout *)

Lemma copyout_stack s pgdir sz ka va bs : stack_ok (xmem s) pgdir sz ka -> sz - PGSIZE <= va -> bs <> [] -> va + Z.of_nat (length bs) <= sz ->
  onvm (copyout pgdir va bs) s = Ok 0 (with_mem (kwrite_bytes (xmem s) (ka + (va - (sz - PGSIZE))) bs) s).
Proof.
  intros [Hwf _ [Hal Hsz] (v & Hv & Hp & Hu & Hka) (Hka1 & Hka2 & Hka3) _ _] Hlo Hne Hhi.
  assert (0 < Z.of_nat (length bs)) as Hlen by (destruct bs; [done|cbn; lia]).
  assert (is_u32 va /\ is_u32 (sz - PGSIZE)) as [Hvu Hsu] by (unfold PGSIZE, KERNBASE in *; ulia).
  assert (PGROUNDDOWN va = sz - PGSIZE) as Eva by (rewrite PGROUNDDOWN_spec by done; unfold aligned, PGSIZE, KERNBASE in *; ulia).
  unfold onvm, zoom, copyout. set (fuel := Z.to_nat (Z.of_nat (length bs) / PGSIZE + 2)).
  assert (exists fuel', fuel = S (S fuel')) as [fuel' ->].
  { exists (Z.to_nat (Z.of_nat (length bs) / PGSIZE)). unfold fuel. pose proof (Z.div_pos (Z.of_nat (length bs)) PGSIZE). unfold PGSIZE in *. lia. }
  cbn [copyout_loop]. destruct (Z.ltb_spec 0 (Z.of_nat (length bs))); [|lia]. rewrite Eva.
  assert (onmach (uva2ka pgdir (sz - PGSIZE)) (x_vm s) = Ok ka (x_vm s)) as Eu.
  { unfold onmach, zoom. rewrite (uva2ka_run end_ end_high _ _ _ v Hwf Hsu Hv), Hp, Hu. cbn [andb]. rewrite Hka. by destruct (x_vm s). }
  rewrite (Ok_bind _ _ _ _ _ Eu). destruct (Z.eqb_spec ka 0); [unfold KERNBASE in *; lia|].
  assert (Z.min (PGSIZE - (va - (sz - PGSIZE))) (Z.of_nat (length bs)) = Z.of_nat (length bs)) as -> by lia.
  rewrite Nat2Z.id, firstn_all, (u32_small (ka + (va - (sz - PGSIZE)))) by (unfold PGSIZE, KERNBASE in *; ulia).
  erewrite Ok_bind by reflexivity. destruct (Z.ltb_spec 0 (Z.of_nat (length bs) - Z.of_nat (length bs))); [lia|]. done.
Qed.

Lemma copyout_guard s pgdir sz ka va bs : stack_ok (xmem s) pgdir sz ka -> sz - 2 * PGSIZE <= va < sz - PGSIZE -> bs <> [] ->
  onvm (copyout pgdir va bs) s = Ok (-1) s.
Proof.
  intros [Hwf _ [Hal Hsz] _ _ _ (g & Hg & HgU)] Hva Hne.
  assert (0 < Z.of_nat (length bs)) as Hlen by (destruct bs; [done|cbn; lia]).
  assert (is_u32 va /\ is_u32 (sz - 2 * PGSIZE)) as [Hvu Hsu] by (unfold PGSIZE, KERNBASE in *; ulia).
  assert (PGROUNDDOWN va = sz - 2 * PGSIZE) as Eva by (rewrite PGROUNDDOWN_spec by done; unfold aligned, PGSIZE, KERNBASE in *; ulia).
  unfold onvm, zoom, copyout. set (fuel := Z.to_nat (Z.of_nat (length bs) / PGSIZE + 2)).
  assert (exists fuel', fuel = S fuel') as [fuel' ->].
  { exists (Z.to_nat (Z.of_nat (length bs) / PGSIZE + 1)). unfold fuel. pose proof (Z.div_pos (Z.of_nat (length bs)) PGSIZE). unfold PGSIZE in *. lia. }
  cbn [copyout_loop]. destruct (Z.ltb_spec 0 (Z.of_nat (length bs))); [|lia]. rewrite Eva.
  assert (onmach (uva2ka pgdir (sz - 2 * PGSIZE)) (x_vm s) = Ok 0 (x_vm s)) as Eu.
  { unfold onmach, zoom. rewrite (uva2ka_run end_ end_high _ _ _ g Hwf Hsu Hg), HgU, andb_false_r. by destruct (x_vm s). }
  rewrite (Ok_bind _ _ _ _ _ Eu), Z.eqb_refl. unfold mret, M_ret. f_equal. by destruct s.
Qed.

Definition byte_string (bs : list Z) : Prop := Forall (fun b => 0 <= b < 256) bs.

(** A copy onto the stack, as the process sees it. *)
Lemma copyout_run s pgdir sz ka va bs : stack_ok (xmem s) pgdir sz ka -> byte_string bs -> sz - PGSIZE <= va -> bs <> [] ->
  va + Z.of_nat (length bs) <= sz ->
  exists m', onvm (copyout pgdir va bs) s = Ok 0 (with_mem m' s) /\ stack_ok m' pgdir sz ka /\
    forall x, sz - PGSIZE <= x < sz -> user_mem m' pgdir x =
      if (va <=? x) && (x <? va + Z.of_nat (length bs)) then nth (Z.to_nat (x - va)) bs 0 else user_mem (xmem s) pgdir x.
Proof.
  intros K Hb Hlo Hne Hhi. eexists. split; [by apply copyout_stack|]. pose proof (sk_ka _ _ _ _ K) as (Hal & Hlo' & Hhi').
  set (a := ka + (va - (sz - PGSIZE))).
  destruct (kwrite_bytes_spec bs (xmem s) a (sk_words _ _ _ _ K) Hb) as (W1 & W2 & W3); [unfold a, KERNBASE in *; lia|unfold a, PGSIZE in *; lia|].
  assert (stack_ok (kwrite_bytes (xmem s) a bs) pgdir sz ka) as K'.
  { apply (stack_ok_write (xmem s)); [done|done|]. intros fn Hfn. apply W3. intros x Hx <-. apply Hfn. symmetry.
    replace x with (u32 (ka + (x - ka))) by (rewrite u32_small by (unfold a, PGSIZE, KERNBASE in *; ulia); lia).
    destruct (kframe_offset ka (x - ka)) as [-> _]; [unfold PGSIZE, KERNBASE in *; ulia|done|unfold a, PGSIZE in *; lia|done]. }
  split; [done|]. intros x Hx. rewrite (user_mem_stack _ _ _ _ _ K' Hx), (user_mem_stack _ _ _ _ _ K Hx).
  rewrite W2 by (unfold PGSIZE, KERNBASE in *; ulia). unfold a.
  replace (ka + (x - (sz - PGSIZE)) - (ka + (va - (sz - PGSIZE)))) with (x - va) by lia.
  destruct (Z.leb_spec (ka + (va - (sz - PGSIZE))) (ka + (x - (sz - PGSIZE)))), (Z.leb_spec va x),
    (Z.ltb_spec (ka + (x - (sz - PGSIZE))) (ka + (va - (sz - PGSIZE)) + Z.of_nat (length bs))), (Z.ltb_spec x (va + Z.of_nat (length bs))); try done; lia.
Qed.

(** The bytes [bs] at [p]. *)
Definition bytes_at (u : Z -> Z) (p : Z) (bs : list Z) : Prop := forall k, (k < length bs)%nat -> u (p + Z.of_nat k) = nth k bs 0.

Lemma string_bytes arg : string_ok arg -> byte_string (arg ++ [0]).
Proof. intros [Ha _]. apply Forall_app. split; [|by repeat constructor]. eapply Forall_impl; [done|]. cbn. lia. Qed.

(** Pushing the strings: they are on the stack at the pointers returned, below
    what was there before; or the guard page stops them. *)
Lemma push_args_run argv pgdir sz ka : forall s sp argc ptrs, stack_ok (xmem s) pgdir sz ka -> Forall string_ok argv ->
  argc + Z.of_nat (length argv) <= MAXARG -> sz - PGSIZE <= sp <= sz ->
  if decide (sz - PGSIZE <= pushed sp argv) then
    exists m' new, push_args pgdir argc argv sp ptrs s = Ok (pushed sp argv, ptrs ++ new) (with_mem m' s) /\ stack_ok m' pgdir sz ka /\
      (forall x, sp <= x < sz -> user_mem m' pgdir x = user_mem (xmem s) pgdir x) /\ length new = length argv /\
      forall i arg p, argv !! i = Some arg -> new !! i = Some p ->
        pushed sp argv <= p /\ p + Z.of_nat (length arg) < sz /\ bytes_at (user_mem m' pgdir) p (arg ++ [0])
  else push_args pgdir argc argv sp ptrs s = Panic "EXEC FAILED!\n".
Proof.
  induction argv as [|arg argv IH]; intros s sp argc ptrs K Hargs Hc Hsp; cbn [pushed foldl push_args].
  { rewrite decide_True by lia. exists (xmem s), []. rewrite with_mem_id, app_nil_r. done. }
  apply Forall_cons in Hargs as [Harg Hargs]. cbn [length] in Hc. destruct (Z.leb_spec MAXARG argc); [lia|].
  pose proof (sk_sz _ _ _ _ K) as [Hal Hsz]. pose proof Harg as [_ Hlen]. destruct (push_at_bounds sp arg) as (B1 & B2 & B3).
  rewrite push_sp_at by (unfold PGSIZE, KERNBASE in *; done || lia). fold (pushed (push_at sp arg) argv).
  pose proof (pushed_le argv (push_at sp arg)) as Hle. assert (length (arg ++ [0]) = S (length arg)) as El by (rewrite length_app; cbn; lia).
  destruct (decide (sz - PGSIZE <= push_at sp arg)) as [Hfit|Hfit].
  - destruct (copyout_run s pgdir sz ka (push_at sp arg) (arg ++ [0]) K (string_bytes arg Harg) Hfit) as (m1 & E1 & K1 & U1);
      [by destruct arg|rewrite El; lia|]. rewrite (Ok_bind _ _ _ _ _ E1). cbn [Z.ltb Z.compare].
    specialize (IH (with_mem m1 s) (push_at sp arg) (argc + 1) (ptrs ++ [push_at sp arg]) K1 Hargs ltac:(lia) ltac:(lia)).
    destruct (decide (sz - PGSIZE <= pushed (push_at sp arg) argv)); [|done]. destruct IH as (m' & new & E & K' & U & Hln & Hnew).
    exists m', (push_at sp arg :: new). rewrite E, with_mem_with, <- app_assoc. split; [done|]. split; [done|]. split; [|split].
    + intros x Hx. rewrite U, with_mem_mem, U1 by lia. rewrite El. destruct (Z.ltb_spec x (push_at sp arg + Z.of_nat (S (length arg)))); [lia|].
      by rewrite andb_false_r.
    + cbn. lia.
    + intros [|i] arg' p Ha Hp; cbn in Ha, Hp; [|by apply (Hnew i)]. injection Ha as <-. injection Hp as <-.
      split; [done|]. split; [lia|]. intros k Hk. rewrite El in Hk. rewrite U, with_mem_mem, U1 by lia. rewrite El.
      destruct (Z.leb_spec (push_at sp arg) (push_at sp arg + Z.of_nat k)), (Z.ltb_spec (push_at sp arg + Z.of_nat k) (push_at sp arg + Z.of_nat (S (length arg))));
        try lia. cbn [andb]. f_equal. lia.
  - rewrite decide_False by lia. rewrite (Ok_bind _ _ _ _ _ (copyout_guard s pgdir sz ka (push_at sp arg) (arg ++ [0]) K
      ltac:(unfold aligned, PGSIZE in *; Z.div_mod_to_equations; lia) ltac:(by destruct arg))). done.
Qed.

(** ** The frame of main *)

Lemma word_le_length ws : length (concat (word_le <$> ws)) = (4 * length ws)%nat.
Proof. induction ws as [|w ws IH]; [done|]. cbn [fmap list_fmap concat]. rewrite length_app, IH. cbn. lia. Qed.

Lemma word_le_bytes ws : byte_string (concat (word_le <$> ws)).
Proof.
  induction ws as [|w ws IH]; [constructor|]. cbn [fmap list_fmap concat]. apply Forall_app. split; [|done].
  repeat constructor; apply Z.mod_pos_bound; lia.
Qed.

(** Words written byte by byte read back. *)
Lemma words_read u p ws : bytes_at u p (concat (word_le <$> ws)) -> forall i w, ws !! i = Some w -> is_u32 w -> word_at u (p + 4 * Z.of_nat i) = w.
Proof.
  revert p. induction ws as [|w0 ws IH]; intros p Hb i w Hi Hw; [done|]. cbn [fmap list_fmap concat] in Hb.
  destruct i as [|i]; cbn in Hi.
  - injection Hi as ->. unfold word_at. rewrite Z.add_0_r.
    pose proof (Hb 0%nat ltac:(cbn; lia)) as H0. pose proof (Hb 1%nat ltac:(cbn; lia)) as H1. pose proof (Hb 2%nat ltac:(cbn; lia)) as H2.
    pose proof (Hb 3%nat ltac:(cbn; lia)) as H3. cbn [nth app word_le] in H0, H1, H2, H3. rewrite Z.add_0_r in H0.
    change (Z.of_nat 1) with 1 in H1. change (Z.of_nat 2) with 2 in H2. change (Z.of_nat 3) with 3 in H3. rewrite H0, H1, H2, H3. ulia.
  - replace (p + 4 * Z.of_nat (S i)) with (p + 4 + 4 * Z.of_nat i) by lia. apply (IH (p + 4)); [|done|done].
    intros k Hk. specialize (Hb (4 + k)%nat). rewrite length_app in Hb. specialize (Hb ltac:(cbn; lia)).
    replace (p + 4 + Z.of_nat k) with (p + Z.of_nat (4 + k)) by lia. by rewrite Hb.
Qed.

Lemma scan_bytes u p arg : Forall (fun c => 0 < c < 256) arg -> bytes_at u p (arg ++ [0]) -> scan_string (S (length arg)) u p = Some arg.
Proof.
  revert p. induction arg as [|c arg IH]; intros p Ha Hb.
  - pose proof (Hb 0%nat ltac:(cbn; lia)) as H0. rewrite Z.add_0_r in H0. cbn in H0. cbn [scan_string length]. by rewrite H0.
  - apply Forall_cons in Ha as [Hc Ha]. pose proof (Hb 0%nat ltac:(cbn; lia)) as H0. rewrite Z.add_0_r in H0. cbn [nth app] in H0.
    change (scan_string (S (length (c :: arg))) u p) with (if u p =? 0 then Some [] else (fun l => u p :: l) <$> scan_string (S (length arg)) u (p + 1)).
    rewrite H0. destruct (Z.eqb_spec c 0); [lia|]. rewrite IH; [done|done|].
    intros k Hk. specialize (Hb (S k) ltac:(cbn; lia)). replace (p + 1 + Z.of_nat k) with (p + Z.of_nat (S k)) by lia. by rewrite Hb.
Qed.

Lemma push_frame_run argv pgdir sz ka s : stack_ok (xmem s) pgdir sz ka -> Forall string_ok argv -> Z.of_nat (length argv) <= MAXARG ->
  let sp := main_sp sz argv in
  if decide (sz - PGSIZE <= sp) then
    exists m' ptrs, push_frame pgdir argv sz s = Ok sp (with_mem m' s) /\ length ptrs = length argv /\
      bytes_at (user_mem m' pgdir) sp (concat (word_le <$> ustack (Z.of_nat (length argv)) (pushed sz argv) ptrs)) /\
      forall i arg p, argv !! i = Some arg -> ptrs !! i = Some p -> is_u32 p /\ bytes_at (user_mem m' pgdir) p (arg ++ [0])
  else push_frame pgdir argv sz s = Panic "EXEC FAILED!\n".
Proof.
  intros K Hargs Hn sp. pose proof (sk_sz _ _ _ _ K) as [Hal Hsz]. pose proof (pushed_le argv sz) as Hle. unfold MAXARG in Hn.
  pose proof (push_args_run argv pgdir sz ka s sz 0 [] K Hargs ltac:(unfold MAXARG; lia) ltac:(unfold PGSIZE; lia)) as Hrun.
  unfold push_frame. destruct (decide (sz - PGSIZE <= pushed sz argv)) as [Hfit|Hfit].
  2: { unfold sp, main_sp. rewrite decide_False by lia. unfold mbind, M_bind, bindM. by rewrite Hrun. }
  destruct Hrun as (m1 & ptrs & E & K1 & _ & Hl & Hp). rewrite (Ok_bind _ _ _ _ _ E). cbn [app].
  replace (u32 (pushed sz argv - (3 + Z.of_nat (length argv) + 1) * 4)) with sp by (unfold sp, main_sp, PGSIZE, KERNBASE in *; rewrite u32_small; ulia).
  set (ws := ustack (Z.of_nat (length argv)) (pushed sz argv) ptrs). assert (length ws = 4 + length argv)%nat as Hws
    by (unfold ws, ustack; cbn; rewrite length_app; cbn; lia).
  assert (concat (word_le <$> ws) <> []) as Hne by (unfold ws, ustack; cbn; done). pose proof (word_le_length ws) as Hwl.
  assert (sp + Z.of_nat (length (concat (word_le <$> ws))) = pushed sz argv) as Hend by (rewrite Hwl, Hws; unfold sp, main_sp; lia).
  destruct (decide (sz - PGSIZE <= sp)) as [Hfit'|Hfit'].
  - destruct (copyout_run (with_mem m1 s) pgdir sz ka sp _ K1 (word_le_bytes ws) Hfit' Hne) as (m2 & E2 & K2 & U2); [lia|].
    rewrite (Ok_bind _ _ _ _ _ E2). cbn [Z.ltb Z.compare]. rewrite with_mem_with. exists m2, ptrs. split; [done|]. split; [done|]. split.
    + fold ws. intros k Hk. rewrite U2 by lia. destruct (Z.leb_spec sp (sp + Z.of_nat k)), (Z.ltb_spec (sp + Z.of_nat k) (sp + Z.of_nat (length (concat (word_le <$> ws))))); try lia.
      cbn [andb]. f_equal. lia.
    + intros i arg p Ha Hpi. destruct (Hp i arg p Ha Hpi) as (P1 & P2 & P3). split; [unfold PGSIZE, KERNBASE in *; ulia|].
      intros k Hk. rewrite length_app in Hk. cbn in Hk. rewrite U2 by lia. rewrite Hend.
      destruct (Z.ltb_spec (p + Z.of_nat k) (pushed sz argv)); [lia|]. rewrite andb_false_r. apply P3. rewrite length_app. cbn. lia.
  - rewrite (Ok_bind _ _ _ _ _ (copyout_guard (with_mem m1 s) pgdir sz ka sp _ K1 ltac:(unfold sp, main_sp, PGSIZE in *; lia) Hne)). done.
Qed.

(** After [clearpteu] on the page below it, the last page of an image is a
    stack with a guard. *)
Lemma guard_makes_stack (k : mach) l pgdir sz v g : as_inv end_ k l pgdir nobody -> aligned sz -> 2 * PGSIZE <= sz < KERNBASE ->
  pte_at (m_mem k) pgdir (sz - PGSIZE) = Some v -> has v PTE_P = true -> has v PTE_U = true ->
  pte_at (m_mem k) pgdir (sz - 2 * PGSIZE) = Some g ->
  exists k' : mach, clearpteu pgdir (sz - 2 * PGSIZE) k = Ok () k' /\ stack_ok (m_mem k') pgdir sz (P2V (PTE_ADDR v)) /\
    set_mem (m_mem k') k = k'.
Proof.
  intros Has Hal Hsz Hv Hp Hu Hg. pose proof (as_wf _ _ _ _ _ Has) as Hwf. pose proof (as_word _ _ _ _ _ _ _ Has Hg) as Hgw.
  assert (upage (sz - PGSIZE) /\ upage (sz - 2 * PGSIZE)) as [Hu1 Hu2] by (unfold upage, aligned, PGSIZE, KERNBASE in *; ulia).
  exists (pte_set k pgdir (sz - 2 * PGSIZE) (clear_bits g PTE_U)). split; [apply (clearpteu_run end_); auto with core|].
  destruct (as_frames _ _ _ _ _ Has (sz - PGSIZE) (P2V (PTE_ADDR v)) Hu1) as (Hval & _ & Hnf & _); [by intros []|by exists v|].
  pose proof (pte_set_ok end_ k l pgdir (sz - 2 * PGSIZE) (clear_bits g PTE_U) (as_pd _ _ _ _ _ Has) (upage_u32 _ Hu2) (clear_bits_range _ _ Hgw)) as Hok.
  split; [|unfold pte_set; destruct (table_at _ _ _); by destruct k]. split.
  - apply Hok.
  - apply Hok.
  - done.
  - exists v. split; [|done]. rewrite (pte_set_at end_ k pgdir _ _ _ g Hwf (upage_u32 _ Hu2) (upage_u32 _ Hu1) Hg).
    rewrite decide_False; [done|]. rewrite !upage_round by done. unfold PGSIZE. lia.
  - destruct Hval as (Hvu & Hva & Hve & Hvp). unfold V2P, PHYSTOP, PGSIZE, KERNBASE, aligned in *. ulia.
  - by rewrite (pte_set_pd_frame end_ _ _ _ _ _ Hwf (upage_u32 _ Hu2)).
  - exists (clear_bits g PTE_U). split; [by apply (pte_set_at_same end_ _ _ _ _ g); auto with core|]. by apply has_clear_same.
Qed.

(** C32: [exec] passes the arguments.  On an image whose last two pages are
    mapped for the user, with at most [MAXARG] argument strings of less than
    a page each, [clearpteu] and the pushing of the arguments end in one of
    two ways.  If the strings, the array and the frame of [main] fit into the
    stack page, the stack pointer is aligned and through the new page table
    the process finds there a return address, [argc], the address of the
    array, in the array a pointer to each argument string, and a null
    pointer.  If they do not fit, the kernel panics. *)
Theorem exec_passes_arguments (s : xst F) (l : list Z) (pgdir sz v g : Z) (argv : list (list Z)) :
  as_inv end_ (v_mach (x_vm s)) l pgdir nobody -> aligned sz -> 2 * PGSIZE <= sz < KERNBASE ->
  pte_at (xmem s) pgdir (sz - PGSIZE) = Some v -> has v PTE_P = true -> has v PTE_U = true ->
  pte_at (xmem s) pgdir (sz - 2 * PGSIZE) = Some g -> Forall string_ok argv -> Z.of_nat (length argv) <= MAXARG ->
  let sp := main_sp sz argv in
  let run := (xmach (clearpteu pgdir (sz - 2 * PGSIZE));; push_frame pgdir argv sz) s in
  if decide (sz - PGSIZE <= sp) then
    exists m', run = Ok sp (with_mem m' s) /\ sp mod 4 = 0 /\
      let u := user_mem m' pgdir in
      word_at u sp = 0xffffffff /\ word_at u (sp + 4) = Z.of_nat (length argv) /\ word_at u (sp + 8) = sp + 12 /\
      (forall i arg, argv !! i = Some arg -> scan_string (S (length arg)) u (word_at u (sp + 12 + 4 * Z.of_nat i)) = Some arg) /\
      word_at u (sp + 12 + 4 * Z.of_nat (length argv)) = 0
  else run = Panic "EXEC FAILED!\n".
Proof.
  intros Has Hal Hsz Hv Hp Hu Hg Hargs Hn sp run.
  destruct (guard_makes_stack _ _ _ _ _ _ Has Hal Hsz Hv Hp Hu Hg) as (k' & Ec & K & Ek).
  assert (xmach (clearpteu pgdir (sz - 2 * PGSIZE)) s = Ok () (with_mem (m_mem k') s)) as Ex.
  { unfold xmach, onvm, zoom, onmach, zoom. rewrite Ec. unfold with_mem. by rewrite Ek. }
  pose proof (push_frame_run argv pgdir sz _ (with_mem (m_mem k') s) K Hargs Hn) as Hrun. cbv zeta in Hrun. fold sp in Hrun.
  unfold run. rewrite (Ok_bind _ _ _ _ _ Ex). destruct (decide (sz - PGSIZE <= sp)) as [Hfit|]; [|done].
  destruct Hrun as (m' & ptrs & E & Hl & Hb & Hptr). exists m'. rewrite E, with_mem_with. split; [done|].
  pose proof (pushed_aligned argv sz ltac:(unfold aligned, PGSIZE in Hal; Z.div_mod_to_equations; lia)) as Hpa.
  split; [unfold sp, main_sp; Z.div_mod_to_equations; lia|]. cbv zeta. set (u := user_mem m' pgdir) in *.
  pose proof (pushed_le argv sz) as Hple. unfold MAXARG in Hn.
  assert (u32 (pushed sz argv - (Z.of_nat (length argv) + 1) * 4) = sp + 12) as Eargv
    by (unfold sp, main_sp, PGSIZE, KERNBASE in *; rewrite u32_small; ulia).
  pose proof (words_read u sp _ Hb) as Hw. unfold ustack in Hw. rewrite Eargv in Hw.
  split; [|split; [|split; [|split]]].
  - specialize (Hw 0%nat _ eq_refl ltac:(ulia)). by rewrite Z.add_0_r in Hw.
  - exact (Hw 1%nat _ eq_refl ltac:(ulia)).
  - exact (Hw 2%nat _ eq_refl ltac:(unfold sp, main_sp, PGSIZE, KERNBASE in *; ulia)).
  - intros i arg Ha. destruct (lookup_lt_is_Some_2 ptrs i) as [p Hpi]; [rewrite Hl; by eapply lookup_lt_Some|].
    destruct (Hptr i arg p Ha Hpi) as [Hpu Hpb].
    replace (sp + 12 + 4 * Z.of_nat i) with (sp + 4 * Z.of_nat (3 + i)) by lia.
    rewrite (Hw (3 + i)%nat p); [|cbn; by apply lookup_app_l_Some|done].
    apply scan_bytes; [|done]. rewrite Forall_forall in Hargs. apply (Hargs arg). by eapply list_elem_of_lookup_2.
  - replace (sp + 12 + 4 * Z.of_nat (length argv)) with (sp + 4 * Z.of_nat (3 + length argv)) by lia.
    apply (Hw (3 + length argv)%nat 0); [|done]. change ((ptrs ++ [0]) !! length argv = Some 0). rewrite <- Hl, lookup_app_r by lia. by rewrite Nat.sub_diag.
Qed.
End args.

(** ** A failed exec *)

Section failure.
Context {F : Type} `{SwapFile F}.
Context (end_ data : Z) (pol : policy) (devsw : Z -> device).

(** [exec] reports only one error.  When it returns, it returns 0, or it
    returns -1 because [namei] found no file; every other failure - a file
    that is no executable, a segment that does not fit, arguments that are
    too long - is a panic of the kernel, not an error of the caller. *)
Theorem exec_reports_only_missing_files (cwd : nat) (path : list Z) (argv : list (list Z)) (s : xst F) (r : Z) (s' : xst F) :
  exec end_ data pol devsw cwd path argv s = Ok r s' ->
  r = 0 \/ r = -1 /\ exists s1 s2, onxfs (onlfs begin_op) s = Ok () s1 /\ onxfs (namei devsw cwd path) s1 = Ok None s2.
Proof.
  unfold exec. intros ([] & s1 & E1 & Hr)%bind_Ok. apply bind_Ok in Hr as (ip & s2 & E2 & Hr). destruct ip as [ip|].
  2: { apply bind_Ok in Hr as (? & s3 & E3 & [= <- <-]). right. eauto. }
  left. apply bind_Ok in Hr as (? & s3 & _ & Hr). apply bind_Ok in Hr as (hdr & s4 & _ & Hr).
  destruct (negb _); [done|]. destruct (negb _); [done|]. apply bind_Ok in Hr as (pgdir & s5 & _ & Hr). destruct (pgdir =? 0); [done|].
  apply bind_Ok in Hr as (sz & s6 & _ & Hr). apply bind_Ok in Hr as (? & s7 & _ & Hr). apply bind_Ok in Hr as (? & s8 & _ & Hr).
  apply bind_Ok in Hr as (sz' & s9 & _ & Hr). destruct (sz' =? 0); [done|]. apply bind_Ok in Hr as (? & s10 & _ & Hr).
  apply bind_Ok in Hr as (sp & s11 & _ & Hr). apply bind_Ok in Hr as (s12 & s13 & _ & Hr). apply bind_Ok in Hr as (? & s14 & _ & Hr).
  apply bind_Ok in Hr as (? & s15 & _ & Hr). apply bind_Ok in Hr as (? & s16 & _ & [= <- _]). done.
Qed.
End failure.

(** ** Witnesses *)

(** A process with sixteen pages in a kernel with a small file system. *)
Definition demo_exec : xst pagefile := XSt demo_full (demo_fs 0) 0x10000 1 0 0 [].

Lemma demo_exec_value :
  match exec demo_end demo_data NONE no_device 0 [120] [] demo_exec with Ok r _ => Some r | _ => None end = Some (-1).
Proof. vm_compute. reflexivity. Qed.

Lemma exec_reports_only_missing_files_witness : exists s', exec demo_end demo_data NONE no_device 0 [120] [] demo_exec = Ok (-1) s' /\
  exists s1 s2, onxfs (onlfs begin_op) demo_exec = Ok () s1 /\ onxfs (namei no_device 0 [120]) s1 = Ok None s2.
Proof.
  pose proof demo_exec_value as Hv. destruct (exec demo_end demo_data NONE no_device 0 [120] [] demo_exec) as [r s'| | | |] eqn:E; [|discriminate..].
  injection Hv as ->.
  exists s'. split; [reflexivity|]. destruct (exec_reports_only_missing_files _ _ _ _ _ _ _ _ _ _ E) as [H|[_ H]]; [lia|exact H].
Defined.

(** [ls -l] *)
Definition demo_argv : list (list Z) := [[108; 115]; [45; 108]].

Lemma demo_stack_ptes : let m := m_mem (v_mach demo_full) in let pgdir := pp_pgdir (v_p demo_full) in
  match pte_at m pgdir 0xF000, pte_at m pgdir 0xE000 with Some v, Some _ => has v PTE_P && has v PTE_U | _, _ => false end = true.
Proof. vm_compute. reflexivity. Qed.

Lemma exec_passes_arguments_witness : exists pgdir m', let u := user_mem m' pgdir in
  word_at u (main_sp 0x10000 demo_argv + 4) = 2 /\
  scan_string 3 u (word_at u (main_sp 0x10000 demo_argv + 12)) = Some [108; 115].
Proof.
  destruct demo_full_inv as [l [Has _ _]]. set (pgdir := pp_pgdir (v_p demo_full)) in *.
  pose proof demo_stack_ptes as Hb. cbv zeta in Hb. fold pgdir in Hb.
  destruct (pte_at (m_mem (v_mach demo_full)) pgdir 0xF000) as [v|] eqn:Ev; [|discriminate].
  destruct (pte_at (m_mem (v_mach demo_full)) pgdir 0xE000) as [g|] eqn:Eg; [|discriminate].
  apply andb_true_iff in Hb as [Hp Hu].
  pose proof (exec_passes_arguments demo_end demo_end_high demo_exec l pgdir 0x10000 v g demo_argv Has) as H.
  cbv zeta in H. rewrite decide_True in H by (vm_compute; discriminate). destruct H as (m' & _ & _ & _ & Hc & _ & Hs & _).
  - done.
  - unfold PGSIZE, KERNBASE. lia.
  - exact Ev.
  - exact Hp.
  - exact Hu.
  - exact Eg.
  - repeat constructor; vm_compute; lia || done.
  - vm_compute. discriminate.
  - exists pgdir, m'. split; [exact Hc|]. specialize (Hs 0%nat [108; 115] eq_refl). rewrite Z.add_0_r in Hs. exact Hs.
Defined.
