(* ===== verification/ShRun.v ===== *)
(** * Running commands ([sh.c])

    The shell as the system calls it makes: a program is the tree of its calls,
    with a branch for each answer it distinguishes.  Processes run their trees
    interleaved in any order; [fork] copies the table of descriptors, [pipe],
    [dup] and [open] take its lowest free entries, as [fdalloc] does.  What
    the shell promises is which files a command finds on its descriptors, and
    that the prompt comes back. *)

From S2P Require Import Prelude Sh.
From S2P Require Import Bytes Bio Log Fs Pipe File Syscall Sysfile.
Open Scope Z_scope.

(** ** Programs *)

(** [Exec] goes on only if the call fails; [Fork] has the child, the parent
    and the failed parent; [Hang] is a loop that was cut short. *)
Inductive prog :=
  | Exit
  | Exec (argv : list (list Z)) (k : prog)
  | Print (fd : Z) (fmt : string) (args : list (list Z)) (k : prog)
  | Close (fd : Z) (k : prog)
  | Open (path : list Z) (mode : Z) (k : Z -> prog) (err : prog)
  | Dup (fd : Z) (k : prog)
  | MkPipe (k : Z -> Z -> prog) (err : prog)
  | Fork (child parent err : prog)
  | Wait (k : prog)
  | Chdir (path : list Z) (k err : prog)
  | Hang.

Definition nl : string := String (Ascii.ascii_of_nat 10) EmptyString.

(** [panic] of the shell. *)
Definition sh_panic (s : string) : prog := Print 2 (s ++ nl) [] Exit.

Definition fork1 (child parent : prog) : prog := Fork child parent (sh_panic "fork").

(** [runcmd] does not return: every branch ends in [exit] or in [runcmd]. *)
Fixpoint runcmd (c : cmd (list Z)) : prog :=
  match c with
  | EXEC argv =>
      match argv with
      | [] => Exit
      | a :: _ => Exec argv (Print 2 ("exec %s failed" ++ nl) [a] Exit)
      end
  | REDIR c file mode fd =>
      Close fd (Open file mode (fun _ => runcmd c) (Print 2 ("open %s failed" ++ nl) [file] Exit))
  | LIST l r => fork1 (runcmd l) (Wait (runcmd r))
  | PIPE l r =>
      MkPipe (fun p0 p1 =>
        fork1 (Close 1 (Dup p1 (Close p0 (Close p1 (runcmd l)))))
          (fork1 (Close 0 (Dup p0 (Close p0 (Close p1 (runcmd r)))))
            (Close p0 (Close p1 (Wait (Wait Exit))))))
        (sh_panic "pipe")
  | BACK c => fork1 (runcmd c) Exit
  end.

(** [runcmd(parsecmd(buf))], with the strings that [nulterminate] leaves. *)
Definition run_line (line : list Z) : prog :=
  match parsecmd (4 * length line + 4) line with
  | Ok (c, buf) _ => runcmd (cmap (fun t : token => string_at line buf t.1) c)
  | Panic s => sh_panic s
  | _ => Hang
  end.

(** [while((fd = open("console", O_RDWR)) >= 0) if(fd >= 3) { close(fd); break; }] *)
Definition console : list Z := [99; 111; 110; 115; 111; 108; 101].
Definition O_RDWR : Z := 2.
Fixpoint open_console (fuel : nat) (k : prog) : prog :=
  match fuel with
  | O => Hang
  | S fuel => Open console O_RDWR (fun fd => if 3 <=? fd then Close fd k else open_console fuel k) k
  end.

(** [buf[0] == 'c' && buf[1] == 'd' && buf[2] == ' '], with [buf + 3]. *)
Definition is_cd (line : list Z) : option (list Z) :=
  match line with
  | a :: b :: c :: dir => if (a =? 99) && (b =? 100) && (c =? 32) then Some dir else None
  | _ => None
  end.

(** The lines are the strings [gets] leaves, one after the other; [getcmd] ends
    the loop at the first empty one. *)
Fixpoint sh_loop (lines : list (list Z)) : prog :=
  Print 2 "$ " []
    match lines with
    | [] | [] :: _ => Exit
    | line :: lines =>
        match is_cd line with
        | Some dir =>
            let dir := take (length dir - 1) dir in
            Chdir dir (sh_loop lines) (Print 2 ("cannot cd %s" ++ nl) [dir] (sh_loop lines))
        | None => fork1 (run_line line) (Wait (sh_loop lines))
        end
    end.

Definition sh_main (lines : list (list Z)) : prog := open_console 4 (sh_loop lines).

(** ** Descriptors *)

Section descriptors.
Context {O : Type}.
Implicit Types (t : list (option O)) (o : O).

Definition is_free (x : option O) : bool := match x with None => true | Some _ => false end.

(** [fdalloc]: the lowest free entry. *)
Definition fd_alloc o t : option (nat * list (option O)) :=
  match find_index is_free t with Some i => Some (i, <[i := Some o]> t) | None => None end.

Definition fd_get (fd : Z) t : option O := if fd <? 0 then None else mjoin (t !! Z.to_nat fd).
Definition fd_close (fd : Z) t : list (option O) := if fd <? 0 then t else <[Z.to_nat fd := None]> t.
Definition fd_dup (fd : Z) t : list (option O) :=
  match fd_get fd t with
  | Some o => match fd_alloc o t with Some (_, t') => t' | None => t end
  | None => t
  end.
Definition fd_pipe (r w : O) t : option (nat * nat * list (option O)) :=
  match fd_alloc r t with
  | Some (i, t1) => match fd_alloc w t1 with Some (j, t2) => Some (i, j, t2) | None => None end
  | None => None
  end.

Lemma fd_alloc_spec o t i t' : fd_alloc o t = Some (i, t') ->
  t !! i = Some None /\ (i < length t)%nat /\ t' = <[i := Some o]> t /\ (forall j, (j < i)%nat -> is_Some (mjoin (t !! j))).
Proof.
  unfold fd_alloc. destruct (find_index is_free t) as [n|] eqn:E; [|done]. intros [= -> <-].
  pose proof (find_index_lt _ _ _ E). apply find_index_Some in E as [([x|] & Hx & Hf) Hmin]; [done|].
  split; [done|]. split; [done|]. split; [done|]. intros j Hj.
  destruct (lookup_lt_is_Some_2 t j) as [y Hy]; [lia|]. specialize (Hmin j y Hj Hy). rewrite Hy. destruct y; [by eexists|done].
Qed.

(** An entry with only taken ones below it is the one that is allocated. *)
Lemma fd_alloc_at o t i : t !! i = Some None -> (forall j, (j < i)%nat -> is_Some (mjoin (t !! j))) -> fd_alloc o t = Some (i, <[i := Some o]> t).
Proof.
  intros Hi Hmin. unfold fd_alloc. rewrite (proj2 (find_index_Some is_free t i)); [done|]. split; [by exists None|].
  intros j y Hj Hy. destruct (Hmin j Hj) as [x Hx]. rewrite Hy in Hx. cbn in Hx. by subst.
Qed.
End descriptors.

(** ** Processes *)

(** What a descriptor refers to: a file the shell was started with, a file
    opened by a redirection, or an end of the pipe made by a process.  A
    process is named by the forks that lead to it: [n :: q] is the [n]-th
    child of [q]. *)
Inductive obj :=
  | Given (n : nat)
  | OFile (path : list Z) (mode : Z)
  | PRead (q : list nat)
  | PWrite (q : list nat).

Abbreviation table := (list (option obj)).

Inductive pstate := Running (p : prog) | Execd (argv : list (list Z)) | Zombie.
Record uproc := UProc { u_st : pstate; u_fds : table; u_forks : nat }.
Abbreviation world := (gmap (list nat) uproc).

(** The calls that concern one process.  Calls that can fail may always do
    so; a program that was executed runs until it exits. *)
Inductive lstep (q : list nat) : uproc -> uproc -> Prop :=
  | L_exit t n : lstep q (UProc (Running Exit) t n) (UProc Zombie t n)
  | L_exec argv k t n : lstep q (UProc (Running (Exec argv k)) t n) (UProc (Execd argv) t n)
  | L_exec_fail argv k t n : lstep q (UProc (Running (Exec argv k)) t n) (UProc (Running k) t n)
  | L_print fd fmt args k t n : lstep q (UProc (Running (Print fd fmt args k)) t n) (UProc (Running k) t n)
  | L_close fd k t n : lstep q (UProc (Running (Close fd k)) t n) (UProc (Running k) (fd_close fd t) n)
  | L_open path mode k err t n i t' : fd_alloc (OFile path mode) t = Some (i, t') ->
      lstep q (UProc (Running (Open path mode k err)) t n) (UProc (Running (k (Z.of_nat i))) t' n)
  | L_open_fail path mode k err t n : lstep q (UProc (Running (Open path mode k err)) t n) (UProc (Running err) t n)
  | L_dup fd k t n : lstep q (UProc (Running (Dup fd k)) t n) (UProc (Running k) (fd_dup fd t) n)
  | L_pipe k err t n i j t' : fd_pipe (PRead q) (PWrite q) t = Some (i, j, t') ->
      lstep q (UProc (Running (MkPipe k err)) t n) (UProc (Running (k (Z.of_nat i) (Z.of_nat j))) t' n)
  | L_pipe_fail k err t n : lstep q (UProc (Running (MkPipe k err)) t n) (UProc (Running err) t n)
  | L_fork_fail c k err t n : lstep q (UProc (Running (Fork c k err)) t n) (UProc (Running err) t n)
  | L_chdir path k err t n : lstep q (UProc (Running (Chdir path k err)) t n) (UProc (Running k) t n)
  | L_chdir_fail path k err t n : lstep q (UProc (Running (Chdir path k err)) t n) (UProc (Running err) t n)
  | L_done argv t n : lstep q (UProc (Execd argv) t n) (UProc Zombie t n).

(** [wait] takes a child that has exited, or returns at once when there is no
    child; otherwise it waits. *)
Inductive step (ws : world) : world -> Prop :=
  | W_local q u u' : ws !! q = Some u -> lstep q u u' -> step ws (<[q := u']> ws)
  | W_fork q c k err t n : ws !! q = Some (UProc (Running (Fork c k err)) t n) ->
      step ws (<[n :: q := UProc (Running c) t 0]> (<[q := UProc (Running k) t (S n)]> ws))
  | W_wait q k t n i t' n' : ws !! q = Some (UProc (Running (Wait k)) t n) -> ws !! (i :: q) = Some (UProc Zombie t' n') ->
      step ws (<[q := UProc (Running k) t n]> (delete (i :: q) ws))
  | W_wait_none q k t n : ws !! q = Some (UProc (Running (Wait k)) t n) -> (forall i, ws !! (i :: q) = None) ->
      step ws (<[q := UProc (Running k) t n]> ws).

(** A process can be killed at any time. *)
Inductive killed (ws : world) : world -> Prop :=
  | W_kill q p t n : ws !! q = Some (UProc (Running p) t n) -> killed ws (<[q := UProc Zombie t n]> ws).

Definition move (ws ws' : world) : Prop := step ws ws' \/ killed ws ws'.

Definition start (p : prog) (t : table) : world := {[ [] := UProc (Running p) t 0 ]}.

(** ** What the shell promises *)

(** The commands of a line, each with its process and its descriptors:
    process [q], which has forked [n] times, runs [c] with table [t]. *)
Fixpoint wiring (c : cmd (list Z)) (q : list nat) (n : nat) (t : table) : list (list nat * list (list Z) * table) :=
  match c with
  | EXEC [] => []
  | EXEC argv => [(q, argv, t)]
  | REDIR c file mode fd => wiring c q n (<[Z.to_nat fd := Some (OFile file mode)]> t)
  | LIST l r => wiring l (n :: q) 0 t ++ wiring r q (S n) t
  | PIPE l r => wiring l (n :: q) 0 (<[1%nat := Some (PWrite q)]> t) ++ wiring r (S n :: q) 0 (<[0%nat := Some (PRead q)]> t)
  | BACK c => wiring c (n :: q) 0 t
  end.

Definition wiring_line (line : list Z) (q : list nat) (t : table) : list (list nat * list (list Z) * table) :=
  match parsecmd (4 * length line + 4) line with
  | Ok (c, buf) _ => wiring (cmap (fun tok : token => string_at line buf tok.1) c) q 0 t
  | _ => []
  end.

(** A session: every line but [cd] is run by the next child of the shell. *)
Fixpoint session (lines : list (list Z)) (n : nat) (t : table) : list (list nat * list (list Z) * table) :=
  match lines with
  | [] | [] :: _ => []
  | line :: lines => if is_cd line is Some _ then session lines n t else wiring_line line [n] t ++ session lines (S n) t
  end.

(** The three standard descriptors are open. *)
Definition std (t : table) : Prop := forall j, (j < 3)%nat -> is_Some (mjoin (t !! j)).

(** ** Descriptor tables *)

Lemma std_insert t i o : std t -> std (<[i := Some o]> t).
Proof.
  intros Hs j Hj. destruct (decide (i = j)) as [->|Hne]; [|by rewrite list_lookup_insert_ne by done; apply Hs].
  destruct (Hs j Hj) as [x Hx]. destruct (t !! j) eqn:E; [|done]. rewrite list_lookup_insert_eq by (by eapply lookup_lt_Some). by eexists.
Qed.

Lemma std_lt t j : std t -> (j < 3)%nat -> (j < length t)%nat.
Proof. intros Hs Hj. destruct (Hs j Hj) as [x Hx]. destruct (t !! j) eqn:E; [by eapply lookup_lt_Some|done]. Qed.

Lemma std_open t i : std t -> t !! i = Some None -> (3 <= i)%nat.
Proof. intros Hs Hi. destruct (decide (i < 3)%nat) as [H|]; [|lia]. destruct (Hs i H) as [x Hx]. by rewrite Hi in Hx. Qed.

Lemma fd_close_nat {O} i (t : list (option O)) : fd_close (Z.of_nat i) t = <[i := None]> t.
Proof. unfold fd_close. case_cmp; [lia|]. by rewrite Nat2Z.id. Qed.

Lemma fd_get_nat {O} i (t : list (option O)) : fd_get (Z.of_nat i) t = mjoin (t !! i).
Proof. unfold fd_get. case_cmp; [lia|]. by rewrite Nat2Z.id. Qed.

(** Closing a standard descriptor and allocating one replaces it. *)
Lemma reopen t i o : std t -> (i < 3)%nat -> fd_alloc o (<[i := None]> t) = Some (i, <[i := Some o]> t).
Proof.
  intros Hs Hi. rewrite (fd_alloc_at o _ i); [by rewrite list_insert_insert_eq|by apply list_lookup_insert_eq, std_lt|].
  intros j Hj. rewrite list_lookup_insert_ne by lia. apply Hs. lia.
Qed.

Lemma insert_back {O} (t : list (option O)) i o : t !! i = Some None -> <[i := None]> (<[i := Some o]> t) = t.
Proof. intros Hi. rewrite list_insert_insert_eq. by apply list_insert_id. Qed.

(** [pipe], then the dance of a child of a pipeline: one end of the pipe
    becomes descriptor [s], and nothing else is left of the pipe. *)
Lemma pipe_child t q i j t' s : std t -> fd_pipe (PRead q) (PWrite q) t = Some (i, j, t') -> (s < 3)%nat ->
  fd_close (Z.of_nat j) (fd_close (Z.of_nat i) (fd_dup (Z.of_nat i) (fd_close (Z.of_nat s) t'))) = <[s := Some (PRead q)]> t /\
  fd_close (Z.of_nat j) (fd_close (Z.of_nat i) (fd_dup (Z.of_nat j) (fd_close (Z.of_nat s) t'))) = <[s := Some (PWrite q)]> t.
Proof.
  intros Hs Hp Hs3. unfold fd_pipe in Hp. destruct (fd_alloc _ t) as [[i0 t1]|] eqn:E1; [|done].
  destruct (fd_alloc _ t1) as [[j0 t2]|] eqn:E2; [|done]. simplify_eq.
  apply fd_alloc_spec in E1 as (Hi & Hil & -> & _). apply fd_alloc_spec in E2 as (Hj & Hjl & -> & _).
  rewrite length_insert in Hjl. assert (i <> j) as Hij by (intros ->; rewrite list_lookup_insert_eq in Hj by done; done).
  rewrite list_lookup_insert_ne in Hj by done.
  pose proof (std_open t i Hs Hi) as Hi3. pose proof (std_open t j Hs Hj) as Hj3. rewrite !fd_close_nat. unfold fd_dup. rewrite !fd_get_nat.
  rewrite !(list_lookup_insert_ne _ s) by lia. rewrite (list_lookup_insert_ne _ j i), !list_lookup_insert_eq by (done || by rewrite length_insert).
  cbn [mjoin option_join]. rewrite !reopen by (done || by apply std_insert, std_insert).
  rewrite !(list_insert_insert_ne _ i s) by lia. rewrite !(list_insert_insert_ne _ j s) by lia.
  rewrite (list_insert_insert_ne _ i j) by done. rewrite (insert_back t i), insert_back by done. done.
Qed.

(** ** The kernel's descriptors *)

(** The table of the calls above is the kernel's [ofile]. *)

Lemma onk_ofile {A} (m : M kfs A) s a s' : onk m s = Ok a s' -> p_ofile s' = p_ofile s.
Proof. unfold onk, zoom. destruct (m (p_k s)); intros [=]; by subst. Qed.

Lemma fdalloc_table f s a s' : fdalloc f s = Ok a s' ->
  match a with
  | Some fd => fd_alloc f (p_ofile s) = Some (fd, p_ofile s')
  | None => fd_alloc f (p_ofile s) = None /\ p_ofile s' = p_ofile s
  end.
Proof.
  unfold fdalloc, fd_alloc, is_free, mbind, M_bind, bindM, get. destruct (find_index _ _); intros [= <- <-]; done.
Qed.

Lemma argfd_table u fd s a s' : argint u 0 = Some fd -> length (p_ofile s) = NOFILE -> argfd u 0 s = Ok a s' ->
  s' = s /\ match a with Some (n, f) => fd = Z.of_nat n /\ p_ofile s !! n = Some (Some f) | None => fd_get fd (p_ofile s) = None end.
Proof.
  intros Hfd Hl. unfold argfd, mbind, M_bind, bindM, get, fd_get. rewrite Hfd. cbn [mbind option_bind].
  destruct (Z.ltb_spec fd 0) as [H0|H0]; cbn [orb]; [by intros [= <- <-]|].
  destruct (Z.leb_spec (Z.of_nat NOFILE) fd) as [H1|H1]; [intros [= <- <-]; by rewrite lookup_ge_None_2 by lia|].
  destruct (p_ofile s !! Z.to_nat fd) as [[f|]|] eqn:Ef; cbn; intros [= <- <-]; [|done..]. split; [done|]. split; [lia|done].
Qed.

Lemma fd_close_none {O} fd (t : list (option O)) : fd_get fd t = None -> fd_close fd t = t.
Proof.
  unfold fd_get, fd_close. destruct (fd <? 0); [done|]. destruct (t !! Z.to_nat fd) as [[|]|] eqn:E; [done| |]; intros _.
  - by apply list_insert_id.
  - apply list_insert_ge. by apply lookup_ge_None.
Qed.

Lemma sys_close_table u s r s' fd : argint u 0 = Some fd -> length (p_ofile s) = NOFILE -> sys_close u s = Ok r s' ->
  p_ofile s' = fd_close fd (p_ofile s).
Proof.
  intros Hfd Hl Hr. apply bind_Ok in Hr as (a & s1 & Ea & Hr). destruct (argfd_table _ _ _ _ _ Hfd Hl Ea) as [-> Ha].
  destruct a as [[n f]|]; [|injection Hr as <- <-; by rewrite fd_close_none].
  destruct Ha as [-> Hf]. inv_bind. injection Hr as <- <-. repeat match goal with E : onk _ _ = _ |- _ => apply onk_ofile in E end.
  match goal with E : modify _ _ = _ |- _ => injection E as <- <- end. by rewrite fd_close_nat.
Qed.

Lemma sys_dup_table u s r s' fd : argint u 0 = Some fd -> length (p_ofile s) = NOFILE -> sys_dup u s = Ok r s' ->
  p_ofile s' = fd_dup fd (p_ofile s).
Proof.
  intros Hfd Hl Hr. apply bind_Ok in Hr as (a & s1 & Ea & Hr). destruct (argfd_table _ _ _ _ _ Hfd Hl Ea) as [-> Ha]. unfold fd_dup.
  destruct a as [[n f]|]; [|injection Hr as <- <-; by rewrite Ha]. destruct Ha as [-> Hf]. rewrite fd_get_nat, Hf. cbn [mjoin option_join].
  apply bind_Ok in Hr as (b & s1 & Eb & Hr). apply fdalloc_table in Eb. destruct b as [fd'|]; [|destruct Eb as [-> Eb]; injection Hr as <- <-; exact Eb].
  rewrite Eb. inv_bind. injection Hr as <- <-. by match goal with E : onk _ _ = _ |- _ => rewrite (onk_ofile _ _ _ _ E) end.
Qed.

Lemma sys_pipe_table u s r s' : sys_pipe u s = Ok r s' ->
  match r with
  | (_, Some (i, j)) => exists rf wf, fd_pipe rf wf (p_ofile s) = Some (i, j, p_ofile s')
  | (_, None) => p_ofile s' = p_ofile s
  end.
Proof.
  unfold sys_pipe. destruct (argptr u 0 8); [|by intros [= <- <-]]. intros Hr. apply bind_Ok in Hr as (a & s1 & E1 & Hr).
  apply onk_ofile in E1. destruct a as [[rf wf]|]; [|by injection Hr as <- <-].
  apply bind_Ok in Hr as (a & s2 & E2 & Hr). apply fdalloc_table in E2. rewrite E1 in E2.
  apply bind_Ok in Hr as (b & s3 & E3 & Hr). destruct a as [fd0|].
  - apply fdalloc_table in E3. destruct b as [fd1|].
    + injection Hr as <- <-. exists rf, wf. unfold fd_pipe. by rewrite E2, E3.
    + inv_bind. injection Hr as <- <-. repeat match goal with E : onk _ _ = _ |- _ => apply onk_ofile in E end.
      match goal with E : modify _ _ = _ |- _ => injection E as <- <- end. destruct E3 as [_ E3]. apply fd_alloc_spec in E2 as (Hi & _ & E2 & _).
      cbn in *. rewrite E3, E2 in *. rewrite insert_back in * by done. congruence.
  - injection E3 as <- <-. inv_bind. injection Hr as <- <-. repeat match goal with E : onk _ _ = _ |- _ => apply onk_ofile in E end.
    match goal with E : mret _ _ = _ |- _ => injection E as <- <- end. destruct E2. congruence.
Qed.

(** ** Commands find their files *)

(** [p], run by [q] with table [t], never hangs and executes only what [W]
    allows: the weakest precondition of that, call by call. *)
Section wired.
Context (W : list nat -> list (list Z) -> table -> Prop).

Fixpoint ok (p : prog) (q : list nat) (n : nat) (t : table) : Prop :=
  match p with
  | Exit => True
  | Exec argv k => W q argv t /\ ok k q n t
  | Print _ _ _ k | Wait k => ok k q n t
  | Close fd k => ok k q n (fd_close fd t)
  | Open path mode k err =>
      (forall i t', fd_alloc (OFile path mode) t = Some (i, t') -> ok (k (Z.of_nat i)) q n t') /\ ok err q n t
  | Dup fd k => ok k q n (fd_dup fd t)
  | MkPipe k err =>
      (forall i j t', fd_pipe (PRead q) (PWrite q) t = Some (i, j, t') -> ok (k (Z.of_nat i) (Z.of_nat j)) q n t') /\ ok err q n t
  | Fork c k err => ok c (n :: q) 0 t /\ ok k q (S n) t /\ ok err q n t
  | Chdir _ k err => ok k q n t /\ ok err q n t
  | Hang => False
  end.

Definition proc_ok (q : list nat) (u : uproc) : Prop :=
  match u_st u with
  | Running p => ok p q (u_forks u) (u_fds u)
  | Execd argv => W q argv (u_fds u)
  | Zombie => True
  end.

Lemma lstep_ok q u u' : proc_ok q u -> lstep q u u' -> proc_ok q u'.
Proof. intros Hu Hl. destruct Hl; cbn in *; try tauto; by apply Hu. Qed.

Lemma move_ok ws ws' : map_Forall proc_ok ws -> move ws ws' -> map_Forall proc_ok ws'.
Proof.
  intros Hw [Hs|[q p t n Hq]]; [|by apply map_Forall_insert_2]. destruct Hs as [q u u' Hq Hl|q c k err t n Hq|q k t n i t' n' Hq Hi|q k t n Hq _]; pose proof (Hw _ _ Hq) as Hok.
  - apply map_Forall_insert_2; [|done]. by eapply lstep_ok.
  - destruct Hok as (Hc & Hk & _). by repeat apply map_Forall_insert_2.
  - apply map_Forall_insert_2; [done|]. by apply map_Forall_delete.
  - by apply map_Forall_insert_2.
Qed.

Lemma moves_ok p t ws : ok p [] 0 t -> rtc move (start p t) ws -> map_Forall proc_ok ws.
Proof.
  intros Hp Hs. assert (map_Forall proc_ok (start p t)) as H0 by (by apply map_Forall_singleton).
  revert H0. induction Hs as [|ws1 ws2 ws3 H12 _ IH]; [done|]. intros H1. apply IH. by eapply move_ok.
Qed.

(** Redirections are of the first two descriptors. *)
Fixpoint redirs_std (c : cmd (list Z)) : Prop :=
  match c with
  | EXEC _ => True
  | REDIR c _ _ fd => redirs_std c /\ (fd = 0 \/ fd = 1)
  | PIPE l r | LIST l r => redirs_std l /\ redirs_std r
  | BACK c => redirs_std c
  end.

Definition allowed (l : list (list nat * list (list Z) * table)) : Prop := Forall (fun x => W x.1.1 x.1.2 x.2) l.

Lemma runcmd_ok c q n t : redirs_std c -> std t -> allowed (wiring c q n t) -> ok (runcmd c) q n t.
Proof.
  revert q n t. induction c as [argv|c IH file mode fd|l IHl r IHr|l IHl r IHr|c IH]; intros q n t Hr Hs; unfold allowed in *; cbn [wiring runcmd].
  - destruct argv as [|a argv]; [done|]. intros HW. cbn. split; [|done]. exact (Forall_inv HW).
  - destruct Hr as [Hr Hfd]. intros HW. cbn [ok]. split; [|done]. intros i t' Ha.
    replace fd with (Z.of_nat (Z.to_nat fd)) in Ha by lia. rewrite fd_close_nat, (reopen t) in Ha; [|done|lia]. simplify_eq.
    apply IH; [done|by apply std_insert|done].
  - rewrite Forall_app. intros [Hl' Hr']. destruct Hr as [Hrl Hrr]. cbn [ok fork1 sh_panic]. split; [|done]. intros i j t' Hp.
    split; [|split; [split; [|done]|done]]; cbn [ok].
    + change 1 with (Z.of_nat 1). rewrite (proj2 (pipe_child t q i j t' 1 Hs Hp ltac:(lia))). apply IHl; [done|by apply std_insert|done].
    + change 0 with (Z.of_nat 0). rewrite (proj1 (pipe_child t q i j t' 0 Hs Hp ltac:(lia))). apply IHr; [done|by apply std_insert|done].
  - rewrite Forall_app. intros [Hl' Hr']. destruct Hr as [Hrl Hrr]. cbn. auto.
  - intros HW. cbn. auto.
Qed.

Lemma wf_redirs line (f : token -> list Z) c : wf line c -> redirs_std (cmap f c).
Proof. induction c as [argv|c IH file mode fd|l IHl r IHr|l IHl r IHr|c IH]; cbn; tauto. Qed.

Lemma run_line_ok line q t : std t -> allowed (wiring_line line q t) -> ok (run_line line) q 0 t.
Proof.
  unfold run_line, wiring_line, parsecmd, mbind, M_bind, bindM. pose proof (parse_safe line (4 * length line + 4) (le_n _)) as Hp. unfold safe in Hp.
  destruct (parse _ line) as [c rest| | | |]; [|done..]. destruct Hp as [Hc _]. cbn. intros Hs HW. apply runcmd_ok; [by eapply wf_redirs|done|done].
Qed.

Lemma sh_loop_ok lines n t : std t -> allowed (session lines n t) -> ok (sh_loop lines) [] n t.
Proof.
  intros Hs. revert n. induction lines as [|line lines IH]; intros n HW; [done|]. cbn [sh_loop session ok] in *.
  destruct line as [|c line]; [done|]. destruct (is_cd (c :: line)) as [dir|]; cbn [ok fork1]; [split; by apply IH|].
  apply Forall_app in HW as [H1 H2]. split; [by apply run_line_ok|]. split; [by apply IH|done].
Qed.

(** With the standard descriptors open the first [open] gets another one, and
    the loop ends. *)
Lemma open_console_ok fuel k n t : std t -> ok k [] n t -> ok (open_console (S fuel) k) [] n t.
Proof.
  intros Hs Hk. cbn [open_console ok]. split; [|done]. intros i t' Ha. apply fd_alloc_spec in Ha as (Hi & Hil & -> & _).
  pose proof (std_open t i Hs Hi). rewrite (proj2 (Z.leb_le 3 (Z.of_nat i))) by lia. cbn [ok]. by rewrite fd_close_nat, insert_back.
Qed.
End wired.

(** A command's table is the shell's but for the first two entries. *)
Lemma wiring_rest c q n t x : redirs_std c -> x ∈ wiring c q n t -> drop 2 x.2 = drop 2 t.
Proof.
  revert q n t. induction c as [argv|c IH file mode fd|l IHl r IHr|l IHl r IHr|c IH]; intros q n t Hr; cbn [wiring].
  - destruct argv; [by rewrite elem_of_nil|]. by intros ->%list_elem_of_singleton.
  - destruct Hr as [Hr Hfd]. intros Hx. rewrite (IH _ _ _ Hr Hx). apply drop_insert_lt. lia.
  - destruct Hr as [Hrl Hrr]. intros [Hx|Hx]%elem_of_app; [rewrite (IHl _ _ _ Hrl Hx)|rewrite (IHr _ _ _ Hrr Hx)]; apply drop_insert_lt; lia.
  - destruct Hr as [Hrl Hrr]. intros [Hx|Hx]%elem_of_app; eauto.
  - eauto.
Qed.

Lemma session_rest lines n t x : x ∈ session lines n t -> drop 2 x.2 = drop 2 t.
Proof.
  revert n. induction lines as [|line lines IH]; intros n; cbn [session]; [by rewrite elem_of_nil|].
  destruct line as [|c line]; [by rewrite elem_of_nil|]. destruct (is_cd _); [by apply IH|]. rewrite elem_of_app. intros [Hx|Hx]; [|by eapply IH].
  unfold wiring_line, parsecmd, mbind, M_bind, bindM in Hx. pose proof (parse_safe (c :: line) (4 * length (c :: line) + 4) (le_n _)) as Hp.
  unfold safe in Hp. destruct (parse _ _) as [c' rest| | | |]; try by rewrite elem_of_nil in Hx. destruct Hp as [Hc _].
  eapply wiring_rest; [|exact Hx]. by eapply wf_redirs.
Qed.

(** ** The shell comes to an end *)

Fixpoint maxf (f : Z -> nat) (n : nat) : nat :=
  match n with O => O | S n => Nat.max (f (Z.of_nat n)) (maxf f n) end.

Lemma maxf_le f n i : (i < n)%nat -> (f (Z.of_nat i) <= maxf f n)%nat.
Proof. induction n as [|n IH]; cbn; [lia|]. intros Hi. destruct (decide (i = n)) as [->|]; [lia|]. specialize (IH ltac:(lia)). lia. Qed.

#[local] Arguments maxf : simpl never.

(** How many calls a program and its children can still make. *)
Fixpoint rank (p : prog) : nat :=
  match p with
  | Exit | Hang => 1
  | Exec _ k | Print _ _ _ k | Close _ k | Dup _ k | Wait k => S (rank k)
  | Open _ _ k err => S (Nat.max (rank err) (maxf (fun i => rank (k i)) NOFILE))
  | MkPipe k err => S (Nat.max (rank err) (maxf (fun i => maxf (fun j => rank (k i j)) NOFILE) NOFILE))
  | Fork c k err => S (rank c + Nat.max (rank k) (rank err))
  | Chdir _ k err => S (Nat.max (rank k) (rank err))
  end.

Definition weight (u : uproc) : nat := match u_st u with Running p => rank p | Execd _ => 1 | Zombie => 0 end.
Definition total (ws : world) : nat := map_fold (fun _ u a => (weight u + a)%nat) 0%nat ws.

Lemma rank_pos p : (1 <= rank p)%nat.
Proof. destruct p; cbn; lia. Qed.

Lemma total_delete ws q u : ws !! q = Some u -> total ws = (weight u + total (delete q ws))%nat.
Proof. intros Hq. exact (map_fold_delete_L (fun _ u a => (weight u + a)%nat) 0%nat q u ws ltac:(intros; cbn beta; lia) Hq). Qed.

Lemma total_insert ws q u : total (<[q := u]> ws) = (weight u + total (delete q ws))%nat.
Proof. rewrite (total_delete (<[q := u]> ws) q u), delete_insert_eq; [done|]. apply lookup_insert_eq. Qed.

Lemma total_start p t : total (start p t) = rank p.
Proof. unfold start. rewrite <- insert_empty, total_insert, delete_empty. unfold total. rewrite map_fold_empty. apply Nat.add_0_r. Qed.

Definition full (u : uproc) : Prop := length (u_fds u) = NOFILE.

Lemma fd_alloc_full o (t : table) i t' : fd_alloc o t = Some (i, t') -> length t' = length t /\ (i < length t)%nat.
Proof. intros (_ & Hi & -> & _)%fd_alloc_spec. by rewrite length_insert. Qed.

Lemma fd_pipe_full r w (t : table) i j t' : fd_pipe r w t = Some (i, j, t') -> length t' = length t /\ (i < length t)%nat /\ (j < length t)%nat.
Proof.
  unfold fd_pipe. destruct (fd_alloc r t) as [[i0 t1]|] eqn:E1; [|done]. destruct (fd_alloc w t1) as [[j0 t2]|] eqn:E2; [|done].
  intros [= <- <- <-]. apply fd_alloc_full in E1 as [H1 ?]. apply fd_alloc_full in E2 as [? ?]. rewrite H1 in *. done.
Qed.

Lemma lstep_weight q u u' : full u -> lstep q u u' -> (weight u' < weight u)%nat /\ full u'.
Proof.
  unfold full. intros Hf Hl. destruct Hl; cbn in *; try (split; [lia|done]); try (pose proof (rank_pos k); split; [lia|done]).
  - split; [lia|]. unfold fd_close. destruct (fd <? 0); [done|]. by rewrite length_insert.
  - destruct (fd_alloc_full _ _ _ _ ltac:(eassumption)) as [? ?]. split; [|lia].
    pose proof (maxf_le (fun i => rank (k i)) NOFILE i ltac:(lia)). cbn beta in *. lia.
  - split; [lia|]. unfold fd_dup. destruct (fd_get fd t) as [o|]; [|done]. destruct (fd_alloc o t) as [[i t']|] eqn:E; [|done].
    apply fd_alloc_full in E. lia.
  - destruct (fd_pipe_full _ _ _ _ _ _ ltac:(eassumption)) as (? & ? & ?). split; [|lia].
    pose proof (maxf_le (fun i => maxf (fun j => rank (k i j)) NOFILE) NOFILE i ltac:(lia)).
    pose proof (maxf_le (fun j => rank (k (Z.of_nat i) j)) NOFILE j ltac:(lia)). cbn beta in *. lia.
Qed.

Lemma total_delete_le ws q : (total (delete q ws) <= total ws)%nat.
Proof. destruct (ws !! q) as [u|] eqn:Hq; [rewrite (total_delete ws q u Hq); lia|]. by rewrite delete_id. Qed.

Lemma child_ne (i : nat) (q : list nat) : i :: q <> q.
Proof. intros E. apply (f_equal length) in E. cbn in E. lia. Qed.

Lemma move_total ws ws' : map_Forall (fun _ => full) ws -> move ws ws' -> (total ws' < total ws)%nat /\ map_Forall (fun _ => full) ws'.
Proof.
  intros Hf [Hs|[q p t n Hq]].
  - destruct Hs as [q u u' Hq Hl|q c k err t n Hq|q k t n i t' n' Hq Hi|q k t n Hq _];
      pose proof (Hf _ _ Hq) as Hu; pose proof (total_delete _ _ _ Hq) as Ht; cbn in *.
    + destruct (lstep_weight _ _ _ Hu Hl). rewrite total_insert. split; [lia|]. by apply map_Forall_insert_2.
    + split; [|by repeat apply map_Forall_insert_2]. rewrite total_insert, delete_insert_ne, total_insert, delete_delete by apply child_ne.
      pose proof (total_delete_le (delete q ws) (n :: q)). cbn. lia.
    + split; [|apply map_Forall_insert_2; [done|by apply map_Forall_delete]]. rewrite total_insert, delete_delete.
      pose proof (total_delete_le (delete q ws) (i :: q)). cbn. lia.
    + rewrite total_insert. cbn. split; [lia|]. by apply map_Forall_insert_2.
  - pose proof (Hf _ _ Hq) as Hu. pose proof (total_delete _ _ _ Hq) as Ht. pose proof (rank_pos p). cbn in *.
    rewrite total_insert. cbn. split; [lia|]. by apply map_Forall_insert_2.
Qed.

Lemma moves_total ws ws' k : map_Forall (fun _ => full) ws -> nsteps move k ws ws' -> (k + total ws' <= total ws)%nat.
Proof.
  intros Hf Hs. induction Hs as [ws|k ws1 ws2 ws3 H12 _ IH]; [lia|]. destruct (move_total _ _ Hf H12) as [? Hf2]. specialize (IH Hf2). lia.
Qed.

(** No process waits for ever: the one that waits has a child, and the child
    can go on, unless it waits for one of its own. *)
Definition is_child (q q' : list nat) : bool := match q' with _ :: q2 => bool_decide (q2 = q) | [] => false end.

Lemma lstep_progress W q u : proc_ok W q u -> u_st u <> Zombie ->
  (exists u', lstep q u u') \/ (exists c k err, u_st u = Running (Fork c k err)) \/ (exists k, u_st u = Running (Wait k)).
Proof.
  destruct u as [[p|argv|] t n]; cbn; intros Hok Hz; [|left; eexists; constructor|done].
  destruct p; first [done|by right; left; do 3 eexists|by right; right; eexists|left; eexists; solve [constructor]].
Qed.

Lemma move_progress W ws D : map_Forall (proc_ok W) ws -> map_Forall (fun q _ => (length q <= D)%nat) ws ->
  forall m q u, ws !! q = Some u -> u_st u <> Zombie -> (D < length q + m)%nat -> exists ws', step ws ws'.
Proof.
  intros Hok HD m. induction m as [|m IH]; intros q u Hq Hz Hm; [specialize (HD _ _ Hq); cbn in HD; lia|].
  destruct (lstep_progress W q u (Hok _ _ Hq) Hz) as [[u' Hl]|[(c & k & err & E)|[k E]]].
  - eexists. by eapply W_local.
  - destruct u as [st t n]. cbn in E. subst. eexists. by eapply W_fork.
  - destruct u as [st t n]. cbn in E. subst.
    destruct (decide (map_Forall (fun q' (_ : uproc) => is_child q q' = false) ws)) as [Hno|Hyes].
    + eexists. eapply W_wait_none; [done|]. intros i. destruct (ws !! (i :: q)) eqn:Ei; [|done]. specialize (Hno _ _ Ei). cbn in Hno.
      by rewrite bool_decide_true in Hno.
    + apply map_not_Forall in Hyes as (q' & u' & Hq' & Hc); [|apply _]. destruct q' as [|i q']; [done|]. cbn in Hc.
      apply not_false_iff_true, bool_decide_eq_true in Hc as ->. destruct u' as [[p'|argv|] t' n']; [..|eexists; by eapply W_wait];
        (eapply (IH _ _ Hq'); [done|cbn; lia]).
Qed.

Lemma depth_bound (ws : world) : exists D, map_Forall (fun q _ => (length q <= D)%nat) ws.
Proof.
  induction ws as [|q u ws Hq [D IH]] using map_ind; [by exists 0%nat|]. exists (Nat.max D (length q)). apply map_Forall_insert_2; [lia|].
  intros q' u' Hq'. specialize (IH _ _ Hq'). cbn in *. lia.
Qed.

(** ** Sessions, executed *)

(** One step of process [q], chosen to succeed or to fail. *)
Definition local_at (b : bool) (q : list nat) (u : uproc) : option uproc :=
  let '(UProc st t n) := u in
  match st with
  | Running Exit | Execd _ => Some (UProc Zombie t n)
  | Running (Exec argv k) => Some (UProc (if b then Execd argv else Running k) t n)
  | Running (Print _ _ _ k) => Some (UProc (Running k) t n)
  | Running (Close fd k) => Some (UProc (Running k) (fd_close fd t) n)
  | Running (Open path mode k err) =>
      if b then '(i, t') ← fd_alloc (OFile path mode) t; Some (UProc (Running (k (Z.of_nat i))) t' n)
      else Some (UProc (Running err) t n)
  | Running (Dup fd k) => Some (UProc (Running k) (fd_dup fd t) n)
  | Running (MkPipe k err) =>
      if b then '(i, j, t') ← fd_pipe (PRead q) (PWrite q) t; Some (UProc (Running (k (Z.of_nat i) (Z.of_nat j))) t' n)
      else Some (UProc (Running err) t n)
  | Running (Fork _ _ err) => Some (UProc (Running err) t n)
  | Running (Chdir _ k err) => Some (UProc (Running (if b then k else err)) t n)
  | _ => None
  end.

Definition zombie_at (ws : world) (q : list nat) : bool :=
  match ws !! q with Some (UProc Zombie _ _) => true | _ => false end.

Definition step_at (b : bool) (q : list nat) (ws : world) : option world :=
  u ← ws !! q;
  match u with
  | UProc (Running (Wait k)) t n =>
      i ← find_index (fun i => zombie_at ws (i :: q)) (seq 0 n);
      Some (<[q := UProc (Running k) t n]> (delete (i :: q) ws))
  | UProc (Running (Fork c k err)) t n =>
      if b then Some (<[n :: q := UProc (Running c) t 0]> (<[q := UProc (Running k) t (S n)]> ws))
      else Some (<[q := UProc (Running err) t n]> ws)
  | _ => u' ← local_at b q u; Some (<[q := u']> ws)
  end.

Fixpoint run_at (l : list (bool * list nat)) (ws : world) : option world :=
  match l with [] => Some ws | (b, q) :: l => ws' ← step_at b q ws; run_at l ws' end.

Lemma local_at_sound b q u u' : local_at b q u = Some u' -> lstep q u u'.
Proof.
  destruct u as [[p|argv|] t n]; cbn; [|intros [= <-]; constructor|done].
  destruct p; try destruct b; intros Hl; try done; simplify_eq; try by constructor.
  - destruct (fd_alloc _ t) as [[i t']|] eqn:E; [|done]. cbn in Hl. simplify_eq. by constructor.
  - destruct (fd_pipe _ _ t) as [[[i j] t']|] eqn:E; [|done]. cbn in Hl. simplify_eq. by constructor.
Qed.

Lemma step_at_sound b q ws ws' : step_at b q ws = Some ws' -> move ws ws'.
Proof.
  unfold step_at. destruct (ws !! q) as [u|] eqn:Hq; [|done]. cbn [mbind option_bind]. intros Hs. left.
  assert ((u' ← local_at b q u; Some (<[q := u']> ws)) = Some ws' -> step ws ws') as Hloc.
  { destruct (local_at b q u) as [u'|] eqn:El; [|done]. intros [= <-]. eapply W_local; [done|]. by eapply local_at_sound. }
  destruct u as [[p|argv|] t n]; [|by apply Hloc..]. destruct p; try by apply Hloc.
  - destruct b; simplify_eq; [by eapply W_fork|]. apply (W_local ws q _ _ Hq). constructor.
  - destruct (find_index _ (seq 0 n)) as [i|] eqn:Ei; [|done]. cbn in Hs. simplify_eq.
    apply find_index_Some in Ei as [(j & Hj & Hz) _]. apply lookup_seq in Hj as [-> _]. unfold zombie_at in Hz. cbn in Hz.
    destruct (ws !! (i :: q)) as [[[| |] t' n']|] eqn:Hi; try done. by eapply W_wait.
Qed.

Lemma run_at_sound l ws ws' : run_at l ws = Some ws' -> nsteps move (length l) ws ws'.
Proof.
  revert ws. induction l as [|[b q] l IH]; intros ws; cbn; [intros [= ->]; constructor|].
  destruct (step_at b q ws) as [ws1|] eqn:E; [|done]. intros H. econstructor; [by eapply step_at_sound|by apply IH].
Qed.

(** ** The shell *)

(** C16: Commands find their files.  A shell started with its three standard
    descriptors open is given any lines.  However its processes interleave,
    whatever calls fail and whoever is killed, a program that has been
    executed is one of those the lines call for, in the process and with the
    descriptors [session] gives it: input and output come from the redirection
    or the pipe next to the command, both sides of a [|] hold the two ends of
    the same pipe, and all other descriptors are the shell's, so that no
    program holds an end of a pipe it does not use. *)
Theorem shell_wiring (lines : list (list Z)) (t0 : table) (ws : world) (q : list nat) (argv : list (list Z)) (t : table) (n : nat) :
  std t0 -> rtc move (start (sh_main lines) t0) ws -> ws !! q = Some (UProc (Execd argv) t n) ->
  (q, argv, t) ∈ session lines 0 t0 /\ drop 2 t = drop 2 t0.
Proof.
  intros Hs Hr Hq. assert ((q, argv, t) ∈ session lines 0 t0) as Hin.
  { eapply (moves_ok (fun q argv t => (q, argv, t) ∈ session lines 0 t0)) in Hr; [exact (Hr _ _ Hq)|].
    apply open_console_ok, sh_loop_ok; [done..|]. apply Forall_forall. by intros [[? ?] ?]. }
  split; [done|]. by apply (session_rest _ _ _ _ Hin).
Qed.


(** [a|b]: the shell, the child that makes the pipe, and the left command up
    to its [exec]. *)
Definition demo_table : table := (Some ∘ Given <$> seq 0 3) ++ replicate 13 None.
Definition demo_line : list Z := [97; 124; 98; 10].
Definition demo_moves : list (bool * list nat) :=
  ((fun q => (true, q)) <$> [[]; []; []; []; [0]; [0]])%nat ++ ((fun q => (true, q)) <$> replicate 5 [0; 0])%nat.

Lemma demo_std : std demo_table.
Proof. intros [|[|[|j]]] Hj; [by eexists..|lia]. Qed.

Lemma shell_wiring_witness : exists ws, rtc move (start (sh_main [demo_line]) demo_table) ws /\
  drop 2 (<[1%nat := Some (PWrite [0%nat])]> demo_table) = drop 2 demo_table /\
  ([0; 0]%nat, [[97]], <[1%nat := Some (PWrite [0%nat])]> demo_table) ∈ session [demo_line] 0 demo_table.
Proof.
  assert (exists ws, run_at demo_moves (start (sh_main [demo_line]) demo_table) = Some ws /\
    ws !! [0; 0]%nat = Some (UProc (Execd [[97]]) (<[1%nat := Some (PWrite [0%nat])]> demo_table) 0)) as (ws & Hr & Hq).
  { eexists. split; vm_compute; reflexivity. }
  apply run_at_sound, rtc_nsteps_2 in Hr. exists ws. split; [exact Hr|].
  destruct (shell_wiring [demo_line] demo_table ws [0; 0]%nat [[97]] (<[1%nat := Some (PWrite [0%nat])]> demo_table) 0) as [H1 H2];
    [exact demo_std|exact Hr|exact Hq|by split].
Defined.

