(* ===== verification/Ide.v ===== *)
(** * The IDE driver ([ide.c])

    Requests wait in a queue; the one at its head is with the disk, and the
    disk's interrupt completes it and starts the next.  The controller is
    hardware: the driver sees it through its ports, class [Controller], and
    relies on what the ATA standard says of them, class [ControllerLaws].  The
    driver is shown to be the synchronous disk of [memide.c], served in the
    order of the requests. *)

From S2P Require Import Prelude Mmu Bytes Bio.
Open Scope Z_scope.

(** ** The controller *)

(** Ports as [inb], [outb], [insl] and [outsl] reach them; the data port moves
    one sector at a time.  [patience] bounds how often the status is busy. *)
Class Controller (C : Type) := {
  inb : Z -> C -> Z * C;
  outb : Z -> Z -> C -> C;
  insl : C -> block * C;
  outsl : block -> C -> C;
  patience : nat;
}.

Definition IDE_BSY : Z := 0x80.
Definition IDE_DRDY : Z := 0x40.
Definition IDE_DF : Z := 0x20.
Definition IDE_ERR : Z := 0x01.
Definition IDE_CMD_READ : Z := 0x20.
Definition IDE_CMD_WRITE : Z := 0x30.
Definition IDE_CMD_RDMUL : Z := 0xc4.
Definition IDE_CMD_WRMUL : Z := 0xc5.
Definition SECTOR_SIZE : Z := 512.

(** ** The driver *)

Section driver.
Context {C : Type} `{Controller C}.

(** The buffers, [idequeue] with the buffers its [qnext] links lead to, and
    the controller. *)
Record ides := Ides { d_bufs : list buf; d_queue : list nat; d_ctl : C; d_havedisk1 : bool }.
Definition set_dbufs (l : list buf) (s : ides) : ides := Ides l (d_queue s) (d_ctl s) (d_havedisk1 s).
Definition set_queue (q : list nat) (s : ides) : ides := Ides (d_bufs s) q (d_ctl s) (d_havedisk1 s).
Definition set_ctl (c : C) (s : ides) : ides := Ides (d_bufs s) (d_queue s) c (d_havedisk1 s).
Definition set_havedisk1 (b : bool) (s : ides) : ides := Ides (d_bufs s) (d_queue s) (d_ctl s) b.

Definition in_ (port : Z) : M ides Z := s ← get; let '(v, c) := inb port (d_ctl s) in put (set_ctl c s);; mret v.
Definition out (port v : Z) : M ides () := modify (fun s => set_ctl (outb port (v mod 256) (d_ctl s)) s).
Definition dbuf_at (i : nat) : M ides buf := fun s => match d_bufs s !! i with Some b => Ok b s | None => Fault (Z.of_nat i) end.
Definition upd_dbuf (i : nat) (f : buf -> buf) : M ides () := b ← dbuf_at i; modify (fun s => set_dbufs (<[i := f b]> (d_bufs s)) s).

(** [while(((r = inb(0x1f7)) & (IDE_BSY|IDE_DRDY)) != IDE_DRDY);] *)
Fixpoint poll (fuel : nat) : M ides Z :=
  match fuel with
  | O => nofuel
  | S fuel => r ← in_ 0x1f7; if negb (Z.land r (Z.lor IDE_BSY IDE_DRDY) =? IDE_DRDY) then poll fuel else mret r
  end.

Definition idewait (checkerr : bool) : M ides Z :=
  r ← poll (S patience);
  mret (if checkerr && negb (Z.land r (Z.lor IDE_DF IDE_ERR) =? 0) then -1 else 0).

(** [for(i=0; i<1000; i++) if(inb(0x1f7) != 0){ havedisk1 = 1; break; }] *)
Fixpoint probe (n : nat) : M ides () :=
  match n with
  | O => mret ()
  | S n => r ← in_ 0x1f7; if negb (r =? 0) then modify (set_havedisk1 true) else probe n
  end.

Definition ideinit : M ides () :=
  idewait false;;
  out 0x1f6 (Z.lor 0xe0 (Z.shiftl 1 4));;
  probe 1000;;
  out 0x1f6 (Z.lor 0xe0 (Z.shiftl 0 4)).

Definition idestart (i : nat) : M ides () :=
  b ← dbuf_at i;
  if FSSIZE <=? b_blockno b then panic "incorrect blockno" else
  let sector_per_block := BSIZE / SECTOR_SIZE in
  let sector := b_blockno b * sector_per_block in
  let read_cmd := if sector_per_block =? 1 then IDE_CMD_READ else IDE_CMD_RDMUL in
  let write_cmd := if sector_per_block =? 1 then IDE_CMD_WRITE else IDE_CMD_WRMUL in
  if 7 <? sector_per_block then panic "idestart" else
  idewait false;;
  out 0x3f6 0;;
  out 0x1f2 sector_per_block;;
  out 0x1f3 (Z.land sector 0xff);;
  out 0x1f4 (Z.land (Z.shiftr sector 8) 0xff);;
  out 0x1f5 (Z.land (Z.shiftr sector 16) 0xff);;
  out 0x1f6 (Z.lor (Z.lor 0xe0 (Z.shiftl (Z.land (b_dev b) 1) 4)) (Z.land (Z.shiftr sector 24) 0x0f));;
  if b_dirty b then
    out 0x1f7 write_cmd;;
    modify (fun s => set_ctl (outsl (b_data b) (d_ctl s)) s)
  else out 0x1f7 read_cmd.

(** [if(!(b->flags & B_DIRTY) && idewait(1) >= 0) insl(0x1f0, b->data, BSIZE/4);] *)
Definition ide_take (i : nat) : M ides () :=
  b ← dbuf_at i;
  if negb (b_dirty b) then
    r ← idewait true;
    when (0 <=? r) (
      s ← get;
      let '(data, c) := insl (d_ctl s) in
      put (set_ctl c s);;
      upd_dbuf i (set_data data))
  else mret ().

(** The interrupt handler; [wakeup] makes [iderw] of that buffer look again. *)
Definition ideintr : M ides () :=
  s ← get;
  match d_queue s with
  | [] => mret ()
  | i :: rest =>
      modify (set_queue rest);;
      ide_take i;;
      upd_dbuf i (set_flags true false);;
      match rest with [] => mret () | j :: _ => idestart j end
  end.

(** [iderw] up to its first [sleep], and the test of the loop around it. *)
Definition ide_submit (i : nat) : M ides () :=
  b ← dbuf_at i;
  if negb (b_locked b) then panic "iderw: buf not locked" else
  if b_valid b && negb (b_dirty b) then panic "iderw: nothing to do" else
  s ← get;
  if negb (b_dev b =? 0) && negb (d_havedisk1 s) then panic "iderw: ide disk 1 not present" else
  modify (set_queue (d_queue s ++ [i]));;
  match d_queue s with [] => idestart i | _ => mret () end.

Definition ide_done (b : buf) : bool := b_valid b && negb (b_dirty b).
End driver.
Arguments ides : clear implicits.

(** ** What the controller promises *)

Inductive phase := Idle | Reading (drive sector : Z) | Writing (drive sector : Z).

(** [reg c p] is the last value written to port [p], [media c d n] the
    contents of sector [n] of drive [d].  The drive and the sector of a
    command are in ports 0x1f3 to 0x1f6. *)
Class ControllerLaws (C : Type) `{Controller C} := {
  reg : C -> Z -> Z;
  media : C -> Z -> Z -> block;
  phase_of : C -> phase;
  inb_ready c : exists k, (k <= patience)%nat /\
    Z.land (fst (inb 0x1f7 (Nat.iter k (fun c => snd (inb 0x1f7 c)) c))) (Z.lor IDE_BSY IDE_DRDY) = IDE_DRDY;
  inb_reg c p : reg (snd (inb 0x1f7 c)) p = reg c p;
  inb_media c d n : media (snd (inb 0x1f7 c)) d n = media c d n;
  inb_phase c : phase_of (snd (inb 0x1f7 c)) = phase_of c;
  outb_reg p v c p' : p <> 0x1f7 -> reg (outb p v c) p' = (if decide (p' = p) then v else reg c p');
  outb_media p v c d n : media (outb p v c) d n = media c d n;
  outb_phase p v c : p <> 0x1f7 -> phase_of (outb p v c) = phase_of c;
  cmd_reg v c p' : p' <> 0x1f7 -> reg (outb 0x1f7 v c) p' = reg c p';
  cmd_phase v c : phase_of c = Idle -> reg c 0x1f2 = 1 -> v = IDE_CMD_READ \/ v = IDE_CMD_WRITE ->
    phase_of (outb 0x1f7 v c) =
      (if v =? IDE_CMD_READ then Reading else Writing) (Z.land (Z.shiftr (reg c 0x1f6) 4) 1)
        (reg c 0x1f3 + 256 * reg c 0x1f4 + 65536 * reg c 0x1f5 + 16777216 * Z.land (reg c 0x1f6) 15);
  outsl_reg data c p : reg (outsl data c) p = reg c p;
  outsl_write data c d n d' n' : phase_of c = Writing d n -> length data = Z.to_nat BSIZE ->
    phase_of (outsl data c) = Idle /\ media (outsl data c) d' n' = (if decide ((d', n') = (d, n)) then data else media c d' n');
  media_length c d n : length (media c d n) = Z.to_nat BSIZE;
  insl_read c d n : phase_of c = Reading d n ->
    fst (insl c) = media c d n /\ phase_of (snd (insl c)) = Idle /\ (forall d' n', media (snd (insl c)) d' n' = media c d' n') /\
    (forall p, reg (snd (insl c)) p = reg c p);
}.

(** A drive that reports no errors. *)
Class Healthy (C : Type) `{Controller C} := {
  no_error c : Z.land (fst (inb 0x1f7 c)) (Z.lor IDE_DF IDE_ERR) = 0;
}.

(** ** Refinement of the synchronous disk *)

(** The synchronous disk with the requests it has not served yet.  [iderw] is
    that of [memide.c]. *)
Inductive astep : bio * list nat -> bio * list nat -> Prop :=
  | A_submit a p i : i ∉ p -> astep (a, p) (a, p ++ [i])
  | A_serve a p i a' : iderw i a = Ok () a' -> astep (a, i :: p) (a', p)
  | A_user a p i b : i ∉ p -> length (b_data b) = Z.to_nat BSIZE -> astep (a, p) (set_bufs (<[i := b]> (c_bufs a)) a, p).

Section refinement.
Context {C : Type} `{ControllerLaws C} `{!Healthy C}.

(** A buffer that may be given to [iderw]. *)
Definition requestable (s : ides C) (i : nat) : Prop :=
  (i ∉ d_queue s) /\ exists b, d_bufs s !! i = Some b /\ b_locked b = true /\ ide_done b = false /\ b_dev b = 1 /\
    0 <= b_blockno b < FSSIZE.

(** A process calls [iderw] on a buffer it has locked, the disk interrupts at
    any time, and a buffer that is not with the driver is used by its holder. *)
Inductive cstep : ides C -> ides C -> Prop :=
  | C_submit s i s' : requestable s i -> ide_submit i s = Ok () s' -> cstep s s'
  | C_intr s s' : ideintr s = Ok () s' -> cstep s s'
  | C_user s i b : i ∉ d_queue s -> length (b_data b) = Z.to_nat BSIZE -> cstep s (set_dbufs (<[i := b]> (d_bufs s)) s).

(** What the controller is doing for the head of the queue, given the contents
    [disk] before that request. *)
Definition serving (bufs : list buf) (q : list nat) (c : C) (disk : gmap Z block) : Prop :=
  match q with
  | [] => phase_of c = Idle /\ (forall n, 0 <= n < FSSIZE -> media c 1 n = disk_block disk n)
  | i :: _ => exists b, bufs !! i = Some b /\ reg c 0x3f6 = 0 /\
      (if b_dirty b then
         phase_of c = Idle /\ (forall n, 0 <= n < FSSIZE -> media c 1 n = disk_block (<[b_blockno b := b_data b]> disk) n)
       else
         phase_of c = Reading 1 (b_blockno b) /\ (forall n, 0 <= n < FSSIZE -> media c 1 n = disk_block disk n))
  end.

Record refines (s : ides C) (a : bio * list nat) : Prop := {
  rf_bufs : c_bufs a.1 = d_bufs s;
  rf_queue : a.2 = d_queue s;
  rf_size : c_disksize a.1 = FSSIZE;
  rf_disk1 : d_havedisk1 s = true;
  rf_nodup : NoDup (d_queue s);
  rf_length : forall i b, d_bufs s !! i = Some b -> length (b_data b) = Z.to_nat BSIZE;
  rf_pending : forall i, i ∈ d_queue s -> exists b, d_bufs s !! i = Some b /\ b_locked b = true /\ ide_done b = false /\
    b_dev b = 1 /\ 0 <= b_blockno b < FSSIZE;
  rf_serving : serving (d_bufs s) (d_queue s) (d_ctl s) (c_disk a.1);
}.

(** ** Waiting for the disk *)

(** The controller after reading its status. *)
Definition same (c c' : C) : Prop :=
  (forall p, reg c' p = reg c p) /\ (forall d n, media c' d n = media c d n) /\ phase_of c' = phase_of c.

Lemma poll_run k : forall fuel s, (k < fuel)%nat ->
  Z.land (fst (inb 0x1f7 (Nat.iter k (fun c => snd (inb 0x1f7 c)) (d_ctl s)))) (Z.lor IDE_BSY IDE_DRDY) = IDE_DRDY ->
  exists r c', poll fuel s = Ok r (set_ctl c' s) /\ same (d_ctl s) c' /\ Z.land r (Z.lor IDE_DF IDE_ERR) = 0.
Proof.
  induction k as [|k IH]; intros [|fuel] s Hk Hr; try lia; cbn [poll]; unfold in_, mbind, M_bind, bindM, get;
    pose proof (inb_reg (d_ctl s)) as H1; pose proof (inb_media (d_ctl s)) as H2; pose proof (inb_phase (d_ctl s)) as H3; pose proof (no_error (d_ctl s)) as H4.
  - cbn [Nat.iter nat_rect] in Hr. destruct (inb 0x1f7 (d_ctl s)) as [v c] eqn:E. cbn [fst snd] in *. unfold put, mret, M_ret. rewrite Hr, Z.eqb_refl.
    exists v, c. done.
  - destruct (inb 0x1f7 (d_ctl s)) as [v c] eqn:E. cbn [fst snd] in *. unfold put, mret, M_ret. rewrite Nat.iter_succ_r, E in Hr.
    destruct (_ =? _); cbn [negb]; [by exists v, c|].
    destruct (IH fuel (set_ctl c s)) as (r & c' & Hp & (S1 & S2 & S3) & Hz); [lia|exact Hr|].
    exists r, c'. split; [exact Hp|]. split; [|done]. cbn in *. split; [intros; by rewrite S1|]. split; [intros; by rewrite S2|by rewrite S3].
Qed.

Lemma idewait_run b s : exists c', idewait b s = Ok 0 (set_ctl c' s) /\ same (d_ctl s) c'.
Proof.
  destruct (inb_ready (d_ctl s)) as (k & Hk & Hr). destruct (poll_run k (S patience) s ltac:(lia) Hr) as (r & c' & Hp & Hs & Hz).
  exists c'. split; [|done]. unfold idewait. rewrite (Ok_bind _ _ _ _ _ Hp), Hz. by rewrite andb_false_r.
Qed.

(** ** Starting a request *)

Lemma out_run p v s : out p v s = Ok () (set_ctl (outb p (v mod 256) (d_ctl s)) s).
Proof. done. Qed.

(** The sector number as the ports hold it. *)
Lemma sector_ports n : 0 <= n < FSSIZE ->
  Z.land n 0xff mod 256 + 256 * (Z.land (Z.shiftr n 8) 0xff mod 256) + 65536 * (Z.land (Z.shiftr n 16) 0xff mod 256) = n /\
  Z.land (Z.shiftr n 24) 0x0f = 0.
Proof.
  intros Hn. unfold FSSIZE in Hn. change 0xff with (Z.ones 8). change 0x0f with (Z.ones 4). rewrite !Z.land_ones, !Z.shiftr_div_pow2 by lia.
  change (2 ^ 8) with 256. change (2 ^ 16) with 65536. change (2 ^ 24) with 16777216. change (2 ^ 4) with 16. Z.div_mod_to_equations. lia.
Qed.

(** The registers of the command for sector [n] of drive 1. *)
Definition ports_set (c : C) (n : Z) : C :=
  outb 0x1f6 0xf0 (outb 0x1f5 (Z.land (Z.shiftr n 16) 0xff mod 256) (outb 0x1f4 (Z.land (Z.shiftr n 8) 0xff mod 256)
    (outb 0x1f3 (Z.land n 0xff mod 256) (outb 0x1f2 1 (outb 0x3f6 0 c))))).

Lemma ports_set_spec c n : 0 <= n < FSSIZE -> phase_of c = Idle ->
  reg (ports_set c n) 0x3f6 = 0 /\ (forall d m, media (ports_set c n) d m = media c d m) /\
  forall v, v = IDE_CMD_READ \/ v = IDE_CMD_WRITE ->
    phase_of (outb 0x1f7 v (ports_set c n)) = (if v =? IDE_CMD_READ then Reading else Writing) 1 n.
Proof.
  intros Hn Hc. destruct (sector_ports n Hn) as [Hs _]. unfold ports_set. split; [by rewrite !outb_reg by done|]. split; [intros; by rewrite !outb_media|].
  intros v Hv. rewrite cmd_phase; [|by rewrite !outb_phase by done|by rewrite !outb_reg by done|done]. rewrite !outb_reg by done.
  repeat match goal with |- context [decide (?a = ?b)] =>
    first [rewrite (decide_True (P := a = b)) by done|rewrite (decide_False (P := a = b)) by done] end.
  change (Z.land (Z.shiftr 0xf0 4) 1) with 1. change (Z.land 0xf0 15) with 0.
  rewrite Z.mul_0_r, Z.add_0_r, Hs. done.
Qed.

Lemma idestart_run s i b : d_bufs s !! i = Some b -> b_dev b = 1 -> 0 <= b_blockno b < FSSIZE -> length (b_data b) = Z.to_nat BSIZE ->
  phase_of (d_ctl s) = Idle -> exists c', idestart i s = Ok () (set_ctl c' s) /\ reg c' 0x3f6 = 0 /\
  (if b_dirty b then phase_of c' = Idle /\ (forall d n, media c' d n = if decide ((d, n) = (1, b_blockno b)) then b_data b else media (d_ctl s) d n)
   else phase_of c' = Reading 1 (b_blockno b) /\ (forall d n, media c' d n = media (d_ctl s) d n)).
Proof.
  intros Hb Hdev Hn Hl Hidle. destruct (idewait_run false s) as (c1 & Hw & S1 & S2 & S3). rewrite Hidle in S3.
  destruct (ports_set_spec c1 (b_blockno b) Hn S3) as (P1 & P2 & P3). destruct (sector_ports _ Hn) as [_ Hhi].
  set (c2 := outb 0x1f7 (if b_dirty b then IDE_CMD_WRITE else IDE_CMD_READ) (ports_set c1 (b_blockno b))).
  exists (if b_dirty b then outsl (b_data b) c2 else c2). split.
  - unfold idestart, mbind at 1, M_bind, bindM, dbuf_at. rewrite Hb. rewrite (proj2 (Z.leb_gt FSSIZE (b_blockno b))) by lia.
    change (BSIZE / SECTOR_SIZE) with 1. rewrite Z.mul_1_r, Hhi, Hdev. cbn [Z.eqb Pos.eqb]. change (7 <? 1) with false. cbn iota.
    rewrite (Ok_bind _ _ _ _ _ Hw). by destruct (b_dirty b).
  - destruct (b_dirty b).
    + specialize (P3 IDE_CMD_WRITE (or_intror eq_refl)). cbn in P3. split; [by rewrite outsl_reg; unfold c2; rewrite cmd_reg|].
      split; [by destruct (outsl_write _ c2 1 _ 1 0 P3 Hl)|]. intros d n. destruct (outsl_write _ c2 1 _ d n P3 Hl) as [_ ->].
      subst c2. by rewrite outb_media, P2, S2.
    + specialize (P3 IDE_CMD_READ (or_introl eq_refl)). split; [by unfold c2; rewrite cmd_reg|]. split; [done|]. intros d n. subst c2. by rewrite outb_media, P2, S2.
Qed.

(** ** The simulation *)

Lemma media_write (c c' : C) disk b : (forall n, 0 <= n < FSSIZE -> media c 1 n = disk_block disk n) ->
  (forall d n, media c' d n = if decide ((d, n) = (1, b_blockno b)) then b_data b else media c d n) ->
  forall n, 0 <= n < FSSIZE -> media c' 1 n = disk_block (<[b_blockno b := b_data b]> disk) n.
Proof.
  intros Hm Hm' n Hn. rewrite Hm'. unfold disk_block. destruct (decide (n = b_blockno b)) as [->|Hne].
  - by rewrite decide_True, lookup_insert_eq.
  - rewrite decide_False, lookup_insert_ne by congruence. by apply Hm.
Qed.

(** Starting the first request of a queue, the disk being idle. *)
Lemma start_serving s q j disk : d_queue s = j :: q ->
  (exists b, d_bufs s !! j = Some b /\ b_locked b = true /\ ide_done b = false /\ b_dev b = 1 /\ 0 <= b_blockno b < FSSIZE) ->
  (forall i b, d_bufs s !! i = Some b -> length (b_data b) = Z.to_nat BSIZE) ->
  phase_of (d_ctl s) = Idle -> (forall n, 0 <= n < FSSIZE -> media (d_ctl s) 1 n = disk_block disk n) ->
  exists c', idestart j s = Ok () (set_ctl c' s) /\ serving (d_bufs s) (j :: q) c' disk.
Proof.
  intros Hq (b & Hb & _ & _ & Hdev & Hn) Hl Hidle Hm.
  destruct (idestart_run s j b Hb Hdev Hn (Hl _ _ Hb) Hidle) as (c' & Hrun & Hr & Hc). exists c'. split; [done|]. exists b. split; [done|]. split; [done|].
  destruct (b_dirty b), Hc as [Hp Hm']; (split; [done|]); [by eapply media_write|]. intros n Hn'. by rewrite Hm', Hm.
Qed.

Lemma submit_sim s a i : refines s a -> requestable s i -> exists s', ide_submit i s = Ok () s' /\ refines s' (a.1, a.2 ++ [i]).
Proof.
  intros [R1 R2 R3 R4 R5 R6 R7 R8] [Hi (b & Hb & Hlk & Hd & Hdev & Hn)]. unfold ide_submit, mbind at 1, M_bind, bindM, dbuf_at. rewrite Hb, Hlk. cbn [negb].
  unfold ide_done in Hd. rewrite Hd. unfold mbind at 1, M_bind, bindM, get. rewrite R4, andb_false_r. cbn iota.
  rewrite (Ok_bind (modify _) _ s () (set_queue (d_queue s ++ [i]) s) eq_refl).
  assert (forall c', refines (set_ctl c' (set_queue (d_queue s ++ [i]) s)) (a.1, a.2 ++ [i]) <-> serving (d_bufs s) (d_queue s ++ [i]) c' (c_disk a.1)) as Hiff.
  { intros c'. split; [by intros [_ _ _ _ _ _ _ ?]|]. intros Hs. split; cbn; try done; [by rewrite R2| |].
    - apply NoDup_app. split; [done|]. split; [|by apply NoDup_singleton]. intros x Hx ->%list_elem_of_singleton. done.
    - intros j [Hj| ->%list_elem_of_singleton]%elem_of_app; [by apply R7|]. by exists b. }
  destruct (d_queue s) as [|k q] eqn:Eq.
  - destruct R8 as [Hidle Hm]. destruct (start_serving (set_queue [i] s) [] i (c_disk a.1)) as (c' & Hrun & Hs); [done|by exists b|done..|].
    exists (set_ctl c' (set_queue [i] s)). split; [done|]. by apply Hiff.
  - exists (set_ctl (d_ctl s) (set_queue ((k :: q) ++ [i]) s)). split; [done|]. apply Hiff. exact R8.
Qed.

Lemma dbuf_at_Ok (s : ides C) i b : d_bufs s !! i = Some b -> dbuf_at i s = Ok b s.
Proof. intros Hb. unfold dbuf_at. by rewrite Hb. Qed.

Lemma upd_dbuf_Ok (s : ides C) i f b : d_bufs s !! i = Some b -> upd_dbuf i f s = Ok () (set_dbufs (<[i := f b]> (d_bufs s)) s).
Proof. intros Hb. unfold upd_dbuf. by rewrite (Ok_bind _ _ _ _ _ (dbuf_at_Ok s i b Hb)). Qed.

Lemma set_data_id b : set_data (b_data b) b = b.
Proof. by destruct b. Qed.

(** The data of the request at the head arrives as [iderw] of the synchronous
    disk fetches it, and the disk is idle again. *)
Lemma ide_take_run s a i q b : refines s (a, i :: q) -> d_bufs s !! i = Some b ->
  exists data c', ide_take i (set_queue q s) = Ok () (Ides (<[i := set_data data b]> (d_bufs s)) q c' (d_havedisk1 s)) /\
    phase_of c' = Idle /\ length data = Z.to_nat BSIZE /\ exists a', iderw i a = Ok () a' /\
    c_bufs a' = <[i := set_flags true false (set_data data b)]> (d_bufs s) /\ c_disksize a' = FSSIZE /\
    (forall n, 0 <= n < FSSIZE -> media c' 1 n = disk_block (c_disk a') n).
Proof.
  intros [R1 R2 R3 R4 R5 R6 R7 R8] Hb. cbn in R1, R2, R3. rewrite <- R2 in R7, R8. destruct R8 as (b' & Hb' & _ & Hs). rewrite Hb in Hb'. injection Hb' as <-.
  destruct (R7 i ltac:(left)) as (b' & Hb' & Hlk & Hd & Hdev & Hn). rewrite Hb in Hb'. injection Hb' as <-.
  unfold ide_take. rewrite (Ok_bind _ _ _ _ _ (dbuf_at_Ok (set_queue q s) i b Hb)). pose proof Hb as Hab. rewrite <- R1 in Hab.
  destruct (b_dirty b) eqn:Ed; cbn [negb]; destruct Hs as [Hp Hm].
  - exists (b_data b), (d_ctl s). rewrite set_data_id, list_insert_id by done. split; [done|]. split; [done|]. split; [by eapply R6|].
    eexists. split; [apply (iderw_write a i b); [done..|lia]|]. cbn. by rewrite R1.
  - destruct (idewait_run true (set_queue q s)) as (c1 & Hw & _ & S2 & S3). rewrite (Ok_bind _ _ _ _ _ Hw). cbn [Z.leb Z.compare when].
    cbn [set_queue d_ctl] in S2, S3. rewrite Hp in S3. destruct (insl_read c1 _ _ S3) as (I1 & I2 & I3 & _).
    unfold mbind at 1, M_bind, bindM, get. cbn [set_ctl set_queue d_ctl d_bufs d_queue d_havedisk1] in *. destruct (insl c1) as [data c2] eqn:Ei.
    cbn [fst snd] in *. exists data, c2.
    split; [exact (upd_dbuf_Ok (set_ctl c2 (set_ctl c1 (set_queue q s))) i (set_data data) b Hb)|]. split; [done|]. rewrite I1, S2, Hm by done. split; [by rewrite <- Hm, media_length|].
    assert (b_valid b = false) as Hv by (unfold ide_done in Hd; rewrite Ed in Hd; by destruct (b_valid b)).
    eexists. split; [apply (iderw_read a i b); [done..|lia]|]. cbn. rewrite R1. split; [done|]. split; [done|]. intros n Hn'. by rewrite I3, S2, Hm.
Qed.

Lemma intr_sim s a : refines s a -> exists s', ideintr s = Ok () s' /\
  (d_queue s = [] /\ s' = s \/ exists a', astep a a' /\ refines s' a').
Proof.
  intros HR. destruct a as [a p]. pose proof HR as [R1 R2 R3 R4 R5 R6 R7 R8]. cbn in R1, R2, R3. unfold ideintr. rewrite (Ok_bind get _ s s s eq_refl).
  destruct (d_queue s) as [|i q] eqn:Eq; [exists s; split; [done|by left]|]. subst p.
  destruct (R7 i ltac:(left)) as (b & Hb & _). destruct (ide_take_run s a i q b HR Hb) as (data & c' & Ht & Hidle & Hl & a' & Ha & Hbufs & Hsize & Hm).
  rewrite (Ok_bind (modify _) _ s () (set_queue q s) eq_refl), (Ok_bind _ _ _ _ _ Ht).
  set (s1 := Ides _ q c' _). rewrite (Ok_bind _ _ _ _ _ (upd_dbuf_Ok s1 i (set_flags true false) (set_data data b) ltac:(cbn; by apply list_lookup_insert_eq, lookup_lt_Some with b))).
  cbn [s1 d_bufs set_dbufs d_queue d_ctl d_havedisk1]. rewrite list_insert_insert_eq. apply NoDup_cons in R5 as [Hiq Hnd].
  set (s2 := Ides (<[i := set_flags true false (set_data data b)]> (d_bufs s)) q c' (d_havedisk1 s)).
  assert (forall j, j ∈ q -> d_bufs s2 !! j = d_bufs s !! j) as Hq by (intros j Hj; apply list_lookup_insert_ne; by intros ->).
  assert (forall c2, serving (d_bufs s2) q c2 (c_disk a') -> refines (set_ctl c2 s2) (a', q)) as Hfin.
  { intros c2 Hs. split; cbn -[insert]; try done.
    - intros j bj [(-> & <- & _)|[? Hj]]%list_lookup_insert_Some; [done|by eapply R6].
    - intros j Hj. destruct (R7 j ltac:(by right)) as (bj & Hbj & Hrest). exists bj. split; [|done]. rewrite <- Hbj. exact (Hq j Hj). }
  destruct q as [|j q].
  - exists (set_ctl c' s2). split; [done|]. right. exists (a', []). split; [by constructor|]. by apply Hfin.
  - destruct (start_serving s2 q j (c_disk a')) as (c2 & Hrun & Hs); [done|rewrite Hq by left; apply R7; right; left| |done|done|].
    { intros k bk [(-> & <- & _)|[? Hk]]%list_lookup_insert_Some; [done|by eapply R6]. }
    exists (set_ctl c2 s2). split; [exact Hrun|]. right. exists (a', j :: q). split; [by constructor|]. by apply Hfin.
Qed.

Lemma user_sim s a p i b : refines s (a, p) -> i ∉ d_queue s -> length (b_data b) = Z.to_nat BSIZE ->
  refines (set_dbufs (<[i := b]> (d_bufs s)) s) (set_bufs (<[i := b]> (c_bufs a)) a, p).
Proof.
  intros [R1 R2 R3 R4 R5 R6 R7 R8] Hi Hl. cbn in R1, R2, R3.
  assert (forall j, j ∈ d_queue s -> (<[i := b]> (d_bufs s)) !! j = d_bufs s !! j) as Hq by (intros j Hj; apply list_lookup_insert_ne; by intros ->).
  split; cbn -[insert]; try done; [by rewrite R1| | |].
  - intros j bj [(-> & <- & _)|[? Hj]]%list_lookup_insert_Some; [done|by eapply R6].
  - intros j Hj. rewrite (Hq j Hj). by apply R7.
  - destruct (d_queue s) as [|j q]; [done|]. destruct R8 as (bj & Hj & HR8). exists bj. by rewrite Hq by left.
Qed.

Lemma cstep_sim s s' a : refines s a -> cstep s s' -> exists a', rtc astep a a' /\ refines s' a'.
Proof.
  intros HR Hst. destruct Hst as [s i s' Hreq Hrun|s s' Hrun|s i b Hi Hl].
  - destruct (submit_sim s a i HR Hreq) as (s'' & Hrun' & HR'). assert (s'' = s') as -> by congruence. eexists. split; [|exact HR'].
    apply rtc_once. destruct a as [a p]. constructor. destruct Hreq as [Hi _].
    pose proof (rf_queue _ _ HR) as E. cbn in E. by rewrite E.
  - destruct (intr_sim s a HR) as (s'' & Hrun' & Hc). assert (s'' = s') as -> by congruence.
    destruct Hc as [[_ ->]|(a' & Hst & HR')]; [by exists a|]. exists a'. split; [by apply rtc_once|done].
  - destruct a as [a p]. eexists. split; [|by apply user_sim]. apply rtc_once. constructor; [|done].
    pose proof (rf_queue _ _ HR) as E. cbn in E. by rewrite E.
Qed.

End refinement.

(** A read that fails is not reported: the interrupt handler leaves the
    buffer's contents as they were and marks them valid. *)
Theorem read_error_unreported {C : Type} `{Controller C} (s s1 : ides C) (i : nat) (b : buf) :
  d_queue s = [i] -> d_bufs s !! i = Some b -> b_dirty b = false -> idewait true (set_queue [] s) = Ok (-1) s1 -> d_bufs s1 = d_bufs s ->
  exists s', ideintr s = Ok () s' /\ d_bufs s' = <[i := set_flags true false b]> (d_bufs s).
Proof.
  intros Hq Hb Hd Hw Hs. unfold ideintr. rewrite (Ok_bind get _ s s s eq_refl), Hq, (Ok_bind (modify _) _ s () (set_queue [] s) eq_refl).
  assert (ide_take i (set_queue [] s) = Ok () s1) as Ht.
  { unfold ide_take, mbind at 1, M_bind, bindM, dbuf_at. cbn [set_queue d_bufs]. rewrite Hb, Hd. cbn [negb]. by rewrite (Ok_bind _ _ _ _ _ Hw). }
  rewrite <- Hs in Hb. rewrite (Ok_bind _ _ _ _ _ Ht), (Ok_bind _ _ _ _ _ (upd_dbuf_Ok s1 i _ b Hb)). eexists. split; [done|]. cbn. by rewrite Hs.
Qed.

(** ** A controller *)

(** A controller with two drives that is busy once after every command. *)
Record sim := Sim { sm_reg : gmap Z Z; sm_media : gmap (Z * Z) block; sm_phase : phase; sm_busy : bool }.

Definition sim_media (c : sim) (d n : Z) : block := resize (Z.to_nat BSIZE) 0 (default [] (sm_media c !! (d, n))).
Definition sim_reg (c : sim) (p : Z) : Z := default 0 (sm_reg c !! p).

#[export] Instance sim_controller : Controller sim := {
  inb _ c := if sm_busy c then (IDE_BSY, Sim (sm_reg c) (sm_media c) (sm_phase c) false) else (IDE_DRDY, c);
  outb p v c :=
    if p =? 0x1f7 then
      let d := Z.land (Z.shiftr (sim_reg c 0x1f6) 4) 1 in
      let n := sim_reg c 0x1f3 + 256 * sim_reg c 0x1f4 + 65536 * sim_reg c 0x1f5 + 16777216 * Z.land (sim_reg c 0x1f6) 15 in
      Sim (sm_reg c) (sm_media c) ((if v =? IDE_CMD_READ then Reading else Writing) d n) true
    else Sim (<[p := v]> (sm_reg c)) (sm_media c) (sm_phase c) (sm_busy c);
  insl c :=
    match sm_phase c with
    | Reading d n => (sim_media c d n, Sim (sm_reg c) (sm_media c) Idle false)
    | _ => ([], c)
    end;
  outsl data c :=
    match sm_phase c with
    | Writing d n => Sim (sm_reg c) (<[(d, n) := data]> (sm_media c)) Idle true
    | _ => c
    end;
  patience := 1;
}.

#[export] Instance sim_laws : ControllerLaws sim.
Proof.
  refine {| reg := sim_reg; media := sim_media; phase_of := sm_phase |}; cbn.
  - intros [r m p []]; [exists 1%nat|exists 0%nat]; (split; [lia|done]).
  - by intros [r m p []].
  - by intros [r m p []].
  - by intros [r m p []].
  - intros p v c p' Hp. rewrite (proj2 (Z.eqb_neq p 0x1f7)) by done. unfold sim_reg. cbn. case_decide as Hd; [subst; by rewrite lookup_insert_eq|by rewrite lookup_insert_ne].
  - intros p v c d n. by destruct (p =? 0x1f7).
  - intros p v c Hp. by rewrite (proj2 (Z.eqb_neq p 0x1f7)).
  - done.
  - intros v c _ _ _. by destruct (v =? IDE_CMD_READ).
  - intros data c p. by destruct (sm_phase c).
  - intros data c d n d' n' -> Hl. split; [done|]. unfold sim_media. cbn. case_decide as Hd.
    + rewrite Hd, lookup_insert_eq. cbn. by apply resize_all_alt.
    + by rewrite lookup_insert_ne.
  - intros c d n. apply length_resize.
  - by intros c d n ->.
Defined.

#[export] Instance sim_healthy : Healthy sim.
Proof. split. by intros [r m p []]. Qed.

(** A process writes block 5 while another asks for the same block. *)
Definition demo_ide : ides sim :=
  Ides [Buf false false 1 5 true 1 zero_block; Buf true true 1 5 true 1 (replicate 512 7)] [] (Sim ∅ ∅ Idle false) true.
Definition demo_bio : bio := Bio (d_bufs demo_ide) [] ∅ FSSIZE [].
Definition state_of {S A} (m : M S A) (s : S) : S := match m s with Ok _ s' => s' | _ => s end.
Definition demo_ide1 : ides sim := state_of (ide_submit 1) demo_ide.
Definition demo_ide2 : ides sim := state_of (ide_submit 0) demo_ide1.
Definition demo_ide3 : ides sim := state_of ideintr demo_ide2.
Definition demo_ide4 : ides sim := state_of ideintr demo_ide3.

Lemma demo_ide_refines : refines demo_ide (demo_bio, []).
Proof.
  split; try done; cbn.
  - constructor.
  - intros [|[|i]] b Hb; cbn in Hb; [injection Hb as <-; done|injection Hb as <-; done|done].
  - intros i Hi. by apply elem_of_nil in Hi.
Qed.

Lemma demo_ide_steps : rtc cstep demo_ide demo_ide4.
Proof.
  apply (rtc_l _ _ demo_ide1); [apply (C_submit _ 1)|].
  { split; [by intros ?%elem_of_nil|]. eexists. split; [reflexivity|]. done. }
  { vm_compute. reflexivity. }
  apply (rtc_l _ _ demo_ide2); [apply (C_submit _ 0)|].
  { split; [|eexists; split; [reflexivity|done]]. assert (d_queue demo_ide1 = [1%nat]) as -> by (vm_compute; reflexivity).
    by intros ?%list_elem_of_singleton. }
  { vm_compute. reflexivity. }
  apply (rtc_l _ _ demo_ide3); [apply C_intr; vm_compute; reflexivity|].
  apply rtc_once, C_intr. vm_compute. reflexivity.
Qed.

