(* ===== verification/Mkfs.v ===== *)
(** * Making a file system ([mkfs.c])

    The program that builds the disk image, over the same structures as the
    kernel's [fs.c].  The image is a file of sectors on the host; what the
    host's [open], [lseek], [read] and [write] do with files that exist and a
    device that works is taken for granted. *)

From S2P Require Import Prelude Mmu Bytes Bio Log Fs.
Open Scope Z_scope.

Definition NINODES : Z := 200.

(** [xshort], [xint]: the bytes of a number in memory, in Intel's order. *)
Definition xshort (x : Z) : list Z := [x mod 256; Z.shiftr x 8 mod 256].
Definition xint (x : Z) : list Z := [x mod 256; Z.shiftr x 8 mod 256; Z.shiftr x 16 mod 256; Z.shiftr x 24 mod 256].

(** The sizes of the parts, in blocks. *)
Definition nbitmap : Z := FSSIZE / (BSIZE * 8) + 1.
Definition ninodeblocks : Z := NINODES / IPB + 1.
Definition nlog : Z := LOGSIZE.
Definition nmeta : Z := 2 + nlog + ninodeblocks + nbitmap.
Definition nblocks : Z := FSSIZE - nmeta.

Definition sb : superblock := SB FSSIZE nblocks NINODES nlog 2 (2 + nlog) (2 + nlog + ninodeblocks).

(** [memmove(buf, &sb, sizeof(sb))] into a zeroed block. *)
Definition sb_bytes : list Z :=
  concat (xint <$> [sb_size sb; sb_nblocks sb; sb_ninodes sb; sb_nlog sb; sb_logstart sb; sb_inodestart sb; sb_bmapstart sb]).
Definition sb_block : block := splice zero_block 0 sb_bytes.

(** The image, its length in sectors, and the two counters. *)
Record img := Img { g_disk : gmap Z block; g_len : Z; g_freeinode : Z; g_freeblock : Z }.

Definition wsect (sec : Z) (buf : block) : M img () :=
  modify (fun s => Img (<[sec := buf]> (g_disk s)) (g_len s `max` (sec + 1)) (g_freeinode s) (g_freeblock s)).
Definition rsect (sec : Z) : M img block := fun s =>
  if sec <? g_len s then Ok (disk_block (g_disk s) sec) s else Panic "read".

(** [freeblock++] *)
Definition next_block : M img Z := fun s =>
  Ok (g_freeblock s) (Img (g_disk s) (g_len s) (g_freeinode s) (u32 (g_freeblock s + 1))).

(** A [struct dinode] is an inode without the fields of the kernel's cache. *)
Definition blank (inum : Z) : inode := Inode 1 inum 0 false true 0 0 0 0 0 (replicate 13 0).

Definition winode (inum : Z) (ip : inode) : M img () :=
  let bn := IBLOCK inum sb in
  buf ← rsect bn;
  wsect bn (store_dinode ip (dinode_off inum) buf).

Definition rinode (inum : Z) : M img inode :=
  buf ← rsect (IBLOCK inum sb);
  mret (load_dinode buf (dinode_off inum) (blank inum)).

Definition mk_ialloc (type : Z) : M img Z := fun s =>
  let inum := g_freeinode s in
  (winode inum (set_itype type (set_nlink 1 (blank inum)));; mret inum)
    (Img (g_disk s) (g_len s) (u32 (inum + 1)) (g_freeblock s)).

Definition bitmap (used : Z) : block := fold_left mark (seqZ 0 used) zero_block.
Definition mk_balloc (used : Z) : M img () :=
  if negb (used <? BSIZE * 8) then panic "assert" else
  wsect (sb_bmapstart sb) (bitmap used).

(** The block that holds byte [off] of the file, taking free ones as needed. *)
Definition place (din : inode) (fbn : Z) : M img (inode * Z) :=
  if fbn <? NDIRECT then
    din ← (if addr_at din fbn =? 0 then x ← next_block; mret (set_addr fbn x din) else mret din);
    mret (din, addr_at din fbn)
  else
    din ← (if addr_at din NDIRECT =? 0 then x ← next_block; mret (set_addr NDIRECT x din) else mret din);
    indirect ← rsect (addr_at din NDIRECT);
    indirect ← (if get32 indirect (4 * (fbn - NDIRECT)) =? 0 then
                  x ← next_block;
                  let indirect := put32 indirect (4 * (fbn - NDIRECT)) x in
                  wsect (addr_at din NDIRECT) indirect;; mret indirect
                else mret indirect);
    mret (din, get32 indirect (4 * (fbn - NDIRECT))).

Fixpoint iappend_loop (fuel : nat) (din : inode) (off : Z) (p : list Z) : M img (inode * Z) :=
  let n := Z.of_nat (length p) in
  if n <=? 0 then mret (din, off) else
  match fuel with
  | O => nofuel
  | S fuel =>
      let fbn := off / BSIZE in
      if negb (fbn <? MAXFILE) then panic "assert" else
      '(din, x) ← place din fbn;
      let n1 := n `min` ((fbn + 1) * BSIZE - off) in
      buf ← rsect x;
      wsect x (splice buf (off - fbn * BSIZE) (take (Z.to_nat n1) p));;
      iappend_loop fuel din (off + n1) (drop (Z.to_nat n1) p)
  end.

Definition iappend (inum : Z) (p : list Z) : M img () :=
  din ← rinode inum;
  '(din, off) ← iappend_loop (length p) din (i_size din) p;
  winode inum (set_isize off din).

(** A [struct dirent] as [main] fills it in. *)
Definition mk_dirent (name : list Z) (inum : Z) : list Z := xshort inum ++ strncpy_chars DIRSIZ name.

Lemma mk_dirent_eq name inum : mk_dirent name inum = make_dirent name inum.
Proof. unfold mk_dirent, xshort. rewrite Z.shiftr_div_pow2 by lia. reflexivity. Qed.

(** [if(argv[i][0] == '_') ++argv[i];] *)
Definition skip_underscore (name : list Z) : list Z :=
  match name with c :: name' => if c =? 95 then name' else name | [] => [] end.

(** One file of the command line: its name and what successive calls of
    [read] return. *)
Definition add_file (rootino : Z) (f : list Z * list (list Z)) : M img () :=
  let '(name, chunks) := f in
  if bool_decide (47 ∈ name) then panic "assert" else
  let name := skip_underscore name in
  inum ← mk_ialloc T_FILE;
  iappend rootino (mk_dirent name inum);;
  forM chunks (iappend inum).

(** [main], from the zeroed image on. *)
Definition mkfs (files : list (list Z * list (list Z))) : M img () :=
  forM (seqZ 0 FSSIZE) (fun i => wsect i zero_block);;
  wsect 1 sb_block;;
  rootino ← mk_ialloc T_DIR;
  if negb (rootino =? ROOTINO) then panic "assert" else
  iappend rootino (mk_dirent [46] rootino);;
  iappend rootino (mk_dirent [46; 46] rootino);;
  forM files (add_file rootino);;
  din ← rinode rootino;
  let off := (i_size din / BSIZE + 1) * BSIZE in
  winode rootino (set_isize off din);;
  s ← get;
  mk_balloc (g_freeblock s).

(** The image file when it has just been created. *)
Definition new_image : img := Img ∅ 0 1 nmeta.
