(* ===== verification/MkfsImg.v ===== *)
(** * Files under construction

    [mkfs] keeps no bitmap while it works: the blocks below [freeblock] are
    taken.  Seen with the bitmap that [mk_balloc] writes at the end, each of
    its steps is one of the kernel's, and the kernel's theory of files applies:
    [iappend] adds bytes to a file and changes nothing else. *)

From S2P Require Import Prelude Mmu Bytes Bio Log Txn Fs FsBlock FsFile FsRw Mkfs.
Local Open Scope kern_scope.
Local Open Scope Z_scope.

(** ** The image with its bitmap *)

Definition mview (s : img) (m : Z) : block :=
  if decide (m = sb_bmapstart sb) then bitmap (g_freeblock s) else disk_block (g_disk s) m.

Lemma nmeta_value : nmeta = 59.
Proof. done. Qed.
Lemma bmapstart_value : sb_bmapstart sb = 58.
Proof. done. Qed.

Lemma BBLOCK_value b : 0 <= b < FSSIZE -> BBLOCK b sb = sb_bmapstart sb /\ b mod BPB = b.
Proof. intros Hb. unfold BBLOCK. change BPB with 4096. unfold FSSIZE in Hb. rewrite Z.div_small, Z.mod_small by lia. done. Qed.

Lemma mkfs_layout : layout sb nmeta.
Proof. split; [done| |done]. intros b Hb. destruct (BBLOCK_value b Hb) as [-> _]. done. Qed.

Lemma bitmap_succ n : 0 <= n -> bitmap (n + 1) = mark (bitmap n) n.
Proof. intros Hn. unfold bitmap. rewrite seqZ_app by lia. by rewrite fold_left_app. Qed.

Lemma bitmap_ok n : 0 <= n <= BPB ->
  length (bitmap n) = 512%nat /\ bytes_ok (bitmap n) /\ forall j, bit_ok j -> bit_set (bitmap n) j = (j <? n).
Proof.
  intros [H0 Hn]. revert Hn. pattern n. apply natlike_ind; [|clear n H0|done].
  - intros _. change (bitmap 0) with zero_block. split; [done|]. split; [apply zero_block_ok|]. intros j Hj. rewrite bit_set_testbit, get8_zero, Z.bits_0.
    unfold bit_ok in Hj. case_cmp; [lia|done].
  - intros n H0 IH Hn. destruct IH as (I1 & I2 & I3); [lia|]. unfold Z.succ. rewrite bitmap_succ by done. unfold mark at 1 2. split; [by rewrite put8_length|].
    split; [by apply put8_bytes|]. intros j Hj. rewrite bit_set_mark, I3 by (done || unfold bit_ok; lia). case_cmp; try done; lia.
Qed.

(** What holds between the steps of [iappend]. *)
Record mk_base (s : img) : Prop := {
  mb_len : g_len s = FSSIZE;
  mb_free : nmeta <= g_freeblock s <= FSSIZE;
  mb_zero : forall m, g_freeblock s <= m -> disk_block (g_disk s) m = zero_block;
  mb_blocks : forall m, length (disk_block (g_disk s) m) = 512%nat /\ bytes_ok (disk_block (g_disk s) m);
}.

Lemma mview_used s b : mk_base s -> 0 <= b < FSSIZE -> used sb (mview s) b = (b <? g_freeblock s).
Proof.
  intros [_ Hf _ _] Hb. unfold used, mview. destruct (BBLOCK_value b Hb) as [-> ->]. rewrite decide_True by done.
  apply bitmap_ok; [|]; unfold bit_ok; change BPB with 4096; change nmeta with 59 in Hf; unfold FSSIZE in *; lia.
Qed.

Lemma mview_blocks s : mk_base s -> blocks_ok sb nmeta (mview s).
Proof.
  intros Hs. pose proof (mb_free s Hs) as Hf. destruct (bitmap_ok (g_freeblock s)) as (B1 & B2 & _); [change BPB with 4096; change nmeta with 59 in Hf; unfold FSSIZE in Hf; lia|].
  split.
  - intros m. unfold mview. case_decide; [done|apply Hs].
  - intros m. unfold mview. case_decide; [done|apply Hs].
  - intros b Hb. rewrite mview_used by (done || (unfold FSSIZE; change nmeta with 59 in *; lia)). apply Z.ltb_lt. lia.
Qed.

Lemma mview_first_free s : mk_base s -> g_freeblock s < FSSIZE -> first_free sb (mview s) (g_freeblock s).
Proof.
  intros Hs Hf. pose proof (mb_free s Hs) as Hr. change nmeta with 59 in Hr. split; [cbn; lia|].
  split; [rewrite mview_used by (done || lia); apply Z.ltb_irrefl|]. intros b Hb. rewrite mview_used by (done || lia). apply Z.ltb_lt. lia.
Qed.

(** ** Taking and writing blocks *)

Lemma next_block_run s : mk_base s -> g_freeblock s < FSSIZE ->
  exists s', next_block s = Ok (g_freeblock s) s' /\ mk_base s' /\ g_freeblock s' = g_freeblock s + 1 /\ g_freeinode s' = g_freeinode s /\
    g_disk s' = g_disk s /\ mview s' ≐ after (alloc_updates sb (mview s) (g_freeblock s)) (mview s).
Proof.
  intros Hs Hf. pose proof (mb_free s Hs) as Hr. change nmeta with 59 in Hr. unfold FSSIZE in *.
  assert (u32 (g_freeblock s + 1) = g_freeblock s + 1) as Hu by (apply u32_small; unfold is_u32, two32; lia).
  eexists. split; [reflexivity|]. rewrite Hu. destruct Hs as [H1 H2 H3 H4]. split.
  { split; [done|cbn; change nmeta with 59; unfold FSSIZE; lia| |done]. intros m Hm. cbn in Hm. apply H3. lia. }
  split; [done|]. split; [done|]. split; [done|]. intros m. rewrite after_alloc. destruct (BBLOCK_value (g_freeblock s)) as [-> ->]; [unfold FSSIZE; lia|].
  unfold mview. cbn [g_disk g_freeblock]. change (sb_bmapstart sb) with 58. destruct (decide (m = g_freeblock s)) as [->|Hne].
  - rewrite decide_False by lia. by apply H3.
  - case_decide; [|done]. rewrite decide_True by done. apply bitmap_succ. lia.
Qed.

Lemma rsect_run s m : mk_base s -> 0 <= m < FSSIZE -> m <> sb_bmapstart sb -> rsect m s = Ok (mview s m) s.
Proof.
  intros Hs Hm Hne. unfold rsect, mview. rewrite (mb_len s Hs), (proj2 (Z.ltb_lt m FSSIZE)) by lia. by rewrite decide_False.
Qed.

Lemma wsect_run s m d : mk_base s -> 0 <= m < g_freeblock s -> m <> sb_bmapstart sb -> length d = 512%nat -> bytes_ok d ->
  exists s', wsect m d s = Ok () s' /\ mk_base s' /\ g_freeblock s' = g_freeblock s /\ g_freeinode s' = g_freeinode s /\
    mview s' ≐ after [(m, d)] (mview s).
Proof.
  intros Hs Hm Hne Hl Hd. pose proof (mb_free s Hs) as Hr. destruct Hs as [H1 H2 H3 H4]. eexists. split; [reflexivity|].
  assert (forall x, disk_block (<[m := d]> (g_disk s)) x = if decide (x = m) then d else disk_block (g_disk s) x) as Hx.
  { intros x. unfold disk_block. case_decide; [subst; by rewrite lookup_insert_eq|by rewrite lookup_insert_ne]. }
  split; [split|split; [done|split; [done|]]].
  - cbn [g_len]. rewrite H1. lia.
  - done.
  - intros x Hmx. cbn [g_disk g_freeblock] in *. rewrite Hx, decide_False by lia. by apply H3.
  - intros x. cbn [g_disk]. rewrite Hx. case_decide; [done|apply H4].
  - intros x. unfold mview, after. cbn [foldl fst snd g_disk g_freeblock]. rewrite Hx. repeat case_decide; try done. congruence.
Qed.

(** ** Finding the block for the next byte *)

(** The file has the blocks for [len] bytes, and no others. *)
Definition extent (v : Z -> block) (ip : inode) (len : Z) : Prop :=
  (forall bn, bn_ok bn -> baddr v ip bn <> 0 <-> bn * BSIZE < len) /\ (addr_at ip NDIRECT <> 0 <-> NDIRECT * BSIZE < len).

(** How many that is, with the indirect block. *)
Definition blocks_of (len : Z) : Z := (len + BSIZE - 1) / BSIZE + (if NDIRECT * BSIZE <? len then 1 else 0).

(** [place] puts block [fbn] into the file. *)
Record placed (s : img) (din : inode) (fbn : Z) (s' : img) (din' : inode) (taken : Z) : Prop := {
  pl_base : mk_base s';
  pl_free : g_freeblock s' = g_freeblock s + taken;
  pl_inode : g_freeinode s' = g_freeinode s;
  pl_frame : exists k, frame sb nmeta k (mview s) din (mview s') din';
  pl_fills : fills (mview s) din (mview s') din';
  pl_at : forall b, bn_ok b -> baddr (mview s') din' b <> 0 <-> b = fbn \/ baddr (mview s) din b <> 0;
  pl_ind : addr_at din' NDIRECT <> 0 <-> NDIRECT <= fbn \/ addr_at din NDIRECT <> 0;
}.

Lemma owned_block s din m : mk_base s -> file_ok sb nmeta (mview s) din -> owns (mview s) din m ->
  0 <= m < g_freeblock s /\ m < FSSIZE /\ m <> sb_bmapstart sb.
Proof.
  intros Hs Hok [Hm Hu]%(fo_own _ _ _ _ Hok). change nmeta with 59 in Hm. change (sb_size sb) with FSSIZE in Hm. change (sb_bmapstart sb) with 58.
  rewrite mview_used in Hu by (done || lia). apply Z.ltb_lt in Hu. lia.
Qed.

(** The entry of the indirect block. *)
Lemma place_entry s din fbn : mk_base s -> file_ok sb nmeta (mview s) din -> NDIRECT <= fbn < MAXFILE -> addr_at din NDIRECT <> 0 ->
  baddr (mview s) din fbn = 0 -> g_freeblock s < FSSIZE ->
  exists s', place din fbn s = Ok (din, g_freeblock s) s' /\ placed s din fbn s' din 1 /\ baddr (mview s') din fbn = g_freeblock s.
Proof.
  intros Hs Hok Hbn Hn E0 Hf. assert (owns (mview s) din (addr_at din NDIRECT)) as Ho by (split; [done|by left]).
  destruct (owned_block s din _ Hs Hok Ho) as (Hr & Hr' & Hne). set (a := addr_at din NDIRECT) in *.
  destruct (next_block_run s Hs Hf) as (s1 & E1 & Hs1 & F1 & I1 & _ & V1). pose proof (mb_free s Hs) as Hfr. change nmeta with 59 in Hfr.
  set (ind := put32 (mview s1 a) (4 * (fbn - NDIRECT)) (g_freeblock s)). pose proof (mview_blocks s1 Hs1) as B1.
  destruct (wsect_run s1 a ind Hs1) as (s2 & E2 & Hs2 & F2 & I2 & V2); [lia|done|subst ind; rewrite put32_length; apply B1|apply put32_bytes, B1|].
  assert (mview s1 a = mview s a) as Ea.
  { apply (fresh_keep sb nmeta (mview s) (g_freeblock s) (mview s1) mkfs_layout (mview_blocks s Hs) (mview_first_free s Hs Hf) V1); [|lia].
    right. apply (fo_own _ _ _ _ Hok a Ho). }
  destruct (install_entry sb nmeta (mview s) din (g_freeblock s) (mview s1) mkfs_layout (mview_blocks s Hs) Hok (mview_first_free s Hs Hf) V1 fbn (mview s2))
    as [[HF HL] HB]; [done|done|done|unfold two32, FSSIZE in *; lia|done|].
  assert (get32 ind (4 * (fbn - NDIRECT)) = g_freeblock s) as Eg.
  { subst ind. pose proof (bo_len _ _ _ B1 a) as Hl. fsizes. rewrite get32_put32 by lia. apply u32_small. unfold is_u32, two32, FSSIZE in *. lia. }
  exists s2. split; [|split].
  - unfold place. rewrite (proj2 (Z.ltb_ge fbn NDIRECT)) by lia. fold a. rewrite (proj2 (Z.eqb_neq a 0)) by done.
    rewrite (Ok_bind (mret din) _ s din s eq_refl). fold a. rewrite (Ok_bind _ _ _ _ _ (rsect_run s a Hs ltac:(lia) Hne)).
    unfold baddr in E0. rewrite (proj2 (Z.ltb_ge fbn NDIRECT)) in E0 by lia. fold a in E0. rewrite (proj2 (Z.eqb_neq a 0)) in E0 by done. rewrite E0.
    cbn [Z.eqb]. unfold mbind, M_bind, bindM. rewrite E1. rewrite <- Ea. fold ind. rewrite E2. unfold mret, M_ret. by rewrite Eg.
  - split; [done|lia|congruence|by exists 1%nat|done| |].
    + intros b Hb. rewrite HB by done. destruct (Z.eqb_spec fbn b) as [<-|Hb']; [split; [by left|lia]|].
      split; [by right|]. by intros [-> |?].
    + split; [left; lia|done].
  - rewrite HB by (fsizes; lia). by rewrite Z.eqb_refl.
Qed.

Lemma place_direct s din fbn : mk_base s -> file_ok sb nmeta (mview s) din -> 0 <= fbn < NDIRECT -> baddr (mview s) din fbn = 0 ->
  g_freeblock s < FSSIZE ->
  exists s' din', place din fbn s = Ok (din', g_freeblock s) s' /\ placed s din fbn s' din' 1 /\ baddr (mview s') din' fbn = g_freeblock s.
Proof.
  intros Hs Hok Hbn E0 Hf. destruct (next_block_run s Hs Hf) as (s1 & E1 & Hs1 & F1 & I1 & _ & V1). pose proof (mb_free s Hs) as Hfr. change nmeta with 59 in Hfr.
  unfold baddr in E0. rewrite (proj2 (Z.ltb_lt fbn NDIRECT)) in E0 by lia.
  destruct (install_direct sb nmeta (mview s) din (g_freeblock s) (mview s1) mkfs_layout (mview_blocks s Hs) Hok (mview_first_free s Hs Hf) V1 fbn)
    as ([HF HL] & HN & HB); [done|done|].
  exists s1, (set_addr fbn (g_freeblock s) din). split; [|split].
  - unfold place. rewrite (proj2 (Z.ltb_lt fbn NDIRECT)), E0 by lia. cbn [Z.eqb]. unfold mbind, M_bind, bindM. rewrite E1. unfold mret, M_ret.
    rewrite addr_set, Z.eqb_refl; [done|apply Hok|fsizes; lia|fsizes; lia].
  - split; [done|lia|congruence|by exists 1%nat|done| |].
    + intros b Hb. rewrite HB by done. destruct (Z.eqb_spec fbn b) as [<-|Hb']; [split; [by left|lia]|]. split; [by right|]. by intros [-> |?].
    + rewrite HN. split; [by right|]. intros [?|?]; [lia|done].
  - rewrite HB by (fsizes; lia). by rewrite Z.eqb_refl.
Qed.

Lemma placed_trans s1 din1 s2 din2 s3 din3 fbn k1 k2 : placed s2 din2 fbn s3 din3 k2 -> mk_base s2 -> g_freeblock s2 = g_freeblock s1 + k1 ->
  g_freeinode s2 = g_freeinode s1 -> (exists k, frame sb nmeta k (mview s1) din1 (mview s2) din2) -> fills (mview s1) din1 (mview s2) din2 ->
  (forall b, bn_ok b -> baddr (mview s2) din2 b = baddr (mview s1) din1 b) -> NDIRECT <= fbn -> placed s1 din1 fbn s3 din3 (k1 + k2).
Proof.
  intros [P1 P2 P3 [k P4] P5 P6 P7] _ HF HI [k' HFr] HL HB Hbn. split; [done|lia|congruence|exists (k' + k)%nat; by eapply frame_trans|by eapply fills_trans| |].
  - intros b Hb. by rewrite P6, HB.
  - rewrite P7. tauto.
Qed.

(** Block [fbn] is the first the file has not got. *)
Lemma place_new s din fbn : mk_base s -> file_ok sb nmeta (mview s) din -> bn_ok fbn -> baddr (mview s) din fbn = 0 ->
  (addr_at din NDIRECT <> 0 <-> NDIRECT < fbn) -> let taken := if fbn =? NDIRECT then 2 else 1 in g_freeblock s + taken <= FSSIZE ->
  exists s' din' x, place din fbn s = Ok (din', x) s' /\ placed s din fbn s' din' taken /\ baddr (mview s') din' fbn = x /\ x <> 0.
Proof.
  intros Hs Hok Hbn E0 Hi taken Hroom. pose proof (mb_free s Hs) as Hfr. change nmeta with 59 in Hfr.
  destruct (Z.lt_ge_cases fbn NDIRECT) as [Hd|Hd].
  - subst taken. rewrite (proj2 (Z.eqb_neq fbn NDIRECT)) in * by lia.
    destruct (place_direct s din fbn Hs Hok) as (s' & din' & H1 & H2 & H3); [unfold bn_ok in Hbn; lia|done|lia|]. exists s', din', (g_freeblock s). split; [done|]. split; [done|]. split; [done|lia].
  - destruct (Z.eqb_spec fbn NDIRECT) as [Heq|Heq]; subst taken.
    + assert (addr_at din NDIRECT = 0) as Ea by (destruct (Z.eq_dec (addr_at din NDIRECT) 0) as [|Hx]; [done|apply Hi in Hx; lia]).
      destruct (next_block_run s Hs ltac:(lia)) as (s1 & E1 & Hs1 & F1 & I1 & _ & V1).
      destruct (install_indirect sb nmeta (mview s) din (g_freeblock s) (mview s1) mkfs_layout (mview_blocks s Hs) Hok (mview_first_free s Hs ltac:(lia)) V1 Ea)
        as ([HF HL] & HN & HB). set (din1 := set_addr NDIRECT (g_freeblock s) din) in *.
      destruct (place_entry s1 din1 fbn Hs1 (fr_ok _ _ _ _ _ _ _ HF)) as (s2 & E2 & P2 & A2); [fsizes; lia|rewrite HN; lia|by rewrite HB|lia|].
      exists s2, din1, (g_freeblock s1). split; [|split; [|split; [done|lia]]].
      * assert ((x ← next_block; mret (set_addr NDIRECT x din)) s = Ok din1 s1) as Ex by (by rewrite (Ok_bind _ _ _ _ _ E1)).
        rewrite <- E2. unfold place. rewrite (proj2 (Z.ltb_ge fbn NDIRECT)), Ea by lia. rewrite Z.eqb_refl, (Ok_bind _ _ _ _ _ Ex).
        rewrite (proj2 (Z.eqb_neq (addr_at din1 NDIRECT) 0)) by (rewrite HN; lia). by rewrite (Ok_bind (mret din1) _ s1 din1 s1 eq_refl).
      * change 2 with (1 + 1). eapply (placed_trans _ _ s1 din1); try done; by exists 1%nat.
    + destruct (place_entry s din fbn Hs Hok) as (s2 & E2 & P2 & A2); [fsizes; lia|apply Hi; lia|done|lia|]. exists s2, din, (g_freeblock s). split; [done|]. split; [done|]. split; [done|lia].
Qed.

Lemma place_old s din fbn : mk_base s -> file_ok sb nmeta (mview s) din -> bn_ok fbn -> baddr (mview s) din fbn <> 0 ->
  place din fbn s = Ok (din, baddr (mview s) din fbn) s /\ placed s din fbn s din 0.
Proof.
  intros Hs Hok Hbn Hn. split.
  - unfold place. unfold baddr in *. destruct (Z.ltb_spec fbn NDIRECT).
    + rewrite (proj2 (Z.eqb_neq _ 0)) by done. by rewrite (Ok_bind (mret din) _ s din s eq_refl).
    + destruct (Z.eqb_spec (addr_at din NDIRECT) 0) as [|Ha]; [done|]. rewrite (Ok_bind (mret din) _ s din s eq_refl).
      destruct (owned_block s din (addr_at din NDIRECT) Hs Hok) as (Hr & Hr' & Hne); [split; [done|by left]|].
      rewrite (Ok_bind _ _ _ _ _ (rsect_run s (addr_at din NDIRECT) Hs ltac:(lia) Hne)), (proj2 (Z.eqb_neq _ 0)) by done. by rewrite (Ok_bind (mret _) _ s _ s eq_refl).
  - split; [done|lia|done|exists 0%nat; by apply frame_refl, mview_blocks|apply fills_refl| |].
    + intros b Hb. split; [by right|]. by intros [-> |?].
    + split; [by right|]. intros [Hd|?]; [|done]. unfold baddr in Hn. rewrite (proj2 (Z.ltb_ge fbn NDIRECT)) in Hn by lia.
      intros E. by rewrite E, Z.eqb_refl in Hn.
Qed.

(** The block for the byte after the last. *)
Lemma place_run s din len : mk_base s -> file_ok sb nmeta (mview s) din -> extent (mview s) din len -> off_ok len ->
  let fbn := len / BSIZE in let taken := blocks_of (len + 1) - blocks_of len in g_freeblock s + taken <= FSSIZE ->
  exists s' din' x, place din fbn s = Ok (din', x) s' /\ placed s din fbn s' din' taken /\ baddr (mview s') din' fbn = x /\ x <> 0.
Proof.
  intros Hs Hok [He1 He2] Hlen fbn taken Hroom. assert (bn_ok fbn) as Hbn by (by apply off_bn).
  destruct (Z.eq_dec (len mod BSIZE) 0) as [Hz|Hz].
  - assert (taken = if fbn =? NDIRECT then 2 else 1) as Ht.
    { subst taken fbn. unfold blocks_of. fsizes. case_cmp; Z.div_mod_to_equations; lia. }
    rewrite Ht in *. apply place_new; try done.
    + destruct (Z.eq_dec (baddr (mview s) din fbn) 0) as [|Hx]; [done|]. apply He1 in Hx; [|done]. subst fbn. fsizes. Z.div_mod_to_equations; lia.
    + rewrite He2. subst fbn. fsizes. split; Z.div_mod_to_equations; lia.
  - assert (taken = 0) as Ht by (subst taken fbn; unfold blocks_of; fsizes; case_cmp; Z.div_mod_to_equations; lia). rewrite Ht.
    assert (baddr (mview s) din fbn <> 0) as Hn by (apply He1; [done|]; subst fbn; fsizes; Z.div_mod_to_equations; lia).
    destruct (place_old s din fbn Hs Hok Hbn Hn) as [H1 H2]. by exists s, din, (baddr (mview s) din fbn).
Qed.

(** ** Appending *)

Lemma overlay_get8 bs src o : 0 <= o -> overlay (get8 bs) (Z.of_nat (length bs)) src o = get8 (bs ++ src) o.
Proof.
  intros Ho. unfold overlay, get8. rewrite !nth_lookup. destruct (Z.leb_spec (Z.of_nat (length bs)) o); cbn [andb].
  - rewrite lookup_app_r by lia. replace (Z.to_nat (o - Z.of_nat (length bs))) with (Z.to_nat o - length bs)%nat by lia.
    case_cmp; [done|]. rewrite !lookup_ge_None_2 by lia. done.
  - by rewrite lookup_app_l by lia.
Qed.

Record appended (s : img) (din : inode) (bs p : list Z) (s' : img) (din' : inode) : Prop := {
  ap_base : mk_base s';
  ap_free : g_freeblock s' = g_freeblock s + blocks_of (Z.of_nat (length (bs ++ p))) - blocks_of (Z.of_nat (length bs));
  ap_inode : g_freeinode s' = g_freeinode s;
  ap_frame : exists k, frame sb nmeta k (mview s) din (mview s') din';
  ap_bytes : forall o, off_ok o -> fbyte (mview s') din' o = get8 (bs ++ p) o;
  ap_extent : extent (mview s') din' (Z.of_nat (length (bs ++ p)));
}.

(** One round of the loop: [src] goes into the block of the last byte, or
    into a new one. *)
Lemma append_round s din bs src : let len := Z.of_nat (length bs) in mk_base s -> file_ok sb nmeta (mview s) din ->
  (forall o, off_ok o -> fbyte (mview s) din o = get8 bs o) -> extent (mview s) din len -> off_ok len -> bytes_ok src -> src <> [] ->
  len mod BSIZE + Z.of_nat (length src) <= BSIZE -> g_freeblock s + (blocks_of (len + 1) - blocks_of len) <= FSSIZE ->
  exists s1 s' din' x, place din (len / BSIZE) s = Ok (din', x) s1 /\ rsect x s1 = Ok (mview s1 x) s1 /\
    wsect x (splice (mview s1 x) (len mod BSIZE) src) s1 = Ok () s' /\ appended s din bs src s' din'.
Proof.
  intros len Hs Hok Hbytes He Hlen Hsrc Hne Hfit Hroom.
  destruct (place_run s din len Hs Hok He Hlen Hroom) as (s1 & din1 & x & E1 & [P1 P2 P3 [k P4] P5 P6 P7] & Ex & Hx).
  assert (bn_ok (len / BSIZE)) as Hbn by (by apply off_bn). pose proof (fr_ok _ _ _ _ _ _ _ P4) as Hok1.
  destruct (owned_block s1 din1 x P1 Hok1) as (Hr & Hr' & Hnb); [split; [done|right; by exists (len / BSIZE)]|].
  assert (0 <= len mod BSIZE) as Hmod by (by apply Z.mod_pos_bound). pose proof (bo_len _ _ _ (mview_blocks s1 P1) x) as Hl.
  destruct (wsect_run s1 x (splice (mview s1 x) (len mod BSIZE) src) P1 Hr Hnb) as (s2 & E2 & Hs2 & F2 & I2 & V2);
    [rewrite splice_length; [done|done|fsizes; lia]|apply splice_bytes; [apply (mview_blocks s1 P1)|done]|].
  destruct (round_written nmeta sb (mview s) din (mview s1) din1 (mview s2) k len src) as (F & HB & HW & _); try done; [apply mkfs_layout|by rewrite Ex| |].
  { intros m. rewrite Ex. apply V2. }
  exists s1, s2, din1, x. split; [done|]. split; [by apply rsect_run; [|lia|]|]. split; [done|].
  assert (0 < Z.of_nat (length src)) as Hpos by (destruct src; [done|cbn; lia]).
  assert (Z.of_nat (length (bs ++ src)) = len + Z.of_nat (length src)) as El by (rewrite length_app; lia). fold len in El |- *.
  split; [done| |congruence|by exists k| |].
  - rewrite El, F2, P2. unfold blocks_of. fsizes. case_cmp; Z.div_mod_to_equations; lia.
  - intros o Ho. rewrite HW by done. rewrite <- overlay_get8 by apply Ho. by apply overlay_ext, Hbytes.
  - destruct He as [He1 He2]. rewrite El. split.
    + intros bn Hb. rewrite HB, P6, He1 by done. fsizes. split; [intros [-> |?]|intros ?]; Z.div_mod_to_equations; lia.
    + rewrite P7, He2. fsizes. split; [intros [?|?]|intros ?]; Z.div_mod_to_equations; lia.
Qed.

Lemma appended_trans s din bs p1 s1 din1 p2 s2 din2 : appended s din bs p1 s1 din1 -> appended s1 din1 (bs ++ p1) p2 s2 din2 ->
  appended s din bs (p1 ++ p2) s2 din2.
Proof.
  intros [A1 A2 A3 [k A4] A5 A6] [B1 B2 B3 [k' B4] B5 B6]. rewrite <- app_assoc in *. split; [done|lia|congruence|exists (k + k')%nat; by eapply frame_trans|done|done].
Qed.

Lemma appended_nil s din bs : mk_base s -> file_ok sb nmeta (mview s) din -> (forall o, off_ok o -> fbyte (mview s) din o = get8 bs o) ->
  extent (mview s) din (Z.of_nat (length bs)) -> appended s din bs [] s din.
Proof. intros Hs Hok Hb He. split; rewrite ?app_nil_r; try done; [lia|]. exists 0%nat. by apply frame_refl, mview_blocks. Qed.

Lemma blocks_of_mono a b : 0 <= a <= b -> 0 <= blocks_of a <= blocks_of b.
Proof. intros Hab. unfold blocks_of. fsizes. case_cmp; Z.div_mod_to_equations; lia. Qed.

Lemma iappend_loop_run fuel : forall s din bs p, (length p <= fuel)%nat -> mk_base s -> file_ok sb nmeta (mview s) din ->
  (forall o, off_ok o -> fbyte (mview s) din o = get8 bs o) -> extent (mview s) din (Z.of_nat (length bs)) -> bytes_ok p ->
  Z.of_nat (length (bs ++ p)) <= MAXFILE * BSIZE ->
  g_freeblock s + (blocks_of (Z.of_nat (length (bs ++ p))) - blocks_of (Z.of_nat (length bs))) <= FSSIZE ->
  exists s' din', iappend_loop fuel din (Z.of_nat (length bs)) p s = Ok (din', Z.of_nat (length (bs ++ p))) s' /\ appended s din bs p s' din'.
Proof.
  induction fuel as [|fuel IH]; intros s din bs p Hfuel Hs Hok Hb He Hp Hmax Hroom.
  { destruct p; [|cbn in Hfuel; lia]. exists s, din. rewrite app_nil_r. split; [done|]. by apply appended_nil. }
  destruct p as [|c p0] eqn:Ep; [exists s, din; rewrite app_nil_r; split; [done|by apply appended_nil]|]. rewrite <- Ep in *.
  set (len := Z.of_nat (length bs)) in *. set (n := Z.of_nat (length p)) in *.
  assert (0 < n) as Hn by (subst n; rewrite Ep; cbn; lia). assert (Z.of_nat (length (bs ++ p)) = len + n) as El by (rewrite length_app; lia).
  pose proof (Z.mod_pos_bound len BSIZE ltac:(done)) as Hmod. assert (off_ok len) as Hoff by (unfold off_ok; lia).
  set (n1 := n `min` ((len / BSIZE + 1) * BSIZE - len)). assert (n1 = n `min` (BSIZE - len mod BSIZE)) as En1 by (subst n1; fsizes; Z.div_mod_to_equations; lia).
  set (src := take (Z.to_nat n1) p). assert (Z.of_nat (length src) = n1) as Hsrc by (subst src; rewrite length_take; lia).
  pose proof (blocks_of_mono (len + 1) (len + n) ltac:(lia)) as Hmono. rewrite El in Hmax, Hroom.
  destruct (append_round s din bs src) as (s1 & s2 & din1 & x & E1 & E2 & E3 & HA); try done;
    [by apply Forall_take|intros E; rewrite E in Hsrc; cbn in Hsrc; lia|rewrite Hsrc; fold len; lia|fold len; lia|]. fold len in E1, E3.
  pose proof HA as [A1 A2 A3 [k A4] A5 A6]. assert (Z.of_nat (length (bs ++ src)) = len + n1) as El1 by (rewrite length_app; lia).
  assert (src ++ drop (Z.to_nat n1) p = p) as Hsplit by apply take_drop.
  destruct (IH s2 din1 (bs ++ src) (drop (Z.to_nat n1) p)) as (s3 & din3 & E4 & HA2).
  { rewrite length_drop. lia. } { done. } { apply A4. } { done. } { done. } { by apply Forall_drop. }
  { rewrite <- app_assoc, Hsplit, El. lia. } { rewrite <- app_assoc, Hsplit, El. fold len in A2. lia. }
  rewrite <- app_assoc, Hsplit in E4. exists s3, din3. split; [|rewrite <- Hsplit; by eapply appended_trans].
  cbn [iappend_loop]. fold n. rewrite (proj2 (Z.leb_gt n 0)) by lia. rewrite (proj2 (Z.ltb_lt (len / BSIZE) MAXFILE)) by apply (off_bn len Hoff). cbn [negb].
  rewrite (Ok_bind _ _ _ _ _ E1), (Ok_bind _ _ _ _ _ E2). fold n1. fold src. replace (len - len / BSIZE * BSIZE) with (len mod BSIZE) by (fsizes; Z.div_mod_to_equations; lia).
  rewrite (Ok_bind _ _ _ _ _ E3). by rewrite <- El1.
Qed.
