(* ===== verification/MkfsOk.v ===== *)
(** * The image [mkfs] makes

    The inodes of the image with the bytes of their files, and what
    [mk_ialloc] and [iappend] do to them. *)

From S2P Require Import Prelude Mmu Bytes Bio Log Txn Crash Fs FsBlock FsFile FsRw Mkfs MkfsImg.
Local Open Scope kern_scope.
Local Open Scope Z_scope.

(** ** Inodes *)

Definition inode_of (v : Z -> block) (inum : Z) : inode := load_dinode (v (IBLOCK inum sb)) (dinode_off inum) (blank inum).
Definition inum_ok (inum : Z) : Prop := 0 <= inum < NINODES.

Lemma IBLOCK_range inum : inum_ok inum -> 32 <= IBLOCK inum sb < sb_bmapstart sb /\ 0 <= dinode_off inum /\ dinode_off inum + 64 <= 512.
Proof.
  unfold inum_ok, NINODES, IBLOCK, dinode_off. change IPB with 8. change (sb_inodestart sb) with 32. change (sb_bmapstart sb) with 58.
  intros H. Z.div_mod_to_equations. lia.
Qed.

(** Fields of one slot of an inode block do not reach into another. *)
Lemma get8_store ip o d k : length (i_addrs ip) = 13%nat -> 0 <= o -> o + 64 <= Z.of_nat (length d) -> 0 <= k -> k < o \/ o + 64 <= k ->
  get8 (store_dinode ip o d) k = get8 d k.
Proof.
  assert (forall w a e, 0 <= a -> a + 2 <= Z.of_nat (length e) -> 0 <= k -> k < a \/ a + 2 <= k -> get8 (put16 e a w) k = get8 e k) as H16.
  { intros w a e Ha Hl Hk Hd. unfold put16. rewrite !get8_put8 by (rewrite ?put8_length; lia). case_cmp; lia. }
  assert (forall w a e, 0 <= a -> a + 4 <= Z.of_nat (length e) -> 0 <= k -> k < a \/ a + 4 <= k -> get8 (put32 e a w) k = get8 e k) as H32.
  { intros w a e Ha Hl Hk Hd. unfold put32. rewrite !H16 by (rewrite ?put16_length; lia). done. }
  assert (forall ws a e, 0 <= a -> a + 4 * Z.of_nat (length ws) <= Z.of_nat (length e) -> 0 <= k -> k < a \/ a + 4 * Z.of_nat (length ws) <= k ->
    get8 (put_words e a ws) k = get8 e k) as Hws.
  { induction ws as [|w ws IH]; intros a e Ha Hl Hk Hd; [done|]. cbn [put_words length] in *. rewrite IH by (rewrite ?put32_length; lia). apply H32; lia. }
  intros Hlen Ho Hl Hk Hd. unfold store_dinode. rewrite Hws by (rewrite ?put32_length, ?put16_length; lia).
  rewrite H32 by (rewrite ?put16_length; lia). by rewrite !H16 by (rewrite ?put16_length; lia).
Qed.

Lemma load_ext d d' o ip : (forall k, o <= k < o + 64 -> get8 d' k = get8 d k) -> load_dinode d' o ip = load_dinode d o ip.
Proof.
  intros H. assert (forall k, o <= k < o + 63 -> get16 d' k = get16 d k) as H16 by (intros k Hk; unfold get16; rewrite !H by lia; done).
  assert (forall k, o <= k < o + 61 -> get32 d' k = get32 d k) as H32 by (intros k Hk; unfold get32; rewrite !H16 by lia; done).
  unfold load_dinode. rewrite !H16, H32 by lia. f_equal. unfold get_words. apply list_fmap_ext. intros i x [-> Hi]%lookup_seqZ.
  change (NDIRECT + 1) with 13 in Hi. apply H32. lia.
Qed.

Lemma winode_run s inum ip : mk_base s -> inum_ok inum -> dinode_ok ip ->
  exists s', winode inum ip s = Ok () s' /\ mk_base s' /\ g_freeblock s' = g_freeblock s /\ g_freeinode s' = g_freeinode s /\
    (forall m, m <> IBLOCK inum sb -> mview s' m = mview s m) /\ inode_of (mview s') inum = disk_fields ip (blank inum) /\
    forall j, inum_ok j -> j <> inum -> inode_of (mview s') j = inode_of (mview s) j.
Proof.
  intros Hs Hi Hip. destruct (IBLOCK_range inum Hi) as (Hr & Ho & Ho'). pose proof (mb_free s Hs) as Hf. change nmeta with 59 in Hf. change (sb_bmapstart sb) with 58 in *.
  set (b := IBLOCK inum sb) in *. pose proof (mview_blocks s Hs) as HB. pose proof (bo_len _ _ _ HB b) as Hl.
  destruct (wsect_run s b (store_dinode ip (dinode_off inum) (mview s b)) Hs) as (s' & E & Hs' & F & I & V);
    [lia|change (sb_bmapstart sb) with 58; lia|rewrite store_dinode_length; apply HB|apply store_dinode_bytes, HB|].
  assert (forall m, m <> b -> mview s' m = mview s m) as Hne by (intros m Hm; rewrite (V m); unfold after; cbn; by rewrite decide_False).
  assert (mview s' b = store_dinode ip (dinode_off inum) (mview s b)) as Hat by (rewrite (V b); unfold after; cbn; by rewrite decide_True).
  exists s'. split.
  { unfold winode. fold b. rewrite (Ok_bind _ _ _ _ _ (rsect_run s b Hs ltac:(unfold FSSIZE in *; lia) ltac:(change (sb_bmapstart sb) with 58; lia))). done. }
  split; [done|]. split; [done|]. split; [done|]. split; [done|]. split.
  - unfold inode_of. fold b. rewrite Hat. apply load_store_dinode; [done|done|rewrite Hl; lia].
  - intros j Hj Hji. unfold inode_of. destruct (Z.eq_dec (IBLOCK j sb) b) as [Eb|Eb]; [|by rewrite Hne].
    rewrite Eb, Hat. apply load_ext. intros k Hk. destruct (IBLOCK_range j Hj) as (_ & Hoj & Hoj'). apply get8_store; [apply Hip|lia..|].
    subst b. unfold IBLOCK, dinode_off in *. change IPB with 8 in *. Z.div_mod_to_equations. lia.
Qed.

(** ** The files of the image *)

(** Inode [inum] is a file of type [ty] that holds [bs]. *)
Record stored (v : Z -> block) (inum ty : Z) (bs : list Z) : Prop := {
  st_ids : let ip := inode_of v inum in i_type ip = ty /\ i_major ip = 0 /\ i_minor ip = 0 /\ i_nlink ip = 1;
  st_size : i_size (inode_of v inum) = Z.of_nat (length bs);
  st_max : Z.of_nat (length bs) <= MAXFILE * BSIZE;
  st_ok : file_ok sb nmeta v (inode_of v inum);
  st_bytes : forall o, off_ok o -> fbyte v (inode_of v inum) o = get8 bs o;
  st_extent : extent v (inode_of v inum) (Z.of_nat (length bs));
}.

(** The image holds the files [F], inodes 1, 2, ... in order; the superblock
    and an empty log are in place, and the other inodes are free. *)
Record mk_ok (s : img) (F : list (Z * list Z)) : Prop := {
  mk_b : mk_base s;
  mk_inum : g_freeinode s = Z.of_nat (length F) + 1;
  mk_room : inum_ok (Z.of_nat (length F));
  mk_low : mview s 1 = sb_block /\ forall m, 2 <= m < 32 -> mview s m = zero_block;
  mk_files : forall i ty bs, F !! i = Some (ty, bs) -> stored (mview s) (Z.of_nat i + 1) ty bs;
  mk_apart : forall i j m, (i < length F)%nat -> (j < length F)%nat -> i <> j ->
    owns (mview s) (inode_of (mview s) (Z.of_nat i + 1)) m -> ~ owns (mview s) (inode_of (mview s) (Z.of_nat j + 1)) m;
  mk_unused : forall inum, g_freeinode s <= inum < NINODES -> i_type (inode_of (mview s) inum) = 0;
}.

Lemma file_ok_addrs v ip : file_ok sb nmeta v ip -> Forall is_u32 (i_addrs ip).
Proof.
  intros Hok. apply Forall_lookup. intros k a Hk. pose proof (lookup_lt_Some _ _ _ Hk) as Hlt. rewrite (fo_len _ _ _ _ Hok) in Hlt.
  assert (addr_at ip (Z.of_nat k) = a) as Ea by (unfold addr_at; by rewrite Nat2Z.id, nth_lookup, Hk).
  destruct (Z.eq_dec a 0) as [->|Hn]; [done|]. assert (owns v ip a) as Ho.
  { split; [done|]. destruct (decide (k = 12%nat)) as [->|Hk12]; [by left|]. right. exists (Z.of_nat k). split; [fsizes; lia|].
    unfold baddr. change NDIRECT with 12. by rewrite (proj2 (Z.ltb_lt _ _)) by lia. }
  apply (fo_own _ _ _ _ Hok) in Ho as [Hr _]. change nmeta with 59 in Hr. change (sb_size sb) with 1000 in Hr. unfold is_u32, two32. lia.
Qed.

(** Nothing of a file changed. *)
Lemma stored_keep v v' inum ty bs : stored v inum ty bs -> inode_of v' inum = inode_of v inum ->
  (forall m, owns v (inode_of v inum) m -> v' m = v m /\ used sb v' m = true) -> stored v' inum ty bs /\
  forall m, owns v' (inode_of v' inum) m <-> owns v (inode_of v inum) m.
Proof.
  intros [S1 S2 S3 S4 S5 S6] Ei Hm. destruct (untouched nmeta sb v v' (inode_of v inum) S4) as (U1 & U2 & U3); [intros m Ho; by apply Hm..|].
  split; [|intros m; rewrite Ei; unfold owns; by setoid_rewrite U2]. split; rewrite ?Ei; try done.
  - intros o Ho. rewrite U3 by done. by apply S5.
  - split; [|apply S6]. intros bn Hb. rewrite U2. by apply S6.
Qed.

Lemma zero_addrs v ip : i_addrs ip = replicate 13 0 -> (forall k, addr_at ip k = 0) /\ forall bn, baddr v ip bn = 0.
Proof.
  intros E. assert (forall k, addr_at ip k = 0) as Ha.
  { intros k. unfold addr_at. rewrite E, nth_lookup. destruct (replicate 13 0 !! Z.to_nat k) eqn:El; [|done]. by apply lookup_replicate in El as [-> _]. }
  split; [done|]. intros bn. unfold baddr. rewrite !Ha. by case_bool.
Qed.

Lemma stored_empty v inum ty : let ip := inode_of v inum in i_type ip = ty -> i_major ip = 0 -> i_minor ip = 0 -> i_nlink ip = 1 ->
  i_size ip = 0 -> i_addrs ip = replicate 13 0 -> stored v inum ty [] /\ forall m, ~ owns v ip m.
Proof.
  intros ip H1 H2 H3 H4 H5 H6. destruct (zero_addrs v ip H6) as [Ha Hb]. assert (forall m, ~ owns v ip m) as Hno.
  { intros m [Hm [->|(bn & _ & ->)]]; [by rewrite Ha in Hm|by rewrite Hb in Hm]. }
  split; [|done]. split; try done.
  - split; [done|by fold ip; rewrite H6| | |]; fold ip.
    + intros m Hm. by apply Hno in Hm.
    + intros bn bn' _ _ Hn. by rewrite Hb in Hn.
    + intros bn _ Hn. by rewrite Ha in Hn.
  - intros o Ho. fold ip. unfold fbyte. by rewrite Hb, get8_nil.
  - fold ip. split; [intros bn Hbn; rewrite Hb|rewrite Ha]; cbn; (split; [done|]); fsizes; lia.
Qed.

(** ** [mk_ialloc] and [iappend] *)

Lemma inum_of i n : inum_ok (Z.of_nat n) -> (i < n)%nat -> inum_ok (Z.of_nat i + 1).
Proof. unfold inum_ok. lia. Qed.

(** Owned blocks lie in the data area. *)
Lemma owned_data v ip m : file_ok sb nmeta v ip -> owns v ip m -> sb_bmapstart sb < m.
Proof. intros Hok [Hr _]%(fo_own _ _ _ _ Hok). change nmeta with 59 in Hr. change (sb_bmapstart sb) with 58. lia. Qed.

(** Blocks from the bitmap on are as before, and so are the inodes of [F]. *)
Lemma stored_low v v' inum ty bs : stored v inum ty bs -> inode_of v' inum = inode_of v inum -> (forall m, sb_bmapstart sb <= m -> v' m = v m) ->
  stored v' inum ty bs /\ forall m, owns v' (inode_of v' inum) m <-> owns v (inode_of v inum) m.
Proof.
  intros Hst Ei Hv. apply stored_keep; [done|done|]. intros m Ho. pose proof (owned_data _ _ _ (st_ok _ _ _ _ Hst) Ho) as Hm. split; [apply Hv; lia|].
  destruct (fo_own _ _ _ _ (st_ok _ _ _ _ Hst) m Ho) as [Hr Hu]. rewrite <- Hu. unfold used.
  destruct (ly_bitmap _ _ mkfs_layout m) as [Hb _]; [change nmeta with 59 in Hr; lia|]. by rewrite Hv.
Qed.

Lemma ialloc_run s F ty : mk_ok s F -> inum_ok (Z.of_nat (length F) + 1) -> is_s16 ty ->
  exists s', mk_ialloc ty s = Ok (Z.of_nat (length F) + 1) s' /\ mk_ok s' (F ++ [(ty, [])]) /\ g_freeblock s' = g_freeblock s.
Proof.
  intros Hok Hi Hty. pose proof Hok as [H1 H2 H3 [H4 H4'] H5 H6 H7]. set (inum := Z.of_nat (length F) + 1) in *.
  set (s0 := Img (g_disk s) (g_len s) (u32 (inum + 1)) (g_freeblock s)). assert (mk_base s0) as Hs0 by (destruct H1; by split).
  assert (u32 (inum + 1) = inum + 1) as Hu by (apply u32_small; unfold is_u32, two32, inum_ok, NINODES in *; lia).
  destruct (winode_run s0 inum (set_itype ty (set_nlink 1 (blank inum))) Hs0 Hi) as (s' & E & Hs' & F1 & I1 & V1 & N1 & N2).
  { split; try done; exact (Forall_replicate is_u32 13 0 (conj (Z.le_refl 0) eq_refl)). }
  destruct (IBLOCK_range inum Hi) as (Hr & _). change (mview s0) with (mview s) in *.
  destruct (stored_empty (mview s') inum ty) as [Hst Hno]; [by rewrite N1..|].
  assert (forall i, (i < length F)%nat -> inode_of (mview s') (Z.of_nat i + 1) = inode_of (mview s) (Z.of_nat i + 1)) as Hin.
  { intros i Hlt. apply N2; [|lia]. by apply (inum_of _ (length F)). }
  assert (forall i ty bs, F !! i = Some (ty, bs) -> stored (mview s') (Z.of_nat i + 1) ty bs /\
    forall m, owns (mview s') (inode_of (mview s') (Z.of_nat i + 1)) m <-> owns (mview s) (inode_of (mview s) (Z.of_nat i + 1)) m) as Hold.
  { intros i t bs Hf. apply stored_low; [by apply H5|apply Hin; by eapply lookup_lt_Some|]. intros m Hm. apply V1. lia. }
  exists s'. split; [|split; [split|done]].
  - unfold mk_ialloc. rewrite H2. fold inum. fold s0. by rewrite (Ok_bind _ _ _ _ _ E).
  - done.
  - rewrite I1. cbn. rewrite Hu, length_app. cbn. subst inum. lia.
  - rewrite length_app. cbn. subst inum. unfold inum_ok in *. lia.
  - split; [rewrite V1; [done|lia]|]. intros m Hm. rewrite V1 by lia. by apply H4'.
  - intros i t bs [Hf|[Hge Hf]]%lookup_app_Some; [by apply Hold|]. apply list_lookup_singleton_Some in Hf as [Hz [= <- <-]].
    replace (Z.of_nat i + 1) with inum by (subst inum; lia). done.
  - assert (forall i m, (i < length F)%nat -> owns (mview s') (inode_of (mview s') (Z.of_nat i + 1)) m -> owns (mview s) (inode_of (mview s) (Z.of_nat i + 1)) m) as Hback.
    { intros i m Hlt Ho. destruct (lookup_lt_is_Some_2 F i Hlt) as [[t bs] Hf]. by apply (Hold i t bs Hf). }
    assert (forall i, ~ (i < length F)%nat -> (i < S (length F))%nat -> Z.of_nat i + 1 = inum) as Hlast by (subst inum; lia).
    intros i j m. rewrite length_app, Nat.add_1_r. intros Hi' Hj' Hij Ho Ho'.
    destruct (decide (i < length F)%nat) as [Hil|Hil]; [|rewrite (Hlast i Hil Hi') in Ho; by apply Hno in Ho].
    destruct (decide (j < length F)%nat) as [Hjl|Hjl]; [|rewrite (Hlast j Hjl Hj') in Ho'; by apply Hno in Ho'].
    apply (H6 i j m Hil Hjl Hij); by apply Hback.
  - intros k Hk. rewrite I1 in Hk. cbn in Hk. rewrite Hu in Hk. rewrite N2 by (unfold inum_ok, inum in *; lia). apply H7. rewrite H2. subst inum. lia.
Qed.

Lemma file_ok_size v n ip : file_ok sb nmeta v ip -> file_ok sb nmeta v (set_isize n ip).
Proof. by intros [K1 K2 K3 K4 K5]. Qed.

(** The file after the loop of [iappend] and the write of its inode. *)
Lemma stored_appended s s1 s2 inum ty bs p din1 : stored (mview s) inum ty bs -> mk_base s1 ->
  appended s (inode_of (mview s) inum) bs p s1 din1 -> Z.of_nat (length (bs ++ p)) <= MAXFILE * BSIZE ->
  inode_of (mview s2) inum = set_isize (Z.of_nat (length (bs ++ p))) din1 -> (forall m, sb_bmapstart sb <= m -> mview s2 m = mview s1 m) ->
  stored (mview s2) inum ty (bs ++ p) /\ forall m, owns (mview s2) (inode_of (mview s2) inum) m <-> owns (mview s1) din1 m.
Proof.
  intros [S1 S2 S3 S4 S5 S6] Hs1 [A1 A2 A3 [k A4] A5 A6] Hmax Ei Hv. pose proof (fr_same _ _ _ _ _ _ _ A4) as Esame.
  destruct (view_agree sb nmeta (mview s1) (mview s2) (set_isize (Z.of_nat (length (bs ++ p))) din1) mkfs_layout) as (K1 & K2 & K3 & _);
    [by apply file_ok_size, A4|done|].
  split; [|intros m; rewrite Ei; unfold owns; by setoid_rewrite K2]. split; rewrite ?Ei; try done.
  - rewrite Esame. exact S1.
  - intros o Ho. rewrite K3 by done. by apply A5.
  - split; [|apply A6]. intros bn Hb. rewrite K2. by apply A6.
Qed.

(** A file that is not the one appended to. *)
Lemma stored_other s s1 din din1 k inum ty bs : mk_base s -> stored (mview s) inum ty bs -> inum_ok inum -> frame sb nmeta k (mview s) din (mview s1) din1 ->
  (forall m, owns (mview s) (inode_of (mview s) inum) m -> ~ owns (mview s) din m) ->
  stored (mview s1) inum ty bs /\ (forall m, owns (mview s1) (inode_of (mview s1) inum) m <-> owns (mview s) (inode_of (mview s) inum) m).
Proof.
  intros Hs Hst Hi HF Hno. apply stored_keep; [done| |].
  - unfold inode_of. f_equal. apply (fr_keep _ _ _ _ _ _ _ HF). left. by apply IBLOCK_range.
  - intros m Ho. destruct (fo_own _ _ _ _ (st_ok _ _ _ _ Hst) m Ho) as [Hr Hu]. split; [|by apply (fr_used _ _ _ _ _ _ _ HF)].
    apply (fr_keep _ _ _ _ _ _ _ HF). right. auto.
Qed.

Lemma grown_dinode v ip ip' n : file_ok sb nmeta v ip' -> ip' = set_addrs (i_addrs ip') ip -> is_s16 (i_type ip) -> i_major ip = 0 -> i_minor ip = 0 -> i_nlink ip = 1 ->
  0 <= n <= MAXFILE * BSIZE -> dinode_ok (set_isize n ip').
Proof.
  intros Hok E Hty Hma Hmi Hn Hsz. split; [rewrite E..| | |].
  - done.
  - change (is_s16 (i_major ip)). by rewrite Hma.
  - change (is_s16 (i_minor ip)). by rewrite Hmi.
  - change (is_s16 (i_nlink ip)). by rewrite Hn.
  - change (is_u32 n). unfold MAXFILE in Hsz. change (NDIRECT + NINDIRECT) with 140 in Hsz. unfold is_u32, two32, BSIZE in *. lia.
  - exact (file_ok_addrs v ip' Hok).
  - exact (fo_len _ _ _ _ Hok).
Qed.

Lemma iappend_run s F i ty bs p : mk_ok s F -> F !! i = Some (ty, bs) -> bytes_ok p -> Z.of_nat (length (bs ++ p)) <= MAXFILE * BSIZE ->
  g_freeblock s + (blocks_of (Z.of_nat (length (bs ++ p))) - blocks_of (Z.of_nat (length bs))) <= FSSIZE ->
  exists s', iappend (Z.of_nat i + 1) p s = Ok () s' /\ mk_ok s' (<[i := (ty, bs ++ p)]> F) /\
    g_freeblock s' = g_freeblock s + (blocks_of (Z.of_nat (length (bs ++ p))) - blocks_of (Z.of_nat (length bs))).
Proof.
  intros Hok Hf Hp Hmax Hroom. pose proof Hok as [H1 H2 H3 [H4 H4'] H5 H6 H7]. pose proof (lookup_lt_Some _ _ _ Hf) as Hlt.
  set (inum := Z.of_nat i + 1) in *. assert (inum_ok inum) as Hi by (by apply (inum_of _ (length F))). pose proof (H5 _ _ _ Hf) as Hst. fold inum in Hst.
  set (din := inode_of (mview s) inum) in *. destruct (IBLOCK_range inum Hi) as (Hr & _). change (sb_bmapstart sb) with 58 in Hr.
  destruct (iappend_loop_run (length p) s din bs p) as (s1 & din1 & E1 & HA); [lia|done|apply Hst|apply Hst|apply Hst|done|done|done|].
  pose proof HA as [A1 A2 A3 [k A4] A5 A6]. set (ip2 := set_isize (Z.of_nat (length (bs ++ p))) din1).
  pose proof (fr_same _ _ _ _ _ _ _ A4) as Esame. destruct (st_ids _ _ _ _ Hst) as (T1 & T2 & T3 & T4). fold din in T1, T2, T3, T4.
  assert (is_s16 ty) as Hty by (rewrite <- T1; unfold din, inode_of, load_dinode, is_s16, s16; cbn [i_type]; case_bool; Z.div_mod_to_equations; lia).
  destruct (winode_run s1 inum ip2 A1 Hi) as (s2 & E2 & Hs2 & F2 & I2 & V2 & N1 & N2).
  { apply (grown_dinode (mview s1) din); [apply A4|done|by rewrite T1|by rewrite ?T2, ?T3, ?T4..|lia]. }
  assert (inode_of (mview s2) inum = ip2) as Ei by (rewrite N1; subst ip2; rewrite Esame; done).
  destruct (stored_appended s s1 s2 inum ty bs p din1 Hst A1 HA Hmax Ei) as [Hnew Hnewo]; [intros m Hm; apply V2; change (sb_bmapstart sb) with 58 in Hm; lia|].
  assert (forall j t b, j <> i -> F !! j = Some (t, b) -> stored (mview s2) (Z.of_nat j + 1) t b /\
    (forall m, owns (mview s2) (inode_of (mview s2) (Z.of_nat j + 1)) m <-> owns (mview s) (inode_of (mview s) (Z.of_nat j + 1)) m)) as Hold.
  { intros j t b Hji Hj. pose proof (lookup_lt_Some _ _ _ Hj) as Hjl. assert (inum_ok (Z.of_nat j + 1)) as Hjo by (by apply (inum_of _ (length F))).
    destruct (stored_other s s1 din din1 k (Z.of_nat j + 1) t b H1 (H5 _ _ _ Hj) Hjo A4) as [O1 O2]; [intros m; by apply H6|].
    destruct (stored_low (mview s1) (mview s2) _ t b O1) as [L1 L2]; [apply N2; [done|subst inum; lia]|intros m Hm; apply V2; change (sb_bmapstart sb) with 58 in Hm; lia|].
    split; [done|]. intros m. by rewrite L2. }
  assert (forall j m, (j < length F)%nat -> j <> i -> owns (mview s2) (inode_of (mview s2) (Z.of_nat j + 1)) m -> ~ owns (mview s2) (inode_of (mview s2) inum) m) as Hcross.
  { intros j m Hjl Hji Ho Ho'. destruct (lookup_lt_is_Some_2 F j Hjl) as [[t b] Hj]. apply (Hold j t b Hji Hj) in Ho. apply Hnewo in Ho'.
    destruct (fr_owns _ _ _ _ _ _ _ A4 m Ho') as [Ho2|Hu]; [by apply (H6 j i m Hjl Hlt Hji)|].
    destruct (fo_own _ _ _ _ (st_ok _ _ _ _ (H5 _ _ _ Hj)) m Ho) as [_ Hu']. by rewrite Hu in Hu'. }
  exists s2. split; [|split; [split|lia]].
  - assert (rinode inum s = Ok din s) as Er.
    { unfold rinode. by rewrite (Ok_bind _ _ _ _ _ (rsect_run s (IBLOCK inum sb) H1 ltac:(unfold FSSIZE; lia) ltac:(change (sb_bmapstart sb) with 58 in *; lia))). }
    unfold iappend. rewrite (Ok_bind _ _ _ _ _ Er). rewrite (st_size _ _ _ _ Hst : i_size din = _). by rewrite (Ok_bind _ _ _ _ _ E1).
  - done.
  - by rewrite I2, A3, length_insert.
  - by rewrite length_insert.
  - split; [rewrite V2 by lia|intros m Hm; rewrite V2 by lia]; rewrite (fr_keep _ _ _ _ _ _ _ A4); auto; left; change (sb_bmapstart sb) with 58; lia.
  - intros j t b [(-> & [= <- <-] & _)|[Hji Hj]]%list_lookup_insert_Some; [done|]. apply Hold; [done..].
  - rewrite length_insert. intros a b m Ha Hb Hab Ho Ho'. destruct (decide (a = i)) as [->|Hai]; [by apply (Hcross b m)|].
    destruct (decide (b = i)) as [->|Hbi]; [by apply (Hcross a m)|].
    destruct (lookup_lt_is_Some_2 F a Ha) as [[t u] Hfa], (lookup_lt_is_Some_2 F b Hb) as [[t' u'] Hfb].
    apply (Hold a t u Hai Hfa) in Ho. apply (Hold b t' u' Hbi Hfb) in Ho'. by apply (H6 a b m).
  - intros j Hj. rewrite N2 by (unfold inum_ok, inum in *; lia). rewrite I2, A3 in Hj. unfold inode_of.
    rewrite (fr_keep _ _ _ _ _ _ _ A4) by (left; apply IBLOCK_range; unfold inum_ok; lia). by apply H7.
Qed.

Lemma appends_run chunks : forall s F i ty bs, mk_ok s F -> F !! i = Some (ty, bs) -> Forall bytes_ok chunks ->
  Z.of_nat (length (bs ++ concat chunks)) <= MAXFILE * BSIZE ->
  g_freeblock s + (blocks_of (Z.of_nat (length (bs ++ concat chunks))) - blocks_of (Z.of_nat (length bs))) <= FSSIZE ->
  exists s', forM chunks (iappend (Z.of_nat i + 1)) s = Ok () s' /\ mk_ok s' (<[i := (ty, bs ++ concat chunks)]> F) /\
    g_freeblock s' = g_freeblock s + (blocks_of (Z.of_nat (length (bs ++ concat chunks))) - blocks_of (Z.of_nat (length bs))).
Proof.
  induction chunks as [|p chunks IH]; intros s F i ty bs Hok Hf Hp Hmax Hroom; cbn [concat] in *.
  { exists s. rewrite app_nil_r in *. split; [done|]. rewrite list_insert_id by done. split; [done|lia]. }
  apply Forall_cons in Hp as [Hp Hps]. rewrite app_assoc in *.
  assert (blocks_of (Z.of_nat (length (bs ++ p))) <= blocks_of (Z.of_nat (length ((bs ++ p) ++ concat chunks)))) as Hm1 by (apply blocks_of_mono; rewrite (length_app (bs ++ p)); lia).
  destruct (iappend_run s F i ty bs p Hok Hf Hp) as (s1 & E1 & Hok1 & F1); [rewrite (length_app (bs ++ p)) in Hmax; lia|lia|].
  destruct (IH s1 (<[i := (ty, bs ++ p)]> F) i ty (bs ++ p)) as (s2 & E2 & Hok2 & F2); [done| |done|done|lia|].
  { apply list_lookup_insert_eq. by eapply lookup_lt_Some. }
  exists s2. cbn [forM]. rewrite (Ok_bind _ _ _ _ _ E1). split; [done|]. rewrite list_insert_insert_eq in Hok2. split; [done|lia].
Qed.
