(* ===== verification/MkfsMain.v ===== *)
(** * [mkfs], verified

    The whole program: the image it leaves holds the files it was given and a
    root directory that lists them, in a file system the kernel can work
    with. *)

From S2P Require Import Prelude Mmu Bytes Bio Log Txn Crash Fs FsBlock FsFile FsRw Mkfs MkfsImg MkfsOk.
Local Open Scope kern_scope.
Local Open Scope Z_scope.

(** ** The files and the directory *)

Lemma strncpy_length n : forall t, length (strncpy_chars n t) = n.
Proof. induction n as [|n IH]; intros t; cbn [strncpy_chars]; [done|]. case_bool; cbn [length]; [by rewrite length_replicate|by rewrite IH]. Qed.

Lemma make_dirent_length name inum : length (make_dirent name inum) = 16%nat.
Proof. unfold make_dirent. by rewrite length_app, strncpy_length, put16_length. Qed.

Lemma make_dirent_bytes name inum : bytes_ok name -> bytes_ok (make_dirent name inum).
Proof.
  intros Hn. apply Forall_app_2; [apply put16_bytes; repeat constructor; lia|]. revert name Hn. induction DIRSIZ as [|n IH]; intros t Ht; cbn [strncpy_chars]; [constructor|].
  constructor; [destruct Ht; cbn; [lia|done]|]. case_bool; [apply Forall_replicate; lia|]. apply IH. destruct Ht; [constructor|done].
Qed.

(** What is given on the command line, and what the image is to hold. *)
Abbreviation given := (list (list Z * list (list Z))) (only parsing).
Definition entries (files : given) : list (list Z * Z) :=
  ([46], 1) :: ([46; 46], 1) :: imap (fun i f => (skip_underscore f.1, Z.of_nat i + 2)) files.
Definition root_bytes (files : given) : list Z := concat ((fun e => make_dirent e.1 e.2) <$> entries files).
Definition contents (files : given) : list (Z * list Z) := (T_DIR, root_bytes files) :: ((fun f => (T_FILE, concat f.2)) <$> files).
Fixpoint space (F : list (Z * list Z)) : Z :=
  match F with [] => 0 | f :: F => blocks_of (Z.of_nat (length f.2)) + space F end.

Record input_ok (files : given) : Prop := {
  in_names : forall name chunks, (name, chunks) ∈ files -> (47 ∉ name) /\ bytes_ok name;
  in_bytes : forall name chunks, (name, chunks) ∈ files -> Forall bytes_ok chunks /\ Z.of_nat (length (concat chunks)) <= MAXFILE * BSIZE;
  in_count : (length files + 2 <= 200)%nat;
  in_space : nmeta + space (contents files) <= FSSIZE;
}.

Lemma space_app F G : space (F ++ G) = space F + space G.
Proof. induction F as [|f F IH]; cbn [app space]; lia. Qed.

Lemma space_nonneg F : 0 <= space F.
Proof. induction F as [|f F IH]; cbn [space]; [lia|]. pose proof (blocks_of_mono 0 (Z.of_nat (length f.2)) ltac:(lia)). lia. Qed.

Lemma entries_snoc files f : entries (files ++ [f]) = entries files ++ [(skip_underscore f.1, Z.of_nat (length files) + 2)].
Proof. unfold entries. rewrite imap_app. cbn. by rewrite Nat.add_0_r. Qed.

Lemma root_bytes_snoc files f : root_bytes (files ++ [f]) = root_bytes files ++ make_dirent (skip_underscore f.1) (Z.of_nat (length files) + 2).
Proof. unfold root_bytes. rewrite entries_snoc, fmap_app, concat_app. cbn [fmap list_fmap concat]. by rewrite app_nil_r. Qed.

Lemma skip_underscore_bytes name : bytes_ok name -> bytes_ok (skip_underscore name).
Proof. intros H. destruct H as [|c name Hc Hn]; cbn; [constructor|]. case_bool; [done|by constructor]. Qed.

Lemma root_bytes_length files : length (root_bytes files) = (16 * (length files + 2))%nat.
Proof. induction files as [|f files IH] using rev_ind; [done|]. rewrite root_bytes_snoc, !length_app, IH, make_dirent_length. cbn. lia. Qed.

(** One file: its inode, its entry in the root directory, its bytes. *)
Lemma add_file_run s files name chunks : mk_ok s (contents files) -> g_freeblock s = nmeta + space (contents files) ->
  input_ok (files ++ [(name, chunks)]) ->
  exists s', add_file 1 (name, chunks) s = Ok () s' /\ mk_ok s' (contents (files ++ [(name, chunks)])) /\
    g_freeblock s' = nmeta + space (contents (files ++ [(name, chunks)])).
Proof.
  intros Hok Hfree [I1 I2 I3 I4]. set (f := (name, chunks)) in *. set (n := length files).
  assert (f ∈ files ++ [f]) as Hin by (apply elem_of_app; right; by apply list_elem_of_singleton).
  destruct (I1 name chunks Hin) as [Hslash Hname], (I2 name chunks Hin) as [Hch Hmax].
  rewrite length_app in I3. cbn in I3. pose proof (root_bytes_length files) as HL.
  set (de := make_dirent (skip_underscore name) (Z.of_nat n + 2)). pose proof (make_dirent_length (skip_underscore name) (Z.of_nat n + 2)) as Hdl. fold de in Hdl.
  assert (bytes_ok de) as Hdb by (by apply make_dirent_bytes, skip_underscore_bytes).
  assert (length (contents files) = S n) as Hlen by (cbn; by rewrite length_fmap).
  assert (contents (files ++ [f]) = <[0%nat := (T_DIR, root_bytes files ++ de)]> (contents files) ++ [(T_FILE, concat chunks)]) as Ec.
  { unfold contents. rewrite root_bytes_snoc, fmap_app. done. }
  assert (space (contents (files ++ [f])) = space (contents files) + (blocks_of (Z.of_nat (length (root_bytes files ++ de))) - blocks_of (Z.of_nat (length (root_bytes files)))) +
    blocks_of (Z.of_nat (length (concat chunks)))) as Esp.
  { rewrite Ec, space_app. cbn. lia. }
  pose proof (blocks_of_mono 0 (Z.of_nat (length (concat chunks))) ltac:(lia)) as Hb0.
  destruct (ialloc_run s (contents files) T_FILE Hok) as (s1 & E1 & Hok1 & F1); [rewrite Hlen; unfold inum_ok, NINODES; lia|done|].
  rewrite Hlen in E1. replace (Z.of_nat (S n) + 1) with (Z.of_nat n + 2) in E1 by lia.
  destruct (iappend_run s1 (contents files ++ [(T_FILE, [])]) 0 T_DIR (root_bytes files) de Hok1) as (s2 & E2 & Hok2 & F2); [done|done| | |].
  { rewrite length_app, HL, Hdl. fsizes. lia. }
  { rewrite F1, Hfree. lia. }
  destruct (appends_run chunks s2 _ (S n) T_FILE [] Hok2) as (s3 & E3 & Hok3 & F3); [|done|done|cbn [app length]; change (blocks_of (Z.of_nat 0)) with 0; rewrite F2, F1; lia|].
  { rewrite list_lookup_insert_ne by done. by rewrite lookup_app_r, Hlen, Nat.sub_diag by lia. }
  exists s3. split; [|split].
  - unfold add_file, f. cbv beta iota. rewrite bool_decide_false by done. rewrite (Ok_bind _ _ _ _ _ E1). change (Z.of_nat 0 + 1) with 1 in E2. rewrite mk_dirent_eq. fold de. rewrite (Ok_bind _ _ _ _ _ E2).
    replace (Z.of_nat n + 2) with (Z.of_nat (S n) + 1) by lia. done.
  - rewrite Ec. cbn [app] in Hok3. rewrite insert_app_l in Hok3 by (rewrite Hlen; lia).
    rewrite (insert_app_r_alt _ _ (S n)) in Hok3 by (rewrite length_insert, Hlen; lia). rewrite length_insert, Hlen, Nat.sub_diag in Hok3. done.
  - rewrite F3, F2, F1, Hfree, Esp. cbn [app length]. change (blocks_of (Z.of_nat 0)) with 0. lia.
Qed.

Lemma input_ok_prefix files rest : input_ok (files ++ rest) -> input_ok files.
Proof.
  intros [I1 I2 I3 I4]. rewrite length_app in I3.
  assert (forall f, f ∈ files -> f ∈ files ++ rest) as Hin by (intros f Hf; apply elem_of_app; by left).
  split; [intros a b Hab; by eapply I1, Hin|intros a b Hab; by eapply I2, Hin|lia|].
  revert I4. unfold contents. rewrite fmap_app. cbn [space snd]. rewrite space_app, !root_bytes_length, length_app.
  pose proof (space_nonneg ((fun f => (T_FILE, concat f.2)) <$> rest)).
  pose proof (blocks_of_mono (Z.of_nat (16 * (length files + 2))) (Z.of_nat (16 * (length files + length rest + 2))) ltac:(lia)). lia.
Qed.

Lemma add_files_run rest : forall files s, mk_ok s (contents files) -> g_freeblock s = nmeta + space (contents files) -> input_ok (files ++ rest) ->
  exists s', forM rest (add_file 1) s = Ok () s' /\ mk_ok s' (contents (files ++ rest)) /\ g_freeblock s' = nmeta + space (contents (files ++ rest)).
Proof.
  induction rest as [|[name chunks] rest IH]; intros files s Hok Hfree Hin; [exists s; by rewrite app_nil_r|].
  assert (files ++ (name, chunks) :: rest = (files ++ [(name, chunks)]) ++ rest) as Ea by (by rewrite <- app_assoc). rewrite Ea in *.
  destruct (add_file_run s files name chunks Hok Hfree) as (s1 & E1 & Hok1 & F1); [by eapply input_ok_prefix|].
  destruct (IH _ s1 Hok1 F1 Hin) as (s2 & E2 & H2). exists s2. cbn [forM]. by rewrite (Ok_bind _ _ _ _ _ E1).
Qed.

(** ** The empty file system *)

Lemma zero_run n : forall k s, 0 <= k -> g_len s = k -> (forall m, disk_block (g_disk s) m = zero_block) ->
  exists s', forM (seqZ k (Z.of_nat n)) (fun i => wsect i zero_block) s = Ok () s' /\ g_len s' = k + Z.of_nat n /\
    (forall m, disk_block (g_disk s') m = zero_block) /\ g_freeinode s' = g_freeinode s /\ g_freeblock s' = g_freeblock s.
Proof.
  induction n as [|n IH]; intros k s Hk Hl Hz; [exists s; split; [done|]; split; [lia|done]|].
  rewrite seqZ_cons by lia. cbn [forM]. replace (Z.pred (Z.of_nat (S n))) with (Z.of_nat n) by lia.
  set (s1 := Img (<[k := zero_block]> (g_disk s)) (g_len s `max` (k + 1)) (g_freeinode s) (g_freeblock s)).
  destruct (IH (Z.succ k) s1) as (s2 & E2 & L2 & Z2 & I2 & F2); [lia|cbn; lia| |].
  { intros m. unfold disk_block. cbn. destruct (decide (k = m)) as [->|Hm]; [by rewrite lookup_insert_eq|rewrite lookup_insert_ne by done; apply Hz]. }
  exists s2. rewrite (Ok_bind (wsect k zero_block) _ s () s1 eq_refl). split; [done|]. split; [lia|done].
Qed.

Lemma sb_block_ok : length sb_block = 512%nat /\ bytes_ok sb_block.
Proof. split; [done|]. unfold bytes_ok. refine (bool_decide_unpack _ _). by vm_compute. Qed.

Lemma empty_run : exists s0 s, forM (seqZ 0 FSSIZE) (fun i => wsect i zero_block) new_image = Ok () s0 /\ wsect 1 sb_block s0 = Ok () s /\
  mk_ok s [] /\ g_freeblock s = nmeta.
Proof.
  destruct (zero_run 1000 0 new_image) as (s & E & L & Hz & I & F); [done|done|done|].
  set (s1 := Img (<[1 := sb_block]> (g_disk s)) (g_len s `max` 2) (g_freeinode s) (g_freeblock s)).
  assert (forall m, disk_block (g_disk s1) m = if decide (m = 1) then sb_block else zero_block) as Hd.
  { intros m. cbn. unfold disk_block. case_decide as Hm; [subst; by rewrite lookup_insert_eq|rewrite lookup_insert_ne by done; apply Hz]. }
  exists s, s1. split; [exact E|]. split; [done|].
  assert (forall m, 1 <> m -> m <> 58 -> mview s1 m = zero_block) as Hv.
  { intros m H1 H2. unfold mview. rewrite decide_False, Hd by done. by rewrite decide_False. }
  split; [split|by cbn; rewrite F]; try (intros i; by rewrite lookup_nil).
  - split.
    + cbn. rewrite L. done.
    + cbn. rewrite F. unfold FSSIZE. cbn. change nmeta with 59. lia.
    + intros m. cbn [s1 g_freeblock]. rewrite F. change (g_freeblock new_image) with 59. intros Hm. rewrite Hd, decide_False by lia. done.
    + intros m. rewrite Hd. case_decide; [apply sb_block_ok|]. split; [done|apply zero_block_ok].
  - cbn. by rewrite I.
  - unfold inum_ok, NINODES. cbn. lia.
  - split; [unfold mview; by rewrite decide_False, Hd by done|]. intros m Hm. apply Hv; lia.
  - intros i j m Hi. cbn in Hi. lia.
  - intros inum Hi. cbn [s1 g_freeinode] in Hi. rewrite I in Hi. cbn in Hi. destruct (IBLOCK_range inum) as (Hr & _); [unfold inum_ok; lia|].
    change (sb_bmapstart sb) with 58 in Hr. unfold inode_of. rewrite Hv by lia. cbn. unfold get16. by rewrite !get8_zero.
Qed.

(** ** The finished image *)

(** Inode [inum] is a file of type [ty] and size [size] whose blocks hold [bs]
    and zeros after them. *)
Record file_at (v : Z -> block) (inum ty size : Z) (bs : list Z) : Prop := {
  fa_ids : let ip := inode_of v inum in i_type ip = ty /\ i_major ip = 0 /\ i_minor ip = 0 /\ i_nlink ip = 1;
  fa_size : i_size (inode_of v inum) = size;
  fa_ok : file_ok sb nmeta v (inode_of v inum);
  fa_bytes : forall o, off_ok o -> fbyte v (inode_of v inum) o = get8 bs o;
  fa_extent : extent v (inode_of v inum) (Z.of_nat (length bs));
}.

(** The size of a file that is to hold [bs]: that of a directory is
    rounded. *)
Definition final_size (ty : Z) (bs : list Z) : Z :=
  let n := Z.of_nat (length bs) in if ty =? T_DIR then (n / BSIZE + 1) * BSIZE else n.

Record image_ok (v : Z -> block) (files : given) : Prop := {
  im_sb : decode_sb (v 1) = sb;
  im_log : forall m, sb_logstart sb <= m < sb_inodestart sb -> v m = zero_block;
  im_blocks : blocks_ok sb nmeta v;
  im_used : forall b, 0 <= b < FSSIZE -> used sb v b = (b <? nmeta + space (contents files));
  im_files : forall i ty bs, contents files !! i = Some (ty, bs) -> file_at v (Z.of_nat i + 1) ty (final_size ty bs) bs;
  im_apart : forall i j m, (i < length (contents files))%nat -> (j < length (contents files))%nat -> i <> j ->
    owns v (inode_of v (Z.of_nat i + 1)) m -> ~ owns v (inode_of v (Z.of_nat j + 1)) m;
  im_unused : forall inum, Z.of_nat (length (contents files)) < inum < NINODES -> i_type (inode_of v inum) = 0;
}.

Lemma file_at_ext v v' inum ty size bs : v' ≐ v -> file_at v inum ty size bs -> file_at v' inum ty size bs.
Proof.
  intros Hv [S1 S2 S4 S5 S6]. assert (inode_of v' inum = inode_of v inum) as Ei by (unfold inode_of; by rewrite (Hv _)).
  destruct (untouched nmeta sb v v' (inode_of v inum) S4) as (U1 & U2 & U3); [intros m _; apply Hv|..].
  { intros m Ho. destruct (fo_own _ _ _ _ S4 m Ho) as [_ <-]. unfold used. by rewrite (Hv _). }
  split; rewrite ?Ei; try done.
  - intros o Ho. rewrite U3 by done. by apply S5.
  - split; [|apply S6]. intros bn Hb. rewrite U2. by apply S6.
Qed.

Lemma owns_ext v v' inum m : v' ≐ v -> owns v' (inode_of v' inum) m -> owns v (inode_of v inum) m.
Proof.
  intros Hv. assert (inode_of v' inum = inode_of v inum) as -> by (unfold inode_of; by rewrite (Hv _)).
  unfold owns. intros [Hm [Ho|(bn & Hb & ->)]]; (split; [done|]); [by left|right]. exists bn. split; [done|]. apply baddr_ext. intros _. apply Hv.
Qed.

Lemma stored_file_at v inum ty bs : stored v inum ty bs -> file_at v inum ty (Z.of_nat (length bs)) bs.
Proof. by intros [S1 S2 S3 S4 S5 S6]. Qed.

Lemma stored_resized v v' inum ty bs n : stored v inum ty bs -> inode_of v' inum = set_isize n (inode_of v inum) ->
  (forall m, sb_bmapstart sb <= m -> v' m = v m) ->
  file_at v' inum ty n bs /\ forall m, owns v' (inode_of v' inum) m -> owns v (inode_of v inum) m.
Proof.
  intros [S1 S2 S3 S4 S5 S6] Ei Hv.
  destruct (view_agree sb nmeta v v' (set_isize n (inode_of v inum)) mkfs_layout) as (K1 & K2 & K3 & _); [by apply file_ok_size|done|].
  split; [|intros m; rewrite Ei; unfold owns; by setoid_rewrite K2]. split; rewrite ?Ei; try done.
  - intros o Ho. rewrite K3 by done. by apply S5.
  - split; [|apply S6]. intros bn Hb. rewrite K2. by apply S6.
Qed.

(** [rinode], [winode]: the size of the root directory is rounded up. *)
Lemma round_root_run s files : mk_ok s (contents files) -> input_ok files ->
  exists din s', rinode 1 s = Ok din s /\ winode 1 (set_isize ((i_size din / BSIZE + 1) * BSIZE) din) s = Ok () s' /\ mk_base s' /\ g_freeblock s' = g_freeblock s /\
    (forall m, m < 32 \/ 58 <= m -> mview s' m = mview s m) /\
    (forall i ty bs, contents files !! i = Some (ty, bs) -> file_at (mview s') (Z.of_nat i + 1) ty (final_size ty bs) bs /\
       forall m, owns (mview s') (inode_of (mview s') (Z.of_nat i + 1)) m -> owns (mview s) (inode_of (mview s) (Z.of_nat i + 1)) m) /\
    forall inum, Z.of_nat (length (contents files)) < inum < NINODES -> i_type (inode_of (mview s') inum) = 0.
Proof.
  intros Hok Hin. pose proof Hok as [H1 H2 H3 [H4 H4'] H5 H6 H7]. pose proof (H5 0%nat T_DIR _ eq_refl) as Hst. change (Z.of_nat 0 + 1) with 1 in Hst.
  set (din := inode_of (mview s) 1) in *. set (n := (i_size din / BSIZE + 1) * BSIZE). destruct (st_ids _ _ _ _ Hst) as (T1 & T2 & T3 & T4). fold din in T1, T2, T3, T4.
  assert (length (root_bytes files) <= 3200)%nat as Hrl by (rewrite root_bytes_length; destruct Hin; lia).
  pose proof (st_size _ _ _ _ Hst) as Hsz. fold din in Hsz.
  destruct (winode_run s 1 (set_isize n din) H1) as (s' & E & Hs' & F & I & V & N1 & N2); [unfold inum_ok, NINODES; lia| |].
  { apply (grown_dinode (mview s) din); [apply Hst|by destruct din|by rewrite T1|by rewrite ?T2, ?T3, ?T4..|]. subst n. rewrite Hsz. unfold BSIZE. fsizes. Z.div_mod_to_equations. lia. }
  assert (rinode 1 s = Ok din s) as Er.
  { unfold rinode. by rewrite (Ok_bind _ _ _ _ _ (rsect_run s (IBLOCK 1 sb) H1 ltac:(done) ltac:(done))). }
  assert (forall m, m < 32 \/ 58 <= m -> mview s' m = mview s m) as V' by (intros m Hm; apply V; change (IBLOCK 1 sb) with 32; lia).
  exists din, s'. split; [done|]. split; [done|]. split; [done|]. split; [done|]. split; [done|]. split; [intros [|i] ty bs Hf|].
  - injection Hf as <- <-. replace (final_size T_DIR (root_bytes files)) with n by (unfold n; by rewrite Hsz).
    apply (stored_resized _ _ _ _ _ _ Hst); [by rewrite N1|]. intros m Hm. apply V'. change (sb_bmapstart sb) with 58 in Hm. lia.
  - assert (ty = T_FILE) as -> by (apply list_lookup_fmap_Some in Hf as (f & Ef & Ef2); congruence). pose proof (lookup_lt_Some _ _ _ Hf) as Hlt.
    destruct (stored_low (mview s) (mview s') (Z.of_nat (S i) + 1) T_FILE bs (H5 _ _ _ Hf)) as [Hs2 Ho].
    + apply N2; [by apply (inum_of _ (length (contents files)))|lia].
    + intros m Hm. apply V'. change (sb_bmapstart sb) with 58 in Hm. lia.
    + split; [by apply stored_file_at|]. intros m. apply Ho.
  - intros inum Hi. assert (0 < length (contents files))%nat by (cbn; lia). rewrite N2 by (unfold inum_ok; lia). apply H7. lia.
Qed.

Lemma mk_balloc_run s : mk_base s ->
  exists s', mk_balloc (g_freeblock s) s = Ok () s' /\ disk_block (g_disk s') ≐ mview s.
Proof.
  intros [H1 H2 H3 H4]. unfold mk_balloc. change nmeta with 59 in H2. unfold FSSIZE in H2. change (BSIZE * 8) with 4096.
  rewrite (proj2 (Z.ltb_lt _ _)) by lia. eexists. split; [reflexivity|]. intros m. unfold mview, disk_block. cbn.
  change (sb_bmapstart sb) with 58. case_decide as Hm; [subst; by rewrite lookup_insert_eq|by rewrite lookup_insert_ne].
Qed.

Lemma root_run s : mk_ok s [] -> g_freeblock s = nmeta ->
  exists s1 s2 s', mk_ialloc T_DIR s = Ok 1 s1 /\ iappend 1 (make_dirent [46] 1) s1 = Ok () s2 /\ iappend 1 (make_dirent [46; 46] 1) s2 = Ok () s' /\
    mk_ok s' (contents []) /\ g_freeblock s' = nmeta + space (contents []).
Proof.
  intros Hok Hfree. destruct (ialloc_run s [] T_DIR Hok) as (s1 & E1 & Hok1 & F1); [unfold inum_ok, NINODES; cbn; lia|done|]. cbn [app] in Hok1.
  assert (bytes_ok (make_dirent [46] 1) /\ bytes_ok (make_dirent [46; 46] 1)) as [B1 B2] by (split; apply make_dirent_bytes; repeat constructor; lia).
  assert (nmeta + 1 <= FSSIZE) as Hr by done.
  destruct (iappend_run s1 _ 0 T_DIR [] (make_dirent [46] 1) Hok1) as (s2 & E2 & Hok2 & F2); [done|done|done|cbn [app]; rewrite make_dirent_length; change (blocks_of (Z.of_nat 16) - blocks_of (Z.of_nat (length []))) with 1; lia|].
  destruct (iappend_run s2 _ 0 T_DIR (make_dirent [46] 1) (make_dirent [46; 46] 1) Hok2) as (s3 & E3 & Hok3 & F3); [done|done|done| |].
  { change (blocks_of (Z.of_nat (length (make_dirent [46] 1 ++ make_dirent [46; 46] 1))) - blocks_of (Z.of_nat (length (make_dirent [46] 1)))) with 0. rewrite F2, F1, Hfree. done. }
  exists s1, s2, s3. split; [done|]. split; [done|]. split; [done|]. split; [done|]. rewrite F3, F2, F1, Hfree. done.
Qed.

Lemma mkfs_run (files : given) : input_ok files ->
  exists s, mkfs files new_image = Ok () s /\ image_ok (disk_block (g_disk s)) files.
Proof.
  intros Hin. destruct empty_run as (z0 & s0 & Ez & E0 & Hok0 & F0). destruct (root_run s0 Hok0 F0) as (r1 & r2 & s1 & R1 & R2 & E1 & Hok1 & F1).
  destruct (add_files_run files [] s1 Hok1 F1 Hin) as (s2 & E2 & Hok2 & F2). cbn [app] in *.
  destruct (round_root_run s2 files Hok2 Hin) as (din & s3 & Er & E3 & Hb3 & F3 & V3 & H3 & U3). destruct (mk_balloc_run s3 Hb3) as (s4 & E4 & V4).
  exists s4. split.
  - unfold mkfs. rewrite (Ok_bind _ _ _ _ _ Ez), (Ok_bind _ _ _ _ _ E0), (Ok_bind _ _ _ _ _ R1). change (negb (1 =? ROOTINO)) with false. cbv iota. rewrite !mk_dirent_eq.
    rewrite (Ok_bind _ _ _ _ _ R2), (Ok_bind _ _ _ _ _ E1), (Ok_bind _ _ _ _ _ E2), (Ok_bind _ _ _ _ _ Er). cbv zeta. rewrite (Ok_bind _ _ _ _ _ E3).
    by rewrite (Ok_bind get _ s3 s3 s3 eq_refl).
  - destruct (mk_low _ _ Hok2) as [L1 L2]. split.
    + rewrite (V4 _), V3, L1 by lia. by vm_compute.
    + intros m Hm. change (sb_logstart sb) with 2 in Hm. change (sb_inodestart sb) with 32 in Hm. rewrite (V4 _), V3 by lia. by apply L2.
    + rewrite V4. by apply mview_blocks.
    + intros b Hb. unfold used. rewrite (V4 _). fold (used sb (mview s3) b). rewrite mview_used by done. by rewrite F3, F2.
    + intros i ty bs Hf. eapply file_at_ext; [done|]. by apply H3.
    + assert (forall i m, (i < length (contents files))%nat -> owns (disk_block (g_disk s4)) (inode_of (disk_block (g_disk s4)) (Z.of_nat i + 1)) m ->
        owns (mview s2) (inode_of (mview s2) (Z.of_nat i + 1)) m) as Ho.
      { intros i m Hi Ho. destruct (lookup_lt_is_Some_2 _ _ Hi) as [[t bs] Hf]. eapply H3; [done|]. by eapply owns_ext. }
      intros i j m Hi Hj Hij Hm Hm'. by apply (mk_apart _ _ Hok2 i j m Hi Hj Hij); apply Ho.
    + intros inum Hi. unfold inode_of. rewrite (V4 _). by apply U3.
Qed.

(** C19: What [mkfs] leaves is a file system that holds what it was given.  For
    names without slashes, at most 198 files, none longer than a file can be,
    and room for all of them, the program runs to its end.  The superblock
    decodes to the sizes used throughout; the log is empty; the bitmap marks
    the blocks before the first free one and no others; inode 1 is a directory
    with the entries of all files; the inodes after it are the files, in order,
    each with its size, its bytes, and blocks of its own; the other inodes are
    free. *)
Theorem mkfs_correct (files : given) : input_ok files ->
  exists s, mkfs files new_image = Ok () s /\ image_ok (disk_block (g_disk s)) files.
Proof. apply mkfs_run. Qed.

Definition demo_input : given := [([95; 99; 97; 116], [[127; 69]; [76]]); ([82], [])].

Lemma demo_input_ok : input_ok demo_input.
Proof.
  assert (Forall (fun f => (47 ∉ f.1) /\ bytes_ok f.1 /\ Forall bytes_ok f.2 /\ Z.of_nat (length (concat f.2)) <= MAXFILE * BSIZE) demo_input) as H.
  { unfold bytes_ok. refine (bool_decide_unpack _ _). by vm_compute. }
  rewrite Forall_forall in H. split; [intros a b Hab; apply H in Hab; tauto|intros a b Hab; apply H in Hab; tauto|by vm_compute; lia|by vm_compute].
Qed.

Lemma mkfs_correct_witness : exists s, mkfs demo_input new_image = Ok () s /\ image_ok (disk_block (g_disk s)) demo_input.
Proof. apply mkfs_correct. apply demo_input_ok. Defined.
