(* ===== verification/Boot.v ===== *)
(** * The kernel on a new image

    The first process prepares the file system of an image that [mkfs] made,
    and the kernel's path lookup and [readi] then find the files the image
    was made from. *)

From S2P Require Import Prelude Mmu Bytes Bio Log Txn Crash Fs FsBlock FsFile FsRw FsPath FsSwap Mkfs MkfsImg MkfsOk MkfsMain.
Local Open Scope kern_scope.
Local Open Scope Z_scope.

(** What [forkret] does in the first process. *)
Definition forkret_first : M fs () := iinit;; onlfs initlog.

(** The static [icache], and the kernel's file system before [forkret]. *)
Definition free_inode : inode := Inode 0 0 0 false false 0 0 0 0 0 (replicate 13 0).
Definition powered_on (disk : gmap Z block) : fs := FS (boot disk FSSIZE) (SB 0 0 0 0 0 0 0) (replicate NINODE free_inode).

(** ** Names in directories *)

Definition no_nul (name : list Z) : Prop := Forall (fun c => c <> 0) name.

Lemma strncmp_strncpy n : forall p q, no_nul p -> no_nul q -> strncmp_chars n p (strncpy_chars n q) = 0 <-> take n p = take n q.
Proof.
  induction n as [|n IH]; intros p q Hp Hq; cbn [strncmp_chars strncpy_chars]; [done|]. cbn [hd tl].
  destruct Hp as [|c p Hc Hp]; cbn [hd tl take].
  - change (negb (0 =? 0)) with false. cbn [andb]. destruct Hq as [|d q Hd Hq]; cbn [hd take]; [done|]. split; [lia|done].
  - apply Z.eqb_neq in Hc as Hc'. rewrite Hc'. cbn [negb andb]. destruct (Z.eqb_spec c (hd 0 q)) as [E|E].
    + destruct Hq as [|d q Hd Hq]; cbn [hd tl take] in *; [done|]. subst d. rewrite Hc'. rewrite IH by done. split; [by intros ->|by intros [= ->]].
    + destruct Hq as [|d q Hd Hq]; cbn [hd take] in *; (split; [lia|]); [done|]. intros [= -> _]. done.
Qed.

Lemma dirent_fields name inum : 0 <= inum < 65536 ->
  de_inum (make_dirent name inum) = inum /\ de_name (make_dirent name inum) = strncpy_chars DIRSIZ name.
Proof.
  intros Hi. unfold de_inum, de_name, make_dirent. split.
  - generalize (strncpy_chars DIRSIZ name). intros l. change (inum mod 256 + 256 * (inum / 256 mod 256) = inum). Z.div_mod_to_equations. lia.
  - unfold slice. cbn [Z.to_nat]. rewrite drop_app_length' by (by rewrite put16_length). rewrite Nat2Z.id, take_ge by (by rewrite strncpy_length). done.
Qed.

(** The entries of a directory whose blocks begin with them. *)
Definition lists (v : Z -> block) (ip : inode) (es : list (list Z * Z)) : Prop :=
  forall k e, es !! k = Some e -> fbytes v ip (16 * Z.of_nat k) 16 = make_dirent e.1 e.2.

Record entry_ok (e : list Z * Z) : Prop := { en_name : no_nul e.1; en_inum : 0 < e.2 < 65536 }.

Section lookup.
Context (devsw : Z -> device) (meta : Z).

(** One round: the entry read is the one there. *)
Lemma dirlookup_round s dp ip es k nm i name fuel : file_state meta s dp ip -> lists (fview s) ip es -> es !! k = Some (nm, i) ->
  entry_ok (nm, i) -> no_nul name -> i_type ip <> T_DEV -> 16 * (Z.of_nat k + 1) <= i_size ip <= MAXFILE * BSIZE ->
  (forall o, 16 * Z.of_nat k <= o < 16 * (Z.of_nat k + 1) -> baddr (fview s) ip (o / BSIZE) <> 0) ->
  exists s1, dirlookup_loop devsw (S fuel) dp name (16 * Z.of_nat k) s =
      (if bool_decide (take DIRSIZ name = take DIRSIZ nm) then mret (Some (i, 16 * Z.of_nat k)) else dirlookup_loop devsw fuel dp name (16 * Z.of_nat (S k))) s1 /\
    fbase s1 meta [] /\ fstep s s1 [].
Proof.
  intros Hst Hl He [Hnm Hi] Hname Ht Hsz Hd. cbn [fst snd] in Hnm, Hi.
  destruct (readi_within devsw meta s dp ip (16 * Z.of_nat k) 16 Hst Ht) as (s1 & E & Hf1 & Hs1); [lia|lia|lia|intros o Ho; apply Hd; lia|].
  exists s1. split; [|done]. rewrite Z.min_l in E by lia. rewrite (Hl k _ He) in E. cbn [fst snd] in E.
  cbn [dirlookup_loop]. rewrite (Ok_bind _ _ _ _ _ (inode_at_Ok _ _ _ (ft_inode _ _ _ _ Hst))).
  rewrite (proj2 (Z.ltb_lt _ _)) by lia. cbn [negb]. change DIRENT with 16. rewrite (Ok_bind _ _ _ _ _ E). cbn [fst snd]. change (negb (16 =? 16)) with false. cbv iota.
  destruct (dirent_fields nm i) as [-> ->]; [lia|]. rewrite (proj2 (Z.eqb_neq i 0)) by lia. cbn [negb andb]. unfold namecmp.
  pose proof (strncmp_strncpy DIRSIZ name nm Hname Hnm) as Hcmp. destruct (Z.eqb_spec (strncmp_chars DIRSIZ name (strncpy_chars DIRSIZ nm)) 0) as [Hz|Hz].
  - by rewrite bool_decide_true by (by apply Hcmp).
  - rewrite bool_decide_false by tauto. by replace (16 * Z.of_nat (S k)) with (16 * Z.of_nat k + 16) by lia.
Qed.

(** [dirlookup] stops at the first entry with the name. *)
Lemma dirlookup_loop_run es dp ip name j nm inum : Forall entry_ok es -> no_nul name -> es !! j = Some (nm, inum) -> take DIRSIZ name = take DIRSIZ nm ->
  (forall k e, (k < j)%nat -> es !! k = Some e -> take DIRSIZ name <> take DIRSIZ e.1) ->
  i_type ip <> T_DEV -> 16 * (Z.of_nat j + 1) <= i_size ip <= MAXFILE * BSIZE ->
  forall n k s, (k + n = j)%nat -> file_state meta s dp ip -> lists (fview s) ip es ->
  (forall o, 0 <= o < 16 * (Z.of_nat j + 1) -> baddr (fview s) ip (o / BSIZE) <> 0) ->
  forall fuel, (n < fuel)%nat -> exists s', dirlookup_loop devsw fuel dp name (16 * Z.of_nat k) s = Ok (Some (inum, 16 * Z.of_nat j)) s' /\
    fbase s' meta [] /\ fstep s s' [].
Proof.
  intros Hes Hname Hj Hmatch Hfirst Ht Hsz. induction n as [|n IH]; intros k s Hk Hst Hl Hd fuel Hf; destruct fuel as [|fuel]; try lia.
  all: destruct (lookup_lt_is_Some_2 es k) as [[nm' i] He]; [apply lookup_lt_Some in Hj; lia|].
  all: destruct (dirlookup_round s dp ip es k nm' i name fuel Hst Hl He) as (s1 & -> & Hf1 & Hs1); [by eapply Forall_lookup_1|done|done|lia|intros o Ho; apply Hd; lia|].
  - replace k with j in * by lia. simplify_eq. rewrite bool_decide_true by done. by exists s1.
  - rewrite bool_decide_false by (apply (Hfirst k (nm', i)); [lia|done]). pose proof (fstep_views _ _ _ Hs1) as Ev. change (after [] (fview s)) with (fview s) in Ev.
    destruct (IH (S k) s1) with (fuel := fuel) as (s2 & E2 & Hf2 & Hs2); [lia|by eapply file_state_step| | |lia|].
    + intros a e Ha. rewrite (fbytes_ext _ _ _ _ _ Ev). by apply Hl.
    + intros o Ho. rewrite (baddr_ext (fview s) (fview s1)) by (intros _; apply Ev). by apply Hd.
    + exists s2. split; [done|]. split; [done|]. by apply (fstep_trans s s1 s2 [] []).
Qed.
End lookup.

(** ** Inodes taken from the disk *)

Section inodes.
Context (meta : Z).

(** The inode [ilock] leaves in a slot that held none. *)
Definition loaded (s : fs) (ip : inode) : inode :=
  set_ivalid true (load_dinode (fview s (IBLOCK (i_inum ip) (f_sb s))) (dinode_off (i_inum ip)) (set_ilock true ip)).

Lemma ilock_load s i ip : fbase s meta [] -> f_icache s !! i = Some ip -> i_dev ip = 1 -> 1 <= i_ref ip -> i_locked ip = false -> i_valid ip = false ->
  0 <= IBLOCK (i_inum ip) (f_sb s) < c_disksize (l_bio (f_lfs s)) -> i_type (loaded s ip) <> 0 ->
  exists s', ilock i s = Ok () s' /\ fbase s' meta [] /\ istep i (loaded s ip) s s' [].
Proof.
  intros Hf Hi Hdev Href Hl Hv Hb Hty. set (b := IBLOCK (i_inum ip) (f_sb s)) in *. set (o := dinode_off (i_inum ip)).
  destruct (upd_inode_run s i ip (set_ilock true) meta [] Hi Hf) as (s1 & E1 & Hf1 & Hs1 & Ev1 & El1). pose proof (istep_at _ _ _ _ _ _ Hi Hs1) as Hi1.
  pose proof (room_nonneg meta s1 [] Hf1) as Hroom.
  destruct (bread_f meta s1 [] b Hf1) as (bp & s2 & E2 & Hf2 & Hs2 & Hh2 & _); [by rewrite El1|by intros ? ?%elem_of_nil|cbn; lia|].
  assert (f_icache s2 !! i = Some (set_ilock true ip)) as Hi2 by (by rewrite (fs_icache _ _ _ Hs2)).
  pose proof (bdata_f meta s2 [bp] bp b Hf2 ltac:(by apply list_elem_of_singleton) Hh2) as E3.
  assert (fview s2 b = fview s b) as Ed by (rewrite (fstep_view _ _ _ b Hs2), Ev1; done). rewrite Ed in E3.
  destruct (upd_inode_run s2 i _ (load_dinode (fview s b) o) meta [bp] Hi2 Hf2) as (s3 & E4 & Hf3 & Hs3 & Ev3 & El3). pose proof (istep_at _ _ _ _ _ _ Hi2 Hs3) as Hi3.
  destruct (brelse_f meta s3 [] bp b Hf3) as (s4 & E5 & Hf4 & Hs4 & _); [unfold fholds; by rewrite El3|].
  assert (f_icache s4 !! i = Some (load_dinode (fview s b) o (set_ilock true ip))) as Hi4 by (by rewrite (fs_icache _ _ _ Hs4)).
  destruct (upd_inode_run s4 i _ (set_ivalid true) meta [] Hi4 Hf4) as (s5 & E6 & Hf5 & Hs5 & _). pose proof (istep_at _ _ _ _ _ _ Hi4 Hs5) as Hi5.
  exists s5. split; [|split; [done|]].
  - unfold ilock. rewrite (Ok_bind _ _ _ _ _ (inode_at_Ok _ _ _ Hi)), Hl, Hv, (proj2 (Z.ltb_ge _ _)), (Ok_bind _ _ _ _ _ E1) by lia.
    cbn [negb when]. rewrite (Ok_bind get _ s1 s1 s1 eq_refl), Hdev, (is_sb _ _ _ _ _ Hs1). fold b.
    rewrite (Ok_bind _ _ _ _ _ E2), (Ok_bind _ _ _ _ _ E3), (Ok_bind _ _ _ _ _ E4), (Ok_bind _ _ _ _ _ E5), (Ok_bind _ _ _ _ _ E6).
    rewrite (Ok_bind _ _ _ _ _ (inode_at_Ok _ _ _ Hi5)). apply Z.eqb_neq in Hty. by rewrite (Hty : (i_type (set_ivalid true (load_dinode (fview s b) o (set_ilock true ip))) =? 0) = false).
  - eapply (istep_trans i _ _ s s4 s5 [] []); [|exact Hs5]. eapply (istep_trans i _ _ s s3 s4 [] []); [|by apply istep_fstep].
    eapply (istep_trans i _ _ s s2 s3 [] []); [|exact Hs3]. by eapply (istep_trans i _ _ s s1 s2 [] []); [|apply istep_fstep].
Qed.

(** [iget] of an inode that is not in use takes the first free slot. *)
Lemma iget_run s dev inum i ip : find_index (fun ip => (0 <? i_ref ip) && (i_dev ip =? dev) && (i_inum ip =? inum)) (f_icache s) = None ->
  find_index (fun ip => i_ref ip =? 0) (f_icache s) = Some i -> f_icache s !! i = Some ip -> fbase s meta [] ->
  let ip' := Inode dev inum 1 (i_locked ip) false (i_type ip) (i_major ip) (i_minor ip) (i_nlink ip) (i_size ip) (i_addrs ip) in
  exists s', iget dev inum s = Ok i s' /\ fbase s' meta [] /\ istep i ip' s s' [].
Proof.
  intros H1 H2 Hi Hf ip'. unfold iget. rewrite (Ok_bind get _ s s s eq_refl), H1, H2.
  destruct (upd_inode_run s i ip (fun ip => Inode dev inum 1 (i_locked ip) false (i_type ip) (i_major ip) (i_minor ip) (i_nlink ip) (i_size ip) (i_addrs ip)) meta [] Hi Hf)
    as (s' & E & Hf' & Hs' & _). exists s'. by rewrite (Ok_bind _ _ _ _ _ E).
Qed.

(** [iunlockput] of an inode that has links. *)
Lemma iunlockput_run s i ip : f_icache s !! i = Some ip -> fbase s meta [] -> i_locked ip = true -> 1 <= i_ref ip -> i_nlink ip <> 0 ->
  exists s', iunlockput i s = Ok () s' /\ fbase s' meta [] /\ istep i (set_iref (i_ref ip - 1) (set_ilock false ip)) s s' [].
Proof.
  intros Hi Hf Hl Hr Hn. pose proof (iunlock_run s i ip Hi Hl Hr) as E1. set (s1 := set_icache _ s) in E1.
  assert (istep i (set_ilock false ip) s s1 []) as Hs1 by (split; [apply lstep_refl|done|done]). assert (fbase s1 meta []) as Hf1 by (by destruct Hf).
  pose proof (istep_at _ _ _ _ _ _ Hi Hs1) as Hi1.
  destruct (upd_inode_run s1 i _ (set_ilock true) meta [] Hi1 Hf1) as (s2 & E2 & Hf2 & Hs2 & _). pose proof (istep_at _ _ _ _ _ _ Hi1 Hs2) as Hi2.
  destruct (upd_inode_run s2 i _ (set_ilock false) meta [] Hi2 Hf2) as (s3 & E3 & Hf3 & Hs3 & _). pose proof (istep_at _ _ _ _ _ _ Hi2 Hs3) as Hi3.
  destruct (upd_inode_run s3 i _ (fun ip => set_iref (i_ref ip - 1) ip) meta [] Hi3 Hf3) as (s4 & E4 & Hf4 & Hs4 & _).
  exists s4. split; [|split; [done|]].
  - unfold iunlockput. rewrite (Ok_bind _ _ _ _ _ E1). unfold iput. rewrite (Ok_bind _ _ _ _ _ (inode_at_Ok _ _ _ Hi1)). cbn [set_ilock i_locked i_valid i_nlink i_ref].
    rewrite (Ok_bind _ _ _ _ _ E2), (proj2 (Z.eqb_neq _ _) Hn), andb_false_r. cbn [andb when].
    rewrite (Ok_bind (mret ()) _ s2 () s2 eq_refl), (Ok_bind _ _ _ _ _ E3). done.
  - eapply (istep_trans i _ _ s s3 s4 [] []); [|exact Hs4]. eapply (istep_trans i _ _ s s2 s3 [] []); [|exact Hs3]. by eapply (istep_trans i _ _ s s1 s2 [] []).
Qed.
End inodes.

(** ** Starting up *)

(** The kernel works on the file system of the image [v]. *)
Record on_image (v : Z -> block) (s : fs) : Prop := {
  oi_base : fbase s nmeta [];
  oi_sb : f_sb s = sb;
  oi_view : fview s ≐ v;
  oi_disk : c_disksize (l_bio (f_lfs s)) = FSSIZE;
}.

Lemma on_image_step v s s' i ip : on_image v s -> fbase s' nmeta [] -> istep i ip s s' [] -> on_image v s'.
Proof.
  intros [H1 H2 H3 H4] Hf Hs. split; [done|by rewrite (is_sb _ _ _ _ _ Hs)| |by rewrite (ls_dsize _ _ _ (is_lstep _ _ _ _ _ Hs))].
  intros m. by rewrite (istep_views _ _ _ _ _ Hs m), <- (H3 m).
Qed.

Lemma clean_pinned s m : ndirty s = 0%nat -> ~ pinned s m.
Proof.
  intros Hn (i & b & Hb & Hd & _). unfold ndirty in Hn. apply nil_length_inv in Hn.
  assert (b ∈ filter (fun b => b_dirty b = true) (c_bufs s)) as Hin by (apply list_elem_of_filter; split; [done|by eapply list_elem_of_lookup_2]).
  rewrite Hn in Hin. by apply elem_of_nil in Hin.
Qed.

Lemma mkfs_geometry bs : geometry sb nmeta (Log 2 30 0 false 0 bs) FSSIZE.
Proof.
  split; cbn [lg_start lg_size].
  - done.
  - intros inum Hi. by apply IBLOCK_range.
  - done.
  - intros b Hb. destruct (BBLOCK_value b Hb) as [-> _]. done.
  - done.
Qed.

Lemma forkret_first_run disk files : image_ok (disk_block disk) files ->
  exists s, forkret_first (powered_on disk) = Ok () s /\ on_image (disk_block disk) s /\ f_icache s = replicate NINODE free_inode.
Proof.
  intros Hv. set (v := disk_block disk) in *. set (b0 := binit disk FSSIZE). assert (binv b0 []) as Hi0 by apply binit_inv.
  assert (forall m, bview b0 m = v m) as Hv0 by (intros m; by apply bview_clean). assert (v 2 = zero_block) as H2 by (by apply (im_log _ _ Hv)).
  destruct (readsb_run b0 Hi0) as (b1 & E1 & Hs1 & Hv1); [done|apply Nat.ltb_lt; by vm_compute|]. rewrite Hv0, (im_sb _ _ Hv) in E1.
  assert (ndirty b1 = 0%nat) as Hn1 by (pose proof (bs_nd _ _ _ Hs1) as Hn; replace (ndirty b0) with 0%nat in Hn by done; lia).
  assert (forall m, bview b1 m = v m) as Hv1' by (intros m; by rewrite Hv1, Hv0). pose proof (bs_size _ _ _ Hs1 : _ = FSSIZE) as Hz1.
  assert (recovery_writes 2 (bview b1) = [(2, zero_block)]) as HW by (unfold recovery_writes, logged; rewrite !Hv1', H2; by vm_compute).
  destruct (initlog_at b1 2 30) as (st & bs & E2 & Hs2 & El & Hlen); [apply Hs1|done| | |].
  { unfold log_at. rewrite Hv1', (im_sb _ _ Hv), Hz1. by vm_compute. }
  { split; rewrite ?Hv1', ?H2; try (by vm_compute). by intros b ?%elem_of_nil. }
  assert (ndirty (l_bio st) = 0%nat) as Hn2 by (pose proof (bs_nd _ _ _ Hs2); lia). pose proof (bs_size _ _ _ Hs2) as Hz2.
  assert (linv st []) as Hli.
  { apply linv_quiet; rewrite ?El; cbn [lg_n lg_size lg_block lg_start]; rewrite ?Hz2, ?Hz1; try done; [apply Hs2|]. intros m. by apply clean_pinned. }
  assert (view st ≐ v) as Hview.
  { intros m. rewrite (idle_view st Hli) by (by rewrite El). rewrite (bs_disk _ _ _ Hs2), (bs_disk _ _ _ Hs1), HW. cbn [apply_writes foldl fst snd]. unfold disk_block.
    destruct (decide (2 = m)) as [<-|Hm]; [rewrite lookup_insert_eq; symmetry; exact H2|by rewrite lookup_insert_ne]. }
  exists (FS st sb (replicate NINODE free_inode)). split; [|split; [|done]].
  - set (s1 := set_lfs (set_bio b1 (boot disk FSSIZE)) (powered_on disk)). assert (ondisk readsb (powered_on disk) = Ok sb s1) as Er by (apply onlfs_Ok; by apply onbio_Ok).
    assert (iinit (powered_on disk) = Ok () (set_sb sb s1)) as Ei by (unfold iinit; by rewrite (Ok_bind _ _ _ _ _ Er)).
    unfold forkret_first. rewrite (Ok_bind _ _ _ _ _ Ei). exact (onlfs_Ok initlog (set_sb sb s1) () st E2).
  - split; [|done|done|by cbn; rewrite Hz2]. split; [done|]. cbn [f_sb f_lfs]. rewrite El, Hz2, Hz1. apply mkfs_geometry.
Qed.

(** ** Files of the image *)

Lemma same_file v v' ip ip' : v' ≐ v -> i_dev ip' = i_dev ip -> i_addrs ip' = i_addrs ip -> file_ok sb nmeta v ip ->
  file_ok sb nmeta v' ip' /\ (forall bn, baddr v' ip' bn = baddr v ip bn) /\ forall o, fbyte v' ip' o = fbyte v ip o.
Proof.
  intros Hv Hd Ha [K1 K2 K3 K4 K5]. assert (forall k, addr_at ip' k = addr_at ip k) as Hk by (intros k; unfold addr_at; by rewrite Ha).
  assert (forall bn, baddr v' ip' bn = baddr v ip bn) as Hb by (intros bn; unfold baddr; rewrite !Hk; by rewrite (Hv _)).
  split; [|split; [done|intros o; unfold fbyte; rewrite Hb; by rewrite (Hv _)]]. split; [congruence|congruence| | |].
  - intros m Ho. destruct (K3 m) as [Hr Hu]; [revert Ho; unfold owns; rewrite Hk; by setoid_rewrite Hb|]. split; [done|]. rewrite <- Hu. unfold used. by rewrite (Hv _).
  - by setoid_rewrite Hb.
  - setoid_rewrite Hb. setoid_rewrite Hk. done.
Qed.

(** An inode of the image, locked. *)
Record opened (v : Z -> block) (s : fs) (i : nat) (ip : inode) (ty size : Z) (bs : list Z) : Prop := {
  op_image : on_image v s;
  op_state : file_state nmeta s i ip;
  op_type : i_type ip = ty;
  op_size : i_size ip = size;
  op_bytes : forall o, off_ok o -> fbyte (fview s) ip o = get8 bs o;
  op_extent : forall bn, bn_ok bn -> baddr (fview s) ip bn <> 0 <-> bn * BSIZE < Z.of_nat (length bs);
}.

Lemma ilock_image v s i ip ty size bs : on_image v s -> blocks_ok sb nmeta v -> f_icache s !! i = Some ip ->
  i_dev ip = 1 -> 1 <= i_ref ip -> i_locked ip = false -> i_valid ip = false -> inum_ok (i_inum ip) -> file_at v (i_inum ip) ty size bs -> ty <> 0 ->
  exists s' ip', ilock i s = Ok () s' /\ opened v s' i ip' ty size bs /\ istep i ip' s s' [] /\
    i_dev ip' = 1 /\ i_inum ip' = i_inum ip /\ i_ref ip' = i_ref ip /\ i_locked ip' = true /\ i_nlink ip' = 1.
Proof.
  intros Him Hbl Hi Hdev Hr Hl Hv Hin [(T1 & T2 & T3 & T4) T5 T6 T7 T8] Hty. pose proof Him as [H1 H2 H3 H4]. destruct (IBLOCK_range _ Hin) as (Hb & _).
  assert (forall ip0, load_dinode (fview s (IBLOCK (i_inum ip) (f_sb s))) (dinode_off (i_inum ip)) ip0 = disk_fields (inode_of v (i_inum ip)) ip0) as El.
  { intros ip0. rewrite H2. rewrite (H3 _). done. }
  set (ip' := loaded s ip). assert (ip' = set_ivalid true (disk_fields (inode_of v (i_inum ip)) (set_ilock true ip))) as Eip by (unfold ip', loaded; by rewrite El).
  destruct (ilock_load nmeta s i ip) as (s' & E & Hf' & Hs'); [done..| | |].
  { rewrite H2, H4. change (sb_bmapstart sb) with 58 in Hb. unfold FSSIZE. lia. }
  { fold ip'. rewrite Eip. change (i_type (inode_of v (i_inum ip)) <> 0). by rewrite T1. }
  pose proof (on_image_step v s s' i _ Him Hf' Hs') as Him'.
  destruct (same_file v (fview s') (inode_of v (i_inum ip)) ip' (oi_view _ _ Him')) as (F1 & F2 & F3); [by rewrite Eip|by rewrite Eip|done|].
  exists s', ip'. split; [done|]. split; [|split; [done|by rewrite Eip]]. split.
  - done.
  - split; [done|by eapply istep_at| |]; rewrite (oi_sb _ _ Him'); [done|by rewrite (oi_view _ _ Him')].
  - by rewrite Eip.
  - by rewrite Eip.
  - intros o Ho. rewrite F3. by apply T7.
  - intros bn Hbn. rewrite F2. by apply T8.
Qed.

Lemma concat_entry (ls : list (list Z)) : forall k l, Forall (fun l => length l = 16%nat) ls -> ls !! k = Some l ->
  take 16 (drop (16 * k) (concat ls)) = l.
Proof.
  induction ls as [|l0 ls IH]; intros k l Hls Hk; [by rewrite lookup_nil in Hk|]. apply Forall_cons in Hls as [H0 Hls]. cbn [concat]. destruct k as [|k].
  - cbn in Hk. simplify_eq. cbn [drop Nat.mul]. by apply take_app_length'.
  - cbn in Hk. replace (16 * S k)%nat with (length l0 + 16 * k)%nat by lia. rewrite <- drop_drop, drop_app_length. by apply IH.
Qed.

Lemma entries_ok files : Forall (fun f => no_nul f.1) files -> (length files + 2 <= 200)%nat -> Forall entry_ok (entries files).
Proof.
  intros Hn Hc. assert (no_nul [46] /\ no_nul [46; 46]) as [Hd Hdd] by (by split; repeat constructor).
  constructor; [by split|]. constructor; [by split|]. apply Forall_lookup. intros k e He. apply list_lookup_imap_Some in He as (f & Hf & ->).
  pose proof (lookup_lt_Some _ _ _ Hf) as Hlt. split; cbn [fst snd]; [|lia].
  destruct (Forall_lookup_1 _ _ _ _ Hn Hf) as [|c name Hcc Hnn]; cbn [skip_underscore]; [constructor|]. case_bool; [done|by constructor].
Qed.

Lemma entries_length files : length (entries files) = (length files + 2)%nat.
Proof. unfold entries. cbn. rewrite length_imap. lia. Qed.

Lemma entries_file files i f : files !! i = Some f -> entries files !! S (S i) = Some (skip_underscore f.1, Z.of_nat i + 2).
Proof. intros Hf. transitivity (imap (fun i f => (skip_underscore f.1, Z.of_nat i + 2)) files !! i); [done|]. by rewrite list_lookup_imap, Hf. Qed.

(** The root directory lists the files. *)
Lemma root_lists v s i ip files : input_ok files -> opened v s i ip T_DIR (final_size T_DIR (root_bytes files)) (root_bytes files) ->
  lists (fview s) ip (entries files) /\ forall o, 0 <= o < 16 * Z.of_nat (length (entries files)) -> baddr (fview s) ip (o / BSIZE) <> 0.
Proof.
  intros Hin Hop. pose proof (root_bytes_length files) as HL. pose proof (entries_length files) as HE. pose proof (in_count _ Hin) as Hc.
  assert (forall o, 0 <= o < 16 * Z.of_nat (length (entries files)) -> off_ok o) as Hoff by (intros o Ho; unfold off_ok; fsizes; lia).
  split.
  - intros k e He. pose proof (lookup_lt_Some _ _ _ He) as Hlt. unfold fbytes.
    transitivity (get8 (root_bytes files) <$> seqZ (16 * Z.of_nat k) 16).
    { apply list_fmap_ext. intros x o Ho. apply lookup_seqZ in Ho. apply (op_bytes _ _ _ _ _ _ _ Hop), Hoff. lia. }
    rewrite <- slice_get by lia. unfold slice. replace (Z.to_nat (16 * Z.of_nat k)) with (16 * k)%nat by lia.
    change (Z.to_nat 16) with 16%nat. unfold root_bytes. apply concat_entry; [|by rewrite list_lookup_fmap, He].
    apply Forall_fmap, Forall_lookup. intros j [nm n] _. apply make_dirent_length.
  - intros o Ho. apply (op_extent _ _ _ _ _ _ _ Hop); [by apply off_bn, Hoff|]. rewrite HL. fsizes. Z.div_mod_to_equations; lia.
Qed.

(** ** Paths *)

Lemma skipelem_single name : name <> [] -> (SLASH ∉ name) -> skipelem (SLASH :: name) = Some (take DIRSIZ name, []).
Proof.
  intros Hn Hs. unfold skipelem. rewrite skip_slashes_cons, Z.eqb_refl.
  assert (skip_slashes name = name) as -> by (destruct name as [|c name]; [done|]; rewrite skip_slashes_cons; destruct (Z.eqb_spec c SLASH); [set_solver|done]).
  assert (find_index (fun c => c =? SLASH) name = None) as ->.
  { apply find_index_None. intros i x Hx. apply Z.eqb_neq. intros ->. apply Hs. by eapply list_elem_of_lookup_2. }
  assert (take (length name `min` DIRSIZ) name = take DIRSIZ name) as -> by (rewrite <- take_take, take_ge; [done|rewrite length_take; lia]).
  rewrite drop_all. by destruct name.
Qed.

Section namei.
Context (devsw : Z -> device) (cwd : nat).

(** Looking up the entry [j] of the root directory in a kernel that has just
    started. *)
Lemma namei_image v files s nm inum j name : image_ok v files -> input_ok files -> Forall (fun f => no_nul f.1) files ->
  on_image v s -> f_icache s = replicate NINODE free_inode ->
  entries files !! j = Some (nm, inum) -> 1 < inum -> name <> [] -> (SLASH ∉ name) -> no_nul name -> take DIRSIZ name = take DIRSIZ nm ->
  (forall k e, (k < j)%nat -> entries files !! k = Some e -> take DIRSIZ name <> take DIRSIZ e.1) ->
  exists s' ip, namei devsw cwd (SLASH :: name) s = Ok (Some 1%nat) s' /\ on_image v s' /\ f_icache s' !! 1%nat = Some ip /\
    i_dev ip = 1 /\ i_inum ip = inum /\ i_ref ip = 1 /\ i_locked ip = false /\ i_valid ip = false.
Proof.
  intros Hv Hin Hnul Him Hic Hj Hinum Hne Hslash Hname Hmatch Hfirst.
  destruct (iget_run nmeta s 1 1 0 free_inode) as (s1 & E1 & Hf1 & Hs1); [by rewrite Hic|by rewrite Hic|by rewrite Hic|apply Him|].
  pose proof (on_image_step _ _ _ _ _ Him Hf1 Hs1) as Him1. pose proof (is_cache _ _ _ _ _ Hs1) as Hc1. rewrite Hic in Hc1.
  set (root := Inode 1 1 1 false false 0 0 0 0 0 (replicate 13 0)) in *. change (f_icache s1 = <[0%nat := root]> (replicate NINODE free_inode)) in Hc1.
  destruct (ilock_image v s1 0 root T_DIR (final_size T_DIR (root_bytes files)) (root_bytes files)) as (s2 & ip & E2 & Hop & Hs2 & R1 & R2 & R3 & R4 & R5);
    [done|apply Hv|by rewrite Hc1|done..|by apply (im_files _ _ Hv 0%nat)|done|].
  change (i_inum ip = 1) in R2. change (i_ref ip = 1) in R3. destruct (root_lists v s2 0 ip files Hin Hop) as [Hlist Hdense]. pose proof (lookup_lt_Some _ _ _ Hj) as Hjl. pose proof (entries_length files) as HE. pose proof (in_count _ Hin) as Hc.
  assert (16 * Z.of_nat (length (entries files)) <= i_size ip <= MAXFILE * BSIZE) as Hsz.
  { rewrite (op_size _ _ _ _ _ _ _ Hop). unfold final_size. change (T_DIR =? T_DIR) with true. cbv zeta iota. rewrite root_bytes_length. fsizes. Z.div_mod_to_equations; lia. }
  destruct (dirlookup_loop_run devsw nmeta (entries files) 0 ip (take DIRSIZ name) j nm inum) with (n := j) (k := 0%nat) (s := s2) (fuel := S (Z.to_nat (i_size ip / DIRENT)))
    as (s3 & E3 & Hf3 & Hs3); [by apply entries_ok|by apply Forall_take|done|by rewrite take_take|..].
  { intros k e Hk He. rewrite take_take. by apply (Hfirst k e). }
  { by rewrite (op_type _ _ _ _ _ _ _ Hop). } { lia. } { done. } { apply Hop. } { done. } { intros o Ho. apply Hdense. lia. }
  { change DIRENT with 16. Z.div_mod_to_equations; lia. }
  pose proof (ft_inode _ _ _ _ (op_state _ _ _ _ _ _ _ Hop)) as Hi2. pose proof (istep_fstep _ _ _ _ _ Hi2 Hs3) as Hs3'.
  pose proof (on_image_step _ _ _ _ _ (op_image _ _ _ _ _ _ _ Hop) Hf3 Hs3') as Him3.
  assert (f_icache s3 = ip :: replicate 49 free_inode) as Hc3 by (by rewrite (is_cache _ _ _ _ _ Hs3'), (is_cache _ _ _ _ _ Hs2), Hc1).
  destruct (iget_run nmeta s3 1 inum 1 free_inode) as (s4 & E4 & Hf4 & Hs4); [rewrite Hc3; cbn [find_index]..|by rewrite Hc3|done|].
  { rewrite R2, (proj2 (Z.eqb_neq 1 inum)), andb_false_r by lia. done. } { rewrite R3. done. }
  pose proof (on_image_step _ _ _ _ _ Him3 Hf4 Hs4) as Him4. pose proof (is_cache _ _ _ _ _ Hs4) as Hc4. rewrite Hc3 in Hc4.
  destruct (iunlockput_run nmeta s4 0 ip) as (s5 & E5 & Hf5 & Hs5); [by rewrite Hc4|done|done|lia|lia|].
  exists s5. eexists. split; [|split; [by eapply on_image_step|]].
  - assert (dirlookup devsw 0 (take DIRSIZ name) s2 = Ok (Some (1%nat, 16 * Z.of_nat j)) s4) as Ed.
    { unfold dirlookup. rewrite (Ok_bind _ _ _ _ _ (inode_at_Ok _ _ _ Hi2)), (op_type _ _ _ _ _ _ _ Hop). change (negb (T_DIR =? T_DIR)) with false. cbv iota.
      rewrite (Ok_bind _ _ _ _ _ E3), R1. cbv iota. by rewrite (Ok_bind _ _ _ _ _ E4). }
    assert (namex devsw cwd (SLASH :: name) false s = Ok (Some (1%nat, take DIRSIZ name)) s5) as En; [|unfold namei; by rewrite (Ok_bind _ _ _ _ _ En)].
    unfold namex. cbn [hd]. rewrite Z.eqb_refl. change ROOTDEV with 1. change ROOTINO with 1. rewrite (Ok_bind _ _ _ _ _ E1). cbn [length namex_loop].
    rewrite skipelem_single by done. rewrite (Ok_bind _ _ _ _ _ E2), (Ok_bind _ _ _ _ _ (inode_at_Ok _ _ _ Hi2)), (op_type _ _ _ _ _ _ _ Hop).
    change (negb (T_DIR =? T_DIR)) with false. cbn [andb]. rewrite (Ok_bind _ _ _ _ _ Ed). cbv iota. rewrite (Ok_bind _ _ _ _ _ E5). by destruct (length name).
  - rewrite (is_cache _ _ _ _ _ Hs5), Hc4. done.
Qed.
End namei.

(** The names are C strings, and different as far as the kernel compares
    them. *)
Record names_ok (files : given) : Prop := {
  na_chars : Forall (fun f => no_nul f.1 /\ skip_underscore f.1 <> []) files;
  na_distinct : NoDup ((fun e => take DIRSIZ e.1) <$> entries files);
}.

(** C5: A kernel started on the image that [mkfs] made finds every file in it.
    After [forkret]'s [iinit] and [initlog], looking up the path of a file, its
    name without the leading underscore in the root directory, gives an inode;
    once it is locked, reading from the start returns the bytes the file was
    made from, all of them and no more. *)
Theorem boot_finds_files (devsw : Z -> device) (cwd : nat) (files : given) (i : nat) (name : list Z) (chunks : list (list Z)) (n : Z) :
  input_ok files -> names_ok files -> files !! i = Some (name, chunks) -> let data := concat chunks in
  Z.of_nat (length data) <= n < 2147483648 ->
  exists d s0 slot s1 s2 s3, mkfs files new_image = Ok () d /\ forkret_first (powered_on (g_disk d)) = Ok () s0 /\
    namei devsw cwd (SLASH :: skip_underscore name) s0 = Ok (Some slot) s1 /\ ilock slot s1 = Ok () s2 /\
    readi devsw slot 0 n s2 = Ok (Z.of_nat (length data), data) s3.
Proof.
  intros Hin [Hna Hnd] Hf data Hn. destruct (mkfs_run files Hin) as (d & E & Hv). set (v := disk_block (g_disk d)) in *.
  destruct (forkret_first_run (g_disk d) files Hv) as (s0 & E0 & Him & Hic). fold v in Him.
  destruct (Forall_lookup_1 _ _ _ _ Hna Hf) as [Hnul Hne]. cbn [fst] in Hnul, Hne. pose proof (lookup_lt_Some _ _ _ Hf) as Hlt.
  destruct (in_names _ Hin name chunks) as [Hslash Hb]; [by eapply list_elem_of_lookup_2|]. set (nm := skip_underscore name) in *.
  pose proof (entries_file files i _ Hf) as He. cbn [fst] in He. fold nm in He.
  assert (forall c, c ∈ nm -> c ∈ name) as Hsub by (intros c; subst nm; destruct name as [|a name]; cbn; [done|]; case_bool; [by right|done]).
  destruct (namei_image devsw cwd v files s0 nm (Z.of_nat i + 2) (S (S i)) nm) as (s1 & ip & E1 & Him1 & Hc1 & R1 & R2 & R3 & R4 & R5);
    [exact Hv|exact Hin| |exact Him|exact Hic|exact He|lia|exact Hne| | |reflexivity| |].
  { eapply Forall_impl; [exact Hna|]. by intros ? []. } { intros Hs. by apply Hslash, Hsub. }
  { apply Forall_forall. intros c Hc. by apply (proj1 (Forall_forall _ _) Hnul), Hsub. }
  { intros k e Hk Hke Heq. assert (k = S (S i)) as ->; [|lia].
    apply (NoDup_lookup _ _ _ (take DIRSIZ nm) Hnd); rewrite list_lookup_fmap; [by rewrite Hke, Heq|by rewrite He]. }
  assert (contents files !! S i = Some (T_FILE, data)) as Hcont.
  { transitivity (((fun f => (T_FILE, concat f.2)) <$> files) !! i); [done|by rewrite list_lookup_fmap, Hf]. }
  pose proof (im_files _ _ Hv _ _ _ Hcont) as Hfile. replace (Z.of_nat (S i) + 1) with (i_inum ip) in Hfile by lia.
  pose proof (in_count _ Hin) as Hcount.
  destruct (ilock_image v s1 1 ip T_FILE (Z.of_nat (length data)) data) as (s2 & ip2 & E2 & Hop & _);
    [exact Him1|apply Hv|exact Hc1|exact R1|lia|exact R4|exact R5|unfold inum_ok, NINODES; lia|exact Hfile|discriminate|].
  destruct (in_bytes _ Hin name chunks) as [_ Hmax]; [by eapply list_elem_of_lookup_2|]. fold data in Hmax. pose proof (op_size _ _ _ _ _ _ _ Hop) as Hsz.
  destruct (readi_within devsw nmeta s2 1 ip2 0 n (op_state _ _ _ _ _ _ _ Hop)) as (s3 & E3 & _); [by rewrite (op_type _ _ _ _ _ _ _ Hop)|lia|lia|lia|..].
  { intros o Ho. apply (op_extent _ _ _ _ _ _ _ Hop); [apply off_bn; unfold off_ok; lia|]. fsizes. Z.div_mod_to_equations; lia. }
  exists d, s0, 1%nat, s1, s2, s3. split; [done|]. split; [done|]. split; [done|]. split; [done|]. rewrite E3. rewrite Hsz, Z.sub_0_r, Z.min_r by lia. do 2 f_equal.
  transitivity (slice data 0 (Z.of_nat (length data))); [|unfold slice; cbn [Z.to_nat drop]; by rewrite Nat2Z.id, firstn_all].
  rewrite slice_get by lia. apply list_fmap_ext. intros k o Ho. apply lookup_seqZ in Ho. apply (op_bytes _ _ _ _ _ _ _ Hop). unfold off_ok. lia.
Qed.

Lemma demo_names_ok : names_ok demo_input.
Proof. split; unfold no_nul; refine (bool_decide_unpack _ _); by vm_compute. Qed.

Lemma boot_finds_files_witness : exists d s0 slot s1 s2 s3, mkfs demo_input new_image = Ok () d /\ forkret_first (powered_on (g_disk d)) = Ok () s0 /\
  namei (fun _ => Device None None) 0 [47; 99; 97; 116] s0 = Ok (Some slot) s1 /\ ilock slot s1 = Ok () s2 /\
  readi (fun _ => Device None None) slot 0 512 s2 = Ok (3, [127; 69; 76]) s3.
Proof.
  apply (boot_finds_files (fun _ => Device None None) 0 demo_input 0 [95; 99; 97; 116] [[127; 69]; [76]] 512);
    [apply demo_input_ok|apply demo_names_ok|reflexivity|cbn; lia].
Defined.
