(* ===== verification/Sched.v ===== *)
(** * Switching between processes ([scheduler], [sched], [sleep] in [proc.c])

    Any number of CPUs, each in its scheduler or in the kernel thread of a
    process, and the hand-over of [ptable.lock] from one to the other at a
    switch.  Taking a spin lock is one step, as [Locks] justifies; [swtch] is
    the saving of one place of execution and the loading of another. *)

From S2P Require Import Prelude Locks Proc.

(** ** State *)

(** Spin locks are numbered; [ptable.lock] is the first. *)
Definition ptl : nat := 0.

(** Where [sched] was called: in [yield], in [sleep] with the lock that is to
    be taken again, in [exit]. *)
Inductive kont := K_yield | K_sleep (lk : nat) | K_exit.

(** What [p->context] leads to: the start of [forkret], or the place in
    [sched] after [swtch], with its variable [intena]. *)
Inductive context := At_forkret | In_sched (intena : bool) (k : kont).

Record sproc := SProc { sp_state : procstate; sp_chan : option nat; sp_ctx : context }.

(** Where a thread is: in code of its own with some spin locks, in code that
    works on the table with [ptable.lock], or before a statement of [yield],
    [sleep], [wakeup], [sched] or [forkret]. *)
Inductive act :=
  | Code (held : list nat)
  | Table
  | Yield_set
  | Sleep_release (chan lk : nat)
  | Sleep_set (chan lk : nat)
  | Sched (k : kont)
  | Sched_back (intena : bool) (k : kont)
  | Sched_done (k : kont)
  | Sleep_reacquire (lk : nat)
  | Waking (chan : nat) (held : list nat)
  | Woken (held : list nat)
  | Forkret.

(** Where a CPU is: before a statement of [scheduler], with the place in the
    table, in a thread, or in [panic]. *)
Inductive pc :=
  | Sch_sti
  | Sch_acquire
  | Sch_scan (k : nat)
  | Sch_back (k : nat)
  | Th (t : nat) (a : act)
  | Panic (msg : string).

(** [x_sched] is the scheduler's own variable while one of its processes runs. *)
Record scpu := SCpu { x_cpu : cpu; x_proc : option nat; x_sched : nat; x_at : pc }.
Definition set_cpu (c : cpu) (x : scpu) : scpu := SCpu c (x_proc x) (x_sched x) (x_at x).
Definition set_at (a : pc) (x : scpu) : scpu := SCpu (x_cpu x) (x_proc x) (x_sched x) a.

Record smp := Smp { m_locks : gmap nat nat; m_procs : list sproc; m_cpus : list scpu }.
Definition put_cpu (i : nat) (x : scpu) (m : smp) : smp := Smp (m_locks m) (m_procs m) (<[i := x]> (m_cpus m)).
Definition put_procs (l : list sproc) (m : smp) : smp := Smp (m_locks m) l (m_cpus m).
Definition put_locks (l : gmap nat nat) (m : smp) : smp := Smp l (m_procs m) (m_cpus m).

(** ** Operations *)

Definition fail (i : nat) (x : scpu) (msg : string) (m : smp) : smp := put_cpu i (set_at (Panic msg) x) m.

(** [None] while the CPU spins. *)
Definition take_lock (i lk : nat) (x : scpu) (next : pc) (m : smp) : option smp :=
  match m_locks m !! lk with
  | None => Some (put_locks (<[lk := i]> (m_locks m)) (put_cpu i (set_at next (set_cpu (pushcli (x_cpu x)) x)) m))
  | Some j => if bool_decide (j = i) then Some (fail i x "acquire" m) else None
  end.

Definition free_lock (i lk : nat) (x : scpu) (next : pc) (m : smp) : smp :=
  if bool_decide (m_locks m !! lk = Some i) then
    match popcli (x_cpu x) with
    | inr c => put_locks (delete lk (m_locks m)) (put_cpu i (set_at next (set_cpu c x)) m)
    | inl msg => fail i x msg m
    end
  else fail i x "release" m.

(** A statement on [myproc()]. *)
Definition on_myproc (i : nat) (x : scpu) (f : sproc -> sproc) (next : pc) (m : smp) : smp :=
  match x_proc x with
  | None => fail i x "null" m
  | Some t => put_procs (alter f t (m_procs m)) (put_cpu i (set_at next x) m)
  end.

Definition to_state (st : procstate) (p : sproc) : sproc := SProc st (sp_chan p) (sp_ctx p).
Definition to_sleep (chan : nat) (p : sproc) : sproc := SProc SLEEPING (Some chan) (sp_ctx p).
Definition no_chan (p : sproc) : sproc := SProc (sp_state p) None (sp_ctx p).
Definition save (c : context) (p : sproc) : sproc := SProc (sp_state p) (sp_chan p) c.

(** [sched]: its checks, then [swtch(&p->context, mycpu()->scheduler)]. *)
Definition do_sched (i : nat) (x : scpu) (k : kont) (m : smp) : smp :=
  match x_proc x ≫= fun t => m_procs m !! t with
  | None => fail i x "null" m
  | Some p =>
      match sched_ok (bool_decide (m_locks m !! ptl = Some i)) (c_ncli (x_cpu x)) (sp_state p) (c_if (x_cpu x)) with
      | Some msg => fail i x msg m
      | None => on_myproc i x (save (In_sched (c_intena (x_cpu x)) k)) (Sch_back (x_sched x)) m
      end
  end.

(** [swtch(&(c->scheduler), p->context)] *)
Definition resume (t : nat) (c : context) : pc :=
  match c with At_forkret => Th t Forkret | In_sched b k => Th t (Sched_back b k) end.

(** One round of the loop of [scheduler]; the end of the table ends it. *)
Definition do_scan (i : nat) (x : scpu) (k : nat) (m : smp) : smp :=
  match m_procs m !! k with
  | None => free_lock i ptl x Sch_sti m
  | Some p =>
      if bool_decide (sp_state p = RUNNABLE) then
        put_procs (<[k := to_state RUNNING p]> (m_procs m)) (put_cpu i (SCpu (x_cpu x) (Some k) k (resume k (sp_ctx p))) m)
      else put_cpu i (set_at (Sch_scan (S k)) x) m
  end.

Definition wake (chan : nat) (p : sproc) : sproc :=
  if bool_decide (sp_state p = SLEEPING /\ sp_chan p = Some chan) then to_state RUNNABLE p else p.

(** [scheduler], statement by statement. *)
Definition do_scheduler (i : nat) (x : scpu) (m : smp) : option smp :=
  match x_at x with
  | Sch_sti => let c := x_cpu x in Some (put_cpu i (set_at Sch_acquire (set_cpu (Cpu (c_ncli c) (c_intena c) true) x)) m)
  | Sch_acquire => take_lock i ptl x (Sch_scan 0) m
  | Sch_scan k => Some (do_scan i x k m)
  | Sch_back k => Some (put_cpu i (SCpu (x_cpu x) None (x_sched x) (Sch_scan (S k))) m)
  | Th _ _ | Panic _ => None
  end.

(** [sleep] before and after [sched()]; it has been called with [chan] and
    [lk], and [ptable.lock] taken. *)
Definition sleep_before (i : nat) (x : scpu) (t chan lk : nat) (m : smp) : smp := free_lock i lk x (Th t (Sleep_set chan lk)) m.
Definition sleep_set (i : nat) (x : scpu) (t chan lk : nat) (m : smp) : smp := on_myproc i x (to_sleep chan) (Th t (Sched (K_sleep lk))) m.
Definition sleep_after (i : nat) (x : scpu) (t lk : nat) (m : smp) : smp :=
  let m := on_myproc i x no_chan (Th t Table) m in
  if bool_decide (lk = ptl) then m else free_lock i ptl x (Th t (Sleep_reacquire lk)) m.

Definition yield_set (i : nat) (x : scpu) (t : nat) (m : smp) : smp := on_myproc i x (to_state RUNNABLE) (Th t (Sched K_yield)) m.
Definition yield_after (i : nat) (x : scpu) (t : nat) (m : smp) : smp := free_lock i ptl x (Th t (Code [])) m.

Definition forkret (i : nat) (x : scpu) (t : nat) (m : smp) : smp := free_lock i ptl x (Th t (Code [])) m.

(** What follows [sched()] in its callers. *)
Definition after_sched (i : nat) (x : scpu) (t : nat) (k : kont) (m : smp) : smp :=
  match k with
  | K_yield => yield_after i x t m
  | K_sleep lk => sleep_after i x t lk m
  | K_exit => fail i x "zombie exit" m
  end.

(** The next statement of CPU [i] where its code leaves no choice. *)
Definition advance_cpu (i : nat) (m : smp) : option smp :=
  x ← m_cpus m !! i;
  match x_at x with
  | Th t a =>
      match a with
      | Code _ | Table => None
      | Yield_set => Some (yield_set i x t m)
      | Sleep_release chan lk => Some (sleep_before i x t chan lk m)
      | Sleep_set chan lk => Some (sleep_set i x t chan lk m)
      | Sched k => Some (do_sched i x k m)
      | Sched_back b k => let c := x_cpu x in Some (put_cpu i (set_at (Th t (Sched_done k)) (set_cpu (Cpu (c_ncli c) b (c_if c)) x)) m)
      | Sched_done k => Some (after_sched i x t k m)
      | Sleep_reacquire lk => take_lock i lk x (Th t (Code [lk])) m
      | Waking chan held => Some (put_procs (wake chan <$> m_procs m) (put_cpu i (set_at (Th t (Woken held)) x) m))
      | Woken held => Some (free_lock i ptl x (Th t (Code held)) m)
      | Forkret => Some (forkret i x t m)
      end
  | _ => do_scheduler i x m
  end.

(** What code that holds [ptable.lock] does with other entries: [allocproc],
    the end of [fork], [kill] and [wakeup1], and [wait]. *)
Inductive edit : sproc -> sproc -> Prop :=
  | ed_alloc c x : edit (SProc UNUSED c x) (SProc EMBRYO c x)
  | ed_start c : edit (SProc EMBRYO c At_forkret) (SProc RUNNABLE c At_forkret)
  | ed_kill c x : edit (SProc SLEEPING c x) (SProc RUNNABLE c x)
  | ed_reap c x : edit (SProc ZOMBIE c x) (SProc UNUSED c x).

(** What [allocproc] and [fork] do with the new entry without the lock: set up
    its stack, or give it up again. *)
Inductive prepare : sproc -> sproc -> Prop :=
  | pr_context c x : prepare (SProc EMBRYO c x) (SProc EMBRYO c At_forkret)
  | pr_cancel c x : prepare (SProc EMBRYO c x) (SProc UNUSED c x).

(** What a thread may do next.  It gives up the CPU with no spin lock, or
    sleeps with the one it passes to [sleep]. *)
Inductive choose (i : nat) (m : smp) : smp -> Prop :=
  | ch_irq x t b : m_cpus m !! i = Some x -> x_at x = Th t (Code []) ->
      choose i m (put_cpu i (set_cpu (Cpu (c_ncli (x_cpu x)) (c_intena (x_cpu x)) b) x) m)
  | ch_acquire x t held lk m' : m_cpus m !! i = Some x -> x_at x = Th t (Code held) -> lk <> ptl -> lk ∉ held ->
      take_lock i lk x (Th t (Code (lk :: held))) m = Some m' -> choose i m m'
  | ch_release x t h1 lk h2 : m_cpus m !! i = Some x -> x_at x = Th t (Code (h1 ++ lk :: h2)) ->
      choose i m (free_lock i lk x (Th t (Code (h1 ++ h2))) m)
  | ch_yield x t m' : m_cpus m !! i = Some x -> x_at x = Th t (Code []) -> take_lock i ptl x (Th t Yield_set) m = Some m' -> choose i m m'
  | ch_sleep x t chan lk m' : m_cpus m !! i = Some x -> x_at x = Th t (Code [lk]) ->
      take_lock i ptl x (Th t (Sleep_release chan lk)) m = Some m' -> choose i m m'
  | ch_wakeup x t chan held m' : m_cpus m !! i = Some x -> x_at x = Th t (Code held) ->
      take_lock i ptl x (Th t (Waking chan held)) m = Some m' -> choose i m m'
  | ch_table x t m' : m_cpus m !! i = Some x -> x_at x = Th t (Code []) -> take_lock i ptl x (Th t Table) m = Some m' -> choose i m m'
  | ch_edit x t u p p' : m_cpus m !! i = Some x -> x_at x = Th t Table -> m_procs m !! u = Some p -> edit p p' ->
      choose i m (put_procs (<[u := p']> (m_procs m)) m)
  | ch_prepare x t u p p' : m_cpus m !! i = Some x -> x_at x = Th t (Code []) -> m_procs m !! u = Some p -> prepare p p' ->
      choose i m (put_procs (<[u := p']> (m_procs m)) m)
  | ch_table_sleep x t chan : m_cpus m !! i = Some x -> x_at x = Th t Table -> choose i m (put_cpu i (set_at (Th t (Sleep_set chan ptl)) x) m)
  | ch_exit x t : m_cpus m !! i = Some x -> x_at x = Th t Table -> choose i m (on_myproc i x (to_state ZOMBIE) (Th t (Sched K_exit)) m)
  | ch_leave x t : m_cpus m !! i = Some x -> x_at x = Th t Table -> choose i m (free_lock i ptl x (Th t (Code [])) m).

Definition sstep (m m' : smp) : Prop := exists i, advance_cpu i m = Some m' \/ choose i m m'.

(** Every CPU enters its scheduler; [userinit] has made the first process. *)
Definition init_proc : sproc := SProc RUNNABLE None At_forkret.
Definition free_proc : sproc := SProc UNUSED None At_forkret.
Definition started (ncpu nproc : nat) (m : smp) : Prop :=
  m_locks m = ∅ /\ m_procs m = init_proc :: replicate nproc free_proc /\
  m_cpus m = replicate ncpu (SCpu (Cpu 0 false false) None 0 Sch_sti).

(** ** The invariant *)

(** The spin locks a CPU has taken. *)
Definition act_locks (a : act) : list nat :=
  match a with
  | Code held => held
  | Sleep_release _ lk => [ptl; lk]
  | Sleep_reacquire _ => []
  | Waking _ held | Woken held => ptl :: held
  | Table | Yield_set | Sleep_set _ _ | Sched _ | Sched_back _ _ | Sched_done _ | Forkret => [ptl]
  end.
Definition pc_locks (a : pc) : list nat :=
  match a with
  | Sch_sti | Sch_acquire | Panic _ => []
  | Sch_scan _ | Sch_back _ => [ptl]
  | Th _ a => act_locks a
  end.

Definition thread_of (a : pc) : option nat := match a with Th t _ => Some t | _ => None end.
Definition proc_of (a : pc) : option nat := match a with Th t _ => Some t | Sch_back k => Some k | _ => None end.

(** The places a thread reaches; [exit] does not return from [sched], and only
    [sleep] names [ptable.lock]. *)
Definition act_ok (a : act) : Prop :=
  match a with
  | Code held | Waking _ held | Woken held => ptl ∉ held
  | Sleep_release _ lk | Sleep_reacquire lk => lk <> ptl
  | Sched_back _ k | Sched_done k => k <> K_exit
  | _ => True
  end.
Definition pc_ok (a : pc) : Prop := match a with Th _ a => act_ok a | Panic _ => False | _ => True end.

(** The state of a process whose thread a CPU executes. *)
Definition on_state (a : act) (p : sproc) : Prop :=
  match a with
  | Sched K_yield => sp_state p = RUNNABLE
  | Sched (K_sleep _) => sp_state p = SLEEPING /\ is_Some (sp_chan p)
  | Sched K_exit => sp_state p = ZOMBIE
  | _ => sp_state p = RUNNING
  end.

(** The state of a process that no CPU executes: what the scheduler will
    resume has been saved. *)
Definition off_state (p : sproc) : Prop :=
  match sp_state p with
  | RUNNING => False
  | RUNNABLE => forall b, sp_ctx p <> In_sched b K_exit
  | SLEEPING => (exists b lk, sp_ctx p = In_sched b (K_sleep lk)) /\ is_Some (sp_chan p)
  | EMBRYO | UNUSED | ZOMBIE => True
  end.

Record cpu_inv (x : scpu) : Prop := {
  ci_at : pc_ok (x_at x);
  ci_ncli : c_ncli (x_cpu x) = Z.of_nat (length (pc_locks (x_at x)));
  ci_if : pc_locks (x_at x) <> [] -> c_if (x_cpu x) = false;
  ci_locks : NoDup (pc_locks (x_at x));
  ci_proc : x_proc x = proc_of (x_at x);
  ci_sched : forall t, thread_of (x_at x) = Some t -> x_sched x = t;
}.

Definition on_cpu (m : smp) (t : nat) : Prop := exists i x, m_cpus m !! i = Some x /\ thread_of (x_at x) = Some t.

Record sinv (m : smp) : Prop := {
  si_cpu : forall i x, m_cpus m !! i = Some x -> cpu_inv x;
  si_lock : forall lk i, m_locks m !! lk = Some i <-> exists x, m_cpus m !! i = Some x /\ lk ∈ pc_locks (x_at x);
  si_on : forall i x t a, m_cpus m !! i = Some x -> x_at x = Th t a -> exists p, m_procs m !! t = Some p /\ on_state a p;
  si_one : forall i j x y t, m_cpus m !! i = Some x -> m_cpus m !! j = Some y ->
    thread_of (x_at x) = Some t -> thread_of (x_at y) = Some t -> i = j;
  si_off : forall t p, m_procs m !! t = Some p -> ~ on_cpu m t -> off_state p;
}.

(** Two CPUs do not have the same lock. *)
Lemma lock_excl m i j x y lk : sinv m -> m_cpus m !! i = Some x -> m_cpus m !! j = Some y ->
  lk ∈ pc_locks (x_at x) -> lk ∈ pc_locks (x_at y) -> i = j.
Proof.
  intros Hm Hi Hj Hx Hy. assert (m_locks m !! lk = Some i) as E1 by (apply (si_lock m Hm); eauto).
  assert (m_locks m !! lk = Some j) as E2 by (apply (si_lock m Hm); eauto). congruence.
Qed.

(** While a CPU has [ptable.lock], the processes on other CPUs are running. *)
Lemma others_running m i x j y t a p : sinv m -> m_cpus m !! i = Some x -> ptl ∈ pc_locks (x_at x) ->
  m_cpus m !! j = Some y -> j <> i -> x_at y = Th t a -> m_procs m !! t = Some p -> sp_state p = RUNNING.
Proof.
  intros Hm Hi Hl Hj Hji Ha Hp. destruct (si_on m Hm j y t a Hj Ha) as (p' & Hp' & Hon). simplify_eq.
  destruct a; try exact Hon. exfalso. apply Hji. symmetry. eapply (lock_excl m i j x y ptl); try done. rewrite Ha. by apply list_elem_of_here.
Qed.

(** One CPU moves.  Its locks are those of its new place; the entries of the
    table fit the threads. *)
Lemma sinv_move m i x x' locks procs : sinv m -> m_cpus m !! i = Some x -> cpu_inv x' ->
  (forall lk j, locks !! lk = Some j <-> if decide (j = i) then lk ∈ pc_locks (x_at x') else m_locks m !! lk = Some j) ->
  (forall t, thread_of (x_at x') = Some t -> forall j y, j <> i -> m_cpus m !! j = Some y -> thread_of (x_at y) <> Some t) ->
  (forall t a, x_at x' = Th t a -> exists p, procs !! t = Some p /\ on_state a p) ->
  (forall j y t a, j <> i -> m_cpus m !! j = Some y -> x_at y = Th t a -> exists p, procs !! t = Some p /\ on_state a p) ->
  (forall t p, procs !! t = Some p -> thread_of (x_at x') <> Some t -> (forall j y, j <> i -> m_cpus m !! j = Some y -> thread_of (x_at y) <> Some t) -> off_state p) ->
  sinv (Smp locks procs (<[i := x']> (m_cpus m))).
Proof.
  intros Hm Hi Hx' Hlk Hth Hon Hoth Hoff. assert (forall j y, <[i := x']> (m_cpus m) !! j = Some y -> (j = i /\ y = x') \/ (j <> i /\ m_cpus m !! j = Some y)) as Hcase.
  { intros j y [(-> & <- & _)|[Hji Hj]]%list_lookup_insert_Some; auto. }
  assert (<[i := x']> (m_cpus m) !! i = Some x') as Hii by (apply list_lookup_insert_eq; by eapply lookup_lt_Some).
  split; cbn [m_cpus m_procs m_locks].
  - intros j y Hj. apply Hcase in Hj as [[-> ->]|[Hji Hj]]; [done|by apply (si_cpu m Hm j)].
  - intros lk j. rewrite Hlk. destruct (decide (j = i)) as [->|Hji].
    + split; [intros Hl; by exists x'|]. intros (y & Hy & Hl). rewrite Hii in Hy. by simplify_eq.
    + rewrite (si_lock m Hm). by rewrite list_lookup_insert_ne.
  - intros j y t a Hj Ha. apply Hcase in Hj as [[-> ->]|[Hji Hj]]; [by apply Hon|by eapply Hoth].
  - intros j k y z t Hj Hk Hy Hz. apply Hcase in Hj as [[-> ->]|[Hji Hj]], Hk as [[-> ->]|[Hki Hk]]; [done| | |by eapply (si_one m Hm)].
    + by destruct (Hth t Hy k z).
    + by destruct (Hth t Hz j y).
  - intros t p Hp Hno. apply Hoff with t; [done| |].
    + intros Ht. apply Hno. by exists i, x'.
    + intros j y Hji Hj Ht. apply Hno. exists j, y. cbn [m_cpus]. by rewrite list_lookup_insert_ne.
Qed.

(** ** Steps that keep it *)

(** A CPU goes on in its scheduler or in the same thread. *)
Definition goes_on (a a' : pc) : Prop :=
  proc_of a' = proc_of a /\
  match a, a' with
  | Th t b, Th t' b' => t' = t /\ forall p, on_state b p -> on_state b' p
  | Th _ _, _ | _, Th _ _ => False
  | _, _ => True
  end.

Lemma goes_on_thread a a' : goes_on a a' -> thread_of a' = thread_of a.
Proof. intros [_ H]. by destruct a, a'; cbn; try done; destruct H as [-> _]. Qed.

Lemma sinv_goes_on m i x x' locks : sinv m -> m_cpus m !! i = Some x -> cpu_inv x' -> goes_on (x_at x) (x_at x') ->
  (forall lk j, locks !! lk = Some j <-> if decide (j = i) then lk ∈ pc_locks (x_at x') else m_locks m !! lk = Some j) ->
  sinv (Smp locks (m_procs m) (<[i := x']> (m_cpus m))).
Proof.
  intros Hm Hi Hx' Hgo Hlk. pose proof (goes_on_thread _ _ Hgo) as Et. destruct Hgo as [_ Hgo]. apply (sinv_move m i x); try done.
  - intros t Ht j y Hji Hj Hy. rewrite Et in Ht. apply Hji. symmetry. by eapply (si_one m Hm).
  - intros t a Ha. rewrite Ha in Hgo. destruct (x_at x) as [| | | |t0 a0|] eqn:E; try done. destruct Hgo as [-> Hst].
    destruct (si_on m Hm i x t0 a0 Hi E) as (p & Hp & Hon). eauto.
  - intros j y t a _ Hj Ha. by eapply (si_on m Hm).
  - intros t p Hp Hno Hno'. apply (si_off m Hm t p Hp). intros (j & y & Hj & Hy). destruct (decide (j = i)) as [->|Hji].
    + simplify_eq. by rewrite Et in Hno.
    + by apply (Hno' j y).
Qed.

Lemma locks_same m i x (a : pc) : sinv m -> m_cpus m !! i = Some x -> pc_locks a = pc_locks (x_at x) ->
  forall lk j, m_locks m !! lk = Some j <-> if decide (j = i) then lk ∈ pc_locks a else m_locks m !! lk = Some j.
Proof.
  intros Hm Hi E lk j. destruct (decide (j = i)) as [->|Hji]; [|done]. rewrite (si_lock m Hm), E.
  split; [intros (y & Hy & Hl); by simplify_eq|eauto].
Qed.

Lemma take_lock_inv m i x lk next m' : sinv m -> m_cpus m !! i = Some x -> take_lock i lk x next m = Some m' -> lk ∉ pc_locks (x_at x) ->
  pc_ok next -> pc_locks next ≡ₚ lk :: pc_locks (x_at x) -> goes_on (x_at x) next -> sinv m'.
Proof.
  intros Hm Hi E Hlk Hok Hp Hgo. pose proof (si_cpu m Hm i x Hi) as [C1 C2 C3 C4 C5 C6]. unfold take_lock in E. destruct (m_locks m !! lk) as [j|] eqn:Ej.
  { destruct (bool_decide_reflect (j = i)) as [->|]; [|done]. apply (si_lock m Hm) in Ej as (y & Hy & Hl). by simplify_eq. }
  injection E as <-. apply (sinv_goes_on m i x); [done|done| |done|].
  - split; cbn [set_at set_cpu x_at x_cpu x_proc x_sched pushcli c_ncli c_if].
    + done.
    + rewrite Hp. cbn [length]. lia.
    + done.
    + rewrite Hp. by apply NoDup_cons.
    + rewrite (proj1 Hgo). done.
    + intros t. rewrite (goes_on_thread _ _ Hgo). apply C6.
  - intros l j. rewrite lookup_insert_Some. destruct (decide (j = i)) as [->|Hji].
    + cbn [set_at x_at]. rewrite Hp, elem_of_cons. rewrite (si_lock m Hm). split.
      * intros [[-> _]|[_ (y & Hy & Hl)]]; [by left|simplify_eq; by right].
      * intros [->|Hl]; [by left|right]. split; [by intros ->|eauto].
    + split; [intros [[_ ->]|[_ H]]; [done|done]|]. intros H. right. split; [|done]. intros ->. by rewrite Ej in H.
Qed.

Lemma free_lock_inv m i x lk next : sinv m -> m_cpus m !! i = Some x -> pc_ok next -> pc_locks (x_at x) ≡ₚ lk :: pc_locks next ->
  goes_on (x_at x) next -> sinv (free_lock i lk x next m).
Proof.
  intros Hm Hi Hok Hp Hgo. pose proof (si_cpu m Hm i x Hi) as [C1 C2 C3 C4 C5 C6].
  assert (m_locks m !! lk = Some i) as Hl by (apply (si_lock m Hm); exists x; split; [done|]; rewrite Hp; apply list_elem_of_here).
  unfold free_lock. rewrite bool_decide_true by done. unfold popcli.
  rewrite C3 by (intros E; rewrite E in Hp; by apply Permutation_nil_cons in Hp). rewrite Hp in C2, C4. cbn [length] in C2. apply NoDup_cons in C4 as [C4 C4'].
  rewrite (proj2 (Z.ltb_ge _ _)) by lia. apply (sinv_goes_on m i x); [done|done| |done|].
  - split; cbn [set_at set_cpu x_at x_cpu x_proc x_sched c_ncli c_if]; try done; [lia| | |].
    + intros Hne. destruct (pc_locks next) as [|l ls] eqn:El; [done|]. cbn [length] in C2. rewrite (proj2 (Z.eqb_neq _ _)) by lia. done.
    + by rewrite (proj1 Hgo).
    + intros t. rewrite (goes_on_thread _ _ Hgo). apply C6.
  - intros l j. rewrite lookup_delete_Some. cbn [set_at x_at]. destruct (decide (j = i)) as [->|Hji].
    + rewrite (si_lock m Hm). split.
      * intros [Hne (y & Hy & Hin)]. simplify_eq. rewrite Hp in Hin. by apply elem_of_cons in Hin as [->|].
      * intros Hin. split; [by intros ->|]. exists x. split; [done|]. rewrite Hp. by right.
    + split; [by intros [_ H]|]. intros H. split; [|done]. intros ->. congruence.
Qed.

(** A thread changes the entry of its own process. *)
Lemma on_myproc_inv m i x t a f b : sinv m -> m_cpus m !! i = Some x -> x_at x = Th t a -> act_ok b -> act_locks b = act_locks a ->
  (forall p, on_state a p -> on_state b (f p)) -> sinv (on_myproc i x f (Th t b) m).
Proof.
  intros Hm Hi Ha Hok Hlk Hst. pose proof (si_cpu m Hm i x Hi) as [C1 C2 C3 C4 C5 C6]. rewrite Ha in *. cbn [proc_of pc_locks thread_of] in *.
  unfold on_myproc. rewrite C5. destruct (si_on m Hm i x t a Hi Ha) as (p & Hp & Hon).
  assert (forall j y u, j <> i -> m_cpus m !! j = Some y -> thread_of (x_at y) = Some u -> u <> t) as Hother.
  { intros j y u Hji Hj Hy ->. apply Hji. eapply (si_one m Hm j i y x t); [done|done|done|by rewrite Ha]. }
  apply (sinv_move m i x (set_at (Th t b) x)); [done|done| | | | | |].
  - split; cbn [set_at x_at x_cpu x_proc x_sched pc_locks proc_of thread_of]; rewrite ?Hlk; done.
  - apply (locks_same m i x); [done|done|]. rewrite Ha. exact Hlk.
  - intros u [= <-] j y Hji Hj Hy. by apply (Hother j y t).
  - intros u c [= <- <-]. exists (f p). rewrite list_lookup_alter_eq, Hp. auto.
  - intros j y u c Hji Hj Hy. destruct (si_on m Hm j y u c Hj Hy) as (q & Hq & Hon'). exists q. split; [|done].
    rewrite list_lookup_alter_ne; [done|]. intros <-. apply (Hother j y t); [done|done|by rewrite Hy|done].
  - intros u q Hq Hu Hno. rewrite list_lookup_alter_ne in Hq by (intros <-; by apply Hu). apply (si_off m Hm u q Hq).
    intros (j & y & Hj & Hy). destruct (decide (j = i)) as [->|Hji]; [simplify_eq; by rewrite Ha in Hy|by apply (Hno j y)].
Qed.

(** [sched] passes its checks and switches. *)
Lemma do_sched_eq m i x t k : sinv m -> m_cpus m !! i = Some x -> x_at x = Th t (Sched k) ->
  do_sched i x k m = Smp (m_locks m) (alter (save (In_sched (c_intena (x_cpu x)) k)) t (m_procs m)) (<[i := set_at (Sch_back t) x]> (m_cpus m)).
Proof.
  intros Hm Hi Ha. pose proof (si_cpu m Hm i x Hi) as [C1 C2 C3 C4 C5 C6]. rewrite Ha in *. cbn [proc_of pc_locks act_locks thread_of length] in *.
  destruct (si_on m Hm i x t _ Hi Ha) as (p & Hp & Hon). pose proof (C6 t eq_refl) as Es.
  assert (m_locks m !! ptl = Some i) as Hl by (apply (si_lock m Hm); exists x; rewrite Ha; split; [done|apply list_elem_of_here]).
  assert (sp_state p <> RUNNING) as Hnr by (destruct k as [|lk|]; cbn in Hon; [congruence|destruct Hon; congruence|congruence]).
  unfold do_sched, on_myproc. rewrite C5. cbn [mbind option_bind]. rewrite Hp. unfold sched_ok.
  rewrite bool_decide_true, C2, bool_decide_false, C3 by done. cbn [negb]. change (negb (Z.of_nat 1 =? 1)) with false. cbv iota. by rewrite Es.
Qed.

Lemma do_sched_inv m i x t k : sinv m -> m_cpus m !! i = Some x -> x_at x = Th t (Sched k) -> sinv (do_sched i x k m).
Proof.
  intros Hm Hi Ha. rewrite (do_sched_eq m i x t k Hm Hi Ha). pose proof (si_cpu m Hm i x Hi) as [C1 C2 C3 C4 C5 C6]. rewrite Ha in C2, C3, C4, C5.
  destruct (si_on m Hm i x t _ Hi Ha) as (p & Hp & Hon). set (c := In_sched (c_intena (x_cpu x)) k).
  apply (sinv_move m i x (set_at (Sch_back t) x)); [done|done| | |done|done| |].
  - split; cbn [set_at x_at x_cpu x_proc x_sched pc_locks proc_of thread_of length]; done.
  - apply (locks_same m i x); [done|done|]. by rewrite Ha.
  - intros j y u b Hji Hj Hy. destruct (si_on m Hm j y u b Hj Hy) as (q & Hq & Hon'). exists q. split; [|done].
    rewrite list_lookup_alter_ne; [done|]. intros <-. apply Hji. eapply (si_one m Hm j i y x t); [done|done|by rewrite Hy|by rewrite Ha].
  - intros u q Hq _ Hno. destruct (decide (u = t)) as [->|Hut].
    + rewrite list_lookup_alter_eq, Hp in Hq. injection Hq as <-. unfold off_state, save, c. cbn [sp_state sp_ctx sp_chan].
      destruct k as [|lk|]; cbn in Hon; [by rewrite Hon|destruct Hon as [-> Hc]; eauto|by rewrite Hon].
    + rewrite list_lookup_alter_ne in Hq by done. apply (si_off m Hm u q Hq). intros (j & y & Hj & Hy).
      destruct (decide (j = i)) as [->|Hji]; [rewrite Hi in Hj; injection Hj as <-; rewrite Ha in Hy; by injection Hy as ->|by apply (Hno j y)].
Qed.

(** The scheduler takes up a process that no CPU has. *)
Lemma do_scan_inv m i x k : sinv m -> m_cpus m !! i = Some x -> x_at x = Sch_scan k -> sinv (do_scan i x k m).
Proof.
  intros Hm Hi Ha. pose proof (si_cpu m Hm i x Hi) as [C1 C2 C3 C4 C5 C6]. rewrite Ha in *. unfold do_scan. destruct (m_procs m !! k) as [p|] eqn:Hp.
  2: { apply free_lock_inv; [done|done|done|by rewrite Ha|by rewrite Ha]. }
  destruct (bool_decide_reflect (sp_state p = RUNNABLE)) as [Hr|Hr].
  2: { apply (sinv_goes_on m i x (set_at (Sch_scan (S k)) x)); [done|done|by split|by rewrite Ha|]. apply (locks_same m i x); [done|done|by rewrite Ha]. }
  assert (forall j y, j <> i -> m_cpus m !! j = Some y -> thread_of (x_at y) <> Some k) as Hfree.
  { intros j y Hji Hj Hy. destruct (x_at y) as [| | | |t a|] eqn:Ey; try done. injection Hy as ->.
    rewrite (others_running m i x j y k a p Hm Hi) in Hr; [done|rewrite Ha; apply list_elem_of_here|done..]. }
  assert (off_state p) as Hoff.
  { apply (si_off m Hm k p Hp). intros (j & y & Hj & Hy). destruct (decide (j = i)) as [->|Hji]; [simplify_eq; by rewrite Ha in Hy|by apply (Hfree j y)]. }
  unfold off_state in Hoff. rewrite Hr in Hoff. assert (exists a, resume k (sp_ctx p) = Th k a /\ act_ok a /\ act_locks a = [ptl] /\ forall q, sp_state q = RUNNING -> on_state a q) as (a & Ea & Hok & Hlk & Hst).
  { destruct (sp_ctx p) as [|b c]; [by exists Forkret|exists (Sched_back b c)]. split; [done|]. split; [|done]. intros ->. by apply (Hoff b). }
  rewrite Ea. apply (sinv_move m i x (SCpu (x_cpu x) (Some k) k (Th k a))); [done|done| | | | | |].
  - split; cbn [x_at x_cpu x_proc x_sched pc_locks proc_of thread_of]; rewrite ?Hlk; try done; congruence.
  - apply (locks_same m i x); [done|done|]. rewrite Ha. exact Hlk.
  - intros t [= <-]. exact Hfree.
  - intros t b [= <- <-]. exists (to_state RUNNING p). rewrite list_lookup_insert_eq by (by eapply lookup_lt_Some). auto.
  - intros j y t b Hji Hj Hy. destruct (si_on m Hm j y t b Hj Hy) as (q & Hq & Hon). exists q. split; [|done].
    rewrite list_lookup_insert_ne; [done|]. intros <-. apply (Hfree j y); [done|done|by rewrite Hy].
  - intros t q Hq Ht Hno. rewrite list_lookup_insert_ne in Hq by (intros <-; by apply Ht). apply (si_off m Hm t q Hq).
    intros (j & y & Hj & Hy). destruct (decide (j = i)) as [->|Hji]; [simplify_eq; by rewrite Ha in Hy|by apply (Hno j y)].
Qed.

(** Code with [ptable.lock] changes entries that no CPU runs. *)
Lemma table_inv m i x t a b procs : sinv m -> m_cpus m !! i = Some x -> x_at x = Th t a -> ptl ∈ act_locks a -> sp_state <$> m_procs m !! t = Some RUNNING ->
  act_ok b -> act_locks b = act_locks a -> (forall p, sp_state p = RUNNING -> on_state b p) ->
  (forall u p, m_procs m !! u = Some p -> sp_state p = RUNNING -> procs !! u = Some p) ->
  (forall u q, procs !! u = Some q -> exists p, m_procs m !! u = Some p /\ (off_state p -> off_state q)) ->
  sinv (Smp (m_locks m) procs (<[i := set_at (Th t b) x]> (m_cpus m))).
Proof.
  intros Hm Hi Ha Hl Hrun Hok Hlk Hst Hkeep Hoff. pose proof (si_cpu m Hm i x Hi) as [C1 C2 C3 C4 C5 C6]. rewrite Ha in *. cbn [proc_of pc_locks thread_of] in *.
  destruct (m_procs m !! t) as [p|] eqn:Hp; [|done]. injection Hrun as Hrun. apply (sinv_move m i x); [done|done| | | | | |].
  - split; cbn [set_at x_at x_cpu x_proc x_sched pc_locks proc_of thread_of]; rewrite ?Hlk; done.
  - apply (locks_same m i x); [done|done|]. by rewrite Ha.
  - intros u [= <-] j y Hji Hj Hy. apply Hji. eapply (si_one m Hm j i y x t); [done|done|done|by rewrite Ha].
  - intros u c [= <- <-]. exists p. auto.
  - intros j y u c Hji Hj Hy. destruct (si_on m Hm j y u c Hj Hy) as (q & Hq & Hon). exists q. split; [|done]. apply Hkeep; [done|].
    eapply (others_running m i x j y u c); [done|done|by rewrite Ha|done..].
  - intros u q Hq Hu Hno. destruct (Hoff u q Hq) as (p' & Hp' & Himp). apply Himp, (si_off m Hm u p' Hp').
    intros (j & y & Hj & Hy). destruct (decide (j = i)) as [->|Hji]; [|by apply (Hno j y)].
    rewrite Hi in Hj. injection Hj as <-. by rewrite Ha in Hy.
Qed.

Lemma wake_running chan p : sp_state p = RUNNING -> wake chan p = p.
Proof. intros H. unfold wake. rewrite bool_decide_false; [done|]. rewrite H. by intros []. Qed.

Lemma wake_off chan p : off_state p -> off_state (wake chan p).
Proof.
  unfold wake. case_bool_decide as H; [|done]. destruct H as [Hs _]. unfold off_state. rewrite Hs. cbn. intros [(b & lk & ->) _] b' H. done.
Qed.

Lemma edit_off p q : edit p q -> sp_state p <> RUNNING /\ (off_state p -> off_state q).
Proof. intros [c x|c|c x|c x]; (split; [done|]); unfold off_state; cbn; try done. by intros [(b & lk & ->) _]. Qed.

(** A new entry is nobody's thread yet. *)
Lemma embryo_off m t p : sinv m -> m_procs m !! t = Some p -> sp_state p = EMBRYO -> ~ on_cpu m t.
Proof.
  intros Hm Hp He (i & x & Hi & Ht). destruct (x_at x) as [| | | |u a|] eqn:Ha; try done. injection Ht as ->.
  destruct (si_on m Hm i x t a Hi Ha) as (q & Hq & Hon). simplify_eq. destruct a as [| | | | |[]| | | | | |]; cbn in Hon; destruct_and?; congruence.
Qed.

Lemma prepare_inv m u p p' : sinv m -> m_procs m !! u = Some p -> prepare p p' -> sinv (put_procs (<[u := p']> (m_procs m)) m).
Proof.
  intros Hm Hu Hp. assert (~ on_cpu m u) as Hno by (destruct Hp; by eapply embryo_off). assert (off_state p') as Hoff by (by destruct Hp).
  destruct Hm as [S1 S2 S3 S4 S5]. split; [exact S1|exact S2| |exact S4|].
  - intros i x t a Hi Ha. destruct (S3 i x t a Hi Ha) as (q & Hq & Hon). exists q. split; [|done]. cbn. rewrite list_lookup_insert_ne; [done|].
    intros ->. apply Hno. exists i, x. by rewrite Ha.
  - intros t q [(-> & <- & _)|[_ Hq]]%list_lookup_insert_Some Hn; [done|by apply (S5 t)].
Qed.

(** What [sleep] and [yield] do once they are back. *)
Lemma after_sched_inv m i x t k : sinv m -> m_cpus m !! i = Some x -> x_at x = Th t (Sched_done k) -> sinv (after_sched i x t k m).
Proof.
  intros Hm Hi Ha. pose proof (si_cpu m Hm i x Hi) as [C1 _ _ _ C5 _]. rewrite Ha in C1, C5. cbn in C1, C5. destruct k as [|lk|]; [| |done]; cbn [after_sched]; unfold yield_after, sleep_after.
  { apply free_lock_inv; [done|done|apply not_elem_of_nil|by rewrite Ha|by rewrite Ha]. }
  set (m1 := on_myproc i x no_chan (Th t Table) m). assert (sinv m1) as Hm1 by (by eapply on_myproc_inv).
  destruct (bool_decide_reflect (lk = ptl)) as [|Hlk]; [done|]. set (x1 := set_at (Th t Table) x).
  assert (m_cpus m1 !! i = Some x1) as Hi1 by (unfold m1, on_myproc; rewrite C5; apply list_lookup_insert_eq; by eapply lookup_lt_Some).
  by apply (free_lock_inv m1 i x1 ptl (Th t (Sleep_reacquire lk))).
Qed.

Lemma advance_cpu_inv i m m' : sinv m -> advance_cpu i m = Some m' -> sinv m'.
Proof.
  intros Hm E. unfold advance_cpu in E. destruct (m_cpus m !! i) as [x|] eqn:Hi; [|done]. cbn [mbind option_bind] in E.
  pose proof (si_cpu m Hm i x Hi) as Hc. pose proof Hc as [C1 C2 C3 C4 C5 C6].
  unfold do_scheduler in E. destruct (x_at x) as [| |k|k|t a|msg] eqn:Ha; [..|done].
  - injection E as <-. apply (sinv_goes_on m i x); [done|done|by split|by rewrite Ha|apply (locks_same m i x); [done|done|by rewrite Ha]].
  - eapply (take_lock_inv m i x); [done|done|exact E|by rewrite Ha; apply not_elem_of_nil|done|by rewrite Ha|by rewrite Ha].
  - injection E as <-. by apply do_scan_inv.
  - injection E as <-. apply (sinv_move m i x); [done|done|by split|apply (locks_same m i x); [done|done|by rewrite Ha]|done|done| |].
    + intros j y t a _ Hj Hy. by eapply (si_on m Hm).
    + intros t p Hp _ Hno. apply (si_off m Hm t p Hp). intros (j & y & Hj & Hy). destruct (decide (j = i)) as [->|Hji]; [|by apply (Hno j y)].
      rewrite Hi in Hj. injection Hj as <-. by rewrite Ha in Hy.
  - destruct a as [held| | |chan lk|chan lk|k|b k|k|lk|chan held|held|]; try done; try injection E as <-.
    + by eapply on_myproc_inv.
    + apply free_lock_inv; [done|done|done|rewrite Ha; apply Permutation_swap|by rewrite Ha].
    + by eapply on_myproc_inv.
    + by eapply do_sched_inv.
    + apply (sinv_goes_on m i x); [done|done|by split|by rewrite Ha|apply (locks_same m i x); [done|done|by rewrite Ha]].
    + by apply after_sched_inv.
    + cbn in C1. eapply (take_lock_inv m i x); [done|done|exact E|rewrite Ha; apply not_elem_of_nil|by intros ?%list_elem_of_singleton|by rewrite Ha|by rewrite Ha].
    + destruct (si_on m Hm i x t _ Hi Ha) as (p & Hp & Hon). eapply (table_inv m i x t _ (Woken held)); try done; [apply list_elem_of_here|by rewrite Hp; cbn; f_equal| |].
      * intros u q Hq Hr. by rewrite list_lookup_fmap, Hq; cbn; rewrite wake_running.
      * intros u q Hq. apply list_lookup_fmap_Some in Hq as (p' & -> & Hp'). exists p'. split; [done|apply wake_off].
    + apply free_lock_inv; [done|done|done|by rewrite Ha|by rewrite Ha].
    + apply free_lock_inv; [done|done|apply not_elem_of_nil|by rewrite Ha|by rewrite Ha].
Qed.

Lemma choose_inv i m m' : sinv m -> choose i m m' -> sinv m'.
Proof.
  intros Hm Hch. destruct Hch as [x t b Hi Ha|x t held lk m' Hi Ha Hne Hnin E|x t h1 lk h2 Hi Ha|x t m' Hi Ha E|x t chan lk m' Hi Ha E|x t chan held m' Hi Ha E|x t m' Hi Ha E
    |x t u p p' Hi Ha Hu He|x t u p p' Hi Ha Hu He|x t chan Hi Ha|x t Hi Ha|x t Hi Ha]; pose proof (si_cpu m Hm i x Hi) as [C1 C2 C3 C4 C5 C6]; rewrite Ha in *; cbn [pc_ok act_ok pc_locks act_locks] in *.
  - apply (sinv_goes_on m i x); [done|done| |by cbn; rewrite Ha|apply (locks_same m i x); [done|done|by cbn; rewrite Ha]].
    split; cbn [set_cpu x_at x_cpu x_proc x_sched]; rewrite Ha; done.
  - eapply (take_lock_inv m i x); [done|done|exact E|by rewrite Ha| |by rewrite Ha|by rewrite Ha]. cbn. by apply not_elem_of_cons.
  - apply free_lock_inv; [done|done| |rewrite Ha; symmetry; apply Permutation_middle|by rewrite Ha].
    cbn. rewrite not_elem_of_app, not_elem_of_cons in *. tauto.
  - eapply (take_lock_inv m i x); [done|done|exact E|by rewrite Ha|done|by rewrite Ha|by rewrite Ha].
  - eapply (take_lock_inv m i x); [done|done|exact E|by rewrite Ha| |by rewrite Ha|by rewrite Ha]. cbn. intros ->. apply C1, list_elem_of_here.
  - eapply (take_lock_inv m i x); [done|done|exact E|by rewrite Ha|done|by rewrite Ha|by rewrite Ha].
  - eapply (take_lock_inv m i x); [done|done|exact E|by rewrite Ha|done|by rewrite Ha|by rewrite Ha].
  - destruct (edit_off p p' He) as [Hnr Hoff]. destruct (si_on m Hm i x t _ Hi Ha) as (q & Hq & Hon).
    assert (sinv (Smp (m_locks m) (<[u := p']> (m_procs m)) (<[i := set_at (Th t Table) x]> (m_cpus m)))) as Hs.
    + eapply table_inv; try done; [apply list_elem_of_here|rewrite Hq; cbn; by f_equal| |].
      * intros w r Hr Hrun. rewrite list_lookup_insert_ne; [done|]. intros <-. congruence.
      * intros w r [(-> & <- & _)|[Hw Hr]]%list_lookup_insert_Some; eauto.
    + replace (set_at (Th t Table) x) with x in Hs by (rewrite <- Ha; by destruct x). rewrite (list_insert_id (m_cpus m) i x Hi) in Hs. exact Hs.
  - by eapply prepare_inv.
  - apply (sinv_goes_on m i x); [done|done|by split|by rewrite Ha|apply (locks_same m i x); [done|done|by rewrite Ha]].
  - by eapply on_myproc_inv.
  - apply free_lock_inv; [done|done|apply not_elem_of_nil|by rewrite Ha|by rewrite Ha].
Qed.

Lemma started_inv ncpu nproc m : started ncpu nproc m -> sinv m.
Proof.
  intros (E1 & E2 & E3). assert (forall i x, m_cpus m !! i = Some x -> x = SCpu (Cpu 0 false false) None 0 Sch_sti) as Hx by (intros i x; rewrite E3; by intros [? _]%lookup_replicate).
  split.
  - intros i x ->%Hx. split; try done; constructor.
  - intros lk i. rewrite E1, lookup_empty. split; [done|]. intros (x & ->%Hx & Hl). by apply elem_of_nil in Hl.
  - intros i x t a ->%Hx. done.
  - intros i j x y t ->%Hx. done.
  - intros t p Hp _. rewrite E2 in Hp. destruct t as [|t]; [by injection Hp as <-|]. by apply lookup_replicate in Hp as [-> _].
Qed.

Lemma sched_reachable ncpu nproc m0 m : started ncpu nproc m0 -> rtc sstep m0 m -> sinv m.
Proof.
  intros H0 Hr. apply started_inv in H0. induction Hr as [|m1 m2 m3 [i [Ha|Hc]] _ IH]; [done| |]; apply IH; [by eapply advance_cpu_inv|by eapply choose_inv].
Qed.

(** ** No process runs twice *)

(** C11: Switching is safe.  On any number of CPUs, with locks taken and
    released, processes created, put to sleep, woken, killed and reaped in any
    order, no CPU ever fails a check of [sched], [acquire], [release] or
    [popcli] or comes back from [exit]; a process's thread is executed by at
    most one CPU; a process is marked as running only while a CPU executes it,
    and whenever [ptable.lock] is free exactly the processes that are executed
    are marked as running.  In particular, a process that has made itself
    runnable is not taken up by another CPU before its place is saved. *)
Theorem scheduling_safe (ncpu nproc : nat) (m0 m : smp) : started ncpu nproc m0 -> rtc sstep m0 m ->
  (forall i x msg, m_cpus m !! i = Some x -> x_at x <> Panic msg) /\
  (forall i j x y t a b, m_cpus m !! i = Some x -> m_cpus m !! j = Some y -> x_at x = Th t a -> x_at y = Th t b -> i = j) /\
  (forall t p, m_procs m !! t = Some p -> sp_state p = RUNNING -> on_cpu m t) /\
  (m_locks m !! ptl = None -> forall t p, m_procs m !! t = Some p -> on_cpu m t -> sp_state p = RUNNING).
Proof.
  intros H0 Hr. pose proof (sched_reachable _ _ _ _ H0 Hr) as Hm. split; [|split; [|split]].
  - intros i x msg Hi Ha. pose proof (ci_at _ (si_cpu m Hm i x Hi)) as Hok. by rewrite Ha in Hok.
  - intros i j x y t a b Hi Hj Hx Hy. apply (si_one m Hm i j x y t); [done|done|by rewrite Hx|by rewrite Hy].
  - intros t p Hp Hrun. destruct (decide (Exists (fun x => thread_of (x_at x) = Some t) (m_cpus m))) as [He|He].
    + apply Exists_exists in He as (x & Hx & Ht). apply list_elem_of_lookup in Hx as [i Hi]. by exists i, x.
    + exfalso. pose proof (si_off m Hm t p Hp) as Hoff. unfold off_state in Hoff. rewrite Hrun in Hoff. apply Hoff. intros (i & x & Hi & Ht).
      apply He, Exists_exists. exists x. split; [by eapply list_elem_of_lookup_2|done].
  - intros Hfree t p Hp (i & x & Hi & Ht). destruct (x_at x) as [| | | |u a|] eqn:Ha; try done. injection Ht as ->.
    destruct (si_on m Hm i x t a Hi Ha) as (q & Hq & Hon). simplify_eq. destruct a; try exact Hon.
    exfalso. assert (m_locks m !! ptl = Some i) as Hl by (apply (si_lock m Hm); exists x; rewrite Ha; split; [done|apply list_elem_of_here]). congruence.
Qed.

(** ** No wakeup is lost *)

(** [t] is past [release(lk)] in [sleep(chan, lk)] and has not been woken. *)
Definition committed (m : smp) (t chan : nat) : Prop :=
  (exists p, m_procs m !! t = Some p /\ sp_state p = SLEEPING /\ sp_chan p = Some chan) \/
  (exists i x lk, m_cpus m !! i = Some x /\ x_at x = Th t (Sleep_set chan lk)).

(** C15: No wakeup is lost.  When [wakeup1] runs over the table, every process
    that has let go of its lock to sleep on the channel is in the table as
    sleeping on it, and is made runnable; so after a [wakeup] nobody is left
    asleep on the channel, or about to be, who did not take the lock again
    since. *)
Theorem no_wakeup_lost (ncpu nproc : nat) (m0 m m' : smp) (i t chan : nat) (x : scpu) (held : list nat) :
  started ncpu nproc m0 -> rtc sstep m0 m -> m_cpus m !! i = Some x -> x_at x = Th t (Waking chan held) -> advance_cpu i m = Some m' ->
  (forall u, committed m u chan -> exists p, m_procs m' !! u = Some p /\ sp_state p = RUNNABLE) /\ (forall u, ~ committed m' u chan).
Proof.
  intros H0 Hr Hi Ha E. pose proof (sched_reachable _ _ _ _ H0 Hr) as Hm. unfold advance_cpu in E. rewrite Hi in E. cbn [mbind option_bind] in E. rewrite Ha in E. injection E as <-.
  assert (forall j y u c lk, m_cpus m !! j = Some y -> x_at y = Th u (Sleep_set c lk) -> False) as Hno.
  { intros j y u c lk Hj Hy. assert (i = j) as <-; [|congruence].
    apply (lock_excl m i j x y ptl); [done|done|done|rewrite Ha; apply list_elem_of_here|rewrite Hy; apply list_elem_of_here]. }
  cbn [m_procs put_procs]. split.
  - intros u [(p & Hp & Hs & Hc)|(j & y & lk & Hj & Hy)]; [|by destruct (Hno j y u chan lk)]. exists (wake chan p). rewrite list_lookup_fmap, Hp. split; [done|].
    unfold wake. by rewrite bool_decide_true.
  - intros u [(q & Hq & Hs & Hc)|(j & y & lk & Hj & Hy)].
    + cbn [m_procs put_procs] in Hq. apply list_lookup_fmap_Some in Hq as (p & -> & _). unfold wake in Hs, Hc. destruct (bool_decide_reflect (sp_state p = SLEEPING /\ sp_chan p = Some chan)); [done|tauto].
    + cbn [m_cpus put_procs put_cpu] in Hj. apply list_lookup_insert_Some in Hj as [(-> & <- & _)|[_ Hj]]; [done|]. by apply (Hno j y u chan lk).
Qed.

(** ** Interrupts belong to the thread *)

(** Whether a thread has interrupts enabled, or will have when it has released
    its locks: the flag itself, [mycpu()->intena], or the variable of [sched]
    that keeps it while the thread does not run. *)
Definition thread_irq (x : scpu) (a : act) : bool :=
  match a with
  | Sched_back b _ => b
  | _ => if c_ncli (x_cpu x) =? 0 then c_if (x_cpu x) else c_intena (x_cpu x)
  end.
Definition waiting (p : sproc) : Prop := sp_state p = RUNNABLE \/ sp_state p = SLEEPING.
Inductive irq (m : smp) (t : nat) (b : bool) : Prop :=
  | irq_on i x a : m_cpus m !! i = Some x -> x_at x = Th t a -> a <> Forkret -> thread_irq x a = b -> irq m t b
  | irq_off p k : m_procs m !! t = Some p -> ~ on_cpu m t -> waiting p -> sp_ctx p = In_sched b k -> irq m t b.

(** What becomes of the threads when CPU [i] moves from [x] to [x']. *)
Record irq_moves (m : smp) (x x' : scpu) (procs : list sproc) : Prop := {
  im_own : forall t a, x_at x = Th t a -> a <> Forkret ->
    (exists b, x_at x' = Th t b /\ b <> Forkret /\ thread_irq x' b = thread_irq x a) \/
    (thread_of (x_at x') = None /\ exists p k, procs !! t = Some p /\ waiting p /\ sp_ctx p = In_sched (thread_irq x a) k) \/
    (exists p, procs !! t = Some p /\ sp_state p = ZOMBIE);
  im_wait : forall t p b k, m_procs m !! t = Some p -> ~ on_cpu m t -> waiting p -> sp_ctx p = In_sched b k ->
    x_at x' = Th t (Sched_back b k) \/ (thread_of (x_at x') <> Some t /\ exists q, procs !! t = Some q /\ waiting q /\ sp_ctx q = sp_ctx p);
}.

Lemma irq_move m i x x' locks procs t b : sinv m -> m_cpus m !! i = Some x -> irq_moves m x x' procs -> irq m t b ->
  let m' := Smp locks procs (<[i := x']> (m_cpus m)) in irq m' t b \/ exists p, m_procs m' !! t = Some p /\ sp_state p = ZOMBIE.
Proof.
  intros Hm Hi [Hown Hwait] Hirq m'. assert (m_cpus m' !! i = Some x') as Hi' by (apply list_lookup_insert_eq; by eapply lookup_lt_Some).
  assert (forall j, j <> i -> m_cpus m' !! j = m_cpus m !! j) as Hj' by (intros j Hj; by apply list_lookup_insert_ne).
  destruct Hirq as [j y a Hj Ha Hnf <-|p k Hp Hno Hw Hc].
  - destruct (decide (j = i)) as [->|Hji]; [|left; eapply (irq_on _ _ _ j y a); [by rewrite Hj'|done..]].
    simplify_eq. destruct (Hown t a Ha Hnf) as [(c & Hc & Hcf & <-)|[(Hn & p & k & Hp & Hw & Hc)|Hz]]; [left; by eapply (irq_on _ _ _ i x' c)|left|by right].
    eapply irq_off; [exact Hp| |exact Hw|exact Hc]. intros (j & y & Hj & Hy). destruct (decide (j = i)) as [->|Hji]; [congruence|].
    rewrite Hj' in Hj by done. apply Hji. eapply (si_one m Hm j i y x t); [done|done|done|by rewrite Ha].
  - left. destruct (Hwait t p b k Hp Hno Hw Hc) as [Hx|(Hn & q & Hq & Hw' & Hc')]; [by eapply (irq_on _ _ _ i x' (Sched_back b k))|].
    eapply irq_off; [exact Hq| |exact Hw'|by rewrite Hc']. intros (j & y & Hj & Hy). destruct (decide (j = i)) as [->|Hji]; [congruence|].
    apply Hno. exists j, y. by rewrite <- Hj'.
Qed.

(** The thread goes on, and the table is left alone. *)
Lemma irq_goes_on m i x x' : sinv m -> m_cpus m !! i = Some x -> goes_on (x_at x) (x_at x') ->
  (forall t a b, x_at x = Th t a -> x_at x' = Th t b -> b <> Forkret /\ (a <> Forkret -> thread_irq x' b = thread_irq x a)) -> irq_moves m x x' (m_procs m).
Proof.
  intros Hm Hi Hgo Hirq. pose proof (goes_on_thread _ _ Hgo) as Et. destruct Hgo as [_ Hgo]. split.
  - intros t a Ha Hnf. left. rewrite Ha in Hgo, Et. destruct (x_at x') as [| | | |u c|] eqn:E; try done. destruct Hgo as [-> _]. exists c. split; [done|].
    destruct (Hirq t a c Ha eq_refl) as [H1 H2]. auto.
  - intros t p b k Hp Hno Hw Hc. right. split; [|by exists p]. rewrite Et. intros Ht. apply Hno. by exists i, x.
Qed.

Definition irq_kept (m m' : smp) : Prop := forall t b, irq m t b -> irq m' t b \/ exists p, m_procs m' !! t = Some p /\ sp_state p = ZOMBIE.

Definition not_back (a : pc) : Prop := match a with Th _ (Sched_back _ _) => False | _ => True end.
Definition plain (a : pc) : Prop := not_back a /\ match a with Th _ Forkret => False | _ => True end.

Lemma thread_irq_plain x t a : x_at x = Th t a -> not_back (x_at x) -> thread_irq x a = if c_ncli (x_cpu x) =? 0 then c_if (x_cpu x) else c_intena (x_cpu x).
Proof. intros ->. by destruct a. Qed.

Lemma take_lock_irq m i x lk next m' : sinv m -> m_cpus m !! i = Some x -> take_lock i lk x next m = Some m' -> lk ∉ pc_locks (x_at x) ->
  goes_on (x_at x) next -> not_back (x_at x) -> plain next -> irq_kept m m'.
Proof.
  intros Hm Hi E Hlk Hgo Hb [Hb' Hf] t b. pose proof (si_cpu m Hm i x Hi) as [_ C2 _ _ _ _]. unfold take_lock in E. destruct (m_locks m !! lk) as [j|] eqn:Ej.
  { destruct (bool_decide_reflect (j = i)) as [->|]; [|done]. apply (si_lock m Hm) in Ej as (y & Hy & Hl). by simplify_eq. }
  injection E as <-. apply (irq_move m i x); [done|done|]. apply (irq_goes_on m i x); [done|done|done|]. intros u a c Ha Hc. split.
  - intros ->. cbn in Hc. by rewrite Hc in Hf.
  - intros _. rewrite (thread_irq_plain x u a Ha Hb), (thread_irq_plain _ u c Hc Hb'). cbn [set_at set_cpu x_cpu pushcli c_ncli c_intena].
    by rewrite (proj2 (Z.eqb_neq _ _)) by lia.
Qed.

Lemma free_lock_irq m i x lk next : sinv m -> m_cpus m !! i = Some x -> pc_locks (x_at x) ≡ₚ lk :: pc_locks next ->
  goes_on (x_at x) next -> not_back (x_at x) -> plain next -> irq_kept m (free_lock i lk x next m).
Proof.
  intros Hm Hi Hp Hgo Hb [Hb' Hf] t b. pose proof (si_cpu m Hm i x Hi) as [_ C2 C3 _ _ _].
  assert (m_locks m !! lk = Some i) as Hl by (apply (si_lock m Hm); exists x; split; [done|]; rewrite Hp; apply list_elem_of_here).
  unfold free_lock. rewrite bool_decide_true by done. unfold popcli. rewrite C3 by (intros E; rewrite E in Hp; by apply Permutation_nil_cons in Hp).
  rewrite Hp in C2. cbn [length] in C2. rewrite (proj2 (Z.ltb_ge _ _)) by lia.
  apply (irq_move m i x); [done|done|]. apply (irq_goes_on m i x); [done|done|done|]. intros u a c Ha Hc. split.
  - intros ->. cbn in Hc. by rewrite Hc in Hf.
  - intros _. rewrite (thread_irq_plain x u a Ha Hb), (thread_irq_plain _ u c Hc Hb'). cbn [set_at set_cpu x_cpu c_ncli c_intena c_if].
    rewrite (proj2 (Z.eqb_neq (c_ncli (x_cpu x)) 0)) by lia. destruct (c_ncli (x_cpu x) - 1 =? 0); [|done]. by destruct (c_intena (x_cpu x)).
Qed.

(** A thread changes entries of the table. *)
Lemma table_irq m i x t a b procs : sinv m -> m_cpus m !! i = Some x -> x_at x = Th t a -> a <> Forkret -> b <> Forkret ->
  not_back (Th t a) -> not_back (Th t b) ->
  (forall u p, m_procs m !! u = Some p -> u <> t -> waiting p -> exists q, procs !! u = Some q /\ waiting q /\ sp_ctx q = sp_ctx p) ->
  irq_kept m (Smp (m_locks m) procs (<[i := set_at (Th t b) x]> (m_cpus m))).
Proof.
  intros Hm Hi Ha Hf Hf' Hb Hb' Hp u c. apply (irq_move m i x); [done|done|]. split.
  - intros w d Hd _. rewrite Ha in Hd. injection Hd as <- <-. left. exists b. split; [done|]. split; [done|].
    rewrite (thread_irq_plain x t a Ha) by (by rewrite Ha). by rewrite (thread_irq_plain (set_at (Th t b) x) t b).
  - intros w p d k Hw Hno Hwait _. right. assert (w <> t) as Hwt by (intros ->; apply Hno; exists i, x; by rewrite Ha). split; [by intros [= ->]|by apply Hp].
Qed.

Lemma on_myproc_irq m i x t a f b : sinv m -> m_cpus m !! i = Some x -> x_at x = Th t a -> a <> Forkret -> b <> Forkret ->
  not_back (Th t a) -> not_back (Th t b) -> irq_kept m (on_myproc i x f (Th t b) m).
Proof.
  intros Hm Hi Ha Hf Hf' Hb Hb'. pose proof (ci_proc _ (si_cpu m Hm i x Hi)) as Ep. rewrite Ha in Ep. cbn in Ep. unfold on_myproc. rewrite Ep.
  eapply (table_irq m i x t a b); [done..|]. intros u p Hp Hu Hw. exists p. rewrite list_lookup_alter_ne by done. done.
Qed.

Lemma free_lock_procs i lk x next m : m_procs (free_lock i lk x next m) = m_procs m.
Proof. unfold free_lock. case_bool_decide; [|done]. by destruct (popcli (x_cpu x)). Qed.

Lemma do_scan_irq m i x k : sinv m -> m_cpus m !! i = Some x -> x_at x = Sch_scan k -> irq_kept m (do_scan i x k m).
Proof.
  intros Hm Hi Ha. unfold do_scan. destruct (m_procs m !! k) as [p|] eqn:Hp; [|apply free_lock_irq; by rewrite ?Ha].
  destruct (bool_decide_reflect (sp_state p = RUNNABLE)) as [Hr|Hr]; intros t b; apply (irq_move m i x); try done.
  - split; [intros u a; by rewrite Ha|]. intros u q c d Hq Hno Hw Hc. destruct (decide (u = k)) as [->|Huk].
    + left. simplify_eq. cbn. by rewrite Hc.
    + right. split; [by destruct (sp_ctx p); intros [= ->]|]. exists q. by rewrite list_lookup_insert_ne.
  - apply (irq_goes_on m i x); [done|done|by rewrite Ha|]. intros u a c Hu. by rewrite Ha in Hu.
Qed.

Lemma do_sched_irq m i x t k : sinv m -> m_cpus m !! i = Some x -> x_at x = Th t (Sched k) -> irq_kept m (do_sched i x k m).
Proof.
  intros Hm Hi Ha. rewrite (do_sched_eq m i x t k Hm Hi Ha). destruct (si_on m Hm i x t _ Hi Ha) as (p & Hp & Hon).
  pose proof (ci_ncli _ (si_cpu m Hm i x Hi)) as C2. rewrite Ha in C2. cbn in C2. intros u b. apply (irq_move m i x); [done|done|]. split.
  - intros w a Hw _. rewrite Ha in Hw. injection Hw as <- <-. right. set (q := save (In_sched (c_intena (x_cpu x)) k) p).
    assert (alter (save (In_sched (c_intena (x_cpu x)) k)) t (m_procs m) !! t = Some q) as Hq by (by rewrite list_lookup_alter_eq, Hp).
    cbn [thread_irq]. rewrite C2. destruct k as [|lk|]; cbn in Hon; [left|left|right].
    + split; [done|]. exists q, K_yield. split; [done|]. split; [by left|done].
    + split; [done|]. exists q, (K_sleep lk). split; [done|]. split; [right; apply Hon|done].
    + by exists q.
  - intros w q c d Hw Hno Hwait Hc. right. split; [done|]. exists q. split; [|done]. rewrite list_lookup_alter_ne; [done|].
    intros <-. apply Hno. exists i, x. by rewrite Ha.
Qed.

Lemma after_sched_irq m i x t k : sinv m -> m_cpus m !! i = Some x -> x_at x = Th t (Sched_done k) -> irq_kept m (after_sched i x t k m).
Proof.
  intros Hm Hi Ha. pose proof (si_cpu m Hm i x Hi) as [C1 _ _ _ C5 _]. rewrite Ha in C1, C5. cbn in C1, C5. destruct k as [|lk|]; [| |done]; cbn [after_sched]; unfold yield_after, sleep_after.
  { apply free_lock_irq; by rewrite ?Ha. }
  set (m1 := on_myproc i x no_chan (Th t Table) m). assert (sinv m1) as Hm1 by (by eapply on_myproc_inv).
  assert (irq_kept m m1) as Hk by (by eapply on_myproc_irq). destruct (bool_decide_reflect (lk = ptl)) as [|Hlk]; [done|]. set (x1 := set_at (Th t Table) x).
  assert (m_cpus m1 !! i = Some x1) as Hi1 by (unfold m1, on_myproc; rewrite C5; apply list_lookup_insert_eq; by eapply lookup_lt_Some).
  assert (irq_kept m1 (free_lock i ptl x (Th t (Sleep_reacquire lk)) m1)) as Hk2 by (by apply (free_lock_irq m1 i x1)).
  intros u b Hirq. destruct (Hk u b Hirq) as [H1|H1]; [by apply Hk2|right]. by rewrite free_lock_procs.
Qed.

Lemma advance_cpu_irq i m m' : sinv m -> advance_cpu i m = Some m' -> irq_kept m m'.
Proof.
  intros Hm E. unfold advance_cpu in E. destruct (m_cpus m !! i) as [x|] eqn:Hi; [|done]. cbn [mbind option_bind] in E.
  pose proof (si_cpu m Hm i x Hi) as [C1 C2 _ _ _ _]. unfold do_scheduler in E. destruct (x_at x) as [| |k|k|t a|msg] eqn:Ha; [..|done].
  - injection E as <-. intros u b. apply (irq_move m i x); [done|done|]. apply (irq_goes_on m i x); [done|done|by rewrite Ha|]. intros w a c Hw. by rewrite Ha in Hw.
  - eapply (take_lock_irq m i x); [done|done|exact E|rewrite Ha; apply not_elem_of_nil|by rewrite Ha|by rewrite Ha|done].
  - injection E as <-. by apply do_scan_irq.
  - injection E as <-. intros u b. apply (irq_move m i x); [done|done|]. split; [intros w a; by rewrite Ha|]. intros w p c d Hp Hno Hw Hc. right. split; [done|by exists p].
  - destruct a as [held| | |chan lk|chan lk|k|b k|k|lk|chan held|held|]; try done; try injection E as <-.
    + by eapply on_myproc_irq.
    + apply free_lock_irq; [done|done|rewrite Ha; apply Permutation_swap|by rewrite Ha|by rewrite Ha|done].
    + by eapply on_myproc_irq.
    + by eapply do_sched_irq.
    + intros u c. apply (irq_move m i x); [done|done|]. apply (irq_goes_on m i x); [done|done|by rewrite Ha|]. intros w a d Hw [= <- <-].
      rewrite Ha in Hw. injection Hw as <-. split; [done|]. intros _. cbn in C2. cbn. by rewrite C2.
    + by apply after_sched_irq.
    + cbn in C1. eapply (take_lock_irq m i x); [done|done|exact E|rewrite Ha; apply not_elem_of_nil|by rewrite Ha|by rewrite Ha|done].
    + apply (table_irq m i x t (Waking chan held) (Woken held)); try done. intros u p Hp _ Hw. exists (wake chan p). rewrite list_lookup_fmap, Hp. split; [done|].
      unfold wake. case_bool_decide; [|done]. split; [by left|done].
    + apply free_lock_irq; by rewrite ?Ha.
    + apply free_lock_irq; by rewrite ?Ha.
Qed.

(** [t] itself enables or disables interrupts. *)
Definition sets_flag (m : smp) (t : nat) (m' : smp) : Prop :=
  exists i x b, m_cpus m !! i = Some x /\ x_at x = Th t (Code []) /\ m' = put_cpu i (set_cpu (Cpu (c_ncli (x_cpu x)) (c_intena (x_cpu x)) b) x) m.

Lemma prepare_irq m u p p' : sinv m -> m_procs m !! u = Some p -> prepare p p' -> irq_kept m (put_procs (<[u := p']> (m_procs m)) m).
Proof.
  intros Hm Hu Hp t b [i x a Hi Ha Hf Hb|q k Hq Hno Hw Hc]; left; [by eapply irq_on|].
  eapply irq_off; [|exact Hno|exact Hw|exact Hc]. cbn. rewrite list_lookup_insert_ne; [done|]. intros ->. simplify_eq. destruct Hp, Hw; done.
Qed.

Lemma choose_irq i m m' t b : sinv m -> choose i m m' -> irq m t b ->
  irq m' t b \/ sets_flag m t m' \/ exists p, m_procs m' !! t = Some p /\ sp_state p = ZOMBIE.
Proof.
  intros Hm Hch Hirq. assert (irq_kept m m' \/ exists x u c, m_cpus m !! i = Some x /\ x_at x = Th u (Code []) /\ m' = put_cpu i (set_cpu (Cpu (c_ncli (x_cpu x)) (c_intena (x_cpu x)) c) x) m) as [Hk|(x & u & c & Hi & Ha & ->)].
  3: { destruct (decide (u = t)) as [->|Hut]; [right; left; by exists i, x, c|]. left. set (x' := set_cpu _ x). set (m' := put_cpu i x' m).
    assert (forall j y, m_cpus m' !! j = Some y -> (j = i /\ y = x') \/ m_cpus m !! j = Some y) as Hcase by (intros j y [(-> & <- & _)|[_ Hj]]%list_lookup_insert_Some; auto).
    destruct Hirq as [j y a Hj Hy Hnf <-|p k Hp Hno Hw Hc].
    - apply (irq_on _ _ _ j y a); [|done..]. cbn. rewrite list_lookup_insert_ne; [done|]. intros <-. congruence.
    - apply (irq_off _ _ _ p k); [done| |done|done]. intros (j & y & Hj & Hy). apply Hcase in Hj as [[-> ->]|Hj]; [change (thread_of (x_at x) = Some t) in Hy; rewrite Ha in Hy; by injection Hy as ->|]. apply Hno. by exists j, y. }
  2: { destruct (Hk t b Hirq); auto. }
  destruct Hch as [x u c Hi Ha|x u held lk m' Hi Ha Hne Hnin E|x u h1 lk h2 Hi Ha|x u m' Hi Ha E|x u chan lk m' Hi Ha E|x u chan held m' Hi Ha E|x u m' Hi Ha E
    |x u w p p' Hi Ha Hu He|x u w p p' Hi Ha Hu He|x u chan Hi Ha|x u Hi Ha|x u Hi Ha]; [right; by exists x, u, c|left..]; pose proof (ci_at _ (si_cpu m Hm i x Hi)) as C1; rewrite Ha in C1; cbn in C1.
  - eapply (take_lock_irq m i x); [done|done|exact E|by rewrite Ha|by rewrite Ha|by rewrite Ha|done].
  - apply free_lock_irq; [done|done|rewrite Ha; symmetry; apply Permutation_middle|by rewrite Ha|by rewrite Ha|done].
  - eapply (take_lock_irq m i x); [done|done|exact E|by rewrite Ha|by rewrite Ha|by rewrite Ha|done].
  - eapply (take_lock_irq m i x); [done|done|exact E|by rewrite Ha|by rewrite Ha|by rewrite Ha|done].
  - eapply (take_lock_irq m i x); [done|done|exact E|by rewrite Ha|by rewrite Ha|by rewrite Ha|done].
  - eapply (take_lock_irq m i x); [done|done|exact E|by rewrite Ha|by rewrite Ha|by rewrite Ha|done].
  - assert (irq_kept m (Smp (m_locks m) (<[w := p']> (m_procs m)) (<[i := set_at (Th u Table) x]> (m_cpus m)))) as Hs.
    + apply (table_irq m i x u Table Table); try done. intros v q Hq _ Hw. destruct (decide (v = w)) as [->|Hvw]; [|exists q; by rewrite list_lookup_insert_ne].
      simplify_eq. exists p'. rewrite list_lookup_insert_eq by (by eapply lookup_lt_Some). split; [done|]. destruct He, Hw; try done. by split; [left|].
    + replace (set_at (Th u Table) x) with x in Hs by (rewrite <- Ha; by destruct x). rewrite (list_insert_id (m_cpus m) i x Hi) in Hs. exact Hs.
  - by eapply prepare_irq.
  - intros v d. apply (irq_move m i x); [done|done|]. apply (irq_goes_on m i x); [done|done|by rewrite Ha|]. intros w a e Hw [= <- <-]. rewrite Ha in Hw. by injection Hw as <-.
  - by eapply on_myproc_irq.
  - apply free_lock_irq; by rewrite ?Ha.
Qed.

(** C35: Whether interrupts are enabled is a property of the thread, not of the
    CPU.  No step of any CPU changes it for a thread, save the thread's own
    enabling and disabling: not taking and releasing locks, however nested, and
    not [yield] and [sleep], after which the thread may go on on another CPU,
    whose [intena] other threads have used in between. *)
Theorem interrupts_of_thread (ncpu nproc : nat) (m0 m m' : smp) (t : nat) (b : bool) :
  started ncpu nproc m0 -> rtc sstep m0 m -> sstep m m' -> irq m t b ->
  irq m' t b \/ sets_flag m t m' \/ exists p, m_procs m' !! t = Some p /\ sp_state p = ZOMBIE.
Proof.
  intros H0 Hr [i [Ha|Hc]] Hirq; pose proof (sched_reachable _ _ _ _ H0 Hr) as Hm.
  - destruct (advance_cpu_irq i m m' Hm Ha t b Hirq); auto.
  - by eapply choose_irq.
Qed.

(** ** A run *)

(** Some of a thread's choices, for two CPUs and two processes. *)
Inductive choice := C_acquire (lk : nat) | C_sleep (chan : nat) | C_wakeup (chan : nat) | C_table | C_alloc (u : nat) | C_stack (u : nat) | C_begin (u : nat) | C_leave.
Definition pick (i : nat) (c : choice) (m : smp) : option smp :=
  x ← m_cpus m !! i;
  match x_at x, c with
  | Th t (Code held), C_acquire lk => if decide (lk <> ptl /\ lk ∉ held) then take_lock i lk x (Th t (Code (lk :: held))) m else None
  | Th t (Code [lk]), C_sleep chan => take_lock i ptl x (Th t (Sleep_release chan lk)) m
  | Th t (Code held), C_wakeup chan => take_lock i ptl x (Th t (Waking chan held)) m
  | Th t (Code []), C_table => take_lock i ptl x (Th t Table) m
  | Th t Table, C_alloc u =>
      p ← m_procs m !! u;
      match p with SProc UNUSED c k => Some (put_procs (<[u := SProc EMBRYO c k]> (m_procs m)) m) | _ => None end
  | Th t (Code []), C_stack u =>
      p ← m_procs m !! u;
      match p with SProc EMBRYO c _ => Some (put_procs (<[u := SProc EMBRYO c At_forkret]> (m_procs m)) m) | _ => None end
  | Th t Table, C_begin u =>
      p ← m_procs m !! u;
      match p with SProc EMBRYO c At_forkret => Some (put_procs (<[u := SProc RUNNABLE c At_forkret]> (m_procs m)) m) | _ => None end
  | Th t Table, C_leave => Some (free_lock i ptl x (Th t (Code [])) m)
  | _, _ => None
  end.

Lemma pick_choose i c m m' : pick i c m = Some m' -> choose i m m'.
Proof.
  unfold pick. destruct (m_cpus m !! i) as [x|] eqn:Hi; [|done]. cbn [mbind option_bind]. intros E.
  destruct (x_at x) as [| | | |t a|] eqn:Ha; [done..| |done]. destruct a as [held| | | | | | | | | | |]; try done.
  - destruct c as [lk|chan|chan| |u|u|u|]; destruct held as [|l [|l' held]]; try done; try (case_decide as Hd; [destruct Hd; by eapply ch_acquire|done]);
      try first [by eapply ch_sleep|by eapply ch_wakeup|by eapply ch_table].
    destruct (m_procs m !! u) as [[[] ch k]|] eqn:Hu; try done. injection E as <-. eapply ch_prepare; [done|done|done|constructor].
  - destruct c as [lk|chan|chan| |u|u|u|]; try done; [..|injection E as <-; by eapply ch_leave];
      destruct (m_procs m !! u) as [[[] ch []]|] eqn:Hu; try done; injection E as <-; (eapply ch_edit; [done|done|done|constructor]).
Qed.

Fixpoint go (l : list (nat * option choice)) (m : smp) : option smp :=
  match l with
  | [] => Some m
  | (i, None) :: l => m ← advance_cpu i m; go l m
  | (i, Some c) :: l => m ← pick i c m; go l m
  end.

Lemma go_rtc l : forall m m', go l m = Some m' -> rtc sstep m m'.
Proof.
  induction l as [|[i [c|]] l IH]; intros m m' E; cbn [go] in E; [by injection E as <-; apply rtc_refl| |].
  - destruct (pick i c m) as [m1|] eqn:E1; [|done]. eapply rtc_l; [|by apply IH]. exists i. right. by eapply pick_choose.
  - destruct (advance_cpu i m) as [m1|] eqn:E1; [|done]. eapply rtc_l; [|by apply IH]. exists i. by left.
Qed.

(** The first process starts a second, which goes to sleep on another CPU; the
    first is about to wake it. *)
Definition demo_start : smp := Smp ∅ [init_proc; free_proc] (replicate 2 (SCpu (Cpu 0 false false) None 0 Sch_sti)).
Definition demo_run : list (nat * option choice) :=
  [(0, None); (0, None); (0, None); (0, None); (0, Some C_table); (0, Some (C_alloc 1)); (0, Some C_leave); (0, Some (C_stack 1)); (0, Some C_table); (0, Some (C_begin 1)); (0, Some C_leave);
   (1, None); (1, None); (1, None); (1, None); (1, None); (1, Some (C_acquire 5)); (1, Some (C_sleep 7));
   (1, None); (1, None); (1, None); (1, None); (1, None); (0, Some (C_wakeup 7))]%nat.
Definition demo_m : smp := default demo_start (go demo_run demo_start).
Definition demo_m' : smp := default demo_start (advance_cpu 0 demo_m).

Lemma demo_started : started 2 1 demo_start.
Proof. done. Qed.
Lemma demo_reached : rtc sstep demo_start demo_m.
Proof. apply (go_rtc demo_run). by vm_compute. Qed.

Lemma scheduling_safe_witness : (forall i x msg, m_cpus demo_m !! i = Some x -> x_at x <> Panic msg) /\
  sp_state <$> m_procs demo_m = [RUNNING; SLEEPING].
Proof. split; [apply (scheduling_safe 2 1 demo_start demo_m demo_started demo_reached)|by vm_compute]. Defined.

Lemma no_wakeup_lost_witness : committed demo_m 1 7 /\ (exists p, m_procs demo_m' !! 1%nat = Some p /\ sp_state p = RUNNABLE) /\ ~ committed demo_m' 1 7.
Proof.
  assert (committed demo_m 1 7) as Hc by (left; eexists; by vm_compute). split; [exact Hc|].
  destruct (no_wakeup_lost 2 1 demo_start demo_m demo_m' 0 0 7 (SCpu (Cpu 1 true false) (Some 0%nat) 0 (Th 0 (Waking 7 []))) [] demo_started demo_reached) as [H1 H2];
    [by vm_compute|done|by vm_compute|]. split; [by apply H1|apply H2].
Defined.

Lemma interrupts_of_thread_witness : irq demo_m' 0 true \/ sets_flag demo_m 0 demo_m' \/ exists p, m_procs demo_m' !! 0%nat = Some p /\ sp_state p = ZOMBIE.
Proof.
  apply (interrupts_of_thread 2 1 demo_start demo_m demo_m' 0 true demo_started demo_reached).
  - exists 0%nat. left. by vm_compute.
  - eapply (irq_on _ _ _ 0 (SCpu (Cpu 1 true false) (Some 0%nat) 0 (Th 0 (Waking 7 []))) (Waking 7 [])); by vm_compute.
Defined.
