(* ===== verification/Kbd.v ===== *)
(** * The keyboard ([kbd.c], [kbd.h])

    Bytes of the keyboard controller become characters.  The specification is
    a keyboard with keys that are down and locks that are on; the driver has
    one word of flags and sees the keys' codes byte by byte.  What it makes of
    them goes to the console's line editor. *)

From S2P Require Import Prelude Console.

(** ** Tables *)

Definition SHIFT : Z := 1.
Definition CTL : Z := 2.
Definition ALT : Z := 4.
Definition CAPSLOCK : Z := 8.
Definition NUMLOCK : Z := 16.
Definition SCROLLLOCK : Z := 32.
Definition E0ESC : Z := 64.

(** [static uchar t[256]] with its first elements and designated ones. *)
Definition uchars (first : list Z) (designated : list (Z * Z)) : list Z :=
  foldl (fun t d => <[Z.to_nat d.1 := d.2 mod 256]> t) (resize 256 0 ((fun c => c mod 256) <$> first)) designated.
Definition code_at (t : list Z) (data : Z) : Z := nth (Z.to_nat data) t 0.

Definition shiftcode : list Z := uchars [] [(0x1D, CTL); (0x2A, SHIFT); (0x36, SHIFT); (0x38, ALT); (0x9D, CTL); (0xB8, ALT)].
Definition togglecode : list Z := uchars [] [(0x3A, CAPSLOCK); (0x45, NUMLOCK); (0x46, SCROLLLOCK)].

(** Enter and divide of the key pad, and the keys between it and the letters. *)
Definition far_keys (enter div : Z) : list (Z * Z) :=
  [(0x9C, enter); (0xB5, div); (0xC8, 0xE2); (0xD0, 0xE3); (0xC9, 0xE6); (0xD1, 0xE7); (0xCB, 0xE4); (0xCD, 0xE5);
   (0x97, 0xE0); (0xCF, 0xE1); (0xD2, 0xE8); (0xD3, 0xE9)].

Definition normalmap : list Z := uchars
  [0; 27; 49; 50; 51; 52; 53; 54; 55; 56; 57; 48; 45; 61; 8; 9; 113; 119; 101; 114; 116; 121; 117; 105; 111; 112; 91; 93; 10; 0; 97; 115;
   100; 102; 103; 104; 106; 107; 108; 59; 39; 96; 0; 92; 122; 120; 99; 118; 98; 110; 109; 44; 46; 47; 0; 42; 0; 32; 0; 0; 0; 0; 0; 0;
   0; 0; 0; 0; 0; 0; 0; 55; 56; 57; 45; 52; 53; 54; 43; 49; 50; 51; 48; 46; 0; 0; 0; 0] (far_keys 10 47).
Definition shiftmap : list Z := uchars
  [0; 27; 33; 64; 35; 36; 37; 94; 38; 42; 40; 41; 95; 43; 8; 9; 81; 87; 69; 82; 84; 89; 85; 73; 79; 80; 123; 125; 10; 0; 65; 83;
   68; 70; 71; 72; 74; 75; 76; 58; 34; 126; 0; 124; 90; 88; 67; 86; 66; 78; 77; 60; 62; 63; 0; 42; 0; 32; 0; 0; 0; 0; 0; 0;
   0; 0; 0; 0; 0; 0; 0; 55; 56; 57; 45; 52; 53; 54; 43; 49; 50; 51; 48; 46; 0; 0; 0; 0] (far_keys 10 47).
(** [C(x)] is [x - '@']. *)
Definition C_ (x : Z) : Z := x - 64.
Definition ctlmap : list Z := uchars
  ([0; 0; 0; 0; 0; 0; 0; 0; 0; 0; 0; 0; 0; 0; 0; 0] ++ (C_ <$> [81; 87; 69; 82; 84; 89; 85; 73; 79; 80]) ++ [0; 0; 13; 0] ++
   (C_ <$> [65; 83; 68; 70; 71; 72; 74; 75; 76]) ++ [0; 0; 0; 0] ++ (C_ <$> [92; 90; 88; 67; 86; 66; 78; 77]) ++ [0; 0; C_ 47; 0; 0]) (far_keys 13 (C_ 47)).

Definition charcode (i : Z) : list Z := if i =? 0 then normalmap else if i =? 1 then shiftmap else ctlmap.

(** ** The driver *)

Definition swap_case (c : Z) : Z :=
  if (97 <=? c) && (c <=? 122) then c + (65 - 97) else if (65 <=? c) && (c <=? 90) then c + (97 - 65) else c.

(** [kbdgetc] once a byte is there: the new value of [shift], and what is
    returned. *)
Definition kbd_byte (shift data : Z) : Z * Z :=
  if data =? 0xE0 then (Z.lor shift E0ESC, 0)
  else if has data 0x80 then
    let data := if has shift E0ESC then data else Z.land data 0x7F in
    (Z.land shift (not32 (Z.lor (code_at shiftcode data) E0ESC)), 0)
  else
    let '(shift, data) := if has shift E0ESC then (Z.land shift (not32 E0ESC), Z.lor data 0x80) else (shift, data) in
    let shift := Z.lor shift (code_at shiftcode data) in
    let shift := Z.lxor shift (code_at togglecode data) in
    let c := code_at (charcode (Z.land shift (Z.lor CTL SHIFT))) data in
    (shift, if has shift CAPSLOCK then swap_case c else c).

(** The controller's buffer holds the bytes to come. *)
Definition kbdgetc (shift : Z) (buffer : list Z) : Z * (Z * list Z) :=
  match buffer with
  | [] => (-1, (shift, []))
  | data :: buffer => let '(shift, c) := kbd_byte shift data in (c, (shift, buffer))
  end.

(** [consoleintr(kbdgetc)] takes characters until there are no more. *)
Fixpoint kbd_drain (shift : Z) (buffer : list Z) : Z * list Z :=
  match buffer with
  | [] => (shift, [])
  | data :: buffer => let '(shift, c) := kbd_byte shift data in let '(shift, cs) := kbd_drain shift buffer in (shift, c :: cs)
  end.

(** One interrupt: the bytes that have come in go through [consoleintr]. *)
Definition kbdintr (burst : list Z) (st : Z * input) : Z * input :=
  let '(shift, cs) := kbd_drain st.1 burst in (shift, (consoleintr cs st.2).1.1).

(** ** Keys *)

(** A key by its code, and whether an escape byte precedes it. *)
Record key := Key { k_ext : bool; k_code : Z }.
#[global] Instance key_eq : EqDecision key.
Proof. solve_decision. Defined.

(** The release of a key with code 0x60 would look like an escape. *)
Definition key_ok (k : key) : Prop := 0 <= k_code k < 128 /\ k_code k <> 0x60.
Definition index (k : key) : Z := if k_ext k then k_code k + 128 else k_code k.

Inductive event := Press (k : key) | Release (k : key).
Definition key_of (e : event) : key := match e with Press k | Release k => k end.
Definition bytes_of (e : event) : list Z :=
  (if k_ext (key_of e) then [0xE0] else []) ++ [match e with Press k => k_code k | Release k => k_code k + 128 end].

Definition modifier (k : key) : Z := code_at shiftcode (index k).
Definition toggle (k : key) : Z := code_at togglecode (index k).
Definition modifiers (down : list key) : Z := foldr (fun k => Z.lor (modifier k)) 0 down.

(** The character of a key, with modifiers down and locks on. *)
Definition layout (mods locks : Z) (k : key) : Z :=
  let c := code_at (charcode (Z.land mods (Z.lor CTL SHIFT))) (index k) in if has locks CAPSLOCK then swap_case c else c.

(** The keyboard: keys that are down, locks that are on. *)
Record keyboard := Keyboard { kb_down : list key; kb_locks : Z }.
Definition react (e : event) (b : keyboard) : keyboard :=
  match e with
  | Press k => Keyboard (if decide (k ∈ kb_down b) then kb_down b else k :: kb_down b) (Z.lxor (kb_locks b) (toggle k))
  | Release k => Keyboard (filter (fun k' => k' <> k) (kb_down b)) (kb_locks b)
  end.
Fixpoint typed (es : list event) (b : keyboard) : list Z :=
  match es with
  | [] => []
  | e :: es =>
      let b := react e b in
      match e with Press k => layout (modifiers (kb_down b)) (kb_locks b) k :: typed es b | Release _ => typed es b end
  end.
Definition reacts (es : list event) (b : keyboard) : keyboard := foldl (fun b e => react e b) b es.

(** When a modifier is released, no other key with the same meaning is down. *)
Fixpoint one_by_one (es : list event) (b : keyboard) : Prop :=
  match es with
  | [] => True
  | e :: es =>
      key_ok (key_of e) /\
      match e with Release k => forall k', k' ∈ kb_down b -> k' <> k -> Z.land (modifier k') (modifier k) = 0 | Press _ => True end /\
      one_by_one es (react e b)
  end.

(** ** One byte after the other *)

Lemma code_range t (P : Z -> bool) i : forallb P t = true -> P 0 = true -> P (code_at t i) = true.
Proof.
  intros Ht H0. unfold code_at. destruct (nth_in_or_default (Z.to_nat i) t 0) as [Hin| ->]; [|done]. rewrite forallb_forall in Ht. by apply Ht.
Qed.

Lemma modifier_cases k : modifier k = 0 \/ modifier k = 1 \/ modifier k = 2 \/ modifier k = 4.
Proof. pose proof (code_range shiftcode (fun m => (m =? 0) || (m =? 1) || (m =? 2) || (m =? 4)) (index k) eq_refl eq_refl) as H.
  cbv beta in H. rewrite !orb_true_iff, !Z.eqb_eq in H. unfold modifier. tauto. Qed.

Lemma toggle_cases k : toggle k = 0 \/ toggle k = 8 \/ toggle k = 16 \/ toggle k = 32.
Proof. pose proof (code_range togglecode (fun m => (m =? 0) || (m =? 8) || (m =? 16) || (m =? 32)) (index k) eq_refl eq_refl) as H.
  cbv beta in H. rewrite !orb_true_iff, !Z.eqb_eq in H. unfold toggle. tauto. Qed.

Lemma modifier_in k : In (modifier k) [0; 1; 2; 4].
Proof. destruct (modifier_cases k) as [->|[->|[->| ->]]]; cbn; auto. Qed.
Lemma toggle_in k : In (toggle k) [0; 8; 16; 32].
Proof. destruct (toggle_cases k) as [->|[->|[->| ->]]]; cbn; auto. Qed.

(** Facts about a few bits are checked on every value. *)
Lemma all_below (P : Z -> bool) n : forallb P (seqZ 0 n) = true -> forall x, 0 <= x < n -> P x = true.
Proof. intros H x Hx. rewrite forallb_forall in H. apply H, list_elem_of_In, elem_of_seqZ. lia. Qed.

Lemma code_bits c : 0 <= c < 128 -> has c 128 = false /\ has (c + 128) 128 = true /\ Z.land (c + 128) 127 = c /\ Z.lor c 128 = c + 128.
Proof.
  intros Hc. pose proof (all_below (fun c => negb (has c 128) && has (c + 128) 128 && (Z.land (c + 128) 127 =? c) && (Z.lor c 128 =? c + 128)) 128 eq_refl c Hc) as H.
  cbv beta in H. bool_prop. auto.
Qed.

Lemma word_bits w : 0 <= w < 64 -> has w E0ESC = false /\ has (Z.lor w E0ESC) E0ESC = true /\ Z.land (Z.lor w E0ESC) (not32 E0ESC) = w /\
  forall k, Z.land (Z.lor w E0ESC) (not32 (Z.lor (modifier k) E0ESC)) = Z.land w (not32 (modifier k)) /\ Z.land w (not32 (Z.lor (modifier k) E0ESC)) = Z.land w (not32 (modifier k)).
Proof.
  intros Hw. pose proof (all_below (fun w => negb (has w E0ESC) && has (Z.lor w E0ESC) E0ESC && (Z.land (Z.lor w E0ESC) (not32 E0ESC) =? w) &&
    forallb (fun m => (Z.land (Z.lor w E0ESC) (not32 (Z.lor m E0ESC)) =? Z.land w (not32 m)) && (Z.land w (not32 (Z.lor m E0ESC)) =? Z.land w (not32 m))) [0; 1; 2; 4]) 64 eq_refl w Hw) as H.
  cbv beta in H. apply andb_true_iff in H as [H Hm]. bool_prop. split; [done|]. split; [done|]. split; [done|]. intros k.
  rewrite forallb_forall in Hm. pose proof (Hm _ (modifier_in k)) as Hin. bool_prop. done.
Qed.

(** Modifiers and locks do not meet. *)
Definition word (b : keyboard) : Z := Z.lor (modifiers (kb_down b)) (kb_locks b).
Definition locks_ok (l : Z) : Prop := l ∈ (Z.mul 8 <$> seqZ 0 8).

Lemma modifiers_range down : 0 <= modifiers down < 8.
Proof.
  induction down as [|k down IH]; cbn [modifiers foldr]; [lia|]. fold (modifiers down).
  pose proof (all_below (fun m => forallb (fun a => (0 <=? Z.lor a m) && (Z.lor a m <? 8)) [0; 1; 2; 4]) 8 eq_refl _ IH) as H. cbv beta in H.
  rewrite forallb_forall in H. pose proof (H _ (modifier_in k)) as Hin. bool_prop. lia.
Qed.

Definition word_facts (m l a t : Z) : bool :=
  (Z.lxor (Z.lor (Z.lor m l) a) t =? Z.lor (Z.lor a m) (Z.lxor l t)) && bool_decide (Z.lxor l t ∈ (Z.mul 8 <$> seqZ 0 8)) &&
  (Z.land (Z.lor m l) (not32 a) =? Z.lor (Z.land m (not32 a)) l) && (0 <=? Z.lor m l) && (Z.lor m l <? 64) &&
  (Z.land (Z.lor m l) 3 =? Z.land m 3) && Bool.eqb (has (Z.lor m l) 8) (has l 8).

Lemma word_check m l k : 0 <= m < 8 -> locks_ok l -> word_facts m l (modifier k) (toggle k) = true.
Proof.
  intros Hm Hl. assert (forallb (fun m => forallb (fun l => forallb (fun a => forallb (word_facts m l a) [0; 8; 16; 32]) [0; 1; 2; 4]) (Z.mul 8 <$> seqZ 0 8)) (seqZ 0 8) = true) as H by (by vm_compute).
  pose proof (all_below _ 8 H m Hm) as H1. cbv beta in H1. rewrite forallb_forall in H1. specialize (H1 l (proj1 (list_elem_of_In _ _) Hl)). cbv beta in H1.
  rewrite forallb_forall in H1. pose proof (H1 _ (modifier_in k)) as H2. cbv beta in H2. rewrite forallb_forall in H2. apply H2, toggle_in.
Qed.

(** Every bit of a modifier is set once it is down, and clear once nothing with
    that meaning is. *)
Lemma modifiers_down down k : k ∈ down -> Z.lor (modifier k) (modifiers down) = modifiers down.
Proof.
  induction down as [|k' down IH]; [by intros ?%elem_of_nil|]. cbn [modifiers foldr]. fold (modifiers down). intros [->|Hk]%elem_of_cons.
  - by rewrite Z.lor_assoc, Z.lor_diag.
  - rewrite Z.lor_assoc, (Z.lor_comm (modifier k)), <- Z.lor_assoc. by rewrite IH.
Qed.

Lemma modifiers_release down k : (forall k', k' ∈ down -> k' <> k -> Z.land (modifier k') (modifier k) = 0) ->
  modifiers (filter (fun k' => k' <> k) down) = Z.land (modifiers down) (not32 (modifier k)).
Proof.
  induction down as [|k' down IH]; intros H; [by rewrite Z.land_0_l|]. cbn [modifiers foldr]. fold (modifiers down).
  rewrite filter_cons, Z.land_lor_distr_l. rewrite <- IH by (intros k'' Hk; apply H; by right). case_decide as Hk.
  - cbn [modifiers foldr]. f_equal. pose proof (H k' (list_elem_of_here _ _) Hk) as H0. revert H0.
    destruct (modifier_cases k) as [->|[->|[->| ->]]], (modifier_cases k') as [->|[->|[->| ->]]]; by vm_compute.
  - subst k'. assert (Z.land (modifier k) (not32 (modifier k)) = 0) as ->; [|by rewrite Z.lor_0_l].
    destruct (modifier_cases k) as [->|[->|[->| ->]]]; by vm_compute.
Qed.

Lemma press_word down l k : locks_ok l -> let m := modifiers (k :: down) in let l' := Z.lxor l (toggle k) in
  Z.lxor (Z.lor (Z.lor (modifiers down) l) (modifier k)) (toggle k) = Z.lor m l' /\ locks_ok l' /\
  Z.land (Z.lor m l') 3 = Z.land m 3 /\ has (Z.lor m l') 8 = has l' 8 /\ 0 <= Z.lor (modifiers down) l < 64 /\
  Z.land (Z.lor (modifiers down) l) (not32 (modifier k)) = Z.lor (Z.land (modifiers down) (not32 (modifier k))) l.
Proof.
  intros Hl m l'. pose proof (word_check (modifiers down) l k (modifiers_range down) Hl) as H. unfold word_facts in H. rewrite !andb_true_iff in H.
  destruct H as [[[[[[H1 H2] H3] H4] H5] H6] H7]. apply bool_decide_eq_true in H2. bool_prop.
  pose proof (word_check m l' k (modifiers_range (k :: down)) H2) as H. unfold word_facts in H. rewrite !andb_true_iff in H.
  destruct H as [[[[[[_ _] _] _] _] G6] G7]. apply Z.eqb_eq in G6. apply Bool.eqb_prop in G7.
  split; [exact H1|]. split; [exact H2|]. split; [exact G6|]. split; [exact G7|]. split; [lia|exact H3].
Qed.

(** What one event makes of the word, and what [kbdgetc] returns for its
    bytes. *)
Lemma press_run k down l : key_ok k -> locks_ok l -> let m := modifiers (k :: down) in let l' := Z.lxor l (toggle k) in
  kbd_drain (Z.lor (modifiers down) l) (bytes_of (Press k)) = (Z.lor m l', (if k_ext k then [0] else []) ++ [layout m l' k]).
Proof.
  intros [Hc Hne] Hl m l'. destruct (press_word down l k Hl) as (P1 & P2 & P3 & P4 & P5 & _). fold m l' in P1, P2, P3, P4. set (w := Z.lor (modifiers down) l) in *.
  pose proof (word_bits w P5) as (W1 & W2 & W3 & _). pose proof (code_bits (k_code k) Hc) as (D1 & _ & _ & D4).
  assert ((k_code k =? 0xE0) = false) as D0 by (apply Z.eqb_neq; lia). unfold bytes_of, layout, modifier, toggle, index in *. cbn [key_of]. change (Z.lor CTL SHIFT) with 3.
  destruct (k_ext k); cbn [app kbd_drain].
  - change (kbd_byte w 0xE0) with (Z.lor w E0ESC, 0). cbv iota. unfold kbd_byte. rewrite D0, D1, W2, W3, D4, P1. change (Z.lor CTL SHIFT) with 3. change CAPSLOCK with 8. by rewrite P3, P4.
  - unfold kbd_byte. rewrite D0, D1, W1, P1. change (Z.lor CTL SHIFT) with 3. change CAPSLOCK with 8. by rewrite P3, P4.
Qed.

Lemma release_run k down l : key_ok k -> locks_ok l -> (forall k', k' ∈ down -> k' <> k -> Z.land (modifier k') (modifier k) = 0) ->
  kbd_drain (Z.lor (modifiers down) l) (bytes_of (Release k)) =
    (Z.lor (modifiers (filter (fun k' => k' <> k) down)) l, (if k_ext k then [0] else []) ++ [0]).
Proof.
  intros [Hc Hne] Hl Hone. rewrite (modifiers_release down k Hone). destruct (press_word down l k Hl) as (_ & _ & _ & _ & P5 & P6). rewrite <- P6.
  set (w := Z.lor (modifiers down) l) in *. pose proof (word_bits w P5) as (W1 & W2 & _ & W4). destruct (W4 k) as [W5 W6].
  pose proof (code_bits (k_code k) Hc) as (_ & D2 & D3 & _). assert ((k_code k + 128 =? 0xE0) = false) as D0 by (apply Z.eqb_neq; lia).
  unfold bytes_of, modifier, index in *. cbn [key_of]. destruct (k_ext k); cbn [app kbd_drain].
  - change (kbd_byte w 0xE0) with (Z.lor w E0ESC, 0). cbv iota. unfold kbd_byte. rewrite D0, D2, W2, W5. done.
  - unfold kbd_byte. rewrite D0, D2, W1, D3, W6. done.
Qed.

Lemma event_run e b : key_ok (key_of e) -> locks_ok (kb_locks b) ->
  match e with Release k => forall k', k' ∈ kb_down b -> k' <> k -> Z.land (modifier k') (modifier k) = 0 | Press _ => True end ->
  kbd_drain (word b) (bytes_of e) = (word (react e b), (if k_ext (key_of e) then [0] else []) ++
    [match e with Press k => layout (modifiers (kb_down (react e b))) (kb_locks (react e b)) k | Release _ => 0 end]) /\
  locks_ok (kb_locks (react e b)).
Proof.
  destruct b as [down l], e as [k|k]; intros Hk Hl Hone; unfold word; cbn [key_of react kb_down kb_locks] in *.
  - destruct (press_word down l k Hl) as (_ & P2 & _). split; [|done]. rewrite press_run by done. case_decide as Hin; [|done].
    assert (modifiers (k :: down) = modifiers down) as -> by (by apply modifiers_down). done.
  - split; [|done]. by apply release_run.
Qed.

Lemma drain_app s a b : kbd_drain s (a ++ b) = let '(s, c) := kbd_drain s a in let '(s, d) := kbd_drain s b in (s, c ++ d).
Proof.
  revert s. induction a as [|x a IH]; intros s; cbn [app kbd_drain]; [by destruct (kbd_drain s b)|]. destruct (kbd_byte s x) as [s1 c].
  rewrite IH. destruct (kbd_drain s1 a) as [s2 d], (kbd_drain s2 b) as [s3 e]. done.
Qed.

(** One byte leaves the flags within their seven bits and gives a character. *)
Lemma kbd_byte_range shift data : 0 <= shift < 128 -> 0 <= data < 256 -> 0 <= (kbd_byte shift data).1 < 128 /\ 0 <= (kbd_byte shift data).2 < 256.
Proof.
  intros Hs Hd. assert (forall t i n, forallb (fun c => (0 <=? c) && (c <? n)) t = true -> 0 < n -> 0 <= code_at t i < n) as Ht.
  { intros t i n H Hn. pose proof (code_range t (fun c => (0 <=? c) && (c <? n)) i H) as Hc. cbv beta in Hc. rewrite !andb_true_iff, !Z.leb_le, !Z.ltb_lt in Hc. lia. }
  assert (forall c, 0 <= c < 256 -> 0 <= swap_case c < 256) as Hsw by (intros c; unfold swap_case; repeat case_bool; bool_prop; lia).
  unfold kbd_byte. destruct (data =? 0xE0); [split; [apply (lor_bound shift E0ESC 7); unfold E0ESC; lia|cbn; lia]|].
  destruct (has data 0x80); [split; [apply (land_bound shift _ 7); lia|cbn; lia]|].
  assert (forall s d, 0 <= s < 128 -> let s' := Z.lxor (Z.lor s (code_at shiftcode d)) (code_at togglecode d) in let c := code_at (charcode (Z.land s' (Z.lor CTL SHIFT))) d in
    0 <= s' < 128 /\ 0 <= (if has s' CAPSLOCK then swap_case c else c) < 256) as Hk.
  { intros s d H s' c. split.
    - apply (lxor_bound _ _ 7); [lia|apply (lor_bound _ _ 7); [lia|done|by apply (Ht shiftcode d 128)]|by apply (Ht togglecode d 128)].
    - assert (0 <= c < 256) as Hc by (unfold c, charcode; repeat case_bool; by apply Ht). destruct (has s' CAPSLOCK); [by apply Hsw|done]. }
  destruct (has shift E0ESC); [|exact (Hk shift data Hs)]. apply (Hk (Z.land shift (not32 E0ESC)) (Z.lor data 0x80)), (land_bound shift _ 7); lia.
Qed.

Lemma kbd_drain_range buffer : forall shift, 0 <= shift < 128 -> Forall (fun d => 0 <= d < 256) buffer ->
  0 <= (kbd_drain shift buffer).1 < 128 /\ Forall (fun c => 0 <= c < 256) (kbd_drain shift buffer).2.
Proof.
  induction buffer as [|data buffer IH]; intros shift Hs Hb; [done|]. apply Forall_cons in Hb as [Hd Hb]. cbn [kbd_drain].
  destruct (kbd_byte_range shift data Hs Hd) as [H1 H2]. destruct (kbd_byte shift data) as [s1 c]. destruct (IH s1 H1 Hb) as [H3 H4].
  destruct (kbd_drain s1 buffer) as [s2 cs]. split; [done|by constructor].
Qed.



(** The characters of a sequence of events. *)
Lemma kbd_run es : forall b, locks_ok (kb_locks b) -> one_by_one es b ->
  exists cs, kbd_drain (word b) (es ≫= bytes_of) = (word (reacts es b), cs) /\ filter (fun c => c <> 0) cs = filter (fun c => c <> 0) (typed es b).
Proof.
  induction es as [|e es IH]; intros b Hl Hone; [by exists []|]. destruct Hone as (Hk & He & Hone).
  destruct (event_run e b Hk Hl He) as [E Hl']. destruct (IH (react e b) Hl' Hone) as (cs & E2 & Hcs). cbn [mbind list_bind]. rewrite drain_app, E.
  change (foldr (fun x acc => bytes_of x ++ acc) [] es) with (es ≫= bytes_of). rewrite E2. eexists. split; [done|]. rewrite !filter_app, Hcs. cbn [typed].
  assert (filter (fun c => c <> 0) (if k_ext (key_of e) then [0] else []) = []) as -> by (by destruct (k_ext (key_of e))).
  destruct e as [k|k]; cbn [app filter list_filter]; [|done]. by case_decide.
Qed.

(** Interrupts may come after any number of bytes. *)
Lemma bursts_run bursts : forall shift s a, 0 <= shift < 128 -> Forall (fun d => 0 <= d < 256) (concat bursts) -> stands_for s a ->
  let '(shift', cs) := kbd_drain shift (concat bursts) in let '(shift'', s') := foldl (fun st burst => kbdintr burst st) (shift, s) bursts in
  shift'' = shift' /\ stands_for s' (foldl (fun a c => edit_key c a) a cs).
Proof.
  induction bursts as [|burst bursts IH]; intros shift s a Hs Hb Hst; [done|]. cbn [concat foldl] in *. rewrite drain_app. apply Forall_app in Hb as [Hb Hbs].
  destruct (kbd_drain_range burst shift Hs Hb) as [H1 H2]. unfold kbdintr at 2. cbn [fst snd]. destruct (kbd_drain shift burst) as [s1 c]. cbn [fst snd] in *.
  pose proof (typed_stands c s a Hst H2) as H3. specialize (IH s1 _ _ H1 Hbs H3).
  destruct (kbd_drain s1 (concat bursts)) as [s2 d], (foldl _ _ bursts) as [s3 t]. by rewrite foldl_app.
Qed.

Lemma edit_zeros cs : forall a, foldl (fun a c => edit_key c a) a cs = foldl (fun a c => edit_key c a) a (filter (fun c => c <> 0) cs).
Proof.
  induction cs as [|c cs IH]; intros a; [done|]. cbn [foldl]. rewrite filter_cons. case_decide as Hc; cbn [foldl]; [apply IH|].
  assert (c = 0) as -> by lia. apply IH.
Qed.

Lemma event_bytes es b : one_by_one es b -> Forall (fun d => 0 <= d < 256) (es ≫= bytes_of).
Proof.
  revert b. induction es as [|e es IH]; intros b H; [constructor|]. destruct H as ([Hc _] & _ & H). cbn [mbind list_bind]. apply Forall_app. split; [|by apply (IH (react e b))].
  unfold bytes_of. destruct (k_ext (key_of e)), e; cbn in *; repeat constructor; lia.
Qed.

(** C34: The driver understands the keyboard.  Whatever keys are pressed and
    released, auto-repeated presses and keys with an escape byte included, and
    wherever interrupts cut the stream of bytes, as long as of two keys with
    the same meaning, such as the shift keys, one is not released while the
    other is down: the line editor behind [consoleintr] is in the state it gets
    from the characters the layout has for the keys pressed, each with the
    modifiers that are down and the locks that are on at the time; and the
    driver's flags are then those modifiers and locks. *)
Theorem kbd_refines (es : list event) (b : keyboard) (bursts : list (list Z)) (s : input) (a : editor) :
  locks_ok (kb_locks b) -> one_by_one es b -> concat bursts = es ≫= bytes_of -> stands_for s a ->
  let '(shift', s') := foldl (fun st burst => kbdintr burst st) (word b, s) bursts in
  shift' = word (reacts es b) /\ stands_for s' (foldl (fun a c => edit_key c a) a (typed es b)).
Proof.
  intros Hl Hone Hb Hst. destruct (kbd_run es b Hl Hone) as (cs & E & Hcs).
  assert (0 <= word b < 128) as Hw by (destruct (press_word (kb_down b) (kb_locks b) (Key false 0) Hl) as (_ & _ & _ & _ & H & _); unfold word; lia).
  assert (Forall (fun d => 0 <= d < 256) (concat bursts)) as Hd by (rewrite Hb; by eapply event_bytes).
  pose proof (bursts_run bursts (word b) s a Hw Hd Hst) as H. rewrite Hb, E in H. destruct (foldl _ _ bursts) as [sh s'].
  rewrite edit_zeros, <- Hcs, <- edit_zeros. exact H.
Qed.

Definition demo_keys : list event :=
  [Press (Key false 0x2A); Press (Key false 0x1E); Release (Key false 0x1E); Release (Key false 0x2A); Press (Key false 0x3A);
   Press (Key false 0x30); Press (Key true 0x1D); Press (Key false 0x2E); Press (Key true 0x48)].

(** Shift and [a], caps lock and [b], a control key and [c], and cursor up, in
    interrupts of three bytes. *)
Definition demo_bursts : list (list Z) := [[0x2A; 0x1E; 0x9E]; [0xAA; 0x3A; 0x30]; [0xE0; 0x1D; 0x2E]; [0xE0; 0x48]].

Lemma kbd_refines_witness : typed demo_keys (Keyboard [] 0) = [0; 65; 0; 66; 0; 3; 0xE2] /\
  stands_for (foldl (fun st burst => kbdintr burst st) (0, late_input) demo_bursts).2 (Editor [] [65; 66; 3; 0xE2]).
Proof.
  assert (one_by_one demo_keys (Keyboard [] 0)) as H.
  { cbn. unfold key_ok. cbn. repeat split; try done; intros k' Hk Hne; repeat (apply elem_of_cons in Hk as [->|Hk]; [done|]); by apply elem_of_nil in Hk. }
  split; [by vm_compute|].
  pose proof (kbd_refines demo_keys (Keyboard [] 0) demo_bursts late_input (Editor [] []) (list_elem_of_here _ _) H eq_refl late_stands) as R.
  change (word (Keyboard [] 0)) with 0 in R. destruct (foldl _ _ demo_bursts) as [sh s]. exact (proj2 R).
Defined.

(** Of two keys with the same meaning the driver keeps one flag: with both shift
    keys down, releasing one leaves the other without effect. *)
Theorem second_shift_lost : kbd_drain 0 ([Press (Key false 0x2A); Press (Key false 0x36); Release (Key false 0x36); Press (Key false 0x1E)] ≫= bytes_of) = (0, [0; 0; 0; 97]) /\
  typed [Press (Key false 0x2A); Press (Key false 0x36); Release (Key false 0x36); Press (Key false 0x1E)] (Keyboard [] 0) = [0; 0; 65].
Proof. by vm_compute. Qed.
