(* ===== verification/Tools.v ===== *)
(** * Small user programs ([wc.c], [cat.c], [grep.c], [echo.c])

    Programs that read files, given as what their calls of [read] return while
    nobody changes them, and write text.  What they print goes through the library's [printf]. *)

From S2P Require Import Prelude Strings Console Grep.

(** ** Running *)

(** What has been written, byte by byte with the descriptor, and how many more
    bytes the output takes; it takes what one call writes whole or refuses it. *)
Record term := Term { t_out : list (Z * Z); t_room : Z }.

(** A program goes on, or has called [exit]. *)
Inductive result (A : Type) := Going (a : A) (s : term) | Exited (s : term).
Arguments Going {A} a s.
Arguments Exited {A} s.
Definition prog (A : Type) : Type := term -> result A.
#[global] Instance prog_ret : MRet prog := fun A a s => Going a s.
#[global] Instance prog_bind : MBind prog := fun A B k m s => match m s with Going a s => k a s | Exited s => Exited s end.
Definition exit_ {A} : prog A := fun s => Exited s.

Definition write (fd : Z) (bs : list Z) : prog Z := fun s =>
  let n := Z.of_nat (length bs) in
  if n <=? t_room s then Going n (Term (t_out s ++ map (pair fd) bs) (t_room s - n)) else Going (-1) s.

(** [printf]; its arguments are numbers and strings. *)
Inductive uarg := Num (z : Z) | Str (s : list Z).
Fixpoint chars (s : string) : list Z :=
  match s with EmptyString => [] | String a s => Z.of_nat (Ascii.nat_of_ascii a) :: chars s end.
Definition newline : string := String (Ascii.ascii_of_nat 10) EmptyString.
Definition string_of (args : list uarg) (ptr : Z) : list Z :=
  match args !! Z.to_nat (ptr - 1) with Some (Str s) => s | _ => [] end.
Definition words_of (args : list uarg) : list Z := imap (fun i a => match a with Num z => z | Str _ => Z.of_nat i + 1 end) args.
Definition format (fmt : string) (args : list uarg) : list Z := printf (string_of args) (chars fmt) false (words_of args).
Fixpoint each {A} (l : list A) (f : A -> prog ()) : prog () :=
  match l with [] => mret () | x :: l => f x ≫= fun _ => each l f end.

(** It writes one byte a call and does not look at what [write] returns. *)
Definition putc (fd c : Z) : prog () := write fd [c] ≫= fun _ => mret ().
Definition print (fd : Z) (fmt : string) (args : list uarg) : prog () := each (format fmt args) (putc fd).

(** What successive calls of [read] on a descriptor return: bytes, or an
    error; after the last, the end of the file. *)
Abbreviation stream := (list (option (list Z))).

Section programs.
(** The file system the programs run on. *)
Context (open_ : list Z -> option stream).

(** [for(i = 1; i < argc; i++) { if((fd = open(argv[i], 0)) < 0) ... }] *)
Definition with_file (complain : string) (body : list Z -> stream -> prog ()) (name : list Z) : prog () :=
  match open_ name with
  | None => print 1 complain [Str name] ≫= fun _ => exit_
  | Some reads => body name reads
  end.

(** ** [wc] *)

Definition blanks : list Z := [32; 13; 9; 10; 11].
Record tally := Tally { n_lines : Z; n_words : Z; n_chars : Z; inword : bool }.
Definition count (t : tally) (b : Z) : tally :=
  let l := if b =? 10 then n_lines t + 1 else n_lines t in
  let c := n_chars t + 1 in
  if bool_decide (b ∈ blanks) then Tally l (n_words t) c false
  else if negb (inword t) then Tally l (n_words t + 1) c true
  else Tally l (n_words t) c true.

(** The loop, to the end of the file or an error. *)
Fixpoint wc_loop (reads : stream) (t : tally) : option tally :=
  match reads with
  | [] | Some [] :: _ => Some t
  | Some buf :: reads => wc_loop reads (foldl count t buf)
  | None :: _ => None
  end.
Definition wc (name : list Z) (reads : stream) : prog () :=
  match wc_loop reads (Tally 0 0 0 false) with
  | None => print 1 ("wc: read error" ++ newline) [] ≫= fun _ => exit_
  | Some t => print 1 ("%d %d %d %s" ++ newline) [Num (n_lines t); Num (n_words t); Num (n_chars t); Str name]
  end.
Definition wc_main (stdin : stream) (argv : list (list Z)) : prog () :=
  match argv with
  | [] => wc [] stdin ≫= fun _ => exit_
  | _ => each argv (with_file ("wc: cannot open %s" ++ newline) wc) ≫= fun _ => exit_
  end.

(** ** [cat] *)

Fixpoint cat (reads : stream) : prog () :=
  match reads with
  | [] | Some [] :: _ => mret ()
  | Some buf :: reads =>
      write 1 buf ≫= fun n =>
      if negb (n =? Z.of_nat (length buf)) then print 1 ("cat: write error" ++ newline) [] ≫= fun _ => exit_ else cat reads
  | None :: _ => print 1 ("cat: read error" ++ newline) [] ≫= fun _ => exit_
  end.
Definition cat_main (stdin : stream) (argv : list (list Z)) : prog () :=
  match argv with
  | [] => cat stdin ≫= fun _ => exit_
  | _ => each argv (with_file ("cat: cannot open %s" ++ newline) (fun _ => cat)) ≫= fun _ => exit_
  end.

(** ** [grep]

    Every line is one [write], and its result is not looked at; an error of [read]
    ends the reading like the end of the file. *)

Fixpoint bytes_read (reads : stream) : list (list Z) :=
  match reads with
  | Some (b :: buf) :: reads => (b :: buf) :: bytes_read reads
  | _ => []
  end.
Definition grep_file (pattern : list Z) (reads : stream) : prog () := 
  each (lines_from [] (grep pattern [] (bytes_read reads))) (fun line => write 1 (line ++ [NEWLINE]) ≫= fun _ => mret ()).
Definition grep_main (stdin : stream) (argv : list (list Z)) : prog () :=
  match argv with
  | [] => print 2 ("usage: grep pattern [file ...]" ++ newline) [] ≫= fun _ => exit_
  | [pattern] => grep_file pattern stdin ≫= fun _ => exit_
  | pattern :: files => each files (with_file ("grep: cannot open %s" ++ newline) (fun _ => grep_file pattern)) ≫= fun _ => exit_
  end.

(** ** [echo] *)

Fixpoint echo_loop (argv : list (list Z)) : prog () :=
  match argv with
  | [] => mret ()
  | a :: argv => print 1 "%s%s" [Str a; Str (match argv with [] => [10] | _ => [32] end)] ≫= fun _ => echo_loop argv
  end.
Definition echo_main (argv : list (list Z)) : prog () := echo_loop argv ≫= fun _ => exit_.
End programs.

(** ** What they print *)

(** Reads without errors, and the text they make up. *)
Definition readable (reads : stream) : Prop := Forall (fun r => exists b buf, r = Some (b :: buf)) reads.
Definition text_of (reads : stream) : list Z := concat (bytes_read reads).

(** The words of a text: what stands between blanks, where it is not empty. *)
Fixpoint split_blanks (text : list Z) : list (list Z) :=
  match text with
  | [] => [[]]
  | c :: text =>
      if bool_decide (c ∈ blanks) then [] :: split_blanks text
      else match split_blanks text with w :: ws => (c :: w) :: ws | [] => [[c]] end
  end.
Definition words (text : list Z) : list (list Z) := filter (fun w => w <> []) (split_blanks text).
Definition newlines (text : list Z) : nat := length (filter (fun c => c = 10) text).

(** Whether the text goes on with a word. *)
Definition starts_word (text : list Z) : bool := match text with c :: _ => negb (bool_decide (c ∈ blanks)) | [] => false end.

Lemma split_blanks_cons text : exists w ws, split_blanks text = w :: ws /\ (starts_word text = negb (bool_decide (w = []))).
Proof.
  destruct text as [|c text]; cbn [split_blanks starts_word]; [by exists [], []|]. destruct (bool_decide (c ∈ blanks)); [by eexists [], _|].
  destruct (split_blanks text) as [|w ws]; eauto.
Qed.

Lemma words_cons c text : words (c :: text) = if bool_decide (c ∈ blanks) then words text else
  match split_blanks text with w :: ws => (c :: w) :: filter (fun w => w <> []) ws | [] => [[c]] end.
Proof. unfold words. cbn [split_blanks]. destruct (bool_decide (c ∈ blanks)); [done|]. by destruct (split_blanks text). Qed.

(** The word the text goes on with counts once: now, or before. *)
Lemma words_count c text : Z.of_nat (length (words (c :: text))) =
  Z.of_nat (length (words text)) + (if bool_decide (c ∈ blanks) then 0 else if starts_word text then 0 else 1).
Proof.
  rewrite words_cons. destruct (bool_decide (c ∈ blanks)); [lia|]. destruct (split_blanks_cons text) as (w & ws & E & Hs). unfold words. rewrite E, Hs.
  destruct w as [|d w]; rewrite filter_cons; cbn [bool_decide negb]; [rewrite decide_False by auto|rewrite decide_True by done]; cbn [length]; case_bool_decide; cbn; try done; lia.
Qed.

Lemma count_text text : forall t, let t' := foldl count t text in
  n_lines t' = n_lines t + Z.of_nat (newlines text) /\ n_chars t' = n_chars t + Z.of_nat (length text) /\
  n_words t' = n_words t + Z.of_nat (length (words text)) - (if inword t && starts_word text then 1 else 0).
Proof.
  induction text as [|c text IH]; intros t; cbn [foldl].
  { rewrite andb_false_r. change (words []) with (@nil (list Z)). change (newlines []) with 0%nat. cbn. lia. }
  destruct (IH (count t c)) as (I1 & I2 & I3). pose proof (words_count c text) as Hw. cbn [length]. unfold newlines in *. rewrite filter_cons. cbn [starts_word].
  assert (n_lines (count t c) = n_lines t + (if decide (c = 10) then 1 else 0)) as L by (unfold count; destruct (Z.eqb_spec c 10), (bool_decide (c ∈ blanks)), (inword t); cbn; case_decide; lia).
  assert (n_chars (count t c) = n_chars t + 1) as C by (unfold count; by destruct (bool_decide (c ∈ blanks)), (inword t)).
  assert (inword (count t c) = negb (bool_decide (c ∈ blanks)) /\ n_words (count t c) = n_words t + (if bool_decide (c ∈ blanks) || inword t then 0 else 1)) as [W1 W2].
  { unfold count. destruct (bool_decide (c ∈ blanks)), (inword t); cbn; (split; [done|lia]). }
  split; [case_decide; cbn [length]; lia|]. split; [lia|]. rewrite W1, W2 in I3. rewrite Hw, I3.
  destruct (bool_decide (c ∈ blanks)), (inword t), (starts_word text); cbn [orb andb negb]; lia.
Qed.

Lemma wc_loop_run reads t : readable reads -> wc_loop reads t = Some (foldl count t (text_of reads)).
Proof.
  intros H. revert t. induction H as [|r reads (b & buf & ->) _ IH]; intros t; [done|]. cbn [wc_loop]. rewrite IH. f_equal. unfold text_of. cbn [bytes_read concat].
  by rewrite foldl_app.
Qed.

(** The line [wc] prints for a text. *)
Definition wc_line (name text : list Z) : list Z :=
  u_printint (Z.of_nat (newlines text)) 10 true ++ [32] ++ u_printint (Z.of_nat (length (words text))) 10 true ++ [32] ++
  u_printint (Z.of_nat (length text)) 10 true ++ [32] ++ name ++ [10].

Lemma wc_format a b c name : format ("%d %d %d %s" ++ newline) [Num a; Num b; Num c; Str name] =
  u_printint a 10 true ++ [32] ++ u_printint b 10 true ++ [32] ++ u_printint c 10 true ++ [32] ++ name ++ [10].
Proof. unfold format. cbn [chars words_of imap]. reflexivity. Qed.


(** *** Enough room

    [says p bs]: started with room for them, [p] writes the bytes [bs] on
    descriptor 1 and goes on. *)
Definition says (p : prog ()) (bs : list Z) : Prop := forall out room, Z.of_nat (length bs) <= room ->
  p (Term out room) = Going () (Term (out ++ map (pair 1) bs) (room - Z.of_nat (length bs))).

Lemma says_ret : says (mret ()) [].
Proof. intros out room _. cbn. by rewrite app_nil_r, Z.sub_0_r. Qed.

Lemma says_bind p q bs cs : says p bs -> says q cs -> says (p ≫= fun _ => q) (bs ++ cs).
Proof.
  intros Hp Hq out room Hr. rewrite length_app in Hr |- *. unfold mbind, prog_bind. rewrite Hp by lia. rewrite Hq by lia.
  rewrite map_app, app_assoc. do 2 f_equal. lia.
Qed.

Lemma says_write bs (k : Z -> prog ()) cs : says (k (Z.of_nat (length bs))) cs -> says (write 1 bs ≫= k) (bs ++ cs).
Proof.
  intros Hk out room Hr. rewrite length_app in Hr |- *. unfold mbind, prog_bind, write. cbn [t_room t_out].
  rewrite (proj2 (Z.leb_le _ _)) by lia. rewrite Hk by lia. rewrite map_app, app_assoc. do 2 f_equal. lia.
Qed.

Lemma says_each {A} (f : A -> prog ()) (g : A -> list Z) l : (forall x, x ∈ l -> says (f x) (g x)) -> says (each l f) (concat (map g l)).
Proof.
  induction l as [|x l IH]; intros H; [exact says_ret|]. cbn [each map concat]. apply says_bind; [apply H, list_elem_of_here|].
  apply IH. intros y Hy. apply H. by right.
Qed.

Lemma says_print fmt args : says (print 1 fmt args) (format fmt args).
Proof.
  unfold print. replace (format fmt args) with (concat (map (fun c => [c]) (format fmt args))) at 2.
  - apply says_each. intros c _. unfold putc. exact (says_write [c] _ [] says_ret).
  - induction (format fmt args) as [|c l IH]; [done|]. cbn. by rewrite IH.
Qed.

Lemma says_wc name reads : readable reads -> says (wc name reads) (wc_line name (text_of reads)).
Proof.
  intros H. unfold wc. rewrite (wc_loop_run _ _ H). destruct (count_text (text_of reads) (Tally 0 0 0 false)) as (-> & -> & ->). cbn [n_lines n_words n_chars inword andb].
  rewrite Z.sub_0_r, !Z.add_0_l. unfold wc_line. rewrite <- wc_format. apply says_print.
Qed.

Lemma says_cat reads : readable reads -> says (cat reads) (text_of reads).
Proof.
  intros H. induction H as [|r reads (b & buf & ->) _ IH]; [exact says_ret|]. cbn [cat]. unfold text_of. cbn [bytes_read concat].
  apply says_write. by rewrite Z.eqb_refl.
Qed.

Lemma exits_after p bs out room : says p bs -> Z.of_nat (length bs) <= room ->
  (p ≫= fun _ => exit_) (Term out room) = Exited (A := ()) (Term (out ++ map (pair 1) bs) (room - Z.of_nat (length bs))).
Proof. intros Hp Hr. unfold mbind, prog_bind. by rewrite Hp. Qed.

(** The files a command line names, with what reading them returns. *)
Definition present (open_ : list Z -> option stream) (files : list (list Z * stream)) : Prop :=
  Forall (fun f => open_ f.1 = Some f.2 /\ readable f.2) files.

(** A program says [g] of every file it can open and read. *)
Lemma says_files open_ complain body (g : list Z -> list Z -> list Z) files : (forall name reads, readable reads -> says (body name reads) (g name (text_of reads))) ->
  present open_ files -> says (each (map fst files) (with_file open_ complain body)) (concat (map (fun f => g f.1 (text_of f.2)) files)).
Proof.
  intros Hb H. induction H as [|[name reads] files [Ho Hr] _ IH]; [exact says_ret|]. cbn [map concat each fst snd] in *. apply says_bind; [|done].
  unfold with_file. rewrite Ho. by apply Hb.
Qed.

Lemma each_app {A} (f : A -> prog ()) l1 l2 s : each (l1 ++ l2) f s = (each l1 f ≫= fun _ => each l2 f) s.
Proof.
  revert s. induction l1 as [|x l1 IH]; intros s; [done|]. cbn [app each]. unfold mbind, prog_bind in *. destruct (f x s) as [[] s'|s']; [apply IH|done].
Qed.

(** [wc] counts: for every file named on its command line, in order, it prints
    the number of newlines, of words (the maximal runs of bytes other than blanks)
    and of bytes of the file, and its name, however the reads cut the file into
    pieces, and then exits. *)
Theorem wc_counts (open_ : list Z -> option stream) (stdin : stream) (files : list (list Z * stream)) (room : Z) :
  files <> [] -> present open_ files ->
  let bs := concat (map (fun f => wc_line f.1 (text_of f.2)) files) in Z.of_nat (length bs) <= room ->
  wc_main open_ stdin (map fst files) (Term [] room) = Exited (Term (map (pair 1) bs) (room - Z.of_nat (length bs))).
Proof.
  intros Hn Hf bs Hr. unfold wc_main. destruct (map fst files) as [|a l] eqn:E; [by destruct files|]. rewrite <- E.
  apply (exits_after _ bs []); [|done]. apply says_files; [exact says_wc|done].
Qed.

Definition some_files (name : list Z) : option stream :=
  if bool_decide (name = [97]) then Some [Some [104; 105; 32; 116; 104]; Some [101; 114; 101; 10]] else
  if bool_decide (name = [98]) then Some [Some [10; 10; 120]] else None.

(** [wc a b] for [a] = [hi there\n], read in two pieces, and [b] = [\n\nx]. *)
Lemma wc_counts_witness : wc_main some_files [] [[97]; [98]] (Term [] 100) =
  Exited (Term (map (pair 1) (chars ("1 2 9 a" ++ newline ++ "2 1 3 b" ++ newline))) 84).
Proof.
  refine (wc_counts some_files [] [([97], [Some [104; 105; 32; 116; 104]; Some [101; 114; 101; 10]]); ([98], [Some [10; 10; 120]])] 100 _ _ _).
  - done.
  - repeat (apply Forall_cons; split; [split; [reflexivity|repeat constructor; eauto]|]). constructor.
  - vm_compute. discriminate.
Defined.

(** C39: [cat] writes the files it is given one after the other, byte for byte; at
    the first one it cannot open it says so after what it has copied, and exits
    without looking at the rest of its command line. *)
Theorem cat_stops_at_missing (open_ : list Z -> option stream) (stdin : stream) (files : list (list Z * stream)) (missing : list Z) (rest : list (list Z)) (room : Z) :
  present open_ files -> open_ missing = None ->
  let bs := concat (map (fun f => text_of f.2) files) ++ chars "cat: cannot open " ++ missing ++ [10] in Z.of_nat (length bs) <= room ->
  cat_main open_ stdin (map fst files ++ (missing :: rest)) (Term [] room) = Exited (Term (map (pair 1) bs) (room - Z.of_nat (length bs))).
Proof.
  intros Hf Hm bs Hr. unfold cat_main. destruct (map fst files ++ (missing :: rest)) as [|a l] eqn:E; [by destruct files|]. rewrite <- E.
  set (body := fun _ : list Z => cat). set (complain := ("cat: cannot open %s" ++ newline)%string).
  assert (says (each (map fst files) (with_file open_ complain body)) (concat (map (fun f => text_of f.2) files))) as S1
    by (apply (says_files open_ complain body (fun _ text => text)); [intros; by apply says_cat|done]).
  assert (format complain [Str missing] = chars "cat: cannot open " ++ missing ++ [10]) as Ef by reflexivity.
  pose proof (says_print complain [Str missing]) as S2. rewrite Ef in S2. pose proof (exits_after _ _ [] room (says_bind _ _ _ _ S1 S2) Hr) as X. cbn [app] in X.
  unfold mbind at 1, prog_bind at 1. rewrite each_app. unfold mbind, prog_bind in X |- *. destruct (each (map fst files) _ _) as [[] s|s]; [|done].
  cbn [each]. unfold mbind, prog_bind, with_file. rewrite Hm. unfold mbind, prog_bind. by destruct (print 1 complain _ _) as [[] s'|s'].
Qed.

Lemma cat_stops_at_missing_witness : cat_main some_files [] [[98]; [99]; [97]] (Term [] 100) =
  Exited (Term (map (pair 1) ([10; 10; 120] ++ chars ("cat: cannot open c" ++ newline))) 78).
Proof.
  refine (cat_stops_at_missing some_files [] [([98], [Some [10; 10; 120]])] [99] [[97]] 100 _ _ _).
  - apply Forall_cons. split; [split; [reflexivity|repeat constructor; eauto]|constructor].
  - reflexivity.
  - vm_compute. discriminate.
Defined.

(** [grep] with files prints, of each, the lines the pattern matches, if no read
    ends within a line. *)
Definition whole_lines (reads : stream) : Prop := Forall (fun c => NEWLINE ∈ c /\ 0 ∉ c) (bytes_read reads).

(** Every matching line ends in a newline. *)
Lemma matching_lines_whole pattern text : concat (map (fun l => l ++ [NEWLINE]) (lines_from [] (matching_lines pattern text))) = matching_lines pattern text.
Proof.
  unfold matching_lines. assert (Forall (fun l => NEWLINE ∉ l) (lines_from [] text)) as H.
  { assert (forall line, NEWLINE ∉ line -> Forall (fun l => NEWLINE ∉ l) (lines_from line text)) as G; [|apply G, not_elem_of_nil].
    induction text as [|c text IH]; intros line Hl; cbn [lines_from]; [constructor|]. destruct (Z.eqb_spec c NEWLINE) as [->|Hc].
    - constructor; [done|]. apply IH, not_elem_of_nil.
    - apply IH. rewrite elem_of_app, list_elem_of_singleton. intros [?|?]; [done|congruence]. }
  induction H as [|l ls Hl _ IH]; [done|]. cbn [fmap list_fmap concat]. destruct (match_re pattern l); [|done].
  rewrite <- app_assoc. cbn [app]. rewrite lines_from_app by done. cbn [map concat app]. rewrite IH. by rewrite <- app_assoc.
Qed.

Theorem grep_searches (open_ : list Z -> option stream) (stdin : stream) (pattern : list Z) (files : list (list Z * stream)) (room : Z) :
  files <> [] -> present open_ files -> Forall (fun f => whole_lines f.2) files ->
  let bs := concat (map (fun f => matching_lines pattern (text_of f.2)) files) in Z.of_nat (length bs) <= room ->
  grep_main open_ stdin (pattern :: map fst files) (Term [] room) = Exited (Term (map (pair 1) bs) (room - Z.of_nat (length bs))).
Proof.
  intros Hn Hf Hw bs Hr. unfold grep_main. destruct (map fst files) as [|a l] eqn:E; [by destruct files|]. rewrite <- E.
  apply (exits_after _ bs []); [|done]. clear E a l Hr Hn. subst bs. induction Hf as [|[name reads] files [Ho _] _ IH]; [exact says_ret|].
  apply Forall_cons in Hw as [Hw Hws]. cbn [map each concat fst snd] in *. apply says_bind; [|by apply IH]. unfold with_file, grep_file. rewrite Ho.
  rewrite grep_spec by first [apply not_elem_of_nil | done]. cbn [app]. fold (text_of reads). rewrite <- matching_lines_whole at 2.
  apply says_each. intros line _. rewrite <- (app_nil_r (line ++ [NEWLINE])) at 2. exact (says_write _ _ [] says_ret).
Qed.

(** [echo] prints its arguments with a space between two and a newline at the end. *)
Fixpoint joined (argv : list (list Z)) : list Z :=
  match argv with [] => [] | [a] => a ++ [10] | a :: argv => a ++ [32] ++ joined argv end.

Theorem echo_says argv : says (echo_loop argv) (joined argv).
Proof.
  induction argv as [|a argv IH]; [exact says_ret|]. cbn [echo_loop].
  set (sep := match argv with [] => [10] | _ => [32] end). replace (joined (a :: argv)) with ((a ++ sep) ++ joined argv).
  - apply says_bind; [|done]. pose proof (says_print "%s%s" [Str a; Str sep]) as H. assert (format "%s%s" [Str a; Str sep] = a ++ sep) as <-; [|done].
    unfold format. change (printf (string_of [Str a; Str sep]) (chars "%s%s") false (words_of [Str a; Str sep])) with (a ++ sep ++ []). by rewrite app_nil_r.
  - subst sep. destruct argv; cbn [joined]; [by rewrite app_nil_r|by rewrite <- app_assoc].
Qed.
