(* ===== verification/Entry.v ===== *)
(** * Into the kernel and back ([trapasm.S], [vectors.pl], [swtch.S], [struct trapframe])

    The assembly routines on a machine with registers and words of memory: a
    trap from its delivery by the processor through the gates of [Seg] to the
    call of [trap], the return to the interrupted code, the switch from one
    kernel thread to another, and the first run of a new process on the stack
    [allocproc] has built. *)

From S2P Require Import Prelude Mmu Seg.

(** ** The machine *)

Record regs := Regs {
  r_eax : Z; r_ecx : Z; r_edx : Z; r_ebx : Z; r_esp : Z; r_ebp : Z; r_esi : Z; r_edi : Z;
  r_eip : Z; r_eflags : Z; r_cs : Z; r_ds : Z; r_es : Z; r_fs : Z; r_gs : Z; r_ss : Z }.

(** Memory by words; their addresses are multiples of four. *)
Record machine := Machine { m_r : regs; m_mem : Z -> Z }.

Inductive reg := EAX | ECX | EDX | EBX | ESP | EBP | ESI | EDI.
Inductive sreg := DS | ES | FS | GS.

Definition get_reg (x : reg) (r : regs) : Z :=
  match x with EAX => r_eax r | ECX => r_ecx r | EDX => r_edx r | EBX => r_ebx r | ESP => r_esp r | EBP => r_ebp r | ESI => r_esi r | EDI => r_edi r end.
Definition set_reg (x : reg) (v : Z) '(Regs a c d b sp bp si di ip fl cs ds es fs gs ss : regs) : regs :=
  match x with
  | EAX => Regs v c d b sp bp si di ip fl cs ds es fs gs ss
  | ECX => Regs a v d b sp bp si di ip fl cs ds es fs gs ss
  | EDX => Regs a c v b sp bp si di ip fl cs ds es fs gs ss
  | EBX => Regs a c d v sp bp si di ip fl cs ds es fs gs ss
  | ESP => Regs a c d b v bp si di ip fl cs ds es fs gs ss
  | EBP => Regs a c d b sp v si di ip fl cs ds es fs gs ss
  | ESI => Regs a c d b sp bp v di ip fl cs ds es fs gs ss
  | EDI => Regs a c d b sp bp si v ip fl cs ds es fs gs ss
  end.
Definition get_seg (x : sreg) (r : regs) : Z := match x with DS => r_ds r | ES => r_es r | FS => r_fs r | GS => r_gs r end.
Definition set_seg (x : sreg) (v : Z) '(Regs a c d b sp bp si di ip fl cs ds es fs gs ss : regs) : regs :=
  match x with
  | DS => Regs a c d b sp bp si di ip fl cs v es fs gs ss
  | ES => Regs a c d b sp bp si di ip fl cs ds v fs gs ss
  | FS => Regs a c d b sp bp si di ip fl cs ds es v gs ss
  | GS => Regs a c d b sp bp si di ip fl cs ds es fs v ss
  end.
(** The registers a transfer of control changes. *)
Definition set_flow (ip fl cs sp ss : Z) (r : regs) : regs :=
  Regs (r_eax r) (r_ecx r) (r_edx r) (r_ebx r) sp (r_ebp r) (r_esi r) (r_edi r) ip fl cs (r_ds r) (r_es r) (r_fs r) (r_gs r) ss.
Definition set_ip (ip : Z) (r : regs) : regs := set_flow ip (r_eflags r) (r_cs r) (r_esp r) (r_ss r) r.

Definition poke (a v : Z) (mem : Z -> Z) : Z -> Z := fun b => if b =? a then v else mem b.
Definition low16 (v : Z) : Z := v mod 65536.

Definition push (v : Z) (m : machine) : machine :=
  let sp := u32 (r_esp (m_r m) - 4) in Machine (set_reg ESP sp (m_r m)) (poke sp v (m_mem m)).
Definition pushes (vs : list Z) (m : machine) : machine := foldl (fun m v => push v m) m vs.
Definition top (m : machine) : Z := m_mem m (r_esp (m_r m)).
Definition drop_words (n : Z) (m : machine) : machine := Machine (set_reg ESP (u32 (r_esp (m_r m) + 4 * n)) (m_r m)) (m_mem m).

(** ** Privilege *)

Definition CPL (r : regs) : Z := r_cs r mod 4.
Definition descriptor (gdt : list segdesc) (sel : Z) : option Z := seg_bits <$> gdt !! Z.to_nat (sel / 8).
Definition is_code (d : Z) : bool := hw_app d && (8 <=? hw_type d).
Definition is_data (d : Z) : bool := hw_app d && (hw_type d <? 8).
Definition is_writable (d : Z) : bool := is_data d && (bits (hw_type d) 1 1 =? 1).
(** A data segment, or code that may be read. *)
Definition is_readable (d : Z) : bool := is_data d || (is_code d && (bits (hw_type d) 1 1 =? 1)).

(** Whether [ds], [es], [fs] or [gs] may be loaded at a privilege level. *)
Definition loadable (gdt : list segdesc) (cpl sel : Z) : bool :=
  (sel / 4 =? 0) || ((bits sel 2 1 =? 0) && match descriptor gdt sel with
    | Some d => hw_present d && is_readable d && (Z.max cpl (sel mod 4) <=? hw_dpl d)
    | None => false
    end).
(** Whether [cs] and [ss] may be loaded for a level. *)
Definition code_at_level (gdt : list segdesc) (cpl sel : Z) : bool :=
  (bits sel 2 1 =? 0) && match descriptor gdt sel with Some d => hw_present d && is_code d && (hw_dpl d =? cpl) | None => false end.
Definition stack_at_level (gdt : list segdesc) (cpl sel : Z) : bool :=
  (bits sel 2 1 =? 0) && (sel mod 4 =? cpl) && match descriptor gdt sel with Some d => hw_present d && is_writable d && (hw_dpl d =? cpl) | None => false end.

(** ** Instructions *)

Inductive instr :=
  | pushl (x : reg)
  | pushl_seg (x : sreg)
  | pushl_imm (v : Z)
  | popl (x : reg)
  | popl_seg (x : sreg)
  | pushal
  | popal
  | movw_ax (v : Z)               (* movw $v, %ax *)
  | movw_seg (x : sreg)           (* movw %ax, %x *)
  | addl_esp (n : Z)
  | movl (x y : reg)              (* movl %x, %y *)
  | movl_from (n : Z) (x y : reg) (* movl n(%x), %y *)
  | movl_to (x y : reg)           (* movl %x, (%y) *)
  | ret
  | iret.

Section machine.
(** A segment register is pushed as a whole word or as half of one. *)
Context (keep_high : bool) (gdt : list segdesc).

Definition seg_word (sel old : Z) : Z := if keep_high then sel + 65536 * (old / 65536) else sel.
Definition push_sel (sel : Z) (m : machine) : machine := push (seg_word sel (m_mem m (u32 (r_esp (m_r m) - 4)))) m.

Definition pop (m : machine) : Z * machine := (top m, drop_words 1 m).

(** Return to a less privileged level, or to the same. *)
Definition clear_seg (cpl : Z) (x : sreg) (r : regs) : regs := if loadable gdt cpl (get_seg x r) then r else set_seg x 0 r.
Definition do_iret (m : machine) : option machine :=
  let '(ip, m1) := pop m in let '(cs, m2) := pop m1 in let '(fl, m3) := pop m2 in
  let cs := low16 cs in let cpl := cs mod 4 in
  if negb (code_at_level gdt cpl cs) then None else
  if CPL (m_r m) =? cpl then Some (Machine (set_flow ip fl cs (r_esp (m_r m3)) (r_ss (m_r m3)) (m_r m3)) (m_mem m3)) else
  if cpl <? CPL (m_r m) then None else
  let '(sp, m4) := pop m3 in let '(ss, m5) := pop m4 in
  let ss := low16 ss in
  if negb (stack_at_level gdt cpl ss) then None else
  let r := set_flow ip fl cs sp ss (m_r m5) in
  Some (Machine (clear_seg cpl GS (clear_seg cpl FS (clear_seg cpl ES (clear_seg cpl DS r)))) (m_mem m5)).

(** One instruction; [None] is an exception. *)
Definition exec_instr (i : instr) (m : machine) : option machine :=
  let r := m_r m in
  match i with
  | pushl x => Some (push (get_reg x r) m)
  | pushl_seg x => Some (push_sel (get_seg x r) m)
  | pushl_imm v => Some (push v m)
  | popl x => let '(v, m) := pop m in Some (Machine (set_reg x v (m_r m)) (m_mem m))
  | popl_seg x => let '(v, m) := pop m in
      if loadable gdt (CPL r) (low16 v) then Some (Machine (set_seg x (low16 v) (m_r m)) (m_mem m)) else None
  | pushal => Some (pushes [r_eax r; r_ecx r; r_edx r; r_ebx r; r_esp r; r_ebp r; r_esi r; r_edi r] m)
  | popal =>
      let '(di, m) := pop m in let '(si, m) := pop m in let '(bp, m) := pop m in let m := drop_words 1 m in
      let '(b, m) := pop m in let '(d, m) := pop m in let '(c, m) := pop m in let '(a, m) := pop m in
      Some (Machine (set_reg EAX a (set_reg ECX c (set_reg EDX d (set_reg EBX b (set_reg EBP bp (set_reg ESI si (set_reg EDI di (m_r m)))))))) (m_mem m))
  | movw_ax v => Some (Machine (set_reg EAX (r_eax r - low16 (r_eax r) + v) r) (m_mem m))
  | movw_seg x => if loadable gdt (CPL r) (low16 (r_eax r)) then Some (Machine (set_seg x (low16 (r_eax r)) r) (m_mem m)) else None
  | addl_esp n => Some (Machine (set_reg ESP (u32 (r_esp r + n)) r) (m_mem m))
  | movl x y => Some (Machine (set_reg y (get_reg x r) r) (m_mem m))
  | movl_from n x y => Some (Machine (set_reg y (m_mem m (u32 (get_reg x r + n))) r) (m_mem m))
  | movl_to x y => Some (Machine r (poke (get_reg y r) (get_reg x r) (m_mem m)))
  | ret => let '(ip, m) := pop m in Some (Machine (set_ip ip (m_r m)) (m_mem m))
  | iret => do_iret m
  end.
Fixpoint run_code (l : list instr) (m : machine) : option machine :=
  match l with [] => Some m | i :: l => m ← exec_instr i m; run_code l m end.

(** ** Delivery of traps *)

(** The exceptions for which the processor pushes an error code. *)
Definition pushes_error (n : Z) : bool := (n =? 8) || ((10 <=? n) && (n <=? 14)) || (n =? 17).

(** Flags that are cleared at a gate: the trap flags and, by an interrupt gate,
    the interrupt flag. *)
Definition gate_flags (g fl : Z) : Z :=
  let fl := Z.land fl (not32 0x34100) in if hw_type g =? STS_IG32 then Z.land fl (not32 FL_IF) else fl.

Context (idt : list gatedesc) (ts : taskstate).

(** Delivery through the gate of vector [n], with an error code or without. *)
Definition deliver (n : Z) (err : option Z) (m : machine) : option machine :=
  g ← gate_bits <$> idt !! Z.to_nat n;
  d ← descriptor gdt (hw_selector g);
  let r := m_r m in
  if negb (hw_present g && negb (hw_app g) && ((hw_type g =? STS_IG32) || (hw_type g =? STS_TG32)) && hw_present d && is_code d && (hw_dpl d <=? CPL r))
  then None else
  let m := if hw_dpl d <? CPL r then
      push (r_esp r) (push_sel (r_ss r) (Machine (set_flow (r_eip r) (r_eflags r) (r_cs r) (ts_esp0 ts) (ts_ss0 ts) r) (m_mem m)))
    else m in
  let m := push (r_eip r) (push_sel (r_cs r) (push (r_eflags r) m)) in
  let m := match err with Some e => push e m | None => m end in
  let sel := hw_selector g - hw_selector g mod 4 + hw_dpl d in
  Some (Machine (set_flow (hw_offset g) (gate_flags g (r_eflags r)) sel (r_esp (m_r m)) (r_ss (m_r m)) (m_r m)) (m_mem m)).

(** Exceptions, interrupts of devices, and the instruction [int], which needs
    the gate's permission. *)
Inductive event := Exc (n err : Z) | Irq (n : Z) | Int (n : Z).
Definition gate_open (cpl n : Z) : bool :=
  match idt !! Z.to_nat n with Some g => cpl <=? hw_dpl (gate_bits g) | None => false end.
Definition take_event (e : event) (m : machine) : option machine :=
  match e with
  | Exc n err => deliver n (if pushes_error n then Some err else None) m
  | Irq n => deliver n None m
  | Int n =>
      if gate_open (CPL (m_r m)) n then deliver n None (Machine (set_ip (r_eip (m_r m) + 2) (m_r m)) (m_mem m))
      else deliver T_GPFLT (Some (8 * n + 2)) m
  end.
End machine.

(** ** The kernel's assembly code *)

(** [vectors.pl] *)
Definition vector (n : Z) : list instr := (if pushes_error n then [] else [pushl_imm 0]) ++ [pushl_imm n].

(** [trapasm.S]: up to [call trap], and from [trapret] on. *)
Definition alltraps : list instr :=
  [pushl_seg DS; pushl_seg ES; pushl_seg FS; pushl_seg GS; pushal; movw_ax (Z.shiftl SEG_KDATA 3); movw_seg DS; movw_seg ES; pushl ESP].
Definition trapret : list instr := [popal; popl_seg GS; popl_seg FS; popl_seg ES; popl_seg DS; addl_esp 8; iret].

(** [swtch.S] *)
Definition swtch : list instr :=
  [movl_from 4 ESP EAX; movl_from 8 ESP EDX; pushl EBP; pushl EBX; pushl ESI; pushl EDI;
   movl_to ESP EAX; movl EDX ESP; popl EDI; popl ESI; popl EBX; popl EBP; ret].

(** [struct trapframe] and [struct context]. *)
Record trapframe := TrapFrame {
  tf_edi : Z; tf_esi : Z; tf_ebp : Z; tf_ebx : Z; tf_edx : Z; tf_ecx : Z; tf_eax : Z; tf_gs : Z; tf_fs : Z; tf_es : Z; tf_ds : Z;
  tf_trapno : Z; tf_err : Z; tf_eip : Z; tf_cs : Z; tf_eflags : Z; tf_esp : Z; tf_ss : Z }.
Definition TRAPFRAME : Z := 76.
Definition load_tf (mem : Z -> Z) (a : Z) : trapframe := TrapFrame
  (mem a) (mem (a + 4)) (mem (a + 8)) (mem (a + 16)) (mem (a + 20)) (mem (a + 24)) (mem (a + 28))
  (low16 (mem (a + 32))) (low16 (mem (a + 36))) (low16 (mem (a + 40))) (low16 (mem (a + 44))) (mem (a + 48)) (mem (a + 52)) (mem (a + 56))
  (low16 (mem (a + 60))) (mem (a + 64)) (mem (a + 68)) (low16 (mem (a + 72))).
Record context := Context { ctx_edi : Z; ctx_esi : Z; ctx_ebx : Z; ctx_ebp : Z; ctx_eip : Z }.
Definition CONTEXT : Z := 20.
Definition load_context (mem : Z -> Z) (a : Z) : context := Context (mem a) (mem (a + 4)) (mem (a + 8)) (mem (a + 12)) (mem (a + 16)).

(** The stack [allocproc] builds for a new process: where the context is, and
    the words below the trap frame. *)
Definition new_context (kstack : Z) : Z := kstack + KSTACKSIZE - TRAPFRAME - 4 - CONTEXT.
Definition new_stack (kstack forkret trapret : Z) (mem : Z -> Z) : Z -> Z :=
  let c := new_context kstack in
  poke (c + 16) forkret (poke (c + 12) 0 (poke (c + 8) 0 (poke (c + 4) 0 (poke c 0 (poke (c + CONTEXT) trapret mem))))).

(** [userinit]'s trap frame. *)
Definition init_tf : trapframe :=
  let ds := Z.lor (Z.shiftl SEG_UDATA 3) DPL_USER in
  TrapFrame 0 0 0 0 0 0 0 0 0 ds ds 0 0 0 (Z.lor (Z.shiftl SEG_UCODE 3) DPL_USER) FL_IF PGSIZE ds.

(** ** Frames *)

(** The registers a trap frame stands for, in user mode. *)
Definition user_regs (tf : trapframe) : regs := Regs
  (tf_eax tf) (tf_ecx tf) (tf_edx tf) (tf_ebx tf) (tf_esp tf) (tf_ebp tf) (tf_esi tf) (tf_edi tf)
  (tf_eip tf) (tf_eflags tf) (tf_cs tf) (tf_ds tf) (tf_es tf) (tf_fs tf) (tf_gs tf) (tf_ss tf).
Definition frame_of (trapno err : Z) (r : regs) : trapframe := TrapFrame
  (r_edi r) (r_esi r) (r_ebp r) (r_ebx r) (r_edx r) (r_ecx r) (r_eax r) (r_gs r) (r_fs r) (r_es r) (r_ds r)
  trapno err (r_eip r) (r_cs r) (r_eflags r) (r_esp r) (r_ss r).

(** ** The stack *)

Lemma push_eq v m e : r_esp (m_r m) = e -> 4 <= e < two32 -> push v m = Machine (set_reg ESP (e - 4) (m_r m)) (poke (e - 4) v (m_mem m)).
Proof. intros He Hr. unfold push. rewrite He. by rewrite u32_small by (unfold is_u32; lia). Qed.

Lemma set_esp_esp r v w : set_reg ESP v (set_reg ESP w r) = set_reg ESP v r.
Proof. by destruct r. Qed.
Lemma get_esp r v : r_esp (set_reg ESP v r) = v.
Proof. by destruct r. Qed.

Lemma machine_eq r r' mem mem' : r = r' -> mem = mem' -> Some (Machine r mem) = Some (Machine r' mem').
Proof. by intros -> ->. Qed.

(** The words that were pushed last come first. *)
Fixpoint stacked (mem : Z -> Z) (e : Z) (vs : list Z) : Z -> Z :=
  match vs with [] => mem | v :: vs => stacked (poke (e - 4) v mem) (e - 4) vs end.

Lemma pushes_eq vs : forall m e, r_esp (m_r m) = e -> 4 * Z.of_nat (length vs) <= e < two32 ->
  pushes vs m = Machine (set_reg ESP (e - 4 * Z.of_nat (length vs)) (m_r m)) (stacked (m_mem m) e vs).
Proof.
  induction vs as [|v vs IH]; intros m e He Hr; cbn [pushes foldl stacked length] in *.
  - rewrite Z.sub_0_r, <- He. by destruct m as [[] mem].
  - rewrite (push_eq v m e He) by lia. fold (pushes vs). unfold pushes in IH. rewrite (IH _ (e - 4)) by (cbn; rewrite ?get_esp; lia).
    cbn [m_r m_mem]. rewrite set_esp_esp. do 2 f_equal. lia.
Qed.

Lemma stacked_outside vs : forall mem e a, a < e - 4 * Z.of_nat (length vs) \/ e <= a -> stacked mem e vs a = mem a.
Proof.
  induction vs as [|v vs IH]; intros mem e a Ha; [done|]. cbn [stacked length] in *. rewrite IH by lia. unfold poke. by rewrite (proj2 (Z.eqb_neq a (e - 4))) by lia.
Qed.

Lemma stacked_at vs : forall mem e i v, vs !! i = Some v -> stacked mem e vs (e - 4 * (Z.of_nat i + 1)) = v.
Proof.
  induction vs as [|v0 vs IH]; intros mem e [|i] v E; try done; cbn [stacked].
  - injection E as ->. rewrite stacked_outside by lia. unfold poke. by rewrite (proj2 (Z.eqb_eq _ _)) by lia.
  - replace (e - 4 * (Z.of_nat (S i) + 1)) with (e - 4 - 4 * (Z.of_nat i + 1)) by lia. by apply IH.
Qed.

Lemma stacked_app vs ws : forall mem e, stacked mem e (vs ++ ws) = stacked (stacked mem e vs) (e - 4 * Z.of_nat (length vs)) ws.
Proof.
  induction vs as [|v vs IH]; intros mem e; cbn [app stacked length]; [by rewrite Z.sub_0_r|]. rewrite IH. f_equal. lia.
Qed.

(** ** The kernel's segments and gates *)

Lemma seginit_lookup gdt0 ts : length gdt0 = 6%nat -> let gdt := switch_gdt ts (seginit gdt0) in
  descriptor gdt 0x08 = Some (seg_bits (SEG (Z.lor STA_X STA_R) 0 0xffffffff 0)) /\ descriptor gdt 0x10 = Some (seg_bits (SEG STA_W 0 0xffffffff 0)) /\
  descriptor gdt 0x1B = Some (seg_bits (SEG (Z.lor STA_X STA_R) 0 0xffffffff 3)) /\ descriptor gdt 0x23 = Some (seg_bits (SEG STA_W 0 0xffffffff 3)).
Proof. intros Hl. do 6 (destruct gdt0 as [|? gdt0]; [done|]). destruct gdt0; [|done]. repeat split; reflexivity. Qed.

Lemma tvinit_lookup vectors idt0 n : length idt0 = 256%nat -> 0 <= n < 256 ->
  tvinit vectors idt0 !! Z.to_nat n = Some (SETGATE (n =? T_SYSCALL) 0x08 (vectors n) (if n =? T_SYSCALL then 3 else 0)).
Proof.
  intros Hl Hn. unfold tvinit. change (Z.shiftl SEG_KCODE 3) with 0x08. set (f := fun idt i => _).
  assert (forall k, (k <= 256)%nat -> length (foldl f idt0 (seq 0 k)) = 256%nat /\
    forall i, (i < k)%nat -> foldl f idt0 (seq 0 k) !! i = Some (SETGATE false 0x08 (vectors (Z.of_nat i)) 0)) as H.
  { induction k as [|k IH]; intros Hk; [by split; [|intros i Hi; lia]|]. destruct (IH ltac:(lia)) as [H1 H2]. rewrite seq_S, foldl_app. cbn [foldl Nat.add]. unfold f at 1 3.
    rewrite length_insert. split; [done|]. intros i Hi. destruct (decide (i = k)) as [->|]; [by rewrite list_lookup_insert_eq by lia|].
    rewrite list_lookup_insert_ne by done. apply H2. lia. }
  destruct (H 256%nat ltac:(lia)) as [H1 H2]. destruct (Z.eqb_spec n T_SYSCALL) as [->|Hne].
  - rewrite list_lookup_insert_eq; [done|]. rewrite H1. unfold T_SYSCALL. lia.
  - rewrite list_lookup_insert_ne by (unfold T_SYSCALL in *; lia). rewrite H2 by lia. by rewrite Z2Nat.id by lia.
Qed.

Section entry.
Context (keep_high : bool) (gdt0 : list segdesc) (idt0 : list gatedesc) (tsa kstack : Z) (vectors : Z -> Z).
Context (gdt0_length : length gdt0 = 6%nat) (idt0_length : length idt0 = 256%nat) (vectors_word : forall n, is_u32 (vectors n)).
Let gdt := switch_gdt tsa (seginit gdt0).
Let idt := tvinit vectors idt0.
Let ts := switch_ts kstack.

(** Segment registers hold 16 bits. *)
Lemma low16_seg sel old : 0 <= sel < 65536 -> low16 (seg_word keep_high sel old) = sel.
Proof.
  intros Hs. unfold seg_word, low16. destruct keep_high; [|by apply Z.mod_small]. rewrite Z.mul_comm, Z_mod_plus_full. by apply Z.mod_small.
Qed.

Lemma push_sel_eq sel m : 0 <= sel < 65536 -> exists w, low16 w = sel /\ push_sel keep_high sel m = pushes [w] m.
Proof. intros Hs. eexists. split; [exact (low16_seg sel (m_mem m (u32 (r_esp (m_r m) - 4))) Hs)|done]. Qed.

Lemma pushes_app vs ws m : pushes (vs ++ ws) m = pushes ws (pushes vs m).
Proof. apply foldl_app. Qed.

(** Pushing changes only the stack pointer and memory. *)
Lemma pushes_regs vs m : exists sp, m_r (pushes vs m) = set_reg ESP sp (m_r m).
Proof.
  revert m. induction vs as [|v vs IH]; intros m; [exists (r_esp (m_r m)); by destruct m as [[] ?]|]. destruct (IH (push v m)) as [sp E].
  exists sp. change (pushes (v :: vs) m) with (pushes vs (push v m)). rewrite E. unfold push. cbn [m_r]. apply set_esp_esp.
Qed.

Definition seg16 (r : regs) : Prop :=
  0 <= r_ds r < 65536 /\ 0 <= r_es r < 65536 /\ 0 <= r_fs r < 65536 /\ 0 <= r_gs r < 65536 /\ 0 <= r_cs r < 65536 /\ 0 <= r_ss r < 65536.

(** The registers once [alltraps] has set up the kernel's data segments. *)
Definition kernel_regs (sp : Z) (r : regs) : regs := set_seg ES 0x10 (set_seg DS 0x10 (set_reg EAX (r_eax r - low16 (r_eax r) + 0x10) (set_reg ESP sp r))).

Lemma kdata_loadable : loadable gdt 0 0x10 = true.
Proof. unfold loadable. destruct (seginit_lookup gdt0 tsa gdt0_length) as (_ & E & _). unfold gdt. rewrite E. by vm_compute. Qed.

Lemma run_cons i l m m' : exec_instr keep_high gdt i m = Some m' -> run_code keep_high gdt (i :: l) m = run_code keep_high gdt l m'.
Proof. intros E. cbn [run_code]. by rewrite E. Qed.

Lemma run_app l1 l2 m m' : run_code keep_high gdt l1 m = Some m' -> run_code keep_high gdt (l1 ++ l2) m = run_code keep_high gdt l2 m'.
Proof.
  revert m. induction l1 as [|i l1 IH]; intros m E; cbn [run_code app] in *; [by injection E as ->|]. destruct (exec_instr keep_high gdt i m); [|done]. by apply IH.
Qed.

(** The segment registers of the frame. *)
Lemma push_segs m : seg16 (m_r m) -> exists ds es fs gs, low16 ds = r_ds (m_r m) /\ low16 es = r_es (m_r m) /\ low16 fs = r_fs (m_r m) /\ low16 gs = r_gs (m_r m) /\
  run_code keep_high gdt [pushl_seg DS; pushl_seg ES; pushl_seg FS; pushl_seg GS] m = Some (pushes [ds; es; fs; gs] m).
Proof.
  intros (S1 & S2 & S3 & S4 & _ & _).
  assert (forall x vs, get_seg x (m_r (pushes vs m)) = get_seg x (m_r m)) as Hseg by (intros x vs; destruct (pushes_regs vs m) as [sp ->]; by destruct (m_r m), x).
  assert (forall x vs, 0 <= get_seg x (m_r m) < 65536 -> exists w, low16 w = get_seg x (m_r m) /\ exec_instr keep_high gdt (pushl_seg x) (pushes vs m) = Some (pushes (vs ++ [w]) m)) as Hx.
  { intros x vs Hs. destruct (push_sel_eq (get_seg x (m_r m)) (pushes vs m) Hs) as (w & Lw & Ew). exists w. split; [done|]. cbn [exec_instr]. by rewrite Hseg, Ew, pushes_app. }
  destruct (Hx DS [] S1) as (ds & L1 & E1), (Hx ES [ds] S2) as (es & L2 & E2), (Hx FS [ds; es] S3) as (fs & L3 & E3), (Hx GS [ds; es; fs] S4) as (gs & L4 & E4).
  exists ds, es, fs, gs. do 4 (split; [done|]). rewrite (run_cons _ _ _ _ E1), (run_cons _ _ _ _ E2), (run_cons _ _ _ _ E3), (run_cons _ _ _ _ E4). done.
Qed.

Lemma low16_ax a : low16 (a - low16 a + 0x10) = 0x10.
Proof.
  unfold low16. rewrite (Z.div_mod a 65536) at 1 by lia. replace (65536 * (a / 65536) + a mod 65536 - a mod 65536 + 16) with (16 + (a / 65536) * 65536) by lia.
  by rewrite Z_mod_plus_full.
Qed.

Lemma movw_kdata x m : CPL (m_r m) = 0 -> low16 (r_eax (m_r m)) = 0x10 -> exec_instr keep_high gdt (movw_seg x) m = Some (Machine (set_seg x 0x10 (m_r m)) (m_mem m)).
Proof. intros Hc Hl. cbn [exec_instr]. by rewrite Hc, Hl, kdata_loadable. Qed.

(** The other registers, the kernel's data segments, and the argument. *)
Lemma push_rest m e : r_esp (m_r m) = e -> 36 <= e < two32 -> CPL (m_r m) = 0 ->
  run_code keep_high gdt [pushal; movw_ax (Z.shiftl SEG_KDATA 3); movw_seg DS; movw_seg ES; pushl ESP] m =
  Some (Machine (kernel_regs (e - 36) (m_r m))
    (stacked (m_mem m) e [r_eax (m_r m); r_ecx (m_r m); r_edx (m_r m); r_ebx (m_r m); e; r_ebp (m_r m); r_esi (m_r m); r_edi (m_r m); e - 32])).
Proof.
  intros He Hr Hc. set (vs := [r_eax (m_r m); r_ecx (m_r m); r_edx (m_r m); r_ebx (m_r m); e; r_ebp (m_r m); r_esi (m_r m); r_edi (m_r m)]).
  assert (exec_instr keep_high gdt pushal m = Some (Machine (set_reg ESP (e - 32) (m_r m)) (stacked (m_mem m) e vs))) as E1.
  { cbn [exec_instr]. rewrite He. fold vs. rewrite (pushes_eq vs m e He) by (cbn; lia). done. }
  rewrite (run_cons _ _ _ _ E1). change [r_eax (m_r m); r_ecx (m_r m); r_edx (m_r m); r_ebx (m_r m); e; r_ebp (m_r m); r_esi (m_r m); r_edi (m_r m); e - 32] with (vs ++ [e - 32]).
  rewrite stacked_app. change (4 * Z.of_nat (length vs)) with 32. generalize (stacked (m_mem m) e vs). intros mem. clear E1 vs.
  set (r1 := set_reg EAX (r_eax (m_r m) - low16 (r_eax (m_r m)) + 0x10) (set_reg ESP (e - 32) (m_r m))).
  assert (exec_instr keep_high gdt (movw_ax (Z.shiftl SEG_KDATA 3)) (Machine (set_reg ESP (e - 32) (m_r m)) mem) = Some (Machine r1 mem)) as E2 by (unfold r1; by destruct (m_r m)).
  rewrite (run_cons _ _ _ _ E2). assert (CPL r1 = 0 /\ low16 (r_eax r1) = 0x10) as [C1 A1] by (unfold r1; destruct (m_r m); split; [done|apply low16_ax]).
  rewrite (run_cons _ _ _ _ (movw_kdata DS (Machine r1 mem) C1 A1)).
  assert (CPL (set_seg DS 0x10 r1) = 0 /\ low16 (r_eax (set_seg DS 0x10 r1)) = 0x10) as [C2 A2] by (by destruct r1).
  cbn [m_r m_mem]. rewrite (run_cons _ _ _ _ (movw_kdata ES (Machine (set_seg DS 0x10 r1) mem) C2 A2)). cbn [m_r m_mem run_code exec_instr mbind option_bind get_reg].
  assert (r_esp (set_seg ES 0x10 (set_seg DS 0x10 r1)) = e - 32) as Hsp by (unfold r1; by destruct (m_r m)).
  rewrite Hsp, (push_eq _ _ (e - 32)) by (done || lia). cbn [m_r m_mem stacked]. apply machine_eq; [|done]. unfold kernel_regs, r1. destruct (m_r m). cbn. f_equal; lia.
Qed.

Lemma alltraps_run m e : r_esp (m_r m) = e -> 52 <= e < two32 -> seg16 (m_r m) -> CPL (m_r m) = 0 ->
  exists ds es fs gs, low16 ds = r_ds (m_r m) /\ low16 es = r_es (m_r m) /\ low16 fs = r_fs (m_r m) /\ low16 gs = r_gs (m_r m) /\
  run_code keep_high gdt alltraps m = Some (Machine (kernel_regs (e - 52) (m_r m))
    (stacked (m_mem m) e [ds; es; fs; gs; r_eax (m_r m); r_ecx (m_r m); r_edx (m_r m); r_ebx (m_r m); e - 16; r_ebp (m_r m); r_esi (m_r m); r_edi (m_r m); e - 48])).
Proof.
  intros He Hr Hs Hc. destruct (push_segs m Hs) as (ds & es & fs & gs & L1 & L2 & L3 & L4 & E). exists ds, es, fs, gs. do 4 (split; [done|]).
  change alltraps with ([pushl_seg DS; pushl_seg ES; pushl_seg FS; pushl_seg GS] ++ [pushal; movw_ax (Z.shiftl SEG_KDATA 3); movw_seg DS; movw_seg ES; pushl ESP]).
  rewrite (run_app _ _ _ _ E), (pushes_eq [ds; es; fs; gs] m e He) by (cbn; lia). cbn [length]. change (4 * Z.of_nat 4) with 16.
  rewrite (push_rest _ (e - 16)); [|cbn; apply get_esp|lia|by destruct (m_r m)]. cbn [m_r m_mem].
  assert (forall v, r_eax (set_reg ESP v (m_r m)) = r_eax (m_r m) /\ r_ecx (set_reg ESP v (m_r m)) = r_ecx (m_r m) /\ r_edx (set_reg ESP v (m_r m)) = r_edx (m_r m) /\
    r_ebx (set_reg ESP v (m_r m)) = r_ebx (m_r m) /\ r_ebp (set_reg ESP v (m_r m)) = r_ebp (m_r m) /\ r_esi (set_reg ESP v (m_r m)) = r_esi (m_r m) /\
    r_edi (set_reg ESP v (m_r m)) = r_edi (m_r m)) as Hget by (intros v; by destruct (m_r m)).
  destruct (Hget (e - 16)) as (-> & -> & -> & -> & -> & -> & ->). apply machine_eq.
  - unfold kernel_regs. rewrite set_esp_esp. replace (e - 16 - 36) with (e - 52) by lia. by destruct (m_r m).
  - replace (e - 16 - 32) with (e - 48) by lia. symmetry. exact (stacked_app [ds; es; fs; gs] [_; _; _; _; _; _; _; _; _] _ _).
Qed.

(** *** Delivery *)

Definition esp0 : Z := kstack + KSTACKSIZE.
Context (esp0_range : 80 <= esp0 < two32).

Lemma ts_top : ts_esp0 ts = esp0.
Proof. unfold ts, switch_ts. cbn [ts_esp0]. apply u32_small. unfold is_u32. fold esp0. lia. Qed.

Definition gate_of (n : Z) : Z := gate_bits (SETGATE (n =? T_SYSCALL) 0x08 (vectors n) (if n =? T_SYSCALL then 3 else 0)).

(** The words the processor pushes for a trap of user code. *)
Lemma deliver_user n err m : 0 <= n < 256 -> CPL (m_r m) = 3 -> seg16 (m_r m) -> exists ss cs, low16 ss = r_ss (m_r m) /\ low16 cs = r_cs (m_r m) /\
  let vs := [ss; r_esp (m_r m); r_eflags (m_r m); cs; r_eip (m_r m)] ++ (match err with Some e => [e] | None => [] end) in
  deliver keep_high gdt idt ts n err m =
  Some (Machine (set_flow (vectors n) (gate_flags (gate_of n) (r_eflags (m_r m))) 0x08 (esp0 - 4 * Z.of_nat (length vs)) 0x10 (m_r m)) (stacked (m_mem m) esp0 vs)).
Proof.
  intros Hn Hc (_ & _ & _ & _ & Hcs & Hss). unfold deliver. unfold idt. rewrite (tvinit_lookup vectors idt0 n idt0_length Hn). cbn [fmap option_fmap option_map mbind option_bind]. fold (gate_of n).
  destruct (SETGATE_hw (n =? T_SYSCALL) 0x08 (vectors n) (if n =? T_SYSCALL then 3 else 0)) as (G1 & G2 & G3 & G4 & G5 & G6); [lia|apply vectors_word|destruct (n =? T_SYSCALL); lia|].
  fold (gate_of n) in G1, G2, G3, G4, G5, G6. rewrite G1, G2, G4, G6.
  destruct (seginit_lookup gdt0 tsa gdt0_length) as (D1 & _). fold gdt in D1. rewrite D1. cbn [mbind option_bind]. set (d := seg_bits _).
  assert (hw_present d = true /\ is_code d = true /\ hw_dpl d = 0) as (K1 & K2 & K3) by (by vm_compute). rewrite K1, K2, K3, Hc.
  assert ((hw_type (gate_of n) =? STS_IG32) || (hw_type (gate_of n) =? STS_TG32) = true) as -> by (rewrite G3; by destruct (n =? T_SYSCALL)).
  cbn [negb andb]. change (0 <=? 3) with true. change (0 <? 3) with true. change (0x08 - 0x08 mod 4 + 0) with 0x08. cbn [negb].
  set (m0 := Machine (set_flow (r_eip (m_r m)) (r_eflags (m_r m)) (r_cs (m_r m)) (ts_esp0 ts) (ts_ss0 ts) (m_r m)) (m_mem m)).
  destruct (push_sel_eq (r_ss (m_r m)) m0 Hss) as (ss & Ls & Es). rewrite Es.
  destruct (push_sel_eq (r_cs (m_r m)) (push (r_eflags (m_r m)) (push (r_esp (m_r m)) (pushes [ss] m0))) Hcs) as (cs & Lc & Ec). rewrite Ec.
  exists ss, cs. split; [done|]. split; [done|]. cbv zeta. set (vs := [ss; r_esp (m_r m); r_eflags (m_r m); cs; r_eip (m_r m)] ++ _).
  assert (match err with Some e => push e (push (r_eip (m_r m)) (pushes [cs] (push (r_eflags (m_r m)) (push (r_esp (m_r m)) (pushes [ss] m0))))) | None => push (r_eip (m_r m)) (pushes [cs] (push (r_eflags (m_r m)) (push (r_esp (m_r m)) (pushes [ss] m0)))) end = pushes vs m0) as -> by (by destruct err).
  assert (r_esp (m_r m0) = esp0) as Hsp by (unfold m0; cbn; apply ts_top).
  rewrite (pushes_eq vs m0 esp0 Hsp) by (unfold vs; destruct err; cbn; lia). cbn [m_r m_mem]. rewrite get_esp. unfold m0. by destruct (m_r m).
Qed.

(** *** From user code to the call of [trap] *)

(** The assembled code at the addresses of the vectors. *)
Context (code : Z -> option (list instr)) (code_vectors : forall n, 0 <= n < 256 -> code (vectors n) = Some (vector n ++ alltraps)).

Definition enter (e : event) (m : machine) : option machine :=
  m ← take_event keep_high gdt idt ts e m; l ← code (r_eip (m_r m)); run_code keep_high gdt l m.

Lemma vector_run n m e : r_esp (m_r m) = e -> 8 <= e < two32 ->
  let vs := (if pushes_error n then [] else [0]) ++ [n] in
  run_code keep_high gdt (vector n) m = Some (Machine (set_reg ESP (e - 4 * Z.of_nat (length vs)) (m_r m)) (stacked (m_mem m) e vs)).
Proof.
  intros He Hr vs. rewrite <- (pushes_eq vs m e He) by (unfold vs; destruct (pushes_error n); cbn; lia). unfold vs, vector. by destruct (pushes_error n).
Qed.

(** The twenty words on the kernel stack. *)
Lemma enter_words n err m : 0 <= n < 256 -> CPL (m_r m) = 3 -> seg16 (m_r m) -> (pushes_error n = false -> err = 0) ->
  exists ss cs ds es fs gs o, low16 ss = r_ss (m_r m) /\ low16 cs = r_cs (m_r m) /\ low16 ds = r_ds (m_r m) /\ low16 es = r_es (m_r m) /\ low16 fs = r_fs (m_r m) /\ low16 gs = r_gs (m_r m) /\
  (m1 ← deliver keep_high gdt idt ts n (if pushes_error n then Some err else None) m; l ← code (r_eip (m_r m1)); run_code keep_high gdt l m1) =
  Some (Machine (kernel_regs (esp0 - 80) (set_flow (vectors n) (gate_flags (gate_of n) (r_eflags (m_r m))) 0x08 (esp0 - 80) 0x10 (m_r m)))
    (stacked (m_mem m) esp0 [ss; r_esp (m_r m); r_eflags (m_r m); cs; r_eip (m_r m); err; n; ds; es; fs; gs;
       r_eax (m_r m); r_ecx (m_r m); r_edx (m_r m); r_ebx (m_r m); o; r_ebp (m_r m); r_esi (m_r m); r_edi (m_r m); esp0 - 76])).
Proof.
  intros Hn Hc Hs He. destruct (deliver_user n (if pushes_error n then Some err else None) m Hn Hc Hs) as (ss & cs & Ls & Lc & E). cbv zeta in E. rewrite E. cbn [mbind option_bind m_r].
  clear E. set (vs := [ss; r_esp (m_r m); r_eflags (m_r m); cs; r_eip (m_r m)] ++ _). set (r1 := set_flow _ _ _ _ _ (m_r m)). change (r_eip r1) with (vectors n). rewrite (code_vectors n Hn). cbn [mbind option_bind].
  assert (4 * Z.of_nat (length vs) <= 24) as Hl by (unfold vs; destruct (pushes_error n); cbn; lia).
  pose proof (vector_run n (Machine r1 (stacked (m_mem m) esp0 vs)) (esp0 - 4 * Z.of_nat (length vs)) eq_refl ltac:(lia)) as E. cbv zeta in E. cbn [m_r m_mem] in E.
  set (ws := (if pushes_error n then [] else [0]) ++ [n]) in E. rewrite (run_app _ _ _ _ E). rewrite <- stacked_app.
  assert (vs ++ ws = [ss; r_esp (m_r m); r_eflags (m_r m); cs; r_eip (m_r m); err; n]) as Hvw.
  { unfold vs, ws. destruct (pushes_error n); [done|]. by rewrite He. }
  assert (length vs + length ws = 7)%nat as Hlen by (rewrite <- length_app, Hvw; reflexivity).
  replace (esp0 - 4 * Z.of_nat (length vs) - 4 * Z.of_nat (length ws)) with (esp0 - 28) by lia.
  rewrite Hvw. clear Hvw E. destruct (alltraps_run (Machine (set_reg ESP (esp0 - 28) r1) (stacked (m_mem m) esp0 [ss; r_esp (m_r m); r_eflags (m_r m); cs; r_eip (m_r m); err; n])) (esp0 - 28))
    as (ds & es & fs & gs & L1 & L2 & L3 & L4 & E); [apply get_esp|lia| |done|].
  - destruct Hs as (S1 & S2 & S3 & S4 & _ & _). split; [exact S1|]. split; [exact S2|]. split; [exact S3|]. split; [exact S4|]. split; cbn; lia.
  - exists ss, cs, ds, es, fs, gs, (esp0 - 28 - 16). rewrite E. split; [exact Ls|]. split; [exact Lc|]. split; [exact L1|]. split; [exact L2|]. split; [exact L3|]. split; [exact L4|].
    cbn [m_r m_mem]. apply machine_eq.
    + unfold kernel_regs, r1. replace (esp0 - 28 - 52) with (esp0 - 80) by lia. reflexivity.
    + replace (esp0 - 28 - 48) with (esp0 - 76) by lia. symmetry. exact (stacked_app [_; _; _; _; _; _; _] [_; _; _; _; _; _; _; _; _; _; _; _; _] _ _).
Qed.

(** *** Back to user code *)

(** From the return of [trap] on. *)
Definition leave (m : machine) : option machine := run_code keep_high gdt (addl_esp 4 :: trapret) m.

Lemma pop_eq m a : r_esp (m_r m) = a -> 0 <= a -> a + 4 < two32 -> pop m = (m_mem m a, Machine (set_reg ESP (a + 4) (m_r m)) (m_mem m)).
Proof. intros Ha H0 Hr. unfold pop, top, drop_words. rewrite Ha. by rewrite u32_small by (unfold is_u32; lia). Qed.

Lemma loadable_lower s : loadable gdt 3 s = true -> loadable gdt 0 s = true.
Proof.
  unfold loadable. destruct (s / 4 =? 0); [done|]. cbn [orb]. destruct (bits s 2 1 =? 0); [|done]. cbn [andb]. destruct (descriptor gdt s) as [d|]; [|done].
  rewrite !andb_true_iff, !Z.leb_le. intros [H1 H2]. split; [exact H1|]. lia.
Qed.

Lemma popal_run m a : r_esp (m_r m) = a -> 0 <= a -> a + 32 < two32 -> exec_instr keep_high gdt popal m =
  Some (Machine (Regs (m_mem m (a + 28)) (m_mem m (a + 24)) (m_mem m (a + 20)) (m_mem m (a + 16)) (a + 32) (m_mem m (a + 8)) (m_mem m (a + 4)) (m_mem m a)
    (r_eip (m_r m)) (r_eflags (m_r m)) (r_cs (m_r m)) (r_ds (m_r m)) (r_es (m_r m)) (r_fs (m_r m)) (r_gs (m_r m)) (r_ss (m_r m))) (m_mem m)).
Proof.
  intros Ha H0 Hr. destruct m as [[x c d b sp bp si di ip fl cs ds es fs gs ss] mem]. cbn [m_r m_mem r_esp] in *. subst sp. cbn [exec_instr].
  rewrite (pop_eq _ a) by (done || lia). rewrite (pop_eq _ (a + 4)) by (done || lia). rewrite (pop_eq _ (a + 4 + 4)) by (done || lia).
  unfold drop_words. cbn [m_r m_mem set_reg r_esp]. rewrite (u32_small (a + 4 + 4 + 4 + 4 * 1)) by (unfold is_u32; lia).
  rewrite (pop_eq _ (a + 16)) by (cbn; lia). rewrite (pop_eq _ (a + 16 + 4)) by (done || lia). rewrite (pop_eq _ (a + 16 + 4 + 4)) by (done || lia). rewrite (pop_eq _ (a + 16 + 4 + 4 + 4)) by (done || lia).
  cbn [m_r m_mem set_reg]. replace (a + 16 + 4 + 4 + 4 + 4) with (a + 32) by lia. replace (a + 16 + 4 + 4 + 4) with (a + 28) by lia. replace (a + 16 + 4 + 4) with (a + 24) by lia.
  replace (a + 16 + 4) with (a + 20) by lia. replace (a + 4 + 4) with (a + 8) by lia. done.
Qed.

Lemma popl_seg_run x m a : r_esp (m_r m) = a -> 0 <= a -> a + 4 < two32 -> CPL (m_r m) = 0 -> loadable gdt 3 (low16 (m_mem m a)) = true ->
  exec_instr keep_high gdt (popl_seg x) m = Some (Machine (set_seg x (low16 (m_mem m a)) (set_reg ESP (a + 4) (m_r m))) (m_mem m)).
Proof. intros Ha H0 Hr Hc Hl. cbn [exec_instr]. rewrite (pop_eq m a Ha H0 Hr), Hc, (loadable_lower _ Hl). done. Qed.

(** A frame to return to user code with. *)
Definition user_frame (tf : trapframe) : Prop :=
  tf_cs tf = 0x1B /\ tf_ss tf = 0x23 /\ loadable gdt 3 (tf_ds tf) = true /\ loadable gdt 3 (tf_es tf) = true /\ loadable gdt 3 (tf_fs tf) = true /\ loadable gdt 3 (tf_gs tf) = true.

Lemma clear_seg_ok x r : loadable gdt 3 (get_seg x r) = true -> clear_seg gdt 3 x r = r.
Proof. intros H. unfold clear_seg. by rewrite H. Qed.

Lemma iret_user m a : r_esp (m_r m) = a -> 0 <= a -> a + 20 < two32 -> CPL (m_r m) = 0 -> low16 (m_mem m (a + 4)) = 0x1B -> low16 (m_mem m (a + 16)) = 0x23 ->
  loadable gdt 3 (r_ds (m_r m)) = true -> loadable gdt 3 (r_es (m_r m)) = true -> loadable gdt 3 (r_fs (m_r m)) = true -> loadable gdt 3 (r_gs (m_r m)) = true ->
  do_iret gdt m = Some (Machine (set_flow (m_mem m a) (m_mem m (a + 8)) 0x1B (m_mem m (a + 12)) 0x23 (m_r m)) (m_mem m)).
Proof.
  intros Ha H0 Hr Hc Hcs Hss L1 L2 L3 L4. destruct (seginit_lookup gdt0 tsa gdt0_length) as (_ & _ & D3 & D4). fold gdt in D3, D4.
  assert (code_at_level gdt 3 0x1B = true) as K1 by (unfold code_at_level; rewrite D3; by vm_compute).
  assert (stack_at_level gdt 3 0x23 = true) as K2 by (unfold stack_at_level; rewrite D4; by vm_compute).
  unfold do_iret. rewrite (pop_eq m a Ha H0) by lia. rewrite (pop_eq _ (a + 4)) by (apply get_esp || lia). cbn [m_r m_mem]. rewrite set_esp_esp.
  rewrite (pop_eq _ (a + 4 + 4)) by (apply get_esp || lia). cbn [m_r m_mem]. rewrite set_esp_esp, Hcs. change (27 mod 4) with 3. rewrite K1, Hc.
  change (0 =? 3) with false. change (3 <? 0) with false. cbn [negb].
  rewrite (pop_eq _ (a + 4 + 4 + 4)) by (apply get_esp || lia). cbn [m_r m_mem]. rewrite set_esp_esp.
  rewrite (pop_eq _ (a + 4 + 4 + 4 + 4)) by (apply get_esp || lia). cbn [m_r m_mem]. rewrite set_esp_esp.
  replace (a + 4 + 4 + 4 + 4) with (a + 16) by lia. replace (a + 4 + 4 + 4) with (a + 12) by lia. replace (a + 4 + 4) with (a + 8) by lia. rewrite Hss, K2. cbn [negb].
  apply machine_eq; [|done]. destruct (m_r m). cbn [set_reg set_flow r_ds r_es r_fs r_gs] in *. rewrite (clear_seg_ok DS), (clear_seg_ok ES), (clear_seg_ok FS), (clear_seg_ok GS) by done. done.
Qed.

Lemma trapret_run m a tf : r_esp (m_r m) = a -> 0 <= a -> a + TRAPFRAME < two32 -> CPL (m_r m) = 0 -> load_tf (m_mem m) a = tf -> user_frame tf ->
  run_code keep_high gdt trapret m = Some (Machine (user_regs tf) (m_mem m)).
Proof.
  intros Ha H0 Hr Hc <- (U1 & U2 & U3 & U4 & U5 & U6). unfold TRAPFRAME in Hr. unfold load_tf in U1, U2, U3, U4, U5, U6. cbn [tf_cs tf_ss tf_ds tf_es tf_fs tf_gs] in *.
  unfold trapret. rewrite (run_cons _ _ _ _ (popal_run m a Ha H0 ltac:(lia))).
  erewrite run_cons by (eapply (popl_seg_run GS _ (a + 32)); [reflexivity|lia|lia|exact Hc|exact U6]). cbn [m_r m_mem set_seg set_reg].
  erewrite run_cons by (eapply (popl_seg_run FS _ (a + 32 + 4)); [reflexivity|lia|lia|exact Hc|cbn [m_mem]; replace (a + 32 + 4) with (a + 36) by lia; exact U5]). cbn [m_r m_mem set_seg set_reg].
  erewrite run_cons by (eapply (popl_seg_run ES _ (a + 32 + 4 + 4)); [reflexivity|lia|lia|exact Hc|cbn [m_mem]; replace (a + 32 + 4 + 4) with (a + 40) by lia; exact U4]). cbn [m_r m_mem set_seg set_reg].
  erewrite run_cons by (eapply (popl_seg_run DS _ (a + 32 + 4 + 4 + 4)); [reflexivity|lia|lia|exact Hc|cbn [m_mem]; replace (a + 32 + 4 + 4 + 4) with (a + 44) by lia; exact U3]). cbn [m_r m_mem set_seg set_reg].
  erewrite run_cons by reflexivity. cbn [m_r m_mem set_reg r_esp run_code exec_instr mbind option_bind]. rewrite u32_small by (unfold is_u32; lia).
  replace (a + 32 + 4 + 4 + 4 + 4 + 8) with (a + 56) by lia. replace (a + 32 + 4 + 4 + 4) with (a + 44) by lia. replace (a + 32 + 4 + 4) with (a + 40) by lia. replace (a + 32 + 4) with (a + 36) by lia.
  rewrite (iret_user _ (a + 56)); cbn [m_r m_mem r_esp r_ds r_es r_fs r_gs]; [|done|lia|lia|exact Hc|replace (a + 56 + 4) with (a + 60) by lia; exact U1|replace (a + 56 + 16) with (a + 72) by lia; exact U2|done..].
  apply machine_eq; [|done]. replace (a + 56 + 8) with (a + 64) by lia. replace (a + 56 + 12) with (a + 68) by lia. unfold user_regs, load_tf, set_flow. cbn [tf_eax tf_ecx tf_edx tf_ebx tf_esp tf_ebp tf_esi tf_edi tf_eip tf_eflags tf_cs tf_ds tf_es tf_fs tf_gs tf_ss r_eax r_ecx r_edx r_ebx r_ebp r_esi r_edi r_ds r_es r_fs r_gs].
  rewrite U1, U2. done.
Qed.

(** *** There and back *)

(** User code and its events: exceptions, interrupts from devices, and the
    instruction [int]. *)
Definition user_mode (r : regs) : Prop :=
  r_cs r = 0x1B /\ r_ss r = 0x23 /\ seg16 r /\ is_u32 (r_eflags r) /\
  loadable gdt 3 (r_ds r) = true /\ loadable gdt 3 (r_es r) = true /\ loadable gdt 3 (r_fs r) = true /\ loadable gdt 3 (r_gs r) = true.
Definition event_ok (e : event) : Prop := match e with Exc n _ => 0 <= n < 32 | Irq n => 32 <= n < 256 | Int n => 0 <= n < 256 end.

(** The trap number and error code the kernel sees, and the registers it is to
    restore: a system call continues after its instruction, any other [int] is
    a protection fault. *)
Definition event_no (e : event) : Z := match e with Exc n _ | Irq n => n | Int n => if n =? T_SYSCALL then T_SYSCALL else T_GPFLT end.
Definition event_err (e : event) : Z :=
  match e with Exc n err => if pushes_error n then err else 0 | Irq _ => 0 | Int n => if n =? T_SYSCALL then 0 else 8 * n + 2 end.
Definition event_regs (e : event) (r : regs) : regs :=
  match e with Int n => if n =? T_SYSCALL then set_ip (r_eip r + 2) r else r | _ => r end.

Lemma gate_open_eq n : 0 <= n < 256 -> gate_open idt 3 n = (n =? T_SYSCALL).
Proof.
  intros Hn. unfold gate_open, idt. rewrite (tvinit_lookup vectors idt0 n idt0_length Hn).
  destruct (SETGATE_hw (n =? T_SYSCALL) 0x08 (vectors n) (if n =? T_SYSCALL then 3 else 0)) as (_ & _ & _ & _ & -> & _); [lia|apply vectors_word|destruct (n =? T_SYSCALL); lia|].
  by destruct (n =? T_SYSCALL).
Qed.

(** Every event of user code is a delivery, with an error code where the vector
    expects one. *)
Lemma user_event e m : event_ok e -> CPL (m_r m) = 3 -> let n := event_no e in let err := event_err e in
  0 <= n < 256 /\ (pushes_error n = false -> err = 0) /\
  take_event keep_high gdt idt ts e m = deliver keep_high gdt idt ts n (if pushes_error n then Some err else None) (Machine (event_regs e (m_r m)) (m_mem m)).
Proof.
  intros He Hc. assert (Machine (m_r m) (m_mem m) = m) as Hm by (by destruct m). destruct e as [n err|n|n]; cbn [event_ok event_no event_err event_regs take_event] in *; rewrite ?Hm.
  - split; [lia|]. split; [by intros ->|]. by destruct (pushes_error n).
  - split; [lia|]. split; [done|]. assert (pushes_error n = false) as ->; [|done].
    unfold pushes_error. rewrite (proj2 (Z.eqb_neq n 8)), (proj2 (Z.eqb_neq n 17)), (proj2 (Z.leb_gt n 14)) by lia. by rewrite andb_false_r.
  - rewrite Hc, (gate_open_eq n He). destruct (n =? T_SYSCALL) eqn:E; rewrite ?Hm; [apply Z.eqb_eq in E as ->|]; (split; [unfold T_SYSCALL, T_GPFLT; lia|]; split; [done|]; done).
Qed.

Lemma gate_flags_if n fl : is_u32 fl -> has (gate_flags (gate_of n) fl) FL_IF = (n =? T_SYSCALL) && has fl FL_IF.
Proof.
  intros Hf. unfold gate_flags. destruct (SETGATE_hw (n =? T_SYSCALL) 0x08 (vectors n) (if n =? T_SYSCALL then 3 else 0)) as (_ & _ & E & _); [lia|apply vectors_word|destruct (n =? T_SYSCALL); lia|].
  fold (gate_of n) in E. rewrite E. pose proof (land_u32 fl (not32 0x34100) Hf) as Hl. change FL_IF with (2 ^ 9). rewrite !has_pow2 by lia.
  destruct (n =? T_SYSCALL); cbn [andb].
  - change (STS_TG32 =? STS_IG32) with false. cbv iota. rewrite land_not32 by done. rewrite Z.ldiff_spec. by rewrite andb_true_r.
  - change (STS_IG32 =? STS_IG32) with true. cbv iota. rewrite (land_not32 (Z.land fl (not32 0x34100))) by done. rewrite Z.ldiff_spec. by rewrite andb_false_r.
Qed.

(** C12: Traps are transparent.  Whatever stops user code -- an exception with
    an error code or without, an interrupt, [int] with any number -- the kernel's
    entry code calls [trap] at kernel privilege, with the kernel's segments and
    stack, with interrupts enabled only for system calls, and with a trap frame
    that holds the trap number, the error code and every register of the
    interrupted code; memory outside the top of its kernel stack is as before.
    And once [trap] has returned, with the frame changed or not, the exit code
    loads every user register from the frame: an unchanged frame resumes the code
    with all its registers. *)
Theorem trap_roundtrip (e : event) (m : machine) : event_ok e -> user_mode (m_r m) ->
  exists m1, enter e m = Some m1 /\
    (CPL (m_r m1) = 0 /\ r_ds (m_r m1) = 0x10 /\ r_es (m_r m1) = 0x10 /\ r_ss (m_r m1) = 0x10 /\ r_esp (m_r m1) = esp0 - TRAPFRAME - 4) /\
    has (r_eflags (m_r m1)) FL_IF = (event_no e =? T_SYSCALL) && has (r_eflags (m_r m)) FL_IF /\
    m_mem m1 (r_esp (m_r m1)) = esp0 - TRAPFRAME /\
    load_tf (m_mem m1) (esp0 - TRAPFRAME) = frame_of (event_no e) (event_err e) (event_regs e (m_r m)) /\
    (forall a, a < esp0 - TRAPFRAME - 4 \/ esp0 <= a -> m_mem m1 a = m_mem m a) /\
    (forall m2 tf, r_esp (m_r m2) = r_esp (m_r m1) -> CPL (m_r m2) = 0 -> load_tf (m_mem m2) (esp0 - TRAPFRAME) = tf -> user_frame tf ->
      leave m2 = Some (Machine (user_regs tf) (m_mem m2))) /\
    user_frame (frame_of (event_no e) (event_err e) (event_regs e (m_r m))) /\
    user_regs (frame_of (event_no e) (event_err e) (event_regs e (m_r m))) = event_regs e (m_r m).
Proof.
  intros He (U1 & U2 & U3 & U4 & U5 & U6 & U7 & U8). set (r := event_regs e (m_r m)).
  assert (r_cs r = r_cs (m_r m) /\ r_ss r = r_ss (m_r m) /\ r_eflags r = r_eflags (m_r m) /\ r_ds r = r_ds (m_r m) /\ r_es r = r_es (m_r m) /\ r_fs r = r_fs (m_r m) /\ r_gs r = r_gs (m_r m))
    as (R1 & R2 & R3 & R4 & R5 & R6 & R7) by (unfold r, event_regs; destruct e as [| |k]; try done; by destruct (k =? T_SYSCALL)).
  assert (CPL (m_r m) = 3) as Hc by (unfold CPL; by rewrite U1). assert (CPL r = 3) as Hc' by (unfold CPL; by rewrite R1, U1).
  assert (seg16 r) as Hs by (unfold seg16; by rewrite R1, R2, R4, R5, R6, R7).
  destruct (user_event e m He Hc) as (Hn & Herr & Et). fold r in Et.
  destruct (enter_words (event_no e) (event_err e) (Machine r (m_mem m)) Hn Hc' Hs Herr) as (ss & cs & ds & es & fs & gs & o & L1 & L2 & L3 & L4 & L5 & L6 & E).
  cbn [m_r m_mem] in *. set (vs := [ss; _; _; _; _; _; _; _; _; _; _; _; _; _; _; _; _; _; _; _]) in E.
  eexists. split; [unfold enter; rewrite Et; exact E|]. cbn [m_r m_mem]. unfold TRAPFRAME. split; [repeat split; cbn; lia|].
  split; [by rewrite <- (gate_flags_if (event_no e) (r_eflags (m_r m)) U4), <- R3|].
  assert (forall i v a, vs !! i = Some v -> a = esp0 - 4 * (Z.of_nat i + 1) -> stacked (m_mem m) esp0 vs a = v) as Hat by (intros i v a Hi ->; by apply stacked_at).
  split; [apply (Hat 19%nat); [done|cbn; lia]|]. split; [|split; [|split; [|split]]].
  - unfold load_tf, frame_of. rewrite (Hat 18%nat (r_edi r)), (Hat 17%nat (r_esi r)), (Hat 16%nat (r_ebp r)), (Hat 14%nat (r_ebx r)), (Hat 13%nat (r_edx r)), (Hat 12%nat (r_ecx r)), (Hat 11%nat (r_eax r)),
      (Hat 10%nat gs), (Hat 9%nat fs), (Hat 8%nat es), (Hat 7%nat ds), (Hat 6%nat (event_no e)), (Hat 5%nat (event_err e)), (Hat 4%nat (r_eip r)), (Hat 3%nat cs), (Hat 2%nat (r_eflags r)), (Hat 1%nat (r_esp r)), (Hat 0%nat ss) by (done || lia).
    by rewrite L1, L2, L3, L4, L5, L6.
  - intros a Ha. apply stacked_outside. cbn. lia.
  - intros m2 tf Hsp Hk Htf Huf. unfold leave. rewrite (run_cons _ _ _ (Machine (set_reg ESP (esp0 - 76) (m_r m2)) (m_mem m2))).
    + rewrite (trapret_run _ (esp0 - 76) tf); [done|apply get_esp|lia|unfold TRAPFRAME; lia|by destruct (m_r m2)|done|done].
    + cbn [exec_instr]. rewrite Hsp. change (r_esp (kernel_regs (esp0 - 80) _)) with (esp0 - 80). rewrite u32_small by (unfold is_u32; lia). by replace (esp0 - 80 + 4) with (esp0 - 76) by lia.
  - unfold user_frame, frame_of. cbn [tf_cs tf_ss tf_ds tf_es tf_fs tf_gs]. rewrite R1, R2, R4, R5, R6, R7. done.
  - unfold user_regs, frame_of. by destruct r.
Qed.

(** *** Switching threads *)

(** A thread at the first instruction of [swtch]: the return address, [old] and
    [new] are on its stack, and what it writes does not touch [keep]. *)
Definition calls_swtch (m : machine) (e new : Z) (keep : Z -> Prop) : Prop :=
  r_esp (m_r m) = e /\ 16 <= e /\ e + 8 < two32 /\ m_mem m (e + 8) = new /\ 0 <= new /\ new + CONTEXT < two32 /\
  (m_mem m (e + 4) < e - 16 \/ e < m_mem m (e + 4)) /\ forall a, keep a -> (a < e - 16 \/ e <= a) /\ a <> m_mem m (e + 4).

(** Memory once the old thread is saved. *)
Definition saved (m : machine) (e : Z) : Z -> Z :=
  poke (m_mem m (e + 4)) (e - 16) (stacked (m_mem m) e [r_ebp (m_r m); r_ebx (m_r m); r_esi (m_r m); r_edi (m_r m)]).

Lemma swtch_run m e new keep : calls_swtch m e new keep -> let mem := saved m e in
  run_code keep_high gdt swtch m = Some (Machine (Regs (m_mem m (e + 4)) (r_ecx (m_r m)) new (mem (new + 8)) (new + CONTEXT) (mem (new + 12)) (mem (new + 4)) (mem new)
    (mem (new + 16)) (r_eflags (m_r m)) (r_cs (m_r m)) (r_ds (m_r m)) (r_es (m_r m)) (r_fs (m_r m)) (r_gs (m_r m)) (r_ss (m_r m))) mem).
Proof.
  intros (He & H16 & H8 & Hnew & H0 & Hr & _ & _) mem. unfold swtch, CONTEXT in *. set (old := m_mem m (e + 4)) in *. unfold mem, saved. fold old. clear mem.
  set (r1 := set_reg EDX new (set_reg EAX old (m_r m))). assert (r_esp r1 = e) as Hsp by (unfold r1; destruct (m_r m); exact He).
  rewrite (run_cons _ _ _ (Machine (set_reg EAX old (m_r m)) (m_mem m))) by (cbn [exec_instr get_reg]; rewrite He, u32_small by (unfold is_u32; lia); done).
  rewrite (run_cons _ _ _ (Machine r1 (m_mem m))).
  2: { cbn [exec_instr get_reg m_r m_mem]. assert (r_esp (set_reg EAX old (m_r m)) = e) as -> by (destruct (m_r m); exact He). by rewrite u32_small, Hnew by (unfold is_u32; lia). }
  set (vs := [r_ebp (m_r m); r_ebx (m_r m); r_esi (m_r m); r_edi (m_r m)]).
  change [pushl EBP; pushl EBX; pushl ESI; pushl EDI; movl_to ESP EAX; movl EDX ESP; popl EDI; popl ESI; popl EBX; popl EBP; ret]
    with ([pushl EBP; pushl EBX; pushl ESI; pushl EDI] ++ [movl_to ESP EAX; movl EDX ESP; popl EDI; popl ESI; popl EBX; popl EBP; ret]).
  rewrite (run_app _ _ _ (pushes vs (Machine r1 (m_mem m)))) by (unfold r1; by destruct (m_r m)).
  rewrite (pushes_eq vs _ e) by (done || cbn; lia). cbn [m_r m_mem]. change (4 * Z.of_nat (length vs)) with 16. generalize (stacked (m_mem m) e vs). intros mem. clear vs.
  rewrite (run_cons _ _ _ (Machine (set_reg ESP (e - 16) r1) (poke old (e - 16) mem))) by (unfold r1; by destruct (m_r m)).
  generalize (poke old (e - 16) mem). clear mem. intros mem.
  rewrite (run_cons _ _ _ (Machine (set_reg ESP new r1) mem)) by (unfold r1; by destruct (m_r m)).
  assert (forall x l r a, r_esp r = a -> 0 <= a -> a + 4 < two32 -> run_code keep_high gdt (popl x :: l) (Machine r mem) = run_code keep_high gdt l (Machine (set_reg x (mem a) (set_reg ESP (a + 4) r)) mem)) as Hpop.
  { intros x l r a Ha Hp0 Hp1. apply run_cons. cbn [exec_instr]. by rewrite (pop_eq (Machine r mem) a Ha Hp0 Hp1). }
  clearbody old. unfold r1. destruct (m_r m) as [x c d b sp bp si di ip fl cs ds es fs gs ss]. clear r1 Hsp. cbn [set_reg r_esp] in *.
  rewrite (Hpop EDI _ _ new) by (done || lia). cbn [set_reg]. rewrite (Hpop ESI _ _ (new + 4)) by (done || lia). cbn [set_reg]. rewrite (Hpop EBX _ _ (new + 4 + 4)) by (done || lia). cbn [set_reg].
  rewrite (Hpop EBP _ _ (new + 4 + 4 + 4)) by (done || lia). cbn [set_reg run_code exec_instr]. rewrite (pop_eq _ (new + 4 + 4 + 4 + 4)) by (done || lia).
  cbn [m_r m_mem set_reg mbind option_bind set_ip set_flow r_eax r_ecx r_edx r_ebx r_esp r_ebp r_esi r_edi r_eflags r_cs r_ds r_es r_fs r_gs r_ss].
  replace (new + 4 + 4 + 4 + 4 + 4) with (new + 20) by lia. replace (new + 4 + 4 + 4 + 4) with (new + 16) by lia. replace (new + 4 + 4 + 4) with (new + 12) by lia. replace (new + 4 + 4) with (new + 8) by lia. done.
Qed.

(** What is saved, and what is kept. *)
Lemma saved_context m e new keep : calls_swtch m e new keep ->
  saved m e (m_mem m (e + 4)) = e - 16 /\ load_context (saved m e) (e - 16) = Context (r_edi (m_r m)) (r_esi (m_r m)) (r_ebx (m_r m)) (r_ebp (m_r m)) (m_mem m e) /\
  forall a, keep a -> saved m e a = m_mem m a.
Proof.
  intros (He & H16 & H8 & Hnew & H0 & Hr & Hold & Hk). unfold saved. set (vs := [r_ebp (m_r m); r_ebx (m_r m); r_esi (m_r m); r_edi (m_r m)]). split; [|split].
  - unfold poke. by rewrite Z.eqb_refl.
  - assert (forall a, e - 16 <= a <= e -> poke (m_mem m (e + 4)) (e - 16) (stacked (m_mem m) e vs) a = stacked (m_mem m) e vs a) as Hp.
    { intros a Ha. unfold poke. by rewrite (proj2 (Z.eqb_neq a (m_mem m (e + 4)))) by lia. }
    assert (forall i v a, vs !! i = Some v -> a = e - 4 * (Z.of_nat i + 1) -> stacked (m_mem m) e vs a = v) as Hat by (intros i v a Hi ->; by apply stacked_at).
    unfold load_context. rewrite !Hp by lia. rewrite (Hat 3%nat (r_edi (m_r m))), (Hat 2%nat (r_esi (m_r m))), (Hat 1%nat (r_ebx (m_r m))), (Hat 0%nat (r_ebp (m_r m))) by (done || lia).
    rewrite stacked_outside by (cbn; lia). by replace (e - 16 + 16) with e by lia.
  - intros a Ha. destruct (Hk a Ha) as [H1 H2]. unfold poke. rewrite (proj2 (Z.eqb_neq _ _) H2). apply stacked_outside. cbn. lia.
Qed.

(** C24: A kernel thread that calls [swtch] goes on as if the call had returned.
    [swtch] leaves a context in [*old]; whoever later calls [swtch] with that
    context, from any other stack and with the thread's stack untouched in
    between, continues after the first call with the callee-saved registers and
    the stack pointer it had there; and that caller is saved in turn. *)
Theorem swtch_resumes (m n : machine) (e new e' : Z) :
  calls_swtch m e new (fun _ => False) -> calls_swtch n e' (e - 16) (fun a => e - 16 <= a <= e) ->
  exists m1, run_code keep_high gdt swtch m = Some m1 /\ m_mem m1 (m_mem m (e + 4)) = e - 16 /\
    ((forall a, e - 16 <= a <= e -> m_mem n a = m_mem m1 a) ->
      exists n1, run_code keep_high gdt swtch n = Some n1 /\
        (r_ebx (m_r n1) = r_ebx (m_r m) /\ r_esi (m_r n1) = r_esi (m_r m) /\ r_edi (m_r n1) = r_edi (m_r m) /\ r_ebp (m_r n1) = r_ebp (m_r m)) /\
        r_esp (m_r n1) = r_esp (m_r m) + 4 /\ r_eip (m_r n1) = m_mem m (r_esp (m_r m)) /\
        load_context (m_mem n1) (m_mem n1 (m_mem n (e' + 4))) = Context (r_edi (m_r n)) (r_esi (m_r n)) (r_ebx (m_r n)) (r_ebp (m_r n)) (m_mem n e')).
Proof.
  intros Hm Hn. destruct (saved_context m e new _ Hm) as (S1 & S2 & _). destruct (saved_context n e' (e - 16) _ Hn) as (T1 & T2 & T3).
  eexists. split; [exact (swtch_run m e new _ Hm)|]. cbn [m_mem]. split; [exact S1|]. intros Hsame. pose proof Hm as (He & H16 & _).
  eexists. split; [exact (swtch_run n e' (e - 16) _ Hn)|]. cbn [m_r m_mem r_ebx r_esi r_edi r_ebp r_esp r_eip]. unfold load_context in S2. injection S2 as C1 C2 C3 C4 C5. unfold CONTEXT.
  rewrite !T3, !Hsame by lia. rewrite He, T1, T2. repeat split; try done; lia.
Qed.

(** The first run of a new process.  On the stack [allocproc] builds, the
    scheduler's [swtch] arrives at the start of [forkret]; when that returns, at
    [trapret]; and that loads the user registers from the process's trap frame. *)
Theorem first_run (m : machine) (e forkret trapret_ : Z) (mem : Z -> Z) (tf : trapframe) : let c := new_context kstack in
  calls_swtch m e c (fun a => c <= a < esp0) -> CPL (m_r m) = 0 -> 0 <= c ->
  (forall a, c <= a < esp0 -> m_mem m a = new_stack kstack forkret trapret_ mem a) -> load_tf mem (esp0 - TRAPFRAME) = tf -> user_frame tf ->
  exists m1, run_code keep_high gdt swtch m = Some m1 /\ r_eip (m_r m1) = forkret /\
    forall m2, r_esp (m_r m2) = r_esp (m_r m1) -> CPL (m_r m2) = 0 -> (forall a, r_esp (m_r m2) <= a < esp0 -> m_mem m2 a = m_mem m1 a) ->
      exists m3, exec_instr keep_high gdt ret m2 = Some m3 /\ r_eip (m_r m3) = trapret_ /\ run_code keep_high gdt trapret m3 = Some (Machine (user_regs tf) (m_mem m2)).
Proof.
  intros c Hm Hc H0 Hmem Htf Hu. destruct (saved_context m e c _ Hm) as (_ & _ & S3). assert (c + 100 = esp0) as Hc0 by (unfold c, new_context, esp0, TRAPFRAME, CONTEXT; lia). unfold TRAPFRAME in *.
  eexists. split; [exact (swtch_run m e c _ Hm)|]. cbn [m_r m_mem r_eip r_esp]. assert (forall a, c <= a < esp0 -> saved m e a = new_stack kstack forkret trapret_ mem a) as Hs by (intros a Ha; by rewrite S3, Hmem).
  split; [rewrite Hs by lia; unfold new_stack, poke; fold c; by rewrite Z.eqb_refl|]. unfold CONTEXT. intros m2 Hsp Hc2 Hm2. rewrite Hsp in Hm2.
  assert (exec_instr keep_high gdt ret m2 = Some (Machine (set_ip (m_mem m2 (c + 20)) (set_reg ESP (c + 20 + 4) (m_r m2))) (m_mem m2))) as E.
  { cbn [exec_instr]. by rewrite (pop_eq m2 (c + 20)) by (done || lia). }
  eexists. split; [exact E|]. assert (forall a, c + 24 <= a < esp0 -> m_mem m2 a = mem a) as Hframe.
  { intros a Ha. rewrite Hm2, Hs by lia. unfold new_stack, poke, CONTEXT. fold c. by repeat rewrite (proj2 (Z.eqb_neq a _)) by lia. }
  split.
  - cbn. rewrite Hm2, Hs by lia. unfold new_stack, poke, CONTEXT. fold c. by rewrite !(proj2 (Z.eqb_neq (c + 20) _)), Z.eqb_refl by lia.
  - rewrite (trapret_run _ (c + 24) tf); [done|cbn; destruct (m_r m2); cbn; lia|lia|unfold TRAPFRAME; lia|by destruct (m_r m2)| |done].
    rewrite <- Htf. cbn [m_mem]. replace (esp0 - 76) with (c + 24) by lia. unfold load_tf. by rewrite !Hframe by lia.
Qed.

(** *** What user code cannot do *)

(** Whether an I/O instruction is allowed: by the I/O privilege level in the
    flags, or by a bit in the task state, if its limit covers it. *)
Definition io_permitted (bitmap : Z -> bool) (r : regs) (port : Z) : bool :=
  (CPL r <=? bits (r_eflags r) 12 2) ||
  match descriptor gdt (Z.shiftl SEG_TSS 3) with Some d => (ts_iomb ts + port / 8 + 1 <=? hw_limit d) && negb (bitmap port) | None => false end.

Lemma tss_descriptor : is_u32 tsa -> exists d, descriptor gdt (Z.shiftl SEG_TSS 3) = Some d /\
  hw_base d = tsa /\ hw_limit d = TASKSTATE - 1 /\ hw_type d = STS_T32A /\ hw_app d = false /\ hw_present d = true.
Proof.
  intros Ht. exists (seg_bits (set_s 0 (SEG16 STS_T32A tsa (TASKSTATE - 1) 0))). split.
  - unfold gdt, switch_gdt, descriptor. change (Z.to_nat (Z.shiftl SEG_TSS 3 / 8)) with 5%nat. change (Z.to_nat SEG_TSS) with 5%nat.
    rewrite list_lookup_alter_eq, list_lookup_insert_eq; [done|]. unfold seginit. rewrite !length_insert, gdt0_length. lia.
  - unfold hw_base, hw_limit, hw_type, hw_app, hw_present, set_s, SEG16. repeat seg_field. split; [exact (proj1 (word_pieces tsa Ht))|]. by vm_compute.
Qed.

End entry.

(** ** A machine *)

Definition no_seg : segdesc := SegDesc 0 0 0 0 0 0 0 0 0 0 0 0 0.
Definition no_gate : gatedesc := GateDesc 0 0 0 0 0 0 0 0 0.
Definition demo_vectors (n : Z) : Z := if (0 <=? n) && (n <? 256) then 0x80106000 + 16 * n else 0.
Definition demo_code (a : Z) : option (list instr) :=
  let n := (a - 0x80106000) / 16 in if (0 <=? n) && (n <? 256) then Some (vector n ++ alltraps) else None.

Lemma demo_vectors_word n : is_u32 (demo_vectors n).
Proof. unfold demo_vectors, is_u32, two32. destruct (0 <=? n) eqn:E1, (n <? 256) eqn:E2; cbn; bool_prop; lia. Qed.

Lemma demo_code_vectors n : 0 <= n < 256 -> demo_code (demo_vectors n) = Some (vector n ++ alltraps).
Proof.
  intros Hn. unfold demo_vectors. rewrite (proj2 (Z.leb_le 0 n)), (proj2 (Z.ltb_lt n 256)) by lia. cbn [andb]. unfold demo_code.
  replace (0x80106000 + 16 * n - 0x80106000) with (n * 16) by lia. rewrite Z.div_mul by lia. by rewrite (proj2 (Z.leb_le 0 n)), (proj2 (Z.ltb_lt n 256)) by lia.
Qed.

Definition demo_regs : regs := Regs 1 2 3 4 0x2FF0 6 7 8 0x40 0x202 0x1B 0x23 0x23 0 0 0x23.
Definition demo_kstack : Z := 0x8DFFE000.

Lemma demo_user_mode : user_mode (repeat no_seg 6) 0x80112000 demo_regs.
Proof. repeat split; try (cbn; unfold two32; lia); by vm_compute. Qed.

(** [int $3] at user level becomes a protection fault with [0x1A] as its error
    code. *)
Lemma trap_roundtrip_witness : exists m1, enter true (repeat no_seg 6) (repeat no_gate 256) 0x80112000 demo_kstack demo_vectors demo_code (Int 3) (Machine demo_regs (fun _ => 0)) = Some m1 /\
  load_tf (m_mem m1) 0x8DFFEFB4 = TrapFrame 8 7 6 4 3 2 1 0 0 0x23 0x23 13 0x1A 0x40 0x1B 0x202 0x2FF0 0x23.
Proof.
  destruct (trap_roundtrip true (repeat no_seg 6) (repeat no_gate 256) 0x80112000 demo_kstack demo_vectors eq_refl eq_refl demo_vectors_word ltac:(vm_compute; split; congruence) demo_code demo_code_vectors
    (Int 3) (Machine demo_regs (fun _ => 0)) ltac:(cbn; lia) demo_user_mode) as (m1 & E & _ & _ & _ & F & _).
  exists m1. split; [exact E|exact F].
Defined.


(** Two kernel threads: one at [0x1000] switches to one whose context is at
    [0x2FEC], which later switches back. *)
Definition thread_mem (e ret old new : Z) (mem : Z -> Z) : Z -> Z := poke e ret (poke (e + 4) old (poke (e + 8) new mem)).
Definition thread_a : machine := Machine (Regs 0 0 0 4 0x1000 5 6 7 0 0 0x08 0x10 0x10 0 0 0x10) (thread_mem 0x1000 0x77 0x5000 0x2FEC (fun _ => 0)).
Definition thread_b : machine := Machine (Regs 0 0 0 14 0x3000 15 16 17 0 0 0x08 0x10 0x10 0 0 0x10) (thread_mem 0x3000 0x99 0x5004 0xFF0 (saved thread_a 0x1000)).

Lemma swtch_resumes_witness : exists n1, run_code false (switch_gdt 0x80112000 (seginit (repeat no_seg 6))) swtch thread_b = Some n1 /\
  r_ebx (m_r n1) = 4 /\ r_esp (m_r n1) = 0x1004 /\ r_eip (m_r n1) = 0x77.
Proof.
  assert (calls_swtch thread_a 0x1000 0x2FEC (fun _ => False)) as Ha by (unfold calls_swtch; change (m_mem thread_a (0x1000 + 4)) with 0x5000; unfold two32, CONTEXT; split_and!; first [reflexivity|lia|done]).
  assert (calls_swtch thread_b 0x3000 (0x1000 - 16) (fun a => 0x1000 - 16 <= a <= 0x1000)) as Hb
    by (unfold calls_swtch; change (m_mem thread_b (0x3000 + 4)) with 0x5004; unfold two32, CONTEXT; split_and!; first [reflexivity|lia|intros a Hab; lia]).
  destruct (swtch_resumes false (repeat no_seg 6) (repeat no_gate 256) 0x80112000 eq_refl eq_refl thread_a thread_b 0x1000 0x2FEC 0x3000 Ha Hb) as (m1 & E & _ & H).
  rewrite (swtch_run false (repeat no_seg 6) (repeat no_gate 256) 0x80112000 eq_refl eq_refl thread_a 0x1000 0x2FEC _ Ha) in E. injection E as <-.
  destruct H as (n1 & E1 & (H1 & _) & H2 & H3 & _).
  - intros a Ha'. cbn [m_mem thread_b]. unfold thread_mem, poke at 1 2 3. by rewrite !(proj2 (Z.eqb_neq a _)) by lia.
  - exists n1. split; [exact E1|]. split; [exact H1|]. split; [exact H2|exact H3].
Defined.

(** The first process: its context is switched to from a scheduler whose stack
    is at [0x8010A000]. *)
Definition store_init_tf (a : Z) (mem : Z -> Z) : Z -> Z :=
  poke (a + 40) 0x23 (poke (a + 44) 0x23 (poke (a + 60) 0x1B (poke (a + 64) FL_IF (poke (a + 68) PGSIZE (poke (a + 72) 0x23 mem))))).
Definition init_mem : Z -> Z := store_init_tf 0x8DFFEFB4 (fun _ => 0).
Definition boot_thread : machine :=
  Machine (Regs 0 0 0 0 0x8010A000 0 0 0 0 0 0x08 0x10 0x10 0 0 0x10)
    (thread_mem 0x8010A000 0x80103000 0x80112004 (new_context demo_kstack) (new_stack demo_kstack 0x80103500 0x80105A00 init_mem)).

Lemma first_run_witness : exists m1, run_code false (switch_gdt 0x80112000 (seginit (repeat no_seg 6))) swtch boot_thread = Some m1 /\ r_eip (m_r m1) = 0x80103500 /\
  exists m3, exec_instr false (switch_gdt 0x80112000 (seginit (repeat no_seg 6))) ret m1 = Some m3 /\ r_eip (m_r m3) = 0x80105A00 /\
    run_code false (switch_gdt 0x80112000 (seginit (repeat no_seg 6))) trapret m3 = Some (Machine (user_regs init_tf) (m_mem m1)).
Proof.
  destruct (first_run false (repeat no_seg 6) (repeat no_gate 256) 0x80112000 demo_kstack eq_refl eq_refl ltac:(vm_compute; split; congruence)
    boot_thread 0x8010A000 0x80103500 0x80105A00 init_mem init_tf) as (m1 & E & Hip & H).
  - unfold calls_swtch. change (m_mem boot_thread (0x8010A000 + 4)) with 0x80112004. unfold two32, demo_kstack, esp0, new_context, CONTEXT, KSTACKSIZE, TRAPFRAME. split_and!; first [reflexivity|lia|intros a Hab; lia].
  - reflexivity.
  - vm_compute. congruence.
  - intros a Ha. cbn [m_mem boot_thread]. unfold demo_kstack, esp0, new_context, CONTEXT, KSTACKSIZE, TRAPFRAME in Ha. unfold thread_mem, poke at 1 2 3. by rewrite !(proj2 (Z.eqb_neq a _)) by lia.
  - by vm_compute.
  - repeat split; by vm_compute.
  - exists m1. split; [exact E|]. split; [exact Hip|]. destruct (H m1 eq_refl) as (m3 & E3 & H3 & R); [|done|by exists m3].
    rewrite (swtch_run false (repeat no_seg 6) (repeat no_gate 256) 0x80112000 eq_refl eq_refl boot_thread 0x8010A000 (new_context demo_kstack) (fun _ => False)) in E; [by injection E as <-|].
    unfold calls_swtch. change (m_mem boot_thread (0x8010A000 + 4)) with 0x80112004. unfold two32, demo_kstack, new_context, CONTEXT, KSTACKSIZE, TRAPFRAME. split_and!; first [reflexivity|lia|done].
Defined.
