(* ===== verification/Bootmain.v ===== *)
(** * The boot loader ([bootmain.c])

    It reads the kernel, an ELF file that starts at sector 1 of the disk, sector
    by sector through the ports of the disk controller, and puts its segments
    where their headers say. *)

From S2P Require Import Prelude.

Definition SECTSIZE : Z := 512.
Definition ELF_MAGIC : Z := 0x464C457F.

(** ** The machine *)

(** Memory by bytes, the controller's registers, and for how many more reads of
    its status the disk is busy. *)
Record bst := BSt { b_mem : Z -> Z; b_ports : Z -> Z; b_busy : nat }.
Definition set_bmem (mem : Z -> Z) (s : bst) : bst := BSt mem (b_ports s) (b_busy s).

Section machine.
(** The bytes of each sector, and how long the disk takes for it. *)
Context (disk : Z -> Z -> Z) (delay : Z -> nat).

(** The sector the registers name. *)
Definition lba (ports : Z -> Z) : Z := ports 0x1F3 + 2 ^ 8 * ports 0x1F4 + 2 ^ 16 * ports 0x1F5 + 2 ^ 24 * (ports 0x1F6 mod 16).

Definition inb_status : M bst Z := fun s =>
  match b_busy s with O => Ok 0x40 s | S n => Ok 0x80 (BSt (b_mem s) (b_ports s) n) end.
Definition outb (port v : Z) : M bst () := fun s =>
  let ports := fun p => if p =? port then v mod 256 else b_ports s p in
  Ok () (BSt (b_mem s) ports (if (port =? 0x1F7) && (v =? 0x20) then delay (lba ports) else b_busy s)).
(** [insl(0x1F0, dst, SECTSIZE/4)], which has to wait for the disk and for a
    command to read one sector. *)
Definition insl (dst : Z) : M bst () := fun s =>
  match b_busy s with
  | O =>
      if (b_ports s 0x1F7 =? 0x20) && (b_ports s 0x1F2 =? 1) then
        Ok () (set_bmem (fun a => if (dst <=? a) && (a <? dst + SECTSIZE) then disk (lba (b_ports s)) (a - dst) else b_mem s a) s)
      else panic "insl" s
  | S _ => panic "insl" s
  end.
Definition stosb (addr data cnt : Z) : M bst () :=
  modify (fun s => set_bmem (fun a => if (addr <=? a) && (a <? addr + cnt) then data else b_mem s a) s).
Definition peek (a : Z) : M bst Z := gets (fun s => b_mem s a).
Definition peek16 (a : Z) : M bst Z := l ← peek a; h ← peek (a + 1); mret (l + 2 ^ 8 * h).
Definition peek32 (a : Z) : M bst Z := l ← peek16 a; h ← peek16 (a + 2); mret (l + 2 ^ 16 * h).

(** ** The program *)

(** [while((inb(0x1F7) & 0xC0) != 0x40);] *)
Fixpoint waitdisk (fuel : nat) : M bst () :=
  match fuel with
  | O => nofuel
  | S fuel' => st ← inb_status; if Z.land st 0xC0 =? 0x40 then mret () else waitdisk fuel'
  end.

Definition readsect (fuel : nat) (dst offset : Z) : M bst () :=
  waitdisk fuel;;
  outb 0x1F2 1;; outb 0x1F3 offset;; outb 0x1F4 (Z.shiftr offset 8);; outb 0x1F5 (Z.shiftr offset 16);;
  outb 0x1F6 (Z.lor (Z.shiftr offset 24) 0xE0);; outb 0x1F7 0x20;;
  waitdisk fuel;;
  insl dst.

(** [for(; pa < epa; pa += SECTSIZE, offset++)] *)
Fixpoint readseg_loop (fuel : nat) (wait : nat) (pa epa offset : Z) : M bst () :=
  if pa <? epa then
    match fuel with
    | O => nofuel
    | S fuel' => readsect wait pa offset;; readseg_loop fuel' wait (u32 (pa + SECTSIZE)) epa (u32 (offset + 1))
    end
  else mret ().
Definition readseg (fuel wait : nat) (pa count offset : Z) : M bst () :=
  let epa := u32 (pa + count) in
  let pa := u32 (pa - offset mod SECTSIZE) in
  readseg_loop fuel wait pa epa (offset / SECTSIZE + 1).

(** One program header. *)
Definition load_segment (fuel wait : nat) (ph : Z) : M bst () :=
  pa ← peek32 (ph + 12); filesz ← peek32 (ph + 16); off ← peek32 (ph + 4);
  readseg fuel wait pa filesz off;;
  memsz ← peek32 (ph + 20); filesz ← peek32 (ph + 16);
  when (filesz <? memsz) (stosb (u32 (pa + filesz)) 0 (memsz - filesz)).
Fixpoint load_loop (n : nat) (fuel wait : nat) (ph : Z) : M bst () :=
  match n with O => mret () | S n' => load_segment fuel wait ph;; load_loop n' fuel wait (ph + 32) end.

(** [Some entry] is the jump to the kernel, [None] the return to [bootasm.S]. *)
Definition bootmain (fuel wait : nat) : M bst (option Z) :=
  let elf := 0x10000 in
  readseg fuel wait elf 4096 0;;
  magic ← peek32 elf;
  if negb (magic =? ELF_MAGIC) then mret None else
  phoff ← peek32 (elf + 28); phnum ← peek16 (elf + 44);
  load_loop (Z.to_nat phnum) fuel wait (elf + phoff);;
  entry ← peek32 (elf + 24);
  mret (Some entry).

(** ** Reading *)

Context (wait : nat) (wait_ok : forall l, (delay l < wait)%nat).

Lemma waitdisk_run fuel : forall s, (b_busy s < fuel)%nat -> waitdisk fuel s = Ok () (BSt (b_mem s) (b_ports s) 0).
Proof.
  induction fuel as [|fuel IH]; intros [mem ports n] Hb; cbn [b_busy] in *; [lia|]. cbn [waitdisk]. unfold inb_status, mbind, M_bind, bindM. cbn [b_busy]. destruct n as [|n].
  - by change (Z.land 64 192 =? 64) with true.
  - change (Z.land 128 192 =? 64) with false. apply (IH (BSt mem ports n)). cbn. lia.
Qed.

(** The registers that name a sector, put together by the controller. *)
Lemma lba_registers offset : 0 <= offset < 2 ^ 28 ->
  offset mod 256 + 2 ^ 8 * (Z.shiftr offset 8 mod 256) + 2 ^ 16 * (Z.shiftr offset 16 mod 256) + 2 ^ 24 * ((Z.lor (Z.shiftr offset 24) 0xE0 mod 256) mod 16) = offset.
Proof.
  intros Ho. rewrite !Z.shiftr_div_pow2 by lia. assert (0 <= offset / 2 ^ 24 < 2 ^ 5) as Hq by (split; [apply Z.div_pos; lia|apply Z.div_lt_upper_bound; lia]).
  assert (offset / 2 ^ 24 < 16) as Hq' by (apply Z.div_lt_upper_bound; lia).
  rewrite Z.lor_comm, (lor_disjoint_add 0xE0 (offset / 2 ^ 24) 5) by (lia || reflexivity).
  change (2 ^ 24) with 16777216 in *. change (2 ^ 16) with 65536. change (2 ^ 8) with 256. change (2 ^ 28) with 268435456 in *.
  replace ((224 + offset / 16777216) mod 256) with (224 + offset / 16777216) by (rewrite Z.mod_small; lia).
  replace ((224 + offset / 16777216) mod 16) with (offset / 16777216) by (rewrite (Z.add_mod 224 _ 16) by lia; change (224 mod 16) with 0; rewrite Z.add_0_l, Z.mod_mod, Z.mod_small; lia).
  Z.div_mod_to_equations; lia.
Qed.

Definition copied (dst offset : Z) (mem : Z -> Z) : Z -> Z := fun a => if (dst <=? a) && (a <? dst + SECTSIZE) then disk offset (a - dst) else mem a.

Lemma readsect_run dst offset s : (b_busy s < wait)%nat -> 0 <= offset < 2 ^ 28 ->
  exists ports, readsect wait dst offset s = Ok () (BSt (copied dst offset (b_mem s)) ports 0).
Proof.
  intros Hb Ho. unfold readsect. rewrite (Ok_bind _ _ _ _ _ (waitdisk_run wait s Hb)). unfold outb at 1 2 3 4 5 6. unfold mbind, M_bind, bindM. cbn [b_mem b_ports b_busy Z.eqb Pos.eqb andb].
  set (ports := fun p => if p =? 0x1F7 then _ else _). assert (lba ports = offset) as Hl by exact (lba_registers offset Ho). rewrite Hl.
  rewrite (waitdisk_run wait (BSt (b_mem s) ports (delay offset)) (wait_ok offset)). cbn [b_mem b_ports]. unfold insl. cbn [b_busy b_ports b_mem].
  change (ports 0x1F7 =? 0x20) with true. change (ports 0x1F2 =? 1) with true. cbn [andb]. rewrite Hl. exists ports. done.
Qed.

(** The kernel file on the disk. *)
Context (image : Z -> Z) (on_disk : forall k j, 1 <= k -> 0 <= j < SECTSIZE -> disk k j = image (SECTSIZE * (k - 1) + j)).

(** [n] sectors are read, and no other byte changes. *)
Lemma readseg_loop_run n : forall pa epa offset s fuel, (n <= fuel)%nat -> (b_busy s < wait)%nat -> 0 <= pa -> pa + SECTSIZE * Z.of_nat n < two32 ->
  epa <= pa + SECTSIZE * Z.of_nat n -> (n <> 0%nat -> pa + SECTSIZE * (Z.of_nat n - 1) < epa) -> 1 <= offset -> offset + Z.of_nat n < 2 ^ 28 ->
  exists s', readseg_loop fuel wait pa epa offset s = Ok () s' /\ (b_busy s' < wait)%nat /\
    forall a, b_mem s' a = if (pa <=? a) && (a <? pa + SECTSIZE * Z.of_nat n) then image (SECTSIZE * (offset - 1) + (a - pa)) else b_mem s a.
Proof.
  unfold SECTSIZE. induction n as [|n IH]; intros pa epa offset s fuel Hf Hb H0 Hr He Hn Ho1 Ho2.
  - exists s. rewrite Z.mul_0_r, Z.add_0_r in *. split; [|split; [done|]].
    + destruct fuel; cbn [readseg_loop]; by rewrite (proj2 (Z.ltb_ge pa epa)) by lia.
    + intros a. destruct (Z.leb_spec pa a), (Z.ltb_spec a pa); cbn; try done. lia.
  - destruct fuel as [|fuel]; [lia|]. cbn [readseg_loop]. rewrite (proj2 (Z.ltb_lt pa epa)) by lia.
    destruct (readsect_run pa offset s Hb ltac:(lia)) as [ports E]. rewrite (Ok_bind _ _ _ _ _ E). rewrite !u32_small by (unfold is_u32, two32, SECTSIZE in *; lia).
    destruct (IH (pa + 512) epa (offset + 1) (BSt (copied pa offset (b_mem s)) ports 0) fuel) as (s' & E' & Hb' & Hm); [lia|cbn; lia|lia|lia|lia|lia|lia|lia|].
    exists s'. split; [exact E'|]. split; [exact Hb'|]. intros a. rewrite Hm. cbn [b_mem]. unfold copied, SECTSIZE. rewrite Nat2Z.inj_succ.
    destruct (Z.leb_spec pa a), (Z.ltb_spec a (pa + 512 * Z.succ (Z.of_nat n))), (Z.leb_spec (pa + 512) a), (Z.ltb_spec a (pa + 512 + 512 * Z.of_nat n)), (Z.ltb_spec a (pa + 512));
      cbn; try lia; try done; [f_equal; lia|]. rewrite on_disk by (unfold SECTSIZE; lia). done.
Qed.

(** [readseg] brings the bytes asked for; it writes at most to the sector
    boundaries around them. *)
Lemma readseg_run fuel pa count offset s : (Z.to_nat (count / SECTSIZE + 2) <= fuel)%nat -> (b_busy s < wait)%nat ->
  is_u32 offset -> offset mod SECTSIZE <= pa -> 0 <= count -> pa + count + SECTSIZE <= two32 ->
  exists s', readseg fuel wait pa count offset s = Ok () s' /\ (b_busy s' < wait)%nat /\
    (forall a, pa <= a < pa + count -> b_mem s' a = image (offset + (a - pa))) /\
    (forall a, a < pa - offset mod SECTSIZE \/ pa + count + (SECTSIZE - 1) <= a -> b_mem s' a = b_mem s a).
Proof.
  unfold SECTSIZE. intros Hf Hb Ho Hp Hc Hr. unfold is_u32, two32 in *. pose proof (Z.mod_pos_bound offset 512 ltac:(lia)) as Hm. pose proof (Z.div_mod offset 512 ltac:(lia)) as Hd.
  set (r := offset mod 512) in *. set (q := offset / 512) in *. set (n := Z.to_nat ((count + r + 511) / 512)).
  assert (Z.of_nat n = (count + r + 511) / 512) as En by (unfold n; rewrite Z2Nat.id; [done|apply Z.div_pos; lia]).
  pose proof (Z.div_mod (count + r + 511) 512 ltac:(lia)) as Hd2. pose proof (Z.mod_pos_bound (count + r + 511) 512 ltac:(lia)) as Hm2.
  assert ((count + r + 511) / 512 <= count / 512 + 2) as Hn2 by (pose proof (Z.div_mod count 512 ltac:(lia)); pose proof (Z.mod_pos_bound count 512 ltac:(lia)); lia).
  unfold readseg, SECTSIZE. fold r q. rewrite !u32_small by (unfold is_u32, two32; lia).
  destruct (readseg_loop_run n (pa - r) (pa + count) (q + 1) s fuel) as (s' & E & Hb' & Hmem); unfold SECTSIZE; rewrite ?En; [|done|lia|unfold two32; lia|lia| |lia|lia|].
  - assert (0 <= count / 512) by (apply Z.div_pos; lia). lia.
  - intros Hn0. lia.
  - exists s'. split; [exact E|]. split; [exact Hb'|]. unfold SECTSIZE in Hmem. rewrite En in Hmem. split; intros a Ha; rewrite Hmem.
    + destruct (Z.leb_spec (pa - r) a), (Z.ltb_spec a (pa - r + 512 * ((count + r + 511) / 512))); cbn; try lia. f_equal. lia.
    + destruct (Z.leb_spec (pa - r) a), (Z.ltb_spec a (pa - r + 512 * ((count + r + 511) / 512))); cbn; try lia; done.
Qed.

(** ** Segments *)

Definition img16 (o : Z) : Z := image o + 2 ^ 8 * image (o + 1).
Definition img32 (o : Z) : Z := img16 o + 2 ^ 16 * img16 (o + 2).

(** The fields of a program header that are used. *)
Record segment := Segment { sg_off : Z; sg_paddr : Z; sg_filesz : Z; sg_memsz : Z }.
Definition segment_at (o : Z) : segment := Segment (img32 (o + 4)) (img32 (o + 12)) (img32 (o + 16)) (img32 (o + 20)).
Definition segments : list segment := (fun i => segment_at (img32 28 + 32 * i)) <$> seqZ 0 (img16 44).

(** The memory a segment takes, and the memory that is written for it. *)
Definition sg_end (g : segment) : Z := sg_paddr g + Z.max (sg_filesz g) (sg_memsz g).
Definition sg_low (g : segment) : Z := sg_paddr g - sg_off g mod SECTSIZE.
Definition sg_high (g : segment) : Z := Z.max (sg_paddr g + sg_filesz g + (SECTSIZE - 1)) (sg_end g).

Context (image_bytes : forall o, 0 <= image o < 256) (fuel : nat).

(** It is above the page where the headers are kept, and within 32 bits; and
    the loop has turns for its sectors. *)
Definition fits (g : segment) : Prop :=
  (Z.to_nat (sg_filesz g / SECTSIZE + 2) <= fuel)%nat /\ 0x11000 <= sg_low g /\ sg_paddr g + sg_filesz g + SECTSIZE <= two32 /\ sg_end g < two32.
(** What is written for [h] leaves [g], which was loaded before, alone. *)
Definition apart (g h : segment) : Prop := sg_end g <= sg_low h \/ sg_high h <= sg_paddr g.

(** A segment in memory: its bytes from the file, then zeros. *)
Definition loaded (mem : Z -> Z) (g : segment) : Prop :=
  (forall k, 0 <= k < sg_filesz g -> mem (sg_paddr g + k) = image (sg_off g + k)) /\
  (forall k, sg_filesz g <= k < sg_memsz g -> mem (sg_paddr g + k) = 0).

Lemma img32_range o : is_u32 (img32 o).
Proof.
  unfold img32, img16, is_u32, two32. pose proof (image_bytes o). pose proof (image_bytes (o + 1)). pose proof (image_bytes (o + 2)). pose proof (image_bytes (o + 2 + 1)).
  change (2 ^ 8) with 256. change (2 ^ 16) with 65536. lia.
Qed.

(** Reading the headers where they were put. *)
Definition headers (mem : Z -> Z) : Prop := forall o, 0 <= o < 4096 -> mem (0x10000 + o) = image o.

Lemma peek16_run s o : headers (b_mem s) -> 0 <= o -> o + 2 <= 4096 -> peek16 (0x10000 + o) s = Ok (img16 o) s.
Proof.
  intros Hh H0 Ho. unfold peek16, peek, gets, mbind, M_bind, bindM, mret, M_ret. rewrite (Hh o) by lia. replace (0x10000 + o + 1) with (0x10000 + (o + 1)) by lia. by rewrite (Hh (o + 1)) by lia.
Qed.

Lemma peek32_run s o : headers (b_mem s) -> 0 <= o -> o + 4 <= 4096 -> peek32 (0x10000 + o) s = Ok (img32 o) s.
Proof.
  intros Hh H0 Ho. unfold peek32. rewrite (Ok_bind _ _ _ _ _ (peek16_run s o Hh H0 ltac:(lia))). replace (0x10000 + o + 2) with (0x10000 + (o + 2)) by lia.
  by rewrite (Ok_bind _ _ _ _ _ (peek16_run s (o + 2) Hh ltac:(lia) ltac:(lia))).
Qed.

Lemma headers_kept mem mem' g : headers mem -> 0x11000 <= sg_low g -> (forall a, a < sg_low g \/ sg_high g <= a -> mem' a = mem a) -> headers mem'.
Proof. intros Hh Hl Hm o Ho. rewrite Hm by lia. by apply Hh. Qed.

Lemma segment_run o s : let g := segment_at o in headers (b_mem s) -> (b_busy s < wait)%nat -> 0 <= o -> o + 32 <= 4096 -> fits g ->
  exists s', load_segment fuel wait (0x10000 + o) s = Ok () s' /\ (b_busy s' < wait)%nat /\ loaded (b_mem s') g /\
    (forall a, a < sg_low g \/ sg_high g <= a -> b_mem s' a = b_mem s a).
Proof.
  intros g Hh Hb H0 Ho (F0 & F1 & F2 & F3). pose proof (img32_range (o + 4)) as R1. pose proof (img32_range (o + 12)) as R2. pose proof (img32_range (o + 16)) as R3. pose proof (img32_range (o + 20)) as R4.
  unfold sg_low, sg_end, SECTSIZE in *. change (sg_off g) with (img32 (o + 4)) in *. change (sg_paddr g) with (img32 (o + 12)) in *. change (sg_filesz g) with (img32 (o + 16)) in *. change (sg_memsz g) with (img32 (o + 20)) in *.
  unfold is_u32 in *. pose proof (Z.mod_pos_bound (img32 (o + 4)) 512 ltac:(lia)) as Hm.
  unfold load_segment. replace (0x10000 + o + 12) with (0x10000 + (o + 12)) by lia. replace (0x10000 + o + 16) with (0x10000 + (o + 16)) by lia. replace (0x10000 + o + 4) with (0x10000 + (o + 4)) by lia. replace (0x10000 + o + 20) with (0x10000 + (o + 20)) by lia.
  rewrite (Ok_bind _ _ _ _ _ (peek32_run s (o + 12) Hh ltac:(lia) ltac:(lia))), (Ok_bind _ _ _ _ _ (peek32_run s (o + 16) Hh ltac:(lia) ltac:(lia))), (Ok_bind _ _ _ _ _ (peek32_run s (o + 4) Hh ltac:(lia) ltac:(lia))).
  destruct (readseg_run fuel (img32 (o + 12)) (img32 (o + 16)) (img32 (o + 4)) s) as (s1 & E1 & Hb1 & Hin & Hout); unfold SECTSIZE in *; [exact F0|done|done|lia|lia|lia|].
  rewrite (Ok_bind _ _ _ _ _ E1). assert (headers (b_mem s1)) as Hh1 by (intros k Hk; rewrite Hout by lia; by apply Hh).
  rewrite (Ok_bind _ _ _ _ _ (peek32_run s1 (o + 20) Hh1 ltac:(lia) ltac:(lia))), (Ok_bind _ _ _ _ _ (peek32_run s1 (o + 16) Hh1 ltac:(lia) ltac:(lia))).
  unfold loaded, sg_high, sg_end, SECTSIZE. change (sg_off g) with (img32 (o + 4)). change (sg_paddr g) with (img32 (o + 12)). change (sg_filesz g) with (img32 (o + 16)). change (sg_memsz g) with (img32 (o + 20)).
  destruct (Z.ltb_spec (img32 (o + 16)) (img32 (o + 20))) as [Hlt|Hge]; cbn [when].
  - eexists. split; [unfold stosb, modify; reflexivity|]. split; [exact Hb1|]. rewrite u32_small by (unfold is_u32; lia). unfold set_bmem. cbn [b_mem]. split; [split; intros k Hk|intros a Ha].
    + destruct (Z.leb_spec (img32 (o + 12) + img32 (o + 16)) (img32 (o + 12) + k)); [lia|]. cbn. rewrite Hin by lia. f_equal. lia.
    + by rewrite (proj2 (Z.leb_le _ _)), (proj2 (Z.ltb_lt _ _)) by lia.
    + destruct (Z.leb_spec (img32 (o + 12) + img32 (o + 16)) a), (Z.ltb_spec a (img32 (o + 12) + img32 (o + 16) + (img32 (o + 20) - img32 (o + 16)))); cbn; [lia|apply Hout; lia..].
  - exists s1. split; [done|]. split; [exact Hb1|]. split; [split; intros k Hk; [rewrite Hin by lia; f_equal; lia|lia]|]. intros a Ha. apply Hout. lia.
Qed.

Lemma load_loop_run n : forall o s, headers (b_mem s) -> (b_busy s < wait)%nat -> 0 <= o -> o + 32 * Z.of_nat n <= 4096 ->
  let gs := (fun i => segment_at (o + 32 * i)) <$> seqZ 0 (Z.of_nat n) in Forall fits gs -> ForallOrdPairs apart gs ->
  exists s', load_loop n fuel wait (0x10000 + o) s = Ok () s' /\ headers (b_mem s') /\ Forall (loaded (b_mem s')) gs /\
    (forall a, (forall g, g ∈ gs -> a < sg_low g \/ sg_high g <= a) -> b_mem s' a = b_mem s a).
Proof.
  induction n as [|n IH]; intros o s Hh Hb H0 Ho gs Hfit Hord.
  - exists s. split; [done|]. split; [done|]. split; [constructor|done].
  - assert (gs = segment_at o :: ((fun i => segment_at (o + 32 + 32 * i)) <$> seqZ 0 (Z.of_nat n))) as Egs.
    { unfold gs. rewrite Nat2Z.inj_succ, seqZ_cons by lia. rewrite Z.pred_succ. cbn [fmap list_fmap]. f_equal; [f_equal; lia|].
      change (Z.succ 0) with (1 + 0). rewrite <- (fmap_add_seqZ 1 0 (Z.of_nat n)). rewrite <- list_fmap_compose. apply list_fmap_ext. intros i x _. cbn. f_equal. lia. }
    clearbody gs. subst gs. apply Forall_cons in Hfit as [Hf Hfs]. inversion Hord as [|? ? Hap Hord' E1]; subst. cbn [load_loop].
    destruct (segment_run o s Hh Hb H0 ltac:(lia) Hf) as (s1 & E & Hb1 & Hl1 & Hout1). rewrite (Ok_bind _ _ _ _ _ E).
    assert (headers (b_mem s1)) as Hh1 by (destruct Hf as (_ & Hlow & _); by apply (headers_kept (b_mem s) _ (segment_at o))).
    destruct (IH (o + 32) s1 Hh1 Hb1 ltac:(lia) ltac:(lia) Hfs Hord') as (s' & E' & Hh' & Hl' & Hout'). replace (0x10000 + o + 32) with (0x10000 + (o + 32)) by lia.
    exists s'. split; [exact E'|]. split; [exact Hh'|]. split.
    + constructor; [|exact Hl']. rewrite List.Forall_forall in Hap. assert (forall k, 0 <= k < Z.max (sg_filesz (segment_at o)) (sg_memsz (segment_at o)) -> b_mem s' (sg_paddr (segment_at o) + k) = b_mem s1 (sg_paddr (segment_at o) + k)) as Hk.
      { intros k Hk. apply Hout'. intros g Hg. apply list_elem_of_In in Hg. destruct (Hap g Hg) as [Ha|Ha]; unfold sg_end in Ha; lia. }
      pose proof (img32_range (o + 16)) as R. unfold is_u32 in R. change (img32 (o + 16)) with (sg_filesz (segment_at o)) in R.
      destruct Hl1 as [L1 L2]. split; intros k Hkr; rewrite Hk by lia; [by apply L1|by apply L2].
    + intros a Ha. rewrite Hout' by (intros g Hg; apply Ha; by right). apply Hout1. apply Ha. by left.
Qed.

(** C21: The boot loader loads the kernel.  If the file on the disk is an ELF
    file whose headers lie in its first page, whose segments lie above the
    loader's scratch page, and of which no segment is written over by the whole
    sectors read for a later one, then the loader jumps to the file's entry point
    with every segment in memory at its physical address, the bytes of the file
    followed by zeros; a file that is not ELF makes it return. *)
Theorem bootmain_loads (s : bst) : (b_busy s < wait)%nat -> (10 <= fuel)%nat ->
  (img32 0 <> ELF_MAGIC -> exists s', bootmain fuel wait s = Ok None s') /\
  (img32 0 = ELF_MAGIC -> img32 28 + 32 * img16 44 <= 4096 -> Forall fits segments -> ForallOrdPairs apart segments ->
    exists s', bootmain fuel wait s = Ok (Some (img32 24)) s' /\ Forall (loaded (b_mem s')) segments).
Proof.
  intros Hb Hf. destruct (readseg_run fuel 0x10000 4096 0 s) as (s1 & E & Hb1 & Hin & _); [change (Z.to_nat (4096 / SECTSIZE + 2)) with 10%nat; lia|done|split; unfold two32; lia|by vm_compute|lia|by vm_compute|].
  assert (headers (b_mem s1)) as Hh by (intros o Ho; rewrite Hin by lia; f_equal; lia). unfold bootmain. cbv zeta. rewrite !(Ok_bind _ _ _ _ _ E). pose proof (peek32_run s1 0 Hh ltac:(lia) ltac:(lia)) as P0. rewrite Z.add_0_r in P0. rewrite !(Ok_bind _ _ _ _ _ P0).
  split; intros Hmagic.
  - rewrite (proj2 (Z.eqb_neq _ _) Hmagic). by exists s1.
  - intros Hph Hfit Hord. rewrite Hmagic, Z.eqb_refl. cbn [negb]. assert (0 <= img16 44) as H44.
    { unfold img16. pose proof (image_bytes 44). pose proof (image_bytes (44 + 1)). lia. }
    pose proof (img32_range 28) as R28. unfold is_u32 in R28. rewrite (Ok_bind _ _ _ _ _ (peek32_run s1 28 Hh ltac:(lia) ltac:(lia))), (Ok_bind _ _ _ _ _ (peek16_run s1 44 Hh ltac:(lia) ltac:(lia))).
    unfold segments in *. rewrite <- (Z2Nat.id (img16 44) H44) in Hfit, Hord, Hph |- *. rewrite Nat2Z.id.
    destruct (load_loop_run (Z.to_nat (img16 44)) (img32 28) s1 Hh Hb1 ltac:(lia) Hph Hfit Hord) as (s2 & E2 & Hh2 & Hl2 & _). rewrite (Ok_bind _ _ _ _ _ E2).
    rewrite (Ok_bind _ _ _ _ _ (peek32_run s2 24 Hh2 ltac:(lia) ltac:(lia))). by exists s2.
Qed.
End machine.

(** ** A kernel of two segments *)

Definition le32 (z : Z) : list Z := [z mod 256; z / 256 mod 256; z / 65536 mod 256; z / 16777216 mod 256].
Definition demo_header : list Z :=
  le32 ELF_MAGIC ++ replicate 20 0 ++ le32 0x10000C ++ le32 52 ++ replicate 12 0 ++ [2; 0] ++ replicate 6 0 ++
  (le32 1 ++ le32 512 ++ le32 0 ++ le32 0x100000 ++ le32 3 ++ le32 6 ++ le32 0 ++ le32 0) ++
  (le32 1 ++ le32 600 ++ le32 0 ++ le32 0x101000 ++ le32 2 ++ le32 2 ++ le32 0 ++ le32 0).
Definition demo_file : list Z := demo_header ++ replicate 396 0 ++ [7; 8; 9] ++ replicate 85 0 ++ [10; 11].
Definition demo_image (o : Z) : Z := if o <? 0 then 0 else nth (Z.to_nat o) demo_file 0.
Definition demo_disk (k j : Z) : Z := demo_image (SECTSIZE * (k - 1) + j).

Lemma demo_image_bytes o : 0 <= demo_image o < 256.
Proof.
  unfold demo_image. destruct (o <? 0); [lia|]. assert (forallb (fun b => (0 <=? b) && (b <? 256)) demo_file = true) as H by (by vm_compute).
  rewrite forallb_forall in H. destruct (nth_in_or_default (Z.to_nat o) demo_file 0) as [Hin| ->]; [|lia]. apply H in Hin. cbv beta in Hin. rewrite andb_true_iff, Z.leb_le, Z.ltb_lt in Hin. lia.
Qed.

Lemma bootmain_loads_witness : exists s', bootmain demo_disk (fun k => Z.to_nat (k mod 3)) 10 4 (BSt (fun _ => 0xCC) (fun _ => 0) 2) = Ok (Some 0x10000C) s' /\
  Forall (loaded demo_image (b_mem s')) [Segment 512 0x100000 3 6; Segment 600 0x101000 2 2].
Proof.
  assert (segments demo_image = [Segment 512 0x100000 3 6; Segment 600 0x101000 2 2]) as Eg by (by vm_compute).
  pose proof (bootmain_loads demo_disk (fun k => Z.to_nat (k mod 3)) 4) as H.
  destruct (H ltac:(intros l; cbv beta; pose proof (Z.mod_pos_bound l 3 ltac:(lia)); lia) demo_image ltac:(done) demo_image_bytes 10%nat (BSt (fun _ => 0xCC) (fun _ => 0) 2)) as [_ H2]; [cbn; lia|lia|].
  rewrite Eg in H2. change (img32 demo_image 24) with 0x10000C in H2. apply H2.
  - by vm_compute.
  - by vm_compute.
  - repeat constructor; by vm_compute.
  - constructor; [constructor; [left; vm_compute; discriminate|constructor]|]. repeat constructor.
Defined.
