(* ===== verification/Mp.v ===== *)
(** * Finding the processors ([mp.c], [mp.h])

    The search of the BIOS's memory for the multiprocessor structures, with their
    checksums, and the walk over the configuration table, which fills in the
    array of CPUs.  Addresses are physical; the kernel reads them through
    [P2V]. *)

From S2P Require Import Prelude Mmu.

(** ** The program *)

Record mpst := MpSt { ms_apicids : list Z; ms_ioapicid : Z; ms_lapic : Z; ms_imcr : bool }.
Definition add_cpu (id : Z) (s : mpst) : mpst := MpSt (ms_apicids s ++ [id]) (ms_ioapicid s) (ms_lapic s) (ms_imcr s).
Definition set_ioapicid (id : Z) (s : mpst) : mpst := MpSt (ms_apicids s) id (ms_lapic s) (ms_imcr s).
Definition set_lapic (a : Z) (s : mpst) : mpst := MpSt (ms_apicids s) (ms_ioapicid s) a (ms_imcr s).
Definition set_imcr (s : mpst) : mpst := MpSt (ms_apicids s) (ms_ioapicid s) (ms_lapic s) true.

Definition MPPROC : Z := 0.
Definition MPBUS : Z := 1.
Definition MPIOAPIC : Z := 2.
Definition MPIOINTR : Z := 3.
Definition MPLINTR : Z := 4.

(** Sizes of [struct mp], [mpconf], [mpproc] and [mpioapic]. *)
Definition MP : Z := 16.
Definition MPCONF : Z := 44.
Definition MPPROC_SIZE : Z := 20.
Definition MPIOAPIC_SIZE : Z := 8.

Section memory.
Context (mem : Z -> Z).

Definition mem16 (a : Z) : Z := mem a + 2 ^ 8 * mem (a + 1).
Definition mem32 (a : Z) : Z := mem16 a + 2 ^ 16 * mem16 (a + 2).

(** The sum is kept in an [int] and returned as a [uchar]. *)
Definition sum (addr len : Z) : Z := foldl (fun sum i => sum + mem (addr + i)) 0 (seqZ 0 len) mod 256.
Definition memcmp4 (a c0 c1 c2 c3 : Z) : bool := (mem a =? c0) && (mem (a + 1) =? c1) && (mem (a + 2) =? c2) && (mem (a + 3) =? c3).

(** [memcmp(p, "_MP_", 4) == 0 && sum(p, sizeof(struct mp)) == 0] *)
Definition is_mp (p : Z) : bool := memcmp4 p 95 77 80 95 && (sum p MP =? 0).

(** [n] steps of [sizeof(struct mp)] cover the [len] bytes. *)
Fixpoint mpsearch1_loop (n : nat) (p : Z) : option Z :=
  match n with O => None | S n' => if is_mp p then Some p else mpsearch1_loop n' (p + MP) end.
Definition mpsearch1 (a len : Z) : option Z := mpsearch1_loop (Z.to_nat ((len + MP - 1) / MP)) a.

Definition mpsearch : option Z :=
  let bda := 0x400 in
  let p := Z.shiftl (Z.lor (Z.shiftl (mem (bda + 0x0F)) 8) (mem (bda + 0x0E))) 4 in
  let rom := mpsearch1 0xF0000 0x10000 in
  if negb (p =? 0) then
    match mpsearch1 p 1024 with Some mp => Some mp | None => rom end
  else
    let p := Z.lor (Z.shiftl (mem (bda + 0x14)) 8) (mem (bda + 0x13)) * 1024 in
    match mpsearch1 (u32 (p - 1024)) 1024 with Some mp => Some mp | None => rom end.

(** The structure and its configuration table. *)
Definition mpconfig : option (Z * Z) :=
  match mpsearch with
  | None => None
  | Some mp =>
      let conf := mem32 (mp + 4) in
      if conf =? 0 then None else
      if negb (memcmp4 conf 80 67 77 80) then None else
      if negb (mem (conf + 6) =? 1) && negb (mem (conf + 6) =? 4) then None else
      if negb (sum conf (mem16 (conf + 4)) =? 0) then None else Some (mp, conf)
  end.

(** The loop over the table; [break] in its default case leaves the [switch],
    not the loop, and [p] where it is. *)
Fixpoint mp_loop (fuel : nat) (p e : Z) (ismp : bool) : M mpst bool :=
  if p <? e then
    match fuel with
    | O => nofuel
    | S fuel' =>
        let t := mem p in
        if t =? MPPROC then
          s ← get;
          when (Z.of_nat (length (ms_apicids s)) <? NCPU) (modify (add_cpu (mem (p + 1))));;
          mp_loop fuel' (p + MPPROC_SIZE) e ismp
        else if t =? MPIOAPIC then
          modify (set_ioapicid (mem (p + 1)));;
          mp_loop fuel' (p + MPIOAPIC_SIZE) e ismp
        else if (t =? MPBUS) || (t =? MPIOINTR) || (t =? MPLINTR) then mp_loop fuel' (p + 8) e ismp
        else mp_loop fuel' p e false
    end
  else mret ismp.

Definition mpinit (fuel : nat) : M mpst () :=
  match mpconfig with
  | None => panic "Expect to run on an SMP"
  | Some (mp, conf) =>
      modify (set_lapic (mem32 (conf + 36)));;
      ismp ← mp_loop fuel (conf + MPCONF) (conf + mem16 (conf + 4)) true;
      if negb ismp then panic "Didn't find a suitable machine" else
      when (negb (mem (mp + 12) =? 0)) (modify set_imcr)
  end.

(** ** The search *)

Lemma mpsearch1_loop_first n : forall p, match mpsearch1_loop n p with
  | Some q => exists i, 0 <= i < Z.of_nat n /\ q = p + MP * i /\ is_mp q = true /\ forall j, 0 <= j < i -> is_mp (p + MP * j) = false
  | None => forall j, 0 <= j < Z.of_nat n -> is_mp (p + MP * j) = false
  end.
Proof.
  unfold MP. induction n as [|n IH]; intros p; cbn [mpsearch1_loop]; [intros j Hj; lia|]. destruct (is_mp p) eqn:E.
  - exists 0. rewrite Z.mul_0_r, Z.add_0_r. split; [lia|]. split; [done|]. split; [done|]. intros j Hj. lia.
  - unfold MP. specialize (IH (p + 16)). assert (forall j, p + 16 * j = if decide (j = 0) then p else p + 16 + 16 * (j - 1)) as Hj by (intros j; case_decide; subst; lia).
    destruct (mpsearch1_loop n (p + 16)) as [q|].
    + destruct IH as (i & Hi & -> & Hq & Hmin). exists (i + 1). split; [lia|]. split; [lia|]. split; [exact Hq|].
      intros j Hjr. rewrite Hj. case_decide; [done|]. apply Hmin. lia.
    + intros j Hjr. rewrite Hj. case_decide; [done|]. apply IH. lia.
Qed.

Lemma mpsearch1_sound a len q : mpsearch1 a len = Some q -> is_mp q = true.
Proof.
  unfold mpsearch1. intros E. pose proof (mpsearch1_loop_first (Z.to_nat ((len + MP - 1) / MP)) a) as H. rewrite E in H. by destruct H as (i & _ & _ & Hq & _).
Qed.

Lemma mpsearch_sound q : mpsearch = Some q -> is_mp q = true.
Proof.
  unfold mpsearch. cbv zeta. set (p := Z.shiftl _ 4). destruct (negb (p =? 0)).
  - destruct (mpsearch1 p 1024) as [x|] eqn:E; [intros [= <-]; by eapply mpsearch1_sound|apply mpsearch1_sound].
  - set (p' := u32 _). destruct (mpsearch1 p' 1024) as [x|] eqn:E; [intros [= <-]; by eapply mpsearch1_sound|apply mpsearch1_sound].
Qed.

Lemma mpconfig_sound mp conf : mpconfig = Some (mp, conf) -> is_mp mp = true /\ conf = mem32 (mp + 4) /\ sum conf (mem16 (conf + 4)) = 0.
Proof.
  unfold mpconfig. destruct mpsearch as [m|] eqn:E; [|done]. destruct (mem32 (m + 4) =? 0); [done|]. destruct (negb (memcmp4 _ _ _ _ _)); [done|]. destruct (negb _ && negb _); [done|].
  destruct (Z.eqb_spec (sum (mem32 (m + 4)) (mem16 (mem32 (m + 4) + 4))) 0); [|done]. cbn [negb]. intros [= <- <-]. split; [by apply mpsearch_sound|done].
Qed.

(** ** The table *)

(** An entry with what follows its type and, for processors and I/O APICs, its
    identifier. *)
Inductive entry := Processor (id : Z) (rest : list Z) | Ioapic (id : Z) (rest : list Z) | Other (t : Z) (rest : list Z).
Definition entry_ok (x : entry) : Prop :=
  match x with
  | Processor _ rest => length rest = 18%nat
  | Ioapic _ rest => length rest = 6%nat
  | Other t rest => (t = MPBUS \/ t = MPIOINTR \/ t = MPLINTR) /\ length rest = 7%nat
  end.
Definition entry_bytes (x : entry) : list Z :=
  match x with Processor id rest => MPPROC :: id :: rest | Ioapic id rest => MPIOAPIC :: id :: rest | Other t rest => t :: rest end.
Definition table_bytes (xs : list entry) : list Z := xs ≫= entry_bytes.

Definition cpu_ids (xs : list entry) : list Z := xs ≫= fun x => match x with Processor id _ => [id] | _ => [] end.
Definition io_id (xs : list entry) (id : Z) : Z := foldl (fun id x => match x with Ioapic id' _ => id' | _ => id end) id xs.

(** Bytes in memory. *)
Definition holds (a : Z) (bs : list Z) : Prop := forall k b, bs !! k = Some b -> mem (a + Z.of_nat k) = b.

Lemma holds_app a bs cs : holds a (bs ++ cs) -> holds a bs /\ holds (a + Z.of_nat (length bs)) cs.
Proof.
  intros H. split; intros k b E.
  - apply H. by apply lookup_app_l_Some.
  - rewrite <- Z.add_assoc, <- Nat2Z.inj_add. apply H. rewrite lookup_app_r by lia. by replace (length bs + k - length bs)%nat with k by lia.
Qed.

Lemma holds_cons a b bs : holds a (b :: bs) -> mem a = b /\ holds (a + 1) bs.
Proof.
  intros H. split; [rewrite <- (H 0%nat b eq_refl); f_equal; lia|]. intros k c E. rewrite <- (H (S k) c E). f_equal. lia.
Qed.

Definition after (xs : list entry) (s : mpst) : mpst :=
  MpSt (take (Z.to_nat NCPU) (ms_apicids s ++ cpu_ids xs)) (io_id xs (ms_ioapicid s)) (ms_lapic s) (ms_imcr s).

(** One entry after the other, as long as they are known. *)
Lemma mp_loop_run xs : forall p e fuel s, Forall entry_ok xs -> holds p (table_bytes xs) -> p + Z.of_nat (length (table_bytes xs)) <= e -> (length (ms_apicids s) <= Z.to_nat NCPU)%nat ->
  mp_loop (length xs + fuel) p e true s = mp_loop fuel (p + Z.of_nat (length (table_bytes xs))) e true (after xs s).
Proof.
  induction xs as [|x xs IH]; intros p e fuel s Hok Hb He Hl.
  - unfold after. cbn [table_bytes mbind list_bind length Nat.add cpu_ids io_id foldl]. rewrite app_nil_r, take_ge by done. rewrite Z.add_0_r. by destruct s.
  - apply Forall_cons in Hok as [Hx Hxs]. change (table_bytes (x :: xs)) with (entry_bytes x ++ table_bytes xs) in *. apply holds_app in Hb as [Hb1 Hb2]. rewrite length_app, Nat2Z.inj_add in *.
    assert (1 <= Z.of_nat (length (entry_bytes x))) as Hpos by (destruct x; cbn; lia). cbn [length Nat.add mp_loop]. rewrite (proj2 (Z.ltb_lt p e)) by lia.
    destruct x as [id rest|id rest|t rest]; cbn [entry_bytes entry_ok] in *.
    + apply holds_cons in Hb1 as [-> [Hid _]%holds_cons]. change (MPPROC =? MPPROC) with true. cbv iota. rewrite Hid. cbn [length] in *. rewrite Hx in *. change (Z.of_nat 20) with 20 in *. unfold MPPROC_SIZE.
      set (s1 := if Z.of_nat (length (ms_apicids s)) <? NCPU then add_cpu id s else s).
      assert (when (Z.of_nat (length (ms_apicids s)) <? NCPU) (modify (add_cpu id)) s = Ok () s1) as E1 by (unfold s1; by destruct (_ <? _)).
      unfold get at 1. unfold mbind at 1, M_bind at 1, bindM at 1. rewrite (Ok_bind _ _ _ _ _ E1).
      rewrite (IH (p + 20)); [|done|done|lia|unfold s1; destruct (Z.ltb_spec (Z.of_nat (length (ms_apicids s))) NCPU); cbn; rewrite ?length_app; cbn; unfold NCPU in *; lia].
      replace (p + 20 + Z.of_nat (length (table_bytes xs))) with (p + (20 + Z.of_nat (length (table_bytes xs)))) by lia. f_equal. unfold after, s1. cbn [cpu_ids mbind list_bind app io_id foldl].
      destruct (Z.ltb_spec (Z.of_nat (length (ms_apicids s))) NCPU); cbn [add_cpu ms_apicids ms_ioapicid ms_lapic ms_imcr]; [by rewrite <- app_assoc|].
      f_equal. rewrite !take_app_le by (unfold NCPU in *; lia). done.
    + apply holds_cons in Hb1 as [-> [Hid _]%holds_cons]. change (MPIOAPIC =? MPPROC) with false. change (MPIOAPIC =? MPIOAPIC) with true. cbv iota. rewrite Hid. cbn [length] in *. rewrite Hx in *. change (Z.of_nat 8) with 8 in *. unfold MPIOAPIC_SIZE.
      unfold modify at 1. unfold mbind at 1, M_bind at 1, bindM at 1. rewrite (IH (p + 8)) by (done || lia).
      replace (p + 8 + Z.of_nat (length (table_bytes xs))) with (p + (8 + Z.of_nat (length (table_bytes xs)))) by lia. done.
    + destruct Hx as [Ht Hx]. apply holds_cons in Hb1 as [-> _]. cbn [length] in *. rewrite Hx in *. change (Z.of_nat 8) with 8 in *.
      assert ((t =? MPPROC) = false /\ (t =? MPIOAPIC) = false /\ (t =? MPBUS) || (t =? MPIOINTR) || (t =? MPLINTR) = true) as (-> & -> & ->) by (by destruct Ht as [->|[->| ->]]).
      rewrite (IH (p + 8)) by (done || lia). replace (p + 8 + Z.of_nat (length (table_bytes xs))) with (p + (8 + Z.of_nat (length (table_bytes xs)))) by lia. done.
Qed.

(** The kernel finds the processors.  When [mpconfig] has accepted a table,
    which it does only for structures whose checksums are zero, and the table
    consists of entries of the five known types, [mpinit] returns after one turn
    per entry, with the local APIC identifiers of the processors in the table's
    order, at most [NCPU] of them, the last I/O APIC's identifier, and the address
    of the local APIC. *)
Theorem mpinit_finds (fuel : nat) (mp conf : Z) (xs : list entry) (s : mpst) : mpconfig = Some (mp, conf) -> Forall entry_ok xs ->
  holds (conf + MPCONF) (table_bytes xs) -> mem16 (conf + 4) = MPCONF + Z.of_nat (length (table_bytes xs)) -> (length xs <= fuel)%nat -> ms_apicids s = [] ->
  (is_mp mp = true /\ conf = mem32 (mp + 4) /\ sum conf (mem16 (conf + 4)) = 0) /\
  exists s', mpinit fuel s = Ok () s' /\ ms_apicids s' = take (Z.to_nat NCPU) (cpu_ids xs) /\ ms_ioapicid s' = io_id xs (ms_ioapicid s) /\ ms_lapic s' = mem32 (conf + 36).
Proof.
  intros Hc Hok Hb Hl Hf Hs. split; [by apply mpconfig_sound|]. unfold mpinit. rewrite Hc. set (s1 := set_lapic (mem32 (conf + 36)) s).
  rewrite (Ok_bind (modify (set_lapic (mem32 (conf + 36)))) _ s () s1 eq_refl), Hl.
  assert (mp_loop fuel (conf + MPCONF) (conf + (MPCONF + Z.of_nat (length (table_bytes xs)))) true s1 = Ok true (after xs s1)) as E.
  { replace fuel with (length xs + (fuel - length xs))%nat by lia. rewrite mp_loop_run; [|done|done|lia|unfold s1; cbn; rewrite Hs; cbn; lia].
    destruct (fuel - length xs)%nat; cbn [mp_loop]; by rewrite (proj2 (Z.ltb_ge _ _)) by lia. }
  rewrite (Ok_bind _ _ _ _ _ E). cbn [negb]. unfold after, s1. cbn [set_lapic ms_apicids ms_ioapicid ms_lapic ms_imcr]. rewrite Hs. cbn [app].
  destruct (negb (mem (mp + 12) =? 0)); cbn [when]; eexists; (split; [reflexivity|]); done.
Qed.

(** An entry of any other type keeps the loop where it is for ever: the panic
    after the loop is never reached. *)
Theorem mp_unknown_hangs (fuel : nat) (p e : Z) (ismp : bool) (s : mpst) : p < e ->
  mem p <> MPPROC -> mem p <> MPIOAPIC -> mem p <> MPBUS -> mem p <> MPIOINTR -> mem p <> MPLINTR -> mp_loop fuel p e ismp s = NoFuel.
Proof.
  intros Hp H1 H2 H3 H4 H5. revert ismp. induction fuel as [|fuel IH]; intros ismp; cbn [mp_loop]; rewrite (proj2 (Z.ltb_lt p e) Hp); [done|].
  rewrite (proj2 (Z.eqb_neq _ _) H1), (proj2 (Z.eqb_neq _ _) H2), (proj2 (Z.eqb_neq _ _) H3), (proj2 (Z.eqb_neq _ _) H4), (proj2 (Z.eqb_neq _ _) H5). apply IH.
Qed.
End memory.

Lemma holds_check mem a bs : (fun k => mem (a + Z.of_nat k)) <$> seq 0 (length bs) = bs -> holds mem a bs.
Proof.
  intros H k b E. rewrite <- H in E. apply list_lookup_fmap_Some in E as (i & -> & [-> _]%lookup_seq). done.
Qed.

(** A machine with two processors, whose structure is in the BIOS ROM. *)
Definition demo_entries : list entry := [Processor 0 (replicate 18 1); Processor 4 (replicate 18 0); Other MPBUS (replicate 7 0); Ioapic 2 (replicate 6 0)].
Definition demo_mp : list Z := [95; 77; 80; 95; 0; 0; 1; 0; 1; 4; 159; 0; 0; 0; 0; 0].
Definition demo_conf : list Z := [80; 67; 77; 80; 100; 0; 4; 111] ++ replicate 28 0 ++ [0; 0; 0xE0; 0xFE] ++ replicate 4 0 ++ table_bytes demo_entries.
Definition demo_bios (a : Z) : Z :=
  if (0xF0010 <=? a) && (a <? 0xF0020) then nth (Z.to_nat (a - 0xF0010)) demo_mp 0
  else if (0x10000 <=? a) && (a <? 0x10000 + 100) then nth (Z.to_nat (a - 0x10000)) demo_conf 0 else 0.

Lemma mpinit_finds_witness : exists s', mpinit demo_bios 4 (MpSt [] 0 0 false) = Ok () s' /\ ms_apicids s' = [0; 4] /\ ms_ioapicid s' = 2 /\ ms_lapic s' = 0xFEE00000.
Proof.
  destruct (mpinit_finds demo_bios 4 0xF0010 0x10000 demo_entries (MpSt [] 0 0 false)) as [_ (s' & E & H1 & H2 & H3)].
  - by vm_compute.
  - repeat constructor.
  - apply holds_check. by vm_compute.
  - by vm_compute.
  - cbn. lia.
  - done.
  - exists s'. split; [exact E|]. rewrite H1, H2, H3. vm_compute. auto.
Defined.
