(* ===== verification/Devices.v ===== *)
(** * Interrupt controllers and the clock ([lapic.c], [ioapic.c])

    The local APIC and the I/O APIC as files of registers, and the real-time
    clock, whose registers can only be read one after the other while it runs. *)

From S2P Require Import Prelude Mmu Seg.

(** ** The local APIC *)

(** Registers by index, written in order; [None] for [lapic] before [mpinit]. *)
Definition ID : Z := 0x0020 / 4.
Definition VER : Z := 0x0030 / 4.
Definition TPR : Z := 0x0080 / 4.
Definition EOI : Z := 0x00B0 / 4.
Definition SVR : Z := 0x00F0 / 4.
Definition ENABLE : Z := 0x100.
Definition ESR : Z := 0x0280 / 4.
Definition ICRLO : Z := 0x0300 / 4.
Definition INIT : Z := 0x500.
Definition STARTUP : Z := 0x600.
Definition DELIVS : Z := 0x1000.
Definition ASSERT : Z := 0x4000.
Definition LEVEL : Z := 0x8000.
Definition BCAST : Z := 0x80000.
Definition ICRHI : Z := 0x0310 / 4.
Definition TIMER : Z := 0x0320 / 4.
Definition X1 : Z := 0xB.
Definition PERIODIC : Z := 0x20000.
Definition PCINT : Z := 0x0340 / 4.
Definition LINT0 : Z := 0x0350 / 4.
Definition LINT1 : Z := 0x0360 / 4.
Definition ERROR : Z := 0x0370 / 4.
Definition MASKED : Z := 0x10000.
Definition TICR : Z := 0x0380 / 4.
Definition TDCR : Z := 0x03E0 / 4.

(** The registers, how many more reads of [ICRLO] show a message on its way, and
    the messages sent to other processors: destination and command; then the bytes
    of the CMOS, and the warm-reset vector at 0x467. *)
Record apic := Apic { a_regs : Z -> Z; a_pending : nat; a_sent : list (Z * Z); a_cmos : Z -> Z; a_wrv : Z * Z }.

Section lapic.
(** How long a message takes. *)
Context (latency : nat).

Definition wrote (index value : Z) (s : apic) : apic :=
  Apic (fun i => if i =? index then u32 value else a_regs s i)
    (if index =? ICRLO then latency else a_pending s)
    (if index =? ICRLO then a_sent s ++ [(a_regs s ICRHI / 2 ^ 24, u32 value)] else a_sent s) (a_cmos s) (a_wrv s).
Definition lapicw (index value : Z) : M apic () := modify (wrote index value).
Definition lapicr (index : Z) : M apic Z := fun s =>
  if index =? ICRLO then
    match a_pending s with
    | O => Ok (a_regs s ICRLO) s
    | S n => Ok (Z.lor (a_regs s ICRLO) DELIVS) (Apic (a_regs s) n (a_sent s) (a_cmos s) (a_wrv s))
    end
  else Ok (a_regs s index) s.

(** [while(lapic[ICRLO] & DELIVS);] *)
Fixpoint wait_delivs (fuel : nat) : M apic () :=
  match fuel with
  | O => nofuel
  | S fuel' => v ← lapicr ICRLO; if has v DELIVS then wait_delivs fuel' else mret ()
  end.

Definition lapicinit (present : bool) (fuel : nat) : M apic () :=
  if negb present then mret () else
  lapicw SVR (Z.lor ENABLE (T_IRQ0 + IRQ_SPURIOUS));;
  lapicw TDCR X1;;
  lapicw TIMER (Z.lor PERIODIC (T_IRQ0 + IRQ_TIMER));;
  lapicw TICR 10000000;;
  lapicw LINT0 MASKED;;
  lapicw LINT1 MASKED;;
  ver ← lapicr VER;
  when (4 <=? Z.land (Z.shiftr ver 16) 0xFF) (lapicw PCINT MASKED);;
  lapicw ERROR (T_IRQ0 + IRQ_ERROR);;
  lapicw ESR 0;;
  lapicw ESR 0;;
  lapicw EOI 0;;
  lapicw ICRHI 0;;
  lapicw ICRLO (Z.lor (Z.lor BCAST INIT) LEVEL);;
  wait_delivs fuel;;
  lapicw TPR 0.

Definition lapicid (present : bool) : M apic Z := if negb present then mret 0 else id ← lapicr ID; mret (Z.shiftr id 24).
Definition lapiceoi (present : bool) : M apic () := when present (lapicw EOI 0).

(** A processor that INIT resets finds its code through the warm-reset vector when
    the CMOS holds 0x0A; later ones take the address from the startup message. *)
Definition warm_reset (addr : Z) (s : apic) : apic :=
  Apic (a_regs s) (a_pending s) (a_sent s) (fun i => if i =? 0xF then 0x0A else a_cmos s i) (0, Z.shiftr addr 4 mod 65536).
Definition lapicstartap (apicid addr : Z) : M apic () :=
  modify (warm_reset addr);;
  lapicw ICRHI (Z.shiftl apicid 24);;
  lapicw ICRLO (Z.lor (Z.lor INIT LEVEL) ASSERT);;
  lapicw ICRLO (Z.lor INIT LEVEL);;
  forM [0; 1] (fun _ => lapicw ICRHI (Z.shiftl apicid 24);; lapicw ICRLO (Z.lor STARTUP (Z.shiftr addr 12))).
End lapic.

(** Where a processor starts that gets a startup message. *)
Definition startup_address (command : Z) : option Z := if Z.land command 0x700 =? STARTUP then Some (Z.shiftl (Z.land command 0xFF) 12) else None.

(** ** The I/O APIC *)

Definition REG_ID : Z := 0.
Definition REG_VER : Z := 1.
Definition REG_TABLE : Z := 0x10.
Definition INT_DISABLED : Z := 0x10000.

Record ioapic := IoApic { io_reg : Z; io_regs : Z -> Z }.
Definition ioapicread (reg : Z) : M ioapic Z := fun s => let s := IoApic reg (io_regs s) in Ok (io_regs s (io_reg s)) s.
Definition ioapicwrite (reg data : Z) : M ioapic () := fun s =>
  let s := IoApic reg (io_regs s) in Ok () (IoApic (io_reg s) (fun i => if i =? io_reg s then u32 data else io_regs s i)).

Definition ioapicinit : M ioapic () :=
  ver ← ioapicread REG_VER;
  let maxintr := Z.land (Z.shiftr ver 16) 0xFF in
  _ ← ioapicread REG_ID;
  forM (seqZ 0 (maxintr + 1)) (fun i =>
    ioapicwrite (REG_TABLE + 2 * i) (Z.lor INT_DISABLED (T_IRQ0 + i));;
    ioapicwrite (REG_TABLE + 2 * i + 1) 0).
Definition ioapicenable (irq cpunum : Z) : M ioapic () :=
  ioapicwrite (REG_TABLE + 2 * irq) (T_IRQ0 + irq);;
  ioapicwrite (REG_TABLE + 2 * irq + 1) (Z.shiftl cpunum 24).

(** What the I/O APIC does with an interrupt line: nothing, or vector and
    destination. *)
Definition route (s : ioapic) (irq : Z) : option (Z * Z) :=
  let lo := io_regs s (REG_TABLE + 2 * irq) in
  if has lo INT_DISABLED then None else Some (bits lo 0 8, bits (io_regs s (REG_TABLE + 2 * irq + 1)) 24 8).

(** ** The clock *)

Definition CMOS_STATA : Z := 0x0a.
Definition CMOS_STATB : Z := 0x0b.
Definition CMOS_UIP : Z := Z.shiftl 1 7.
Definition SECS : Z := 0x00.
Definition MINS : Z := 0x02.
Definition HOURS : Z := 0x04.
Definition DAY : Z := 0x07.
Definition MONTH : Z := 0x08.
Definition YEAR : Z := 0x09.

Record rtcdate := RtcDate { second : Z; minute : Z; hour : Z; day : Z; month : Z; year : Z }.
#[global] Instance rtcdate_eq : EqDecision rtcdate.
Proof. solve_decision. Defined.

Definition CONV (x : Z) : Z := Z.shiftr x 4 * 10 + Z.land x 0xf.

Section clock.
(** The registers at each time; time is counted in reads. *)
Context (reg_at : nat -> Z -> Z).

Definition cmos_read (reg : Z) : M nat Z := fun n => Ok (reg_at n reg) (S n).
Definition fill_rtcdate : M nat rtcdate :=
  s ← cmos_read SECS; mi ← cmos_read MINS; h ← cmos_read HOURS; d ← cmos_read DAY; mo ← cmos_read MONTH; y ← cmos_read YEAR;
  mret (RtcDate s mi h d mo y).
Fixpoint cmos_loop (fuel : nat) : M nat rtcdate :=
  match fuel with
  | O => nofuel
  | S fuel' =>
      t1 ← fill_rtcdate;
      sta ← cmos_read CMOS_STATA;
      if has sta CMOS_UIP then cmos_loop fuel' else
      t2 ← fill_rtcdate;
      if bool_decide (t1 = t2) then mret t1 else cmos_loop fuel'
  end.
Definition cmostime (fuel : nat) : M nat rtcdate :=
  sb ← cmos_read CMOS_STATB;
  let bcd := Z.land sb (Z.shiftl 1 2) =? 0 in
  t1 ← cmos_loop fuel;
  let t1 := if bcd then RtcDate (CONV (second t1)) (CONV (minute t1)) (CONV (hour t1)) (CONV (day t1)) (CONV (month t1)) (CONV (year t1)) else t1 in
  mret (RtcDate (second t1) (minute t1) (hour t1) (day t1) (month t1) (year t1 + 2000)).

(** The date the clock has at each time, without the century, and how its
    registers show it: in binary, or one decimal digit in four bits. *)
Context (shows : nat -> rtcdate) (bcd : bool).
Definition encode (x : Z) : Z := if bcd then x / 10 * 16 + x mod 10 else x.
Definition two_digits (d : rtcdate) : Prop :=
  0 <= second d < 100 /\ 0 <= minute d < 100 /\ 0 <= hour d < 100 /\ 0 <= day d < 100 /\ 0 <= month d < 100 /\ 0 <= year d < 100.
Definition encoded (d : rtcdate) : rtcdate :=
  RtcDate (encode (second d)) (encode (minute d)) (encode (hour d)) (encode (day d)) (encode (month d)) (encode (year d)).

Record clock_ok : Prop := {
  ck_digits : forall n, two_digits (shows n);
  ck_secs : forall n, reg_at n SECS = encode (second (shows n));
  ck_mins : forall n, reg_at n MINS = encode (minute (shows n));
  ck_hours : forall n, reg_at n HOURS = encode (hour (shows n));
  ck_day : forall n, reg_at n DAY = encode (day (shows n));
  ck_month : forall n, reg_at n MONTH = encode (month (shows n));
  ck_year : forall n, reg_at n YEAR = encode (year (shows n));
  ck_mode : forall n, (Z.land (reg_at n CMOS_STATB) (Z.shiftl 1 2) =? 0) = bcd;
  (* at most one change within thirteen reads *)
  ck_slow : forall n, exists c, forall i, (i <= 12)%nat -> shows (n + i)%nat = if (i <? c)%nat then shows n else shows (n + 12)%nat;
}.

Lemma CONV_encode x : 0 <= x < 100 -> CONV (x / 10 * 16 + x mod 10) = x.
Proof.
  intros Hx. assert (forallb (fun x => CONV (x / 10 * 16 + x mod 10) =? x) (seqZ 0 100) = true) as H by (by vm_compute).
  rewrite forallb_forall in H. apply Z.eqb_eq, H, list_elem_of_In, elem_of_seqZ. lia.
Qed.

(** The six reads of [fill_rtcdate]. *)
Definition read_from (n : nat) : rtcdate :=
  RtcDate (encode (second (shows n))) (encode (minute (shows (n + 1)%nat))) (encode (hour (shows (n + 2)%nat))) (encode (day (shows (n + 3)%nat)))
    (encode (month (shows (n + 4)%nat))) (encode (year (shows (n + 5)%nat))).

Lemma fill_run n : clock_ok -> fill_rtcdate n = Ok (read_from n) (n + 6)%nat.
Proof.
  intros []. unfold fill_rtcdate, cmos_read, mbind, M_bind, bindM, mret, M_ret, read_from. rewrite ck_secs0, ck_mins0, ck_hours0, ck_day0, ck_month0, ck_year0.
  replace (S n) with (n + 1)%nat by lia. replace (S (n + 1)) with (n + 2)%nat by lia. replace (S (n + 2)) with (n + 3)%nat by lia. replace (S (n + 3)) with (n + 4)%nat by lia.
  replace (S (n + 4)) with (n + 5)%nat by lia. by replace (S (n + 5)) with (n + 6)%nat by lia.
Qed.

(** Two readings that agree are the date at the first or at the last read. *)
Lemma readings_agree n : clock_ok -> read_from n = read_from (n + 7) -> read_from n = encoded (shows n) \/ read_from n = encoded (shows (n + 12)%nat).
Proof.
  intros Hok E. destruct (ck_slow Hok n) as [c Hc]. destruct (decide (c <= 5)%nat) as [Hle|Hgt].
  - right. rewrite E. unfold read_from, encoded. rewrite <- !Nat.add_assoc. cbn [Nat.add].
    assert (forall i, (7 <= i <= 12)%nat -> shows (n + i)%nat = shows (n + 12)%nat) as Hn by (intros i Hi; rewrite Hc by lia; by rewrite (proj2 (Nat.ltb_ge i c)) by lia).
    by rewrite (Hn 7%nat), (Hn 8%nat), (Hn 9%nat), (Hn 10%nat), (Hn 11%nat) by lia.
  - left. unfold read_from, encoded. assert (forall i, (i <= 5)%nat -> shows (n + i)%nat = shows n) as Ho by (intros i Hi; rewrite Hc by lia; by rewrite (proj2 (Nat.ltb_lt i c)) by lia).
    by rewrite (Ho 1%nat), (Ho 2%nat), (Ho 3%nat), (Ho 4%nat), (Ho 5%nat) by lia.
Qed.

(** For twenty-six reads from [w] on the clock stands still and shows no update
    in progress. *)
Definition quiet (w : nat) : Prop := forall i, (i < 26)%nat -> shows (w + i)%nat = shows w /\ has (reg_at (w + i)%nat CMOS_STATA) CMOS_UIP = false.

Lemma cmos_loop_run w : clock_ok -> quiet w -> forall fuel n, (n <= w + 13)%nat -> (w + 14 - n <= fuel)%nat ->
  exists t n', cmos_loop fuel n = Ok (encoded (shows t)) n' /\ (n <= t < n')%nat /\ (n' <= w + 26)%nat.
Proof.
  intros Hok Hq. induction fuel as [|fuel IH]; intros n Hn Hf; [lia|]. cbn [cmos_loop]. rewrite (Ok_bind _ _ _ _ _ (fill_run n Hok)).
  unfold cmos_read at 1. unfold mbind at 1, M_bind at 1, bindM at 1. destruct (has (reg_at (n + 6)%nat CMOS_STATA) CMOS_UIP) eqn:Eu.
  - destruct (decide (w <= n)%nat) as [Hge|Hlt].
    + destruct (Hq (n + 6 - w)%nat ltac:(lia)) as [_ Hu]. replace (w + (n + 6 - w))%nat with (n + 6)%nat in Hu by lia. congruence.
    + destruct (IH (S (n + 6)) ltac:(lia) ltac:(lia)) as (t & n' & E & Ht & Hn'). exists t, n'. split; [exact E|]. lia.
  - replace (S (n + 6)) with (n + 7)%nat by lia. rewrite (Ok_bind _ _ _ _ _ (fill_run (n + 7) Hok)). destruct (bool_decide_reflect (read_from n = read_from (n + 7))) as [Heq|Hne].
    + destruct (readings_agree n Hok Heq) as [->| ->]; [exists n|exists (n + 12)%nat]; exists (n + 7 + 6)%nat; (split; [done|lia]).
    + destruct (decide (w <= n)%nat) as [Hge|Hlt].
      * exfalso. apply Hne. assert (forall i, (i <= 12)%nat -> shows (n + i)%nat = shows w) as Hs.
        { intros i Hi. destruct (Hq (n + i - w)%nat ltac:(lia)) as [Hs _]. by replace (w + (n + i - w))%nat with (n + i)%nat in Hs by lia. }
        unfold read_from. rewrite <- !Nat.add_assoc. cbn [Nat.add]. rewrite !Hs by lia. pose proof (Hs 0%nat ltac:(lia)) as H0. rewrite Nat.add_0_r in H0. by rewrite H0.
      * destruct (IH (n + 7 + 6)%nat ltac:(lia) ltac:(lia)) as (t & n' & E & Ht & Hn'). exists t, n'. split; [exact E|]. lia.
Qed.

End clock.

(** A clock in decimal digits that turns from 23:59:59 to midnight at its third
    read. *)
Definition demo_shows (n : nat) : rtcdate := if (n <? 3)%nat then RtcDate 59 59 23 31 12 18 else RtcDate 0 0 0 1 1 19.
Definition demo_regs (n : nat) (reg : Z) : Z :=
  let d := demo_shows n in
  if reg =? SECS then encode true (second d) else if reg =? MINS then encode true (minute d) else if reg =? HOURS then encode true (hour d) else
  if reg =? DAY then encode true (day d) else if reg =? MONTH then encode true (month d) else if reg =? YEAR then encode true (year d) else 0.

Lemma demo_clock_ok : clock_ok demo_regs demo_shows true.
Proof.
  split; try done.
  - intros n. unfold demo_shows. destruct (n <? 3)%nat; repeat split; cbn; lia.
  - intros n. exists (3 - n)%nat. intros i Hi. unfold demo_shows. destruct (Nat.ltb_spec (n + i) 3), (Nat.ltb_spec i (3 - n)), (Nat.ltb_spec n 3), (Nat.ltb_spec (n + 12) 3); try done; lia.
Qed.


(** ** Routing *)

(** The line that was enabled last for a number. *)
Fixpoint routed (enables : list (Z * Z)) (irq : Z) : option (Z * Z) :=
  match enables with
  | [] => None
  | (i, cpu) :: enables => match routed enables irq with Some r => Some r | None => if i =? irq then Some (T_IRQ0 + irq, cpu) else None end
  end.

Lemma ioapicwrite_eq reg data s : ioapicwrite reg data s = Ok () (IoApic reg (fun i => if i =? reg then u32 data else io_regs s i)).
Proof. done. Qed.

(** A line that has been masked. *)
Lemma disabled_bit i : 0 <= i < 224 -> has (u32 (Z.lor INT_DISABLED (T_IRQ0 + i))) INT_DISABLED = true.
Proof.
  intros Hi. assert (forallb (fun i => has (u32 (Z.lor INT_DISABLED (T_IRQ0 + i))) INT_DISABLED) (seqZ 0 224) = true) as H by (by vm_compute).
  rewrite forallb_forall in H. apply H, list_elem_of_In, elem_of_seqZ. lia.
Qed.

Lemma init_loop_run n : forall i s, 0 <= i -> exists s', forM (seqZ i (Z.of_nat n)) (fun i =>
    ioapicwrite (REG_TABLE + 2 * i) (Z.lor INT_DISABLED (T_IRQ0 + i));; ioapicwrite (REG_TABLE + 2 * i + 1) 0) s = Ok () s' /\
  (forall k, i <= k < i + Z.of_nat n -> io_regs s' (REG_TABLE + 2 * k) = u32 (Z.lor INT_DISABLED (T_IRQ0 + k))) /\
  (forall r, r < REG_TABLE + 2 * i -> io_regs s' r = io_regs s r).
Proof.
  induction n as [|n IH]; intros i s Hi; [exists s; split; [done|]; split; [intros k Hk; lia|done]|].
  rewrite Nat2Z.inj_succ, seqZ_cons, Z.pred_succ by lia. cbn [forM]. set (s1 := IoApic (REG_TABLE + 2 * i + 1) (fun k => if k =? REG_TABLE + 2 * i + 1 then u32 0 else if k =? REG_TABLE + 2 * i then u32 (Z.lor INT_DISABLED (T_IRQ0 + i)) else io_regs s k)).
  destruct (IH (Z.succ i) s1 ltac:(lia)) as (s' & E & H1 & H2). exists s'. split; [exact E|]. unfold REG_TABLE in *. split.
  - intros k Hk. destruct (decide (k = i)) as [->|]; [|apply H1; lia]. rewrite H2 by lia. unfold s1. cbn [io_regs]. unfold REG_TABLE.
    by rewrite (proj2 (Z.eqb_neq _ _)), Z.eqb_refl by lia.
  - intros r Hr. rewrite H2 by lia. unfold s1. cbn [io_regs]. unfold REG_TABLE. by rewrite !(proj2 (Z.eqb_neq _ _)) by lia.
Qed.

Definition enable_all (enables : list (Z * Z)) : M ioapic () := forM enables (fun e => ioapicenable e.1 e.2).

Lemma enabled_route irq cpu s k : 0 <= irq < 224 -> 0 <= cpu < 256 -> 0 <= k -> exists s', ioapicenable irq cpu s = Ok () s' /\
  route s' k = if k =? irq then Some (T_IRQ0 + irq, cpu) else route s k.
Proof.
  intros Hi Hc Hk. eexists. split; [reflexivity|]. unfold route. cbn [io_regs io_reg]. unfold REG_TABLE. destruct (Z.eqb_spec k irq) as [->|Hne].
  - rewrite !Z.eqb_refl, (proj2 (Z.eqb_neq (16 + 2 * irq) (16 + 2 * irq + 1))) by lia.
    assert (forallb (fun i => negb (has (u32 (T_IRQ0 + i)) INT_DISABLED) && (bits (u32 (T_IRQ0 + i)) 0 8 =? T_IRQ0 + i)) (seqZ 0 224) = true) as H by (by vm_compute).
    rewrite forallb_forall in H. specialize (H irq ltac:(apply list_elem_of_In, elem_of_seqZ; lia)). cbv beta in H. apply andb_true_iff in H as [H1%negb_true_iff H2%Z.eqb_eq].
    rewrite H1, H2. do 2 f_equal. assert (forallb (fun c => bits (u32 (Z.shiftl c 24)) 24 8 =? c) (seqZ 0 256) = true) as G by (by vm_compute).
    rewrite forallb_forall in G. apply Z.eqb_eq, G, list_elem_of_In, elem_of_seqZ. lia.
  - by rewrite !(proj2 (Z.eqb_neq _ _)) by lia.
Qed.

(** Interrupt lines are routed as asked.  After [ioapicinit] and any calls of
    [ioapicenable] a line gives the vector [T_IRQ0] plus its number on the
    processor it was last enabled for, and a line that was not enabled gives
    nothing. *)
Theorem ioapic_routes (enables : list (Z * Z)) (s : ioapic) (irq : Z) :
  Z.land (Z.shiftr (io_regs s REG_VER) 16) 0xFF < 224 -> Forall (fun e => 0 <= e.1 < 224 /\ 0 <= e.2 < 256) enables ->
  0 <= irq <= Z.land (Z.shiftr (io_regs s REG_VER) 16) 0xFF ->
  exists s', (ioapicinit;; enable_all enables) s = Ok () s' /\ route s' irq = routed enables irq.
Proof.
  set (maxintr := Z.land _ _). intros Hm He Hi. destruct (init_loop_run (Z.to_nat (maxintr + 1)) 0 (IoApic REG_ID (io_regs s)) ltac:(lia)) as (s1 & E & H1 & _). rewrite Z2Nat.id in E, H1 by lia.
  assert (ioapicinit s = Ok () s1) as Ei by exact E. rewrite (Ok_bind _ _ _ _ _ Ei). assert (route s1 irq = None) as Hr by (unfold route; rewrite H1, disabled_bit by lia; done).
  clear Ei E H1. assert (exists s', enable_all enables s1 = Ok () s' /\ route s' irq = match routed enables irq with Some r => Some r | None => route s1 irq end) as (s' & E' & H').
  { clear Hr. revert s1. induction He as [|[i c] enables [Hic Hcc] _ IH]; intros s1; [by exists s1|]. cbn [fst snd] in *.
    destruct (enabled_route i c s1 irq Hic Hcc ltac:(lia)) as (s2 & E2 & R2). destruct (IH s2) as (s' & E' & H'). exists s'. unfold enable_all in *. cbn [forM fst snd]. rewrite (Ok_bind _ _ _ _ _ E2).
    split; [exact E'|]. rewrite H', R2. cbn [routed]. rewrite (Z.eqb_sym irq i). destruct (routed enables irq); [done|]. destruct (Z.eqb_spec i irq) as [->|]; done. }
  exists s'. split; [exact E'|]. rewrite H', Hr. by destruct (routed enables irq).
Qed.

(** The keyboard's line, while the disk's is also enabled. *)
Lemma ioapic_routes_witness : exists s', (ioapicinit;; enable_all [(IRQ_KBD, 0); (IRQ_IDE, 3)]) (IoApic 0 (fun i => if i =? 1 then 0x170011 else 0)) = Ok () s' /\ route s' IRQ_KBD = Some (33, 0).
Proof.
  apply (ioapic_routes [(IRQ_KBD, 0); (IRQ_IDE, 3)] (IoApic 0 (fun i => if i =? 1 then 0x170011 else 0)) IRQ_KBD).
  - by vm_compute.
  - do 2 (constructor; [split; split; by vm_compute|]). constructor.
  - split; by vm_compute.
Defined.

(** *** The local APIC *)

(** After [lapicinit] the timer interrupts with the vector [trap] expects, and
    errors and spurious interrupts with theirs. *)
Lemma lapicinit_vectors latency fuel s : (latency < fuel)%nat -> exists s', lapicinit latency true fuel s = Ok () s' /\
  a_regs s' TIMER = Z.lor PERIODIC (T_IRQ0 + IRQ_TIMER) /\ a_regs s' ERROR = T_IRQ0 + IRQ_ERROR /\ a_regs s' SVR = Z.lor ENABLE (T_IRQ0 + IRQ_SPURIOUS) /\
  a_regs s' LINT0 = MASKED /\ a_regs s' LINT1 = MASKED /\ a_regs s' TPR = 0.
Proof.
  intros Hl. assert (forall fuel n regs sent cm w, (n < fuel)%nat -> has (regs ICRLO) DELIVS = false -> wait_delivs fuel (Apic regs n sent cm w) = Ok () (Apic regs 0 sent cm w)) as Hw.
  { clear. induction fuel as [|fuel IH]; intros n regs sent cm w Hn Hr; [lia|]. cbn [wait_delivs]. unfold mbind, M_bind, bindM, lapicr. change (ICRLO =? ICRLO) with true. cbv iota. cbn [a_pending a_regs a_sent].
    destruct n as [|n]; [by rewrite Hr|]. assert (has (Z.lor (regs ICRLO) DELIVS) DELIVS = true) as ->.
    { change DELIVS with (2 ^ 12). rewrite has_pow2 by lia. rewrite Z.lor_spec. by rewrite orb_true_r. }
    apply IH; [lia|done]. }
  assert (forall i v (k : M apic ()) s, (lapicw latency i v;; k) s = k (wrote latency i v s)) as Hb by done.
  unfold lapicinit. cbn [negb]. rewrite !Hb. set (s1 := wrote latency LINT1 _ _). assert (lapicr VER s1 = Ok (a_regs s1 VER) s1) as Ev by done. rewrite (Ok_bind _ _ _ _ _ Ev).
  set (s2 := if 4 <=? Z.land (Z.shiftr (a_regs s1 VER) 16) 0xFF then wrote latency PCINT MASKED s1 else s1).
  assert (when (4 <=? Z.land (Z.shiftr (a_regs s1 VER) 16) 0xFF) (lapicw latency PCINT MASKED) s1 = Ok () s2) as Ew by (unfold s2; by destruct (4 <=? _)).
  rewrite (Ok_bind _ _ _ _ _ Ew), !Hb. set (s3 := wrote latency ICRLO _ _).
  rewrite (Ok_bind _ _ _ _ _ (Hw fuel latency (a_regs s3) (a_sent s3) (a_cmos s3) (a_wrv s3) Hl eq_refl)). eexists. split; [reflexivity|].
  assert (forall i, i <> PCINT -> a_regs s2 i = a_regs s1 i) as H2 by (intros i Hi; unfold s2; destruct (4 <=? _); [cbn; by rewrite (proj2 (Z.eqb_neq _ _) Hi)|done]).
  assert (forall i v s k, a_regs (wrote latency i v s) k = if k =? i then u32 v else a_regs s k) as Hr by done.
  assert (forall k, k <> TPR -> k <> ICRLO -> k <> ICRHI -> k <> EOI -> k <> ESR -> k <> ERROR -> k <> PCINT -> a_regs (wrote latency TPR 0 (Apic (a_regs s3) 0 (a_sent s3) (a_cmos s3) (a_wrv s3))) k = a_regs s1 k) as H3.
  { intros k K1 K2 K3 K4 K5 K6 K7. rewrite Hr. cbn [a_regs]. unfold s3. rewrite !Hr, !(proj2 (Z.eqb_neq k _)) by done. by apply H2. }
  split_and!; [by rewrite H3 by done|by vm_compute|by rewrite H3 by done|by rewrite H3 by done|by rewrite H3 by done|by vm_compute].
Qed.

(** [lapicstartap] sends INIT, its end, and two startup messages, which start the
    processor at [addr], a page below one megabyte; the warm-reset vector points to
    the same place. *)
Lemma lapicstartap_starts latency apicid page s : 0 <= apicid < 256 -> 0 <= page < 256 -> exists s', lapicstartap latency apicid (4096 * page) s = Ok () s' /\
  exists c0 c1 c2, a_sent s' = a_sent s ++ [(apicid, c0); (apicid, c1); (apicid, c2); (apicid, c2)] /\
    Z.land c0 0x700 = INIT /\ has c0 ASSERT = true /\ Z.land c1 0x700 = INIT /\ has c1 ASSERT = false /\ startup_address c2 = Some (4096 * page) /\
    a_cmos s' 0xF = 0x0A /\ 16 * (a_wrv s').2 + (a_wrv s').1 = 4096 * page.
Proof.
  intros Ha Hp. assert (u32 (Z.shiftl apicid 24) / 2 ^ 24 = apicid) as Hd.
  { assert (forallb (fun a => u32 (Z.shiftl a 24) / 2 ^ 24 =? a) (seqZ 0 256) = true) as H by (by vm_compute). rewrite forallb_forall in H. apply Z.eqb_eq, H, list_elem_of_In, elem_of_seqZ. lia. }
  set (h := wrote latency ICRHI (Z.shiftl apicid 24)). set (c := wrote latency ICRLO). set (v0 := Z.lor (Z.lor INIT LEVEL) ASSERT). set (v1 := Z.lor INIT LEVEL). set (v2 := Z.lor STARTUP (Z.shiftr (4096 * page) 12)). set (s0 := warm_reset (4096 * page) s).
  assert (forall v s, a_sent (c v s) = a_sent s ++ [(a_regs s ICRHI / 2 ^ 24, u32 v)] /\ a_regs (c v s) ICRHI = a_regs s ICRHI) as Hc by done.
  assert (forall s, a_sent (h s) = a_sent s /\ a_regs (h s) ICRHI = u32 (Z.shiftl apicid 24)) as Hh by done.
  exists (c v2 (h (c v2 (h (c v1 (c v0 (h s0))))))). split; [reflexivity|]. exists (u32 v0), (u32 v1), (u32 v2). split; [|do 4 (split; [by vm_compute|]); split; [|split; [done|]]].
  { rewrite (proj1 (Hc v2 _)), (proj2 (Hh _)), (proj1 (Hh _)), (proj1 (Hc v2 _)), (proj2 (Hh _)), (proj1 (Hh _)), (proj1 (Hc v1 _)), (proj2 (Hc v0 _)), (proj1 (Hc v0 _)), (proj2 (Hh _)), (proj1 (Hh _)), Hd, <- !app_assoc. done. }
  2: { change (16 * (Z.shiftr (4096 * page) 4 mod 65536) + 0 = 4096 * page). rewrite Z.shiftr_div_pow2 by lia. change (2 ^ 4) with 16. ulia. }
  assert (forallb (fun p => bool_decide (startup_address (u32 (Z.lor STARTUP (Z.shiftr (4096 * p) 12))) = Some (4096 * p))) (seqZ 0 256) = true) as H by (by vm_compute).
  rewrite forallb_forall in H. apply (bool_decide_eq_true _), (H page), list_elem_of_In, elem_of_seqZ. lia.
Qed.
