(* ===== verification/Main.v ===== *)
(** * Starting the kernel ([main.c], [kvmalloc] and [switchkvm] of [vm.c])

    The part of [main] that sets up memory: the pages below 4 megabytes, the
    kernel's page table made from some of them, a stack for every other
    processor, and then the rest of memory. *)

From S2P Require Import Prelude Mmu Memory Kalloc PageTable Vm Paging VmInv Uvm Kvm Demo.

(** ** Memory *)

(** [P2V(4*1024*1024)] *)
Definition FOUR_MB : Z := P2V (4 * 1024 * 1024).

Section main.
Context {F : Type} `{SwapFile F}.
Context (end_ data : Z) (pol : policy).

Definition switchkvm (kpgdir : Z) : M (vm F) () := lcr3 (V2P kpgdir).
Definition kvmalloc : M (vm F) Z := kpgdir ← setupkvm end_ data pol; switchkvm kpgdir;; mret kpgdir.

(** The stacks [startothers] allocates. *)
Fixpoint ap_stacks (n : nat) : M (vm F) (list Z) :=
  match n with O => mret [] | S n' => stack ← onmach kalloc; stacks ← ap_stacks n'; mret (stack :: stacks) end.

Definition main_memory (others : nat) : M (vm F) (Z * list Z) :=
  onmach (kinit1 end_ end_ FOUR_MB);;
  kpgdir ← kvmalloc;
  stacks ← ap_stacks others;
  onmach (kinit2 end_ FOUR_MB (P2V PHYSTOP));;
  mret (kpgdir, stacks).

Context (end_high : KERNBASE <= end_) (data_ok : aligned data /\ KERNLINK < data < P2V PHYSTOP).
Implicit Types st : vm F.

Lemma range_pages_app n1 n2 p : range_pages (n1 + n2) p = range_pages n1 p ++ range_pages n2 (p + Z.of_nat n1 * PGSIZE).
Proof.
  revert p. induction n1 as [|n1 IH]; intros p; [by rewrite Z.mul_0_l, Z.add_0_r|]. cbn [Nat.add range_pages app]. rewrite IH. do 2 f_equal. unfold PGSIZE. f_equal. lia.
Qed.

Lemma ap_stacks_run stacks : forall st l, kmem_inv end_ (v_mach st) (stacks ++ l) ->
  exists s', ap_stacks (length stacks) st = Ok stacks (set_mach s' st) /\ kmem_inv end_ s' l /\ m_mem s' = m_mem (v_mach st).
Proof.
  induction stacks as [|x stacks IH]; intros st l Hk; [exists (v_mach st); by destruct st|]. cbn [length ap_stacks app] in *.
  destruct (kalloc_cons end_ end_high (v_mach st) x (stacks ++ l) Hk) as [E Hk1]. rewrite (Ok_bind _ _ _ _ _ (onmach_Ok _ _ _ _ E)).
  destruct (IH (set_mach (kalloc_post (v_mach st) x) st) l Hk1) as (s' & E' & Hk' & Hm). rewrite (Ok_bind _ _ _ _ _ E'). exists s'. split; [by destruct st|done].
Qed.

(** The pages of the two ranges. *)
Definition low_pages : nat := Z.to_nat ((FOUR_MB - PGROUNDUP end_) / PGSIZE).
Definition high_pages : nat := Z.to_nat ((P2V PHYSTOP - FOUR_MB) / PGSIZE).

Lemma end_page : end_ <= FOUR_MB -> PGROUNDUP end_ = end_ + PGSIZE - 1 - (end_ + PGSIZE - 1) mod PGSIZE /\ aligned (PGROUNDUP end_) /\ end_ <= PGROUNDUP end_ <= FOUR_MB /\
  PGROUNDUP end_ + Z.of_nat low_pages * PGSIZE = FOUR_MB.
Proof.
  intros He. assert (PGROUNDUP end_ = end_ + PGSIZE - 1 - (end_ + PGSIZE - 1) mod PGSIZE) as E by (apply PGROUNDUP_spec; change FOUR_MB with 2151677952 in He; unfold KERNBASE, PGSIZE in *; ulia).
  split; [exact E|]. unfold low_pages. change FOUR_MB with 2151677952 in *. unfold aligned, KERNBASE, PGSIZE in *. rewrite E. split; [ulia|]. split; [ulia|]. rewrite Z2Nat.id by ulia. ulia.
Qed.

Lemma high_pages_size : Z.of_nat high_pages * PGSIZE = P2V PHYSTOP - FOUR_MB.
Proof. unfold high_pages. rewrite Z2Nat.id; [reflexivity|vm_compute; discriminate]. Qed.

Lemma length_range_pages n p : length (range_pages n p) = n.
Proof. revert p. induction n as [|n IH]; intros p; [done|]. cbn. by rewrite IH. Qed.

(** The pages below 4 megabytes. *)
Lemma kinit1_run s : end_ <= FOUR_MB -> km_freelist (m_kmem s) = 0 -> mem_words (m_mem s) ->
  exists s', kinit1 end_ end_ FOUR_MB s = Ok () s' /\ kmem_inv end_ s' (rev (range_pages low_pages (PGROUNDUP end_))) /\ mem_words (m_mem s').
Proof.
  intros He H0 Hw. destruct (end_page He) as (_ & Hal & Hp & Hend). pose proof end_high as Hhigh.
  set (s0 := set_kmem (Kmem false (km_freelist (m_kmem s)) (km_references_count (m_kmem s)) 0) s).
  assert (kmem_inv end_ s0 []) as Hk0 by (split; [exact H0|constructor..]). change FOUR_MB with 2151677952 in *.
  destruct (freerange_loop_spec end_ end_high (freerange_fuel (PGROUNDUP end_) 2151677952) (PGROUNDUP end_) 2151677952 s0 [] low_pages) as (s1 & E1 & Hk1 & _ & Hw1 & _);
    [done|done|change (P2V PHYSTOP) with 2382364672; lia|change (P2V PHYSTOP) with 2382364672; lia|reflexivity|done|intros x _; apply not_elem_of_nil|].
  rewrite app_nil_r in Hk1. exists s1. split; [exact E1|]. split; [exact Hk1|exact (Hw1 Hw)].
Qed.

(** The pages above: nothing below 4 megabytes changes. *)
Lemma kinit2_run s l : end_ <= FOUR_MB -> kmem_inv end_ s l -> (forall x, x ∈ l -> x < FOUR_MB) ->
  exists s', kinit2 end_ FOUR_MB (P2V PHYSTOP) s = Ok () s' /\ kmem_inv end_ s' (rev (range_pages high_pages FOUR_MB) ++ l) /\
    (forall x, valid_page end_ x -> x < FOUR_MB -> mem_frame (m_mem s') (kframe x) = mem_frame (m_mem s) (kframe x)).
Proof.
  intros He Hk Hlow. pose proof end_high as Hhigh.
  assert (aligned FOUR_MB) as Hal by done. change FOUR_MB with 2151677952 in *. change (P2V PHYSTOP) with 2382364672 in *.
  destruct (freerange_loop_spec end_ end_high (freerange_fuel 2151677952 2382364672) 2151677952 2382364672 s l high_pages) as (s1 & E1 & Hk1 & _ & _ & Hf);
    [done|done|change (P2V PHYSTOP) with 2382364672; lia|change (P2V PHYSTOP) with 2382364672; lia|exact eq_refl|exact (Nat.le_refl _)| |].
  { intros x Hx Hin. apply elem_of_range_pages in Hx; [|done]. specialize (Hlow x Hin). lia. }
  eexists. split; [unfold kinit2; rewrite (Ok_bind _ _ _ _ _ (E1 : freerange end_ 2151677952 2382364672 s = _)); reflexivity|].
  split; [by destruct Hk1; split|]. intros x Hv Hx. apply Hf. intros (y & E & Hy)%list_elem_of_fmap.
  apply elem_of_range_pages in Hy; [|done]. assert (valid_page end_ y) as Hvy. 
  { destruct Hy as [Hay Hy]. rewrite high_pages_size in Hy. change (P2V PHYSTOP - FOUR_MB) with 230686720 in Hy. clear - Hay Hy He.
    unfold valid_page. assert (V2P y = y - KERNBASE) as -> by (unfold V2P, KERNBASE; ulia). unfold KERNBASE. change PHYSTOP with 234881024. split; [ulia|]. split; [exact Hay|lia]. }
  assert (x = y) by (by apply (valid_page_inj end_)). lia.
Qed.

(** C22: The kernel's memory is set up.  If the kernel's image ends early enough
    below 4 megabytes for the page table and the stacks, [main] comes through its
    memory set-up; the page-table register holds a directory that translates the
    kernel's four ranges as [kmap] says, also after [kinit2]; every other processor
    has a stack; and each page between the end of the kernel and [PHYSTOP] is
    exactly one of: a stack, a page of the page table, on the free list. *)
Theorem main_memory_ready (others : nat) st : end_ <= FOUR_MB -> km_freelist (m_kmem (v_mach st)) = 0 -> mem_words (m_mem (v_mach st)) -> (67 + others <= low_pages)%nat ->
  exists kpgdir stacks st' tables free, main_memory others st = Ok (kpgdir, stacks) st' /\ v_cr3 st' = V2P kpgdir /\
    kmem_inv end_ (v_mach st') free /\ length stacks = others /\ stacks ++ tables ++ free ≡ₚ range_pages (low_pages + high_pages) (PGROUNDUP end_) /\
    (forall fn, pd_frame (m_mem (v_mach st')) kpgdir fn -> fn ∈ kframe <$> tables) /\
    (forall k vb, k ∈ kmap data -> is_u32 vb -> covers k vb ->
       translate (m_mem (v_mach st')) kpgdir vb = Some (P2V (km_phys_start k + (PGROUNDDOWN vb - km_virt k)))).
Proof.
  intros He H0 Hw Hn. destruct (end_page He) as (_ & Hal & Hp & Hend). destruct (kinit1_run (v_mach st) He H0 Hw) as (s1 & E1 & Hk1 & Hw1).
  set (l := rev (range_pages low_pages (PGROUNDUP end_))) in *. assert (length l = low_pages) as Hl by (unfold l; by rewrite length_rev, length_range_pages).
  assert (forall x, x ∈ l -> x < FOUR_MB) as Hlow by (intros x Hx; unfold l in Hx; rewrite list_elem_of_In, <- in_rev, <- list_elem_of_In, elem_of_range_pages in Hx by done; lia).
  destruct (setupkvm_run end_ data end_high pol data_ok (set_mach s1 st) l Hk1 Hw1 ltac:(lia)) as (kpgdir & s2 & l2 & tables & E2 & Hpd & El & Hlen & _ & Htab & _ & Hmap & _).
  set (stacks := take others l2). assert (length stacks = others) as Hst by (unfold stacks; rewrite length_take; lia).
  rewrite <- (take_drop others l2) in Hpd, El. fold stacks in Hpd, El. set (l3 := drop others l2) in *.
  destruct (ap_stacks_run stacks (set_cr3 (V2P kpgdir) (set_mach s2 (set_mach s1 st))) l3) as (s3 & E3 & Hk3 & Hm3); [apply (po_kmem _ _ _ _ Hpd)|]. rewrite Hst in E3.
  destruct (kinit2_run s3 l3 He Hk3) as (s4 & E4 & Hk4 & Hf4); [intros x Hx; apply Hlow; rewrite El, !elem_of_app; tauto|]. change (m_mem s3 = m_mem s2) in Hm3.
  assert (forall fn, pd_frame (m_mem s2) kpgdir fn -> mem_frame (m_mem s4) fn = mem_frame (m_mem s2) fn) as Hsame.
  { intros fn (x & -> & Hx)%Htab%list_elem_of_fmap. assert (x ∈ l) as Hin by (rewrite El, !elem_of_app; tauto). rewrite Hf4, Hm3; [done| |by apply Hlow].
    pose proof (ki_valid _ _ _ Hk1) as Hv. rewrite Forall_forall in Hv. by apply Hv. }
  pose proof (po_wf _ _ _ _ Hpd) as Hwf.
  exists kpgdir, stacks, (set_mach s4 (set_cr3 (V2P kpgdir) st)), tables, (rev (range_pages high_pages FOUR_MB) ++ l3). split.
  { unfold main_memory. rewrite (Ok_bind _ _ _ _ _ (onmach_Ok _ _ _ _ E1)). 
    erewrite Ok_bind by (unfold kvmalloc; by rewrite (Ok_bind _ _ _ _ _ E2)). erewrite (Ok_bind (ap_stacks others)) by exact E3. by erewrite Ok_bind by (apply onmach_Ok; exact E4). }
  split; [done|]. split; [exact Hk4|]. split; [done|]. split; [|split].
  - rewrite range_pages_app, Hend, (Permutation_rev (range_pages low_pages _)). fold l. rewrite El.
    generalize (range_pages high_pages FOUR_MB). intros high. by rewrite <- (Permutation_rev high), <- !app_assoc, (Permutation_app_swap_app stacks tables), (Permutation_app_comm high l3).
  - intros fn Hfn. apply Htab. revert Hfn. apply (pd_frame_agree (m_mem s2)); [by eapply pd_u32|by eapply pd_aligned|]. apply Hsame. by left.
  - intros k vb Hkk Hvb Hc. rewrite translate_pte, (pte_at_frames end_ (m_mem s2)), (Hmap k vb Hkk Hvb Hc) by done. cbn.
    pose proof (kmap_all_ok data data_ok) as Hok. rewrite Forall_forall in Hok. by destruct (kmap_pte_spec k vb (Hok k Hkk) Hvb Hc) as (-> & -> & _).
Qed.
End main.

(** The machine as the boot loader leaves it: nothing on the free list. *)
Definition boot_vm : vm pagefile := set_mach (Mach ∅ (Kmem false 0 ∅ 0)) demo0.

Lemma main_memory_ready_witness : exists kpgdir stacks st', main_memory demo_end demo_data SCFIFO 3 boot_vm = Ok (kpgdir, stacks) st' /\
  length stacks = 3%nat /\ translate (m_mem (v_mach st')) kpgdir (KERNBASE + 0x5123) = Some (KERNBASE + 0x5000).
Proof.
  assert (covers (KMap KERNBASE 0 EXTMEM PTE_W) (KERNBASE + 0x5123)) as Hc by (split; by vm_compute).
  assert (is_u32 (KERNBASE + 0x5123)) as Hu by done.
  destruct (main_memory_ready demo_end demo_data SCFIFO demo_end_high demo_data_ok 3 boot_vm) as (kpgdir & stacks & st' & tables & free & H1 & _ & _ & H2 & _ & _ & H3).
  - by vm_compute.
  - reflexivity.
  - apply mem_words_empty.
  - apply Nat.leb_le. by vm_compute.
  - exists kpgdir, stacks, st'. split; [exact H1|]. split; [exact H2|].
    exact (H3 _ _ (list_elem_of_here _ _) Hu Hc).
Defined.
