(* ===== verification/Smp.v ===== *)
(** * Starting the processors ([entry.S], [entryother.S], [asm.h], [startothers],
    [mpenter] and [mpmain] of [main.c])

    The boot processor starts the others one at a time.  Each finds its stack, its
    page directory and its entry point in three words below its code, at a place
    all of them share.  The processors run concurrently: the boot processor's
    statements and each processor's instructions interleave in any order. *)

From S2P Require Import Prelude Mmu Seg Devices.

(** ** Boot code *)

Definition CR0_PE : Z := 0x1.
Definition CR0_WP : Z := 0x10000.
Definition CR0_PG : Z := 0x80000000.
Definition CR4_PSE : Z := 0x10.

Definition SEG_NULLASM : Z := pack [(16, 0); (16, 0); (8, 0); (8, 0); (8, 0); (8, 0)].
Definition SEG_ASM (type base lim : Z) : Z := pack
  [(16, Z.land (Z.shiftr lim 12) 0xffff); (16, Z.land base 0xffff); (8, Z.land (Z.shiftr base 16) 0xff); (8, Z.lor 0x90 type);
   (8, Z.lor 0xC0 (Z.land (Z.shiftr lim 28) 0xf)); (8, Z.land (Z.shiftr base 24) 0xff)].
Definition boot_gdt : list Z := [SEG_NULLASM; SEG_ASM (Z.lor STA_X STA_R) 0 0xffffffff; SEG_ASM STA_W 0 0xffffffff].

(** [entrypgdir]: 4-megabyte pages. *)
Definition entrypgdir (i : Z) : Z :=
  if (i =? 0) || (i =? Z.shiftr KERNBASE 22) then Z.lor (Z.lor (Z.lor 0 PTE_P) PTE_W) PTE_PS else 0.

(** How the processor walks a directory with the page-size extension. *)
Definition translate_ps (pgdir : Z -> Z) (va : Z) : option Z :=
  let pde := pgdir (PDX va) in
  if has pde PTE_P && has pde PTE_PS then Some (pde / 2 ^ 22 * 2 ^ 22 + va mod 2 ^ 22) else None.

(** Instructions of [entry.S] and [entryother.S], and the calls of [mpenter]. *)
Inductive action :=
  | Cli | Zero_segs | Lgdt | Or_cr0 (v : Z) | Or_cr4 (v : Z) | Ljmp (sel : Z) | Data_segs (sel : Z)
  | Cr3_at (k : Z) | Esp_at (k : Z) | Call_at (k : Z) | Cr3_imm (v : Z) | Esp_imm (v : Z) | Jmp (v : Z)
  | Switchkvm | Seginit | Lapicinit | Idtinit | Started.

Definition entryother : list action :=
  [Cli; Zero_segs; Lgdt; Or_cr0 CR0_PE; Ljmp (Z.shiftl SEG_KCODE 3); Data_segs (Z.shiftl SEG_KDATA 3); Or_cr4 CR4_PSE; Cr3_at 12;
   Or_cr0 (Z.lor (Z.lor CR0_PE CR0_PG) CR0_WP); Esp_at 4; Call_at 8].
Definition mpmain : list action := [Idtinit; Started].
Definition mpenter : list action := Switchkvm :: Seginit :: Lapicinit :: mpmain.
Definition entry (pgdir stack main : Z) : list action :=
  [Or_cr4 CR4_PSE; Cr3_imm (V2P pgdir); Or_cr0 (Z.lor CR0_PG CR0_WP); Esp_imm (u32 (stack + KSTACKSIZE)); Jmp main].

(** What a processor does: nothing yet, waiting for a startup message after INIT,
    code that is left, or code nobody put there. *)
Inductive run := Off | Waiting | Running (l : list action) | Wild (a : Z).
Inductive table := Bios_table | Boot_table | Kernel_table.

(** A processor: its registers that matter, and [started] of its [struct cpu]. *)
Record bcpu := BCpu {
  c_run : run; c_cr0 : Z; c_cr3 : Z; c_cr4 : Z; c_esp : Z; c_cs : Z; c_ds : Z; c_gdt : table; c_idt : table; c_started : bool }.

Section smp.
(** Addresses the linker and [kvmalloc] chose: [mpenter], [entrypgdir], [kpgdir]. *)
Context (mpenter_at entrypgdir_at kpgdir : Z).

(** One action of a processor that has [l] still to do; [low k] is the word at
    [start-k]. *)
Definition do_action (low : Z -> Z) (a : action) (l : list action) (p : bcpu) : bcpu :=
  let 'BCpu _ cr0 cr3 cr4 esp cs ds gdt idt st := p in
  match a with
  | Cli => BCpu (Running l) cr0 cr3 cr4 esp cs ds gdt idt st
  | Zero_segs => BCpu (Running l) cr0 cr3 cr4 esp cs 0 gdt idt st
  | Lgdt => BCpu (Running l) cr0 cr3 cr4 esp cs ds Boot_table idt st
  | Or_cr0 v => BCpu (Running l) (Z.lor cr0 v) cr3 cr4 esp cs ds gdt idt st
  | Or_cr4 v => BCpu (Running l) cr0 cr3 (Z.lor cr4 v) esp cs ds gdt idt st
  | Ljmp sel => BCpu (Running l) cr0 cr3 cr4 esp sel ds gdt idt st
  | Data_segs sel => BCpu (Running l) cr0 cr3 cr4 esp cs sel gdt idt st
  | Cr3_at k => BCpu (Running l) cr0 (low k) cr4 esp cs ds gdt idt st
  | Esp_at k => BCpu (Running l) cr0 cr3 cr4 (low k) cs ds gdt idt st
  | Call_at k => BCpu (if low k =? mpenter_at then Running mpenter else Wild (low k)) cr0 cr3 cr4 (u32 (esp - 4)) cs ds gdt idt st
  | Cr3_imm v => BCpu (Running l) cr0 v cr4 esp cs ds gdt idt st
  | Esp_imm v => BCpu (Running l) cr0 cr3 cr4 v cs ds gdt idt st
  | Jmp v => BCpu (Wild v) cr0 cr3 cr4 esp cs ds gdt idt st
  | Switchkvm => BCpu (Running l) cr0 (V2P kpgdir) cr4 esp cs ds gdt idt st
  | Seginit => BCpu (Running l) cr0 cr3 cr4 esp cs ds Kernel_table idt st
  | Lapicinit => BCpu (Running l) cr0 cr3 cr4 esp cs ds gdt idt st
  | Idtinit => BCpu (Running l) cr0 cr3 cr4 esp cs ds gdt Kernel_table st
  | Started => BCpu (Running l) cr0 cr3 cr4 esp cs ds gdt idt true
  end.
Definition ap_step (low : Z -> Z) (p : bcpu) : option bcpu :=
  match c_run p with Running (a :: l) => Some (do_action low a l p) | _ => None end.

(** What INIT leaves. *)
Definition reset (p : bcpu) : bcpu := BCpu Waiting 0x60000010 0 0 0 0xF000 0 Bios_table Bios_table (c_started p).
(** A message that reaches a processor, when [code] is what lies at 0x7000. *)
Definition react (code : option (list action)) (command : Z) (p : bcpu) : bcpu :=
  if Z.land command 0x700 =? INIT then (if has command ASSERT then reset p else p)
  else match startup_address command, c_run p with
       | Some a, Waiting =>
           let 'BCpu _ cr0 cr3 cr4 esp cs ds gdt idt st := p in
           BCpu (match code with Some l => if a =? 0x7000 then Running l else Wild a | None => Wild a end) cr0 cr3 cr4 esp (a / 16) ds gdt idt st
       | _, _ => p
       end.

(** ** [startothers] *)

(** Its statements: the copy of the code; for each processor the page, the three
    words, the messages of [lapicstartap], the wait. *)
Inductive stmt := Copy | Get_stack | Put_stack | Put_entry | Put_pgdir | Send (dest command : Z) | Wait (c : nat).

Record bstate := BState {
  s_code : option (list action);  (** the code at 0x7000 *)
  s_low : Z -> Z;                 (** the words below it *)
  s_free : list Z;                (** the pages [kalloc] gives out, in order *)
  s_stack : Z;                    (** the variable [stack] *)
  s_todo : list stmt;             (** what the boot processor has still to do *)
  s_cpus : list bcpu }.

(** The APIC ids [mpinit] found, and the number of the boot processor. *)
Context (apicids : list Z) (self : nat).

Definition messages (apicid : Z) : list (Z * Z) :=
  match lapicstartap 0 apicid 0x7000 (Apic (fun _ => 0) 0 [] (fun _ => 0) (0, 0)) with Ok _ s => a_sent s | _ => [] end.
Definition body (c : nat) : list stmt :=
  [Get_stack; Put_stack; Put_entry; Put_pgdir] ++ ((fun m => Send m.1 m.2) <$> messages (apicids !!! c)) ++ [Wait c].
Definition others : list nat := filter (.≠ self) (seq 0 (length apicids)).
Definition startothers : list stmt := Copy :: (others ≫= body).

Definition put (k v : Z) (low : Z -> Z) : Z -> Z := fun i => if i =? k then v else low i.

(** A statement of the boot processor; [None] while it spins. *)
Definition bsp_step (s : bstate) : option bstate :=
  let 'BState code low free stack todo cpus := s in
  match todo with
  | [] => None
  | Copy :: l => Some (BState (Some entryother) low free stack l cpus)
  | Get_stack :: l => Some (BState code low (tail free) (hd 0 free) l cpus)
  | Put_stack :: l => Some (BState code (put 4 (u32 (stack + KSTACKSIZE)) low) free stack l cpus)
  | Put_entry :: l => Some (BState code (put 8 mpenter_at low) free stack l cpus)
  | Put_pgdir :: l => Some (BState code (put 12 (V2P entrypgdir_at) low) free stack l cpus)
  | Send dest command :: l =>
      Some (BState code low free stack l (imap (fun i p => if bool_decide (apicids !! i = Some dest) then react code command p else p) cpus))
  | Wait c :: l => match cpus !! c with Some p => if c_started p then Some (BState code low free stack l cpus) else None | None => None end
  end.

(** The boot processor takes a statement, or another processor an instruction. *)
Inductive bstep : bstate -> bstate -> Prop :=
  | step_bsp s s' : bsp_step s = Some s' -> bstep s s'
  | step_ap s i p p' : i <> self -> s_cpus s !! i = Some p -> ap_step (s_low s) p = Some p' ->
      bstep s (BState (s_code s) (s_low s) (s_free s) (s_stack s) (s_todo s) (<[i := p']> (s_cpus s))).

(** When [startothers] is called. *)
Record at_start (pages : list Z) (s : bstate) : Prop := {
  as_todo : s_todo s = startothers;
  as_free : s_free s = pages;
  as_cpus : length (s_cpus s) = length apicids;
  as_off : forall i p, i <> self -> s_cpus s !! i = Some p -> c_run p = Off /\ c_started p = false;
}.

(** ** What a processor goes through *)

(** The words meant for the processor whose stack is [page]. *)
Definition words (page : Z) : Z -> Z := put 12 (V2P entrypgdir_at) (put 8 mpenter_at (put 4 (u32 (page + KSTACKSIZE)) (fun _ => 0))).
Definition fresh : bcpu := BCpu (Running entryother) 0x60000010 0 0 0 0x700 0 Bios_table Bios_table false.
Fixpoint trace (page : Z) (k : nat) : bcpu :=
  match k with O => fresh | S k => default fresh (ap_step (words page) (trace page k)) end.
Definition total : nat := length entryother + length mpenter.

Context (pages : list Z) (enough : (length others <= length pages)%nat).
Context (ids_nodup : NoDup apicids) (ids_byte : Forall (fun a => 0 <= a < 256) apicids).

(** The processor being started, when the boot processor has done [j] statements
    for it. *)
Definition current_ok (j : nat) (page : Z) (s : bstate) (p : bcpu) : Prop :=
  ((1 <= j)%nat -> s_stack s = page) /\ ((2 <= j)%nat -> s_low s 4 = words page 4) /\ ((3 <= j)%nat -> s_low s 8 = words page 8) /\
  ((4 <= j)%nat -> s_low s 12 = words page 12) /\
  (if (j <? 5)%nat then c_run p = Off /\ c_started p = false
   else if (j <? 7)%nat then p = reset p /\ c_started p = false
   else exists k, (k <= total)%nat /\ p = trace page k).

Definition done_ok (dn : list nat) (s : bstate) : Prop :=
  forall n i, dn !! n = Some i -> exists page, pages !! n = Some page /\ s_cpus s !! i = Some (trace page total).
Definition off_ok (rest : list nat) (s : bstate) : Prop :=
  forall i p, i ∈ rest -> s_cpus s !! i = Some p -> c_run p = Off /\ c_started p = false.

Inductive binv (s : bstate) : Prop :=
  | inv_before : s_todo s = startothers -> s_free s = pages -> length (s_cpus s) = length apicids -> off_ok others s -> binv s
  | inv_at dn c rest j page p : others = dn ++ c :: rest -> s_todo s = drop j (body c) ++ (rest ≫= body) -> (j < 9)%nat ->
      s_code s = Some entryother -> s_free s = drop (length dn + Nat.min 1 j) pages -> length (s_cpus s) = length apicids ->
      done_ok dn s -> off_ok rest s -> pages !! length dn = Some page -> s_cpus s !! c = Some p -> current_ok j page s p -> binv s
  | inv_done : s_todo s = [] -> length (s_cpus s) = length apicids -> done_ok others s -> binv s.

Lemma messages_spec id : 0 <= id < 256 -> exists c0 c1 c2, messages id = [(id, c0); (id, c1); (id, c2); (id, c2)] /\
  (forall code p, react code c0 p = reset p) /\ (forall code p, react code c1 p = p) /\
  (forall p, p = reset p -> c_started p = false -> react (Some entryother) c2 p = fresh) /\
  (forall code p, c_run p <> Waiting -> react code c2 p = p).
Proof.
  intros Hid. destruct (lapicstartap_starts 0 id 7 (Apic (fun _ => 0) 0 [] (fun _ => 0) (0, 0)) Hid ltac:(lia)) as (s' & E & c0 & c1 & c2 & Hs & H0 & A0 & H1 & A1 & H2 & _).
  exists c0, c1, c2. split; [unfold messages; change 0x7000 with (4096 * 7); by rewrite E|]. unfold react. rewrite H0, H1, A0, A1, H2. split; [done|]. split; [done|].
  assert ((Z.land c2 1792 =? INIT) = false) as ->. { unfold startup_address in H2. change 0x700 with 1792 in H2. destruct (Z.eqb_spec (Z.land c2 1792) STARTUP) as [->|]; done. }
  split.
  - intros p Hp Hst. rewrite Hp. unfold reset. cbn. by rewrite Hst.
  - intros code p Hp. by destruct (c_run p).
Qed.

(** The finitely many [k] the context allows. *)
Ltac each k := first [exfalso; lia | destruct k as [|k]; [|each k]].

Lemma trace_step page k low : (k < total)%nat -> (forall w, w = 4 \/ w = 8 \/ w = 12 -> low w = words page w) ->
  ap_step low (trace page k) = Some (trace page (S k)).
Proof.
  change total with 16%nat. intros Hk Hl. pose proof (Hl 4 ltac:(lia)) as H4. pose proof (Hl 8 ltac:(lia)) as H8. pose proof (Hl 12 ltac:(lia)) as H12.
  assert (words page 8 = mpenter_at) as E8 by done. clear Hl.
  each k; cbn -[Z.eqb words]; rewrite ?E8, ?Z.eqb_refl; cbn -[Z.eqb words]; rewrite ?H4, ?H8, ?H12, ?E8, ?Z.eqb_refl; done.
Qed.

Lemma trace_facts page k : (k <= total)%nat -> c_run (trace page k) <> Waiting /\ c_run (trace page k) <> Off /\
  (c_started (trace page k) = true <-> k = total) /\ (k = total -> c_run (trace page k) = Running []).
Proof.
  assert (words page 8 = mpenter_at) as E8 by done. change total with 16%nat. intros Hk. each k; cbn -[Z.eqb words]; rewrite ?E8, ?Z.eqb_refl; done.
Qed.

Lemma others_spec i : i ∈ others <-> i <> self /\ (i < length apicids)%nat.
Proof. unfold others. rewrite list_elem_of_filter, elem_of_seq. lia. Qed.

Lemma others_nodup : NoDup others.
Proof. apply NoDup_filter, NoDup_seq. Qed.

Lemma body_spec c : c ∈ others -> exists id c0 c1 c2, apicids !! c = Some id /\
  body c = [Get_stack; Put_stack; Put_entry; Put_pgdir; Send id c0; Send id c1; Send id c2; Send id c2; Wait c] /\
  (forall code p, react code c0 p = reset p) /\ (forall code p, react code c1 p = p) /\
  (forall p, p = reset p -> c_started p = false -> react (Some entryother) c2 p = fresh) /\
  (forall code p, c_run p <> Waiting -> react code c2 p = p).
Proof.
  intros [_ Hc]%others_spec. destruct (lookup_lt_is_Some_2 apicids c Hc) as [id Hid]. pose proof (proj1 (Forall_lookup _ _) ids_byte c id Hid) as Hb. cbn in Hb.
  destruct (messages_spec id Hb) as (c0 & c1 & c2 & E & H). exists id, c0, c1, c2. split; [done|]. split; [|exact H].
  unfold body. by rewrite (list_lookup_total_correct _ _ _ Hid), E.
Qed.

(** A message reaches the processor it is for and no other. *)
Definition sent (code : option (list action)) (id command : Z) (cpus : list bcpu) : list bcpu :=
  imap (fun i p => if bool_decide (apicids !! i = Some id) then react code command p else p) cpus.
Lemma sent_lookup code id command c cpus i : apicids !! c = Some id ->
  sent code id command cpus !! i = if decide (i = c) then react code command <$> cpus !! i else cpus !! i.
Proof.
  intros Hc. unfold sent. rewrite list_lookup_imap. destruct (decide (i = c)) as [->|Hne].
  - by rewrite bool_decide_true.
  - rewrite bool_decide_false; [by destruct (cpus !! i)|]. intros Hi. apply Hne. by eapply NoDup_lookup.
Qed.

(** The processor at [c] may change; the others' parts of the invariant stay. *)
Lemma done_ok_keep dn s s' : done_ok dn s -> (forall i, i ∈ dn -> s_cpus s' !! i = s_cpus s !! i) -> done_ok dn s'.
Proof. intros H E n i Hn. destruct (H n i Hn) as (page & Hp & Hi). exists page. split; [done|]. rewrite E; [done|]. by apply list_elem_of_lookup_2 in Hn. Qed.
Lemma off_ok_keep rest s s' : off_ok rest s -> (forall i, i ∈ rest -> s_cpus s' !! i = s_cpus s !! i) -> off_ok rest s'.
Proof. intros H E i p Hi. rewrite E by done. by apply H. Qed.

Lemma apart_c dn c rest : others = dn ++ c :: rest -> (forall i, i ∈ dn -> i <> c) /\ (forall i, i ∈ rest -> i <> c) /\ c ∈ others.
Proof.
  intros E. pose proof others_nodup as Hn. rewrite E in Hn. apply NoDup_app in Hn as (_ & Hd & [Hr _]%NoDup_cons). split_and!.
  - intros i Hi ->. apply (Hd c Hi). by left.
  - by intros i Hi ->.
  - rewrite E. set_solver.
Qed.

(** The next processor, or the end. *)
Lemma inv_next dn rest s : others = dn ++ rest -> s_todo s = rest ≫= body -> s_code s = Some entryother -> s_free s = drop (length dn) pages ->
  length (s_cpus s) = length apicids -> done_ok dn s -> off_ok rest s -> binv s.
Proof.
  intros E Ht Hc Hf Hl Hd Ho. destruct rest as [|c rest]; [rewrite app_nil_r in E; subst dn; by apply inv_done|].
  destruct (apart_c _ _ _ E) as (_ & _ & [_ Hlt]%others_spec). destruct (lookup_lt_is_Some_2 (s_cpus s) c ltac:(lia)) as [p Hp].
  destruct (lookup_lt_is_Some_2 pages (length dn)) as [page Hpg]; [pose proof enough as He; rewrite E, length_app in He; cbn in He; lia|].
  eapply (inv_at s dn c rest 0 page p); try done; [lia|by rewrite Nat.add_0_r|intros i q Hi; apply Ho; by right|].
  destruct (Ho c p ltac:(by left) Hp) as [? ?]. split_and!; (lia || done).
Qed.

(** A statement that leaves the processors alone. *)
Lemma quiet_step dn c rest j page p s s' : others = dn ++ c :: rest -> (S j < 9)%nat -> s_todo s' = drop (S j) (body c) ++ (rest ≫= body) ->
  s_code s' = Some entryother -> s_free s' = drop (length dn + 1) pages -> s_cpus s' = s_cpus s -> length (s_cpus s) = length apicids -> done_ok dn s -> off_ok rest s ->
  pages !! length dn = Some page -> s_cpus s !! c = Some p -> current_ok (S j) page s' p -> binv s'.
Proof.
  intros E Hj Ht Hc Hf Hcp Hl Hd Ho Hpg Hp Hcur. eapply (inv_at s' dn c rest (S j) page p); try done; rewrite ?Hcp; try done.
  - eapply done_ok_keep; [exact Hd|]. by rewrite Hcp.
  - eapply off_ok_keep; [exact Ho|]. by rewrite Hcp.
Qed.

(** A message to the processor being started. *)
Lemma send_step dn c rest j page p id command s s' : others = dn ++ c :: rest -> (S j < 9)%nat -> s_todo s' = drop (S j) (body c) ++ (rest ≫= body) ->
  apicids !! c = Some id -> s_code s = Some entryother -> s_code s' = s_code s -> s_free s' = drop (length dn + 1) pages -> s_cpus s' = sent (s_code s) id command (s_cpus s) ->
  length (s_cpus s) = length apicids -> done_ok dn s -> off_ok rest s -> pages !! length dn = Some page -> s_cpus s !! c = Some p ->
  current_ok (S j) page s' (react (s_code s) command p) -> binv s'.
Proof.
  intros E Hj Ht Hid Hc Hc' Hf Hcp Hl Hd Ho Hpg Hp Hcur. destruct (apart_c _ _ _ E) as (Hdc & Hrc & _).
  eapply (inv_at s' dn c rest (S j) page); try done; rewrite ?Hcp; try done.
  - congruence.
  - unfold sent. by rewrite length_imap.
  - eapply done_ok_keep; [exact Hd|]. intros i Hi. rewrite Hcp, (sent_lookup _ _ _ c), decide_False by auto. done.
  - eapply off_ok_keep; [exact Ho|]. intros i Hi. rewrite Hcp, (sent_lookup _ _ _ c), decide_False by auto. done.
  - rewrite (sent_lookup _ _ _ c), decide_True, Hp by done. reflexivity.
Qed.

Lemma bsp_inv s s' : binv s -> bsp_step s = Some s' -> binv s'.
Proof.
  intros Hinv Hs. destruct s as [code low free stack todo cpus]. destruct Hinv as [Ht Hf Hl Ho|dn c rest j page p E Ht Hj Hc Hf Hl Hd Ho Hpg Hp Hcur|Ht Hl Hd];
    cbn [s_code s_low s_free s_stack s_todo s_cpus] in *; subst todo; [| |done].
  { injection Hs as <-. by apply (inv_next [] others). }
  destruct (apart_c _ _ _ E) as (Hdc & Hrc & Hco). destruct (body_spec c Hco) as (id & c0 & c1 & c2 & Hid & Eb & R0 & R1 & R2 & R3).
  rewrite Eb in Hs. subst code. destruct Hcur as (C1 & C2 & C3 & C4 & C5). cbn [s_stack s_low] in *.
  assert (hd 0 (drop (length dn) pages) = page /\ tail (drop (length dn) pages) = drop (length dn + 1) pages) as [Hhd Htl].
  { by rewrite (drop_S pages page (length dn) Hpg), Nat.add_1_r. }
  set (st := BState (Some entryother) low free stack (drop j (body c) ++ (rest ≫= body)) cpus) in *.
  assert (words page 4 = u32 (page + KSTACKSIZE) /\ words page 8 = mpenter_at /\ words page 12 = V2P entrypgdir_at) as (W4 & W8 & W12) by done.
  destruct j as [|[|[|[|[|[|[|[|[|j]]]]]]]]]; [..|lia]; cbn [drop app bsp_step Nat.min Nat.ltb Nat.leb] in *; rewrite ?Nat.add_0_r in Hf; subst free;
    try (injection Hs as <-).
  1: apply (quiet_step dn c rest 0 page p st _ E ltac:(lia)); [by rewrite Eb|done..|].
  2: apply (quiet_step dn c rest 1 page p st _ E ltac:(lia)); [by rewrite Eb|done..|].
  3: apply (quiet_step dn c rest 2 page p st _ E ltac:(lia)); [by rewrite Eb|done..|].
  4: apply (quiet_step dn c rest 3 page p st _ E ltac:(lia)); [by rewrite Eb|done..|].
  1-4: split_and!; cbn; intros; try lia; try done; rewrite ?C1, ?W4, ?W8, ?W12 by lia; first [done|apply C2; lia|apply C3; lia].
  1: apply (send_step dn c rest 4 page p id c0 st _ E ltac:(lia)); [by rewrite Eb|done..|].
  2: apply (send_step dn c rest 5 page p id c1 st _ E ltac:(lia)); [by rewrite Eb|done..|].
  3: apply (send_step dn c rest 6 page p id c2 st _ E ltac:(lia)); [by rewrite Eb|done..|].
  4: apply (send_step dn c rest 7 page p id c2 st _ E ltac:(lia)); [by rewrite Eb|done..|].
  1-4: (split; [intros _; apply C1; lia|]; split; [intros _; apply C2; lia|]; split; [intros _; apply C3; lia|]; split; [intros _; apply C4; lia|]).
  - rewrite R0. destruct C5 as [_ C5]. unfold reset. cbn. by rewrite C5.
  - by rewrite R1.
  - destruct C5 as [Cr Cs]. exists 0%nat. split; [lia|]. by apply R2.
  - destruct C5 as (k & Hk & ->). exists k. split; [done|]. apply R3. by apply trace_facts.
  - destruct C5 as (k & Hk & Ep). rewrite Hp in Hs. destruct (c_started p) eqn:Est; [|done]. injection Hs as <-. subst p.
    destruct (trace_facts page k Hk) as (_ & _ & Hkt & _). assert (k = total) as -> by (by apply Hkt).
    apply (inv_next (dn ++ [c]) rest); try done; cbn [s_cpus s_free].
    + by rewrite <- app_assoc.
    + by rewrite length_app.
    + intros n i Hn. destruct (decide (n < length dn)%nat) as [Hlt|Hge].
      * apply (Hd n i). by rewrite lookup_app_l in Hn.
      * rewrite lookup_app_r in Hn by lia. apply list_lookup_singleton_Some in Hn as [Hn <-]. exists page. split; [|exact Hp]. by replace n with (length dn) by lia.
Qed.

Lemma ap_inv s i p p' : binv s -> i <> self -> s_cpus s !! i = Some p -> ap_step (s_low s) p = Some p' ->
  binv (BState (s_code s) (s_low s) (s_free s) (s_stack s) (s_todo s) (<[i := p']> (s_cpus s))).
Proof.
  intros Hinv Hi Hp Hs. assert (i ∈ others) as Hio by (apply lookup_lt_Some in Hp as ?; apply others_spec; destruct Hinv; lia).
  assert (c_run p <> Off) as Hoff by (intros E; unfold ap_step in Hs; by rewrite E in Hs).
  assert (forall page, p <> trace page total) as Hend.
  { intros page ->. unfold ap_step in Hs. by rewrite (proj2 (proj2 (proj2 (trace_facts page total ltac:(lia)))) eq_refl) in Hs. }
  assert (forall dn, i ∈ dn -> ~ done_ok dn s) as Hnd by (intros dn [n Hn]%list_elem_of_lookup Hd; destruct (Hd n i Hn) as (page & _ & E); apply (Hend page); congruence).
  destruct Hinv as [Ht Hf Hl Ho|dn c rest j page q E Ht Hj Hc Hf Hl Hd Ho Hpg Hq Hcur|Ht Hl Hd].
  - by destruct (Ho i p Hio Hp) as [? _].
  - assert (i = c) as ->.
    { rewrite E in Hio. apply elem_of_app in Hio as [Hin|[Hin|Hin]%elem_of_cons]; [by destruct (Hnd dn Hin)|done|by destruct (Ho i p Hin Hp)]. }
    rewrite Hp in Hq. injection Hq as <-. destruct (apart_c _ _ _ E) as (Hdc & Hrc & _). destruct Hcur as (C1 & C2 & C3 & C4 & C5).
    destruct (j <? 5)%nat eqn:E5; [by destruct C5|]. destruct (j <? 7)%nat eqn:E7.
    { destruct C5 as [C5 _]. unfold ap_step in Hs. rewrite C5 in Hs. done. }
    apply Nat.ltb_ge in E5, E7. destruct C5 as (k & Hk & ->). assert (k < total)%nat as Hkt by (destruct (decide (k = total)) as [->|]; [by destruct (Hend page)|lia]).
    rewrite (trace_step page k (s_low s) Hkt) in Hs; [injection Hs as <-|intros w [->|[->| ->]]; [apply C2; lia|apply C3; lia|apply C4; lia]].
    eapply (inv_at _ dn c rest j page); try done; cbn [s_cpus].
    + by rewrite length_insert.
    + eapply done_ok_keep; [exact Hd|]. intros x Hx. cbn [s_cpus]. rewrite list_lookup_insert_ne; [done|]. symmetry. by apply Hdc.
    + eapply off_ok_keep; [exact Ho|]. intros x Hx. cbn [s_cpus]. rewrite list_lookup_insert_ne; [done|]. symmetry. by apply Hrc.
    + apply list_lookup_insert_eq. by eapply lookup_lt_Some.
    + split; [exact C1|]. split; [exact C2|]. split; [exact C3|]. split; [exact C4|].
      rewrite (proj2 (Nat.ltb_ge _ _) E5), (proj2 (Nat.ltb_ge _ _) E7). exists (S k). split; [lia|done].
  - by destruct (Hnd others Hio).
Qed.

Lemma bstep_inv s s' : binv s -> bstep s s' -> binv s'.
Proof. intros Hi Hst. destruct Hst as [s s' Hs|s i p p' Hne Hp Hs]; [exact (bsp_inv s s' Hi Hs)|exact (ap_inv s i p p' Hi Hne Hp Hs)]. Qed.

Lemma at_start_inv s : at_start pages s -> binv s.
Proof. intros [Ht Hf Hl Ho]. apply inv_before; try done. intros i p [Hi _]%others_spec. by apply Ho. Qed.

Lemma start_reachable s0 s : at_start pages s0 -> rtc bstep s0 s -> binv s.
Proof. intros H0%at_start_inv Hr. revert H0. induction Hr as [|x y z Hxy _ IH]; [done|]. intros Hx. apply IH. by apply (bstep_inv x). Qed.

(** *** Every step brings the end nearer *)

Fixpoint potential (l : list action) : nat :=
  match l with [] => 0 | Call_at _ :: l => S (length mpenter + potential l) | _ :: l => S (potential l) end.
Definition cpu_left (p : bcpu) : nat := match c_run p with Running l => potential l | _ => 0 end.
Definition left_todo (s : bstate) : nat := 20 * length (s_todo s) + sum_list_with cpu_left (s_cpus s).

Lemma sum_insert {A} (f : A -> nat) (l : list A) : forall i x y, l !! i = Some x -> (sum_list_with f (<[i := y]> l) + f x = sum_list_with f l + f y)%nat.
Proof. induction l as [|z l IH]; intros [|i] x y Hx; simplify_eq/=; [lia|]. specialize (IH i x y Hx). lia. Qed.

Lemma action_left low a l p : (cpu_left (do_action low a l p) < potential (a :: l))%nat.
Proof. destruct p, a; cbn; try destruct (_ =? _); cbn; lia. Qed.

Lemma react_left command p : (cpu_left (react (Some entryother) command p) <= 16 + cpu_left p)%nat.
Proof.
  unfold react. destruct (_ =? _); [destruct (has _ _); cbn; lia|]. destruct (startup_address command) as [a|]; [|lia]. destruct p as [[]]; cbn; try lia. destruct (a =? 28672); cbn; lia.
Qed.

Lemma sent_left id command cpus : (sum_list_with cpu_left (sent (Some entryother) id command cpus) <= 16 + sum_list_with cpu_left cpus)%nat.
Proof.
  destruct (decide (id ∈ apicids)) as [[c Hc]%list_elem_of_lookup|Hn].
  - destruct (cpus !! c) as [p|] eqn:Hp.
    + assert (sent (Some entryother) id command cpus = <[c := react (Some entryother) command p]> cpus) as ->.
      { apply list_eq. intros i. rewrite (sent_lookup _ _ _ c) by done. destruct (decide (i = c)) as [->|Hne]; [|by rewrite list_lookup_insert_ne].
        rewrite Hp, list_lookup_insert_eq by (by eapply lookup_lt_Some). done. }
      pose proof (sum_insert cpu_left cpus c p (react (Some entryother) command p) Hp). pose proof (react_left command p). lia.
    + assert (sent (Some entryother) id command cpus = cpus) as ->; [|lia]. apply list_eq. intros i. rewrite (sent_lookup _ _ _ c) by done. destruct (decide (i = c)) as [->|]; [by rewrite Hp|done].
  - assert (sent (Some entryother) id command cpus = cpus) as ->; [|lia]. apply list_eq. intros i. unfold sent. rewrite list_lookup_imap. rewrite bool_decide_false; [by destruct (cpus !! i)|].
    intros Hi. apply Hn. by eapply list_elem_of_lookup_2.
Qed.

Lemma bstep_left s s' : binv s -> bstep s s' -> (left_todo s' < left_todo s)%nat.
Proof.
  intros Hinv Hst. destruct Hst as [[code low free stack todo cpus] s' Hs|s i p p' Hne Hp Hs]; unfold left_todo; cbn [s_todo s_cpus].
  - destruct todo as [|[| | | | |id command|c] todo]; simplify_eq/=; try lia.
    + assert (code = Some entryother) as ->. { destruct Hinv; cbn in *; [done|done|done]. }
      pose proof (sent_left id command cpus) as H. unfold sent in H. lia.
    + destruct (cpus !! c) as [p|]; [|done]. destruct (c_started p); simplify_eq/=. lia.
  - unfold ap_step in Hs. destruct (c_run p) as [| |[|a l]|] eqn:E; try done. injection Hs as <-.
    pose proof (action_left (s_low s) a l p). pose proof (sum_insert cpu_left (s_cpus s) i p (do_action (s_low s) a l p) Hp) as H1. unfold cpu_left at 2 in H1. rewrite E in H1. lia.
Qed.

(** A processor that is up: in the scheduler, on the kernel's page table, with the
    kernel's segments and gates. *)
Definition up (p : bcpu) : Prop :=
  c_run p = Running [] /\ c_started p = true /\ has (c_cr0 p) CR0_PG = true /\ c_cr3 p = V2P kpgdir /\ c_gdt p = Kernel_table /\ c_idt p = Kernel_table.

Lemma trace_up page : up (trace page total).
Proof.
  assert (words page 8 = mpenter_at) as E8 by done. unfold up. change total with 16%nat. cbn -[Z.eqb words]. rewrite ?E8, ?Z.eqb_refl. split_and!; done.
Qed.

Lemma smp_progress s : binv s -> (exists s', bstep s s') \/ s_todo s = [] /\ forall i, i ∈ others -> exists p, s_cpus s !! i = Some p /\ up p.
Proof.
  intros [Ht Hf Hl Ho|dn c rest j page p E Ht Hj Hc Hf Hl Hd Ho Hpg Hp Hcur|Ht Hl Hd].
  - left. destruct s as [code low free stack todo cpus]. cbn in Ht. subst todo. eexists. by apply step_bsp.
  - left. destruct (apart_c _ _ _ E) as (_ & _ & Hco). destruct (body_spec c Hco) as (id & c0 & c1 & c2 & _ & Eb & _). rewrite Eb in Ht.
    destruct (decide (j = 8%nat)) as [->|Hne].
    + destruct Hcur as (_ & C2 & C3 & C4 & k & Hk & ->). destruct (decide (k = total)) as [->|].
      * destruct s as [code low free stack todo cpus]. cbn [s_todo s_cpus] in Ht, Hp. subst todo. eexists. apply step_bsp. cbn [drop app bsp_step]. rewrite Hp, (proj2 (proj1 (proj2 (proj2 (trace_facts page total ltac:(lia)))))) by done. done.
      * eexists. eapply step_ap; [by apply others_spec|exact Hp|]. apply trace_step; [lia|]. intros w [->|[->| ->]]; [apply C2; lia|apply C3; lia|apply C4; lia].
    + destruct s as [code low free stack todo cpus]. cbn in Ht. subst todo. destruct j as [|[|[|[|[|[|[|[|j]]]]]]]]; [..|lia]; eexists; by apply step_bsp.
  - right. split; [done|]. intros i [n Hn]%list_elem_of_lookup. destruct (Hd n i Hn) as (page & _ & Hi). exists (trace page total). split; [done|apply trace_up].
Qed.

Lemma trace_regs page k : aligned page -> KERNBASE <= page < P2V 0x400000 -> (k <= total)%nat ->
  (forall a, c_run (trace page k) <> Wild a) /\ (c_esp (trace page k) <> 0 -> (c_esp (trace page k) - 1) / PGSIZE * PGSIZE = page) /\
  (has (c_cr0 (trace page k)) CR0_PG = true -> has (c_cr4 (trace page k)) CR4_PSE = true /\ (c_cr3 (trace page k) = V2P entrypgdir_at \/ c_cr3 (trace page k) = V2P kpgdir)).
Proof.
  clear enough. assert (words page 8 = mpenter_at) as E8 by done. change total with 16%nat. intros Ha Hp Hk.
  assert ((u32 (page + KSTACKSIZE) - 1) / PGSIZE * PGSIZE = page /\ (u32 (u32 (page + KSTACKSIZE) - 4) - 1) / PGSIZE * PGSIZE = page) as [E1 E2].
  { change (P2V 4194304) with 2151677952 in Hp. unfold aligned, KERNBASE, KSTACKSIZE, PGSIZE in *. ulia. }
  each k; cbn -[Z.eqb words]; rewrite ?E8, ?Z.eqb_refl; cbn -[Z.eqb words];
    (split; [intros a; discriminate|]; split; [first [by intros []|intros _; first [exact E1|exact E2]]|]; intros Hpg; first [discriminate Hpg|split; [reflexivity|by auto]]).
Qed.

Definition runs_code (p : bcpu) : bool := match c_run p with Off | Waiting => false | _ => true end.
(** The page of the stack a processor has loaded. *)
Definition stack_page (p : bcpu) : Z := (c_esp p - 1) / PGSIZE * PGSIZE.

Lemma running_trace s i p : binv s -> i <> self -> s_cpus s !! i = Some p -> runs_code p = true ->
  exists n page k, others !! n = Some i /\ pages !! n = Some page /\ (k <= total)%nat /\ p = trace page k.
Proof.
  intros Hinv Hi Hp Hr. assert (i ∈ others) as Hio by (apply lookup_lt_Some in Hp as ?; apply others_spec; destruct Hinv; lia).
  assert (c_run p <> Off) as Hoff by (intros E; unfold runs_code in Hr; by rewrite E in Hr).
  assert (forall dn rest, others = dn ++ rest -> done_ok dn s -> i ∈ dn -> exists n page k, others !! n = Some i /\ pages !! n = Some page /\ (k <= total)%nat /\ p = trace page k) as Hdone.
  { intros dn rest E Hd [n Hn]%list_elem_of_lookup. destruct (Hd n i Hn) as (page & Hpg & Hq). exists n, page, total. split; [rewrite E; by apply lookup_app_l_Some|]. split; [done|]. split; [lia|congruence]. }
  destruct Hinv as [Ht Hf Hl Ho|dn c rest j page q E Ht Hj Hc Hf Hl Hd Ho Hpg Hq Hcur|Ht Hl Hd].
  - by destruct (Ho i p Hio Hp) as [? _].
  - pose proof Hio as Hio'. rewrite E in Hio'. apply elem_of_app in Hio' as [Hin|[->|Hin]%elem_of_cons]; [by eapply Hdone| |by destruct (Ho i p Hin Hp)].
    rewrite Hp in Hq. injection Hq as <-. destruct Hcur as (_ & _ & _ & _ & C5). destruct (j <? 5)%nat; [by destruct C5|]. destruct (j <? 7)%nat.
    { destruct C5 as [C5 _]. unfold runs_code in Hr. rewrite C5 in Hr. done. }
    destruct C5 as (k & Hk & ->). exists (length dn), page, k. split; [rewrite E; by apply list_lookup_middle|done].
  - apply (Hdone others []); [by rewrite app_nil_r|done|done].
Qed.
End smp.

(** ** The boot page directory and the boot segments *)

(** [entrypgdir] maps the first 4 megabytes at 0 and at [KERNBASE], and nothing else. *)
Lemma entry_maps va : is_u32 va -> translate_ps entrypgdir va =
  if va <? 0x400000 then Some va else if (KERNBASE <=? va) && (va <? P2V 0x400000) then Some (V2P va) else None.
Proof.
  intros Hu. unfold translate_ps, entrypgdir. change (Z.shiftr KERNBASE 22) with 512. rewrite PDX_spec by done. change (2 ^ 22) with 4194304. change (P2V 4194304) with 2151677952.
  unfold is_u32, two32 in Hu. destruct (Z.ltb_spec va 4194304) as [H1|H1].
  - assert (va / 4194304 = 0) as -> by ulia. change (Some (0 + va mod 4194304) = Some va). f_equal. ulia.
  - unfold KERNBASE. destruct (Z.leb_spec 2147483648 va) as [H2|H2]; [destruct (Z.ltb_spec va 2151677952) as [H3|H3]|]; cbn [andb].
    + assert (va / 4194304 = 512) as -> by ulia. change (Some (0 + va mod 4194304) = Some (V2P va)). f_equal. unfold V2P, KERNBASE. ulia.
    + assert ((va / 4194304 =? 0) || (va / 4194304 =? 512) = false) as -> by ulia. done.
    + assert ((va / 4194304 =? 0) || (va / 4194304 =? 512) = false) as -> by ulia. done.
Qed.

(** The assembler's macro makes the descriptor that C's [SEG] makes for the kernel. *)
Lemma SEG_ASM_SEG type base lim : 0 <= type < 16 -> is_u32 base -> is_u32 lim -> SEG_ASM type base lim = seg_bits (SEG type base lim 0).
Proof.
  intros Ht Hb Hl. assert (Z.lor 0x90 type = 0x90 + type) as Et.
  { assert (forallb (fun t => Z.lor 0x90 t =? 0x90 + t) (seqZ 0 16) = true) as H by (by vm_compute). rewrite forallb_forall in H. apply Z.eqb_eq, H, list_elem_of_In, elem_of_seqZ. lia. }
  assert (forall x, 0 <= x < 16 -> Z.lor 0xC0 x = 0xC0 + x) as Ec.
  { intros x Hx. assert (forallb (fun t => Z.lor 0xC0 t =? 0xC0 + t) (seqZ 0 16) = true) as H by (by vm_compute). rewrite forallb_forall in H. apply Z.eqb_eq, H, list_elem_of_In, elem_of_seqZ. lia. }
  unfold is_u32, two32 in *. unfold SEG_ASM, seg_bits, SEG. cbn [lim_15_0 base_15_0 base_23_16 sd_type sd_s sd_dpl sd_p lim_19_16 sd_avl sd_rsv1 sd_db sd_g base_31_24].
  change 0xffff with (2 ^ 16 - 1). change 0xff with (2 ^ 8 - 1). change 0xf with (2 ^ 4 - 1). rewrite !land_low, !Z.shiftr_div_pow2 by lia. rewrite Ec by (apply Z.mod_pos_bound; lia). rewrite Et.
  cbn [pack]. change (2 ^ 28) with 268435456. change (2 ^ 24) with 16777216. change (2 ^ 12) with 4096. change (2 ^ 16) with 65536. change (2 ^ 8) with 256. change (2 ^ 4) with 16. change (2 ^ 1) with 2. change (2 ^ 2) with 4.
  ulia.
Qed.

(** So the boot code runs on the same flat segments as the kernel. *)
Lemma boot_segments gdt : length gdt = 6%nat -> forall i, (i = 1 \/ i = 2)%nat -> boot_gdt !! i = seg_bits <$> seginit gdt !! i.
Proof.
  intros Hl i Hi. destruct gdt as [|d0 [|d1 [|d2 [|d3 [|d4 [|d5 []]]]]]]; try done. destruct Hi as [->| ->]; cbn [boot_gdt lookup list_lookup]; rewrite SEG_ASM_SEG by done; reflexivity.
Qed.

(** ** Claims *)

(** C13: No two processors run on one stack.  Whatever the order in which the boot
    processor's statements and the others' instructions interleave, every other
    processor that runs executes only the code put there for it; the stack it has
    loaded is the page that [kalloc] returned for it and for no other processor; and
    with paging on it uses [entrypgdir], which maps that stack, or the kernel's page
    table. *)
Theorem ap_stacks_own (mpenter_at entrypgdir_at kpgdir : Z) (apicids : list Z) (self : nat) (pages : list Z) (s0 s : bstate) :
  NoDup apicids -> Forall (fun a => 0 <= a < 256) apicids -> NoDup pages -> Forall (fun x => aligned x /\ KERNBASE <= x < P2V 0x400000) pages ->
  (length (others apicids self) <= length pages)%nat -> at_start apicids self pages s0 -> rtc (bstep mpenter_at entrypgdir_at kpgdir apicids self) s0 s ->
  forall i p, i <> self -> s_cpus s !! i = Some p -> runs_code p = true ->
    (forall a, c_run p <> Wild a) /\
    (c_esp p <> 0 -> stack_page p ∈ pages /\ (forall o, 0 <= o < KSTACKSIZE -> translate_ps entrypgdir (stack_page p + o) = Some (V2P (stack_page p + o))) /\
       forall i' p', i' <> self -> i' <> i -> s_cpus s !! i' = Some p' -> runs_code p' = true -> c_esp p' <> 0 -> stack_page p' <> stack_page p) /\
    (has (c_cr0 p) CR0_PG = true -> has (c_cr4 p) CR4_PSE = true /\ (c_cr3 p = V2P entrypgdir_at \/ c_cr3 p = V2P kpgdir)).
Proof.
  intros Hids Hbyte Hnd Hpages Hen H0 Hr i p Hi Hp Hrun. pose proof (start_reachable mpenter_at entrypgdir_at kpgdir apicids self pages Hen Hids Hbyte s0 s H0 Hr) as Hinv.
  destruct (running_trace _ _ _ _ _ pages Hen s i p Hinv Hi Hp Hrun) as (n & page & k & Hn & Hpg & Hk & ->). rewrite Forall_lookup in Hpages. destruct (Hpages n page Hpg) as [Ha Hrange].
  destruct (trace_regs mpenter_at entrypgdir_at kpgdir page k Ha Hrange Hk) as (T1 & T2 & T3). split; [exact T1|]. split; [|exact T3]. intros He. specialize (T2 He). fold (stack_page (trace mpenter_at entrypgdir_at kpgdir page k)) in T2. rewrite T2.
  split; [by eapply list_elem_of_lookup_2|]. split.
  - intros o Ho. change (P2V 4194304) with 2151677952 in Hrange. unfold aligned, KERNBASE, KSTACKSIZE, PGSIZE in *. rewrite entry_maps by (unfold is_u32, two32; lia). change (P2V 4194304) with 2151677952. unfold KERNBASE.
    rewrite (proj2 (Z.ltb_ge _ _)), (proj2 (Z.leb_le _ _)), (proj2 (Z.ltb_lt _ _)) by ulia. done.
  - intros i' p' Hi' Hne Hp' Hrun' He'. destruct (running_trace _ _ _ _ _ pages Hen s i' p' Hinv Hi' Hp' Hrun') as (n' & page' & k' & Hn' & Hpg' & Hk' & ->). destruct (Hpages n' page' Hpg') as [Ha' Hrange'].
    destruct (trace_regs mpenter_at entrypgdir_at kpgdir page' k' Ha' Hrange' Hk') as (_ & T2' & _). unfold stack_page. rewrite (T2' He'). intros ->. apply Hne.
    assert (n' = n) as -> by (by eapply NoDup_lookup). congruence.
Qed.

(** C23: The other processors come up.  However the steps interleave, [startothers]
    takes a bounded number of them, and when no step is left the boot processor has
    come through it and every other processor is in the scheduler, on the kernel's
    page table and with the kernel's descriptor tables. *)
Theorem startothers_ends (mpenter_at entrypgdir_at kpgdir : Z) (apicids : list Z) (self : nat) (pages : list Z) (s0 : bstate) :
  NoDup apicids -> Forall (fun a => 0 <= a < 256) apicids -> (length (others apicids self) <= length pages)%nat -> at_start apicids self pages s0 ->
  exists bound, forall n s, nsteps (bstep mpenter_at entrypgdir_at kpgdir apicids self) n s0 s ->
    (n <= bound)%nat /\
    ((forall s', ~ bstep mpenter_at entrypgdir_at kpgdir apicids self s s') ->
       s_todo s = [] /\ forall i, i ∈ others apicids self -> exists p, s_cpus s !! i = Some p /\ up kpgdir p).
Proof.
  intros Hids Hbyte Hen H0. exists (left_todo s0). intros n s Hn. pose proof (start_reachable mpenter_at entrypgdir_at kpgdir apicids self pages Hen Hids Hbyte s0 s H0 (rtc_nsteps_2 n _ _ Hn)) as Hinv. split.
  - pose proof (start_reachable mpenter_at entrypgdir_at kpgdir apicids self pages Hen Hids Hbyte s0 s0 H0 (rtc_refl _ _)) as Hi0. enough (n + left_todo s <= left_todo s0)%nat by lia. clear -Hn Hi0 Hids Hbyte Hen.
    induction Hn as [|n x y z Hxy _ IH]; [lia|]. pose proof (bstep_left _ _ _ _ _ pages Hen Hids x y Hi0 Hxy). specialize (IH (bstep_inv _ _ _ _ _ pages Hen Hids Hbyte x y Hi0 Hxy)). lia.
  - intros Hno. destruct (smp_progress _ _ _ _ _ pages Hen Hids Hbyte s Hinv) as [[s' Hs']|?]; [by destruct (Hno s')|done].
Qed.

(** ** An example: three processors, of which the second booted *)

Definition off_cpu : bcpu := BCpu Off 0 0 0 0 0 0 Bios_table Bios_table false.
Definition three : bstate := BState None (fun _ => 0) [0x803ff000; 0x803fe000] 0 (startothers [0; 4; 6] 1) (replicate 3 off_cpu).

(** Who moves: the boot processor, or another. *)
Fixpoint play (l : list (option nat)) (s : bstate) : option bstate :=
  match l with
  | [] => Some s
  | None :: l => match bsp_step 0x80102000 0x80109000 [0; 4; 6] s with Some s' => play l s' | None => None end
  | Some i :: l =>
      match s_cpus s !! i with
      | Some p => match ap_step 0x80102000 0x803f0000 (s_low s) p with
                  | Some p' => play l (BState (s_code s) (s_low s) (s_free s) (s_stack s) (s_todo s) (<[i := p']> (s_cpus s)))
                  | None => None
                  end
      | None => None
      end
  end.

Lemma play_rtc l : Forall (fun o => o <> Some 1%nat) l -> forall s s', play l s = Some s' -> rtc (bstep 0x80102000 0x80109000 0x803f0000 [0; 4; 6] 1) s s'.
Proof.
  induction 1 as [|[i|] l Hi _ IH]; intros s s' Hs; cbn [play] in Hs.
  - injection Hs as <-. constructor.
  - destruct (s_cpus s !! i) as [p|] eqn:Ep; [|done]. destruct (ap_step _ _ _ p) as [p'|] eqn:Es; [|done]. econstructor; [|by apply IH]. eapply step_ap; [congruence|exact Ep|exact Es].
  - destruct (bsp_step _ _ _ s) as [t|] eqn:Es; [|done]. econstructor; [|by apply IH]. by apply step_bsp.
Qed.

Lemma three_start : at_start [0; 4; 6] 1 [0x803ff000; 0x803fe000] three.
Proof. split; [done|done|done|]. intros i p _ Hp. cbn in Hp. by apply (lookup_replicate_1 3) in Hp as [-> _]. Qed.

(** The first processor is up, the third has just loaded its stack. *)
Definition two_up : list (option nat) := replicate 9 None ++ replicate 16 (Some 0%nat) ++ replicate 9 None ++ replicate 10 (Some 2%nat).

Definition two_up_state : bstate := match play two_up three with Some s => s | None => three end.
Definition third : bcpu := match s_cpus two_up_state !! 2%nat with Some p => p | None => off_cpu end.

Lemma two_up_run : rtc (bstep 0x80102000 0x80109000 0x803f0000 [0; 4; 6] 1) three two_up_state.
Proof.
  apply (play_rtc two_up); [apply (bool_decide_unpack _); by vm_compute|]. unfold two_up_state. assert (is_Some (play two_up three)) as [s ->]; [|done].
  apply (bool_decide_unpack _). by vm_compute.
Qed.
Lemma third_state : s_cpus two_up_state !! 2%nat = Some third.
Proof. unfold third. assert (is_Some (s_cpus two_up_state !! 2%nat)) as [p ->]; [|done]. apply (bool_decide_unpack _). by vm_compute. Qed.

Lemma ap_stacks_own_witness : stack_page third ∈ [0x803ff000; 0x803fe000].
Proof.
  refine (proj1 (proj1 (proj2 (ap_stacks_own 0x80102000 0x80109000 0x803f0000 [0; 4; 6] 1 [0x803ff000; 0x803fe000] three two_up_state _ _ _ _ _ three_start two_up_run 2%nat third _ third_state _)) _)).
  - apply (bool_decide_unpack _). by vm_compute.
  - repeat constructor; lia.
  - apply (bool_decide_unpack _). by vm_compute.
  - repeat constructor; by vm_compute.
  - by vm_compute.
  - lia.
  - by vm_compute.
  - by vm_compute.
Defined.

Lemma startothers_ends_witness : exists bound, forall n s, nsteps (bstep 0x80102000 0x80109000 0x803f0000 [0; 4; 6] 1) n three s -> (n <= bound)%nat.
Proof.
  destruct (startothers_ends 0x80102000 0x80109000 0x803f0000 [0; 4; 6] 1 [0x803ff000; 0x803fe000] three) as [bound H].
  - apply (bool_decide_unpack _). by vm_compute.
  - repeat constructor; lia.
  - by vm_compute.
  - exact three_start.
  - exists bound. intros n s Hn. by destruct (H n s Hn).
Defined.
