(* ===== verification/Umode.v ===== *)
(** * Programs that make system calls ([usys.S])

    A user program on the kernel's model: a call puts its arguments on the
    program's stack, where the kernel fetches them, and runs the kernel's function
    on the file system. *)

From S2P Require Import Prelude Mmu Strings Pipe Bytes Bio Log Fs FsBlock FsPath File Syscall Sysfile Mkfs MkfsImg MkfsMain Boot Console Tools.

(** ** Programs *)

(** The kernel with the process's descriptors and directory, the process's memory,
    and what it has printed. *)
Record ust := UST { t_k : sfs; t_ram : gmap Z Z; t_text : list Z }.

(** A program goes on, has called [exit], or the kernel did not return to it. *)
Inductive ran (A : Type) := Goes (a : A) (s : ust) | Ended (s : ust) | Stuck (why : string).
Arguments Goes {A} a s.
Arguments Ended {A} s.
Arguments Stuck {A} why.
Definition U (A : Type) : Type := ust -> ran A.
#[global] Instance U_ret : MRet U := fun A a s => Goes a s.
#[global] Instance U_bind : MBind U := fun A B k m s => match m s with Goes a s => k a s | Ended s => Ended s | Stuck w => Stuck w end.
Definition exit {A} : U A := fun s => Ended s.

Fixpoint for_ {A} (l : list A) (f : A -> U ()) : U () :=
  match l with [] => mret () | x :: l => f x;; for_ l f end.

(** Memory: a page for each string argument, [buf], the stack. *)
Definition STR0 : Z := 0x1000.
Definition STR1 : Z := 0x1400.
Definition CHR : Z := 0x1800.
Definition BUF : Z := 0x2000.
Definition STACK : Z := 0x7000.
Definition SIZE : Z := 0x8000.

Fixpoint store (a : Z) (bs : list Z) (ram : gmap Z Z) : gmap Z Z :=
  match bs with [] => ram | b :: bs => store (a + 1) bs (<[a := b]> ram) end.
Definition le32 (v : Z) : list Z := [v mod 256; v / 256 mod 256; v / 65536 mod 256; v / 16777216 mod 256].
Definition load (a : Z) (ram : gmap Z Z) : Z := default 0 (ram !! a).

Definition devsw (major : Z) : device :=
  if major =? 1 then Device None (Some (fun ip buf n => iunlock ip;; ilock ip;; mret n)) else Device None None.

(** A call of the stub of [usys.S]: the arguments are on the stack above the
    return address. *)
Definition call {A} (strs : list (Z * list Z)) (args : list Z) (h : user -> M sfs A) : U A := fun s =>
  let ram := foldl (fun ram x => store (fst x) (snd x ++ [0]) ram) (t_ram s) strs in
  let ram := store (STACK + 4) (concat (map le32 args)) ram in
  match h (User SIZE STACK 0 (fun a => load a ram)) (t_k s) with
  | Ok a k => Goes a (UST k ram (t_text s))
  | Panic m => Stuck m
  | Fault _ => Stuck "fault"
  | Blocked _ => Stuck "blocked"
  | NoFuel => Stuck "no fuel"
  end.

Definition open (path : list Z) (mode : Z) : U Z := call [(STR0, path)] [STR0; mode] (sys_open devsw).
Definition mkdir (path : list Z) : U Z := call [(STR0, path)] [STR0] (sys_mkdir devsw).
Definition mknod (path : list Z) (major minor : Z) : U Z := call [(STR0, path)] [STR0; major; minor] (sys_mknod devsw).
Definition chdir (path : list Z) : U Z := call [(STR0, path)] [STR0] (sys_chdir devsw).
Definition unlink (path : list Z) : U Z := call [(STR0, path)] [STR0] (sys_unlink devsw).
Definition link (old new : list Z) : U Z := call [(STR0, old); (STR1, new)] [STR0; STR1] (sys_link devsw).
Definition close (fd : Z) : U Z := call [] [fd] sys_close.
Definition dup (fd : Z) : U Z := call [] [fd] sys_dup.
Definition write_at (fd addr n : Z) : U Z := call [] [fd; addr; n] (sys_write devsw false).
Definition write_str (fd : Z) (bs : list Z) : U Z := call [(STR0, bs)] [fd; STR0; Z.of_nat (length bs)] (sys_write devsw false).
Definition read_at (fd addr n : Z) : U Z := fun s =>
  match call [] [fd; addr; n] (sys_read devsw false) s with
  | Goes (r, bs) s => Goes r (UST (t_k s) (store addr bs (t_ram s)) (t_text s))
  | Ended s => Ended s
  | Stuck w => Stuck w
  end.

Definition poke (a : Z) (bs : list Z) : U () := fun s => Goes () (UST (t_k s) (store a bs (t_ram s)) (t_text s)).
Definition peek (a : Z) : U Z := fun s => Goes (load a (t_ram s)) s.
Definition memset (a c : Z) (n : nat) : U () := poke a (replicate n c).

(** [putc]: one byte a call. *)
Definition printed (bs : list Z) : U () := fun s => Goes () (UST (t_k s) (t_ram s) (t_text s ++ bs)).
Definition putc (fd c : Z) : U () := poke CHR [c];; r ← write_at fd CHR 1; if r =? 1 then printed [c] else mret ().
Definition print (fd : Z) (fmt : string) (args : list uarg) : U () := for_ (format fmt args) (putc fd).
Definition line (msg : string) : U () := print 1 (msg ++ newline) [].
(** [if(b){ printf(1, ...); exit(); }] *)
Definition fails (b : bool) (fmt : string) (args : list uarg) : U () := if b then print 1 fmt args;; exit else mret ().
Definition fail_if (b : bool) (msg : string) : U () := fails b (msg ++ newline) [].


Definition fstat (fd : Z) : U (Z * option stat) := call [] [fd; BUF] sys_fstat.
Definition O_CREATE_RDWR : Z := Z.lor O_CREATE O_RDWR.

(** ** On a new image *)

(** The first process, when the image holds [files]: the root is its directory. *)
Definition first_process (files : given) : option ust :=
  match mkfs files new_image with
  | Ok _ d =>
      match (forkret_first;; iget 1 1) (powered_on (g_disk d)) with
      | Ok root s => Some (UST (SFS (KFS s (replicate NFILE empty_file) ∅ []) (replicate NOFILE None) root) ∅ [])
      | _ => None
      end
  | _ => None
  end.
Definition text_of_lines (l : list string) : list Z := concat (map (fun m => chars m ++ [10]) l).

(** [init.c] up to the loop that starts shells. *)
Definition init_main : U () :=
  fd ← open (chars "console") O_RDWR;
  (if fd <? 0 then mknod (chars "console") 1 1;; open (chars "console") O_RDWR;; mret () else mret ());;
  dup 0;;
  dup 0;;
  mret ().
