(* ===== verification/Usertests.v ===== *)
(** * The repository's own tests ([usertests.c])

    The file-system tests of [usertests.c] that run in one process, and those in
    which a parent only waits for its child, as programs that make system calls
    on the kernel's model: on the image [mkfs] makes, with the log, the buffer
    cache, inodes, directories, open files and the checks of arguments under them. *)

From S2P Require Import Prelude Mmu Strings Pipe Bytes Bio Log Fs FsBlock FsPath File Syscall Sysfile Mkfs MkfsImg MkfsMain Boot Console Tools Umode.

(** ** [usertests.c] *)

(** In the child of [fork] with the parent in [wait]: the child has its parent's
    files and directory; [exit] closes and drops them.  Without paging, so no process
    has a swap file. *)
Definition lift {A} (m : M sfs A) : U A := call [] [] (fun _ => m).
Definition dup_all (l : list (option nat)) : M sfs () := forM l (fun o => match o with Some f => onk (filedup f);; mret () | None => mret () end).
Definition close_all (n : nat) : M sfs () :=
  forM (seq 0 n) (fun fd => s ← get; match p_ofile s !! fd with Some (Some f) => onk (fileclose f);; modify (set_ofile fd None) | _ => mret () end).
Definition fork_wait (child : U ()) : U () := fun s =>
  let parent := t_k s in
  match lift (dup_all (p_ofile parent);; oni (idup (p_cwd parent));; mret ()) s with
  | Goes _ s1 =>
      match child s1 with
      | Ended s2 =>
          match lift (close_all NOFILE;; x ← get; onop begin_op;; oni (iput (p_cwd x));; onop end_op) s2 with
          | Goes _ s3 => Goes () (UST (SFS (p_k (t_k s3)) (p_ofile parent) (p_cwd parent)) (t_ram s) (t_text s3))
          | Ended s3 => Ended s3
          | Stuck w => Stuck w
          end
      | Goes _ _ => Stuck "the child returned"
      | Stuck w => Stuck w
      end
  | Ended s1 => Ended s1
  | Stuck w => Stuck w
  end.

Definition iputtest : U () :=
  line "iput test";;
  r ← mkdir (chars "iputdir"); fail_if (r <? 0) "mkdir failed";;
  r ← chdir (chars "iputdir"); fail_if (r <? 0) "chdir iputdir failed";;
  r ← unlink (chars "../iputdir"); fail_if (r <? 0) "unlink ../iputdir failed";;
  r ← chdir (chars "/"); fail_if (r <? 0) "chdir / failed";;
  line "iput test ok".

Definition exitiputtest : U () :=
  line "exitiput test";;
  fork_wait (
    r ← mkdir (chars "iputdir"); fail_if (r <? 0) "mkdir failed";;
    r ← chdir (chars "iputdir"); fail_if (r <? 0) "child chdir failed";;
    r ← unlink (chars "../iputdir"); fail_if (r <? 0) "unlink ../iputdir failed";;
    exit);;
  line "exitiput test ok".

Definition opentest : U () :=
  line "open test";;
  fd ← open (chars "echo") 0; fail_if (fd <? 0) "open echo failed!";;
  close fd;;
  fd ← open (chars "doesnotexist") 0; fail_if (0 <=? fd) "open doesnotexist succeeded!";;
  line "open test ok".

Definition writetest : U () :=
  line "small file test";;
  fd ← open (chars "small") O_CREATE_RDWR;
  (if 0 <=? fd then line "creat small succeeded; ok" else fail_if true "error: creat small failed!");;
  for_ (seqZ 0 100) (fun i =>
    r ← write_str fd (chars "aaaaaaaaaa"); fails (negb (r =? 10)) ("error: write aa %d new file failed" ++ newline) [Num i];;
    r ← write_str fd (chars "bbbbbbbbbb"); fails (negb (r =? 10)) ("error: write bb %d new file failed" ++ newline) [Num i]);;
  line "writes ok";;
  close fd;;
  fd ← open (chars "small") O_RDONLY;
  (if 0 <=? fd then line "open small succeeded ok" else fail_if true "error: open small failed!");;
  i ← read_at fd BUF 2000;
  (if i =? 2000 then line "read succeeded ok" else fail_if true "read failed");;
  close fd;;
  r ← unlink (chars "small"); fail_if (r <? 0) "unlink small failed";;
  line "small file test ok".

Definition dirtest : U () :=
  line "mkdir test";;
  r ← mkdir (chars "dir0"); fail_if (r <? 0) "mkdir failed";;
  r ← chdir (chars "dir0"); fail_if (r <? 0) "chdir dir0 failed";;
  r ← chdir (chars ".."); fail_if (r <? 0) "chdir .. failed";;
  r ← unlink (chars "dir0"); fail_if (r <? 0) "unlink dir0 failed";;
  line "mkdir test ok".

Definition exitwait : U () :=
  for_ (seq 0 100) (fun _ => fork_wait exit);;
  line "exitwait ok".

Definition unlinkread : U () :=
  line "unlinkread test";;
  fd ← open (chars "unlinkread") O_CREATE_RDWR; fail_if (fd <? 0) "create unlinkread failed";;
  write_str fd (chars "hello");;
  close fd;;
  fd ← open (chars "unlinkread") O_RDWR; fail_if (fd <? 0) "open unlinkread failed";;
  r ← unlink (chars "unlinkread"); fail_if (negb (r =? 0)) "unlink unlinkread failed";;
  fd1 ← open (chars "unlinkread") O_CREATE_RDWR;
  write_str fd1 (chars "yyy");;
  close fd1;;
  r ← read_at fd BUF 8192; fails (negb (r =? 5)) "unlinkread read failed" [];;
  c ← peek BUF; fail_if (negb (c =? 104)) "unlinkread wrong data";;
  r ← write_at fd BUF 10; fail_if (negb (r =? 10)) "unlinkread write failed";;
  close fd;;
  unlink (chars "unlinkread");;
  line "unlinkread ok".

Definition linktest : U () :=
  line "linktest";;
  unlink (chars "lf1");;
  unlink (chars "lf2");;
  fd ← open (chars "lf1") O_CREATE_RDWR; fail_if (fd <? 0) "create lf1 failed";;
  r ← write_str fd (chars "hello"); fail_if (negb (r =? 5)) "write lf1 failed";;
  close fd;;
  r ← link (chars "lf1") (chars "lf2"); fail_if (r <? 0) "link lf1 lf2 failed";;
  unlink (chars "lf1");;
  r ← open (chars "lf1") 0; fail_if (0 <=? r) "unlinked lf1 but it is still there!";;
  fd ← open (chars "lf2") 0; fail_if (fd <? 0) "open lf2 failed";;
  r ← read_at fd BUF 8192; fail_if (negb (r =? 5)) "read lf2 failed";;
  close fd;;
  r ← link (chars "lf2") (chars "lf2"); fail_if (0 <=? r) "link lf2 lf2 succeeded! oops";;
  unlink (chars "lf2");;
  r ← link (chars "lf2") (chars "lf1"); fail_if (0 <=? r) "link non-existant succeeded! oops";;
  r ← link (chars ".") (chars "lf1"); fail_if (0 <=? r) "link . lf1 succeeded! oops";;
  line "linktest ok".

Definition subdir : U () :=
  line "subdir test";;
  unlink (chars "ff");;
  r ← mkdir (chars "dd"); fail_if (negb (r =? 0)) "subdir mkdir dd failed";;
  fd ← open (chars "dd/ff") O_CREATE_RDWR; fail_if (fd <? 0) "create dd/ff failed";;
  write_str fd (chars "ff");;
  close fd;;
  r ← unlink (chars "dd"); fail_if (0 <=? r) "unlink dd (non-empty dir) succeeded!";;
  r ← mkdir (chars "/dd/dd"); fail_if (negb (r =? 0)) "subdir mkdir dd/dd failed";;
  fd ← open (chars "dd/dd/ff") O_CREATE_RDWR; fail_if (fd <? 0) "create dd/dd/ff failed";;
  write_str fd (chars "FF");;
  close fd;;
  fd ← open (chars "dd/dd/../ff") 0; fail_if (fd <? 0) "open dd/dd/../ff failed";;
  cc ← read_at fd BUF 8192; c ← peek BUF; fail_if (negb (cc =? 2) || negb (c =? 102)) "dd/dd/../ff wrong content";;
  close fd;;
  r ← link (chars "dd/dd/ff") (chars "dd/dd/ffff"); fail_if (negb (r =? 0)) "link dd/dd/ff dd/dd/ffff failed";;
  r ← unlink (chars "dd/dd/ff"); fail_if (negb (r =? 0)) "unlink dd/dd/ff failed";;
  r ← open (chars "dd/dd/ff") O_RDONLY; fail_if (0 <=? r) "open (unlinked) dd/dd/ff succeeded";;
  r ← chdir (chars "dd"); fail_if (negb (r =? 0)) "chdir dd failed";;
  r ← chdir (chars "dd/../../dd"); fail_if (negb (r =? 0)) "chdir dd/../../dd failed";;
  r ← chdir (chars "dd/../../../dd"); fail_if (negb (r =? 0)) "chdir dd/../../dd failed";;
  r ← chdir (chars "./.."); fail_if (negb (r =? 0)) "chdir ./.. failed";;
  fd ← open (chars "dd/dd/ffff") 0; fail_if (fd <? 0) "open dd/dd/ffff failed";;
  r ← read_at fd BUF 8192; fail_if (negb (r =? 2)) "read dd/dd/ffff wrong len";;
  close fd;;
  r ← open (chars "dd/dd/ff") O_RDONLY; fail_if (0 <=? r) "open (unlinked) dd/dd/ff succeeded!";;
  r ← open (chars "dd/ff/ff") O_CREATE_RDWR; fail_if (0 <=? r) "create dd/ff/ff succeeded!";;
  r ← open (chars "dd/xx/ff") O_CREATE_RDWR; fail_if (0 <=? r) "create dd/xx/ff succeeded!";;
  r ← open (chars "dd") O_CREATE; fail_if (0 <=? r) "create dd succeeded!";;
  r ← open (chars "dd") O_RDWR; fail_if (0 <=? r) "open dd rdwr succeeded!";;
  r ← open (chars "dd") O_WRONLY; fail_if (0 <=? r) "open dd wronly succeeded!";;
  r ← link (chars "dd/ff/ff") (chars "dd/dd/xx"); fail_if (r =? 0) "link dd/ff/ff dd/dd/xx succeeded!";;
  r ← link (chars "dd/xx/ff") (chars "dd/dd/xx"); fail_if (r =? 0) "link dd/xx/ff dd/dd/xx succeeded!";;
  r ← link (chars "dd/ff") (chars "dd/dd/ffff"); fail_if (r =? 0) "link dd/ff dd/dd/ffff succeeded!";;
  r ← mkdir (chars "dd/ff/ff"); fail_if (r =? 0) "mkdir dd/ff/ff succeeded!";;
  r ← mkdir (chars "dd/xx/ff"); fail_if (r =? 0) "mkdir dd/xx/ff succeeded!";;
  r ← mkdir (chars "dd/dd/ffff"); fail_if (r =? 0) "mkdir dd/dd/ffff succeeded!";;
  r ← unlink (chars "dd/xx/ff"); fail_if (r =? 0) "unlink dd/xx/ff succeeded!";;
  r ← unlink (chars "dd/ff/ff"); fail_if (r =? 0) "unlink dd/ff/ff succeeded!";;
  r ← chdir (chars "dd/ff"); fail_if (r =? 0) "chdir dd/ff succeeded!";;
  r ← chdir (chars "dd/xx"); fail_if (r =? 0) "chdir dd/xx succeeded!";;
  r ← unlink (chars "dd/dd/ffff"); fail_if (negb (r =? 0)) "unlink dd/dd/ff failed";;
  r ← unlink (chars "dd/ff"); fail_if (negb (r =? 0)) "unlink dd/ff failed";;
  r ← unlink (chars "dd"); fail_if (r =? 0) "unlink non-empty dd succeeded!";;
  r ← unlink (chars "dd/dd"); fail_if (r <? 0) "unlink dd/dd failed";;
  r ← unlink (chars "dd"); fail_if (r <? 0) "unlink dd failed";;
  line "subdir ok".

Fixpoint read_bigfile (fuel : nat) (fd i total : Z) : U Z :=
  match fuel with
  | O => fun _ => Stuck "no fuel"
  | S fuel =>
      cc ← read_at fd BUF 300; fail_if (cc <? 0) "read bigfile failed";;
      if cc =? 0 then mret total else
      fail_if (negb (cc =? 300)) "short read bigfile";;
      a ← peek BUF; b ← peek (BUF + 299);
      fail_if (negb (a =? i / 2) || negb (b =? i / 2)) "read bigfile wrong data";;
      read_bigfile fuel fd (i + 1) (total + cc)
  end.
Definition bigfile : U () :=
  line "bigfile test";;
  unlink (chars "bigfile");;
  fd ← open (chars "bigfile") O_CREATE_RDWR; fails (fd <? 0) "cannot create bigfile" [];;
  for_ (seqZ 0 20) (fun i => memset BUF i 600;; r ← write_at fd BUF 600; fail_if (negb (r =? 600)) "write bigfile failed");;
  close fd;;
  fd ← open (chars "bigfile") 0; fail_if (fd <? 0) "cannot open bigfile";;
  total ← read_bigfile 50 fd 0 0;
  close fd;;
  fail_if (negb (total =? 20 * 600)) "read bigfile wrong total";;
  unlink (chars "bigfile");;
  line "bigfile test ok".

Definition fourteen : U () :=
  line "fourteen test";;
  r ← mkdir (chars "12345678901234"); fail_if (negb (r =? 0)) "mkdir 12345678901234 failed";;
  r ← mkdir (chars "12345678901234/123456789012345"); fail_if (negb (r =? 0)) "mkdir 12345678901234/123456789012345 failed";;
  fd ← open (chars "123456789012345/123456789012345/123456789012345") O_CREATE;
  fail_if (fd <? 0) "create 123456789012345/123456789012345/123456789012345 failed";;
  close fd;;
  fd ← open (chars "12345678901234/12345678901234/12345678901234") 0; fail_if (fd <? 0) "open 12345678901234/12345678901234/12345678901234 failed";;
  close fd;;
  r ← mkdir (chars "12345678901234/12345678901234"); fail_if (r =? 0) "mkdir 12345678901234/12345678901234 succeeded!";;
  r ← mkdir (chars "123456789012345/12345678901234"); fail_if (r =? 0) "mkdir 12345678901234/123456789012345 succeeded!";;
  line "fourteen ok".

Definition rmdot : U () :=
  line "rmdot test";;
  r ← mkdir (chars "dots"); fail_if (negb (r =? 0)) "mkdir dots failed";;
  r ← chdir (chars "dots"); fail_if (negb (r =? 0)) "chdir dots failed";;
  r ← unlink (chars "."); fail_if (r =? 0) "rm . worked!";;
  r ← unlink (chars ".."); fail_if (r =? 0) "rm .. worked!";;
  r ← chdir (chars "/"); fail_if (negb (r =? 0)) "chdir / failed";;
  r ← unlink (chars "dots/."); fail_if (r =? 0) "unlink dots/. worked!";;
  r ← unlink (chars "dots/.."); fail_if (r =? 0) "unlink dots/.. worked!";;
  r ← unlink (chars "dots"); fail_if (negb (r =? 0)) "unlink dots failed!";;
  line "rmdot ok".

Definition dirfile : U () :=
  line "dir vs file";;
  fd ← open (chars "dirfile") O_CREATE; fail_if (fd <? 0) "create dirfile failed";;
  close fd;;
  r ← chdir (chars "dirfile"); fail_if (r =? 0) "chdir dirfile succeeded!";;
  fd ← open (chars "dirfile/xx") 0; fail_if (0 <=? fd) "create dirfile/xx succeeded!";;
  fd ← open (chars "dirfile/xx") O_CREATE; fail_if (0 <=? fd) "create dirfile/xx succeeded!";;
  r ← mkdir (chars "dirfile/xx"); fail_if (r =? 0) "mkdir dirfile/xx succeeded!";;
  r ← unlink (chars "dirfile/xx"); fail_if (r =? 0) "unlink dirfile/xx succeeded!";;
  r ← link (chars "README") (chars "dirfile/xx"); fail_if (r =? 0) "link to dirfile/xx succeeded!";;
  r ← unlink (chars "dirfile"); fail_if (negb (r =? 0)) "unlink dirfile failed!";;
  fd ← open (chars ".") O_RDWR; fail_if (0 <=? fd) "open . for writing succeeded!";;
  fd ← open (chars ".") 0;
  r ← write_str fd (chars "x"); fail_if (0 <? r) "write . succeeded!";;
  close fd;;
  line "dir vs file OK".

Definition close_if (fd : Z) : U () := if 0 <=? fd then close fd;; mret () else mret ().
Definition iref : U () :=
  line "empty file name";;
  for_ (seq 0 (50 + 1)) (fun _ =>
    r ← mkdir (chars "irefd"); fail_if (negb (r =? 0)) "mkdir irefd failed";;
    r ← chdir (chars "irefd"); fail_if (negb (r =? 0)) "chdir irefd failed";;
    mkdir [];;
    link (chars "README") [];;
    fd ← open [] O_CREATE; close_if fd;;
    fd ← open (chars "xx") O_CREATE; close_if fd;;
    unlink (chars "xx");;
    mret ());;
  chdir (chars "/");;
  line "empty file name OK".

(** [sbrk(0)] is the size. *)
Definition argptest : U () :=
  fd ← open (chars "init") O_RDONLY; (if fd <? 0 then print 2 ("open failed" ++ newline) [];; exit else mret ());;
  read_at fd (SIZE - 1) (-1);;
  close fd;;
  line "arg test passed".

(** In the order of [main]. *)
Definition tests : U () :=
  argptest;; opentest;; writetest;; exitiputtest;; iputtest;; exitwait;; rmdot;; fourteen;; bigfile;; subdir;; linktest;; unlinkread;; dirfile;; iref;; dirtest.

(** ** On a new image *)

(** The files the tests use. *)
Definition image_files : given := [(chars "_echo", [[127; 69]; [76; 70]]); (chars "_init", [[127; 69; 76; 70]]); (chars "README", [chars "xv6"])].

Definition ok_messages : list string :=
  ["arg test passed"; "open test"; "open test ok"; "small file test"; "creat small succeeded; ok"; "writes ok"; "open small succeeded ok"; "read succeeded ok"; "small file test ok";
   "exitiput test"; "exitiput test ok"; "iput test"; "iput test ok"; "exitwait ok"; "rmdot test"; "rmdot ok";
   "fourteen test"; "fourteen ok"; "bigfile test"; "bigfile test ok"; "subdir test"; "subdir ok"; "linktest"; "linktest ok"; "unlinkread test"; "unlinkread ok"; "dir vs file"; "dir vs file OK";
   "empty file name"; "empty file name OK"; "mkdir test"; "mkdir test ok"].

(** How many descriptors and directories refer to the files and the inodes in the
    tables. *)
Definition file_refs (s : ust) : list Z := filter (.≠ 0) (fi_ref <$> k_files (p_k (t_k s))).
Definition inode_refs (s : ust) : list (Z * Z) := (fun ip => (i_inum ip, i_ref ip)) <$> filter (fun ip => i_ref ip ≠ 0) (f_icache (k_fs (p_k (t_k s)))).

(** *** Running them *)

Definition outcome_of (r : option (ran ())) : option (list Z * list Z * list (Z * Z)) :=
  match r with Some (Goes _ s) => Some (t_text s, file_refs s, inode_refs s) | _ => None end.

Lemma tests_run : outcome_of ((init_main;; tests) <$> first_process image_files) = Some (text_of_lines ok_messages, [3], [(1, 1); (5, 1)]).
Proof. vm_compute. reflexivity. Qed.

