(* ===== verification/Utils.v ===== *)
(** * Programs on the file system ([ls.c], [mkdir.c], [rm.c], [ln.c], [stat] of [ulib.c]) *)

From S2P Require Import Prelude Mmu Strings Bytes Fs FsPath File Sysfile MkfsMain Console Tools Umode.

(** ** The programs *)

(** [stat]: the file is opened to look at it. *)
Definition stat_ (n : list Z) : U (Z * option stat) :=
  fd ← open n O_RDONLY;
  if fd <? 0 then mret (-1, None) else
  r ← fstat fd;
  close fd;;
  mret r.

(** [fmtname]: what follows the last slash, padded with blanks to [DIRSIZ]. *)
Fixpoint last_name (path name : list Z) : list Z :=
  match path with [] => name | c :: path => if c =? 47 then last_name path path else last_name path name end.
Definition fmtname (path : list Z) : list Z :=
  let p := last_name path path in
  if (DIRSIZ <=? length p)%nat then p else p ++ replicate (DIRSIZ - length p) 32.

Definition stat_line (path : list Z) (st : stat) : U () :=
  print 1 ("%s %d %d %d" ++ newline) [Str (fmtname path); Num (st_type st); Num (st_ino st); Num (st_size st)].

(** The characters before the NUL. *)
Fixpoint cstring (l : list Z) : list Z := match l with [] => [] | c :: l => if c =? 0 then [] else c :: cstring l end.

(** The loop over the entries; [buf] is the directory's path with a slash. *)
Fixpoint ls_loop (fuel : nat) (fd : Z) (buf : list Z) : U () :=
  match fuel with
  | O => fun _ => Stuck "no fuel"
  | S fuel =>
      n ← read_at fd BUF 16;
      if negb (n =? 16) then mret () else
      de ← (fun s => Goes ((fun k => load (BUF + k) (t_ram s)) <$> seqZ 0 16) s);
      (if de_inum de =? 0 then mret () else
       let name := buf ++ cstring (de_name de) in
       r ← stat_ name;
       match r with
       | (0, Some st) => stat_line name st
       | _ => print 1 ("ls: cannot stat %s" ++ newline) [Str name]
       end);;
      ls_loop fuel fd buf
  end.

Definition ls (path : list Z) : U () :=
  fd ← open path 0;
  if fd <? 0 then print 2 ("ls: cannot open %s" ++ newline) [Str path] else
  r ← fstat fd;
  (match r with
   | (0, Some st) =>
       if st_type st =? T_FILE then stat_line path st else
       if st_type st =? T_DIR then
         if (512 <? length path + 1 + DIRSIZ + 1)%nat then print 1 ("ls: path too long" ++ newline) []
         else ls_loop (S (Z.to_nat (st_size st / 16))) fd (path ++ [47])
       else mret ()
   | _ => print 2 ("ls: cannot stat %s" ++ newline) [Str path]
   end);;
  close fd;;
  mret ().

(** [main]s; [args] are the arguments after the program's name. *)
Definition ls_main (args : list (list Z)) : U () := match args with [] => ls [46] | _ => for_ args ls end;; exit.
(** [for(...) if(f(argv[i]) < 0){ printf(...); break; }] *)
Fixpoint each_or_stop (f : list Z -> U Z) (fmt : string) (args : list (list Z)) : U () :=
  match args with
  | [] => mret ()
  | a :: args => r ← f a; if r <? 0 then print 2 fmt [Str a] else each_or_stop f fmt args
  end.
Definition mkdir_main (args : list (list Z)) : U () :=
  match args with [] => print 2 ("Usage: mkdir files..." ++ newline) [] | _ => each_or_stop mkdir ("mkdir: %s failed to create" ++ newline) args end;; exit.
Definition rm_main (args : list (list Z)) : U () :=
  match args with [] => print 2 ("Usage: rm files..." ++ newline) [] | _ => each_or_stop unlink ("rm: %s failed to delete" ++ newline) args end;; exit.
Definition ln_main (args : list (list Z)) : U () :=
  match args with
  | [old; new] => r ← link old new; if r <? 0 then print 2 ("link %s %s: failed" ++ newline) [Str old; Str new] else mret ()
  | _ => print 2 ("Usage: ln old new" ++ newline) []
  end;; exit.

(** ** [fmtname] *)

Lemma last_name_split dir name : forall d, 47 ∉ name -> last_name (dir ++ 47 :: name) d = name.
Proof.
  assert (forall l d, 47 ∉ l -> last_name l d = d) as Hno.
  { induction l as [|c l IH]; intros d Hl; [done|]. apply not_elem_of_cons in Hl as [Hc Hl]. cbn. by rewrite (proj2 (Z.eqb_neq c 47)), IH by auto. }
  induction dir as [|c dir IH]; intros d Hn; cbn.
  - by apply Hno.
  - destruct (c =? 47); by apply IH.
Qed.

(** A line of [ls] starts with the last element of the path, in a column of
    [DIRSIZ] characters when it is shorter. *)
Lemma fmtname_column dir name : 47 ∉ name -> take (length name) (fmtname (dir ++ 47 :: name)) = name /\
  length (fmtname (dir ++ 47 :: name)) = Nat.max DIRSIZ (length name) /\ Forall (eq 32) (drop (length name) (fmtname (dir ++ 47 :: name))).
Proof.
  intros Hn. unfold fmtname. rewrite last_name_split by done. destruct (Nat.leb_spec DIRSIZ (length name)).
  - rewrite firstn_all, skipn_all. split; [done|]. split; [lia|constructor].
  - rewrite take_app_length, drop_app_length, length_app, length_replicate. split; [done|]. split; [lia|]. apply Forall_replicate. done.
Qed.

(** ** A session *)

(** One command after the other, as the shell runs them: each ends with [exit]. *)
Definition then_ (p q : U ()) : U () := fun s => match p s with Ended s => q s | r => r end.
Definition session : U () := init_main;;
  foldr then_ exit [mkdir_main [chars "d"]; ln_main [chars "README"; chars "d/copy"]; mkdir_main []; rm_main [chars "README"; chars "nothing"]; ls_main []; ls_main [chars "d"]; rm_main [chars "d"]].

Lemma session_text : match session <$> first_process [(chars "_cat", [[127; 69; 76; 70]]); (chars "README", [chars "xv6"])] with Some (Ended s) => t_text s | _ => [] end =
  text_of_lines ["Usage: mkdir files..."; "rm: nothing failed to delete";
    ".              1 1 512"; "..             1 1 512"; "cat            2 2 4"; "console        3 4 0"; "d              1 5 48";
    ".              1 5 48"; "..             1 1 512"; "copy           2 3 3"; "rm: d failed to delete"].
Proof. vm_compute. reflexivity. Qed.
