(* ===== verification/Uart.v ===== *)
(** * The serial port ([uart.c])

    The 8250 as the driver sees it: a transmitter that is busy for a while after
    each byte, a queue of received bytes, and the registers that set its speed. *)

From S2P Require Import Prelude Console.

Definition COM1 : Z := 0x3f8.

(** Is there a chip; how many more looks at the status show the transmitter busy;
    the bytes sent and the bytes received; divisor, line control and interrupt
    enable; and the driver's [uart].  A byte written while the transmitter is busy
    is lost. *)
Record serial := Serial {
  u_chip : bool; u_busy : nat; u_sent : list Z; u_received : list Z; u_divisor : Z; u_lcr : Z; u_ier : Z; u_uart : bool }.

Section uart.
(** How many looks at the status the transmitter takes for a byte. *)
Context (latency : nat).

Definition outb (port v : Z) : M serial () := fun '(Serial chip busy sent received div lcr ier uart as s) =>
  if negb chip then Ok () s else
  let dlab := has lcr 0x80 in
  if port =? COM1 + 0 then
    if dlab then Ok () (Serial chip busy sent received (div / 256 * 256 + v mod 256) lcr ier uart)
    else Ok () (Serial chip latency (match busy with O => sent ++ [v mod 256] | _ => sent end) received div lcr ier uart)
  else if port =? COM1 + 1 then
    if dlab then Ok () (Serial chip busy sent received (v mod 256 * 256 + div mod 256) lcr ier uart)
    else Ok () (Serial chip busy sent received div lcr (v mod 256) uart)
  else if port =? COM1 + 3 then Ok () (Serial chip busy sent received div (v mod 256) ier uart)
  else Ok () s.

Definition inb (port : Z) : M serial Z := fun '(Serial chip busy sent received div lcr ier uart as s) =>
  if negb chip then Ok 0xFF s else
  if port =? COM1 + 5 then
    Ok ((match busy with O => 0x20 | _ => 0 end) + (match received with [] => 0 | _ => 1 end)) (Serial chip (pred busy) sent received div lcr ier uart)
  else if port =? COM1 + 0 then
    match received with [] => Ok 0 s | c :: cs => Ok c (Serial chip busy sent cs div lcr ier uart) end
  else Ok 0 s.

(** [for(i = 0; i < 128 && !(inb(COM1+5) & 0x20); i++)] with [n] rounds left. *)
Fixpoint wait_ready (n : nat) : M serial () :=
  match n with O => mret () | S n => v ← inb (COM1 + 5); if has v 0x20 then mret () else wait_ready n end.

Definition uartputc (c : Z) : M serial () :=
  s ← get;
  if negb (u_uart s) then mret () else
  wait_ready 128;;
  outb (COM1 + 0) c.

Definition uartgetc : M serial Z :=
  s ← get;
  if negb (u_uart s) then mret (-1) else
  v ← inb (COM1 + 5);
  if negb (has v 0x01) then mret (-1) else inb (COM1 + 0).

Definition announcement : list Z := [120; 118; 54; 46; 46; 46; 10].
Definition set_uart (s : serial) : serial :=
  Serial (u_chip s) (u_busy s) (u_sent s) (u_received s) (u_divisor s) (u_lcr s) (u_ier s) true.

(** Enabling the line at the I/O APIC is [ioapicenable]. *)
Definition uartinit : M serial () :=
  outb (COM1 + 2) 0;;
  outb (COM1 + 3) 0x80;;
  outb (COM1 + 0) (115200 / 9600);;
  outb (COM1 + 1) 0;;
  outb (COM1 + 3) 0x03;;
  outb (COM1 + 4) 0;;
  outb (COM1 + 1) 0x01;;
  v ← inb (COM1 + 5);
  if v =? 0xFF then mret () else
  modify set_uart;;
  _ ← inb (COM1 + 2);
  _ ← inb (COM1 + 0);
  forM announcement uartputc.

(** [while((c = getc()) >= 0)] of [consoleintr], with fuel. *)
Fixpoint uart_drain (fuel : nat) : M serial (list Z) :=
  match fuel with
  | O => nofuel
  | S fuel => c ← uartgetc; if c <? 0 then mret [] else cs ← uart_drain fuel; mret (c :: cs)
  end.
Definition uartintr (fuel : nat) (s : input) : M serial input := cs ← uart_drain fuel; mret (consoleintr cs s).1.1.

(** ** What it does *)

Implicit Types s : serial.

Record serial_ok s : Prop := { so_chip : u_chip s = true; so_uart : u_uart s = true; so_lcr : has (u_lcr s) 0x80 = false }.

Lemma wait_ready_run n s : u_chip s = true -> (u_busy s < n)%nat ->
  wait_ready n s = Ok () (Serial true 0 (u_sent s) (u_received s) (u_divisor s) (u_lcr s) (u_ier s) (u_uart s)).
Proof.
  revert s. induction n as [|n IH]; intros [chip busy sent received div lcr ier uart] Hc Hb; [lia|]. cbn in Hc, Hb. subst chip. cbn [wait_ready].
  destruct busy as [|busy].
  - unfold mbind, M_bind, bindM. cbn. by destruct received.
  - destruct received as [|c received]; [apply (IH (Serial true busy sent [] div lcr ier uart))|apply (IH (Serial true busy sent (c :: received) div lcr ier uart))]; (done || cbn; lia).
Qed.

Lemma uartputc_run c s : serial_ok s -> (u_busy s < 128)%nat ->
  uartputc c s = Ok () (Serial true latency (u_sent s ++ [c mod 256]) (u_received s) (u_divisor s) (u_lcr s) (u_ier s) true).
Proof.
  intros [Hc Hu Hl] Hb. unfold uartputc. rewrite (Ok_bind get _ s s s) by done. rewrite Hu. cbn [negb]. rewrite (Ok_bind _ _ _ _ _ (wait_ready_run 128 s Hc Hb)).
  cbn. rewrite Hl, Hu. done.
Qed.

(** A transmitter that is done within the 128 looks gets every byte, in order. *)
Lemma uart_sends bs s : serial_ok s -> (latency < 128)%nat -> (u_busy s < 128)%nat ->
  exists s', forM bs uartputc s = Ok () s' /\ serial_ok s' /\ u_sent s' = u_sent s ++ ((fun c => c mod 256) <$> bs) /\
    u_received s' = u_received s /\ u_divisor s' = u_divisor s /\ u_lcr s' = u_lcr s /\ u_ier s' = u_ier s.
Proof.
  intros Hs Hl. revert s Hs. induction bs as [|c bs IH]; intros s Hs Hb; [exists s; by rewrite app_nil_r|]. cbn [forM]. rewrite (Ok_bind _ _ _ _ _ (uartputc_run c s Hs Hb)).
  destruct (IH (Serial true latency (u_sent s ++ [c mod 256]) (u_received s) (u_divisor s) (u_lcr s) (u_ier s) true)) as (s' & E & Hs' & Hsent & Hr); [by destruct Hs|cbn; lia|].
  exists s'. split; [exact E|]. split; [done|]. split; [|done]. rewrite Hsent. cbn. by rewrite <- app_assoc.
Qed.

(** After [uartinit] the port runs at 9600 baud with eight data bits and receive
    interrupts, and has announced the kernel. *)
Lemma uartinit_ready s : u_chip s = true -> u_busy s = O -> u_received s = [] -> (latency < 128)%nat -> 0 <= u_divisor s < 65536 ->
  exists s', uartinit s = Ok () s' /\ serial_ok s' /\ u_divisor s' = 12 /\ u_lcr s' = 3 /\ u_ier s' = 1 /\ u_sent s' = u_sent s ++ announcement.
Proof.
  intros Hc Hb Hr Hl Hd. destruct s as [chip busy sent received div lcr ier uart]. cbn in Hc, Hb, Hr, Hd |- *. subst chip busy received.
  set (s1 := Serial true 0 sent [] 12 3 1 true). destruct (uart_sends announcement s1) as (s' & E & H1 & H2 & _ & H3 & H4 & H5); [done|done|cbn; lia|].
  exists s'. split; [|by rewrite H3, H4, H5, H2]. rewrite <- E.
  assert (forall v, outb (COM1 + 2) v (Serial true 0 sent [] div lcr ier uart) = Ok () (Serial true 0 sent [] div lcr ier uart)) as E1 by done.
  unfold uartinit. rewrite (Ok_bind _ _ _ _ _ (E1 0)). erewrite Ok_bind by reflexivity. change (0x80 mod 256) with 0x80.
  erewrite Ok_bind by reflexivity. erewrite Ok_bind by reflexivity. erewrite Ok_bind by reflexivity. erewrite Ok_bind by reflexivity. erewrite Ok_bind by reflexivity.
  erewrite (Ok_bind (inb _)) by reflexivity. match goal with |- (if ?b then _ else _) _ = _ => change b with false end. cbv iota. erewrite Ok_bind by reflexivity. erewrite (Ok_bind (inb _)) by reflexivity. erewrite (Ok_bind (inb _)) by reflexivity.
  unfold s1, set_uart. cbn [u_chip u_busy u_sent u_received u_divisor u_lcr u_ier]. do 2 f_equal. change (115200 / 9600 mod 256) with 12. change (0 mod 256) with 0. ulia.
Qed.

(** Everything that has come in goes to the line editor. *)
Lemma uart_drain_run fuel s : serial_ok s -> Forall (fun c => 0 <= c) (u_received s) -> (length (u_received s) < fuel)%nat ->
  exists s', uart_drain fuel s = Ok (u_received s) s' /\ u_received s' = [] /\ u_sent s' = u_sent s.
Proof.
  revert s. induction fuel as [|fuel IH]; intros [chip busy sent received div lcr ier uart] [Hc Hu Hl] Hp Hf; cbn in Hc, Hu, Hl, Hp, Hf |- *; [lia|]. subst chip uart.
  cbn [uart_drain]. destruct received as [|c received].
  - assert (uartgetc (Serial true busy sent [] div lcr ier true) = Ok (-1) (Serial true (pred busy) sent [] div lcr ier true)) as E by (by destruct busy).
    rewrite (Ok_bind _ _ _ _ _ E). by eexists.
  - apply Forall_cons in Hp as [Hc Hp]. cbn [length] in Hf.
    assert (uartgetc (Serial true busy sent (c :: received) div lcr ier true) = Ok c (Serial true (pred busy) sent received div lcr ier true)) as E by (by destruct busy).
    destruct (IH (Serial true (pred busy) sent received div lcr ier true)) as (s' & E' & H1 & H2); [done|done|cbn; lia|].
    exists s'. split; [|done]. rewrite (Ok_bind _ _ _ _ _ E), (proj2 (Z.ltb_ge c 0)) by lia. by rewrite (Ok_bind _ _ _ _ _ E').
Qed.

Lemma uartintr_edits fuel s inp : serial_ok s -> Forall (fun c => 0 <= c) (u_received s) -> (length (u_received s) < fuel)%nat ->
  exists s', uartintr fuel inp s = Ok (consoleintr (u_received s) inp).1.1 s' /\ u_received s' = [].
Proof.
  intros Hs Hp Hf. destruct (uart_drain_run fuel s Hs Hp Hf) as (s' & E & H1 & _). exists s'. split; [|done]. unfold uartintr. by rewrite (Ok_bind _ _ _ _ _ E).
Qed.
End uart.
