(* ===== verification/Callers.v ===== *)
(** * Where a processor is: [getcallerpcs] of [spinlock.c], [mycpu] of [proc.c]

    The chain of stack frames that is recorded in a lock and printed by [panic],
    and the entry of [cpus] that belongs to the processor that asks. *)

From S2P Require Import Prelude Mmu Seg.

(** ** The call stack *)

Section callers.
(** Memory by words. *)
Context (mem : Z -> Z).

Definition stops (ebp : Z) : bool := (ebp =? 0) || (ebp <? KERNBASE) || (ebp =? 0xffffffff).
Fixpoint follow (n : nat) (ebp : Z) : list Z :=
  match n with
  | O => []
  | S n => if stops ebp then replicate (S n) 0 else mem (u32 (ebp + 4)) :: follow n (mem ebp)
  end.
Definition getcallerpcs (v : Z) : list Z := follow 10 (u32 (v - 8)).

(** The frames of the functions that have been called, the innermost first: where
    the saved [%ebp] is and the return address above it. *)
Fixpoint frames (ebp : Z) (l : list (Z * Z)) (last : Z) : Prop :=
  match l with
  | [] => ebp = last
  | (at_, eip) :: l => ebp = at_ /\ stops at_ = false /\ mem (u32 (at_ + 4)) = eip /\ frames (mem at_) l last
  end.

Lemma follow_frames n : forall ebp l last, frames ebp l last -> stops last = true ->
  follow n ebp = take n (l.*2) ++ replicate (n - length l) 0.
Proof.
  induction n as [|n IH]; intros ebp [|[at_ eip] l] last Hf Hs; cbn [follow frames] in *; try done.
  - by rewrite Hf, Hs.
  - destruct Hf as (-> & -> & -> & Hf). cbn. by rewrite (IH _ _ _ Hf Hs).
Qed.

(** [getcallerpcs], given the address of its caller's first argument, returns the
    return addresses of the innermost ten calls, and zeros when there are fewer. *)
Lemma getcallerpcs_calls v l last : frames (u32 (v - 8)) l last -> stops last = true ->
  getcallerpcs v = take 10 (l.*2) ++ replicate (10 - length l) 0.
Proof. apply follow_frames. Qed.
End callers.

(** ** The processor *)

(** [cpus] is given by their APIC ids. *)
Definition mycpu (apicids : list Z) (eflags apicid : Z) : M () nat :=
  if has eflags FL_IF then panic "mycpu called with interrupts enabled" else
  match find_index (fun a => a =? apicid) apicids with Some i => mret i | None => panic "unknown apicid" end.
Definition cpuid (apicids : list Z) (eflags apicid : Z) : M () Z := i ← mycpu apicids eflags apicid; mret (Z.of_nat i).

(** A processor with interrupts off finds its own entry. *)
Lemma mycpu_own apicids i a eflags : NoDup apicids -> apicids !! i = Some a -> has eflags FL_IF = false -> mycpu apicids eflags a () = Ok i ().
Proof.
  intros Hn Hi He. unfold mycpu. rewrite He. assert (find_index (fun b => b =? a) apicids = Some i) as ->; [|done]. apply find_index_Some. split.
  - exists a. split; [done|apply Z.eqb_refl].
  - intros j b Hj Hb. apply Z.eqb_neq. intros ->. assert (j = i) by (by eapply NoDup_lookup). lia.
Qed.
