(* ===== verification/Initcode.v ===== *)
(** * The first program ([initcode.S])

    It runs at address 0 with an empty stack at the top of its page, as [userinit]
    arranges, and asks the kernel to run [/init]. *)

From S2P Require Import Prelude Mmu Strings Bytes Vm Syscall Exec Entry.

Section initcode.
(** The linker's addresses of the string and of the vector, and the page. *)
Context (init argv : Z) (page : Z -> Z).
Context (init_ok : 0 < init) (init_end : init + 6 <= argv) (argv_end : argv + 8 <= PGSIZE - 12).
Context (page_init : forall k c, [47; 105; 110; 105; 116; 0] !! k = Some c -> page (init + Z.of_nat k) = c).
Context (page_argv : word_at page argv = init /\ word_at page (argv + 4) = 0).

(** [pushl $argv; pushl $init; pushl $0; movl $SYS_exec, %eax; int $T_SYSCALL]: the
    words are stored below the top of the page. *)
Definition put_word (a v : Z) (m : Z -> Z) : Z -> Z := fun b =>
  if b =? a then v mod 256 else if b =? a + 1 then v / 256 mod 256 else if b =? a + 2 then v / 65536 mod 256 else if b =? a + 3 then v / 16777216 mod 256 else m b.
Definition pushl (v : Z) '((esp, m) : Z * (Z -> Z)) : Z * (Z -> Z) := (esp - 4, put_word (esp - 4) v m).
Definition initcode : user :=
  let '(esp, m) := pushl 0 (pushl init (pushl argv (tf_esp init_tf, page))) in User PGSIZE esp 7 m.

Lemma put_word_other a v m b : b < a \/ a + 4 <= b -> put_word a v m b = m b.
Proof. intros Hb. unfold put_word. by rewrite !(proj2 (Z.eqb_neq b _)) by lia. Qed.

Lemma put_word_at a v m : is_u32 v -> word_at (put_word a v m) a = v.
Proof.
  intros Hv. unfold word_at, put_word. rewrite Z.eqb_refl, !(proj2 (Z.eqb_neq (a + 1) _)), !(proj2 (Z.eqb_neq (a + 2) _)), !(proj2 (Z.eqb_neq (a + 3) _)), !Z.eqb_refl by lia.
  unfold is_u32, two32 in Hv. ulia.
Qed.

Lemma put_word_word a v m b : b + 4 <= a \/ a + 4 <= b -> word_at (put_word a v m) b = word_at m b.
Proof. intros Hb. unfold word_at. by rewrite !put_word_other by lia. Qed.

Lemma scan_chars l : forall n m a, (length l < n)%nat -> Forall (fun c => c <> 0) l -> (forall k c, (l ++ [0]) !! k = Some c -> m (a + Z.of_nat k) = c) ->
  scan_string n m a = Some l.
Proof.
  induction l as [|c l IH]; intros [|n] m a Hn Hl Hm; cbn in Hn; try lia; cbn [scan_string].
  - pose proof (Hm 0%nat 0 eq_refl) as H0. rewrite Z.add_0_r in H0. by rewrite H0.
  - apply Forall_cons in Hl as [Hc Hl]. pose proof (Hm 0%nat c eq_refl) as H0. rewrite Z.add_0_r in H0. rewrite H0, (proj2 (Z.eqb_neq c 0) Hc), (IH n m (a + 1)); [done|lia|done|].
    intros k d Hk. rewrite <- (Hm (S k) d Hk). f_equal. lia.
Qed.

(** [exec("/init", {"/init", 0})]. *)
Lemma initcode_args : argstr initcode 0 = Some [47; 105; 110; 105; 116] /\ argint initcode 1 = Some argv /\ fetch_argv (Z.to_nat MAXARG) initcode argv = Some [[47; 105; 110; 105; 116]].
Proof.
  set (m := put_word 4084 0 (put_word 4088 init (put_word 4092 argv page))). assert (initcode = User 4096 4084 7 m) as -> by done.
  assert (forall b, b < 4084 -> m b = page b) as Hlow by (intros b Hb; unfold m; rewrite !put_word_other by lia; done).
  assert (forall b, 0 <= b -> b + 4 <= 4084 -> fetchint (User 4096 4084 7 m) b = Some (s32 (word_at page b))) as Hint.
  { intros b H0 Hb. unfold fetchint. cbn [u_sz u_mem]. assert (u32 (b + 4) = b + 4) as -> by ulia. rewrite (proj2 (Z.leb_gt 4096 b)), (proj2 (Z.ltb_ge 4096 (b + 4))) by lia. cbn [orb]. do 2 f_equal. unfold word_at. by rewrite !Hlow by lia. }
  unfold PGSIZE in *. assert (fetchstr (User 4096 4084 7 m) init = Some [47; 105; 110; 105; 116]) as Hstr.
  { unfold fetchstr. cbn [u_sz u_mem]. rewrite (proj2 (Z.leb_gt 4096 init)) by lia. apply scan_chars; [cbn; lia|by repeat constructor|].
    intros k c Hk. rewrite Hlow; [by apply page_init|]. apply lookup_lt_Some in Hk. cbn in Hk. lia. }
  assert (word_at m 4088 = init /\ word_at m 4092 = argv) as [W1 W2].
  { unfold m. rewrite put_word_word, put_word_at, put_word_word, put_word_word, put_word_at by (unfold is_u32, two32; lia). done. }
  assert (s32 init = init /\ s32 argv = argv /\ u32 init = init /\ u32 argv = argv /\ u32 (argv + 4) = argv + 4) as (S1 & S2 & U1 & U2 & U3) by (rewrite !s32_small by (unfold is_s32; lia); ulia).
  assert (argint (User 4096 4084 7 m) 0 = Some init) as A0 by (unfold argint, fetchint; cbn [u_sz u_esp u_mem]; change (u32 (4084 + 4 + 4 * 0)) with 4088; by rewrite W1, S1).
  assert (argint (User 4096 4084 7 m) 1 = Some argv) as A1 by (unfold argint, fetchint; cbn [u_sz u_esp u_mem]; change (u32 (4084 + 4 + 4 * 1)) with 4092; by rewrite W2, S2).
  split; [unfold argstr; rewrite A0; cbn [mbind option_bind]; by rewrite U1|]. split; [exact A1|].
  destruct page_argv as [P1 P2]. change (Z.to_nat MAXARG) with 32%nat. cbn [fetch_argv]. rewrite (Hint argv), P1, S1 by lia. cbn [mbind option_bind].
  rewrite (proj2 (Z.eqb_neq init 0)), U1, Hstr, U3, (Hint (argv + 4)), P2 by lia. done.
Qed.
End initcode.

(** So the first system call of the first process runs [/init] with its own name as
    the only argument. *)
Lemma initcode_execs {F} `{SwapFile F} devsw end_ data pol cwd init argv page : 0 < init -> init + 6 <= argv -> argv + 8 <= PGSIZE - 12 ->
  (forall k c, [47; 105; 110; 105; 116; 0] !! k = Some c -> page (init + Z.of_nat k) = c) -> word_at page argv = init -> word_at page (argv + 4) = 0 ->
  sys_exec (F := F) end_ data pol devsw cwd (initcode init argv page) = exec end_ data pol devsw cwd [47; 105; 110; 105; 116] [[47; 105; 110; 105; 116]].
Proof.
  intros H1 H2 H3 H4 H5 H6. destruct (initcode_args init argv page H1 H2 H3 H4 (conj H5 H6)) as (E1 & E2 & E3). unfold sys_exec. rewrite E1, E2.
  assert (u32 argv = argv) as -> by (unfold PGSIZE in *; ulia). by rewrite E3.
Qed.
